(* ===== verification/_CoqProject ===== *)
-Q . S2P
Prelude.v
JsString.v
JsNum.v
JsInt.v
JsText.v
JsDiv.v
JsBounds.v
JsOrder.v
JsSort.v
JsValue.v
JsDate.v
WebUrl.v
JsUri.v
HttpRouting.v
RuntimeTelemetry.v
JobTypes.v
SharedSocket.v
SharedSocketSpec.v
ComponentRules.v
Clusters.v
Architecture.v
TaskRoutes.v
JobUtils.v
JobEta.v
JobUtilsSpec.v
Runbook.v
RuntimeChart.v
DiagnosticsTypes.v
Diagnostics.v
Samples.v
DiagnosticsSpec.v
History.v
Recovery.v
TelemetryInputs.v
TelemetryErrors.v
TelemetryProxies.v
TelemetrySampling.v
TelemetryRates.v
TelemetryTimeline.v
TelemetryCapacity.v
TelemetryOccupancy.v
TelemetryAdvice.v
TelemetrySummary.v
Telemetry.v
JsObject.v
AuthImport.v
AuthImportSpec.v
AuthNormalizeSpec.v
PluginHost.v
PluginHostSpec.v
InstallRun.v
PluginClient.v
Favourites.v
ProxyImport.v
SettingsMerge.v
SettingsEdit.v
SettingsEditSpec.v
SettingsRows.v
DriveInventory.v
DriveInventorySpec.v
FleetRegister.v
Storage.v
Users.v
WebhookStream.v
Webhooks.v
ProxyAnalyzer.v
ProxyAnalyzerSpec.v
NetworkPage.v
NetworkPageSpec.v
Preferences.v
PageAddress.v
SubscriptionsPage.v
UsersPage.v
UserProfile.v
JobCreator.v
Dashboard.v
DashboardPulse.v
DownloadFlows.v
AdaptiveBatch.v
