(* ===== verification/Prelude.v ===== *)
(** * UltimaScraper WebUI: a verification library for its client-side logic

    The WebUI ([src/UltimaScraperWeb/webui/src], TypeScript) shows and controls
    the jobs, connections and nodes of UltimaScraper backends. Its pages are
    React; what they compute is in plain functions and one class, and that is
    what this library models and proves.

    ** Layout

    Support, shared by all components:
    - [Prelude]: optional chaining, searches, insertion-ordered maps ([JMap]);
    - [JsString], [JsUri]: strings, splitting, trimming, URI components;
    - [JsNum], [JsInt], [JsDiv], [JsBounds], [JsOrder]: IEEE doubles and their
      exactness on integers, floored division, signs and bounds, order;
    - [JsText]: numbers as text, sets of texts, [parseFloat];
    - [JsSort]: the stable sort by a comparator, with its laws;
    - [JsObject]: the order of an object's own properties, strings in JSON text;
    - [JsValue], [JsDate], [WebUrl]: JSON values, dates, the browser's [URL].

    Components (file under [webui/src]: Rocq file):
    - [hooks/useWebSocket.ts]: [SharedSocket] (state machine and its lemmas) and
      [SharedSocketSpec] (its properties);
    - [features/setup-wizard/lib]: [ComponentRules] ([componentRules.ts]),
      [Architecture] ([architecturePlan.ts]);
    - [features/connections/lib]: [Clusters] ([clusterView.ts],
      [lastConnection.ts]);
    - [api/http.ts], [api/media.ts]: [HttpRouting];
    - [api/types/jobs.ts], [api/types/network.ts]: [RuntimeTelemetry], [JobTypes];
    - [features/jobs/lib]: [TaskRoutes] ([taskProxyUtils.ts]), [JobUtils]
      ([jobUtils.ts], [jobLiveRefresh.ts]), [JobEta] ([jobEta.ts]), [Runbook]
      ([runbookModel.ts]), [RuntimeChart] ([diagnosticsChartUtils.ts]),
      [DiagnosticsTypes] ([jobDiagnosticsTypes.ts]), [Diagnostics]
      ([jobDiagnosticsAnalysis.ts]), [History] ([historicalComparison.ts]),
      [Recovery] ([jobRecoveryCatalog.ts]);
    - [features/jobs/lib/useJobDiagnosticsTelemetry.ts], one file per stage of the
      hook: [TelemetryInputs] (arguments, counters, capacity), [TelemetryErrors]
      (response counts), [TelemetryProxies] (proxy anomalies),
      [TelemetrySampling] (the sampling effect on the hook's refs and history),
      [TelemetryRates] (throughput and error velocity), [TelemetryTimeline] (the
      timeline rebuilt from task dates), [TelemetryCapacity],
      [TelemetryOccupancy], [TelemetryAdvice], [TelemetrySummary] (the final
      report) and [Telemetry] (what the hook returns, feeding [Diagnostics]).
    - [features/auths/lib/authsUtils.ts]: [AuthImport] (the parser of pasted
      credentials and the JSON they are rewritten to), [AuthImportSpec] (the
      parser), [AuthNormalizeSpec] (the rewriting);
    - [features/plugins/lib]: [PluginHost] ([pluginHost.ts], the registry of
      plugins), [PluginClient] ([pluginClient.ts], their calls and tokens; its
      keys are [HttpRouting]'s connections and its steps remove tokens with
      [PluginHost]'s map operations);
    - [features/favourites/favouritesCache.ts], [api/favourites.ts]: [Favourites];
    - [features/connections/lib/useInstallRun.ts]: [InstallRun];
    - [features/network]: [ProxyImport] ([lib/proxyParser.ts]), over [WebUrl];
      [ProxyAnalyzer] (the stream of [analyzeProxyLevel] in [api/network.ts], the
      search for the best settings of a proxy in
      [hooks/useNetworkPageController.ts] and [lib/networkUtils.ts]);
      [NetworkPage] (the rest of that hook, over [ProxyAnalyzer]);
    - [features/settings]: [SettingsMerge] ([lib/settingsUtils.ts]), [SettingsEdit]
      (the edits, saves and conflicts of [hooks/useSettingsPageController.ts]),
      [SettingsRows] (its database section; the hook is mounted by no page of this
      version) and [Preferences] ([hooks/useWebUIPreferences.ts] over
      [shared/lib/browserStorage.ts]);
    - [features/system]: [DriveInventory] ([lib/systemUtils.ts]), [FleetRegister]
      ([systemFleetRegisterData.ts]), [Storage] ([lib/storagePool.ts],
      [lib/architectureStorage.ts]), [DownloadFlows] ([lib/downloadFlows.ts]);
    - [features/users], [features/user-profile]: [Users] (filters, identities,
      loadouts, times; also [favouriteFilters.ts] and the download limits);
    - [features/subscriptions/hooks/useSubscriptionsPageController.ts]:
      [SubscriptionsPage], and [features/users/hooks/useUsersPageController.ts] with
      its page: [UsersPage]; what they share, over [Users]' loadouts: [PageAddress];
      [features/user-profile/hooks/useUserProfileController.ts], over
      [SubscriptionsPage]: [UserProfile];
    - [features/dashboard]: [Dashboard] ([lib/dashboardUtils.ts],
      [lib/dashboardChartUtils.ts]) and [DashboardPulse] ([SystemPulseDashboard.tsx],
      over [Dashboard]); [features/tools/lib/mpsAdaptiveBatch.ts]: [AdaptiveBatch];
    - [components/jobs/JobCreator.tsx] with the editing of a job in
      [features/jobs/components/JobDetailsModal.tsx]: [JobCreator], over [JobUtils];
    - [hooks/useWebhookStream.tsx]: [WebhookStream]; [features/webhooks]: [Webhooks]
      (its filter reads [WebhookStream]'s messages).
    [Samples] holds the concrete jobs and reports the witnesses evaluate.
    The theorems of a component follow its definitions, or are in [XSpec] where the
    file of [X] is long.

    ** Modelling choices

    - A number is a double ([SpecFloat], 53 bits): arithmetic rounds as the
      program's does, and theorems on integers say for which range they are
      exact. The counters and clocks of the shared socket, where the code only
      counts up by one or subtracts times, are integers [Z].
    - A string is a list of bytes; case mapping, trimming and character classes
      are those of ASCII.
    - An absent or [null] field is [None]; where the code distinguishes the two
      the field is an option of an option. Objects used as maps are [JMap]s with
      the order of insertion; inherited property names are not looked up.
    - An exception the code does not catch is [None] of the enclosing operation.
    - A mutable object ([SharedSocket]) is a record threaded through each
      method; the browser's timers, sockets and the calls it makes are part of
      the record, and a labelled step relation interleaves them in any order.
    - An asynchronous function is cut at its [await]s: what is under way is in the
      state, and the steps that answer, fail or resume it interleave with
      everything else ([InstallRun], [PluginClient], [Favourites], the calls of
      [PluginHost], [SettingsEdit], [SettingsRows], [ProxyAnalyzer],
      [NetworkPage], [SubscriptionsPage], [UsersPage], [UserProfile]). A promise is a place in a list of states.
    - Regular expressions are translated to scanners.
    - The browser's URL parser, the local time zone, the locale's number and
      date formats and [JSON.parse] are parameters (classes [UrlApi], [Browser],
      [Env]); what a theorem needs of them is a named hypothesis (for example
      [UrlLaws]) with a concrete instance in the theorem's witness.
    - Loops are structural recursions or folds; where a loop is bounded by fuel
      ([JsUri], [JsNum]) the fuel is the length of the input or the number of
      digits a double can have. The search of [ProxyAnalyzer] runs on fuel 16 between
      two awaits, where at most one level is skipped; when it is used up the run hangs
      ([ProxyAnalyzer.Hang]) and is not over, so that an end is never owed to the fuel; the pages of a watch list
      ([Webhooks.page_fuel]) are as many as its limit has five hundreds. The renders of
      [UsersPage] are four, after which nothing changes ([UsersPage.effects_come_to_rest]);
      those of [UserProfile] are five: its tab and its address agree after three
      ([UserProfile.at_rest_three]), and what follows from the tab takes two.

    ** What is shown

    The socket keeps the server told of what its hooks want, retries a bounded
    number of times between two revivals, never leaks a timer, delivers each message
    that is not a control message once and stays dead once unused. The setup wizard's card rules and its validator agree and
    every change repairs the selection; the architecture diagram changes one
    cluster and shows every service once. Proxy hops follow the used route and
    masked URLs hide credentials. ETAs, durations, transfer sizes, charts and
    percentages are exact or bounded as their units promise; bucketing and
    rolling rates neither lose nor invent completions. The bottleneck verdict is
    each state exactly when its conditions, written out apart, hold; comparisons and
    recovery categories say what their numbers say.

    The telemetry of a job: the sampling effect refines a machine that only keeps
    the accepted observations ([TelemetrySampling.Abstract]), so the
    snapshots shown are the differences of consecutive ones, in order, bounded in
    number, conserving the work counted also where the list is cut or the counters
    restart, and the effect is idempotent; its state
    keeps its shape. Failures are counted once when the two sources agree in
    kind, every proxy a task used has one row, windows average whole intervals
    only, a minute without errors raises no alarm, the rebuilt timeline conserves
    the completions before its end, the peak is the highest rate seen, and the
    report's advice, the verdict and the throughput diagnostics, which three
    routines compute, agree.

    Pasted credentials: the parser ends on every text, reads back what
    [JSON.stringify] writes of values without control characters and exponents, and rewriting twice is rewriting once. Plugins: in
    every reachable registry what is shown belongs to active plugins, a scoped API
    works until its signal fires and no operation of it after, deactivation is complete; at
    most one token is requested at a time for a backend and plugin, and a token
    is sent to no other backend and for no other plugin than it was issued for.
    Installations: while the page turns to another run only when no answer is awaited,
    and to none it followed before, the events shown are the installer's log up to the
    last one seen, and answers and timers alone lead to the end.
    Favourites: batches are bounded and complete, each button is given its own
    state and all are answered, and patches of cached lists can be taken back. A
    list of proxies is imported line by line, errors included.

    The network page: what it shows as busy has a request under way, in every order of
    answers; an analysis ends with its seventh answer, whatever comes between, tests no level twice, and recommends a best result;
    its stream is read the same however it is cut. The subscriptions page: what is
    selected is visible, the search is read back from the address and from loadouts,
    and loading page after page covers the list. The users page: the effects of a render
    come to rest after four renders, the users listed are the backend's for the search as
    it is now whatever answers come late, a list visited anew grows in the backend's order,
    and requests that share a place in the cache are the same, for the list and for the totals. The profile page: its
    address gives back its tab and filters wherever it rests, a user chosen among several
    is named by the identifier and place in its address, what depends on a refresh is fetched again exactly when
    one ends, and scrolling lists all content. A job is sent exactly when its form is
    complete, and as shown; an edit sends exactly what changed; the preview of a template counts
    the tasks that will be made. Settings: a resolved conflict is
    the choice that was made (but for an edit of redis and empty objects), a save sends what is shown with the version it was
    edited on. The system pages place every directory, show every path once and count
    every device once; the register lists every backend. Messages of the stream are
    bounded, compact and without duplicates; the check of a routing accepts exactly
    the valid ones, and older hooks are translated without loss. Filters read from an
    address are valid whatever it holds; identities pass through their form; a change
    of the preferences is read back even when storage refuses it, unless it goes back to
    the stored text after a refusal.

    The dashboard: its history refines one entry per quarter of a minute
    ([DashboardPulse.every_bucket]), what is drawn keeps every peak, a key to refresh is
    refreshed after each event that asks for it, jobs seen only through their tasks are listed once, and quick
    refreshes lose nothing of a job's rate. Batch sizes stay within their bounds; the
    download flows answer each decision.

    Some theorems show what the code does against its own comments or labels:
    [SharedSocketSpec.open_reported_while_connecting],
    [TelemetryErrors.failure_counted_twice],
    [TelemetryRates.unknown_capacity_is_nan],
    [TelemetryTimeline.last_completion_missed],
    [AuthNormalizeSpec.spelled_header_lost], [AuthNormalizeSpec.unicode_escape_misread],
    [InstallRun.late_answer_loses_events],
    [PluginClient.forgotten_token_comes_back],
    [Favourites.second_button_hides_the_first],
    [ProxyImport.missing_host_accepted],
    [SettingsEditSpec.edit_while_saving_is_lost], [SettingsEditSpec.half_saved] and
    the others at the end of that file, [SettingsRows.conflict_keeps_the_old_version],
    [DriveInventorySpec.relative_becomes_absolute],
    [Storage.folded_export_counted_again], [Storage.staging_hides_the_drive],
    [Users.empty_item_is_zero], [Users.bad_profile_type_accepted],
    [Users.trans_couple_is_shown_as_one], [Users.unreadable_date],
    [WebhookStream.end_of_job_is_dropped],
    [WebhookStream.batch_is_oldest_first], [Webhooks.spaced_urls_are_refused],
    [ProxyAnalyzerSpec.second_analysis_cannot_be_stopped],
    [ProxyAnalyzerSpec.bad_result_hides_good_ones],
    [NetworkPageSpec.deleted_proxy_stays_selected],
    [NetworkPageSpec.cleared_timeout_is_not_sent],
    [NetworkPageSpec.place_of_another_proxy], [NetworkPageSpec.poll_hides_the_change],
    [Preferences.reverted_change_is_lost],
    [SubscriptionsPage.failed_watch_is_reported_as_added] and the others at the end
    of that file, [UsersPage.cached_page_locks_the_list] and those after it,
    [UserProfile.late_content_answer_stays], [UserProfile.failed_content_page_is_passed_over],
    [UserProfile.loadout_without_account], [UserProfile.paid_asks_for_stories],
    [UserProfile.watch_answer_marks_the_shown_user],
    [JobCreator.task_without_account_is_repeated], [JobCreator.editing_keeps_shown_tasks],
    [JobCreator.tiny_interval_is_zero] and those beside them,
    [Dashboard.quick_refreshes_starve_speed],
    [DashboardPulse.burst_is_not_stored], [DashboardPulse.disconnection_is_success] and, in [TaskRoutes], the
    routes shown for direct connections and the passwords of proxies without a
    scheme.

    ** Not modelled

    React components' markup, hooks' rendering and caching (memoisation does not change
    a pure result, and [TelemetrySampling.sample_idempotent] shows that
    skipping a repeated run of the sampling effect changes nothing), network
    calls, the request bodies of the API, the report's export, the pages of
    chats, orders and content (they repeat the patterns of the users and the profile
    page: a search in the address, loadouts, lists loaded page by page), the
    registration of the plugin registry on [window],
    styles, mocks, the
    Python server and installer, scripts. *)

From stdpp Require Import base list strings option gmap.
From Stdlib Require Import ZArith Lia.

#[global] Open Scope Z_scope.

(** ** Notations: the JavaScript operators the source is written with *)

Declare Scope js_scope.
Delimit Scope js_scope with js.
#[global] Open Scope js_scope.

(** [o ?? d] of the source: [null] and [undefined] are both [None]. *)
Definition nullish {A} (o : option A) (d : A) : A :=
  match o with Some x => x | None => d end.

(** [o ?? o'] where the right operand may be nullish too. *)
Definition nullish_opt {A} (o o' : option A) : option A :=
  match o with Some x => Some x | None => o' end.

Notation "o ?? d" := (nullish o d) (at level 60, right associativity) : js_scope.
Notation "o ??? d" := (nullish_opt o d) (at level 60, right associativity) : js_scope.
Notation "o ?. f" := (option_map f o) (at level 40, left associativity, only parsing) : js_scope.

(** Reading a nullable property through an optional chain, [o?.f] with [f]
    itself nullable. *)
Notation "o ?> f" := (mbind (M := option) f o) (at level 40, left associativity, only parsing) : js_scope.

(** A string is truthy when it is not empty. *)
Definition truthy (s : string) : bool :=
  match s with EmptyString => false | _ => true end.

(** [s || t] on strings. *)
Definition str_or (s t : string) : string := if truthy s then s else t.

(** The truthy part of a nullable string: [s || null]. *)
Definition truthy_opt (s : option string) : option string :=
  match s with Some x => if truthy x then Some x else None | None => None end.

(** [xs.includes(x)], [new Set(xs).has(x)] and [===] on strings. *)
Definition str_in (x : string) (l : list string) : bool := bool_decide (x ∈ l).
Definition str_eqb (x y : string) : bool := bool_decide (x = y).

Notation "x =s y" := (str_eqb x y) (at level 70, no associativity) : js_scope.

(** A nullable string compared with [===] to a string. *)
Definition opt_eqb (o : option string) (x : string) : bool :=
  match o with Some y => str_eqb y x | None => false end.

(** ** Tactics *)

(** Case analysis on the scrutinee of the first [match] or [if] of the goal,
    or of a hypothesis. *)
Ltac case_goal :=
  match goal with
  | |- context [match ?x with _ => _ end] => destruct x eqn:?
  end.
Ltac case_hyp H :=
  match type of H with
  | context [match ?x with _ => _ end] => destruct x eqn:?
  end.

(** Turn every boolean connective and decision in the context into a
    proposition. *)
Ltac bool_simpl :=
  repeat match goal with
  | H : _ && _ = true |- _ => apply andb_true_iff in H; destruct H
  | H : _ || _ = false |- _ => apply orb_false_iff in H; destruct H
  | H : negb _ = true |- _ => apply negb_true_iff in H
  | H : negb _ = false |- _ => apply negb_false_iff in H
  | H : bool_decide _ = true |- _ => apply bool_decide_eq_true in H
  | H : bool_decide _ = false |- _ => apply bool_decide_eq_false in H
  | H : str_eqb _ _ = true |- _ => unfold str_eqb in H
  | H : str_eqb _ _ = false |- _ => unfold str_eqb in H
  | H : str_in _ _ = true |- _ => unfold str_in in H
  | H : str_in _ _ = false |- _ => unfold str_in in H
  | H : (_ <? _) = true |- _ => apply Z.ltb_lt in H
  | H : (_ <? _) = false |- _ => apply Z.ltb_ge in H
  | H : (_ <=? _) = true |- _ => apply Z.leb_le in H
  | H : (_ <=? _) = false |- _ => apply Z.leb_gt in H
  | H : (_ =? _) = true |- _ => apply Z.eqb_eq in H
  | H : (_ =? _) = false |- _ => apply Z.eqb_neq in H
  end.

(** The automation of the common case: every boolean is made a proposition,
    then first-order reasoning with the equations. *)
Ltac crush := intros; bool_simpl; simplify_eq/=; try done; try lia; try congruence; eauto.

Create HintDb js discriminated.

(** ** Lemmas on the operators *)

Lemma str_eqb_eq x y : str_eqb x y = true <-> x = y.
Proof. apply bool_decide_eq_true. Qed.

Lemma str_eqb_neq x y : str_eqb x y = false <-> x <> y.
Proof. apply bool_decide_eq_false. Qed.

Lemma str_eqb_refl x : str_eqb x x = true.
Proof. by apply str_eqb_eq. Qed.

Lemma str_eqb_sym x y : str_eqb x y = str_eqb y x.
Proof. unfold str_eqb. apply bool_decide_ext. naive_solver. Qed.

Lemma str_in_iff x l : str_in x l = true <-> x ∈ l.
Proof. apply bool_decide_eq_true. Qed.

Lemma str_in_not x l : str_in x l = false <-> x ∉ l.
Proof. apply bool_decide_eq_false. Qed.

Lemma truthy_nonempty s : truthy s = true <-> s <> EmptyString.
Proof. destruct s; naive_solver. Qed.

Lemma truthy_opt_Some o s : truthy_opt o = Some s <-> o = Some s /\ s <> EmptyString.
Proof. destruct o as [[|c r]|]; simpl; naive_solver. Qed.

Lemma truthy_opt_nonempty s : s <> EmptyString -> truthy_opt (Some s) = Some s.
Proof. intros H. apply truthy_opt_Some. done. Qed.

Lemma str_or_cases s t : str_or s t = s \/ (s = EmptyString /\ str_or s t = t).
Proof. destruct s; simpl; auto. Qed.

#[export] Hint Resolve str_eqb_refl : js.

(** ** Lists *)

Section list_ops.
Context {A : Type}.

(** [xs.find(p)]. *)
Definition find_first (p : A -> bool) (l : list A) : option A := List.find p l.

(** [xs.some(p)], [xs.every(p)] and [xs.filter(p)] on boolean predicates. *)
Definition some (p : A -> bool) (l : list A) : bool := existsb p l.
Definition every (p : A -> bool) (l : list A) : bool := forallb p l.
Definition keep (p : A -> bool) (l : list A) : list A := List.filter p l.

Lemma find_first_Some p l x :
  find_first p l = Some x -> x ∈ l /\ p x = true.
Proof.
  intros H. apply List.find_some in H as [H1 H2].
  split; [by apply list_elem_of_In | done].
Qed.

Lemma find_first_None p l :
  find_first p l = None <-> (forall x, x ∈ l -> p x = false).
Proof.
  split.
  - intros H x Hx. apply list_elem_of_In in Hx. by apply (List.find_none _ _ H).
  - intros H. induction l as [|a l IH]; [done|]. simpl.
    rewrite (H a) by set_solver. apply IH. set_solver.
Qed.

Lemma some_iff p l : some p l = true <-> exists x, x ∈ l /\ p x = true.
Proof.
  unfold some. rewrite existsb_exists. setoid_rewrite list_elem_of_In. done.
Qed.

Lemma every_iff p l : every p l = true <-> forall x, x ∈ l -> p x = true.
Proof.
  unfold every. rewrite forallb_forall. setoid_rewrite list_elem_of_In. done.
Qed.

Lemma elem_of_keep p l x : x ∈ keep p l <-> x ∈ l /\ p x = true.
Proof. unfold keep. rewrite !list_elem_of_In. apply filter_In. Qed.

Lemma keep_all p l : (forall x, x ∈ l -> p x = true) -> keep p l = l.
Proof.
  induction l as [|a l IH]; [done|]. intros H. simpl.
  rewrite (H a) by set_solver. f_equal. apply IH. set_solver.
Qed.

Lemma keep_keep p q l : keep p (keep q l) = keep (fun x => q x && p x) l.
Proof.
  induction l as [|a l IH]; [done|]. simpl. destruct (q a) eqn:E; simpl; [|done].
  destruct (p a); by rewrite IH.
Qed.

Lemma keep_app p l1 l2 : keep p (l1 ++ l2) = keep p l1 ++ keep p l2.
Proof. apply List.filter_app. Qed.

Lemma keep_sublist p l : sublist (keep p l) l.
Proof.
  induction l as [|a l IH]; simpl; [constructor|].
  destruct (p a); by constructor.
Qed.

Lemma length_keep p l : (length (keep p l) <= length l)%nat.
Proof. apply sublist_length, keep_sublist. Qed.

Lemma NoDup_map_keep {B} (f : A -> B) p l : NoDup (map f l) -> NoDup (map f (keep p l)).
Proof. intros H. eapply sublist_NoDup; [exact H|]. apply (fmap_sublist f), keep_sublist. Qed.

(** [new Set(xs)] enumerated: the first occurrence of each element, in
    order. *)
Context `{EqDecision A}.

Fixpoint uniq (l : list A) : list A :=
  match l with
  | [] => []
  | x :: r => x :: keep (fun y => negb (bool_decide (y = x))) (uniq r)
  end.

Lemma elem_of_uniq x l : x ∈ uniq l <-> x ∈ l.
Proof.
  induction l as [|a l IH]; [done|]. simpl.
  rewrite !elem_of_cons, elem_of_keep, IH, negb_true_iff, bool_decide_eq_false.
  destruct (decide (x = a)); naive_solver.
Qed.

Lemma NoDup_keep p (l : list A) : NoDup l -> NoDup (keep p l).
Proof. intros H. apply (sublist_NoDup _ l); [done | apply keep_sublist]. Qed.

Lemma NoDup_uniq l : NoDup (uniq l).
Proof.
  induction l as [|a l IH]; simpl; constructor.
  - rewrite elem_of_keep, bool_decide_eq_true_2 by done. naive_solver.
  - by apply NoDup_keep.
Qed.

Lemma uniq_NoDup l : NoDup l -> uniq l = l.
Proof.
  induction 1 as [|a l Ha Hl IH]; [done|]. simpl. f_equal.
  rewrite IH. apply keep_all. intros y Hy.
  apply negb_true_iff, bool_decide_eq_false. set_solver.
Qed.
End list_ops.

Lemma elem_of_exists_cons {A} (P : A -> Prop) a l :
  (exists x, x ∈ a :: l /\ P x) <-> P a \/ (exists x, x ∈ l /\ P x).
Proof.
  split.
  - intros (x & [->|H]%elem_of_cons & Hx); eauto.
  - intros [H|(x & H & Hx)]; [exists a|exists x]; rewrite elem_of_cons; auto.
Qed.

(** [xs.findIndex(p)]; [None] is -1. *)
Fixpoint find_index {A} (p : A -> bool) (l : list A) : option nat :=
  match l with
  | [] => None
  | x :: r => if p x then Some 0%nat else option_map S (find_index p r)
  end.

Lemma find_index_Some {A} (p : A -> bool) l i :
  find_index p l = Some i -> exists x, l !! i = Some x /\ p x = true.
Proof.
  revert i. induction l as [|a l IH]; intros i H; [done|]. simpl in H.
  destruct (p a) eqn:E; [injection H as <-; eauto|].
  destruct (find_index p l) as [j|]; [|done]. injection H as <-. destruct (IH j eq_refl) as (x & ? & ?). eauto.
Qed.

Lemma find_index_None {A} (p : A -> bool) l : find_index p l = None -> every (fun x => negb (p x)) l = true.
Proof.
  induction l as [|a l IH]; [done|]. simpl. destruct (p a); [done|].
  destruct (find_index p l); [done|]. intros _. simpl. apply IH. done.
Qed.

Lemma find_first_map {A B} (f : A -> B) p l :
  find_first p (map f l) = option_map f (find_first (fun x => p (f x)) l).
Proof. induction l as [|a l IH]; [done|]. simpl. by destruct (p (f a)). Qed.

Lemma find_first_ext {A} (p q : A -> bool) l :
  (forall x, x ∈ l -> p x = q x) -> find_first p l = find_first q l.
Proof.
  induction l as [|a l IH]; [done|]. intros H. simpl.
  rewrite (H a) by set_solver. destruct (q a); [done|]. apply IH. set_solver.
Qed.

(** [xs.reduce((s, x) => s + f(x), 0)] on integers. *)
Definition sum_by {A} (f : A -> Z) (l : list A) : Z := foldr (fun x s => f x + s) 0 l.

Lemma sum_by_app {A} (f : A -> Z) l1 l2 : sum_by f (l1 ++ l2) = sum_by f l1 + sum_by f l2.
Proof. unfold sum_by. induction l1; simpl; lia. Qed.

Lemma sum_by_nonneg {A} (f : A -> Z) l : (forall x, x ∈ l -> 0 <= f x) -> 0 <= sum_by f l.
Proof.
  unfold sum_by. induction l as [|a l IH]; simpl; [lia|]. intros H.
  assert (0 <= f a) by (apply H; set_solver).
  assert (0 <= foldr (fun x s => f x + s) 0 l) by (apply IH; set_solver). lia.
Qed.

(** A property of all elements, as a recursive definition states it. *)
Lemma foldr_Forall {A} (Q : A -> Prop) l : foldr (fun x P => Q x /\ P) True l <-> Forall Q l.
Proof.
  induction l as [|x l IH]; simpl; [by split; [constructor|]|].
  split; [intros [H1 H2]; constructor; [done|by apply IH]|intros H; apply Forall_cons_1 in H as [H1 H2]; split; [done|by apply IH]].
Qed.

(** An element is altered by replacing it. *)
Lemma list_alter_some {A} (f : A -> A) (l : list A) (k : nat) x : l !! k = Some x -> alter f k l = <[k := f x]> l.
Proof. intros H. rewrite list_insert_alter. apply list_alter_ext; [|done]. congruence. Qed.

Lemma foldl_sum_by {A} (f : A -> Z) l a : foldl (fun s x => s + f x) a l = a + sum_by f l.
Proof. revert a. unfold sum_by. induction l as [|x l IH]; intros a; simpl; [lia|]. rewrite IH. lia. Qed.

(** ** Insertion-ordered maps: JavaScript's [Map] with string keys *)

Module JMap.
Section jmap.
Context {V : Type}.

(** The entries in insertion order. *)
Definition t := list (string * V).
Definition empty : t := [].

Fixpoint get (k : string) (m : t) : option V :=
  match m with
  | [] => None
  | (k', v) :: r => if str_eqb k' k then Some v else get k r
  end.

(** [m.set(k, v)]: an existing key keeps its place, a new one goes last. *)
Fixpoint set (k : string) (v : V) (m : t) : t :=
  match m with
  | [] => [(k, v)]
  | (k', v') :: r => if str_eqb k' k then (k', v) :: r else (k', v') :: set k v r
  end.

Definition has (k : string) (m : t) : bool :=
  match get k m with Some _ => true | None => false end.

Definition keys (m : t) : list string := map fst m.
Definition values (m : t) : list V := map snd m.

(** [new Map(entries)]. *)
Definition of_list (l : list (string * V)) : t :=
  foldl (fun m '(k, v) => set k v m) empty l.

Definition wf (m : t) : Prop := NoDup (keys m).

Lemma get_set_eq k v m : get k (set k v m) = Some v.
Proof.
  induction m as [|[k' v'] m IH]; simpl; [by rewrite str_eqb_refl|].
  destruct (str_eqb k' k) eqn:E; simpl; by rewrite E.
Qed.

Lemma get_set_ne k k' v m : k <> k' -> get k' (set k v m) = get k' m.
Proof.
  intros Hne. induction m as [|[k0 v0] m IH]; simpl.
  - by rewrite (proj2 (str_eqb_neq k k') Hne).
  - destruct (str_eqb k0 k) eqn:E; simpl; [|by rewrite IH].
    apply str_eqb_eq in E; subst. by rewrite (proj2 (str_eqb_neq k k') Hne).
Qed.

Lemma get_None k m : get k m = None <-> k ∉ keys m.
Proof.
  induction m as [|[k' v] m IH]; simpl; [set_solver|].
  destruct (str_eqb k' k) eqn:E; bool_simpl; set_solver.
Qed.

Lemma get_Some_elem k v m : get k m = Some v -> (k, v) ∈ m.
Proof.
  induction m as [|[k' v'] m IH]; simpl; [done|].
  destruct (str_eqb k' k) eqn:E; bool_simpl; set_solver.
Qed.

Lemma elem_get k v m : wf m -> (k, v) ∈ m -> get k m = Some v.
Proof.
  unfold wf. induction m as [|[k' v'] m IH]; simpl; [set_solver|].
  intros Hnd Hin. apply NoDup_cons in Hnd as [Hk Hnd].
  apply elem_of_cons in Hin as [Heq|Hin].
  - simplify_eq. by rewrite str_eqb_refl.
  - assert (k' <> k).
    { intros ->. apply Hk. unfold keys. apply list_elem_of_fmap. by exists (k, v). }
    rewrite (proj2 (str_eqb_neq k' k)) by done. auto.
Qed.

Lemma keys_set k v m :
  keys (set k v m) = if has k m then keys m else keys m ++ [k].
Proof.
  unfold has. induction m as [|[k' v'] m IH]; simpl; [done|].
  destruct (str_eqb k' k) eqn:E; simpl; [done|].
  rewrite IH. by destruct (get k m).
Qed.

Lemma wf_empty : wf empty.
Proof. constructor. Qed.

Lemma wf_set k v m : wf m -> wf (set k v m).
Proof.
  unfold wf. intros H. rewrite keys_set. unfold has.
  destruct (get k m) eqn:E; [done|].
  apply NoDup_app. repeat split; [done| |apply NoDup_singleton].
  apply get_None in E. set_solver.
Qed.

Lemma elem_of_keys_set k v m x : x ∈ keys (set k v m) <-> x = k \/ x ∈ keys m.
Proof.
  rewrite keys_set. unfold has. destruct (get k m) eqn:E; [|set_solver].
  split; [auto|]. intros [->|]; [|done].
  destruct (decide (k ∈ keys m)); [done|].
  apply get_None in n. congruence.
Qed.

(** Splitting a map at a present key: everything else is untouched. *)
Lemma set_split k v v0 m :
  get k m = Some v0 ->
  exists m1 m2, m = m1 ++ (k, v0) :: m2 /\ set k v m = m1 ++ (k, v) :: m2.
Proof.
  induction m as [|[k' v'] m IH]; simpl; [done|].
  destruct (str_eqb k' k) eqn:E; intros H.
  - bool_simpl. simplify_eq. by exists [], m.
  - destruct (IH H) as (m1 & m2 & -> & ->). by exists ((k', v') :: m1), m2.
Qed.

Lemma set_absent k v m : get k m = None -> set k v m = m ++ [(k, v)].
Proof.
  induction m as [|[k' v'] m IH]; simpl; [done|].
  destruct (str_eqb k' k) eqn:E; intros H; [done|]. by rewrite IH.
Qed.

Lemma Forall_set (P : string * V -> Prop) k v m : Forall P m -> P (k, v) -> Forall P (set k v m).
Proof.
  induction 1 as [|[k' v'] m Hk Hm IH]; intros Hv; simpl; [by constructor|].
  destruct (str_eqb k' k) eqn:Ek; constructor; auto. apply str_eqb_eq in Ek. by subst.
Qed.
End jmap.
Arguments t : clear implicits.
End JMap.

#[export] Hint Resolve JMap.wf_empty JMap.wf_set : js.
