(* ===== verification/JsString.v ===== *)
(** * JavaScript strings

    The string operations of the language that the WebUI's code calls.  A
    string is the byte sequence of its UTF-8 text ([String.string]).  The code
    modelled here only searches for, splits at and strips ASCII characters, and
    those operations commute with the encoding; case mapping and trimming are
    those of ASCII text. *)

From Stdlib Require Import Ascii ZArith Lia.
From stdpp Require Import base list strings option pretty sorting.
From S2P Require Import Prelude.

#[local] Open Scope nat_scope.

(** ** Searching *)

(** [s.startsWith(p)]. *)
Definition starts_with (s p : string) : bool := String.prefix p s.

Fixpoint includes (s sub : string) : bool :=
  starts_with s sub ||
  match s with EmptyString => false | String _ r => includes r sub end.

Fixpoint drop_str (n : nat) (s : string) : string :=
  match n, s with
  | 0, _ => s
  | _, EmptyString => EmptyString
  | S n, String _ r => drop_str n r
  end.

Fixpoint take_str (n : nat) (s : string) : string :=
  match n, s with
  | S n, String c r => String c (take_str n r)
  | _, _ => EmptyString
  end.

(** [s.endsWith(p)]. *)
Definition ends_with (s p : string) : bool :=
  (String.length p <=? String.length s) &&
  str_eqb (drop_str (String.length s - String.length p) s) p.

(** ** Characters *)

Definition lower_char (c : Ascii.ascii) : Ascii.ascii :=
  let n := Ascii.nat_of_ascii c in
  if (65 <=? n) && (n <=? 90) then Ascii.ascii_of_nat (n + 32) else c.

Definition upper_char (c : Ascii.ascii) : Ascii.ascii :=
  let n := Ascii.nat_of_ascii c in
  if (97 <=? n) && (n <=? 122) then Ascii.ascii_of_nat (n - 32) else c.

Fixpoint to_lower (s : string) : string :=
  match s with
  | EmptyString => EmptyString
  | String c r => String (lower_char c) (to_lower r)
  end.

(** White space: tab, line feed, vertical tab, form feed, carriage return and
    space. *)
Definition is_space (c : Ascii.ascii) : bool :=
  let n := Ascii.nat_of_ascii c in ((9 <=? n) && (n <=? 13)) || (n =? 32).

Definition is_digit (c : Ascii.ascii) : bool :=
  let n := Ascii.nat_of_ascii c in (48 <=? n) && (n <=? 57).

Definition is_alpha (c : Ascii.ascii) : bool :=
  let n := Ascii.nat_of_ascii (lower_char c) in (97 <=? n) && (n <=? 122).

Definition is_alnum (c : Ascii.ascii) : bool := is_alpha c || is_digit c.

(** ** Trimming *)

Fixpoint trim_start (s : string) : string :=
  match s with
  | String c r => if is_space c then trim_start r else s
  | EmptyString => EmptyString
  end.

Fixpoint trim_end (s : string) : string :=
  match s with
  | EmptyString => EmptyString
  | String c r =>
      match trim_end r with
      | EmptyString => if is_space c then EmptyString else String c EmptyString
      | r' => String c r'
      end
  end.

(** [s.trim()]. *)
Definition trim (s : string) : string := trim_end (trim_start s).

(** ** Splitting and joining *)

(** [s.split(c)] for a one-character separator. *)
Fixpoint split (c : Ascii.ascii) (s : string) : list string :=
  match s with
  | EmptyString => [EmptyString]
  | String d r =>
      if Ascii.eqb d c then EmptyString :: split c r
      else match split c r with
           | h :: t => String d h :: t
           | [] => [String d EmptyString]
           end
  end.

(** [xs.join(sep)]. *)
Definition join (sep : string) (l : list string) : string := String.concat sep l.

(** [s.replace(/c/g, t)] for a one-character pattern. *)
Fixpoint replace_char (c : Ascii.ascii) (t : string) (s : string) : string :=
  match s with
  | EmptyString => EmptyString
  | String d r =>
      if Ascii.eqb d c then t +:+ replace_char c t r else String d (replace_char c t r)
  end.

(** [s.replace(/c$/, '')]. *)
Fixpoint strip_last (c : Ascii.ascii) (s : string) : string :=
  match s with
  | EmptyString => EmptyString
  | String d EmptyString => if Ascii.eqb d c then EmptyString else s
  | String d r => String d (strip_last c r)
  end.

(** [s.slice(0, -1)]. *)
Fixpoint drop_last (s : string) : string :=
  match s with
  | EmptyString | String _ EmptyString => EmptyString
  | String d r => String d (drop_last r)
  end.

Fixpoint str_forall (p : Ascii.ascii -> bool) (s : string) : bool :=
  match s with EmptyString => true | String c r => p c && str_forall p r end.

Definition has_char (c : Ascii.ascii) (s : string) : bool :=
  negb (str_forall (fun d => negb (Ascii.eqb d c)) s).

(** ** Sorting *)

(** [xs.sort()]: the default order compares strings. *)
Definition sort_strings (l : list string) : list string := merge_sort String.le l.

(** ** Integers in text *)

(** [`${n}`] for an integer. *)
Definition show_Z (n : Z) : string := pretty n.

Definition digit_val (c : Ascii.ascii) : Z := Z.of_nat (Ascii.nat_of_ascii c - 48).

Fixpoint digits_val (acc : Z) (s : string) : Z :=
  match s with
  | String c r => if is_digit c then digits_val (10 * acc + digit_val c) r else acc
  | EmptyString => acc
  end.

(** [Number.parseInt(s, 10)]: leading white space, an optional sign, then the
    longest run of digits; [None] is [NaN]. *)
Definition parse_int (s : string) : option Z :=
  let parse_abs (t : string) : option Z :=
    match t with
    | String c _ => if is_digit c then Some (digits_val 0 t) else None
    | EmptyString => None
    end in
  match trim_start s with
  | String "-"%char r => Z.opp <$> parse_abs r
  | String "+"%char r => parse_abs r
  | r => parse_abs r
  end.

(** ** Regular expressions: scanning *)

(** The longest prefix of characters in the class [p], and the rest. *)
Fixpoint span (p : Ascii.ascii -> bool) (s : string) : string * string :=
  match s with
  | String c r => if p c then (String c (span p r).1, (span p r).2) else (EmptyString, s)
  | EmptyString => (EmptyString, EmptyString)
  end.

(** A literal of a case-insensitive expression; the text after it. *)
Definition literal_i (lit s : string) : option string :=
  if starts_with (to_lower s) lit then Some (drop_str (String.length lit) s) else None.

(** The leftmost position an unanchored expression matches at. *)
Fixpoint search {A} (f : string -> option A) (s : string) : option A :=
  match f s with
  | Some a => Some a
  | None => match s with EmptyString => None | String _ r => search f r end
  end.

(** [/^\d+$/] and its integer value. *)
Definition all_digits (s : string) : bool := truthy s && str_forall is_digit s.

(** ** Lemmas *)

Lemma str_app_nil_r (s : string) : s +:+ EmptyString = s.
Proof. induction s as [|c s IH]; [done|]. exact (f_equal (String c) IH). Qed.

Lemma app_assoc_str (s t u : string) : (s +:+ t) +:+ u = s +:+ (t +:+ u).
Proof. induction s as [|c s IH]; [done|]. exact (f_equal (String c) IH). Qed.

Lemma app_inj_l (s t u : string) : s +:+ t = s +:+ u -> t = u.
Proof. induction s as [|c s IH]; intros H; [exact H|]. apply IH. by injection H. Qed.

Lemma starts_with_app s t : starts_with (s +:+ t) s = true.
Proof.
  unfold starts_with. induction s as [|c s IH].
  { change (EmptyString +:+ t) with t. by destruct t. }
  change (String c s +:+ t) with (String c (s +:+ t)). simpl.
  by destruct (Ascii.ascii_dec c c).
Qed.

Lemma starts_with_inv s p : starts_with s p = true -> exists t, s = p +:+ t.
Proof.
  unfold starts_with. revert s. induction p as [|c p IH]; intros s.
  - intros _. by exists s.
  - destruct s as [|d s]; simpl; [done|]. destruct (Ascii.ascii_dec c d) as [->|Hne]; [|done].
    intros [t ->]%IH. by exists t.
Qed.

Lemma drop_str_app s t : drop_str (String.length s) (s +:+ t) = t.
Proof. induction s as [|c s IH]; [reflexivity|exact IH]. Qed.

Lemma split_cons_nonempty c s : split c s <> [].
Proof. destruct s as [|d s]; simpl; [done|]. by destruct (Ascii.eqb d c), (split c s). Qed.

(** Joining the pieces of a split gives the string back. *)
Lemma join_split c s : join (String c EmptyString) (split c s) = s.
Proof.
  unfold join. induction s as [|d s IH]; [done|]. simpl.
  destruct (Ascii.eqb_spec d c) as [->|Hne].
  - destruct (split c s) as [|h t] eqn:E; [by destruct (split_cons_nonempty c s)|].
    change (String.concat (String c EmptyString) (EmptyString :: h :: t))
      with (String c (String.concat (String c EmptyString) (h :: t))).
    by rewrite IH.
  - destruct (split c s) as [|h t] eqn:E; [by destruct (split_cons_nonempty c s)|].
    rewrite <- IH. by destruct t.
Qed.

(** A string without the separator is its own only piece. *)
Lemma split_no_sep c s : has_char c s = false -> split c s = [s].
Proof.
  unfold has_char. induction s as [|d s IH]; [done|]. simpl.
  rewrite negb_false_iff, andb_true_iff, negb_true_iff. intros [-> H].
  rewrite IH; [done|]. by rewrite H.
Qed.

(** Splitting at the first separator. *)
Lemma split_app_sep c s t :
  has_char c s = false -> split c (s +:+ String c t) = s :: split c t.
Proof.
  unfold has_char. induction s as [|d s IH]; intros H.
  - change (EmptyString +:+ String c t) with (String c t). simpl.
    by rewrite Ascii.eqb_refl.
  - simpl in H. rewrite negb_false_iff, andb_true_iff, negb_true_iff in H.
    destruct H as [Hd H].
    change (String d s +:+ String c t) with (String d (s +:+ String c t)). simpl.
    rewrite Hd, IH; [done|]. by rewrite H.
Qed.

Lemma str_forall_app p s t : str_forall p (s +:+ t) = str_forall p s && str_forall p t.
Proof.
  induction s as [|c s IH]; [done|].
  change (String c s +:+ t) with (String c (s +:+ t)). simpl.
  by rewrite IH, andb_assoc.
Qed.

Lemma has_char_app c s t : has_char c (s +:+ t) = has_char c s || has_char c t.
Proof. unfold has_char. by rewrite str_forall_app, negb_andb. Qed.

(** No piece of a split contains the separator. *)
Lemma split_pieces c s : Forall (fun p => has_char c p = false) (split c s).
Proof.
  induction s as [|d s IH]; simpl; [by repeat constructor|].
  destruct (Ascii.eqb d c) eqn:E; [by constructor|].
  destruct (split c s) as [|h t].
  - constructor; [|done]. unfold has_char. simpl. by rewrite E.
  - apply Forall_cons in IH as [Hh Ht]. constructor; [|done].
    unfold has_char in *. simpl. by rewrite E.
Qed.

(** Splitting a joined list gives the pieces back when none contains the
    separator. *)
Lemma split_join c l :
  l <> [] -> Forall (fun s => has_char c s = false) l ->
  split c (join (String c EmptyString) l) = l.
Proof.
  unfold join. intros Hne. induction 1 as [|s l Hs Hl IH]; [done|].
  destruct l as [|t l]; [by apply split_no_sep|].
  change (String.concat (String c EmptyString) (s :: t :: l))
    with (s +:+ String c (String.concat (String c EmptyString) (t :: l))).
  rewrite split_app_sep by done. f_equal. by apply IH.
Qed.

Lemma join_inj c l1 l2 :
  l1 <> [] -> l2 <> [] ->
  Forall (fun s => has_char c s = false) l1 -> Forall (fun s => has_char c s = false) l2 ->
  join (String c EmptyString) l1 = join (String c EmptyString) l2 -> l1 = l2.
Proof.
  intros H1 H2 F1 F2 E. rewrite <- (split_join c l1), <- (split_join c l2) by done. by rewrite E.
Qed.

Lemma to_lower_idem s : to_lower (to_lower s) = to_lower s.
Proof.
  induction s as [|c s IH]; [done|]. simpl. rewrite IH. f_equal.
  by destruct c as [[] [] [] [] [] [] [] []].
Qed.

(** Text without white space at either end is left alone by [trim]. *)
Lemma trim_start_id s : match s with String c _ => is_space c = false | _ => True end -> trim_start s = s.
Proof. destruct s as [|c s]; simpl; [done|]. by intros ->. Qed.

Lemma trim_end_no_space s : str_forall (fun c => negb (is_space c)) s = true -> trim_end s = s.
Proof.
  induction s as [|c s IH]; [done|]. simpl. rewrite andb_true_iff, negb_true_iff.
  intros [Hc H]. rewrite IH by done. rewrite Hc. by destruct s.
Qed.

Lemma trim_no_space s : str_forall (fun c => negb (is_space c)) s = true -> trim s = s.
Proof.
  intros H. unfold trim. rewrite trim_start_id; [by apply trim_end_no_space|].
  destruct s; [done|]. simpl in H. by apply andb_true_iff in H as [?%negb_true_iff _].
Qed.

Lemma is_digit_not_space c : is_digit c = true -> is_space c = false.
Proof. by destruct c as [[] [] [] [] [] [] [] []]. Qed.

Lemma sort_strings_perm l : sort_strings l ≡ₚ l.
Proof. apply merge_sort_Permutation. Qed.

Lemma elem_of_sort_strings x l : x ∈ sort_strings l <-> x ∈ l.
Proof. by rewrite sort_strings_perm. Qed.

(** Two lists with the same elements, without repetition, sort alike. *)
Lemma sort_strings_ext l1 l2 : l1 ≡ₚ l2 -> sort_strings l1 = sort_strings l2.
Proof.
  intros H. apply (StronglySorted_unique String.le).
  - apply StronglySorted_merge_sort; apply _.
  - apply StronglySorted_merge_sort; apply _.
  - by rewrite !sort_strings_perm.
Qed.

Lemma span_app p s : (span p s).1 +:+ (span p s).2 = s.
Proof. induction s as [|c s IH]; [done|]. simpl. destruct (p c); [|done].
  change (String c ((span p s).1 +:+ (span p s).2) = String c s). f_equal. exact IH.
Qed.

Lemma span_forall p s : str_forall p (span p s).1 = true.
Proof. induction s as [|c s IH]; [done|]. simpl. destruct (p c) eqn:E; [simpl; rewrite E; exact IH|done]. Qed.

(** A run of class characters followed by one outside the class. *)
Lemma span_stop p s c t : str_forall p s = true -> p c = false -> span p (s +:+ String c t) = (s, String c t).
Proof.
  induction s as [|x s IH]; simpl; intros Hs Hc.
  - change (span p (String c t) = (EmptyString, String c t)). simpl. rewrite Hc. done.
  - apply andb_true_iff in Hs as [Hx Hs]. change (span p (String x (s +:+ String c t)) = (String x s, String c t)).
    simpl. rewrite Hx, IH by done. done.
Qed.
