(* ===== verification/JsNum.v ===== *)
(** * JavaScript numbers

    The [number] type of the language: IEEE 754 binary64, as the executable
    [spec_float] of the standard library at precision 53 and maximal exponent
    1024.  Arithmetic, comparison, rounding, [toFixed], [Number(text)] and
    number-to-text are those of ECMAScript, computed exactly.  Counters the
    code only adds and compares are kept as [Z] in the components instead: they
    stay below 2^53, where both agree. *)

From Stdlib Require Import Ascii ZArith Lia SpecFloat.
From stdpp Require Import base list strings option pretty.
From S2P Require Import Prelude JsString.

Definition num := spec_float.

Definition nan : num := S754_nan.
Definition infinity : num := S754_infinity false.
Definition num_of_Z (z : Z) : num := binary_normalize 53 1024 z 0 false.
Notation "'#' z" := (num_of_Z z) (at level 1, z at level 0, format "# z") : js_scope.

Definition num_add : num -> num -> num := SFadd 53 1024.
Definition num_sub : num -> num -> num := SFsub 53 1024.
Definition num_mul : num -> num -> num := SFmul 53 1024.
Definition num_div : num -> num -> num := SFdiv 53 1024.
Definition num_opp : num -> num := SFopp.
Definition num_abs : num -> num := SFabs.

Infix "⊕" := num_add (at level 50, left associativity) : js_scope.
Infix "⊖" := num_sub (at level 50, left associativity) : js_scope.
Infix "⊗" := num_mul (at level 40, left associativity) : js_scope.
Infix "⊘" := num_div (at level 40, left associativity) : js_scope.

(** [a < b], [a <= b] and [a === b]: every comparison with [NaN] is false. *)
Definition num_ltb (a b : num) : bool :=
  match SFcompare a b with Some Lt => true | _ => false end.
Definition num_leb (a b : num) : bool :=
  match SFcompare a b with Some (Lt | Eq) => true | _ => false end.
Definition num_eqb (a b : num) : bool :=
  match SFcompare a b with Some Eq => true | _ => false end.

Infix "<!" := num_ltb (at level 70, no associativity) : js_scope.
Infix "<=!" := num_leb (at level 70, no associativity) : js_scope.
Infix "=!" := num_eqb (at level 70, no associativity) : js_scope.
Notation "a >! b" := (num_ltb b a) (at level 70, no associativity, only parsing) : js_scope.
Notation "a >=! b" := (num_leb b a) (at level 70, no associativity, only parsing) : js_scope.

Definition is_nan (x : num) : bool := match x with S754_nan => true | _ => false end.
Definition is_finite (x : num) : bool :=
  match x with S754_zero _ | S754_finite _ _ _ => true | _ => false end.

(** A number is truthy when it is neither zero nor [NaN]. *)
Definition num_truthy (x : num) : bool :=
  match x with S754_zero _ | S754_nan => false | _ => true end.

(** [a || b] on numbers. *)
Definition num_or (a b : num) : num := if num_truthy a then a else b.

(** ** Math *)

(** [Math.max(a, b)] and [Math.min(a, b)]; +0 is larger than -0. *)
Definition math_max (a b : num) : num :=
  match SFcompare a b with
  | None => nan
  | Some Lt => b
  | Some Gt => a
  | Some Eq => match a with S754_zero true => b | _ => a end
  end.

Definition math_min (a b : num) : num :=
  match SFcompare a b with
  | None => nan
  | Some Lt => a
  | Some Gt => b
  | Some Eq => match a with S754_zero false => b | _ => a end
  end.

(** The integer below [(n * 2^e + num/den)] for a finite number: the exact value
    is [v / d] with [d = 1] or [d = 2^-e]. *)
Definition exact_ratio (s : bool) (m : positive) (e : Z) : Z * Z :=
  let v := if s then Z.neg m else Z.pos m in
  if 0 <=? e then (v * 2 ^ e, 1) else (v, 2 ^ (- e)).

(** An integral result keeps the sign of a zero argument or result. *)
Definition integral (s : bool) (z : Z) : num :=
  if z =? 0 then S754_zero s else num_of_Z z.

Definition math_floor (x : num) : num :=
  match x with
  | S754_finite s m e => let '(v, d) := exact_ratio s m e in integral s (v / d)
  | _ => x
  end.

Definition math_ceil (x : num) : num :=
  match x with
  | S754_finite s m e => let '(v, d) := exact_ratio s m e in integral s (- ((- v) / d))
  | _ => x
  end.

(** [Math.abs(x)] *)
Definition math_abs (x : num) : num := SFabs x.

(** [Math.round(x)]: the integer nearest to [x], ties towards +infinity. *)
Definition math_round (x : num) : num :=
  match x with
  | S754_finite s m e => let '(v, d) := exact_ratio s m e in integral s ((2 * v + d) / (2 * d))
  | _ => x
  end.

(** [x % y]: the remainder of the truncated quotient, exact, with the sign of
    [x]. *)
Definition num_rem (x y : num) : num :=
  match x, y with
  | S754_nan, _ | _, S754_nan | S754_infinity _, _ | _, S754_zero _ => nan
  | S754_zero _, _ | _, S754_infinity _ => x
  | S754_finite s m e, S754_finite _ m' e' =>
      let ez := Z.min e e' in
      let r := (Z.pos m * 2 ^ (e - ez)) mod (Z.pos m' * 2 ^ (e' - ez)) in
      if r =? 0 then S754_zero s else binary_normalize 53 1024 (if s then - r else r) ez false
  end.

(** The integer value of an integral number, 0 otherwise. *)
Definition num_to_Z (x : num) : Z :=
  match x with
  | S754_finite s m e => let '(v, d) := exact_ratio s m e in v / d
  | _ => 0
  end.

(** ** Numbers and text *)

Definition zeros (n : nat) : string := Nat.iter n (String "0") EmptyString.

(** A non-negative integer, padded with zeros to [w] digits. *)
Definition pad_Z (w : nat) (z : Z) : string :=
  let s := show_Z z in zeros (w - String.length s) +:+ s.

Definition place_point (digits : nat) (n : Z) : string :=
  let p := 10 ^ Z.of_nat digits in
  match digits with
  | O => show_Z n
  | _ => show_Z (n / p) +:+ "." +:+ pad_Z digits (n mod p)
  end.

(** The nearest integer to [v / d] for [v >= 0], the larger on a tie. *)
Definition nearest (v d : Z) : Z := (2 * v + d) / (2 * d).

(** The decimal digits of a finite positive number: [(s, n)] stands for
    [0.s * 10^n], the shortest decimal that reads back as the number. *)
Definition dec_num (neg : bool) (m : Z) (e10 : Z) : num :=
  match m with
  | Z.pos p =>
      if 0 <=? e10 then binary_normalize 53 1024 ((if neg then -1 else 1) * (m * 10 ^ e10)) 0 neg
      else SFdiv 53 1024 (S754_finite neg p 0) (S754_finite false (Z.to_pos (10 ^ (- e10))) 0)
  | _ => S754_zero neg
  end.

(** The decimal exponent [n] with [10^(n-1) <= v/d < 10^n]. *)
Fixpoint dec_exp_up (fuel : nat) (v d n : Z) : Z :=
  match fuel with
  | O => n
  | S f => if v <? d * 10 ^ n then n else dec_exp_up f v d (n + 1)
  end.
Fixpoint dec_exp_down (fuel : nat) (v d n : Z) : Z :=
  match fuel with
  | O => n
  | S f => if v * 10 ^ (- n + 1) <? d then dec_exp_down f v d (n - 1) else n
  end.
Definition dec_exp (v d : Z) : Z :=
  if d <=? v then dec_exp_up 400 v d 0 else dec_exp_down 400 v d 0.

Definition scaled (v d n : Z) (k : Z) : Z * Z :=
  let sh := n - k in if 0 <=? sh then (v, d * 10 ^ sh) else (v * 10 ^ (- sh), d).

Fixpoint shortest (fuel : nat) (x : num) (v d n k : Z) : Z * Z :=
  let '(a, b) := scaled v d n k in
  let lo := a / b in
  let near := nearest a b in
  let far := if near =? lo then lo + 1 else lo in
  match fuel with
  | O => (near, k)
  | S f =>
      if dec_num false near (n - k) =! x then (near, k)
      else if dec_num false far (n - k) =! x then (far, k)
      else shortest f x v d n (k + 1)
  end.

(** [Number::toString] of a positive finite number. *)
Definition show_pos (x : num) (m : positive) (e : Z) : string :=
  let '(v, d) := exact_ratio false m e in
  let n := dec_exp v d in
  let '(s, k) := shortest 17 x v d n 1 in
  (* a carry to the next power of ten *)
  let '(s, k, n) := if s =? 10 ^ k then (10 ^ (k - 1), k, n + 1) else (s, k, n) in
  let ds := show_Z s in
  if (k <=? n) && (n <=? 21) then ds +:+ zeros (Z.to_nat (n - k))
  else if (0 <? n) && (n <=? 21) then
    take_str (Z.to_nat n) ds +:+ "." +:+ drop_str (Z.to_nat n) ds
  else if (-6 <? n) && (n <=? 0) then "0." +:+ zeros (Z.to_nat (- n)) +:+ ds
  else
    let ex := n - 1 in
    let es := (if ex <? 0 then "-" else "+") +:+ show_Z (Z.abs ex) in
    if k =? 1 then ds +:+ "e" +:+ es
    else take_str 1 ds +:+ "." +:+ drop_str 1 ds +:+ "e" +:+ es.

(** [`${x}`]. *)
Definition show_num (x : num) : string :=
  match x with
  | S754_nan => "NaN"
  | S754_infinity s => if s then "-Infinity" else "Infinity"
  | S754_zero _ => "0"
  | S754_finite s m e =>
      (if s then "-" else EmptyString) +:+ show_pos (S754_finite false m e) m e
  end.

(** [x.toFixed(digits)]. *)
Definition to_fixed (digits : nat) (x : num) : string :=
  match x with
  | S754_zero _ => place_point digits 0
  | S754_finite s m e =>
      let '(v, d) := exact_ratio false m e in
      if 10 ^ 21 * d <=? v then show_num x
      else (if s then "-" else EmptyString) +:+
           place_point digits (nearest (v * 10 ^ Z.of_nat digits) d)
  | _ => show_num x
  end.

(** ** [Number(text)] *)

Fixpoint count_digits (s : string) : nat :=
  match s with
  | String c r => if is_digit c then S (count_digits r) else O
  | EmptyString => O
  end.

Definition hex_val (c : ascii) : option Z :=
  let n := Z.of_nat (Ascii.nat_of_ascii (lower_char c)) in
  if is_digit c then Some (n - 48)
  else if (97 <=? n) && (n <=? 102) then Some (n - 87) else None.

Fixpoint radix_val (base acc : Z) (s : string) : option Z :=
  match s with
  | EmptyString => Some acc
  | String c r =>
      match hex_val c with
      | Some v => if v <? base then radix_val base (base * acc + v) r else None
      | None => None
      end
  end.

(** The exponent part: nothing, or [e] with a signed integer to the end. *)
Definition exponent_part (s : string) : option Z :=
  match s with
  | EmptyString => Some 0
  | String c r =>
      if Ascii.eqb (lower_char c) "e" then
        let '(sg, t) := match r with
                        | String "-" t => (-1, t)
                        | String "+" t => (1, t)
                        | _ => (1, r)
                        end in
        if all_digits t then Some (sg * digits_val 0 t) else None
      else None
  end.

Definition decimal_literal (neg : bool) (s : string) : num :=
  let i := count_digits s in
  let ip := take_str i s in
  let rest := drop_str i s in
  let '(fp, ex) := match rest with
                   | String "." r => let j := count_digits r in (take_str j r, drop_str j r)
                   | _ => (EmptyString, rest)
                   end in
  match exponent_part ex with
  | Some e =>
      if truthy (ip +:+ fp) then
        dec_num neg (digits_val 0 (ip +:+ fp)) (e - Z.of_nat (String.length fp))
      else nan
  | None => nan
  end.

Definition number_of_string (text : string) : num :=
  let s := trim text in
  let radix (base : Z) (digits : string) : num :=
    if truthy digits then
      match radix_val base 0 digits with Some v => num_of_Z v | None => nan end
    else nan in
  match s with
  | EmptyString => S754_zero false
  | String "0" (String c r) =>
      if Ascii.eqb (lower_char c) "x" then radix 16 r
      else if Ascii.eqb (lower_char c) "o" then radix 8 r
      else if Ascii.eqb (lower_char c) "b" then radix 2 r
      else decimal_literal false s
  | String "-" r => if str_eqb r "Infinity" then S754_infinity true else decimal_literal true r
  | String "+" r => if str_eqb r "Infinity" then infinity else decimal_literal false r
  | _ => if str_eqb s "Infinity" then infinity else decimal_literal false s
  end.

(** ** The order *)

Definition real (x : num) : Prop := is_nan x = false.

Lemma pos_cmp_swap m m' :
  PosDef.Pos.compare_cont Eq m' m = CompOpp (PosDef.Pos.compare_cont Eq m m').
Proof. symmetry. apply (Pos.compare_cont_antisym m m' Eq). Qed.

Lemma cmp_swap x y : SFcompare y x = option_map CompOpp (SFcompare x y).
Proof.
  destruct x as [[]|[]| |[] m e], y as [[]|[]| |[] m' e']; simpl; try done;
    rewrite (Z.compare_antisym e e'); destruct (e ?= e'); simpl; try done;
    rewrite (pos_cmp_swap m m'); by destruct (PosDef.Pos.compare_cont Eq m m').
Qed.

Lemma cmp_refl x : real x -> SFcompare x x = Some Eq.
Proof.
  unfold real. destruct x as [[]|[]| |[] m e]; simpl; try done;
    intros _; rewrite Z.compare_refl, Pos.compare_cont_refl; done.
Qed.

Lemma cmp_real x y : real x -> real y -> exists c, SFcompare x y = Some c.
Proof. destruct x as [[]|[]| |[] m e], y as [[]|[]| |[] m' e']; simpl; eauto; done. Qed.

Lemma cmp_nan x y : SFcompare x y = None -> is_nan x = true \/ is_nan y = true.
Proof. destruct x as [[]|[]| |[] m e], y as [[]|[]| |[] m' e']; simpl; auto; done. Qed.

Lemma num_leb_refl x : real x -> num_leb x x = true.
Proof. intros H. unfold num_leb. by rewrite cmp_refl. Qed.

Lemma num_leb_total x y : real x -> real y -> num_leb x y = true \/ num_leb y x = true.
Proof.
  intros Hx Hy. unfold num_leb. rewrite (cmp_swap x y).
  destruct (cmp_real x y Hx Hy) as [[] ->]; simpl; auto.
Qed.

Lemma num_ltb_leb x y : num_ltb x y = true -> num_leb x y = true.
Proof. unfold num_ltb, num_leb. by destruct (SFcompare x y) as [[]|]. Qed.

Lemma num_ltb_real x y : num_ltb x y = true -> real x /\ real y.
Proof. unfold num_ltb, real. destruct x, y; simpl; auto; done. Qed.

Lemma num_leb_real x y : num_leb x y = true -> real x /\ real y.
Proof. unfold num_leb, real. destruct x, y; simpl; auto; done. Qed.

Lemma num_ltb_false_leb x y : real x -> real y -> num_ltb x y = false -> num_leb y x = true.
Proof.
  intros Hx Hy. unfold num_ltb, num_leb. rewrite (cmp_swap x y).
  destruct (cmp_real x y Hx Hy) as [[] ->]; done.
Qed.

(** The two bounds of a clamp. *)
Lemma math_min_real x y : real x -> real y -> real (math_min x y).
Proof.
  intros Hx Hy. unfold math_min. destruct (cmp_real x y Hx Hy) as [[] ->]; [|done|done].
  by destruct x as [[]|[]| |[] m e].
Qed.

Lemma math_max_real x y : real x -> real y -> real (math_max x y).
Proof.
  intros Hx Hy. unfold math_max. destruct (cmp_real x y Hx Hy) as [[] ->]; [|done|done].
  by destruct x as [[]|[]| |[] m e].
Qed.

Lemma math_min_le_l x y : real x -> real y -> num_leb (math_min x y) x = true.
Proof.
  intros Hx Hy. unfold math_min.
  destruct (cmp_real x y Hx Hy) as [[] E]; rewrite E.
  - destruct x as [[]|[]| |[] m e]; try (by apply num_leb_refl).
    unfold num_leb. by rewrite cmp_swap, E.
  - by apply num_leb_refl.
  - unfold num_leb. by rewrite cmp_swap, E.
Qed.

Lemma math_max_ge_l x y : real x -> real y -> num_leb x (math_max x y) = true.
Proof.
  intros Hx Hy. unfold math_max.
  destruct (cmp_real x y Hx Hy) as [[] E]; rewrite E.
  - destruct x as [[]|[]| |[] m e]; try (by apply num_leb_refl).
    unfold num_leb. by rewrite E.
  - unfold num_leb. by rewrite E.
  - by apply num_leb_refl.
Qed.

Lemma math_min_cases x y : real x -> real y -> math_min x y = x \/ math_min x y = y.
Proof.
  intros Hx Hy. unfold math_min. destruct (cmp_real x y Hx Hy) as [[] ->]; auto.
  destruct x as [[]|[]| |[] m e]; auto.
Qed.

Lemma math_max_cases x y : real x -> real y -> math_max x y = x \/ math_max x y = y.
Proof.
  intros Hx Hy. unfold math_max. destruct (cmp_real x y Hx Hy) as [[] ->]; auto.
  destruct x as [[]|[]| |[] m e]; auto.
Qed.

(** Clamping between [lo <= hi]: [Math.min(hi, Math.max(lo, x))]. *)
Definition clamp (lo hi x : num) : num := math_min hi (math_max lo x).

Lemma clamp_bounds lo hi x :
  num_leb lo hi = true -> real x ->
  num_leb lo (clamp lo hi x) = true /\ num_leb (clamp lo hi x) hi = true.
Proof.
  intros Hle Hx. destruct (num_leb_real _ _ Hle) as [Hlo Hhi].
  assert (Hm : real (math_max lo x)) by by apply math_max_real.
  unfold clamp. split; [|by apply math_min_le_l].
  destruct (math_min_cases hi (math_max lo x)) as [->| ->]; [done..|].
  by apply math_max_ge_l.
Qed.

#[export] Hint Resolve num_leb_refl num_ltb_leb math_min_real math_max_real : js.

(** Numerals stay folded. *)
Arguments num_of_Z : simpl never.
