(* ===== verification/JsInt.v ===== *)
(** * Integers inside doubles

    JavaScript's counters, sizes and indices are doubles. On safe integers
    (at most 53 bits) the IEEE operations of [JsNum] are exact: this file proves
    that order, equality, sum, difference and product of [#a] and [#b] are those
    of [a] and [b], so that theorems about counters can be stated on [Z]. *)

From Stdlib Require Import ZArith Lia SpecFloat.
From stdpp Require Import base list.
From S2P Require Import Prelude JsNum.

(** [Number.isSafeInteger]. *)
Definition safe (z : Z) : Prop := - 2 ^ 53 < z < 2 ^ 53.

Definition bits (p : positive) : Z := Z.log2 (Z.pos p) + 1.

(** The double of an integer of at most 53 bits: its bits shifted to the top of
    the mantissa. *)
Definition exact (s : bool) (p : positive) : num :=
  S754_finite s (Z.to_pos (Z.pos p * 2 ^ (53 - bits p))) (bits p - 53).

Lemma digits2_bits p : Z.pos (digits2_pos p) = bits p.
Proof.
  unfold bits. induction p as [p IH|p IH|]; [| |done].
  - simpl digits2_pos. rewrite Pos2Z.inj_succ, IH, (Pos2Z.inj_xI p), Z.log2_succ_double by lia. lia.
  - simpl digits2_pos. rewrite Pos2Z.inj_succ, IH, (Pos2Z.inj_xO p), Z.log2_double by lia. lia.
Qed.

Lemma bits_pos p : 1 <= bits p.
Proof. unfold bits. pose proof (Z.log2_nonneg (Z.pos p)). lia. Qed.

Lemma bits_safe p : safe (Z.pos p) -> bits p <= 53.
Proof.
  intros [_ H]. unfold bits. apply (Z.log2_lt_pow2 (Z.pos p) 53) in H; lia.
Qed.

Lemma bits_shift p k : 0 <= k -> bits (Z.to_pos (Z.pos p * 2 ^ k)) = bits p + k.
Proof.
  intros Hk. pose proof (Z.pow_pos_nonneg 2 k). unfold bits.
  rewrite Z2Pos.id by nia. rewrite Z.log2_mul_pow2 by lia. lia.
Qed.

Lemma iter_pos_nat {A} (f : A -> A) n x : SpecFloat.iter_pos f n x = Nat.iter (Pos.to_nat n) f x.
Proof.
  revert x. induction n as [n IH|n IH|]; intro x; simpl SpecFloat.iter_pos; [| |done].
  - rewrite !IH, <- Nat.iter_add, Pos2Nat.inj_xI, <- Nat.iter_succ_r. f_equal. lia.
  - rewrite !IH, <- Nat.iter_add, Pos2Nat.inj_xO. f_equal. lia.
Qed.

Lemma shl_iter p n : Z.pos (Pos.iter xO p n) = Z.pos p * 2 ^ Z.pos n.
Proof.
  induction n as [|n IH] using Pos.peano_ind; [simpl; lia|].
  rewrite Pos.iter_succ, Pos2Z.inj_xO, IH, Pos2Z.inj_succ, Z.pow_succ_r by lia. lia.
Qed.

Definition plain (m : Z) : shr_record := {| shr_m := m; shr_r := false; shr_s := false |}.

Lemma shr_iter p (n : nat) :
  Nat.iter n shr_1 (plain (Z.pos p * 2 ^ Z.of_nat n)) = plain (Z.pos p).
Proof.
  induction n as [|n IH]; [simpl; f_equal; lia|].
  rewrite Nat.iter_succ_r.
  replace (Z.pos p * 2 ^ Z.of_nat (S n)) with (2 * (Z.pos p * 2 ^ Z.of_nat n))
    by (rewrite Nat2Z.inj_succ, Z.pow_succ_r by lia; ring).
  pose proof (Z.pow_pos_nonneg 2 (Z.of_nat n)).
  destruct (Z.pos p * 2 ^ Z.of_nat n) as [|q|q] eqn:E; [lia| |lia].
  exact IH.
Qed.

Lemma shr_exact p e k :
  0 <= k -> shr (plain (Z.pos p * 2 ^ k)) e k = (plain (Z.pos p), e + k).
Proof.
  intros Hk. destruct k as [|k|k]; [|simpl shr|lia].
  - simpl. rewrite Z.mul_1_r, Z.add_0_r. done.
  - pose proof (shr_iter p (Pos.to_nat k)) as H. rewrite positive_nat_Z in H.
    rewrite iter_pos_nat, H. done.
Qed.

Lemma fexp_bits d : 1 <= d -> fexp 53 1024 d = d - 53.
Proof. intros. unfold fexp, emin. lia. Qed.

Lemma round_aux_exact s p k :
  bits p <= 53 -> 53 - bits p <= k ->
  binary_round_aux 53 1024 s (Z.pos p * 2 ^ k) (- k) loc_Exact = exact s p.
Proof.
  intros Hb Hk. pose proof (bits_pos p). pose proof (Z.pow_pos_nonneg 2 k).
  set (q := Z.to_pos (Z.pos p * 2 ^ (53 - bits p))).
  assert (Hq : Z.pos q = Z.pos p * 2 ^ (53 - bits p))
    by (unfold q; pose proof (Z.pow_pos_nonneg 2 (53 - bits p)); rewrite Z2Pos.id; nia).
  assert (Hbq : bits q = 53) by (unfold q; rewrite bits_shift; lia).
  assert (Hm : Z.pos p * 2 ^ k = Z.pos q * 2 ^ (bits p - 53 + k))
    by (rewrite Hq, <- Z.mul_assoc, <- Z.pow_add_r by lia; do 2 f_equal; lia).
  assert (Hd : Zdigits2 (Z.pos p * 2 ^ k) = bits p + k).
  { destruct (Z.pos p * 2 ^ k) as [|r|r] eqn:E; [nia| |nia].
    simpl Zdigits2. rewrite digits2_bits, <- (bits_shift p k), E by lia. done. }
  unfold binary_round_aux, shr_fexp.
  rewrite Hd. replace (bits p + k + - k) with (bits p) by lia. rewrite fexp_bits by lia.
  replace (bits p - 53 - - k) with (bits p - 53 + k) by lia.
  change (shr_record_of_loc (Z.pos p * 2 ^ k) loc_Exact) with (plain (Z.pos p * 2 ^ k)).
  rewrite Hm, shr_exact by lia. simpl round_nearest_even.
  simpl Zdigits2. rewrite digits2_bits, Hbq.
  replace (53 + (- k + (bits p - 53 + k))) with (bits p) by lia. rewrite fexp_bits by lia.
  replace (bits p - 53 - (- k + (bits p - 53 + k))) with 0 by lia.
  simpl shr. simpl. rewrite (proj2 (Z.leb_le _ 971)) by lia. unfold exact.
  f_equal; lia.
Qed.

Lemma round_exact s p k :
  bits p <= 53 -> 0 <= k ->
  binary_round 53 1024 s (Z.to_pos (Z.pos p * 2 ^ k)) (- k) = exact s p.
Proof.
  intros Hb Hk. pose proof (bits_pos p). pose proof (Z.pow_pos_nonneg 2 k).
  unfold binary_round. rewrite digits2_bits, bits_shift by lia.
  replace (bits p + k + - k) with (bits p) by lia. rewrite fexp_bits by lia.
  unfold shl_align. destruct (bits p - 53 - - k) as [|d|d] eqn:E.
  - rewrite Z2Pos.id by nia. apply round_aux_exact; lia.
  - rewrite Z2Pos.id by nia. apply round_aux_exact; lia.
  - rewrite shl_iter, Z2Pos.id, <- Z.mul_assoc, <- Z.pow_add_r by nia.
    replace (bits p - 53) with (- (k + Z.pos d)) by lia. apply round_aux_exact; lia.
Qed.

(** The integer [z] scaled by [2^k] and normalised at [-k] is [#z]. *)
Definition exact_Z (z : Z) : num :=
  match z with Z0 => S754_zero false | Z.pos p => exact false p | Z.neg p => exact true p end.

Lemma normalize_exact z k :
  safe z -> 0 <= k -> binary_normalize 53 1024 (z * 2 ^ k) (- k) false = exact_Z z.
Proof.
  intros Hz Hk. pose proof (Z.pow_pos_nonneg 2 k). destruct z as [|p|p]; [done| |].
  - destruct (Z.pos p * 2 ^ k) as [|q|q] eqn:E; [nia| |nia].
    simpl. replace q with (Z.to_pos (Z.pos p * 2 ^ k)) by (rewrite E; done).
    apply round_exact; [apply bits_safe; done|done].
  - destruct (Z.neg p * 2 ^ k) as [|q|q] eqn:E; [nia|nia|].
    simpl. replace q with (Z.to_pos (Z.pos p * 2 ^ k)) by (replace (Z.pos p * 2 ^ k) with (Z.pos q) by lia; done).
    apply round_exact; [apply bits_safe; unfold safe in *; lia|done].
Qed.

Lemma num_of_Z_exact z : safe z -> #z = exact_Z z.
Proof. intro H. rewrite <- (normalize_exact z 0) by (done || lia). unfold num_of_Z. f_equal; lia. Qed.

(** ** Order *)

Lemma safe_bounds z : safe z -> bits (Z.to_pos (Z.abs z)) <= 53.
Proof. intro H. destruct z; [vm_compute; congruence| |]; apply bits_safe; unfold safe in *; simpl; lia. Qed.

Lemma exact_cmp p q :
  safe (Z.pos p) -> safe (Z.pos q) ->
  SFcompare (exact false p) (exact false q) = Some (Z.pos p ?= Z.pos q).
Proof.
  intros Hp Hq. pose proof (bits_safe p Hp). pose proof (bits_safe q Hq).
  pose proof (bits_pos p). pose proof (bits_pos q).
  unfold exact. cbn [SFcompare].
  pose proof (Z.pow_pos_nonneg 2 (53 - bits p)). pose proof (Z.pow_pos_nonneg 2 (53 - bits q)).
  replace (bits p - 53 ?= bits q - 53) with (bits p ?= bits q)
    by (destruct (Z.compare_spec (bits p) (bits q)); symmetry; rewrite ?Z.compare_eq_iff, ?Z.compare_lt_iff, ?Z.compare_gt_iff; lia).
  destruct (Z.compare_spec (bits p) (bits q)) as [E|E|E].
  - change (Pos.compare_cont Eq) with Pos.compare. f_equal.
    change ((?a ?= ?b)%positive) with (Z.pos a ?= Z.pos b).
    rewrite !Z2Pos.id, E by nia. symmetry. apply Zmult_compare_compat_r. lia.
  - f_equal. symmetry. apply Z.compare_lt_iff. unfold bits in E. apply Z.log2_lt_cancel. lia.
  - f_equal. symmetry. apply Z.compare_gt_iff. unfold bits in E. apply Z.log2_lt_cancel. lia.
Qed.

Lemma cmp_opp p q : SFcompare (exact true p) (exact true q) = SFcompare (exact false q) (exact false p).
Proof.
  unfold exact. simpl. f_equal. rewrite (Z.compare_antisym (bits q - 53)).
  destruct (_ ?= _); simpl; [|done|done].
  change (Pos.compare_cont Eq) with Pos.compare. rewrite <- Pos.compare_antisym. done.
Qed.

Lemma cmp_int a b : safe a -> safe b -> SFcompare #a #b = Some (a ?= b).
Proof.
  intros Ha Hb. rewrite !num_of_Z_exact by done.
  destruct a as [|p|p], b as [|q|q]; try done; simpl exact_Z.
  - apply exact_cmp; done.
  - rewrite cmp_opp, exact_cmp by (unfold safe in *; lia). simpl. rewrite <- Pos.compare_antisym. done.
Qed.

Lemma ltb_int a b : safe a -> safe b -> (#a <! #b) = (a <? b).
Proof. intros. unfold num_ltb. rewrite cmp_int by done. unfold Z.ltb. destruct (_ ?= _); done. Qed.
Lemma leb_int a b : safe a -> safe b -> (#a <=! #b) = (a <=? b).
Proof. intros. unfold num_leb. rewrite cmp_int by done. unfold Z.leb. destruct (_ ?= _); done. Qed.
Lemma eqb_int a b : safe a -> safe b -> (#a =! #b) = (a =? b).
Proof.
  intros. unfold num_eqb. rewrite cmp_int by done.
  destruct (Z.compare_spec a b), (Z.eqb_spec a b); (done || lia).
Qed.

(** ** Sums, differences and products *)

Lemma align_exact p k :
  bits p <= 53 -> 53 - bits p <= k ->
  Z.pos (fst (shl_align (Z.to_pos (Z.pos p * 2 ^ (53 - bits p))) (bits p - 53) (- k))) = Z.pos p * 2 ^ k.
Proof.
  intros Hb Hk. pose proof (Z.pow_pos_nonneg 2 (53 - bits p)). unfold shl_align.
  destruct (- k - (bits p - 53)) as [|d|d] eqn:E; [| lia|]; simpl fst.
  - rewrite Z2Pos.id by nia. do 2 f_equal. lia.
  - rewrite shl_iter, Z2Pos.id, <- Z.mul_assoc, <- Z.pow_add_r by nia. do 2 f_equal. lia.
Qed.

Definition pos_of (z : Z) : positive := Z.to_pos (Z.abs z).

Lemma exact_Z_nonzero z : z <> 0 -> exact_Z z = exact (z <? 0) (pos_of z).
Proof. destruct z; done. Qed.

Lemma signed_align z k :
  safe z -> z <> 0 -> 53 - bits (pos_of z) <= k ->
  cond_Zopp (z <? 0)
    (Z.pos (fst (shl_align (Z.to_pos (Z.pos (pos_of z) * 2 ^ (53 - bits (pos_of z)))) (bits (pos_of z) - 53) (- k))))
  = z * 2 ^ k.
Proof.
  intros Hz Hn Hk. rewrite align_exact by (done || (apply safe_bounds; done)).
  destruct z as [|p|p]; [done|done|]. change (- (Z.pos p * 2 ^ k) = Z.neg p * 2 ^ k). lia.
Qed.

Lemma add_int a b : safe a -> safe b -> safe (a + b) -> #a ⊕ #b = #(a + b).
Proof.
  intros Ha Hb Hs. rewrite !num_of_Z_exact by done.
  destruct (decide (a = 0)) as [->|Na]; [destruct b; done|].
  destruct (decide (b = 0)) as [->|Nb]; [rewrite Z.add_0_r; destruct a; done|].
  pose proof (safe_bounds a Ha). pose proof (safe_bounds b Hb).
  rewrite (exact_Z_nonzero a), (exact_Z_nonzero b) by done.
  unfold exact, num_add. cbn [SFadd].
  set (k := Z.max (53 - bits (pos_of a)) (53 - bits (pos_of b))).
  replace (Z.min _ _) with (- k) by (unfold k; lia).
  rewrite !signed_align, <- Z.mul_add_distr_r by (done || unfold k; lia).
  apply normalize_exact; [done|unfold k, pos_of in *; lia].
Qed.

Lemma sub_int a b : safe a -> safe b -> safe (a - b) -> #a ⊖ #b = #(a - b).
Proof.
  intros Ha Hb Hs. rewrite !num_of_Z_exact by done.
  destruct (decide (a = 0)) as [->|Na]; [destruct b; done|].
  destruct (decide (b = 0)) as [->|Nb]; [rewrite Z.sub_0_r; destruct a; done|].
  pose proof (safe_bounds a Ha). pose proof (safe_bounds b Hb).
  rewrite (exact_Z_nonzero a), (exact_Z_nonzero b) by done.
  unfold exact, num_sub. cbn [SFsub].
  set (k := Z.max (53 - bits (pos_of a)) (53 - bits (pos_of b))).
  replace (Z.min _ _) with (- k) by (unfold k; lia).
  rewrite !signed_align, <- Z.mul_sub_distr_r by (done || unfold k; lia).
  apply normalize_exact; [done|unfold k, pos_of in *; lia].
Qed.

Lemma bits_mul p q : bits p + bits q - 1 <= bits (p * q).
Proof. unfold bits. rewrite Pos2Z.inj_mul. pose proof (Z.log2_mul_below (Z.pos p) (Z.pos q)). lia. Qed.

Lemma mul_int a b : safe a -> safe b -> safe (a * b) -> a * b <> 0 -> #a ⊗ #b = #(a * b).
Proof.
  intros Ha Hb Hs Hn. rewrite !num_of_Z_exact by done.
  pose proof (safe_bounds a Ha). pose proof (safe_bounds b Hb). pose proof (safe_bounds _ Hs).
  rewrite (exact_Z_nonzero a), (exact_Z_nonzero b), (exact_Z_nonzero (a * b)) by lia.
  assert (Hp : pos_of (a * b) = (pos_of a * pos_of b)%positive) by (destruct a, b; done).
  assert (Hx : (a * b <? 0) = xorb (a <? 0) (b <? 0)) by (destruct a, b; done).
  fold (pos_of (a * b)) in *. rewrite Hp, Hx in *.
  pose proof (bits_mul (pos_of a) (pos_of b)).
  fold (pos_of a) in *. fold (pos_of b) in *.
  unfold exact at 1 2. unfold num_mul. cbn [SFmul].
  set (k := 53 - bits (pos_of a) + (53 - bits (pos_of b))).
  replace (bits (pos_of a) - 53 + (bits (pos_of b) - 53)) with (- k) by (unfold k; lia).
  pose proof (Z.pow_pos_nonneg 2 (53 - bits (pos_of a))).
  pose proof (Z.pow_pos_nonneg 2 (53 - bits (pos_of b))).
  rewrite Pos2Z.inj_mul, !Z2Pos.id by nia.
  replace (_ * _) with (Z.pos (pos_of a * pos_of b) * 2 ^ k)
    by (unfold k; rewrite Z.pow_add_r, Pos2Z.inj_mul by lia; ring).
  apply round_aux_exact; [done|unfold k; lia].
Qed.

(** ** Safe integers are ordinary numbers *)

Lemma finite_int z : safe z -> is_finite #z = true.
Proof. intro H. rewrite num_of_Z_exact by done. destruct z; done. Qed.

Lemma real_int z : safe z -> real #z.
Proof. intro H. rewrite num_of_Z_exact by done. destruct z; done. Qed.

Lemma truthy_int z : safe z -> num_truthy #z = negb (z =? 0).
Proof. intro H. rewrite num_of_Z_exact by done. destruct z; done. Qed.

Lemma max_int a b : safe a -> safe b -> math_max #a #b = #(Z.max a b).
Proof.
  intros Ha Hb. unfold math_max. rewrite cmp_int by done.
  destruct (Z.compare_spec a b) as [->|H|H].
  - rewrite Z.max_id, num_of_Z_exact by done. destruct b; done.
  - rewrite Z.max_r by lia. done.
  - rewrite Z.max_l by lia. done.
Qed.

Lemma min_int a b : safe a -> safe b -> math_min #a #b = #(Z.min a b).
Proof.
  intros Ha Hb. unfold math_min. rewrite cmp_int by done.
  destruct (Z.compare_spec a b) as [->|H|H].
  - rewrite Z.min_id, num_of_Z_exact by done. destruct b; done.
  - rewrite Z.min_l by lia. done.
  - rewrite Z.min_r by lia. done.
Qed.

(** Equal numbers are the same double, up to the sign of zero. *)
Lemma eqb_eq x y :
  (x =! y) = true -> x = y \/ (exists s s', x = S754_zero s /\ y = S754_zero s').
Proof.
  unfold num_eqb. destruct x as [s|s| |s m e], y as [s'|s'| |s' m' e']; simpl; try done; eauto;
    try (destruct s; done); try (destruct s'; done).
  - destruct s, s'; (done || eauto).
  - intro H. left. destruct s, s'; try done;
      destruct (Z.compare_spec e e') as [->|?|?]; try done;
      change (PosDef.Pos.compare_cont Eq m m') with (Pos.compare m m') in H;
      destruct (Pos.compare_spec m m') as [->|?|?]; done.
Qed.

#[export] Hint Resolve real_int finite_int : js.

Lemma num_to_Z_int z : safe z -> num_to_Z #z = z.
Proof.
  intro H. rewrite num_of_Z_exact by done. pose proof (safe_bounds z H) as Hb.
  destruct z as [|p|p]; [done| |]; simpl exact_Z; unfold exact, num_to_Z, exact_ratio;
    change (Z.abs _) with (Z.pos p) in Hb; simpl Z.to_pos in Hb;
    pose proof (bits_pos p); pose proof (Z.pow_pos_nonneg 2 (53 - bits p));
    (destruct (Z.leb_spec 0 (bits p - 53));
      [replace (bits p) with 53 by lia; simpl Z.pow; rewrite Z.div_1_r|replace (- (bits p - 53)) with (53 - bits p) by lia]).
  - change (Z.pos (Z.to_pos (Z.pos p * 1)) * 1 = Z.pos p). lia.
  - rewrite Z2Pos.id by nia. apply Z.div_mul. lia.
  - change (Z.neg (Z.to_pos (Z.pos p * 1)) * 1 = Z.neg p). lia.
  - rewrite <- Pos2Z.opp_pos, Z2Pos.id by nia.
    replace (- (Z.pos p * 2 ^ (53 - bits p))) with (Z.neg p * 2 ^ (53 - bits p)) by lia.
    apply Z.div_mul. lia.
Qed.

(** A whole number rounds to itself. *)
Lemma round_int z : safe z -> 0 <= z -> math_round #z = #z.
Proof.
  intros H Hz. pose proof (num_to_Z_int z H) as Hn. rewrite num_of_Z_exact in * by done.
  destruct z as [|p|p]; [done| |lia]. simpl exact_Z in *. unfold exact, math_round, num_to_Z in *.
  pose proof (safe_bounds _ H) as Hb. change (Z.abs _) with (Z.pos p) in Hb. simpl Z.to_pos in Hb.
  pose proof (bits_pos p). pose proof (Z.pow_pos_nonneg 2 (53 - bits p)).
  assert (Hr : exists d, 0 < d /\ exact_ratio false (Z.to_pos (Z.pos p * 2 ^ (53 - bits p))) (bits p - 53) = (Z.pos p * d, d)).
  { unfold exact_ratio. destruct (Z.leb_spec 0 (bits p - 53)).
    - replace (bits p) with 53 by lia. exists 1. split; [lia|]. simpl. f_equal. lia.
    - replace (- (bits p - 53)) with (53 - bits p) by lia. exists (2 ^ (53 - bits p)). split; [lia|].
      rewrite Z2Pos.id by nia. done. }
  destruct Hr as (d & Hd & ->). replace ((2 * (Z.pos p * d) + d) / (2 * d)) with (Z.pos p).
  - unfold integral. destruct (Z.eqb_spec (Z.pos p) 0); [done|]. apply num_of_Z_exact. done.
  - apply Z.div_unique with d; lia.
Qed.

Lemma rem_int a b : safe a -> safe b -> 0 <= a -> 0 < b -> num_rem #a #b = #(a mod b).
Proof.
  intros Ha Hb Ha0 Hb0. pose proof (Z.mod_pos_bound a b Hb0). pose proof (Z.mod_le a b Ha0 Hb0).
  rewrite !num_of_Z_exact by (done || unfold safe in *; lia).
  destruct a as [|p|p]; [rewrite Z.mod_0_l by lia; destruct b; (done || lia)| |lia]. destruct b as [|q|q]; [lia| |lia].
  pose proof (bits_safe p Ha). pose proof (bits_safe q Hb). pose proof (bits_pos p). pose proof (bits_pos q).
  simpl exact_Z at 1 2. unfold exact, num_rem.
  set (k := Z.max (53 - bits p) (53 - bits q)).
  replace (Z.min _ _) with (- k) by (unfold k; lia).
  assert (0 < 2 ^ (53 - bits p)) by (apply Z.pow_pos_nonneg; lia).
  assert (0 < 2 ^ (53 - bits q)) by (apply Z.pow_pos_nonneg; lia).
  assert (0 < 2 ^ k) by (apply Z.pow_pos_nonneg; unfold k; lia).
  rewrite !Z2Pos.id, <- !Z.mul_assoc, <- !Z.pow_add_r by (try (unfold k; lia); apply Z.mul_pos_pos; lia).
  replace (53 - bits p + (bits p - 53 - - k)) with k by lia.
  replace (53 - bits q + (bits q - 53 - - k)) with k by lia.
  rewrite Z.mul_mod_distr_r by lia.
  destruct (Z.eqb_spec (Z.pos p mod Z.pos q * 2 ^ k) 0) as [E|E].
  - replace (Z.pos p mod Z.pos q) with 0 by nia. done.
  - apply normalize_exact; unfold safe in *; unfold k; lia.
Qed.

(** ** Arithmetic on finite numbers is never [NaN] *)

Lemma shr_1_nonneg r : 0 <= shr_m r -> 0 <= shr_m (shr_1 r).
Proof. destruct r as [[|[]|] ? ?]; simpl; lia. Qed.

Lemma shr_nonneg r e n : 0 <= shr_m r -> 0 <= shr_m (shr r e n).1.
Proof.
  intro H. destruct n as [|n|n]; simpl; try done. rewrite iter_pos_nat.
  induction (Pos.to_nat n) as [|k IH]; [done|]. apply (shr_1_nonneg _ IH).
Qed.

Lemma shr_fexp_nonneg m e l : 0 <= m -> 0 <= shr_m (shr_fexp 53 1024 m e l).1.
Proof. intro H. apply shr_nonneg. destruct l as [|[]]; done. Qed.

Lemma round_nonneg m l : 0 <= m -> 0 <= round_nearest_even m l.
Proof. destruct l as [|[]]; simpl; try lia. destruct (Z.even m); lia. Qed.

Lemma real_round s m e l : 0 <= m -> real (binary_round_aux 53 1024 s m e l).
Proof.
  intro H. unfold binary_round_aux.
  pose proof (shr_fexp_nonneg m e l H) as H1. destruct (shr_fexp 53 1024 m e l) as [r1 e1]. simpl in H1.
  pose proof (shr_fexp_nonneg _ e1 loc_Exact (round_nonneg _ (loc_of_shr_record r1) H1)) as H2.
  destruct (shr_fexp 53 1024 _ e1 loc_Exact) as [r2 e2]. simpl in H2.
  destruct (shr_m r2); [done| |lia]. destruct (e2 <=? 1024 - 53); done.
Qed.

Lemma real_normalize m e s : real (binary_normalize 53 1024 m e s).
Proof.
  destruct m as [|p|p]; [done| |]; simpl; unfold binary_round;
    destruct (shl_align _ _ _); apply real_round; lia.
Qed.

Lemma real_add x y : is_finite x = true -> is_finite y = true -> real (x ⊕ y).
Proof. destruct x as [[]| | |], y as [[]| | |]; try done; intros _ _; apply real_normalize. Qed.
Lemma real_sub x y : is_finite x = true -> is_finite y = true -> real (x ⊖ y).
Proof. destruct x as [[]| | |], y as [[]| | |]; try done; intros _ _; apply real_normalize. Qed.
Lemma real_mul x y : is_finite x = true -> is_finite y = true -> real (x ⊗ y).
Proof. destruct x, y; try done; intros _ _; apply real_round; lia. Qed.

Lemma div_mantissa m1 e1 m2 e2 :
  0 <= m1 -> 0 < m2 -> 0 <= (SFdiv_core_binary 53 1024 m1 e1 m2 e2).1.1.
Proof.
  intros H1 H2. unfold SFdiv_core_binary.
  set (m' := match _ with Z0 => m1 | Z.pos _ => _ | Z.neg _ => 0 end).
  assert (0 <= m') by (unfold m'; case_match; [done|apply Z.shiftl_nonneg; done|lia]).
  pose proof (Z.div_pos m' m2 H H2) as Hd. unfold Z.div in Hd. destruct (Z.div_eucl m' m2). exact Hd.
Qed.

(** A quotient is [NaN] only for 0/0 and infinities. *)
Lemma real_div x y : is_finite x = true -> real y -> num_truthy y = true -> real (x ⊘ y).
Proof.
  destruct x as [s|s| |s m e], y as [s'|s'| |s' m' e']; try done. intros _ _ _.
  unfold num_div. cbn [SFdiv].
  pose proof (div_mantissa (Z.pos m) e (Z.pos m') e' ltac:(lia) ltac:(lia)) as H.
  destruct (SFdiv_core_binary _ _ _ _ _ _) as [[mz ez] lz]. apply real_round. exact H.
Qed.

Lemma real_div_inf s y : is_finite y = true -> real (S754_infinity s ⊘ y).
Proof. destruct y; done. Qed.

Lemma real_integral s z : real (integral s z).
Proof. unfold integral. destruct (z =? 0); [done|apply real_normalize]. Qed.

Lemma real_floor x : real x -> real (math_floor x).
Proof. destruct x; try done. intros _. unfold math_floor. destruct (exact_ratio _ _ _). apply real_integral. Qed.
Lemma real_round_js x : real x -> real (math_round x).
Proof. destruct x; try done. intros _. unfold math_round. destruct (exact_ratio _ _ _). apply real_integral. Qed.
Lemma real_ceil x : real x -> real (math_ceil x).
Proof. destruct x; try done. intros _. unfold math_ceil. destruct (exact_ratio _ _ _). apply real_integral. Qed.

#[export] Hint Resolve real_add real_sub real_mul real_floor real_round_js real_ceil math_max_real math_min_real : js.

Lemma mul_int_nonneg a b : 0 <= a -> 0 <= b -> safe a -> safe b -> safe (a * b) -> #a ⊗ #b = #(a * b).
Proof.
  intros Ha Hb Hsa Hsb Hs. destruct (decide (a * b = 0)) as [E|E]; [|apply mul_int; done].
  rewrite !num_of_Z_exact by done. rewrite E. destruct a, b; (done || lia).
Qed.
