(* ===== verification/JsText.v ===== *)
(** * Numbers as text, and sets of texts

    What [String(n)] writes for a non-negative integer, [Number] and [parseInt] read
    back; the decimal digits behind that. A JavaScript [Set] of strings is the list of
    its members in the order they were added. *)

From Stdlib Require Import Ascii ZArith Lia SpecFloat.
From stdpp Require Import base list strings option pretty sets.
From S2P Require Import Prelude JsString JsNum JsInt.

(** ** Sets *)

Definition set_add (u : string) (l : list string) : list string := if str_in u l then l else l ++ [u].
Definition set_delete (u : string) (l : list string) : list string := keep (fun x => negb (x =s u)) l.

Lemma elem_set_delete u v l : v ∈ set_delete u l <-> v ∈ l /\ v <> u.
Proof. unfold set_delete. rewrite elem_of_keep, negb_true_iff, str_eqb_neq. done. Qed.

Lemma elem_set_add u v l : v ∈ set_add u l <-> v ∈ l \/ v = u.
Proof.
  unfold set_add. destruct (str_in u l) eqn:E; [apply str_in_iff in E|]; [naive_solver|]. rewrite elem_of_app, list_elem_of_singleton. done.
Qed.

Lemma NoDup_set_add u l : NoDup l -> NoDup (set_add u l).
Proof.
  intros H. unfold set_add. destruct (str_in u l) eqn:E; [done|]. apply str_in_not in E. apply NoDup_app. split; [done|].
  split; [|apply NoDup_singleton]. intros x Hx ->%list_elem_of_singleton. done.
Qed.

Lemma NoDup_set_delete u l : NoDup l -> NoDup (set_delete u l).
Proof. apply NoDup_keep. Qed.

(** ** [parseFloat] *)

(** [parseFloat(text)]: the longest decimal number the text begins with. *)
Definition parse_float (text : string) : num :=
  let t := trim_start text in
  let '(neg, body) := match t with String "-" r => (true, r) | String "+" r => (false, r) | _ => (false, t) end in
  if starts_with body "Infinity" then (if neg then S754_infinity true else infinity)
  else
    let i := count_digits body in
    let ip := take_str i body in
    let rest := drop_str i body in
    let '(fp, ex) := match rest with
                     | String "." r => let j := count_digits r in (take_str j r, drop_str j r)
                     | _ => (EmptyString, rest)
                     end in
    let e := match ex with
             | String c r =>
                 if Ascii.eqb (lower_char c) "e" then
                   let '(sg, u) := match r with String "-" u => (-1, u) | String "+" u => (1, u) | _ => (1, r) end in
                   sg * digits_val 0 (take_str (count_digits u) u)
                 else 0
             | EmptyString => 0
             end in
    if truthy (ip +:+ fp) then dec_num neg (digits_val 0 (ip +:+ fp)) (e - Z.of_nat (String.length fp)) else nan.

(** ** Decimal digits *)

Lemma char_digit x : is_digit (pretty_N_char x) = true.
Proof. destruct x as [|p]; [done|]. by do 4 (destruct p as [p|p|]; try done). Qed.

Lemma pretty_go_digits n s : str_forall is_digit s = true -> str_forall is_digit (pretty_N_go n s) = true.
Proof.
  revert s. induction (N.lt_wf_0 n) as [n _ IH]. intros s Hs. destruct (decide (n = 0)%N) as [->|Hn]; [by rewrite pretty_N_go_0|].
  rewrite pretty_N_go_step by lia. apply IH; [apply N.div_lt; lia|].
  assert (Hc : is_digit (pretty_N_char (n mod 10)) = true) by apply char_digit.
  cbn [str_forall]. by rewrite Hc.
Qed.

Lemma show_Z_digits n : 0 <= n -> str_forall is_digit (show_Z n) = true.
Proof.
  intros H. unfold show_Z, pretty, pretty_Z. destruct n as [|p|p]; [done| |lia]. 
  unfold pretty_positive, pretty, pretty_N. destruct (decide _); [done|]. by apply pretty_go_digits.
Qed.

Lemma digits_no_char s c : str_forall is_digit s = true -> is_digit c = false -> has_char c s = false.
Proof.
  intros Hs Hc. unfold has_char. apply negb_false_iff. induction s as [|d s IH]; [done|]. simpl in *.
  apply andb_true_iff in Hs as [Hd Hs]. rewrite IH by done. rewrite andb_true_r. apply negb_true_iff, Ascii.eqb_neq. congruence.
Qed.

Lemma has_char_cons c d s : has_char c (String d s) = Ascii.eqb d c || has_char c s.
Proof. unfold has_char. simpl. rewrite negb_andb. by rewrite negb_involutive. Qed.

(** Two texts up to their first [c]. *)
Lemma first_piece c s t a b : has_char c s = false -> has_char c t = false -> s +:+ String c a = t +:+ String c b -> s = t.
Proof.
  revert t. induction s as [|d s IH]; intros [|e t] Hs Ht E; try done; injection E as E1 E2.
  - subst. by rewrite has_char_cons, Ascii.eqb_refl in Ht.
  - subst. by rewrite has_char_cons, Ascii.eqb_refl in Hs.
  - subst. f_equal. rewrite has_char_cons in Hs, Ht. apply orb_false_iff in Hs as [_ Hs], Ht as [_ Ht]. by apply (IH t).
Qed.

Lemma digits_val_go n s : digits_val 0 (pretty_N_go n s) = digits_val (Z.of_N n) s.
Proof.
  revert s. induction (N.lt_wf_0 n) as [n _ IH]. intros s. destruct (decide (n = 0)%N) as [->|Hn]; [by rewrite pretty_N_go_0|].
  rewrite pretty_N_go_step by lia. rewrite IH by (apply N.div_lt; lia). cbn [digits_val]. rewrite char_digit. f_equal.
  assert (Hv : forall m, (m < 10)%N -> digit_val (pretty_N_char m) = Z.of_N m).
  { intros [|m] Hm; [done|]. by do 4 (destruct m as [m|m|]; try done). }
  rewrite Hv by (apply N.mod_lt; lia). rewrite N2Z.inj_div, N2Z.inj_mod. pose proof (Z.div_mod (Z.of_N n) 10). lia.
Qed.

Lemma digits_val_show n : 0 <= n -> digits_val 0 (show_Z n) = n.
Proof.
  intros H. unfold show_Z, pretty, pretty_Z. destruct n as [|p|p]; [done| |lia]. unfold pretty_positive, pretty, pretty_N.
  destruct (decide _); [done|]. by rewrite digits_val_go.
Qed.

Lemma parse_int_show n : 0 <= n -> parse_int (show_Z n) = Some n.
Proof.
  intros H. pose proof (show_Z_digits n H) as Hd. unfold parse_int.
  rewrite trim_start_id by (destruct (show_Z n) as [|c r]; [done|]; simpl in Hd; apply andb_true_iff in Hd as [Hd _]; by apply is_digit_not_space).
  pose proof (digits_val_show n H) as Hv.
  assert (Hne : show_Z n <> EmptyString) by (intros E; rewrite E in Hv; simpl in Hv; subst n; done).
  destruct (show_Z n) as [|c r] eqn:E; [done|]. cbn [str_forall] in Hd. apply andb_true_iff in Hd as [Hc _].
  destruct c as [[] [] [] [] [] [] [] []]; try discriminate Hc; cbv beta iota; rewrite <- Hv; done.
Qed.

Lemma digits_val_app acc s t : str_forall is_digit s = true -> digits_val acc (s +:+ t) = digits_val (digits_val acc s) t.
Proof.
  revert acc. induction s as [|c s IH]; intros acc; [done|]. cbn [str_forall digits_val]. intros [Hc Hs]%andb_true_iff.
  change (String c s +:+ t) with (String c (s +:+ t)). cbn [digits_val]. rewrite Hc. by apply IH.
Qed.

Lemma zeros_digits n : str_forall is_digit (zeros n) = true.
Proof. induction n as [|n IH]; [done|]. exact IH. Qed.

Lemma digits_val_zeros acc n : digits_val acc (zeros n) = acc * 10 ^ Z.of_nat n.
Proof.
  revert acc. induction n as [|n IH]; intros acc; [cbn; lia|]. change (zeros (S n)) with (String "0" (zeros n)). cbn [digits_val].
  change (is_digit "0") with true. cbv beta iota. rewrite IH. change (digit_val "0") with 0. rewrite Nat2Z.inj_succ, Z.pow_succ_r by lia. lia.
Qed.

Lemma count_all_digits s : str_forall is_digit s = true -> count_digits s = String.length s.
Proof. induction s as [|c s IH]; [done|]. simpl. intros [-> Hs]%andb_true_iff. by rewrite IH. Qed.

Lemma take_str_all s : take_str (String.length s) s = s.
Proof. induction s as [|c s IH]; simpl; [done|]. by rewrite IH. Qed.

Lemma drop_str_all s : drop_str (String.length s) s = EmptyString.
Proof. induction s as [|c s IH]; simpl; done. Qed.

(** ** Reading a number back *)

Lemma number_of_digits s :
  s <> EmptyString -> str_forall is_digit s = true -> number_of_string s = dec_num false (digits_val 0 s) 0.
Proof.
  intros Hne Hd. unfold number_of_string.
  rewrite trim_no_space.
  2:{ revert Hd. clear. induction s as [|c s IH]; [done|]. simpl. intros [Hc Hs]%andb_true_iff. by rewrite (is_digit_not_space c Hc), IH. }
  assert (E : decimal_literal false s = dec_num false (digits_val 0 s) 0).
  { unfold decimal_literal. rewrite count_all_digits, take_str_all, drop_str_all by done. cbn [exponent_part].
    rewrite str_app_nil_r. destruct s; [done|]. by cbn. }
  destruct s as [|c r]; [done|]. cbn [str_forall] in Hd. apply andb_true_iff in Hd as [Hc Hr].
  destruct c as [[] [] [] [] [] [] [] []]; try discriminate Hc; try exact E.
  destruct r as [|c2 r]; [exact E|]. cbn [str_forall] in Hr. apply andb_true_iff in Hr as [Hc2 _].
  destruct c2 as [[] [] [] [] [] [] [] []]; try discriminate Hc2; exact E.
Qed.

(** ** Writing an integer *)

Lemma dec_num_int z j : 0 < z -> 0 <= j -> dec_num false z j = #(z * 10 ^ j).
Proof.
  intros Hz Hj. destruct z as [|p|p]; [lia| |lia]. unfold dec_num. rewrite (proj2 (Z.leb_le 0 j) Hj). unfold num_of_Z. f_equal. lia.
Qed.

Lemma dec_exp_up_spec z d fuel n :
  0 < d -> z < 10 ^ (n + Z.of_nat fuel) -> 0 <= n -> 10 ^ (n - 1) <= z \/ n = 0 ->
  let r := dec_exp_up fuel (z * d) d n in z < 10 ^ r /\ n <= r <= n + Z.of_nat fuel /\ (10 ^ (r - 1) <= z \/ r = 0).
Proof.
  intros Hd. revert n. induction fuel as [|f IH]; intros n Hz Hn Hl; simpl.
  { split; [by rewrite Z.add_0_r in Hz|]. split; [lia|done]. }
  destruct (z * d <? d * 10 ^ n) eqn:E.
  - apply Z.ltb_lt in E. split; [nia|]. split; [lia|done].
  - apply Z.ltb_ge in E. specialize (IH (n + 1)). rewrite Nat2Z.inj_succ in Hz.
    destruct IH as (H1 & H2 & H3); [by replace (n + 1 + Z.of_nat f) with (n + Z.succ (Z.of_nat f)) by lia|lia| |].
    + left. replace (n + 1 - 1) with n by lia. nia.
    + split; [done|]. split; [lia|done].
Qed.

Lemma shortest_int z d n fuel k :
  0 < z -> 0 < d -> safe z -> 0 <= k <= n -> n - k <= Z.of_nat fuel ->
  let '(s, k') := shortest fuel #z (z * d) d n k in dec_num false s (n - k') = #z /\ k <= k' <= n.
Proof.
  intros Hz Hd Hs. revert k. 
  assert (Hx : forall s j, (dec_num false s j =! #z) = true -> dec_num false s j = #z).
  { intros s j He. apply eqb_eq in He as [?|(b & b' & _ & H0)]; [done|]. pose proof (truthy_int z Hs) as Ht. rewrite H0 in Ht.
    cbn in Ht. symmetry in Ht. apply negb_false_iff, Z.eqb_eq in Ht. lia. }
  induction fuel as [|f IH]; intros k Hk Hf; cbn [shortest].
  - assert (k = n) as -> by lia. unfold scaled. rewrite Z.sub_diag. cbn [Z.leb Z.compare]. rewrite Z.pow_0_r, Z.mul_1_r.
    split; [|lia]. assert (En : nearest (z * d) d = z) by (unfold nearest; symmetry; apply (Z.div_unique_pos _ _ _ d); lia).
    rewrite En, Z.sub_diag, dec_num_int by lia. f_equal. lia.
  - destruct (scaled (z * d) d n k) as [a b] eqn:Es.
    destruct (dec_num false (nearest a b) (n - k) =! #z) eqn:E1; [split; [by apply Hx|lia]|].
    destruct (dec_num false (if nearest a b =? a / b then a / b + 1 else a / b) (n - k) =! #z) eqn:E2; [split; [by apply Hx|lia]|].
    destruct (decide (k = n)) as [->|Hne]; [exfalso|].
    2:{ specialize (IH (k + 1) ltac:(lia) ltac:(lia)). destruct (shortest f #z (z * d) d n (k + 1)) as [s' k']. destruct IH. split; [done|lia]. }
    unfold scaled in Es. rewrite Z.sub_diag in Es. cbn [Z.leb Z.compare] in Es. rewrite Z.pow_0_r, Z.mul_1_r in Es. injection Es as <- <-.
    assert (En : nearest (z * d) d = z) by (unfold nearest; symmetry; apply (Z.div_unique_pos _ _ _ d); lia).
    rewrite En, Z.sub_diag, dec_num_int, Z.pow_0_r, Z.mul_1_r in E1 by lia. rewrite (eqb_int z z) in E1 by done. by rewrite Z.eqb_refl in E1.
Qed.

(** The digits of a positive number whose value is [z]. *)
Lemma show_pos_int z m e v d :
  0 < z -> safe z -> exact_ratio false m e = (v, d) -> v = z * d -> 0 < d ->
  exists s j, 0 < s /\ 0 <= j /\ show_pos #z m e = show_Z s +:+ zeros (Z.to_nat j) /\ dec_num false (s * 10 ^ j) 0 = #z.
Proof.
  intros Hz Hs Er -> Hd. unfold show_pos. rewrite Er. unfold dec_exp.
  rewrite (proj2 (Z.leb_le _ _)) by nia.
  assert (Hb : z < 10 ^ 16) by (unfold safe in Hs; lia).
  assert (Hn : let r := dec_exp_up 400 (z * d) d 0 in z < 10 ^ r /\ 1 <= r <= 16).
  { destruct (dec_exp_up_spec z d 400 0 Hd) as (H1 & H2 & H3); [|lia|by right|].
    { etrans; [exact Hb|]. apply Z.pow_lt_mono_r; lia. }
    split; [done|]. set (r := dec_exp_up 400 (z * d) d 0) in *. 
    assert (r <> 0) by (intros E; rewrite E in H1; lia). split; [lia|].
    destruct H3 as [H3|H3]; [|lia]. destruct (decide (r <= 16)); [done|]. exfalso.
    assert (10 ^ 16 <= 10 ^ (r - 1)) by (apply Z.pow_le_mono_r; lia). lia. }
  cbv zeta in Hn. set (n := dec_exp_up 400 (z * d) d 0) in *. clearbody n. destruct Hn as [_ Hn].
  pose proof (shortest_int z d n 17 1 Hz Hd Hs ltac:(lia) ltac:(lia)) as Hsh.
  destruct (shortest 17 #z (z * d) d n 1) as [s k]. destruct Hsh as [Hv Hk].
  assert (Hsp : 0 < s).
  { destruct s as [|p|p]; [|lia|]; exfalso; pose proof (truthy_int z Hs) as Ht; rewrite <- Hv in Ht; cbn in Ht;
      symmetry in Ht; apply negb_false_iff, Z.eqb_eq in Ht; lia. }
  rewrite dec_num_int in Hv by lia.
  assert (Hcarry : forall s' k' n', 0 < s' -> k' <= n' -> n' <= 21 -> s' * 10 ^ (n' - k') = s * 10 ^ (n - k) ->
    exists s0 j, 0 < s0 /\ 0 <= j /\
      (if (k' <=? n') && (n' <=? 21) then show_Z s' +:+ zeros (Z.to_nat (n' - k'))
       else if (0 <? n') && (n' <=? 21) then take_str (Z.to_nat n') (show_Z s') +:+ "." +:+ drop_str (Z.to_nat n') (show_Z s')
       else if (-6 <? n') && (n' <=? 0) then "0." +:+ zeros (Z.to_nat (- n')) +:+ show_Z s'
       else if k' =? 1 then show_Z s' +:+ "e" +:+ (if n' - 1 <? 0 then "-" else "+") +:+ show_Z (Z.abs (n' - 1))
            else take_str 1 (show_Z s') +:+ "." +:+ drop_str 1 (show_Z s') +:+ "e" +:+ (if n' - 1 <? 0 then "-" else "+") +:+ show_Z (Z.abs (n' - 1)))
      = show_Z s0 +:+ zeros (Z.to_nat j) /\ dec_num false (s0 * 10 ^ j) 0 = #z).
  { intros s' k' n' H1 H2 H3 H4. exists s', (n' - k'). rewrite (proj2 (Z.leb_le _ _) H2), (proj2 (Z.leb_le _ _) H3). cbn [andb].
    split; [done|]. split; [lia|]. split; [done|]. rewrite H4, dec_num_int by (try lia; apply Z.mul_pos_pos; lia). rewrite <- Hv. f_equal. lia. }
  destruct (s =? 10 ^ k) eqn:Ec.
  - apply Z.eqb_eq in Ec. apply Hcarry; [apply Z.pow_pos_nonneg; lia|lia|lia|].
    rewrite Ec, <- !Z.pow_add_r by lia. f_equal. lia.
  - apply Hcarry; lia.
Qed.

(** A positive integer as a finite double, and its exact ratio. *)
Lemma ratio_int z :
  0 < z -> safe z -> exists m e d, #z = S754_finite false m e /\ exact_ratio false m e = (z * d, d) /\ 0 < d.
Proof.
  intros Hz Hs. pose proof (num_of_Z_exact z Hs) as En. pose proof (safe_bounds z Hs) as Hb. destruct z as [|p|p]; [lia| |lia].
  cbn [exact_Z] in En. change (Z.to_pos (Z.abs (Z.pos p))) with p in Hb. pose proof (bits_pos p) as Hb1.
  assert (Hp : 0 < Z.pos p * 2 ^ (53 - bits p)) by (apply Z.mul_pos_pos; [lia|apply Z.pow_pos_nonneg; lia]).
  exists (Z.to_pos (Z.pos p * 2 ^ (53 - bits p))), (bits p - 53). unfold exact_ratio. rewrite Z2Pos.id by done.
  destruct (0 <=? bits p - 53) eqn:E.
  - apply Z.leb_le in E. exists 1. split; [exact En|]. replace (bits p) with 53 by lia. cbn. split; [f_equal; lia|lia].
  - apply Z.leb_gt in E. exists (2 ^ (53 - bits p)). split; [exact En|]. split; [f_equal; f_equal; lia|apply Z.pow_pos_nonneg; lia].
Qed.

Lemma floor_int z : 0 <= z -> safe z -> math_floor #z = #z.
Proof.
  intros Hz Hs. destruct (decide (z = 0)) as [->|Hz0]; [done|]. destruct (ratio_int z ltac:(lia) Hs) as (m & e & d & E & Er & Hd).
  rewrite E at 1. unfold math_floor. rewrite Er, Z.div_mul by lia. unfold integral. by rewrite (proj2 (Z.eqb_neq z 0)).
Qed.

Lemma show_num_digits z :
  0 <= z -> safe z ->
  exists s, show_num #z = s /\ s <> EmptyString /\ str_forall is_digit s = true /\ dec_num false (digits_val 0 s) 0 = #z.
Proof.
  intros Hz Hs. destruct (decide (z = 0)) as [->|Hz0]; [by exists "0"|].
  destruct (ratio_int z ltac:(lia) Hs) as (m & e & d & E & Er & Hd).
  destruct (show_pos_int z m e (z * d) d ltac:(lia) Hs Er eq_refl Hd) as (s & j & H1 & H2 & H3 & H4).
  exists (show_Z s +:+ zeros (Z.to_nat j)). split; [|split; [|split]].
  - rewrite <- H3. rewrite E at 1. cbn [show_num]. by rewrite <- E.
  - intros E0. pose proof (digits_val_show s ltac:(lia)) as Hd0. destruct (show_Z s); [cbn in Hd0; lia|done].
  - rewrite str_forall_app, zeros_digits, show_Z_digits by lia. done.
  - rewrite digits_val_app, digits_val_zeros, digits_val_show, Z2Nat.id by (lia || (apply show_Z_digits; lia)). done.
Qed.

(** [Number(String(z))] is [z] for every safe integer that is not negative. *)
Lemma number_of_show z : 0 <= z -> safe z -> number_of_string (show_num #z) = #z.
Proof. intros Hz Hs. destruct (show_num_digits z Hz Hs) as (s & -> & H1 & H2 & H3). by rewrite number_of_digits. Qed.

Lemma all_digits_show z : 0 <= z -> safe z -> all_digits (show_num #z) = true.
Proof.
  intros Hz Hs. destruct (show_num_digits z Hz Hs) as (s & -> & H1 & H2 & _). unfold all_digits. rewrite H2, andb_true_r. by apply truthy_nonempty.
Qed.

(** ** The characters of a number's text *)

Definition numeric (c : ascii) : bool := is_digit c || Ascii.eqb c "." || Ascii.eqb c "-" || Ascii.eqb c "+" || Ascii.eqb c "e".
Definition all_numeric (s : string) : Prop := str_forall numeric s = true.

Lemma numeric_app s t : all_numeric s -> all_numeric t -> all_numeric (s +:+ t).
Proof. unfold all_numeric. intros Hs Ht. by rewrite str_forall_app, Hs, Ht. Qed.

Lemma numeric_show_Z z : all_numeric (show_Z z).
Proof.
  assert (Hd : forall n, 0 <= n -> all_numeric (show_Z n)).
  { intros n Hn. pose proof (show_Z_digits n Hn) as H. revert H. unfold all_numeric. induction (show_Z n) as [|c s IH]; [done|]. cbn [str_forall].
    intros [Hc Hs]%andb_true_iff. unfold numeric at 1. rewrite Hc. simpl. by apply IH. }
  destruct z as [|p|p]; [by apply Hd|by apply Hd|]. change (show_Z (Z.neg p)) with ("-" +:+ show_Z (Z.pos p)). apply numeric_app; [done|by apply Hd].
Qed.

Lemma numeric_zeros n : all_numeric (zeros n).
Proof. unfold zeros. induction n as [|n IH]; done. Qed.

Lemma numeric_take n s : all_numeric s -> all_numeric (take_str n s).
Proof.
  unfold all_numeric. revert n. induction s as [|c s IH]; intros [|n] H; try done. cbn [take_str str_forall] in *.
  apply andb_true_iff in H as [-> H]. by apply IH.
Qed.

Lemma numeric_drop n s : all_numeric s -> all_numeric (drop_str n s).
Proof.
  unfold all_numeric. revert n. induction s as [|c s IH]; intros [|n] H; try done. cbn [drop_str str_forall] in *.
  apply andb_true_iff in H as [_ H]. by apply IH.
Qed.

(** The text of a finite number is made of digits, points, signs and exponent marks. *)
Lemma show_num_numeric x : is_finite x = true -> all_numeric (show_num x).
Proof.
  destruct x as [s|s| |s m e]; [done..|]. intros _. unfold show_num. apply numeric_app; [by destruct s|]. unfold show_pos.
  destruct (exact_ratio false m e) as [v d]. destruct (shortest _ _ _ _ _ _) as [z k]. destruct (z =? 10 ^ k);
    repeat first [done | apply numeric_show_Z | apply numeric_zeros | apply numeric_take | apply numeric_drop
                 | match goal with |- context [if ?b then _ else _] => destruct b end | apply numeric_app].
Qed.

Lemma numeric_no_char s c : all_numeric s -> numeric c = false -> has_char c s = false.
Proof.
  intros Hs Hc. unfold has_char. apply negb_false_iff. revert Hs. unfold all_numeric. induction s as [|d s IH]; [done|]. cbn [str_forall].
  intros [Hd Hs]%andb_true_iff. rewrite IH by done. rewrite andb_true_r. apply negb_true_iff. apply not_true_is_false. intros E.
  apply Ascii.eqb_eq in E as ->. congruence.
Qed.

(** No number's text holds a comma, and none is empty. *)
Lemma show_num_no_comma x : has_char "," (show_num x) = false.
Proof.
  destruct (is_finite x) eqn:F; [apply numeric_no_char; [by apply show_num_numeric|done]|]. by destruct x as [s|[]| |s m e].
Qed.

Lemma app_nonempty_l s t : s <> EmptyString -> s +:+ t <> EmptyString.
Proof. by destruct s. Qed.
Lemma app_nonempty_r s t : t <> EmptyString -> s +:+ t <> EmptyString.
Proof. by destruct s. Qed.

Lemma show_Z_nonempty z : show_Z z <> EmptyString.
Proof.
  destruct z as [|p|p]; [done| |done]. intros E. pose proof (digits_val_show (Z.pos p) ltac:(lia)) as H. by rewrite E in H.
Qed.

Lemma show_num_nonempty x : show_num x <> EmptyString.
Proof.
  destruct x as [s|s| |s m e]; [by destruct s..|done|]. unfold show_num. apply app_nonempty_r. unfold show_pos.
  destruct (exact_ratio false m e) as [v d]. destruct (shortest _ _ _ _ _ _) as [z k]. destruct (z =? 10 ^ k);
    repeat match goal with |- (if ?b then _ else _) <> _ => destruct b end;
    auto using app_nonempty_l, app_nonempty_r, show_Z_nonempty; by apply app_nonempty_r.
Qed.
