(* ===== verification/JsDiv.v ===== *)
(** * [Math.floor(a / b)] on integers

    The quotient of two safe integers is rounded to a double, and may not be
    the rational [a / b]; its floor is still the integer quotient. The code
    relies on it wherever it counts minutes, hours, days or chart buckets. *)

From Stdlib Require Import ZArith Lia SpecFloat.
From stdpp Require Import base list.
From S2P Require Import Prelude JsNum JsInt.

(** A location that makes round-to-nearest round up. *)
Definition upper_half (l : location) : Prop := l = loc_Inexact Eq \/ l = loc_Inexact Gt.

Lemma round_cases m l :
  round_nearest_even m l = m \/ (round_nearest_even m l = m + 1 /\ upper_half l).
Proof. unfold upper_half. destruct l as [|[]]; simpl; auto. destruct (Z.even m); auto. Qed.

Lemma digits_log2 z : 0 < z -> Zdigits2 z = Z.log2 z + 1.
Proof. destruct z; try lia. intros _. simpl. rewrite digits2_bits. done. Qed.

Lemma location_half b r : 0 <= r < b -> upper_half (new_location b r) -> b <= 2 * r.
Proof.
  intros Hr. unfold new_location, new_location_even, new_location_odd, upper_half.
  destruct (Z.even b) eqn:Eb; destruct (Z.eqb_spec r 0); try (intros []; done).
  - destruct (Z.compare_spec (2 * r) b); intros [|]; (done || lia).
  - destruct (Z.compare_spec (2 * r + 1) b); intros [|]; (done || lia).
Qed.

(** The mantissa after the first rounding step of [binary_round_aux]: [q] when
    it has 53 bits, half of it when it has 54. *)
Lemma first_shift q e l t :
  2 ^ (52 + t) <= q < 2 ^ (53 + t) -> (t = 0 \/ t = 1) -> -1074 <= e + t ->
  exists r, shr_fexp 53 1024 q e l = (r, e + t) /\ shr_m r = q / 2 ^ t /\
    (upper_half (loc_of_shr_record r) -> (t = 0 /\ upper_half l) \/ (t = 1 /\ Z.odd q = true)).
Proof.
  intros Hq Ht He. unfold shr_fexp.
  assert (Hd : Zdigits2 q = 53 + t).
  { rewrite digits_log2 by (destruct Ht as [-> | ->]; lia).
    rewrite (Z.log2_unique q (52 + t)); destruct Ht as [-> | ->]; lia. }
  rewrite Hd. replace (fexp 53 1024 (53 + t + e) - e) with t by (unfold fexp, emin; lia).
  destruct Ht as [-> | ->].
  - exists (shr_record_of_loc q l). simpl shr. rewrite Z.add_0_r, Z.div_1_r.
    split; [done|]. split; [destruct l as [|[]]; done|]. intro H. left. split; [done|].
    destruct l as [|[]]; exact H.
  - simpl. exists (shr_1 (shr_record_of_loc q l)). split; [done|].
    assert (Hm : shr_m (shr_record_of_loc q l) = q) by (destruct l as [|[]]; done).
    destruct q as [|[p|p|]|p]; try (simpl in Hq; lia).
    + split; [|intros; right; done]. destruct l as [|[]]; simpl;
        rewrite (Pos2Z.inj_xI p); apply (Z.div_unique _ _ _ 1); lia.
    + split.
      * destruct l as [|[]]; simpl; rewrite (Pos2Z.inj_xO p); apply (Z.div_unique _ _ _ 0); lia.
      * destruct l as [|[]]; simpl; intros [H|H]; done.
Qed.

(** The second step only renormalises a carry into the 54th bit. *)
Lemma second_shift m e :
  2 ^ 52 <= m <= 2 ^ 53 -> -1074 <= e -> e <= 900 ->
  exists p e', match shr_m (shr_fexp 53 1024 m e loc_Exact).1 with Z.pos p' => p' = p | _ => False end /\
    (shr_fexp 53 1024 m e loc_Exact).2 = e' /\
    ((Z.pos p = m /\ e' = e) \/ (m = 2 ^ 53 /\ Z.pos p = 2 ^ 52 /\ e' = e + 1)).
Proof.
  intros Hm He1 He2. destruct (decide (m = 2 ^ 53)) as [->|Hn].
  - destruct (first_shift (2 ^ 53) e loc_Exact 1) as (r & -> & Hr & _); [lia|lia|lia|].
    exists (Z.to_pos (2 ^ 52)), (e + 1). simpl fst. simpl snd. rewrite Hr. split; [done|]. split; [done|]. right. done.
  - destruct (first_shift m e loc_Exact 0) as (r & -> & Hr & _); [lia|lia|lia|].
    simpl fst. simpl snd. rewrite Hr, Z.div_1_r. destruct m as [|p|p]; [lia| |lia].
    exists p, (e + 0). split; [done|]. split; [done|]. left. lia.
Qed.

(** What a positive quotient rounds to: [n * 2^(e + t)], [n] one of the two
    integers around the exact mantissa. *)
Lemma round_quotient q e l :
  2 ^ 52 <= q < 2 ^ 54 -> -1074 <= e -> e <= 800 ->
  exists p e2 n t,
    binary_round_aux 53 1024 false q e l = S754_finite false p e2 /\
    (t = 0 \/ t = 1) /\
    ((Z.pos p = n /\ e2 = e + t) \/ (n = 2 ^ 53 /\ Z.pos p = 2 ^ 52 /\ e2 = e + t + 1)) /\
    (n = q / 2 ^ t \/ (n = q / 2 ^ t + 1 /\ ((t = 0 /\ upper_half l) \/ (t = 1 /\ Z.odd q = true)))).
Proof.
  intros Hq He1 He2.
  set (t := if q <? 2 ^ 53 then 0 else 1).
  assert (Ht : t = 0 \/ t = 1) by (unfold t; destruct (q <? 2 ^ 53); auto).
  assert (Hqt : 2 ^ (52 + t) <= q < 2 ^ (53 + t)) by (unfold t; destruct (Z.ltb_spec q (2 ^ 53)); simpl; lia).
  destruct (first_shift q e l t Hqt Ht) as (r & E1 & Hr & Hup); [lia|].
  unfold binary_round_aux. rewrite E1, Hr.
  set (n := round_nearest_even (q / 2 ^ t) (loc_of_shr_record r)).
  destruct (round_cases (q / 2 ^ t) (loc_of_shr_record r)) as [Hn|[Hn Hh]]; fold n in Hn;
    (assert (Hb : 2 ^ 52 <= q / 2 ^ t < 2 ^ 53)
      by (split; [apply Z.div_le_lower_bound|apply Z.div_lt_upper_bound]; destruct Ht as [-> | ->]; simpl in *; lia));
    (destruct (second_shift n (e + t)) as (p & e2 & Hp & He & Hcase); [lia|lia|lia|]);
    destruct (shr_fexp 53 1024 n (e + t) loc_Exact) as [r2 e2']; simpl in Hp, He; subst e2';
    destruct (shr_m r2) as [|p'|p']; try done; subst p';
    (exists p, e2, n, t; split; [rewrite (proj2 (Z.leb_le _ _)) by lia; done|]; split; [done|]; split; [exact Hcase|]).
  - left. exact Hn.
  - right. split; [exact Hn|]. apply Hup, Hh.
Qed.

Lemma integral_int z : 0 <= z -> integral false z = #z.
Proof. intro H. unfold integral. destruct (Z.eqb_spec z 0) as [->|]; done. Qed.

(** The floor of [n / 2^k] written with either mantissa. *)
Lemma floor_scaled p e2 n k :
  0 <= k -> ((Z.pos p = n /\ e2 = - k) \/ (n = 2 ^ 53 /\ Z.pos p = 2 ^ 52 /\ e2 = - k + 1)) ->
  math_floor (S754_finite false p e2) = #(n / 2 ^ k).
Proof.
  intros Hk Hc. unfold math_floor, exact_ratio. assert (0 < 2 ^ k) by (apply Z.pow_pos_nonneg; lia).
  destruct Hc as [[Hp ->]|(-> & Hp & ->)]; rewrite ?Hp.
  - destruct (Z.leb_spec 0 (- k)).
    + replace k with 0 in * by lia. simpl Z.pow. rewrite Z.mul_1_r. apply integral_int.
      rewrite Z.div_1_r. lia.
    + rewrite Z.opp_involutive. apply integral_int, Z.div_pos; lia.
  - destruct (Z.leb_spec 0 (- k + 1)).
    + rewrite Z.div_1_r. rewrite integral_int by (apply Z.mul_nonneg_nonneg; lia). f_equal.
      assert (k = 0 \/ k = 1) as [-> | ->] by lia; done.
    + rewrite integral_int by (apply Z.div_pos; lia). f_equal.
      replace (- (- k + 1)) with (k - 1) by lia.
      replace (2 ^ k) with (2 * 2 ^ (k - 1)) by (rewrite <- Z.pow_succ_r by lia; f_equal; lia).
      change (2 ^ 53) with (2 * 2 ^ 52). rewrite Z.div_mul_cancel_l; lia.
Qed.

Lemma mantissa_bounds p (A := Z.pos p * 2 ^ (53 - bits p)) :
  safe (Z.pos p) -> 2 ^ 52 <= A < 2 ^ 53 /\ Z.log2 A = 52.
Proof.
  intro H. pose proof (bits_safe p H). pose proof (bits_pos p). unfold A in *.
  assert (Hl : Z.log2 (Z.pos p * 2 ^ (53 - bits p)) = 52)
    by (rewrite Z.log2_mul_pow2 by lia; unfold bits in *; lia).
  split; [|exact Hl]. assert (0 < 2 ^ (53 - bits p)) by (apply Z.pow_pos_nonneg; lia).
  pose proof (Z.log2_spec (Z.pos p * 2 ^ (53 - bits p)) ltac:(lia)) as Hs. rewrite Hl in Hs. exact Hs.
Qed.

Lemma div_core p q (A := Z.pos p * 2 ^ (53 - bits p)) (B := Z.pos q * 2 ^ (53 - bits q)) :
  safe (Z.pos p) -> safe (Z.pos q) ->
  SFdiv_core_binary 53 1024 A (bits p - 53) B (bits q - 53) =
  (A * 2 ^ 53 / B, bits p - bits q - 53, new_location B ((A * 2 ^ 53) mod B)).
Proof.
  intros Hp Hq. destruct (mantissa_bounds p Hp) as [Ha La]. destruct (mantissa_bounds q Hq) as [Hb Lb].
  pose proof (bits_safe p Hp). pose proof (bits_safe q Hq). pose proof (bits_pos p). pose proof (bits_pos q).
  fold A in Ha, La. fold B in Hb, Lb. unfold SFdiv_core_binary.
  rewrite !digits_log2, La, Lb by lia.
  replace (fexp 53 1024 (52 + 1 + (bits p - 53) - (52 + 1 + (bits q - 53)))) with (bits p - bits q - 53)
    by (unfold fexp, emin; lia).
  replace (Z.min (bits p - bits q - 53) (bits p - 53 - (bits q - 53))) with (bits p - bits q - 53) by lia.
  replace (bits p - 53 - (bits q - 53) - (bits p - bits q - 53)) with 53 by lia.
  rewrite Z.shiftl_mul_pow2 by lia. unfold Z.div, Z.modulo.
  destruct (Z.div_eucl (A * 2 ^ 53) B). done.
Qed.

(** The two candidates for the rounded mantissa have the same floor as [a / b]. *)
Lemma quotient_floor a b k N n t :
  0 < a -> 0 < b -> 0 <= k -> (t = 0 \/ t = 1) -> b < 2 ^ (k + 1) ->
  (** [N / 2^t] is the floor of [a * 2^k / b]. *)
  N / 2 ^ t = a * 2 ^ k / b ->
  (n = N / 2 ^ t \/ (n = N / 2 ^ t + 1 /\ b <= 2 * ((a * 2 ^ k) mod b))) ->
  n / 2 ^ k = a / b.
Proof.
  intros Ha Hb Hk Ht Hlt HN Hn. rewrite HN in Hn. assert (Hp : 0 < 2 ^ k) by (apply Z.pow_pos_nonneg; lia).
  rewrite Z.pow_add_r in Hlt by lia. simpl (2 ^ 1) in Hlt.
  assert (Hfloor : a * 2 ^ k / b / 2 ^ k = a / b)
    by (rewrite Z.div_div, (Z.mul_comm b), (Z.mul_comm a), Z.div_mul_cancel_l; lia).
  destruct Hn as [->|[-> Hr]]; [exact Hfloor|].
  pose proof (Z.div_mod (a * 2 ^ k) b ltac:(lia)) as HX.
  pose proof (Z.mod_pos_bound (a * 2 ^ k) b Hb) as Hmod.
  pose proof (Z.div_mod a b ltac:(lia)) as Hab. pose proof (Z.mod_pos_bound a b Hb) as Hm.
  set (X := a * 2 ^ k / b) in *. set (Q := a / b) in *. set (r := (a * 2 ^ k) mod b) in *.
  symmetry. apply (Z.div_unique _ _ _ (X + 1 - 2 ^ k * Q)); [|lia].
  assert (HQ : Q * 2 ^ k <= X)
    by (rewrite <- Hfloor; pose proof (Z.mul_div_le X (2 ^ k) Hp); lia).
  left. split; [lia|].
  (* b * (X + 1) < b * (Q + 1) * 2^k: the rest of [a] leaves room for half a unit *)
  assert (b * (X + 1) < b * ((Q + 1) * 2 ^ k)); [|nia].
  assert (a * 2 ^ k <= (b * (Q + 1) - 1) * 2 ^ k) by (apply Z.mul_le_mono_nonneg_r; nia).
  nia.
Qed.

(** Equal fractions have equal quotients and proportional remainders. *)
Lemma same_fraction x b y c : 0 < b -> 0 < c -> x * c = b * y -> x / b = y / c.
Proof.
  intros Hb Hc H. rewrite <- (Z.div_mul_cancel_r x b c) by lia. rewrite H.
  rewrite Z.div_mul_cancel_l by lia. done.
Qed.

Lemma same_half x b y c : 0 < b -> 0 < c -> x * c = b * y -> b <= 2 * (x mod b) -> c <= 2 * (y mod c).
Proof.
  intros Hb Hc H Hh.
  assert (x mod b * c = b * (y mod c)) by (rewrite <- Z.mul_mod_distr_r, H, Z.mul_mod_distr_l by lia; done).
  nia.
Qed.

Lemma same_quotient x b p c k t :
  0 < b -> 0 < c -> 0 <= k -> (t = 0 \/ t = 1) -> x * c = b * (p * 2 ^ (k + t)) -> x / b / 2 ^ t = p * 2 ^ k / c.
Proof.
  intros Hb Hc Hk Ht H. rewrite (same_fraction _ _ _ _ Hb Hc H).
  assert (0 < 2 ^ t) by (destruct Ht as [-> | ->]; done).
  rewrite Z.pow_add_r, Z.mul_assoc, Z.div_div, Z.div_mul_cancel_r by lia. done.
Qed.

Lemma odd_half y c : 0 < c -> Z.Odd (y * 2 / c) -> c <= 2 * (y mod c).
Proof.
  intros Hc [m Hm]. pose proof (Z.div_mod (y * 2) c ltac:(lia)). pose proof (Z.mod_pos_bound (y * 2) c Hc).
  pose proof (Z.div_mod y c ltac:(lia)). pose proof (Z.mod_pos_bound y c Hc).
  assert (y / c = m); [|nia].
  symmetry. apply (Z.div_unique _ _ _ (y - c * m)); [|lia]. left. nia.
Qed.

Lemma floor_div_int a b :
  0 <= a -> 0 < b -> safe a -> safe b -> math_floor (#a ⊘ #b) = #(a / b).
Proof.
  intros Ha Hb Hsa Hsb. rewrite (num_of_Z_exact a), (num_of_Z_exact b) by done.
  destruct a as [|p|p]; [destruct b; (done || lia)| |lia]. destruct b as [|q|q]; [lia| |lia].
  cbn [exact_Z]. unfold exact, num_div. cbn [SFdiv].
  destruct (mantissa_bounds p Hsa) as [HA _]. destruct (mantissa_bounds q Hsb) as [HB _].
  rewrite !Z2Pos.id, div_core by (done || lia). cbn [xorb].
  pose proof (bits_safe p Hsa). pose proof (bits_safe q Hsb). pose proof (bits_pos p). pose proof (bits_pos q).
  set (A := Z.pos p * 2 ^ (53 - bits p)) in *. set (B := Z.pos q * 2 ^ (53 - bits q)) in *.
  set (N := A * 2 ^ 53 / B).
  assert (HN : 2 ^ 52 <= N < 2 ^ 54)
    by (split; [apply Z.div_le_lower_bound|apply Z.div_lt_upper_bound]; lia).
  destruct (round_quotient N (bits p - bits q - 53) (new_location B ((A * 2 ^ 53) mod B)) HN)
    as (m & e2 & n & t & -> & Ht & Hcase & Hn); [lia|lia|].
  set (k := 53 - bits p + bits q - t).
  rewrite (floor_scaled m e2 n k) by (unfold k; lia). f_equal.
  (* A * 2^53 / B and p * 2^(k + t) / q are the same fraction *)
  assert (Hf : A * 2 ^ 53 * Z.pos q = B * (Z.pos p * 2 ^ (k + t))).
  { unfold A, B, k. replace (53 - bits p + bits q - t + t) with (53 - bits p + bits q) by lia.
    rewrite (Z.pow_add_r 2 (53 - bits p) (bits q)) by lia.
    replace (2 ^ 53) with (2 ^ (53 - bits q) * 2 ^ bits q) by (rewrite <- Z.pow_add_r by lia; f_equal; lia). ring. }
  assert (Hk : 0 <= k) by (unfold k; lia).
  apply (quotient_floor (Z.pos p) (Z.pos q) k N n t); try (done || lia).
  - pose proof (Z.log2_spec (Z.pos q) ltac:(lia)) as Hs.
    assert (2 ^ Z.succ (Z.log2 (Z.pos q)) <= 2 ^ (k + 1))
      by (apply Z.pow_le_mono_r; unfold k, bits in *; lia). lia.
  - apply (same_quotient (A * 2 ^ 53) B); (done || lia).
  - destruct Hn as [->|[-> Hn]]; [left; done|right]. split; [done|].
    destruct Hn as [[-> Hu]|[-> Ho]].
    + rewrite Z.add_0_r in Hf. apply (same_half (A * 2 ^ 53) B); [lia|lia|exact Hf|].
      apply location_half; [apply Z.mod_pos_bound; lia|exact Hu].
    + apply odd_half; [lia|]. rewrite <- Z.odd_spec. unfold N in Ho.
      rewrite (same_fraction (A * 2 ^ 53) B (Z.pos p * 2 ^ (k + 1)) (Z.pos q)) in Ho by (done || lia).
      rewrite Z.pow_add_r, Z.mul_assoc in Ho by lia. exact Ho.
Qed.

Lemma bits_mul_le p q : bits (p * q) <= bits p + bits q.
Proof. unfold bits. rewrite Pos2Z.inj_mul. pose proof (Z.log2_mul_above (Z.pos p) (Z.pos q)). lia. Qed.

(** A product divided by a factor is the other. *)
Lemma div_int a b : 0 < a -> 0 < b -> safe a -> safe b -> safe (a * b) -> #(a * b) ⊘ #b = #a.
Proof.
  intros Ha Hb Hsa Hsb Hsab. rewrite (num_of_Z_exact (a * b)), (num_of_Z_exact a), (num_of_Z_exact b) by done.
  destruct a as [|p|p]; try lia. destruct b as [|q|q]; try lia. change (Z.pos p * Z.pos q) with (Z.pos (p * q)) in *.
  cbn [exact_Z]. unfold exact, num_div. cbn [SFdiv].
  destruct (mantissa_bounds (p * q) Hsab) as [HA _]. destruct (mantissa_bounds q Hsb) as [HB _].
  rewrite !Z2Pos.id, div_core by (done || lia). cbn [xorb].
  pose proof (bits_safe p Hsa). pose proof (bits_safe q Hsb). pose proof (bits_safe _ Hsab). pose proof (bits_pos q). pose proof (bits_mul_le p q).
  set (k := 53 - bits (p * q) + bits q).
  assert (E : Z.pos (p * q) * 2 ^ (53 - bits (p * q)) * 2 ^ 53 = Z.pos p * 2 ^ k * (Z.pos q * 2 ^ (53 - bits q))).
  { assert (2 ^ (53 - bits (p * q)) * 2 ^ 53 = 2 ^ k * 2 ^ (53 - bits q)) by (unfold k; rewrite <- !Z.pow_add_r by lia; f_equal; lia).
    rewrite Pos2Z.inj_mul. nia. }
  rewrite E, Z.div_mul, Z.mod_mul by lia. replace (bits (p * q) - bits q - 53) with (- k) by (unfold k; lia).
  replace (new_location _ 0) with loc_Exact by (unfold new_location, new_location_even, new_location_odd; by destruct (Z.even _)).
  rewrite round_aux_exact by (unfold k; lia). done.
Qed.
