(* ===== verification/JsBounds.v ===== *)
(** * Signs and bounds of doubles

    Closure lemmas for the quantities the WebUI shows: counts, rates, percents
    and durations are never negative, and a clamped percentage is within its
    bounds. They hold for any doubles, rounding included. *)

From Stdlib Require Import ZArith Lia SpecFloat.
From stdpp Require Import base list.
From S2P Require Import Prelude JsNum JsInt.

(** Not below zero; [NaN] is not. *)
Definition nneg (x : num) : Prop := (x <! #0) = false.

Lemma nneg_shape x :
  nneg x <-> match x with S754_finite true _ _ | S754_infinity true => False | _ => True end.
Proof. destruct x as [s|[]| |[] m e]; unfold nneg, num_ltb; simpl; split; done. Qed.

Ltac nneg_cases := rewrite ?nneg_shape in *; simpl in *.

Lemma nneg_int z : 0 <= z -> nneg #z.
Proof.
  intros H. destruct z as [|p|p]; [done| |lia]. apply nneg_shape. unfold num_of_Z. simpl. unfold binary_round.
  destruct (shl_align p 0 _) as [mz ez]. unfold binary_round_aux.
  destruct (shr_fexp 53 1024 (Z.pos mz) ez loc_Exact) as [r1 e1].
  destruct (shr_fexp 53 1024 _ e1 loc_Exact) as [r2 e2].
  destruct (shr_m r2); try done. destruct (e2 <=? 1024 - 53); done.
Qed.

Lemma nneg_round_aux m e l : nneg (binary_round_aux 53 1024 false m e l).
Proof.
  apply nneg_shape. unfold binary_round_aux.
  destruct (shr_fexp 53 1024 m e l) as [r1 e1]. destruct (shr_fexp 53 1024 _ e1 loc_Exact) as [r2 e2].
  destruct (shr_m r2); try done. destruct (e2 <=? 1024 - 53); done.
Qed.

Lemma nneg_normalize m e : 0 <= m -> nneg (binary_normalize 53 1024 m e false).
Proof.
  intros H. destruct m as [|p|p]; [done| |lia]. simpl. unfold binary_round.
  destruct (shl_align p e _). apply nneg_round_aux.
Qed.

Lemma nneg_max x : nneg (math_max #0 x).
Proof.
  apply nneg_shape. unfold math_max. destruct x as [[]|[]| |[] m e]; done.
Qed.

Lemma nneg_max_l x y : nneg x -> nneg y -> nneg (math_max x y).
Proof. intros Hx Hy. unfold math_max. destruct (SFcompare x y) as [[]|]; try done. destruct x as [[]| | |]; done. Qed.

Lemma nneg_min x y : nneg x -> nneg y -> nneg (math_min x y).
Proof. intros Hx Hy. unfold math_min. destruct (SFcompare x y) as [[]|]; try done. destruct x as [[]| | |]; done. Qed.

Lemma nneg_add x y : nneg x -> nneg y -> nneg (x ⊕ y).
Proof.
  intros Hx Hy. apply nneg_shape in Hx, Hy.
  destruct x as [[]|[]| |[] m e], y as [[]|[]| |[] m' e']; try done.
  unfold num_add. cbn [SFadd]. apply nneg_normalize. simpl. lia.
Qed.

Lemma nneg_mul x y : nneg x -> nneg y -> nneg (x ⊗ y).
Proof.
  intros Hx Hy. apply nneg_shape in Hx, Hy.
  destruct x as [[]|[]| |[] m e], y as [[]|[]| |[] m' e']; try done. apply nneg_round_aux.
Qed.

Lemma nneg_div x y : nneg x -> nneg y -> num_truthy y = true -> nneg (x ⊘ y).
Proof.
  intros Hx Hy Ht. apply nneg_shape in Hx, Hy.
  destruct x as [[]|[]| |[] m e], y as [[]|[]| |[] m' e']; try done.
  unfold num_div. cbn [SFdiv]. destruct (SFdiv_core_binary _ _ _ _ _ _) as [[mz ez] lz]. apply nneg_round_aux.
Qed.

Lemma nneg_integral s z : 0 <= z -> nneg (integral s z).
Proof. intro H. unfold integral. destruct (z =? 0); [destruct s; done|apply nneg_int, H]. Qed.

Lemma ratio_nonneg m e : 0 <= (exact_ratio false m e).1 /\ 0 < (exact_ratio false m e).2.
Proof.
  unfold exact_ratio. destruct (Z.leb_spec 0 e); simpl; [split; [|lia]|split; [lia|]].
  - apply Z.mul_nonneg_nonneg; [lia|]. apply Z.pow_nonneg. lia.
  - apply Z.pow_pos_nonneg; lia.
Qed.

Lemma nneg_floor x : nneg x -> nneg (math_floor x).
Proof.
  intros Hx. apply nneg_shape in Hx as Hs. destruct x as [| | |[] m e]; try done.
  unfold math_floor. pose proof (ratio_nonneg m e). destruct (exact_ratio false m e) as [v d]. simpl in *.
  apply nneg_integral, Z.div_pos; lia.
Qed.

Lemma nneg_round x : nneg x -> nneg (math_round x).
Proof.
  intros Hx. apply nneg_shape in Hx as Hs. destruct x as [| | |[] m e]; try done.
  unfold math_round. pose proof (ratio_nonneg m e). destruct (exact_ratio false m e) as [v d]. simpl in *.
  apply nneg_integral, Z.div_pos; lia.
Qed.

Lemma nneg_ceil x : nneg x -> nneg (math_ceil x).
Proof.
  intros Hx. apply nneg_shape in Hx as Hs. destruct x as [| | |[] m e]; try done.
  unfold math_ceil. pose proof (ratio_nonneg m e). destruct (exact_ratio false m e) as [v d]. simpl in *.
  apply nneg_integral. pose proof (Z.div_le_upper_bound (- v) d 0). lia.
Qed.

Lemma nneg_pos x : (x >! #0) = true -> nneg x.
Proof. intros H. apply nneg_shape. destruct x as [|[]| |[]]; done. Qed.

Lemma pos_truthy x : (x >! #0) = true -> num_truthy x = true.
Proof. destruct x as [|[]| |[]]; done. Qed.

Lemma nneg_leb x : real x -> nneg x -> (#0 <=! x) = true.
Proof. intros Hr Hn. apply num_ltb_false_leb; [exact Hr|done|exact Hn]. Qed.

(** The cap of [Math.min(hi, x)] holds even of [NaN]. *)
Lemma min_cap hi x : is_finite hi = true -> (math_min hi x >! hi) = false.
Proof.
  intros Hf. unfold math_min. destruct (SFcompare hi x) as [[]|] eqn:E.
  - destruct hi as [[]| | |]; try (unfold num_ltb; rewrite cmp_refl; done).
    destruct x as [|[]| |[]]; done.
  - unfold num_ltb. rewrite cmp_refl by (destruct hi; done). done.
  - unfold num_ltb. rewrite E. done.
  - unfold num_ltb. destruct hi; done.
Qed.

Lemma real_mul_truthy x y : real x -> is_finite y = true -> num_truthy y = true -> real (x ⊗ y).
Proof. destruct x, y; try done; intros _ _ _. apply real_round. lia. Qed.

Lemma real_div_truthy x y : real x -> is_finite y = true -> num_truthy y = true -> real (x ⊘ y).
Proof.
  intros Hx Hy Ht. assert (real y) by (destruct y; done).
  destruct x; try done; first [apply real_div_inf; done | apply real_div; done].
Qed.

(** [Math.min(100, Math.round((part / whole) * 100))]: a percentage. *)
Definition percent_of (part whole : num) : num := math_min #100 (math_round (part ⊘ whole ⊗ #100)).

Lemma percent_bounds part whole :
  nneg part -> (whole >! #0) = true ->
  nneg (percent_of part whole) /\ (percent_of part whole >! #100) = false.
Proof.
  intros Hp Hw. split; [|apply min_cap; done].
  apply nneg_min; [done|]. apply nneg_round, nneg_mul; [|done].
  apply nneg_div; [done|apply nneg_pos, Hw|apply pos_truthy, Hw].
Qed.

Lemma percent_real part whole :
  real part -> is_finite whole = true -> (whole >! #0) = true -> real (percent_of part whole).
Proof.
  intros Hp Hf Hw. apply math_min_real; [done|]. apply real_round_js, real_mul_truthy; [|done|done].
  apply real_div_truthy; [done|done|apply pos_truthy, Hw].
Qed.

#[export] Hint Resolve nneg_max nneg_min nneg_add nneg_mul nneg_floor nneg_round nneg_ceil nneg_int : js.
