(* ===== verification/JsOrder.v ===== *)
(** * The order of doubles and comparison by subtraction

    [xs.sort((a, b) => a - b)] compares by the sign of a difference. On doubles
    (canonical mantissas, as IEEE 754 stores them) a difference is positive
    exactly when the first number is larger: subtraction never underflows to
    zero. The order itself is total and transitive on numbers. *)

From Stdlib Require Import ZArith Lia SpecFloat.
From stdpp Require Import base list.
From S2P Require Import Prelude JsNum JsInt JsBounds.

(** The representation of a double: every value a JavaScript number takes. *)
Definition double (x : num) : Prop := valid_binary 53 1024 x = true.

(** ** Transitivity *)

(** The order is lexicographic on sign, exponent and mantissa. *)
Definition rank (x : num) : Z * Z * Z :=
  match x with
  | S754_infinity true => (-2, 0, 0)
  | S754_finite true m e => (-1, - e, - Z.pos m)
  | S754_zero _ => (0, 0, 0)
  | S754_finite false m e => (1, e, Z.pos m)
  | S754_infinity false => (2, 0, 0)
  | S754_nan => (3, 0, 0)
  end.

Definition lex (a b : Z * Z * Z) : comparison :=
  match a.1.1 ?= b.1.1 with
  | Eq => match a.1.2 ?= b.1.2 with Eq => a.2 ?= b.2 | c => c end
  | c => c
  end.

Lemma cmp_rank x y : real x -> real y -> SFcompare x y = Some (lex (rank x) (rank y)).
Proof.
  destruct x as [s|[]| |[] m e], y as [s'|[]| |[] m' e']; try done; intros _ _; unfold lex; simpl.
  rewrite Z.compare_opp. f_equal. rewrite (Z.compare_antisym e' e). destruct (e' ?= e) eqn:E; try done.
Qed.

Lemma lex_lt_trans a b c : lex a b <> Gt -> lex b c <> Gt -> lex a c <> Gt.
Proof.
  destruct a as [[a1 a2] a3], b as [[b1 b2] b3], c as [[c1 c2] c3]. unfold lex. simpl.
  destruct (Z.compare_spec a1 b1), (Z.compare_spec b1 c1), (Z.compare_spec a1 c1); try done; try lia;
  destruct (Z.compare_spec a2 b2), (Z.compare_spec b2 c2), (Z.compare_spec a2 c2); try done; try lia;
  destruct (Z.compare_spec a3 b3), (Z.compare_spec b3 c3), (Z.compare_spec a3 c3); try done; try lia.
Qed.

Lemma leb_rank x y : real x -> real y -> (x <=! y) = true <-> lex (rank x) (rank y) <> Gt.
Proof. intros Hx Hy. unfold num_leb. rewrite cmp_rank by done. destruct (lex _ _); done. Qed.

Lemma num_leb_trans x y z : real x -> real y -> real z -> (x <=! y) = true -> (y <=! z) = true -> (x <=! z) = true.
Proof. intros Hx Hy Hz. rewrite !leb_rank by done. apply lex_lt_trans. Qed.

(** ** Differences *)

(** The value of a finite double at a common exponent. *)
Definition scaled_value (x : num) (ez : Z) : Z :=
  match x with
  | S754_finite s m e => (if s then -1 else 1) * (Z.pos m * 2 ^ (e - ez))
  | _ => 0
  end.

Lemma canonical_spec m e : canonical_mantissa 53 1024 m e = true ->
  -1074 <= e /\ Z.pos m < 2 ^ 53 /\ (-1074 < e -> 2 ^ 52 <= Z.pos m).
Proof.
  unfold canonical_mantissa, fexp, emin. rewrite digits2_bits. intros H%Z.eqb_eq. unfold bits in H.
  pose proof (Z.log2_spec (Z.pos m) ltac:(lia)) as [Hl Hu].
  split; [lia|]. split.
  - eapply Z.lt_le_trans; [exact Hu|]. apply Z.pow_le_mono_r; lia.
  - intros He. replace 52 with (Z.log2 (Z.pos m)) by lia. done.
Qed.

(** Lexicographic order on canonical mantissas is the order of values. *)
Lemma canonical_cmp m e m' e' ez :
  canonical_mantissa 53 1024 m e = true -> canonical_mantissa 53 1024 m' e' = true -> ez <= e -> ez <= e' ->
  (Z.pos m * 2 ^ (e - ez) ?= Z.pos m' * 2 ^ (e' - ez)) =
  match e ?= e' with Eq => Z.pos m ?= Z.pos m' | c => c end.
Proof.
  intros H H' He He'. apply canonical_spec in H as (H1 & H2 & H3), H' as (H1' & H2' & H3').
  destruct (Z.compare_spec e e') as [->|Hlt|Hgt].
  - symmetry. apply Zmult_compare_compat_r. apply Z.lt_gt, Z.pow_pos_nonneg; lia.
  - apply Z.compare_lt_iff. replace (e' - ez) with (e' - e + (e - ez)) by lia. rewrite Z.pow_add_r, Z.mul_assoc by lia.
    apply Z.mul_lt_mono_pos_r; [apply Z.pow_pos_nonneg; lia|].
    assert (2 ^ 1 <= 2 ^ (e' - e)) by (apply Z.pow_le_mono_r; lia). nia.
  - apply Z.compare_gt_iff. replace (e - ez) with (e - e' + (e' - ez)) by lia. rewrite Z.pow_add_r, Z.mul_assoc by lia.
    apply Z.mul_lt_mono_pos_r; [apply Z.pow_pos_nonneg; lia|].
    assert (2 ^ 1 <= 2 ^ (e - e')) by (apply Z.pow_le_mono_r; lia). nia.
Qed.

Lemma double_finite s m e : double (S754_finite s m e) -> canonical_mantissa 53 1024 m e = true.
Proof. unfold double. simpl. unfold bounded. intros [H _]%andb_true_iff. exact H. Qed.

(** Rounding a non-zero integer at an exponent in range keeps its sign. *)
Lemma shr_1_log r k : 0 < k -> 2 ^ k <= shr_m r -> 2 ^ (k - 1) <= shr_m (shr_1 r).
Proof.
  intros Hk H. replace k with (k - 1 + 1) in H by lia. rewrite Z.pow_add_r in H by lia.
  assert (0 < 2 ^ (k - 1)) by (apply Z.pow_pos_nonneg; lia).
  destruct r as [[|[p|p|]|p] ? ?]; simpl in *; lia.
Qed.

Lemma shr_log r e n k : 0 <= n <= k -> 2 ^ k <= shr_m r -> 2 ^ (k - n) <= shr_m (shr r e n).1.
Proof.
  intros [Hn Hnk] H. destruct n as [|n|n]; simpl; [rewrite Z.sub_0_r; exact H| |lia].
  rewrite iter_pos_nat. rewrite <- (positive_nat_Z n) in *. clear Hn.
  induction (Pos.to_nat n) as [|j IH]; [simpl; rewrite Z.sub_0_r; exact H|].
  rewrite Nat2Z.inj_succ in *. simpl Nat.iter.
  replace (k - Z.succ (Z.of_nat j)) with (k - Z.of_nat j - 1) by lia. apply shr_1_log; [lia|]. apply IH. lia.
Qed.

Lemma shr_fexp_pos m e l : 0 < m -> -1074 <= e -> 0 < shr_m (shr_fexp 53 1024 m e l).1.
Proof.
  intros Hm He. unfold shr_fexp.
  assert (Hd : Zdigits2 m = Z.log2 m + 1) by (destruct m; try lia; simpl; rewrite digits2_bits; done).
  pose proof (Z.log2_nonneg m). pose proof (Z.log2_spec m Hm) as [Hl _]. rewrite Hd.
  assert (Hs : shr_m (shr_record_of_loc m l) = m) by (destruct l as [|[]]; done).
  set (n := fexp 53 1024 (Z.log2 m + 1 + e) - e).
  assert (Hn : n <= Z.log2 m) by (unfold n, fexp, emin; lia).
  destruct (Z.leb_spec n 0).
  - destruct n as [|n|n]; simpl; rewrite ?Hs; lia.
  - pose proof (shr_log (shr_record_of_loc m l) e n (Z.log2 m)) as Hx. rewrite Hs in Hx.
    assert (0 < 2 ^ (Z.log2 m - n)) by (apply Z.pow_pos_nonneg; lia). lia.
Qed.

Lemma shr_fexp_exp m e l : -1074 <= e -> -1074 <= (shr_fexp 53 1024 m e l).2.
Proof.
  intros He. unfold shr_fexp. set (n := fexp _ _ _ - e). unfold shr. destruct n as [|n|n]; simpl; lia.
Qed.

Lemma round_aux_pos s m e l : 0 < m -> -1074 <= e ->
  match binary_round_aux 53 1024 s m e l with
  | S754_finite s' _ _ | S754_infinity s' => s' = s
  | _ => False
  end.
Proof.
  intros Hm He. unfold binary_round_aux.
  pose proof (shr_fexp_pos m e l Hm He) as H1. pose proof (shr_fexp_exp m e l He) as He1.
  destruct (shr_fexp 53 1024 m e l) as [r1 e1]. simpl in H1, He1.
  assert (H2 : 0 < round_nearest_even (shr_m r1) (loc_of_shr_record r1))
    by (destruct (loc_of_shr_record r1) as [|[]]; simpl; try lia; destruct (Z.even _); lia).
  pose proof (shr_fexp_pos _ e1 loc_Exact H2 He1) as H3.
  destruct (shr_fexp 53 1024 (round_nearest_even _ _) e1 loc_Exact) as [r2 e2]. simpl in H3.
  destruct (shr_m r2); try lia. destruct (_ <=? _); done.
Qed.

Lemma normalize_sign m e :
  -1074 <= e -> ((binary_normalize 53 1024 m e false) >! #0) = (0 <? m).
Proof.
  intros He.
  assert (Hs : forall s p, match binary_round 53 1024 s p e with
    | S754_finite s' _ _ | S754_infinity s' => s' = s | _ => False end).
  { intros s p. unfold binary_round. destruct (shl_align p e _) as [mz ez] eqn:Es.
    apply round_aux_pos; [lia|]. unfold shl_align in Es.
    destruct (fexp _ _ _ - e) eqn:Ef; injection Es as <- <-; try done. unfold fexp, emin. lia. }
  destruct m as [|p|p]; simpl; [done| |].
  - specialize (Hs false p). destruct (binary_round 53 1024 false p e); try done; subst s; done.
  - specialize (Hs true p). destruct (binary_round 53 1024 true p e); try done; subst s; done.
Qed.

Lemma align_value m e ez : ez <= e -> Z.pos (fst (shl_align m e ez)) = Z.pos m * 2 ^ (e - ez).
Proof.
  intros H. unfold shl_align. destruct (ez - e) as [|d|d] eqn:E; simpl fst; [|lia|].
  - replace (e - ez) with 0 by lia. simpl. lia.
  - rewrite shl_iter. do 2 f_equal. lia.
Qed.

(** The difference of two finite numbers is a rounded integer multiple of the
    smaller unit, with the sign of the comparison. *)
Lemma sub_normal s m e s' m' e' (x := S754_finite s m e) (y := S754_finite s' m' e') :
  double x -> double y ->
  exists v, x ⊖ y = binary_normalize 53 1024 v (Z.min e e') false /\ -1074 <= Z.min e e' /\
    SFcompare x y = Some (v ?= 0).
Proof.
  intros Hx%double_finite Hy%double_finite.
  pose proof (canonical_spec _ _ Hx) as (He & _). pose proof (canonical_spec _ _ Hy) as (He' & _).
  unfold num_sub, x, y. cbn [SFsub]. rewrite !align_value by lia.
  eexists. split; [reflexivity|]. split; [lia|].
  pose proof (canonical_cmp m e m' e' (Z.min e e') Hx Hy ltac:(lia) ltac:(lia)) as Hc.
  set (a := Z.pos m * 2 ^ (e - Z.min e e')) in *. set (b := Z.pos m' * 2 ^ (e' - Z.min e e')) in *.
  assert (0 < a /\ 0 < b) as [Ha Hb] by (split; apply Z.mul_pos_pos; try lia; apply Z.pow_pos_nonneg; lia).
  assert (Hd : forall u v, (u - v ?= 0) = (u ?= v)) by (intros; symmetry; apply Z.compare_sub).
  rewrite Hd. destruct s, s'; unfold cond_Zopp.
  - rewrite Z.compare_opp, Z.compare_antisym, Hc. cbn [SFcompare].
    destruct (e ?= e'); done.
  - destruct (Z.compare_spec (- a) b); (done || lia).
  - destruct (Z.compare_spec a (- b)); (done || lia).
  - rewrite Hc. cbn [SFcompare]. destruct (e ?= e'); done.
Qed.

(** [(a, b) => a - b] is positive exactly when [b < a]. *)
Lemma sub_pos x y :
  double x -> double y -> is_finite x = true -> is_finite y = true -> ((x ⊖ y) >! #0) = (y <! x).
Proof.
  intros Hx Hy Hfx Hfy.
  destruct x as [s|s| |s m e], y as [s'|s'| |s' m' e']; try done; try (destruct s, s'; done); try (destruct s; done).
  destruct (sub_normal s m e s' m' e' Hx Hy) as (v & -> & He & Hc). rewrite normalize_sign by done.
  unfold num_ltb. rewrite cmp_swap, Hc. simpl. destruct v; done.
Qed.

(** A counter that did not go back has a difference that is not negative. *)
Lemma sub_nneg x y :
  double x -> double y -> is_finite x = true -> is_finite y = true -> (x <! y) = false -> nneg (x ⊖ y).
Proof.
  intros Hx Hy Hfx Hfy Hle.
  destruct x as [s|s| |s m e], y as [s'|s'| |s' m' e']; try done; try (destruct s, s'; done); try (destruct s; done).
  destruct (sub_normal s m e s' m' e' Hx Hy) as (v & -> & He & Hc). apply nneg_normalize.
  unfold num_ltb in Hle. rewrite Hc in Hle. destruct v; simpl in Hle; (done || lia).
Qed.
