(* ===== verification/JsSort.v ===== *)
(** * [Array.prototype.sort] with a comparator

    The language's sort is stable. Comparators of the program return numbers,
    and only whether they are positive matters: [greater a b] is whether [a] has
    to come after [b]. *)

From Stdlib Require Import ZArith Lia SpecFloat.
From stdpp Require Import base list sorting sets.
From S2P Require Import Prelude JsNum JsInt JsBounds JsOrder.

Fixpoint insert_sorted {A} (greater : A -> A -> bool) (x : A) (l : list A) : list A :=
  match l with
  | [] => [x]
  | y :: r => if greater y x then x :: l else y :: insert_sorted greater x r
  end.

Definition stable_sort {A} (greater : A -> A -> bool) (l : list A) : list A :=
  foldl (fun sorted x => insert_sorted greater x sorted) [] l.

Lemma keep_none {A} (q : A -> bool) l : (forall x, x ∈ l -> q x = false) -> keep q l = [].
Proof. induction l as [|x l IH]; intros H; [done|]. simpl. rewrite (H x) by set_solver. apply IH. set_solver. Qed.

(** ** The result *)

Section sort.
Context {A : Type} (greater : A -> A -> bool).

Lemma insert_permutation x l : Permutation (insert_sorted greater x l) (x :: l).
Proof.
  induction l as [|y l IH]; [done|]. simpl. destruct (greater y x); [done|]. rewrite IH. constructor.
Qed.

Lemma stable_sort_snoc l x : stable_sort greater (l ++ [x]) = insert_sorted greater x (stable_sort greater l).
Proof. unfold stable_sort. by rewrite foldl_app. Qed.

(** The sort permutes, whatever the comparator. *)
Lemma stable_sort_permutation l : Permutation (stable_sort greater l) l.
Proof.
  induction l as [|x l IH] using rev_ind; [done|]. rewrite stable_sort_snoc, insert_permutation, IH.
  apply Permutation_cons_append.
Qed.

Lemma elem_of_stable_sort l x : x ∈ stable_sort greater l <-> x ∈ l.
Proof. by rewrite stable_sort_permutation. Qed.

(** A comparator that orders the elements that satisfy [P]. *)
Record orders (P : A -> Prop) : Prop := {
  order_total : forall a b, P a -> P b -> greater a b = true -> greater b a = false;
  order_trans : forall a b c, P a -> P b -> P c -> greater a b = false -> greater b c = false -> greater a c = false
}.

Definition in_place (a b : A) : Prop := greater a b = false.

Context {P : A -> Prop} (O : orders P).

Lemma insert_in_place x l : P x -> Forall P l -> StronglySorted in_place l -> StronglySorted in_place (insert_sorted greater x l).
Proof.
  intros Hx. induction l as [|y l IH]; intros Hp Hs; simpl; [repeat constructor|].
  apply Forall_cons in Hp as [Hy Hp]. apply StronglySorted_inv in Hs as [Hs Hf].
  destruct (greater y x) eqn:E.
  - assert (Hxy : greater x y = false) by by apply (order_total _ O). repeat constructor; try done.
    rewrite !Forall_forall in *. intros z Hz. unfold in_place. apply (order_trans _ O _ y); auto. by apply Hf.
  - constructor; [auto|]. rewrite insert_permutation. by constructor.
Qed.

(** Sorted by the comparator. *)
Lemma stable_sort_sorted l : Forall P l -> StronglySorted in_place (stable_sort greater l).
Proof.
  induction l as [|x l IH] using rev_ind; intros Hp; [constructor|].
  apply Forall_app in Hp as [Hp Hx]. apply Forall_inv in Hx. rewrite stable_sort_snoc.
  apply insert_in_place; [done| |auto]. by rewrite stable_sort_permutation.
Qed.

(** Elements the comparator does not tell apart keep their order. *)
Lemma insert_stable (q : A -> bool) x l :
  P x -> Forall P l -> StronglySorted in_place l -> (forall y, y ∈ l -> q y = true -> q x = true -> in_place y x) ->
  keep q (insert_sorted greater x l) = keep q (l ++ [x]).
Proof.
  intros Hx. induction l as [|y l IH]; intros Hp Hs Hq; [done|].
  apply Forall_cons in Hp as [Hy Hp]. apply StronglySorted_inv in Hs as [Hs Hf]. simpl.
  destruct (greater y x) eqn:E; [|simpl; rewrite IH; try done; intros z Hz; apply Hq; set_solver].
  change (keep q ([x] ++ (y :: l)) = keep q ((y :: l) ++ [x])). rewrite !keep_app.
  simpl (keep q [x]). destruct (q x) eqn:Ex; [|by rewrite app_nil_r].
  rewrite (keep_none q (y :: l)); [done|]. intros z Hz. destruct (q z) eqn:Ez; [|done].
  exfalso. pose proof (Hq z Hz Ez eq_refl) as Hzx. apply elem_of_cons in Hz as [->|Hz]; [congruence|].
  rewrite Forall_forall in Hf, Hp. pose proof (order_trans _ O y z x Hy (Hp z Hz) Hx (Hf z Hz) Hzx). congruence.
Qed.

Lemma stable_sort_stable (q : A -> bool) l :
  Forall P l -> (forall x y, x ∈ l -> y ∈ l -> q x = true -> q y = true -> in_place x y) ->
  keep q (stable_sort greater l) = keep q l.
Proof.
  induction l as [|x l IH] using rev_ind; intros Hp Hq; [done|].
  apply Forall_app in Hp as [Hp Hx]. apply Forall_inv in Hx. rewrite stable_sort_snoc, insert_stable.
  - rewrite !keep_app, IH; [done|done|]. intros a b Ha Hb. apply Hq; set_solver.
  - done.
  - by rewrite stable_sort_permutation.
  - by apply stable_sort_sorted.
  - intros y Hy. rewrite elem_of_stable_sort in Hy. apply Hq; set_solver.
Qed.

(** The head of the sorted list is what a scan from the left keeps. *)
Lemma stable_sort_head x l :
  head (stable_sort greater (x :: l)) = Some (foldl (fun m y => if greater m y then y else m) x l).
Proof.
  induction l as [|y l IH] using rev_ind; [done|].
  rewrite app_comm_cons, stable_sort_snoc, foldl_app. simpl. revert IH.
  destruct (stable_sort greater (x :: l)) as [|m r]; simpl; [done|]. intros [= ->].
  by destruct (greater _ y).
Qed.

(** Sorting what is sorted changes nothing. *)
Lemma insert_last x l : Forall (fun y => greater y x = false) l -> insert_sorted greater x l = l ++ [x].
Proof. induction 1 as [|y l Hy _ IH]; [done|]. simpl. by rewrite Hy, IH. Qed.

Lemma stable_sort_id l : StronglySorted in_place l -> stable_sort greater l = l.
Proof.
  induction l as [|x l IH] using rev_ind; [done|]. intros Hs. rewrite stable_sort_snoc.
  assert (StronglySorted in_place l /\ Forall (fun y => greater y x = false) l) as [H1 H2].
  { clear IH. induction l as [|y l IH]; [repeat constructor|]. simpl in Hs. apply StronglySorted_inv in Hs as [Hs Hf].
    destruct (IH Hs) as [I1 I2]. apply Forall_app in Hf as [Hf Hx]. apply Forall_cons in Hx as [Hx _].
    split; constructor; done. }
  by rewrite IH, insert_last.
Qed.
End sort.

(** ** Comparators that subtract *)

Definition measurable (x : num) : Prop := double x /\ is_finite x = true.

Lemma measurable_real x : measurable x -> real x.
Proof. intros [_ H]. destruct x; done. Qed.

(** A number that does not exceed one that another exceeds. *)
Lemma not_ltb_leb x y : real x -> real y -> (x <! y) = false -> (y <=! x) = true.
Proof. intros Hx Hy H. apply num_ltb_false_leb; done. Qed.

Section by_difference.
Context {A : Type} (f : A -> num).

(** [(a, b) => f(b) - f(a)] and [(a, b) => f(a) - f(b)] *)
Definition larger_first (a b : A) : bool := (f b ⊖ f a) >! #0.
Definition smaller_first (a b : A) : bool := (f a ⊖ f b) >! #0.

Lemma larger_first_spec a b : measurable (f a) -> measurable (f b) -> larger_first a b = (f a <! f b).
Proof. intros [Ha Hfa] [Hb Hfb]. apply sub_pos; done. Qed.

Lemma smaller_first_spec a b : measurable (f a) -> measurable (f b) -> smaller_first a b = (f b <! f a).
Proof. intros [Ha Hfa] [Hb Hfb]. apply sub_pos; done. Qed.

Lemma ltb_asym x y : (x <! y) = true -> (y <! x) = false.
Proof. unfold num_ltb. rewrite cmp_swap. destruct (SFcompare y x) as [[]|]; done. Qed.

Lemma ltb_negtrans x y z : real x -> real y -> real z -> (x <! y) = false -> (y <! z) = false -> (x <! z) = false.
Proof.
  intros Hx Hy Hz H1 H2. destruct (x <! z) eqn:E; [|done].
  apply num_ltb_false_leb in H1, H2; try done. assert (H : (z <=! x) = true) by (apply (num_leb_trans _ y); done).
  unfold num_leb, num_ltb in *. rewrite cmp_swap in H. destruct (SFcompare x z) as [[]|]; done.
Qed.

Lemma larger_first_orders : orders larger_first (fun x => measurable (f x)).
Proof.
  split.
  - intros a b Ha Hb. rewrite !larger_first_spec by done. apply ltb_asym.
  - intros a b c Ha Hb Hc. rewrite !larger_first_spec by done. apply ltb_negtrans; by apply measurable_real.
Qed.

Lemma smaller_first_orders : orders smaller_first (fun x => measurable (f x)).
Proof.
  split.
  - intros a b Ha Hb. rewrite !smaller_first_spec by done. apply ltb_asym.
  - intros a b c Ha Hb Hc. rewrite !smaller_first_spec by done. intros H1 H2. apply (ltb_negtrans _ (f b)); auto using measurable_real.
Qed.

(** The first of the sorted list is a maximum. *)
Lemma sort_head_max l :
  Forall (fun x => measurable (f x)) l ->
  match head (stable_sort larger_first l) with
  | Some m => m ∈ l /\ Forall (fun x => (f x <=! f m) = true) l
  | None => l = []
  end.
Proof.
  intros Hl. pose proof (stable_sort_sorted _ larger_first_orders l Hl) as Hs.
  pose proof (stable_sort_permutation larger_first l) as Hp.
  destruct (stable_sort larger_first l) as [|m r]; simpl; [by apply Permutation_nil_l in Hp|].
  assert (Hm : m ∈ l) by (rewrite <- Hp; set_solver). split; [done|].
  apply StronglySorted_inv in Hs as [_ Hf]. rewrite Forall_forall in Hl, Hf |- *. intros x Hx.
  rewrite <- Hp in Hx. apply elem_of_cons in Hx as [->|Hx]; [apply num_leb_refl, measurable_real; auto|].
  assert (Hxl : x ∈ l) by (rewrite <- Hp; set_solver). specialize (Hf x Hx). unfold in_place in Hf.
  rewrite larger_first_spec in Hf by auto. apply not_ltb_leb; auto using measurable_real.
Qed.

(** The [k]th element is larger than those before it and not exceeded by those
    after it. *)
Definition first_largest (l : list A) (k : nat) (x : A) : Prop :=
  l !! k = Some x /\
  (forall j y, (j < k)%nat -> l !! j = Some y -> (f y <! f x) = true) /\
  (forall j y, (k < j)%nat -> l !! j = Some y -> (f x <! f y) = false).

Lemma first_largest_unique l k k' x x' : first_largest l k x -> first_largest l k' x' -> k = k'.
Proof.
  intros (H1 & H2 & H3) (H1' & H2' & H3').
  destruct (Nat.lt_trichotomy k k') as [H|[H|H]]; [|done|].
  - pose proof (H2' k x H H1). pose proof (H3 k' x' H H1'). congruence.
  - pose proof (H2 k' x' H H1'). pose proof (H3' k x H H1). congruence.
Qed.

Lemma first_largest_snoc l k m y : Forall (fun x => measurable (f x)) (l ++ [y]) -> first_largest l k m ->
  if larger_first m y then first_largest (l ++ [y]) (length l) y else first_largest (l ++ [y]) k m.
Proof.
  intros [Hl Hy%Forall_inv]%Forall_app (H1 & H2 & H3). pose proof (lookup_lt_Some _ _ _ H1) as Hk.
  assert (Hm : measurable (f m)) by (rewrite Forall_lookup in Hl; eauto).
  rewrite larger_first_spec by done. destruct (f m <! f y) eqn:E.
  - split; [by apply list_lookup_middle|]. split.
    + intros j z Hj Hz. rewrite lookup_app_l in Hz by done.
      assert (Hfz : measurable (f z)) by (rewrite Forall_lookup in Hl; eauto).
      destruct (f z <! f y) eqn:Ez; [done|]. rewrite <- E. symmetry.
      destruct (Nat.lt_trichotomy j k) as [Hjk|[->|Hjk]]; [|congruence|].
      * apply (ltb_negtrans _ (f z)); auto using measurable_real. by apply ltb_asym, (H2 j).
      * apply (ltb_negtrans _ (f z)); auto using measurable_real. by apply (H3 j).
    + intros j z Hj Hz. apply lookup_lt_Some in Hz. rewrite length_app in Hz. simpl in Hz. lia.
  - split; [by rewrite lookup_app_l|]. split.
    + intros j z Hj Hz. rewrite lookup_app_l in Hz by lia. eauto.
    + intros j z Hj Hz. apply lookup_snoc_Some in Hz as [[_ Hz]|[_ <-]]; eauto.
Qed.

(** The first of the sorted list is the first of the largest. *)
Lemma sort_head_first l : Forall (fun x => measurable (f x)) l -> l <> [] ->
  exists k m, head (stable_sort larger_first l) = Some m /\ first_largest l k m.
Proof.
  destruct l as [|x l]; [done|]. intros Hl _. rewrite stable_sort_head.
  enough (exists k, first_largest (x :: l) k (foldl (fun m y => if larger_first m y then y else m) x l)) as [k H] by eauto.
  induction l as [|y l IH] using rev_ind.
  - exists O. split; [done|]. split; [lia|]. intros [|[|j]] z Hj Hz; done || lia.
  - rewrite app_comm_cons in *. destruct IH as [k Hk]; [by apply Forall_app in Hl as [Hl _]|].
    pose proof (first_largest_snoc _ _ _ _ Hl Hk) as H. rewrite foldl_app. simpl foldl at 1.
    destruct (larger_first _ y); eauto.
Qed.
End by_difference.
