(* ===== verification/JsValue.v ===== *)
(** * JavaScript values

    The values of type [unknown] that arrive from the server, as [JSON.parse]
    builds them, and the language's reflection on them: [typeof] tests,
    [Array.isArray], property reads, truthiness and [String(v)]. *)

From Stdlib Require Import Ascii ZArith Lia SpecFloat.
From stdpp Require Import base list strings option pretty.
From S2P Require Import Prelude JsString JsNum.

Inductive value : Type :=
| VNull
| VBool (b : bool)
| VNum (n : num)
| VStr (s : string)
| VArr (l : list value)
| VObj (fields : list (string * value)).

(** Induction that reaches the elements of arrays and the fields of objects. *)
Section value_induction.
Variable P : value -> Prop.
Hypothesis HNull : P VNull.
Hypothesis HBool : forall b, P (VBool b).
Hypothesis HNum : forall n, P (VNum n).
Hypothesis HStr : forall s, P (VStr s).
Hypothesis HArr : forall l, Forall P l -> P (VArr l).
Hypothesis HObj : forall fs, Forall (fun f => P (snd f)) fs -> P (VObj fs).

Fixpoint value_ind' (v : value) : P v :=
  match v with
  | VNull => HNull
  | VBool b => HBool b
  | VNum n => HNum n
  | VStr s => HStr s
  | VArr l =>
      HArr l ((fix go l : Forall P l :=
        match l with
        | [] => Forall_nil_2 P
        | x :: r => Forall_cons_2 P x r (value_ind' x) (go r)
        end) l)
  | VObj fs =>
      HObj fs ((fix go fs : Forall (fun f => P (snd f)) fs :=
        match fs with
        | [] => Forall_nil_2 _
        | x :: r => Forall_cons_2 _ x r (value_ind' (snd x)) (go r)
        end) fs)
  end.
End value_induction.

(** A nullable value: [None] is [undefined]. *)
Definition jsval := option value.

(** [v?.key] on a value that may be [undefined] or [null]: a property of a
    record. *)
Definition prop (key : string) (fields : list (string * value)) : jsval := JMap.get key fields.

(** The fields of a JSON object. *)
Notation fields := (list (string * value)).

(** [v?.key] on an unknown value: only an object has it. *)
Definition get_field (v : jsval) (key : string) : jsval :=
  match v with Some (VObj fs) => prop key fs | _ => None end.

(** [v ?? w]: both [undefined] and [null] fall through. *)
Definition val_nullish (v w : jsval) : jsval :=
  match v with
  | None | Some VNull => w
  | _ => v
  end.

(** [Boolean(v)]. *)
Definition val_truthy (v : jsval) : bool :=
  match v with
  | None | Some VNull => false
  | Some (VBool b) => b
  | Some (VNum n) => num_truthy n
  | Some (VStr s) => truthy s
  | Some (VArr _) | Some (VObj _) => true
  end.

(** [typeof v === 'string'] with the string, and likewise for numbers and
    arrays. *)
Definition as_str (v : jsval) : option string := match v with Some (VStr s) => Some s | _ => None end.
Definition as_num (v : jsval) : option num := match v with Some (VNum n) => Some n | _ => None end.
Definition as_arr (v : jsval) : option (list value) := match v with Some (VArr l) => Some l | _ => None end.

(** [String(v)]; an array joins its elements with commas, where [null] is
    empty. *)
Fixpoint to_str (v : value) : string :=
  match v with
  | VNull => "null"
  | VBool b => if b then "true" else "false"
  | VNum n => show_num n
  | VStr s => s
  | VArr l => join "," (map (fun x => match x with VNull => EmptyString | _ => to_str x end) l)
  | VObj _ => "[object Object]"
  end.

Definition val_to_str (v : jsval) : string :=
  match v with Some x => to_str x | None => "undefined" end.

(** [Number(v)]: an array or object is converted to its text first. *)
Definition to_number (v : jsval) : num :=
  match v with
  | None => nan
  | Some VNull => #0
  | Some (VBool b) => if b then #1 else #0
  | Some (VNum n) => n
  | Some (VStr s) => number_of_string s
  | Some (VArr l) => number_of_string (to_str (VArr l))
  | Some (VObj _) => nan
  end.

(** [===] of [includes] and [indexOf] on numbers: [includes] finds [NaN]. *)
Definition same_value_zero (a b : num) : bool := (a =! b) || (is_nan a && is_nan b).

(** The first truthy value of [a || b]. *)
Definition val_or (a b : jsval) : jsval := if val_truthy a then a else b.

Lemma val_nullish_Some v w x :
  val_nullish v w = Some x -> v = Some x \/ w = Some x.
Proof. destruct v as [[]|]; simpl; auto. Qed.

Lemma val_or_truthy a b : val_truthy (val_or a b) = val_truthy a || val_truthy b.
Proof. unfold val_or. destruct (val_truthy a) eqn:E; simpl; [done|done]. Qed.
