(* ===== verification/JsDate.v ===== *)
(** * JavaScript dates

    [new Date(text).getTime()] on the date-time strings of ECMA-262 (section
    21.4.1.32), and [toISOString]. A date-time without an offset is local time;
    the local time zone, the texts that are not ISO dates (which each engine
    parses in its own way) and the locale's formats are the environment's: an
    [Env]. A fraction may have any number of digits, of
    which three count, and a [t] or a space may stand for the [T]. *)

From Stdlib Require Import Ascii ZArith Lia SpecFloat.
From stdpp Require Import base list strings option.
From S2P Require Import Prelude JsString JsNum.

(** The page's environment: the offset of the local zone at a local time and at
    an instant (in minutes, as [getTimezoneOffset] has it), the engine's other
    date formats, and [toLocaleString], [toLocaleDateString] and
    [toLocaleTimeString] (without and with seconds) on dates and
    [toLocaleString] on numbers. *)
Class Env := {
  offset_of_local : Z -> Z;
  getTimezoneOffset : Z -> Z;
  other_date : string -> num;
  toLocaleString : num -> string;
  toLocaleDateString : num -> string;
  toLocaleTimeString : num -> string;
  toLocaleTimeString_seconds : num -> string;
  number_toLocaleString : num -> string
}.

(** ** Days *)

(** Days from the epoch to a date of the proleptic Gregorian calendar; years
    run from March. *)
Definition days_from_civil (y m d : Z) : Z :=
  let y' := if m <=? 2 then y - 1 else y in
  let era := y' / 400 in
  let yoe := y' mod 400 in
  let doy := (153 * (if m <=? 2 then m + 9 else m - 3) + 2) / 5 + d - 1 in
  era * 146097 + (yoe * 365 + yoe / 4 - yoe / 100 + doy) - 719468.

Definition civil_from_days (z : Z) : Z * Z * Z :=
  let z' := z + 719468 in
  let era := z' / 146097 in
  let doe := z' mod 146097 in
  let yoe := (doe - doe / 1460 + doe / 36524 - doe / 146096) / 365 in
  let doy := doe - (365 * yoe + yoe / 4 - yoe / 100) in
  let mp := (5 * doy + 2) / 153 in
  let m := if mp <? 10 then mp + 3 else mp - 9 in
  (yoe + era * 400 + (if m <=? 2 then 1 else 0), m, doy - (153 * mp + 2) / 5 + 1).

Definition leap (y : Z) : bool := (y mod 4 =? 0) && (negb (y mod 100 =? 0) || (y mod 400 =? 0)).

Definition days_in_month (y m : Z) : Z :=
  if m =? 2 then if leap y then 29 else 28
  else if (m =? 4) || (m =? 6) || (m =? 9) || (m =? 11) then 30 else 31.

Definition day_ms : Z := 86400000.

(** Milliseconds of a date and time of day, as UTC. *)
Definition make_time (days h mi s ms : Z) : Z := days * day_ms + h * 3600000 + mi * 60000 + s * 1000 + ms.

(** ** Parsing *)

(** Exactly [n] digits. *)
Definition take_digits (n : nat) (s : string) : option (Z * string) :=
  let d := take_str n s in
  if (String.length d =? n)%nat && str_forall is_digit d then Some (digits_val 0 d, drop_str n s) else None.

(** A separator followed by exactly [n] digits. *)
Definition sep_digits (c : ascii) (n : nat) (s : string) : option (Z * string) :=
  match s with String x r => if Ascii.eqb x c then take_digits n r else None | EmptyString => None end.

(** [YYYY], [YYYY-MM] or [YYYY-MM-DD]. *)
Definition parse_day (s : string) : option (Z * Z * Z * string) :=
  '(y, r) ← take_digits 4 s;
  match sep_digits "-" 2 r with
  | None => Some (y, 1, 1, r)
  | Some (m, r') =>
      match sep_digits "-" 2 r' with
      | None => Some (y, m, 1, r')
      | Some (d, r'') => Some (y, m, d, r'')
      end
  end.

(** Up to three digits of a fraction, in milliseconds. *)
Definition millis (digits : string) : Z :=
  let d := take_str 3 digits in digits_val 0 d * 10 ^ (3 - Z.of_nat (String.length d)).

(** [HH:mm], [HH:mm:ss] or [HH:mm:ss.fff]. *)
Definition parse_clock (s : string) : option (Z * Z * Z * Z * string) :=
  '(h, r) ← take_digits 2 s;
  '(mi, r') ← sep_digits ":" 2 r;
  match sep_digits ":" 2 r' with
  | None => Some (h, mi, 0, 0, r')
  | Some (sec, r'') =>
      match r'' with
      | String "."%char f =>
          let '(digits, r3) := span is_digit f in
          if truthy digits then Some (h, mi, sec, millis digits, r3) else None
      | _ => Some (h, mi, sec, 0, r'')
      end
  end.

(** The offset that ends a date-time, in minutes; [Some None] is local time. *)
Definition parse_offset (s : string) : option (option Z) :=
  let signed (sign : Z) (r : string) : option (option Z) :=
    '(h, r1) ← take_digits 2 r;
    '(mi, r2) ← sep_digits ":" 2 r1;
    if negb (truthy r2) && (h <? 24) && (mi <? 60) then Some (Some (sign * (h * 60 + mi))) else None in
  match s with
  | EmptyString => Some None
  | String "Z"%char EmptyString => Some (Some 0)
  | String "+"%char r => signed 1 r
  | String "-"%char r => signed (-1) r
  | _ => None
  end.

Definition valid_day (y m d : Z) : bool := (1 <=? m) && (m <=? 12) && (1 <=? d) && (d <=? days_in_month y m).

Definition valid_clock (h mi s ms : Z) : bool :=
  ((h <? 24) && (mi <? 60) && (s <? 60)) || ((h =? 24) && (mi =? 0) && (s =? 0) && (ms =? 0)).

(** The instant of an ISO text, in milliseconds; [None] when it is not one. *)
Definition parse_iso (local : Z -> Z) (s : string) : option Z :=
  '(y, m, d, r) ← parse_day s;
  if negb (valid_day y m d) then None
  else match r with
       | EmptyString => Some (make_time (days_from_civil y m d) 0 0 0 0)
       | String c r' =>
           if negb (Ascii.eqb c "T" || Ascii.eqb c "t" || Ascii.eqb c " ") then None
           else
             '(h, mi, sec, ms, r'') ← parse_clock r';
             offset ← parse_offset r'';
             if negb (valid_clock h mi sec ms) then None
             else
               let t := make_time (days_from_civil y m d) h mi sec ms in
               Some (match offset with Some o => t - o * 60000 | None => t + local t * 60000 end)
       end.

(** [new Date(text).getTime()]. *)
Definition date_ms `{Env} (s : string) : num :=
  match parse_iso offset_of_local s with Some t => #t | None => other_date s end.

(** ** Printing *)

Definition pad2 (z : Z) : string := pad_Z 2 z.

(** Four digits, or a sign and six. *)
Definition iso_year (y : Z) : string :=
  if y <? 0 then "-" +:+ pad_Z 6 (- y) else if y <? 10000 then pad_Z 4 y else "+" +:+ pad_Z 6 y.

(** [new Date(t).toISOString()]. *)
Definition iso_string (t : Z) : string :=
  let '(y, m, d) := civil_from_days (t / day_ms) in
  let r := t mod day_ms in
  iso_year y +:+ "-" +:+ pad2 m +:+ "-" +:+ pad2 d +:+ "T" +:+
  pad2 (r / 3600000) +:+ ":" +:+ pad2 (r / 60000 mod 60) +:+ ":" +:+ pad2 (r / 1000 mod 60) +:+ "." +:+
  pad_Z 3 (r mod 1000) +:+ "Z".

(** An environment for examples: UTC, ISO dates only. *)
Definition utc_env : Env := {|
  offset_of_local _ := 0;
  getTimezoneOffset _ := 0;
  other_date _ := nan;
  toLocaleString t := iso_string (num_to_Z t);
  toLocaleDateString t := take_str 10 (iso_string (num_to_Z t));
  toLocaleTimeString t := take_str 5 (drop_str 11 (iso_string (num_to_Z t)));
  toLocaleTimeString_seconds t := take_str 8 (drop_str 11 (iso_string (num_to_Z t)));
  number_toLocaleString := show_num
|}.

Example date_example :
  parse_iso (fun _ => 0) "2024-02-29T12:34:56.789123+02:00" = Some 1709202896789 /\
  iso_string 1709202896789 = "2024-02-29T10:34:56.789Z".
Proof. split; vm_compute; reflexivity. Qed.
