(* ===== verification/JsUri.v ===== *)
(** * [encodeURIComponent] and [decodeURIComponent]

    ECMA-262, section 19.2.6, on UTF-8 text: every byte that is not unreserved
    is written as [%XX]; decoding fails ([URIError]) on a bad escape or on
    escapes that are not the UTF-8 of one code point. *)

From Stdlib Require Import Ascii ZArith Lia.
From stdpp Require Import base list strings option.
From S2P Require Import Prelude JsString JsNum.

Definition code (c : ascii) : Z := Z.of_nat (nat_of_ascii c).
Definition chr (z : Z) : ascii := ascii_of_nat (Z.to_nat z).

Definition uri_unreserved (c : ascii) : bool := is_alnum c || has_char c "-_.!~*'()".

Definition hex_digit (z : Z) : ascii := chr (if z <? 10 then 48 + z else 55 + z).

Fixpoint encodeURIComponent (s : string) : string :=
  match s with
  | EmptyString => EmptyString
  | String c r =>
      if uri_unreserved c then String c (encodeURIComponent r)
      else String "%" (String (hex_digit (code c / 16)) (String (hex_digit (code c mod 16)) (encodeURIComponent r)))
  end.

(** The byte of an escape, and the text after it. *)
Definition escape (s : string) : option (Z * string) :=
  match s with
  | String "%"%char (String a (String b r)) =>
      h ← hex_val a; l ← hex_val b; Some (16 * h + l, r)
  | _ => None
  end.

(** [n] continuation bytes: the code point they complete, the bytes and the
    rest. *)
Fixpoint continuation (n : nat) (cp : Z) (s : string) : option (Z * string * string) :=
  match n with
  | O => Some (cp, EmptyString, s)
  | S n =>
      '(b, r) ← escape s;
      if (128 <=? b) && (b <? 192) then
        '(cp', bytes, r') ← continuation n (64 * cp + (b - 128)) r;
        Some (cp', String (chr b) bytes, r')
      else None
  end.

(** Continuation bytes, payload of the first byte and least code point. *)
Definition utf8_lead (b : Z) : option (nat * Z * Z) :=
  if (192 <=? b) && (b <? 224) then Some (1%nat, b - 192, 128)
  else if (224 <=? b) && (b <? 240) then Some (2%nat, b - 224, 2048)
  else if (240 <=? b) && (b <? 248) then Some (3%nat, b - 240, 65536)
  else None.

Definition valid_point (least cp : Z) : bool :=
  (least <=? cp) && (cp <=? 1114111) && negb ((55296 <=? cp) && (cp <=? 57343)).

Fixpoint decode_uri (fuel : nat) (s : string) : option string :=
  match fuel, s with
  | _, EmptyString => Some EmptyString
  | O, _ => None
  | S fuel, String c r =>
      if negb (Ascii.eqb c "%") then String c <$> decode_uri fuel r
      else
        '(b, r') ← escape s;
        if b <? 128 then String (chr b) <$> decode_uri fuel r'
        else
          '(n, top, least) ← utf8_lead b;
          '(cp, bytes, r'') ← continuation n top r';
          if valid_point least cp then (fun t => String (chr b) (bytes +:+ t)) <$> decode_uri fuel r'' else None
  end.

(** Each step consumes a character, so the length is fuel enough. *)
Definition decodeURIComponent (s : string) : option string := decode_uri (String.length s) s.

Definition is_ascii (c : ascii) : bool := code c <? 128.

(** A property of every ASCII character, checked on each. *)
Lemma ascii_all (p : ascii -> bool) :
  forallb (fun n => p (ascii_of_nat n)) (seq 0 256) = true -> forall c, p c = true.
Proof.
  intros H c. rewrite forallb_forall in H. specialize (H (nat_of_ascii c)).
  rewrite ascii_nat_embedding in H. apply H. apply in_seq. pose proof (nat_ascii_bounded c). lia.
Qed.

Definition escape_ok (c : ascii) : bool :=
  match escape (String "%" (String (hex_digit (code c / 16)) (String (hex_digit (code c mod 16)) EmptyString))) with
  | Some (b, EmptyString) => (b =? code c) && Ascii.eqb (chr b) c
  | _ => false
  end.

Lemma escape_char c r :
  escape (String "%" (String (hex_digit (code c / 16)) (String (hex_digit (code c mod 16)) r))) = Some (code c, r) /\
  chr (code c) = c.
Proof.
  assert (H : escape_ok c = true) by (revert c; apply ascii_all; vm_compute; reflexivity).
  unfold escape_ok, escape in *. destruct (hex_val (hex_digit (code c / 16))) as [h|]; [|discriminate H].
  destruct (hex_val (hex_digit (code c mod 16))) as [l|]; [|discriminate H]. simpl in *. apply andb_true_iff in H as [H1%Z.eqb_eq H2%Ascii.eqb_eq].
  rewrite H1 in *. done.
Qed.

Lemma unreserved_not_percent c : uri_unreserved c = true -> Ascii.eqb c "%" = false.
Proof. intros H. destruct (Ascii.eqb_spec c "%") as [->|]; done. Qed.

Lemma encode_length s : (String.length s <= String.length (encodeURIComponent s))%nat.
Proof. induction s as [|c s IH]; [done|]. simpl. destruct (uri_unreserved c); simpl; lia. Qed.

Lemma decode_encode_fuel s : str_forall is_ascii s = true ->
  forall fuel, (String.length s <= fuel)%nat -> decode_uri fuel (encodeURIComponent s) = Some s.
Proof.
  induction s as [|c s IH]; intros Ha fuel Hf; [destruct fuel; done|].
  apply andb_true_iff in Ha as [Hc Ha]. destruct fuel as [|fuel]; [simpl in Hf; lia|].
  simpl in Hf. simpl encodeURIComponent. destruct (uri_unreserved c) eqn:Eu.
  - simpl decode_uri. rewrite (unreserved_not_percent c Eu), IH by (done || lia). done.
  - destruct (escape_char c (encodeURIComponent s)) as [E Ech].
    cbn [decode_uri Ascii.eqb]. rewrite E. simpl. unfold is_ascii in Hc. rewrite Hc, Ech, IH by (done || lia). done.
Qed.

(** ASCII text survives encoding. *)
Lemma decode_encode s : str_forall is_ascii s = true -> decodeURIComponent (encodeURIComponent s) = Some s.
Proof. intros H. apply decode_encode_fuel; [done|]. apply encode_length. Qed.

Definition slash_free (c : ascii) : bool :=
  negb (has_char "/" (encodeURIComponent (String c EmptyString))).

(** An encoded component holds no slash. *)
Lemma encode_no_slash s : has_char "/" (encodeURIComponent s) = false.
Proof.
  induction s as [|c s IH]; [done|].
  assert (H : slash_free c = true) by (revert c; apply ascii_all; vm_compute; reflexivity).
  unfold slash_free in H. apply negb_true_iff in H.
  replace (encodeURIComponent (String c s)) with (encodeURIComponent (String c EmptyString) +:+ encodeURIComponent s)
    by (simpl; destruct (uri_unreserved c); done).
  rewrite has_char_app, H, IH. done.
Qed.

Lemma encode_nonempty s : s <> EmptyString -> encodeURIComponent s <> EmptyString.
Proof. destruct s as [|c s]; [done|]. intros _. simpl. destruct (uri_unreserved c); done. Qed.

Example uri_example :
  encodeURIComponent "a b/é" = "a%20b%2F%C3%A9" /\ decodeURIComponent "a%20b%2F%C3%A9" = Some "a b/é" /\
  decodeURIComponent "%C3" = None /\ decodeURIComponent "%zz" = None.
Proof. repeat split; vm_compute; reflexivity. Qed.
