(* ===== verification/HttpRouting.v ===== *)
(** * Routing to the open backend ([api/http.ts], [api/media.ts])

    Which backend connection the page shows, and the URLs that reach it. The
    page is its location (none outside a browser) and the module's
    [scopedConnectionId]. [None] of an outer option is the [URIError] that
    [decodeURIComponent] throws on a malformed path. The URL class that
    resolves a relative URL and [URLSearchParams] are the browser's. *)

From Stdlib Require Import Ascii ZArith Lia.
From stdpp Require Import base list strings option.
From S2P Require Import Prelude JsString JsNum JsUri.

Class Browser := {
  (** [new URL(url, base).pathname]; [None] when it throws. *)
  resolve_pathname : string -> string -> option string;
  (** [new URLSearchParams(entries).toString()]. *)
  search_params : list (string * string) -> string
}.

Record Location := { pathname : string; origin : string }.

Record Page := { window : option Location; scopedConnectionId : option string }.

Definition PROTECTED_PATH_PREFIX : string := "/api/v1".

Definition not_slash (c : ascii) : bool := negb (Ascii.eqb c "/").

(** [/^\/b\/([^/]+)/] and its group, decoded. *)
Definition connectionIdFromPath (path : string) : option (option string) :=
  if starts_with path "/b/" then
    let seg := (span not_slash (drop_str 3 path)).1 in
    if truthy seg then Some <$> decodeURIComponent seg else Some None
  else Some None.

Definition setScopedConnectionId (connectionId : option string) (page : Page) : Page :=
  {| window := window page; scopedConnectionId := connectionId |}.

Definition is_page (path page : string) : bool := (path =s page) || starts_with path (page +:+ "/").

Definition getActiveConnectionId (page : Page) : option (option string) :=
  match window page with
  | None => Some (scopedConnectionId page)
  | Some l =>
      pathId ← connectionIdFromPath (pathname l);
      Some
        match truthy_opt pathId with
        | Some id => Some id
        | None =>
            match truthy_opt (scopedConnectionId page) with
            | Some id => Some id
            | None => if is_page (pathname l) "/connections" || is_page (pathname l) "/setup"
                      then None else Some "default"
            end
        end
  end.

(** The connection whose backend needs a prefix: not the local default. *)
Definition remote_id (connectionId : option string) : option string :=
  match truthy_opt connectionId with
  | Some id => if id =s "default" then None else Some id
  | None => None
  end.

Definition connectionScopedKey (page : Page) (key : string) : option string :=
  id ← getActiveConnectionId page;
  Some match remote_id id with Some c => key +:+ "@" +:+ c | None => key end.

Definition getConnectionBasePath (page : Page) : option string :=
  id ← getActiveConnectionId page;
  Some match remote_id id with Some c => "/b/" +:+ encodeURIComponent c | None => EmptyString end.

(** [/^[a-zA-Z][a-zA-Z\d+.-]*:/] *)
Definition isAbsoluteUrl (url : string) : bool :=
  match url with
  | String c r =>
      is_alpha c &&
      starts_with (span (fun c => is_alnum c || has_char c "+.-") r).2 ":"
  | EmptyString => false
  end.

Definition apiUrl (page : Page) (path : string) : option string :=
  if starts_with path "/" then (fun base => base +:+ path) <$> getConnectionBasePath page else Some path.

Definition appUrl (page : Page) (path : string) : option string :=
  if starts_with path "/" then (fun base => base +:+ path) <$> getConnectionBasePath page else Some path.

Definition backendUrl (page : Page) (url : string) : option string :=
  if isAbsoluteUrl url then Some url else apiUrl page url.

Definition page_origin (page : Page) : string := match window page with Some l => origin l | None => EmptyString end.

(** [Some None] is [null]. *)
Definition backendResourceUrl `{Browser} (page : Page) (url : option string) : option (option string) :=
  match truthy_opt url with
  | None => Some None
  | Some u =>
      if isAbsoluteUrl u then Some (Some u)
      else
        path ← resolve_pathname u (page_origin page);
        if is_page path PROTECTED_PATH_PREFIX then Some <$> apiUrl page u else Some (Some u)
  end.

Definition getApiBaseUrl (page : Page) : option string :=
  match window page with
  | None => Some "http://localhost"
  | Some l => (fun base => origin l +:+ base) <$> getConnectionBasePath page
  end.

Definition getWebSocketBaseUrl (page : Page) : option string :=
  base ← getApiBaseUrl page;
  Some (if starts_with base "http" then "ws" +:+ drop_str 4 base else base).

(** ** Media ([api/media.ts]) *)

Definition getMediaFileUrl (page : Page) (siteName : string) (mediaId : num) : option string :=
  base ← getApiBaseUrl page;
  backendUrl page (base +:+ "/api/v1/media/stream/" +:+ encodeURIComponent siteName +:+ "/" +:+ show_num mediaId).

Definition getJobTaskResultFileUrl (page : Page) (jobId taskId : string) (resultIndex : num) : option string :=
  base ← getApiBaseUrl page;
  backendUrl page (base +:+ "/api/v1/jobs/" +:+ encodeURIComponent jobId +:+ "/tasks/" +:+
    encodeURIComponent taskId +:+ "/files/" +:+ show_num resultIndex).

Definition getDrmManifestUrl (page : Page) (siteName : string) (mediaId : num) : option string :=
  base ← getApiBaseUrl page;
  backendUrl page (base +:+ "/api/v1/media/drm/" +:+ encodeURIComponent siteName +:+ "/" +:+ show_num mediaId +:+ "/manifest.mpd").

Definition getDrmLicenseUrl (page : Page) (siteName : string) (mediaId : num) : option string :=
  base ← getApiBaseUrl page;
  backendUrl page (base +:+ "/api/v1/media/drm/" +:+ encodeURIComponent siteName +:+ "/" +:+ show_num mediaId +:+ "/license").

Definition getMediaProxyUrl `{Browser} (page : Page) (cdnUrl : option string) (site : string) (authId : option num) :
    option (option string) :=
  match truthy_opt cdnUrl with
  | None => Some None
  | Some u =>
      let params := [("url", u); ("site", site)] ++
        match authId with Some a => [("auth_id", show_num a)] | None => [] end in
      Some <$> backendUrl page ("/api/v1/media/proxy?" +:+ search_params params)
  end.

(** ** Theorems *)

Lemma span_all p s : str_forall p s = true -> span p s = (s, EmptyString).
Proof.
  induction s as [|c s IH]; [done|]. simpl. intros H. apply andb_true_iff in H as [Hc Hs].
  rewrite Hc, IH by done. done.
Qed.

Lemma no_slash_forall s : has_char "/" s = false -> str_forall not_slash s = true.
Proof. unfold has_char, not_slash. intros H. apply negb_false_iff in H. exact H. Qed.

(** The first segment of a path, up to the end or the next slash. *)
Lemma first_segment seg rest :
  has_char "/" seg = false -> (rest = EmptyString \/ starts_with rest "/" = true) ->
  (span not_slash (seg +:+ rest)).1 = seg.
Proof.
  intros Hs [->|Hr].
  - rewrite str_app_nil_r, span_all; [done|apply no_slash_forall, Hs].
  - destruct (starts_with_inv rest "/" Hr) as [t ->]. change ("/" +:+ t) with (String "/" t).
    rewrite span_stop; [done|apply no_slash_forall, Hs|done].
Qed.

Lemma connection_of_base id rest :
  id <> EmptyString -> str_forall is_ascii id = true ->
  (rest = EmptyString \/ starts_with rest "/" = true) ->
  connectionIdFromPath (("/b/" +:+ encodeURIComponent id) +:+ rest) = Some (Some id).
Proof.
  intros Hne Ha Hr. unfold connectionIdFromPath. rewrite app_assoc_str, starts_with_app, (drop_str_app "/b/").
  rewrite first_segment by (apply encode_no_slash || done).
  rewrite (proj2 (truthy_nonempty _)) by (apply encode_nonempty, Hne).
  rewrite decode_encode by done. done.
Qed.

(** A backend path is sent to the open connection: it gets the prefix
    [/b/{id}], with the identifier encoded, and any page at the resulting URL
    shows that same connection again; a URL with a scheme is left alone. *)
Theorem backend_url_keeps_connection page id path :
  getActiveConnectionId page = Some (Some id) ->
  id <> EmptyString -> id <> "default" -> str_forall is_ascii id = true ->
  starts_with path "/" = true ->
  let url := ("/b/" +:+ encodeURIComponent id) +:+ path in
  backendUrl page path = Some url /\ appUrl page path = Some url /\
  (forall l s, pathname l = url -> getActiveConnectionId {| window := Some l; scopedConnectionId := s |} = Some (Some id)) /\
  (forall absolute, isAbsoluteUrl absolute = true -> backendUrl page absolute = Some absolute).
Proof.
  intros Hid Hne Hnd Ha Hp url.
  assert (Hbase : getConnectionBasePath page = Some ("/b/" +:+ encodeURIComponent id)).
  { unfold getConnectionBasePath. rewrite Hid. cbn [mbind option_bind]. unfold remote_id. rewrite truthy_opt_nonempty by done.
    rewrite (proj2 (str_eqb_neq _ _)) by done. done. }
  assert (Hr : isAbsoluteUrl path = false) by (destruct (starts_with_inv _ _ Hp) as [t ->]; done).
  unfold backendUrl, apiUrl, appUrl. rewrite Hr, Hp, Hbase. split; [done|]. split; [done|]. split.
  - intros l s Hl. unfold getActiveConnectionId. cbn [window]. rewrite Hl. unfold url.
    rewrite connection_of_base by auto. cbn [mbind option_bind]. rewrite truthy_opt_nonempty by done. done.
  - intros a Habs. rewrite Habs. done.
Qed.

Lemma backend_url_keeps_connection_witness :
  backendUrl {| window := Some {| pathname := "/b/my%20nas/users"; origin := "http://h" |}; scopedConnectionId := None |}
    "/api/v1/jobs" = Some "/b/my%20nas/api/v1/jobs".
Proof.
  refine (proj1 (backend_url_keeps_connection
    {| window := Some {| pathname := "/b/my%20nas/users"; origin := "http://h" |}; scopedConnectionId := None |}
    "my nas" "/api/v1/jobs" _ _ _ _ _)); vm_compute; congruence.
Defined.
