(* ===== verification/RuntimeTelemetry.v ===== *)
(** * The runtime telemetry of a job ([api/types/jobs.ts])

    The aggregate the server measures over a whole job. A field the server may
    omit or send as [null] is an [option]; a [Record<string, T>] is a map with
    string keys. *)

From stdpp Require Import base list strings option.
From S2P Require Import Prelude JsString JsNum.

(** [{ ms, count }] *)
Record TimedCount := { tc_ms : num; tc_count : num }.

(** [{ mean_ms, count, mean_ms_per_observation? }] *)
Record SetupSubphase := { sub_mean_ms : num; sub_count : num; sub_mean_ms_per_observation : option num }.

(** The statistics of one kind of writer operation or domain. *)
Record WriterOperationStat := {
  op_count : num;
  op_mean_batch_commands : num;
  op_mean_batch_wall_ms : num;
  op_receipt_phases_count : option num;
  op_mean_receipt_lock_ms : option num;
  op_mean_receipt_read_ms : option num;
  op_mean_write_fence_ms : option num
}.

Record JobRouteLookupStat := {
  lookup_route_attempts : num;
  lookup_observations : num;
  lookup_found_count : option num;
  lookup_not_found_count : option num;
  lookup_error_count : option num;
  lookup_timeout_count : option num;
  lookup_cancelled_count : option num;
  guest_init_failure_count : option num;
  guest_init_cancelled_count : option num;
  primary_selected_count : option num;
  hedge_selected_count : option num;
  fallback_selected_count : option num;
  deferred_selected_count : option num;
  healthy_selected_count : option num;
  retry_selected_count : option num;
  mean_route_active_ms : num;
  mean_guest_init_ms : num;
  mean_lookup_ms : option num
}.

Record JobRuntimeTelemetry := {
  rt_version : num;
  rt_scope : string;
  rt_task_count : num;
  rt_succeeded_tasks : num;
  rt_failed_tasks : num;
  rt_first_started_at : option string;
  rt_last_finished_at : option string;
  rt_active_window_ms : num;
  rt_task_duration_sum_ms : num;
  rt_mean_task_duration_ms : option num;
  rt_mean_queue_wait_ms : option num;
  rt_mean_setup_ms : option num;
  rt_setup_subphases : option (JMap.t SetupSubphase);
  rt_mean_handler_ms : option num;
  rt_mean_handler_exclusive_ms : option num;
  rt_guest_auth_stats : option (JMap.t TimedCount);
  rt_terminal_stats : option (JMap.t TimedCount);
  rt_ledger_stats : option (JMap.t TimedCount);
  rt_mean_handler_guest_init_ms : option num;
  rt_handler_guest_init_count : option num;
  rt_mean_handler_initial_lookup_ms : option num;
  rt_handler_initial_lookup_count : option num;
  rt_mean_handler_refresh_api_ms : option num;
  rt_handler_refresh_api_count : option num;
  rt_mean_handler_fallback_retry_ms : option num;
  rt_handler_fallback_retry_count : option num;
  rt_mean_handler_serialization_ms : option num;
  rt_handler_serialization_count : option num;
  rt_mean_writer_ms : option num;
  rt_mean_post_ms : option num;
  rt_mean_release_ms : option num;
  rt_mean_claim_wait_ms : option num;
  rt_mean_writer_admission_ms : option num;
  rt_mean_writer_admission_serialization_ms : option num;
  rt_mean_writer_admission_capacity_wait_ms : option num;
  rt_mean_writer_admission_redis_ms : option num;
  rt_mean_writer_admission_overhead_detail_ms : option num;
  rt_mean_writer_queue_ms : option num;
  rt_mean_writer_execution_ms : option num;
  rt_mean_writer_commit_ms : option num;
  rt_mean_writer_overhead_ms : option num;
  rt_mean_writer_batch_peer_work_ms : option num;
  rt_mean_writer_delivery_ms : option num;
  rt_mean_writer_result_publication_ms : option num;
  rt_mean_writer_result_observation_ms : option num;
  rt_mean_writer_result_delivery_residual_ms : option num;
  rt_writer_result_delivery_split_coverage_ratio : option num;
  rt_writer_result_cache_hits : option num;
  rt_writer_receipt_fallbacks : option num;
  rt_writer_result_cache_hit_ratio : option num;
  rt_writer_split_missing_reasons : option (JMap.t num);
  rt_writer_operation_stats : option (JMap.t WriterOperationStat);
  rt_writer_domain_stats : option (JMap.t WriterOperationStat);
  rt_writer_timed_submits : num;
  rt_writer_timing_coverage_ratio : option num;
  rt_mean_writer_connection_checkout_ms : option num;
  rt_mean_writer_receipt_lookup_ms : option num;
  rt_mean_writer_receipt_finalize_ms : option num;
  rt_mean_writer_payload_ms : option num;
  rt_mean_writer_user_row_ms : option num;
  rt_mean_writer_alias_ms : option num;
  rt_mean_writer_authority_ms : option num;
  rt_writer_authority_rows_examined : option num;
  rt_writer_authority_rows_skipped : option num;
  rt_writer_authority_rows_upserted : option num;
  rt_mean_writer_profile_ms : option num;
  rt_mean_writer_social_ms : option num;
  rt_mean_writer_flush_ms : option num;
  rt_mean_writer_queue_commands_at_start : option num;
  rt_max_writer_queue_commands_at_start : num;
  rt_mean_writer_queue_bytes_at_start : option num;
  rt_max_writer_queue_bytes_at_start : num;
  rt_mean_writer_active_lanes : option num;
  rt_max_writer_active_lanes : num;
  rt_mean_writer_batch_commands : option num;
  rt_mean_writer_batch_fill_ratio : option num;
  rt_mean_writer_lane_idle_ms : option num;
  rt_mean_writer_lane_predecessor_wait_ms : option num;
  rt_mean_writer_refill_wait_ms : option num;
  rt_writer_configured_concurrency : num;
  rt_writer_configured_batch_size : num;
  rt_writer_window_commands : option num;
  rt_writer_queue_max_commands : num;
  rt_writer_queue_max_bytes : num;
  rt_writer_refill_min_commands : num;
  rt_writer_refill_min_commands_per_lane : option num;
  rt_max_worker_completion_gap_ms : num;
  rt_ready_queue_recovery_count : num;
  rt_ready_queue_recovered_tasks : num;
  rt_time_weighted_inflight : option num;
  rt_route_attempts : num;
  rt_route_active_sum_ms : num;
  rt_route_lookup_stats : option (JMap.t JobRouteLookupStat);
  rt_time_weighted_active_routes : option num;
  rt_steady_task_count : num;
  rt_steady_window_ms : num;
  rt_steady_throughput : option num;
  rt_steady_mean_task_duration_ms : option num;
  rt_ramp_window_ms : option num;
  rt_drain_window_ms : option num;
  rt_ready_nonempty_ratio : option num;
  rt_ready_nonempty_samples : option num;
  rt_ready_sample_count : option num;
  rt_mean_ready_depth : option num;
  rt_max_ready_depth : num;
  rt_workers_seen : num;
  rt_expected_workers : num;
  rt_time_weighted_participating_workers : option num;
  rt_time_weighted_effective_worker_capacity : option num
}.
