(* ===== verification/JobTypes.v ===== *)
(** * The job API's records ([api/types/jobs.ts], [api/types/network.ts])

    The responses the job pages read. A field the server may omit or send as
    [null] is an [option]; where the code tells the two apart ([proxy_url]) the
    field is an [option] of an [option]. Counts, durations and percentages are
    JavaScript numbers. *)

From stdpp Require Import base list strings option.
From S2P Require Import Prelude JsString JsNum JsValue RuntimeTelemetry.

Inductive hop_status := HopUsed | HopFailed | HopUntried | HopPending.

#[export] Instance hop_status_eq_dec : EqDecision hop_status.
Proof. solve_decision. Defined.

Record TaskRouteHop := {
  hop_number : Z;
  hop_url : option string;
  masked_url : string;
  is_direct : bool;
  hop_state : hop_status;
  role_label : string;
  country : option string;
  country_code : option string;
  flag_emoji : option string;
  group : option string
}.

Record TaskDetail := {
  td_message : option string;
  td_task_id : option string;
  td_task_type : string;
  td_status : string;
  td_site : option string;
  td_username : option string;
  td_content_type : option string;
  td_payload : option fields;
  td_worker_id : option string;
  td_started_at : option string;
  td_completed_at : option string;
  td_progress : num;
  td_items_processed : num;
  td_items_total : option num;
  td_error : option string;
  td_result : option fields;
  td_proxy_url : option (option string);
  td_proxy_routes : option (list (option string));
  td_proxy_hop_used : option num;
  td_proxy_hops : option (list TaskRouteHop);
  td_duration : option num
}.

Record TaskStats := {
  ts_total : num;
  ts_ready : num;
  ts_blocked : num;
  ts_inflight : num;
  ts_deferred : num;
  ts_completed : num;
  ts_failed : num;
  ts_task_type_counts : JMap.t num
}.

Record MPSRefillTraceEvent := {
  re_stage : string;
  re_cycle : num;
  re_timestamp_ms : num;
  re_ready : num;
  re_inflight : num;
  re_completed : num;
  re_failed : num;
  re_window_end : num;
  re_task_count : option num;
  re_ready_added : option num;
  re_archived_tasks : option num;
  re_admitted_tasks : option num;
  re_archive_ms : option num;
  re_window_accounting_ms : option num;
  re_refill_ms : option num;
  re_pass_ms : option num;
  re_window_start : option num;
  re_reason : option string;
  re_controls : option fields
}.

Record JobRuntimeSample := {
  cursor : string;
  timestamp_ms : num;
  sample_total : num;
  sample_ready : num;
  sample_inflight : num;
  sample_completed : num;
  sample_failed : num
}.

Record JobErrorStats := { err_total : num; err_groups : fields }.

Record DeletionProgress := {
  del_rows : option num;
  del_table : option string;
  del_completed_stages : option num;
  del_total_stages : option num;
  del_partitions_dropped : option num;
  del_error : option string
}.

Record TaskSummary := {
  sum_task_type : string;
  sum_content_type : option string;
  sum_status : string;
  sum_username : option string;
  sum_site : option string;
  sum_auth_id : option num;
  sum_items_processed : num;
  sum_items_total : option num
}.

(** A [Job] of the list or a [JobDetail]: the functions modelled take either.
    A field that only one of the two interfaces declares is [None] on the
    other; [tasks] holds summaries in the first and details in the second. *)
Record Job := {
  deletion_progress : option DeletionProgress;
  job_id : string;
  execution_engine : option string;
  job_name : option string;
  job_type : option string;
  job_site : option string;
  job_status : string;
  priority : option num;
  job_worker_id : option string;
  retries : option num;
  max_retries : option num;
  created_at : option string;
  updated_at : option string;
  started_at : option string;
  completed_at : option string;
  task_count : option num;
  completed_tasks : option num;
  failed_tasks : option num;
  job_task_summaries : option (list TaskSummary);
  job_tasks : option (list TaskDetail);
  task_stats : option TaskStats;
  task_stats_observed_at_ms : option num;
  mps_refill_trace : option (list MPSRefillTraceEvent);
  error_stats : option JobErrorStats;
  created_by : option string;
  is_scheduled : option bool;
  scheduled_for : option string;
  interval_seconds : option num;
  cron : option string;
  run_count : option num;
  last_ran_at : option string;
  last_activity_at : option string;
  materialization_status : option string;
  materialized_tasks : option num;
  materialization_total : option num;
  materialization_error : option string;
  metadata : option fields;
  args : option fields;
  duration_seconds : option num;
  result_success : option bool;
  result_message : option string;
  result_error : option string;
  job_runtime_telemetry : option JobRuntimeTelemetry
}.

Definition JobDetail := Job.

(** ** Network proxies *)

Record GeoFlag := { flag_img : option string; flag_char : option string; flag_unicode : option string }.

Record GeoConnection := {
  conn_asn : option num;
  conn_org : option string;
  conn_isp : option string;
  conn_domain : option string
}.

Record GeoTimezone := {
  tz_id : option string;
  tz_abbr : option string;
  tz_is_dst : option bool;
  tz_offset : option num;
  tz_utc : option string;
  tz_current_time : option string
}.

Record GeolocationData := {
  geo_ip : string;
  geo_success : bool;
  geo_type : option string;
  geo_continent : option string;
  geo_continent_code : option string;
  geo_country : option string;
  geo_country_code : option string;
  geo_region : option string;
  geo_region_code : option string;
  geo_city : option string;
  geo_latitude : option num;
  geo_longitude : option num;
  geo_is_eu : option bool;
  geo_postal : option string;
  geo_calling_code : option string;
  geo_capital : option string;
  geo_borders : option string;
  geo_flag : option GeoFlag;
  geo_connection : option GeoConnection;
  geo_timezone : option GeoTimezone
}.

(** The code tests whether the server sent [max_connections] and
    [assigned_auths]. *)
Record NetworkProxy := {
  proxy_id : string;
  proxy_url : string;
  proxy_username : option string;
  proxy_enabled : option bool;
  max_connections : option num;
  proxy_group : option string;
  assigned_auths : option (list num);
  active_assigned_count : option num;
  geolocation : option GeolocationData;
  guest_lookup_timeout : option num
}.
