(* ===== verification/SharedSocket.v ===== *)
(** * The shared WebSocket ([hooks/useWebSocket.ts])

    One [SharedSocket] object serves every hook of a tab that listens on a URL.
    [socket] is the object's private state together with the part of the browser
    it acts on: the [WebSocket] objects it constructed with their [readyState]
    and their installed handlers, the live timers, and the trace of what it did.
    Each method of the class is a function on [socket]; [step] is the event loop,
    one step per hook call, browser event or timer.

    The browser obeys the WebSocket standard: a connection is opened once from
    CONNECTING, messages arrive while it is OPEN, [close()] makes it CLOSING and
    the close event makes it CLOSED.  Whether the constructor throws ([ok]), the
    clock ([now]) and [JSON.parse] are inputs. *)

From Stdlib Require Import Ascii ZArith Lia.
From stdpp Require Import base list strings option gmap.
From S2P Require Import Prelude JsString JsNum JsValue.

Inductive readyState := CONNECTING | OPEN | CLOSING | CLOSED.

#[export] Instance readyState_eq_dec : EqDecision readyState.
Proof. solve_decision. Defined.

(** A registered hook: its identity in the [Set] and the topics it needs. *)
Record Listener := { listener_id : nat; topics : list string }.

#[export] Instance Listener_eq_dec : EqDecision Listener.
Proof. solve_decision. Defined.

Record SocketSettings := {
  reconnect : bool;
  reconnectInterval : Z;
  reconnectAttempts : Z;
  pingInterval : Z
}.

(** The callback a live timer runs. *)
Inductive timer := ReconnectTimer | PingTimer | IdleTimer.

#[export] Instance timer_eq_dec : EqDecision timer.
Proof. solve_decision. Defined.

(** What the object does to the outside: the sockets, the listeners, the
    console. *)
Inductive effect :=
| Construct (id : nat)
| SendSubscribe (id : nat) (topics : list string)
| SendPing (id : nat) (timestamp : Z)
| SendData (id : nat) (data : value)
| CloseSocket (id : nat)
| CallOpen (l : Listener)
| CallMessage (l : Listener) (event : value)
| CallClose (l : Listener)
| CallError (l : Listener)
| Console (text : string).

Definition RESYNC_EVENT : value :=
  VObj [("type", VStr "resync"); ("event", VStr "job_resync")].

Definition DEFAULT_TOPICS : list string := ["jobs"; "system"].
Definition IDLE_CLOSE_MS : Z := 2000.

Record socket := Socket {
  (* fields of the class *)
  ws : option nat;
  listeners : list Listener;
  reconnectCount : Z;
  reconnectTimer : option nat;
  pingTimer : option nat;
  idleTimer : option nat;
  subscribed : string;
  opened : bool;
  lastPong : Z;
  connected : bool;
  (* [sockets.get(url)] is this object *)
  registered : bool;
  (* the browser *)
  next_ws : nat;
  ready : gmap nat readyState;
  handlers : gset nat;
  next_timer : nat;
  timers : gmap nat timer;
  trace : list effect
}.

Definition set_ws x (w : socket) : socket := Socket x (listeners w) (reconnectCount w) (reconnectTimer w) (pingTimer w) (idleTimer w) (subscribed w) (opened w) (lastPong w) (connected w) (registered w) (next_ws w) (ready w) (handlers w) (next_timer w) (timers w) (trace w).
Definition set_listeners x (w : socket) : socket := Socket (ws w) x (reconnectCount w) (reconnectTimer w) (pingTimer w) (idleTimer w) (subscribed w) (opened w) (lastPong w) (connected w) (registered w) (next_ws w) (ready w) (handlers w) (next_timer w) (timers w) (trace w).
Definition set_reconnectCount x (w : socket) : socket := Socket (ws w) (listeners w) x (reconnectTimer w) (pingTimer w) (idleTimer w) (subscribed w) (opened w) (lastPong w) (connected w) (registered w) (next_ws w) (ready w) (handlers w) (next_timer w) (timers w) (trace w).
Definition set_reconnectTimer x (w : socket) : socket := Socket (ws w) (listeners w) (reconnectCount w) x (pingTimer w) (idleTimer w) (subscribed w) (opened w) (lastPong w) (connected w) (registered w) (next_ws w) (ready w) (handlers w) (next_timer w) (timers w) (trace w).
Definition set_pingTimer x (w : socket) : socket := Socket (ws w) (listeners w) (reconnectCount w) (reconnectTimer w) x (idleTimer w) (subscribed w) (opened w) (lastPong w) (connected w) (registered w) (next_ws w) (ready w) (handlers w) (next_timer w) (timers w) (trace w).
Definition set_idleTimer x (w : socket) : socket := Socket (ws w) (listeners w) (reconnectCount w) (reconnectTimer w) (pingTimer w) x (subscribed w) (opened w) (lastPong w) (connected w) (registered w) (next_ws w) (ready w) (handlers w) (next_timer w) (timers w) (trace w).
Definition set_subscribed x (w : socket) : socket := Socket (ws w) (listeners w) (reconnectCount w) (reconnectTimer w) (pingTimer w) (idleTimer w) x (opened w) (lastPong w) (connected w) (registered w) (next_ws w) (ready w) (handlers w) (next_timer w) (timers w) (trace w).
Definition set_opened x (w : socket) : socket := Socket (ws w) (listeners w) (reconnectCount w) (reconnectTimer w) (pingTimer w) (idleTimer w) (subscribed w) x (lastPong w) (connected w) (registered w) (next_ws w) (ready w) (handlers w) (next_timer w) (timers w) (trace w).
Definition set_lastPong x (w : socket) : socket := Socket (ws w) (listeners w) (reconnectCount w) (reconnectTimer w) (pingTimer w) (idleTimer w) (subscribed w) (opened w) x (connected w) (registered w) (next_ws w) (ready w) (handlers w) (next_timer w) (timers w) (trace w).
Definition set_connected x (w : socket) : socket := Socket (ws w) (listeners w) (reconnectCount w) (reconnectTimer w) (pingTimer w) (idleTimer w) (subscribed w) (opened w) (lastPong w) x (registered w) (next_ws w) (ready w) (handlers w) (next_timer w) (timers w) (trace w).
Definition set_registered x (w : socket) : socket := Socket (ws w) (listeners w) (reconnectCount w) (reconnectTimer w) (pingTimer w) (idleTimer w) (subscribed w) (opened w) (lastPong w) (connected w) x (next_ws w) (ready w) (handlers w) (next_timer w) (timers w) (trace w).
Definition set_next_ws x (w : socket) : socket := Socket (ws w) (listeners w) (reconnectCount w) (reconnectTimer w) (pingTimer w) (idleTimer w) (subscribed w) (opened w) (lastPong w) (connected w) (registered w) x (ready w) (handlers w) (next_timer w) (timers w) (trace w).
Definition set_ready x (w : socket) : socket := Socket (ws w) (listeners w) (reconnectCount w) (reconnectTimer w) (pingTimer w) (idleTimer w) (subscribed w) (opened w) (lastPong w) (connected w) (registered w) (next_ws w) x (handlers w) (next_timer w) (timers w) (trace w).
Definition set_handlers x (w : socket) : socket := Socket (ws w) (listeners w) (reconnectCount w) (reconnectTimer w) (pingTimer w) (idleTimer w) (subscribed w) (opened w) (lastPong w) (connected w) (registered w) (next_ws w) (ready w) x (next_timer w) (timers w) (trace w).
Definition set_next_timer x (w : socket) : socket := Socket (ws w) (listeners w) (reconnectCount w) (reconnectTimer w) (pingTimer w) (idleTimer w) (subscribed w) (opened w) (lastPong w) (connected w) (registered w) (next_ws w) (ready w) (handlers w) x (timers w) (trace w).
Definition set_timers x (w : socket) : socket := Socket (ws w) (listeners w) (reconnectCount w) (reconnectTimer w) (pingTimer w) (idleTimer w) (subscribed w) (opened w) (lastPong w) (connected w) (registered w) (next_ws w) (ready w) (handlers w) (next_timer w) x (trace w).
Definition set_trace x (w : socket) : socket := Socket (ws w) (listeners w) (reconnectCount w) (reconnectTimer w) (pingTimer w) (idleTimer w) (subscribed w) (opened w) (lastPong w) (connected w) (registered w) (next_ws w) (ready w) (handlers w) (next_timer w) (timers w) x.

(** The fields a freshly constructed object has. *)
Definition new_socket (now : Z) : socket :=
  Socket None [] 0 None None None "" false now false true 0 ∅ ∅ 0 ∅ [].

(** The topics a hook registers, from the [topics] option: they travel through
    the effect's dependency key. *)
Definition hook_topics (topics : list string) : list string :=
  let topicsKey := join "|" (sort_strings topics) in
  if truthy topicsKey then split "|" topicsKey else [].

(** ** The browser primitives *)

Definition emit (e : effect) (w : socket) : socket := set_trace (trace w ++ [e]) w.

Definition emit_all (es : list effect) (w : socket) : socket := set_trace (trace w ++ es) w.

(** [clearTimeout] and [clearInterval] on a field that may be [null]. *)
Definition clear_timer (t : option nat) (w : socket) : socket :=
  match t with Some i => set_timers (delete i (timers w)) w | None => w end.

(** [setTimeout] and [setInterval]: the id of the new timer is [next_timer]. *)
Definition start_timer (k : timer) (w : socket) : socket :=
  set_next_timer (S (next_timer w)) (set_timers (<[next_timer w := k]> (timers w)) w).

(** [ws.close()]. *)
Definition close_ws (id : nat) (w : socket) : socket :=
  let w := emit (CloseSocket id) w in
  match ready w !! id with
  | Some CONNECTING | Some OPEN => set_ready (<[id := CLOSING]> (ready w)) w
  | _ => w
  end.

(** [this.ws?.readyState]. *)
Definition ready_now (w : socket) : option readyState := ws w ≫= fun id => ready w !! id.

Definition is_open (w : socket) : bool := bool_decide (ready_now w = Some OPEN).

(** ** The methods of [SharedSocket] *)

Section methods.
Variable settings : SocketSettings.
(** [JSON.parse] on a message; [None] is a thrown [SyntaxError]. *)
Variable JSON_parse : string -> option value.

(** The sorted union of the topics of the hooks. *)
Definition wanted (w : socket) : list string :=
  sort_strings (uniq (mjoin (map topics (listeners w)))).

Definition subscribe (w : socket) : socket :=
  match ws w with
  | Some id =>
      if is_open w then
        let key := join "|" (wanted w) in
        if key =s subscribed w then w
        else emit (SendSubscribe id (wanted w)) (set_subscribed key w)
      else w
  | None => w
  end.

Definition send (data : value) (w : socket) : socket :=
  match ws w with
  | Some id =>
      if is_open w then emit (SendData id data) w
      else emit (Console "[WebSocket] Cannot send, not connected") w
  | None => emit (Console "[WebSocket] Cannot send, not connected") w
  end.

(** [ok] tells whether [new WebSocket(...)] succeeds. *)
Definition connect (ok : bool) (w : socket) : socket :=
  match ready_now w with
  | Some OPEN | Some CONNECTING => w
  | _ =>
      let w := set_reconnectTimer None (clear_timer (reconnectTimer w) w) in
      if ok then
        let id := next_ws w in
        let w := set_next_ws (S id) w in
        let w := set_ready (<[id := CONNECTING]> (ready w)) w in
        let w := set_handlers ({[id]} ∪ handlers w) w in
        emit (Construct id) (set_ws (Some id) w)
      else emit (Console "[WebSocket] Failed to create WebSocket:") w
  end.

Definition onopen (id : nat) (now : Z) (w : socket) : socket :=
  if bool_decide (ws w = Some id) then
    let reconnected := opened w in
    let w := set_opened true w in
    let w := set_connected true w in
    let w := set_reconnectCount 0 w in
    let w := set_lastPong now w in
    let w := subscribe (set_subscribed "" w) in
    let w := emit_all (mjoin (map (fun l =>
               CallOpen l :: (if reconnected then [CallMessage l RESYNC_EVENT] else []))
               (listeners w))) w in
    let w := clear_timer (pingTimer w) w in
    set_pingTimer (Some (next_timer w)) (start_timer PingTimer w)
  else w.

(** [data.type], where reading a property of [null] throws. *)
Definition message_type (data : value) : option jsval :=
  match data with
  | VNull => None
  | VObj fields => Some (prop "type" fields)
  | _ => Some None
  end.

Definition is_control (t : jsval) : bool :=
  match as_str t with Some s => (s =s "pong") || (s =s "subscribed") | None => false end.

Definition onmessage (id : nat) (now : Z) (raw : string) (w : socket) : socket :=
  if bool_decide (ws w = Some id) then
    let w := set_lastPong now w in
    match JSON_parse raw with
    | None => emit (Console "[WebSocket] Failed to parse message:") w
    | Some data =>
        match message_type data with
        | None => w
        | Some t =>
            if is_control t then w
            else emit_all (map (fun l => CallMessage l data) (listeners w)) w
        end
    end
  else w.

Definition nonempty {A} (l : list A) : bool := match l with [] => false | _ => true end.

Definition onclose (id : nat) (w : socket) : socket :=
  if bool_decide (ws w = Some id) then
    let w := set_ws None w in
    let w := if nonempty (listeners w) then w else set_handlers (handlers w ∖ {[id]}) w in
    let w := set_connected false w in
    let w := set_subscribed "" w in
    let w := set_pingTimer None (clear_timer (pingTimer w) w) in
    let w := emit_all (map CallClose (listeners w)) w in
    if nonempty (listeners w) && reconnect settings && (reconnectCount w <? reconnectAttempts settings)
    then
      let w := set_reconnectCount (reconnectCount w + 1) w in
      set_reconnectTimer (Some (next_timer w)) (start_timer ReconnectTimer w)
    else w
  else w.

Definition onerror (id : nat) (w : socket) : socket :=
  if bool_decide (ws w = Some id) then emit_all (map CallError (listeners w)) w else w.

Definition ping (now : Z) (w : socket) : socket :=
  match ws w with
  | Some id =>
      if is_open w then
        if pingInterval settings * 2 <? now - lastPong w then close_ws id w
        else emit (SendPing id now) w
      else w
  | None => w
  end.

Definition revive (force : bool) (now : Z) (ok : bool) (w : socket) : socket :=
  if nonempty (listeners w) then
    let stale := pingInterval settings * 2 <? now - lastPong w in
    if force || negb (is_open w) || stale then
      let w := set_reconnectCount 0 w in
      match ws w with
      | Some id => if is_open w then close_ws id w else connect ok w
      | None => connect ok w
      end
    else ping now w
  else w.

Definition shutdown (w : socket) : socket :=
  let w := set_idleTimer None w in
  if nonempty (listeners w) then w
  else
    let w := set_registered false w in
    let w := clear_timer (reconnectTimer w) w in
    let w := clear_timer (pingTimer w) w in
    match ws w with
    | Some id =>
        let w := set_ws None w in
        close_ws id (set_handlers (handlers w ∖ {[id]}) w)
    | None => w
    end.

Definition closeIfUnused (w : socket) : socket :=
  if nonempty (listeners w) then w
  else shutdown (clear_timer (idleTimer w) w).

Definition add (l : Listener) (ok : bool) (w : socket) : socket :=
  let w := set_idleTimer None (clear_timer (idleTimer w) w) in
  let w := if bool_decide (l ∈ listeners w) then w else set_listeners (listeners w ++ [l]) w in
  if connected w then subscribe (emit (CallOpen l) w) else connect ok w.

Definition remove (l : Listener) (w : socket) : socket :=
  let w := set_listeners (keep (fun l' => negb (bool_decide (l' = l))) (listeners w)) w in
  if nonempty (listeners w) then subscribe w
  else set_idleTimer (Some (next_timer w)) (start_timer IdleTimer w).

(** ** The event loop *)

(** The callback of a timer that fires. *)
Definition run_timer (k : timer) (now : Z) (ok : bool) (w : socket) : socket :=
  match k with
  | ReconnectTimer => connect ok w
  | PingTimer => ping now w
  | IdleTimer => shutdown w
  end.

(** A [setTimeout] timer is spent when it fires; the ping interval stays. *)
Definition spend (t : nat) (k : timer) (w : socket) : socket :=
  match k with PingTimer => w | _ => set_timers (delete t (timers w)) w end.

(** What happens to the object next. *)
Inductive label :=
| Mount (l : Listener) (ok : bool)
| Unmount (l : Listener)
| Send (data : value)
| Revive (force : bool) (now : Z) (ok : bool)
| CloseUnused
| WsOpened (id : nat) (now : Z)
| WsMessage (id : nat) (now : Z) (raw : string)
| WsClosing (id : nat)
| WsClosed (id : nat)
| WsError (id : nat)
| TimerFires (t : nat) (now : Z) (ok : bool).

(** A hook mounts on the registered object, with topics from its options, and
    unmounts once; the browser delivers events to installed handlers only. *)
Inductive step : label -> socket -> socket -> Prop :=
| step_mount l ts ok w :
    registered w = true -> l ∉ listeners w -> topics l = hook_topics ts -> step (Mount l ok) w (add l ok w)
| step_unmount l w :
    l ∈ listeners w -> step (Unmount l) w (remove l w)
| step_send data w : step (Send data) w (send data w)
| step_revive force now ok w : step (Revive force now ok) w (revive force now ok w)
| step_close_unused w :
    registered w = true -> step CloseUnused w (closeIfUnused w)
| step_opened id now w :
    ready w !! id = Some CONNECTING ->
    step (WsOpened id now) w
      (let w' := set_ready (<[id := OPEN]> (ready w)) w in
       if bool_decide (id ∈ handlers w) then onopen id now w' else w')
| step_message id now raw w :
    ready w !! id = Some OPEN ->
    step (WsMessage id now raw) w
      (if bool_decide (id ∈ handlers w) then onmessage id now raw w else w)
| step_closing id w :
    ready w !! id = Some OPEN ->
    step (WsClosing id) w (set_ready (<[id := CLOSING]> (ready w)) w)
| step_closed id w r :
    ready w !! id = Some r -> r <> CLOSED ->
    step (WsClosed id) w
      (let w' := set_ready (<[id := CLOSED]> (ready w)) w in
       if bool_decide (id ∈ handlers w) then onclose id w' else w')
| step_error id w :
    step (WsError id) w (if bool_decide (id ∈ handlers w) then onerror id w else w)
| step_timer t k now ok w :
    timers w !! t = Some k ->
    step (TimerFires t now ok) w (run_timer k now ok (spend t k w)).

(** The states of an object whose first hook has just mounted, and on. *)
Inductive reachable : socket -> Prop :=
| reach_init l ts now ok : topics l = hook_topics ts -> reachable (add l ok (new_socket now))
| reach_step a w w' : reachable w -> step a w w' -> reachable w'.
End methods.

(** ** Timers: every live timer is the one its field names *)

Definition field (k : timer) (w : socket) : option nat :=
  match k with
  | ReconnectTimer => reconnectTimer w
  | PingTimer => pingTimer w
  | IdleTimer => idleTimer w
  end.

Definition set_field (k : timer) (t : option nat) (w : socket) : socket :=
  match k with
  | ReconnectTimer => set_reconnectTimer t w
  | PingTimer => set_pingTimer t w
  | IdleTimer => set_idleTimer t w
  end.

Definition stop (k : timer) (w : socket) : socket := set_field k None (clear_timer (field k w) w).
Definition launch (k : timer) (w : socket) : socket :=
  set_field k (Some (next_timer w)) (start_timer k w).

Record timers_ok (w : socket) : Prop := {
  timer_recorded : forall t k, timers w !! t = Some k -> field k w = Some t;
  timer_fresh : forall t k, field k w = Some t -> (t < next_timer w)%nat;
  timer_distinct : forall t k k', field k w = Some t -> field k' w = Some t -> k = k'
}.

Lemma timers_recorded_in w w' :
  timers_ok w ->
  (forall t k, timers w' !! t = Some k -> timers w !! t = Some k) ->
  (forall k, field k w' = field k w) -> next_timer w' = next_timer w ->
  timers_ok w'.
Proof.
  intros [H1 H2 H3] Ht Hf Hn. split; setoid_rewrite Hf; [|rewrite Hn; done|done].
  intros t k Hk. apply H1. auto.
Qed.

Lemma timers_spend t k w : timers_ok w -> timers_ok (spend t k w).
Proof.
  intros H. destruct k; try done; (apply (timers_recorded_in w); [done| |by intros []|done]);
    intros t' k'; simpl; rewrite lookup_delete; by case_decide.
Qed.

Lemma timers_clear k w : timers_ok w -> timers_ok (clear_timer (field k w) w).
Proof.
  intros H. destruct (field k w) as [i|] eqn:E; [|done]. simpl.
  apply (timers_recorded_in w); [done| |by intros []|done].
  intros t' k'; simpl; rewrite lookup_delete; by case_decide.
Qed.

Lemma clear_gone k w t : timers_ok w -> timers (clear_timer (field k w) w) !! t <> Some k.
Proof.
  intros H. destruct (field k w) as [i|] eqn:E; simpl.
  - rewrite lookup_delete. case_decide; [done|].
    intros Ht. apply timer_recorded in Ht; [congruence|done].
  - intros Ht. apply timer_recorded in Ht; [congruence|done].
Qed.

Lemma clear_other k k' w t :
  timers_ok w -> k' <> k -> timers w !! t = Some k' ->
  timers (clear_timer (field k w) w) !! t = Some k'.
Proof.
  intros H Hne Ht. destruct (field k w) as [i|] eqn:E; simpl; [|done].
  rewrite lookup_delete_ne; [done|]. intros ->.
  apply timer_recorded in Ht; [|done]. by pose proof (timer_distinct _ H _ _ _ E Ht).
Qed.

Lemma clear_sub k w t k' : timers (clear_timer (field k w) w) !! t = Some k' -> timers w !! t = Some k'.
Proof. destruct (field k w); simpl; [|done]. rewrite lookup_delete. by case_decide. Qed.

Lemma field_set_eq k o w : field k (set_field k o w) = o.
Proof. by destruct k. Qed.
Lemma field_set_ne k k' o w : k <> k' -> field k' (set_field k o w) = field k' w.
Proof. by destruct k, k'. Qed.
Lemma timers_set_field k o w : timers (set_field k o w) = timers w.
Proof. by destruct k. Qed.
Lemma next_timer_set_field k o w : next_timer (set_field k o w) = next_timer w.
Proof. by destruct k. Qed.
Lemma field_clear k o w : field k (clear_timer o w) = field k w.
Proof. by destruct k, o. Qed.
Lemma field_start k k' w : field k (start_timer k' w) = field k w.
Proof. by destruct k. Qed.
Lemma next_timer_clear o w : next_timer (clear_timer o w) = next_timer w.
Proof. by destruct o. Qed.

(** Nulling a field whose timer is gone. *)
Lemma timers_null k w :
  timers_ok w -> (forall t, timers w !! t <> Some k) -> timers_ok (set_field k None w).
Proof.
  intros [H1 H2 H3] Hk. split.
  - intros t k'. rewrite timers_set_field. intros Ht.
    destruct (decide (k = k')) as [->|Hne]; [by destruct (Hk t)|].
    rewrite field_set_ne by done. auto.
  - intros t k'. rewrite next_timer_set_field.
    destruct (decide (k = k')) as [->|Hne]; [by rewrite field_set_eq|].
    rewrite field_set_ne by done. apply H2.
  - intros t k1 k2.
    destruct (decide (k = k1)) as [->|Hne]; [by rewrite field_set_eq|].
    destruct (decide (k = k2)) as [->|Hne2]; [by rewrite field_set_eq|].
    rewrite !field_set_ne by done. apply H3.
Qed.

Lemma timers_stop k w : timers_ok w -> timers_ok (stop k w).
Proof.
  intros H. apply timers_null; [by apply timers_clear|]. intros t. by apply clear_gone.
Qed.

(** Starting a timer of a kind that has none live. *)
Lemma timers_launch k w :
  timers_ok w -> (forall t, timers w !! t <> Some k) -> timers_ok (launch k w).
Proof.
  intros [H1 H2 H3] Hk. unfold launch. split.
  - intros t k'. rewrite timers_set_field. simpl. rewrite lookup_insert.
    case_decide as E.
    + intros ?; simplify_eq. by rewrite field_set_eq.
    + intros Ht. destruct (decide (k = k')) as [->|Hne]; [by destruct (Hk t)|].
      rewrite field_set_ne, field_start by done. auto.
  - intros t k'. rewrite next_timer_set_field. simpl.
    destruct (decide (k = k')) as [->|Hne].
    + rewrite field_set_eq. intros [= <-]. lia.
    + rewrite field_set_ne, field_start by done. intros Ht%H2. lia.
  - intros t k1 k2.
    assert (Hnew : forall k', field k' w <> Some (next_timer w)).
    { intros k' Hf%H2. lia. }
    destruct (decide (k = k1)) as [<-|Hne], (decide (k = k2)) as [<-|Hne2]; [done|..];
      rewrite ?field_set_eq, ?field_set_ne, ?field_start by done.
    + intros [= <-] Hf. by apply Hnew in Hf.
    + intros Hf [= <-]. by apply Hnew in Hf.
    + apply H3.
Qed.

Lemma launch_live k w t k' :
  timers (launch k w) !! t = Some k' ->
  (t = next_timer w /\ k' = k) \/ (timers w !! t = Some k' /\ t <> next_timer w).
Proof.
  unfold launch. rewrite timers_set_field. simpl. rewrite lookup_insert.
  case_decide; intros; simplify_eq; auto.
Qed.

(** ** What the fields say about the connection *)

Record policy (n : Z) (w : socket) : Prop := {
  pol_ping : forall t, timers w !! t = Some PingTimer -> ws w <> None;
  pol_reconnect : forall t, timers w !! t = Some ReconnectTimer -> ws w = None;
  pol_idle : forall t, timers w !! t = Some IdleTimer -> listeners w = [];
  pol_count : 0 <= reconnectCount w <= Z.max 0 n;
  pol_opened : connected w = true -> opened w = true;
  pol_dead : registered w = false -> ws w = None /\ listeners w = [] /\ forall t, timers w !! t = None;
  pol_nodup : NoDup (listeners w)
}.

(** Kept apart because [add] and a firing idle timer suspend it. *)
Definition idle_live (w : socket) : Prop :=
  registered w = true -> listeners w = [] -> exists t, timers w !! t = Some IdleTimer.

Record sockets_ok (w : socket) : Prop := {
  ws_live : forall id, ws w = Some id ->
    id ∈ handlers w /\ exists r, ready w !! id = Some r /\ r <> CLOSED;
  ws_fresh : forall id r, ready w !! id = Some r -> (id < next_ws w)%nat
}.

Record inv (n : Z) (w : socket) : Prop := {
  inv_timers : timers_ok w;
  inv_policy : policy n w;
  inv_sockets : sockets_ok w
}.

Lemma nonempty_true {A} (l : list A) : nonempty l = true <-> l <> [].
Proof. by destruct l. Qed.

Lemma nonempty_false {A} (l : list A) : nonempty l = false <-> l = [].
Proof. by destruct l. Qed.

(** A method that only sends, logs, or moves the subscription key. *)
Lemma subscribe_eq w : exists s es, subscribe w = set_trace (trace w ++ es) (set_subscribed s w).
Proof.
  unfold subscribe. destruct (ws w) eqn:E; [destruct (is_open w) eqn:Eo; [case_goal|]|].
  all: try (exists (subscribed w), []; rewrite app_nil_r; by destruct w).
  eexists _, _; reflexivity.
Qed.

Lemma send_eq d w : exists es, send d w = set_trace (trace w ++ es) w.
Proof. unfold send, emit. repeat case_goal; eauto. Qed.

(** Fewer live timers, and nothing else that the invariant reads. *)
Lemma inv_less n w w' :
  inv n w ->
  (forall t k, timers w' !! t = Some k -> timers w !! t = Some k) ->
  (forall k, field k w' = field k w) -> next_timer w' = next_timer w ->
  ws w' = ws w -> listeners w' = listeners w -> registered w' = registered w ->
  reconnectCount w' = reconnectCount w -> connected w' = connected w -> opened w' = opened w ->
  handlers w' = handlers w -> ready w' = ready w -> next_ws w' = next_ws w ->
  inv n w'.
Proof.
  intros [HT [P1 P2 P3 P5 P6 P7 P8] [S1 S2]] E1 E2 E3 E4 E5 E6 E7 E8 E9 E10 E11 E12. split.
  - by apply (timers_recorded_in w).
  - constructor; rewrite ?E4, ?E5, ?E6, ?E7, ?E8, ?E9; eauto.
    intros Hr. destruct (P7 Hr) as (A & B & C). repeat split; [done..|].
    intros t. apply eq_None_not_Some. intros [k' Hk%E1]. by rewrite C in Hk.
  - constructor; rewrite ?E4, ?E10, ?E11, ?E12; done.
Qed.

Ltac same H := apply (inv_less _ _ _ H); try reflexivity; try (by intros []); try done.

Lemma inv_trace n es w : inv n w -> inv n (set_trace es w).
Proof. intros H. by same H. Qed.
Lemma inv_subscribed n s w : inv n w -> inv n (set_subscribed s w).
Proof. intros H. by same H. Qed.
Lemma inv_lastPong n p w : inv n w -> inv n (set_lastPong p w).
Proof. intros H. by same H. Qed.
Lemma inv_emit n e w : inv n w -> inv n (emit e w).
Proof. apply inv_trace. Qed.
Lemma inv_emit_all n es w : inv n w -> inv n (emit_all es w).
Proof. apply inv_trace. Qed.

#[export] Hint Resolve inv_trace inv_subscribed inv_lastPong inv_emit inv_emit_all : js.

Lemma inv_subscribe n w : inv n w -> inv n (subscribe w).
Proof. intros H. destruct (subscribe_eq w) as (s & es & ->). auto with js. Qed.

Lemma inv_send n d w : inv n w -> inv n (send d w).
Proof. intros H. destruct (send_eq d w) as (es & ->). auto with js. Qed.

Lemma inv_count n c w : 0 <= c <= Z.max 0 n -> inv n w -> inv n (set_reconnectCount c w).
Proof.
  intros Hc [HT [P1 P2 P3 P5 P6 P7 P8] HS]. split; [|constructor; done|by destruct HS].
  apply (timers_recorded_in w); [done|done|by intros []|done].
Qed.

(** A [readyState] changes to something other than CLOSED. *)
Lemma inv_ready n id r0 r w :
  ready w !! id = Some r0 -> r <> CLOSED -> inv n w -> inv n (set_ready (<[id := r]> (ready w)) w).
Proof.
  intros Hid Hr [HT [P1 P2 P3 P5 P6 P7 P8] [S1 S2]]. split.
  - apply (timers_recorded_in w); [done|done|by intros []|done].
  - by constructor.
  - constructor; simpl.
    + intros i Hi. destruct (S1 i Hi) as (Hh & r' & Hr' & ?). split; [done|].
      rewrite lookup_insert. case_decide; eauto.
    + intros i r'. rewrite lookup_insert. case_decide; [|eauto]. intros _. subst. eauto.
Qed.

Lemma inv_close_ws n id w : inv n w -> inv n (close_ws id w).
Proof.
  intros H. unfold close_ws. change (ready (emit (CloseSocket id) w)) with (ready w).
  destruct (ready w !! id) as [[]|] eqn:E; auto with js;
    apply (inv_ready _ _ _ _ (emit (CloseSocket id) w) E); auto with js.
Qed.

#[export] Hint Resolve inv_subscribe inv_send inv_count inv_close_ws : js.

Lemma inv_ping settings n now w : inv n w -> inv n (ping settings now w).
Proof. intros H. unfold ping. repeat case_goal; auto with js. Qed.
#[export] Hint Resolve inv_ping : js.

Lemma inv_stop n k w : inv n w -> inv n (stop k w).
Proof.
  intros [HT [P1 P2 P3 P5 P6 P7 P8] [S1 S2]].
  assert (Hsub : forall t k', timers (stop k w) !! t = Some k' -> timers w !! t = Some k').
  { intros t k'. unfold stop. rewrite timers_set_field. apply clear_sub. }
  split; [by apply timers_stop|..].
  - constructor; unfold stop, clear_timer in *.
    + intros t Ht%Hsub%P1. by destruct k, (field _ w).
    + intros t Ht%Hsub%P2. by destruct k, (field _ w).
    + intros t Ht%Hsub%P3. by destruct k, (field _ w).
    + by destruct k, (field _ w).
    + by destruct k, (field _ w).
    + intros Hr. assert (Hr' : registered w = false) by (by destruct k, (field _ w)).
      destruct (P7 Hr') as (E1 & E2 & E3). repeat split; [by destruct k, (field _ w)..|].
      intros t. apply eq_None_not_Some. intros [k' Hk]. apply Hsub in Hk. by rewrite E3 in Hk.
    + by destruct k, (field _ w).
  - unfold stop, clear_timer. by destruct k, (field _ w).
Qed.

Lemma inv_spend n t k w : inv n w -> inv n (spend t k w).
Proof.
  intros H. destruct k; simpl; [|done|]; same H; intros t' k'; simpl;
    rewrite lookup_delete; by case_decide.
Qed.

(** [connect] leaves an object whose connection is up or coming up alone, and
    otherwise gives it a new one. *)
Lemma connect_eq ok w :
  connect ok w = w \/
  (connect ok w = emit (Console "[WebSocket] Failed to create WebSocket:") (stop ReconnectTimer w) /\ ok = false) \/
  (connect ok w =
     emit (Construct (next_ws w))
       (set_ws (Some (next_ws w)) (set_handlers ({[next_ws w]} ∪ handlers w)
         (set_ready (<[next_ws w := CONNECTING]> (ready w)) (set_next_ws (S (next_ws w)) (stop ReconnectTimer w))))) /\
   ok = true /\ ready_now w <> Some OPEN).
Proof.
  unfold connect. destruct (ready_now w) as [[]|] eqn:E; auto; right;
    (destruct ok; [right; repeat split; [|done] | left; auto]);
    unfold stop, clear_timer; simpl; by destruct (reconnectTimer w).
Qed.

Lemma inv_connect n ok w : registered w = true -> inv n w -> inv n (connect ok w).
Proof.
  intros Hreg H. destruct (connect_eq ok w) as [->|[[-> _]|[-> _]]]; [done|by apply inv_emit, inv_stop|].
  apply inv_emit.
  assert (Hgone : forall t, timers (stop ReconnectTimer w) !! t <> Some ReconnectTimer).
  { intros t. apply clear_gone, H. }
  destruct (inv_stop n ReconnectTimer w H) as [HT [P1 P2 P3 P5 P6 P7 P8] [S1 S2]].
  set (w1 := stop ReconnectTimer w) in *.
  assert (Hn : next_ws w1 = next_ws w /\ ready w1 = ready w /\ handlers w1 = handlers w /\ registered w1 = true).
  { unfold w1, stop, clear_timer; simpl. by destruct (reconnectTimer w). }
  destruct Hn as (Hn & Hrd & Hh & Hrg). split.
  - apply (timers_recorded_in w1); [done|done|by intros []|done].
  - constructor; simpl; [done| |exact P3|exact P5|exact P6|intros Hr; simpl in *; congruence|exact P8].
    intros t Ht. by destruct (Hgone t).
  - constructor; simpl; [intros id [= <-]; split; [set_solver|]|intros id r].
    + exists CONNECTING. by rewrite lookup_insert_eq.
    + rewrite lookup_insert. case_decide; [lia|]. rewrite <- Hrd. intros Hx. apply S2 in Hx. lia.
Qed.

(** ** Every method keeps the invariant *)

Lemma inv_launch n k w :
  inv n w -> (forall t, timers w !! t <> Some k) -> registered w = true ->
  match k with
  | PingTimer => ws w <> None
  | ReconnectTimer => ws w = None
  | IdleTimer => listeners w = []
  end ->
  inv n (launch k w).
Proof.
  intros [HT [P1 P2 P3 P5 P6 P7 P8] [S1 S2]] Hk Hreg Hside.
  assert (E : ws (launch k w) = ws w /\ listeners (launch k w) = listeners w /\
              registered (launch k w) = registered w /\ reconnectCount (launch k w) = reconnectCount w /\
              connected (launch k w) = connected w /\ opened (launch k w) = opened w)
    by (by destruct k).
  destruct E as (E1 & E2 & E3 & E4 & E5 & E6).
  split; [by apply timers_launch| |by destruct k].
  constructor; rewrite ?E1, ?E2, ?E3, ?E4, ?E5, ?E6; try done; [..|congruence].
  - intros t [[_ <-]|[Ht _]]%launch_live; [done|]. by eapply P1.
  - intros t [[_ <-]|[Ht _]]%launch_live; [done|]. by eapply P2.
  - intros t [[_ <-]|[Ht _]]%launch_live; [done|]. by eapply P3.
Qed.

Lemma stop_gone n k w t : inv n w -> timers (stop k w) !! t <> Some k.
Proof. intros H. unfold stop. rewrite timers_set_field. apply clear_gone, H. Qed.

Lemma stop_fields k w :
  ws (stop k w) = ws w /\ listeners (stop k w) = listeners w /\ registered (stop k w) = registered w /\
  ready (stop k w) = ready w /\ handlers (stop k w) = handlers w /\ next_ws (stop k w) = next_ws w /\
  connected (stop k w) = connected w /\ opened (stop k w) = opened w /\
  subscribed (stop k w) = subscribed w /\ trace (stop k w) = trace w /\
  reconnectCount (stop k w) = reconnectCount w.
Proof. unfold stop, clear_timer. by destruct k, (field _ w). Qed.

(** The current connection belongs to a registered object. *)
Lemma inv_registered n w id : inv n w -> ws w = Some id -> registered w = true.
Proof.
  intros H Hws. destruct (registered w) eqn:E; [done|].
  destruct (pol_dead _ _ (inv_policy _ _ H) E) as (? & _). congruence.
Qed.

Lemma inv_listeners_registered n w : inv n w -> listeners w <> [] -> registered w = true.
Proof.
  intros H Hl. destruct (registered w) eqn:E; [done|].
  by destruct (pol_dead _ _ (inv_policy _ _ H) E) as (_ & ? & _).
Qed.

Lemma inv_mark_open n w : inv n w -> inv n (set_connected true (set_opened true w)).
Proof.
  intros [HT [P1 P2 P3 P5 P6 P7 P8] [S1 S2]]. split; [|by constructor|by constructor].
  apply (timers_recorded_in w); [done|done|by intros []|done].
Qed.

(** [onopen] as a sequence of the primitives above. *)
Definition open_calls (resync : bool) (l : Listener) : list effect :=
  CallOpen l :: (if resync then [CallMessage l RESYNC_EVENT] else []).

Lemma onopen_eq id now w :
  onopen id now w =
    if bool_decide (ws w = Some id) then
      launch PingTimer (stop PingTimer
        (emit_all (mjoin (map (open_calls (opened w)) (listeners w)))
          (subscribe (set_subscribed "" (set_lastPong now (set_reconnectCount 0
            (set_connected true (set_opened true w))))))))
    else w.
Proof.
  unfold onopen. case_goal; [|done].
  set (w1 := set_subscribed _ _).
  assert (E : listeners (subscribe w1) = listeners w).
  { by destruct (subscribe_eq w1) as (s & es & ->). }
  rewrite E. unfold launch, stop, clear_timer. simpl.
  by destruct (pingTimer (subscribe w1)).
Qed.

Lemma inv_onopen n id now w : 0 <= Z.max 0 n -> inv n w -> inv n (onopen id now w).
Proof.
  intros Hn H. rewrite onopen_eq. case_goal; [|done]. apply bool_decide_eq_true in Heqb.
  set (w1 := emit_all _ _).
  assert (H1 : inv n w1).
  { apply inv_emit_all, inv_subscribe, inv_subscribed, inv_lastPong, inv_count; [lia|].
    by apply inv_mark_open. }
  assert (E : ws w1 = Some id).
  { unfold w1. match goal with |- context [subscribe ?x] => destruct (subscribe_eq x) as (s & es & ->) end. done. }
  destruct (stop_fields PingTimer w1) as (E1 & _ & E3 & _).
  apply inv_launch; [by apply inv_stop|intros t; by apply (stop_gone n)| |].
  - rewrite E3. by eapply inv_registered.
  - congruence.
Qed.

Lemma inv_onmessage n J id now raw w : inv n w -> inv n (onmessage J id now raw w).
Proof. intros H. unfold onmessage. repeat case_goal; auto with js. Qed.

Lemma inv_onerror n id w : inv n w -> inv n (onerror id w).
Proof. intros H. unfold onerror. case_goal; auto with js. Qed.

(** The state [onclose] leaves before it decides to reconnect. *)
Definition closed_state (h : gset nat) (w : socket) : socket :=
  stop PingTimer (set_subscribed "" (set_connected false (set_handlers h (set_ws None w)))).

Lemma onclose_eq settings id w :
  onclose settings id w =
    if bool_decide (ws w = Some id) then
      let h := if nonempty (listeners w) then handlers w else handlers w ∖ {[id]} in
      let w1 := emit_all (map CallClose (listeners w)) (closed_state h w) in
      if nonempty (listeners w) && reconnect settings && (reconnectCount w <? reconnectAttempts settings)
      then launch ReconnectTimer (set_reconnectCount (reconnectCount w + 1) w1)
      else w1
    else w.
Proof.
  destruct w as [? [|l ls] ? ? [p|]]; unfold onclose, closed_state, launch, stop, clear_timer;
    simpl; by repeat case_goal.
Qed.

Lemma inv_closed_state n h r0 id w :
  ready w !! id = Some r0 -> ws w = Some id ->
  inv n w -> inv n (closed_state h (set_ready (<[id := CLOSED]> (ready w)) w)).
Proof.
  intros Hid Hws H. pose proof (inv_registered _ _ _ H Hws) as Hreg.
  destruct H as [HT [P1 P2 P3 P5 P6 P7 P8] [S1 S2]]. unfold closed_state.
  set (w1 := set_subscribed _ _).
  assert (HT1 : timers_ok w1) by (apply (timers_recorded_in w); [done|done|by intros []|done]).
  destruct (stop_fields PingTimer w1) as (E1 & E2 & E3 & E4 & E5 & E6 & E7 & E8 & _ & _ & E9).
  split; [by apply timers_stop|..].
  - constructor; rewrite ?E1, ?E2, ?E3, ?E7, ?E8, ?E9.
    + intros t Ht. by destruct (clear_gone PingTimer w1 t HT1 Ht).
    + done.
    + intros t Ht. exact (P3 t (clear_sub PingTimer w1 t _ Ht)).
    + exact P5.
    + done.
    + intros Hr. change (registered w = false) in Hr. congruence.
    + exact P8.
  - constructor; rewrite ?E1, ?E4, ?E5, ?E6; simpl; [done|].
    intros i r. rewrite lookup_insert. case_decide; [subst; intros _|]; eauto.
Qed.

Lemma inv_closed settings id w r :
  ready w !! id = Some r ->
  inv (reconnectAttempts settings) w ->
  inv (reconnectAttempts settings)
    (let w' := set_ready (<[id := CLOSED]> (ready w)) w in
     if bool_decide (id ∈ handlers w) then onclose settings id w' else w').
Proof.
  intros Hid H. set (n := reconnectAttempts settings) in *.
  assert (Hother : ws w <> Some id -> inv n (set_ready (<[id := CLOSED]> (ready w)) w)).
  { intros Hne. destruct H as [HT [P1 P2 P3 P5 P6 P7 P8] [S1 S2]]. split; [|by constructor|].
    - apply (timers_recorded_in w); [done|done|by intros []|done].
    - constructor; simpl.
      + intros i Hi. rewrite lookup_insert_ne; [eauto|congruence].
      + intros i r'. rewrite lookup_insert. case_decide; [subst; intros _|]; eauto. }
  destruct (decide (ws w = Some id)) as [Hws|Hne].
  - destruct (ws_live _ (inv_sockets _ _ H) _ Hws) as [Hh _].
    cbv zeta. rewrite (bool_decide_eq_true_2 _ Hh).
    set (h := if nonempty (listeners w) then handlers w else handlers w ∖ {[id]}).
    set (w0 := set_ready _ w). set (wc := emit_all (map CallClose (listeners w)) (closed_state h w0)).
    assert (Eq : onclose settings id w0 =
      if nonempty (listeners w) && reconnect settings && (reconnectCount w <? reconnectAttempts settings)
      then launch ReconnectTimer (set_reconnectCount (reconnectCount w + 1) wc) else wc).
    { rewrite onclose_eq, bool_decide_eq_true_2 by done. reflexivity. }
    assert (Hc : inv n wc) by (by eapply inv_emit_all, inv_closed_state).
    destruct (stop_fields PingTimer (set_subscribed "" (set_connected false (set_handlers h (set_ws None w0)))))
      as (E1 & _ & E3 & _).
    rewrite Eq. clear Eq. case_goal; [|done]. bool_simpl.
    pose proof (pol_count _ _ (inv_policy _ _ H)).
    apply inv_launch.
    + apply inv_count; [lia|done].
    + intros t Ht. pose proof (pol_reconnect _ _ (inv_policy _ _ H) t) as Hp.
      rewrite Hws in Hp. discriminate Hp. by apply clear_sub in Ht.
    + etransitivity; [exact E3|]. by eapply (inv_registered n w).
    + exact E1.
  - simpl. case_goal; [|by apply Hother]. unfold onclose. simpl.
    rewrite bool_decide_eq_false_2 by done. by apply Hother.
Qed.

Lemma inv_shutdown n w :
  (forall t, timers w !! t <> Some IdleTimer) -> inv n w -> inv n (shutdown w).
Proof.
  intros Hidle H. unfold shutdown.
  assert (H0 : inv n (set_idleTimer None w)).
  { destruct H as [HT [P1 P2 P3 P5 P6 P7 P8] [S1 S2]]. split; [|by constructor|by constructor].
    by apply (timers_null IdleTimer w). }
  case_goal; [done|]. apply nonempty_false in Heqb. simpl in Heqb.
  set (w1 := clear_timer (reconnectTimer _) _). set (w2 := clear_timer (pingTimer _) _).
  set (w3 := set_registered false (set_idleTimer None w)) in *.
  assert (HT2 : timers_ok w2).
  { change w2 with (clear_timer (field PingTimer w1) w1). apply timers_clear.
    change w1 with (clear_timer (field ReconnectTimer w3) w3). apply timers_clear.
    apply (timers_recorded_in (set_idleTimer None w)); [apply H0|done|by intros []|done]. }
  assert (Hsub : forall t k, timers w2 !! t = Some k -> timers w !! t = Some k).
  { intros t k Hk. change w2 with (clear_timer (field PingTimer w1) w1) in Hk. apply clear_sub in Hk.
    change w1 with (clear_timer (field ReconnectTimer w3) w3) in Hk. by apply clear_sub in Hk. }
  assert (Hnone : forall t, timers w2 !! t = None).
  { intros t. apply eq_None_not_Some. intros [[] Hk]; [| |by apply Hsub, Hidle in Hk].
    - change w2 with (clear_timer (field PingTimer w1) w1) in Hk. apply clear_sub in Hk.
      change w1 with (clear_timer (field ReconnectTimer w3) w3) in Hk.
      apply clear_gone in Hk; [done|].
      apply (timers_recorded_in (set_idleTimer None w)); [apply H0|done|by intros []|done].
    - change w2 with (clear_timer (field PingTimer w1) w1) in Hk. apply clear_gone in Hk; [done|].
      change w1 with (clear_timer (field ReconnectTimer w3) w3). apply timers_clear.
      apply (timers_recorded_in (set_idleTimer None w)); [apply H0|done|by intros []|done]. }
  assert (E : ws w2 = ws w /\ listeners w2 = listeners w /\ registered w2 = false /\
              ready w2 = ready w /\ handlers w2 = handlers w /\ next_ws w2 = next_ws w /\
              connected w2 = connected w /\ opened w2 = opened w /\ reconnectCount w2 = reconnectCount w).
  { unfold w2, w1, w3, clear_timer. simpl. destruct (reconnectTimer w); simpl; by destruct (pingTimer w). }
  destruct E as (E1 & E2 & E3 & E4 & E5 & E6 & E7 & E8 & E9).
  destruct H as [HT [P1 P2 P3 P5 P6 P7 P8] [S1 S2]].
  assert (Hd : inv n (set_ws None w2) /\ forall h, inv n (set_handlers h (set_ws None w2))).
  { split; [|intros h]; (split; [apply (timers_recorded_in w2); [done|done|by intros []|done]| |]);
      constructor; simpl; rewrite ?E2, ?E3, ?E4, ?E6, ?E7, ?E8, ?E9; try done;
      try (intros t; by rewrite Hnone); intros; by rewrite Hnone in *. }
  destruct (ws w2) as [id|] eqn:Ews.
  - apply inv_close_ws, (proj2 Hd).
  - assert (set_ws None w2 = w2) as <- by (destruct w2; simpl in *; by subst). apply Hd.
Qed.

Lemma inv_revive settings n force now ok w : inv n w -> inv n (revive settings force now ok w).
Proof.
  intros H. unfold revive. case_goal; [|done]. apply nonempty_true in Heqb.
  case_goal; [|by apply inv_ping].
  assert (Hc : inv n (set_reconnectCount 0 w)) by (apply inv_count; [lia|done]).
  assert (Hr : registered (set_reconnectCount 0 w) = true) by (by eapply (inv_listeners_registered n w)).
  repeat case_goal; auto using inv_close_ws, inv_connect.
Qed.

Lemma clear_idle_gone n w t : inv n w -> timers (clear_timer (idleTimer w) w) !! t <> Some IdleTimer.
Proof. intros H. apply (clear_gone IdleTimer w), H. Qed.

Lemma inv_clear_idle n w : inv n w -> inv n (clear_timer (idleTimer w) w).
Proof.
  intros H. destruct (idleTimer w) as [i|]; [|done]. simpl. same H.
  intros t k. simpl. rewrite lookup_delete. by case_decide.
Qed.

Lemma inv_closeIfUnused n w : inv n w -> inv n (closeIfUnused w).
Proof.
  intros H. unfold closeIfUnused. case_goal; [done|].
  apply inv_shutdown; [intros t; by eapply clear_idle_gone|by apply inv_clear_idle].
Qed.

(** [add] up to the point where it subscribes or connects. *)
Definition joined (l : Listener) (w : socket) : socket :=
  let w := stop IdleTimer w in
  if bool_decide (l ∈ listeners w) then w else set_listeners (listeners w ++ [l]) w.

Lemma add_eq l ok w :
  add l ok w = if connected (joined l w) then subscribe (emit (CallOpen l) (joined l w))
               else connect ok (joined l w).
Proof. done. Qed.

Lemma joined_fields l w :
  ws (joined l w) = ws w /\ registered (joined l w) = registered w /\ ready (joined l w) = ready w /\
  trace (joined l w) = trace w /\ connected (joined l w) = connected w /\
  subscribed (joined l w) = subscribed w.
Proof. unfold joined, stop, clear_timer. destruct (field IdleTimer w); simpl; by case_goal. Qed.

Lemma joined_nonempty l w : listeners (joined l w) <> [].
Proof.
  unfold joined. cbv zeta. case_goal; bool_simpl; [by intros E; rewrite E in Heqb; set_solver|].
  intros E. by apply (f_equal length) in E; simpl in E; rewrite length_app in E; simpl in E; lia.
Qed.

Lemma inv_joined n l w : registered w = true -> inv n w -> inv n (joined l w).
Proof.
  intros Hreg H. destruct (stop_fields IdleTimer w) as (_ & _ & Hr & _). rewrite Hreg in Hr.
  pose proof (inv_stop n IdleTimer w H) as Hs. unfold joined. cbv zeta. case_goal; [done|]. bool_simpl.
  pose proof Hs as [HT [P1 P2 P3 P5 P6 P7 P8] [S1 S2]]. split.
  - apply (timers_recorded_in (stop IdleTimer w)); [done|done|by intros []|done].
  - constructor; simpl; [exact P1|exact P2| |exact P5|exact P6| |].
    + intros t Ht. by destruct (stop_gone n IdleTimer w t H).
    + intros Hf. change (registered (stop IdleTimer w) = false) in Hf. congruence.
    + apply NoDup_app. repeat split; [done| |apply NoDup_singleton]. set_solver.
  - by constructor.
Qed.

Lemma inv_add n l ok w : registered w = true -> inv n w -> inv n (add l ok w).
Proof.
  intros Hreg H. rewrite add_eq. destruct (joined_fields l w) as (_ & Hr & _). rewrite Hreg in Hr.
  pose proof (inv_joined n l w Hreg H).
  case_goal; auto using inv_subscribe, inv_emit, inv_connect.
Qed.

Lemma inv_remove n l w : registered w = true -> l ∈ listeners w -> inv n w -> inv n (remove l w).
Proof.
  intros Hreg Hl H. unfold remove. set (ls := keep _ _). set (w1 := set_listeners ls w).
  assert (Hno : forall t, timers w !! t <> Some IdleTimer).
  { intros t Ht. rewrite (pol_idle _ _ (inv_policy _ _ H) _ Ht) in Hl. set_solver. }
  assert (H1 : inv n w1).
  { destruct H as [HT [P1 P2 P3 P5 P6 P7 P8] [S1 S2]]. split; [|constructor|by constructor]; try done.
    - apply (timers_recorded_in w); [done|done|by intros []|done].
    - intros t Ht. by destruct (Hno t).
    - intros Hf. change (registered w = false) in Hf. congruence.
    - by apply NoDup_keep. }
  case_goal; [by apply inv_subscribe|]. apply nonempty_false in Heqb.
  change (inv n (launch IdleTimer w1)). apply inv_launch; done.
Qed.

(** ** An object with no listener has a shutdown pending *)

Lemma idle_live_same w w' :
  (forall t, timers w !! t = Some IdleTimer -> timers w' !! t = Some IdleTimer) ->
  (registered w' = true -> listeners w' = [] -> registered w = true /\ listeners w = []) ->
  idle_live w -> idle_live w'.
Proof. intros Ht Hr H Hr' Hl. destruct (Hr Hr' Hl) as [A B]. destruct (H A B). eauto. Qed.

Ltac idle_same w := apply (idle_live_same w); [by auto|by auto|].

Lemma idle_subscribe w : idle_live w -> idle_live (subscribe w).
Proof. destruct (subscribe_eq w) as (s & es & ->). by intros; idle_same w. Qed.

Lemma idle_stop n k w : k <> IdleTimer -> inv n w -> idle_live w -> idle_live (stop k w).
Proof.
  intros Hk H. destruct (stop_fields k w) as (_ & E2 & E3 & _).
  apply idle_live_same; [|by rewrite E2, E3].
  intros t Ht. unfold stop. rewrite timers_set_field. apply clear_other; [apply H|done|done].
Qed.

Lemma idle_launch k w : timers_ok w -> idle_live w -> idle_live (launch k w).
Proof.
  intros H2.
  apply idle_live_same; [|by destruct k].
  intros t Ht. unfold launch. rewrite timers_set_field. simpl.
  rewrite lookup_insert_ne; [done|]. intros <-.
  pose proof (timer_fresh _ H2 _ _ (timer_recorded _ H2 _ _ Ht)). lia.
Qed.

Lemma idle_close_ws id w : idle_live w -> idle_live (close_ws id w).
Proof. intros H. unfold close_ws. repeat case_goal; by idle_same w. Qed.

Lemma idle_connect n ok w : inv n w -> idle_live w -> idle_live (connect ok w).
Proof.
  intros H Hi. destruct (connect_eq ok w) as [->|[[-> _]|[-> _]]]; [done|by eapply idle_stop|].
  by apply (idle_stop n ReconnectTimer w).
Qed.

Lemma idle_ping settings now w : idle_live w -> idle_live (ping settings now w).
Proof. intros H. unfold ping. repeat case_goal; auto using idle_close_ws. Qed.

Lemma idle_onopen n id now w : inv n w -> idle_live w -> idle_live (onopen id now w).
Proof.
  intros H Hi. rewrite onopen_eq. case_goal; [|done].
  set (w1 := emit_all _ _).
  assert (H1 : inv n w1).
  { apply inv_emit_all, inv_subscribe, inv_subscribed, inv_lastPong, inv_count; [lia|].
    by apply inv_mark_open. }
  assert (Hi1 : idle_live w1).
  { unfold w1. match goal with |- context [subscribe ?x] => destruct (subscribe_eq x) as (s & es & ->) end.
    by idle_same w. }
  apply idle_launch; [by apply (inv_stop n)|]. by apply (idle_stop n).
Qed.

Lemma idle_onclose settings id w :
  timers_ok w -> ws w = Some id -> idle_live w -> idle_live (onclose settings id w).
Proof.
  intros H Hws Hi. rewrite onclose_eq, bool_decide_eq_true_2 by done. cbv zeta.
  set (h := if nonempty _ then _ else _).
  set (w1 := set_subscribed "" (set_connected false (set_handlers h (set_ws None w)))).
  assert (HT1 : timers_ok w1) by (apply (timers_recorded_in w); [done|done|by intros []|done]).
  assert (Hc : idle_live (stop PingTimer w1)).
  { destruct (stop_fields PingTimer w1) as (_ & E2 & E3 & _).
    apply (idle_live_same w); [|by rewrite E2, E3|done].
    intros t Ht. unfold stop. rewrite timers_set_field. by apply clear_other. }
  case_goal; [|done].
  apply idle_launch; [|done].
  apply (timers_recorded_in (stop PingTimer w1)); [by apply timers_stop|done|by intros []|done].
Qed.

(** ** The invariant holds in every reachable state *)

Section reachability.
Variable settings : SocketSettings.
Variable JSON_parse : string -> option value.
Let n := reconnectAttempts settings.

Definition invariant (w : socket) : Prop := inv n w /\ idle_live w.

Lemma add_nonempty l ok w : listeners (add l ok w) <> [].
Proof.
  rewrite add_eq. pose proof (joined_nonempty l w) as Hw. case_goal.
  - by destruct (subscribe_eq (emit (CallOpen l) (joined l w))) as (s & es & ->).
  - destruct (connect_eq ok (joined l w)) as [->|[[-> _]|[-> _]]]; [done|..];
      destruct (stop_fields ReconnectTimer (joined l w)) as (_ & E & _);
      intros Hl; apply Hw; by rewrite <- E.
Qed.

Lemma inv_new now : inv n (set_listeners [] (new_socket now)).
Proof.
  split; constructor; simpl; try done; try (intros; by rewrite lookup_empty in *); try lia.
  - by intros t [].
  - by intros t [].
  - constructor.
Qed.

Lemma invariant_init l now ok : invariant (add l ok (new_socket now)).
Proof.
  split; [by apply inv_add; [|apply (inv_new now)]|].
  intros _ Hl. by apply add_nonempty in Hl.
Qed.


Lemma idle_remove l w : registered w = true -> inv n w -> idle_live w -> idle_live (remove l w).
Proof.
  intros Hreg H Hi. unfold remove. set (ls := keep _ _). set (w1 := set_listeners ls w).
  case_goal.
  - destruct (subscribe_eq w1) as (s & es & ->). intros _ Hl.
    apply nonempty_true in Heqb. by destruct Heqb.
  - intros _ _. exists (next_timer w1). apply lookup_insert_eq.
Qed.

Lemma idle_shutdown w : idle_live (shutdown w).
Proof.
  unfold shutdown. case_goal; [|].
  - apply nonempty_true in Heqb. intros _ Hl. by destruct Heqb.
  - intros Hr. exfalso. revert Hr. unfold clear_timer. simpl.
    destruct (reconnectTimer w); simpl; destruct (pingTimer w); simpl; destruct (ws w); simpl; try done;
      unfold close_ws; simpl; by repeat case_goal.
Qed.

Lemma invariant_step a w w' : step settings JSON_parse a w w' -> invariant w -> invariant w'.
Proof.
  intros Hs [H Hi]. destruct Hs.
  - split; [by apply inv_add|]. intros _ Hl. by apply add_nonempty in Hl.
  - assert (registered w = true).
    { apply (inv_listeners_registered n); [done|]. intros E. rewrite E in H0. set_solver. }
    split; [by apply inv_remove|by apply idle_remove].
  - destruct (send_eq data w) as (es & ->). split; [by apply inv_trace|by idle_same w].
  - split; [by apply inv_revive|]. unfold revive. case_goal; [|done]. apply nonempty_true in Heqb.
    case_goal; [|by apply idle_ping].
    assert (Hc : inv n (set_reconnectCount 0 w)) by (apply inv_count; [lia|done]).
    repeat case_goal; eauto using idle_close_ws, idle_connect.
  - split; [by apply inv_closeIfUnused|]. unfold closeIfUnused. case_goal; [done|apply idle_shutdown].
  - cbv zeta. assert (H1 : inv n (set_ready (<[id:=OPEN]> (ready w)) w)) by (by eapply inv_ready).
    case_goal; [|done]. split; [by apply inv_onopen; [lia|]|by eapply idle_onopen].
  - case_goal; [|done]. split; [by apply inv_onmessage|]. unfold onmessage. repeat case_goal; done.
  - split; [by eapply inv_ready|done].
  - split; [by eapply inv_closed|]. cbv zeta. case_goal; [|done].
    destruct (decide (ws w = Some id)) as [Hws|Hne].
    + apply idle_onclose; [|done|done].
      apply (timers_recorded_in w); [apply H|done|by intros []|done].
    + unfold onclose. by rewrite bool_decide_eq_false_2.
  - case_goal; [|done]. split; [by apply inv_onerror|]. unfold onerror. by case_goal.
  - assert (Hreg : registered w = true).
    { destruct (registered w) eqn:E; [done|].
      destruct (pol_dead _ _ (inv_policy _ _ H) E) as (_ & _ & Hn). congruence. }
    pose proof (inv_spend n t k w H) as Hsp.
    destruct k; simpl.
    + assert (Hi1 : idle_live (spend t ReconnectTimer w)).
      { apply (idle_live_same w); [|done|done]. intros t' Ht'. simpl.
        rewrite lookup_delete_ne; [done|]. intros ->. congruence. }
      split; [by apply inv_connect|by eapply idle_connect].
    + split; [by apply inv_ping|by apply idle_ping].
    + split; [|apply idle_shutdown]. apply inv_shutdown; [|done].
      intros t'. simpl. rewrite lookup_delete. case_decide; [done|].
      intros Ht'. pose proof (timer_recorded _ (inv_timers _ _ H) _ _ Ht').
      pose proof (timer_recorded _ (inv_timers _ _ H) _ _ H0). congruence.
Qed.

Theorem reachable_invariant w : reachable settings JSON_parse w -> invariant w.
Proof. induction 1; [apply invariant_init|by eapply invariant_step]. Qed.
End reachability.

(** ** What the server has been told *)

Definition subscribe_to (id : nat) (e : effect) : option (list string) :=
  match e with SendSubscribe i ts => if bool_decide (i = id) then Some ts else None | _ => None end.

(** The topics of the last subscription sent on a connection. *)
Definition last_subscribe (id : nat) (es : list effect) : option (list string) :=
  last (omap (subscribe_to id) es).

Definition quiet (e : effect) : Prop := match e with SendSubscribe _ _ => False | _ => True end.

Lemma last_subscribe_quiet id es es' :
  Forall quiet es' -> last_subscribe id (es ++ es') = last_subscribe id es.
Proof.
  intros H. unfold last_subscribe. rewrite omap_app.
  replace (omap (subscribe_to id) es') with (@nil (list string)); [by rewrite app_nil_r|].
  induction H as [|[] es' Hq _ IH]; done.
Qed.

Lemma last_subscribe_snoc id es i ts :
  last_subscribe id (es ++ [SendSubscribe i ts]) = if bool_decide (i = id) then Some ts else last_subscribe id es.
Proof.
  unfold last_subscribe. rewrite omap_app. simpl. destruct (bool_decide (i = id)); simpl.
  - by rewrite last_snoc.
  - by rewrite app_nil_r.
Qed.

(** Topics that survive the round trip through a key. *)
Definition bar_free (ts : list string) : Prop := Forall (fun t => has_char "|" t = false) ts.

Lemma hook_topics_bar_free ts : bar_free (hook_topics ts).
Proof. unfold hook_topics, bar_free. case_goal; [apply split_pieces|constructor]. Qed.

Definition clean_listeners (w : socket) : Prop := forall l, l ∈ listeners w -> bar_free (topics l).

Lemma wanted_bar_free w : clean_listeners w -> bar_free (wanted w).
Proof.
  intros H. apply Forall_forall. intros t Ht. unfold wanted in Ht.
  apply elem_of_sort_strings, elem_of_uniq, list_elem_of_join in Ht as (ts & Ht & Hl).
  apply list_elem_of_fmap in Hl as (l & -> & Hl).
  specialize (H l Hl). unfold bar_free in H. rewrite Forall_forall in H. auto.
Qed.

(** The subscription key agrees with what was sent on the open connection, and
    with the hooks. *)
Record told (w : socket) : Prop := {
  told_clean : clean_listeners w;
  told_trace : forall id ts, SendSubscribe id ts ∈ trace w -> bar_free ts;
  told_connected : ready_now w = Some OPEN -> connected w = true;
  told_wanted : ready_now w = Some OPEN -> listeners w <> [] -> subscribed w = join "|" (wanted w);
  told_unsent : forall id, ready w !! id = None \/ ready w !! id = Some CONNECTING ->
    last_subscribe id (trace w) = None;
  told_sent : forall id, ws w = Some id -> ready w !! id = Some OPEN ->
    subscribed w = match last_subscribe id (trace w) with Some ts => join "|" ts | None => "" end
}.

Lemma ready_now_eq w id : ws w = Some id -> ready_now w = ready w !! id.
Proof. intros H. unfold ready_now. by rewrite H. Qed.

Lemma told_frame w w' es :
  told w -> ws w' = ws w -> ready w' = ready w -> listeners w' = listeners w ->
  subscribed w' = subscribed w -> connected w' = connected w ->
  trace w' = trace w ++ es -> Forall quiet es -> told w'.
Proof.
  intros [L T C A B D] E1 E2 E3 E4 E5 E6 Hq.
  assert (En : ready_now w' = ready_now w) by (unfold ready_now; by rewrite E1, E2).
  assert (Ew : wanted w' = wanted w) by (unfold wanted; by rewrite E3).
  constructor; unfold clean_listeners; rewrite ?En, ?E1, ?E2, ?E3, ?E4, ?E5, ?E6, ?Ew; [done| |done|done|..].
  - intros i ts [Hi|Hi]%elem_of_app; [by eapply T|].
    rewrite Forall_forall in Hq. by apply Hq in Hi.
  - intros id Hid. rewrite last_subscribe_quiet by done. auto.
  - intros id H1 H2. rewrite last_subscribe_quiet by done. auto.
Qed.

Lemma told_emit_all es w : Forall quiet es -> told w -> told (emit_all es w).
Proof. intros Hq H. by apply (told_frame w _ es). Qed.

Lemma told_emit e w : quiet e -> told w -> told (emit e w).
Proof. intros Hq H. apply (told_frame w _ [e]); try done. by repeat constructor. Qed.

Ltac told_same w := apply (told_frame w _ []); rewrite ?app_nil_r; try done.

Lemma told_stop k w : told w -> told (stop k w).
Proof.
  intros H. destruct (stop_fields k w) as (E1 & E2 & E3 & E4 & E5 & E6 & E7 & E8 & E9 & E10 & E11).
  told_same w.
Qed.

Lemma told_launch k w : told w -> told (launch k w).
Proof. intros H. destruct k; told_same w. Qed.

(** A connection leaves OPEN or CONNECTING. *)
Lemma told_ready id r w : r = CLOSING \/ r = CLOSED -> told w -> told (set_ready (<[id := r]> (ready w)) w).
Proof.
  intros Hr [L T C A B D].
  assert (Hn : ready_now (set_ready (<[id := r]> (ready w)) w) = Some OPEN -> ready_now w = Some OPEN).
  { unfold ready_now. simpl. destruct (ws w) as [i|]; [|done]. simpl.
    rewrite lookup_insert. case_decide; [|done]. naive_solver. }
  constructor; [done|done|auto|auto|..]; simpl; intros i; rewrite lookup_insert; case_decide; subst; auto; naive_solver.
Qed.

Lemma told_close_ws id w : told w -> told (close_ws id w).
Proof.
  intros H. unfold close_ws. assert (H1 : told (emit (CloseSocket id) w)) by (by apply told_emit).
  repeat case_goal; try done; apply (told_ready id CLOSING (emit (CloseSocket id) w)); auto.
Qed.

(** Dropping the connection. *)
Lemma told_no_ws w w' :
  told w -> ws w' = None -> ready w' = ready w -> trace w' = trace w -> listeners w' = listeners w -> told w'.
Proof.
  intros [L T C A B D] E1 E2 E3 E4. constructor; unfold clean_listeners; rewrite ?E2, ?E3, ?E4; try done;
    unfold ready_now; rewrite E1; done.
Qed.

(** [subscribe] brings the server up to date. *)
Lemma told_subscribe w :
  clean_listeners w ->
  (forall id ts, SendSubscribe id ts ∈ trace w -> bar_free ts) ->
  (ready_now w = Some OPEN -> connected w = true) ->
  (forall id, ready w !! id = None \/ ready w !! id = Some CONNECTING -> last_subscribe id (trace w) = None) ->
  (forall id, ws w = Some id -> ready w !! id = Some OPEN ->
    subscribed w = match last_subscribe id (trace w) with Some ts => join "|" ts | None => "" end) ->
  told (subscribe w).
Proof.
  intros L T C B D. unfold subscribe. destruct (ws w) as [id|] eqn:Ews.
  2:{ constructor; rewrite ?Ews; auto. unfold ready_now. by rewrite Ews. }
  pose proof (ready_now_eq _ _ Ews) as Er. unfold is_open.
  case_goal; bool_simpl.
  2:{ constructor; auto; [done|]. intros i Hi Ho. exfalso. apply Heqb. rewrite Er. congruence. }
  case_goal; bool_simpl.
  - constructor; auto. intros i Hi Ho. apply D; congruence.
  - constructor; simpl; [exact L| |exact C|done|..].
    + intros i ts [Hi|Hi]%elem_of_app; [by eapply T|]. apply list_elem_of_singleton in Hi as [= _ ->].
      by apply wanted_bar_free.
    + intros i Hi. rewrite last_subscribe_snoc. rewrite bool_decide_eq_false_2; [auto|].
      intros <-. rewrite <- Er, Heqb in Hi. by destruct Hi.
    + intros i Hi _. rewrite last_subscribe_snoc. rewrite bool_decide_eq_true_2 by congruence. done.
Qed.

Lemma told_subscribe_ok w : told w -> told (subscribe w).
Proof. intros [L T C A B D]. by apply told_subscribe. Qed.

Lemma told_connect n ok w : inv n w -> told w -> told (connect ok w).
Proof.
  intros H Ht. destruct (connect_eq ok w) as [->|[[-> _]|[-> _]]]; [done|..].
  { apply told_emit; [done|]. by apply told_stop. }
  apply told_emit; [done|]. set (w0 := stop ReconnectTimer w).
  destruct (stop_fields ReconnectTimer w) as (_ & E2 & E3 & E4 & E5 & E6 & E7 & E8 & E9 & E10 & _).
  assert (Hfresh : ready w !! next_ws w = None).
  { destruct (ready w !! next_ws w) eqn:E; [|done]. apply (ws_fresh _ (inv_sockets _ _ H)) in E. lia. }
  destruct Ht as [L T C A B D].
  assert (En : forall X, X = set_ws (Some (next_ws w)) (set_handlers ({[next_ws w]} ∪ handlers w)
     (set_ready (<[next_ws w:=CONNECTING]> (ready w)) (set_next_ws (S (next_ws w)) w0))) ->
     ready_now X = Some CONNECTING).
  { intros X ->. unfold ready_now. simpl. by rewrite lookup_insert_eq. }
  constructor; [| |rewrite (En _ eq_refl); done|rewrite (En _ eq_refl); done|..].
  - unfold clean_listeners. change (forall l, l ∈ listeners w0 -> bar_free (topics l)).
    unfold w0. by rewrite E2.
  - change (forall id ts, SendSubscribe id ts ∈ trace w0 -> bar_free ts). unfold w0. by rewrite E10.
  - intros i Hi. change (last_subscribe i (trace w0) = None). unfold w0. rewrite E10.
    revert Hi. cbn [ready set_ws set_handlers set_ready]. rewrite lookup_insert. case_decide; subst; auto.
  - intros i [= <-]. cbn [ready set_ws set_handlers set_ready]. by rewrite lookup_insert_eq.
Qed.

Lemma told_count c w : told w -> told (set_reconnectCount c w).
Proof. intros H. told_same w. Qed.

Lemma quiet_calls {A} (f : A -> effect) l : (forall x, quiet (f x)) -> Forall quiet (map f l).
Proof. intros H. apply Forall_forall. intros e [x [-> _]]%list_elem_of_fmap. apply H. Qed.

Lemma quiet_open_calls b l : Forall quiet (mjoin (map (open_calls b) l)).
Proof.
  induction l as [|x l IH]; simpl; [constructor|].
  destruct b; simpl; repeat (constructor; [done|]); done.
Qed.

Lemma told_ping settings now w : told w -> told (ping settings now w).
Proof. intros H. unfold ping. repeat case_goal; auto using told_close_ws. by apply told_emit. Qed.

Lemma told_shutdown w : told w -> told (shutdown w).
Proof.
  intros H. unfold shutdown. case_goal; [told_same w|].
  set (w1 := clear_timer (reconnectTimer _) _). set (w2 := clear_timer (pingTimer _) _).
  assert (H2 : told w2).
  { unfold w2, w1, clear_timer. repeat case_goal; told_same w. }
  case_goal; [|done]. apply told_close_ws. by apply (told_no_ws w2).
Qed.

Lemma told_onopen n id now w :
  inv n w -> told w -> ready w !! id = Some CONNECTING ->
  told (onopen id now (set_ready (<[id := OPEN]> (ready w)) w)) \/ ws w <> Some id.
Proof.
  intros H [L T C A B D] Hid. destruct (decide (ws w = Some id)) as [Hws|]; [left|by right].
  rewrite onopen_eq. rewrite bool_decide_eq_true_2 by done.
  apply told_launch, told_stop, told_emit_all; [apply quiet_open_calls|].
  apply told_subscribe; simpl.
  - exact L.
  - exact T.
  - done.
  - intros i. rewrite lookup_insert. case_decide; [naive_solver|]. auto.
  - intros i Hi _. assert (i = id) as -> by congruence. rewrite B; auto.
Qed.

(** Another connection than the object's changes state. *)
Lemma told_other id r w :
  ws w <> Some id -> r <> CONNECTING -> told w -> told (set_ready (<[id := r]> (ready w)) w).
Proof.
  intros Hne Hr [L T C A B D].
  assert (En : ready_now (set_ready (<[id := r]> (ready w)) w) = ready_now w).
  { unfold ready_now. simpl. destruct (ws w) as [i|]; [|done]. simpl.
    rewrite lookup_insert_ne; [done|congruence]. }
  constructor; rewrite ?En; [done|done|done|done|..]; simpl; intros i.
  - rewrite lookup_insert. case_decide; [naive_solver|]. auto.
  - intros Hi. rewrite lookup_insert_ne; [auto|congruence].
Qed.

Lemma told_onclose settings id w : told w -> told (onclose settings id w).
Proof.
  intros H. rewrite onclose_eq. case_goal; [|done]. cbv zeta.
  set (h := if nonempty _ then _ else _).
  assert (Hc : told (emit_all (map CallClose (listeners w)) (closed_state h w))).
  { apply told_emit_all; [by apply quiet_calls|]. apply told_stop. by apply (told_no_ws w). }
  case_goal; [|done]. by apply told_launch, told_count.
Qed.

Section told_reachable.
Variable settings : SocketSettings.
Variable JSON_parse : string -> option value.

Lemma told_add n l ts ok w : topics l = hook_topics ts -> registered w = true -> inv n w -> told w -> told (add l ok w).
Proof.
  intros Hl Hreg H [L T C A B D]. rewrite add_eq.
  assert (Lj : clean_listeners (joined l w)).
  { intros l' Hl'. unfold joined in Hl'. cbv zeta in Hl'.
    destruct (stop_fields IdleTimer w) as (_ & El & _).
    case_hyp Hl'; [rewrite El in Hl'; auto|]. simpl in Hl'.
    apply elem_of_app in Hl' as [Hl'|Hl']; [|apply list_elem_of_singleton in Hl' as ->;
      rewrite Hl; apply hook_topics_bar_free].
    change (l' ∈ listeners (stop IdleTimer w)) in Hl'. rewrite El in Hl'. auto. }
  pose proof (inv_joined n l w Hreg H) as Hj.
  destruct (joined_fields l w) as (E1 & E2 & E3 & E4 & E5 & E6).
  assert (En : ready_now (joined l w) = ready_now w) by (unfold ready_now; by rewrite E1, E3).
  case_goal.
  - apply told_subscribe.
    + done.
    + change (forall id ts, SendSubscribe id ts ∈ trace (joined l w) ++ [CallOpen l] -> bar_free ts).
      rewrite E4. intros i ts' [Hi|Hi]%elem_of_app; [by eapply T|]. set_solver.
    + done.
    + intros i Hi. change (ready (emit (CallOpen l) (joined l w))) with (ready (joined l w)) in Hi.
      rewrite E3 in Hi. change (last_subscribe i (trace (joined l w) ++ [CallOpen l]) = None).
      rewrite last_subscribe_quiet by (by repeat constructor). rewrite E4. auto.
    + intros i H1 H2.
      change (subscribed (joined l w) =
        match last_subscribe i (trace (joined l w) ++ [CallOpen l]) with Some ts => join "|" ts | None => "" end).
      change (ws (joined l w) = Some i) in H1. change (ready (joined l w) !! i = Some OPEN) in H2.
      rewrite last_subscribe_quiet by (by repeat constructor).
      rewrite E1 in H1. rewrite E3 in H2. rewrite E4, E6. auto.
  - apply (told_connect n); [done|].
    assert (Hno : ready_now (joined l w) <> Some OPEN).
    { rewrite En. intros E. apply C in E. congruence. }
    constructor; [done|by rewrite E4|done|done|..]; rewrite ?E1, ?E3, ?E4, ?E6; auto.
Qed.

Lemma told_remove l w : told w -> told (remove l w).
Proof.
  intros [L T C A B D]. unfold remove. set (ls := keep _ _). set (w1 := set_listeners ls w).
  assert (L1 : clean_listeners w1).
  { intros l' [Hl' _]%elem_of_keep. auto. }
  case_goal; [by apply told_subscribe|]. apply nonempty_false in Heqb.
  apply (told_launch IdleTimer). constructor; try done.
Qed.

Lemma told_step a w w' : step settings JSON_parse a w w' ->
  invariant settings w -> told w -> told w'.
Proof.
  intros Hs [H _] Ht. destruct Hs.
  - by apply (told_add (reconnectAttempts settings) l ts).
  - by apply told_remove.
  - unfold send. repeat case_goal; by apply told_emit.
  - unfold revive. repeat case_goal;
      eauto using told_count, told_close_ws, told_ping.
    + apply (told_connect (reconnectAttempts settings)); [apply inv_count; [lia|done]|by apply told_count].
    + apply (told_connect (reconnectAttempts settings)); [apply inv_count; [lia|done]|by apply told_count].
  - unfold closeIfUnused. case_goal; [done|]. apply told_shutdown.
    unfold clear_timer. case_goal; [told_same w|done].
  - cbv zeta. destruct (decide (ws w = Some id)) as [Hws|Hne].
    + destruct (ws_live _ (inv_sockets _ _ H) _ Hws) as [Hh _].
      rewrite (bool_decide_eq_true_2 _ Hh).
      by destruct (told_onopen _ id now w H Ht H0).
    + assert (told (set_ready (<[id:=OPEN]> (ready w)) w)) by (by apply told_other).
      case_goal; [|done]. unfold onopen. by rewrite bool_decide_eq_false_2.
  - case_goal; [|done]. unfold onmessage.
    assert (Hp : told (set_lastPong now w)) by told_same w.
    repeat case_goal; try done; [by apply told_emit_all; [apply quiet_calls|]|by apply told_emit].
  - apply told_ready; auto.
  - cbv zeta. assert (Hr : told (set_ready (<[id:=CLOSED]> (ready w)) w)) by (apply told_ready; auto).
    case_goal; [by apply told_onclose|done].
  - case_goal; [|done]. unfold onerror. case_goal; [|done]. apply told_emit_all; [by apply quiet_calls|done].
  - assert (Hs : told (spend t k w)) by (destruct k; [told_same w|done|told_same w]).
    pose proof (inv_spend (reconnectAttempts settings) t k w H).
    destruct k; simpl; eauto using told_connect, told_ping, told_shutdown.
Qed.

Lemma reachable_told w : reachable settings JSON_parse w -> told w.
Proof.
  induction 1 as [l ts now ok Hl|a w w' Hr IH Hs].
  - apply (told_add (reconnectAttempts settings) l ts); [done|done|apply (inv_new settings now)|].
    constructor; simpl; try done; unfold clean_listeners; simpl; intros; set_solver.
  - eapply told_step; [done| |done]. by apply reachable_invariant with JSON_parse.
Qed.
End told_reachable.
