(* ===== verification/SharedSocketSpec.v ===== *)
(** * What the shared WebSocket promises

    The contract of [SharedSocket] over every reachable state: its timers, its
    subscription, the delivery of messages, the bound on reconnection while the
    server is away, and the end of its life. *)

From Stdlib Require Import Ascii ZArith Lia.
From stdpp Require Import base list strings option gmap.
From S2P Require Import Prelude JsString JsNum JsValue SharedSocket.

(** ** Runs of the event loop *)

Inductive run (settings : SocketSettings) (J : string -> option value) :
    list label -> socket -> socket -> Prop :=
| run_nil w : run settings J [] w w
| run_cons a l w w' w'' : step settings J a w w' -> run settings J l w' w'' -> run settings J (a :: l) w w''.

(** The server is away: no connection opens. *)
Definition offline (a : label) : bool := match a with WsOpened _ _ => false | _ => true end.

(** How often a hook mounted, and how often the user or the page revived the
    socket. *)
Definition mounts (l : list label) : Z :=
  Z.of_nat (length (keep (fun a => match a with Mount _ _ => true | _ => false end) l)).
Definition revivals (l : list label) : Z :=
  Z.of_nat (length (keep (fun a => match a with Revive _ _ _ => true | _ => false end) l)).

Definition is_construct (e : effect) : bool := match e with Construct _ => true | _ => false end.

(** The connections constructed so far. *)
Definition constructed (w : socket) : Z := Z.of_nat (length (keep is_construct (trace w))).

(** The attempts left: those not counted yet, and the one already scheduled. *)
Definition pending (n : Z) (w : socket) : Z :=
  Z.max 0 (n - reconnectCount w) +
  match reconnectTimer w with
  | Some t => if bool_decide (timers w !! t = Some ReconnectTimer) then 1 else 0
  | None => 0
  end.

Lemma constructed_app w w' es :
  trace w' = trace w ++ es -> Forall (fun e => is_construct e = false) es -> constructed w' = constructed w.
Proof.
  intros E H. unfold constructed. rewrite E, keep_app, length_app.
  replace (keep is_construct es) with (@nil effect); [simpl; lia|].
  symmetry. clear E. induction H as [|e es He _ IH]; [done|]. simpl. by rewrite He.
Qed.

Lemma pending_same n w w' :
  reconnectCount w' = reconnectCount w -> reconnectTimer w' = reconnectTimer w ->
  (forall t, timers w' !! t = Some ReconnectTimer -> timers w !! t = Some ReconnectTimer) ->
  pending n w' <= pending n w.
Proof.
  intros E1 E2 E3. unfold pending. rewrite E1, E2. destruct (reconnectTimer w) as [t|]; [|lia].
  destruct (bool_decide (timers w' !! t = _)) eqn:E; bool_simpl.
  - rewrite (bool_decide_eq_true_2 _ (E3 _ E)). lia.
  - case_goal; lia.
Qed.

(** [w'] constructs nothing and leaves no more attempts than [w]. *)
Definition no_attempt (n : Z) (w w' : socket) : Prop :=
  constructed w' = constructed w /\ pending n w' <= pending n w.

Lemma no_attempt_refl n w : no_attempt n w w.
Proof. split; lia. Qed.

Lemma no_attempt_trans n w1 w2 w3 : no_attempt n w1 w2 -> no_attempt n w2 w3 -> no_attempt n w1 w3.
Proof. intros [] []. split; lia. Qed.

Lemma no_attempt_frame n w w' es :
  trace w' = trace w ++ es -> Forall (fun e => is_construct e = false) es ->
  reconnectCount w' = reconnectCount w -> reconnectTimer w' = reconnectTimer w ->
  (forall t, timers w' !! t = Some ReconnectTimer -> timers w !! t = Some ReconnectTimer) ->
  no_attempt n w w'.
Proof. intros. split; [by eapply constructed_app|by apply pending_same]. Qed.

Ltac no_attempt_by es := apply (no_attempt_frame _ _ _ es); rewrite ?app_nil_r; try done; try (by repeat constructor).

Lemma no_attempt_emit n e w : is_construct e = false -> no_attempt n w (emit e w).
Proof. intros He. no_attempt_by [e]. Qed.

Lemma no_attempt_calls {A} n (f : A -> effect) l w :
  (forall x, is_construct (f x) = false) -> no_attempt n w (emit_all (map f l) w).
Proof.
  intros Hf. no_attempt_by (map f l). apply Forall_forall.
  intros e [x [-> _]]%list_elem_of_fmap. apply Hf.
Qed.

Lemma no_attempt_subscribe n w : no_attempt n w (subscribe w).
Proof.
  unfold subscribe. repeat case_goal; try apply no_attempt_refl.
  no_attempt_by [SendSubscribe n0 (wanted w)].
Qed.

Lemma no_attempt_close_ws n id w : no_attempt n w (close_ws id w).
Proof. unfold close_ws. repeat case_goal; no_attempt_by [CloseSocket id]. Qed.

Lemma no_attempt_ping n settings now w : no_attempt n w (ping settings now w).
Proof.
  unfold ping. repeat case_goal; try apply no_attempt_refl; [apply no_attempt_close_ws|by apply no_attempt_emit].
Qed.

Lemma no_attempt_clear n o w : no_attempt n w (clear_timer o w).
Proof.
  destruct o; simpl; [|apply no_attempt_refl]. no_attempt_by (@nil effect).
  intros t. simpl. rewrite lookup_delete. by case_decide.
Qed.

Lemma no_attempt_stop n k w : k <> ReconnectTimer -> no_attempt n w (stop k w).
Proof.
  intros Hk. eapply no_attempt_trans; [apply (no_attempt_clear n (field k w))|].
  unfold stop. destruct k; [done|no_attempt_by (@nil effect)..].
Qed.

Lemma no_attempt_shutdown n w : no_attempt n w (shutdown w).
Proof.
  unfold shutdown. assert (H0 : no_attempt n w (set_idleTimer None w)) by no_attempt_by (@nil effect).
  case_goal; [done|].
  set (w1 := set_registered _ _). set (w2 := clear_timer (reconnectTimer w1) w1).
  set (w3 := clear_timer (pingTimer w2) w2).
  assert (H3 : no_attempt n w w3).
  { apply (no_attempt_trans n w w1); [no_attempt_by (@nil effect)|].
    eapply no_attempt_trans; apply no_attempt_clear. }
  case_goal; [|done].
  apply (no_attempt_trans n w w3); [done|].
  eapply no_attempt_trans; [|apply no_attempt_close_ws]. no_attempt_by (@nil effect).
Qed.

Section spec.
Variable settings : SocketSettings.
Variable J : string -> option value.
Let n := reconnectAttempts settings.

Lemma run_reachable l w w' : reachable settings J w -> run settings J l w w' -> reachable settings J w'.
Proof. intros H Hr. induction Hr; [done|]. apply IHHr. by eapply reach_step. Qed.

(** A firing reconnect timer spends the attempt it stands for. *)
Lemma attempt_connect t ok w :
  inv n w -> timers w !! t = Some ReconnectTimer ->
  constructed (connect ok (spend t ReconnectTimer w)) +
  pending n (connect ok (spend t ReconnectTimer w)) <= constructed w + pending n w.
Proof.
  intros H Ht. pose proof (timer_recorded _ (inv_timers _ _ H) _ _ Ht) as Hf. simpl in Hf.
  assert (Hp : pending n w = Z.max 0 (n - reconnectCount w) + 1).
  { unfold pending. by rewrite Hf, bool_decide_eq_true_2. }
  set (w1 := spend t ReconnectTimer w).
  destruct (connect_eq ok w1) as [->|[[-> _]|[-> _]]].
  - assert (constructed w1 = constructed w) as -> by done.
    assert (pending n w1 <= Z.max 0 (n - reconnectCount w)); [|lia].
    unfold pending, w1. simpl. rewrite Hf, bool_decide_eq_false_2; [lia|]. by rewrite lookup_delete_eq.
  - destruct (stop_fields ReconnectTimer w1) as (_ & _ & _ & _ & _ & _ & _ & _ & _ & E10 & E11).
    destruct (no_attempt_emit n (Console "[WebSocket] Failed to create WebSocket:") (stop ReconnectTimer w1) eq_refl)
      as [-> Hle].
    assert (constructed (stop ReconnectTimer w1) = constructed w) as -> by (unfold constructed; by rewrite E10).
    assert (pending n (stop ReconnectTimer w1) = Z.max 0 (n - reconnectCount w)); [|lia].
    unfold pending. rewrite E11. change (reconnectTimer (stop ReconnectTimer w1)) with (@None nat).
    change (reconnectCount w1) with (reconnectCount w). cbv iota. lia.
  - destruct (stop_fields ReconnectTimer w1) as (_ & _ & _ & _ & _ & _ & _ & _ & _ & E10 & E11).
    set (w2 := emit _ _).
    assert (constructed w2 = constructed w + 1) as ->.
    { unfold constructed, w2.
      change (trace (emit (Construct (next_ws w1)) _))
        with (trace (stop ReconnectTimer w1) ++ [Construct (next_ws w1)]).
      rewrite E10, keep_app, length_app. change (trace w1) with (trace w).
      change (length (keep is_construct [Construct (next_ws w1)])) with 1%nat. lia. }
    assert (pending n w2 = Z.max 0 (n - reconnectCount w)); [|lia].
    unfold pending. change (reconnectTimer w2) with (@None nat).
    change (reconnectCount w2) with (reconnectCount (stop ReconnectTimer w1)).
    rewrite E11. change (reconnectCount w1) with (reconnectCount w). cbv iota. lia.
Qed.

Lemma pending_launch w : pending n (launch ReconnectTimer w) = Z.max 0 (n - reconnectCount w) + 1.
Proof. unfold pending, launch. simpl. by rewrite lookup_insert_eq. Qed.

Lemma pending_ge w : Z.max 0 (n - reconnectCount w) <= pending n w.
Proof. unfold pending. repeat case_goal; lia. Qed.

(** Closing trades an uncounted attempt for a scheduled one. *)
Lemma attempt_onclose id w :
  no_attempt n w (onclose settings id w).
Proof.
  rewrite onclose_eq. case_goal; [|apply no_attempt_refl]. bool_simpl.
  set (h := if nonempty _ then _ else _).
  set (w1 := emit_all (map CallClose (listeners w)) (closed_state h w)).
  assert (H1 : no_attempt n w w1).
  { unfold w1. eapply no_attempt_trans; [|by apply no_attempt_calls].
    unfold closed_state. set (w0 := set_subscribed _ _).
    apply (no_attempt_trans n w w0); [no_attempt_by (@nil effect)|by apply no_attempt_stop]. }
  cbv zeta. fold w1. case_goal; [|done]. bool_simpl. destruct H1 as [Hc Hp].
  assert (Hcnt : reconnectCount w1 = reconnectCount w).
  { destruct (stop_fields PingTimer (set_subscribed "" (set_connected false (set_handlers h (set_ws None w)))))
      as (_ & _ & _ & _ & _ & _ & _ & _ & _ & _ & E). exact E. }
  clearbody w1. split; [exact Hc|].
  rewrite pending_launch.
  pose proof (pending_ge w). unfold n in *. simpl. lia.
Qed.
End spec.

(** ** Helpers about steps *)


Lemma no_attempt_remove n l w : no_attempt n w (remove l w).
Proof.
  unfold remove. set (w1 := set_listeners _ w).
  assert (H1 : no_attempt n w w1) by no_attempt_by (@nil effect).
  case_goal; [eapply no_attempt_trans; [exact H1|apply no_attempt_subscribe]|].
  eapply no_attempt_trans; [exact H1|]. no_attempt_by (@nil effect).
  intros t. simpl. rewrite lookup_insert. by case_decide.
Qed.

Lemma pending_ge_count n w : Z.max 0 (n - reconnectCount w) <= pending n w.
Proof. unfold pending. repeat case_goal; lia. Qed.

Lemma pending_le n w : pending n w <= Z.max 0 (n - reconnectCount w) + 1.
Proof. unfold pending. repeat case_goal; lia. Qed.

(** A connection constructed on request replaces the reconnection scheduled. *)
Lemma asked_connect n ok w :
  reconnectCount (connect ok w) = reconnectCount w /\
  (connect ok w = w \/
   constructed (connect ok w) + pending n (connect ok w) <= constructed w + Z.max 0 (n - reconnectCount w) + 1).
Proof.
  destruct (stop_fields ReconnectTimer w) as (_ & _ & _ & _ & _ & _ & _ & _ & _ & E10 & E11).
  assert (Hp : pending n (stop ReconnectTimer w) = Z.max 0 (n - reconnectCount w)).
  { unfold pending. rewrite E11. change (reconnectTimer (stop ReconnectTimer w)) with (@None nat). cbv iota. lia. }
  destruct (connect_eq ok w) as [->|[[-> _]|[-> _]]]; [auto|split; [exact E11|right]..].
  - destruct (no_attempt_emit n (Console "[WebSocket] Failed to create WebSocket:") (stop ReconnectTimer w) eq_refl)
      as [-> Hle]. unfold constructed. rewrite E10. lia.
  - set (w2 := emit _ _).
    assert (pending n w2 = pending n (stop ReconnectTimer w)) as -> by done.
    assert (constructed w2 = constructed w + 1); [|lia].
    unfold constructed, w2.
    change (trace (emit (Construct (next_ws w)) _)) with (trace (stop ReconnectTimer w) ++ [Construct (next_ws w)]).
    rewrite E10, keep_app, length_app. change (length (keep is_construct [Construct (next_ws w)])) with 1%nat. lia.
Qed.

Lemma no_attempt_joined n l w : no_attempt n w (joined l w).
Proof.
  unfold joined. cbv zeta. case_goal; [by apply no_attempt_stop|].
  eapply no_attempt_trans; [by apply (no_attempt_stop n IdleTimer)|]. no_attempt_by (@nil effect).
Qed.

(** A mounting hook constructs at most one connection. *)
Lemma attempt_add n l ok w : constructed (add l ok w) + pending n (add l ok w) <= constructed w + pending n w + 1.
Proof.
  rewrite add_eq. destruct (no_attempt_joined n l w) as [H1 H2]. case_goal.
  - destruct (no_attempt_trans n (joined l w) _ _ (no_attempt_emit n (CallOpen l) (joined l w) eq_refl)
      (no_attempt_subscribe n _)) as [H3 H4]. lia.
  - destruct (asked_connect n ok (joined l w)) as [_ [->|Hc]]; [lia|]. pose proof (pending_ge_count n (joined l w)). lia.
Qed.

(** A revival gives all attempts back. *)
Lemma attempt_revive settings force now ok w (n := reconnectAttempts settings) : 0 <= reconnectCount w ->
  constructed (revive settings force now ok w) + pending n (revive settings force now ok w) <=
  constructed w + pending n w + Z.max 0 n + 1.
Proof.
  intros Hc. assert (0 <= pending n w) by (unfold pending; repeat case_goal; lia).
  set (w0 := set_reconnectCount 0 w). pose proof (pending_le n w0) as H0. change (reconnectCount w0) with 0 in H0.
  assert (H1 : constructed w0 = constructed w) by done.
  assert (Hconn : constructed (connect ok w0) + pending n (connect ok w0) <= constructed w + Z.max 0 n + 1).
  { destruct (asked_connect n ok w0) as [_ [->|Ha]]; [lia|]. change (reconnectCount w0) with 0 in Ha. lia. }
  unfold revive. fold w0. repeat case_goal; try lia.
  - destruct (no_attempt_close_ws n n0 w0) as [-> Hp]. lia.
  - destruct (no_attempt_ping n settings now w) as [-> Hp]. lia.
Qed.

(** What a step adds at most to the connections and attempts while the server is
    away. *)
Definition asked (n : Z) (a : label) : Z :=
  match a with Mount _ _ => 1 | Revive _ _ _ => Z.max 0 n + 1 | _ => 0 end.

Lemma offline_step settings J a w w' :
  step settings J a w w' -> inv (reconnectAttempts settings) w -> offline a = true ->
  constructed w' + pending (reconnectAttempts settings) w' <=
  constructed w + pending (reconnectAttempts settings) w + asked (reconnectAttempts settings) a.
Proof.
  set (n := reconnectAttempts settings). intros Hs H Ho.
  assert (Hle : forall w', no_attempt n w w' -> constructed w' + pending n w' <= constructed w + pending n w + 0)
    by (intros ? []; lia).
  destruct Hs; try discriminate Ho; cbn [asked].
  - apply attempt_add.
  - apply Hle, no_attempt_remove.
  - apply Hle. unfold send. repeat case_goal; by apply no_attempt_emit.
  - pose proof (attempt_revive settings force now ok w (proj1 (pol_count _ _ (inv_policy _ _ H)))) as Hv. cbv zeta in Hv. fold n in Hv. lia.
  - apply Hle. unfold closeIfUnused. case_goal; [apply no_attempt_refl|].
    eapply no_attempt_trans; [apply (no_attempt_clear n (idleTimer w))|apply no_attempt_shutdown].
  - apply Hle. case_goal; [|apply no_attempt_refl]. unfold onmessage.
    assert (Hp : no_attempt n w (set_lastPong now w)) by no_attempt_by (@nil effect).
    repeat case_goal; try apply no_attempt_refl; try done;
      (eapply no_attempt_trans; [exact Hp|]); [by apply no_attempt_calls|by apply no_attempt_emit].
  - apply Hle. no_attempt_by (@nil effect).
  - apply Hle. cbv zeta. assert (Hp : no_attempt n w (set_ready (<[id:=CLOSED]> (ready w)) w)) by no_attempt_by (@nil effect).
    case_goal; [|done]. eapply no_attempt_trans; [exact Hp|apply attempt_onclose].
  - apply Hle. case_goal; [|apply no_attempt_refl]. unfold onerror.
    case_goal; [by apply no_attempt_calls|apply no_attempt_refl].
  - destruct k; simpl.
    + pose proof (attempt_connect settings t ok w H ltac:(done)) as Hv. cbv zeta in Hv. fold n in Hv. simpl spend in Hv. lia.
    + apply Hle, no_attempt_ping.
    + apply Hle. eapply no_attempt_trans; [|apply no_attempt_shutdown]. no_attempt_by (@nil effect).
      intros t'. simpl. rewrite lookup_delete. by case_decide.
Qed.

Lemma asked_cons n a l :
  asked n a + ((Z.max 0 n + 1) * revivals l + mounts l) = (Z.max 0 n + 1) * revivals (a :: l) + mounts (a :: l).
Proof. unfold revivals, mounts. destruct a; simpl keep; simpl length; unfold asked; lia. Qed.

Lemma offline_run settings J l w w' (n := reconnectAttempts settings) :
  reachable settings J w -> run settings J l w w' -> forallb offline l = true ->
  constructed w' + pending n w' <= constructed w + pending n w + ((Z.max 0 n + 1) * revivals l + mounts l).
Proof.
  intros Hr Hrun. induction Hrun as [w|a l w w1 w2 Hs Hrun IH]; intros Ho; [unfold revivals, mounts; simpl; lia|].
  simpl in Ho. apply andb_true_iff in Ho as [Ha Hl].
  destruct (reachable_invariant _ _ _ Hr) as [Hi _].
  pose proof (offline_step _ _ _ _ _ Hs Hi Ha). rewrite <- asked_cons.
  specialize (IH (reach_step _ _ _ _ _ Hr Hs) Hl). unfold n in *. lia.
Qed.

Lemma last_subscribe_in id es ts : last_subscribe id es = Some ts -> SendSubscribe id ts ∈ es.
Proof.
  unfold last_subscribe. intros H. apply last_Some_elem_of, list_elem_of_omap in H as (e & He & Hs).
  destruct e; simpl in Hs; try done. case_hyp Hs; [|done]. bool_simpl. by simplify_eq.
Qed.

(** The handlers of a connection the object has left behind do nothing. *)
Lemma stale_handlers settings J id now raw w :
  ws w <> Some id ->
  onopen id now w = w /\ onmessage J id now raw w = w /\ onclose settings id w = w /\ onerror id w = w.
Proof.
  intros Hne. unfold onopen, onmessage, onclose, onerror.
  by rewrite bool_decide_eq_false_2.
Qed.

(** A step that at most logs, on an object without connection, hooks and timers. *)
Definition inert (w w' : socket) : Prop :=
  registered w' = false /\ ws w' = None /\ listeners w' = [] /\ timers w' = ∅ /\
  (trace w' = trace w \/ exists text, trace w' = trace w ++ [Console text]).

Lemma inert_step settings J a w w' :
  registered w = false -> ws w = None -> listeners w = [] -> timers w = ∅ ->
  step settings J a w w' -> inert w w'.
Proof.
  intros Hr Hw Hl Ht Hs.
  assert (Hsame : inert w w) by (unfold inert; auto 10).
  assert (Hready : forall m, inert w (set_ready m w)) by (intros m; unfold inert; simpl; auto 10).
  assert (Hst : forall id, ws w <> Some id) by congruence.
  destruct Hs.
  - congruence.
  - rewrite Hl in H. set_solver.
  - unfold send. rewrite Hw. unfold inert, emit. simpl. eauto 10.
  - unfold revive. by rewrite Hl.
  - congruence.
  - cbv zeta. case_goal; [|apply Hready].
    destruct (stale_handlers settings J id now "" (set_ready (<[id:=OPEN]> (ready w)) w) (Hst id)) as (-> & _).
    apply Hready.
  - case_goal; [|done]. by destruct (stale_handlers settings J id now raw w (Hst id)) as (_ & -> & _).
  - apply Hready.
  - cbv zeta. case_goal; [|apply Hready].
    destruct (stale_handlers settings J id 0 "" (set_ready (<[id:=CLOSED]> (ready w)) w) (Hst id)) as (_ & _ & -> & _).
    apply Hready.
  - case_goal; [|done]. by destruct (stale_handlers settings J id 0 "" w (Hst id)) as (_ & _ & _ & ->).
  - by rewrite Ht, lookup_empty in H.
Qed.

Lemma clear_fields o w :
  ws (clear_timer o w) = ws w /\ registered (clear_timer o w) = registered w /\
  trace (clear_timer o w) = trace w.
Proof. by destruct o. Qed.

Lemma close_fields id w :
  ws (close_ws id w) = ws w /\ registered (close_ws id w) = registered w /\
  trace (close_ws id w) = trace w ++ [CloseSocket id].
Proof. unfold close_ws. by repeat case_goal. Qed.

Lemma shutdown_unused w :
  listeners w = [] ->
  registered (shutdown w) = false /\ ws (shutdown w) = None /\
  forall id, ws w = Some id -> CloseSocket id ∈ trace (shutdown w).
Proof.
  intros Hl. unfold shutdown. change (listeners (set_idleTimer None w)) with (listeners w).
  rewrite Hl. change (nonempty []) with false. cbv iota.
  set (w1 := set_registered false (set_idleTimer None w)).
  set (w2 := clear_timer (reconnectTimer w1) w1). set (w3 := clear_timer (pingTimer w2) w2).
  destruct (clear_fields (reconnectTimer w1) w1) as (A1 & A2 & A3).
  destruct (clear_fields (pingTimer w2) w2) as (B1 & B2 & B3).
  assert (C1 : ws w3 = ws w) by (unfold w3; rewrite B1; unfold w2; by rewrite A1).
  assert (C2 : registered w3 = false) by (unfold w3; rewrite B2; unfold w2; by rewrite A2).
  clearbody w3. destruct (ws w3) as [i|] eqn:Ew.
  - set (w4 := set_handlers _ _). destruct (close_fields i w4) as (D1 & D2 & D3).
    rewrite D1, D2, D3. split; [exact C2|]. split; [done|]. intros id Hid.
    rewrite Hid in C1. simplify_eq. set_solver.
  - split; [done|]. split; [done|]. intros id Hid. congruence.
Qed.

(** A reachable state of a small client, for the witnesses: one hook with the
    default topics, its connection open. *)
Definition demo_settings : SocketSettings :=
  {| reconnect := true; reconnectInterval := 3000; reconnectAttempts := 10; pingInterval := 25000 |}.
Definition demo_hook : Listener := {| listener_id := 0; topics := hook_topics DEFAULT_TOPICS |}.
Definition demo_parse (raw : string) : option value :=
  if raw =s "{}" then Some (VObj []) else None.
Definition demo_start : socket := add demo_hook true (new_socket 0).
Definition demo_open : socket :=
  onopen 0 5 (set_ready (<[0%nat := OPEN]> (ready demo_start)) demo_start).

Lemma demo_start_reachable : reachable demo_settings demo_parse demo_start.
Proof. by apply (reach_init _ _ demo_hook DEFAULT_TOPICS 0 true). Defined.

Lemma demo_open_step : step demo_settings demo_parse (WsOpened 0 5) demo_start demo_open.
Proof. exact (step_opened demo_settings demo_parse 0 5 demo_start eq_refl). Defined.

Lemma demo_open_reachable : reachable demo_settings demo_parse demo_open.
Proof. exact (reach_step _ _ _ _ _ demo_start_reachable demo_open_step). Defined.

(** ** What the server was told *)

Lemma told_last_subscribe settings J w id :
  reachable settings J w ->
  ws w = Some id -> ready w !! id = Some OPEN -> listeners w <> [] ->
  join "|" (wanted w) <> "" ->
  last_subscribe id (trace w) = Some (wanted w).
Proof.
  intros Hr Hws Hop Hl Hne.
  pose proof (reachable_told _ _ _ Hr) as [L T C A B D].
  assert (Hn : ready_now w = Some OPEN) by (by rewrite (ready_now_eq _ _ Hws)).
  specialize (A Hn Hl). specialize (D _ Hws Hop). rewrite A in D.
  destruct (last_subscribe id (trace w)) as [ts|] eqn:E; [|done]. f_equal.
  apply (join_inj "|"); [..|done].
  - intros ->. by rewrite D in Hne.
  - intros E'. by rewrite E' in Hne.
  - by eapply T, last_subscribe_in.
  - by apply wanted_bar_free.
Qed.

(** ** Delivery *)

(** The calls of hooks with an event, in order. *)
Definition message_of (e : effect) : option (Listener * value) :=
  match e with CallMessage l data => Some (l, data) | _ => None end.

Definition delivered (w : socket) : list (Listener * value) := omap message_of (trace w).

(** A change that calls no hook with an event. *)
Definition silent (w w' : socket) : Prop := delivered w' = delivered w.

Lemma delivered_app w w' es : trace w' = trace w ++ es -> delivered w' = delivered w ++ omap message_of es.
Proof. unfold delivered. intros ->. apply omap_app. Qed.

Lemma silent_frame w w' es : trace w' = trace w ++ es -> omap message_of es = [] -> silent w w'.
Proof. intros H1 H2. unfold silent. by rewrite (delivered_app _ _ _ H1), H2, app_nil_r. Qed.

Lemma silent_trans w1 w2 w3 : silent w1 w2 -> silent w2 w3 -> silent w1 w3.
Proof. unfold silent. congruence. Qed.

Lemma silent_subscribe w : silent w (subscribe w).
Proof. unfold subscribe. repeat case_goal; try done. by apply (silent_frame _ _ [SendSubscribe n (wanted w)]). Qed.

Lemma silent_close_ws id w : silent w (close_ws id w).
Proof. by apply (silent_frame _ _ [CloseSocket id]); [apply close_fields|]. Qed.

Lemma silent_stop k w : silent w (stop k w).
Proof. destruct (stop_fields k w) as (_ & _ & _ & _ & _ & _ & _ & _ & _ & E & _). unfold silent, delivered. by rewrite E. Qed.

Lemma silent_connect ok w : silent w (connect ok w).
Proof.
  destruct (connect_eq ok w) as [->|[[-> _]|[-> _]]]; [done|..]; (eapply silent_trans; [apply (silent_stop ReconnectTimer)|]).
  - by apply (silent_frame _ _ [Console "[WebSocket] Failed to create WebSocket:"]).
  - by apply (silent_frame _ _ [Construct (next_ws w)]).
Qed.

Lemma silent_ping settings now w : silent w (ping settings now w).
Proof. unfold ping. repeat case_goal; try done; [apply silent_close_ws|]. by apply (silent_frame _ _ [SendPing n now]). Qed.

Lemma silent_clear o w : silent w (clear_timer o w).
Proof. unfold silent, delivered. by destruct (clear_fields o w) as (_ & _ & ->). Qed.

Lemma silent_shutdown w : silent w (shutdown w).
Proof.
  unfold shutdown. case_goal; [done|]. set (w1 := set_registered _ _). set (w2 := clear_timer (reconnectTimer w1) w1).
  set (w3 := clear_timer (pingTimer w2) w2).
  assert (H3 : silent w w3) by (apply (silent_trans w w1); [done|]; eapply silent_trans; apply silent_clear).
  case_goal; [|done]. eapply silent_trans; [exact H3|]. eapply silent_trans; [|apply silent_close_ws]. done.
Qed.

Lemma silent_add l ok w : silent w (add l ok w).
Proof.
  rewrite add_eq. assert (Hj : silent w (joined l w)).
  { unfold silent, delivered. by destruct (joined_fields l w) as (_ & _ & _ & -> & _). }
  case_goal; (eapply silent_trans; [exact Hj|]); [|apply silent_connect].
  eapply silent_trans; [|apply silent_subscribe]. by apply (silent_frame _ _ [CallOpen l]).
Qed.

Lemma silent_remove l w : silent w (remove l w).
Proof. unfold remove. case_goal; [|done]. eapply silent_trans; [|apply silent_subscribe]. done. Qed.

Lemma silent_send data w : silent w (send data w).
Proof. unfold send. repeat case_goal; by eapply silent_frame. Qed.

Lemma silent_calls (f : Listener -> effect) w : (forall l, message_of (f l) = None) ->
  silent w (emit_all (map f (listeners w)) w).
Proof.
  intros Hf. apply (silent_frame _ _ (map f (listeners w))); [done|].
  induction (listeners w) as [|l ls IH]; [done|]. cbn. rewrite Hf. exact IH.
Qed.

Lemma silent_onclose settings id w : silent w (onclose settings id w).
Proof.
  rewrite onclose_eq. case_goal; [|done]. cbv zeta. set (h := if nonempty _ then _ else _).
  assert (Hc : silent w (closed_state h w)) by (eapply silent_trans; [|apply (silent_stop PingTimer)]; done).
  assert (Hl : listeners (closed_state h w) = listeners w)
    by (unfold closed_state; by destruct (stop_fields PingTimer (set_subscribed "" (set_connected false (set_handlers h (set_ws None w))))) as (_ & -> & _)).
  assert (Hs : silent w (emit_all (map CallClose (listeners w)) (closed_state h w)))
    by (eapply silent_trans; [exact Hc|]; rewrite <- Hl; by apply silent_calls).
  case_goal; [exact Hs|exact Hs].
Qed.

Lemma silent_revive settings force now ok w : silent w (revive settings force now ok w).
Proof.
  unfold revive. repeat case_goal; try done; try apply silent_ping;
    [eapply silent_trans; [|apply silent_close_ws]|eapply silent_trans; [|apply silent_connect]..]; done.
Qed.

(** Every hook called with [data], in the order in which they mounted. *)
Definition to_all (w : socket) (data : value) : list (Listener * value) := map (fun l => (l, data)) (listeners w).

Lemma delivered_all w data : omap message_of (map (fun l => CallMessage l data) (listeners w)) = to_all w data.
Proof. unfold to_all. induction (listeners w) as [|l ls IH]; [done|]. cbn. f_equal. exact IH. Qed.

Lemma delivered_open b ls : omap message_of (mjoin (map (open_calls b) ls)) = if b then map (fun l => (l, RESYNC_EVENT)) ls else [].
Proof.
  induction ls as [|l ls IH]; [by destruct b|]. change (mjoin (map (open_calls b) (l :: ls)))
    with (open_calls b l ++ mjoin (map (open_calls b) ls)). rewrite omap_app, IH. by destruct b.
Qed.

(** An object that answers a ping or a subscription; nothing for the hooks. *)
Definition housekeeping (data : value) : Prop :=
  exists fields, data = VObj fields /\
    (prop "type" fields = Some (VStr "pong") \/ prop "type" fields = Some (VStr "subscribed")).

Lemma control_spec data t : message_type data = Some t -> is_control t = true <-> housekeeping data.
Proof.
  unfold message_type, is_control, housekeeping. intros Ht.
  destruct data; try done; injection Ht as <-; cbn [as_str]; (split; [intros H|intros (f & [= <-] & H)]); try done.
  - destruct (prop "type" _) as [[]|] eqn:E; simpl in H; try done. apply orb_true_iff in H. rewrite !str_eqb_eq in H.
    eexists. split; [done|]. rewrite E. destruct H as [-> | ->]; auto.
  - by destruct H as [-> | ->].
Qed.

(** What a step is due to tell the hooks: an event that arrived on the current
    connection, or that it was opened again. *)
Inductive due (J : string -> option value) (w : socket) : label -> list (Listener * value) -> Prop :=
| due_event id now raw data : ws w = Some id -> J raw = Some data -> data <> VNull -> ~ housekeeping data ->
    due J w (WsMessage id now raw) (to_all w data)
| due_housekeeping id now raw data : ws w = Some id -> J raw = Some data -> data = VNull \/ housekeeping data ->
    due J w (WsMessage id now raw) []
| due_malformed id now raw : ws w = Some id -> J raw = None -> due J w (WsMessage id now raw) []
| due_abandoned id now raw : ws w <> Some id -> due J w (WsMessage id now raw) []
| due_resync id now : ws w = Some id -> opened w = true -> due J w (WsOpened id now) (to_all w RESYNC_EVENT)
| due_first_open id now : ws w <> Some id \/ opened w = false -> due J w (WsOpened id now) []
| due_other a : match a with WsMessage _ _ _ | WsOpened _ _ => False | _ => True end -> due J w a [].

Lemma onmessage_due J id now raw w :
  exists calls, due J w (WsMessage id now raw) calls /\ delivered (onmessage J id now raw w) = delivered w ++ calls.
Proof.
  unfold onmessage. destruct (bool_decide (ws w = Some id)) eqn:Ew; bool_simpl.
  2: { exists []. rewrite app_nil_r. split; [by apply due_abandoned|done]. }
  destruct (J raw) as [data|] eqn:EJ.
  2: { exists []. rewrite app_nil_r. split; [by apply due_malformed|].
       by apply (silent_frame w _ [Console "[WebSocket] Failed to parse message:"]). }
  destruct (message_type data) as [t|] eqn:Et.
  2: { exists []. rewrite app_nil_r. split; [apply (due_housekeeping J w id now raw data); auto; left; by destruct data|done]. }
  pose proof (control_spec data t Et) as Hc. destruct (is_control t).
  - exists []. rewrite app_nil_r. split; [apply (due_housekeeping J w id now raw data); auto; right; by apply Hc|done].
  - exists (to_all w data). split.
    + apply due_event; try done; [by intros ->|]. intros H. by apply Hc in H.
    + rewrite (delivered_app w _ (map (fun l => CallMessage l data) (listeners w))), delivered_all; done.
Qed.

Lemma onopen_due J id now w r :
  exists calls, due J w (WsOpened id now) calls /\
    delivered (onopen id now (set_ready r w)) = delivered w ++ calls.
Proof.
  rewrite onopen_eq. change (ws (set_ready r w)) with (ws w). change (opened (set_ready r w)) with (opened w).
  destruct (bool_decide (ws w = Some id)) eqn:Ew; bool_simpl.
  2: { exists []. rewrite app_nil_r. split; [apply due_first_open; auto|done]. }
  set (w0 := set_subscribed _ _). change (listeners (set_ready r w)) with (listeners w).
  set (w1 := emit_all _ _).
  assert (Hd : delivered (launch PingTimer (stop PingTimer w1)) = delivered w ++ if opened w then to_all w RESYNC_EVENT else []).
  { transitivity (delivered w1); [apply (silent_stop PingTimer w1)|].
    rewrite (delivered_app (subscribe w0) w1 (mjoin (map (open_calls (opened w)) (listeners w))) eq_refl), delivered_open.
    f_equal. apply (silent_subscribe w0). }
  rewrite Hd. destruct (opened w) eqn:Eo; eexists; (split; [|reflexivity]); [by apply due_resync|apply due_first_open; auto].
Qed.

(** ** The promises *)

(** C1. Subscription: whenever the object's connection is open and some hook is
    mounted, the last subscription sent on that very connection carries exactly
    the sorted, duplicate-free union of the topics of the mounted hooks, through
    every mount, unmount, reconnection and revival. *)
Theorem server_told_wanted_topics settings J w id :
  reachable settings J w ->
  ws w = Some id -> ready w !! id = Some OPEN -> listeners w <> [] ->
  join "|" (wanted w) <> "" ->
  last_subscribe id (trace w) = Some (wanted w).
Proof. apply told_last_subscribe. Qed.

Lemma server_told_wanted_topics_witness :
  last_subscribe 0 (trace demo_open) = Some ["jobs"; "system"].
Proof.
  rewrite (server_told_wanted_topics demo_settings demo_parse demo_open 0);
    [vm_compute; reflexivity|exact demo_open_reachable|vm_compute; reflexivity|vm_compute; reflexivity
    |vm_compute; discriminate|vm_compute; discriminate].
Defined.

(** C2. Timers and the retry counter, in every reachable state: each live timer
    is the one recorded in the field of its kind (so at most one of each kind,
    and none leaks); the ping interval runs only on a current connection, a
    reconnect only while there is none, the idle shutdown only without hooks; an
    object without hooks always has its shutdown scheduled; and the retry
    counter stays within the allowed attempts. *)
Theorem timers_and_retries_invariant settings J w :
  reachable settings J w ->
  (forall t k, timers w !! t = Some k -> field k w = Some t) /\
  (forall t, timers w !! t = Some PingTimer -> ws w <> None) /\
  (forall t, timers w !! t = Some ReconnectTimer -> ws w = None) /\
  (forall t, timers w !! t = Some IdleTimer -> listeners w = []) /\
  (registered w = true -> listeners w = [] -> exists t, timers w !! t = Some IdleTimer) /\
  0 <= reconnectCount w <= Z.max 0 (reconnectAttempts settings).
Proof.
  intros [[[T _ _] [P1 P2 P3 P5 P6 P7 P8] _] Hi]%reachable_invariant. auto 10.
Qed.

Lemma timers_and_retries_invariant_witness :
  field PingTimer demo_open = Some 0%nat /\ 0 <= reconnectCount demo_open.
Proof.
  destruct (timers_and_retries_invariant demo_settings demo_parse demo_open demo_open_reachable)
    as (H & _ & _ & _ & _ & Hc).
  split; [apply (H 0%nat PingTimer); vm_compute; reflexivity|apply Hc].
Defined.

(** C8. Reconnection is bounded: from any reachable state, however calls, the
    browser's events and the timers interleave, while no connection opens the
    object constructs at most [max 0 reconnectAttempts + 1] connections, as many
    again for each time it is revived, and one for each hook that mounts. *)
Theorem offline_reconnects_bounded settings J l w w' :
  reachable settings J w -> run settings J l w w' -> forallb offline l = true ->
  constructed w' - constructed w <= (Z.max 0 (reconnectAttempts settings) + 1) * (1 + revivals l) + mounts l.
Proof.
  intros Hr Hrun Ho. pose proof (offline_run _ _ _ _ _ Hr Hrun Ho) as Hle.
  destruct (reachable_invariant _ _ _ Hr) as [[_ P _] _].
  pose proof (pol_count _ _ P) as Hc. set (n := reconnectAttempts settings) in *.
  assert (0 <= pending n w') by (unfold pending; repeat case_goal; lia).
  pose proof (pending_le n w). lia.
Qed.

(** The connection closes and the user revives the socket. *)
Lemma offline_reconnects_bounded_witness :
  exists w', constructed w' = 2 /\ constructed w' - constructed demo_open <= 22.
Proof.
  eexists. split; [|apply (offline_reconnects_bounded demo_settings demo_parse [WsClosed 0; Revive true 9 true] demo_open);
    [exact demo_open_reachable
    |eapply run_cons; [apply (step_closed demo_settings demo_parse 0 demo_open OPEN);
       [vm_compute; reflexivity|discriminate]
      |eapply run_cons; [apply step_revive|apply run_nil]]
    |reflexivity]].
  vm_compute. reflexivity.
Defined.

(** C9. Delivery, over all steps from all reachable states. A message that arrives
    on the current connection calls every mounted hook exactly once, in the
    order in which they mounted, unless it does not parse, is [null], or is an
    object of type [pong] or [subscribed]; the opening of a connection calls
    them with the resync event if it is not the object's first; and nothing else
    that happens, a message on a connection left behind included, calls any hook
    with an event. A message on a connection left behind changes nothing at
    all. *)
Theorem message_delivery settings J a w w' :
  reachable settings J w -> step settings J a w w' ->
  NoDup (listeners w) /\
  (exists calls, due J w a calls /\ delivered w' = delivered w ++ calls) /\
  (forall id now raw, a = WsMessage id now raw -> ws w <> Some id -> w' = w).
Proof.
  intros Hr Hs. destruct (reachable_invariant _ _ _ Hr) as [H _].
  split; [apply (pol_nodup _ _ (inv_policy _ _ H))|]. split.
  2: { intros id now raw -> Hne. inversion Hs; subst. case_goal; [|done]. unfold onmessage. by rewrite bool_decide_eq_false_2. }
  assert (Hq : forall a w', match a with WsMessage _ _ _ | WsOpened _ _ => False | _ => True end -> silent w w' ->
    exists calls, due J w a calls /\ delivered w' = delivered w ++ calls).
  { intros b v Hb Hv. exists []. rewrite app_nil_r. split; [by apply due_other|exact Hv]. }
  assert (Hh : forall id, id ∉ handlers w -> ws w <> Some id).
  { intros id Hn Hw. by destruct (ws_live _ (inv_sockets _ _ H) _ Hw) as [Hin _]. }
  destruct Hs; try (apply Hq; [done|]).
  - apply silent_add.
  - apply silent_remove.
  - apply silent_send.
  - apply silent_revive.
  - unfold closeIfUnused. case_goal; [done|]. eapply silent_trans; [apply silent_clear|apply silent_shutdown].
  - cbv zeta. case_goal; bool_simpl; [apply onopen_due|]. exists []. rewrite app_nil_r. split; [apply due_first_open; auto|done].
  - case_goal; bool_simpl; [apply onmessage_due|]. exists []. rewrite app_nil_r. split; [apply due_abandoned; auto|done].
  - done.
  - cbv zeta. case_goal; [|done]. eapply silent_trans; [|apply silent_onclose]. done.
  - case_goal; [|done]. unfold onerror. case_goal; [by apply silent_calls|done].
  - assert (Hsp : silent w (spend t k w)) by by destruct k.
    destruct k; (eapply silent_trans; [exact Hsp|]); [apply silent_connect|apply silent_ping|apply silent_shutdown].
Qed.

Lemma message_delivery_witness :
  delivered (onmessage demo_parse 0 7 "{}" demo_open) = [(demo_hook, VObj [])].
Proof.
  destruct (message_delivery demo_settings demo_parse (WsMessage 0 7 "{}") demo_open (onmessage demo_parse 0 7 "{}" demo_open)
    demo_open_reachable) as (_ & (calls & Hd & ->) & _).
  - exact (step_message demo_settings demo_parse 0 7 "{}" demo_open eq_refl).
  - inversion Hd; subst; try done.
    + match goal with E : demo_parse _ = Some _ |- _ => vm_compute in E; injection E as <- end. vm_compute. reflexivity.
    + match goal with E : demo_parse _ = Some _ |- _ => vm_compute in E; injection E as <- end.
      match goal with E : _ \/ _ |- _ => destruct E as [E|(f & [= <-] & [E|E])]; vm_compute in E; discriminate E end.
Defined.

(** Resynchronisation: when the current connection opens, every mounted hook
    is told so, and it is sent the resync event if and only if the object had
    been open before (events of the gap are not replayed); the connection is
    marked up, the retry counter cleared and a ping interval started. *)
Theorem open_resyncs_after_a_gap settings J id now w w' :
  reachable settings J w -> step settings J (WsOpened id now) w w' -> ws w = Some id ->
  (exists sent, trace w' = trace w ++ sent ++ mjoin (map (open_calls (opened w)) (listeners w)) /\
     forall e, e ∈ sent -> e = SendSubscribe id (wanted w)) /\
  (forall l, l ∈ listeners w ->
     (CallMessage l RESYNC_EVENT ∈ mjoin (map (open_calls (opened w)) (listeners w)) <-> opened w = true)) /\
  connected w' = true /\ opened w' = true /\ reconnectCount w' = 0 /\
  exists t, pingTimer w' = Some t /\ timers w' !! t = Some PingTimer.
Proof.
  intros Hr Hs Hws. inversion Hs; subst. destruct (reachable_invariant _ _ _ Hr) as [H _].
  destruct (ws_live _ (inv_sockets _ _ H) _ Hws) as [Hh _]. simpl.
  rewrite (bool_decide_eq_true_2 _ Hh), onopen_eq. rewrite (bool_decide_eq_true_2 _ Hws).
  set (w0 := set_subscribed _ _). set (w1 := emit_all _ _).
  destruct (stop_fields PingTimer w1) as (_ & _ & _ & _ & _ & _ & E7 & E8 & _ & E10 & E11).
  assert (Hsub : exists sent, subscribe w0 = set_trace (trace w ++ sent) (set_subscribed (subscribed (subscribe w0)) w0) /\
     forall e, e ∈ sent -> e = SendSubscribe id (wanted w)).
  { unfold subscribe. change (ws w0) with (ws w). rewrite Hws. repeat case_goal.
    - exists []. rewrite app_nil_r. split; [by destruct w|set_solver].
    - exists [SendSubscribe id (wanted w)]. split; [done|]. intros e He. by apply list_elem_of_singleton in He.
    - exists []. rewrite app_nil_r. split; [by destruct w|set_solver]. }
  destruct Hsub as (sent & Hsub & Hin).
  split; [|split; [|repeat split]].
  - exists sent. split; [|done]. change (trace (stop PingTimer w1) = trace w ++ sent ++ mjoin (map (open_calls (opened w)) (listeners w))).
    rewrite E10. unfold w1. rewrite Hsub. simpl. by rewrite app_assoc.
  - intros l Hl. split.
    + intros (es & He & Hes)%list_elem_of_join.
      apply list_elem_of_fmap in Hes as (l' & -> & _). unfold open_calls in He.
      destruct (opened w); [done|]. set_solver.
    + intros ->. apply list_elem_of_join. exists (open_calls true l). split; [set_solver|].
      apply list_elem_of_fmap. by exists l.
  - change (connected (stop PingTimer w1) = true). rewrite E7. unfold w1. by rewrite Hsub.
  - change (opened (stop PingTimer w1) = true). rewrite E8. unfold w1. by rewrite Hsub.
  - change (reconnectCount (stop PingTimer w1) = 0). rewrite E11. unfold w1. by rewrite Hsub.
  - exists (next_timer (stop PingTimer w1)). split; [done|]. apply lookup_insert_eq.
Qed.

Lemma open_resyncs_after_a_gap_witness : connected demo_open = true /\ reconnectCount demo_open = 0.
Proof.
  destruct (open_resyncs_after_a_gap demo_settings demo_parse 0 5 demo_start demo_open
    demo_start_reachable demo_open_step) as (_ & _ & H1 & _ & H2 & _); [vm_compute; reflexivity|].
  exact (conj H1 H2).
Defined.

(** End of life: an object whose last hook has unmounted is shut down by its
    idle timer, which closes the connection, and from then on it is inert: no
    browser event, timer or call brings back a connection, a timer or a call to a
    hook; at most a warning is logged. *)
Theorem unused_socket_dies settings J w :
  reachable settings J w -> listeners w = [] ->
  (registered w = true ->
     exists t, forall now ok, exists w',
       step settings J (TimerFires t now ok) w w' /\ registered w' = false /\ ws w' = None /\
       forall id, ws w = Some id -> CloseSocket id ∈ trace w') /\
  (registered w = false ->
     forall a w', step settings J a w w' ->
       registered w' = false /\ ws w' = None /\ listeners w' = [] /\ timers w' = ∅ /\
       (trace w' = trace w \/ exists text, trace w' = trace w ++ [Console text])).
Proof.
  intros Hr Hl. destruct (reachable_invariant _ _ _ Hr) as [H Hi]. split.
  - intros Hreg. destruct (Hi Hreg Hl) as [t Ht]. exists t. intros now ok. eexists.
    split; [by apply (step_timer settings J t IdleTimer now ok w)|].
    apply (shutdown_unused (spend t IdleTimer w)). exact Hl.
  - intros Hdead. destruct (pol_dead _ _ (inv_policy _ _ H) Hdead) as (Hw & _ & Htm).
    assert (Hte : timers w = ∅) by (apply map_eq; intros t; by rewrite Htm, lookup_empty).
    intros a w' Hs. by eapply inert_step.
Qed.

(** The same client after its hook unmounted. *)
Lemma unused_socket_dies_witness : exists t w',
  step demo_settings demo_parse (TimerFires t 9 true) (remove demo_hook demo_open) w' /\ registered w' = false.
Proof.
  destruct (unused_socket_dies demo_settings demo_parse (remove demo_hook demo_open)) as [Hlive _].
  - apply (reach_step _ _ (Unmount demo_hook) demo_open); [exact demo_open_reachable|].
    apply step_unmount. vm_compute. constructor.
  - vm_compute. reflexivity.
  - destruct Hlive as [t Ht]; [vm_compute; reflexivity|].
    destruct (Ht 9 true) as (w' & Hs & Hreg & _). exists t, w'. exact (conj Hs Hreg).
Defined.

(** The [connected] flag can outlive the connection it described: when the
    user revives a socket whose close handshake is still under way, a new
    connection is constructed while [connected] stays true, and a hook that mounts
    then is told at once that the connection is open although it is CONNECTING. *)
Theorem open_reported_while_connecting : exists w l,
  reachable demo_settings demo_parse w /\
  ready_now w = Some CONNECTING /\ l ∉ listeners w /\
  trace (add l true w) = trace w ++ [CallOpen l].
Proof.
  set (w1 := set_ready (<[0%nat := CLOSING]> (ready demo_open)) demo_open).
  assert (H1 : reachable demo_settings demo_parse w1).
  { apply (reach_step _ _ (WsClosing 0) demo_open); [exact demo_open_reachable|].
    by apply step_closing. }
  exists (revive demo_settings true 6 true w1), {| listener_id := 1; topics := [] |}.
  split; [|split; [|split]].
  - eapply (reach_step _ _ (Revive true 6 true)); [exact H1|]. apply step_revive.
  - vm_compute. reflexivity.
  - apply (bool_decide_unpack _). vm_compute. exact I.
  - vm_compute. reflexivity.
Qed.

(** ** Recovery *)

(** The current connection is open, the object knows it, and the server was told
    what its hooks want. *)
Definition online (w : socket) : Prop :=
  exists id, ws w = Some id /\ ready w !! id = Some OPEN /\ connected w = true /\
    (join "|" (wanted w) <> "" -> last_subscribe id (trace w) = Some (wanted w)).

Lemma open_online settings J w id :
  reachable settings J w -> ws w = Some id -> ready w !! id = Some OPEN -> listeners w <> [] -> online w.
Proof.
  intros Hr Hws Hop Hl. exists id. split; [done|]. split; [done|]. split.
  - destruct (reachable_told _ _ _ Hr) as [_ _ C _ _ _]. apply C. by rewrite (ready_now_eq _ _ Hws).
  - intros Hne. by apply (told_last_subscribe settings J).
Qed.

(** The browser opens the connection the object waits for. *)
Lemma opening settings J w id now :
  reachable settings J w -> ws w = Some id -> ready w !! id = Some CONNECTING ->
  exists w', step settings J (WsOpened id now) w w' /\
    ws w' = Some id /\ ready w' !! id = Some OPEN /\ listeners w' = listeners w.
Proof.
  intros Hr Hws Hc. destruct (reachable_invariant _ _ _ Hr) as [[_ _ [Hlive _]] _]. destruct (Hlive _ Hws) as [Hh _].
  eexists. split; [by apply step_opened|]. cbv zeta. rewrite bool_decide_eq_true_2 by done.
  rewrite onopen_eq, bool_decide_eq_true_2 by done.
  set (w1 := set_subscribed _ _). destruct (subscribe_eq w1) as (s & es & E). rewrite E. unfold launch, stop.
  unfold clear_timer. destruct (field _ _); simpl; (split; [done|split; [apply lookup_insert_eq|done]]).
Qed.

(** A revival of an object whose connection is neither open nor coming up. *)
Lemma revived settings J w now :
  reachable settings J w -> listeners w <> [] -> ready_now w <> Some OPEN -> ready_now w <> Some CONNECTING ->
  exists w' id, step settings J (Revive false now true) w w' /\
    ws w' = Some id /\ ready w' !! id = Some CONNECTING /\ listeners w' = listeners w.
Proof.
  intros Hr Hl Ho Hc. exists (revive settings false now true w), (next_ws w). split; [apply step_revive|].
  unfold revive. rewrite (proj2 (nonempty_true _)) by done.
  assert (Hio : is_open w = false) by (by apply bool_decide_eq_false).
  assert (Hio' : is_open (set_reconnectCount 0 w) = false) by exact Hio. rewrite Hio. simpl.
  assert (E : match ws w with Some id => if is_open (set_reconnectCount 0 w) then close_ws id (set_reconnectCount 0 w)
                else connect true (set_reconnectCount 0 w) | None => connect true (set_reconnectCount 0 w) end =
              connect true (set_reconnectCount 0 w)) by (rewrite Hio'; by destruct (ws w)).
  rewrite E. unfold connect. change (ready_now (set_reconnectCount 0 w)) with (ready_now w).
  destruct (ready_now w) as [[]|]; try done; unfold clear_timer; destruct (reconnectTimer _); simpl;
    (split; [done|split; [apply lookup_insert_eq|done]]).
Qed.

(** What the user and the browser do in a recovery. *)
Definition helpful (a : label) : bool := match a with Revive _ _ true | WsOpened _ _ => true | _ => false end.

(** C7. The connection can always be recovered: from every reachable state with a
    mounted hook -- offline, closing, or after the object has given up
    reconnecting -- at most one revival followed by the browser opening the
    connection leads to an open connection the object reports as such, with the
    same hooks, on which the server has been told exactly what they want. *)
Theorem always_recoverable settings J w (now : Z) :
  reachable settings J w -> listeners w <> [] ->
  exists l w', run settings J l w w' /\ (length l <= 2)%nat /\ forallb helpful l = true /\
    listeners w' = listeners w /\ online w'.
Proof.
  intros Hr Hl.
  assert (Hopen : forall v id, reachable settings J v -> listeners v = listeners w -> ws v = Some id ->
    ready v !! id = Some CONNECTING ->
    exists w', step settings J (WsOpened id now) v w' /\ listeners w' = listeners w /\ online w').
  { intros v id Hv Hlv Hws Hc. destruct (opening settings J v id now Hv Hws Hc) as (w' & Hs & Hws' & Hop & Hl').
    exists w'. split; [done|]. rewrite Hl', Hlv. split; [done|].
    apply (open_online settings J w' id); [by apply (reach_step _ _ _ _ _ Hv Hs)|done|done|by rewrite Hl', Hlv]. }
  destruct (decide (ready_now w = Some OPEN)) as [Ho|Ho].
  { exists [], w. unfold ready_now in Ho. destruct (ws w) as [id|] eqn:Hws; [|done]. simpl in Ho.
    split; [constructor|]. split; [simpl; lia|]. split; [done|]. split; [done|]. by apply (open_online settings J w id). }
  destruct (decide (ready_now w = Some CONNECTING)) as [Hc|Hc].
  { unfold ready_now in Hc. destruct (ws w) as [id|] eqn:Hws; [|done]. simpl in Hc.
    destruct (Hopen w id Hr eq_refl Hws Hc) as (w' & Hs & Hl' & Hon).
    exists [WsOpened id now], w'. split; [eapply run_cons; [exact Hs|constructor]|]. split; [simpl; lia|]. done. }
  destruct (revived settings J w now Hr Hl Ho Hc) as (v & id & Hs & Hws & Hcv & Hlv).
  destruct (Hopen v id (reach_step _ _ _ _ _ Hr Hs) Hlv Hws Hcv) as (w' & Hs' & Hl' & Hon).
  exists [Revive false now true; WsOpened id now], w'.
  split; [eapply run_cons; [exact Hs|eapply run_cons; [exact Hs'|constructor]]|]. split; [simpl; lia|]. done.
Qed.

(** The object after its connection closed. *)
Definition demo_given_up : socket :=
  let w' := set_ready (<[0%nat := CLOSED]> (ready demo_open)) demo_open in
  if bool_decide (0%nat ∈ handlers demo_open) then onclose demo_settings 0 w' else w'.

Lemma always_recoverable_witness :
  ws demo_given_up = None /\
  exists l w', run demo_settings demo_parse l demo_given_up w' /\ (length l <= 2)%nat /\ online w'.
Proof.
  split; [vm_compute; reflexivity|].
  destruct (always_recoverable demo_settings demo_parse demo_given_up 9) as (l & w' & H1 & H2 & _ & _ & H5).
  - apply (reach_step _ _ (WsClosed 0) demo_open); [exact demo_open_reachable|].
    exact (step_closed demo_settings demo_parse 0 demo_open OPEN eq_refl ltac:(discriminate)).
  - vm_compute. discriminate.
  - exists l, w'. exact (conj H1 (conj H2 H5)).
Defined.
