(* ===== verification/ComponentRules.v ===== *)
(** * Which components the setup wizard may combine ([setup-wizard/lib/componentRules.ts])

    The wizard lets the user choose, per component, whether it is installed on
    the host.  [CARD_RULES_BY_COMPUTE] says which store modes each pair of
    Backend and Worker modes allows, [validateComponentModes] judges a whole
    selection and [applyComponentChange] repairs the stores after a change. *)

From stdpp Require Import base list strings option sets.
From S2P Require Import Prelude JsString.

Inductive ComputeMode := CInstall | CNone.
Inductive StoreMode := SInstall | SExisting | SNone.
Inductive WebUIMode := WReuse | WInstall.

#[export] Instance ComputeMode_eq_dec : EqDecision ComputeMode.
Proof. solve_decision. Defined.
#[export] Instance StoreMode_eq_dec : EqDecision StoreMode.
Proof. solve_decision. Defined.
#[export] Instance WebUIMode_eq_dec : EqDecision WebUIMode.
Proof. solve_decision. Defined.

(** The literals the modes are in the source. *)
Definition compute_text (m : ComputeMode) : string :=
  match m with CInstall => "install" | CNone => "none" end.

Record ComponentSelection := {
  backend : ComputeMode;
  worker : ComputeMode;
  postgres : StoreMode;
  redis : StoreMode;
  webui : WebUIMode
}.

#[export] Instance ComponentSelection_eq_dec : EqDecision ComponentSelection.
Proof. solve_decision. Defined.

Definition DEFAULT_COMPONENTS : ComponentSelection :=
  {| backend := CInstall; worker := CInstall; postgres := SInstall; redis := SInstall; webui := WReuse |}.

Inductive ComponentErrorCode :=
| nothing_installed
| postgres_required
| redis_required
| worker_needs_existing_stores
| unused_existing_store.

Definition ERROR_MESSAGES (c : ComponentErrorCode) : string :=
  match c with
  | nothing_installed => "Choose at least one component to install."
  | postgres_required => "Without the bundled PostgreSQL, give the database URL to use."
  | redis_required => "Without the bundled Redis, give the Redis host to use."
  | worker_needs_existing_stores =>
      "A worker installed without a backend must use that backend's existing PostgreSQL and Redis."
  | unused_existing_store =>
      "Existing PostgreSQL or Redis can only be used when installing a backend or worker."
  end.

Record CardRule (M : Type) := {
  allowed : list M;
  disabled_reasons : list (M * string);
  shared_stores_with_backend : option bool;
  requires_backend_connection : option bool;
  publishes_port_when_installed : option bool
}.
Arguments allowed {M}.
Arguments disabled_reasons {M}.

Record AllCardRules := {
  backend_rules : CardRule ComputeMode;
  worker_rules : CardRule ComputeMode;
  postgres_rules : CardRule StoreMode;
  redis_rules : CardRule StoreMode;
  webui_rules : CardRule WebUIMode
}.

Definition plain {M} (modes : list M) : CardRule M :=
  {| allowed := modes; disabled_reasons := []; shared_stores_with_backend := None;
     requires_backend_connection := None; publishes_port_when_installed := None |}.

Definition worker_card (shared : bool) (needs : option bool) : CardRule ComputeMode :=
  {| allowed := [CInstall; CNone]; disabled_reasons := []; shared_stores_with_backend := Some shared;
     requires_backend_connection := needs; publishes_port_when_installed := None |}.

Definition store_card (modes : list StoreMode) (reasons : list (StoreMode * string)) (port : option bool)
  : CardRule StoreMode :=
  {| allowed := modes; disabled_reasons := reasons; shared_stores_with_backend := None;
     requires_backend_connection := None; publishes_port_when_installed := port |}.

Definition with_backend (shared : bool) : AllCardRules :=
  {| backend_rules := plain [CInstall; CNone];
     worker_rules := worker_card shared None;
     postgres_rules := store_card [SInstall; SExisting] [(SNone, "Backend needs PostgreSQL")] None;
     redis_rules := store_card [SInstall; SExisting] [(SNone, "Backend needs Redis")] None;
     webui_rules := plain [WReuse; WInstall] |}.

Definition CARD_RULES_BY_COMPUTE : JMap.t AllCardRules :=
  [ ("install:install", with_backend true);
    ("install:none", with_backend false);
    ("none:install",
     {| backend_rules := plain [CInstall; CNone];
        worker_rules := worker_card false (Some true);
        postgres_rules := store_card [SExisting]
          [(SInstall, "Worker without a backend must use the existing backend's PostgreSQL");
           (SNone, "Worker needs PostgreSQL")] None;
        redis_rules := store_card [SExisting]
          [(SInstall, "Worker without a backend must use the existing backend's Redis");
           (SNone, "Worker needs Redis")] None;
        webui_rules := plain [WReuse; WInstall] |});
    ("none:none",
     {| backend_rules := plain [CInstall; CNone];
        worker_rules := worker_card false None;
        postgres_rules := store_card [SInstall; SNone]
          [(SExisting, "Existing PostgreSQL is only used with Backend or Worker")] (Some true);
        redis_rules := store_card [SInstall; SNone]
          [(SExisting, "Existing Redis is only used with Backend or Worker")] (Some true);
        webui_rules := plain [WReuse; WInstall] |}) ].

Definition getCardRules (b w : ComputeMode) : AllCardRules :=
  let key := compute_text b +:+ ":" +:+ compute_text w in
  JMap.get key CARD_RULES_BY_COMPUTE ?? with_backend true.

Record ValidationResult := {
  valid : bool;
  error_code : option ComponentErrorCode;
  message : option string
}.

Definition rejected (c : ComponentErrorCode) : ValidationResult :=
  {| valid := false; error_code := Some c; message := Some (ERROR_MESSAGES c) |}.

Definition is_mode {M} `{EqDecision M} (m m' : M) : bool := bool_decide (m = m').

Definition validateComponentModes (s : ComponentSelection) : ValidationResult :=
  let hasCompute := is_mode (backend s) CInstall || is_mode (worker s) CInstall in
  if hasCompute && is_mode (postgres s) SNone then rejected postgres_required
  else if hasCompute && is_mode (redis s) SNone then rejected redis_required
  else if is_mode (backend s) CNone && is_mode (worker s) CInstall &&
          (negb (is_mode (postgres s) SExisting) || negb (is_mode (redis s) SExisting))
  then rejected worker_needs_existing_stores
  else if negb hasCompute && (is_mode (postgres s) SExisting || is_mode (redis s) SExisting)
  then rejected unused_existing_store
  else
    let anyInstalled :=
      is_mode (backend s) CInstall || is_mode (worker s) CInstall ||
      is_mode (postgres s) SInstall || is_mode (redis s) SInstall || is_mode (webui s) WInstall in
    if negb anyInstalled then rejected nothing_installed
    else {| valid := true; error_code := None; message := None |}.

(** [{ ...current, [card]: nextMode }] for a card and a mode of its type. *)
Inductive card_change :=
| SetBackend (m : ComputeMode)
| SetWorker (m : ComputeMode)
| SetPostgres (m : StoreMode)
| SetRedis (m : StoreMode)
| SetWebUI (m : WebUIMode).

Definition set_card (c : card_change) (s : ComponentSelection) : ComponentSelection :=
  match c with
  | SetBackend m => {| backend := m; worker := worker s; postgres := postgres s; redis := redis s; webui := webui s |}
  | SetWorker m => {| backend := backend s; worker := m; postgres := postgres s; redis := redis s; webui := webui s |}
  | SetPostgres m => {| backend := backend s; worker := worker s; postgres := m; redis := redis s; webui := webui s |}
  | SetRedis m => {| backend := backend s; worker := worker s; postgres := postgres s; redis := m; webui := webui s |}
  | SetWebUI m => {| backend := backend s; worker := worker s; postgres := postgres s; redis := redis s; webui := m |}
  end.

Record StoreDefaults := { default_postgres : StoreMode; default_redis : StoreMode }.

Definition mode_in {M} `{EqDecision M} (m : M) (l : list M) : bool := bool_decide (m ∈ l).

(** The store mode kept, or the default when it is allowed, or the first allowed
    one; [allowed[0]] of an empty list would be [undefined]. *)
Definition coerce (r : CardRule StoreMode) (d m : StoreMode) : StoreMode :=
  if mode_in m (allowed r) then m
  else if mode_in d (allowed r) then d
  else head (allowed r) ?? m.

Definition applyComponentChange (current : ComponentSelection) (c : card_change) (defaults : StoreDefaults)
  : ComponentSelection :=
  let updated := set_card c current in
  let rules := getCardRules (backend updated) (worker updated) in
  let updated := set_card (SetPostgres (coerce (postgres_rules rules) (default_postgres defaults) (postgres updated))) updated in
  set_card (SetRedis (coerce (redis_rules rules) (default_redis defaults) (redis updated))) updated.

Definition install_defaults : StoreDefaults := {| default_postgres := SInstall; default_redis := SInstall |}.

Inductive ComputeChoice := ChooseBackend | ChooseWorker | ChooseNone.

#[export] Instance ComputeChoice_eq_dec : EqDecision ComputeChoice.
Proof. solve_decision. Defined.

Definition COMPUTE_CHOICES : list ComputeChoice := [ChooseBackend; ChooseWorker; ChooseNone].

Definition COMPUTE_LABELS (c : ComputeChoice) : string :=
  match c with ChooseBackend => "Install here" | ChooseWorker => "Worker only" | ChooseNone => "Not here" end.

Definition computeChoice (b w : ComputeMode) : ComputeChoice :=
  if is_mode b CInstall then ChooseBackend
  else if is_mode w CInstall then ChooseWorker else ChooseNone.

Definition applyComputeChoice (current : ComponentSelection) (choice : ComputeChoice) (defaults : StoreDefaults)
  : ComponentSelection :=
  let b := if is_mode choice ChooseBackend then CInstall else CNone in
  let w := if is_mode choice ChooseNone then CNone else CInstall in
  applyComponentChange (set_card (SetBackend b) current) (SetWorker w) defaults.

(** ** What the wizard relies on *)

(** The stores of a selection are among those its compute pair allows. *)
Definition stores_allowed (s : ComponentSelection) : Prop :=
  let rules := getCardRules (backend s) (worker s) in
  postgres s ∈ allowed (postgres_rules rules) /\ redis s ∈ allowed (redis_rules rules).

#[export] Instance stores_allowed_dec s : Decision (stores_allowed s).
Proof. unfold stores_allowed. apply _. Defined.

(** The five modes of a selection, enumerated. *)
Ltac all_selections s :=
  let b := fresh "b" in let w := fresh "w" in let p := fresh "p" in let r := fresh "r" in let u := fresh "u" in
  destruct s as [b w p r u]; destruct b, w, p, r, u.

Ltac by_compute := first [ done | (apply (bool_decide_unpack _); vm_compute; exact I) ].

Lemma stores_allowed_error s :
  bool_decide (stores_allowed s) =
  match error_code (validateComponentModes s) with
  | None | Some nothing_installed => true
  | Some _ => false
  end.
Proof. all_selections s; vm_compute; reflexivity. Qed.

Lemma apply_change_allowed current c defaults :
  bool_decide (stores_allowed (applyComponentChange current c defaults)) = true.
Proof.
  all_selections current; destruct defaults as [[] []], c as [[]|[]|[]|[]|[]]; vm_compute; reflexivity.
Qed.

(** The rule table and the validator agree: a selection's stores are allowed by
    the card rules of its compute pair exactly when the validator has no
    complaint other than that nothing is installed, so the wizard offers a mode
    if and only if choosing it can be valid. *)
Theorem rules_agree_with_validation s :
  stores_allowed s <->
  error_code (validateComponentModes s) = None \/
  error_code (validateComponentModes s) = Some nothing_installed.
Proof.
  rewrite <- (bool_decide_eq_true (stores_allowed s)), stores_allowed_error.
  destruct (error_code (validateComponentModes s)) as [[]|]; naive_solver.
Qed.

(** Repair after a change: whatever the selection was and whatever the
    defaults, changing one card yields a selection whose stores are allowed, so
    the only error left can be that nothing is installed; the compute and WebUI
    cards are exactly as chosen, a store that was still allowed is kept, and
    applying the same change again changes nothing. *)
Theorem change_repairs_stores current c defaults :
  let s := applyComponentChange current c defaults in
  stores_allowed s /\
  (error_code (validateComponentModes s) = None \/ error_code (validateComponentModes s) = Some nothing_installed) /\
  (backend s, worker s, webui s) =
    (backend (set_card c current), worker (set_card c current), webui (set_card c current)) /\
  (stores_allowed (set_card c current) -> s = set_card c current) /\
  applyComponentChange s c defaults = s.
Proof.
  cbv zeta. set (s := applyComponentChange current c defaults).
  assert (Ha : stores_allowed s) by (eapply bool_decide_eq_true, apply_change_allowed).
  split; [done|]. split.
  { pose proof (stores_allowed_error s) as He. rewrite (bool_decide_eq_true_2 _ Ha) in He.
    destruct (error_code (validateComponentModes s)) as [[]|]; auto; done. }
  split; [done|]. split.
  - intros [Hp Hr]. unfold s, applyComponentChange, coerce, mode_in.
    rewrite (bool_decide_eq_true_2 _ Hp).
    rewrite bool_decide_eq_true_2; by destruct (set_card c current).
  - unfold s. all_selections current; destruct defaults as [[] []], c as [[]|[]|[]|[]|[]]; vm_compute; reflexivity.
Qed.

Lemma change_repairs_stores_witness :
  applyComponentChange DEFAULT_COMPONENTS (SetWebUI WInstall) install_defaults =
  set_card (SetWebUI WInstall) DEFAULT_COMPONENTS.
Proof.
  destruct (change_repairs_stores DEFAULT_COMPONENTS (SetWebUI WInstall) install_defaults) as (_ & _ & _ & H & _).
  apply H. apply (bool_decide_unpack _). vm_compute. exact I.
Defined.

(** The combined card: reading back the choice just applied gives that
    choice, for every selection, choice and defaults, and the result is always
    allowed; [validateComponentModes] never reports a store error for it. *)
Theorem compute_choice_roundtrip current choice defaults :
  let s := applyComputeChoice current choice defaults in
  computeChoice (backend s) (worker s) = choice /\ stores_allowed s /\
  (choice <> ChooseNone -> valid (validateComponentModes s) = true).
Proof.
  cbv zeta. split; [by destruct choice|]. split; [eapply bool_decide_eq_true, apply_change_allowed|].
  all_selections current; destruct choice, defaults as [[] []]; vm_compute; done.
Qed.

Lemma compute_choice_roundtrip_witness :
  valid (validateComponentModes (applyComputeChoice DEFAULT_COMPONENTS ChooseWorker install_defaults)) = true.
Proof.
  destruct (compute_choice_roundtrip DEFAULT_COMPONENTS ChooseWorker install_defaults) as (_ & _ & H).
  apply H. discriminate.
Defined.
