(* ===== verification/Clusters.v ===== *)
(** * Clusters and connections ([api/webui.ts], [connections/lib/clusterView.ts],
      [connections/lib/lastConnection.ts])

    The records the WebUI server reports about backends, clusters and hosts, and
    the choices the WebUI makes over them: how connections are grouped, which
    member of a cluster is opened, and where the app opens. *)

From stdpp Require Import base list strings option sets.
From S2P Require Import Prelude JsString.

(** ** The server's records *)

Record BackendConnection := {
  conn_id : string;
  conn_name : string;
  base_url : string;
  tls_verify : bool;
  managed : bool;
  has_token : bool;
  trust_plugins : bool
}.

#[export] Instance BackendConnection_eq_dec : EqDecision BackendConnection.
Proof. solve_decision. Defined.

Record BackendIdentity := {
  backend_id : string;
  instance : string;
  identity_cluster_id : option string;
  identity_api_url : option string;
  identity_version : string;
  api_version : Z
}.

Record ClusterMember := {
  member_connection_id : string;
  member_name : string;
  reachable : bool;
  identity : option BackendIdentity;
  seen_at : option Z
}.

Record SuggestedClusterMember := {
  suggested_backend_id : string;
  suggested_hostname : string;
  suggested_status : string;
  suggested_last_seen : string;
  api_url : option string
}.

Record BackendCluster := {
  cluster_id : string;
  cluster_name : option string;
  connection_ids : list string;
  suggestions : list SuggestedClusterMember;
  conflicting_backend_ids : list string
}.

Record BackendClusters := {
  members : list ClusterMember;
  clusters : list BackendCluster;
  main_cluster_id : option string
}.

(** ** Grouping connections *)

Record ConnectionGroup := {
  group_cluster : option BackendCluster;
  group_connections : list BackendConnection
}.

Definition by_id (connections : list BackendConnection) : JMap.t BackendConnection :=
  JMap.of_list (map (fun c => (conn_id c, c)) connections).

Definition cluster_connections (connections : list BackendConnection) (cluster : BackendCluster)
  : list BackendConnection :=
  omap (fun id => JMap.get id (by_id connections)) (connection_ids cluster).

(** The loop over the clusters: the groups pushed and the ids placed. *)
Fixpoint place_clusters (connections : list BackendConnection) (cs : list BackendCluster)
  (placed : list string) (groups : list ConnectionGroup) : list string * list ConnectionGroup :=
  match cs with
  | [] => (placed, groups)
  | cluster :: rest =>
      match cluster_connections connections cluster with
      | [] => place_clusters connections rest placed groups
      | ms =>
          place_clusters connections rest (placed ++ map conn_id ms)
            (groups ++ [{| group_cluster := Some cluster; group_connections := ms |}])
      end
  end.

Definition groupConnections (connections : list BackendConnection) (cs : option BackendClusters)
  : list ConnectionGroup :=
  let '(placed, groups) := place_clusters connections ((clusters <$> cs) ?? []) [] [] in
  match keep (fun c => negb (str_in (conn_id c) placed)) connections with
  | [] => groups
  | alone => groups ++ [{| group_cluster := None; group_connections := alone |}]
  end.

(** ** Which member to open *)

Definition reachable_ids (ms : list ClusterMember) : list string :=
  map member_connection_id (keep reachable ms).

Definition reachableAlternative (connectionId : string) (cs : option BackendClusters) : option string :=
  match cs with
  | None => None
  | Some cs =>
      let up := reachable_ids (members cs) in
      if str_in connectionId up then None
      else
        match find_first (fun e => str_in connectionId (connection_ids e)) (clusters cs) with
        | Some cluster =>
            find_first (fun id => negb (id =s connectionId) && str_in id up) (connection_ids cluster)
        | None => None
        end
  end.

Inductive NodeLink :=
| OpenNode (connectionId : string)
| AddNode (name : string) (apiUrl : option string).

Definition nodeLink (backendId : string) (cs : option BackendClusters) : NodeLink :=
  match find_first (fun e => opt_eqb (backend_id <$> identity e) backendId) ((members <$> cs) ?? []) with
  | Some member => OpenNode (member_connection_id member)
  | None =>
      AddNode backendId
        (find_first (fun e => suggested_backend_id e =s backendId)
           (mjoin (map suggestions ((clusters <$> cs) ?? []))) ≫= api_url)
  end.

Definition pickClusterMember (cluster : BackendCluster) (cs : option BackendClusters) (preferred : option string)
  : option string :=
  let up := reachable_ids ((members <$> cs) ?? []) in
  let ids := connection_ids cluster in
  let fallback := find_first (fun id => str_in id up) ids ??? head ids in
  match truthy_opt preferred with
  | Some p => if str_in p ids && str_in p up then Some p else fallback
  | None => fallback
  end.

Definition defaultClusterName (clusterId : string) : string := "Cluster " +:+ take_str 8 clusterId.

(** ** Where the app opens *)

(** [localStorage]: [None] when the browser refuses access and it throws. *)
Definition storage := option (JMap.t string).

Definition LAST_CONNECTION_KEY : string := "usr_webui_last_connection".

Definition rememberConnection (id : string) (s : storage) : storage :=
  JMap.set LAST_CONNECTION_KEY id <$> s.

Definition lastConnection (s : storage) : option string := s ≫= JMap.get LAST_CONNECTION_KEY.

(** [id && ids.has(id)]. *)
Definition usable (ids : list string) (o : option string) : option string :=
  match truthy_opt o with Some id => if str_in id ids then Some id else None | None => None end.

Definition pickConnection (s : storage) (connections : list BackendConnection)
  (defaultConnection : option string) (mainConnections : list string) : option BackendConnection :=
  let ids := map conn_id connections in
  let last := lastConnection s in
  let lastAllowed :=
    match mainConnections with
    | [] => true
    | _ => match last with Some l => str_in l mainConnections | None => false end
    end in
  let preferred := usable ids (if lastAllowed then last else None) ??? usable ids defaultConnection in
  match preferred with
  | Some p => find_first (fun c => conn_id c =s p) connections ??? head connections
  | None => head connections
  end.

(** ** Lemmas *)

Lemma get_foldl_set {V} k (l : list (string * V)) m v :
  JMap.get k (foldl (fun m '(k, v) => JMap.set k v m) m l) = Some v ->
  (k, v) ∈ l \/ JMap.get k m = Some v.
Proof.
  revert m. induction l as [|[k' v'] l IH]; intros m; simpl; [auto|]. intros H.
  apply IH in H as [H|H]; [left; set_solver|].
  destruct (decide (k' = k)) as [->|Hne].
  - rewrite JMap.get_set_eq in H. simplify_eq. left. set_solver.
  - rewrite JMap.get_set_ne in H by done. auto.
Qed.

Lemma foldl_set_get {V} k (l : list (string * V)) m :
  k ∈ map fst l \/ is_Some (JMap.get k m) ->
  is_Some (JMap.get k (foldl (fun m '(k, v) => JMap.set k v m) m l)).
Proof.
  revert m. induction l as [|[k' v'] l IH]; intros m; simpl; [set_solver|]. intros H. apply IH.
  destruct (decide (k' = k)) as [->|Hne].
  - right. rewrite JMap.get_set_eq. eauto.
  - rewrite JMap.get_set_ne by done. set_solver.
Qed.

Lemma by_id_sound connections id c :
  JMap.get id (by_id connections) = Some c -> c ∈ connections /\ conn_id c = id.
Proof.
  intros [H|H]%get_foldl_set; [|done].
  apply list_elem_of_fmap in H as (c' & E & H). by simplify_eq.
Qed.

Lemma by_id_complete connections c :
  NoDup (map conn_id connections) -> c ∈ connections -> JMap.get (conn_id c) (by_id connections) = Some c.
Proof.
  intros Hnd Hc.
  destruct (foldl_set_get (conn_id c) (map (fun c => (conn_id c, c)) connections) JMap.empty) as [c' E].
  - left. rewrite map_map. simpl. apply list_elem_of_fmap. eauto.
  - change (JMap.get (conn_id c) (by_id connections) = Some c') in E. rewrite E.
    apply by_id_sound in E as [Hc' Eid]. f_equal.
    apply list_elem_of_lookup in Hc as [i Hi]. apply list_elem_of_lookup in Hc' as [j Hj].
    assert (i = j) as ->; [|congruence].
    eapply (NoDup_lookup _ _ _ (conn_id c) Hnd).
    + change (map conn_id connections) with (conn_id <$> connections). by rewrite list_lookup_fmap, Hi.
    + change (map conn_id connections) with (conn_id <$> connections). by rewrite list_lookup_fmap, Hj, <- Eid.
Qed.

Lemma elem_of_cluster_connections connections cluster c :
  NoDup (map conn_id connections) ->
  c ∈ cluster_connections connections cluster <-> c ∈ connections /\ conn_id c ∈ connection_ids cluster.
Proof.
  intros Hnd. unfold cluster_connections. rewrite list_elem_of_omap. split.
  - intros (id & Hid & Hg). by apply by_id_sound in Hg as [? ->].
  - intros [Hc Hid]. exists (conn_id c). split; [done|]. by apply by_id_complete.
Qed.

(** What the loop over the clusters has placed. *)
Lemma place_clusters_spec connections cs placed groups :
  let '(placed', groups') := place_clusters connections cs placed groups in
  exists new, groups' = groups ++ new /\
    (forall g, g ∈ new -> exists cluster, cluster ∈ cs /\ group_cluster g = Some cluster /\
       group_connections g = cluster_connections connections cluster /\ group_connections g <> []) /\
    (forall cluster, cluster ∈ cs -> cluster_connections connections cluster <> [] ->
       {| group_cluster := Some cluster; group_connections := cluster_connections connections cluster |} ∈ new) /\
    (forall id, id ∈ placed' <-> id ∈ placed \/ exists g c, g ∈ new /\ c ∈ group_connections g /\ conn_id c = id).
Proof.
  revert placed groups. induction cs as [|cluster cs IH]; intros placed groups; simpl.
  - exists []. rewrite app_nil_r. repeat split; [set_solver..|]. intros [|(g & c & H & _)]; [done|set_solver].
  - destruct (cluster_connections connections cluster) as [|m ms] eqn:E.
    + specialize (IH placed groups). destruct (place_clusters _ _ _ _) as [placed' groups'].
      destruct IH as (new & -> & H1 & H2 & H3). exists new. repeat split.
      * intros g Hg. destruct (H1 g Hg) as (cl & ? & ?). exists cl. set_solver.
      * intros cl [->|Hcl]%elem_of_cons Hne; [done|auto].
      * apply H3.
      * apply H3.
    + specialize (IH (placed ++ map conn_id (m :: ms))
        (groups ++ [{| group_cluster := Some cluster; group_connections := m :: ms |}])).
      destruct (place_clusters _ _ _ _) as [placed' groups']. destruct IH as (new & -> & H1 & H2 & H3).
      set (g0 := {| group_cluster := Some cluster; group_connections := m :: ms |}) in *.
      exists (g0 :: new). rewrite <- app_assoc. repeat split.
      * intros g [->|Hg]%elem_of_cons; [exists cluster; set_solver|].
        destruct (H1 g Hg) as (cl & ? & ?). exists cl. set_solver.
      * intros cl [->|Hcl]%elem_of_cons Hne; [rewrite E; set_solver|]. right. auto.
      * intros [[Hp|Hp]%elem_of_app|(g & c & Hg & Hc)]%H3; [auto| |].
        -- apply list_elem_of_fmap in Hp as (c & -> & Hc). right. exists g0, c. set_solver.
        -- right. exists g, c. set_solver.
      * intros [Hp|(g & c & Hg & Hc & Hid)]; apply H3; [set_solver|].
        apply elem_of_cons in Hg as [->|Hg]; [left|right; eauto].
        apply elem_of_app. right. apply list_elem_of_fmap. eauto.
Qed.

(** Grouping loses and invents nothing: with distinct connection ids, every
    connection is in some group; every grouped connection is one of the given
    ones; a cluster's group holds exactly its known members and appears exactly
    for the clusters that have one; and the stand-alone group is exactly the
    connections no cluster lists.  No group is empty. *)
Theorem groups_cover_connections connections cs :
  NoDup (map conn_id connections) ->
  let groups := groupConnections connections cs in
  (forall c, c ∈ connections <-> exists g, g ∈ groups /\ c ∈ group_connections g) /\
  (forall g, g ∈ groups -> group_connections g <> []) /\
  (forall g cluster c, g ∈ groups -> group_cluster g = Some cluster ->
     (c ∈ group_connections g <-> c ∈ connections /\ conn_id c ∈ connection_ids cluster)) /\
  (forall g c, g ∈ groups -> group_cluster g = None ->
     (c ∈ group_connections g <-> c ∈ connections /\
        forall cluster, cluster ∈ (clusters <$> cs) ?? [] -> conn_id c ∉ connection_ids cluster)).
Proof.
  intros Hnd. cbv zeta. unfold groupConnections.
  pose proof (place_clusters_spec connections ((clusters <$> cs) ?? []) [] []) as Hp.
  destruct (place_clusters _ _ _ _) as [placed groups]. destruct Hp as (new & Eg & H1 & H2 & H3).
  simpl in Eg. subst groups.
  set (alone := keep (fun c => negb (str_in (conn_id c) placed)) connections).
  assert (Hplaced : forall c, c ∈ connections ->
     (conn_id c ∈ placed <-> exists cluster, cluster ∈ (clusters <$> cs) ?? [] /\ conn_id c ∈ connection_ids cluster)).
  { intros c Hc. rewrite H3. split.
    - intros [?|(g & c' & Hg & Hc' & Hid)]; [set_solver|].
      destruct (H1 g Hg) as (cl & Hcl & _ & Egc & _). rewrite Egc in Hc'.
      apply elem_of_cluster_connections in Hc' as [_ ?]; [|done]. exists cl. by rewrite <- Hid.
    - intros (cl & Hcl & Hid). right.
      assert (Hm : c ∈ cluster_connections connections cl) by (by apply elem_of_cluster_connections).
      eexists _, c. split; [apply (H2 cl Hcl)|done]. intros E. rewrite E in Hm. set_solver. }
  assert (Halone : forall c, c ∈ alone <-> c ∈ connections /\ conn_id c ∉ placed).
  { intros c. unfold alone. rewrite elem_of_keep, negb_true_iff, str_in_not. done. }
  set (res := match alone with [] => new | b :: l => _ end).
  assert (Hgroups : forall g, g ∈ res <->
     g ∈ new \/ (alone <> [] /\ g = {| group_cluster := None; group_connections := alone |})).
  { intros g. unfold res. destruct alone; [naive_solver|]. rewrite elem_of_app, list_elem_of_singleton. naive_solver. }
  clearbody res.
  setoid_rewrite Hgroups. split; [|split; [|split]].
  - intros c. split.
    + intros Hc. destruct (decide (conn_id c ∈ placed)) as [Hin|Hout].
      * apply Hplaced in Hin as (cl & Hcl & Hid); [|done].
        assert (Hm : c ∈ cluster_connections connections cl) by (by apply elem_of_cluster_connections).
        eexists. split; [left; apply (H2 cl Hcl)|done]. intros E. rewrite E in Hm. set_solver.
      * assert (Ha : c ∈ alone) by (by apply Halone).
        eexists. split; [right; split; [|done]|done]. intros E. rewrite E in Ha. set_solver.
    + intros (g & [Hg|[_ ->]] & Hc); [|by apply Halone in Hc as [? _]].
      destruct (H1 g Hg) as (cl & _ & _ & Egc & _). rewrite Egc in Hc.
      by apply elem_of_cluster_connections in Hc as [? _].
  - intros g [Hg|[Hne ->]]; [|done]. by destruct (H1 g Hg) as (cl & _ & _ & _ & ?).
  - intros g cluster c [Hg|[_ ->]] Eg; [|done].
    destruct (H1 g Hg) as (cl & _ & Ecl & Egc & _). rewrite Egc. simplify_eq.
    by apply elem_of_cluster_connections.
  - intros g c [Hg|[_ ->]] Eg; [destruct (H1 g Hg) as (? & _ & Ecl & _); congruence|].
    simpl. rewrite Halone. split; intros [Hc Hout]; (split; [done|]).
    + intros cl Hcl Hid. apply Hout, Hplaced; eauto.
    + intros (cl & Hcl & Hid)%Hplaced; [|done]. by eapply Hout.
Qed.

Definition demo_connection (id : string) : BackendConnection :=
  {| conn_id := id; conn_name := id; base_url := "http://" +:+ id; tls_verify := true; managed := false;
     has_token := true; trust_plugins := false |}.
Definition demo_member (id : string) (up : bool) : ClusterMember :=
  {| member_connection_id := id; member_name := id; reachable := up; identity := None; seen_at := None |}.
Definition demo_cluster (id : string) (ids : list string) : BackendCluster :=
  {| cluster_id := id; cluster_name := None; connection_ids := ids; suggestions := []; conflicting_backend_ids := [] |}.
Definition demo_clusters : BackendClusters :=
  {| members := [demo_member "a" false; demo_member "b" true];
     clusters := [demo_cluster "k" ["a"; "b"; "x"]]; main_cluster_id := None |}.

Lemma groups_cover_connections_witness :
  exists g, g ∈ groupConnections [demo_connection "a"; demo_connection "c"] (Some demo_clusters) /\
    demo_connection "c" ∈ group_connections g.
Proof.
  destruct (groups_cover_connections [demo_connection "a"; demo_connection "c"] (Some demo_clusters)) as [H _].
  - apply (bool_decide_unpack _). vm_compute. exact I.
  - apply H. apply (bool_decide_unpack _). vm_compute. exact I.
Defined.

Lemma reachable_ids_spec id ms :
  id ∈ reachable_ids ms <-> exists m, m ∈ ms /\ reachable m = true /\ member_connection_id m = id.
Proof.
  unfold reachable_ids. rewrite list_elem_of_fmap. setoid_rewrite elem_of_keep. naive_solver.
Qed.

(** Opening a cluster: the member picked is one of the cluster's connections,
    it is the preferred one whenever that one is in the cluster and reachable, it
    is reachable whenever any member is, and a member is found for every cluster
    that has connections. *)
Theorem pick_cluster_member_spec cluster cs preferred :
  let up := reachable_ids ((members <$> cs) ?? []) in
  let picked := pickClusterMember cluster cs preferred in
  (forall p, preferred = Some p -> p <> "" -> p ∈ connection_ids cluster -> p ∈ up -> picked = Some p) /\
  (forall id, picked = Some id -> id ∈ connection_ids cluster) /\
  ((exists id, id ∈ connection_ids cluster /\ id ∈ up) -> exists id, picked = Some id /\ id ∈ up) /\
  (picked = None <-> connection_ids cluster = []).
Proof.
  cbv zeta. unfold pickClusterMember. set (up := reachable_ids _). set (ids := connection_ids cluster).
  set (fallback := _ ??? head ids).
  assert (Hfin : forall id, fallback = Some id -> id ∈ ids).
  { unfold fallback. destruct (find_first _ ids) as [x|] eqn:E; simpl; intros id Hid; simplify_eq.
    - by apply find_first_Some in E as [? _].
    - destruct ids; simplify_eq/=. set_solver. }
  assert (Hfup : (exists id, id ∈ ids /\ id ∈ up) -> exists id, fallback = Some id /\ id ∈ up).
  { intros (id & Hid & Hup). unfold fallback. destruct (find_first _ ids) as [x|] eqn:E.
    - exists x. split; [done|]. apply find_first_Some in E as [_ Hx]. by apply str_in_iff.
    - rewrite find_first_None in E. specialize (E id Hid). apply str_in_not in E. done. }
  assert (Hfn : fallback = None <-> ids = []).
  { unfold fallback. destruct ids as [|x l]; [done|]. destruct (find_first _ _); done. }
  destruct (truthy_opt preferred) as [p|] eqn:Ep.
  - apply truthy_opt_Some in Ep as [-> Hne].
    destruct (str_in p ids && str_in p up) eqn:E; bool_simpl.
    + repeat split; [naive_solver|naive_solver|naive_solver|done|]. intros E. rewrite E in H. set_solver.
    + repeat split; [|done|done|apply Hfn|apply Hfn].
      intros p' [= <-] _ Hin Hup. apply str_in_iff in Hin, Hup. by rewrite Hin, Hup in E.
  - repeat split; [|done|done|apply Hfn|apply Hfn].
    intros p -> Hne. destruct p; done.
Qed.

Lemma pick_cluster_member_spec_witness :
  exists id, pickClusterMember (demo_cluster "k" ["a"; "b"; "x"]) (Some demo_clusters) (Some "a") = Some id /\ id <> "a".
Proof.
  destruct (pick_cluster_member_spec (demo_cluster "k" ["a"; "b"; "x"]) (Some demo_clusters) (Some "a"))
    as (_ & _ & H & _).
  destruct H as (id & E & Hup).
  - exists "b". split; apply (bool_decide_unpack _); vm_compute; exact I.
  - exists id. split; [exact E|]. intros ->. revert Hup. apply (bool_decide_unpack _). vm_compute. exact I.
Defined.

(** Failing over: an alternative is offered only while the connection itself
    is not reachable, and it is another, reachable connection of the first cluster
    that lists it; when that cluster has one, one is offered. *)
Theorem reachable_alternative_spec connectionId cs cluster :
  find_first (fun e => str_in connectionId (connection_ids e)) (clusters cs) = Some cluster ->
  let up := reachable_ids (members cs) in
  (forall alt, reachableAlternative connectionId (Some cs) = Some alt ->
     connectionId ∉ up /\ alt <> connectionId /\ alt ∈ up /\ alt ∈ connection_ids cluster) /\
  (reachableAlternative connectionId (Some cs) = None <->
     connectionId ∈ up \/ forall id, id ∈ connection_ids cluster -> id ∈ up -> id = connectionId).
Proof.
  intros Hc. cbv zeta. unfold reachableAlternative. rewrite Hc. set (up := reachable_ids _).
  destruct (str_in connectionId up) eqn:E; bool_simpl; [naive_solver|]. split.
  - intros alt (Hin & Hp)%find_first_Some. apply andb_true_iff in Hp as [Hne Hup].
    apply negb_true_iff, str_eqb_neq in Hne. apply str_in_iff in Hup. done.
  - rewrite find_first_None. split.
    + intros H. right. intros id Hid Hup. specialize (H id Hid).
      apply str_in_iff in Hup. rewrite Hup, andb_true_r in H. by apply negb_false_iff, str_eqb_eq in H.
    + intros [|H] id Hid; [done|]. destruct (str_in id up) eqn:Eu; [|by rewrite andb_false_r].
      rewrite andb_true_r. apply negb_false_iff, str_eqb_eq. apply H; [done|]. by apply str_in_iff.
Qed.

Lemma reachable_alternative_spec_witness :
  exists alt, reachableAlternative "a" (Some demo_clusters) = Some alt /\ alt <> "a".
Proof.
  exists "b". split; [vm_compute; reflexivity|].
  destruct (reachable_alternative_spec "a" demo_clusters (demo_cluster "k" ["a"; "b"; "x"])) as [H _];
    [vm_compute; reflexivity|].
  apply (H "b"). vm_compute. reflexivity.
Defined.

(** Where the app opens: a connection is chosen whenever there is one; the
    last connection used wins when it still exists and, if the WebUI has a main
    cluster, belongs to it; otherwise the default wins when it exists; and a
    connection remembered is the one reopened, unless storage is refused. *)
Theorem pick_connection_spec s connections defaultConnection mainConnections :
  let picked := pickConnection s connections defaultConnection mainConnections in
  let ids := map conn_id connections in
  let eligible l := l <> "" /\ l ∈ ids /\ (mainConnections = [] \/ l ∈ mainConnections) in
  (picked = None <-> connections = []) /\
  (forall c, picked = Some c -> c ∈ connections) /\
  (forall l, lastConnection s = Some l -> eligible l -> exists c, picked = Some c /\ conn_id c = l) /\
  (forall d, (forall l, lastConnection s = Some l -> ~ eligible l) ->
     defaultConnection = Some d -> d <> "" -> d ∈ ids -> exists c, picked = Some c /\ conn_id c = d) /\
  (forall id m, s = Some m -> eligible id ->
     exists c, pickConnection (rememberConnection id s) connections defaultConnection mainConnections = Some c /\
       conn_id c = id).
Proof.
  cbv zeta. set (ids := map conn_id connections).
  assert (Hfind : forall id, id ∈ ids ->
     exists c, find_first (fun c => conn_id c =s id) connections = Some c /\ conn_id c = id).
  { intros id (c & -> & Hc)%list_elem_of_fmap.
    destruct (find_first _ connections) as [c'|] eqn:E.
    - exists c'. split; [done|]. apply find_first_Some in E as [_ E]. by apply str_eqb_eq.
    - rewrite find_first_None in E. specialize (E c Hc). by rewrite str_eqb_refl in E. }
  assert (Hlast : forall s' l, lastConnection s' = Some l ->
     l <> "" -> l ∈ ids -> (mainConnections = [] \/ l ∈ mainConnections) ->
     exists c, pickConnection s' connections defaultConnection mainConnections = Some c /\ conn_id c = l).
  { intros s' l Hl Hne Hin Hmain. unfold pickConnection. rewrite Hl. fold ids.
    assert (Ha : match mainConnections with [] => true | _ => str_in l mainConnections end = true).
    { destruct mainConnections; [done|]. apply str_in_iff. destruct Hmain; [done|done]. }
    rewrite Ha. unfold usable at 1. rewrite (proj2 (truthy_opt_Some (Some l) l)) by done.
    rewrite (proj2 (str_in_iff l ids)) by done. simpl.
    destruct (Hfind l Hin) as (c & -> & Hc). eauto. }
  split; [|split; [|split; [|split]]].
  - unfold pickConnection. destruct connections as [|c cs]; [split; [done|]; intros _|split; [|done]].
    + by destruct (_ ??? _).
    + destruct (_ ??? _) as [p|]; [|done]. by destruct (find_first _ _).
  - unfold pickConnection. intros c. destruct (_ ??? _) as [p|].
    + destruct (find_first _ connections) as [c'|] eqn:E; simpl.
      * intros [= <-]. by apply find_first_Some in E as [? _].
      * destruct connections; simpl; intros; simplify_eq. set_solver.
    + destruct connections; simpl; intros; simplify_eq. set_solver.
  - intros l Hl (Hne & Hin & Hmain). by apply Hlast.
  - intros d Hno -> Hne Hin. unfold pickConnection. fold ids.
    set (allowed := match mainConnections with [] => true | _ => _ end).
    assert (Hu : usable ids (if allowed then lastConnection s else None) = None).
    { destruct allowed eqn:Ea; [|done]. destruct (lastConnection s) as [l|] eqn:El; [|done].
      unfold usable. destruct (truthy_opt (Some l)) as [l'|] eqn:Et; [|done].
      apply truthy_opt_Some in Et as [[= <-] Hl]. destruct (str_in l ids) eqn:Ein; [|done].
      exfalso. apply (Hno l eq_refl). apply str_in_iff in Ein. repeat split; [done..|].
      unfold allowed in Ea. destruct mainConnections; [by left|right]. by apply str_in_iff. }
    rewrite Hu. unfold usable. rewrite (proj2 (truthy_opt_Some (Some d) d)) by done.
    rewrite (proj2 (str_in_iff d ids)) by done. simpl.
    destruct (Hfind d Hin) as (c & -> & Hc). eauto.
  - intros id m -> (Hne & Hin & Hmain). apply Hlast; [|done..].
    unfold rememberConnection, lastConnection. simpl. apply JMap.get_set_eq.
Qed.

Lemma pick_connection_spec_witness :
  exists c, pickConnection (rememberConnection "b" (Some [])) [demo_connection "a"; demo_connection "b"]
      (Some "a") ["b"] = Some c /\ conn_id c = "b".
Proof.
  destruct (pick_connection_spec (Some []) [demo_connection "a"; demo_connection "b"] (Some "a") ["b"])
    as (_ & _ & _ & _ & H).
  apply (H "b" []); [reflexivity|]. split; [discriminate|].
  split; [|right]; apply (bool_decide_unpack _); vm_compute; exact I.
Defined.
