(* ===== verification/Architecture.v ===== *)
(** * The architecture diagram of the setup wizard
      ([setup-wizard/lib/architecturePlan.ts])

    [buildDiagram] draws a planned install into the clusters the WebUI manages;
    [buildTiers] lays the clusters out by service.  The objects both build are
    fresh, so the in-place updates of the source ([target.isTarget = true],
    [same.clusters = ...]) are updates of the first matching element here. *)

From stdpp Require Import base list strings option sets.
From S2P Require Import Prelude JsString Clusters.

Inductive NodeRole := RBackend | RWorkers | RWebUI | RPostgres | RRedis.
Inductive NodeState := Healthy | Warning | Offline | Unknown.

#[export] Instance NodeRole_eq_dec : EqDecision NodeRole.
Proof. solve_decision. Defined.
#[export] Instance NodeState_eq_dec : EqDecision NodeState.
Proof. solve_decision. Defined.

Definition role_text (r : NodeRole) : string :=
  match r with
  | RBackend => "backend" | RWorkers => "workers" | RWebUI => "webui"
  | RPostgres => "postgres" | RRedis => "redis"
  end.

Definition role_eqb (r r' : NodeRole) : bool := bool_decide (r = r').
Definition is_store (r : NodeRole) : bool := role_eqb r RPostgres || role_eqb r RRedis.

Record ClusterNode := {
  node_role : NodeRole;
  node_name : string;
  node_state : NodeState;
  node_version : option string;
  node_detail : option string;
  node_last_seen : option string;
  node_backend_id : option string;
  node_client_id : option string;
  node_connection_id : option string;
  node_is_self : bool;
  node_installed_only : bool
}.

Record ClusterHost := {
  chost_key : string;
  chost_name : string;
  chost_address : option string;
  chost_roles : list NodeRole;
  chost_state : NodeState;
  chost_nodes : list ClusterNode;
  chost_deployment_id : option string;
  chost_local_services : option bool
}.

Record ClusterHosts := {
  hosts_cluster_id : string;
  hosts_name : string;
  hosts_list : list ClusterHost;
  hosts_answered_by : option string;
  hosts_error : option string
}.

Record Installs := {
  i_backend : bool;
  i_workers : bool;
  i_webui : bool;
  i_postgres : bool;
  i_redis : bool
}.

Inductive PlanTarget :=
| TExisting (clusterId connectionId : option string)
| TNew (name : string)
| TNone.

Record PlannedInstall := {
  plan_hostName : string;
  plan_local : bool;
  plan_address : option string;
  plan_installs : Installs;
  plan_postgres : option string;
  plan_redis : option string;
  plan_target : PlanTarget
}.

Record DiagramNode := {
  dn_role : NodeRole;
  dn_identifier : option string;
  dn_state : option NodeState;
  dn_isSelf : bool
}.

Record DiagramHost := DHost {
  dh_key : string;
  dh_name : string;
  dh_address : option string;
  dh_roles : list NodeRole;
  dh_nodes : list DiagramNode;
  dh_isNew : bool
}.

Record DiagramService := {
  ds_label : string;
  ds_isNew : bool;
  ds_host : option string
}.

Record DiagramCluster := DCluster {
  dc_key : string;
  dc_name : string;
  dc_hosts : list DiagramHost;
  dc_postgres : option DiagramService;
  dc_redis : option DiagramService;
  dc_isTarget : bool;
  dc_isNew : bool
}.

Definition nodeIdentifier (n : ClusterNode) : option string :=
  if role_eqb (node_role n) RWebUI then
    Some (node_client_id n ?? node_connection_id n ?? node_name n)
  else if is_store (node_role n) then Some (node_detail n ?? node_name n)
  else Some (node_backend_id n ?? node_client_id n ?? node_name n).

(** [installs[role]]. *)
Definition installs (i : Installs) (r : NodeRole) : bool :=
  match r with
  | RBackend => i_backend i | RWorkers => i_workers i | RWebUI => i_webui i
  | RPostgres => i_postgres i | RRedis => i_redis i
  end.

(** The first host that runs the store, and its node. *)
Fixpoint service (hs : list ClusterHost) (role : NodeRole) : option DiagramService :=
  match hs with
  | [] => None
  | h :: r =>
      match find_first (fun n => role_eqb (node_role n) role) (chost_nodes h) with
      | Some n => Some {| ds_label := node_detail n ?? node_name n; ds_isNew := false; ds_host := Some (chost_name h) |}
      | None => service r role
      end
  end.

Definition draw_node (n : ClusterNode) : DiagramNode :=
  {| dn_role := node_role n; dn_identifier := nodeIdentifier n; dn_state := Some (node_state n);
     dn_isSelf := node_is_self n |}.

Definition draw_host (h : ClusterHost) : DiagramHost :=
  {| dh_key := chost_key h; dh_name := chost_name h; dh_address := chost_address h;
     dh_roles := keep (fun r => negb (is_store r)) (chost_roles h);
     dh_nodes := map draw_node (keep (fun n => negb (is_store (node_role n))) (chost_nodes h));
     dh_isNew := false |}.

Definition has_roles (h : DiagramHost) : bool := match dh_roles h with [] => false | _ => true end.

Definition draw_cluster (hosts : JMap.t (option ClusterHosts)) (c : BackendCluster) : DiagramCluster :=
  let described := mjoin (JMap.get (cluster_id c) hosts) in
  let hs := (hosts_list <$> described) ?? [] in
  {| dc_key := cluster_id c;
     dc_name := str_or ((hosts_name <$> described) ?? "")
                  (str_or (cluster_name c ?? "") ("Cluster " +:+ take_str 8 (cluster_id c)));
     dc_hosts := keep has_roles (map draw_host hs);
     dc_postgres := service hs RPostgres;
     dc_redis := service hs RRedis;
     dc_isTarget := false;
     dc_isNew := false |}.

Definition existingClusters (cs : list BackendCluster) (hosts : JMap.t (option ClusterHosts))
  : list DiagramCluster := map (draw_cluster hosts) cs.

(** Update the first element that satisfies a predicate. *)
Fixpoint update_first {A} (p : A -> bool) (f : A -> A) (l : list A) : list A :=
  match l with
  | [] => []
  | x :: r => if p x then f x :: r else x :: update_first p f r
  end.

Definition planned_roles (i : Installs) : list NodeRole := keep (installs i) [RBackend; RWorkers; RWebUI].

Definition planned_host (plan : PlannedInstall) : DiagramHost :=
  {| dh_key := "new-host"; dh_name := plan_hostName plan; dh_address := plan_address plan;
     dh_roles := planned_roles (plan_installs plan); dh_nodes := []; dh_isNew := true |}.

Definition planned_service (plan : PlannedInstall) (installed : bool) (existing : option string)
  : option DiagramService :=
  if installed then
    Some {| ds_label := "on " +:+ plan_hostName plan; ds_isNew := true; ds_host := Some (plan_hostName plan) |}
  else match truthy_opt existing with
       | Some e => Some {| ds_label := e; ds_isNew := false; ds_host := None |}
       | None => None
       end.

Definition planned_postgres (p : PlannedInstall) := planned_service p (i_postgres (plan_installs p)) (plan_postgres p).
Definition planned_redis (p : PlannedInstall) := planned_service p (i_redis (plan_installs p)) (plan_redis p).

(** [host.address === plan.address] when the plan has an address. *)
Definition same_host (plan : PlannedInstall) (h : DiagramHost) : bool :=
  match truthy_opt (plan_address plan) with Some a => opt_eqb (dh_address h) a | None => false end.

Definition join_host (plan : PlannedInstall) (hs : list DiagramHost) : list DiagramHost :=
  match find_first (same_host plan) hs with
  | Some _ =>
      update_first (same_host plan)
        (fun h => DHost (dh_key h) (dh_name h) (dh_address h)
                    (uniq (dh_roles h ++ planned_roles (plan_installs plan))) (dh_nodes h) true) hs
  | None => hs ++ [planned_host plan]
  end.

(** [services.x?.isNew ? services.x : target.x ?? services.x]. *)
Definition join_service (planned current : option DiagramService) : option DiagramService :=
  match planned with
  | Some s => if ds_isNew s then planned else current ??? planned
  | None => current
  end.

Definition join_cluster (plan : PlannedInstall) (c : DiagramCluster) : DiagramCluster :=
  DCluster (dc_key c) (dc_name c) (join_host plan (dc_hosts c))
    (join_service (planned_postgres plan) (dc_postgres c))
    (join_service (planned_redis plan) (dc_redis c)) true (dc_isNew c).

Definition target_id (cs : list BackendCluster) (clusterId connectionId : option string) : option string :=
  clusterId ???
  (cluster_id <$> find_first (fun c => match truthy_opt connectionId with
                                       | Some id => str_in id (connection_ids c)
                                       | None => false
                                       end) cs).

Definition new_cluster (plan : PlannedInstall) (key name : string) (isNew : bool) : DiagramCluster :=
  DCluster key name [planned_host plan] (planned_postgres plan) (planned_redis plan) true isNew.

Definition without_roles (h : DiagramHost) : DiagramHost :=
  DHost (dh_key h) (dh_name h) (dh_address h) [] (dh_nodes h) (dh_isNew h).

Definition buildDiagram (plan : option PlannedInstall) (cs : list BackendCluster)
  (hosts : JMap.t (option ClusterHosts)) : list DiagramCluster * option DiagramHost :=
  let drawn := existingClusters cs hosts in
  match plan with
  | None => (drawn, None)
  | Some plan =>
      match plan_target plan with
      | TNone => (drawn, Some (without_roles (planned_host plan)))
      | TNew name => (drawn ++ [new_cluster plan "new-cluster" (str_or name "New cluster") true], None)
      | TExisting clusterId connectionId =>
          let targetId := target_id cs clusterId connectionId in
          let is_target c := match targetId with Some t => dc_key c =s t | None => false end in
          match find_first is_target drawn with
          | None => (drawn ++ [new_cluster plan "joined-cluster" "Existing cluster" false], None)
          | Some _ => (update_first is_target (join_cluster plan) drawn, None)
          end
      end
  end.

(** ** Tiers *)

Record TierCard := Card {
  tc_key : string;
  tc_role : NodeRole;
  tc_host : string;
  tc_address : option string;
  tc_clusters : list string;
  tc_identifier : option string;
  tc_state : option NodeState;
  tc_isNew : bool;
  tc_isSelf : bool
}.

Record DiagramTiers := Tiers {
  webuis : list TierCard;
  backends : list TierCard;
  workers : list TierCard;
  data : list TierCard
}.

(** The card merged into one already drawn for the same service. *)
Definition merge_card (card same : TierCard) : TierCard :=
  Card (tc_key same) (tc_role same) (tc_host same) (tc_address same)
    (uniq (tc_clusters same ++ tc_clusters card)) (tc_identifier same) (tc_state same)
    (tc_isNew same || tc_isNew card) (tc_isSelf same).

Definition add_to_tier (card : TierCard) (tier : list TierCard) : list TierCard :=
  let same c := tc_key c =s tc_key card in
  match find_first same tier with
  | Some _ => update_first same (merge_card card) tier
  | None => tier ++ [card]
  end.

Definition add_card (t : DiagramTiers) (card : TierCard) : DiagramTiers :=
  match tc_role card with
  | RWebUI => Tiers (add_to_tier card (webuis t)) (backends t) (workers t) (data t)
  | RBackend => Tiers (webuis t) (add_to_tier card (backends t)) (workers t) (data t)
  | RWorkers => Tiers (webuis t) (backends t) (add_to_tier card (workers t)) (data t)
  | RPostgres | RRedis => Tiers (webuis t) (backends t) (workers t) (add_to_tier card (data t))
  end.

(** The services a host shows: the reported ones, else one per role. *)
Definition shown_nodes (h : DiagramHost) : list DiagramNode :=
  match dh_nodes h with
  | [] => map (fun r => {| dn_role := r; dn_identifier := None; dn_state := None; dn_isSelf := false |}) (dh_roles h)
  | ns => ns
  end.

Definition node_card (c : DiagramCluster) (h : DiagramHost) (n : DiagramNode) : TierCard :=
  Card (role_text (dn_role n) +:+ ":" +:+ dh_key h +:+ ":" +:+ (dn_identifier n ?? ""))
    (dn_role n) (dh_name h) (dh_address h) [dc_name c] (dn_identifier n) (dn_state n) (dh_isNew h) (dn_isSelf n).

Definition service_card (c : DiagramCluster) (role : NodeRole) (s : DiagramService) : TierCard :=
  Card (role_text role +:+ ":" +:+ ds_label s) role (ds_host s ?? "external") None [dc_name c]
    (Some (ds_label s)) None (ds_isNew s) false.

Definition service_cards (c : DiagramCluster) : list TierCard :=
  omap (fun '(role, s) => service_card c role <$> s) [(RPostgres, dc_postgres c); (RRedis, dc_redis c)].

(** The cards of a cluster, in the order the loops add them. *)
Definition cluster_cards (c : DiagramCluster) : list TierCard :=
  mjoin (map (fun h => map (node_card c h) (shown_nodes h)) (dc_hosts c)) ++ service_cards c.

Definition standalone_cards (standalone : option DiagramHost) (plan : option PlannedInstall) : list TierCard :=
  match standalone with
  | None => []
  | Some h =>
      map (fun role => Card (role_text role +:+ ":standalone") role (dh_name h) (dh_address h) []
                         (Some "for other hosts") None true false)
        (keep (fun role => match plan with Some p => installs (plan_installs p) role | None => false end)
           [RPostgres; RRedis])
  end.

Definition self_card (cs : list DiagramCluster) : TierCard :=
  Card "webui:self" RWebUI "This WebUI" None (map dc_name (keep (fun c => negb (dc_isNew c)) cs)) None None false true.

Definition buildTiers (cs : list DiagramCluster) (standalone : option DiagramHost) (plan : option PlannedInstall)
  : DiagramTiers :=
  let tiers := foldl add_card (Tiers [] [] [] []) (mjoin (map cluster_cards cs) ++ standalone_cards standalone plan) in
  if some tc_isSelf (webuis tiers) then tiers
  else Tiers (self_card cs :: webuis tiers) (backends tiers) (workers tiers) (data tiers).

(** * What the architecture diagram shows *)

(** ** Updating the first match *)

Lemma update_first_none {A} (p : A -> bool) f l : find_first p l = None -> update_first p f l = l.
Proof.
  induction l as [|x l IH]; [done|]. simpl. destruct (p x); [done|]. intros H. by rewrite IH.
Qed.

Lemma update_first_split {A} (p : A -> bool) f l x :
  find_first p l = Some x ->
  exists l1 l2, l = l1 ++ x :: l2 /\ update_first p f l = l1 ++ f x :: l2 /\
    (forall y, y ∈ l1 -> p y = false) /\ p x = true.
Proof.
  induction l as [|y l IH]; simpl; [done|]. destruct (p y) eqn:E; intros H.
  - simplify_eq. exists [], l. set_solver.
  - destruct (IH H) as (l1 & l2 & -> & -> & H1 & H2). exists (y :: l1), l2. repeat split; [|done].
    intros z [->|Hz]%elem_of_cons; auto.
Qed.

(** ** The diagram *)

(** Everything of a host but its new roles and its mark. *)
Definition keeps_host (h h' : DiagramHost) : Prop :=
  dh_key h' = dh_key h /\ dh_name h' = dh_name h /\ dh_address h' = dh_address h /\ dh_nodes h' = dh_nodes h /\
  forall r, r ∈ dh_roles h -> r ∈ dh_roles h'.

Lemma join_host_keeps plan hs h : h ∈ hs -> exists h', h' ∈ join_host plan hs /\ keeps_host h h'.
Proof.
  intros Hh. unfold join_host, keeps_host. destruct (find_first (same_host plan) hs) as [h0|] eqn:E.
  - eapply update_first_split in E as (l1 & l2 & -> & -> & _).
    apply elem_of_app in Hh as [Hh|[->|Hh]%elem_of_cons].
    + exists h. set_solver.
    + eexists. split; [apply elem_of_app; right; apply elem_of_cons; left; reflexivity|].
      simpl. repeat split. intros r Hr. rewrite elem_of_uniq. set_solver.
    + exists h. set_solver.
  - exists h. set_solver.
Qed.

Lemma join_host_draws plan hs :
  exists h, h ∈ join_host plan hs /\ dh_isNew h = true /\
    forall r, r ∈ planned_roles (plan_installs plan) -> r ∈ dh_roles h.
Proof.
  unfold join_host. destruct (find_first (same_host plan) hs) as [h0|] eqn:E.
  - eapply update_first_split in E as (l1 & l2 & -> & -> & _).
    eexists. split; [apply elem_of_app; right; apply elem_of_cons; left; reflexivity|].
    simpl. split; [done|]. intros r Hr. rewrite elem_of_uniq. set_solver.
  - exists (planned_host plan). set_solver.
Qed.

Lemma existing_not_target cs hosts c : c ∈ existingClusters cs hosts -> dc_isTarget c = false.
Proof. by intros (b & -> & _)%list_elem_of_fmap. Qed.

(** [t] shows the plan: it is the target, and one of its hosts is new and runs
    every service the plan puts on the host. *)
Definition draws_plan (plan : PlannedInstall) (t : DiagramCluster) : Prop :=
  dc_isTarget t = true /\
  exists h, h ∈ dc_hosts t /\ dh_isNew h = true /\ forall r, r ∈ planned_roles (plan_installs plan) -> r ∈ dh_roles h.

Lemma new_cluster_draws plan key name isNew : draws_plan plan (new_cluster plan key name isNew).
Proof. split; [done|]. exists (planned_host plan). set_solver. Qed.

Lemma join_cluster_draws plan c : draws_plan plan (join_cluster plan c).
Proof. split; [done|]. apply join_host_draws. Qed.

(** Drawing a plan changes exactly one cluster: the diagram is the existing
    clusters, in order and untouched, except for one target that is either
    appended or stands in the place of the existing cluster it joins; the target
    shows every planned service on a host marked new, and when it joins an
    existing cluster every host, service label and name already there is kept. *)
Theorem diagram_changes_one_cluster plan cs hosts :
  plan_target plan <> TNone ->
  exists before after target,
    buildDiagram (Some plan) cs hosts = (before ++ target :: after, None) /\
    draws_plan plan target /\
    (forall c, c ∈ before ++ after -> dc_isTarget c = false) /\
    ((after = [] /\ before = existingClusters cs hosts) \/
     exists c, existingClusters cs hosts = before ++ c :: after /\
       dc_key target = dc_key c /\ dc_name target = dc_name c /\
       (forall h, h ∈ dc_hosts c -> exists h', h' ∈ dc_hosts target /\ keeps_host h h') /\
       (forall s, dc_postgres c = Some s -> i_postgres (plan_installs plan) = false -> dc_postgres target = Some s) /\
       (forall s, dc_redis c = Some s -> i_redis (plan_installs plan) = false -> dc_redis target = Some s)).
Proof.
  intros Ht. unfold buildDiagram. set (drawn := existingClusters cs hosts).
  assert (Hd : forall c, c ∈ drawn -> dc_isTarget c = false) by apply existing_not_target.
  assert (Happ : forall t, draws_plan plan t -> exists before after target,
    (drawn ++ [t], @None DiagramHost) = (before ++ target :: after, None) /\ draws_plan plan target /\
    (forall c, c ∈ before ++ after -> dc_isTarget c = false) /\
    ((after = [] /\ before = drawn) \/ exists c, drawn = before ++ c :: after /\
       dc_key target = dc_key c /\ dc_name target = dc_name c /\
       (forall h, h ∈ dc_hosts c -> exists h', h' ∈ dc_hosts target /\ keeps_host h h') /\
       (forall s, dc_postgres c = Some s -> i_postgres (plan_installs plan) = false -> dc_postgres target = Some s) /\
       (forall s, dc_redis c = Some s -> i_redis (plan_installs plan) = false -> dc_redis target = Some s))).
  { intros t Hdraw. exists drawn, [], t. rewrite app_nil_r. auto 10. }
  destruct (plan_target plan) as [clusterId connectionId|name|]; [|apply Happ, new_cluster_draws|done].
  set (is_target := fun c : DiagramCluster => _).
  destruct (find_first is_target drawn) as [c|] eqn:E; [|apply Happ, new_cluster_draws].
  eapply (update_first_split is_target (join_cluster plan)) in E as (l1 & l2 & Ed & -> & _).
  exists l1, l2, (join_cluster plan c). split; [done|]. split; [apply join_cluster_draws|].
  split; [intros c' Hc'; apply Hd; rewrite Ed; set_solver|].
  right. exists c. repeat split; [done|intros h; apply join_host_keeps|..]; simpl; intros s Hs Hi;
    unfold join_service, planned_postgres, planned_redis, planned_service; rewrite Hi, Hs;
    by destruct (truthy_opt _).
Qed.

Definition demo_plan : PlannedInstall :=
  {| plan_hostName := "vps"; plan_local := false; plan_address := Some "10.0.0.9";
     plan_installs := {| i_backend := true; i_workers := true; i_webui := false; i_postgres := false; i_redis := false |};
     plan_postgres := None; plan_redis := None; plan_target := TExisting (Some "k") None |}.

Lemma diagram_changes_one_cluster_witness :
  exists target rest, buildDiagram (Some demo_plan) [demo_cluster "k" ["a"]] [] = (target :: rest, None) /\
    dc_isTarget target = true.
Proof.
  destruct (diagram_changes_one_cluster demo_plan [demo_cluster "k" ["a"]] [])
    as (before & after & target & E & [Ht _] & _ & [[-> ->]|(c & Ec & _)]); [discriminate| |].
  - exfalso. revert E. vm_compute. discriminate.
  - destruct before as [|b before].
    + exists target, after. exact (conj E Ht).
    + exfalso. apply (f_equal length) in Ec. simpl in Ec. rewrite length_app in Ec. simpl in Ec. lia.
Defined.

(** ** Tiers *)

Definition tier (r : NodeRole) (t : DiagramTiers) : list TierCard :=
  match r with RWebUI => webuis t | RBackend => backends t | RWorkers => workers t | RPostgres | RRedis => data t end.

(** The roles drawn in one tier. *)
Definition same_tier (r r' : NodeRole) : bool := role_eqb r r' || (is_store r && is_store r').

Lemma tier_add r t card :
  tier r (add_card t card) = if same_tier (tc_role card) r then add_to_tier card (tier r t) else tier r t.
Proof. unfold add_card. by destruct r, (tc_role card). Qed.

Lemma tier_foldl r cards t :
  tier r (foldl add_card t cards) =
  foldl (fun l c => add_to_tier c l) (tier r t) (keep (fun c => same_tier (tc_role c) r) cards).
Proof.
  revert t. induction cards as [|c cards IH]; intros t; [done|]. simpl. rewrite IH, tier_add.
  by destruct (same_tier (tc_role c) r).
Qed.

(** A tier and the cards added to it agree, key by key, on a fact about cards. *)
Definition agrees (P : TierCard -> Prop) (added tier : list TierCard) : Prop :=
  forall k, (exists c, c ∈ tier /\ tc_key c = k /\ P c) <-> (exists a, a ∈ added /\ tc_key a = k /\ P a).

(** Adding a card either extends the tier or merges into the card of its key. *)
Lemma add_to_tier_cases card t :
  (add_to_tier card t = t ++ [card] /\ forall c, c ∈ t -> tc_key c <> tc_key card) \/
  (exists l1 l2 c0, t = l1 ++ c0 :: l2 /\ add_to_tier card t = l1 ++ merge_card card c0 :: l2 /\
     tc_key c0 = tc_key card).
Proof.
  unfold add_to_tier. destruct (find_first _ t) as [c0|] eqn:E.
  - right. eapply (update_first_split _ (merge_card card)) in E as (l1 & l2 & ? & ? & _ & Hk).
    apply str_eqb_eq in Hk. eauto 10.
  - left. split; [done|]. intros c Hc Hk. rewrite find_first_None in E.
    specialize (E c Hc). by rewrite Hk, str_eqb_refl in E.
Qed.

Lemma exists_snoc {A} (P : A -> Prop) l x :
  (exists y, y ∈ l ++ [x] /\ P y) <-> (exists y, y ∈ l /\ P y) \/ P x.
Proof. setoid_rewrite elem_of_app. setoid_rewrite list_elem_of_singleton. naive_solver. Qed.

Lemma exists_mid {A} (P : A -> Prop) l1 x l2 :
  (exists y, y ∈ l1 ++ x :: l2 /\ P y) <-> (exists y, y ∈ l1 ++ l2 /\ P y) \/ P x.
Proof. setoid_rewrite elem_of_app. setoid_rewrite elem_of_cons. naive_solver. Qed.

Lemma agrees_add (P : TierCard -> Prop) added t card :
  (forall c, P (merge_card card c) <-> P c \/ P card) ->
  agrees P added t -> agrees P (added ++ [card]) (add_to_tier card t).
Proof.
  intros Hm H k. specialize (H k).
  rewrite (exists_snoc (fun c => tc_key c = k /\ P c)), <- H.
  destruct (add_to_tier_cases card t) as [[-> _]|(l1 & l2 & c0 & -> & -> & Hk)].
  - apply (exists_snoc (fun c => tc_key c = k /\ P c)).
  - rewrite !(exists_mid (fun c => tc_key c = k /\ P c)). simpl. rewrite Hm, Hk. tauto.
Qed.

(** What is known of a tier built from the cards [added]. *)
Record tier_ok (added tier : list TierCard) : Prop := {
  tier_keys : NoDup (map tc_key tier);
  tier_role : forall c, c ∈ tier -> exists a, a ∈ added /\ tc_key c = tc_key a /\ tc_role c = tc_role a;
  tier_present : agrees (fun _ => True) added tier;
  tier_named : forall name, agrees (fun c => name ∈ tc_clusters c) added tier;
  tier_new : agrees (fun c => tc_isNew c = true) added tier
}.

Lemma tier_ok_nil : tier_ok [] [].
Proof. split; [apply NoDup_nil_2|set_solver|unfold agrees; set_solver..]. Qed.

Lemma tier_ok_add added t card : tier_ok added t -> tier_ok (added ++ [card]) (add_to_tier card t).
Proof.
  intros [K R C N W]. split.
  - destruct (add_to_tier_cases card t) as [[-> Hne]|(l1 & l2 & c0 & -> & -> & Hk)].
    + rewrite map_app. apply NoDup_app. repeat split; [done| |apply NoDup_singleton].
      intros k (c & -> & Hc)%list_elem_of_fmap Hk%list_elem_of_singleton. by apply (Hne c).
    + rewrite map_app in *. exact K.
  - destruct (add_to_tier_cases card t) as [[-> Hne]|(l1 & l2 & c0 & -> & -> & Hk)];
      intros c Hc; setoid_rewrite elem_of_app.
    + apply elem_of_app in Hc as [Hc|Hc%list_elem_of_singleton]; [destruct (R c Hc) as (a & ? & ?)|]; set_solver.
    + assert (Hc' : exists c', c' ∈ l1 ++ c0 :: l2 /\ tc_key c = tc_key c' /\ tc_role c = tc_role c').
      { apply elem_of_app in Hc as [Hc|[->|Hc]%elem_of_cons]; [exists c|exists c0|exists c]; set_solver. }
      destruct Hc' as (c' & Hc' & -> & ->). destruct (R c' Hc') as (a & ? & ?). exists a. auto.
  - apply agrees_add; [tauto|done].
  - intros name. apply agrees_add; [|done]. intros c. simpl. rewrite elem_of_uniq. apply elem_of_app.
  - apply agrees_add; [|done]. intros c. simpl. apply orb_true_iff.
Qed.

Lemma tier_ok_foldl cards added t :
  tier_ok added t -> tier_ok (added ++ cards) (foldl (fun l c => add_to_tier c l) t cards).
Proof.
  revert added t. induction cards as [|c cards IH]; intros added t H; simpl; [by rewrite app_nil_r|].
  rewrite cons_middle, app_assoc. by apply IH, tier_ok_add.
Qed.

(** The cards [buildTiers] adds to a tier, the WebUI's own card included. *)
Definition added_cards (cs : list DiagramCluster) (standalone : option DiagramHost) (plan : option PlannedInstall)
  (r : NodeRole) : list TierCard :=
  keep (fun c => same_tier (tc_role c) r) (mjoin (map cluster_cards cs) ++ standalone_cards standalone plan).

Definition built (cs : list DiagramCluster) standalone plan : DiagramTiers :=
  foldl add_card (Tiers [] [] [] []) (mjoin (map cluster_cards cs) ++ standalone_cards standalone plan).

Lemma built_ok cs standalone plan r : tier_ok (added_cards cs standalone plan r) (tier r (built cs standalone plan)).
Proof.
  unfold built. rewrite tier_foldl. replace (tier r (Tiers [] [] [] [])) with (@nil TierCard) by (by destruct r).
  apply (tier_ok_foldl _ []), tier_ok_nil.
Qed.

Lemma buildTiers_tier cs standalone plan r :
  tier r (buildTiers cs standalone plan) = tier r (built cs standalone plan) \/
  (r = RWebUI /\ some tc_isSelf (webuis (built cs standalone plan)) = false /\
   tier r (buildTiers cs standalone plan) = self_card cs :: webuis (built cs standalone plan)).
Proof.
  unfold buildTiers. fold (built cs standalone plan). case_goal; [by left|].
  destruct r; auto.
Qed.

(** The cards of a cluster are those of its hosts' services and of its stores. *)
Lemma cluster_card_added cs standalone plan c h n :
  c ∈ cs -> h ∈ dc_hosts c -> n ∈ shown_nodes h ->
  node_card c h n ∈ added_cards cs standalone plan (dn_role n).
Proof.
  intros Hc Hh Hn. unfold added_cards. apply elem_of_keep. split.
  - apply elem_of_app. left. apply list_elem_of_join. exists (cluster_cards c).
    split; [|apply (list_elem_of_fmap cluster_cards); eauto].
    apply elem_of_app. left. apply list_elem_of_join. exists (map (node_card c h) (shown_nodes h)).
    split; [apply (list_elem_of_fmap (node_card c h)); eauto|].
    apply (list_elem_of_fmap (fun h => map (node_card c h) (shown_nodes h))). eauto.
  - unfold same_tier, role_eqb. simpl. by rewrite bool_decide_eq_true_2.
Qed.

(** Tiers: no tier draws a service twice (keys are distinct), every service of
    every host of every cluster has a card in its role's tier that names the
    cluster, every name on a card is that of a cluster reporting that very
    service, and the WebUI tier always has this WebUI's own card. *)
Theorem tiers_show_each_service_once cs standalone plan :
  let tiers := buildTiers cs standalone plan in
  (forall r, r <> RWebUI -> NoDup (map tc_key (tier r tiers))) /\
  (forall c h n, c ∈ cs -> h ∈ dc_hosts c -> n ∈ shown_nodes h ->
     exists card, card ∈ tier (dn_role n) tiers /\ tc_key card = tc_key (node_card c h n) /\
       dc_name c ∈ tc_clusters card) /\
  (forall r card name, r <> RWebUI -> card ∈ tier r tiers -> name ∈ tc_clusters card ->
     exists a, a ∈ added_cards cs standalone plan r /\ tc_key a = tc_key card /\ name ∈ tc_clusters a) /\
  (exists card, card ∈ webuis tiers /\ tc_isSelf card = true).
Proof.
  cbv zeta. split; [|split; [|split]].
  - intros r Hr. destruct (buildTiers_tier cs standalone plan r) as [->|[? _]]; [|done]. apply built_ok.
  - intros c h n Hc Hh Hn.
    destruct (proj2 (tier_named _ _ (built_ok cs standalone plan (dn_role n)) (dc_name c) (tc_key (node_card c h n))))
      as (card & Hcard & Hk & Hname).
    { exists (node_card c h n). split; [by apply cluster_card_added|]. split; [done|]. set_solver. }
    exists card. split; [|done].
    destruct (buildTiers_tier cs standalone plan (dn_role n)) as [->|(E & _ & ->)]; [done|].
    right. by rewrite E in Hcard.
  - intros r card name Hr. destruct (buildTiers_tier cs standalone plan r) as [->|[? _]]; [|done].
    intros Hcard Hname. apply (tier_named _ _ (built_ok cs standalone plan r) name). eauto.
  - unfold buildTiers. fold (built cs standalone plan). case_goal.
    + apply some_iff in Heqb as (card & ? & ?). eauto.
    + exists (self_card cs). set_solver.
Qed.

Definition demo_host : DiagramHost :=
  DHost "h" "vps" None [RBackend] [{| dn_role := RBackend; dn_identifier := Some "b1"; dn_state := Some Healthy; dn_isSelf := false |}] false.
Definition demo_diagram : DiagramCluster := DCluster "k" "Main" [demo_host] None None false false.

Lemma tiers_show_each_service_once_witness :
  exists card, card ∈ backends (buildTiers [demo_diagram; demo_diagram] None None) /\ tc_key card = "backend:h:b1" /\
    "Main" ∈ tc_clusters card.
Proof.
  destruct (tiers_show_each_service_once [demo_diagram; demo_diagram] None None) as (_ & H & _).
  apply (H demo_diagram demo_host
    {| dn_role := RBackend; dn_identifier := Some "b1"; dn_state := Some Healthy; dn_isSelf := false |});
    apply list_elem_of_here.
Defined.
