(* ===== verification/JobUtils.v ===== *)
(** * Job helpers ([features/jobs/lib/jobUtils.ts], [jobLiveRefresh.ts])

    Status and preparation of a job, messages of failed requests, dates,
    schedules and durations. [Date.now()] is the argument [now]. *)

From Stdlib Require Import Ascii ZArith Lia SpecFloat.
From stdpp Require Import base list strings option.
From S2P Require Import Prelude JsString JsNum JsInt JsValue JsDate JobTypes.

(** ** Status *)

Definition isJobRunningStatus (status : option string) : bool :=
  str_in (to_lower (trim (status ?? EmptyString)))
    ["running"; "in_progress"; "pending"; "preparing"; "paused"; "deleting"; "wrapping_up"].

(** [Partial<TaskStats>]: the counters it is read for. *)
Record PartialStats := { ps_total : option num; ps_completed : option num; ps_failed : option num }.

Definition resolveEffectiveJobStatus (status : option string) (taskStats : option PartialStats)
    (overallProgress : option num) : string :=
  let normalized := to_lower (status ?? EmptyString) in
  if (normalized =s "failed") && match overallProgress with Some p => p >=! #100 | None => false end then
    let total := (taskStats ≫= ps_total) ?? #0 in
    let completed := (taskStats ≫= ps_completed) ?? #0 in
    let failed := (taskStats ≫= ps_failed) ?? #0 in
    if (completed >! #0) && ((total =! #0) || (completed ⊕ failed >=! total)) then
      let failureRate := if completed ⊕ failed >! #0 then failed ⊘ (completed ⊕ failed) else #0 in
      if failureRate <! (#1 ⊘ #2) then "completed" else normalized
    else normalized
  else normalized.

Inductive JobPreparationPhase := Queued | Materializing | Finalizing.

Definition phase_of (s : string) : option JobPreparationPhase :=
  if s =s "queued" then Some Queued
  else if s =s "materializing" then Some Materializing
  else if s =s "finalizing" then Some Finalizing
  else None.

Definition phase_label (p : JobPreparationPhase) : string :=
  match p with Queued => "Queued" | Finalizing => "Finalizing" | Materializing => "Materializing" end.

Record JobPreparationSource := {
  prep_status : option string;
  prep_materialization_status : option string;
  prep_materialized_tasks : option num;
  prep_materialization_total : option num;
  prep_task_stats : option TaskStats
}.

Record JobPreparationProgress := {
  prep_phase : JobPreparationPhase;
  prep_label : string;
  prep_completed : num;
  prep_total : num;
  prep_percent : num
}.

Definition preparedTasks (job : JobPreparationSource) : num :=
  match prep_task_stats job with
  | Some s => ts_ready s ⊕ ts_blocked s ⊕ ts_inflight s ⊕ ts_deferred s ⊕ ts_completed s ⊕ ts_failed s
  | None => #0
  end.

Definition getJobPreparationProgress (job : JobPreparationSource) : option JobPreparationProgress :=
  let status := to_lower (prep_status job ?? EmptyString) in
  let phase := to_lower (prep_materialization_status job ?? EmptyString) in
  if negb (str_in status ["pending"; "running"]) then None
  else match phase_of phase with
       | None => None
       | Some p =>
           let total := math_max #0 ((prep_materialization_total job ??? (ts_total <$> prep_task_stats job)) ?? #0) in
           let completed := math_min total (math_max #0
             (match p with Finalizing => preparedTasks job | _ => prep_materialized_tasks job ?? #0 end)) in
           let percent := if total >! #0 then math_min #100 (math_round (completed ⊘ total ⊗ #100)) else #0 in
           Some {| prep_phase := p; prep_label := phase_label p; prep_completed := completed;
                   prep_total := total; prep_percent := percent |}
       end.

(** ** Messages *)

Definition spaces (s : string) : option string :=
  let '(sp, r) := span is_space s in if truthy sp then Some r else None.

(** [/auth\s+(\d+)\s+not found in site api/i]: the digits. *)
Definition inactive_auth_at (s : string) : option string :=
  r1 ← literal_i "auth" s;
  r2 ← spaces r1;
  let '(digits, r3) := span is_digit r2 in
  if negb (truthy digits) then None
  else
    r4 ← spaces r3;
    _ ← literal_i "not found in site api" r4;
    Some digits.

Definition parseInactiveAuthId (message : option string) : option num :=
  m ← truthy_opt message;
  digits ← search inactive_auth_at m;
  let parsed := number_of_string digits in
  if is_finite parsed then Some parsed else None.

Fixpoint first_inactive (tasks : list TaskDetail) : option num :=
  match tasks with
  | [] => None
  | t :: r => parseInactiveAuthId (td_error t) ??? first_inactive r
  end.

Definition extractInactiveAuthId (details : option JobDetail) (tasks : option (list TaskDetail)) : option num :=
  let text := truthy_opt (details ≫= result_error) ??? (details ≫= result_message) in
  parseInactiveAuthId text ??? first_inactive (tasks ?? []).

(** The thrown value, as an [unknown]. *)
Definition getJobActionErrorMessage (error : jsval) (fallback : string) : jsval :=
  match error with
  | Some (VObj _) | Some (VArr _) =>
      let data := get_field (get_field error "response") "data" in
      let detail := val_nullish (get_field data "detail")
                      (val_nullish (get_field data "message") (get_field data "error")) in
      val_or detail (val_or (get_field error "message") (Some (VStr fallback)))
  | _ => Some (VStr fallback)
  end.

Definition getRetryErrorMessage (error : jsval) : jsval := getJobActionErrorMessage error "Failed to retry job.".
Definition getTemplateErrorMessage (error : jsval) : jsval := getJobActionErrorMessage error "Failed to save template.".

(** ** Dates and durations *)

Section dates.
Context {E : Env}.

Definition formatDateTime (value : option string) : option string :=
  v ← truthy_opt value;
  let t := date_ms v in
  Some (if is_nan t then v else toLocaleString t).

Definition timeAgo (value : option string) (now : num) : string :=
  match truthy_opt value with
  | None => "—"
  | Some v =>
      let t := date_ms v in
      if is_nan t then v
      else
        let diffMs := now ⊖ t in
        if diffMs <! #0 then "in the future"
        else
          let seconds := math_floor (diffMs ⊘ #1000) in
          let minutes := math_floor (seconds ⊘ #60) in
          let hours := math_floor (minutes ⊘ #60) in
          let days := math_floor (hours ⊘ #24) in
          if seconds <! #60 then "just now"
          else if minutes <! #60 then show_num minutes +:+ "m ago"
          else if hours <! #24 then show_num hours +:+ "h ago"
          else if days <! #30 then show_num days +:+ "d ago"
          else toLocaleDateString t
  end.

Definition getScheduleLabel (job : Job) : option string :=
  match interval_seconds job with
  | Some secs =>
      if num_truthy secs then
        if num_rem secs #86400 =! #0 then Some ("every " +:+ show_num (secs ⊘ #86400) +:+ "d")
        else if num_rem secs #3600 =! #0 then Some ("every " +:+ show_num (secs ⊘ #3600) +:+ "h")
        else Some ("every " +:+ show_num (math_round (secs ⊘ #60)) +:+ "m")
      else
        (option_map (fun c => "cron: " +:+ c) (truthy_opt (cron job))) ???
        option_map (fun s => "at " +:+ toLocaleString (date_ms s)) (truthy_opt (scheduled_for job))
  | None =>
      (option_map (fun c => "cron: " +:+ c) (truthy_opt (cron job))) ???
      option_map (fun s => "at " +:+ toLocaleString (date_ms s)) (truthy_opt (scheduled_for job))
  end.

Definition taskTypeLabel (taskType : string) : string := replace_char "_" " " taskType.

Definition toLocalDateTimeInput (value : option string) : string :=
  match truthy_opt value with
  | None => EmptyString
  | Some v =>
      let t := date_ms v in
      if is_nan t then EmptyString
      else take_str 16 (iso_string (num_to_Z t - getTimezoneOffset (num_to_Z t) * 60000))
  end.

Inductive IntervalUnit := Minutes | Hours | Days.

Definition getIntervalParts (intervalSeconds : option num) : option (num * IntervalUnit) :=
  match intervalSeconds with
  | Some secs =>
      if negb (num_truthy secs) || (secs <=! #0) then None
      else if num_rem secs #86400 =! #0 then Some (secs ⊘ #86400, Days)
      else if num_rem secs #3600 =! #0 then Some (secs ⊘ #3600, Hours)
      else Some (math_max #1 (math_round (secs ⊘ #60)), Minutes)
  | None => None
  end.

Definition formatDuration (seconds : num) : string :=
  if seconds <! #60 then show_num seconds +:+ "s"
  else
    let mins := math_floor (seconds ⊘ #60) in
    let secs := num_rem seconds #60 in
    if mins <! #60 then
      if secs >! #0 then show_num mins +:+ "m " +:+ show_num secs +:+ "s" else show_num mins +:+ "m"
    else
      let hrs := math_floor (mins ⊘ #60) in
      let remainMins := num_rem mins #60 in
      if remainMins >! #0 then show_num hrs +:+ "h " +:+ show_num remainMins +:+ "m" else show_num hrs +:+ "h".

Definition positiveNumber (v : jsval) : option num :=
  match as_num v with Some n => if n >! #0 then Some n else None | None => None end.

Definition started_ms (s : string) : num := if truthy s then date_ms s else #0.

Definition computeJobDurationSeconds (job : option Job) : num :=
  match job with
  | None => #1
  | Some j =>
      match positiveNumber (VNum <$> duration_seconds j) ???
            positiveNumber (metadata j ≫= prop "duration_seconds") with
      | Some d => math_max #1 (math_round d)
      | None =>
          let started := (truthy_opt (started_at j) ??? truthy_opt (created_at j)) ?? EmptyString in
          let finished := (truthy_opt (completed_at j) ??? truthy_opt (last_ran_at j) ???
                           truthy_opt (last_activity_at j) ??? truthy_opt (updated_at j)) ?? EmptyString in
          let startMs := started_ms started in
          let endMs := if truthy finished then date_ms finished else startMs in
          if (startMs >! #0) && (endMs >! startMs) then
            math_max #1 (math_round ((endMs ⊖ startMs) ⊘ #1000))
          else #1
      end
  end.
End dates.

(** ** Tasks *)

Definition streamTaskKey (task : TaskDetail) : string :=
  match truthy_opt (td_task_id task) with
  | Some id => "task:" +:+ id
  | None =>
      join "|" ["fallback"; td_task_type task; td_site task ?? "unknown-site";
                td_username task ?? "unknown-user"; td_content_type task ?? "all"]
  end.

Definition failed_entry (v : value) : bool :=
  match get_field (Some v) "status" with Some (VStr s) => s =s "failed" | _ => false end.

Definition getTaskDownloadErrorCount (task : TaskDetail) : num :=
  match td_result task with
  | None => #0
  | Some result =>
      match as_num (get_field (prop "metrics" result) "failed") with
      | Some n => if is_finite n then math_max #0 n else
          #(Z.of_nat (length (keep failed_entry (as_arr (get_field (prop "output" result) "download_results") ?? []))))
      | None =>
          #(Z.of_nat (length (keep failed_entry (as_arr (get_field (prop "output" result) "download_results") ?? []))))
      end
  end.

(** ** Live refresh ([jobLiveRefresh.ts]) *)

Definition JOBS_LIST_POLL_INTERVAL_MS : Z := 3000.
Definition JOB_DETAILS_POLL_INTERVAL_MS : Z := 1000.

Definition JOB_LIFECYCLE_REFRESH_EVENTS : list string :=
  ["job_created"; "job_started"; "job_claimed"; "job_tasks_routed"; "job_materialized"; "job_completed";
   "job_failed"; "job_cancelled"; "job_prioritized"; "job_updated"; "job_paused"; "job_resumed"].

Definition isJobLifecycleRefreshEvent (eventName : string) : bool := str_in eventName JOB_LIFECYCLE_REFRESH_EVENTS.

Inductive FetchStatus := Idle | Fetching | Paused.

(** [None] is [false]: no polling. *)
Definition getNonOverlappingRefetchInterval (fetchStatus : FetchStatus) (intervalMs : Z) (enabled : bool) : option Z :=
  match fetchStatus with Idle => if enabled then Some intervalMs else None | _ => None end.
