(* ===== verification/JobEta.v ===== *)
(** * Estimated time of a job ([features/jobs/lib/jobEta.ts])

    [calculateJobEta] in full, as a decision over the job's status, its
    timestamps and its progress. [currentTime] is [Date.now()] unless given. *)

From Stdlib Require Import Ascii ZArith Lia SpecFloat.
From stdpp Require Import base list strings option.
From S2P Require Import Prelude JsString JsNum JsInt JsDate JobUtils.

Inductive JobEtaStatus := EtaPending | EtaRunning | EtaWrappingUp | EtaCompleted | EtaStopped.

Record JobEtaInput := {
  eta_in_status : option string;
  eta_startedAt : option string;
  eta_completedAt : option string;
  eta_progressPercent : option num;
  eta_itemsProcessed : option num;
  eta_itemsTotal : option num;
  eta_currentTime : num;
  eta_smoothedTargetMs : option num
}.

Record JobEtaResult := {
  eta_status : JobEtaStatus;
  elapsedSeconds : option num;
  remainingSeconds : option num;
  formattedElapsed : option string;
  formattedRemaining : option string;
  completionDate : option num;
  formattedCompletionTime : option string;
  eta_label : string;
  eta_tooltip : string
}.

Section eta.
Context {E : Env}.

(** [startedAt ? new Date(startedAt).getTime() : NaN]. *)
Definition start_ms (i : JobEtaInput) : num :=
  match truthy_opt (eta_startedAt i) with Some s => date_ms s | None => nan end.

Definition norm_status (i : JobEtaInput) : string := to_lower (eta_in_status i ?? EmptyString).

(** Seconds between two instants, never negative; [None] without a start. *)
Definition elapsed_between (startMs endMs : num) : option num :=
  if is_nan startMs then None else Some (math_max #0 (math_round ((endMs ⊖ startMs) ⊘ #1000))).

Definition or_plain (prefix plain : string) (elapsed : option num) : string :=
  match elapsed with Some e => prefix +:+ formatDuration e | None => plain end.

Definition completed_eta (i : JobEtaInput) : JobEtaResult :=
  let endMs := match truthy_opt (eta_completedAt i) with Some s => date_ms s | None => eta_currentTime i end in
  let elapsed := elapsed_between (start_ms i) endMs in
  {| eta_status := EtaCompleted; elapsedSeconds := elapsed; remainingSeconds := Some #0;
     formattedElapsed := formatDuration <$> elapsed; formattedRemaining := Some "Done";
     completionDate := Some endMs; formattedCompletionTime := Some (toLocaleTimeString endMs);
     eta_label := or_plain "Completed in " "Completed" elapsed;
     eta_tooltip := or_plain "Job finished in " "Job completed" elapsed |}.

Definition stopped_eta (i : JobEtaInput) : JobEtaResult :=
  let elapsed := elapsed_between (start_ms i) (eta_currentTime i) in
  {| eta_status := EtaStopped; elapsedSeconds := elapsed; remainingSeconds := Some #0;
     formattedElapsed := formatDuration <$> elapsed;
     formattedRemaining := Some (if norm_status i =s "failed" then "Failed" else "Cancelled");
     completionDate := None; formattedCompletionTime := None;
     eta_label := or_plain "Stopped after " "Stopped" elapsed;
     eta_tooltip := or_plain "Job stopped after " "Job stopped" elapsed |}.

Definition waiting_eta (status : JobEtaStatus) (remaining label tooltip : string) : JobEtaResult :=
  {| eta_status := status; elapsedSeconds := None; remainingSeconds := None; formattedElapsed := None;
     formattedRemaining := Some remaining; completionDate := None; formattedCompletionTime := None;
     eta_label := label; eta_tooltip := tooltip |}.

Definition eta_progress (i : JobEtaInput) : num :=
  match eta_progressPercent i with Some p => if is_finite p then p else #0 | None => #0 end.

Definition eta_elapsed (i : JobEtaInput) : num :=
  math_max #0 (math_floor ((eta_currentTime i ⊖ start_ms i) ⊘ #1000)).

Definition effectiveElapsed (i : JobEtaInput) : num := math_max #1 (eta_elapsed i).

Definition items_ratio (i : JobEtaInput) : option num :=
  match eta_itemsTotal i, eta_itemsProcessed i with
  | Some total, Some processed =>
      if num_truthy total && num_truthy processed && (total >! processed) && (processed >! #0)
      then Some (processed ⊘ total) else None
  | _, _ => None
  end.

Definition remaining_sec (i : JobEtaInput) : option num :=
  let progress := eta_progress i in
  match eta_smoothedTargetMs i with
  | Some target => Some (math_max #0 (math_round ((target ⊖ eta_currentTime i) ⊘ #1000)))
  | None =>
      if progress >! #0 then
        Some (math_max #0 (math_round ((effectiveElapsed i ⊗ (#100 ⊖ progress)) ⊘ progress)))
      else
        (fun p => math_max #0 (math_round ((effectiveElapsed i ⊗ (#1 ⊖ p)) ⊘ p))) <$> items_ratio i
  end.

Definition wrapping_eta (i : JobEtaInput) : JobEtaResult :=
  {| eta_status := EtaWrappingUp; elapsedSeconds := Some (eta_elapsed i); remainingSeconds := Some #0;
     formattedElapsed := Some (formatDuration (eta_elapsed i)); formattedRemaining := Some "< 5s";
     completionDate := Some (eta_currentTime i); formattedCompletionTime := Some "Soon";
     eta_label := "Wrapping up"; eta_tooltip := "Tasks completed, finalizing job results" |}.

Definition estimating_eta (i : JobEtaInput) : JobEtaResult :=
  {| eta_status := EtaRunning; elapsedSeconds := Some (eta_elapsed i); remainingSeconds := None;
     formattedElapsed := Some (formatDuration (eta_elapsed i)); formattedRemaining := Some "Estimating...";
     completionDate := None; formattedCompletionTime := None;
     eta_label := "Calculating ETA..."; eta_tooltip := "Calculating estimated completion time..." |}.

Definition running_eta (i : JobEtaInput) (remaining : num) : JobEtaResult :=
  let date := eta_currentTime i ⊕ remaining ⊗ #1000 in
  let time := toLocaleTimeString date in
  let left := if remaining =! #0 then "< 5s" else formatDuration remaining in
  {| eta_status := EtaRunning; elapsedSeconds := Some (eta_elapsed i); remainingSeconds := Some remaining;
     formattedElapsed := Some (formatDuration (eta_elapsed i)); formattedRemaining := Some left;
     completionDate := Some date; formattedCompletionTime := Some time;
     eta_label := "Est. finish " +:+ time;
     eta_tooltip := "Estimated completion at " +:+ time +:+ " (~" +:+ left +:+ " left)" |}.

Definition is_completed (i : JobEtaInput) : bool :=
  match truthy_opt (eta_completedAt i) with Some _ => true | None => norm_status i =s "completed" end.

Definition live_eta (i : JobEtaInput) : JobEtaResult :=
  if is_nan (start_ms i) then
    waiting_eta EtaRunning "Estimating..." "Estimating ETA..." "Calculating estimated completion time..."
  else if eta_progress i >=! #100 then wrapping_eta i
  else match remaining_sec i with
       | None => estimating_eta i
       | Some r => running_eta i r
       end.

Definition calculateJobEta (i : JobEtaInput) : JobEtaResult :=
  let s := norm_status i in
  if is_completed i then completed_eta i
  else if str_in s ["failed"; "cancelled"; "canceled"] then stopped_eta i
  else if str_in s ["pending"; "queued"] then waiting_eta EtaPending "Queued" "Queued" "Job is queued waiting to run"
  else if s =s "claimed" then
    waiting_eta EtaPending "Starting..." "Starting..." "Job has been claimed by a worker and is starting"
  else live_eta i.

(** ** Lemmas *)

Lemma real_eta_elapsed i :
  is_finite (eta_currentTime i) = true -> is_finite (start_ms i) = true -> real (eta_elapsed i).
Proof.
  intros H1 H2. unfold eta_elapsed. apply math_max_real; [vm_compute; done|].
  apply real_floor. pose proof (real_sub _ _ H1 H2) as Hr.
  destruct (eta_currentTime i ⊖ start_ms i) as [| | |] eqn:Es; try done;
    apply real_div; done.
Qed.

End eta.
