(* ===== verification/JobUtilsSpec.v ===== *)
(** * What the job helpers promise

    The decision table of the estimated time, the bounds of the preparation
    progress, and the texts of durations and ages on whole seconds. *)

From Stdlib Require Import Ascii ZArith Lia SpecFloat.
From stdpp Require Import base list strings option sets.
From S2P Require Import Prelude JsString JsNum JsInt JsDiv JsBounds JsValue JsDate JobTypes JobUtils JobEta.

(** ** The estimated time *)

Lemma elapsed_nneg a b e : elapsed_between a b = Some e -> nneg e.
Proof. unfold elapsed_between. destruct (is_nan a); [done|]. intros H. injection H as <-. apply nneg_max. Qed.

Lemma remaining_nneg {E : Env} i r : remaining_sec i = Some r -> nneg r.
Proof.
  unfold remaining_sec. intros H.
  destruct (eta_smoothedTargetMs i); [injection H as <-; apply nneg_max|].
  destruct (eta_progress i >! #0); [injection H as <-; apply nneg_max|].
  destruct (items_ratio i); [injection H as <-; apply nneg_max|done].
Qed.

(** The estimate's status follows the job's: completed when it has an end
    or says so, stopped when it failed or was cancelled, pending when it waits
    or is starting, otherwise running, or wrapping up once its progress reaches
    100. A job that is over, or wrapping up, has nothing left; a pending one has
    no times; a running one with a known rest finishes that rest after now; and
    no elapsed or remaining time is negative. *)
Theorem eta_follows_status {E : Env} i :
  let r := calculateJobEta i in
  let live := is_completed i = false /\
    norm_status i ∉ ["failed"; "cancelled"; "canceled"; "pending"; "queued"; "claimed"] in
  match eta_status r with
  | EtaCompleted => is_completed i = true /\ remainingSeconds r = Some #0 /\ completionDate r <> None
  | EtaStopped => is_completed i = false /\ norm_status i ∈ ["failed"; "cancelled"; "canceled"] /\
      remainingSeconds r = Some #0 /\ completionDate r = None
  | EtaPending => is_completed i = false /\ norm_status i ∈ ["pending"; "queued"; "claimed"] /\
      elapsedSeconds r = None /\ remainingSeconds r = None
  | EtaWrappingUp => live /\ is_nan (start_ms i) = false /\ (eta_progress i >=! #100) = true /\
      remainingSeconds r = Some #0
  | EtaRunning => live /\ (is_nan (start_ms i) = true -> elapsedSeconds r = None /\ remainingSeconds r = None) /\
      forall left, remainingSeconds r = Some left -> completionDate r = Some (eta_currentTime i ⊕ left ⊗ #1000)
  end /\
  (forall e, elapsedSeconds r = Some e -> nneg e) /\
  (forall left, remainingSeconds r = Some left -> nneg left).
Proof.
  intros r live. unfold r, calculateJobEta.
  destruct (is_completed i) eqn:Ec.
  { split; [done|]. split; [apply elapsed_nneg|]. intros left H. injection H as <-. done. }
  destruct (str_in (norm_status i) ["failed"; "cancelled"; "canceled"]) eqn:Es.
  { apply str_in_iff in Es. split; [done|]. split; [apply elapsed_nneg|]. intros left H. injection H as <-. done. }
  destruct (str_in (norm_status i) ["pending"; "queued"]) eqn:Ep.
  { apply str_in_iff in Ep. split; [|done]. split; [done|]. split; [|done]. set_solver. }
  destruct (norm_status i =s "claimed") eqn:Ecl.
  { apply str_eqb_eq in Ecl. split; [|done]. split; [done|]. split; [|done]. rewrite Ecl. set_solver. }
  apply str_in_not in Es, Ep. apply str_eqb_neq in Ecl.
  assert (Hlive : live) by (split; [done|set_solver]).
  unfold live_eta. destruct (is_nan (start_ms i)) eqn:En; [done|].
  destruct (eta_progress i >=! #100) eqn:E100.
  { split; [done|]. split; intros x H; injection H as <-; [apply nneg_max|done]. }
  destruct (remaining_sec i) as [left|] eqn:Er; simpl.
  - split; [split; [done|]; split; [done|]; intros l H; injection H as <-; done|].
    split; intros x H; injection H as <-; [apply nneg_max|apply (remaining_nneg i), Er].
  - split; [split; [done|]; split; [done|done]|]. split; [|done]. intros x H. injection H as <-. apply nneg_max.
Qed.

(** ** Preparation *)

(** The preparation shown for a job that is being prepared never counts
    more prepared tasks than there are, and its percentage is between 0 and
    100. *)
Theorem preparation_progress_bounds job p :
  getJobPreparationProgress job = Some p ->
  nneg (prep_total p) /\ nneg (prep_completed p) /\
  (is_finite (prep_total p) = true -> (prep_completed p >! prep_total p) = false) /\
  nneg (prep_percent p) /\ (prep_percent p >! #100) = false /\
  str_in (to_lower (prep_status job ?? EmptyString)) ["pending"; "running"] = true /\
  prep_label p = phase_label (prep_phase p).
Proof.
  unfold getJobPreparationProgress. intros H.
  destruct (str_in (to_lower (prep_status job ?? EmptyString)) ["pending"; "running"]) eqn:Es; [|done].
  destruct (phase_of _) as [ph|]; [|done]. cbv zeta in H. simpl negb in H. cbv iota in H.
  set (total := math_max #0 (_ ?? #0)) in H. set (done_ := math_max #0 (match ph with Finalizing => _ | _ => _ end)) in H.
  injection H as <-. cbn [prep_total prep_completed prep_percent prep_label prep_phase].
  assert (Ht : nneg total) by apply nneg_max. assert (Hd : nneg (math_min total done_)) by (apply nneg_min; [done|apply nneg_max]).
  split; [done|]. split; [done|]. split; [intros Hf; apply min_cap, Hf|].
  destruct (total >! #0) eqn:E; [|done].
  destruct (percent_bounds (math_min total done_) total Hd E) as [H1 H2]. done.
Qed.

Lemma preparation_progress_bounds_witness :
  let job := {| prep_status := Some "Running"; prep_materialization_status := Some "materializing";
                prep_materialized_tasks := Some #7; prep_materialization_total := Some #4; prep_task_stats := None |} in
  exists p, getJobPreparationProgress job = Some p /\ prep_completed p = #4 /\ prep_percent p = #100 /\
    nneg (prep_percent p).
Proof.
  eexists. split; [vm_compute; reflexivity|]. do 2 (split; [vm_compute; reflexivity|]).
  refine (proj1 (proj2 (proj2 (proj2 (preparation_progress_bounds
    {| prep_status := Some "Running"; prep_materialization_status := Some "materializing";
       prep_materialized_tasks := Some #7; prep_materialization_total := Some #4; prep_task_stats := None |} _ _))))).
  vm_compute. reflexivity.
Defined.

(** ** Durations *)

(** The text of a whole number of seconds, by integer division. *)
Definition duration_text (s : Z) : string :=
  if s <? 60 then show_num #s +:+ "s"
  else if s <? 3600 then
    show_num #(s / 60) +:+ "m" +:+ (if s mod 60 =? 0 then EmptyString else " " +:+ show_num #(s mod 60) +:+ "s")
  else
    show_num #(s / 3600) +:+ "h" +:+
    (if s / 60 mod 60 =? 0 then EmptyString else " " +:+ show_num #(s / 60 mod 60) +:+ "m").

Lemma safe_div s n : 0 <= s -> safe s -> 0 < n -> safe (s / n) /\ 0 <= s / n.
Proof.
  unfold safe. intros H0 H Hn. pose proof (Z.div_pos s n H0 Hn).
  assert (s / n <= s) by (apply Z.div_le_upper_bound; nia). lia.
Qed.

Lemma safe_mod s n : 0 < n -> safe n -> safe (s mod n) /\ 0 <= s mod n.
Proof. unfold safe. intros Hn H. pose proof (Z.mod_pos_bound s n Hn). lia. Qed.

(** A duration of whole seconds is shown in its two largest units: seconds
    below a minute, minutes and seconds below an hour, then hours and minutes,
    each part by exact integer division, a zero second part left out. *)
Theorem format_duration_parts s : 0 <= s < 2 ^ 53 -> formatDuration #s = duration_text s.
Proof.
  intros [H0 Hlt]. assert (Hs : safe s) by (unfold safe; lia).
  destruct (safe_div s 60 H0 Hs ltac:(lia)) as [Hm Hm0].
  destruct (safe_mod s 60 ltac:(lia) ltac:(done)) as [Hr Hr0].
  destruct (safe_mod (s / 60) 60 ltac:(lia) ltac:(done)) as [Hq Hq0].
  unfold formatDuration, duration_text.
  rewrite ltb_int by done. destruct (s <? 60) eqn:E1; [done|].
  rewrite !floor_div_int, !rem_int, !ltb_int by (done || lia).
  rewrite Z.div_div by lia. change (60 * 60) with 3600.
  assert (Hc : (s / 60 <? 60) = (s <? 3600)).
  { pose proof (Z.div_mod s 60 ltac:(lia)). pose proof (Z.mod_pos_bound s 60 ltac:(lia)).
    destruct (Z.ltb_spec (s / 60) 60), (Z.ltb_spec s 3600); (done || lia). }
  assert (Hz : forall x, 0 <= x -> (0 <? x) = negb (x =? 0))
    by (intros x Hx; destruct (Z.ltb_spec 0 x), (Z.eqb_spec x 0); (done || lia)).
  rewrite Hc, !Hz by lia. destruct (s <? 3600).
  - destruct (s mod 60 =? 0); simpl negb; [rewrite str_app_nil_r|]; done.
  - destruct (s / 60 mod 60 =? 0); simpl negb; [rewrite str_app_nil_r|]; done.
Qed.

Lemma format_duration_parts_witness : formatDuration #7325 = "2h 2m".
Proof. rewrite (format_duration_parts 7325) by lia. vm_compute. reflexivity. Defined.

(** The age of an instant [ms] milliseconds ago. *)
Definition age_text (ms : Z) (date : string) : string :=
  if ms <? 60000 then "just now"
  else if ms <? 3600000 then show_num #(ms / 60000) +:+ "m ago"
  else if ms <? 86400000 then show_num #(ms / 3600000) +:+ "h ago"
  else if ms <? 2592000000 then show_num #(ms / 86400000) +:+ "d ago"
  else date.

Lemma ltb_div a b c : 0 <= a -> 0 < b -> (a / b <? c) = (a <? b * c).
Proof.
  intros Ha Hb. pose proof (Z.div_mod a b ltac:(lia)). pose proof (Z.mod_pos_bound a b Hb).
  destruct (Z.ltb_spec (a / b) c), (Z.ltb_spec a (b * c)); (done || nia).
Qed.

(** The age of a past date is its distance from now in whole minutes, hours
    or days, rounded down, whichever unit is the largest that is not zero; from
    30 days on it is the date itself, and a date to come is in the future. *)
Theorem time_ago_units {E : Env} v t now :
  v <> EmptyString -> date_ms v = #t -> safe t -> safe now -> safe (now - t) ->
  timeAgo (Some v) #now =
  if now - t <? 0 then "in the future" else age_text (now - t) (toLocaleDateString #t).
Proof.
  intros Hv Ht Hst Hsn Hsd. unfold timeAgo.
  rewrite truthy_opt_nonempty, Ht by done.
  rewrite (real_int t) by done. rewrite sub_int, ltb_int by done.
  destruct (Z.ltb_spec (now - t) 0) as [|H0]; [done|].
  destruct (safe_div (now - t) 1000 H0 Hsd ltac:(lia)) as [H1 H1'].
  destruct (safe_div _ 60 H1' H1 ltac:(lia)) as [H2 H2']. destruct (safe_div _ 60 H2' H2 ltac:(lia)) as [H3 H3'].
  destruct (safe_div _ 24 H3' H3 ltac:(lia)) as [H4 H4'].
  rewrite !floor_div_int, !ltb_int by (done || lia). rewrite !Z.div_div by lia. rewrite !ltb_div by lia.
  unfold age_text. simpl (_ * _). done.
Qed.

Lemma time_ago_units_witness :
  @timeAgo utc_env (Some "2024-01-01T00:00:00Z") #1704078000000 = "3h ago".
Proof.
  rewrite (@time_ago_units utc_env "2024-01-01T00:00:00Z" 1704067200000 1704078000000) by (vm_compute; congruence || split; reflexivity).
  vm_compute. reflexivity.
Defined.
