(* ===== verification/Runbook.v ===== *)
(** * The runbook of a job ([features/jobs/lib/runbookModel.ts])

    What the job pipeline shows of each task: its stage, title, worker,
    attempts, progress and messages, the routes it used, the media it
    transfers, and the live transfer a WebSocket event reports.

    Percentages and attempts in range, the unit of a transfer, the preview
    URLs of a media entry, and which events are a job's live transfers. *)

From Stdlib Require Import Ascii ZArith Lia SpecFloat.
From stdpp Require Import base list strings option sets.
From S2P Require Import Prelude JsString JsNum JsInt JsBounds JsValue JsDate WebUrl JobTypes TaskRoutes.
From S2P Require Import JobUtils JsUri HttpRouting.

Inductive RunbookStageId := Prepare | Scrape | Download | Finish.

Definition RUNBOOK_STAGES : list (RunbookStageId * string) :=
  [(Prepare, "Prepare"); (Scrape, "Scrape"); (Download, "Download"); (Finish, "Finish")].

Definition ACTIVE_TASK_STATES : list string := ["claimed"; "running"; "saving_db"].
Definition TERMINAL_TASK_STATES : list string := ["completed"; "failed"; "cancelled"].

(** ** Unknown values *)

Definition asRecord (v : jsval) : option fields := match v with Some (VObj fs) => Some fs | _ => None end.

Definition finite_opt (n : num) : option num := if is_finite n then Some n else None.

Definition asNumber (v : jsval) : option num :=
  match v with
  | Some (VNum n) => finite_opt n
  | Some (VStr s) => if truthy (trim s) then finite_opt (number_of_string s) else None
  | _ => None
  end.

Definition asString (v : jsval) : option string :=
  match v with Some (VStr s) => truthy_opt (Some (trim s)) | _ => None end.

(** ** Routes *)

Section runbook_routes.
Context {U : UrlApi}.

Definition max_list (l : list num) : num := foldl math_max (S754_infinity true) l.

Definition attempted_numbers (task : TaskDetail) : list num :=
  let attempted := val_nullish (get_field (result_output task) "proxy_routes_attempted")
                               (get_field (td_result task ≫= prop "metrics") "proxy_routes_attempted") in
  omap (fun v => asNumber (Some v)) (as_arr attempted ?? []).

(** [None]: the routes could not be read. *)
Definition taskHopUsed (task : TaskDetail) (networkProxies : option (list NetworkProxy)) : option num :=
  summary ← getTaskProxySummary task networkProxies;
  Some
    match usedHopNumber summary with
    | Some n => #n
    | None =>
        match attempted_numbers task with
        | [] => if hasHops summary then #1 else #0
        | l => max_list l ⊕ #1
        end
    end.

(** [/\bgeo(?:graphical)?[-_\s]?(?:block(?:ed|ing)?|restrict(?:ed|ion)?)\b/i] *)
Definition is_word (c : ascii) : bool := is_alnum c || Ascii.eqb c "_".

Definition word_ends (s : string) : bool := match s with String c _ => negb (is_word c) | EmptyString => true end.

Definition geo_words : list string := ["blocked"; "blocking"; "block"; "restricted"; "restriction"; "restrict"].

Definition geo_at (s : string) : bool :=
  match literal_i "geo" s with
  | None => false
  | Some r =>
      let r1 := literal_i "graphical" r ?? r in
      let r2 := match r1 with
                | String c t => if is_space c || Ascii.eqb c "-" || Ascii.eqb c "_" then t else r1
                | EmptyString => r1
                end in
      some (fun w => match literal_i w r2 with Some t => word_ends t | None => false end) geo_words
  end.

Fixpoint geo_search (after_word : bool) (s : string) : bool :=
  (negb after_word && geo_at s) ||
  match s with String c r => geo_search (is_word c) r | EmptyString => false end.

Definition hasGeoBlockedText (v : jsval) : bool := match v with Some (VStr s) => geo_search false s | _ => false end.

Definition explicit_flag (v : jsval) : bool := match v with Some (VBool true) => true | _ => hasGeoBlockedText v end.

Definition result_field (task : TaskDetail) (key : string) : jsval := td_result task ≫= prop key.
Definition result_part (task : TaskDetail) (part key : string) : jsval := get_field (result_field task part) key.
Definition payload_field (task : TaskDetail) (key : string) : jsval := td_payload task ≫= prop key.

Definition explicitFlags (task : TaskDetail) : list jsval :=
  [result_part task "output" "geo_blocked"; result_part task "output" "geoblocked";
   result_part task "metrics" "geo_blocked"; result_part task "metrics" "geoblocked";
   payload_field task "geo_blocked"; payload_field task "geoblocked"].

Definition geo_messages (task : TaskDetail) : list jsval :=
  [VStr <$> td_error task; result_field task "message";
   result_part task "output" "message"; result_part task "output" "reason"; result_part task "output" "error";
   result_part task "metrics" "message"; result_part task "metrics" "reason"; result_part task "metrics" "error"].

(** A failed hop of another country before the used one. *)
Definition geo_fallback (summary : TaskProxySummary) : bool :=
  match truthy_opt (activeHop summary ≫= country_code), usedHopNumber summary with
  | Some active, Some used =>
      if used <=? 1 then false
      else some (fun h => bool_decide (hop_state h = HopFailed) &&
                          match truthy_opt (country_code h) with Some c => negb (c =s active) | None => false end)
             (take (Z.to_nat (used - 1)) (hops summary))
  | _, _ => false
  end.

Definition taskIsGeoBlocked (task : TaskDetail) (networkProxies : option (list NetworkProxy)) : option bool :=
  if some explicit_flag (explicitFlags task) then Some true
  else if some hasGeoBlockedText (geo_messages task) then Some true
  else geo_fallback <$> getTaskProxySummary task networkProxies.
End runbook_routes.

(** ** Stages and titles *)

Definition taskTypeStage (taskTypeValue : string) : RunbookStageId :=
  let taskType := to_lower taskTypeValue in
  if includes taskType "download" then Download
  else if includes taskType "scrape" then Scrape
  else if includes taskType "refresh" || includes taskType "auth" ||
          includes taskType "prepare" || includes taskType "resolve" then Prepare
  else Finish.

Definition taskStage (task : TaskDetail) : RunbookStageId := taskTypeStage (td_task_type task).

Definition is_lower_letter (c : ascii) : bool := is_alpha c && Ascii.eqb (lower_char c) c.
Definition is_upper_letter (c : ascii) : bool := is_alpha c && negb (is_lower_letter c).

(** [.replace(/([a-z])([A-Z])/g, '$1 $2')] *)
Fixpoint split_words (s : string) : string :=
  match s with
  | String a ((String b _) as r) =>
      if is_lower_letter a && is_upper_letter b then String a (String " " (split_words r)) else String a (split_words r)
  | _ => s
  end.

Definition taskTitle (task : TaskDetail) : string :=
  let label := taskTypeLabel (str_or (td_task_type task) "task") in
  let contentType := truthy_opt ((fun c => trim (split_words c)) <$> td_content_type task) in
  let normalized := to_lower label in
  match contentType with
  | Some c =>
      if includes normalized "download" then "Download " +:+ c
      else if includes normalized "scrape" then "Scrape " +:+ c
      else label
  | None => label
  end.

(** ** Worker, attempts and progress *)

Definition taskWorker (task : TaskDetail) : string :=
  (asString (VStr <$> td_worker_id task) ??? asString (result_field task "worker_id") ???
   asString (result_part task "metrics" "worker_id") ??? asString (payload_field task "worker_id")) ?? "unclaimed".

(** Current and maximum attempts. *)
Definition taskAttempt (task : TaskDetail) : num * num :=
  (math_max #1 (asNumber (val_nullish (result_field task "attempt") (payload_field task "attempt")) ?? #1),
   math_max #1 (asNumber (val_nullish (result_field task "max_attempts") (payload_field task "max_attempts")) ?? #3)).

Definition taskAuthId (task : TaskDetail) : option num := asNumber (payload_field task "auth_id").

(** [Math.min(100, Math.max(0, Math.round(x)))] *)
Definition clamp_percent (x : num) : num := math_min #100 (math_max #0 (math_round x)).

Definition taskProgressPercent (task : TaskDetail) : num :=
  let fallback :=
    match td_items_total task with
    | Some total =>
        if num_truthy total && (total >! #0) then clamp_percent (td_items_processed task ⊘ total ⊗ #100)
        else if to_lower (td_status task) =s "completed" then #100 else #0
    | None => if to_lower (td_status task) =s "completed" then #100 else #0
    end in
  match asNumber (Some (VNum (td_progress task))) with
  | Some raw => if raw >! #0 then clamp_percent (if raw <=! #1 then raw ⊗ #100 else raw) else fallback
  | None => fallback
  end.

Definition taskDuration `{Env} (task : TaskDetail) (now : num) : string :=
  match truthy_opt (td_started_at task) with
  | None => "Waiting"
  | Some s =>
      let start := date_ms s in
      let finish := match truthy_opt (td_completed_at task) with Some e => date_ms e | None => now end in
      if negb (is_finite start) || negb (is_finite finish) || (finish <! start) then "In progress"
      else formatDuration (math_max #0 (math_round ((finish ⊖ start) ⊘ #1000)))
  end.

Definition status_message (status : string) : string :=
  if status =s "completed" then "Task completed successfully."
  else if status =s "failed" then "Task failed without additional error details."
  else if status =s "saving_db" then "Saving this task result to the database."
  else if str_in status ["running"; "claimed"] then "Live task telemetry will update here as work progresses."
  else if str_in status ["blocked"; "deferred"] then "Waiting for an upstream requirement before this task can continue."
  else "Waiting for a worker to claim this task.".

Definition taskMessage (task : TaskDetail) : string :=
  (truthy_opt (td_error task) ??? asString (result_field task "message")) ?? status_message (to_lower (td_status task)).

Definition taskStatusTone (status : string) : string :=
  let normalized := to_lower status in
  if normalized =s "completed" then "complete"
  else if str_in normalized ACTIVE_TASK_STATES then "live"
  else if str_in normalized ["failed"; "cancelled"] then "failed"
  else if str_in normalized ["blocked"; "deferred"] then "blocked"
  else "queued".

Definition resultMetrics (task : option TaskDetail) : fields :=
  asRecord (task ≫= fun t => result_field t "metrics") ?? [].

Definition downloadResults (task : option TaskDetail) : list fields :=
  omap (fun v => asRecord (Some v)) (as_arr (task ≫= fun t => result_part t "output" "download_results") ?? []).

Definition dependencyIds (task : TaskDetail) : list string :=
  let raw := val_nullish (payload_field task "depends_on") (payload_field task "dependencies") in
  match as_arr raw with
  | Some l => keep truthy (map to_str l)
  | None => match asString raw with Some s => [s] | None => [] end
  end.

(** ** Transfers and files *)

(** [while (amount >= 1024 && unitIndex < units.length - 1)]: at most one step
    per remaining unit. *)
Fixpoint scale_bytes (amount : num) (unit : string) (larger : list string) : num * string :=
  match larger with
  | next :: rest => if amount >=! #1024 then scale_bytes (amount ⊘ #1024) next rest else (amount, unit)
  | [] => (amount, unit)
  end.

Definition formatTransferBytes (v : option num) : string :=
  match v with
  | None => "—"
  | Some value =>
      if value <! #0 then "—"
      else if value <! #1024 then show_num (math_round value) +:+ " B"
      else
        let '(amount, unit) := scale_bytes (value ⊘ #1024) "KB" ["MB"; "GB"; "TB"] in
        (if amount >=! #100 then to_fixed 0 amount else to_fixed 1 amount) +:+ " " +:+ unit
  end.

Definition formatRate (v : option num) : string :=
  match v with
  | Some value => if value >! #0 then formatTransferBytes (Some value) +:+ "/s" else "—"
  | None => "—"
  end.

Definition last_of {A} (l : list A) : option A := l !! (length l - 1)%nat.

Definition fileName (value : option string) : option string :=
  v ← truthy_opt value;
  let withoutQuery := head (split "?" v) ?? EmptyString in
  raw ← last_of (keep truthy (split "/" (replace_char "\" "/" withoutQuery)));
  Some (decodeURIComponent raw ?? raw).

Inductive MediaKind := Video | Audio | Image | File.

Definition mediaKind (path : option string) : MediaKind :=
  let extension := to_lower ((path ≫= fun p => last_of (split "." p)) ?? EmptyString) in
  if str_in extension ["mp4"; "mkv"; "mov"; "webm"; "m4v"] then Video
  else if str_in extension ["mp3"; "m4a"; "aac"; "wav"; "flac"; "ogg"] then Audio
  else if str_in extension ["jpg"; "jpeg"; "png"; "gif"; "webp"; "avif"] then Image
  else File.

Definition mediaGlyph (kind : MediaKind) : string :=
  match kind with Video => "▶" | Audio => "≋" | Image => "◇" | File => "□" end.

(** ** Media entries *)

Record RunbookMediaEntry := {
  entry_key : string;
  resultIndex : option num;
  mediaId : option string;
  entry_path : option string;
  entry_url : option string;
  entry_status : string;
  processedBytes : option num;
  expectedBytes : option num;
  speedBps : option num;
  isLive : bool
}.

Definition normalizedMediaState (status : string) (live : bool) : string :=
  let n := to_lower status in
  if includes n "complete" || includes n "downloaded" || includes n "success" then "complete"
  else if live || includes n "progress" || includes n "downloading" then "downloading"
  else if includes n "queue" || includes n "pending" then "queued"
  else if includes n "fail" || includes n "error" || includes n "retry" then "retrying"
  else if includes n "skip" then "skipped"
  else "complete".

Definition mediaProgress (entry : RunbookMediaEntry) : num :=
  let by_state := if normalizedMediaState (entry_status entry) (isLive entry) =s "complete" then #100 else #0 in
  match processedBytes entry, expectedBytes entry with
  | Some processed, Some expected =>
      if expected >! #0 then clamp_percent (processed ⊘ expected ⊗ #100) else by_state
  | _, _ => by_state
  end.

(** The candidates in order; [None] of a candidate is a [null] URL. *)
Definition preview_candidates `{Browser} (page : Page) (entry : RunbookMediaEntry) (task : TaskDetail) (jobId : string) :
    list (option (option string)) :=
  let site := truthy_opt (to_lower <$> td_site task) ?? "onlyfans" in
  let proxy := getMediaProxyUrl page (entry_url entry) site (taskAuthId task) in
  let has_url := match truthy_opt (entry_url entry) with Some _ => true | None => false end in
  if isLive entry && has_url then [proxy]
  else
    let isProfileTask := to_lower (td_content_type task ?? EmptyString) =s "profile" in
    let numericMediaId := match truthy_opt (mediaId entry) with Some m => number_of_string m | None => nan end in
    match resultIndex entry, truthy_opt (td_task_id task) with
    | Some i, Some id => [Some <$> getJobTaskResultFileUrl page jobId id i]
    | _, _ => []
    end ++
    (if isProfileTask && has_url then [proxy] else []) ++
    (if is_finite numericMediaId then [Some <$> getMediaFileUrl page site numericMediaId] else []) ++
    (if negb isProfileTask && has_url then [proxy] else []).

(** [[...new Set(candidates.filter(Boolean))]]; [None] when building one threw. *)
Definition mediaPreviewUrls `{Browser} (page : Page) (entry : RunbookMediaEntry) (task : TaskDetail) (jobId : string) :
    option (list string) :=
  candidates ← mapM id (preview_candidates page entry task jobId);
  Some (uniq (omap truthy_opt candidates)).

(** ** Live transfers *)

Record LiveTransfer := {
  lt_taskId : string;
  lt_mediaId : option string;
  lt_path : option string;
  lt_url : option string;
  lt_status : option string;
  lt_contentType : option string;
  lt_workerId : option string;
  lt_processedBytes : option num;
  lt_expectedBytes : option num;
  lt_mediaProcessedBytes : option num;
  lt_mediaExpectedBytes : option num;
  lt_speedBps : option num;
  lt_completed : option num;
  lt_failed : option num;
  lt_total : option num;
  lt_timestamp : option string
}.

Definition isDownloadEvent (event : fields) : bool :=
  let eventName := asString (prop "event" event) ??? asString (prop "type" event) in
  opt_eqb eventName "download_progress" ||
  opt_eqb (asString (prop "type" event)) "download_status" ||
  match eventName with Some n => starts_with n "download_" | None => false end.

Definition parseLiveTransfer (event : option fields) (jobId : string) : option LiveTransfer :=
  e ← event;
  if negb (opt_eqb (asString (val_nullish (prop "job_id" e) (prop "id" e))) jobId) then None
  else if negb (isDownloadEvent e) then None
  else
    taskId ← asString (prop "task_id" e);
    let eventName := asString (prop "event" e) ??? asString (prop "type" e) in
    let num_of key := asNumber (prop key e) in
    Some {|
      lt_taskId := taskId;
      lt_mediaId := match prop "media_id" e with None | Some VNull => None | Some v => Some (to_str v) end;
      lt_path := asString (prop "path" e);
      lt_url := asString (prop "url" e);
      lt_status := asString (prop "status" e) ??? eventName;
      lt_contentType := asString (prop "content_type" e);
      lt_workerId := asString (prop "worker_id" e);
      lt_processedBytes := asNumber (val_nullish (prop "processed_bytes" e) (prop "total_bytes" e));
      lt_expectedBytes := num_of "expected_bytes";
      lt_mediaProcessedBytes := num_of "media_processed_bytes";
      lt_mediaExpectedBytes := num_of "media_expected_bytes";
      lt_speedBps := num_of "speed_bps";
      lt_completed := num_of "completed";
      lt_failed := num_of "failed";
      lt_total := num_of "total";
      lt_timestamp := asString (prop "timestamp" e)
    |}.

(** * What the runbook promises *)

(** ** Percentages *)

Definition is_percent (x : num) : Prop := nneg x /\ (x >! #100) = false.

Lemma clamp_percent_ok x : is_percent (clamp_percent x).
Proof. split; [apply nneg_min; [done|apply nneg_max]|apply min_cap; done]. Qed.

Lemma percent_const : is_percent #0 /\ is_percent #100.
Proof. repeat split. Qed.

#[export] Hint Resolve clamp_percent_ok : js.

Lemma max_one x : real x -> (#1 <=! math_max #1 x) = true.
Proof. intros H. apply math_max_ge_l; [done|exact H]. Qed.

Lemma asNumber_finite v n : asNumber v = Some n -> is_finite n = true.
Proof.
  unfold asNumber, finite_opt. intros H. destruct v as [[| |x|s| |]|]; try done.
  - destruct (is_finite x) eqn:E; [|done]. congruence.
  - destruct (truthy (trim s)); [|done]. destruct (is_finite (number_of_string s)) eqn:E; [|done]. congruence.
Qed.

Lemma asNumber_real v d : is_finite d = true -> real (asNumber v ?? d).
Proof.
  intros Hd. assert (Hf : is_finite (asNumber v ?? d) = true).
  { destruct (asNumber v) as [n|] eqn:E; [apply (asNumber_finite v), E|exact Hd]. }
  destruct (asNumber v ?? d); done.
Qed.

(** The percentages the runbook shows are between 0 and 100 whatever the
    server sends, a task's attempt and its maximum are at least one, and a
    completed task that reports no progress and no items shows 100. *)
Theorem runbook_numbers_bounded task entry :
  is_percent (taskProgressPercent task) /\ is_percent (mediaProgress entry) /\
  (#1 <=! (taskAttempt task).1) = true /\ (#1 <=! (taskAttempt task).2) = true /\
  (td_progress task = #0 -> td_items_total task = None -> to_lower (td_status task) = "completed" ->
   taskProgressPercent task = #100).
Proof.
  destruct percent_const as [P0 P100]. split; [|split; [|split; [|split]]].
  - unfold taskProgressPercent.
    destruct (asNumber (Some (VNum (td_progress task)))) as [raw|]; [destruct (raw >! #0); [auto with js|]|];
      (destruct (td_items_total task) as [total|]; [destruct (_ && _); [auto with js|]|]; destruct (_ =s _); done).
  - unfold mediaProgress. destruct (processedBytes entry), (expectedBytes entry);
      try (destruct (_ =s _); done). destruct (_ >! #0); [auto with js|destruct (_ =s _); done].
  - apply max_one, asNumber_real. done.
  - apply max_one, asNumber_real. done.
  - intros Hp Ht Hs. unfold taskProgressPercent. rewrite Hp, Ht, Hs. done.
Qed.

Definition demo_entry : RunbookMediaEntry := {|
  entry_key := "k"; resultIndex := Some #0; mediaId := Some "42"; entry_path := Some "a/b.mp4";
  entry_url := Some "https://cdn.example.test/b.mp4"; entry_status := "complete";
  processedBytes := Some #10; expectedBytes := Some #4; speedBps := None; isLive := false |}.

Lemma runbook_numbers_bounded_witness :
  let task := demo_task "completed" None [] None [] in
  mediaProgress demo_entry = #100 /\ is_percent (taskProgressPercent task) /\
  taskProgressPercent (Build_TaskDetail None None "x" "Completed" None None None None None None None #0 #0 None None None None None None None None) = #100.
Proof.
  split; [vm_compute; reflexivity|]. split.
  - apply (runbook_numbers_bounded (demo_task "completed" None [] None []) demo_entry).
  - apply (runbook_numbers_bounded
      (Build_TaskDetail None None "x" "Completed" None None None None None None None #0 #0 None None None None None None None None) demo_entry);
      reflexivity.
Defined.

(** ** Units *)

(** [n] divisions by 1024. *)
Definition divided (n : nat) (x : num) : num := Nat.iter n (fun y => y ⊘ #1024) x.

Lemma divided_S n x : divided (S n) x = divided n (x ⊘ #1024).
Proof. unfold divided. rewrite Nat.iter_succ_r. done. Qed.

Lemma scale_spec larger : forall x unit,
  exists n, (n <= length larger)%nat /\ scale_bytes x unit larger = (divided n x, (unit :: larger) !!! n) /\
    (forall k, (k < n)%nat -> (divided k x >=! #1024) = true) /\
    (n = length larger \/ (divided n x >=! #1024) = false).
Proof.
  induction larger as [|next rest IH]; intros x unit; simpl.
  - exists 0%nat. split; [lia|]. split; [done|]. split; [lia|]. auto.
  - destruct (x >=! #1024) eqn:E.
    + destruct (IH (x ⊘ #1024) next) as (n & Hn & Hs & Hk & Hl). exists (S n).
      split; [lia|]. rewrite divided_S. split; [exact Hs|]. split.
      * intros [|k] Hk'; [exact E|]. rewrite divided_S. apply Hk. lia.
      * destruct Hl as [->|]; auto.
    + exists 0%nat. split; [lia|]. split; [done|]. split; [lia|]. right. exact E.
Qed.

(** A byte count of a kilobyte or more is shown in the largest unit up to
    TB in which it is at least one: it was divided by 1024 once more than the
    unit's rank, each division but the last left 1024 or more, and what is left
    is below 1024 unless the unit is TB. *)
Theorem transfer_bytes_unit x :
  (x <! #0) = false -> (x <! #1024) = false ->
  exists n unit,
    (["KB"; "MB"; "GB"; "TB"] !! n) = Some unit /\
    (let amount := divided (S n) x in
     formatTransferBytes (Some x) = (if amount >=! #100 then to_fixed 0 amount else to_fixed 1 amount) +:+ " " +:+ unit /\
     (forall k, (0 < k <= n)%nat -> (divided k x >=! #1024) = true) /\
     (n = 3%nat \/ (amount >=! #1024) = false)).
Proof.
  intros H0 H1. destruct (scale_spec ["MB"; "GB"; "TB"] (x ⊘ #1024) "KB") as (n & Hn & Hs & Hk & Hl).
  simpl in Hn. exists n, (["KB"; "MB"; "GB"; "TB"] !!! n). split.
  - apply list_lookup_lookup_total_lt. simpl. lia.
  - cbv zeta. rewrite divided_S. split; [|split].
    + unfold formatTransferBytes. rewrite H0, H1, Hs. done.
    + intros [|k] Hk'; [lia|]. rewrite divided_S. apply Hk. lia.
    + destruct Hl as [->|]; auto.
Qed.

Lemma transfer_bytes_unit_witness :
  formatTransferBytes (Some #1610612736) = "1.5 GB" /\
  exists n unit, (["KB"; "MB"; "GB"; "TB"] !! n) = Some unit /\
    (n = 3%nat \/ (divided (S n) #1610612736 >=! #1024) = false).
Proof.
  split; [vm_compute; reflexivity|].
  destruct (transfer_bytes_unit #1610612736 eq_refl eq_refl) as (n & unit & Hu & _ & _ & Hl).
  exists n, unit. split; [exact Hu|exact Hl].
Defined.

(** ** Previews *)

(** The preview URLs of a media entry are distinct and non-empty, are
    exactly the non-empty candidates, the first candidate first, and building
    them fails only if one of the candidates' URLs cannot be built; a live
    entry with a URL is previewed through the media proxy alone. *)
Theorem preview_urls_spec {B : Browser} page entry task jobId :
  (mediaPreviewUrls page entry task jobId = None <-> None ∈ preview_candidates page entry task jobId) /\
  (forall urls, mediaPreviewUrls page entry task jobId = Some urls ->
     NoDup urls /\
     (forall u, u ∈ urls <-> u <> EmptyString /\ Some (Some u) ∈ preview_candidates page entry task jobId) /\
     (isLive entry = true -> truthy_opt (entry_url entry) <> None -> (length urls <= 1)%nat)).
Proof.
  unfold mediaPreviewUrls. set (cs := preview_candidates page entry task jobId).
  destruct (mapM id cs) as [l|] eqn:E.
  - apply mapM_Some in E. split.
    + split; [done|]. intros Hin. exfalso. apply list_elem_of_lookup in Hin as [i Hi].
      destruct (Forall2_lookup_l _ _ _ _ _ E Hi) as (y & _ & Hy). done.
    + intros urls H. injection H as <-. split; [apply NoDup_uniq|]. split.
      * intros u. rewrite elem_of_uniq, list_elem_of_omap. split.
        -- intros (c & Hc & Hu). apply truthy_opt_Some in Hu as [-> Hne]. split; [done|].
           apply list_elem_of_lookup in Hc as [i Hi]. destruct (Forall2_lookup_r _ _ _ _ _ E Hi) as (c' & Hc' & Hy).
           unfold id in Hy. subst c'. eapply list_elem_of_lookup_2, Hc'.
        -- intros [Hne Hin]. apply list_elem_of_lookup in Hin as [i Hi].
           destruct (Forall2_lookup_l _ _ _ _ _ E Hi) as (y & Hy & Hid). unfold id in Hid. injection Hid as <-.
           exists (Some u). split; [eapply list_elem_of_lookup_2, Hy|apply truthy_opt_nonempty, Hne].
      * intros Hl Hu. assert (Hcs : length cs = 1%nat).
        { unfold cs, preview_candidates. rewrite Hl. destruct (truthy_opt (entry_url entry)); done. }
        apply Forall2_length in E. rewrite Hcs in E. destruct l as [|c [|]]; try done.
        simpl. destruct (truthy_opt c); simpl; lia.
  - apply mapM_None in E. split; [|done]. split; [|done]. intros _.
    apply Exists_exists in E as (x & Hx & Hn). unfold id in Hn. subst x. exact Hx.
Qed.

Definition demo_browser : Browser := {|
  resolve_pathname u _ := Some u;
  search_params entries := join "&" (map (fun e => fst e +:+ "=" +:+ encodeURIComponent (snd e)) entries) |}.

Definition demo_page : Page := {|
  window := Some {| pathname := "/b/nas/jobs"; origin := "http://h" |}; scopedConnectionId := None |}.

Lemma preview_urls_spec_witness :
  exists urls, @mediaPreviewUrls demo_browser demo_page demo_entry (demo_task "completed" None [] None []) "j1" = Some urls /\
    urls = ["http://h/b/nas/api/v1/jobs/j1/tasks/t1/files/0"; "http://h/b/nas/api/v1/media/stream/onlyfans/42";
            "/b/nas/api/v1/media/proxy?url=https%3A%2F%2Fcdn.example.test%2Fb.mp4&site=onlyfans"] /\ NoDup urls.
Proof.
  eexists. split; [vm_compute; reflexivity|]. split; [reflexivity|].
  refine (proj1 (proj2 (@preview_urls_spec demo_browser demo_page demo_entry (demo_task "completed" None [] None []) "j1") _ _)).
  vm_compute. reflexivity.
Defined.

(** ** Live transfers *)

Definition all_finite (t : LiveTransfer) : Prop :=
  Forall (fun n => forall x, n = Some x -> is_finite x = true)
    [lt_processedBytes t; lt_expectedBytes t; lt_mediaProcessedBytes t; lt_mediaExpectedBytes t;
     lt_speedBps t; lt_completed t; lt_failed t; lt_total t].

(** An event is taken for a live transfer of a job exactly when it names
    that job, is a download event and names a task; every number it carries is
    then finite, and the file's sizes are only those reported for the file,
    never the task's totals. *)
Theorem live_transfer_accepted e jobId :
  ((exists t, parseLiveTransfer (Some e) jobId = Some t) <->
   asString (val_nullish (prop "job_id" e) (prop "id" e)) = Some jobId /\
   isDownloadEvent e = true /\ asString (prop "task_id" e) <> None) /\
  (forall t, parseLiveTransfer (Some e) jobId = Some t ->
     asString (prop "task_id" e) = Some (lt_taskId t) /\ all_finite t /\
     (prop "media_processed_bytes" e = None -> lt_mediaProcessedBytes t = None) /\
     (prop "media_expected_bytes" e = None -> lt_mediaExpectedBytes t = None)).
Proof.
  unfold parseLiveTransfer. cbn [mbind option_bind].
  assert (Hj : opt_eqb (asString (val_nullish (prop "job_id" e) (prop "id" e))) jobId = true <->
    asString (val_nullish (prop "job_id" e) (prop "id" e)) = Some jobId).
  { unfold opt_eqb. destruct (asString _) as [s|]; [|done]. rewrite str_eqb_eq. naive_solver. }
  destruct (opt_eqb _ jobId); simpl negb; cbv iota.
  2: { split; [split; [intros [t H]; done|intros [H _]; apply Hj in H; done]|done]. }
  destruct (isDownloadEvent e); simpl negb; cbv iota.
  2: { split; [split; [intros [t H]; done|intros (_ & H & _); done]|done]. }
  destruct (asString (prop "task_id" e)) as [id|]; cbn [mbind option_bind].
  2: { split; [split; [intros [t H]; done|intros (_ & _ & H); done]|done]. }
  split.
  - split; [|eauto]. intros _. split; [apply Hj; done|done].
  - intros t H. injection H as <-. split; [done|]. split.
    + unfold all_finite. repeat constructor; intros x; apply asNumber_finite.
    + simpl. split; intros ->; done.
Qed.

Lemma live_transfer_accepted_witness :
  let e := [("event", VStr "download_progress"); ("job_id", VStr "job-1"); ("task_id", VStr "task-1");
            ("processed_bytes", VNum #6764573491); ("expected_bytes", VNum #45311913164)] in
  exists t, parseLiveTransfer (Some e) "job-1" = Some t /\ lt_mediaExpectedBytes t = None.
Proof.
  eexists. split; [vm_compute; reflexivity|].
  refine (proj2 (proj2 (proj2 (proj2 (live_transfer_accepted
    [("event", VStr "download_progress"); ("job_id", VStr "job-1"); ("task_id", VStr "task-1");
     ("processed_bytes", VNum #6764573491); ("expected_bytes", VNum #45311913164)] "job-1") _ _))) _);
    vm_compute; reflexivity.
Defined.
