(* ===== verification/RuntimeChart.v ===== *)
(** * Runtime charts of a job ([features/jobs/lib/diagnosticsChartUtils.ts])

    The throughput timeline built from the backend's per-second samples, its
    buckets for long jobs, the rate over a trailing window, and the chart's
    labels.

    The timeline's intervals, the conservation of completions, the buckets as a
    partition of the points, and the window of the rolling rate. *)

From Stdlib Require Import Ascii ZArith Lia SpecFloat Sorted.
From stdpp Require Import base list strings option sets.
From S2P Require Import Prelude JsString JsNum JsInt JsValue JsDate JobTypes JsDiv JsBounds.

Definition MAX_CHART_LINE_GAP_MS : num := #5000.
Definition MIN_RUNTIME_SAMPLE_INTERVAL_MS : num := #500.

(** [Number(x.toFixed(n))] *)
Definition rounded (digits : nat) (x : num) : num := number_of_string (to_fixed digits x).

Record RuntimeThroughputPoint := {
  timestamp : num;
  intervalStartTimestamp : num;
  intervalMs : num;
  completedDelta : num;
  throughput : option num;
  inflight : num
}.

(** ** The timeline *)

Definition interval_after (previous : option JobRuntimeSample) (sample : JobRuntimeSample) : num :=
  match previous with Some p => timestamp_ms sample ⊖ timestamp_ms p | None => #0 end.

Definition timeline_point (previous : option JobRuntimeSample) (sample : JobRuntimeSample) : RuntimeThroughputPoint :=
  let interval := interval_after previous sample in
  let delta := match previous with
    | Some p => math_max #0 (sample_completed sample ⊕ sample_failed sample ⊖ sample_completed p ⊖ sample_failed p)
    | None => #0
    end in
  {| timestamp := timestamp_ms sample;
     intervalStartTimestamp := match previous with Some p => timestamp_ms p | None => timestamp_ms sample end;
     intervalMs := interval;
     completedDelta := delta;
     throughput := match previous with
       | Some _ => if interval <=! MAX_CHART_LINE_GAP_MS then Some (rounded 1 (delta ⊘ (interval ⊘ #1000))) else None
       | None => None
       end;
     inflight := sample_inflight sample |}.

(** A sample stamped too soon after the last kept one is skipped. *)
Definition too_soon (previous : option JobRuntimeSample) (sample : JobRuntimeSample) : bool :=
  match previous with
  | Some p => timestamp_ms sample ⊖ timestamp_ms p <! MIN_RUNTIME_SAMPLE_INTERVAL_MS
  | None => false
  end.

Fixpoint timeline_from (previous : option JobRuntimeSample) (samples : list JobRuntimeSample) : list RuntimeThroughputPoint :=
  match samples with
  | [] => []
  | sample :: rest =>
      if too_soon previous sample then timeline_from previous rest
      else timeline_point previous sample :: timeline_from (Some sample) rest
  end.

Definition buildRuntimeThroughputTimeline (samples : list JobRuntimeSample) : list RuntimeThroughputPoint :=
  timeline_from None samples.

(** ** Buckets *)

Definition RUNTIME_CHART_TARGET_POINTS : num := #120.

Definition RUNTIME_BUCKET_STEPS_MS : list num :=
  [#1000; #5000; #10000; #15000; #30000; #60000; #120000; #300000; #600000; #900000; #1800000; #3600000].

Definition chooseRuntimeBucketMs (spanMs : num) : num :=
  find_first (fun step => spanMs ⊘ step <=! RUNTIME_CHART_TARGET_POINTS) RUNTIME_BUCKET_STEPS_MS ?? #3600000.

Definition formatBucketDuration (ms : num) : string :=
  if (ms >=! #3600000) && (num_rem ms #3600000 =! #0) then show_num (ms ⊘ #3600000) +:+ "h"
  else if (ms >=! #60000) && (num_rem ms #60000 =! #0) then show_num (ms ⊘ #60000) +:+ "m"
  else show_num (math_round (ms ⊘ #1000)) +:+ "s".

(** A [Map] from bucket numbers to their points, in insertion order; a member
    is pushed onto the array of its bucket. *)
Fixpoint add_member {A} (index : num) (x : A) (grouped : list (num * list A)) : list (num * list A) :=
  match grouped with
  | [] => [(index, [x])]
  | (k, members) :: rest =>
      if same_value_zero k index then (k, members ++ [x]) :: rest
      else (k, members) :: add_member index x rest
  end.

Definition group_points {A} (key : A -> num) (points : list A) : list (num * list A) :=
  foldl (fun grouped p => add_member (key p) p grouped) [] points.

Definition bucket_index (origin bucketMs : num) (p : RuntimeThroughputPoint) : num :=
  math_floor ((timestamp p ⊖ origin) ⊘ bucketMs).

Definition measured (p : RuntimeThroughputPoint) : bool := match throughput p with Some _ => true | None => false end.

Definition sum_num {A} (f : A -> num) (l : list A) : num := foldl (fun s x => s ⊕ f x) #0 l.

Definition rate_over (completed coveredMs : num) : option num :=
  if coveredMs >! #0 then Some (rounded 1 (completed ⊘ (coveredMs ⊘ #1000))) else None.

Definition bucket_point (origin bucketMs : num) (bucket : num * list RuntimeThroughputPoint) : RuntimeThroughputPoint :=
  let '(index, members) := bucket in
  let m := keep measured members in
  {| timestamp := (timestamp <$> members !! (length members - 1)%nat) ?? nan;
     intervalStartTimestamp := origin ⊕ index ⊗ bucketMs;
     intervalMs := sum_num intervalMs m;
     completedDelta := sum_num completedDelta m;
     throughput := rate_over (sum_num completedDelta m) (sum_num intervalMs m);
     inflight := math_round (sum_num inflight members ⊘ #(Z.of_nat (length members))) |}.

Definition buckets (bucketMs : num) (points : list RuntimeThroughputPoint) : list (num * list RuntimeThroughputPoint) :=
  match points with
  | [] => []
  | first :: _ => group_points (bucket_index (intervalStartTimestamp first) bucketMs) points
  end.

Definition bucketRuntimeThroughputTimeline (points : list RuntimeThroughputPoint) (bucketMs : num) :
    list RuntimeThroughputPoint :=
  match points with
  | [] => points
  | first :: _ =>
      if bucketMs <=! #1000 then points
      else map (bucket_point (intervalStartTimestamp first) bucketMs) (buckets bucketMs points)
  end.

(** ** The rolling rate *)

(** The loop from [index] down: it stops at the first interval that ended before
    the window and skips those that began before it or were not measured. *)
Fixpoint rolling_sums (cutoff : num) (backwards : list RuntimeThroughputPoint) (completed coveredMs : num) : num * num :=
  match backwards with
  | [] => (completed, coveredMs)
  | interval :: rest =>
      if timestamp interval <=! cutoff then (completed, coveredMs)
      else if negb (measured interval) || (intervalStartTimestamp interval <! cutoff) then
        rolling_sums cutoff rest completed coveredMs
      else rolling_sums cutoff rest (completed ⊕ completedDelta interval) (coveredMs ⊕ intervalMs interval)
  end.

Definition rolling_at (windowMs : num) (points : list RuntimeThroughputPoint) (index : nat) (point : RuntimeThroughputPoint) : option num :=
  if negb (measured point) then None
  else
    let '(completed, coveredMs) :=
      rolling_sums (timestamp point ⊖ windowMs) (reverse (take (S index) points)) #0 #0 in
    rate_over completed coveredMs.

Definition rollingRuntimeThroughput (points : list RuntimeThroughputPoint) (windowMs : num) : list (option num) :=
  imap (rolling_at windowMs points) points.

(** ** Labels *)

Definition formatChartClock `{Env} (t : num) : string := toLocaleTimeString_seconds t.

(** The object literal's own keys. *)
Definition refill_labels : JMap.t string := JMap.of_list
  [("queued", "Refill queued"); ("materializer_dequeued", "Materializer dequeued");
   ("materializer_started", "Materializer started"); ("archive_started", "Archive started");
   ("archive_finished", "Archive finished"); ("tasks_published", "Ready tasks published");
   ("tasks_activated", "Tasks activated"); ("runtime_controls", "Effective refill controls");
   ("cleanup_started", "Cleanup started"); ("cleanup_finished", "Cleanup finished");
   ("manifest_read_started", "Manifest read started"); ("manifest_read_finished", "Manifest read finished");
   ("publication_started", "Publication started"); ("refill_stopped", "Refill stopped")].

Definition refillStageLabel (stage : string) : string :=
  JMap.get stage refill_labels ?? replace_char "_" " " stage.

Definition formatElapsedMs (v : num) : string :=
  if v <! #1000 then show_num v +:+ " ms" else to_fixed 2 (v ⊘ #1000) +:+ " s".

Definition refillBatchLabel `{Env} (event : MPSRefillTraceEvent) : string :=
  match re_ready_added event with
  | Some n => number_toLocaleString n +:+ " ready"
  | None =>
      match re_task_count event with
      | None => "—"
      | Some n =>
          if re_stage event =s "archive_started" then number_toLocaleString n +:+ " to archive"
          else if re_stage event =s "archive_finished" then number_toLocaleString n +:+ " archived"
          else number_toLocaleString n +:+ " tasks"
      end
  end.

(** * What the runtime charts promise *)

(** ** The timeline *)

Definition demo_sample (t completed : Z) : JobRuntimeSample := {|
  cursor := EmptyString; timestamp_ms := #t; sample_total := #10000; sample_ready := #0;
  sample_inflight := #8; sample_completed := #completed; sample_failed := #0 |}.

(** How a point follows the one before it. *)
Definition follows (p q : RuntimeThroughputPoint) : Prop :=
  intervalStartTimestamp q = timestamp p /\
  intervalMs q = timestamp q ⊖ timestamp p /\
  (intervalMs q <! MIN_RUNTIME_SAMPLE_INTERVAL_MS) = false /\
  (throughput q <> None <-> (intervalMs q <=! MAX_CHART_LINE_GAP_MS) = true).

Lemma point_follows p s : too_soon (Some p) s = false ->
  intervalStartTimestamp (timeline_point (Some p) s) = timestamp_ms p /\
  intervalMs (timeline_point (Some p) s) = timestamp_ms s ⊖ timestamp_ms p /\
  (intervalMs (timeline_point (Some p) s) <! MIN_RUNTIME_SAMPLE_INTERVAL_MS) = false /\
  (throughput (timeline_point (Some p) s) <> None <->
   (intervalMs (timeline_point (Some p) s) <=! MAX_CHART_LINE_GAP_MS) = true).
Proof.
  intros H. simpl. split; [done|]. split; [done|]. split; [exact H|].
  destruct (_ <=! _); split; done.
Qed.

Lemma timeline_nneg samples : forall prev, Forall (fun p => nneg (completedDelta p)) (timeline_from prev samples).
Proof.
  induction samples as [|s rest IH]; intros prev; simpl; [constructor|].
  destruct (too_soon prev s); [apply IH|]. constructor; [|apply IH]. destruct prev; [apply nneg_max|done].
Qed.

Lemma timeline_chain samples : forall prev p,
  timestamp p = timestamp_ms prev ->
  forall i a b, (p :: timeline_from (Some prev) samples) !! i = Some a ->
    (p :: timeline_from (Some prev) samples) !! S i = Some b -> follows a b.
Proof.
  induction samples as [|s rest IH]; intros prev p Hp i a b Ha Hb; [destruct i; done|].
  cbn [timeline_from] in Ha, Hb. destruct (too_soon (Some prev) s) eqn:E; [apply (IH prev p Hp i); done|].
  destruct i as [|i].
  - simpl in Ha, Hb. injection Ha as <-. injection Hb as <-. unfold follows. rewrite Hp. apply (point_follows prev s E).
  - apply (IH s (timeline_point (Some prev) s) eq_refl i); done.
Qed.

(** The timeline starts at the first sample, without a rate; each later
    point's interval runs from the previous point to it, lasts at least 500 ms,
    and has a rate exactly when it lasts at most 5 seconds; and no point counts
    a negative number of completions. *)
Theorem timeline_intervals samples :
  let points := buildRuntimeThroughputTimeline samples in
  (forall s, head samples = Some s -> exists p, head points = Some p /\
     timestamp p = timestamp_ms s /\ throughput p = None /\ completedDelta p = #0) /\
  (forall i p q, points !! i = Some p -> points !! S i = Some q -> follows p q) /\
  Forall (fun p => nneg (completedDelta p)) points.
Proof.
  intros points. split; [|split; [|apply timeline_nneg]].
  - intros s Hs. destruct samples as [|s0 rest]; [done|]. injection Hs as <-. eexists. split; [reflexivity|]. done.
  - intros i p q Hp Hq. destruct samples as [|s rest]; [destruct i; done|].
    apply (timeline_chain rest s (timeline_point None s) eq_refl i); done.
Qed.

Lemma timeline_intervals_witness :
  let points := buildRuntimeThroughputTimeline
    [demo_sample 1000 0; demo_sample 2364 473; demo_sample 2383 1078; demo_sample 4182 1614] in
  exists p q, points !! 1%nat = Some p /\ points !! 2%nat = Some q /\ follows p q /\
    completedDelta q = #1141 /\ throughput q = Some (number_of_string "627.6").
Proof.
  eexists _, _. split; [vm_compute; reflexivity|]. split; [vm_compute; reflexivity|].
  split; [|split; vm_compute; reflexivity].
  refine (proj1 (proj2 (timeline_intervals
    [demo_sample 1000 0; demo_sample 2364 473; demo_sample 2383 1078; demo_sample 4182 1614])) 1%nat _ _ _ _);
    vm_compute; reflexivity.
Defined.

(** ** Conservation *)

(** The completions and failures a sample counts, when they are whole. *)
Definition counts (s : JobRuntimeSample) (n : Z) : Prop :=
  exists c f, sample_completed s = #c /\ sample_failed s = #f /\ 0 <= c /\ 0 <= f /\ n = c + f /\ n < 2 ^ 53.

Lemma delta_counts p s m n :
  counts p m -> counts s n -> m <= n -> completedDelta (timeline_point (Some p) s) = #(n - m).
Proof.
  intros (c & f & Hc & Hf & ? & ? & -> & ?) (c' & f' & Hc' & Hf' & ? & ? & -> & ?) Hle. simpl.
  rewrite Hc, Hf, Hc', Hf'. rewrite add_int, sub_int, sub_int, (max_int 0) by (unfold safe; lia).
  f_equal. lia.
Qed.

Definition sum_deltas (points : list RuntimeThroughputPoint) : Z := sum_by (fun p => num_to_Z (completedDelta p)) points.

Lemma sum_deltas_cons p l : sum_deltas (p :: l) = num_to_Z (completedDelta p) + sum_deltas l.
Proof. done. Qed.

Lemma deltas_from samples : forall prev m ns,
  counts prev m -> Forall2 counts samples ns -> Forall (fun n => m <= n) ns -> StronglySorted Z.le ns ->
  exists n, m <= n /\ sum_deltas (timeline_from (Some prev) samples) = n - m /\
    (timeline_from (Some prev) samples = [] -> n = m) /\
    (forall p, timeline_from (Some prev) samples !! (length (timeline_from (Some prev) samples) - 1)%nat = Some p ->
       exists s, s ∈ samples /\ timestamp_ms s = timestamp p /\ counts s n).
Proof.
  induction samples as [|s rest IH]; intros prev m ns Hm H2 Hle Hs.
  - exists m. split; [lia|]. split; [simpl; unfold sum_deltas; simpl; lia|]. split; done.
  - apply Forall2_cons_inv_l in H2 as (n & ns' & Hn & H2 & ->).
    apply Forall_cons in Hle as [Hmn Hle]. apply StronglySorted_inv in Hs as [Hs Hfn]. cbn [timeline_from].
    destruct (too_soon (Some prev) s).
    + destruct (IH prev m ns' Hm H2 Hle Hs) as (k & Hk & Hsum & He & Hl). exists k.
      split; [done|]. split; [done|]. split; [done|]. intros p Hp. destruct (Hl p Hp) as (s' & ? & ? & ?).
      exists s'. split; [set_solver|done].
    + destruct (IH s n ns' Hn H2 Hfn Hs) as (k & Hk & Hsum & He & Hl). exists k.
      split; [lia|]. split; [|split; [done|]].
      * rewrite sum_deltas_cons, Hsum, (delta_counts prev s m n) by done.
        destruct Hn as (? & ? & _ & _ & ? & ? & -> & ?). destruct Hm as (? & ? & _ & _ & ? & ? & -> & ?).
        rewrite num_to_Z_int by (unfold safe; lia). lia.
      * intros p Hp. simpl in Hp. rewrite Nat.sub_0_r in Hp.
        destruct (timeline_from (Some s) rest) as [|q qs] eqn:E.
        -- simpl in Hp. injection Hp as <-. rewrite (He eq_refl). exists s. split; [set_solver|]. done.
        -- destruct (Hl p) as (s' & ? & ? & ?); [simpl in Hp |- *; rewrite Nat.sub_0_r; exact Hp|].
           exists s'. split; [set_solver|done].
Qed.

(** No completion is lost or counted twice: when the counters only grow,
    the completions of the timeline's points add up to the difference between
    the first sample and the one its last point was drawn at, however many
    samples in between came too soon. *)
Theorem timeline_conserves_completions s samples n ns :
  Forall2 counts (s :: samples) (n :: ns) -> StronglySorted Z.le (n :: ns) ->
  let points := buildRuntimeThroughputTimeline (s :: samples) in
  exists p last_s last_n,
    points !! (length points - 1)%nat = Some p /\ last_s ∈ s :: samples /\
    timestamp_ms last_s = timestamp p /\ counts last_s last_n /\
    sum_deltas points = last_n - n.
Proof.
  intros H2 Hs points. apply Forall2_cons in H2 as [Hn H2]. apply StronglySorted_inv in Hs as [Hs Hle].
  destruct (deltas_from samples s n ns Hn H2 Hle Hs) as (k & Hk & Hsum & He & Hl).
  unfold points, buildRuntimeThroughputTimeline. cbn [timeline_from too_soon].
  rewrite sum_deltas_cons, Hsum. change (completedDelta (timeline_point None s)) with #0.
  rewrite (num_to_Z_int 0) by done. change (length (?a :: ?l) - 1)%nat with (length l - 0)%nat. rewrite Nat.sub_0_r.
  destruct (timeline_from (Some s) samples) as [|q qs] eqn:E.
  - rewrite (He eq_refl). exists (timeline_point None s), s, n. simpl.
    split; [done|]. split; [set_solver|]. split; [done|]. split; [done|]. lia.
  - simpl in Hl. rewrite Nat.sub_0_r in Hl.
    destruct (lookup_lt_is_Some_2 (q :: qs) (length qs)) as [p Hp]; [simpl; lia|].
    destruct (Hl p Hp) as (s' & Hin & Ht & Hc). exists p, s', k.
    split; [exact Hp|]. split; [set_solver|]. split; [done|]. split; [done|]. lia.
Qed.

Lemma demo_counts t c : 0 <= c < 2 ^ 53 -> counts (demo_sample t c) c.
Proof. intros H. exists c, 0. split; [done|]. split; [done|]. lia. Qed.

Lemma timeline_conserves_completions_witness :
  let samples := [demo_sample 2364 473; demo_sample 2383 1078; demo_sample 4182 1614] in
  sum_deltas (buildRuntimeThroughputTimeline (demo_sample 1000 0 :: samples)) = 1614 /\
  exists p last_s last_n,
    buildRuntimeThroughputTimeline (demo_sample 1000 0 :: samples) !! 2%nat = Some p /\
    timestamp_ms last_s = timestamp p /\ counts last_s last_n.
Proof.
  split; [vm_compute; reflexivity|].
  destruct (timeline_conserves_completions (demo_sample 1000 0) [demo_sample 2364 473; demo_sample 2383 1078; demo_sample 4182 1614]
    0 [473; 1078; 1614]) as (p & s & n & Hp & _ & Ht & Hc & _).
  - repeat (constructor; [apply demo_counts; lia|]). constructor.
  - repeat constructor; lia.
  - exists p, s, n. split; [exact Hp|]. split; [exact Ht|exact Hc].
Defined.

(** ** Buckets *)

Lemma same_int a b : safe a -> safe b -> same_value_zero #a #b = (a =? b).
Proof.
  intros Ha Hb. unfold same_value_zero. rewrite eqb_int, real_int by done. rewrite orb_false_r. done.
Qed.

Lemma num_of_Z_inj a b : safe a -> safe b -> #a = #b -> a = b.
Proof. intros Ha Hb H. rewrite <- (num_to_Z_int a), <- (num_to_Z_int b), H by done. done. Qed.

Lemma add_member_perm {A} k (x : A) g : concat (map snd (add_member k x g)) ≡ₚ concat (map snd g) ++ [x].
Proof.
  induction g as [|[k' l] g IH]; [done|]. simpl. destruct (same_value_zero k' k); simpl.
  - rewrite <- !app_assoc. f_equiv. apply Permutation_app_comm.
  - rewrite IH, app_assoc. done.
Qed.

Lemma group_perm {A} (key : A -> num) points : concat (map snd (group_points key points)) ≡ₚ points.
Proof.
  unfold group_points. enough (H : forall g, concat (map snd (foldl (fun g p => add_member (key p) p g) g points))
    ≡ₚ concat (map snd g) ++ points) by apply H.
  induction points as [|x points IH]; intros g; simpl; [rewrite app_nil_r; done|].
  rewrite IH, add_member_perm, <- app_assoc. done.
Qed.

Lemma group_member {A} (key : A -> num) points k members m :
  (k, members) ∈ group_points key points -> m ∈ members -> m ∈ points.
Proof.
  intros Hkv Hm. rewrite <- (group_perm key points). apply list_elem_of_In, in_concat. exists members.
  split; [|apply list_elem_of_In, Hm]. apply in_map_iff. exists (k, members). split; [done|]. apply list_elem_of_In, Hkv.
Qed.

Section integer_keys.
Context {A : Type} (kz : A -> Z).

(** A bucket numbered [#z] that holds only members of key [z]. *)
Definition bucket_ok (kv : num * list A) : Prop :=
  exists z, safe z /\ kv.1 = #z /\ kv.2 <> [] /\ forall m, m ∈ kv.2 -> kz m = z.

Lemma add_member_keys k x g y : y ∈ map fst (add_member k x g) -> y = k \/ y ∈ map fst (g : list (num * list A)).
Proof.
  induction g as [|[k' l] g IH]; simpl; [set_solver|].
  destruct (same_value_zero k' k); simpl; [auto|]. rewrite !elem_of_cons. naive_solver.
Qed.

Lemma add_member_ok x g :
  safe (kz x) -> Forall bucket_ok g -> NoDup (map fst g) ->
  Forall bucket_ok (add_member #(kz x) x g) /\ NoDup (map fst (add_member #(kz x) x g)).
Proof.
  intros Hx. induction g as [|[k l] g IH]; intros Hg Hn; simpl.
  - split; [|apply NoDup_singleton]. constructor; [|done]. exists (kz x). simpl.
    split; [done|]. split; [done|]. split; [done|]. intros m Hm. apply list_elem_of_singleton in Hm as ->. done.
  - apply Forall_cons in Hg as [(z & Hz & Hk & Hne & Hl) Hg]. simpl in Hk, Hne, Hl. subst k.
    apply NoDup_cons in Hn as [Hni Hn]. rewrite same_int by done.
    destruct (Z.eqb_spec z (kz x)) as [->|Hzx]; simpl.
    + split; [|constructor; done]. constructor; [|done]. exists (kz x). simpl.
      split; [done|]. split; [done|]. split; [destruct l; done|]. intros m [Hm| ->%list_elem_of_singleton]%elem_of_app; auto.
    + destruct (IH Hg Hn) as [H1 H2]. split.
      * constructor; [|done]. exists z. done.
      * constructor; [|done]. intros Hin. apply add_member_keys in Hin as [E|Hin]; [|done].
        apply num_of_Z_inj in E; done.
Qed.

Lemma group_ok (key : A -> num) points :
  Forall (fun p => key p = #(kz p) /\ safe (kz p)) points ->
  Forall bucket_ok (group_points key points) /\ NoDup (map fst (group_points key points)).
Proof.
  unfold group_points. intros H.
  enough (Hg : forall g, Forall bucket_ok g -> NoDup (map fst g) ->
    Forall bucket_ok (foldl (fun g p => add_member (key p) p g) g points) /\
    NoDup (map fst (foldl (fun g p => add_member (key p) p g) g points)))
    by (apply Hg; [constructor|apply NoDup_nil_2]).
  induction H as [|x points [Hk Hs] H IH]; intros g Hg Hn; simpl; [done|].
  rewrite Hk. apply IH; apply add_member_ok; done.
Qed.
End integer_keys.

(** The whole timestamp of a point. *)
Definition at_ms (p : RuntimeThroughputPoint) (t : Z) : Prop := timestamp p = #t.

(** Bucketing a timeline partitions its points: every point is in exactly
    one bucket, no bucket is empty, the buckets are numbered apart, and a
    bucket's members are the points whose time falls in the bucket's span,
    which starts at the drawn start of the bucket. *)
Theorem buckets_partition_points first rest o b :
  intervalStartTimestamp first = #o -> 0 <= o -> 1000 < b < 2 ^ 53 ->
  Forall (fun p => exists t, at_ms p t /\ o <= t < 2 ^ 53) (first :: rest) ->
  let bs := buckets #b (first :: rest) in
  bucketRuntimeThroughputTimeline (first :: rest) #b = map (bucket_point #o #b) bs /\
  concat (map snd bs) ≡ₚ first :: rest /\ NoDup (map fst bs) /\
  (forall kv, kv ∈ bs -> kv.2 <> [] /\
     exists z, kv.1 = #z /\ intervalStartTimestamp (bucket_point #o #b kv) = #(o + z * b) /\
       forall m, m ∈ kv.2 -> exists t, at_ms m t /\ o + z * b <= t < o + (z + 1) * b).
Proof.
  intros Ho Ho0 Hb Hts bs.
  set (kz := fun p => (num_to_Z (timestamp p) - o) / b).
  assert (Hin : Forall (fun p => bucket_index #o #b p = #(kz p) /\ safe (kz p)) (first :: rest)).
  { eapply Forall_impl; [exact Hts|]. intros p (t & Ht & Hot). unfold kz, bucket_index, at_ms in *. rewrite Ht.
    assert (safe t /\ safe o /\ safe (t - o) /\ safe b) as (? & ? & ? & ?) by (unfold safe; lia).
    rewrite num_to_Z_int, sub_int, floor_div_int by (done || lia). split; [done|].
    pose proof (Z.div_pos (t - o) b). assert ((t - o) / b <= t - o) by (apply Z.div_le_upper_bound; nia).
    unfold safe. lia. }
  unfold bs, buckets. rewrite Ho. destruct (group_ok kz _ _ Hin) as [Hok Hnd].
  split; [|split; [apply group_perm|split; [done|]]].
  - unfold bucketRuntimeThroughputTimeline, buckets. rewrite Ho, leb_int by (unfold safe; lia).
    rewrite (proj2 (Z.leb_gt _ _)) by lia. done.
  - intros [k members] Hkv. pose proof Hok as Hok'. rewrite Forall_forall in Hok'.
    destruct (Hok' _ Hkv) as (z & Hz & Hk & Hne & Hm). simpl in *. split; [done|]. exists z. split; [done|]. subst k.
    assert (Hmem : forall m, m ∈ members -> exists t, at_ms m t /\ o <= t < 2 ^ 53 /\ z = (t - o) / b).
    { intros m Hmm. rewrite Forall_forall in Hts.
      destruct (Hts m (group_member _ _ _ _ _ Hkv Hmm)) as (t & Ht & Hot). exists t. split; [done|]. split; [done|].
      rewrite <- (Hm m Hmm). unfold kz, at_ms in *. rewrite Ht, num_to_Z_int by (unfold safe; lia). done. }
    destruct members as [|m0 members]; [done|].
    destruct (Hmem m0) as (t0 & _ & Ht0 & Hz0); [set_solver|].
    pose proof (Z.mul_div_le (t0 - o) b). pose proof (Z.div_pos (t0 - o) b).
    split.
    + simpl. rewrite mul_int_nonneg, add_int by (done || unfold safe in *; nia). done.
    + intros m Hmm. destruct (Hmem m Hmm) as (t & Ht & Hot & Hzt). exists t. split; [done|].
      pose proof (Z.div_mod (t - o) b). pose proof (Z.mod_pos_bound (t - o) b). nia.
Qed.

Definition demo_first : RuntimeThroughputPoint := timeline_point None (demo_sample 0 0).
Definition demo_rest : list RuntimeThroughputPoint :=
  timeline_from (Some (demo_sample 0 0)) [demo_sample 1000 10; demo_sample 6000 70; demo_sample 7000 80].

Lemma buckets_partition_points_witness :
  map (fun p => (intervalStartTimestamp p, completedDelta p)) (bucketRuntimeThroughputTimeline (demo_first :: demo_rest) #5000) =
    [(#0, #10); (#5000, #70)] /\
  concat (map snd (buckets #5000 (demo_first :: demo_rest))) ≡ₚ demo_first :: demo_rest.
Proof.
  split; [vm_compute; reflexivity|].
  refine (proj1 (proj2 (buckets_partition_points demo_first demo_rest 0 5000 _ _ _ _))); [done|lia|lia|].
  assert (E : map timestamp (demo_first :: demo_rest) = map num_of_Z [0; 1000; 6000; 7000]) by (vm_compute; reflexivity).
  apply Forall_forall. intros p Hp. apply (list_elem_of_fmap_2 timestamp) in Hp. change (timestamp <$> ?l) with (map timestamp l) in Hp.
  rewrite E in Hp. apply list_elem_of_fmap in Hp as (t & Ht & Hin). exists t. split; [exact Ht|].
  repeat (apply elem_of_cons in Hin as [->|Hin]; [lia|]). apply elem_of_nil in Hin. done.
Defined.

(** ** The rolling rate *)

(** The points of the trailing window that count: those after the last one that
    ended before it, measured and begun inside it. *)
Fixpoint window_of (cutoff : num) (backwards : list RuntimeThroughputPoint) : list RuntimeThroughputPoint :=
  match backwards with
  | [] => []
  | p :: rest =>
      if timestamp p <=! cutoff then []
      else if measured p && negb (intervalStartTimestamp p <! cutoff) then p :: window_of cutoff rest
      else window_of cutoff rest
  end.

Lemma rolling_sums_window cutoff l : forall c m,
  rolling_sums cutoff l c m =
  (foldl (fun s p => s ⊕ completedDelta p) c (window_of cutoff l), foldl (fun s p => s ⊕ intervalMs p) m (window_of cutoff l)).
Proof.
  induction l as [|p l IH]; intros c m; simpl; [done|].
  destruct (timestamp p <=! cutoff); [done|].
  destruct (measured p); simpl; [|apply IH]. destruct (intervalStartTimestamp p <! cutoff); simpl; apply IH.
Qed.

Lemma window_in cutoff l p : p ∈ window_of cutoff l ->
  p ∈ l /\ measured p = true /\ (timestamp p <=! cutoff) = false /\ (intervalStartTimestamp p <! cutoff) = false.
Proof.
  induction l as [|q l IH]; simpl; [set_solver|]. destruct (timestamp q <=! cutoff) eqn:E1; [set_solver|].
  destruct (measured q) eqn:E2; destruct (intervalStartTimestamp q <! cutoff) eqn:E3; simpl; set_solver.
Qed.

(** The rolling rate of a point is the rate of the measured intervals that
    lie wholly inside its trailing window, none of them later than the point;
    a point without a rate has none. *)
Theorem rolling_rate_inside_window points w i p :
  points !! i = Some p ->
  let cutoff := timestamp p ⊖ w in
  let inside := window_of cutoff (reverse (take (S i) points)) in
  rollingRuntimeThroughput points w !! i =
    Some (if measured p then rate_over (sum_num completedDelta inside) (sum_num intervalMs inside) else None) /\
  (forall q, q ∈ inside -> q ∈ take (S i) points /\ measured q = true /\
     (timestamp q <=! cutoff) = false /\ (intervalStartTimestamp q <! cutoff) = false).
Proof.
  intros Hp cutoff inside. split.
  - unfold rollingRuntimeThroughput. rewrite list_lookup_imap, Hp. simpl. f_equal. unfold rolling_at.
    destruct (measured p); simpl; [|done]. rewrite rolling_sums_window. done.
  - intros q Hq. apply window_in in Hq as (Hin & Hrest). split; [|done]. set_solver.
Qed.

Lemma rolling_rate_inside_window_witness :
  let points := buildRuntimeThroughputTimeline [demo_sample 0 0; demo_sample 1000 10; demo_sample 2000 30; demo_sample 3000 60] in
  exists p, points !! 3%nat = Some p /\ rollingRuntimeThroughput points #2000 !! 3%nat = Some (Some #25).
Proof.
  eexists. split; [vm_compute; reflexivity|].
  etrans; [refine (proj1 (rolling_rate_inside_window
    (buildRuntimeThroughputTimeline [demo_sample 0 0; demo_sample 1000 10; demo_sample 2000 30; demo_sample 3000 60]) #2000 3 _ _));
    vm_compute; reflexivity|vm_compute; reflexivity].
Defined.
