(* ===== verification/DiagnosticsTypes.v ===== *)
(** * Records of the job diagnostics ([features/jobs/lib/jobDiagnosticsTypes.ts])

    The telemetry of a job as the diagnostics show it, with every field. An
    optional or nullable field is an [option]; an optional flag is a [bool],
    false when it is absent, since all its readers test it for truth. *)

From stdpp Require Import base list strings option.
From S2P Require Import Prelude JsString JsNum RuntimeTelemetry JobTypes.

Record TelemetrySnapshot := {
  snap_timestamp : num;
  snap_intervalStartTimestamp : num;
  snap_completedDelta : num;
  snap_itemsDelta : num;
  snap_itemsAreAuthoritative : bool;
  snap_itemsProcessed : num;
  snap_completedTasks : num;
  snap_inflightTasks : num;
  snap_readyTasks : num;
  snap_failedTasks : num;
  snap_throughputItemsPerSec : num;
  snap_throughputTasksPerSec : num;
  snap_p50Latency : num;
  snap_p95Latency : num;
  snap_activeProxies : num;
  snap_errorCount : num
}.

Record TelemetrySamplingInputs := {
  sampling_observedAt : num;
  sampling_completed : num;
  sampling_items : num;
  sampling_itemsAreAuthoritative : bool;
  sampling_inflight : num;
  sampling_ready : num;
  sampling_failed : num;
  sampling_errors : num;
  sampling_p50Latency : num;
  sampling_p95Latency : num;
  sampling_totalProxyCapacity : num;
  sampling_isLiveJob : bool
}.

Record LatencyPercentiles := {
  p50 : num;
  p90 : num;
  p95 : num;
  p99 : num;
  sampleCount : Z
}.

Inductive CapacityUnit := ConnectionSlots.

Record ProxyCapacityStats := {
  totalRoutes : num;
  enabledProxies : num;
  directRoutes : num;
  activeRoutes : num;
  utilizationPercent : num;
  isNearCapacity : bool;
  isSaturated : bool;
  capacityUnit : option CapacityUnit;
  totalSlots : option num;
  activeSlots : option num
}.

Record HttpStatusBreakdown := {
  ok200 : num;
  rateLimit429 : num;
  forbidden403 : num;
  notFound404 : num;
  serverError5xx : num;
  timeoutErrors : num;
  otherErrors : num;
  totalObserved : num
}.

Inductive ThroughputTrend := Increasing | Decreasing | Steady.
Inductive ThroughputUnit := Items | Tasks.

Record ThroughputStats := {
  currentItemsPerSec : num;
  currentTasksPerSec : num;
  sma1mItemsPerSec : num;
  sma1mTasksPerSec : num;
  sma5mItemsPerSec : num;
  sma5mTasksPerSec : num;
  throughput_trend : ThroughputTrend;
  trendDeltaPercent : num;
  throughput_unit : option ThroughputUnit;
  currentSampleDurationSec : option num;
  sma1mWindowSec : option num
}.

Inductive ErrorTrend := Stable | Elevated | Critical.
Inductive RateScope := JobAverage | RateObservedWindow.
Inductive ErrorWindowScope := ErrorObservedWindow | JobSnapshot.

Record ErrorVelocityStats := {
  totalErrors : num;
  errorsLast60s : num;
  safetyThresholdLimit : num;
  safetyMarginPercent : num;
  error_trend : ErrorTrend;
  rate429Count : num;
  rate429PerMin : num;
  rate429Scope : option RateScope;
  errorWindowScope : option ErrorWindowScope;
  errorWindowSeconds : option num
}.

Inductive PeakScope := CompleteJob | LoadedSample.

Record TelemetryQuality := {
  loadedTaskCount : num;
  totalTaskCount : num;
  coveragePercent : num;
  isCompleteTaskSample : bool;
  quality_unit : ThroughputUnit;
  quality_peakScope : PeakScope
}.

Inductive AnomalyStatus := AnomalyCritical | AnomalyDegraded | AnomalyHealthy.

Record ProxyAnomaly := {
  proxyUrl : string;
  displayUrl : string;
  anomaly_group : option string;
  anomaly_country : option string;
  countryFlag : option string;
  totalAttempts : num;
  failures : num;
  rateLimits429 : num;
  timeouts : num;
  failureRatePercent : num;
  avgLatencySec : num;
  anomalyScore : num;
  anomaly_status : AnomalyStatus;
  primaryIssue : string
}.

Inductive OccupancyGap :=
| GapRoutingStall | GapRampDrain | GapWorkerAvailability | GapIntermittentReadySupply
| GapQueueStarvation | GapSteadyStateSaturated | GapInsufficientData.

#[global] Instance occupancy_gap_eq_dec : EqDecision OccupancyGap.
Proof. solve_decision. Defined.

Inductive DurationSource := JobMetadataSource | TaskActiveWindow.

Inductive CapacityModelBottleneck := ModelProxyRoutes | ModelWorkerSlots.

(** The entry of [writerDomainStats]. *)
Record WriterDomainStat := { domain_count : num; domain_mean_batch_commands : num; domain_mean_batch_wall_ms : num }.

Record FinalReportSummary := {
  jobOutcome : string;
  totalDurationFormatted : string;
  totalDurationSec : num;
  metadataDurationSec : option num;
  telemetryActiveWindowSec : option num;
  durationDiscrepancyPercent : option num;
  durationSource : option DurationSource;
  overallAvgItemsPerSec : num;
  overallAvgTasksPerSec : num;
  peakItemsPerSec : num;
  efficiencyPercent : num;
  proxyBottleneckFactor : num;
  theoreticalMaxItemsPerSec : num;
  theoreticalProxyMaxItemsPerSec : option num;
  theoreticalWorkerMaxItemsPerSec : option num;
  capacityModelBottleneck : option CapacityModelBottleneck;
  failedTaskCount : option num;
  terminationReason : option string;
  healthyProxyCount : num;
  degradedProxyCount : num;
  criticalProxyCount : num;
  avgActiveConcurrency : num;
  avgActiveProxyRoutes : num;
  avgActiveProxyUtilization : num;
  recommendations : list string;
  summary_unit : option ThroughputUnit;
  summary_peakScope : option PeakScope;
  peakWasCapped : bool;
  runtimeTelemetryComplete : bool;
  meanTaskDurationSec : option num;
  meanRouteActiveDurationSec : option num;
  meanRouteAttemptDurationSec : option num;
  routeAttemptsPerTask : option num;
  routeLookupStats : option (JMap.t JobRouteLookupStat);
  meanHandlerGuestInitMs : option num;
  handlerGuestInitCount : option num;
  meanHandlerInitialLookupMs : option num;
  handlerInitialLookupCount : option num;
  meanHandlerRefreshApiMs : option num;
  handlerRefreshApiCount : option num;
  meanHandlerFallbackRetryMs : option num;
  handlerFallbackRetryCount : option num;
  meanHandlerSerializationMs : option num;
  handlerSerializationCount : option num;
  meanHandlerResidualMs : option num;
  dominantHandlerSubphase : option string;
  meanQueueWaitSec : option num;
  meanSetupSec : option num;
  setupSubphases : option (JMap.t SetupSubphase);
  dominantSetupSubphase : option string;
  meanHandlerSec : option num;
  meanWriterSec : option num;
  meanPostSec : option num;
  meanReleaseSec : option num;
  activeWindowThroughput : option num;
  steadyStateThroughput : option num;
  steadyStateCapacityItemsPerSec : option num;
  steadyStateEfficiencyPercent : option num;
  rampDrainPercent : option num;
  meanClaimWaitMs : option num;
  meanWriterAdmissionMs : option num;
  meanWriterAdmissionSerializationMs : option num;
  meanWriterAdmissionCapacityWaitMs : option num;
  meanWriterAdmissionRedisMs : option num;
  meanWriterAdmissionOverheadDetailMs : option num;
  meanWriterQueueMs : option num;
  meanWriterExecutionMs : option num;
  meanWriterCommitMs : option num;
  meanWriterOverheadMs : option num;
  meanWriterBatchPeerWorkMs : option num;
  meanWriterDeliveryMs : option num;
  meanWriterResultPublicationMs : option num;
  meanWriterResultObservationMs : option num;
  meanWriterResultDeliveryResidualMs : option num;
  writerResultDeliverySplitCoveragePercent : option num;
  writerTimedSubmits : option num;
  writerSubmitsPerTask : option num;
  writerSubmitsPerSec : option num;
  writerResultCacheHits : option num;
  writerReceiptFallbacks : option num;
  writerResultCacheHitPercent : option num;
  writerSplitMissingReasons : option (JMap.t num);
  writerOperationStats : option (JMap.t WriterOperationStat);
  writerDomainStats : option (JMap.t WriterDomainStat);
  writerTimingCoveragePercent : option num;
  dominantWriterSubphase : option string;
  meanWriterConnectionCheckoutMs : option num;
  meanWriterReceiptLookupMs : option num;
  meanWriterReceiptFinalizeMs : option num;
  meanWriterPayloadMs : option num;
  meanWriterUserRowMs : option num;
  meanWriterAliasMs : option num;
  meanWriterAuthorityMs : option num;
  writerAuthorityRowsExamined : option num;
  writerAuthorityRowsSkipped : option num;
  writerAuthorityRowsUpserted : option num;
  writerAuthoritySkipPercent : option num;
  meanWriterProfileMs : option num;
  meanWriterSocialMs : option num;
  meanWriterFlushMs : option num;
  dominantWriterExecutionSubphase : option string;
  meanWriterQueueCommandsAtStart : option num;
  maxWriterQueueCommandsAtStart : option num;
  meanWriterQueueBytesAtStart : option num;
  maxWriterQueueBytesAtStart : option num;
  meanWriterActiveLanes : option num;
  maxWriterActiveLanes : option num;
  meanWriterBatchCommands : option num;
  meanWriterBatchFillPercent : option num;
  meanWriterLaneIdleMs : option num;
  meanWriterLanePredecessorWaitMs : option num;
  meanWriterRefillWaitMs : option num;
  writerConfiguredConcurrency : option num;
  writerConfiguredBatchSize : option num;
  writerWindowCommands : option num;
  writerQueueMaxCommands : option num;
  writerQueueMaxBytes : option num;
  writerRefillMinCommands : option num;
  writerRefillMinCommandsPerLane : option num;
  maxWorkerCompletionGapMs : option num;
  readyQueueRecoveryCount : option num;
  readyQueueRecoveredTasks : option num;
  readyNonemptyPercent : option num;
  readyNonemptySamples : option num;
  readySampleCount : option num;
  readyTimelineNonemptyPercent : option num;
  readyTimelineIntervalCount : option num;
  readyTimelineCoveredSeconds : option num;
  steadyReadyTimelineNonemptyPercent : option num;
  steadyReadyTimelineCoveredSeconds : option num;
  meanReadyDepth : option num;
  workersSeen : option num;
  expectedWorkers : option num;
  timeWeightedParticipatingWorkers : option num;
  timeWeightedEffectiveWorkerCapacity : option num;
  occupancyGapClassification : option OccupancyGap;
  occupancyGapExplanation : option string
}.

Inductive BottleneckState :=
| routing_stall | claim_refill | proxy_saturated | worker_constrained | writer_constrained
| handler_constrained | setup_constrained | terminal_constrained | release_constrained
| route_constrained | queue_starved | insufficient_data | optimal.

Record BottleneckAnalysis := {
  state : BottleneckState;
  label : string;
  explanation : string;
  rootCauseFindings : list string
}.

Inductive Severity := SevCritical | SevHigh | SevModerate | SevLow.

Record ThroughputLossFactor := {
  factor : string;
  severity : Severity;
  estimatedLossItemsPerSec : num;
  description : string;
  remedy : string
}.

Inductive GoverningBottleneck := ProxyCapacity | WorkerConcurrency | UpstreamLatency.

Record ThroughputDiagnostics := {
  td_proxyMax : num;
  td_workerMax : num;
  governingCeilingItemsPerSec : num;
  governingBottleneck : GoverningBottleneck;
  td_activeConcurrency : num;
  idleProxyRoutes : num;
  idleProxyPercent : num;
  proxyUtilizationPercent : num;
  workerUtilizationPercent : num;
  td_workerPoolSize : num;
  workerConcurrencyDemand : num;
  td_targetConcurrency : num;
  latencySpreadRatio : num;
  tailLatencyDragPercent : num;
  peakToAvgRatio : num;
  lossFactors : list ThroughputLossFactor
}.

Record DurationBreakdownTelemetry := {
  bd_taskCount : num;
  bd_expectedTaskCount : num;
  bd_meanTaskDurationSec : option num;
  bd_meanQueueWaitSec : option num;
  bd_meanSetupSec : option num;
  bd_meanHandlerSec : option num;
  bd_meanWriterSec : option num;
  bd_meanPostSec : option num;
  bd_meanReleaseSec : option num
}.

Record JobDiagnosticsTelemetry := {
  tel_snapshots : list TelemetrySnapshot;
  tel_chartSnapshots : list TelemetrySnapshot;
  tel_jobRuntimeSamples : option (list JobRuntimeSample);
  tel_mpsRefillTrace : list MPSRefillTraceEvent;
  tel_guestAuthStats : option (JMap.t TimedCount);
  tel_terminalStats : option (JMap.t TimedCount);
  tel_ledgerStats : option (JMap.t TimedCount);
  tel_throughput : ThroughputStats;
  tel_latencyPercentiles : LatencyPercentiles;
  tel_proxyCapacity : ProxyCapacityStats;
  tel_httpDistribution : HttpStatusBreakdown;
  tel_errorVelocity : ErrorVelocityStats;
  tel_proxyAnomalies : list ProxyAnomaly;
  tel_finalSummary : FinalReportSummary;
  tel_bottleneckAnalysis : BottleneckAnalysis;
  tel_throughputDiagnostics : option ThroughputDiagnostics;
  tel_durationBreakdown : option DurationBreakdownTelemetry;
  tel_runningTasksCount : num;
  tel_readyTasksCount : num;
  tel_totalTasksCount : num;
  tel_completedTasksCount : num;
  tel_isLive : bool;
  tel_lastSampleTime : num;
  tel_quality : option TelemetryQuality
}.
