(* ===== verification/Diagnostics.v ===== *)
(** * Job diagnostics ([features/jobs/lib/jobDiagnosticsAnalysis.ts])

    The safety limit, the concurrency of a job, latency percentiles, the time
    the ready queue was not empty, the classification of the throughput
    bottleneck with its findings, and the decomposition of throughput. *)

From Stdlib Require Import Ascii ZArith Lia SpecFloat.
From stdpp Require Import base list strings option.
From S2P Require Import JsSort.
From S2P Require Import Prelude JsString JsNum JsInt JsBounds JsValue JsDate RuntimeTelemetry JobTypes.
From S2P Require Import RuntimeChart DiagnosticsTypes.

Definition DEFAULT_SAFETY_THRESHOLD_LIMIT : num := #25.

(** ** Service phases *)

Definition queue_or_admission (summary : FinalReportSummary) : bool :=
  opt_eqb (dominantWriterSubphase summary) "Writer Queue" || opt_eqb (dominantWriterSubphase summary) "Producer Admission".

(** The phases with their seconds; [queued] is whether the writer waits mostly
    for its queue. *)
Definition phases_of (setup handler writer post release : num) (queued : bool) : list (string * num) :=
  [("Worker Setup", setup);
   ("Handler / Upstream Work", handler);
   (if (writer >! handler) && queued then "Writer Queue / Admission Backpressure" else "Durable Writer Wait", writer);
   ("Terminal State Update", post);
   ("Release / Publication", release)].

Definition getServicePhases (summary : FinalReportSummary) : list (string * num) :=
  phases_of (meanSetupSec summary ?? #0) (meanHandlerSec summary ?? #0) (meanWriterSec summary ?? #0)
    (meanPostSec summary ?? #0) (meanReleaseSec summary ?? #0) (queue_or_admission summary).

(** [(a, b) => b[1] - a[1]]: positive when [b] is larger. *)
Definition more_seconds (a b : string * num) : bool := (b.2 ⊖ a.2) >! #0.

Definition ranked_phases (summary : FinalReportSummary) : list (string * num) := stable_sort more_seconds (getServicePhases summary).

(** ** The ready queue *)

Record ReadyTimeline := { nonemptyPercent : option num; intervalCount : Z; coveredSeconds : num }.

Definition covered_interval (win : option (num * num)) (current next : JobRuntimeSample) : num :=
  match win with
  | Some (startMs, endMs) =>
      math_max #0 (math_min (timestamp_ms next) endMs ⊖ math_max (timestamp_ms current) startMs)
  | None => timestamp_ms next ⊖ timestamp_ms current
  end.

(** Whether the pair is counted: an interval of at most 5 s that overlaps the
    window. *)
Definition counted_interval (win : option (num * num)) (current next : JobRuntimeSample) : bool :=
  let interval := timestamp_ms next ⊖ timestamp_ms current in
  negb ((interval <=! #0) || (interval >! #5000)) && negb (covered_interval win current next <=! #0).

Fixpoint ready_sums (win : option (num * num)) (samples : list JobRuntimeSample) (readyMs coveredMs : num) (count : Z) :
    num * num * Z :=
  match samples with
  | current :: ((next :: _) as rest) =>
      if counted_interval win current next then
        let ms := covered_interval win current next in
        ready_sums win rest (if sample_ready current >! #0 then readyMs ⊕ ms else readyMs) (coveredMs ⊕ ms) (count + 1)
      else ready_sums win rest readyMs coveredMs count
  | _ => (readyMs, coveredMs, count)
  end.

Definition summarizeReadyQueueTimeline (samples : list JobRuntimeSample) (win : option (num * num)) : ReadyTimeline :=
  let '(readyMs, coveredMs, count) := ready_sums win samples #0 #0 0 in
  {| nonemptyPercent := if coveredMs >! #0 then Some (rounded 1 (readyMs ⊘ coveredMs ⊗ #100)) else None;
     intervalCount := count;
     coveredSeconds := rounded 1 (coveredMs ⊘ #1000) |}.

(** ** Settings *)

Inductive Bag := Metadata | Args.

Definition bag_of (bag : Bag) (job : Job) : option fields := match bag with Metadata => metadata job | Args => args job end.

Definition jobSetting (job : Job) (details : option JobDetail) (bag : Bag) (key : string) : jsval :=
  val_nullish (bag_of bag job ≫= prop key) ((details ≫= bag_of bag) ≫= prop key).

Definition safety_setting (job : Job) (details : option JobDetail) : jsval :=
  val_nullish (jobSetting job details Metadata "failure_limit")
  (val_nullish (jobSetting job details Metadata "continuable_task_failure_maximum")
  (val_nullish (jobSetting job details Args "failure_limit")
               (jobSetting job details Args "continuable_task_failure_maximum"))).

Definition default_safety_limit (totalTasks : num) : num :=
  if totalTasks >! #0 then
    let scaledLimit := math_ceil (totalTasks ⊘ #20) in
    if totalTasks >! #1000 then
      math_min (math_max #25 (math_min #2500 scaledLimit)) (math_max #3 scaledLimit)
    else math_min #25 (math_max #3 scaledLimit)
  else DEFAULT_SAFETY_THRESHOLD_LIMIT.

Definition computeSafetyThresholdLimit (job : Job) (details : option JobDetail) (totalTasks : num) : num :=
  match as_num (safety_setting job details) with
  | Some n => if n >! #0 then n else default_safety_limit totalTasks
  | None => default_safety_limit totalTasks
  end.

Definition concurrency_setting (job : Job) (details : option JobDetail) : jsval :=
  val_nullish (jobSetting job details Metadata "target_concurrency")
  (val_nullish (jobSetting job details Args "target_concurrency") (jobSetting job details Args "concurrency")).

Definition resolveTargetConcurrency (job : Job) (details : option JobDetail) (totalProxyCapacity workerPoolSize : num) : num :=
  let configuredNumber := to_number (concurrency_setting job details) in
  if is_finite configuredNumber && (configuredNumber >! #0) then math_max #1 (math_floor configuredNumber)
  else if (totalProxyCapacity >! #0) && (workerPoolSize >! #0) then
    math_max #1 (math_ceil (totalProxyCapacity ⊘ workerPoolSize))
  else #16.

(** ** Latencies *)

Definition parseTaskLatency `{Env} (task : TaskDetail) : option num :=
  let explicit := match td_duration task with Some d => (d >! #0) && (d <=! #120) | None => false end in
  if explicit then td_duration task
  else
    match truthy_opt (td_started_at task), truthy_opt (td_completed_at task) with
    | Some s, Some e =>
        let start := date_ms s in
        let finish := date_ms e in
        if is_nan start || is_nan finish || (finish <=! start) then None
        else
          let durationSec := (finish ⊖ start) ⊘ #1000 in
          if (durationSec >=! (#1 ⊘ #100)) && (durationSec <=! #120) then Some durationSec else None
    | _, _ => None
    end.

Definition sorted_latencies (latencies : list num) : list num := stable_sort (fun a b => (a ⊖ b) >! #0) latencies.

Definition percentile_index (p : num) (n : nat) : nat :=
  Z.to_nat (num_to_Z (math_min (math_floor ((p ⊘ #100) ⊗ #(Z.of_nat n))) (#(Z.of_nat n) ⊖ #1))).

Definition getP (sorted : list num) (p : num) : num :=
  rounded 2 ((sorted !! percentile_index p (length sorted)) ?? #0).

Definition calculatePercentiles (latencies : list num) : LatencyPercentiles :=
  match latencies with
  | [] => {| p50 := #0; p90 := #0; p95 := #0; p99 := #0; sampleCount := 0 |}
  | _ =>
      let sorted := sorted_latencies latencies in
      {| p50 := getP sorted #50; p90 := getP sorted #90; p95 := getP sorted #95; p99 := getP sorted #99;
         sampleCount := Z.of_nat (length sorted) |}
  end.

(** ** The bottleneck *)

Record BottleneckInputs := {
  bi_completedTasksCount : num;
  bi_failedJobTasks : num;
  bi_details : option JobDetail;
  bi_errorVelocity : ErrorVelocityStats;
  bi_httpDistribution : HttpStatusBreakdown;
  bi_isLiveJob : bool;
  bi_job : Job;
  bi_proxyAnomalies : list ProxyAnomaly;
  bi_proxyCapacity : ProxyCapacityStats;
  bi_readyTasksCount : num;
  bi_runningTasksCount : num;
  bi_runtimeTelemetry : option JobRuntimeTelemetry;
  bi_totalProxyCapacity : num;
  bi_totalTasksCount : num;
  bi_workerPoolSize : num;
  bi_finalSummary : FinalReportSummary
}.

Section bottleneck.
Context {E : Env} (i : BottleneckInputs).

Definition http := bi_httpDistribution i.
Definition summary := bi_finalSummary i.
Definition capacity := bi_proxyCapacity i.
Definition velocity := bi_errorVelocity i.

(** [(count / Math.max(1, totalObserved)) * 100] *)
Definition percent_observed (count : num) : num := (count ⊘ math_max #1 (totalObserved http)) ⊗ #100.

Definition top429Proxy : option ProxyAnomaly :=
  head (stable_sort (fun a b => (rateLimits429 b ⊖ rateLimits429 a) >! #0)
          (keep (fun p => rateLimits429 p >! #0) (bi_proxyAnomalies i))).

Definition rate_limit_finding : list string :=
  if rateLimit429 http >! #0 then
    match top429Proxy with
    | Some p =>
        ["Observed rate limiting: " +:+ show_num (rateLimit429 http) +:+ " total 429s (" +:+
         to_fixed 2 (percent_observed (rateLimit429 http)) +:+ "% of observed outcomes). Highest contributor is " +:+
         displayUrl p +:+ " (" +:+ (truthy_opt (anomaly_group p) ?? "Default") +:+ ") with " +:+
         show_num (rateLimits429 p) +:+ " rejections."]
    | None =>
        ["Observed rate limiting: " +:+ show_num (rateLimit429 http) +:+ " total 429 request(s) (" +:+
         to_fixed 2 (percent_observed (rateLimit429 http)) +:+
         "% of observed outcomes); no route attribution was available."]
    end
  else [].

Definition server_error_finding : list string :=
  if serverError5xx http >! #0 then
    ["Observed upstream errors: " +:+ show_num (serverError5xx http) +:+ " 5xx response(s) (" +:+
     to_fixed 2 (percent_observed (serverError5xx http)) +:+
     "% of observed outcomes). This count alone does not establish platform degradation."]
  else [].

Definition timeout_finding : list string :=
  if timeoutErrors http >! #0 then
    ["Observed timeouts/resets: " +:+ show_num (timeoutErrors http) +:+ " task failure(s) (" +:+
     to_fixed 2 (percent_observed (timeoutErrors http)) +:+
     "% of observed outcomes). Route responsibility is unknown unless per-route evidence is present."]
  else [].

Definition velocity_finding : list string :=
  match error_trend velocity with
  | Critical =>
      ["Critical error velocity: " +:+ show_num (errorsLast60s velocity) +:+ " failures in the last 60s (" +:+
       show_num (safetyMarginPercent velocity) +:+ "% of threshold: " +:+ show_num (safetyThresholdLimit velocity) +:+
       "). At immediate risk of safety halt."]
  | _ => []
  end.

Definition first_findings : list string :=
  rate_limit_finding ++ server_error_finding ++ timeout_finding ++ velocity_finding.

(** *** The conditions *)

Definition bi_targetConcurrency : num :=
  resolveTargetConcurrency (bi_job i) (bi_details i) (bi_totalProxyCapacity i) (bi_workerPoolSize i).

Definition measured_capacity : num := (bi_runtimeTelemetry i ≫= rt_time_weighted_effective_worker_capacity) ?? #0.

Definition bi_workerDemand : num :=
  if measured_capacity >! #0 then measured_capacity else bi_workerPoolSize i ⊗ bi_targetConcurrency.

(** The literal [0.9]. *)
Definition nine_tenths : num := #9 ⊘ #10.

Definition isProxyBottleneck : bool :=
  isSaturated capacity || ((utilizationPercent capacity >=! #90) && (bi_readyTasksCount i >! #0)).

Definition isWorkerBottleneck : bool :=
  negb isProxyBottleneck && (bi_runningTasksCount i >=! bi_workerDemand ⊗ nine_tenths) && (bi_readyTasksCount i >! #0).

Definition rawJobStatus : string :=
  to_lower (truthy_opt (job_status <$> bi_details i) ?? job_status (bi_job i)).

Definition isJobActive : bool := bi_isLiveJob i && ((rawJobStatus =s "running") || (rawJobStatus =s "in_progress")).

Definition remainingTasks : num := math_max #0 (bi_totalTasksCount i ⊖ bi_completedTasksCount i).

Definition isDraining : bool := (remainingTasks <=! bi_runningTasksCount i) || (remainingTasks =! #0).

Definition isQueueStarved : bool :=
  isJobActive && negb isDraining && negb isProxyBottleneck && negb isWorkerBottleneck &&
  (bi_readyTasksCount i =! #0) &&
  (bi_runningTasksCount i <! math_max #2 (bi_workerDemand ⊗ nine_tenths)) &&
  (remainingTasks >! bi_runningTasksCount i).

Definition hasCompleteRuntimeTelemetry : bool := runtimeTelemetryComplete summary.
Definition meanHandler : num := meanHandlerSec summary ?? #0.
Definition meanWriter : num := meanWriterSec summary ?? #0.

Definition dominantService : string * num :=
  if hasCompleteRuntimeTelemetry then head (ranked_phases summary) ?? ("Unavailable", #0) else ("Unavailable", #0).

Definition dominant_is (phase : string) : bool := (dominantService.1 =s phase) && (dominantService.2 >! #0).

(** *** The verdict of a finished run *)

Definition secs (x : num) : string := to_fixed 2 x +:+ "s".

Definition writer_verdict : BottleneckState * string * string :=
  if queue_or_admission summary then
    (writer_constrained, "Writer Queue / Admission Backpressure",
     "Tasks spent " +:+ secs meanWriter +:+ " on durable writer waits, dominated by " +:+
     to_lower (dominantWriterSubphase summary ?? EmptyString) +:+
     ". Operation execution and commit are measured separately from checkpoint and receipt work.")
  else
    (writer_constrained, "Durable Writer Wait Dominant",
     "Tasks spent " +:+ secs meanWriter +:+ " on average waiting for durable writer operations, more than the non-writer handler work (" +:+
     secs meanHandler +:+ ").").

Definition isWriterDominant : bool := (meanWriter >! #0) && (meanWriter >=! meanHandler).

Definition finished_verdict : BottleneckState * string * string :=
  match occupancyGapClassification summary with
  | Some GapRoutingStall =>
      (routing_stall, "Ready-Queue Routing Stall",
       "Backend recovery restored " +:+ show_num (readyQueueRecoveredTasks summary ?? #0) +:+
       " stranded ready tasks across " +:+ show_num (readyQueueRecoveryCount summary ?? #0) +:+ " repair events.")
  | _ =>
      if dominant_is "Terminal State Update" then
        (terminal_constrained, "Terminal State Update Dominant",
         "Tasks spent " +:+ secs (dominantService.2) +:+ " on average between handler return and the completion transition. Inspect finish-lock waiting, output persistence, and counter updates; this phase exceeds handler and writer time.")
      else if dominant_is "Worker Setup" then
        (setup_constrained, "Worker Setup Dominant",
         "Worker setup averaged " +:+ secs (dominantService.2) +:+ " per task, the largest measured service phase. Inspect the locking, event, claim, and registry subphases.")
      else if dominant_is "Release / Publication" then
        (release_constrained, "Release / Publication Dominant",
         "Worker cleanup and publication averaged " +:+ secs (dominantService.2) +:+ " per task, the largest measured service phase.")
      else if isWriterDominant then writer_verdict
      else if avgActiveProxyUtilization summary >=! #90 then
        (route_constrained, "Active Route Capacity Reached",
         "Measured time-weighted route occupancy reached " +:+ show_num (avgActiveProxyUtilization summary) +:+ "% of declared route-slot capacity.")
      else
        (handler_constrained, "Handler / Upstream Time Dominant",
         "Measured task service time is dominated by handler and upstream work (" +:+ secs meanHandler +:+ " exclusive of writer wait).")
  end.

(** *** Findings of the writer *)

(** [x?.toFixed(1) ?? 'unknown'] and [x ?? 'unknown']. *)
Definition fixed_or_unknown (x : option num) : string := (to_fixed 1 <$> x) ?? "unknown".
Definition show_or_unknown (x : option num) : string := (show_num <$> x) ?? "unknown".

(** [Math.max(a, b, ...)] *)
Definition math_max_all (l : list num) : num := foldl math_max (S754_infinity true) l.

Definition writerSubphaseMs : num :=
  math_max_all (map (fun x => x ?? #0)
    [meanWriterAdmissionMs summary; meanWriterQueueMs summary; meanWriterExecutionMs summary; meanWriterCommitMs summary;
     meanWriterBatchPeerWorkMs summary; meanWriterOverheadMs summary; meanWriterDeliveryMs summary]).

Definition coverage_finding : list string :=
  match truthy_opt (dominantWriterSubphase summary), writerTimingCoveragePercent summary with
  | Some sub, Some percent =>
      ["Writer profiling covers " +:+ show_num percent +:+ "% of acknowledged writes. The largest measured subphase is " +:+
       sub +:+ " at " +:+ to_fixed 3 (writerSubphaseMs ⊘ #1000) +:+ "s per task."]
  | _, _ => []
  end.

Definition pressure_finding : list string :=
  match writerConfiguredConcurrency summary with
  | Some lanes =>
      if num_truthy lanes then
        ["Writer pressure: " +:+ fixed_or_unknown (meanWriterActiveLanes summary) +:+ " mean active lanes (" +:+
         show_or_unknown (maxWriterActiveLanes summary) +:+ " max) of " +:+ show_num lanes +:+
         " configured; queue depth at writer start averaged " +:+ fixed_or_unknown (meanWriterQueueCommandsAtStart summary) +:+
         " commands and peaked at " +:+ show_or_unknown (maxWriterQueueCommandsAtStart summary) +:+ " of " +:+
         show_or_unknown (writerQueueMaxCommands summary) +:+ "."]
      else []
  | None => []
  end.

Definition fill_finding : list string :=
  match meanWriterBatchFillPercent summary with
  | Some percent =>
      ["Writer batch fill averaged " +:+ show_num percent +:+ "% (" +:+ fixed_or_unknown (meanWriterBatchCommands summary) +:+
       " of " +:+ show_or_unknown (writerConfiguredBatchSize summary) +:+ " commands per lane); the admitted working window was " +:+
       show_or_unknown (writerWindowCommands summary) +:+ " commands and the effective refill threshold was " +:+
       show_or_unknown (writerRefillMinCommands summary) +:+ "."]
  | None => []
  end.

Definition demand_finding : list string :=
  match writerSubmitsPerTask summary with
  | Some perTask =>
      ["Writer demand: " +:+ number_toLocaleString (writerTimedSubmits summary ?? #0) +:+ " acknowledged submits, " +:+
       to_fixed 3 perTask +:+ " submits per task, and " +:+ to_fixed 1 (writerSubmitsPerSec summary ?? #0) +:+
       " submits/s across the task-active window."]
  | None => []
  end.

Definition delivery_finding : list string :=
  match writerResultCacheHitPercent summary with
  | Some percent =>
      ["Writer result delivery: " +:+ number_toLocaleString (writerResultCacheHits summary ?? #0) +:+ " result-cache hits and " +:+
       number_toLocaleString (writerReceiptFallbacks summary ?? #0) +:+ " PostgreSQL receipt fallbacks (" +:+
       show_num percent +:+ "% cache hit rate)."]
  | None => []
  end.

Definition ms2 (x : option num) : string := to_fixed 2 (x ?? #0).

Definition admission_finding : list string :=
  match meanWriterAdmissionCapacityWaitMs summary with
  | Some wait =>
      ["Producer admission split: " +:+ to_fixed 2 wait +:+ "ms queue-capacity wait, " +:+
       ms2 (meanWriterAdmissionRedisMs summary) +:+ "ms Redis admission, " +:+
       ms2 (meanWriterAdmissionSerializationMs summary) +:+ "ms serialization, and " +:+
       ms2 (meanWriterAdmissionOverheadDetailMs summary) +:+ "ms other overhead per task."]
  | None => []
  end.

Definition ledger_ms (key : string) : option num :=
  tc_ms <$> ((bi_runtimeTelemetry i ≫= rt_ledger_stats) ≫= JMap.get key).

Definition telemetry_tasks : num := (rt_task_count <$> bi_runtimeTelemetry i) ?? #0.

Definition ledger_finding : list string :=
  match ledger_ms "writer_prepare" with
  | Some prepare =>
      if telemetry_tasks >! #0 then
        ["Writer admission includes " +:+ to_fixed 2 (prepare ⊘ telemetry_tasks) +:+
         "ms/task of ledger checkpoint wait: " +:+
         to_fixed 2 ((ledger_ms "writer_prepare_execution" ?? #0) ⊘ telemetry_tasks) +:+ "ms SQL call and " +:+
         to_fixed 2 ((ledger_ms "writer_prepare_admission" ?? #0) ⊘ telemetry_tasks) +:+
         "ms thread admission and dispatch. These spans are nested inside writer admission."]
      else []
  | None => []
  end.

Definition is_some {A} (o : option A) : bool := match o with Some _ => true | None => false end.

Definition split_finding : list string :=
  if is_some (meanWriterResultPublicationMs summary) || is_some (meanWriterResultObservationMs summary) then
    ["Result delivery split: " +:+ ms2 (meanWriterResultPublicationMs summary) +:+ "ms writer publication, " +:+
     ms2 (meanWriterResultObservationMs summary) +:+ "ms producer observation, and " +:+
     ms2 (meanWriterResultDeliveryResidualMs summary) +:+ "ms fallback/unclassified delivery per task (" +:+
     show_num (writerResultDeliverySplitCoveragePercent summary ?? #0) +:+ "% split coverage)."]
  else [].

Definition execution_finding : list string :=
  match truthy_opt (dominantWriterExecutionSubphase summary) with
  | Some sub => ["Within writer SQL/user-sync work, the largest measured internal subphase is " +:+ sub +:+ "."]
  | None => []
  end.

Definition authority_finding : list string :=
  if (writerAuthorityRowsExamined summary ?? #0) >! #0 then
    ["Authority observation filtering examined " +:+ number_toLocaleString (writerAuthorityRowsExamined summary ?? #0) +:+
     " rows, skipped " +:+ number_toLocaleString (writerAuthorityRowsSkipped summary ?? #0) +:+ " unchanged rows (" +:+
     show_num (writerAuthoritySkipPercent summary ?? #0) +:+ "%), and submitted " +:+
     number_toLocaleString (writerAuthorityRowsUpserted summary ?? #0) +:+ " rows to the conflict upsert."]
  else [].

Definition writer_findings : list string :=
  coverage_finding ++ pressure_finding ++ fill_finding ++ demand_finding ++ delivery_finding ++
  admission_finding ++ ledger_finding ++ split_finding ++ execution_finding ++ authority_finding.

(** *** Findings of a finished run *)

Definition is_writer_state (v : BottleneckState * string * string) : bool :=
  match v.1.1 with writer_constrained => true | _ => false end.

Definition writerPhaseLabel : string :=
  if (meanWriter >! meanHandler) && queue_or_admission summary
  then "Writer Queue / Admission Backpressure" else "Durable Writer Wait".

Definition dominantServiceSubphase : option string :=
  if dominantService.1 =s "Worker Setup" then dominantSetupSubphase summary
  else if dominantService.1 =s writerPhaseLabel then dominantWriterSubphase summary
  else if dominantService.1 =s "Handler / Upstream Work" then dominantHandlerSubphase summary
  else None.

Definition phase_finding : string :=
  "Dominant task service phase: " +:+ dominantService.1 +:+ " at " +:+ to_fixed 2 (dominantService.2) +:+ "s per task" +:+
  (match truthy_opt dominantServiceSubphase with
   | Some sub => "; primary measured subphase: " +:+ sub
   | None => EmptyString
   end) +:+ ".".

Definition telemetry_finding : string :=
  "Full-job telemetry covers " +:+ show_num telemetry_tasks +:+ " task attempts with " +:+
  to_fixed 1 (avgActiveConcurrency summary) +:+ " time-weighted in-flight tasks and " +:+
  show_num (avgActiveProxyRoutes summary) +:+ " time-weighted active routes.".

Definition queue_wait_finding : list string :=
  match meanQueueWaitSec summary with
  | Some wait =>
      if wait >! #0 then
        ["Mean pre-service queue age was " +:+ secs wait +:+
         ". It indicates backlog/admission delay, but is not part of task service time and is not ranked as an additive throughput bottleneck."]
      else []
  | None => []
  end.

Definition gap_finding : list string :=
  match truthy_opt (occupancyGapExplanation summary) with Some e => [e] | None => [] end.

Definition finished_findings : list string :=
  telemetry_finding :: first_findings ++ (if is_writer_state finished_verdict then writer_findings else []) ++
  [phase_finding] ++ queue_wait_finding ++ gap_finding.

(** *** The verdict of a live run *)

Definition proxy_finding : string :=
  if bi_workerDemand >! totalRoutes capacity then
    "Proxy ceiling bound: total worker concurrency demand (" +:+ show_num (bi_workerPoolSize i) +:+ " workers × " +:+
    show_num bi_targetConcurrency +:+ " = " +:+ show_num bi_workerDemand +:+ ") exceeds proxy capacity (" +:+
    show_num (totalRoutes capacity) +:+ " routes). Adding proxy routes will directly increase throughput."
  else
    "Proxy ceiling bound: active route utilization reached capacity (" +:+ show_num (totalRoutes capacity) +:+
    " routes). Adding proxy routes will directly increase throughput.".

Definition awaiting_first : bool :=
  isJobActive && (bi_completedTasksCount i ⊕ bi_failedJobTasks i =! #0) && negb hasCompleteRuntimeTelemetry.

Definition analysis (st : BottleneckState) (l e : string) (findings : list string) : BottleneckAnalysis :=
  {| state := st; label := l; explanation := e;
     rootCauseFindings :=
       match findings with
       | [] =>
           [match st with
            | insufficient_data => "Full-job runtime telemetry is incomplete. Worker participation, ready-queue supply, and service phases are unavailable, so throughput constraints cannot be established from this run."
            | _ => "Telemetry indicates healthy operational equilibrium across proxy routes and worker execution."
            end]
       | _ => findings
       end |}.

Definition analyzeBottleneck : BottleneckAnalysis :=
  if negb isJobActive && negb hasCompleteRuntimeTelemetry then
    analysis insufficient_data "Insufficient Runtime Telemetry"
      "This completed run lacks full-job runtime measurements. Worker participation, ready-queue supply, and service phases are unavailable, so the reported capacity gap cannot identify a concurrency or claim-batch bottleneck."
      first_findings
  else if negb isJobActive then
    let '(st, l, e) := finished_verdict in analysis st l e finished_findings
  else if awaiting_first then
    analysis insufficient_data "Awaiting First Completion"
      (number_toLocaleString (bi_runningTasksCount i) +:+
       " tasks are in flight, but none have completed. Claimed task slots do not establish active upstream requests or proxy saturation.")
      (first_findings ++ ["Check execution waits before interpreting route capacity or estimating completion time."])
  else if isProxyBottleneck then
    analysis proxy_saturated "Proxy Route Saturated"
      ("Task execution is constrained by " +:+ show_num (totalRoutes capacity) +:+ " proxy routes. Inflight concurrency (" +:+
       show_num (bi_runningTasksCount i) +:+ ") has reached proxy capacity while " +:+
       number_toLocaleString (bi_readyTasksCount i) +:+ " ready tasks await route allocation.")
      (proxy_finding :: first_findings)
  else if isWorkerBottleneck then
    analysis worker_constrained "Worker Pool Capacity Reached"
      ("Worker capacity (" +:+ show_num bi_workerDemand +:+ " task slots across " +:+ show_num (bi_workerPoolSize i) +:+
       " workers) is fully engaged with " +:+ number_toLocaleString (bi_readyTasksCount i) +:+
       " queued tasks pending execution. Expanding the worker pool will scale throughput.")
      first_findings
  else if isQueueStarved then
    analysis queue_starved "Pipeline Queue Starvation"
      ("Workers are idling (" +:+ show_num (bi_runningTasksCount i) +:+ " active of " +:+ show_num bi_workerDemand +:+
       " task slots) because the upstream task generator has not filled the ready queue.")
      first_findings
  else if hasCompleteRuntimeTelemetry && (meanHandler >! #0) then
    analysis handler_constrained "Handler / Upstream Time Dominant"
      ("Handler and upstream work averaged " +:+ secs meanHandler +:+
       " per task; refill-stage timing is needed to explain intermittent empty ready queues.")
      first_findings
  else
    analysis insufficient_data "No Confirmed Bottleneck"
      "Current measurements do not establish the cause of unused execution capacity." first_findings.
End bottleneck.

(** ** Throughput *)

Record ThroughputDiagnosticsInputs := {
  ti_currentPercentiles : LatencyPercentiles;
  ti_details : option JobDetail;
  ti_finalSummary : FinalReportSummary;
  ti_httpDistribution : HttpStatusBreakdown;
  ti_job : Job;
  ti_runtimeTelemetry : option JobRuntimeTelemetry;
  ti_totalProxyCapacity : num;
  ti_workerPoolSize : num
}.

Section throughput.
Variable i : ThroughputDiagnosticsInputs.
Definition ti_summary : FinalReportSummary := ti_finalSummary i.
Definition ti_http : HttpStatusBreakdown := ti_httpDistribution i.

(** A measured mean, when the telemetry is complete and it is not zero. *)
Definition measured_mean (x : option num) (otherwise : num) : num :=
  match x with
  | Some v => if runtimeTelemetryComplete ti_summary && num_truthy v then v else otherwise
  | None => otherwise
  end.

Definition effectiveMedianLatency : num :=
  if p50 (ti_currentPercentiles i) >! #0 then p50 (ti_currentPercentiles i) else #21 ⊘ #10.
Definition effectiveServiceTime : num := measured_mean (meanTaskDurationSec ti_summary) effectiveMedianLatency.
Definition effectiveRouteServiceTime : num := measured_mean (meanRouteActiveDurationSec ti_summary) effectiveServiceTime.
Definition p95Latency : num :=
  if p95 (ti_currentPercentiles i) >! #0 then p95 (ti_currentPercentiles i) else effectiveMedianLatency.

Definition ti_targetConcurrency : num :=
  resolveTargetConcurrency (ti_job i) (ti_details i) (ti_totalProxyCapacity i) (ti_workerPoolSize i).

Definition ti_workerDemand : num :=
  let measured_capacity := (ti_runtimeTelemetry i ≫= rt_time_weighted_effective_worker_capacity) ?? #0 in
  if measured_capacity >! #0 then measured_capacity else math_max #1 (ti_workerPoolSize i ⊗ ti_targetConcurrency).

(** The literal [0.05]. *)
Definition twentieth : num := #1 ⊘ #20.

Definition theoreticalProxyMax : num :=
  theoreticalProxyMaxItemsPerSec ti_summary ?? rounded 1 (ti_totalProxyCapacity i ⊘ math_max twentieth effectiveRouteServiceTime).
Definition theoreticalWorkerMax : num :=
  theoreticalWorkerMaxItemsPerSec ti_summary ?? rounded 1 (ti_workerDemand ⊘ math_max twentieth effectiveServiceTime).

Definition has_proxies : bool := ti_totalProxyCapacity i >! #0.

Definition governingCeiling : num :=
  if has_proxies then math_min theoreticalProxyMax theoreticalWorkerMax else theoreticalWorkerMax.

Definition governing : GoverningBottleneck :=
  if has_proxies && (theoreticalProxyMax <=! theoreticalWorkerMax) then ProxyCapacity else WorkerConcurrency.

Definition idle_routes : num := math_max #0 (ti_totalProxyCapacity i ⊖ math_round (avgActiveProxyRoutes ti_summary)).

Definition share_of_proxies (x : num) : num :=
  if has_proxies then rounded 1 (x ⊘ ti_totalProxyCapacity i ⊗ #100) else #0.

Definition workerUtilization : num :=
  math_min #100 (rounded 1 ((avgActiveConcurrency ti_summary ⊘ math_max #1 ti_workerDemand) ⊗ #100)).

Definition latencySpread : num := rounded 2 (p95Latency ⊘ math_max (#1 ⊘ #10) effectiveMedianLatency).

Definition tailDrag : num :=
  if p95Latency >! effectiveMedianLatency then
    math_min #60 (rounded 1
      (((p95Latency ⊖ effectiveMedianLatency) ⊘ (p95Latency ⊕ effectiveMedianLatency)) ⊗ #100))
  else #0.

Definition peakToAvg : num :=
  if peakWasCapped ti_summary then #1
  else if overallAvgItemsPerSec ti_summary >! #0 then rounded 2 (peakItemsPerSec ti_summary ⊘ overallAvgItemsPerSec ti_summary)
  else #1.

(** *** Loss factors *)

Definition remedies : JMap.t string := JMap.of_list
  [("Worker Setup", "Inspect the measured locking, event, claim, and registry subphases.");
   ("Handler / Upstream Work", "Profile upstream request stages and route-attempt latency inside the task handler.");
   ("Writer Queue / Admission Backpressure", "Improve writer batch formation and queue/refill scheduling before adding writer lanes.");
   ("Durable Writer Wait", "Inspect writer execution and commit latency before raising writer concurrency.");
   ("Terminal State Update", "Inspect finish-lock waiting, output persistence, counter updates, and archive lease duration.");
   ("Release / Publication", "Inspect worker cleanup, lock release, and progress publication.")].

Definition phase_loss : list ThroughputLossFactor :=
  if runtimeTelemetryComplete ti_summary then
    match ranked_phases ti_summary with
    | (phase, seconds) :: _ =>
        if seconds >! #0 then
          [{| factor := phase; severity := SevHigh; estimatedLossItemsPerSec := #0;
              description := phase +:+ " is the largest measured phase at " +:+ to_fixed 2 seconds +:+
                "s per task on average. This is a measured time attribution, not an additive throughput-loss estimate.";
              remedy := JMap.get phase remedies ?? EmptyString |}]
        else []
    | [] => []
    end
  else
    [{| factor := "Insufficient Runtime Telemetry"; severity := SevModerate; estimatedLossItemsPerSec := #0;
        description := "Worker participation, ready-queue supply, and full-job phase measurements are unavailable. Capacity and occupancy estimates derived from lifetime throughput and sampled latency cannot establish that concurrency or claim batching is limiting.";
        remedy := "Use a telemetry-complete run before changing worker concurrency, claim-batch size, or proxy capacity." |}].

Definition incidence (count : num) : num := (count ⊘ math_max #1 (totalObserved ti_http)) ⊗ #100.

Definition incidence_severity (percent : num) : Severity :=
  if percent >=! #5 then SevCritical else if percent >=! #1 then SevHigh
  else if percent >=! (#1 ⊘ #10) then SevModerate else SevLow.

Definition rate_limit_loss : list ThroughputLossFactor :=
  if rateLimit429 ti_http >! #0 then
    [{| factor := "Upstream Rate Limiting (HTTP 429)"; severity := incidence_severity (incidence (rateLimit429 ti_http));
        estimatedLossItemsPerSec := #0;
        description := show_num (rateLimit429 ti_http) +:+ " request(s) rejected by upstream API rate limiters (" +:+
          to_fixed 2 (incidence (rateLimit429 ti_http)) +:+
          "% observed incidence). No additive throughput loss is inferred from the count alone.";
        remedy := "Inspect per-route attribution first; rotate or redistribute only routes that account for the observed 429 responses." |}]
  else [].

Definition timeout_loss : list ThroughputLossFactor :=
  if timeoutErrors ti_http >! #0 then
    [{| factor := "Connection Timeouts & Network Resets"; severity := incidence_severity (incidence (timeoutErrors ti_http));
        estimatedLossItemsPerSec := #0;
        description := show_num (timeoutErrors ti_http) +:+ " task connection abort(s)/timeout(s) (" +:+
          to_fixed 2 (incidence (timeoutErrors ti_http)) +:+
          "% observed incidence). No additive throughput loss is inferred without measured occupied time.";
        remedy := "Capture per-route timeout attribution and upstream timing before pruning routes; inspect the handler stage identified by the evidence." |}]
  else [].

Definition buildThroughputDiagnostics : ThroughputDiagnostics := {|
  td_proxyMax := theoreticalProxyMax;
  td_workerMax := theoreticalWorkerMax;
  governingCeilingItemsPerSec := governingCeiling;
  governingBottleneck := governing;
  td_activeConcurrency := avgActiveConcurrency ti_summary;
  idleProxyRoutes := idle_routes;
  idleProxyPercent := share_of_proxies idle_routes;
  proxyUtilizationPercent := share_of_proxies (avgActiveProxyRoutes ti_summary);
  workerUtilizationPercent := workerUtilization;
  td_workerPoolSize := ti_workerPoolSize i;
  workerConcurrencyDemand := ti_workerDemand;
  td_targetConcurrency := ti_targetConcurrency;
  latencySpreadRatio := latencySpread;
  tailLatencyDragPercent := tailDrag;
  peakToAvgRatio := peakToAvg;
  lossFactors := phase_loss ++ rate_limit_loss ++ timeout_loss
|}.
End throughput.
