(* ===== verification/Samples.v ===== *)
(** * Concrete jobs and reports

    The records the examples and witnesses of the diagnostics evaluate on. *)

From Stdlib Require Import ZArith Lia SpecFloat.
From stdpp Require Import base list strings option.
From S2P Require Import Prelude JsString JsNum JsValue RuntimeTelemetry JobTypes DiagnosticsTypes.

Definition demo_job (status : string) (settings : fields) : Job := {|
  deletion_progress := None; job_id := "j1"; execution_engine := None; job_name := None; job_type := None;
  job_site := None; job_status := status; priority := None; job_worker_id := None; retries := None;
  max_retries := None; created_at := None; updated_at := None; started_at := None; completed_at := None;
  task_count := None; completed_tasks := None; failed_tasks := None; job_task_summaries := None;
  job_tasks := None; task_stats := None; task_stats_observed_at_ms := None; mps_refill_trace := None;
  error_stats := None; created_by := None; is_scheduled := None; scheduled_for := None; interval_seconds := None;
  cron := None; run_count := None; last_ran_at := None; last_activity_at := None; materialization_status := None;
  materialized_tasks := None; materialization_total := None; materialization_error := None;
  metadata := Some settings; args := None; duration_seconds := None; result_success := None;
  result_message := None; result_error := None; job_runtime_telemetry := None
|}.

(** The summary of a measured run with the given mean seconds per phase. *)
Definition demo_summary (setup handler writer post release : num) : FinalReportSummary := {|
  jobOutcome := "completed"; totalDurationFormatted := "1h"; totalDurationSec := #3600;
  metadataDurationSec := None; telemetryActiveWindowSec := None; durationDiscrepancyPercent := None;
  durationSource := None; overallAvgItemsPerSec := #2; overallAvgTasksPerSec := #2; peakItemsPerSec := #3;
  efficiencyPercent := #50; proxyBottleneckFactor := #0; theoreticalMaxItemsPerSec := #4;
  theoreticalProxyMaxItemsPerSec := None; theoreticalWorkerMaxItemsPerSec := None;
  capacityModelBottleneck := None; failedTaskCount := None; terminationReason := None; healthyProxyCount := #0;
  degradedProxyCount := #0; criticalProxyCount := #0; avgActiveConcurrency := #16; avgActiveProxyRoutes := #8;
  avgActiveProxyUtilization := #50; recommendations := []; summary_unit := None; summary_peakScope := None;
  peakWasCapped := false; runtimeTelemetryComplete := true; meanTaskDurationSec := None;
  meanRouteActiveDurationSec := None; meanRouteAttemptDurationSec := None; routeAttemptsPerTask := None;
  routeLookupStats := None; meanHandlerGuestInitMs := None; handlerGuestInitCount := None;
  meanHandlerInitialLookupMs := None; handlerInitialLookupCount := None; meanHandlerRefreshApiMs := None;
  handlerRefreshApiCount := None; meanHandlerFallbackRetryMs := None; handlerFallbackRetryCount := None;
  meanHandlerSerializationMs := None; handlerSerializationCount := None; meanHandlerResidualMs := None;
  dominantHandlerSubphase := None; meanQueueWaitSec := None; meanSetupSec := Some setup; setupSubphases := None;
  dominantSetupSubphase := None; meanHandlerSec := Some handler; meanWriterSec := Some writer;
  meanPostSec := Some post; meanReleaseSec := Some release; activeWindowThroughput := None;
  steadyStateThroughput := None; steadyStateCapacityItemsPerSec := None; steadyStateEfficiencyPercent := None;
  rampDrainPercent := None; meanClaimWaitMs := None; meanWriterAdmissionMs := None;
  meanWriterAdmissionSerializationMs := None; meanWriterAdmissionCapacityWaitMs := None;
  meanWriterAdmissionRedisMs := None; meanWriterAdmissionOverheadDetailMs := None; meanWriterQueueMs := None;
  meanWriterExecutionMs := None; meanWriterCommitMs := None; meanWriterOverheadMs := None;
  meanWriterBatchPeerWorkMs := None; meanWriterDeliveryMs := None; meanWriterResultPublicationMs := None;
  meanWriterResultObservationMs := None; meanWriterResultDeliveryResidualMs := None;
  writerResultDeliverySplitCoveragePercent := None; writerTimedSubmits := None; writerSubmitsPerTask := None;
  writerSubmitsPerSec := None; writerResultCacheHits := None; writerReceiptFallbacks := None;
  writerResultCacheHitPercent := None; writerSplitMissingReasons := None; writerOperationStats := None;
  writerDomainStats := None; writerTimingCoveragePercent := None; dominantWriterSubphase := None;
  meanWriterConnectionCheckoutMs := None; meanWriterReceiptLookupMs := None; meanWriterReceiptFinalizeMs := None;
  meanWriterPayloadMs := None; meanWriterUserRowMs := None; meanWriterAliasMs := None;
  meanWriterAuthorityMs := None; writerAuthorityRowsExamined := None; writerAuthorityRowsSkipped := None;
  writerAuthorityRowsUpserted := None; writerAuthoritySkipPercent := None; meanWriterProfileMs := None;
  meanWriterSocialMs := None; meanWriterFlushMs := None; dominantWriterExecutionSubphase := None;
  meanWriterQueueCommandsAtStart := None; maxWriterQueueCommandsAtStart := None;
  meanWriterQueueBytesAtStart := None; maxWriterQueueBytesAtStart := None; meanWriterActiveLanes := None;
  maxWriterActiveLanes := None; meanWriterBatchCommands := None; meanWriterBatchFillPercent := None;
  meanWriterLaneIdleMs := None; meanWriterLanePredecessorWaitMs := None; meanWriterRefillWaitMs := None;
  writerConfiguredConcurrency := None; writerConfiguredBatchSize := None; writerWindowCommands := None;
  writerQueueMaxCommands := None; writerQueueMaxBytes := None; writerRefillMinCommands := None;
  writerRefillMinCommandsPerLane := None; maxWorkerCompletionGapMs := None; readyQueueRecoveryCount := None;
  readyQueueRecoveredTasks := None; readyNonemptyPercent := None; readyNonemptySamples := None;
  readySampleCount := None; readyTimelineNonemptyPercent := None; readyTimelineIntervalCount := None;
  readyTimelineCoveredSeconds := None; steadyReadyTimelineNonemptyPercent := None;
  steadyReadyTimelineCoveredSeconds := None; meanReadyDepth := None; workersSeen := None;
  expectedWorkers := None; timeWeightedParticipatingWorkers := None; timeWeightedEffectiveWorkerCapacity := None;
  occupancyGapClassification := None; occupancyGapExplanation := None
|}.

Definition demo_errors (failed : num) : ErrorVelocityStats := {|
  totalErrors := failed; errorsLast60s := #0; safetyThresholdLimit := #25; safetyMarginPercent := #0;
  error_trend := Stable; rate429Count := #0; rate429PerMin := #0; rate429Scope := None; errorWindowScope := None;
  errorWindowSeconds := None
|}.

Definition demo_http : HttpStatusBreakdown := {|
  ok200 := #100; rateLimit429 := #0; forbidden403 := #0; notFound404 := #0; serverError5xx := #0;
  timeoutErrors := #0; otherErrors := #0; totalObserved := #100
|}.

Definition demo_capacity : ProxyCapacityStats := {|
  totalRoutes := #16; enabledProxies := #16; directRoutes := #0; activeRoutes := #8; utilizationPercent := #50;
  isNearCapacity := false; isSaturated := false; capacityUnit := None; totalSlots := None; activeSlots := None
|}.

Definition with_counters (j : Job) (completed failed seconds : num) : Job := {|
  deletion_progress := deletion_progress j; job_id := job_id j; execution_engine := execution_engine j;
  job_name := job_name j; job_type := job_type j; job_site := job_site j; job_status := job_status j;
  priority := priority j; job_worker_id := job_worker_id j; retries := retries j; max_retries := max_retries j;
  created_at := created_at j; updated_at := updated_at j; started_at := started_at j;
  completed_at := completed_at j; task_count := task_count j; completed_tasks := Some completed;
  failed_tasks := Some failed; job_task_summaries := job_task_summaries j; job_tasks := job_tasks j;
  task_stats := task_stats j; task_stats_observed_at_ms := task_stats_observed_at_ms j;
  mps_refill_trace := mps_refill_trace j; error_stats := error_stats j; created_by := created_by j;
  is_scheduled := is_scheduled j; scheduled_for := scheduled_for j; interval_seconds := interval_seconds j;
  cron := cron j; run_count := run_count j; last_ran_at := last_ran_at j; last_activity_at := last_activity_at j;
  materialization_status := materialization_status j; materialized_tasks := materialized_tasks j;
  materialization_total := materialization_total j; materialization_error := materialization_error j;
  metadata := metadata j; args := args j; duration_seconds := Some seconds; result_success := result_success j;
  result_message := result_message j; result_error := result_error j;
  job_runtime_telemetry := job_runtime_telemetry j
|}.

Definition with_stats (j : Job) (stats : TaskStats) (started finished : string) : Job := {|
  deletion_progress := deletion_progress j; job_id := job_id j; execution_engine := execution_engine j;
  job_name := job_name j; job_type := job_type j; job_site := job_site j; job_status := job_status j;
  priority := priority j; job_worker_id := job_worker_id j; retries := retries j; max_retries := max_retries j;
  created_at := created_at j; updated_at := updated_at j; started_at := Some started;
  completed_at := truthy_opt (Some finished); task_count := task_count j; completed_tasks := completed_tasks j;
  failed_tasks := failed_tasks j; job_task_summaries := job_task_summaries j; job_tasks := job_tasks j;
  task_stats := Some stats; task_stats_observed_at_ms := task_stats_observed_at_ms j;
  mps_refill_trace := mps_refill_trace j; error_stats := error_stats j; created_by := created_by j;
  is_scheduled := is_scheduled j; scheduled_for := scheduled_for j; interval_seconds := interval_seconds j;
  cron := cron j; run_count := run_count j; last_ran_at := last_ran_at j; last_activity_at := last_activity_at j;
  materialization_status := materialization_status j; materialized_tasks := materialized_tasks j;
  materialization_total := materialization_total j; materialization_error := materialization_error j;
  metadata := metadata j; args := args j; duration_seconds := duration_seconds j;
  result_success := result_success j; result_message := result_message j; result_error := result_error j;
  job_runtime_telemetry := job_runtime_telemetry j
|}.

Definition with_telemetry (j : Job) (t : JobRuntimeTelemetry) : Job := {|
  deletion_progress := deletion_progress j; job_id := job_id j; execution_engine := execution_engine j;
  job_name := job_name j; job_type := job_type j; job_site := job_site j; job_status := job_status j;
  priority := priority j; job_worker_id := job_worker_id j; retries := retries j; max_retries := max_retries j;
  created_at := created_at j; updated_at := updated_at j; started_at := started_at j;
  completed_at := completed_at j; task_count := task_count j; completed_tasks := completed_tasks j;
  failed_tasks := failed_tasks j; job_task_summaries := job_task_summaries j; job_tasks := job_tasks j;
  task_stats := task_stats j; task_stats_observed_at_ms := task_stats_observed_at_ms j;
  mps_refill_trace := mps_refill_trace j; error_stats := error_stats j; created_by := created_by j;
  is_scheduled := is_scheduled j; scheduled_for := scheduled_for j; interval_seconds := interval_seconds j;
  cron := cron j; run_count := run_count j; last_ran_at := last_ran_at j; last_activity_at := last_activity_at j;
  materialization_status := materialization_status j; materialized_tasks := materialized_tasks j;
  materialization_total := materialization_total j; materialization_error := materialization_error j;
  metadata := metadata j; args := args j; duration_seconds := duration_seconds j;
  result_success := result_success j; result_message := result_message j; result_error := result_error j;
  job_runtime_telemetry := Some t
|}.

Definition with_errors (j : Job) (e : JobErrorStats) : Job := {|
  deletion_progress := deletion_progress j; job_id := job_id j; execution_engine := execution_engine j;
  job_name := job_name j; job_type := job_type j; job_site := job_site j; job_status := job_status j;
  priority := priority j; job_worker_id := job_worker_id j; retries := retries j; max_retries := max_retries j;
  created_at := created_at j; updated_at := updated_at j; started_at := started_at j;
  completed_at := completed_at j; task_count := task_count j; completed_tasks := completed_tasks j;
  failed_tasks := failed_tasks j; job_task_summaries := job_task_summaries j; job_tasks := job_tasks j;
  task_stats := task_stats j; task_stats_observed_at_ms := task_stats_observed_at_ms j;
  mps_refill_trace := mps_refill_trace j; error_stats := Some e; created_by := created_by j;
  is_scheduled := is_scheduled j; scheduled_for := scheduled_for j; interval_seconds := interval_seconds j;
  cron := cron j; run_count := run_count j; last_ran_at := last_ran_at j; last_activity_at := last_activity_at j;
  materialization_status := materialization_status j; materialized_tasks := materialized_tasks j;
  materialization_total := materialization_total j; materialization_error := materialization_error j;
  metadata := metadata j; args := args j; duration_seconds := duration_seconds j;
  result_success := result_success j; result_message := result_message j; result_error := result_error j;
  job_runtime_telemetry := job_runtime_telemetry j
|}.

(** A run measured in full for a minute, with the mean milliseconds of its
    phases. *)
Definition demo_runtime (tasks setup handler writer post release : num) : JobRuntimeTelemetry := {|
  rt_version := #1; rt_scope := "job"; rt_task_count := tasks; rt_succeeded_tasks := tasks;
  rt_failed_tasks := #0; rt_first_started_at := None; rt_last_finished_at := None; rt_active_window_ms := #60000;
  rt_task_duration_sum_ms := #0; rt_mean_task_duration_ms := Some #1000; rt_mean_queue_wait_ms := None;
  rt_mean_setup_ms := Some setup; rt_setup_subphases := None; rt_mean_handler_ms := None;
  rt_mean_handler_exclusive_ms := Some handler; rt_guest_auth_stats := None; rt_terminal_stats := None;
  rt_ledger_stats := None; rt_mean_handler_guest_init_ms := None; rt_handler_guest_init_count := None;
  rt_mean_handler_initial_lookup_ms := None; rt_handler_initial_lookup_count := None;
  rt_mean_handler_refresh_api_ms := None; rt_handler_refresh_api_count := None;
  rt_mean_handler_fallback_retry_ms := None; rt_handler_fallback_retry_count := None;
  rt_mean_handler_serialization_ms := None; rt_handler_serialization_count := None;
  rt_mean_writer_ms := Some writer; rt_mean_post_ms := Some post; rt_mean_release_ms := Some release;
  rt_mean_claim_wait_ms := None; rt_mean_writer_admission_ms := None;
  rt_mean_writer_admission_serialization_ms := None; rt_mean_writer_admission_capacity_wait_ms := None;
  rt_mean_writer_admission_redis_ms := None; rt_mean_writer_admission_overhead_detail_ms := None;
  rt_mean_writer_queue_ms := None; rt_mean_writer_execution_ms := None; rt_mean_writer_commit_ms := None;
  rt_mean_writer_overhead_ms := None; rt_mean_writer_batch_peer_work_ms := None;
  rt_mean_writer_delivery_ms := None; rt_mean_writer_result_publication_ms := None;
  rt_mean_writer_result_observation_ms := None; rt_mean_writer_result_delivery_residual_ms := None;
  rt_writer_result_delivery_split_coverage_ratio := None; rt_writer_result_cache_hits := None;
  rt_writer_receipt_fallbacks := None; rt_writer_result_cache_hit_ratio := None;
  rt_writer_split_missing_reasons := None; rt_writer_operation_stats := None; rt_writer_domain_stats := None;
  rt_writer_timed_submits := #0; rt_writer_timing_coverage_ratio := None;
  rt_mean_writer_connection_checkout_ms := None; rt_mean_writer_receipt_lookup_ms := None;
  rt_mean_writer_receipt_finalize_ms := None; rt_mean_writer_payload_ms := None;
  rt_mean_writer_user_row_ms := None; rt_mean_writer_alias_ms := None; rt_mean_writer_authority_ms := None;
  rt_writer_authority_rows_examined := None; rt_writer_authority_rows_skipped := None;
  rt_writer_authority_rows_upserted := None; rt_mean_writer_profile_ms := None; rt_mean_writer_social_ms := None;
  rt_mean_writer_flush_ms := None; rt_mean_writer_queue_commands_at_start := None;
  rt_max_writer_queue_commands_at_start := #0; rt_mean_writer_queue_bytes_at_start := None;
  rt_max_writer_queue_bytes_at_start := #0; rt_mean_writer_active_lanes := None;
  rt_max_writer_active_lanes := #0; rt_mean_writer_batch_commands := None;
  rt_mean_writer_batch_fill_ratio := None; rt_mean_writer_lane_idle_ms := None;
  rt_mean_writer_lane_predecessor_wait_ms := None; rt_mean_writer_refill_wait_ms := None;
  rt_writer_configured_concurrency := #0; rt_writer_configured_batch_size := #0;
  rt_writer_window_commands := None; rt_writer_queue_max_commands := #0; rt_writer_queue_max_bytes := #0;
  rt_writer_refill_min_commands := #0; rt_writer_refill_min_commands_per_lane := None;
  rt_max_worker_completion_gap_ms := #0; rt_ready_queue_recovery_count := #0;
  rt_ready_queue_recovered_tasks := #0; rt_time_weighted_inflight := None; rt_route_attempts := #0;
  rt_route_active_sum_ms := #0; rt_route_lookup_stats := None; rt_time_weighted_active_routes := None;
  rt_steady_task_count := #0; rt_steady_window_ms := #0; rt_steady_throughput := None;
  rt_steady_mean_task_duration_ms := None; rt_ramp_window_ms := None; rt_drain_window_ms := None;
  rt_ready_nonempty_ratio := None; rt_ready_nonempty_samples := None; rt_ready_sample_count := None;
  rt_mean_ready_depth := None; rt_max_ready_depth := #0; rt_workers_seen := #0; rt_expected_workers := #0;
  rt_time_weighted_participating_workers := None; rt_time_weighted_effective_worker_capacity := None
|}.

(** The counters of a job of [total] tasks. *)
Definition demo_stats (total inflight completed failed : Z) : TaskStats := {|
  ts_total := #total; ts_ready := #(total - inflight - completed - failed); ts_blocked := #0; ts_inflight := #inflight;
  ts_deferred := #0; ts_completed := #completed; ts_failed := #failed; ts_task_type_counts := []
|}.

(** A finished task of one item, with its error and the proxy it used. *)
Definition finished_task (status finished : string) (seconds : num) (error proxy : option string) : TaskDetail := {|
  td_message := None; td_task_id := None; td_task_type := "scrape"; td_status := status; td_site := None;
  td_username := None; td_content_type := None;
  td_payload := (fun p => [("guest_proxy_url", VStr p)]) <$> proxy; td_worker_id := None; td_started_at := None;
  td_completed_at := truthy_opt (Some finished); td_progress := #0; td_items_processed := #1; td_items_total := None;
  td_error := error; td_result := None; td_proxy_url := None; td_proxy_routes := None; td_proxy_hop_used := None;
  td_proxy_hops := None; td_duration := Some seconds
|}.
