(* ===== verification/DiagnosticsSpec.v ===== *)
(** * What the job diagnostics promise

    The verdict on the bottleneck of a job follows from the conditions the code
    states for it; the phase it blames is a longest phase; the limits, ceilings
    and percentages stay within their bounds. *)

From Stdlib Require Import ZArith Lia SpecFloat.
From stdpp Require Import base list strings option sets.
From S2P Require Import JsSort.
From S2P Require Import Prelude JsString JsNum JsInt JsBounds JsOrder JsValue JsDate JobTypes RuntimeChart.
From S2P Require Import DiagnosticsTypes Diagnostics.
From S2P Require Import Samples.

(** ** The verdict *)

Definition demo_inputs (summary : FinalReportSummary) : BottleneckInputs := {|
  bi_completedTasksCount := #100; bi_failedJobTasks := #0; bi_details := None; bi_errorVelocity := demo_errors #0;
  bi_httpDistribution := demo_http; bi_isLiveJob := false; bi_job := demo_job "completed" []; bi_proxyAnomalies := [];
  bi_proxyCapacity := demo_capacity; bi_readyTasksCount := #0; bi_runningTasksCount := #0; bi_runtimeTelemetry := None;
  bi_totalProxyCapacity := #16; bi_totalTasksCount := #100; bi_workerPoolSize := #1; bi_finalSummary := summary
|}.

Lemma analysis_findings `{Env} (i : BottleneckInputs) : rootCauseFindings (analyzeBottleneck i) <> [].
Proof.
  assert (Ha : forall s l e f, rootCauseFindings (analysis s l e f) <> []) by (intros s l e []; done).
  unfold analyzeBottleneck. destruct (finished_verdict i) as [[st l] e].
  repeat (destruct (_ : bool); try apply Ha).
Qed.

(** *** The conditions, declaratively *)

Definition phase_seconds (s : FinalReportSummary) : list num :=
  [meanSetupSec s ?? #0; meanHandlerSec s ?? #0; meanWriterSec s ?? #0; meanPostSec s ?? #0; meanReleaseSec s ?? #0].

(** Phase [k] takes time, more than each phase before it and no less than each
    after it. *)
Definition longest (s : FinalReportSummary) (k : nat) : Prop :=
  exists x, first_largest (fun v => v) (phase_seconds s) k x /\ (x >! #0) = true.

Definition stalled (s : FinalReportSummary) : Prop := occupancyGapClassification s = Some GapRoutingStall.

#[local] Instance stalled_dec s : Decision (stalled s).
Proof. unfold stalled. apply _. Defined.

(** Worker setup, the terminal update or the release takes longest. *)
Definition overhead_longest (s : FinalReportSummary) : Prop := longest s 0 \/ longest s 3 \/ longest s 4.

Definition waits_for_writer (s : FinalReportSummary) : Prop :=
  ((meanWriterSec s ?? #0) >! #0) = true /\ ((meanWriterSec s ?? #0) >=! (meanHandlerSec s ?? #0)) = true.

Definition routes_full (s : FinalReportSummary) : Prop := (avgActiveProxyUtilization s >=! #90) = true.

(** When a finished, fully measured run is in a state. *)
Definition finished_condition (s : FinalReportSummary) (st : BottleneckState) : Prop :=
  match st with
  | routing_stall => stalled s
  | setup_constrained => ~ stalled s /\ longest s 0
  | terminal_constrained => ~ stalled s /\ longest s 3
  | release_constrained => ~ stalled s /\ longest s 4
  | writer_constrained => ~ stalled s /\ ~ overhead_longest s /\ waits_for_writer s
  | route_constrained => ~ stalled s /\ ~ overhead_longest s /\ ~ waits_for_writer s /\ routes_full s
  | handler_constrained => ~ stalled s /\ ~ overhead_longest s /\ ~ waits_for_writer s /\ ~ routes_full s
  | _ => False
  end.

Section live.
Context `{Env} (i : BottleneckInputs).

Definition active : Prop :=
  bi_isLiveJob i = true /\ (rawJobStatus i = "running" \/ rawJobStatus i = "in_progress").

Definition measured : Prop := runtimeTelemetryComplete (bi_finalSummary i) = true.

Definition nothing_done : Prop := (bi_completedTasksCount i ⊕ bi_failedJobTasks i =! #0) = true /\ ~ measured.

Definition proxies_full : Prop :=
  isSaturated (bi_proxyCapacity i) = true \/
  ((utilizationPercent (bi_proxyCapacity i) >=! #90) = true /\ (bi_readyTasksCount i >! #0) = true).

Definition workers_full : Prop :=
  (bi_runningTasksCount i >=! bi_workerDemand i ⊗ nine_tenths) = true /\ (bi_readyTasksCount i >! #0) = true.

(** Nothing is ready, few tasks run, and more remain than those. *)
Definition starved : Prop :=
  (bi_readyTasksCount i =! #0) = true /\
  (bi_runningTasksCount i <! math_max #2 (bi_workerDemand i ⊗ nine_tenths)) = true /\
  (remainingTasks i >! bi_runningTasksCount i) = true /\ (remainingTasks i =! #0) = false.

Definition handler_works : Prop := measured /\ ((meanHandlerSec (bi_finalSummary i) ?? #0) >! #0) = true.

(** When an active run is in a state. *)
Definition live_condition (st : BottleneckState) : Prop :=
  match st with
  | proxy_saturated => ~ nothing_done /\ proxies_full
  | worker_constrained => ~ nothing_done /\ ~ proxies_full /\ workers_full
  | queue_starved => ~ nothing_done /\ ~ proxies_full /\ ~ workers_full /\ starved
  | handler_constrained => ~ nothing_done /\ ~ proxies_full /\ ~ workers_full /\ ~ starved /\ handler_works
  | insufficient_data => nothing_done \/ (~ proxies_full /\ ~ workers_full /\ ~ starved /\ ~ handler_works)
  | _ => False
  end.

(** *** The code decides them *)

Lemma active_spec : isJobActive i = true <-> active.
Proof. unfold isJobActive, active. rewrite andb_true_iff, orb_true_iff, !str_eqb_eq. done. Qed.

Lemma nothing_done_spec : isJobActive i = true -> awaiting_first i = true <-> nothing_done.
Proof.
  intros Ha. unfold awaiting_first, nothing_done, measured, hasCompleteRuntimeTelemetry, summary.
  rewrite Ha, andb_true_l, andb_true_iff, negb_true_iff, not_true_iff_false. done.
Qed.

Lemma proxies_full_spec : isProxyBottleneck i = true <-> proxies_full.
Proof. unfold isProxyBottleneck, proxies_full, capacity. by rewrite orb_true_iff, andb_true_iff. Qed.

Lemma workers_full_spec : isProxyBottleneck i = false -> isWorkerBottleneck i = true <-> workers_full.
Proof. intros Hp. unfold isWorkerBottleneck, workers_full. by rewrite Hp, andb_true_l, andb_true_iff. Qed.

Lemma gtb_not_leb x y : (x >! y) = true -> (x <=! y) = false.
Proof. unfold num_ltb, num_leb. rewrite cmp_swap. by destruct (SFcompare _ _) as [[]|]. Qed.

Lemma starved_spec : isJobActive i = true -> isProxyBottleneck i = false -> isWorkerBottleneck i = false ->
  isQueueStarved i = true <-> starved.
Proof.
  intros Ha Hp Hw. unfold isQueueStarved, starved, isDraining. rewrite Ha, Hp, Hw. cbn [andb negb]. rewrite !andb_true_r.
  rewrite !andb_true_iff, negb_true_iff, orb_false_iff.
  split; [tauto|]. intros (? & ? & Hr & ?). pose proof (gtb_not_leb _ _ Hr). tauto.
Qed.

Lemma handler_works_spec : hasCompleteRuntimeTelemetry i && (meanHandler i >! #0) = true <-> handler_works.
Proof. by rewrite andb_true_iff. Qed.

Lemma live_state st : isJobActive i = true -> state (analyzeBottleneck i) = st <-> live_condition st.
Proof.
  intros Ha. pose proof (nothing_done_spec Ha) as Hn. pose proof proxies_full_spec as Hp.
  pose proof workers_full_spec as Hw. pose proof (starved_spec Ha) as Hs. pose proof handler_works_spec as Hh.
  unfold analyzeBottleneck. rewrite Ha. cbn [negb andb].
  destruct (awaiting_first i); [cbn [state analysis]|destruct (isProxyBottleneck i); [cbn [state analysis]|
    specialize (Hw eq_refl); destruct (isWorkerBottleneck i); [cbn [state analysis]|
    specialize (Hs eq_refl eq_refl); destruct (isQueueStarved i); [cbn [state analysis]|
    destruct (_ && (meanHandler i >! #0)); cbn [state analysis]]]]];
  destruct st; unfold live_condition; split; intros Hst; try discriminate Hst; intuition congruence.
Qed.
End live.

(** *** Finished runs *)

Section finished.
Context (i : BottleneckInputs).
Notation s := (bi_finalSummary i) (only parsing).
Hypothesis complete : runtimeTelemetryComplete s = true.
Hypothesis phases_measurable : Forall measurable (phase_seconds s).

Lemma phases_are_seconds : (getServicePhases s).*2 = phase_seconds s.
Proof. reflexivity. Qed.

Lemma first_largest_fmap {A B} (f : B -> num) (g : A -> B) l k x :
  first_largest (fun a => f (g a)) l k x -> first_largest f (g <$> l) k (g x).
Proof.
  intros (H1 & H2 & H3). split; [by rewrite list_lookup_fmap, H1|].
  split; intros j y Hj Hy; rewrite list_lookup_fmap in Hy; destruct (l !! j) eqn:E; try done; injection Hy as <-; eauto.
Qed.

Lemma dominant_first : exists k, first_largest snd (getServicePhases s) k (dominantService i).
Proof.
  unfold dominantService, hasCompleteRuntimeTelemetry, summary. rewrite complete. unfold ranked_phases.
  destruct (sort_head_first snd (getServicePhases s)) as (k & m & Hm & Hk); [|done|].
  - rewrite <- phases_are_seconds, Forall_fmap in phases_measurable. exact phases_measurable.
  - exists k. change (stable_sort (larger_first snd)) with (stable_sort more_seconds) in Hm. rewrite Hm. exact Hk.
Qed.

(** A phase dominates exactly when it takes time and is the first of the longest. *)
Lemma dominant_spec k name : fst <$> getServicePhases s !! k = Some name -> (k = 0 \/ k = 3 \/ k = 4)%nat ->
  dominant_is i name = true <-> longest s k.
Proof.
  intros Hn Hk. destruct dominant_first as [k' Hd]. pose proof (first_largest_fmap (fun v => v) snd _ _ _ Hd) as Hf.
  change (snd <$> getServicePhases s) with (phase_seconds s) in Hf. destruct Hd as [Hd _].
  unfold dominant_is. rewrite andb_true_iff, str_eqb_eq. split.
  - intros [He Hx]. exists (dominantService i).2. split; [|exact Hx].
    replace k with k'; [exact Hf|]. clear -Hd Hn He Hk. destruct (dominantService i) as [d x]. simpl in He. subst d.
    unfold getServicePhases, phases_of in *.
    destruct k' as [|[|[|[|[|k']]]]]; simpl in Hd; try discriminate Hd; injection Hd as Hd _;
      destruct Hk as [->|[->| ->]]; simpl in Hn; injection Hn as <-; try done; destruct (_ && _); discriminate Hd.
  - intros (x & Hx & Hpos). pose proof (first_largest_unique _ _ _ _ _ _ Hx Hf) as <-.
    rewrite Hd in Hn. injection Hn as <-. split; [done|].
    destruct Hx as [Hx _], Hf as [Hf _]. rewrite Hx in Hf. by injection Hf as <-.
Qed.

Lemma longest_one a b : longest s a -> longest s b -> a = b.
Proof. intros (x & Hx & _) (y & Hy & _). by apply (first_largest_unique _ _ _ _ _ _ Hx Hy). Qed.

Lemma finished_state st : (finished_verdict i).1.1 = st <-> finished_condition s st.
Proof.
  pose proof (dominant_spec 0 "Worker Setup" eq_refl ltac:(auto)) as H0.
  pose proof (dominant_spec 3 "Terminal State Update" eq_refl ltac:(auto)) as H3.
  pose proof (dominant_spec 4 "Release / Publication" eq_refl ltac:(auto)) as H4.
  assert (U03 : longest s 0 -> longest s 3 -> False) by (intros A B; discriminate (longest_one _ _ A B)).
  assert (U04 : longest s 0 -> longest s 4 -> False) by (intros A B; discriminate (longest_one _ _ A B)).
  assert (U34 : longest s 3 -> longest s 4 -> False) by (intros A B; discriminate (longest_one _ _ A B)).
  assert (Hw : isWriterDominant i = true <-> waits_for_writer s) by (unfold isWriterDominant; by rewrite andb_true_iff).
  assert (Hv : (writer_verdict i).1.1 = writer_constrained) by (unfold writer_verdict; by destruct (queue_or_admission _)).
  assert (Hr : routes_full s <-> (avgActiveProxyUtilization s >=! #90) = true) by done.
  unfold finished_verdict, summary. unfold finished_condition, overhead_longest.
  destruct (decide (stalled s)) as [Hs|Hs].
  - assert (E : occupancyGapClassification s = Some GapRoutingStall) by exact Hs. rewrite E. cbn [fst].
    clear -Hs. destruct st; intuition congruence.
  - assert (E : forall A (x y : A), match occupancyGapClassification s with Some GapRoutingStall => x | _ => y end = y)
      by (intros; clear -Hs; unfold stalled in Hs; destruct (occupancyGapClassification s) as [[]|]; done).
    rewrite E. clear E.
    destruct (dominant_is i "Terminal State Update"); [|destruct (dominant_is i "Worker Setup");
      [|destruct (dominant_is i "Release / Publication"); [|destruct (isWriterDominant i);
      [rewrite Hv|destruct (avgActiveProxyUtilization s >=! #90)]]]]; cbn [fst];
    destruct st; intuition congruence.
Qed.
End finished.
(** C5. [analyzeBottleneck] always reports at least one finding, and reports each
    state exactly when its conditions hold. Of a running job: nothing is done
    yet; else the routes are full; else the workers; else the queue is starved;
    else the handler is measured to take time; else nothing is established. Of
    any other job with complete telemetry: the backend classified a routing
    stall; else setup, terminal update or release is the first of the longest
    phases; else writing takes no less than handling; else the routes were full;
    else the handler. Any other job is undecided. The states [claim_refill] and
    [optimal] of the type are never produced. The means of the phases are
    finite numbers where they are compared. *)
Theorem bottleneck_verdict `{Env} (i : BottleneckInputs) :
  (~ active i -> measured i -> Forall measurable (phase_seconds (bi_finalSummary i))) ->
  rootCauseFindings (analyzeBottleneck i) <> [] /\
  (active i -> forall st, state (analyzeBottleneck i) = st <-> live_condition i st) /\
  (~ active i -> measured i -> forall st, state (analyzeBottleneck i) = st <-> finished_condition (bi_finalSummary i) st) /\
  (~ active i -> ~ measured i -> state (analyzeBottleneck i) = insufficient_data).
Proof.
  intros Hm. split; [apply analysis_findings|]. rewrite <- active_spec in *.
  split; [intros Ha st; by apply live_state|]. rewrite not_true_iff_false in *.
  split; [intros Ha Hc st|intros Ha Hc]; unfold analyzeBottleneck; rewrite Ha.
  - specialize (Hm Ha Hc). unfold measured, hasCompleteRuntimeTelemetry, summary in *. rewrite Hc. cbn [negb andb].
    rewrite <- finished_state by done. by destruct (finished_verdict i) as [[t l] e].
  - unfold measured, hasCompleteRuntimeTelemetry, summary in *. apply not_true_iff_false in Hc. by rewrite Hc.
Qed.

(** The terminal updates take longest, although the writer takes longer than the
    handler. *)
Lemma bottleneck_verdict_witness :
  let i := demo_inputs (demo_summary #3 #5 #8 #9 #1) in
  finished_condition (bi_finalSummary i) terminal_constrained /\
  ~ finished_condition (bi_finalSummary i) writer_constrained.
Proof.
  intros i.
  assert (Ha : ~ @active i) by (intros [Hl _]; discriminate Hl).
  destruct (@bottleneck_verdict utc_env i) as (_ & _ & H & _); [intros _ _; repeat constructor|].
  specialize (H Ha eq_refl). split; [apply H; vm_compute; reflexivity|].
  intros Hc. apply H in Hc. vm_compute in Hc. discriminate Hc.
Defined.

(** ** The dominant phase *)

Lemma phase_seconds_spec s : phase_seconds s = (getServicePhases s).*2.
Proof. reflexivity. Qed.

Definition at_most (l : list num) (x : num) : Prop := Forall (fun y => (y <=! x) = true) l.

Lemma dominant_is_max (i : BottleneckInputs) :
  Forall measurable (phase_seconds (bi_finalSummary i)) -> runtimeTelemetryComplete (bi_finalSummary i) = true ->
  dominantService i ∈ getServicePhases (bi_finalSummary i) /\
  at_most (phase_seconds (bi_finalSummary i)) (dominantService i).2.
Proof.
  intros Hm Hc. unfold dominantService, hasCompleteRuntimeTelemetry, summary. rewrite Hc.
  rewrite phase_seconds_spec in *. rewrite Forall_fmap in Hm.
  pose proof (sort_head_max snd _ Hm) as Hs. change (stable_sort (larger_first snd)) with (stable_sort more_seconds) in Hs.
  unfold ranked_phases. destruct (head (stable_sort more_seconds _)); [|done].
  destruct Hs as [Hin Hall]. split; [exact Hin|]. unfold at_most. rewrite Forall_fmap. exact Hall.
Qed.

Section dominant.
Context (s : FinalReportSummary).
Hypothesis phases_measurable : Forall measurable (phase_seconds s).
Hypothesis phases_nonneg : Forall nneg (phase_seconds s).

Lemma phase_real x : x ∈ phase_seconds s -> real x.
Proof. intros H. apply measurable_real. exact (proj1 (Forall_forall _ _) phases_measurable x H). Qed.

Lemma at_most_trans x y : x ∈ phase_seconds s -> y ∈ phase_seconds s ->
  at_most (phase_seconds s) x -> (x <=! y) = true -> at_most (phase_seconds s) y.
Proof.
  intros Hx Hy Ha Hxy. apply Forall_forall. intros z Hz. pose proof (proj1 (Forall_forall _ _) Ha z Hz).
  apply (num_leb_trans _ x); auto using phase_real.
Qed.

(** When the longest phase is not positive, all phases are zero. *)
Lemma at_most_zero x y : x ∈ phase_seconds s -> y ∈ phase_seconds s ->
  at_most (phase_seconds s) x -> (x >! #0) = false -> at_most (phase_seconds s) y.
Proof.
  intros Hx Hy Ha H0. apply (at_most_trans x); try done.
  apply (num_leb_trans _ #0); auto using phase_real; [done| |].
  - apply not_ltb_leb; auto using phase_real. done.
  - apply nneg_leb; [auto using phase_real|]. exact (proj1 (Forall_forall _ _) phases_nonneg y Hy).
Qed.
End dominant.


(** The state of a finished run without a routing stall, by the phase [d] that
    ranks first. *)
Definition service_state (i : BottleneckInputs) (d : string * num) : BottleneckState :=
  if (d.1 =s "Terminal State Update") && (d.2 >! #0) then terminal_constrained
  else if (d.1 =s "Worker Setup") && (d.2 >! #0) then setup_constrained
  else if (d.1 =s "Release / Publication") && (d.2 >! #0) then release_constrained
  else if isWriterDominant i then writer_constrained
  else if avgActiveProxyUtilization (bi_finalSummary i) >=! #90 then route_constrained
  else handler_constrained.

Lemma finished_state_spec (i : BottleneckInputs) :
  (finished_verdict i).1.1 = routing_stall \/ (finished_verdict i).1.1 = service_state i (dominantService i).
Proof.
  unfold finished_verdict, service_state, dominant_is, writer_verdict, summary.
  destruct (occupancyGapClassification _) as [[]|]; auto; right;
  repeat match goal with |- context [if ?b then _ else _] => destruct b end; reflexivity.
Qed.

(** The seconds a state blames. *)
Definition blamed (s : FinalReportSummary) (st : BottleneckState) : option num :=
  match st with
  | terminal_constrained => Some (meanPostSec s ?? #0)
  | setup_constrained => Some (meanSetupSec s ?? #0)
  | release_constrained => Some (meanReleaseSec s ?? #0)
  | writer_constrained => Some (meanWriterSec s ?? #0)
  | handler_constrained | route_constrained => Some (meanHandlerSec s ?? #0)
  | _ => None
  end.

(** A blamed phase that ranks first; when it is zero, every phase is. *)
Ltac zero_phase :=
  match goal with |- context [?m >! #0] => destruct (m >! #0) eqn:? end; simpl;
  repeat match goal with |- context [if ?b then _ else _] => destruct b end; intros [= <-]; auto.

Lemma service_state_max (i : BottleneckInputs) d x :
  Forall measurable (phase_seconds (bi_finalSummary i)) -> Forall nneg (phase_seconds (bi_finalSummary i)) ->
  d ∈ getServicePhases (bi_finalSummary i) -> at_most (phase_seconds (bi_finalSummary i)) d.2 ->
  blamed (bi_finalSummary i) (service_state i d) = Some x -> at_most (phase_seconds (bi_finalSummary i)) x.
Proof.
  intros Hm Hn Hin Hmax. unfold service_state, isWriterDominant, meanWriter, meanHandler, summary.
  set (s := bi_finalSummary i) in *.
  assert (Hd : d.2 ∈ phase_seconds s) by (rewrite phase_seconds_spec; apply list_elem_of_fmap_2; done).
  assert (Hh : (meanHandlerSec s ?? #0) ∈ phase_seconds s) by (unfold phase_seconds; set_solver).
  assert (Hw : (meanWriterSec s ?? #0) ∈ phase_seconds s) by (unfold phase_seconds; set_solver).
  pose proof (fun y => at_most_trans s Hm _ y Hd) as Ht. pose proof (fun y => at_most_zero s Hm Hn _ y Hd) as Hz.
  assert (Hall : forall y, y ∈ phase_seconds s -> (y <=! d.2) = true) by (apply Forall_forall; exact Hmax).
  clearbody s. clear Hm Hn Hd. unfold getServicePhases, phases_of in Hin.
  repeat (apply elem_of_cons in Hin as [->|Hin]; [cbn [fst snd] in *|]); [..|apply elem_of_nil in Hin; done].
  - zero_phase.
  - simpl.
    destruct (_ && _) eqn:E; [|destruct (_ >=! #90)]; intros [= <-]; try done.
    apply andb_true_iff in E as [_ E]. apply Ht; done.
  - specialize (Hall _ Hh). rewrite Hall, andb_true_r. specialize (Hz _ Hh Hmax).
    destruct (_ && queue_or_admission s); simpl; destruct (_ >! #0); try (intros [= <-]; done);
    destruct (_ >=! #90); intros [= <-]; apply Hz; done.
  - zero_phase.
  - zero_phase.
Qed.
(** The phase a finished, measured run is blamed on is a longest phase:
    when [analyzeBottleneck] calls a run constrained by its terminal updates,
    its worker setup, its release, its writer or its handler, no service phase
    took more seconds than that one, ties included. *)
Theorem blamed_phase_is_longest `{Env} (i : BottleneckInputs)
    (Hm : Forall measurable (phase_seconds (bi_finalSummary i)))
    (Hn : Forall nneg (phase_seconds (bi_finalSummary i)))
    (Hi : isJobActive i = false) :
  let phases := phase_seconds (bi_finalSummary i) in
  match state (analyzeBottleneck i) with
  | terminal_constrained => at_most phases (meanPostSec (bi_finalSummary i) ?? #0)
  | setup_constrained => at_most phases (meanSetupSec (bi_finalSummary i) ?? #0)
  | release_constrained => at_most phases (meanReleaseSec (bi_finalSummary i) ?? #0)
  | writer_constrained => at_most phases (meanWriterSec (bi_finalSummary i) ?? #0)
  | handler_constrained | route_constrained => at_most phases (meanHandlerSec (bi_finalSummary i) ?? #0)
  | _ => True
  end.
Proof.
  cbv zeta. unfold analyzeBottleneck. rewrite Hi. cbn [negb andb].
  destruct (hasCompleteRuntimeTelemetry i) eqn:Ec; cbn [negb state analysis]; [|exact I].
  unfold hasCompleteRuntimeTelemetry, summary in Ec. pose proof (dominant_is_max i Hm Ec) as [Hin Hmax].
  pose proof (finished_state_spec i) as Hs. destruct (finished_verdict i) as [[st l] e]. cbn [state analysis fst] in *.
  pose proof (fun x => service_state_max i _ x Hm Hn Hin Hmax) as Hx. destruct Hs as [->| ->]; [exact I|].
  destruct (service_state i (dominantService i)); try exact I; apply Hx; reflexivity.
Qed.

Lemma blamed_phase_is_longest_witness :
  state (@analyzeBottleneck utc_env (demo_inputs (demo_summary #3 #5 #8 #1 #1))) = writer_constrained /\
  at_most [#3; #5; #8; #1; #1] #8.
Proof.
  split; [vm_compute; reflexivity|].
  apply (@blamed_phase_is_longest utc_env (demo_inputs (demo_summary #3 #5 #8 #1 #1)));
    [repeat constructor|repeat constructor|reflexivity].
Defined.

(** ** Limits *)

Lemma min_between lo x y : real x -> real y -> (lo <=! x) = true -> (lo <=! y) = true -> (lo <=! math_min x y) = true.
Proof. intros Hx Hy H1 H2. destruct (math_min_cases x y Hx Hy) as [->| ->]; done. Qed.

Lemma max_between x y hi : real x -> real y -> (x <=! hi) = true -> (y <=! hi) = true -> (math_max x y <=! hi) = true.
Proof. intros Hx Hy H1 H2. destruct (math_max_cases x y Hx Hy) as [->| ->]; done. Qed.

Lemma default_limit_bounds total :
  is_finite total = true ->
  let limit := default_safety_limit total in
  (#3 <=! limit) = true /\ (limit <=! (if total >! #1000 then #2500 else #25)) = true.
Proof.
  intros Hf. unfold default_safety_limit, DEFAULT_SAFETY_THRESHOLD_LIMIT.
  assert (Ht : real total) by (destruct total; done).
  assert (Hr : real (math_ceil (total ⊘ #20))) by (apply real_ceil, real_div; done).
  destruct (total >! #0) eqn:E0.
  2: { destruct (total >! #1000) eqn:E1; [|done].
       apply num_ltb_false_leb in E0; [|done|done]. apply num_ltb_leb in E1.
       pose proof (num_leb_trans #1000 total #0 ltac:(done) Ht ltac:(done) E1 E0). done. }
  set (c := math_ceil _) in *. cbv zeta.
  assert (H3 : real (math_max #3 c) /\ (#3 <=! math_max #3 c) = true)
    by (split; [apply math_max_real|apply math_max_ge_l]; done).
  assert (Hm : real (math_min #2500 c) /\ (math_min #2500 c <=! #2500) = true)
    by (split; [apply math_min_real|apply math_min_le_l]; done).
  destruct (total >! #1000).
  - assert (Hx : real (math_max #25 (math_min #2500 c))) by (apply math_max_real; [done|apply Hm]).
    split.
    + apply min_between; [exact Hx|apply H3| |apply H3].
      apply (num_leb_trans _ #25); [done|done|exact Hx|done|]. apply math_max_ge_l; [done|apply Hm].
    + apply (num_leb_trans _ (math_max #25 (math_min #2500 c))); [apply math_min_real; [exact Hx|apply H3]|exact Hx|done| |].
      * apply math_min_le_l; [exact Hx|apply H3].
      * apply max_between; [done|apply Hm|done|apply Hm].
  - split; [apply min_between; [done|apply H3|done|apply H3]|apply math_min_le_l; [done|apply H3]].
Qed.

(** The number of failures after which a job is halted: a positive number
    in the job's settings (the job's own before the details', the metadata's
    before the arguments') is taken as it is; otherwise the limit is between 3
    and 25 for up to 1000 tasks, between 3 and 2500 for more, and 25 when the
    number of tasks is not known. *)
Theorem safety_limit_spec (job : Job) (details : option JobDetail) (total : num) (Ht : is_finite total = true) :
  let limit := computeSafetyThresholdLimit job details total in
  match as_num (safety_setting job details) with
  | Some n => if n >! #0 then limit = n else limit = default_safety_limit total
  | None => limit = default_safety_limit total
  end /\
  (limit = default_safety_limit total ->
   (#3 <=! limit) = true /\ (limit <=! (if total >! #1000 then #2500 else #25)) = true /\
   ((total >! #0) = false -> limit = #25)).
Proof.
  cbv zeta. split.
  - unfold computeSafetyThresholdLimit. destruct (as_num _) as [n|]; [destruct (n >! #0)|]; done.
  - intros ->. destruct (default_limit_bounds total Ht) as [H1 H2]. split; [exact H1|]. split; [exact H2|].
    intros H0. unfold default_safety_limit. rewrite H0. done.
Qed.

Lemma safety_limit_spec_witness :
  computeSafetyThresholdLimit (demo_job "running" [("failure_limit", VNum #7)]) None #4000 = #7 /\
  computeSafetyThresholdLimit (demo_job "running" []) None #4000 = #200 /\
  (#3 <=! computeSafetyThresholdLimit (demo_job "running" []) None #4000) = true.
Proof.
  split; [vm_compute; reflexivity|]. split; [vm_compute; reflexivity|].
  destruct (safety_limit_spec (demo_job "running" []) None #4000 eq_refl) as [_ H].
  apply H. vm_compute. reflexivity.
Defined.
