(* ===== verification/History.v ===== *)
(** * Comparing a run with an earlier one
    ([features/jobs/lib/historicalComparison.ts])

    The counters of two runs of a job, their differences and the verdict:
    regression, improvement or parity.

    The verdict follows from the differences that are shown with it, and a
    difference that cannot be measured neither appears nor decides. *)

From Stdlib Require Import ZArith Lia SpecFloat.
From stdpp Require Import base list strings option.
From S2P Require Import Prelude JsString JsNum JsDate JobTypes JobUtils JobEta RuntimeChart.
From S2P Require Import DiagnosticsTypes JsInt JsBounds DiagnosticsSpec Samples.

Definition DEFAULT_TASK_COUNT_TOLERANCE_PERCENT : num := #10.
Definition DEFAULT_TASK_COUNT_BOUNDARY : num := DEFAULT_TASK_COUNT_TOLERANCE_PERCENT ⊘ #100.
Definition TASK_COUNT_TOLERANCE_PRESETS : list num := [#5; #10; #15; #20; #25; #50; #100].

Definition isTaskCountTolerancePreset (percent : num) : bool :=
  some (fun preset => preset =! percent) TASK_COUNT_TOLERANCE_PRESETS.

(** [job.completed_tasks ?? job.task_stats?.completed ?? 0], and likewise. *)
Definition completed_of (job : Job) : num := (completed_tasks job ??? (ts_completed <$> task_stats job)) ?? #0.
Definition failed_of (job : Job) : num := (failed_tasks job ??? (ts_failed <$> task_stats job)) ?? #0.

Definition comparableTaskCount (job : option Job) : option num :=
  match job with
  | None => None
  | Some j =>
      let derived := let derivedCount := completed_of j ⊕ failed_of j in
                     if derivedCount >! #0 then Some derivedCount else None in
      match task_count j ??? (ts_total <$> task_stats j) with
      | Some directCount => if is_finite directCount then Some directCount else derived
      | None => derived
      end
  end.

Definition is_infinity (x : num) : bool := match x with S754_infinity false => true | _ => false end.

Definition isSimilarTaskCount (currentCount : num) (candidateCount : option num) (toleranceBoundary : num) : bool :=
  match candidateCount with
  | None => false
  | Some candidate =>
      if negb (is_finite currentCount) || (currentCount <! #0) then false
      else if negb (is_finite candidate) || (candidate <! #0) then false
      else if is_infinity toleranceBoundary || (toleranceBoundary >=! #1000) then true
      else if currentCount =! #0 then candidate =! #0
      else math_abs (candidate ⊖ currentCount) ⊘ currentCount <=! toleranceBoundary
  end.

(** ** The result *)

Record RunSummary := {
  run_jobId : string;
  run_jobName : string;
  run_status : string;
  run_startedAt : option string;
  run_completedAt : option string;
  run_durationSec : num;
  run_durationFormatted : string;
  run_completedTasks : num;
  run_failedTasks : num;
  run_totalTasks : num;
  run_avgItemsPerSec : num;
  run_failureRatePercent : num
}.

(** The members that only [baselineJob] has, and those only [currentRun] has. *)
Record RunOrigin := { run_site : option string; run_createdAt : string }.

Record RunProgress := {
  elapsedSec : num;
  elapsedFormatted : string;
  remainingSec : option num;
  remainingFormatted : option string;
  isProjectedDuration : bool
}.

Inductive ComparisonStatus := Regression | Improvement | Parity.

Record Deltas := {
  throughputDeltaPercent : num;
  durationDeltaSec : num;
  durationDeltaPercent : num;
  durationComparable : bool;
  failureRateDeltaPercent : num;
  completedTasksDelta : num;
  delta_status : ComparisonStatus;
  verdictTitle : string;
  verdictMessage : string;
  keyDifferences : list string
}.

Record HistoricalComparisonResult := {
  hasBaseline : bool;
  baselineRun : RunSummary;
  baselineOrigin : RunOrigin;
  currentRun : RunSummary;
  currentProgress : RunProgress;
  deltas : Deltas;
  throughputComparable : bool
}.

(** ** The comparison *)

(** [Number(x.toFixed(1))] *)
Definition one_digit (x : num) : num := rounded 1 x.

Section comparison.
Context {E : Env}.
Variables (telemetry : JobDiagnosticsTelemetry) (currentJobId currentJobName : string) (isLiveJob : bool)
  (baselineJob : Job) (currentJob : option Job) (toleranceBoundary : num) (jobEta : option JobEtaResult).

Definition final : FinalReportSummary := tel_finalSummary telemetry.

Definition cmp_elapsed : num := num_or (totalDurationSec final) #1.
Definition cmp_elapsed_text : string := truthy_opt (Some (totalDurationFormatted final)) ?? formatDuration cmp_elapsed.

(** [currentJob?.field || otherwise] *)
Definition job_counter (field : Job -> option num) (otherwise : num) : num :=
  num_or ((currentJob ≫= field) ?? #0) otherwise.

Definition stats_total (j : Job) : option num := ts_total <$> task_stats j.

Definition cmp_completed : num := num_or (tel_completedTasksCount telemetry) (job_counter completed_tasks #0).
Definition cmp_failed : num := num_or (totalErrors (tel_errorVelocity telemetry)) (job_counter failed_tasks #0).
Definition cmp_total : num :=
  num_or (tel_totalTasksCount telemetry)
    (job_counter task_count (job_counter stats_total (cmp_completed ⊕ cmp_failed))).

Definition cmp_throughput : num :=
  num_or (overallAvgItemsPerSec final)
    (num_or (currentItemsPerSec (tel_throughput telemetry))
      (if cmp_elapsed >! #0 then one_digit (cmp_completed ⊘ cmp_elapsed) else #0)).

Definition failure_rate (failed total : num) : num :=
  if total >! #0 then one_digit (failed ⊘ total ⊗ #100) else #0.

Definition cmp_failure_rate : num := failure_rate cmp_failed cmp_total.

Definition is_tasks (u : ThroughputUnit) : bool := match u with Tasks => true | Items => false end.
Definition cmp_unit : ThroughputUnit :=
  ((quality_unit <$> tel_quality telemetry) ??? throughput_unit (tel_throughput telemetry)) ?? Items.
Definition rate_label : string := if is_tasks cmp_unit then "tasks/s" else "items/s".

Definition cmp_throughputComparable : bool :=
  (match tel_quality telemetry with None => true | Some _ => is_tasks cmp_unit end) &&
  negb (match durationSource final with Some TaskActiveWindow => true | _ => false end).

(** *** The remaining time of a live run *)

Definition knownTotalTasks : num :=
  num_or (tel_totalTasksCount telemetry) (job_counter task_count (job_counter stats_total #0)).

Definition whole_seconds (x : num) : num := math_max #0 (math_round x).

(** [None] when the duration of the run cannot be projected. *)
Definition cmp_remaining : option num :=
  if negb isLiveJob then None
  else
    let estimate :=
      if knownTotalTasks >! #0 then
        let remainingTasks := math_max #0 (knownTotalTasks ⊖ (cmp_completed ⊕ cmp_failed)) in
        if remainingTasks =! #0 then Some #0
        else if (cmp_completed >! #0) && (cmp_elapsed >! #0) then
          Some (whole_seconds (cmp_elapsed ⊗ remainingTasks ⊘ cmp_completed))
        else if cmp_throughput >! #0 then Some (whole_seconds (remainingTasks ⊘ cmp_throughput))
        else None
      else None in
    match jobEta ≫= remainingSeconds with
    | Some eta => if is_finite eta then Some (whole_seconds eta) else estimate
    | None => estimate
    end.

Definition cmp_projected : bool := match cmp_remaining with Some _ => true | None => false end.
Definition cmp_durationComparable : bool := negb isLiveJob || cmp_projected.

Definition cmp_duration : num := match cmp_remaining with Some r => cmp_elapsed ⊕ r | None => cmp_elapsed end.

(** *** The baseline *)

Definition baseline_started : option string := truthy_opt (started_at baselineJob) ??? truthy_opt (created_at baselineJob).
Definition baseline_finished : option string :=
  truthy_opt (completed_at baselineJob) ??? truthy_opt (last_ran_at baselineJob) ???
  truthy_opt (last_activity_at baselineJob) ??? truthy_opt (updated_at baselineJob).
Definition baseline_duration : num := computeJobDurationSeconds (Some baselineJob).
Definition baseline_completed : num := completed_of baselineJob.
Definition baseline_failed : num := failed_of baselineJob.
Definition baseline_total : num :=
  (task_count baselineJob ??? stats_total baselineJob) ?? (baseline_completed ⊕ baseline_failed).
Definition baseline_throughput : num :=
  if (baseline_duration >! #0) && (baseline_completed >! #0) then one_digit (baseline_completed ⊘ baseline_duration) else #0.
Definition baseline_failure_rate : num := failure_rate baseline_failed baseline_total.

(** *** The differences *)

(** [Number((((current - baseline) / baseline) * 100).toFixed(1))] *)
Definition change_percent (current baseline : num) : num := one_digit ((current ⊖ baseline) ⊘ baseline ⊗ #100).

Definition throughput_change : num :=
  if cmp_throughputComparable && (baseline_throughput >! #0)
  then change_percent cmp_throughput baseline_throughput else #0.
Definition duration_change_sec : num := if cmp_durationComparable then cmp_duration ⊖ baseline_duration else #0.
Definition duration_change : num :=
  if cmp_durationComparable && (baseline_duration >! #0) then change_percent cmp_duration baseline_duration else #0.
Definition failure_rate_change : num := one_digit (cmp_failure_rate ⊖ baseline_failure_rate).
Definition completed_change : num := cmp_completed ⊖ baseline_completed.

Definition workloadComparable : bool :=
  (baseline_total >! #0) && isSimilarTaskCount cmp_total (Some baseline_total) toleranceBoundary.

(** *** The verdict *)

(** The literals [0.5] and [0.1]. *)
Definition half : num := #1 ⊘ #2.
Definition tenth : num := #1 ⊘ #10.

Definition throughput_dropped : bool := cmp_throughputComparable && (throughput_change <=! #(-10)).
Definition failures_rose : bool := failure_rate_change >=! #3.
Definition duration_drifted : bool := cmp_durationComparable && (duration_change >=! #25) && workloadComparable.
Definition throughput_gained : bool :=
  cmp_throughputComparable && (throughput_change >=! #10) && (failure_rate_change <=! half).

Definition pct (x : num) : string := show_num x +:+ "%".
Definition rate (x : num) : string := show_num x +:+ " " +:+ rate_label.

Definition regression_text : string * string :=
  if throughput_dropped && failures_rose then
    ("Performance Regression: Throughput Drop (" +:+ pct throughput_change +:+ ") & Error Spike (+" +:+
     pct failure_rate_change +:+ ")",
     "Throughput dropped from " +:+ show_num baseline_throughput +:+ " to " +:+ rate cmp_throughput +:+
     " while error rate spiked from " +:+ pct baseline_failure_rate +:+ " to " +:+ pct cmp_failure_rate +:+
     ". Check route degradation or upstream rate limiting.")
  else if throughput_dropped then
    ("Performance Regression: " +:+ pct (math_abs throughput_change) +:+ " Throughput Degradation",
     "Throughput decreased from " +:+ rate baseline_throughput +:+ " in baseline to " +:+ rate cmp_throughput +:+
     " (-" +:+ pct (math_abs throughput_change) +:+ "). Current-run diagnosis: " +:+
     label (tel_bottleneckAnalysis telemetry) +:+ ".")
  else if failures_rose then
    ("Reliability Regression: +" +:+ pct failure_rate_change +:+ " Failure Rate Spike",
     "Task failure rate jumped from " +:+ pct baseline_failure_rate +:+ " in baseline to " +:+ pct cmp_failure_rate +:+
     ". Check API error distribution and blocked proxies.")
  else
    ("Duration Regression: +" +:+ pct duration_change +:+ " Runtime Drift",
     "Job took " +:+ formatDuration (math_abs duration_change_sec) +:+
     " longer to complete than baseline despite comparable task volumes.").

Definition cmp_status : ComparisonStatus :=
  if throughput_dropped || failures_rose || duration_drifted then Regression
  else if throughput_gained then Improvement else Parity.

Definition cmp_verdict : string * string :=
  if negb cmp_throughputComparable then
    ("Throughput Comparison Unavailable",
     "The current run reports item throughput, but the selected historical summary only exposes task counts. Compare runs after loading a compatible item-level baseline.")
  else
    match cmp_status with
    | Regression => regression_text
    | Improvement =>
        ("Performance Improvement: +" +:+ pct throughput_change +:+ " Throughput Gain",
         "Current run achieved " +:+ rate cmp_throughput +:+ " vs baseline " +:+ rate baseline_throughput +:+
         " (+" +:+ pct throughput_change +:+ ") with stable reliability.")
    | Parity =>
        ("Performance Parity (Nominal)",
         "Performance metrics are within normal variance compared to baseline run (" +:+ job_id baselineJob +:+ ").")
    end.

(** *** The key differences *)

Definition throughput_difference : list string :=
  if negb (throughput_change =! #0) then
    [(if throughput_change <! #0 then "Throughput regressed by " +:+ pct (math_abs throughput_change)
      else "Throughput improved by +" +:+ pct throughput_change) +:+
     " (" +:+ rate cmp_throughput +:+ " vs baseline " +:+ rate baseline_throughput +:+ ")"]
  else [].

Definition duration_difference : list string :=
  if cmp_durationComparable && (math_abs duration_change_sec >=! #5) then
    let versus mark := " (" +:+ mark +:+ formatDuration cmp_duration +:+ " vs baseline " +:+ formatDuration baseline_duration +:+ ")" in
    [(if cmp_projected then
        (if duration_change_sec >! #0 then "Projected runtime duration increased by " +:+ formatDuration duration_change_sec
         else "Projected runtime duration reduced by " +:+ formatDuration (math_abs duration_change_sec)) +:+ versus "~"
      else
        (if duration_change_sec >! #0 then "Runtime duration increased by " +:+ formatDuration duration_change_sec
         else "Runtime duration reduced by " +:+ formatDuration (math_abs duration_change_sec)) +:+ versus EmptyString)]
  else if negb cmp_durationComparable && isLiveJob then
    ["Job is in progress (" +:+ cmp_elapsed_text +:+
     " elapsed); final duration delta will be calculated once completed or once task count is known."]
  else [].

Definition failure_difference : list string :=
  if math_abs failure_rate_change >=! tenth then
    [(if failure_rate_change >! #0 then "Failure rate increased by +" +:+ pct failure_rate_change
      else "Failure rate decreased by " +:+ pct (math_abs failure_rate_change)) +:+
     " (" +:+ pct cmp_failure_rate +:+ " vs baseline " +:+ pct baseline_failure_rate +:+ ")"]
  else [].

Definition scale_difference : list string :=
  if negb (completed_change =! #0) then
    ["Workload scale: " +:+ number_toLocaleString cmp_completed +:+ " completed tasks vs baseline " +:+
     number_toLocaleString baseline_completed +:+ " tasks (" +:+ (if completed_change >! #0 then "+" else EmptyString) +:+
     number_toLocaleString completed_change +:+ ")"]
  else [].

Definition unavailable_difference : list string :=
  if negb cmp_throughputComparable then
    ["Throughput delta unavailable: current item rate cannot be compared with the baseline task rate."]
  else [].

Definition cmp_differences : list string :=
  unavailable_difference ++ throughput_difference ++ duration_difference ++ failure_difference ++ scale_difference.

(** *** The result *)

Definition baseline_run : RunSummary := {|
  run_jobId := job_id baselineJob;
  run_jobName := job_name baselineJob ?? job_id baselineJob;
  run_status := job_status baselineJob;
  run_startedAt := baseline_started;
  run_completedAt := baseline_finished;
  run_durationSec := baseline_duration;
  run_durationFormatted := formatDuration baseline_duration;
  run_completedTasks := baseline_completed;
  run_failedTasks := baseline_failed;
  run_totalTasks := baseline_total;
  run_avgItemsPerSec := baseline_throughput;
  run_failureRatePercent := baseline_failure_rate
|}.

Definition baseline_origin : RunOrigin := {|
  run_site := job_site baselineJob;
  run_createdAt := created_at baselineJob ?? EmptyString
|}.

Definition current_started : option string :=
  match currentJob ≫= started_at with
  | Some s => truthy_opt (Some s)
  | None => truthy_opt (currentJob ≫= created_at)
  end.

Definition current_run : RunSummary := {|
  run_jobId := currentJobId;
  run_jobName := currentJobName;
  run_status :=
    if isLiveJob then "running"
    else (truthy_opt (Some (jobOutcome final)) ??? truthy_opt (job_status <$> currentJob)) ?? "completed";
  run_startedAt := current_started;
  run_completedAt := truthy_opt (currentJob ≫= completed_at);
  run_durationSec := cmp_duration;
  run_durationFormatted := formatDuration cmp_duration;
  run_completedTasks := cmp_completed;
  run_failedTasks := cmp_failed;
  run_totalTasks := cmp_total;
  run_avgItemsPerSec := cmp_throughput;
  run_failureRatePercent := cmp_failure_rate
|}.

Definition current_progress : RunProgress := {|
  elapsedSec := cmp_elapsed;
  elapsedFormatted := cmp_elapsed_text;
  remainingSec := cmp_remaining;
  remainingFormatted := formatDuration <$> cmp_remaining;
  isProjectedDuration := cmp_projected
|}.

Definition cmp_deltas : Deltas := {|
  throughputDeltaPercent := throughput_change;
  durationDeltaSec := duration_change_sec;
  durationDeltaPercent := duration_change;
  durationComparable := cmp_durationComparable;
  failureRateDeltaPercent := failure_rate_change;
  completedTasksDelta := completed_change;
  delta_status := cmp_status;
  verdictTitle := cmp_verdict.1;
  verdictMessage := cmp_verdict.2;
  keyDifferences := cmp_differences
|}.

Definition comparison : HistoricalComparisonResult := {|
  hasBaseline := true;
  baselineRun := baseline_run;
  baselineOrigin := baseline_origin;
  currentRun := current_run;
  currentProgress := current_progress;
  deltas := cmp_deltas;
  throughputComparable := cmp_throughputComparable
|}.
End comparison.

(** [computeHistoricalComparison]; a running baseline is not compared with. The
    parameter [currentSite] is not used. *)
Definition computeHistoricalComparison {E : Env} (telemetry : JobDiagnosticsTelemetry)
    (currentJobId currentJobName currentSite : string) (isLiveJob : bool) (baselineJob currentJob : option Job)
    (toleranceBoundary : num) (jobEta : option JobEtaResult) : option HistoricalComparisonResult :=
  match baselineJob with
  | Some b =>
      if isJobRunningStatus (Some (job_status b)) then None
      else Some (comparison telemetry currentJobId currentJobName isLiveJob b currentJob toleranceBoundary jobEta)
  | None => None
  end.

(** * What the historical comparison promises *)

(** The text of a comparison of an item rate with a task rate. *)
Definition rate_unavailable : string :=
  "Throughput delta unavailable: current item rate cannot be compared with the baseline task rate.".

Section comparison.
Context {E : Env}.
Variables (telemetry : JobDiagnosticsTelemetry) (isLiveJob : bool) (baselineJob : Job) (currentJob : option Job)
  (toleranceBoundary : num) (jobEta : option JobEtaResult).

Lemma whole_seconds_nneg x : nneg (whole_seconds x).
Proof. apply nneg_max. Qed.

Lemma remaining_spec r : cmp_remaining telemetry isLiveJob currentJob jobEta = Some r -> isLiveJob = true /\ nneg r.
Proof.
  unfold cmp_remaining. destruct isLiveJob; [|done]. cbn [negb]. intros H. split; [done|]. revert H.
  assert (Hw : forall x s, Some (whole_seconds x) = Some s -> nneg s) by (intros x s [= <-]; apply whole_seconds_nneg).
  destruct (jobEta ≫= remainingSeconds) as [eta|]; [destruct (is_finite eta); [apply Hw|]|];
  repeat match goal with |- context [if ?b then _ else _] => destruct b end;
  try apply Hw; try discriminate; intros [= <-]; done.
Qed.

Notation status := (cmp_status telemetry isLiveJob baselineJob currentJob toleranceBoundary jobEta).
Notation rate_change := (throughput_change telemetry baselineJob currentJob).
Notation failure_change := (failure_rate_change telemetry baselineJob currentJob).
Notation time_change := (duration_change telemetry isLiveJob baselineJob currentJob jobEta).
Notation time_comparable := (cmp_durationComparable telemetry isLiveJob currentJob jobEta).

Lemma regression_iff :
  status = Regression <->
    (cmp_throughputComparable telemetry = true /\ (rate_change <=! #(-10)) = true) \/
    (failure_change >=! #3) = true \/
    (time_comparable = true /\ (time_change >=! #25) = true /\
     (baseline_total baselineJob >! #0) = true /\
     isSimilarTaskCount (cmp_total telemetry currentJob) (Some (baseline_total baselineJob)) toleranceBoundary = true).
Proof.
  unfold cmp_status. transitivity (throughput_dropped telemetry baselineJob currentJob ||
    failures_rose telemetry baselineJob currentJob ||
    duration_drifted telemetry isLiveJob baselineJob currentJob toleranceBoundary jobEta = true).
  { destruct (_ || _ || _); [done|]. destruct (throughput_gained _ _ _); done. }
  unfold throughput_dropped, failures_rose, duration_drifted, workloadComparable.
  rewrite !orb_true_iff, !andb_true_iff. tauto.
Qed.

Lemma improvement_only :
  status = Improvement ->
  cmp_throughputComparable telemetry = true /\ (rate_change >=! #10) = true /\ (failure_change >=! #3) = false.
Proof.
  unfold cmp_status, failures_rose. destruct (throughput_dropped _ _ _); [done|]. cbn [orb].
  destruct (failure_change >=! #3); [done|]. destruct (duration_drifted _ _ _ _ _ _); [done|]. cbn [orb].
  destruct (throughput_gained telemetry baselineJob currentJob) eqn:Eg; [|done]. intros _.
  unfold throughput_gained in Eg. apply andb_true_iff in Eg as [[H1 H2]%andb_true_iff _]. auto.
Qed.

Lemma without_rate :
  cmp_throughputComparable telemetry = false ->
  rate_change = #0 /\ status <> Improvement /\
  head (cmp_differences telemetry isLiveJob baselineJob currentJob jobEta) = Some rate_unavailable.
Proof.
  intros H. split; [unfold throughput_change; rewrite H; done|]. split.
  - intros Hi. apply improvement_only in Hi as [Hi _]. congruence.
  - unfold cmp_differences, unavailable_difference. rewrite H. done.
Qed.

Lemma run_time_spec :
  match cmp_remaining telemetry isLiveJob currentJob jobEta with
  | Some s => isLiveJob = true /\ nneg s /\ time_comparable = true /\
              cmp_duration telemetry isLiveJob currentJob jobEta = cmp_elapsed telemetry ⊕ s
  | None => cmp_duration telemetry isLiveJob currentJob jobEta = cmp_elapsed telemetry /\ time_comparable = negb isLiveJob /\
            (isLiveJob = true -> duration_change_sec telemetry isLiveJob baselineJob currentJob jobEta = #0 /\ time_change = #0)
  end.
Proof.
  destruct (cmp_remaining _ _ _ _) as [s|] eqn:Er.
  - apply remaining_spec in Er as Hs. destruct Hs as [Hl Hn]. unfold cmp_durationComparable, cmp_projected, cmp_duration.
    rewrite Er, orb_true_r. auto.
  - assert (Ht : time_comparable = negb isLiveJob) by (unfold cmp_durationComparable, cmp_projected; rewrite Er, orb_false_r; done).
    unfold cmp_duration. rewrite Er. split; [done|]. split; [exact Ht|]. intros Hl.
    unfold duration_change_sec, duration_change. rewrite Ht, Hl. done.
Qed.
End comparison.

(** [computeHistoricalComparison] compares only with a finished baseline,
    and its verdict is what its differences say: a regression exactly when the
    comparable throughput fell by 10% or more, the failure rate rose by 3 points
    or more, or the comparable duration of a similar workload grew by 25% or
    more; an improvement only when the throughput rose by 10% or more and the
    failure rate by at most half a point, and never together with a regression.
    When throughputs cannot be compared their difference is zero, there is no
    improvement and the first difference listed says so. The duration of a live
    run is its elapsed time plus a remaining time that is not negative; without
    one the duration is not compared and its difference is zero. *)
Theorem comparison_verdict {E : Env} telemetry id name site live baseline current tolerance eta r
    (H : computeHistoricalComparison telemetry id name site live baseline current tolerance eta = Some r) :
  exists b, baseline = Some b /\ isJobRunningStatus (Some (job_status b)) = false /\
  let d := deltas r in
  (delta_status d = Regression <->
    (throughputComparable r = true /\ (throughputDeltaPercent d <=! #(-10)) = true) \/
    (failureRateDeltaPercent d >=! #3) = true \/
    (durationComparable d = true /\ (durationDeltaPercent d >=! #25) = true /\
     (run_totalTasks (baselineRun r) >! #0) = true /\
     isSimilarTaskCount (run_totalTasks (currentRun r)) (Some (run_totalTasks (baselineRun r))) tolerance = true)) /\
  (delta_status d = Improvement ->
    throughputComparable r = true /\ (throughputDeltaPercent d >=! #10) = true /\
    (failureRateDeltaPercent d >=! #3) = false) /\
  (throughputComparable r = false ->
    throughputDeltaPercent d = #0 /\ delta_status d <> Improvement /\ head (keyDifferences d) = Some rate_unavailable) /\
  (match remainingSec (currentProgress r) with
   | Some s => live = true /\ nneg s /\ durationComparable d = true /\
               run_durationSec (currentRun r) = elapsedSec (currentProgress r) ⊕ s
   | None => run_durationSec (currentRun r) = elapsedSec (currentProgress r) /\ durationComparable d = negb live /\
             (live = true -> durationDeltaSec d = #0 /\ durationDeltaPercent d = #0)
   end).
Proof.
  unfold computeHistoricalComparison in H. destruct baseline as [b|]; [|done].
  destruct (isJobRunningStatus (Some (job_status b))) eqn:Eb; [done|]. injection H as <-.
  exists b. split; [done|]. split; [exact Eb|].
  cbv beta iota zeta delta [deltas comparison cmp_deltas delta_status throughputComparable throughputDeltaPercent
    failureRateDeltaPercent durationComparable durationDeltaPercent durationDeltaSec baselineRun baseline_run currentRun
    current_run run_totalTasks run_durationSec currentProgress current_progress remainingSec elapsedSec keyDifferences].
  split; [exact (regression_iff _ _ _ _ _ _)|]. split; [exact (improvement_only _ _ _ _ _ _)|].
  split; [exact (without_rate _ _ _ _ _ _)|exact (run_time_spec _ _ _ _ _)].
Qed.

(** ** A concrete comparison *)

(** A run of two items a second for an hour with 100 tasks, [failed] of them
    failures. *)
Definition demo_telemetry (unit : ThroughputUnit) (failed : num) : JobDiagnosticsTelemetry := {|
  tel_snapshots := []; tel_chartSnapshots := []; tel_jobRuntimeSamples := None; tel_mpsRefillTrace := [];
  tel_guestAuthStats := None; tel_terminalStats := None; tel_ledgerStats := None;
  tel_throughput := {|
    currentItemsPerSec := #2; currentTasksPerSec := #0; sma1mItemsPerSec := #0; sma1mTasksPerSec := #0;
    sma5mItemsPerSec := #0; sma5mTasksPerSec := #0; throughput_trend := Steady; trendDeltaPercent := #0;
    throughput_unit := Some unit; currentSampleDurationSec := None; sma1mWindowSec := None
  |};
  tel_latencyPercentiles := {|
    p50 := #0; p90 := #0; p95 := #0; p99 := #0; sampleCount := 0
  |};
  tel_proxyCapacity := demo_capacity; tel_httpDistribution := demo_http; tel_errorVelocity := demo_errors failed;
  tel_proxyAnomalies := []; tel_finalSummary := demo_summary #3 #5 #8 #1 #1;
  tel_bottleneckAnalysis := {|
    state := writer_constrained; label := "Writer"; explanation := EmptyString; rootCauseFindings := []
  |};
  tel_throughputDiagnostics := None; tel_durationBreakdown := None; tel_runningTasksCount := #0;
  tel_readyTasksCount := #0; tel_totalTasksCount := #100; tel_completedTasksCount := #100 ⊖ failed;
  tel_isLive := false; tel_lastSampleTime := #0;
  tel_quality := Some {|
    loadedTaskCount := #100; totalTaskCount := #100; coveragePercent := #100; isCompleteTaskSample := true;
    quality_unit := unit; quality_peakScope := CompleteJob
  |}
|}.

Definition demo_baseline : Job := with_counters (demo_job "completed" []) #100 #0 #50.

Definition demo_comparison (unit : ThroughputUnit) (failed : num) : option HistoricalComparisonResult :=
  @computeHistoricalComparison utc_env (demo_telemetry unit failed) "j2" "Job" "site" false (Some demo_baseline) None
    DEFAULT_TASK_COUNT_BOUNDARY None.

Lemma comparison_verdict_witness :
  exists r, demo_comparison Tasks #20 = Some r /\ delta_status (deltas r) = Regression /\
    remainingSec (currentProgress r) = None.
Proof.
  destruct (demo_comparison Tasks #20) as [r|] eqn:E; [|vm_compute in E; discriminate E].
  exists r. split; [reflexivity|].
  destruct (comparison_verdict _ _ _ _ _ _ _ _ _ _ E) as (b & _ & _ & [_ Hr] & _).
  assert (Hf : (failureRateDeltaPercent (deltas r) >=! #3) = true)
    by (vm_compute in E; injection E as <-; vm_compute; reflexivity).
  split; [apply Hr; right; left; exact Hf|]. vm_compute in E. injection E as <-. reflexivity.
Defined.

(** A run that fails far more often than its baseline is a regression, and its
    title still only says that throughputs cannot be compared. *)
Lemma failure_spike_title_replaced :
  exists r, demo_comparison Items #20 = Some r /\ delta_status (deltas r) = Regression /\
    verdictTitle (deltas r) = "Throughput Comparison Unavailable".
Proof.
  destruct (demo_comparison Items #20) as [r|] eqn:E; [|vm_compute in E; discriminate E].
  exists r. split; [reflexivity|]. vm_compute in E. injection E as <-. split; reflexivity.
Qed.
