(* ===== verification/Recovery.v ===== *)
(** * Recovery categories ([features/jobs/lib/jobRecoveryCatalog.ts])

    Download failures grouped by reason into the categories the job details
    offer for recovery. An object the server sends is the list of its entries
    in [Object.entries] order; a category that is looked up is not the name of
    a property every object inherits. *)

From Stdlib Require Import ZArith Lia SpecFloat.
From stdpp Require Import base list strings option sets.
From S2P Require Import Prelude JsString JsNum JsInt JsValue.

Definition ERROR_CATEGORIES : JMap.t (list string) := JMap.of_list
  [("url_expired", ["url_expired"; "url_expired_runtime"; "no_url"]);
   ("ip_mismatch", ["ip_mismatch"]);
   ("download_error", ["download_error"; "network_error"]);
   ("content_issues", ["content_expired"; "content_deleted_runtime"]);
   ("data_issues", ["size_mismatch"; "disk_full"])].

Inductive RecoveryTone := ToneCritical | ToneWarning | ToneReview.

Record RecoveryCauseDefinition := {
  cause_label : string;
  cause_code : string;
  tone : RecoveryTone;
  posture : string;
  signal : string;
  impact : string;
  boundary : string;
  prerequisite : string
}.

Definition RECOVERY_CAUSES : JMap.t RecoveryCauseDefinition := JMap.of_list
  [("all", {|
     cause_label := "All failures"; cause_code := "JOB_FAILURE_SET"; tone := ToneReview; posture := "Inspect";
     signal := "This view combines every task issue and download failure found in the loaded task history. Select a cause group to narrow the evidence.";
     impact := "The job contains recorded failures, but their retry boundaries may differ by cause.";
     boundary := "Review each cause before creating a retry. The backend retries failed tasks when any exist; otherwise it retries every available task.";
     prerequisite := "Review each recorded cause and confirm the resulting retry scope." |});
   ("task_issues", {|
     cause_label := "Task issues"; cause_code := "TASK_FAILURE"; tone := ToneCritical; posture := "Inspect";
     signal := "One or more tasks returned an explicit failure state or error message. The task messages below are the source evidence.";
     impact := "The affected task did not complete cleanly, so dependent work may not have run.";
     boundary := "Resolve the condition reported by the task, then retry the failed-task scope shown in the recovery plan.";
     prerequisite := "Resolve the task error shown in the evidence list." |});
   ("url_expired", {|
     cause_label := "Signed URL expired"; cause_code := "URL_EXPIRED"; tone := ToneCritical; posture := "Refresh first";
     signal := "A download result reported an expired or missing source URL. Item-level messages below retain the backend detail.";
     impact := "Affected media did not produce a successful download result; other recorded outputs are unchanged.";
     boundary := "Refresh source metadata or otherwise restore a usable media URL before creating a retry job.";
     prerequisite := "Refresh the affected source URLs." |});
   ("ip_mismatch", {|
     cause_label := "Route identity changed"; cause_code := "IP_MISMATCH"; tone := ToneCritical; posture := "Route fix";
     signal := "A request reported that its network route no longer matched the route used by the authenticated session.";
     impact := "The provider rejected affected requests before their downloads could complete.";
     boundary := "Restore a matching auth and route pairing before retrying the affected task scope.";
     prerequisite := "Restore the authenticated route identity." |});
   ("download_error", {|
     cause_label := "Transfer failure"; cause_code := "DOWNLOAD_ERROR"; tone := ToneWarning; posture := "Retryable";
     signal := "The worker recorded a download or network error while transferring media.";
     impact := "Affected media remains incomplete or absent at the recorded destination.";
     boundary := "Confirm network and destination health, then create a retry job for the backend-selected task scope.";
     prerequisite := "Confirm network and destination availability." |});
   ("content_issues", {|
     cause_label := "Source content unavailable"; cause_code := "CONTENT_UNAVAILABLE"; tone := ToneWarning; posture := "Review first";
     signal := "The source reported that affected content expired or was deleted during the run.";
     impact := "The source may no longer expose these items; existing local files are not evidence that a retry will succeed.";
     boundary := "Check source availability before retrying. Do not assume deleted content can be recovered by replaying the job.";
     prerequisite := "Confirm that the source content is available again." |});
   ("data_issues", {|
     cause_label := "Storage or data guard"; cause_code := "DATA_GUARD"; tone := ToneCritical; posture := "Blocked";
     signal := "The worker reported a size mismatch or insufficient destination capacity.";
     impact := "Affected output is not considered a successful download and may require storage remediation.";
     boundary := "Resolve capacity or integrity checks before retrying; a replay does not repair the underlying storage condition.";
     prerequisite := "Resolve the reported storage or integrity condition." |});
   ("other", {|
     cause_label := "Unclassified"; cause_code := "UNCLASSIFIED"; tone := ToneReview; posture := "Inspect";
     signal := "The backend recorded a reason that is not mapped to a known recovery category.";
     impact := "Automatic recovery guidance would be speculative without inspecting the raw evidence.";
     boundary := "Review the recorded reason and message before creating a retry job.";
     prerequisite := "Classify the raw error and resolve its prerequisite." |})].

(** [new Set(Object.values(ERROR_CATEGORIES).flat())] *)
Definition CATEGORIZED_REASONS : list string := concat (map snd ERROR_CATEGORIES).

Definition categoryMatches (category reason : string) : bool :=
  if category =s "other" then negb (str_in reason CATEGORIZED_REASONS)
  else str_in reason (JMap.get category ERROR_CATEGORIES ?? []).

(** [Number(value || 0)] *)
Definition error_count (v : value) : num := if val_truthy (Some v) then to_number (Some v) else #0.

Definition countCategoryErrors (breakdown : fields) (category : string) : num :=
  foldl (fun total entry => total ⊕ error_count entry.2) #0
    (keep (fun entry => (category =s "all") || categoryMatches category entry.1) breakdown).

(** The reason of an entry of [errors]; an array is an object without one. *)
Definition entry_reason (v : value) : option string :=
  match v with
  | VObj fs => to_str <$> prop "reason" fs
  | _ => None
  end.

Definition failedItemReasons (item : fields) : list string :=
  match as_arr (prop "errors" item) with
  | Some errors => omap entry_reason errors
  | None => []
  end.

Definition filterFailedItemsByCategory (failedItems : list fields) (category : string) : list fields :=
  if category =s "all" then failedItems
  else keep (fun item => some (categoryMatches category) (failedItemReasons item)) failedItems.

(** ** Every reason has one category *)

(** The categories shown for download failures, besides ["all"]. *)
Definition named_categories : list string := JMap.keys ERROR_CATEGORIES ++ ["other"].

(** The category of a reason. *)
Definition category_of (reason : string) : string :=
  find_first (fun c => categoryMatches c reason) named_categories ?? "other".

Lemma category_matches_iff reason c :
  c ∈ named_categories -> categoryMatches c reason = (c =s category_of reason).
Proof.
  destruct (decide (reason ∈ CATEGORIZED_REASONS)) as [Hin|Hout].
  - intros Hc. vm_compute in Hc. vm_compute in Hin.
    repeat (apply elem_of_cons in Hin as [->|Hin]; [|]); try (apply elem_of_nil in Hin; done);
    repeat (apply elem_of_cons in Hc as [->|Hc]; [vm_compute; reflexivity|]); apply elem_of_nil in Hc; done.
  - assert (Hno : forall l, Forall (.∈ CATEGORIZED_REASONS) l -> str_in reason l = false).
    { intros l Hl. apply str_in_not. intros Hr. apply Hout. exact (proj1 (Forall_forall _ _) Hl _ Hr). }
    assert (Hm : forall c', c' ∈ named_categories -> categoryMatches c' reason = (c' =s "other")).
    { intros c' Hc. unfold categoryMatches. destruct (c' =s "other") eqn:E; [apply negb_true_iff, Hno, Forall_forall; auto|].
      apply Hno. vm_compute in Hc.
      repeat (apply elem_of_cons in Hc as [->|Hc]; [try done; apply (bool_decide_unpack _); vm_compute; exact I|]).
      apply elem_of_nil in Hc. done. }
    intros Hc. rewrite (Hm c Hc). f_equal. unfold category_of.
    destruct (find_first _ named_categories) as [x|] eqn:E; [|done].
    apply find_first_Some in E as [Hx E]. rewrite (Hm x Hx) in E. apply str_eqb_eq in E. done.
Qed.

Lemma category_of_named reason : category_of reason ∈ named_categories.
Proof.
  unfold category_of. destruct (find_first _ named_categories) as [x|] eqn:E; [apply find_first_Some in E; apply E|].
  apply (bool_decide_unpack _). vm_compute. exact I.
Qed.

(** ** Counting *)

(** The recorded number of failures, a JSON integer. *)
Definition recorded (entry : string * value) (z : Z) : Prop := entry.2 = VNum #z.

Definition total_of (counts : list (string * Z)) (p : string -> bool) : Z := sum_by snd (keep (fun e => p e.1) counts).

Definition breakdown_of (counts : list (string * Z)) : fields := map (fun e => (e.1, VNum #(e.2))) counts.

Lemma error_count_int z : safe z -> error_count (VNum #z) = #z.
Proof.
  intros Hz. unfold error_count. simpl. rewrite truthy_int by exact Hz.
  destruct (Z.eqb_spec z 0) as [->|]; done.
Qed.

Lemma keep_cons {A} (p : A -> bool) x l : keep p (x :: l) = if p x then x :: keep p l else keep p l.
Proof. reflexivity. Qed.

Lemma count_total counts p acc :
  Forall (fun e => 0 <= e.2) counts -> 0 <= acc -> safe (acc + sum_by snd counts) ->
  foldl (fun total entry => total ⊕ error_count entry.2) #acc (keep (fun e => p e.1) (breakdown_of counts)) =
  #(acc + total_of counts p).
Proof.
  revert acc. unfold total_of. induction counts as [|[reason z] counts IH]; intros acc Hall Hacc Hs.
  - simpl. rewrite Z.add_0_r. done.
  - apply Forall_cons in Hall as [Hz Hall]. simpl in Hz, Hs. unfold sum_by in Hs. cbn [foldr fst snd] in Hs.
    fold (sum_by (snd (A := string)) counts) in Hs.
    assert (0 <= sum_by snd counts) by (apply sum_by_nonneg; intros e He; apply (proj1 (Forall_forall _ _) Hall e He)).
    cbn [breakdown_of map]. fold (breakdown_of counts). rewrite !keep_cons. cbn [fst]. destruct (p reason).
    + cbn [foldl sum_by foldr snd]. fold (sum_by (snd (A := string)) (keep (fun e => p e.1) counts)).
      rewrite error_count_int, add_int by (unfold safe in *; lia).
      rewrite IH by (done || lia || (unfold safe in *; lia)). f_equal. lia.
    + apply IH; (done || lia || (unfold safe in *; lia)).
Qed.

Lemma sum_by_ext {A} (f g : A -> Z) l : (forall x, x ∈ l -> f x = g x) -> sum_by f l = sum_by g l.
Proof.
  unfold sum_by. induction l as [|a l IH]; [done|]. intros H. simpl. rewrite (H a), IH by set_solver. done.
Qed.

Lemma sum_by_plus {A} (f g : A -> Z) l : sum_by (fun x => f x + g x) l = sum_by f l + sum_by g l.
Proof. unfold sum_by. induction l; simpl; lia. Qed.

Lemma sum_by_only x z l : NoDup l -> x ∈ l -> sum_by (fun c => if c =s x then z else 0) l = z.
Proof.
  unfold sum_by. induction l as [|a l IH]; intros Hnd Hx; [set_solver|].
  apply NoDup_cons in Hnd as [Ha Hnd]. simpl. destruct (a =s x) eqn:E.
  - apply str_eqb_eq in E as ->. change (z + sum_by (fun c => if c =s x then z else 0) l = z).
    rewrite (sum_by_ext _ (fun _ => 0)).
    + unfold sum_by. clear. induction l; simpl in *; lia.
    + intros c Hc. rewrite (proj2 (str_eqb_neq c x)) by (intros ->; done). done.
  - apply elem_of_cons in Hx as [->|Hx]; [rewrite str_eqb_refl in E; done|]. rewrite IH; done.
Qed.

Lemma categories_total counts :
  sum_by (fun c => total_of counts (categoryMatches c)) named_categories = sum_by snd counts.
Proof.
  induction counts as [|[reason z] counts IH]; [reflexivity|].
  rewrite (sum_by_ext _ (fun c => (if c =s category_of reason then z else 0) + total_of counts (categoryMatches c))).
  - rewrite sum_by_plus, IH, sum_by_only; [done| |apply category_of_named].
    apply (bool_decide_unpack _). vm_compute. exact I.
  - intros c Hc. unfold total_of. rewrite keep_cons. cbn [fst]. rewrite (category_matches_iff _ _ Hc).
    destruct (c =s category_of reason); done.
Qed.

(** Every failure reason belongs to exactly one recovery category, so the
    categories partition the failures: the count of ["all"] is the number of
    recorded failures and the counts of the categories add up to it, and every
    failed item that names a reason is listed under the category of the reason,
    while ["all"] lists every item. *)
Theorem recovery_categories_partition (counts : list (string * Z)) (items : list fields)
    (Hn : Forall (fun e => 0 <= e.2) counts) (Hs : safe (sum_by snd counts)) :
  (forall reason c, c ∈ named_categories -> categoryMatches c reason = (c =s category_of reason)) /\
  countCategoryErrors (breakdown_of counts) "all" = #(sum_by snd counts) /\
  (exists n : string -> Z,
    (forall c, c ∈ named_categories -> countCategoryErrors (breakdown_of counts) c = #(n c)) /\
    sum_by n named_categories = sum_by snd counts) /\
  (forall item reason, item ∈ items -> reason ∈ failedItemReasons item ->
    item ∈ filterFailedItemsByCategory items (category_of reason)) /\
  filterFailedItemsByCategory items "all" = items.
Proof.
  assert (Hcount : forall p, foldl (fun total entry => total ⊕ error_count entry.2) #0
    (keep (fun e => p e.1) (breakdown_of counts)) = #(total_of counts p)).
  { intros p. rewrite (count_total counts p 0) by (done || lia). rewrite Z.add_0_l. done. }
  split; [intros; apply category_matches_iff; done|]. split; [|split; [|split; [|done]]].
  - unfold countCategoryErrors. cbn. etransitivity; [exact (Hcount (fun _ => true))|]. unfold total_of.
    rewrite keep_all by done. done.
  - exists (fun c => total_of counts (categoryMatches c)). split; [|apply categories_total].
    intros c Hc. unfold countCategoryErrors. rewrite <- Hcount. f_equal.
    destruct (c =s "all") eqn:E; [|done]. apply str_eqb_eq in E as ->. vm_compute in Hc.
    repeat (apply elem_of_cons in Hc as [Hc|Hc]; [discriminate Hc|]). apply elem_of_nil in Hc. done.
  - intros item reason Hi Hr. unfold filterFailedItemsByCategory.
    destruct (category_of reason =s "all"); [done|]. apply elem_of_keep. split; [exact Hi|].
    apply some_iff. exists reason. split; [exact Hr|].
    rewrite (category_matches_iff _ _ (category_of_named reason)). apply str_eqb_refl.
Qed.

Definition demo_counts : list (string * Z) := [("url_expired", 3); ("disk_full", 2); ("novel_reason", 4)].
Definition demo_items : list fields :=
  [[("errors", VArr [VObj [("reason", VStr "disk_full")]])]; [("errors", VStr "none")]].

Lemma recovery_categories_partition_witness :
  countCategoryErrors (breakdown_of demo_counts) "all" = #9 /\
  countCategoryErrors (breakdown_of demo_counts) "other" = #4 /\
  [("errors", VArr [VObj [("reason", VStr "disk_full")]])] ∈ filterFailedItemsByCategory demo_items "data_issues".
Proof.
  assert (Hn : Forall (fun e => 0 <= e.2) demo_counts) by (repeat constructor; done).
  destruct (recovery_categories_partition demo_counts demo_items Hn) as (_ & Ha & _ & Hi & _); [done|].
  split; [exact Ha|]. split; [vm_compute; reflexivity|].
  apply (Hi _ "disk_full"); [apply elem_of_cons; left; reflexivity|apply elem_of_cons; left; reflexivity].
Defined.
