(* ===== verification/TelemetryInputs.v ===== *)
(** * What the diagnostics are computed from
    ([features/jobs/lib/useJobDiagnosticsTelemetry.ts], lines 58-200)

    The arguments of the hook and the values derived from them directly:
    proxies, capacity, latencies, the counters of the job and how much of it the
    loaded tasks cover. *)

From Stdlib Require Import ZArith Lia SpecFloat.
From stdpp Require Import base list strings option.
From S2P Require Import Prelude JsString JsNum JsValue JsDate RuntimeTelemetry JobTypes RuntimeChart.
From S2P Require Import DiagnosticsTypes Diagnostics.

(** The arguments, with the time the component was mounted. *)
Record TelemetryInputs := {
  in_job : Job;
  in_details : option JobDetail;
  in_tasks : list TaskDetail;
  in_proxies : option (list NetworkProxy);
  in_isLiveJob : bool;
  in_workerPoolSize : num;
  in_taskStatsObservedAtMs : option num;
  in_jobRuntimeSamples : list JobRuntimeSample;
  in_mountedAtMs : num
}.

(** [xs.length] *)
Definition count {A} (l : list A) : num := #(Z.of_nat (length l)).

Section inputs.
Context {E : Env} (i : TelemetryInputs).

Notation job := (in_job i).
Notation details := (in_details i).

Definition observedAt : num :=
  (in_taskStatsObservedAtMs i ??? (details ≫= task_stats_observed_at_ms)) ?? #0.

Definition referenceNowMs : num := if observedAt >! #0 then observedAt else in_mountedAtMs i.

(** ** Proxies *)

(** [p.enabled !== false] *)
Definition proxy_is_enabled (p : NetworkProxy) : bool :=
  match proxy_enabled p with Some false => false | _ => true end.

Definition enabledProxiesCount : num :=
  match in_proxies i with
  | None => #107
  | Some ps => count (keep proxy_is_enabled ps)
  end.

(** [v === false || v === '0' || v === 'false'] and its opposite. *)
Definition says_no (v : jsval) : bool :=
  match v with Some (VBool b) => negb b | Some (VStr s) => (s =s "0") || (s =s "false") | _ => false end.
Definition says_yes (v : jsval) : bool :=
  match v with Some (VBool b) => b | Some (VStr s) => (s =s "1") || (s =s "true") | _ => false end.

Definition metadata_of (j : option Job) (key : string) : jsval := (j ≫= metadata) ≫= prop key.

Definition is_text (v : jsval) (s : string) : bool := opt_eqb (as_str v) s.

Definition isMpsJob : bool :=
  val_truthy (metadata_of (Some job) "mps_manifest") || val_truthy (metadata_of details "mps_manifest") ||
  opt_eqb (job_type job) "mass_profile_scrape" || opt_eqb (details ≫= job_type) "mass_profile_scrape" ||
  is_text (metadata_of (Some job) "job_resource_scope") "mps" || is_text (metadata_of details "job_resource_scope") "mps".

Definition includeDirectConnection : bool :=
  let fromMeta := jobSetting job details Metadata "include_direct_connection" in
  let fromArgs := jobSetting job details Args "include_direct_connection" in
  if says_no fromMeta then false else if says_yes fromMeta then true
  else if says_no fromArgs then false else if says_yes fromArgs then true
  else negb isMpsJob.

(** *** Capacity *)

Definition configured_capacity : num :=
  to_number (val_nullish (metadata_of details "proxy_capacity")
            (val_nullish (metadata_of (Some job) "proxy_capacity") (args job ≫= prop "proxy_capacity"))).

Definition event_slots (event : MPSRefillTraceEvent) : num := to_number (re_controls event ≫= prop "proxy_connection_slots").

(** The slots of the last event that reports a positive number of them. *)
Definition observed_slots : option num :=
  event_slots <$> find_first (fun e => event_slots e >! #0) (reverse ((details ≫= mps_refill_trace) ?? [])).

(** [p?.max_connections ? Number(p.max_connections) : 8] *)
Definition proxy_slots (p : NetworkProxy) : num :=
  match max_connections p with Some n => if num_truthy n then n else #8 | None => #8 end.

Definition declared_slots (ps : list NetworkProxy) : num :=
  foldl (fun acc p => acc ⊕ proxy_slots p) #0 (keep proxy_is_enabled ps).

Definition has_max_connections (p : NetworkProxy) : bool := is_some (max_connections p).

Definition totalProxyCapacity : num :=
  if is_finite configured_capacity && (configured_capacity >! #0) then configured_capacity
  else
    match observed_slots with
    | Some slots => slots
    | None =>
        match in_proxies i with
        | Some ps =>
            if some has_max_connections ps
            then declared_slots ps ⊕ (if includeDirectConnection then #8 else #0) else #0
        | None => #0
        end
    end.

(** ** Latencies *)

Definition taskLatencies : list num := omap parseTaskLatency (in_tasks i).
Definition currentPercentiles : LatencyPercentiles := calculatePercentiles taskLatencies.

(** ** Counters *)

Definition aggregateTaskStats : option TaskStats := (details ≫= task_stats) ??? task_stats job.
Definition totalJobTasks : num := ((ts_total <$> aggregateTaskStats) ??? task_count job) ?? #0.
Definition completedJobTasks : num := ((ts_completed <$> aggregateTaskStats) ??? completed_tasks job) ?? #0.
Definition failedJobTasks : num := ((ts_failed <$> aggregateTaskStats) ??? failed_tasks job) ?? #0.
Definition inflightJobTasks : num := (ts_inflight <$> aggregateTaskStats) ?? #0.
Definition readyJobTasks : num := (ts_ready <$> aggregateTaskStats) ?? #0.
Definition totalJobErrors : num :=
  ((err_total <$> (details ≫= error_stats)) ??? (err_total <$> error_stats job)) ?? failedJobTasks.

Definition runtimeTelemetry : option JobRuntimeTelemetry := details ≫= job_runtime_telemetry.
Definition runtimeTerminalTasks : num := completedJobTasks ⊕ failedJobTasks.
Definition runtimeComplete : bool :=
  match runtimeTelemetry with
  | Some t => (runtimeTerminalTasks >! #0) && (rt_task_count t >=! runtimeTerminalTasks)
  | None => false
  end.

Definition isCompleteSample : bool := (totalJobTasks >! #0) && (count (in_tasks i) >=! totalJobTasks).
Definition throughputUnit : ThroughputUnit := if isCompleteSample then Items else Tasks.

Definition taskCoveragePercent : num :=
  if totalJobTasks >! #0 then rounded 1 (math_min #100 (count (in_tasks i) ⊘ totalJobTasks ⊗ #100)) else #0.

Definition telemetryQuality : TelemetryQuality := {|
  loadedTaskCount := count (in_tasks i);
  totalTaskCount := totalJobTasks;
  coveragePercent := taskCoveragePercent;
  isCompleteTaskSample := isCompleteSample;
  quality_unit := throughputUnit;
  quality_peakScope := if isCompleteSample then CompleteJob else LoadedSample
|}.

(** The groups of the job's errors: [details?.error_stats?.groups ?? job.error_stats?.groups ?? {}]. *)
Definition error_groups : fields :=
  ((err_groups <$> (details ≫= error_stats)) ??? (err_groups <$> error_stats job)) ?? [].
Definition hasAggregateErrorGroups : bool := match error_groups with [] => false | _ => true end.

(** [details?.x || (typeof job.x === 'string' ? job.x : otherwise)] *)
Definition details_or_job (field : Job -> option string) (otherwise : option string) : option string :=
  truthy_opt (details ≫= field) ??? (field job ??? otherwise).

(** [startedAt]; the empty string is no date either. *)
Definition job_startedAt : option string := truthy_opt (details_or_job started_at (created_at job)).
End inputs.
