(* ===== verification/TelemetryErrors.v ===== *)
(** * Response and error counts
    ([features/jobs/lib/useJobDiagnosticsTelemetry.ts], lines 202-333)

    The failures of a job by kind of response. The server's error groups are
    counted when it sends any; otherwise the loaded failed tasks are, and a kind
    that only the tasks show is taken from them.

    The six counters as sums over the server's groups and the loaded failures,
    and when no failure is counted twice. *)

From Stdlib Require Import Ascii ZArith Lia SpecFloat.
From stdpp Require Import base list strings option sets.
From S2P Require Import Prelude JsString JsNum JsValue JsDate JobTypes RuntimeChart Runbook.
From S2P Require Import DiagnosticsTypes Diagnostics TelemetryInputs JsInt Samples.

Inductive ErrorKind := Kind429 | Kind403 | Kind404 | Kind5xx | KindTimeout | KindOther.

#[export] Instance ErrorKind_eq_dec : EqDecision ErrorKind.
Proof. solve_decision. Defined.

(** The six counters the loops add to. *)
Record ErrorCounts := {
  n429 : num;
  n403 : num;
  n404 : num;
  n5xx : num;
  nTimeout : num;
  nOther : num
}.

Definition no_errors : ErrorCounts :=
  {| n429 := #0; n403 := #0; n404 := #0; n5xx := #0; nTimeout := #0; nOther := #0 |}.

Definition count_of (k : ErrorKind) (c : ErrorCounts) : num :=
  match k with
  | Kind429 => n429 c | Kind403 => n403 c | Kind404 => n404 c
  | Kind5xx => n5xx c | KindTimeout => nTimeout c | KindOther => nOther c
  end.

Definition add_errors (k : ErrorKind) (n : num) (c : ErrorCounts) : ErrorCounts := {|
  n429 := if decide (k = Kind429) then n429 c ⊕ n else n429 c;
  n403 := if decide (k = Kind403) then n403 c ⊕ n else n403 c;
  n404 := if decide (k = Kind404) then n404 c ⊕ n else n404 c;
  n5xx := if decide (k = Kind5xx) then n5xx c ⊕ n else n5xx c;
  nTimeout := if decide (k = KindTimeout) then nTimeout c ⊕ n else nTimeout c;
  nOther := if decide (k = KindOther) then nOther c ⊕ n else nOther c
|}.

Definition mentions (s : string) (words : list string) : bool := some (includes s) words.

(** ** The server's groups *)

Definition group_kind (msg : string) : ErrorKind :=
  let lower := to_lower msg in
  if mentions lower ["429"; "rate limit"; "too many requests"] then Kind429
  else if mentions lower ["403"; "forbidden"; "ip_mismatch"; "route identity"] then Kind403
  else if mentions lower ["404"; "not found"; "invalid_user"; "content_issues"] then Kind404
  else if mentions lower ["500"; "502"; "503"; "504"; "server error"; "bad gateway"] then Kind5xx
  else if mentions lower ["timeout"; "timed out"; "connect"; "connection reset"; "proxy route(s) failed"] then KindTimeout
  else KindOther.

(** [Number(count)], when it is finite and positive. *)
Definition group_count (v : value) : option num :=
  let n := to_number (Some v) in if is_finite n && (n >! #0) then Some n else None.

Definition add_group (c : ErrorCounts) (group : string * value) : ErrorCounts :=
  match group_count group.2 with Some n => add_errors (group_kind group.1) n c | None => c end.

Definition group_errors (groups : fields) : ErrorCounts := foldl add_group no_errors groups.

(** ** The loaded tasks *)

(** [/\b5\d{2}\b/] *)
Definition five_at (s : string) : bool :=
  match s with
  | String "5" (String a (String b rest)) => is_digit a && is_digit b && word_ends rest
  | _ => false
  end.

Fixpoint five_search (after_word : bool) (s : string) : bool :=
  (negb after_word && five_at s) ||
  match s with String c r => five_search (is_word c) r | EmptyString => false end.

Definition task_kind (error : string) : ErrorKind :=
  let lower := to_lower error in
  if mentions lower ["429"; "rate limit"] then Kind429
  else if mentions lower ["403"; "forbidden"] then Kind403
  else if mentions lower ["404"; "not found"] then Kind404
  else if five_search false lower || mentions lower ["server error"; "bad gateway"] then Kind5xx
  else if mentions lower ["timeout"; "timed out"; "connection"; "connect"] then KindTimeout
  else KindOther.

Definition failed_with (t : TaskDetail) : option string :=
  if td_status t =s "failed" then truthy_opt (td_error t) else None.

Definition add_task_error (c : ErrorCounts) (t : TaskDetail) : ErrorCounts :=
  match failed_with t with Some e => add_errors (task_kind e) #1 c | None => c end.

Definition task_errors (tasks : list TaskDetail) : ErrorCounts := foldl add_task_error no_errors tasks.

(** ** Both *)

(** [if (task > 0 && group === 0) group = task] *)
Definition fill (group task : num) : num := if (task >! #0) && (group =! #0) then task else group.

Definition merged_errors (groups : fields) (tasks : list TaskDetail) : ErrorCounts :=
  let g := group_errors groups in
  let t := task_errors tasks in
  match groups with
  | [] => t
  | _ => {| n429 := fill (n429 g) (n429 t); n403 := fill (n403 g) (n403 t); n404 := fill (n404 g) (n404 t);
            n5xx := fill (n5xx g) (n5xx t); nTimeout := fill (nTimeout g) (nTimeout t); nOther := fill (nOther g) (nOther t) |}
  end.

Definition distribution (ok : num) (c : ErrorCounts) : HttpStatusBreakdown := {|
  ok200 := ok;
  rateLimit429 := n429 c;
  forbidden403 := n403 c;
  notFound404 := n404 c;
  serverError5xx := n5xx c;
  timeoutErrors := nTimeout c;
  otherErrors := nOther c;
  totalObserved := ok ⊕ n429 c ⊕ n403 c ⊕ n404 c ⊕ n5xx c ⊕ nTimeout c ⊕ nOther c
|}.

Definition httpDistribution (i : TelemetryInputs) : HttpStatusBreakdown :=
  distribution (completedJobTasks i) (merged_errors (error_groups i) (in_tasks i)).

Definition parsed429Count (i : TelemetryInputs) : num := rateLimit429 (httpDistribution i).

(** * What the response and error counts promise *)

(** ** Tallies *)

(** Failures to count, by kind. *)
Definition events := list (ErrorKind * Z).

Definition of_kind (k : ErrorKind) (e : ErrorKind * Z) : bool := bool_decide (e.1 = k).

(** How many of them are of kind [k]. *)
Definition tally (es : events) (k : ErrorKind) : Z := sum_by snd (keep (of_kind k) es).

Definition all_kinds : list ErrorKind := [Kind429; Kind403; Kind404; Kind5xx; KindTimeout; KindOther].

Definition positive_events (es : events) : Prop := forall e, e ∈ es -> 0 <= e.2.

Lemma tally_cons e es k : tally (e :: es) k = (if decide (e.1 = k) then e.2 else 0) + tally es k.
Proof. unfold tally, of_kind. simpl. case_bool_decide; case_decide; done || (simpl; lia). Qed.

Lemma tally_bounds es k : positive_events es -> 0 <= tally es k <= sum_by snd es.
Proof.
  induction es as [|e es IH]; intros H; [unfold tally; simpl; lia|]. rewrite tally_cons. simpl.
  assert (0 <= e.2) by (apply H; set_solver). assert (positive_events es) by (intros x Hx; apply H; set_solver).
  specialize (IH ltac:(done)). case_decide; unfold sum_by in *; simpl; lia.
Qed.

(** Every failure is of exactly one kind. *)
Lemma tally_total es : sum_by (tally es) all_kinds = sum_by snd es.
Proof.
  induction es as [|[k z] es IH]; [done|]. unfold sum_by, all_kinds in *. cbn [foldr snd] in *. rewrite <- IH, !tally_cons.
  destruct k; repeat case_decide; done || (cbn [fst snd]; lia).
Qed.

(** Counters that hold the whole numbers [t]. *)
Definition holds (c : ErrorCounts) (t : ErrorKind -> Z) : Prop := forall k, count_of k c = #(t k).

Definition count_events (es : events) (c : ErrorCounts) : ErrorCounts :=
  foldl (fun c e => add_errors e.1 #(e.2) c) c es.

Lemma count_add k k' n c : count_of k' (add_errors k n c) = if decide (k = k') then count_of k' c ⊕ n else count_of k' c.
Proof. destruct k, k'; done. Qed.

Lemma events_hold es : forall c t,
  holds c t -> positive_events es -> (forall k, 0 <= t k /\ t k + sum_by snd es < 2 ^ 53) ->
  holds (count_events es c) (fun k => t k + tally es k).
Proof.
  induction es as [|[k z] es IH]; intros c t Hc Hp Ht k'.
  { simpl. rewrite Hc. unfold tally. simpl. f_equal; lia. }
  assert (Hz : 0 <= z) by (apply (Hp (k, z)); set_solver).
  assert (Hp' : positive_events es) by (intros x Hx; apply Hp; set_solver).
  assert (Hs : 0 <= sum_by snd es) by (apply sum_by_nonneg; exact Hp').
  unfold sum_by in Ht, Hs. simpl in Ht. cbn [count_events foldl fst snd].
  pose proof (IH (add_errors k #z c) (fun k0 => (if decide (k = k0) then t k0 + z else t k0))) as H.
  unfold count_events in H. rewrite H; try done.
  - rewrite tally_cons. simpl. f_equal. case_decide; lia.
  - intros k0. rewrite count_add, Hc. pose proof (Ht k0). case_decide; [|done]. rewrite add_int by (unfold safe; lia). done.
  - intros k0. pose proof (Ht k0). unfold sum_by. case_decide; lia.
Qed.

(** ** The two sources *)

Definition group_events (groups : fields) : events :=
  omap (fun g => (fun n => (group_kind g.1, num_to_Z n)) <$> group_count g.2) groups.

Definition task_events (tasks : list TaskDetail) : events :=
  omap (fun t => (fun e => (task_kind e, 1)) <$> failed_with t) tasks.

(** The server counts in whole numbers. *)
Definition whole_groups (groups : fields) : Prop :=
  (forall g n, g ∈ groups -> group_count g.2 = Some n -> exists z, n = #z /\ 0 <= z < 2 ^ 53) /\
  sum_by snd (group_events groups) < 2 ^ 53.

Lemma group_errors_events groups : forall c,
  (forall g n, g ∈ groups -> group_count g.2 = Some n -> exists z, n = #z /\ 0 <= z < 2 ^ 53) ->
  foldl add_group c groups = count_events (group_events groups) c.
Proof.
  induction groups as [|g groups IH]; intros c H; [done|]. cbn [foldl group_events omap list_omap]. unfold add_group at 2.
  assert (H' : forall g' n, g' ∈ groups -> group_count g'.2 = Some n -> exists z, n = #z /\ 0 <= z < 2 ^ 53).
  { intros g' n Hg. apply H. set_solver. }
  destruct (group_count g.2) as [n|] eqn:E; simpl; [|by apply IH].
  destruct (H g n ltac:(set_solver) E) as (z & -> & Hz). rewrite num_to_Z_int by (unfold safe; lia). by apply IH.
Qed.

Lemma group_events_positive groups : whole_groups groups -> positive_events (group_events groups).
Proof.
  intros [H _] e He. apply list_elem_of_omap in He as (g & Hg & Hn). destruct (group_count g.2) as [n|] eqn:E; [|done].
  injection Hn as <-. destruct (H g n Hg E) as (z & -> & Hz). simpl. rewrite num_to_Z_int by (unfold safe; lia). lia.
Qed.

Lemma task_errors_events tasks : forall c, foldl add_task_error c tasks = count_events (task_events tasks) c.
Proof.
  induction tasks as [|t tasks IH]; intros c; [done|]. cbn [foldl task_events omap list_omap]. unfold add_task_error at 2.
  destruct (failed_with t); simpl; apply IH.
Qed.

Lemma task_events_ones tasks : (forall e, e ∈ task_events tasks -> e.2 = 1) /\ sum_by snd (task_events tasks) <= Z.of_nat (length tasks).
Proof.
  split.
  - intros e He. apply list_elem_of_omap in He as (t & _ & Ht). destruct (failed_with t); [|done]. by injection Ht as <-.
  - unfold task_events. induction tasks as [|t tasks IH]; [done|]. cbn [omap list_omap].
    destruct (failed_with t); unfold sum_by in *; simpl in *; lia.
Qed.

Definition zero (k : ErrorKind) : Z := 0.

Lemma no_errors_hold : holds no_errors zero.
Proof. by intros []. Qed.

Lemma groups_hold groups : whole_groups groups -> holds (group_errors groups) (tally (group_events groups)).
Proof.
  intros H k. unfold group_errors. rewrite group_errors_events by apply H.
  rewrite (events_hold _ _ zero no_errors_hold (group_events_positive _ H)); [done|].
  intros k'. unfold zero. destruct H. lia.
Qed.

Lemma tasks_hold tasks : Z.of_nat (length tasks) < 2 ^ 53 -> holds (task_errors tasks) (tally (task_events tasks)).
Proof.
  intros H k. unfold task_errors. rewrite task_errors_events. destruct (task_events_ones tasks) as [H1 H2].
  rewrite (events_hold _ _ zero no_errors_hold); [done| |].
  - intros e He. rewrite (H1 e He). lia.
  - intros k'. unfold zero. lia.
Qed.

(** ** The merged counts *)

(** The failures of each kind: the server's, or the loaded ones where the server
    reports none. *)
Definition expected (groups : fields) (tasks : list TaskDetail) (k : ErrorKind) : Z :=
  if tally (group_events groups) k =? 0 then tally (task_events tasks) k else tally (group_events groups) k.

Lemma count_merged groups tasks k : groups <> [] ->
  count_of k (merged_errors groups tasks) = fill (count_of k (group_errors groups)) (count_of k (task_errors tasks)).
Proof. intros H. unfold merged_errors. destruct groups; [done|]. by destruct k. Qed.

Lemma fill_int a b : 0 <= a < 2 ^ 53 -> 0 <= b < 2 ^ 53 -> fill #a #b = #(if a =? 0 then b else a).
Proof.
  intros Ha Hb. unfold fill. rewrite ltb_int, eqb_int by (unfold safe; lia).
  destruct (Z.ltb_spec 0 b), (Z.eqb_spec a 0) as [->|]; simpl; try done. f_equal. lia.
Qed.

Lemma merged_hold groups tasks : whole_groups groups -> Z.of_nat (length tasks) < 2 ^ 53 ->
  holds (merged_errors groups tasks) (expected groups tasks).
Proof.
  intros Hg Ht k. pose proof (groups_hold _ Hg k) as Eg. pose proof (tasks_hold _ Ht k) as Et.
  pose proof (tally_bounds _ k (group_events_positive _ Hg)) as Bg. destruct (task_events_ones tasks) as [T1 T2].
  assert (Bt : 0 <= tally (task_events tasks) k <= sum_by snd (task_events tasks)).
  { apply tally_bounds. intros e He. rewrite (T1 e He). lia. }
  destruct Hg as [_ Hg]. unfold expected. destruct (decide (groups = [])) as [->|Hne]; [exact Et|].
  rewrite count_merged, Eg, Et by done. apply fill_int; lia.
Qed.

Lemma total_observed ok c t :
  holds c t -> 0 <= ok -> (forall k, 0 <= t k) -> ok + sum_by t all_kinds < 2 ^ 53 ->
  totalObserved (distribution #ok c) = #(ok + sum_by t all_kinds).
Proof.
  intros Hc Hok Ht Hs. unfold distribution. cbn [totalObserved].
  change (n429 c) with (count_of Kind429 c). change (n403 c) with (count_of Kind403 c).
  change (n404 c) with (count_of Kind404 c). change (n5xx c) with (count_of Kind5xx c).
  change (nTimeout c) with (count_of KindTimeout c). change (nOther c) with (count_of KindOther c).
  rewrite !Hc. pose proof (Ht Kind429). pose proof (Ht Kind403). pose proof (Ht Kind404). pose proof (Ht Kind5xx).
  pose proof (Ht KindTimeout). pose proof (Ht KindOther). unfold sum_by, all_kinds in *. cbn [foldr] in *.
  rewrite !add_int by (unfold safe; lia). f_equal. lia.
Qed.

Lemma expected_nonneg groups tasks k : whole_groups groups -> 0 <= expected groups tasks k.
Proof.
  intros Hg. pose proof (tally_bounds _ k (group_events_positive _ Hg)). unfold expected.
  destruct (_ =? 0); [|lia]. apply sum_by_nonneg. intros e [He _]%elem_of_keep. rewrite (proj1 (task_events_ones tasks) e He). lia.
Qed.

(** The kinds the loaded failures are of are kinds the server reports. *)
Definition same_kinds (groups : fields) (tasks : list TaskDetail) : Prop :=
  forall k, 0 < tally (task_events tasks) k -> 0 < tally (group_events groups) k.

(** The failures one of the sources knows of. *)
Definition known_failures (groups : fields) (tasks : list TaskDetail) : Z :=
  match groups with [] => sum_by snd (task_events tasks) | _ => sum_by snd (group_events groups) end.

Lemma expected_total groups tasks : whole_groups groups -> (groups <> [] -> same_kinds groups tasks) ->
  sum_by (expected groups tasks) all_kinds = known_failures groups tasks.
Proof.
  intros Hg Hs. unfold known_failures. destruct (decide (groups = [])) as [->|Hne]; [apply tally_total|].
  replace (match groups with [] => _ | _ => _ end) with (sum_by snd (group_events groups)) by by destruct groups.
  rewrite <- tally_total. unfold sum_by, all_kinds. cbn [foldr].
  assert (H : forall k, expected groups tasks k = tally (group_events groups) k).
  { intros k. unfold expected. destruct (Z.eqb_spec (tally (group_events groups) k) 0) as [E|]; [|done].
    pose proof (Hs Hne k). assert (0 <= tally (task_events tasks) k); [|lia].
    apply sum_by_nonneg. intros e [He _]%elem_of_keep. rewrite (proj1 (task_events_ones tasks) e He). lia. }
  by rewrite !H.
Qed.

(** The response counts of a job: each of the six kinds counts the server's
    failures of that kind, or, when it reports none of it, the loaded failed
    tasks'; and no failure is counted twice: when the server sends no groups, or
    the tasks show no kind the groups do not have, the total observed is the
    completed tasks plus the failures of one of the two sources. *)
Theorem errors_counted_once (i : TelemetryInputs) (ok : Z) :
  let groups := error_groups i in let tasks := in_tasks i in
  whole_groups groups -> Z.of_nat (length tasks) < 2 ^ 53 ->
  completedJobTasks i = #ok -> 0 <= ok -> ok + known_failures groups tasks < 2 ^ 53 ->
  (forall k, count_of k (merged_errors groups tasks) = #(expected groups tasks k)) /\
  parsed429Count i = #(expected groups tasks Kind429) /\
  ((groups <> [] -> same_kinds groups tasks) ->
   totalObserved (httpDistribution i) = #(ok + known_failures groups tasks)).
Proof.
  intros groups tasks Hg Ht Hok H0 Hb. pose proof (merged_hold _ _ Hg Ht) as Hm.
  split; [exact Hm|]. split; [exact (Hm Kind429)|]. intros Hs. unfold httpDistribution. rewrite Hok.
  rewrite (total_observed ok _ (expected groups tasks)), expected_total; try done.
  - intros k. by apply expected_nonneg.
  - by rewrite expected_total.
Qed.

(** A job of 100 completed tasks with the server's groups and loaded tasks. *)
Definition demo_failures (groups : fields) (tasks : list TaskDetail) : TelemetryInputs := {|
  in_job := with_errors (with_counters (demo_job "failed" []) #100 #3 #60) {| err_total := #3; err_groups := groups |};
  in_details := None;
  in_tasks := tasks;
  in_proxies := None;
  in_isLiveJob := false;
  in_workerPoolSize := #32;
  in_taskStatsObservedAtMs := None;
  in_jobRuntimeSamples := [];
  in_mountedAtMs := #0
|}.

Definition demo_groups : fields := [("HTTP 429 from upstream", VNum #2); ("Read timed out", VNum #1)].

Lemma errors_counted_once_witness :
  let i := demo_failures demo_groups [finished_task "failed" EmptyString #1 (Some "HTTP 429") None] in
  parsed429Count i = #2 /\ totalObserved (httpDistribution i) = #103.
Proof.
  intros i. assert (Hg : whole_groups (error_groups i)).
  { split; [|vm_compute; reflexivity]. intros g n Hg Hn. unfold i in Hg. simpl in Hg.
    apply elem_of_cons in Hg as [->|[->|[]%not_elem_of_nil]%elem_of_cons]; vm_compute in Hn; injection Hn as <-;
      [exists 2|exists 1]; split; (lia || (vm_compute; reflexivity)). }
  destruct (errors_counted_once i 100 Hg ltac:(vm_compute; reflexivity) eq_refl ltac:(lia) ltac:(vm_compute; reflexivity)) as (_ & H1 & H2).
  split; [rewrite H1; vm_compute; reflexivity|]. rewrite H2; [vm_compute; reflexivity|].
  intros _ k. destruct k; vm_compute; done.
Defined.

(** The two sources classify texts differently, so a failure can be counted
    twice: the one failure of a job, reported by the server and by its loaded
    task with the same text, is a rate limit in one and another error in the
    other, and the distribution counts two failures. *)
Theorem failure_counted_twice :
  let text := "Too Many Requests" in
  let i := demo_failures [(text, VNum #1)] [finished_task "failed" EmptyString #1 (Some text) None] in
  rateLimit429 (httpDistribution i) = #1 /\ otherErrors (httpDistribution i) = #1 /\
  totalObserved (httpDistribution i) = completedJobTasks i ⊕ #2.
Proof. split; [|split]; vm_compute; reflexivity. Qed.
