(* ===== verification/TelemetrySampling.v ===== *)
(** * The sampling of a job's counters
    ([features/jobs/lib/useJobDiagnosticsTelemetry.ts], lines 39-86 and 505-620)

    The part of the hook that keeps state between renders: the baseline of the
    last accepted backend observation (two refs) and the history of snapshots
    (a React state), with the effect that compares an observation with the
    baseline. One call of [sample] is one run of the effect; React may run it
    any number of times.

    The effect refines a small abstract machine that only keeps the accepted
    observations: what the page shows are the differences between consecutive
    ones. From that, the intervals shown are disjoint and in order, nothing is
    counted twice, and running the effect again changes nothing. *)

From Stdlib Require Import ZArith Lia SpecFloat.
From stdpp Require Import base list strings option sets.
From S2P Require Import Prelude JsString JsNum JsValue JsDate RuntimeTelemetry JobTypes RuntimeChart.
From S2P Require Import DiagnosticsTypes Diagnostics TelemetryInputs JsInt JsBounds JsOrder Samples.

Definition MAX_SNAPSHOTS : nat := 2048.

Record SampleBaseline := {
  base_timestamp : num;
  base_completed : num;
  base_items : num;
  base_itemsAreAuthoritative : bool;
  base_errors : num
}.

Definition EMPTY_BASELINE : SampleBaseline := {|
  base_timestamp := #0;
  base_completed := #0;
  base_items := #0;
  base_itemsAreAuthoritative := false;
  base_errors := #0
|}.

(** The refs and the state of one mounted hook. *)
Record Sampler := {
  samplingJobId : string;
  lastState : SampleBaseline;
  hasSampledTelemetry : bool;
  history_jobId : string;
  history_snapshots : list TelemetrySnapshot
}.

(** The state after the first render, for a job. *)
Definition mounted (jobId : string) : Sampler := {|
  samplingJobId := jobId;
  lastState := EMPTY_BASELINE;
  hasSampledTelemetry := false;
  history_jobId := jobId;
  history_snapshots := []
|}.

(** [snapshots]: history of another job is not shown. *)
Definition visible_snapshots (jobId : string) (s : Sampler) : list TelemetrySnapshot :=
  if history_jobId s =s jobId then history_snapshots s else [].

(** ** One observation *)

Definition sampledItemsNow (i : TelemetryInputs) : num :=
  if isCompleteSample i
  then foldl (fun total t => total ⊕ num_or (td_items_processed t) #0) #0 (in_tasks i)
  else completedJobTasks i.

Definition sampling_inputs `{E : Env} (i : TelemetryInputs) : TelemetrySamplingInputs := {|
  sampling_observedAt := observedAt i;
  sampling_completed := completedJobTasks i;
  sampling_items := sampledItemsNow i;
  sampling_itemsAreAuthoritative := isCompleteSample i;
  sampling_inflight := inflightJobTasks i;
  sampling_ready := readyJobTasks i;
  sampling_failed := failedJobTasks i;
  sampling_errors := totalJobErrors i;
  sampling_p50Latency := p50 (currentPercentiles i);
  sampling_p95Latency := p95 (currentPercentiles i);
  sampling_totalProxyCapacity := totalProxyCapacity i;
  sampling_isLiveJob := in_isLiveJob i
|}.

(** What [resetBaseline] stores. *)
Definition baseline_of (o : TelemetrySamplingInputs) : SampleBaseline := {|
  base_timestamp := sampling_observedAt o;
  base_completed := sampling_completed o;
  base_items := sampling_items o;
  base_itemsAreAuthoritative := sampling_itemsAreAuthoritative o;
  base_errors := sampling_errors o
|}.

(** An observation with a time. *)
Definition observed (o : TelemetrySamplingInputs) : bool :=
  negb ((sampling_observedAt o <=! #0) || negb (is_finite (sampling_observedAt o))).

(** [previous.timestamp > 0 && now <= previous.timestamp] *)
Definition stale (previous : SampleBaseline) (o : TelemetrySamplingInputs) : bool :=
  (base_timestamp previous >! #0) && (sampling_observedAt o <=! base_timestamp previous).

(** The counters cannot be subtracted: they are of another kind or went back. *)
Definition restarts (previous : SampleBaseline) (o : TelemetrySamplingInputs) : bool :=
  negb (Bool.eqb (sampling_itemsAreAuthoritative o) (base_itemsAreAuthoritative previous)) ||
  (sampling_completed o <! base_completed previous) || (sampling_items o <! base_items previous).

(** The literal [2.1]. *)
Definition default_latency : num := #21 ⊘ #10.

Section snapshot.
Variables (previous : SampleBaseline) (o : TelemetrySamplingInputs).

Definition elapsedSeconds : num := (sampling_observedAt o ⊖ base_timestamp previous) ⊘ #1000.

Definition per_second (delta : num) : num :=
  if elapsedSeconds >! #0 then delta ⊘ elapsedSeconds else #0.

Definition deltaCompleted : num := sampling_completed o ⊖ base_completed previous.
Definition deltaItems : num := sampling_items o ⊖ base_items previous.

Definition calculatedInflight : num :=
  if sampling_inflight o >! #0 then math_min (sampling_inflight o) (sampling_totalProxyCapacity o)
  else if negb (sampling_isLiveJob o) && (per_second deltaCompleted >! #0) then
    math_min (sampling_totalProxyCapacity o)
      (math_round (per_second deltaCompleted ⊗
        (if sampling_p50Latency o >! #0 then sampling_p50Latency o else default_latency)))
  else #0.

Definition new_snapshot : TelemetrySnapshot := {|
  snap_timestamp := sampling_observedAt o;
  snap_intervalStartTimestamp := base_timestamp previous;
  snap_completedDelta := deltaCompleted;
  snap_itemsDelta := deltaItems;
  snap_itemsAreAuthoritative := sampling_itemsAreAuthoritative o;
  snap_itemsProcessed := sampling_items o;
  snap_completedTasks := sampling_completed o;
  snap_inflightTasks := calculatedInflight;
  snap_readyTasks := sampling_ready o;
  snap_failedTasks := sampling_failed o;
  snap_throughputItemsPerSec := rounded 1 (per_second deltaItems);
  snap_throughputTasksPerSec := rounded 1 (per_second deltaCompleted);
  snap_p50Latency := sampling_p50Latency o;
  snap_p95Latency := sampling_p95Latency o;
  snap_activeProxies := math_min calculatedInflight (sampling_totalProxyCapacity o);
  snap_errorCount := sampling_errors o
|}.
End snapshot.

(** ** The effect *)

(** [xs.slice(-n)] for a positive [n]. *)
Definition last_n {A} (n : nat) (l : list A) : list A := drop (length l - n) l.

Definition switch_job (jobId : string) (s : Sampler) : Sampler :=
  if samplingJobId s =s jobId then s
  else {| samplingJobId := jobId;
          lastState := EMPTY_BASELINE;
          hasSampledTelemetry := false;
          history_jobId := history_jobId s;
          history_snapshots := history_snapshots s |}.

Definition reset_baseline (o : TelemetrySamplingInputs) (s : Sampler) : Sampler := {|
  samplingJobId := samplingJobId s;
  lastState := baseline_of o;
  hasSampledTelemetry := true;
  history_jobId := history_jobId s;
  history_snapshots := history_snapshots s
|}.

Definition push_snapshot (jobId : string) (x : TelemetrySnapshot) (s : Sampler) : Sampler := {|
  samplingJobId := samplingJobId s;
  lastState := lastState s;
  hasSampledTelemetry := hasSampledTelemetry s;
  history_jobId := jobId;
  history_snapshots := last_n MAX_SNAPSHOTS (visible_snapshots jobId s ++ [x])
|}.

(** The effect on the inputs it reads: the job shown, the job the details are
    of, and the observation. *)
Definition observe (jobId : string) (detailsJobId : option string) (o : TelemetrySamplingInputs) (s0 : Sampler) : Sampler :=
  let s := switch_job jobId s0 in
  if negb (observed o) then s
  else if negb (opt_eqb detailsJobId jobId) then s
  else if stale (lastState s) o then s
  else if negb (hasSampledTelemetry s) || restarts (lastState s) o then reset_baseline o s
  else reset_baseline o (push_snapshot jobId (new_snapshot (lastState s) o) s).

Section effect.
Context {E : Env}.

Definition sample (i : TelemetryInputs) : Sampler -> Sampler :=
  observe (job_id (in_job i)) (job_id <$> in_details i) (sampling_inputs i).

(** The effect over a list of renders, oldest first. *)
Definition sample_all (renders : list TelemetryInputs) (s : Sampler) : Sampler :=
  foldl (fun s i => sample i s) s renders.
End effect.

(** * What the sampling of a job's counters promises *)

(** ** The abstract machine *)

Module Abstract.

(** Observations that passed the guards, oldest first. *)
Notation state := (list TelemetrySamplingInputs) (only parsing).

(** Later than the last accepted one. *)
Definition later (o : TelemetrySamplingInputs) (acc : state) : bool :=
  match list.last acc with
  | Some o' => negb (sampling_observedAt o <=! sampling_observedAt o')
  | None => true
  end.

Definition step (acc : state) (o : TelemetrySamplingInputs) : state :=
  if observed o && later o acc then acc ++ [o] else acc.

Definition run (os : list TelemetrySamplingInputs) : state := foldl step [] os.

(** The difference of two consecutive observations, unless the counters were
    restarted between them. *)
Definition difference (o o' : TelemetrySamplingInputs) : list TelemetrySnapshot :=
  if restarts (baseline_of o) o' then [] else [new_snapshot (baseline_of o) o'].

Fixpoint differences (acc : state) : list TelemetrySnapshot :=
  match acc with
  | o :: rest => match rest with o' :: _ => difference o o' | [] => [] end ++ differences rest
  | [] => []
  end.
End Abstract.

(** ** Lists *)

Lemma last_n_short {A} n (l : list A) : (length l <= n)%nat -> last_n n l = l.
Proof. intros H. unfold last_n. by replace (length l - n)%nat with O by lia. Qed.

Lemma length_last_n {A} n (l : list A) : (length (last_n n l) <= n)%nat.
Proof. unfold last_n. rewrite length_drop. lia. Qed.

Lemma last_n_app {A} n (l l' : list A) : last_n n (last_n n l ++ l') = last_n n (l ++ l').
Proof.
  unfold last_n. rewrite !length_app, length_drop.
  destruct (decide (length l <= n)%nat) as [H|H]; [by replace (length l - n)%nat with O by lia; rewrite Nat.sub_0_r|].
  rewrite <- (drop_app_le l l' (length l - n)) by lia. rewrite drop_drop. f_equal. lia.
Qed.

Lemma differences_snoc acc o' o :
  Abstract.differences (acc ++ [o'; o]) = Abstract.differences (acc ++ [o']) ++ Abstract.difference o' o.
Proof.
  induction acc as [|a acc IH]; [simpl; by rewrite app_nil_r|].
  cbn [app Abstract.differences]. rewrite IH, app_assoc. do 2 f_equal. by destruct acc.
Qed.

(** ** The simulation *)

Lemma observed_spec o : observed o = true <->
  is_finite (sampling_observedAt o) = true /\ (sampling_observedAt o >! #0) = true.
Proof.
  unfold observed. rewrite negb_true_iff, orb_false_iff, negb_false_iff.
  destruct (sampling_observedAt o) as [[]|[]| |[] m e]; split; intros [? ?]; done.
Qed.

(** The hook's state against the accepted observations of the job it shows;
    [old] is what the job showed before. *)
Record simulates (j : string) (old : list TelemetrySnapshot) (s : Sampler) (acc : Abstract.state) : Prop := {
  sim_job : samplingJobId s = j;
  sim_none : acc = [] -> hasSampledTelemetry s = false /\ lastState s = EMPTY_BASELINE;
  sim_last : forall o, list.last acc = Some o ->
    hasSampledTelemetry s = true /\ lastState s = baseline_of o /\ observed o = true;
  sim_shown : visible_snapshots j s = last_n MAX_SNAPSHOTS (old ++ Abstract.differences acc)
}.

Lemma stale_later j old s acc o : simulates j old s acc -> stale (lastState s) o = negb (Abstract.later o acc).
Proof.
  intros [_ Hn Hl _]. unfold Abstract.later, stale. destruct (list.last acc) as [o'|] eqn:E.
  - destruct (Hl o' eq_refl) as (_ & -> & Ho). apply observed_spec in Ho as [_ Ho]. simpl.
    by rewrite Ho, negb_involutive.
  - apply last_None in E. by rewrite (proj2 (Hn E)).
Qed.

Lemma visible_push j x s : visible_snapshots j (push_snapshot j x s) = last_n MAX_SNAPSHOTS (visible_snapshots j s ++ [x]).
Proof. unfold visible_snapshots at 1. simpl. by rewrite str_eqb_refl. Qed.

Lemma simulates_reset j old acc o shown :
  observed o = true ->
  visible_snapshots j shown = last_n MAX_SNAPSHOTS (old ++ Abstract.differences (acc ++ [o])) ->
  samplingJobId shown = j -> simulates j old (reset_baseline o shown) (acc ++ [o]).
Proof.
  intros Ho Hv Hj. split; [done| | |exact Hv].
  - by destruct acc.
  - intros o' H. rewrite last_snoc in H. by injection H as <-.
Qed.

Lemma observe_simulates j old s acc d o :
  simulates j old s acc ->
  simulates j old (observe j d o s) (if opt_eqb d j then Abstract.step acc o else acc).
Proof.
  intros Hs. pose proof (sim_job _ _ _ _ Hs) as Hj. unfold observe, switch_job.
  rewrite Hj, str_eqb_refl. destruct (observed o) eqn:Ho; simpl.
  2: { unfold Abstract.step. rewrite Ho. by destruct (opt_eqb d j). }
  destruct (opt_eqb d j); simpl; [|exact Hs]. unfold Abstract.step. rewrite Ho, (stale_later _ _ _ _ _ Hs). simpl.
  destruct (Abstract.later o acc); simpl; [|exact Hs].
  destruct (decide (acc = [])) as [->|Hne].
  { destruct (sim_none _ _ _ _ Hs eq_refl) as [-> _]. simpl.
    apply (simulates_reset _ _ []); [done| |done]. apply (sim_shown _ _ _ _ Hs). }
  destruct (exists_last Hne) as (acc' & o' & ->).
  assert (Hlast : list.last (acc' ++ [o']) = Some o') by apply last_snoc.
  destruct (sim_last _ _ _ _ Hs o' Hlast) as (-> & Hb & _). rewrite Hb. simpl.
  assert (Hd : Abstract.differences ((acc' ++ [o']) ++ [o]) = Abstract.differences (acc' ++ [o']) ++ Abstract.difference o' o).
  { rewrite <- app_assoc. apply differences_snoc. }
  unfold Abstract.difference in Hd. destruct (restarts (baseline_of o') o); (apply simulates_reset; [exact Ho| |exact Hj]); rewrite Hd.
  - rewrite app_nil_r. apply (sim_shown _ _ _ _ Hs).
  - rewrite visible_push, (sim_shown _ _ _ _ Hs), last_n_app, app_assoc. done.
Qed.

(** The hook begins to show job [j]: it is mounted for it, or showed another. *)
Definition begins (j : string) (s : Sampler) : Prop := s = mounted j \/ samplingJobId s <> j.

Lemma simulates_begin j s : begins j s ->
  (length (visible_snapshots j s) <= MAX_SNAPSHOTS)%nat -> simulates j (visible_snapshots j s) (switch_job j s) [].
Proof.
  intros Hb Hlen. unfold switch_job.
  assert (Hv : visible_snapshots j s = last_n MAX_SNAPSHOTS (visible_snapshots j s ++ Abstract.differences [])).
  { simpl. by rewrite app_nil_r, last_n_short. }
  destruct (samplingJobId s =s j) eqn:E; bool_simpl.
  - destruct Hb as [->|]; [|done]. split; try done.
  - split; try done.
Qed.

(** ** Refinement *)

(** Histories stay bounded, whatever the renders. *)
Inductive reachable `{E : Env} : Sampler -> Prop :=
| reach_mounted j : reachable (mounted j)
| reach_sample i s : reachable s -> reachable (sample i s).

Lemma switch_history j s : history_snapshots (switch_job j s) = history_snapshots s /\ history_jobId (switch_job j s) = history_jobId s.
Proof. unfold switch_job. by destruct (_ =s _). Qed.

Lemma reachable_bounded `{E : Env} s : reachable s -> (length (history_snapshots s) <= MAX_SNAPSHOTS)%nat.
Proof.
  induction 1 as [|i s _ IH]; [simpl; unfold MAX_SNAPSHOTS; lia|].
  unfold sample, observe. destruct (switch_history (job_id (in_job i)) s) as [Hh _].
  repeat case_match; simpl; rewrite ?Hh; try done. apply length_last_n.
Qed.

Lemma visible_bounded `{E : Env} j s : reachable s -> (length (visible_snapshots j s) <= MAX_SNAPSHOTS)%nat.
Proof.
  intros Hr. unfold visible_snapshots. destruct (_ =s _); [by apply reachable_bounded|simpl; unfold MAX_SNAPSHOTS; lia].
Qed.

Lemma visible_mounted j : visible_snapshots j (mounted j) = [].
Proof. unfold visible_snapshots. simpl. by destruct (_ =s _). Qed.

(** The observations among the renders that are of job [j]. *)
Definition observations `{E : Env} (j : string) (renders : list TelemetryInputs) : list TelemetrySamplingInputs :=
  map sampling_inputs (keep (fun i => opt_eqb (job_id <$> in_details i) j) renders).

Definition shows (j : string) (i : TelemetryInputs) : Prop := job_id (in_job i) = j.

Lemma simulates_run `{E : Env} j old renders : forall s acc,
  Forall (shows j) renders -> simulates j old s acc ->
  simulates j old (sample_all renders s) (foldl Abstract.step acc (observations j renders)).
Proof.
  unfold sample_all, observations. induction renders as [|i rest IH]; intros s acc Hj Hs; [exact Hs|].
  apply Forall_cons in Hj as [Hi Hj]. simpl.
  pose proof (observe_simulates j old s acc (job_id <$> in_details i) (sampling_inputs i) Hs) as H1.
  unfold sample at 2. rewrite Hi. destruct (opt_eqb (job_id <$> in_details i) j); apply IH; done.
Qed.

Lemma switch_idle j d o s : observe j d o s = observe j d o (switch_job j s).
Proof.
  unfold observe. f_equal. unfold switch_job. destruct (samplingJobId s =s j) eqn:Hj; simpl; [by rewrite Hj|].
  by rewrite str_eqb_refl.
Qed.

(** The history shown after a period in which one job is on the page. *)
Lemma shown_after `{E : Env} j s renders :
  reachable s -> begins j s -> Forall (shows j) renders ->
  visible_snapshots j (sample_all renders s) =
  last_n MAX_SNAPSHOTS (visible_snapshots j s ++ Abstract.differences (Abstract.run (observations j renders))).
Proof.
  intros Hr Hb Hj. pose proof (visible_bounded j s Hr) as Hlen. pose proof (simulates_begin j s Hb Hlen) as Hs.
  destruct renders as [|i rest].
  { simpl. by rewrite app_nil_r, last_n_short. }
  unfold sample_all, Abstract.run in *. pose proof (simulates_run j _ (i :: rest) _ [] Hj Hs) as H1. unfold sample_all in H1. simpl in H1.
  apply Forall_cons in Hj as [Hi _]. unfold shows in Hi. simpl. unfold sample at 2. rewrite switch_idle. unfold sample at 2 in H1. rewrite Hi in *. apply H1.
Qed.

(** C3. The effect refines the machine that only keeps observations: from the
    render at which a job appears on the page on, whatever was shown before and
    however often the effect runs, the snapshots shown are the last 2048 of the
    ones already recorded for that job followed by the differences between
    consecutive accepted observations of it; an observation without a time, of
    another job's details, or not later than the last accepted one leaves no
    trace. *)
Theorem sampler_refines `{E : Env} j s renders :
  reachable s -> begins j s -> Forall (shows j) renders ->
  visible_snapshots j (sample_all renders s) =
  last_n MAX_SNAPSHOTS (visible_snapshots j s ++ Abstract.differences (Abstract.run (observations j renders))).
Proof. apply shown_after. Qed.

(** A poll of job [j1], of 1000 tasks, that counts [completed] at time [t]. *)
Definition demo_poll (t completed : Z) : TelemetryInputs := {|
  in_job := demo_job "running" [];
  in_details := Some (with_stats (demo_job "running" []) (demo_stats 1000 8 completed 0) "2024-01-01T00:00:00Z" EmptyString);
  in_tasks := [];
  in_proxies := Some [];
  in_isLiveJob := true;
  in_workerPoolSize := #32;
  in_taskStatsObservedAtMs := Some #t;
  in_jobRuntimeSamples := [];
  in_mountedAtMs := #0
|}.

(** The second poll is rendered twice; the counter falls back at the fourth. *)
Definition demo_polls : list TelemetryInputs :=
  [demo_poll 1000 10; demo_poll 3000 50; demo_poll 3000 50; demo_poll 5000 60; demo_poll 7000 0; demo_poll 9000 30].

Lemma demo_polls_shown : Forall (shows "j1") demo_polls.
Proof. repeat constructor. Qed.

Lemma sampler_refines_witness :
  let shown := visible_snapshots "j1" (sample_all (E := utc_env) demo_polls (mounted "j1")) in
  shown = Abstract.differences (Abstract.run (observations (E := utc_env) "j1" demo_polls)) /\
  map (fun x => (snap_intervalStartTimestamp x, snap_timestamp x, snap_completedDelta x, snap_throughputTasksPerSec x)) shown =
  [(#1000, #3000, #40, #20); (#3000, #5000, #10, #5); (#7000, #9000, #30, #15)].
Proof.
  split; [|vm_compute; reflexivity].
  rewrite (sampler_refines (E := utc_env) "j1" (mounted "j1") demo_polls (reach_mounted "j1") (or_introl eq_refl) demo_polls_shown).
  vm_compute. reflexivity.
Defined.

(** ** Intervals *)

(** Snapshots in order from time [t] on, each over a time of its own. *)
Fixpoint chained (t : num) (l : list TelemetrySnapshot) : Prop :=
  match l with
  | [] => True
  | x :: rest =>
      (t <=! snap_intervalStartTimestamp x) = true /\ (snap_intervalStartTimestamp x <! snap_timestamp x) = true /\
      chained (snap_timestamp x) rest
  end.

(** Observations with a time, each later than the one before. *)
Definition in_order (acc : Abstract.state) : Prop :=
  Forall (fun o => observed o = true) acc /\
  forall k a b, acc !! k = Some a -> acc !! S k = Some b -> (sampling_observedAt a <! sampling_observedAt b) = true.

Lemma observed_real o : observed o = true -> real (sampling_observedAt o).
Proof. intros [H _]%observed_spec. by destruct (sampling_observedAt o). Qed.

Lemma later_than a o : observed a = true -> observed o = true ->
  (sampling_observedAt o <=! sampling_observedAt a) = false -> (sampling_observedAt a <! sampling_observedAt o) = true.
Proof.
  intros Ha%observed_real Ho%observed_real. unfold num_leb, num_ltb. rewrite cmp_swap.
  destruct (cmp_real _ _ Ha Ho) as [c ->]. by destruct c.
Qed.

Lemma in_order_step acc o : in_order acc -> in_order (Abstract.step acc o).
Proof.
  intros [Ho Hlt]. unfold Abstract.step. destruct (observed o) eqn:E, (Abstract.later o acc) eqn:El; try done. simpl.
  split; [apply Forall_app; repeat constructor; done|].
  intros k a b Ha Hb. apply lookup_snoc_Some in Hb as [[Hk Hb]|[Hk <-]].
  - apply (Hlt k); [|done]. rewrite lookup_app_l in Ha by lia. done.
  - rewrite lookup_app_l in Ha by lia. unfold Abstract.later in El.
    assert (Hlast : list.last acc = Some a) by (rewrite last_lookup, <- Hk; done).
    rewrite Hlast in El. apply negb_true_iff in El. apply later_than; try done.
    rewrite Forall_forall in Ho. apply Ho. by apply (list_elem_of_lookup_2 _ k).
Qed.

Lemma run_in_order os : in_order (Abstract.run os).
Proof.
  unfold Abstract.run. assert (H : in_order []) by by split; [constructor|intros []].
  revert H. generalize (@nil TelemetrySamplingInputs). induction os as [|o os IH]; intros acc H; [done|].
  apply IH, in_order_step, H.
Qed.

Lemma in_order_tail o acc : in_order (o :: acc) -> in_order acc.
Proof. intros [H1 H2]. apply Forall_cons in H1 as [_ H1]. split; [done|]. intros k. apply (H2 (S k)). Qed.

Lemma chained_weaken t t' l : (t <=! t') = true -> chained t' l -> chained t l.
Proof.
  intros Ht. destruct l as [|x l]; [done|]. intros (H1 & H2 & H3). split; [|done].
  apply num_leb_real in Ht as Hr. apply num_leb_real in H1 as Hr'. apply (num_leb_trans _ t'); tauto.
Qed.

Lemma differences_chained rest : forall o,
  in_order (o :: rest) -> chained (sampling_observedAt o) (Abstract.differences (o :: rest)).
Proof.
  induction rest as [|o' rest IH]; intros o H; [done|].
  pose proof (IH o' (in_order_tail _ _ H)) as Hc. destruct H as [_ Hlt]. specialize (Hlt O o o' eq_refl eq_refl).
  change (Abstract.differences (o :: o' :: rest)) with (Abstract.difference o o' ++ Abstract.differences (o' :: rest)).
  unfold Abstract.difference. destruct (restarts _ _).
  - apply (chained_weaken _ (sampling_observedAt o')); [by apply num_ltb_leb|done].
  - apply num_ltb_real in Hlt as Hr. split; [apply num_leb_refl; tauto|]. split; done.
Qed.

Lemma chained_lookup l : forall t, chained t l ->
  (forall i x, l !! i = Some x -> (snap_intervalStartTimestamp x <! snap_timestamp x) = true) /\
  (forall i x y, l !! i = Some x -> l !! S i = Some y -> (snap_timestamp x <=! snap_intervalStartTimestamp y) = true).
Proof.
  induction l as [|x l IH]; intros t H; [split; intros []; done|].
  destruct H as (_ & H2 & H3). destruct (IH _ H3) as [I1 I2]. split.
  - intros [|i] z Hz; [by injection Hz as <-|by apply (I1 i)].
  - intros [|i] z y Hz Hy; [|by apply (I2 i)]. injection Hz as <-.
    destruct l as [|w l]; [done|]. injection Hy as <-. apply H3.
Qed.

(** The counters of an observation are numbers. *)
Definition counted (o : TelemetrySamplingInputs) : Prop :=
  double (sampling_completed o) /\ is_finite (sampling_completed o) = true /\
  double (sampling_items o) /\ is_finite (sampling_items o) = true.

Lemma differences_nneg acc : Forall counted acc ->
  Forall (fun x => nneg (snap_completedDelta x) /\ nneg (snap_itemsDelta x)) (Abstract.differences acc).
Proof.
  induction acc as [|o acc IH]; intros H; [constructor|]. apply Forall_cons in H as [Ho H]. simpl.
  apply Forall_app. split; [|by apply IH]. destruct acc as [|o' acc]; [constructor|].
  apply Forall_cons in H as [Ho' _]. unfold Abstract.difference.
  destruct (restarts _ _) eqn:E; [constructor|]. unfold restarts in E. bool_simpl.
  destruct Ho as (? & ? & ? & ?), Ho' as (? & ? & ? & ?). repeat constructor; apply sub_nneg; done.
Qed.

Lemma run_subset os o : o ∈ Abstract.run os -> o ∈ os.
Proof.
  unfold Abstract.run. assert (H : o ∈ foldl Abstract.step [] os -> o ∈ (@nil TelemetrySamplingInputs) \/ o ∈ os); [|set_solver].
  generalize (@nil TelemetrySamplingInputs). induction os as [|a os IH]; intros acc; [by left|].
  simpl. intros [H|H]%IH; [|set_solver]. unfold Abstract.step in H. destruct (_ && _); set_solver.
Qed.

(** What the chart of a live job is drawn from: at most 2048 snapshots, each
    over an interval of positive length, each interval beginning no earlier than
    the one before ended, and none counting a negative number of tasks or items
    -- although the observations arrive repeated, out of order, for other jobs,
    and with counters that fall back. *)
Theorem sampled_intervals `{E : Env} j renders :
  Forall (shows j) renders -> Forall counted (observations j renders) ->
  let shown := visible_snapshots j (sample_all renders (mounted j)) in
  (length shown <= MAX_SNAPSHOTS)%nat /\
  (forall i x, shown !! i = Some x -> (snap_intervalStartTimestamp x <! snap_timestamp x) = true) /\
  (forall i x y, shown !! i = Some x -> shown !! S i = Some y ->
     (snap_timestamp x <=! snap_intervalStartTimestamp y) = true) /\
  (forall x, x ∈ shown -> nneg (snap_completedDelta x) /\ nneg (snap_itemsDelta x)).
Proof.
  intros Hj Hc shown.
  assert (Hs : shown = last_n MAX_SNAPSHOTS (Abstract.differences (Abstract.run (observations j renders)))).
  { unfold shown. rewrite shown_after, visible_mounted; [done|constructor|by left|done]. }
  pose proof (run_in_order (observations j renders)) as Ho.
  assert (Hn : Forall counted (Abstract.run (observations j renders))).
  { apply Forall_forall. intros o Hin%run_subset. rewrite Forall_forall in Hc. auto. }
  apply differences_nneg in Hn. rewrite Hs. split; [apply length_last_n|].
  destruct (Abstract.run (observations j renders)) as [|o rest]; [split; [intros []; done|split; [intros []; done|set_solver]]|].
  destruct (chained_lookup _ _ (differences_chained rest o Ho)) as [H1 H2]. unfold last_n. split; [|split].
  - intros i x. rewrite lookup_drop. apply H1.
  - intros i x y. rewrite !lookup_drop, Nat.add_succ_r. apply H2.
  - intros x Hx. rewrite Forall_forall in Hn. apply Hn. rewrite list_elem_of_lookup in Hx |- *.
    destruct Hx as [i Hi]. rewrite lookup_drop in Hi. eauto.
Qed.

Lemma sampled_intervals_witness :
  let shown := visible_snapshots "j1" (sample_all (E := utc_env) demo_polls (mounted "j1")) in
  exists x y, shown !! 1%nat = Some x /\ shown !! 2%nat = Some y /\
    snap_timestamp x = #5000 /\ snap_intervalStartTimestamp y = #7000 /\
    (snap_timestamp x <=! snap_intervalStartTimestamp y) = true.
Proof.
  eexists _, _. split; [vm_compute; reflexivity|]. split; [vm_compute; reflexivity|].
  split; [vm_compute; reflexivity|]. split; [vm_compute; reflexivity|].
  refine (proj1 (proj2 (proj2 (sampled_intervals (E := utc_env) "j1" demo_polls demo_polls_shown _))) 1%nat _ _ _ _).
  - repeat constructor.
  - vm_compute; reflexivity.
  - vm_compute; reflexivity.
Defined.

(** ** Conservation *)

(** The counters of an observation, when they are whole. *)
Definition whole (o : TelemetrySamplingInputs) : Prop :=
  exists c n, sampling_completed o = #c /\ sampling_items o = #n /\ 0 <= c < 2 ^ 53 /\ 0 <= n < 2 ^ 53.

(** The pairs of consecutive observations across which the counters were
    restarted, and what a counter [f] changed by across them. *)
Fixpoint restarted (f : TelemetrySamplingInputs -> Z) (acc : Abstract.state) : Z :=
  match acc with
  | o :: rest =>
      match rest with
      | o' :: _ => if restarts (baseline_of o) o' then f o' - f o else 0
      | [] => 0
      end + restarted f rest
  | [] => 0
  end.

Fixpoint restart_count (acc : Abstract.state) : nat :=
  match acc with
  | o :: rest =>
      (match rest with o' :: _ => if restarts (baseline_of o) o' then 1 else 0 | [] => 0 end + restart_count rest)%nat
  | [] => O
  end.

Definition completed_of (o : TelemetrySamplingInputs) : Z := num_to_Z (sampling_completed o).
Definition items_of (o : TelemetrySamplingInputs) : Z := num_to_Z (sampling_items o).

Definition completed_shown (l : list TelemetrySnapshot) : Z := sum_by (fun x => num_to_Z (snap_completedDelta x)) l.
Definition items_shown (l : list TelemetrySnapshot) : Z := sum_by (fun x => num_to_Z (snap_itemsDelta x)) l.

Lemma whole_delta a b : (0 <= a < 2 ^ 53) -> (0 <= b < 2 ^ 53) -> num_to_Z (#b ⊖ #a) = b - a.
Proof. intros. rewrite sub_int, num_to_Z_int by (unfold safe; lia). done. Qed.

Lemma whole_deltas o o' : whole o -> whole o' ->
  num_to_Z (deltaCompleted (baseline_of o) o') = completed_of o' - completed_of o /\
  num_to_Z (deltaItems (baseline_of o) o') = items_of o' - items_of o.
Proof.
  unfold deltaCompleted, deltaItems, completed_of, items_of. simpl.
  intros (c & n & -> & -> & ? & ?) (c' & n' & -> & -> & ? & ?).
  rewrite !whole_delta, !num_to_Z_int by (done || unfold safe; lia). done.
Qed.

Lemma differences_conserve rest : forall o lst,
  Forall whole (o :: rest) -> list.last (o :: rest) = Some lst ->
  completed_shown (Abstract.differences (o :: rest)) + restarted completed_of (o :: rest) = completed_of lst - completed_of o /\
  items_shown (Abstract.differences (o :: rest)) + restarted items_of (o :: rest) = items_of lst - items_of o /\
  (length (Abstract.differences (o :: rest)) + restart_count (o :: rest) = length rest)%nat.
Proof.
  induction rest as [|o' rest IH]; intros o lst Hw Hl.
  { injection Hl as <-. unfold completed_shown, items_shown. simpl. split; [lia|]. split; [lia|done]. }
  apply Forall_cons in Hw as [Ho Hw]. pose proof Hw as Hw'. apply Forall_cons in Hw' as [Ho' _].
  destruct (IH o' lst Hw Hl) as (I1 & I2 & I3).
  change (Abstract.differences (o :: o' :: rest)) with (Abstract.difference o o' ++ Abstract.differences (o' :: rest)).
  change (restarted ?f (o :: o' :: rest))
    with ((if restarts (baseline_of o) o' then f o' - f o else 0) + restarted f (o' :: rest)).
  change (restart_count (o :: o' :: rest))
    with ((if restarts (baseline_of o) o' then 1 else 0) + restart_count (o' :: rest))%nat.
  destruct (whole_deltas _ _ Ho Ho') as [D1 D2].
  set (ds := Abstract.differences (o' :: rest)) in *. set (rc := restart_count (o' :: rest)) in *.
  set (r1 := restarted completed_of (o' :: rest)) in *. set (r2 := restarted items_of (o' :: rest)) in *.
  clearbody ds rc r1 r2.
  unfold Abstract.difference, completed_shown, items_shown in *. rewrite !sum_by_app, length_app.
  destruct (restarts (baseline_of o) o'); simpl; rewrite ?D1, ?D2; lia.
Qed.

(** The snapshots that are kept are those of the last observations. *)
Lemma last_differences n acc : (n <= length (Abstract.differences acc))%nat -> acc <> [] ->
  exists before first rest, acc = before ++ first :: rest /\
    Abstract.differences (first :: rest) = last_n n (Abstract.differences acc).
Proof.
  induction acc as [|o rest IH]; intros Hn Hne; [done|].
  destruct (decide (n <= length (Abstract.differences rest) /\ rest <> [])%nat) as [[H Hr]|H].
  - destruct (IH H Hr) as (before & first & tl & -> & E). exists (o :: before), first, tl. split; [done|].
    rewrite E. cbn [Abstract.differences]. set (d := match _ with [] => [] | _ => _ end). clearbody d.
    unfold last_n. rewrite length_app, drop_app.
    replace (drop _ d) with (@nil TelemetrySnapshot) by (symmetry; apply drop_ge; lia). simpl. f_equal. lia.
  - exists [], o, rest. split; [done|]. symmetry. apply last_n_short.
    destruct rest as [|o' rest]; [simpl; lia|].
    change (Abstract.differences (o :: o' :: rest)) with (Abstract.difference o o' ++ Abstract.differences (o' :: rest)).
    rewrite length_app. set (k := length (Abstract.differences (o' :: rest))) in *. clearbody k.
    assert (~ (n <= k)%nat) by (intros Hk; apply H; done).
    unfold Abstract.difference. destruct (restarts _ _); simpl; lia.
Qed.

(** C4. No work is lost or counted twice. The snapshots shown of a job cover its
    last accepted observations: all of them until 2048 snapshots are shown, and
    then as many as have 2048. Over these the tasks and the items of the
    snapshots, with what the counters changed by where they were restarted (one
    fell back, or items began to be counted otherwise: no snapshot is taken
    there), add up to what the last of them counts more than the first, however
    many polls were repeated, late or of other jobs. The counters are whole
    numbers. *)
Theorem sampled_work_conserved `{E : Env} j renders :
  Forall (shows j) renders -> Forall whole (Abstract.run (observations j renders)) ->
  Abstract.run (observations j renders) <> [] ->
  let shown := visible_snapshots j (sample_all renders (mounted j)) in
  exists before first rest lst,
    Abstract.run (observations j renders) = before ++ first :: rest /\ list.last (first :: rest) = Some lst /\
    (before = [] \/ length shown = MAX_SNAPSHOTS) /\
    completed_shown shown + restarted completed_of (first :: rest) = completed_of lst - completed_of first /\
    items_shown shown + restarted items_of (first :: rest) = items_of lst - items_of first /\
    (length shown + restart_count (first :: rest) = length rest)%nat.
Proof.
  intros Hj Hw Hne shown. unfold shown. rewrite shown_after, visible_mounted; [cbn [app]|constructor|by left|done].
  set (acc := Abstract.run _) in *. clearbody acc.
  assert (exists before first rest, acc = before ++ first :: rest /\
    Abstract.differences (first :: rest) = last_n MAX_SNAPSHOTS (Abstract.differences acc) /\
    (before = [] \/ length (last_n MAX_SNAPSHOTS (Abstract.differences acc)) = MAX_SNAPSHOTS)) as (before & first & rest & -> & Ed & Hb).
  { destruct (decide (length (Abstract.differences acc) <= MAX_SNAPSHOTS)%nat) as [H|H].
    - destruct acc as [|o rest]; [done|]. exists [], o, rest. rewrite last_n_short by done. auto.
    - destruct (last_differences MAX_SNAPSHOTS acc ltac:(lia) Hne) as (b & f & r & -> & Ed). exists b, f, r.
      split; [done|]. split; [done|]. right. unfold last_n. rewrite length_drop. lia. }
  destruct (last_is_Some (first :: rest)) as [_ [lst Hl]]; [done|].
  exists before, first, rest, lst. split; [done|]. split; [done|]. split; [exact Hb|]. rewrite <- Ed.
  apply differences_conserve; [|done]. by apply Forall_app in Hw as [_ Hw].
Qed.

(** A counter that starts again: its fall, from 60 to 5, is no work. *)
Lemma sampled_work_conserved_witness :
  let polls := [demo_poll 1000 10; demo_poll 3000 50; demo_poll 3000 50; demo_poll 2000 20; demo_poll 5000 60;
                demo_poll 7000 5; demo_poll 9000 9] in
  completed_shown (visible_snapshots "j1" (sample_all (E := utc_env) polls (mounted "j1"))) = 54.
Proof.
  intros polls. set (s := fun t c => sampling_inputs (E := utc_env) (demo_poll t c)).
  assert (Hrun : Abstract.run (observations (E := utc_env) "j1" polls) = [s 1000 10; s 3000 50; s 5000 60; s 7000 5; s 9000 9])
    by (vm_compute; reflexivity).
  assert (Hw : forall t c, 0 <= c < 2 ^ 53 -> whole (s t c)) by (intros t c Hc; exists c, c; done).
  destruct (sampled_work_conserved (E := utc_env) "j1" polls
    ltac:(repeat constructor) ltac:(rewrite Hrun; repeat constructor; apply Hw; lia) ltac:(by rewrite Hrun))
    as (before & first & rest & lst & Hacc & Hl & Hb & Hc & _ & _).
  assert (before = []) as -> by (destruct Hb as [|Hb]; [done|vm_compute in Hb; discriminate Hb]).
  rewrite Hrun in Hacc. injection Hacc as <- <-. injection Hl as <-. revert Hc. vm_compute. lia.
Defined.

(** ** Running the effect again *)

Lemma switch_job_id j s : samplingJobId (switch_job j s) = j.
Proof. unfold switch_job. destruct (_ =s _) eqn:E; bool_simpl; done. Qed.

Lemma switch_same j s : samplingJobId s = j -> switch_job j s = s.
Proof. intros <-. unfold switch_job. by rewrite str_eqb_refl. Qed.

Lemma accepted_stale o : observed o = true -> stale (baseline_of o) o = true.
Proof.
  intros H. pose proof (observed_real o H). apply observed_spec in H as [_ H]. unfold stale. simpl.
  rewrite H. by apply num_leb_refl.
Qed.

(** The effect is idempotent: run again on the observation it has just seen
    (React repeats effects, and other inputs of the hook change), it changes
    nothing. *)
Theorem sample_idempotent `{E : Env} i s : sample i (sample i s) = sample i s.
Proof.
  unfold sample. generalize (job_id (in_job i)) (job_id <$> in_details i) (sampling_inputs i). intros j d o.
  unfold observe at 2 3. pose proof (switch_job_id j s) as Hj. generalize dependent (switch_job j s). intros t Hj.
  unfold observe. destruct (observed o) eqn:Ho; simpl; [|by rewrite switch_same].
  destruct (opt_eqb d j) eqn:Hd; simpl; [|by rewrite switch_same].
  destruct (stale (lastState t) o) eqn:Es; simpl; [by rewrite (switch_same j t), Es|].
  destruct (_ || _) eqn:Er; rewrite switch_same by done; simpl; by rewrite accepted_stale.
Qed.

(** ** Well-formed states *)

(** A snapshot's interval has a positive start and a later end, both finite. *)
Definition interval_ok (x : TelemetrySnapshot) : Prop :=
  (snap_intervalStartTimestamp x >! #0) = true /\ (snap_intervalStartTimestamp x <! snap_timestamp x) = true /\
  is_finite (snap_intervalStartTimestamp x) = true /\ is_finite (snap_timestamp x) = true.

(** The states the refs and the history can take. *)
Record well_formed (s : Sampler) : Prop := {
  wf_unsampled : hasSampledTelemetry s = false -> lastState s = EMPTY_BASELINE;
  wf_sampled : hasSampledTelemetry s = true ->
    is_finite (base_timestamp (lastState s)) = true /\ (base_timestamp (lastState s) >! #0) = true;
  wf_bounded : (length (history_snapshots s) <= MAX_SNAPSHOTS)%nat;
  wf_intervals : Forall interval_ok (history_snapshots s)
}.

Lemma well_formed_switch j s : well_formed s -> well_formed (switch_job j s).
Proof. intros [H1 H2 H3 H4]. unfold switch_job. destruct (_ =s _); by split. Qed.

Lemma well_formed_reset o s : observed o = true ->
  (length (history_snapshots s) <= MAX_SNAPSHOTS)%nat -> Forall interval_ok (history_snapshots s) ->
  well_formed (reset_baseline o s).
Proof. intros Ho%observed_spec Hl Hi. by split. Qed.

Lemma visible_ok j s : well_formed s -> Forall interval_ok (visible_snapshots j s).
Proof. intros H. unfold visible_snapshots. destruct (_ =s _); [apply wf_intervals, H|constructor]. Qed.

Lemma Forall_last_n {A} (P : A -> Prop) n l : Forall P l -> Forall P (last_n n l).
Proof. apply Forall_drop. Qed.

Lemma new_interval_ok s o : well_formed s -> hasSampledTelemetry s = true -> observed o = true ->
  stale (lastState s) o = false -> interval_ok (new_snapshot (lastState s) o).
Proof.
  intros Hw Hs Ho Hst. destruct (wf_sampled _ Hw Hs) as [Hf Hp]. apply observed_spec in Ho as [Hfo Hpo].
  unfold interval_ok. simpl. split; [done|]. split; [|done]. unfold stale in Hst. rewrite Hp in Hst. simpl in Hst.
  assert (Hr : real (base_timestamp (lastState s))) by by destruct (base_timestamp (lastState s)).
  assert (Hr' : real (sampling_observedAt o)) by by destruct (sampling_observedAt o).
  unfold num_leb, num_ltb in *. rewrite cmp_swap in Hst. destruct (cmp_real _ _ Hr Hr') as [c E]. rewrite E in *. by destruct c.
Qed.

(** The sampler's state is always of its shape, through every render and every
    change of job: before the first accepted observation the baseline is empty,
    after it it carries a positive finite time; the history never exceeds 2048
    snapshots, and each of them covers an interval between two positive finite
    times, the first before the second. *)
Theorem sampler_well_formed `{E : Env} s : reachable s -> well_formed s.
Proof.
  induction 1 as [j|i s _ IH].
  { split; [done|done|simpl; unfold MAX_SNAPSHOTS; lia|constructor]. }
  unfold sample, observe. pose proof (well_formed_switch (job_id (in_job i)) s IH) as Hw.
  generalize dependent (switch_job (job_id (in_job i)) s). intros t Hw.
  destruct (observed _) eqn:Ho; simpl; [|done]. destruct (opt_eqb _ _); simpl; [|done].
  destruct (stale _ _) eqn:Hst; [done|]. destruct (hasSampledTelemetry t) eqn:Hh; simpl.
  - destruct (restarts _ _); [apply well_formed_reset; [done|apply Hw|apply Hw]|].
    apply well_formed_reset; [done|apply length_last_n|]. apply Forall_last_n, Forall_app. split; [by apply visible_ok|].
    apply Forall_singleton. by apply new_interval_ok.
  - apply well_formed_reset; [done|apply Hw|apply Hw].
Qed.

Lemma sampler_well_formed_witness :
  let s := sample (E := utc_env) (demo_poll 3000 50) (sample (E := utc_env) (demo_poll 1000 10) (mounted "j1")) in
  length (history_snapshots s) = 1%nat /\ Forall interval_ok (history_snapshots s).
Proof.
  split; [vm_compute; reflexivity|]. apply wf_intervals.
  apply (sampler_well_formed (E := utc_env)). apply reach_sample, reach_sample, reach_mounted.
Defined.
