(* ===== verification/TelemetryRates.v ===== *)
(** * Rates, error velocity, capacity and the reconstructed timeline
    ([features/jobs/lib/useJobDiagnosticsTelemetry.ts], lines 622-1006)

    What the hook derives from its inputs and the snapshots it shows. A sort
    with a comparator that returns [NaN] (two unreadable dates) depends on the
    engine; here such a pair keeps its order.

    The averages over a trailing window, the error velocity of a quiet minute,
    and the utilisation when the proxies' capacity is not known. *)

From Stdlib Require Import ZArith Lia SpecFloat.
From stdpp Require Import base list strings option sets.
From S2P Require Import JsSort Prelude JsString JsNum JsValue JsDate RuntimeTelemetry JobTypes.
From S2P Require Import RuntimeChart DiagnosticsTypes Diagnostics TelemetryInputs TelemetryErrors.
From S2P Require Import TelemetrySampling JsInt JsBounds JsOrder Samples.

(** [s ? new Date(s).getTime() : otherwise] *)
Definition date_or {E : Env} (s : option string) (otherwise : num) : num :=
  match truthy_opt s with Some text => date_ms text | None => otherwise end.

Section rates.
Context {E : Env} (i : TelemetryInputs) (snapshots : list TelemetrySnapshot).

Definition details_completed_at : option string := in_details i ≫= completed_at.
Definition details_started_at : option string := in_details i ≫= started_at.

(** ** Throughput *)

Definition overallRate : num :=
  let finished := date_or details_completed_at (referenceNowMs i) in
  let elapsedSec := math_max #1 ((finished ⊖ date_or (job_startedAt i) #0) ⊘ #1000) in
  rounded 1 (completedJobTasks i ⊘ elapsedSec).

(** Before the first snapshot. *)
Definition unsampled_throughput : ThroughputStats :=
  let rate := if in_isLiveJob i then #0 else overallRate in
  {| currentItemsPerSec := rate;
     currentTasksPerSec := rate;
     sma1mItemsPerSec := rate;
     sma1mTasksPerSec := rate;
     sma5mItemsPerSec := rate;
     sma5mTasksPerSec := rate;
     throughput_trend := Steady;
     trendDeltaPercent := #0;
     throughput_unit := Some (throughputUnit i);
     currentSampleDurationSec := Some #0;
     sma1mWindowSec := Some #0 |}.

Definition snapshot_interval (s : TelemetrySnapshot) : num := snap_timestamp s ⊖ snap_intervalStartTimestamp s.

(** The measured intervals that lie in the window; an interval is not split. *)
Definition in_window (endMs cutoff : num) (unit : ThroughputUnit) (s : TelemetrySnapshot) : bool :=
  let overlapMs := math_max #0
    (math_min (snap_timestamp s) endMs ⊖ math_max (snap_intervalStartTimestamp s) cutoff) in
  negb (snapshot_interval s <=! #0) &&
  negb (match unit with Items => negb (snap_itemsAreAuthoritative s) | Tasks => false end) &&
  negb (overlapMs <=! #0) && negb (overlapMs <! snapshot_interval s).

Definition snapshot_delta (unit : ThroughputUnit) (s : TelemetrySnapshot) : num :=
  match unit with Items => snap_itemsDelta s | Tasks => snap_completedDelta s end.

Record ObservedRate := { rate : num; observed_seconds : num }.

Definition observedRate (latest : TelemetrySnapshot) (windowMs : option num) (unit : ThroughputUnit) : ObservedRate :=
  let endMs := snap_timestamp latest in
  let cutoff := match windowMs with None => S754_infinity true | Some w => endMs ⊖ w end in
  let used := keep (in_window endMs cutoff unit) snapshots in
  let delta := sum_num (snapshot_delta unit) used in
  let coveredMs := sum_num snapshot_interval used in
  {| rate := if coveredMs >! #0 then delta ⊘ (coveredMs ⊘ #1000) else #0;
     observed_seconds := coveredMs ⊘ #1000 |}.

Definition rate_trend (recent average : num) : ThroughputTrend * num :=
  if average >! #0 then
    let delta := rounded 1 ((recent ⊖ average) ⊘ average ⊗ #100) in
    (if delta >! #5 then Increasing else if delta <! #(-5) then Decreasing else Steady, delta)
  else (Steady, #0).

Definition sampled_throughput (latest : TelemetrySnapshot) : ThroughputStats :=
  let intervalMs := math_max #0 (snapshot_interval latest) in
  let avg1mItems := observedRate latest (Some #60000) Items in
  let avg1mTasks := observedRate latest (Some #60000) Tasks in
  let avg1m := match throughputUnit i with Items => avg1mItems | Tasks => avg1mTasks end in
  let avgRecent := observedRate latest (Some #5000) (throughputUnit i) in
  let '(trend, delta) := rate_trend (rate avgRecent) (rate avg1m) in
  {| currentItemsPerSec :=
       if snap_itemsAreAuthoritative latest && (intervalMs >! #0)
       then rounded 1 (snap_itemsDelta latest ⊘ (intervalMs ⊘ #1000)) else #0;
     currentTasksPerSec :=
       if intervalMs >! #0 then rounded 1 (snap_completedDelta latest ⊘ (intervalMs ⊘ #1000)) else #0;
     sma1mItemsPerSec := rounded 1 (rate avg1mItems);
     sma1mTasksPerSec := rounded 1 (rate avg1mTasks);
     sma5mItemsPerSec := rounded 1 (rate (observedRate latest (Some #300000) Items));
     sma5mTasksPerSec := rounded 1 (rate (observedRate latest (Some #300000) Tasks));
     throughput_trend := trend;
     trendDeltaPercent := delta;
     throughput_unit := Some (throughputUnit i);
     currentSampleDurationSec := Some (rounded 1 (intervalMs ⊘ #1000));
     sma1mWindowSec := Some (rounded 1 (observed_seconds avg1m)) |}.

Definition latest_snapshot : option TelemetrySnapshot := list.last snapshots.

Definition throughputStats : ThroughputStats :=
  match latest_snapshot with None => unsampled_throughput | Some latest => sampled_throughput latest end.

(** ** Error velocity *)

(** The first snapshot of the last minute, if any. *)
Definition oldSnapshot : option TelemetrySnapshot :=
  find_first (fun s => snap_timestamp s >=! referenceNowMs i ⊖ #60000) snapshots.

(** The growth of a counter since then, or since the first of two or more
    snapshots. *)
Definition grown (counter : TelemetrySnapshot -> num) : num :=
  match latest_snapshot, oldSnapshot, snapshots with
  | Some latest, Some old, _ => math_max #0 (counter latest ⊖ counter old)
  | Some latest, None, first :: _ :: _ => math_max #0 (counter latest ⊖ counter first)
  | _, _, _ => #0
  end.

Definition recentErrors : num := grown snap_errorCount.
Definition recentCompleted : num := grown snap_completedTasks.

Definition windowErrorRate : num :=
  let terminal := recentCompleted ⊕ recentErrors in
  if terminal >! #0 then recentErrors ⊘ terminal else #0.

(** *** Failures in a row *)

Definition is_terminal (t : TaskDetail) : bool := (td_status t =s "completed") || (td_status t =s "failed").

Definition completion_time (t : TaskDetail) : num := date_or (td_completed_at t) #0.

Definition sortedTerminalTasks : list TaskDetail := stable_sort (larger_first completion_time) (keep is_terminal (in_tasks i)).

Fixpoint leading_failures (tasks : list TaskDetail) : Z :=
  match tasks with
  | t :: rest => if td_status t =s "failed" then 1 + leading_failures rest else 0
  | [] => 0
  end.

Definition consecutiveFailures : Z := leading_failures sortedTerminalTasks.

(** *** The trend *)

Definition safetyThreshold : num := computeSafetyThresholdLimit (in_job i) (in_details i) (totalJobTasks i).

Definition safetyMargin : num := math_min #100 (rounded 0 (recentErrors ⊘ math_max #1 safetyThreshold ⊗ #100)).

(** [Math.max(least, Math.ceil(threshold * part))] *)
Definition error_bar (least part : num) : num := math_max least (math_ceil (safetyThreshold ⊗ part)).

Definition is_critical : bool :=
  (safetyMargin >=! #80) || (recentErrors >=! error_bar #5 (#4 ⊘ #5)) ||
  ((windowErrorRate >=! #3 ⊘ #10) && (recentErrors >=! error_bar #10 (#2 ⊘ #5))).

Definition is_elevated : bool :=
  (safetyMargin >=! #50) || (recentErrors >=! error_bar #3 (#1 ⊘ #2)) ||
  ((windowErrorRate >=! #1 ⊘ #10) && (recentErrors >=! error_bar #5 (#1 ⊘ #5))) ||
  (5 <=? consecutiveFailures).

Definition velocity_trend : ErrorTrend := if is_critical then Critical else if is_elevated then Elevated else Stable.

(** *** Windows *)

Definition jobDurationSec : num :=
  let startMs := date_or (job_startedAt i) nan in
  let endMs := date_or (details_or_job i completed_at None) (referenceNowMs i) in
  if is_finite startMs && is_finite endMs && (endMs >! startMs) then math_max #1 ((endMs ⊖ startMs) ⊘ #1000) else #1.

(** [snapshots.length >= 2] with the first and the last of them. *)
Definition snapshot_ends : option (TelemetrySnapshot * TelemetrySnapshot) :=
  match snapshots with
  | first :: _ :: _ => (fun latest => (first, latest)) <$> latest_snapshot
  | _ => None
  end.

Definition observedWindowSec : num :=
  match snapshot_ends with
  | Some (first, latest) => math_max #1 ((snap_timestamp latest ⊖ snap_timestamp first) ⊘ #1000)
  | None => #0
  end.

Definition velocityWindowSec : num :=
  match snapshot_ends with
  | Some (first, latest) =>
      math_max #1 ((snap_timestamp latest ⊖ ((snap_timestamp <$> oldSnapshot) ?? snap_timestamp first)) ⊘ #1000)
  | None => #0
  end.

Definition rateWindowSec : num :=
  if hasAggregateErrorGroups i then jobDurationSec
  else if observedWindowSec >! #0 then observedWindowSec else jobDurationSec.

Definition errorVelocity : ErrorVelocityStats := {|
  totalErrors := totalJobErrors i;
  errorsLast60s := recentErrors;
  safetyThresholdLimit := safetyThreshold;
  safetyMarginPercent := safetyMargin;
  error_trend := velocity_trend;
  rate429Count := parsed429Count i;
  rate429PerMin := rounded 1 (parsed429Count i ⊗ (#60 ⊘ math_max #1 rateWindowSec));
  rate429Scope := Some (if hasAggregateErrorGroups i || (observedWindowSec <=! #0) then JobAverage else RateObservedWindow);
  errorWindowScope := Some (match snapshot_ends with Some _ => ErrorObservedWindow | None => JobSnapshot end);
  errorWindowSeconds := Some velocityWindowSec
|}.

(** ** Proxy capacity *)

Definition utilization : num :=
  rounded 1 (math_min (inflightJobTasks i) (totalProxyCapacity i) ⊘ totalProxyCapacity i ⊗ #100).

Definition proxyCapacity : ProxyCapacityStats := {|
  totalRoutes := totalProxyCapacity i;
  enabledProxies := enabledProxiesCount i;
  directRoutes := if includeDirectConnection i then #1 else #0;
  activeRoutes := math_min (inflightJobTasks i) (totalProxyCapacity i);
  utilizationPercent := utilization;
  isNearCapacity := utilization >=! #85;
  isSaturated := utilization >=! #96;
  capacityUnit := Some ConnectionSlots;
  totalSlots := Some (totalProxyCapacity i);
  activeSlots := Some (math_min (inflightJobTasks i) (totalProxyCapacity i))
|}.
End rates.

(** * What the rates of a sampled job promise *)

(** ** Windows *)

(** A snapshot of whole milliseconds that counts whole numbers. *)
Record whole_snapshot (x : TelemetrySnapshot) (s e c n : Z) : Prop := {
  ws_start : snap_intervalStartTimestamp x = #s;
  ws_end : snap_timestamp x = #e;
  ws_completed : snap_completedDelta x = #c;
  ws_items : snap_itemsDelta x = #n;
  ws_range : 0 <= s < 2 ^ 51 /\ 0 <= e < 2 ^ 51
}.

Definition is_whole (x : TelemetrySnapshot) : Prop := exists s e c n, whole_snapshot x s e c n.

(** The ends of the interval, and the work counted in it. *)
Definition start_of (x : TelemetrySnapshot) : Z := num_to_Z (snap_intervalStartTimestamp x).
Definition end_of (x : TelemetrySnapshot) : Z := num_to_Z (snap_timestamp x).
Definition work_of (unit : ThroughputUnit) (x : TelemetrySnapshot) : Z := num_to_Z (snapshot_delta unit x).

(** Whether the interval lies in the window and counts for the unit. *)
Definition counts_in (endMs cutoff : Z) (unit : ThroughputUnit) (x : TelemetrySnapshot) : bool :=
  (cutoff <=? start_of x) && (end_of x <=? endMs) && (start_of x <? end_of x) &&
  (match unit with Items => snap_itemsAreAuthoritative x | Tasks => true end).

Lemma whole_ends x s e c n : whole_snapshot x s e c n -> start_of x = s /\ end_of x = e.
Proof. intros [H1 H2 _ _ [? ?]]. unfold start_of, end_of. rewrite H1, H2, !num_to_Z_int by (unfold safe; lia). done. Qed.

Lemma in_window_whole endMs cutoff unit x :
  is_whole x -> - 2 ^ 51 < endMs < 2 ^ 51 -> - 2 ^ 51 < cutoff < 2 ^ 51 ->
  in_window #endMs #cutoff unit x = counts_in endMs cutoff unit x.
Proof.
  intros (s & e & c & n & H) He Hc. destruct (whole_ends _ _ _ _ _ H) as [Es Ee].
  unfold in_window, snapshot_interval, counts_in. rewrite Es, Ee. destruct H as [-> -> _ _ [? ?]].
  rewrite min_int, max_int by (unfold safe; lia). rewrite !sub_int by (unfold safe; lia).
  rewrite max_int by (unfold safe; lia). rewrite !leb_int, ltb_int by (unfold safe; lia).
  set (auth := match unit with Items => negb (snap_itemsAreAuthoritative x) | Tasks => false end).
  replace (match unit with Items => snap_itemsAreAuthoritative x | Tasks => true end) with (negb auth)
    by (unfold auth; destruct unit; [apply negb_involutive|done]).
  destruct (Z.leb_spec (e - s) 0), (Z.leb_spec (Z.max 0 (Z.min e endMs - Z.max s cutoff)) 0),
    (Z.ltb_spec (Z.max 0 (Z.min e endMs - Z.max s cutoff)) (e - s)), (Z.leb_spec cutoff s), (Z.leb_spec e endMs), (Z.ltb_spec s e);
    destruct auth; simpl; (done || lia).
Qed.

(** Sums of whole numbers are exact while they stay small. *)
Lemma sum_num_whole {A} (f : A -> num) (g : A -> Z) l : forall a,
  (forall x, x ∈ l -> f x = #(g x) /\ 0 <= g x) -> 0 <= a -> a + sum_by g l < 2 ^ 53 ->
  foldl (fun s x => s ⊕ f x) #a l = #(a + sum_by g l).
Proof.
  unfold sum_by. induction l as [|x l IH]; intros a Hf Ha Hb; simpl in *; [by rewrite Z.add_0_r|].
  destruct (Hf x ltac:(set_solver)) as [-> Hx].
  assert (Hs : 0 <= sum_by g l) by (apply sum_by_nonneg; intros y Hy; apply Hf; set_solver). unfold sum_by in Hs.
  rewrite add_int, (IH (a + g x)); try (f_equal; lia); try (unfold safe; lia). intros y Hy. apply Hf. set_solver.
Qed.

Definition used (l : list TelemetrySnapshot) (endMs cutoff : Z) (unit : ThroughputUnit) : list TelemetrySnapshot :=
  keep (counts_in endMs cutoff unit) l.

Definition covered (l : list TelemetrySnapshot) : Z := sum_by (fun x => end_of x - start_of x) l.

(** Disjoint intervals inside a window cover no more than the window. *)
Lemma covered_in_window l : forall t endMs cutoff unit,
  Forall is_whole l -> chained #t l -> - 2 ^ 51 < t < 2 ^ 51 ->
  0 <= covered (used l endMs cutoff unit) <= Z.max 0 (endMs - Z.max t cutoff).
Proof.
  unfold covered, used. induction l as [|x l IH]; intros t endMs cutoff unit Hw Hc Ht; [simpl; lia|].
  apply Forall_cons in Hw as [(s & e & c & n & Hx) Hw]. destruct (whole_ends _ _ _ _ _ Hx) as [Es Ee].
  destruct Hx as [Hs He _ _ [? ?]]. destruct Hc as (H1 & H2 & H3). rewrite Hs, He in *.
  rewrite leb_int in H1 by (unfold safe; lia). rewrite ltb_int in H2 by (unfold safe; lia). bool_simpl.
  specialize (IH e endMs cutoff unit Hw H3 ltac:(lia)). simpl.
  destruct (counts_in endMs cutoff unit x) eqn:Ec; [|lia].
  unfold counts_in in Ec. rewrite Es, Ee in Ec. bool_simpl. unfold sum_by in *. simpl. rewrite Es, Ee. lia.
Qed.

(** The average rate over a trailing window: it counts exactly the sampled
    intervals that lie wholly inside the window (and count items, when items are
    asked for), the time it reports is what they cover, at most the window, and
    the rate is their work over that time. *)
Theorem window_rate_spec t l latest w unit :
  Forall is_whole l -> chained #t l -> 0 <= t < 2 ^ 51 -> latest ∈ l -> 0 <= w < 2 ^ 50 ->
  (forall x, x ∈ l -> snapshot_delta unit x = #(work_of unit x) /\ 0 <= work_of unit x) ->
  sum_by (work_of unit) l < 2 ^ 53 ->
  let inside := used l (end_of latest) (end_of latest - w) unit in
  0 <= covered inside <= w /\
  observed_seconds (observedRate l latest (Some #w) unit) = #(covered inside) ⊘ #1000 /\
  rate (observedRate l latest (Some #w) unit) =
    (if 0 <? covered inside then #(sum_by (work_of unit) inside) ⊘ (#(covered inside) ⊘ #1000) else #0).
Proof.
  intros Hl Hc Ht Hin Hw Hwork Hsum inside. assert (Hl' := Hl). rewrite Forall_forall in Hl'.
  destruct (Hl' latest Hin) as (s & e & c & n & Hx). destruct (whole_ends _ _ _ _ _ Hx) as [_ Ee].
  destruct Hx as [_ He _ _ [_ ?]]. pose proof (covered_in_window l t (end_of latest) (end_of latest - w) unit Hl Hc ltac:(lia)) as Hcov.
  fold inside in Hcov. rewrite Ee in Hcov. split; [lia|].
  assert (Hkeep : keep (in_window (snap_timestamp latest) (snap_timestamp latest ⊖ #w) unit) l = inside).
  { unfold inside, used. rewrite He, Ee, sub_int by (unfold safe; lia). clear - Hl' H Hw.
    assert (Hall : forall x, x ∈ l -> is_whole x) by exact Hl'. clear Hl'. induction l as [|x l IH]; [done|]. simpl.
    rewrite in_window_whole; [|apply Hall; set_solver|lia|lia]. rewrite IH; [done|]. intros y Hy. apply Hall. set_solver. }
  assert (Hsub : forall x, x ∈ inside -> x ∈ l /\ counts_in (end_of latest) (end_of latest - w) unit x = true).
  { intros x Hxin. by apply elem_of_keep in Hxin. }
  assert (Hci : sum_num snapshot_interval inside = #(covered inside)).
  { unfold sum_num. rewrite (sum_num_whole _ (fun x => end_of x - start_of x) inside 0); [done| |lia|].
    - intros x Hxin. destruct (Hsub x Hxin) as [Hxl Hcx]. destruct (Hl' x Hxl) as (s' & e' & c' & n' & Hx').
      destruct (whole_ends _ _ _ _ _ Hx') as [Es' Ee']. destruct Hx' as [Hs' He' _ _ [? ?]].
      unfold counts_in in Hcx. bool_simpl. unfold snapshot_interval. rewrite Hs', He', sub_int, Es', Ee' by (unfold safe; lia).
      split; [done|lia].
    - unfold covered in Hcov. lia. }
  assert (Hwi : sum_num (snapshot_delta unit) inside = #(sum_by (work_of unit) inside)).
  { unfold sum_num. rewrite (sum_num_whole _ (work_of unit) inside 0); [done| |lia|].
    - intros x Hxin. apply Hwork, Hsub, Hxin.
    - assert (sum_by (work_of unit) inside <= sum_by (work_of unit) l); [|lia]. unfold inside, used. clear - Hwork.
      induction l as [|x l IH]; [done|]. simpl. destruct (Hwork x ltac:(set_solver)) as [_ ?].
      specialize (IH (fun y Hy => Hwork y ltac:(set_solver))). destruct (counts_in _ _ _ _); unfold sum_by in *; simpl; lia. }
  unfold observedRate. rewrite Hkeep, Hci, Hwi. split; [done|]. simpl. rewrite ltb_int by (unfold safe; lia). done.
Qed.

(** A snapshot of a job whose tasks are one item each. *)
Definition demo_snapshot (s e c total : Z) : TelemetrySnapshot := {|
  snap_timestamp := #e; snap_intervalStartTimestamp := #s; snap_completedDelta := #c; snap_itemsDelta := #c;
  snap_itemsAreAuthoritative := false; snap_itemsProcessed := #total; snap_completedTasks := #total;
  snap_inflightTasks := #8; snap_readyTasks := #0; snap_failedTasks := #0; snap_throughputItemsPerSec := #0;
  snap_throughputTasksPerSec := #0; snap_p50Latency := #1; snap_p95Latency := #2; snap_activeProxies := #8;
  snap_errorCount := #0
|}.

(** Ten seconds of polls, with a gap. *)
Definition demo_snapshots : list TelemetrySnapshot :=
  [demo_snapshot 1000 3000 40 40; demo_snapshot 3000 5000 10 50; demo_snapshot 7000 9000 30 80].

Lemma demo_snapshot_whole s e c total : 0 <= s < 2 ^ 51 -> 0 <= e < 2 ^ 51 -> is_whole (demo_snapshot s e c total).
Proof. intros. by exists s, e, c, c. Qed.

Lemma window_rate_spec_witness :
  rate (observedRate demo_snapshots (demo_snapshot 7000 9000 30 80) (Some #6000) Tasks) = #40 ⊘ (#4000 ⊘ #1000).
Proof.
  assert (Hw : Forall is_whole demo_snapshots) by (repeat constructor; apply demo_snapshot_whole; lia).
  assert (Hc : chained #0 demo_snapshots) by (vm_compute; repeat split).
  assert (Hin : demo_snapshot 7000 9000 30 80 ∈ demo_snapshots) by (unfold demo_snapshots; do 2 right; left).
  assert (Hn : forall x, x ∈ demo_snapshots -> snapshot_delta Tasks x = #(work_of Tasks x) /\ 0 <= work_of Tasks x).
  { intros x Hx. unfold demo_snapshots in Hx.
    repeat (apply elem_of_cons in Hx as [->|Hx]; [split; [vm_compute; reflexivity|vm_compute; discriminate]|]).
    by apply not_elem_of_nil in Hx. }
  etrans; [refine (proj2 (proj2 (window_rate_spec 0 demo_snapshots _ 6000 Tasks Hw Hc _ Hin _ Hn _))); [lia|lia|]|];
    vm_compute; reflexivity.
Defined.

(** ** Error velocity *)

(** No threshold is met by zero errors: the larger of a positive bar and
    anything is positive or no number. *)
Lemma bar_not_met least x : (#0 <! least) = true -> is_finite least = true -> (math_max least x <=! #0) = false.
Proof.
  intros Hl Hf. unfold math_max. destruct least as [[]|[]| |[] m e]; try done;
    destruct x as [[]|[]| |[] m' e']; try done; unfold num_leb; simpl;
    repeat (destruct (_ ?= _); simpl; try done); destruct (PosDef.Pos.compare_cont _ _ _); done.
Qed.

Lemma margin_without_errors i : (rounded 0 (#0 ⊘ math_max #1 (safetyThreshold i) ⊗ #100) = #0) \/
  is_nan (rounded 0 (#0 ⊘ math_max #1 (safetyThreshold i) ⊗ #100)) = true.
Proof.
  generalize (safetyThreshold i). intros y. unfold math_max.
  destruct (SFcompare #1 y) as [[]|] eqn:Ec; [left; reflexivity| |left; reflexivity|right; reflexivity].
  destruct y as [[]|[]| |[] m e]; first [discriminate Ec | left; reflexivity].
Qed.

(** A quiet minute is never alarming: when no error was added since the
    snapshot a minute ago, the velocity is not critical, and it is stable unless
    the last five finished tasks all failed -- whatever the job's limit of
    failures, even one that is no number. *)
Theorem quiet_minute_is_stable {E : Env} i snapshots :
  recentErrors i snapshots = #0 ->
  error_trend (errorVelocity i snapshots) <> Critical /\
  (error_trend (errorVelocity i snapshots) = Stable <-> consecutiveFailures i < 5).
Proof.
  intros H0. cbn [error_trend errorVelocity]. unfold velocity_trend, is_critical, is_elevated, error_bar, safetyMargin.
  rewrite H0. rewrite !bar_not_met by reflexivity.
  assert (Hm : forall b, b = #80 \/ b = #50 ->
    (b <=! math_min #100 (rounded 0 (#0 ⊘ math_max #1 (safetyThreshold i) ⊗ #100))) = false).
  { intros b Hb. destruct (margin_without_errors i) as [->|Hn]; [destruct Hb as [-> | ->]; reflexivity|].
    destruct (rounded _ _); try done. destruct Hb as [-> | ->]; reflexivity. }
  rewrite !Hm by auto. rewrite !andb_false_r. simpl.
  destruct (Z.leb_spec 5 (consecutiveFailures i)); split; try done; split; (done || lia).
Qed.

Lemma quiet_minute_is_stable_witness :
  let i := demo_failures demo_groups [finished_task "failed" EmptyString #1 None None] in
  recentErrors i demo_snapshots = #0 /\
  error_trend (errorVelocity (E := utc_env) i demo_snapshots) = Stable.
Proof.
  intros i. assert (H : recentErrors i demo_snapshots = #0) by (vm_compute; reflexivity).
  split; [exact H|]. apply (quiet_minute_is_stable (E := utc_env) i demo_snapshots H). vm_compute. reflexivity.
Defined.

(** ** Capacity *)

(** When the proxies' capacity is not known (it is 0), the utilisation shown
    for a live job is no number, whatever runs, and the job counts neither as
    near its capacity nor as saturated. *)
Theorem unknown_capacity_is_nan {E : Env} i :
  totalProxyCapacity i = #0 -> (#0 <=! inflightJobTasks i) = true ->
  is_nan (utilizationPercent (proxyCapacity i)) = true /\
  isNearCapacity (proxyCapacity i) = false /\ isSaturated (proxyCapacity i) = false.
Proof.
  intros Hc Hi. cbn [utilizationPercent isNearCapacity isSaturated proxyCapacity]. unfold utilization. rewrite Hc.
  assert (Hm : exists s, math_min (inflightJobTasks i) #0 = S754_zero s).
  { unfold math_min, num_leb in *. rewrite cmp_swap. destruct (SFcompare #0 (inflightJobTasks i)) as [[]|] eqn:Ec; try done; simpl.
    - destruct (inflightJobTasks i) as [[]|[]| |[]]; try done; by eexists.
    - by exists false. }
  destruct Hm as [s ->]. destruct s; repeat split; vm_compute; reflexivity.
Qed.

Lemma unknown_capacity_is_nan_witness :
  is_nan (utilizationPercent (proxyCapacity (demo_poll 1000 10))) = true.
Proof. refine (proj1 (unknown_capacity_is_nan (E := utc_env) (demo_poll 1000 10) _ _)); vm_compute; reflexivity. Defined.
