(* ===== verification/TelemetryTimeline.v ===== *)
(** * The timeline reconstructed from completion times
    ([features/jobs/lib/useJobDiagnosticsTelemetry.ts], lines 878-1006)

    For a finished job, or one sampled too rarely, the hook spreads the loaded
    tasks over at most thirty buckets of equal width.

    Between ten and thirty contiguous buckets whose counters add up to the
    completions before the end of the last one -- and not those at its end. *)

From Stdlib Require Import ZArith Lia SpecFloat.
From stdpp Require Import base list strings option sets.
From S2P Require Import JsSort Prelude JsString JsNum JsValue JsDate RuntimeTelemetry JobTypes.
From S2P Require Import RuntimeChart DiagnosticsTypes Diagnostics TelemetryInputs TelemetrySampling.
From S2P Require Import TelemetryRates JsInt JsBounds Samples.

(** A task with the time it completed and its latency. *)
Record CompletedTask := { ct_task : TaskDetail; ct_time : num; ct_latency : num }.

Section timeline.
Context {E : Env} (i : TelemetryInputs) (snapshots : list TelemetrySnapshot).

Definition median : num := p50 (currentPercentiles i).

Definition completed_task (t : TaskDetail) : option CompletedTask :=
  match truthy_opt (td_completed_at t) with
  | Some text => Some {| ct_task := t; ct_time := date_ms text; ct_latency := parseTaskLatency t ?? median |}
  | None => None
  end.

Definition completedTasksWithTimes : list CompletedTask :=
  stable_sort (smaller_first ct_time) (keep (fun c => negb (is_nan (ct_time c))) (omap completed_task (in_tasks i))).

Definition hasLiveProgression : bool :=
  match snapshots, latest_snapshot snapshots with
  | first :: _, Some latest =>
      (5 <=? Z.of_nat (length snapshots)) && (snap_completedTasks latest >! snap_completedTasks first)
  | _, _ => false
  end.

(** ** Buckets *)

Section buckets.
Variables (tasks : list CompletedTask) (startTime span : num).

Definition sampleScale : num :=
  if completedJobTasks i >! count tasks then completedJobTasks i ⊘ count tasks else #1.

Definition bucketCount : nat := Nat.min 30 (Nat.max 10 (length tasks)).
Definition bucketDuration : num := span ⊘ #(Z.of_nat bucketCount).

Definition bucket_start (b : nat) : num := startTime ⊕ #(Z.of_nat b) ⊗ bucketDuration.
Definition bucket_end (b : nat) : num := bucket_start b ⊕ bucketDuration.

Definition in_bucket (b : nat) (c : CompletedTask) : bool := (ct_time c >=! bucket_start b) && (ct_time c <! bucket_end b).

Definition bucket_tasks (b : nat) : list CompletedTask := keep (in_bucket b) tasks.

Definition scaled_count (raw : num) : num := math_round (raw ⊗ sampleScale).

Definition ct_failed (c : CompletedTask) : bool := td_status (ct_task c) =s "failed".

Definition bucket_completed (b : nat) : num := scaled_count (count (bucket_tasks b)).
Definition bucket_items (b : nat) : num :=
  match throughputUnit i with
  | Items => scaled_count (sum_num (fun c => num_or (td_items_processed (ct_task c)) #1) (bucket_tasks b))
  | Tasks => bucket_completed b
  end.
Definition bucket_errors (b : nat) : num := scaled_count (count (keep ct_failed (bucket_tasks b))).

(** [Math.max(0.05, bucketDuration / 1000)] *)
Definition bucket_seconds : num := math_max (#1 ⊘ #20) (bucketDuration ⊘ #1000).

(** The counters the loop carries. *)
Record Running := { run_completed : num; run_items : num; run_errors : num }.

Definition run_bucket (b : nat) (r : Running) : Running := {|
  run_completed := run_completed r ⊕ bucket_completed b;
  run_items := run_items r ⊕ bucket_items b;
  run_errors := run_errors r ⊕ bucket_errors b
|}.

Definition bucket_median (ps : LatencyPercentiles) : num :=
  if p50 ps >! #0 then p50 ps else if median >! #0 then median else default_latency.

Definition bucket_snapshot (b : nat) (r : Running) : TelemetrySnapshot :=
  let tasksPerSec := rounded 1 (bucket_completed b ⊘ bucket_seconds) in
  let ps := calculatePercentiles (map ct_latency (bucket_tasks b)) in
  let inflight := math_min (totalRoutes (proxyCapacity i)) (math_round (tasksPerSec ⊗ bucket_median ps)) in
  {| snap_timestamp := math_round (bucket_end b);
     snap_intervalStartTimestamp := math_round (bucket_start b);
     snap_completedDelta := bucket_completed b;
     snap_itemsDelta := bucket_items b;
     snap_itemsAreAuthoritative := match throughputUnit i with Items => true | Tasks => false end;
     snap_itemsProcessed := run_items r;
     snap_completedTasks := run_completed r;
     snap_inflightTasks := inflight;
     snap_readyTasks := math_max #0 (totalJobTasks i ⊖ run_completed r);
     snap_failedTasks := run_errors r;
     snap_throughputItemsPerSec := rounded 1 (bucket_items b ⊘ bucket_seconds);
     snap_throughputTasksPerSec := tasksPerSec;
     snap_p50Latency := bucket_median ps;
     snap_p95Latency := num_or (p95 ps) (p95 (currentPercentiles i));
     snap_activeProxies := math_min inflight (totalRoutes (proxyCapacity i));
     snap_errorCount := run_errors r |}.

(** The loop over the buckets from [b] on. *)
Fixpoint rebuild (fuel b : nat) (r : Running) : list TelemetrySnapshot :=
  match fuel with
  | O => []
  | S fuel => let r' := run_bucket b r in bucket_snapshot b r' :: rebuild fuel (S b) r'
  end.

Definition reconstructed : list TelemetrySnapshot :=
  rebuild bucketCount 0 {| run_completed := #0; run_items := #0; run_errors := #0 |}.
End buckets.

(** ** The snapshots used *)

Definition timeline_span (startTime endTime : num) : num :=
  math_max (endTime ⊖ startTime)
    (date_or (details_completed_at i) endTime ⊖ date_or (details_started_at i) startTime).

Definition effectiveSnapshots : list TelemetrySnapshot :=
  if in_isLiveJob i && (0 <? Z.of_nat (length snapshots)) then snapshots
  else if hasLiveProgression then snapshots
  else
    match completedTasksWithTimes with
    | first :: _ :: _ =>
        let endTime := (ct_time <$> list.last completedTasksWithTimes) ?? nan in
        let span := timeline_span (ct_time first) endTime in
        if span <=! #1000 then snapshots else reconstructed completedTasksWithTimes (ct_time first) span
    | _ => snapshots
    end.
End timeline.

(** * What the reconstructed timeline promises *)

Section spec.
Context {E : Env} (i : TelemetryInputs) (tasks : list CompletedTask) (s w : Z) (span : num).

Definition time_of (c : CompletedTask) : Z := num_to_Z (ct_time c).

Notation n := (bucketCount tasks).

(** Whole milliseconds, tasks that completed from [s] on, every completed task
    loaded. *)
Record whole_timeline : Prop := {
  wt_times : forall c, c ∈ tasks -> ct_time c = #(time_of c) /\ s <= time_of c < 2 ^ 51;
  wt_start : 0 <= s;
  wt_width : bucketDuration tasks span = #w;
  wt_range : 0 < w /\ s + Z.of_nat n * w < 2 ^ 51;
  wt_loaded : completedJobTasks i = count tasks;
  wt_few : Z.of_nat (length tasks) < 2 ^ 51
}.

Context (W : whole_timeline).

Definition boundary (b : nat) : Z := s + Z.of_nat b * w.

Lemma bucket_count_bounds : (10 <= n <= 30)%nat.
Proof. unfold bucketCount. lia. Qed.

Lemma boundary_bounds b : (b <= n)%nat -> 0 <= boundary b < 2 ^ 51.
Proof. intros Hb. destruct W as [_ ? _ [? ?] _ _]. unfold boundary. nia. Qed.

Lemma boundary_S b : boundary (S b) = boundary b + w.
Proof. unfold boundary. lia. Qed.

Lemma bucket_start_whole b : (b < n)%nat -> bucket_start tasks #s span b = #(boundary b).
Proof.
  intros Hb. pose proof bucket_count_bounds. pose proof (boundary_bounds b ltac:(lia)) as Hr. destruct W as [_ ? Hw [? ?] _ _].
  unfold bucket_start, boundary in *. rewrite Hw. rewrite mul_int_nonneg by (unfold safe; nia). apply add_int; unfold safe; nia.
Qed.

Lemma bucket_end_whole b : (b < n)%nat -> bucket_end tasks #s span b = #(boundary (S b)).
Proof.
  intros Hb. unfold bucket_end. rewrite bucket_start_whole by done.
  pose proof (boundary_bounds b ltac:(lia)). pose proof (boundary_bounds (S b) ltac:(lia)). rewrite boundary_S in *.
  rewrite (wt_width W). destruct W as [_ _ _ [? ?] _ _]. apply add_int; unfold safe; lia.
Qed.

(** Completions before a time. *)
Definition before (l : list CompletedTask) (x : Z) : Z := Z.of_nat (length (keep (fun c => time_of c <? x) l)).
Definition between (l : list CompletedTask) (x y : Z) : Z :=
  Z.of_nat (length (keep (fun c => (x <=? time_of c) && (time_of c <? y)) l)).

Lemma before_between l x y : x <= y -> before l x + between l x y = before l y.
Proof.
  intros Hxy. unfold before, between. induction l as [|c l IH]; [done|]. simpl.
  destruct (Z.ltb_spec (time_of c) x), (Z.leb_spec x (time_of c)), (Z.ltb_spec (time_of c) y); simpl; lia.
Qed.

Lemma before_bounds l x : 0 <= before l x <= Z.of_nat (length l).
Proof. pose proof (length_keep (fun c => time_of c <? x) l). unfold before. lia. Qed.

Lemma bucket_tasks_whole b : (b < n)%nat ->
  bucket_tasks tasks #s span b = keep (fun c => (boundary b <=? time_of c) && (time_of c <? boundary (S b))) tasks.
Proof.
  intros Hb. unfold bucket_tasks, in_bucket. rewrite bucket_start_whole, bucket_end_whole by done.
  pose proof (boundary_bounds b ltac:(lia)). pose proof (boundary_bounds (S b) ltac:(lia)).
  destruct W as [Ht Hs _ _ _ _]. generalize (boundary b) (boundary (S b)) H H0. clear - Ht Hs. intros x y Hx Hy.
  revert Ht. generalize tasks. intros l. induction l as [|c l IH]; intros Ht; [done|]. simpl.
  destruct (Ht c ltac:(set_solver)) as [-> ?]. rewrite leb_int, ltb_int by (unfold safe; lia).
  rewrite IH by (intros d Hd; apply Ht; set_solver). done.
Qed.

Lemma unscaled k : 0 <= k < 2 ^ 51 -> scaled_count i tasks #k = #k.
Proof.
  intros Hk. unfold scaled_count, sampleScale. rewrite (wt_loaded W).
  assert (Hf : (count tasks >! count tasks) = false).
  { unfold count. rewrite ltb_int by (unfold safe; pose proof (wt_few W); lia). apply Z.ltb_irrefl. }
  rewrite Hf, mul_int_nonneg, Z.mul_1_r by (unfold safe; lia). apply round_int; unfold safe; lia.
Qed.

Lemma bucket_completed_whole b : (b < n)%nat -> bucket_completed i tasks #s span b = #(between tasks (boundary b) (boundary (S b))).
Proof.
  intros Hb. unfold bucket_completed. rewrite bucket_tasks_whole by done. unfold count. rewrite unscaled; [done|].
  pose proof (length_keep (fun c => (boundary b <=? time_of c) && (time_of c <? boundary (S b))) tasks).
  pose proof (wt_few W). lia.
Qed.

Lemma run_bucket_completed b r : (b < n)%nat -> run_completed r = #(before tasks (boundary b)) ->
  run_completed (run_bucket i tasks #s span b r) = #(before tasks (boundary (S b))).
Proof.
  intros Hb Hr. cbn [run_completed run_bucket]. rewrite Hr, bucket_completed_whole by done.
  pose proof (before_between tasks (boundary b) (boundary (S b))) as Hbb. rewrite boundary_S in Hbb at 1.
  destruct W as [_ _ _ [? ?] _ Hn]. pose proof (before_bounds tasks (boundary b)). pose proof (before_bounds tasks (boundary (S b))).
  assert (0 <= between tasks (boundary b) (boundary (S b))) by (unfold between; lia).
  specialize (Hbb ltac:(lia)). rewrite add_int by (unfold safe; lia). f_equal. lia.
Qed.

(** The [k]th snapshot of the loop. *)
Definition bucket_spec (b : nat) (x : TelemetrySnapshot) : Prop :=
  snap_intervalStartTimestamp x = #(boundary b) /\ snap_timestamp x = #(boundary (S b)) /\
  snap_completedDelta x = #(between tasks (boundary b) (boundary (S b))) /\
  snap_completedTasks x = #(before tasks (boundary (S b))).

Lemma bucket_snapshot_spec b r : (b < n)%nat -> run_completed r = #(before tasks (boundary (S b))) ->
  bucket_spec b (bucket_snapshot i tasks #s span b r).
Proof.
  intros Hb Hr. unfold bucket_spec. cbn [bucket_snapshot snap_intervalStartTimestamp snap_timestamp snap_completedDelta snap_completedTasks].
  rewrite bucket_start_whole, bucket_end_whole, bucket_completed_whole by done.
  pose proof (boundary_bounds b ltac:(lia)). pose proof (boundary_bounds (S b) ltac:(lia)).
  rewrite !round_int by (unfold safe; lia). done.
Qed.

Lemma rebuild_spec fuel : forall b r, run_completed r = #(before tasks (boundary b)) -> (b + fuel <= n)%nat ->
  forall k, (k < fuel)%nat -> exists x, rebuild i tasks #s span fuel b r !! k = Some x /\ bucket_spec (b + k) x.
Proof.
  induction fuel as [|fuel IH]; intros b r Hr Hb k Hk; [lia|].
  pose proof (run_bucket_completed b r ltac:(lia) Hr) as Hr'. cbn [rebuild]. destruct k as [|k].
  - eexists. split; [reflexivity|]. rewrite Nat.add_0_r. apply bucket_snapshot_spec; [lia|exact Hr'].
  - destruct (IH (S b) _ Hr' ltac:(lia) k ltac:(lia)) as (x & Hx & Hs). exists x. split; [exact Hx|].
    by rewrite Nat.add_succ_r.
Qed.

Lemma length_rebuild fuel : forall b r, length (rebuild i tasks #s span fuel b r) = fuel.
Proof. induction fuel as [|fuel IH]; intros b r; [done|]. simpl. by rewrite IH. Qed.

Lemma before_start : before tasks (boundary 0) = 0.
Proof.
  unfold before, boundary. rewrite Z.mul_0_l, Z.add_0_r. rewrite keep_none; [done|].
  intros c Hc. destruct W as [Ht _ _ _ _ _]. apply Z.ltb_ge, Ht, Hc.
Qed.

Lemma reconstructed_spec : length (reconstructed i tasks #s span) = n /\
  forall k, (k < n)%nat -> exists x, reconstructed i tasks #s span !! k = Some x /\ bucket_spec k x.
Proof.
  split; [apply length_rebuild|]. intros k Hk. apply (rebuild_spec n 0); [|lia|exact Hk]. by rewrite before_start.
Qed.
End spec.

(** The reconstructed timeline of a finished job whose completed tasks are all
    loaded: ten to thirty buckets of equal width, each beginning where the one
    before ends; each counts exactly the tasks completed from its start to before
    its end, and the running total all those completed before its end. So a task
    that completes at the end of the last bucket -- the last one, whenever the
    job's own dates do not widen the span -- is in none of them. *)
Theorem timeline_conserves {E : Env} i tasks s w span :
  whole_timeline i tasks s w span ->
  let l := reconstructed i tasks #s span in let n := length l in
  (10 <= n <= 30)%nat /\
  (forall k, (k < n)%nat -> exists x, l !! k = Some x /\
     snap_intervalStartTimestamp x = #(boundary s w k) /\ snap_timestamp x = #(boundary s w (S k)) /\
     snap_completedDelta x = #(between tasks (boundary s w k) (boundary s w (S k))) /\
     snap_completedTasks x = #(before tasks (boundary s w (S k)))) /\
  (forall c, c ∈ tasks -> boundary s w n <= time_of c -> before tasks (boundary s w n) < Z.of_nat (length tasks)).
Proof.
  intros W l n. destruct (reconstructed_spec i tasks s w span W) as [Hlen Hl]. unfold n, l. rewrite Hlen.
  split; [apply bucket_count_bounds|]. split; [exact Hl|].
  intros c Hc Hb. unfold before. generalize (boundary s w (bucketCount tasks)) Hb. clear - Hc. intros y Hy.
  induction tasks as [|d tasks IH]; [set_solver|]. pose proof (length_keep (fun c => time_of c <? y) tasks) as Hk. simpl.
  apply elem_of_cons in Hc as [->|Hc]; [destruct (Z.ltb_spec (time_of d) y); lia|].
  specialize (IH Hc). destruct (time_of d <? y); simpl; lia.
Qed.

(** Ten tasks that complete within ten seconds, the last one at the end. *)
Definition demo_second (d : string) : TaskDetail :=
  finished_task "completed" ("2024-01-01T00:00:" +:+ d +:+ "Z") #1 None None.

Definition demo_run : TelemetryInputs := {|
  in_job := with_stats (demo_job "completed" []) (demo_stats 10 0 10 0) "2024-01-01T00:00:00Z" EmptyString;
  in_details := None;
  in_tasks := map demo_second ["00"; "01"; "02"; "03"; "04"; "05"; "06"; "07"; "08"; "10"];
  in_proxies := None;
  in_isLiveJob := false;
  in_workerPoolSize := #32;
  in_taskStatsObservedAtMs := None;
  in_jobRuntimeSamples := [];
  in_mountedAtMs := #1704067300000
|}.

Definition demo_run_tasks : list CompletedTask := completedTasksWithTimes (E := utc_env) demo_run.

Lemma demo_run_whole : whole_timeline demo_run demo_run_tasks 1704067200000 1000 #10000.
Proof.
  assert (Ht : every (fun c => (ct_time c =! #(time_of c)) && (1704067200000 <=? time_of c) && (time_of c <? 2 ^ 51)) demo_run_tasks = true)
    by (vm_compute; reflexivity).
  assert (Hf : every (fun c => match ct_time c with S754_finite false _ _ => true | _ => false end) demo_run_tasks = true)
    by (vm_compute; reflexivity).
  split.
  - intros c Hc. apply (proj1 (every_iff _ _)) with (x := c) in Ht; [|exact Hc].
    apply (proj1 (every_iff _ _)) with (x := c) in Hf; [|exact Hc]. bool_simpl. split; [|lia].
    destruct (eqb_eq _ _ H) as [->|(s & s' & E & _)]; [reflexivity|]. rewrite E in Hf. discriminate Hf.
  - lia.
  - vm_compute. reflexivity.
  - split; [lia|vm_compute; reflexivity].
  - vm_compute. reflexivity.
  - vm_compute. reflexivity.
Qed.

Lemma timeline_conserves_witness :
  let l := reconstructed (E := utc_env) demo_run demo_run_tasks #1704067200000 #10000 in
  length l = 10%nat /\ (10 <= length l <= 30)%nat.
Proof.
  split; [vm_compute; reflexivity|].
  refine (proj1 (timeline_conserves (E := utc_env) demo_run demo_run_tasks 1704067200000 1000 #10000 demo_run_whole)).
Defined.

(** The reconstruction misses the last completion: the timeline of a run of
    ten completed tasks, all loaded, ends with nine. *)
Theorem last_completion_missed :
  completedJobTasks demo_run = #10 /\ count (in_tasks demo_run) = #10 /\
  snap_completedTasks <$> list.last (effectiveSnapshots (E := utc_env) demo_run []) = Some #9.
Proof. split; [|split]; vm_compute; reflexivity. Qed.
