(* ===== verification/TelemetryCapacity.v ===== *)
(** * Duration, capacity and peak of a job's report
    ([features/jobs/lib/useJobDiagnosticsTelemetry.ts], [finalSummary], lines 1009-1220)

    How long the job ran, what its routes and workers could have sustained, the
    highest rate seen, and how the one compares with the other. Measurements of
    the whole job count only once they cover every finished task. *)

From Stdlib Require Import ZArith Lia SpecFloat.
From stdpp Require Import base list strings option.
From S2P Require Import Prelude JsString JsNum JsValue JsDate RuntimeTelemetry JobTypes RuntimeChart.
From S2P Require Import DiagnosticsTypes Diagnostics TelemetryInputs TelemetrySampling TelemetryRates TelemetryTimeline.

(** The truthy part of a nullable number: [n ? n : null]. *)
Definition truthy_num (n : option num) : option num :=
  match n with Some x => if num_truthy x then Some x else None | None => None end.

Section capacity.
Context {E : Env} (i : TelemetryInputs).

(** The measurements of the whole job, once complete. *)
Definition complete_telemetry : option JobRuntimeTelemetry := if runtimeComplete i then runtimeTelemetry i else None.

(** [runtimeTelemetryComplete ? (runtimeTelemetry?.x ?? null) : null] *)
Definition measured (x : JobRuntimeTelemetry -> option num) : option num := complete_telemetry ≫= x.

(** In seconds, when it is not [null], and when it is truthy. *)
Definition measured_sec (x : JobRuntimeTelemetry -> option num) : option num := (fun ms => ms ⊘ #1000) <$> measured x.
Definition measured_truthy_sec (x : JobRuntimeTelemetry -> option num) : option num :=
  (fun ms => ms ⊘ #1000) <$> truthy_num (measured x).

(** ** Duration *)

Definition report_end : option string :=
  truthy_opt (details_or_job i completed_at None) ???
  (if negb (in_isLiveJob i) then in_details i ≫= last_activity_at else None).

Definition metadataDuration : num :=
  math_max #1 ((date_or report_end (referenceNowMs i) ⊖ date_or (job_startedAt i) (referenceNowMs i)) ⊘ #1000).

Definition activeWindow : option num := measured_truthy_sec (fun t => Some (rt_active_window_ms t)).

(** The job's own window is shorter than the tasks it ran. *)
Definition metadataWindowInvalid : bool :=
  match truthy_num activeWindow with
  | Some window => metadataDuration ⊕ #1 <! window ⊗ (#19 ⊘ #20)
  | None => false
  end.

Definition totalDuration : num :=
  math_max #1 (math_round (if metadataWindowInvalid then activeWindow ?? metadataDuration else metadataDuration)).

Definition durationDiscrepancy : option num :=
  (fun window => rounded 1 ((metadataDuration ⊖ window) ⊘ window ⊗ #100)) <$> truthy_num activeWindow.

Definition formatted_duration : string :=
  let hrs := math_floor (totalDuration ⊘ #3600) in
  let mins := math_floor (num_rem totalDuration #3600 ⊘ #60) in
  let secs := num_rem totalDuration #60 in
  if hrs >! #0 then show_num hrs +:+ "h " +:+ show_num mins +:+ "m " +:+ show_num secs +:+ "s"
  else if mins >! #0 then show_num mins +:+ "m " +:+ show_num secs +:+ "s"
  else show_num secs +:+ "s".

(** ** Averages *)

Definition loaded_items : num := sum_num (fun t => num_or (td_items_processed t) #0) (in_tasks i).

Definition itemsProcessedTotal : num :=
  match throughputUnit i with
  | Tasks => completedJobTasks i
  | Items => if loaded_items =! #0 then completedJobTasks i else loaded_items
  end.

Definition avgTasksPerSec : num := rounded 1 (completedJobTasks i ⊘ totalDuration).
Definition avgItemsPerSec : num := rounded 1 (itemsProcessedTotal ⊘ totalDuration).

(** ** Service times *)

Definition meanTaskDuration : option num := measured_truthy_sec rt_mean_task_duration_ms.

Definition serviceTime : num := meanTaskDuration ?? (if median i >! #0 then median i else default_latency).

(** [route_active_sum_ms / n / 1000] for a positive sum and a positive [n]. *)
Definition mean_route_sec (n : JobRuntimeTelemetry -> num) : option num :=
  complete_telemetry ≫= fun t =>
    if (n t >! #0) && (rt_route_active_sum_ms t >! #0) then Some (rt_route_active_sum_ms t ⊘ n t ⊘ #1000) else None.

Definition meanRouteActiveDuration : option num := mean_route_sec rt_task_count.
Definition meanRouteAttemptDuration : option num := mean_route_sec rt_route_attempts.

Definition attemptsPerTask : option num :=
  complete_telemetry ≫= fun t => if rt_task_count t >! #0 then Some (rt_route_attempts t ⊘ rt_task_count t) else None.

Definition routeServiceTime : num := meanRouteActiveDuration ?? serviceTime.

(** ** Ceilings *)

(** [Math.max(0.05, x)] *)
Definition at_least_50ms (x : num) : num := math_max (#1 ⊘ #20) x.

Definition proxyMax : num := rounded 1 (totalProxyCapacity i ⊘ at_least_50ms routeServiceTime).

Definition targetConcurrency : num :=
  resolveTargetConcurrency (in_job i) (in_details i) (totalProxyCapacity i) (in_workerPoolSize i).

Definition workerDemand : num :=
  let effective := measured rt_time_weighted_effective_worker_capacity ?? #0 in
  if effective >! #0 then effective else math_max #1 (in_workerPoolSize i ⊗ targetConcurrency).

Definition workerMax : num := rounded 1 (workerDemand ⊘ serviceTime).

Definition knows_capacity : bool := totalProxyCapacity i >! #0.

Definition governingCapacity : num := if knows_capacity then math_min proxyMax workerMax else workerMax.

Definition modelBottleneck : CapacityModelBottleneck :=
  if knows_capacity && (proxyMax <=! workerMax) then ModelProxyRoutes else ModelWorkerSlots.

(** ** The peak *)

Definition peakBurstCap : num :=
  if knows_capacity then rounded 1 (totalProxyCapacity i ⊘ math_min routeServiceTime (#1 ⊘ #2)) else #0.

Definition recordPeakRate (cap peak r : num) : num :=
  if (r <=! #0) || (cap <=! #0) then peak else math_max peak (rounded 1 (math_min r cap)).

Definition unit_rate (s : TelemetrySnapshot) : num :=
  match throughputUnit i with Items => snap_throughputItemsPerSec s | Tasks => snap_throughputTasksPerSec s end.

(** The rates between consecutive snapshots at least 0.4 s apart. *)
Fixpoint pair_rates (snapshots : list TelemetrySnapshot) : list num :=
  match snapshots with
  | previous :: ((next :: _) as rest) =>
      let dt := (snap_timestamp next ⊖ snap_timestamp previous) ⊘ #1000 in
      let dTasks := math_max #0 (snap_completedTasks next ⊖ snap_completedTasks previous) in
      let dItems := math_max #0 (snap_itemsProcessed next ⊖ snap_itemsProcessed previous) in
      (if (dt >=! #2 ⊘ #5) && (dTasks >! #0)
       then [match throughputUnit i with Items => dItems | Tasks => dTasks end ⊘ dt] else []) ++ pair_rates rest
  | _ => []
  end.

(** *** Completions within a second *)

Definition unit_weight (c : CompletedTask) : num :=
  match throughputUnit i with Items => num_or (td_items_processed (ct_task c)) #1 | Tasks => #1 end.

Fixpoint count_until (windowEnd : num) (tasks : list CompletedTask) (total : num) : num :=
  match tasks with
  | c :: rest => if ct_time c <=! windowEnd then count_until windowEnd rest (total ⊕ unit_weight c) else total
  | [] => total
  end.

Fixpoint max_in_second (tasks : list CompletedTask) (best : num) : num :=
  match tasks with
  | c :: rest =>
      let total := count_until (ct_time c ⊕ #1000) tasks #0 in
      max_in_second rest (if total >! best then total else best)
  | [] => best
  end.

Definition burst_rates : list num :=
  match completedTasksWithTimes i with
  | (_ :: _ :: _) as tasks => let best := max_in_second tasks #0 in if best >! #0 then [rounded 1 best] else []
  | _ => []
  end.

Section peak.
Variables (snapshots : list TelemetrySnapshot) (stats : ThroughputStats).

Definition recorded_rates : list num :=
  pair_rates snapshots ++ map unit_rate snapshots ++ map unit_rate (effectiveSnapshots i snapshots) ++ burst_rates.

Definition recordedPeak : num := foldl (recordPeakRate peakBurstCap) #0 recorded_rates.

Definition peakRate : num :=
  let current := match throughputUnit i with Items => currentItemsPerSec stats | Tasks => currentTasksPerSec stats end in
  let overall := match throughputUnit i with Items => avgItemsPerSec | Tasks => avgTasksPerSec end in
  rounded 1 (math_min peakBurstCap (math_max (math_max recordedPeak current) overall)).

Definition peakCapped : bool := (peakBurstCap >! #0) && (peakRate >=! peakBurstCap).
End peak.

(** ** Efficiency *)

Definition activeThroughput : num :=
  match complete_telemetry with
  | Some t => if rt_active_window_ms t >! #0 then rt_task_count t ⊘ (rt_active_window_ms t ⊘ #1000) else avgItemsPerSec
  | None => avgItemsPerSec
  end.

Definition efficiency : num := rounded 1 (activeThroughput ⊘ math_max #1 governingCapacity ⊗ #100).

Definition steadyThroughput : option num := measured rt_steady_throughput.

Definition steadyServiceTime : num := measured_truthy_sec rt_steady_mean_task_duration_ms ?? serviceTime.

Definition steadyCeiling : num :=
  let proxy := totalProxyCapacity i ⊘ at_least_50ms routeServiceTime in
  let worker := workerDemand ⊘ at_least_50ms steadyServiceTime in
  if knows_capacity then math_min proxy worker else worker.

Definition steadyEfficiency : option num := (fun x => rounded 1 (x ⊘ steadyCeiling ⊗ #100)) <$> steadyThroughput.

Definition rampDrain : option num :=
  complete_telemetry ≫= fun t =>
    ramp ← rt_ramp_window_ms t;
    drain ← rt_drain_window_ms t;
    if (rt_active_window_ms t >! #0) && (ramp ⊕ drain <=! rt_active_window_ms t)
    then Some (rounded 1 ((ramp ⊕ drain) ⊘ rt_active_window_ms t ⊗ #100)) else None.
End capacity.
