(* ===== verification/TelemetryOccupancy.v ===== *)
(** * Occupancy and concurrency of a job's report
    ([features/jobs/lib/useJobDiagnosticsTelemetry.ts], [finalSummary], lines 1222-1400)

    Why the steady rate stays under the ceiling, and how many tasks and routes
    were active on average. *)

From Stdlib Require Import ZArith Lia SpecFloat.
From stdpp Require Import base list strings option.
From S2P Require Import Prelude JsString JsNum JsValue JsDate RuntimeTelemetry JobTypes RuntimeChart.
From S2P Require Import DiagnosticsTypes Diagnostics TelemetryInputs TelemetrySampling TelemetryRates TelemetryTimeline.
From S2P Require Import TelemetryCapacity.

Section occupancy.
Context {E : Env} (i : TelemetryInputs).

(** ** Workers and the ready queue *)

Definition seen_workers : option num := measured i (fun t => Some (rt_workers_seen t)).
Definition expected_workers : option num := measured i (fun t => Some (rt_expected_workers t)).

Definition readyPercent : option num := (fun r => rounded 1 (r ⊗ #100)) <$> measured i rt_ready_nonempty_ratio.

Definition readyTimelineStats : ReadyTimeline := summarizeReadyQueueTimeline (in_jobRuntimeSamples i) None.

(** The queue during the steady part of the run, between ramp and drain. *)
Definition steadyReadyStats : option ReadyTimeline :=
  complete_telemetry i ≫= fun t =>
    ramp ← rt_ramp_window_ms t;
    drain ← rt_drain_window_ms t;
    let startMs := date_ms (rt_first_started_at t ?? EmptyString) ⊕ ramp in
    let endMs := date_ms (rt_last_finished_at t ?? EmptyString) ⊖ drain in
    if is_finite startMs && is_finite endMs && (endMs >! startMs)
    then Some (summarizeReadyQueueTimeline (in_jobRuntimeSamples i) (Some (startMs, endMs))) else None.

Definition steadyReadyPercent : option num := steadyReadyStats ≫= nonemptyPercent.

Definition recoveryCount : num := measured i (fun t => Some (rt_ready_queue_recovery_count t)) ?? #0.
Definition recoveredTasks : num := measured i (fun t => Some (rt_ready_queue_recovered_tasks t)) ?? #0.
Definition completionGap : option num := measured i (fun t => Some (rt_max_worker_completion_gap_ms t)).

(** ** The gap *)

Definition workers_missing : bool :=
  match expected_workers, seen_workers with
  | Some expected, Some seen => (expected >! #0) && (seen <! expected)
  | _, _ => false
  end.

Definition below (x : option num) (bound : num) : bool := match x with Some v => v <! bound | None => false end.

Definition percent (x : num) : string := show_num x +:+ "%".

Definition recovery_text : string :=
  "Backend routing recovery restored " +:+ show_num recoveredTasks +:+ " ready task" +:+
  (if recoveredTasks =! #1 then EmptyString else "s") +:+ " across " +:+ show_num recoveryCount +:+
  " stalled-queue repair" +:+ (if recoveryCount =! #1 then EmptyString else "s") +:+
  "; the lifetime gap is a dispatch routing stall, not ordinary ramp/drain.".

(** For a measured steady efficiency. *)
Definition steady_gap (steady : num) : OccupancyGap * string :=
  if (steady >=! #90) && (steady >=! efficiency i ⊕ #5) then
    (GapRampDrain, "Steady-state efficiency reached " +:+ percent steady +:+ ", while active-window efficiency was " +:+
       percent (efficiency i) +:+ "; ramp and drain boundaries account for the remaining lifetime dilution.")
  else if workers_missing then
    (GapWorkerAvailability, "Only " +:+ show_num (seen_workers ?? #0) +:+ " of " +:+ show_num (expected_workers ?? #0) +:+
       " expected workers participated in this job.")
  else if below steadyReadyPercent #10 then
    (GapQueueStarvation, "The ready queue was non-empty during " +:+ percent (steadyReadyPercent ?? #0) +:+ " of " +:+
       show_num ((coveredSeconds <$> steadyReadyStats) ?? nan) +:+
       "s of covered steady-state intervals, indicating limited runnable-work supply in that window.")
  else if (steady <! #90) && below steadyReadyPercent #90 then
    (GapIntermittentReadySupply, "Steady-state efficiency remained " +:+ percent steady +:+
       ", and the ready queue was non-empty during " +:+ percent (steadyReadyPercent ?? #0) +:+
       " of covered steady-state intervals. This indicates intermittent runnable-work supply in the same window.")
  else if steady <! #90 then
    (GapInsufficientData,
     match steadyReadyPercent with
     | Some ready =>
         "Steady-state efficiency remained " +:+ percent steady +:+ " while the ready queue was non-empty during " +:+
         percent ready +:+ " of covered steady-state intervals and " +:+ show_num (seen_workers ?? #0) +:+ "/" +:+
         show_num (expected_workers ?? #0) +:+
         " workers participated; work supply was usually present, but the remaining worker-slot or service-phase cause is not isolated by this measure."
     | None =>
         "Steady-state efficiency remained " +:+ percent steady +:+
         ". No ready-queue timeline aligned with the steady-state window is available. Task-completion samples and lifetime intervals cannot distinguish steady-state work-supply gaps from ramp, drain or service-phase waits."
     end)
  else
    (GapSteadyStateSaturated, "Steady-state efficiency reached " +:+ percent steady +:+ " with the expected worker participation.").

Definition occupancy_gap : OccupancyGap * string :=
  if recoveryCount >! #0 then (GapRoutingStall, recovery_text)
  else
    match steadyEfficiency i with
    | Some steady => steady_gap steady
    | None => (GapInsufficientData, "Steady-state occupancy telemetry is unavailable.")
    end.

(** ** Proxies *)

Definition bottleneckFactor : num :=
  rounded 2 (math_min (totalProxyCapacity i) (in_workerPoolSize i) ⊘ math_max #1 (in_workerPoolSize i)).

Definition status_eqb (a b : AnomalyStatus) : bool :=
  match a, b with
  | AnomalyCritical, AnomalyCritical | AnomalyDegraded, AnomalyDegraded | AnomalyHealthy, AnomalyHealthy => true
  | _, _ => false
  end.

Definition proxies_with (st : AnomalyStatus) (anomalies : list ProxyAnomaly) : num :=
  count (keep (fun p => status_eqb (anomaly_status p) st) anomalies).

Definition healthy_proxies (anomalies : list ProxyAnomaly) : num :=
  math_max #0 (totalProxyCapacity i ⊖ proxies_with AnomalyDegraded anomalies ⊖ proxies_with AnomalyCritical anomalies).

(** ** Concurrency *)

Definition littlesLaw : num := rounded 1 (math_min (totalProxyCapacity i) (avgTasksPerSec i ⊗ serviceTime i)).

Definition measuredInflight : option num := measured i rt_time_weighted_inflight.
Definition measuredRoutes : option num := measured i rt_time_weighted_active_routes.

Definition active_bucket (s : TelemetrySnapshot) : bool :=
  (snap_completedTasks s >! #0) && ((snap_throughputTasksPerSec s >! #0) || (snap_throughputItemsPerSec s >! #0)) &&
  (snap_inflightTasks s >! #0).

Definition routes_for (concurrency : num) : num := math_min (totalProxyCapacity i) (math_round concurrency).

(** [if (measured != null) x = measured] *)
Definition estimated (effective : list TelemetrySnapshot) : num * num :=
  if negb (in_isLiveJob i) && (littlesLaw >! #0) then
    let concurrency := measuredInflight ?? littlesLaw in (concurrency, routes_for (measuredRoutes ?? concurrency))
  else
    let active := keep active_bucket effective in
    match active with
    | _ :: _ =>
        let observed := rounded 1 (sum_num snap_inflightTasks active ⊘ count active) in
        let concurrency :=
          if (observed >=! (#3 ⊘ #4) ⊗ littlesLaw) && (observed >! #0) then observed
          else if littlesLaw >! #0 then littlesLaw else observed in
        (concurrency, routes_for concurrency)
    | [] =>
        let concurrency :=
          if littlesLaw >! #0 then littlesLaw else if in_isLiveJob i then inflightJobTasks i else #0 in
        (concurrency, routes_for concurrency)
    end.

Definition average_concurrency (effective : list TelemetrySnapshot) : num * num :=
  let '(c0, r0) := estimated effective in
  let c := measuredInflight ?? c0 in
  let r := (math_round <$> measuredRoutes) ?? r0 in
  if (c =! #0) && negb (in_isLiveJob i) && (avgTasksPerSec i >! #0) then (littlesLaw, routes_for littlesLaw) else (c, r).

Definition proxy_utilization (routes : num) : num :=
  if knows_capacity i then rounded 1 (routes ⊘ totalProxyCapacity i ⊗ #100) else #0.
End occupancy.
