(* ===== verification/TelemetryAdvice.v ===== *)
(** * The recommendations of a job's report
    ([features/jobs/lib/useJobDiagnosticsTelemetry.ts], [finalSummary], lines 1402-1580)

    The texts pushed onto the list, each under its conditions, in order. *)

From Stdlib Require Import Ascii ZArith Lia SpecFloat.
From stdpp Require Import base list strings option.
From S2P Require Import JsSort.
From S2P Require Import Prelude JsString JsNum JsValue JsDate RuntimeTelemetry JobTypes RuntimeChart.
From S2P Require Import DiagnosticsTypes Diagnostics TelemetryInputs TelemetrySampling TelemetryRates TelemetryTimeline.
From S2P Require Import TelemetryCapacity TelemetryOccupancy.

(** [[...entries].sort((a, b) => b[1] - a[1])[0]] of a non-empty literal. *)
Definition dominant (entries : list (string * num)) : string * num :=
  head (stable_sort (larger_first snd) entries) ?? (EmptyString, #0).

(** The double quote character. *)
Definition quote : string := String (Ascii.ascii_of_nat 34) EmptyString.

(** *** Subphases, by the names the texts use *)

Definition ms (x : option num) : num := x ?? #0.

Definition writer_subphases (t : JobRuntimeTelemetry) : list (string * num) :=
  [("admission", ms (rt_mean_writer_admission_ms t));
   ("writer queue", ms (rt_mean_writer_queue_ms t));
   ("SQL execution", ms (rt_mean_writer_execution_ms t));
   ("SQL commit", ms (rt_mean_writer_commit_ms t));
   ("co-batch command work", ms (rt_mean_writer_batch_peer_work_ms t));
   ("writer overhead", ms (rt_mean_writer_overhead_ms t));
   ("result delivery", ms (rt_mean_writer_delivery_ms t))].

Definition writer_internal_subphases (t : JobRuntimeTelemetry) : list (string * num) :=
  [("connection checkout", ms (rt_mean_writer_connection_checkout_ms t));
   ("receipt lookup", ms (rt_mean_writer_receipt_lookup_ms t));
   ("receipt finalization", ms (rt_mean_writer_receipt_finalize_ms t));
   ("payload mapping", ms (rt_mean_writer_payload_ms t));
   ("user row synchronization", ms (rt_mean_writer_user_row_ms t));
   ("alias synchronization", ms (rt_mean_writer_alias_ms t));
   ("authority reconciliation", ms (rt_mean_writer_authority_ms t));
   ("profile record synchronization", ms (rt_mean_writer_profile_ms t));
   ("social synchronization", ms (rt_mean_writer_social_ms t));
   ("transaction flush", ms (rt_mean_writer_flush_ms t))].

Definition handler_ms (t : JobRuntimeTelemetry) : num := ms (rt_mean_handler_ms t).
Definition writer_ms (t : JobRuntimeTelemetry) : num := ms (rt_mean_writer_ms t).

(** The handler's time without the writer's. *)
Definition exclusive_handler_ms (t : JobRuntimeTelemetry) : num :=
  rt_mean_handler_exclusive_ms t ?? math_max #0 (handler_ms t ⊖ writer_ms t).

(** The phase [getServicePhases] ranks first. *)
Definition largest_phase (t : JobRuntimeTelemetry) : string * num :=
  dominant (phases_of (ms (rt_mean_setup_ms t) ⊘ #1000) (exclusive_handler_ms t ⊘ #1000) (writer_ms t ⊘ #1000)
              (ms (rt_mean_post_ms t) ⊘ #1000) (ms (rt_mean_release_ms t) ⊘ #1000) false).

Definition batch_fill (t : JobRuntimeTelemetry) : num := ms (rt_mean_writer_batch_fill_ratio t) ⊗ #100.

Definition fragmented (t : JobRuntimeTelemetry) : bool := (batch_fill t >! #0) && (batch_fill t <! #50).

Definition ledger_prepare_ms (t : JobRuntimeTelemetry) : num :=
  ((tc_ms <$> (rt_ledger_stats t ≫= JMap.get "writer_prepare")) ?? #0) ⊘ math_max #1 (rt_task_count t).

Definition fixed_s (n : num) : string := to_fixed 3 n +:+ "s".

Definition writer_advice (t : JobRuntimeTelemetry) : string :=
  let '(phase, phase_ms) := dominant (writer_subphases t) in
  let '(inner, inner_ms) := dominant (writer_internal_subphases t) in
  let capacityWait := ms (rt_mean_writer_admission_capacity_wait_ms t) in
  if (phase =s "writer queue") && fragmented t then
    "Writer batching is fragmented at " +:+ to_fixed 1 (batch_fill t) +:+
    "% of the configured per-lane target while the queue dominates. Inspect operation/domain distribution and dense-wave refill timing before adding writer lanes."
  else if (phase =s "admission") && (ledger_prepare_ms t >! phase_ms ⊘ #2) then
    "Writer admission includes " +:+ to_fixed 2 (ledger_prepare_ms t) +:+
    "ms/task of ledger checkpoint wait. Inspect ledger SQL and thread admission; bounded queue-capacity wait is " +:+
    to_fixed 2 capacityWait +:+ "ms/task."
  else if (phase =s "admission") && (capacityWait >! phase_ms ⊘ #2) then
    "Writer admission is dominated by " +:+ to_fixed 2 capacityWait +:+
    "ms/task of bounded queue-capacity wait; reduce the downstream queue before expanding producer concurrency."
  else if (phase =s "writer queue") && (rt_writer_configured_concurrency t >! #0) then
    "Writer queue dominates with " +:+ to_fixed 1 (ms (rt_mean_writer_active_lanes t)) +:+ " of " +:+
    show_num (rt_writer_configured_concurrency t) +:+
    " lanes active on average; the largest measured internal subphase is " +:+ inner +:+ " at " +:+
    to_fixed 2 inner_ms +:+ "ms per task."
  else if phase_ms >! #0 then
    "Profile and optimize " +:+ phase +:+ "; it is the largest measured writer subphase at " +:+
    fixed_s (phase_ms ⊘ #1000) +:+ " per task."
  else "Writer subphase coverage is unavailable; inspect queue depth, execution, commit latency, and result delivery.".

(** The second target named when the handler dominates. *)
Definition secondary_advice (t : JobRuntimeTelemetry) : list string :=
  let queue := ms (rt_mean_writer_queue_ms t) in
  let sql := ms (rt_mean_writer_execution_ms t) ⊕ ms (rt_mean_writer_commit_ms t) in
  if (writer_ms t >! #0) && (queue >=! ms (rt_mean_writer_admission_ms t)) && (queue >! sql) then
    [if fragmented t then
       "Secondary service-time target: writer queue wait is " +:+ fixed_s (queue ⊘ #1000) +:+
       " per task while batches average " +:+ to_fixed 1 (batch_fill t) +:+
       "% fill. Improve batch formation and dense-wave refill scheduling before adding writer lanes."
     else
       "Secondary service-time target: writer queue wait is " +:+ fixed_s (queue ⊘ #1000) +:+
       " per task. Inspect lane scheduling and refill timing before adding writer lanes."]
  else [].

Definition phase_advice (t : JobRuntimeTelemetry) : list string :=
  let '(phase, seconds) := largest_phase t in
  let largest (p : string) := (phase =s p) && (seconds >! #0) in
  if largest "Terminal State Update" then
    ["Terminal State Update is the largest measured phase at " +:+ fixed_s seconds +:+
     " per task. Inspect finish-lock waiting, output persistence, and the completion counter transition; compare archive lease duration with worker completion gaps."]
  else if largest "Worker Setup" then
    ["Worker Setup is the largest measured phase at " +:+ fixed_s seconds +:+
     " per task. Inspect the measured locking, event, claim, and registry subphases before changing upstream routes."]
  else if largest "Release / Publication" then
    ["Release / Publication is the largest measured phase at " +:+ fixed_s seconds +:+
     " per task. Inspect worker cleanup, lock release, and progress publication."]
  else if (writer_ms t >=! exclusive_handler_ms t) && (writer_ms t >! #0) then [writer_advice t]
  else if exclusive_handler_ms t >! #0 then
    "Profile upstream request and route-attempt stages inside the handler; handler work is the largest measured phase."
    :: secondary_advice t
  else [].

Section advice.
Context {E : Env} (i : TelemetryInputs) (anomalies : list ProxyAnomaly).

Definition failure_text : option string :=
  if failedJobTasks i >! #0 then Some (show_num (failedJobTasks i) +:+ " recorded task failure(s)") else None.

Definition termination_reason : option string :=
  truthy_opt (in_details i ≫= result_error) ??? (truthy_opt (result_error (in_job i)) ???
  (truthy_opt (in_details i ≫= result_message) ??? (truthy_opt (result_message (in_job i)) ??? failure_text))).

(** [if (condition) recs.push(text)] *)
Definition push_if (condition : bool) (text : string) : list string := if condition then [text] else [].

Definition terminal_tasks : num := completedJobTasks i ⊕ failedJobTasks i.

Definition waiting_advice : list string :=
  push_if (in_isLiveJob i && (terminal_tasks =! #0))
    ("No tasks have completed after " +:+ formatted_duration i +:+
     ". In-flight tasks may be waiting before upstream execution; claimed task slots alone do not establish proxy saturation or a completion ETA.").

Definition window_advice : list string :=
  match activeWindow i with
  | Some window =>
      push_if (metadataWindowInvalid i)
        ("Job metadata duration (" +:+ to_fixed 1 (metadataDuration i) +:+
         "s) was shorter than the full task-active window (" +:+ to_fixed 1 window +:+
         "s). Throughput and displayed duration use the task-active window for this report.")
  | None => []
  end.

Definition headroom_advice : list string :=
  push_if (totalProxyCapacity i <! in_workerPoolSize i)
    ("Proxy Capacity Headroom: Current proxy pool (" +:+ show_num (totalProxyCapacity i) +:+
     " routes) restricts concurrency below the " +:+ show_num (in_workerPoolSize i) +:+ " worker pool. Adding " +:+
     show_num ((in_workerPoolSize i ⊖ totalProxyCapacity i) ⊕ #10) +:+
     " more proxies will eliminate queue contention and boost peak throughput toward ~" +:+ show_num (workerMax i) +:+ "/s.").

Definition route_advice : list string :=
  push_if (proxies_with AnomalyCritical anomalies >! #0)
    ("Route Health: " +:+ show_num (proxies_with AnomalyCritical anomalies) +:+
     " proxy route(s) triggered repeated 429 rate limits or timeouts. Use " +:+ quote +:+ "Copy Problematic Proxies" +:+ quote +:+
     " to review and rotate these endpoints.").

Definition retry_advice : list string :=
  push_if ((failedJobTasks i >! #0) && (failedJobTasks i <=! #1000))
    ("Selective Retry Scope: " +:+ show_num (failedJobTasks i) +:+ " task(s) failed (" +:+
     to_fixed 2 (failedJobTasks i ⊘ math_max #1 terminal_tasks ⊗ #100) +:+
     "% error rate). The backend supports selective retries of failed tasks without invalidating the " +:+
     number_toLocaleString (completedJobTasks i) +:+ " completed items.").

Definition ceiling_advice : list string :=
  push_if (match termination_reason with Some r => includes (to_lower r) "25/25" | None => false end)
    "Safety Ceiling Tripped: The job halted because the non-fatal failure threshold (25 errors within 60s) was reached. Check proxy route connectivity or rate limits before restarting.".

Definition coverage_advice : list string :=
  push_if (negb (in_isLiveJob i) && (completedJobTasks i >! #0) && negb (runtimeComplete i))
    ("Runtime telemetry covers " +:+ show_num ((rt_task_count <$> runtimeTelemetry i) ?? #0) +:+ "/" +:+
     show_num (runtimeTerminalTasks i) +:+
     " terminal tasks. Full-job phase and occupancy measurements are unavailable; capacity estimates use lifetime throughput and sampled task latency and cannot identify a worker-concurrency or claim-batch bottleneck.").

Definition measured_advice : list string :=
  match complete_telemetry i with
  | Some t =>
      if in_isLiveJob i then []
      else
        let '(gap, text) := occupancy_gap i in
        match gap with GapSteadyStateSaturated | GapIntermittentReadySupply => [] | _ => [text] end ++
        phase_advice t ++
        match gap with GapIntermittentReadySupply => ["Occupancy observation: " +:+ text] | _ => [] end
  | None => []
  end.

Definition recommended : list string :=
  match waiting_advice ++ window_advice ++ headroom_advice ++ route_advice ++ retry_advice ++ ceiling_advice ++
        coverage_advice ++ measured_advice with
  | [] => [if runtimeComplete i then "No anomalies were identified in the available runtime measurements."
           else "Runtime telemetry is incomplete. Verify worker participation, ready work and service-phase timing before assessing throughput."]
  | texts => texts
  end.
End advice.
