(* ===== verification/TelemetrySummary.v ===== *)
(** * The final report of a job
    ([features/jobs/lib/useJobDiagnosticsTelemetry.ts], [finalSummary], lines 1582-1830)

    The report's fields from the parts modelled in [TelemetryCapacity],
    [TelemetryOccupancy] and [TelemetryAdvice] and from the complete telemetry. *)

From Stdlib Require Import ZArith Lia SpecFloat.
From stdpp Require Import base list strings option.
From S2P Require Import JsSort.
From S2P Require Import Prelude JsString JsNum JsValue JsDate RuntimeTelemetry JobTypes RuntimeChart.
From S2P Require Import DiagnosticsTypes Diagnostics TelemetryInputs TelemetrySampling TelemetryRates TelemetryTimeline.
From S2P Require Import TelemetryCapacity TelemetryOccupancy TelemetryAdvice.

(** ** Dominant subphases *)

(** The handler's time without the writer's, as the report computes it. *)
Definition report_handler_ms (t : JobRuntimeTelemetry) : num :=
  rt_mean_handler_exclusive_ms t ?? math_max #0 (ms (rt_mean_handler_ms t) ⊖ ms (rt_mean_writer_ms t)).

Definition handler_residual (t : JobRuntimeTelemetry) : num :=
  math_max #0 (report_handler_ms t ⊖ ms (rt_mean_handler_guest_init_ms t) ⊖ ms (rt_mean_handler_initial_lookup_ms t)
    ⊖ ms (rt_mean_handler_refresh_api_ms t) ⊖ ms (rt_mean_handler_fallback_retry_ms t)
    ⊖ ms (rt_mean_handler_serialization_ms t)).

Definition handler_subphases (t : JobRuntimeTelemetry) : list (string * num) :=
  [("Guest Initialization", ms (rt_mean_handler_guest_init_ms t));
   ("Initial User Lookup", ms (rt_mean_handler_initial_lookup_ms t));
   ("Refresh / Auxiliary API", ms (rt_mean_handler_refresh_api_ms t));
   ("Fallback / Retry Delay", ms (rt_mean_handler_fallback_retry_ms t));
   ("Payload Serialization", ms (rt_mean_handler_serialization_ms t));
   ("Other Handler Work", handler_residual t)].

Definition setup_subphase_times (t : JobRuntimeTelemetry) : list (string * num) :=
  match rt_setup_subphases t with
  | Some m => map (fun e => (e.1, sub_mean_ms e.2)) (keep (fun e => negb (e.1 =s "residual")) m)
  | None => []
  end.

Definition report_writer_subphases (t : JobRuntimeTelemetry) : list (string * num) :=
  [("Producer Admission", ms (rt_mean_writer_admission_ms t));
   ("Writer Queue", ms (rt_mean_writer_queue_ms t));
   ("SQL Execution", ms (rt_mean_writer_execution_ms t));
   ("SQL Commit", ms (rt_mean_writer_commit_ms t));
   ("Co-batch Command Work", ms (rt_mean_writer_batch_peer_work_ms t));
   ("Writer Overhead", ms (rt_mean_writer_overhead_ms t));
   ("Result Delivery", ms (rt_mean_writer_delivery_ms t))].

Definition execution_subphases (t : JobRuntimeTelemetry) : list (string * num) :=
  [("Connection Checkout", ms (rt_mean_writer_connection_checkout_ms t));
   ("Receipt Lookup", ms (rt_mean_writer_receipt_lookup_ms t));
   ("Receipt Finalization", ms (rt_mean_writer_receipt_finalize_ms t));
   ("Payload Mapping", ms (rt_mean_writer_payload_ms t));
   ("User Row", ms (rt_mean_writer_user_row_ms t));
   ("Alias Sync", ms (rt_mean_writer_alias_ms t));
   ("Authority Reconciliation", ms (rt_mean_writer_authority_ms t));
   ("Profile Records", ms (rt_mean_writer_profile_ms t));
   ("Social Sync", ms (rt_mean_writer_social_ms t));
   ("Transaction Flush", ms (rt_mean_writer_flush_ms t))].

(** [entries.sort((a, b) => b[1] - a[1])[0]?.[0] ?? null] *)
Definition dominant_name (entries : list (string * num)) : option string :=
  fst <$> head (stable_sort (larger_first snd) entries).

(** What the report reads of a domain's statistics. *)
Definition domain_stat (s : WriterOperationStat) : WriterDomainStat := {|
  domain_count := op_count s;
  domain_mean_batch_commands := op_mean_batch_commands s;
  domain_mean_batch_wall_ms := op_mean_batch_wall_ms s
|}.

Section summary.
Context {E : Env} (i : TelemetryInputs).

(** [runtimeTelemetryComplete ? runtimeTelemetry?.x : 0] *)
Definition measured_or_zero (x : JobRuntimeTelemetry -> option num) : option num :=
  match complete_telemetry i with Some t => x t | None => Some #0 end.

(** [runtimeTelemetryComplete ? (runtimeTelemetry?.x ?? 0) : 0] *)
Definition measured_count (x : JobRuntimeTelemetry -> option num) : option num := Some (measured i x ?? #0).

(** [runtimeTelemetryComplete && ratio != null ? Number((ratio * 100).toFixed(1)) : null] *)
Definition measured_percent (x : JobRuntimeTelemetry -> option num) : option num :=
  (fun r => rounded 1 (r ⊗ #100)) <$> measured i x.

(** [n / d] rounded, for a positive [d]. *)
Definition measured_ratio (digits : nat) (n d : JobRuntimeTelemetry -> num) : option num :=
  complete_telemetry i ≫= fun t => if d t >! #0 then Some (rounded digits (n t ⊘ d t)) else None.

Definition submits_per_second : option num :=
  complete_telemetry i ≫= fun t =>
    if rt_active_window_ms t >! #0
    then Some (rounded 1 (rt_writer_timed_submits t ⊘ (rt_active_window_ms t ⊘ #1000))) else None.

Definition authority_skip_percent : option num :=
  complete_telemetry i ≫= fun t =>
    let examined := ms (rt_writer_authority_rows_examined t) in
    if examined >! #0 then Some (rounded 1 (ms (rt_writer_authority_rows_skipped t) ⊘ examined ⊗ #100)) else None.

Definition job_outcome : string :=
  to_lower (truthy_opt (job_status <$> in_details i) ?? str_or (job_status (in_job i)) "unknown").

Definition finalSummary (snapshots : list TelemetrySnapshot) (stats : ThroughputStats) (anomalies : list ProxyAnomaly) :
    FinalReportSummary :=
  let concurrency := average_concurrency i (effectiveSnapshots i snapshots) in
  let gap := occupancy_gap i in
  {| jobOutcome := job_outcome;
     totalDurationFormatted := formatted_duration i;
     totalDurationSec := totalDuration i;
     metadataDurationSec := Some (rounded 1 (metadataDuration i));
     telemetryActiveWindowSec := rounded 1 <$> activeWindow i;
     durationDiscrepancyPercent := durationDiscrepancy i;
     durationSource := Some (if metadataWindowInvalid i then TaskActiveWindow else JobMetadataSource);
     overallAvgItemsPerSec := avgItemsPerSec i;
     overallAvgTasksPerSec := avgTasksPerSec i;
     peakItemsPerSec := peakRate i snapshots stats;
     efficiencyPercent := efficiency i;
     proxyBottleneckFactor := bottleneckFactor i;
     theoreticalMaxItemsPerSec := governingCapacity i;
     theoreticalProxyMaxItemsPerSec := Some (proxyMax i);
     theoreticalWorkerMaxItemsPerSec := Some (workerMax i);
     capacityModelBottleneck := Some (modelBottleneck i);
     failedTaskCount := Some (failedJobTasks i);
     terminationReason := termination_reason i;
     healthyProxyCount := healthy_proxies i anomalies;
     degradedProxyCount := proxies_with AnomalyDegraded anomalies;
     criticalProxyCount := proxies_with AnomalyCritical anomalies;
     avgActiveConcurrency := concurrency.1;
     avgActiveProxyRoutes := concurrency.2;
     avgActiveProxyUtilization := proxy_utilization i concurrency.2;
     recommendations := recommended i anomalies;
     summary_unit := Some (throughputUnit i);
     summary_peakScope := Some (quality_peakScope (telemetryQuality i));
     peakWasCapped := peakCapped i snapshots stats;
     runtimeTelemetryComplete := runtimeComplete i;
     meanTaskDurationSec := meanTaskDuration i;
     meanRouteActiveDurationSec := meanRouteActiveDuration i;
     meanRouteAttemptDurationSec := meanRouteAttemptDuration i;
     routeAttemptsPerTask := attemptsPerTask i;
     routeLookupStats := complete_telemetry i ≫= rt_route_lookup_stats;
     meanHandlerGuestInitMs := measured i rt_mean_handler_guest_init_ms;
     handlerGuestInitCount := measured_or_zero rt_handler_guest_init_count;
     meanHandlerInitialLookupMs := measured i rt_mean_handler_initial_lookup_ms;
     handlerInitialLookupCount := measured_or_zero rt_handler_initial_lookup_count;
     meanHandlerRefreshApiMs := measured i rt_mean_handler_refresh_api_ms;
     handlerRefreshApiCount := measured_or_zero rt_handler_refresh_api_count;
     meanHandlerFallbackRetryMs := measured i rt_mean_handler_fallback_retry_ms;
     handlerFallbackRetryCount := measured_or_zero rt_handler_fallback_retry_count;
     meanHandlerSerializationMs := measured i rt_mean_handler_serialization_ms;
     handlerSerializationCount := measured_or_zero rt_handler_serialization_count;
     meanHandlerResidualMs := handler_residual <$> complete_telemetry i;
     dominantHandlerSubphase := complete_telemetry i ≫= fun t => dominant_name (handler_subphases t);
     meanQueueWaitSec := measured_sec i rt_mean_queue_wait_ms;
     meanSetupSec := measured_sec i rt_mean_setup_ms;
     setupSubphases := complete_telemetry i ≫= rt_setup_subphases;
     dominantSetupSubphase := complete_telemetry i ≫= fun t => dominant_name (setup_subphase_times t);
     meanHandlerSec := measured_sec i (fun t => Some (report_handler_ms t));
     meanWriterSec := measured_sec i rt_mean_writer_ms;
     meanPostSec := measured_sec i rt_mean_post_ms;
     meanReleaseSec := measured_sec i rt_mean_release_ms;
     activeWindowThroughput := (fun _ => rounded 1 (activeThroughput i)) <$> complete_telemetry i;
     steadyStateThroughput := steadyThroughput i;
     steadyStateCapacityItemsPerSec := (fun _ => rounded 1 (steadyCeiling i)) <$> complete_telemetry i;
     steadyStateEfficiencyPercent := steadyEfficiency i;
     rampDrainPercent := rampDrain i;
     meanClaimWaitMs := measured i rt_mean_claim_wait_ms;
     meanWriterAdmissionMs := measured i rt_mean_writer_admission_ms;
     meanWriterAdmissionSerializationMs := measured i rt_mean_writer_admission_serialization_ms;
     meanWriterAdmissionCapacityWaitMs := measured i rt_mean_writer_admission_capacity_wait_ms;
     meanWriterAdmissionRedisMs := measured i rt_mean_writer_admission_redis_ms;
     meanWriterAdmissionOverheadDetailMs := measured i rt_mean_writer_admission_overhead_detail_ms;
     meanWriterQueueMs := measured i rt_mean_writer_queue_ms;
     meanWriterExecutionMs := measured i rt_mean_writer_execution_ms;
     meanWriterCommitMs := measured i rt_mean_writer_commit_ms;
     meanWriterOverheadMs := measured i rt_mean_writer_overhead_ms;
     meanWriterBatchPeerWorkMs := measured i rt_mean_writer_batch_peer_work_ms;
     meanWriterDeliveryMs := measured i rt_mean_writer_delivery_ms;
     meanWriterResultPublicationMs := measured i rt_mean_writer_result_publication_ms;
     meanWriterResultObservationMs := measured i rt_mean_writer_result_observation_ms;
     meanWriterResultDeliveryResidualMs := measured i rt_mean_writer_result_delivery_residual_ms;
     writerResultDeliverySplitCoveragePercent := measured_percent rt_writer_result_delivery_split_coverage_ratio;
     writerTimedSubmits := measured_count (fun t => Some (rt_writer_timed_submits t));
     writerSubmitsPerTask := measured_ratio 3 rt_writer_timed_submits rt_task_count;
     writerSubmitsPerSec := submits_per_second;
     writerResultCacheHits := measured_count rt_writer_result_cache_hits;
     writerReceiptFallbacks := measured_count rt_writer_receipt_fallbacks;
     writerResultCacheHitPercent := measured_percent rt_writer_result_cache_hit_ratio;
     writerSplitMissingReasons := Some ((complete_telemetry i ≫= rt_writer_split_missing_reasons) ?? []);
     writerOperationStats := Some ((complete_telemetry i ≫= rt_writer_operation_stats) ?? []);
     writerDomainStats :=
       Some (map (fun e => (e.1, domain_stat e.2)) ((complete_telemetry i ≫= rt_writer_domain_stats) ?? []));
     writerTimingCoveragePercent := measured_percent rt_writer_timing_coverage_ratio;
     dominantWriterSubphase := complete_telemetry i ≫= fun t => dominant_name (report_writer_subphases t);
     meanWriterConnectionCheckoutMs := measured i rt_mean_writer_connection_checkout_ms;
     meanWriterReceiptLookupMs := measured i rt_mean_writer_receipt_lookup_ms;
     meanWriterReceiptFinalizeMs := measured i rt_mean_writer_receipt_finalize_ms;
     meanWriterPayloadMs := measured i rt_mean_writer_payload_ms;
     meanWriterUserRowMs := measured i rt_mean_writer_user_row_ms;
     meanWriterAliasMs := measured i rt_mean_writer_alias_ms;
     meanWriterAuthorityMs := measured i rt_mean_writer_authority_ms;
     writerAuthorityRowsExamined := measured_count rt_writer_authority_rows_examined;
     writerAuthorityRowsSkipped := measured_count rt_writer_authority_rows_skipped;
     writerAuthorityRowsUpserted := measured_count rt_writer_authority_rows_upserted;
     writerAuthoritySkipPercent := authority_skip_percent;
     meanWriterProfileMs := measured i rt_mean_writer_profile_ms;
     meanWriterSocialMs := measured i rt_mean_writer_social_ms;
     meanWriterFlushMs := measured i rt_mean_writer_flush_ms;
     dominantWriterExecutionSubphase := complete_telemetry i ≫= fun t => dominant_name (execution_subphases t);
     meanWriterQueueCommandsAtStart := measured i rt_mean_writer_queue_commands_at_start;
     maxWriterQueueCommandsAtStart := measured i (fun t => Some (rt_max_writer_queue_commands_at_start t));
     meanWriterQueueBytesAtStart := measured i rt_mean_writer_queue_bytes_at_start;
     maxWriterQueueBytesAtStart := measured i (fun t => Some (rt_max_writer_queue_bytes_at_start t));
     meanWriterActiveLanes := measured i rt_mean_writer_active_lanes;
     maxWriterActiveLanes := measured i (fun t => Some (rt_max_writer_active_lanes t));
     meanWriterBatchCommands := measured i rt_mean_writer_batch_commands;
     meanWriterBatchFillPercent := measured_percent rt_mean_writer_batch_fill_ratio;
     meanWriterLaneIdleMs := measured i rt_mean_writer_lane_idle_ms;
     meanWriterLanePredecessorWaitMs := measured i rt_mean_writer_lane_predecessor_wait_ms;
     meanWriterRefillWaitMs := measured i rt_mean_writer_refill_wait_ms;
     writerConfiguredConcurrency := measured i (fun t => Some (rt_writer_configured_concurrency t));
     writerConfiguredBatchSize := measured i (fun t => Some (rt_writer_configured_batch_size t));
     writerWindowCommands := measured i rt_writer_window_commands;
     writerQueueMaxCommands := measured i (fun t => Some (rt_writer_queue_max_commands t));
     writerQueueMaxBytes := measured i (fun t => Some (rt_writer_queue_max_bytes t));
     writerRefillMinCommands := measured i (fun t => Some (rt_writer_refill_min_commands t));
     writerRefillMinCommandsPerLane := measured i rt_writer_refill_min_commands_per_lane;
     maxWorkerCompletionGapMs := completionGap i;
     readyQueueRecoveryCount := Some (recoveryCount i);
     readyQueueRecoveredTasks := Some (recoveredTasks i);
     readyNonemptyPercent := readyPercent i;
     readyNonemptySamples := measured i rt_ready_nonempty_samples;
     readySampleCount := measured i rt_ready_sample_count;
     readyTimelineNonemptyPercent := nonemptyPercent (readyTimelineStats i);
     readyTimelineIntervalCount := Some #(intervalCount (readyTimelineStats i));
     readyTimelineCoveredSeconds := Some (coveredSeconds (readyTimelineStats i));
     steadyReadyTimelineNonemptyPercent := steadyReadyPercent i;
     steadyReadyTimelineCoveredSeconds := Some ((coveredSeconds <$> steadyReadyStats i) ?? #0);
     meanReadyDepth := measured i rt_mean_ready_depth;
     workersSeen := seen_workers i;
     expectedWorkers := expected_workers i;
     timeWeightedParticipatingWorkers := measured i rt_time_weighted_participating_workers;
     timeWeightedEffectiveWorkerCapacity := measured i rt_time_weighted_effective_worker_capacity;
     occupancyGapClassification := Some gap.1;
     occupancyGapExplanation := Some gap.2 |}.
End summary.
