(* ===== verification/Telemetry.v ===== *)
(** * The telemetry of a job
    ([features/jobs/lib/useJobDiagnosticsTelemetry.ts], lines 58-200 and 1832-1957)

    The hook as a whole: what one render returns for its inputs and for the
    sampler's state, with the bottleneck and throughput analyses
    ([Diagnostics]) of what it computed.

    The parts of the report agree with each other: the recommendation names the
    phase the verdict blames, the peak is no lower than any rate seen, and the
    capacity model is the smaller of its two ceilings. *)

From Stdlib Require Import ZArith Lia SpecFloat Ascii.
From stdpp Require Import base list strings option sets.
From S2P Require Import Prelude JsString JsNum JsValue JsDate WebUrl RuntimeTelemetry JobTypes.
From S2P Require Import RuntimeChart DiagnosticsTypes Diagnostics TelemetryInputs TelemetryErrors.
From S2P Require Import TelemetryProxies TelemetrySampling TelemetryRates TelemetryTimeline.
From S2P Require Import TelemetryCapacity TelemetryAdvice TelemetrySummary JsSort JsInt JsBounds JsOrder.
From S2P Require Import Samples TelemetryOccupancy.

Section telemetry.
Context {E : Env} {U : UrlApi} (i : TelemetryInputs) (s : Sampler).

Definition shown_snapshots : list TelemetrySnapshot := visible_snapshots (job_id (in_job i)) s.

Definition shown_throughput : ThroughputStats := throughputStats i shown_snapshots.

Definition shown_summary : FinalReportSummary := finalSummary i shown_snapshots shown_throughput (proxyAnomalies i).

Definition bottleneck_inputs : BottleneckInputs := {|
  bi_completedTasksCount := completedJobTasks i;
  bi_failedJobTasks := failedJobTasks i;
  bi_details := in_details i;
  bi_errorVelocity := errorVelocity i shown_snapshots;
  bi_httpDistribution := httpDistribution i;
  bi_isLiveJob := in_isLiveJob i;
  bi_job := in_job i;
  bi_proxyAnomalies := proxyAnomalies i;
  bi_proxyCapacity := proxyCapacity i;
  bi_readyTasksCount := readyJobTasks i;
  bi_runningTasksCount := inflightJobTasks i;
  bi_runtimeTelemetry := runtimeTelemetry i;
  bi_totalProxyCapacity := totalProxyCapacity i;
  bi_totalTasksCount := totalJobTasks i;
  bi_workerPoolSize := in_workerPoolSize i;
  bi_finalSummary := shown_summary
|}.

Definition throughput_inputs : ThroughputDiagnosticsInputs := {|
  ti_currentPercentiles := currentPercentiles i;
  ti_details := in_details i;
  ti_finalSummary := shown_summary;
  ti_httpDistribution := httpDistribution i;
  ti_job := in_job i;
  ti_runtimeTelemetry := runtimeTelemetry i;
  ti_totalProxyCapacity := totalProxyCapacity i;
  ti_workerPoolSize := in_workerPoolSize i
|}.

Definition in_seconds (x : option num) : option num := (fun n => n ⊘ #1000) <$> x.

(** Shown as soon as some tasks were measured, complete or not. *)
Definition duration_breakdown : option DurationBreakdownTelemetry :=
  runtimeTelemetry i ≫= fun t =>
    if rt_task_count t >! #0 then Some {|
      bd_taskCount := rt_task_count t;
      bd_expectedTaskCount := num_or (runtimeTerminalTasks i) (rt_task_count t);
      bd_meanTaskDurationSec := in_seconds (rt_mean_task_duration_ms t);
      bd_meanQueueWaitSec := in_seconds (rt_mean_queue_wait_ms t);
      bd_meanSetupSec := in_seconds (rt_mean_setup_ms t);
      bd_meanHandlerSec :=
        in_seconds (Some (rt_mean_handler_exclusive_ms t ?? math_max #0 (ms (rt_mean_handler_ms t) ⊖ ms (rt_mean_writer_ms t))));
      bd_meanWriterSec := in_seconds (rt_mean_writer_ms t);
      bd_meanPostSec := in_seconds (rt_mean_post_ms t);
      bd_meanReleaseSec := in_seconds (rt_mean_release_ms t)
    |} else None.

Definition useJobDiagnosticsTelemetry : JobDiagnosticsTelemetry := {|
  tel_snapshots := effectiveSnapshots i shown_snapshots;
  tel_chartSnapshots := shown_snapshots;
  tel_jobRuntimeSamples := Some (in_jobRuntimeSamples i);
  tel_mpsRefillTrace := (in_details i ≫= mps_refill_trace) ?? [];
  tel_guestAuthStats := Some ((runtimeTelemetry i ≫= rt_guest_auth_stats) ?? []);
  tel_terminalStats := Some ((runtimeTelemetry i ≫= rt_terminal_stats) ?? []);
  tel_ledgerStats := Some ((runtimeTelemetry i ≫= rt_ledger_stats) ?? []);
  tel_throughput := shown_throughput;
  tel_latencyPercentiles := currentPercentiles i;
  tel_proxyCapacity := proxyCapacity i;
  tel_httpDistribution := httpDistribution i;
  tel_errorVelocity := errorVelocity i shown_snapshots;
  tel_proxyAnomalies := proxyAnomalies i;
  tel_finalSummary := shown_summary;
  tel_bottleneckAnalysis := analyzeBottleneck bottleneck_inputs;
  tel_throughputDiagnostics := Some (buildThroughputDiagnostics throughput_inputs);
  tel_durationBreakdown := duration_breakdown;
  tel_runningTasksCount := inflightJobTasks i;
  tel_readyTasksCount := readyJobTasks i;
  tel_totalTasksCount := totalJobTasks i;
  tel_completedTasksCount := completedJobTasks i;
  tel_isLive := in_isLiveJob i;
  tel_lastSampleTime := (snap_timestamp <$> latest_snapshot shown_snapshots) ?? observedAt i;
  tel_quality := Some (telemetryQuality i)
|}.
End telemetry.

(** * What the telemetry of a job promises *)

(** ** Sorting entries by their seconds *)

Lemma insert_map {A B} (g : B -> A) (f : A -> num) x l :
  insert_sorted (larger_first f) (g x) (map g l) = map g (insert_sorted (larger_first (fun b => f (g b))) x l).
Proof.
  induction l as [|y l IH]; [done|]. simpl. unfold larger_first at 1 3. destruct (_ >! #0); [done|]. simpl. by rewrite IH.
Qed.

Lemma sort_map {A B} (g : B -> A) (f : A -> num) l :
  stable_sort (larger_first f) (map g l) = map g (stable_sort (larger_first (fun b => f (g b))) l).
Proof.
  induction l as [|x l IH] using rev_ind; [done|]. rewrite map_app. simpl. by rewrite !stable_sort_snoc, IH, insert_map.
Qed.

Lemma sort_nonempty {A} greater (l : list A) : l <> [] -> exists x, head (stable_sort greater l) = Some x /\ x ∈ l.
Proof.
  intros Hl. pose proof (stable_sort_permutation greater l) as Hp. destruct (stable_sort greater l) as [|x r].
  - by apply Permutation_nil_l in Hp.
  - exists x. split; [done|]. rewrite <- Hp. set_solver.
Qed.

(** The five phases by position; only the writer's name varies. *)
Definition phase_name (writer : string) (k : nat) : string :=
  match k with
  | 0%nat => "Worker Setup" | 1%nat => "Handler / Upstream Work" | 2%nat => writer
  | 3%nat => "Terminal State Update" | _ => "Release / Publication"
  end.

Definition nth_sec (a b c d e : num) (k : nat) : num :=
  match k with 0%nat => a | 1%nat => b | 2%nat => c | 3%nat => d | _ => e end.

Definition writer_name (b c : num) (queued : bool) : string :=
  if (c >! b) && queued then "Writer Queue / Admission Backpressure" else "Durable Writer Wait".

Lemma phases_by_position a b c d e q :
  phases_of a b c d e q = map (fun k => (phase_name (writer_name b c q) k, nth_sec a b c d e k)) [0; 1; 2; 3; 4]%nat.
Proof. reflexivity. Qed.

(** The position of the phase ranked first. *)
Definition first_phase (a b c d e : num) : nat := head (stable_sort (larger_first (nth_sec a b c d e)) [0; 1; 2; 3; 4]%nat) ?? 0%nat.

Lemma head_phases a b c d e q :
  head (stable_sort (larger_first snd) (phases_of a b c d e q)) =
  Some (phase_name (writer_name b c q) (first_phase a b c d e), nth_sec a b c d e (first_phase a b c d e)).
Proof.
  rewrite phases_by_position, sort_map. unfold first_phase. simpl.
  destruct (sort_nonempty (larger_first (nth_sec a b c d e)) [0; 1; 2; 3; 4]%nat) as (k & Hk & _); [done|].
  destruct (stable_sort _ _) as [|k' r]; [done|]. by injection Hk as ->.
Qed.

(** ** The verdict and the recommendation *)

Section agreement.
Context {E : Env} {U : UrlApi} (i : TelemetryInputs) (s : Sampler) (t : JobRuntimeTelemetry).
Hypothesis complete : complete_telemetry i = Some t.

Lemma complete_flag : runtimeComplete i = true.
Proof. unfold complete_telemetry in complete. by destruct (runtimeComplete i). Qed.

Lemma measured_sec_zero x : measured_sec i x ?? #0 = ms (x t) ⊘ #1000.
Proof. unfold measured_sec, measured. rewrite complete. simpl. destruct (x t); [done|]. vm_compute. reflexivity. Qed.

(** The seconds of the phases, in order. *)
Definition setup_sec : num := ms (rt_mean_setup_ms t) ⊘ #1000.
Definition handler_sec : num := exclusive_handler_ms t ⊘ #1000.
Definition writer_sec : num := writer_ms t ⊘ #1000.
Definition post_sec : num := ms (rt_mean_post_ms t) ⊘ #1000.
Definition release_sec : num := ms (rt_mean_release_ms t) ⊘ #1000.

Definition blamed : nat := first_phase setup_sec handler_sec writer_sec post_sec release_sec.
Definition blamed_sec : num := nth_sec setup_sec handler_sec writer_sec post_sec release_sec blamed.

Lemma advised_phase : largest_phase t = (phase_name "Durable Writer Wait" blamed, blamed_sec).
Proof.
  unfold largest_phase, dominant. rewrite head_phases. unfold writer_name. rewrite andb_false_r. reflexivity.
Qed.

Lemma verdict_phase : exists w, w <> "Worker Setup" /\ w <> "Terminal State Update" /\ w <> "Release / Publication" /\
  dominantService (bottleneck_inputs i s) = (phase_name w blamed, blamed_sec).
Proof.
  unfold dominantService, hasCompleteRuntimeTelemetry, ranked_phases, getServicePhases.
  change (summary (bottleneck_inputs i s)) with (shown_summary i s).
  change (runtimeTelemetryComplete (shown_summary i s)) with (runtimeComplete i). rewrite complete_flag.
  change (stable_sort more_seconds) with (stable_sort (larger_first (A := string * num) snd)). rewrite head_phases.
  change (meanSetupSec (shown_summary i s)) with (measured_sec i rt_mean_setup_ms).
  change (meanHandlerSec (shown_summary i s)) with (measured_sec i (fun t => Some (exclusive_handler_ms t))).
  change (meanWriterSec (shown_summary i s)) with (measured_sec i rt_mean_writer_ms).
  change (meanPostSec (shown_summary i s)) with (measured_sec i rt_mean_post_ms).
  change (meanReleaseSec (shown_summary i s)) with (measured_sec i rt_mean_release_ms).
  rewrite !measured_sec_zero. eexists. split; [|split; [|split; [|reflexivity]]]; unfold writer_name; by destruct (_ && _).
Qed.

(** Whether the verdict blames phase [p]. *)
Lemma dominant_at w k p :
  w <> "Worker Setup" -> w <> "Terminal State Update" -> w <> "Release / Publication" ->
  p = "Worker Setup" \/ p = "Terminal State Update" \/ p = "Release / Publication" ->
  (phase_name w k =s p) = (phase_name "Durable Writer Wait" k =s p).
Proof.
  intros H1 H2 H3 Hp. destruct k as [|[|[|[|k]]]]; try reflexivity. simpl.
  rewrite (proj2 (str_eqb_neq w p)) by naive_solver. by destruct Hp as [-> |[-> | ->]].
Qed.

Lemma same_dominant p : p = "Worker Setup" \/ p = "Terminal State Update" \/ p = "Release / Publication" ->
  dominant_is (bottleneck_inputs i s) p = ((largest_phase t).1 =s p) && ((largest_phase t).2 >! #0).
Proof.
  intros Hp. destruct verdict_phase as (w & H1 & H2 & H3 & Hv). unfold dominant_is. rewrite Hv, advised_phase. simpl.
  by rewrite (dominant_at w blamed p H1 H2 H3 Hp).
Qed.
End agreement.

(** The texts that name a phase as the largest. *)
Definition names_phase (a : string) : option string :=
  find_first (fun p => starts_with a (p +:+ " is the largest measured phase"))
    ["Terminal State Update"; "Worker Setup"; "Release / Publication"].

Lemma writer_advice_unnamed t : names_phase (writer_advice t) = None.
Proof.
  unfold writer_advice. destruct (dominant (writer_subphases t)) as [p m]. destruct (dominant (writer_internal_subphases t)) as [q k].
  repeat case_match; reflexivity.
Qed.

Lemma secondary_advice_unnamed t a : a ∈ secondary_advice t -> names_phase a = None.
Proof. unfold secondary_advice. repeat case_match; intros Ha; set_unfold in Ha; naive_solver. Qed.

(** What the phase advice names, by the ranked phases. *)
Lemma phase_advice_names t p : p = "Worker Setup" \/ p = "Terminal State Update" \/ p = "Release / Publication" ->
  ((largest_phase t).1 =s p) && ((largest_phase t).2 >! #0) = true ->
  exists a, phase_advice t = [a] /\ names_phase a = Some p.
Proof.
  intros Hp Hd. unfold phase_advice. destruct (largest_phase t) as [phase seconds]. simpl in Hd. bool_simpl. subst phase.
  rewrite H0. destruct Hp as [-> |[-> | ->]]; simpl; eexists; (split; [reflexivity|reflexivity]).
Qed.

Lemma phase_advice_unnamed t :
  (forall p, p = "Worker Setup" \/ p = "Terminal State Update" \/ p = "Release / Publication" ->
     ((largest_phase t).1 =s p) && ((largest_phase t).2 >! #0) = false) ->
  Forall (fun a => names_phase a = None) (phase_advice t).
Proof.
  intros Hd. unfold phase_advice. destruct (largest_phase t) as [phase seconds]. simpl in Hd. rewrite !Hd by auto.
  repeat case_match; repeat constructor; [apply writer_advice_unnamed|].
  apply Forall_forall. intros a. apply secondary_advice_unnamed.
Qed.

(** What a list of advice names, in order. *)
Notation named := (omap names_phase).

Lemma named_cons a l : named (a :: l) = match names_phase a with Some p => p :: named l | None => named l end.
Proof. reflexivity. Qed.

Lemma named_unnamed l : Forall (fun a => names_phase a = None) l -> named l = [].
Proof. induction 1 as [|a l Ha _ IH]; [done|]. by rewrite named_cons, Ha. Qed.

Section report.
Context {E : Env} (i : TelemetryInputs) (anomalies : list ProxyAnomaly).

Lemma push_unnamed c text : names_phase text = None -> Forall (fun a => names_phase a = None) (push_if c text).
Proof. unfold push_if. destruct c; repeat constructor; done. Qed.

(** The explanation of the gap names no phase. *)
Lemma gap_unnamed : names_phase (occupancy_gap i).2 = None.
Proof. unfold occupancy_gap, steady_gap. repeat case_match; reflexivity. Qed.

(** Only the advice on the phases names one. *)
Lemma report_names t : complete_telemetry i = Some t -> in_isLiveJob i = false ->
  named (recommended i anomalies) = named (phase_advice t).
Proof.
  intros Hc Hl.
  assert (Hrest : Forall (fun a => names_phase a = None) (waiting_advice i ++ window_advice i ++ headroom_advice i ++
    route_advice anomalies ++ retry_advice i ++ ceiling_advice i ++ coverage_advice i)).
  { repeat (apply Forall_app; split); try (apply push_unnamed; reflexivity).
    unfold window_advice. case_match; [by apply push_unnamed|constructor]. }
  assert (Hmeasured : named (measured_advice i) = named (phase_advice t)).
  { unfold measured_advice. rewrite Hc, Hl. pose proof gap_unnamed as Hg. destruct (occupancy_gap i) as [gap text].
    simpl in Hg. destruct gap; rewrite !omap_app, ?named_cons, ?Hg; cbn [omap list_omap app]; rewrite ?app_nil_r; reflexivity. }
  set (rest := waiting_advice i ++ _) in Hrest. apply named_unnamed in Hrest.
  transitivity (named (rest ++ measured_advice i)).
  - unfold recommended, rest. rewrite <- !app_assoc.
    assert (Hm : forall l fallback, names_phase fallback = None ->
      named (match l with [] => [fallback] | a :: r => a :: r end) = named l)
      by (intros [|] fallback Hf; [rewrite named_cons, Hf|]; reflexivity).
    rewrite Hm; [reflexivity|]. by destruct (runtimeComplete i).
  - by rewrite omap_app, Hrest, Hmeasured.
Qed.
End report.

(** The phases a state blames for being the longest. *)
Definition phase_of (st : BottleneckState) : list string :=
  match st with
  | terminal_constrained => ["Terminal State Update"]
  | setup_constrained => ["Worker Setup"]
  | release_constrained => ["Release / Publication"]
  | _ => []
  end.

(** The state of a finished run. *)
Lemma finished_verdict_names {E : Env} {U : UrlApi} i s t : complete_telemetry i = Some t ->
  (occupancy_gap i).1 <> GapRoutingStall ->
  let st := (finished_verdict (bottleneck_inputs i s)).1.1 in st <> routing_stall /\ named (phase_advice t) = phase_of st.
Proof.
  intros Hc Hg st. pose proof (same_dominant i s t Hc) as Hs. unfold st, finished_verdict.
  change (occupancyGapClassification (summary (bottleneck_inputs i s))) with (Some (occupancy_gap i).1).
  assert (Hmatch : forall A (x y : A), match (occupancy_gap i).1 with GapRoutingStall => x | _ => y end = y)
    by (intros; destruct (occupancy_gap i).1; done).
  assert (Hnames : forall p, p = "Worker Setup" \/ p = "Terminal State Update" \/ p = "Release / Publication" ->
    dominant_is (bottleneck_inputs i s) p = true -> named (phase_advice t) = [p]).
  { intros p Hp Hd. rewrite Hs in Hd by done. destruct (phase_advice_names t p Hp Hd) as (a & -> & Ha). by rewrite named_cons, Ha. }
  cbv iota. rewrite Hmatch.
  destruct (dominant_is _ "Terminal State Update") eqn:H3; [split; [done|]; apply Hnames; auto|].
  destruct (dominant_is _ "Worker Setup") eqn:H0; [split; [done|]; apply Hnames; auto|].
  destruct (dominant_is _ "Release / Publication") eqn:H4; [split; [done|]; apply Hnames; auto|].
  rewrite (named_unnamed (phase_advice t))
    by (apply phase_advice_unnamed; intros p Hp; rewrite <- Hs by done; by destruct Hp as [-> |[-> | ->]]).
  unfold writer_verdict. repeat case_match; done.
Qed.


(** A finished run of 100 tasks of which setup took longest. *)
Definition demo_finished : TelemetryInputs := {|
  in_job := with_telemetry (with_counters (demo_job "completed" []) #100 #0 #60) (demo_runtime #100 #700 #200 #100 #50 #20);
  in_details := Some (with_telemetry (with_counters (demo_job "completed" []) #100 #0 #60) (demo_runtime #100 #700 #200 #100 #50 #20));
  in_tasks := [];
  in_proxies := Some [];
  in_isLiveJob := false;
  in_workerPoolSize := #4;
  in_taskStatsObservedAtMs := None;
  in_jobRuntimeSamples := [];
  in_mountedAtMs := #1704067300000
|}.


(** ** The peak *)

(** The rate recorded for [r] under a cap. *)
Definition capped_rate (cap r : num) : num := rounded 1 (math_min r cap).

Lemma record_rates cap rates : forall peak,
  real peak -> Forall (fun r => real (capped_rate cap r)) rates ->
  let top := foldl (recordPeakRate cap) peak rates in
  real top /\ (peak <=! top) = true /\
  (forall r, r ∈ rates -> (r <=! #0) = false -> (cap <=! #0) = false -> (capped_rate cap r <=! top) = true) /\
  (top = peak \/ exists r, r ∈ rates /\ (r <=! #0) = false /\ top = capped_rate cap r).
Proof.
  induction rates as [|r rates IH]; intros peak Hp Hr; cbn [foldl].
  { split; [done|]. split; [by apply num_leb_refl|]. split; [set_solver|by left]. }
  apply Forall_cons in Hr as [Hc Hr]. set (peak' := recordPeakRate cap peak r).
  assert (Hpk : real peak' /\ (peak <=! peak') = true /\
    ((r <=! #0) = false -> (cap <=! #0) = false -> (capped_rate cap r <=! peak') = true) /\
    (peak' = peak \/ ((r <=! #0) = false /\ peak' = capped_rate cap r))).
  { unfold peak', recordPeakRate. destruct (r <=! #0) eqn:E0; simpl; [repeat split; auto using num_leb_refl; done|].
    destruct (cap <=! #0) eqn:E1; [repeat split; auto using num_leb_refl; done|]. fold (capped_rate cap r).
    split; [by apply math_max_real|]. split; [by apply math_max_ge_l|]. split.
    - intros _ _. unfold math_max. destruct (cmp_real _ _ Hp Hc) as [[] E]; rewrite E; [|by apply num_leb_refl|].
      + unfold num_leb. destruct peak as [[]| | |]; rewrite ?cmp_refl by done; try done; rewrite cmp_swap, E; done.
      + unfold num_leb. rewrite cmp_swap, E. done.
    - destruct (math_max_cases _ _ Hp Hc) as [-> | ->]; auto. }
  destruct Hpk as (Hr' & Hle & Hcov & Hfrom). destruct (IH peak' Hr' Hr) as (T1 & T2 & T3 & T4). split; [done|].
  split; [by apply (num_leb_trans _ peak')|]. split.
  - intros x [->|Hx]%elem_of_cons H0 H1; [apply (num_leb_trans _ peak'); auto|by apply T3].
  - destruct T4 as [->|(x & Hx & Hx0 & ->)]; [|right; exists x; set_solver].
    destruct Hfrom as [->|[H0 ->]]; [by left|]. right. exists r. set_solver.
Qed.

(** The peak recorded for a job whose route capacity is known is the highest
    rate seen anywhere -- between snapshots, at a snapshot, in the timeline, in
    one second -- held to the rate the routes could have carried: it is zero or
    one of those rates, and no rate seen exceeds it. *)
Theorem peak_is_highest_seen {E : Env} i snapshots :
  knows_capacity i = true -> (peakBurstCap i <=! #0) = false ->
  Forall (fun r => real (capped_rate (peakBurstCap i) r)) (recorded_rates i snapshots) ->
  let peak := recordedPeak i snapshots in
  (peak = #0 \/ exists r, r ∈ recorded_rates i snapshots /\ (r <=! #0) = false /\ peak = capped_rate (peakBurstCap i) r) /\
  (forall r, r ∈ recorded_rates i snapshots -> (r <=! #0) = false -> (capped_rate (peakBurstCap i) r <=! peak) = true).
Proof.
  intros Hk Hc Hr peak. destruct (record_rates (peakBurstCap i) _ #0 ltac:(done) Hr) as (_ & _ & H3 & H4).
  split; [exact H4|]. intros r Hin H0. by apply H3.
Qed.

(** A finished run sampled twice, with eight slots. *)
Definition demo_sampled : TelemetryInputs := {|
  in_job := with_counters (demo_job "completed" [("proxy_capacity", VNum #8)]) #80 #0 #10;
  in_details := None;
  in_tasks := [];
  in_proxies := None;
  in_isLiveJob := false;
  in_workerPoolSize := #4;
  in_taskStatsObservedAtMs := None;
  in_jobRuntimeSamples := [];
  in_mountedAtMs := #10000
|}.

Definition demo_rates : list TelemetrySnapshot := map (fun o => new_snapshot (baseline_of o.1) o.2)
  (let o t c := {| sampling_observedAt := #t; sampling_completed := #c; sampling_items := #c;
       sampling_itemsAreAuthoritative := false; sampling_inflight := #8; sampling_ready := #0; sampling_failed := #0;
       sampling_errors := #0; sampling_p50Latency := #1; sampling_p95Latency := #2; sampling_totalProxyCapacity := #8;
       sampling_isLiveJob := false |} in
   [(o 1000 0, o 3000 20); (o 3000 20, o 5000 80)]).

Lemma peak_is_highest_seen_witness :
  recordedPeak (E := utc_env) demo_sampled demo_rates = #16 /\ peakBurstCap (E := utc_env) demo_sampled = #16 /\
  (capped_rate (peakBurstCap (E := utc_env) demo_sampled) #30 <=! recordedPeak (E := utc_env) demo_sampled demo_rates) = true.
Proof.
  split; [vm_compute; reflexivity|]. split; [vm_compute; reflexivity|].
  assert (Hr : every (fun r => negb (is_nan (capped_rate (peakBurstCap (E := utc_env) demo_sampled) r)))
    (recorded_rates (E := utc_env) demo_sampled demo_rates) = true) by (vm_compute; reflexivity).
  refine (proj2 (peak_is_highest_seen (E := utc_env) demo_sampled demo_rates _ _ _) _ _ _).
  - vm_compute. reflexivity.
  - vm_compute. reflexivity.
  - apply Forall_forall. intros r Hin. rewrite every_iff in Hr. specialize (Hr r Hin). by apply negb_true_iff in Hr.
  - vm_compute. left.
  - vm_compute. reflexivity.
Defined.

(** ** Ceilings *)

(** The diagnostics and the report name the same ceiling: the highest
    sustainable rate and what limits it -- proxy routes or worker slots -- are
    those of the report, and with complete telemetry so is the number of worker
    slots both divide by. *)
Theorem one_capacity_model {E : Env} {U : UrlApi} i s :
  let report := tel_finalSummary (useJobDiagnosticsTelemetry i s) in
  exists td, tel_throughputDiagnostics (useJobDiagnosticsTelemetry i s) = Some td /\
    governingCeilingItemsPerSec td = theoreticalMaxItemsPerSec report /\
    (governingBottleneck td = ProxyCapacity <-> capacityModelBottleneck report = Some ModelProxyRoutes) /\
    (runtimeComplete i = true -> workerConcurrencyDemand td = workerDemand i).
Proof.
  intros report. eexists. split; [reflexivity|]. split; [reflexivity|]. split.
  - change (governing (throughput_inputs i s) = ProxyCapacity <-> Some (modelBottleneck i) = Some ModelProxyRoutes).
    unfold modelBottleneck. change (governing (throughput_inputs i s)) with
      (if knows_capacity i && (proxyMax i <=! workerMax i) then ProxyCapacity else WorkerConcurrency).
    destruct (_ && _); split; done.
  - intros Hc. change (ti_workerDemand (throughput_inputs i s) = workerDemand i).
    unfold ti_workerDemand, workerDemand, measured, complete_telemetry. rewrite Hc. done.
Qed.
