(* ===== verification/JsObject.v ===== *)
(** * Own properties of an object

    ECMA-262, section 10.1.11: the keys of an object are enumerated with the
    array indices first, in ascending order, then the other names in the order
    they were added. [Object.keys], [Object.entries] and [JSON.stringify] follow
    it. A map ([JMap]) here is an object's properties in the order they were
    added. Also the quoting of a string in JSON text. *)

From Stdlib Require Import Ascii ZArith Lia.
From stdpp Require Import base list strings option sorting.
From S2P Require Import Prelude JsString JsNum JsSort JsUri.

(** A canonical array index below [2^32 - 1]. *)
Definition is_index (key : string) : bool :=
  all_digits key && ((key =s "0") || negb (starts_with key "0")) && (digits_val 0 key <? 4294967295).

Section entries.
Context {V : Type}.

Definition higher_index (a b : string * V) : bool := digits_val 0 b.1 <? digits_val 0 a.1.

Definition own_entries (m : JMap.t V) : list (string * V) :=
  stable_sort higher_index (keep (fun e => is_index e.1) m) ++ keep (fun e => negb (is_index e.1)) m.

Lemma own_entries_permutation m : Permutation (own_entries m) m.
Proof.
  unfold own_entries. rewrite stable_sort_permutation. induction m as [|[k v] m IH]; [done|]. simpl.
  destruct (is_index k); simpl; [by constructor|]. rewrite <- Permutation_middle. by constructor.
Qed.

Lemma own_entries_wf m : JMap.wf m -> JMap.wf (own_entries m).
Proof. unfold JMap.wf, JMap.keys. by rewrite own_entries_permutation. Qed.

Lemma get_own_entries k m : JMap.wf m -> JMap.get k (own_entries m) = JMap.get k m.
Proof.
  intros Hw. pose proof (own_entries_wf m Hw) as Hw'. destruct (JMap.get k m) as [v|] eqn:E.
  - apply JMap.elem_get; [done|]. rewrite own_entries_permutation. by apply JMap.get_Some_elem.
  - apply JMap.get_None in E. apply JMap.get_None. unfold JMap.keys in *. by rewrite own_entries_permutation.
Qed.

Lemma higher_orders : orders higher_index (fun _ => True).
Proof. unfold higher_index. split; intros; rewrite ?Z.ltb_lt, ?Z.ltb_ge in *; lia. Qed.

Lemma own_entries_idem m : own_entries (own_entries m) = own_entries m.
Proof.
  unfold own_entries. set (a := stable_sort higher_index (keep (fun e => is_index e.1) m)).
  set (b := keep (fun e => negb (is_index e.1)) m).
  assert (Ha : forall e, e ∈ a -> is_index e.1 = true) by (intros e; unfold a; rewrite elem_of_stable_sort, elem_of_keep; tauto).
  assert (Hb : forall e, e ∈ b -> is_index e.1 = false) by (intros e; unfold b; rewrite elem_of_keep, negb_true_iff; tauto).
  rewrite !keep_app, (keep_all _ a), (keep_none _ b), (keep_none _ a), (keep_all _ b), app_nil_r;
    [|intros e He; by rewrite ?(Ha e He), ?(Hb e He)..].
  f_equal. apply stable_sort_id. unfold a.
  apply (stable_sort_sorted higher_index higher_orders), Forall_forall. done.
Qed.
End entries.

(** Reordering does not look at the values. *)
Lemma insert_index_map {V W} (f : string * V -> string * W) (Hf : forall e, (f e).1 = e.1) x l :
  map f (insert_sorted higher_index x l) = insert_sorted higher_index (f x) (map f l).
Proof.
  induction l as [|y l IH]; [done|]. simpl. unfold higher_index at 1 3. rewrite !Hf.
  destruct (_ <? _); simpl; [done|]. by rewrite IH.
Qed.

Lemma keep_map {A B} (f : A -> B) p l : keep p (map f l) = map f (keep (fun x => p (f x)) l).
Proof. induction l as [|x l IH]; [done|]. simpl. destruct (p (f x)); simpl; by rewrite IH. Qed.

Lemma keep_ext {A} (p q : A -> bool) l : (forall x, p x = q x) -> keep p l = keep q l.
Proof. intros H. induction l as [|x l IH]; [done|]. simpl. by rewrite H, IH. Qed.

Lemma own_entries_map {V W} (f : string * V -> string * W) (Hf : forall e, (f e).1 = e.1) m :
  map f (own_entries m) = own_entries (map f m).
Proof.
  unfold own_entries. rewrite map_app, !keep_map. f_equal.
  - assert (H : forall l, map f (stable_sort higher_index l) = stable_sort higher_index (map f l)).
    { intros l. induction l as [|x l IH] using rev_ind; [done|]. rewrite map_app. simpl.
      rewrite !stable_sort_snoc, insert_index_map by done. by rewrite IH. }
    rewrite H. f_equal. f_equal. apply keep_ext. intros e. by rewrite Hf.
  - f_equal. apply keep_ext. intros e. by rewrite Hf.
Qed.

(** ** Strings in JSON text *)

Definition newline : ascii := ascii_of_nat 10.
Definition dquote : ascii := ascii_of_nat 34.

(** One character of a quoted string. *)
Definition json_char (c : ascii) : string :=
  if Ascii.eqb c dquote then String "\" (String dquote EmptyString)
  else if Ascii.eqb c "\" then "\\"
  else if Ascii.eqb c newline then "\n"
  else if Ascii.eqb c (ascii_of_nat 13) then "\r"
  else if Ascii.eqb c (ascii_of_nat 9) then "\t"
  else if Ascii.eqb c (ascii_of_nat 8) then "\b"
  else if Ascii.eqb c (ascii_of_nat 12) then "\f"
  else if code c <? 32 then "\u00" +:+ String (lower_char (hex_digit (code c / 16))) (String (lower_char (hex_digit (code c mod 16))) EmptyString)
  else String c EmptyString.

Fixpoint json_chars (s : string) : string :=
  match s with
  | String c r => json_char c +:+ json_chars r
  | EmptyString => EmptyString
  end.

Definition json_string (s : string) : string := String dquote (json_chars s +:+ String dquote EmptyString).
