(* ===== verification/AuthImport.v ===== *)
(** * Pasted credentials ([features/auths/lib/authsUtils.ts])

    What a user pastes to add an account -- a curl command, JSON or a Python
    dictionary with comments -- is recognised, parsed and rewritten as one JSON
    form. The parser's index into the text is the text that is left; a thrown
    [Error] is a value; the recursion of the three parsers takes fuel, and running
    out of it is told apart from an error (it never happens, [AuthImportSpec]).
    A property named [__proto__] is not treated specially. *)

From Stdlib Require Import Ascii ZArith Lia SpecFloat.
From stdpp Require Import base list strings option.
From S2P Require Import Prelude JsString JsNum JsValue JsDate JsObject.

(** ** Cookies *)

Record ExtractedCookieValues := {
  cookie_authId : option string;
  cookie_sess : option string;
  cookie_authUid : option string
}.

Definition not_semicolon (c : ascii) : bool := negb (Ascii.eqb c ";").

(** What [f] reads at the start of the text, or after the first semicolon and
    white space it accepts. *)
Definition after_boundary {A} (f : string -> option A) (cookie : string) : option A :=
  match f cookie with
  | Some a => Some a
  | None => search (fun s => match s with String ";" r => f (trim_start r) | _ => None end) cookie
  end.

(** [name=], then one or more characters that are not a semicolon. *)
Definition cookie_field (name s : string) : option string :=
  match literal_i (name +:+ "=") s with
  | Some r => let v := (span not_semicolon r).1 in if truthy v then Some v else None
  | None => None
  end.

(** The trimmed group of a match, unless it is blank. *)
Definition cookie_value (name cookie : string) : option string :=
  match after_boundary (cookie_field name) cookie with
  | Some v => truthy_opt (Some (trim v))
  | None => None
  end.

(** [auth_uid=] or [auth_uid_N=], then what is before the next semicolon. *)
Definition auth_uid_field (s : string) : option (option string * string) :=
  match literal_i "auth_uid" s with
  | Some r =>
      let value t := (span not_semicolon t).1 in
      match r with
      | String "=" t => Some (None, value t)
      | String "_" t =>
          let '(id, t') := span is_digit t in
          match t' with
          | String "=" u => if truthy id then Some (Some id, value u) else None
          | _ => None
          end
      | _ => None
      end
  | None => None
  end.

Definition auth_uid_value (cookie : string) : option string :=
  match after_boundary auth_uid_field cookie with
  | Some (idInKey, v) => if truthy (trim v) then Some (trim v) else truthy_opt idInKey
  | None => None
  end.

Definition extractCookieValues (cookie : option string) : ExtractedCookieValues :=
  match truthy_opt cookie with
  | None => {| cookie_authId := None; cookie_sess := None; cookie_authUid := None |}
  | Some c =>
      let authId := cookie_value "auth_id" c in
      {| cookie_authId := authId;
         cookie_sess := cookie_value "session_active_session" c ??? cookie_value "sess" c;
         cookie_authUid := auth_uid_value c ??? authId |}
  end.

(** ** Values *)

(** JSON's values and [undefined]. *)
Inductive ParsedValue : Type :=
| PUndefined
| PNull
| PBool (b : bool)
| PNum (n : num)
| PStr (s : string)
| PArr (l : list ParsedValue)
| PObj (fields : list (string * ParsedValue)).

Notation ParsedObject := (list (string * ParsedValue)).

Section value_induction.
Variable P : ParsedValue -> Prop.
Hypothesis HUndefined : P PUndefined.
Hypothesis HNull : P PNull.
Hypothesis HBool : forall b, P (PBool b).
Hypothesis HNum : forall n, P (PNum n).
Hypothesis HStr : forall s, P (PStr s).
Hypothesis HArr : forall l, Forall P l -> P (PArr l).
Hypothesis HObj : forall fs, Forall (fun f => P (snd f)) fs -> P (PObj fs).

Fixpoint parsed_ind (v : ParsedValue) : P v :=
  match v with
  | PUndefined => HUndefined
  | PNull => HNull
  | PBool b => HBool b
  | PNum n => HNum n
  | PStr s => HStr s
  | PArr l =>
      HArr l ((fix go l : Forall P l :=
        match l with [] => Forall_nil_2 P | x :: r => Forall_cons_2 P x r (parsed_ind x) (go r) end) l)
  | PObj fs =>
      HObj fs ((fix go fs : Forall (fun f => P (snd f)) fs :=
        match fs with [] => Forall_nil_2 _ | x :: r => Forall_cons_2 _ x r (parsed_ind (snd x)) (go r) end) fs)
  end.
End value_induction.

(** ** The parser *)

(** A result, a thrown error with its message, or no more fuel. *)
Inductive outcome (A : Type) : Type :=
| Ok (a : A)
| Throw (message : string)
| Unfinished.
Arguments Ok {A} a.
Arguments Throw {A} message.
Arguments Unfinished {A}.

Definition and_then {A B} (o : outcome A) (f : A -> outcome B) : outcome B :=
  match o with
  | Ok a => f a
  | Throw message => Throw message
  | Unfinished => Unfinished
  end.
Notation "'let?' x ':=' o 'in' b" := (and_then o (fun x => b)) (at level 200, x pattern, right associativity).

(** White space and comments, which run to the end of their line. *)
Fixpoint skip_text (in_comment : bool) (s : string) : string :=
  match s with
  | EmptyString => EmptyString
  | String c r =>
      if in_comment then skip_text (negb (Ascii.eqb c newline)) r
      else if is_space c then skip_text false r
      else if Ascii.eqb c "#" || starts_with s "//" then skip_text true r
      else s
  end.

Definition stripLeadingCommentsAndWhitespace (s : string) : string := skip_text false s.
Definition skipWhitespace (s : string) : string := skip_text false s.

Definition is_quote (c : ascii) : bool := Ascii.eqb c dquote || Ascii.eqb c "'".

(** The character an escape stands for. *)
Definition unescape (c : ascii) : ascii :=
  if Ascii.eqb c "n" then newline
  else if Ascii.eqb c "r" then ascii_of_nat 13
  else if Ascii.eqb c "t" then ascii_of_nat 9
  else c.

Definition prepend (c : ascii) (o : outcome (string * string)) : outcome (string * string) :=
  let? (s, rest) := o in Ok (String c s, rest).

(** The text after the opening quote. *)
Fixpoint parseString (quote : ascii) (s : string) : outcome (string * string) :=
  match s with
  | EmptyString => Throw "Unterminated string"
  | String c r =>
      if Ascii.eqb c "\" then
        match r with
        | EmptyString => Throw "Unterminated string escape"
        | String next r' => prepend (unescape next) (parseString quote r')
        end
      else if Ascii.eqb c quote then Ok (EmptyString, r)
      else prepend c (parseString quote r)
  end.

Definition number_char (c : ascii) : bool := is_digit c || Ascii.eqb c ".".
Definition sign_char (c : ascii) : bool := Ascii.eqb c "-" || Ascii.eqb c "+".
Definition ident_char (c : ascii) : bool := is_alnum c || Ascii.eqb c "_" || Ascii.eqb c "$".
Definition key_char (c : ascii) : bool := ident_char c || Ascii.eqb c "-".

(** The text of a number: an optional sign, then digits and points. *)
Definition number_text (s : string) : string * string :=
  match s with
  | String c r =>
      if sign_char c then (String c (span number_char r).1, (span number_char r).2) else span number_char s
  | EmptyString => (EmptyString, EmptyString)
  end.

Definition parseNumber (s : string) : outcome (ParsedValue * string) :=
  let '(numStr, rest) := number_text s in
  let n := number_of_string numStr in
  if is_nan n then Throw ("Invalid number: " +:+ numStr) else Ok (PNum n, rest).

Definition parseIdentifier (s : string) : outcome (ParsedValue * string) :=
  let '(ident, rest) := span ident_char s in
  if str_in ident ["None"; "null"] then Ok (PNull, rest)
  else if str_in ident ["True"; "true"] then Ok (PBool true, rest)
  else if str_in ident ["False"; "false"] then Ok (PBool false, rest)
  else if ident =s "undefined" then Ok (PUndefined, rest)
  else Throw ("Unexpected identifier: " +:+ ident).

(** A key, quoted or not, up to its colon. *)
Definition parseKey (s : string) : outcome (string * string) :=
  match s with
  | String c r =>
      if is_quote c then parseString c r
      else let '(key, rest) := span key_char s in
           if truthy key then Ok (key, rest) else Throw "Expected object key"
  | EmptyString => Throw "Unterminated object"
  end.

Definition expect_colon (key s : string) : outcome string :=
  match skipWhitespace s with
  | String ":" r => Ok r
  | _ => Throw ("Expected ':' after key " +:+ String dquote key +:+ String dquote EmptyString)
  end.

(** [parseValue], the loop of [parseObject] and the loop of [parseArray]; the
    loops start after white space. *)
Fixpoint parseValue (fuel : nat) (s : string) : outcome (ParsedValue * string) :=
  match fuel with
  | O => Unfinished
  | S fuel =>
      match skipWhitespace s with
      | EmptyString => Throw "Unexpected end of input"
      | String c r as t =>
          if Ascii.eqb c "{" then
            match skipWhitespace r with
            | String "}" r' => Ok (PObj [], r')
            | r' => parseMembers fuel [] r'
            end
          else if Ascii.eqb c "[" then
            match skipWhitespace r with
            | String "]" r' => Ok (PArr [], r')
            | r' => parseElements fuel [] r'
            end
          else if is_quote c then let? (x, r') := parseString c r in Ok (PStr x, r')
          else if sign_char c || is_digit c then parseNumber t
          else parseIdentifier t
      end
  end
with parseMembers (fuel : nat) (obj : ParsedObject) (s : string) : outcome (ParsedValue * string) :=
  match fuel with
  | O => Unfinished
  | S fuel =>
      let? (key, s1) := parseKey s in
      let? s2 := expect_colon key s1 in
      let? (v, s3) := parseValue fuel s2 in
      let obj := JMap.set key v obj in
      match skipWhitespace s3 with
      | String "," r =>
          match skipWhitespace r with
          | String "}" r' => Ok (PObj obj, r')
          | r' => parseMembers fuel obj r'
          end
      | String "}" r => Ok (PObj obj, r)
      | _ => Throw "Expected ',' or '}' in object"
      end
  end
with parseElements (fuel : nat) (arr : list ParsedValue) (s : string) : outcome (ParsedValue * string) :=
  match fuel, s with
  | O, _ => Unfinished
  | S _, EmptyString => Throw "Unterminated array"
  | S fuel, _ =>
      let? (v, s1) := parseValue fuel s in
      let arr := arr ++ [v] in
      match skipWhitespace s1 with
      | String "," r =>
          match skipWhitespace r with
          | String "]" r' => Ok (PArr arr, r')
          | r' => parseElements fuel arr r'
          end
      | String "]" r => Ok (PArr arr, r)
      | _ => Throw "Expected ',' or ']' in array"
      end
  end.

(** Two calls per character are enough. *)
Definition fuel_for (s : string) : nat := 2 * String.length s + 2.

Definition parsePythonOrJson (input : string) : outcome ParsedValue :=
  let str := trim input in
  let? (v, _) := parseValue (fuel_for str) str in Ok v.

(** ** The JSON form *)

(** [String(v)]. *)
Fixpoint parsed_text (v : ParsedValue) : string :=
  match v with
  | PUndefined => "undefined"
  | PNull => "null"
  | PBool b => if b then "true" else "false"
  | PNum n => show_num n
  | PStr s => s
  | PArr l => join "," (map (fun x => match x with PUndefined | PNull => EmptyString | _ => parsed_text x end) l)
  | PObj _ => "[object Object]"
  end.

(** Lines of [JSON.stringify] between two brackets. *)
Definition bracketed (open_ close pad : string) (lines : list string) : string :=
  match lines with
  | [] => open_ +:+ close
  | _ =>
      let inner := String newline (pad +:+ "  ") in
      open_ +:+ inner +:+ join ("," +:+ inner) lines +:+ String newline pad +:+ close
  end.

Definition member_line (e : string * string) : string := json_string e.1 +:+ ": " +:+ e.2.

(** [JSON.stringify(v, null, 2)] at the indentation [pad]; [None] for
    [undefined], which a member disappears with. *)
Fixpoint stringify (pad : string) (v : ParsedValue) : option string :=
  match v with
  | PUndefined => None
  | PNull => Some "null"
  | PBool b => Some (if b then "true" else "false")
  | PNum n => Some (if is_finite n then show_num n else "null")
  | PStr s => Some (json_string s)
  | PArr l => Some (bracketed "[" "]" pad (map (fun x => stringify (pad +:+ "  ") x ?? "null") l))
  | PObj fs =>
      Some (bracketed "{" "}" pad
        (omap (fun e => (fun t => member_line (e.1, t)) <$> e.2)
          (own_entries (map (fun e => (e.1, stringify (pad +:+ "  ") e.2)) fs))))
  end.

(** [key.toLowerCase().replace(/-/g, '_')] *)
Definition snake (key : string) : string := replace_char "-" "_" (to_lower key).

(** ** Recognition *)

Definition AUTH_KEYS : list string :=
  ["cookie"; "sess"; "session"; "auth_id"; "auth_uid"; "auth_uid_"; "x_bc"; "user_agent"; "authorization"; "app_token"; "id"; "user_id"].

(** The text may be an object: not blank, not a curl command, starting with a
    brace after comments. *)
Definition object_text (value : string) : bool :=
  let cleaned := stripLeadingCommentsAndWhitespace value in
  truthy cleaned && negb (starts_with (to_lower cleaned) "curl") && starts_with cleaned "{".

(** The object the text parses to. *)
Definition parsed_object (value : string) : option ParsedObject :=
  if object_text value then
    match parsePythonOrJson value with
    | Ok (PObj fs) => Some fs
    | _ => None
    end
  else None.

Definition canNormalizeToAuthJson (value : string) : bool :=
  match parsed_object value with
  | Some fs => some (fun k => str_in (snake k) AUTH_KEYS) (JMap.keys fs)
  | None => false
  end.

(** ** Rewriting *)

Section normalize.
Context (obj : ParsedObject).

(** [obj.key !== undefined && obj.key !== null && String(obj.key).trim() !== '']
    with that text. *)
Definition text_field (key : string) : option string :=
  match JMap.get key obj with
  | None | Some PUndefined | Some PNull => None
  | Some v => truthy_opt (Some (trim (parsed_text v)))
  end.

Fixpoint first_text (keys : list string) : option string :=
  match keys with
  | [] => None
  | k :: r => match text_field k with Some s => Some s | None => first_text r end
  end.

Definition cookie_text : option string :=
  match JMap.get "cookie" obj with
  | Some (PStr s) => Some (trim s)
  | _ => match JMap.get "Cookie" obj with Some (PStr s) => Some (trim s) | _ => None end
  end.

(** [obj.id] unless it is the number 0. *)
Definition id_text : option string :=
  match JMap.get "id" obj with
  | Some (PNum n) => if n =! #0 then None else text_field "id"
  | _ => text_field "id"
  end.

Definition cookieVals : ExtractedCookieValues := extractCookieValues cookie_text.

Definition auth_id_text : option string :=
  first_text ["auth_id"; "user_id"] ??? (id_text ??? cookie_authId cookieVals).
Definition sess_text : option string := first_text ["sess"; "session"] ??? cookie_sess cookieVals.
Definition auth_uid_text : option string :=
  first_text ["auth_uid_"; "auth_uid"] ??? (cookie_authUid cookieVals ??? auth_id_text).
Definition user_agent_text : option string := first_text ["user_agent"; "user-agent"; "userAgent"].
Definition x_bc_text : option string := first_text ["x_bc"; "x-bc"; "xBc"].
Definition app_token_text : option string := first_text ["app-token"; "app_token"; "appToken"].
Definition authorization_text : option string := first_text ["authorization"; "Authorization"].

(** [if (text) normalized[key] = text] *)
Definition put (key : string) (text : option string) (m : ParsedObject) : ParsedObject :=
  match truthy_opt text with Some s => JMap.set key (PStr s) m | None => m end.

Definition known_fields : ParsedObject :=
  put "cookie" cookie_text (put "authorization" authorization_text (put "app-token" app_token_text
    (put "x_bc" x_bc_text (put "user_agent" user_agent_text (put "auth_uid_" auth_uid_text
      (put "sess" sess_text (put "auth_id" auth_id_text []))))))).

Definition HANDLED : list string :=
  ["auth_id"; "user_id"; "id"; "sess"; "session"; "auth_uid_"; "auth_uid"; "user_agent"; "x_bc"; "app_token"; "authorization"; "cookie"].

(** [v !== null && v !== undefined && v !== ''] *)
Definition is_present (v : ParsedValue) : bool :=
  match v with PUndefined | PNull => false | PStr s => truthy s | _ => true end.

(** The other members, kept as they are. *)
Definition carried (e : string * ParsedValue) : bool := negb (str_in (snake e.1) HANDLED) && is_present e.2.

Definition normalized : ParsedObject :=
  foldl (fun m e => JMap.set e.1 e.2 m) known_fields (keep carried (own_entries obj)).
End normalize.

Definition normalizeToAuthJson (value : string) : string :=
  match parsed_object value with
  | Some fs => stringify EmptyString (PObj (normalized fs)) ?? EmptyString
  | None => value
  end.

(** ** The import form *)

Inductive AuthImportTab := TabCurl | TabJson.

Definition is_curl (trimmed : string) : bool := starts_with (to_lower trimmed) "curl".

Definition detectAuthImportType (value : string) : option AuthImportTab :=
  let trimmed := trim value in
  if negb (truthy trimmed) then None
  else if is_curl trimmed then Some TabCurl
  else if canNormalizeToAuthJson trimmed || starts_with trimmed "{" then Some TabJson
  else None.

Definition isSupportedAuthImportInput (value : string) (importTab : AuthImportTab) : bool :=
  let trimmed := trim value in
  if negb (truthy trimmed) then false
  else match importTab with
       | TabCurl => is_curl trimmed
       | TabJson => starts_with trimmed "{" || canNormalizeToAuthJson trimmed
       end.

(** ** Credentials *)

(** [api/types/auths.ts] *)
Record AuthCredential := {
  ac_id : num;
  ac_site : string;
  ac_username : option string;
  ac_user_id : num;
  ac_status : string;
  ac_active : bool;
  ac_last_tested_at : option string;
  ac_created_at : option string;
  cookie_preview : option string;
  has_authorization : bool;
  user_agent_preview : option string;
  ac_proxy_id : option string;
  worker_shard : option num;
  is_age_verified : option bool;
  age_verification_required : option bool;
  spend : bool;
  spender_type : option string
}.

Definition AUTH_SORT_OPTIONS : list (string * string) :=
  [("created_at", "Created"); ("last_tested_at", "Last Tested"); ("username", "Username");
   ("user_id", "User ID"); ("status", "Status"); ("site", "Site")].

(** A filter or preference: not set, enabled or disabled. *)
Inductive AuthStateFilter := AnyState | Enabled | Disabled.

Definition matchesStateFilter (auth : AuthCredential) (stateFilter : AuthStateFilter) : bool :=
  match stateFilter with
  | AnyState => true
  | Enabled => ac_active auth
  | Disabled => negb (ac_active auth)
  end.

Definition isOnlyFansAuth (auth : AuthCredential) : bool := to_lower (ac_site auth) =s "onlyfans".

Definition needsAgeVerification (auth : AuthCredential) : bool :=
  isOnlyFansAuth auth && (age_verification_required auth ?? false) && negb (is_age_verified auth ?? false).

Definition parseEmailNotificationPreference (preference : AuthStateFilter) : option bool :=
  match preference with Enabled => Some true | Disabled => Some false | AnyState => None end.

Definition formatAuthDate {E : Env} (dateStr : option string) : string :=
  match truthy_opt dateStr with
  | None => "Never"
  | Some d => toLocaleString (date_ms d)
  end.

Definition getSiteIcon (site : string) : string :=
  let s := to_lower site in
  if s =s "onlyfans" then "🔵" else if s =s "fansly" then "💙" else "🌐".

Definition spenderTypeLabel (spenderType : option string) : string :=
  if opt_eqb spenderType "free" then "free only"
  else if opt_eqb spenderType "paid" then "paid only" else "any price".
