(* ===== verification/AuthImportSpec.v ===== *)
(** * Properties of pasted credentials

    The parser always ends; it reads back what [JSON.stringify] writes; the JSON
    form is a fixed point of the rewriting, which the page and the API client
    both apply; and the tab an input is detected for is the one that takes it. *)

From Stdlib Require Import Ascii ZArith Lia SpecFloat.
From stdpp Require Import base list strings option sets.
From S2P Require Import Prelude JsString JsNum JsValue JsDate JsObject AuthImport.

Notation len := String.length.

(** ** Termination *)

(** A step of the parser ended, leaving no more text than it had. *)
Definition ended {A} (s : string) (o : outcome (A * string)) : Prop :=
  match o with Ok (_, r) => (len r <= len s)%nat | Throw _ => True | Unfinished => False end.

Lemma ended_le {A} s t (o : outcome (A * string)) : ended s o -> (len s <= len t)%nat -> ended t o.
Proof. destruct o as [[a r]| |]; simpl; [lia|done|done]. Qed.

Lemma ended_then {A B} s (o : outcome (A * string)) (f : A * string -> outcome (B * string)) :
  ended s o -> (forall a r, o = Ok (a, r) -> (len r <= len s)%nat -> ended s (f (a, r))) -> ended s (and_then o f).
Proof. destruct o as [[a r]| |]; simpl; auto. Qed.

Lemma skip_length b s : (len (skip_text b s) <= len s)%nat.
Proof.
  revert b. induction s as [|c r IH]; intros b; [done|]. simpl.
  destruct b; [specialize (IH (negb (Ascii.eqb c newline))); simpl in *; lia|].
  destruct (is_space c); [specialize (IH false); simpl; lia|].
  destruct (_ || _); [specialize (IH true); simpl; lia|done].
Qed.

Lemma len_app s t : len (s +:+ t) = (len s + len t)%nat.
Proof. induction s as [|c s IH]; [done|]. simpl. by rewrite IH. Qed.

Lemma span_length p s : (len (span p s).2 <= len s)%nat.
Proof. rewrite <- (span_app p s) at 2. rewrite len_app. lia. Qed.

Lemma string_ended quote s : ended s (parseString quote s).
Proof.
  assert (H : forall n s, (len s <= n)%nat -> ended s (parseString quote s)); [|by apply (H (len s))].
  clear s. intros n. induction n as [|n IH]; intros [|c r] Hl; simpl in *; try done; try lia.
  assert (Hp : forall d u, (len u <= len r)%nat -> ended (String c r) (prepend d (parseString quote u))).
  { intros d u Hu. apply ended_then; [apply (ended_le u); [apply IH; lia|simpl; lia]|]. simpl. intros a t _ Ht. done. }
  destruct (Ascii.eqb c "\"); [destruct r as [|x r]; [done|apply Hp; simpl; lia]|].
  destruct (Ascii.eqb c quote); [simpl; lia|by apply Hp].
Qed.

Lemma number_ended s : ended s (parseNumber s).
Proof.
  unfold parseNumber. assert (H : (len (number_text s).2 <= len s)%nat).
  { unfold number_text. destruct s as [|c r]; [done|]. destruct (sign_char c); [|apply span_length].
    pose proof (span_length number_char r). simpl. lia. }
  destruct (number_text s) as [t r]. by destruct (is_nan _).
Qed.

Lemma identifier_ended s : ended s (parseIdentifier s).
Proof.
  unfold parseIdentifier. pose proof (span_length ident_char s) as H. destruct (span ident_char s) as [t r].
  by repeat case_match.
Qed.

Lemma key_ended s : ended s (parseKey s).
Proof.
  destruct s as [|c r]; [done|]. unfold parseKey. destruct (is_quote c).
  - apply (ended_le r); [apply string_ended|simpl; lia].
  - pose proof (span_length key_char (String c r)) as H. destruct (span key_char _) as [t u]. by destruct (truthy t).
Qed.

Lemma colon_ended key s r : expect_colon key s = Ok r -> (len r < len s)%nat.
Proof.
  unfold expect_colon. pose proof (skip_length false s) as H. unfold skipWhitespace.
  destruct (skip_text false s) as [|[[][][][][][][][]] u]; try done. intros [= ->]. simpl in H. lia.
Qed.

Lemma colon_not_unfinished key s : expect_colon key s <> Unfinished.
Proof. unfold expect_colon. by destruct (skipWhitespace s) as [|[[][][][][][][][]] u]. Qed.

(** What is left after the next character of interest. *)
Lemma skip_tail s c r : skipWhitespace s = String c r -> (S (len r) <= len s)%nat.
Proof. intros H. pose proof (skip_length false s) as Hl. unfold skipWhitespace in H. rewrite H in Hl. done. Qed.

Lemma parsers_end fuel :
  (forall s, (2 * len s + 1 <= fuel)%nat -> ended s (parseValue fuel s)) /\
  (forall obj s, (2 * len s + 2 <= fuel)%nat -> ended s (parseMembers fuel obj s)) /\
  (forall arr s, (2 * len s + 2 <= fuel)%nat -> ended s (parseElements fuel arr s)).
Proof.
  induction fuel as [|fuel (IHv & IHm & IHe)]; [repeat split; intros; lia|]. split; [|split].
  - intros s Hf. simpl. destruct (skipWhitespace s) as [|c r] eqn:Es; [done|]. apply skip_tail in Es.
    pose proof (skip_length false r) as Hr. unfold skipWhitespace.
    destruct (Ascii.eqb c "{").
    { assert (H : ended s (parseMembers fuel [] (skip_text false r))) by (apply (ended_le (skip_text false r)); [apply IHm|]; lia).
      destruct (skip_text false r) as [|[[][][][][][][][]] u]; try done. simpl in *. lia. }
    destruct (Ascii.eqb c "[").
    { assert (H : ended s (parseElements fuel [] (skip_text false r))) by (apply (ended_le (skip_text false r)); [apply IHe|]; lia).
      destruct (skip_text false r) as [|[[][][][][][][][]] u]; try done. simpl in *. lia. }
    destruct (is_quote c).
    { apply ended_then; [apply (ended_le r); [apply string_ended|lia]|]. simpl. done. }
    apply (ended_le (String c r)); [|done]. destruct (_ || _); [apply number_ended|apply identifier_ended].
  - intros obj s Hf. simpl. apply ended_then; [apply key_ended|]. intros key s1 _ H1. 
    destruct (expect_colon key s1) as [s2| |] eqn:Ec; [|done|by apply colon_not_unfinished in Ec]. simpl.
    apply colon_ended in Ec. apply ended_then; [apply (ended_le s2); [apply IHv|]; lia|]. intros v s3 Hv H3.
    destruct (skipWhitespace s3) as [|c r] eqn:Es; [done|]. apply skip_tail in Es. pose proof (skip_length false r) as Hr.
    unfold skipWhitespace in *.
    assert (H : ended s (parseMembers fuel (JMap.set key v obj) (skip_text false r))) by (apply (ended_le (skip_text false r)); [apply IHm|]; lia).
    destruct c as [[][][][][][][][]]; simpl; try done; try lia.
    destruct (skip_text false r) as [|[[][][][][][][][]] u]; try done. simpl in *. lia.
  - intros arr s Hf. simpl. destruct s as [|c0 s0]; [done|]. generalize dependent (String c0 s0). clear c0 s0. intros s Hf.
    apply ended_then; [apply IHv; lia|]. intros v s3 Hv H3.
    destruct (skipWhitespace s3) as [|c r] eqn:Es; [done|]. apply skip_tail in Es. pose proof (skip_length false r) as Hr.
    unfold skipWhitespace in *.
    assert (H : ended s (parseElements fuel (arr ++ [v]) (skip_text false r))) by (apply (ended_le (skip_text false r)); [apply IHe|]; lia).
    destruct c as [[][][][][][][][]]; simpl; try done; try lia.
    destruct (skip_text false r) as [|[[][][][][][][][]] u]; try done. simpl in *. lia.
Qed.

(** C37. Whatever is pasted, the parser ends with a value or an error: its
    recursion needs at most two calls per character. *)
Theorem parser_ends s : parsePythonOrJson s <> Unfinished.
Proof.
  unfold parsePythonOrJson. destruct (parsers_end (fuel_for (trim s))) as [H _].
  specialize (H (trim s)). unfold fuel_for in *. destruct (parseValue _ _) as [[v r]| |]; [done|done|]. exfalso. apply H. lia.
Qed.

(** More fuel changes nothing. *)
Definition settled {A} (o o' : outcome A) : Prop := o <> Unfinished -> o' = o.

Lemma settled_then {A B} (o o' : outcome A) (f f' : A -> outcome B) :
  settled o o' -> (forall a, settled (f a) (f' a)) -> settled (and_then o f) (and_then o' f').
Proof. intros Ho Hf H. destruct o as [a|m|]; [|by rewrite Ho|done]. rewrite Ho by done. by apply Hf. Qed.

Lemma more_fuel fuel : forall k,
  (forall s, settled (parseValue fuel s) (parseValue (fuel + k) s)) /\
  (forall obj s, settled (parseMembers fuel obj s) (parseMembers (fuel + k) obj s)) /\
  (forall arr s, settled (parseElements fuel arr s) (parseElements (fuel + k) arr s)).
Proof.
  induction fuel as [|fuel IH]; intros k; [repeat split; intros; by intros []|]. destruct (IH k) as (IHv & IHm & IHe). split; [|split].
  - intros s. simpl. destruct (skipWhitespace s) as [|c r]; [done|]. destruct (Ascii.eqb c "{").
    { destruct (skipWhitespace r) as [|[[][][][][][][][]] u]; first [apply IHm | done]. }
    destruct (Ascii.eqb c "["); [|done].
    destruct (skipWhitespace r) as [|[[][][][][][][][]] u]; first [apply IHe | done].
  - intros obj s. simpl. apply settled_then; [done|]. intros [key s1]. apply settled_then; [done|]. intros s2.
    apply settled_then; [apply IHv|]. intros [v s3]. destruct (skipWhitespace s3) as [|[[][][][][][][][]] r]; try done.
    destruct (skipWhitespace r) as [|[[][][][][][][][]] u]; first [apply IHm | done].
  - intros arr s. simpl. destruct s; [done|]. apply settled_then; [apply IHv|]. intros [v s3].
    destruct (skipWhitespace s3) as [|[[][][][][][][][]] r]; try done.
    destruct (skipWhitespace r) as [|[[][][][][][][][]] u]; first [apply IHe | done].
Qed.

Lemma value_fuel f f' s o : (f <= f')%nat -> parseValue f s = o -> o <> Unfinished -> parseValue f' s = o.
Proof. intros Hf <- Ho. replace f' with (f + (f' - f))%nat by lia. by apply (proj1 (more_fuel f _)). Qed.

(** ** What JSON text keeps *)

(** Characters that quoting and parsing leave alone: no control character but
    the ends of line and the tab. *)
Definition plain_char (c : ascii) : bool :=
  (32 <=? JsUri.code c) || Ascii.eqb c newline || Ascii.eqb c (ascii_of_nat 13) || Ascii.eqb c (ascii_of_nat 9).

Definition plain (s : string) : Prop := str_forall plain_char s = true.

(** A number written without an exponent that reads back. *)
Definition plain_num (n : num) : Prop :=
  is_finite n = true /\ number_of_string (show_num n) = n /\ number_text (show_num n) = (show_num n, EmptyString) /\
  match show_num n with String c _ => sign_char c || is_digit c = true | EmptyString => False end.

(** Every part satisfies the conditions; no [undefined], no key twice. *)
Fixpoint printable (v : ParsedValue) : Prop :=
  match v with
  | PUndefined => False
  | PNull | PBool _ => True
  | PNum n => plain_num n
  | PStr s => plain s
  | PArr l => foldr (fun x P => printable x /\ P) True l
  | PObj fs => JMap.wf fs /\ foldr (fun e P => (plain e.1 /\ printable e.2) /\ P) True fs
  end.

Lemma printable_arr l : printable (PArr l) <-> Forall printable l.
Proof. simpl. apply foldr_Forall. Qed.

Lemma printable_obj fs : printable (PObj fs) <-> JMap.wf fs /\ Forall (fun e => plain e.1 /\ printable e.2) fs.
Proof.
  simpl. apply and_iff_compat_l, foldr_Forall.
Qed.

(** The same value with each object's members in the order of enumeration. *)
Fixpoint canonical (v : ParsedValue) : ParsedValue :=
  match v with
  | PArr l => PArr (map canonical l)
  | PObj fs => PObj (own_entries (map (fun e => (e.1, canonical e.2)) fs))
  | _ => v
  end.

Lemma stringify_canonical v : forall pad, stringify pad (canonical v) = stringify pad v.
Proof.
  induction v as [| | | | |l IH|fs IH] using parsed_ind; intros pad; try done; cbn [canonical stringify]; do 2 f_equal.
  - rewrite map_map. apply map_ext_Forall. eapply Forall_impl; [exact IH|]. intros x Hx. simpl. by rewrite Hx.
  - f_equal. rewrite (own_entries_map (fun e => (e.1, stringify (pad +:+ "  ") e.2))) by done. rewrite own_entries_idem, map_map.
    f_equal. apply map_ext_Forall. eapply Forall_impl; [exact IH|]. intros x Hx. simpl. by rewrite Hx.
Qed.

(** ** Reading back *)

Definition blank (s : string) : Prop := str_forall is_space s = true.

Lemma skip_blank b s : blank b -> skipWhitespace (b +:+ s) = skipWhitespace s.
Proof.
  unfold blank, skipWhitespace. induction b as [|c b IH]; [done|]. simpl. destruct (is_space c); [|done]. exact IH.
Qed.

(** A text that starts with a token. *)
Definition solid (s : string) : Prop :=
  match s with
  | String c r => is_space c = false /\ Ascii.eqb c "#" = false /\ Ascii.eqb c "/" = false /\ Ascii.eqb c "]" = false /\ Ascii.eqb c "}" = false
  | EmptyString => False
  end.

Lemma solid_app s t : solid s -> solid (s +:+ t).
Proof. by destruct s. Qed.

Lemma starts_with_char c d s t : Ascii.eqb c d = false -> starts_with (String c s) (String d t) = false.
Proof. intros H. unfold starts_with. simpl. destruct (Ascii.ascii_dec d c) as [->|]; [by rewrite Ascii.eqb_refl in H|done]. Qed.

Lemma skip_solid s : solid s -> skipWhitespace s = s.
Proof.
  destruct s as [|c r]; [done|]. intros (H1 & H2 & H3 & _). unfold skipWhitespace. cbn [skip_text]. rewrite H1, H2.
  by rewrite (starts_with_char c "/").
Qed.

(** What may follow a value. *)
Definition stops (s : string) : Prop :=
  match s with String c _ => ident_char c = false /\ number_char c = false | EmptyString => True end.

Lemma span_whole p s t : str_forall p s = true -> match t with String c _ => p c = false | EmptyString => True end ->
  span p (s +:+ t) = (s, t).
Proof.
  intros Hs Ht. destruct t as [|c t]; [|by apply span_stop]. rewrite str_app_nil_r.
  induction s as [|c s IH]; [done|]. simpl in *. destruct (p c); [|done]. simpl in Hs. by rewrite IH.
Qed.

(** [parseValue] reads [v] and leaves [rest]. *)
Definition reads (s : string) (v : ParsedValue) (rest : string) : Prop :=
  exists n, forall f, (n <= f)%nat -> parseValue f s = Ok (v, rest).

Lemma reads_ok f s v rest : parseValue f s = Ok (v, rest) -> reads s v rest.
Proof. intros H. exists f. intros f' Hf. by apply (value_fuel f). Qed.

Lemma reads_blank b s v rest : blank b -> reads s v rest -> reads (b +:+ s) v rest.
Proof.
  intros Hb [n H]. exists (S n). intros [|f] Hf; [lia|]. rewrite <- (H (S f)) by lia. simpl. by rewrite skip_blank.
Qed.

Lemma string_read s rest : plain s -> parseString dquote (json_chars s +:+ String dquote rest) = Ok (s, rest).
Proof.
  unfold plain. induction s as [|c s IH]; [done|]. intros [Hc Hs]%andb_prop. cbn [json_chars]. rewrite app_assoc_str.
  assert (Hr : forall r, parseString dquote (json_char c +:+ r) = prepend c (parseString dquote r)).
  { intros r. clear -Hc. destruct c as [[][][][][][][][]]; first [discriminate Hc | reflexivity]. }
  by rewrite Hr, IH.
Qed.

Lemma ident_read t rest : str_forall ident_char t = true -> stops rest -> span ident_char (t +:+ rest) = (t, rest).
Proof. intros Ht Hr. apply span_whole; [done|]. destruct rest; [done|apply Hr]. Qed.

Lemma number_read n rest : plain_num n -> stops rest ->
  solid (show_num n) /\ reads (show_num n +:+ rest) (PNum n) rest.
Proof.
  intros (Hf & Hn & Ht & Hc) Hr. assert (Hs : solid (show_num n)).
  { destruct (show_num n) as [|c r]; [done|]. clear -Hc. destruct c as [[][][][][][][][]]; first [discriminate Hc | done]. }
  split; [done|]. apply (reads_ok 1). cbn [parseValue]. rewrite skip_solid by by apply solid_app.
  assert (Hspan : number_text (show_num n +:+ rest) = (show_num n, rest)).
  { destruct (show_num n) as [|c r] eqn:E; [done|]. clear -Ht Hr Hs. simpl in *.
    assert (Hrest : match rest with String c _ => number_char c = false | EmptyString => True end) by (destruct rest; [done|apply Hr]).
    assert (Hall : forall t, (span number_char t).2 = EmptyString -> str_forall number_char t = true).
    { intros t H. rewrite <- (span_app number_char t), H, str_app_nil_r. apply span_forall. }
    destruct (sign_char c).
    - injection Ht as E1 E2. by rewrite (span_whole _ r rest (Hall r E2)).
    - assert (H : (span number_char (String c r)).2 = EmptyString) by (simpl; by rewrite Ht).
      apply (span_whole number_char (String c r) rest (Hall _ H) Hrest). }
  destruct (show_num n) as [|c r] eqn:E; [done|]. simpl.
  replace (Ascii.eqb c "{") with false by (clear -Hc; destruct c as [[][][][][][][][]]; first [discriminate Hc | done]).
  replace (Ascii.eqb c "[") with false by (clear -Hc; destruct c as [[][][][][][][][]]; first [discriminate Hc | done]).
  replace (is_quote c) with false by (clear -Hc; destruct c as [[][][][][][][][]]; first [discriminate Hc | done]).
  rewrite Hc. unfold parseNumber. change (String c (r +:+ rest)) with (String c r +:+ rest). rewrite Hspan, Hn.
  by replace (is_nan n) with false by by destruct n.
Qed.

(** A member or element together with its text. *)
Record entry := { e_key : string; e_val : ParsedValue; e_text : string }.

Definition entry_ok (e : entry) : Prop :=
  plain (e_key e) /\ solid (e_text e) /\ forall rest, stops rest -> reads (e_text e +:+ rest) (e_val e) rest.

Definition entry_line (e : entry) : string := member_line (e_key e, e_text e).

(** The text after a member or element: the next one's line, or the end. *)
Definition tail_of (inner pad close rest : string) (line : entry -> string) (es : list entry) : string :=
  match es with
  | [] => String newline (pad +:+ close +:+ rest)
  | _ => "," +:+ inner +:+ join ("," +:+ inner) (map line es) +:+ String newline (pad +:+ close +:+ rest)
  end.

Lemma join_tail inner pad close rest line e es :
  join ("," +:+ inner) (map line (e :: es)) +:+ String newline (pad +:+ close +:+ rest) =
  line e +:+ tail_of inner pad close rest line es.
Proof. destruct es as [|e' es]; [done|]. cbn [map]. change (join ?s (?a :: ?b :: ?l)) with (a +:+ s +:+ join s (b :: l)). by rewrite !app_assoc_str. Qed.

Lemma tail_stops inner pad close rest line es : stops (tail_of inner pad close rest line es).
Proof. by destruct es. Qed.

Lemma skip_end pad close rest : blank pad -> skipWhitespace (String newline (pad +:+ close +:+ rest)) = skipWhitespace (close +:+ rest).
Proof. intros H. exact (skip_blank pad (close +:+ rest) H). Qed.

Lemma member_shape e t :
  entry_line e +:+ t = String dquote (json_chars (e_key e) +:+ String dquote (String ":" (String " " (e_text e +:+ t)))).
Proof.
  unfold entry_line, member_line, json_string. cbn [fst snd]. rewrite !app_assoc_str.
  change (String dquote ?x +:+ ?y) with (String dquote (x +:+ y)). by rewrite app_assoc_str.
Qed.

Lemma entry_value e rest : entry_ok e -> stops rest ->
  exists n, forall f, (n <= f)%nat -> parseValue f (String " " (e_text e +:+ rest)) = Ok (e_val e, rest).
Proof. intros (_ & _ & Hv) Hr. exact (reads_blank " " _ _ _ eq_refl (Hv rest Hr)). Qed.

(** The rest of the loops' bodies, once a member or element is read. *)
Definition after_member (f : nat) (obj : ParsedObject) (s : string) : outcome (ParsedValue * string) :=
  match skipWhitespace s with
  | String "," r =>
      match skipWhitespace r with
      | String "}" r' => Ok (PObj obj, r')
      | r' => parseMembers f obj r'
      end
  | String "}" r => Ok (PObj obj, r)
  | _ => Throw "Expected ',' or '}' in object"
  end.

Definition after_element (f : nat) (arr : list ParsedValue) (s : string) : outcome (ParsedValue * string) :=
  match skipWhitespace s with
  | String "," r =>
      match skipWhitespace r with
      | String "]" r' => Ok (PArr arr, r')
      | r' => parseElements f arr r'
      end
  | String "]" r => Ok (PArr arr, r)
  | _ => Throw "Expected ',' or ']' in array"
  end.

Lemma member_step e obj tail : entry_ok e -> stops tail -> e_key e ∉ JMap.keys obj -> exists n, forall f, (n <= f)%nat ->
  parseMembers (S f) obj (entry_line e +:+ tail) = after_member f (obj ++ [(e_key e, e_val e)]) tail.
Proof.
  intros He Ht Hk. destruct (entry_value e tail He Ht) as [n H]. exists n. intros f Hf. rewrite member_shape.
  cbn [parseMembers parseKey]. change (is_quote dquote) with true. cbn iota. rewrite string_read by apply He. cbn [and_then].
  change (expect_colon ?k (String ":" ?r)) with (@Ok string r). cbn [and_then]. rewrite H by lia. cbn [and_then].
  by rewrite JMap.set_absent by by apply JMap.get_None.
Qed.

Lemma element_step e arr tail : entry_ok e -> stops tail -> exists n, forall f, (n <= f)%nat ->
  parseElements (S f) arr (e_text e +:+ tail) = after_element f (arr ++ [e_val e]) tail.
Proof.
  intros (_ & Hs & Hv) Ht. destruct (Hv tail Ht) as [n H]. exists n. intros f Hf. cbn [parseElements].
  rewrite (H f Hf). by destruct (e_text e).
Qed.

(** The loop of objects, over the lines of its members. *)
Lemma members_read inner pad rest es : blank inner -> blank pad -> Forall entry_ok es ->
  forall e obj, entry_ok e -> NoDup (JMap.keys obj ++ map e_key (e :: es)) -> exists n, forall f, (n <= f)%nat ->
  parseMembers f obj (entry_line e +:+ tail_of inner pad "}" rest entry_line es) =
  Ok (PObj (obj ++ map (fun e => (e_key e, e_val e)) (e :: es)), rest).
Proof.
  intros Hi Hp Hes. induction Hes as [|e' es He' Hes IH]; intros e obj He Hnd.
  - assert (Hk : e_key e ∉ JMap.keys obj) by (apply NoDup_app in Hnd as (_ & H & _); intros Hin; apply (H _ Hin); simpl; set_solver).
    destruct (member_step e obj _ He (tail_stops inner pad "}" rest entry_line []) Hk) as [n H].
    exists (S n). intros [|f] Hf; [lia|]. rewrite H by lia. unfold after_member, tail_of. by rewrite skip_end.
  - assert (Hk : e_key e ∉ JMap.keys obj) by (apply NoDup_app in Hnd as (_ & H & _); intros Hin; apply (H _ Hin); simpl; set_solver).
    destruct (member_step e obj _ He (tail_stops inner pad "}" rest entry_line (e' :: es)) Hk) as [n1 H1].
    destruct (IH e' (obj ++ [(e_key e, e_val e)]) He') as [n2 H2].
    { unfold JMap.keys in *. rewrite map_app, <- app_assoc. exact Hnd. }
    exists (S (n1 + n2)). intros [|f] Hf; [lia|]. rewrite H1 by lia. unfold after_member, tail_of at 1. rewrite join_tail.
    change (skipWhitespace ("," +:+ ?x)) with (String "," x). cbn iota. rewrite skip_blank by done.
    specialize (H2 f ltac:(lia)). rewrite member_shape in *. rewrite <- app_assoc in H2. exact H2.
Qed.

(** The loop of arrays, likewise. *)
Lemma elements_read inner pad rest es : blank inner -> blank pad -> Forall entry_ok es ->
  forall e arr, entry_ok e -> exists n, forall f, (n <= f)%nat ->
  parseElements f arr (e_text e +:+ tail_of inner pad "]" rest e_text es) = Ok (PArr (arr ++ map e_val (e :: es)), rest).
Proof.
  intros Hi Hp Hes. induction Hes as [|e' es He' Hes IH]; intros e arr He.
  - destruct (element_step e arr _ He (tail_stops inner pad "]" rest e_text [])) as [n H].
    exists (S n). intros [|f] Hf; [lia|]. rewrite H by lia. unfold after_element, tail_of. by rewrite skip_end.
  - destruct (element_step e arr _ He (tail_stops inner pad "]" rest e_text (e' :: es))) as [n1 H1].
    destruct (IH e' (arr ++ [e_val e]) He') as [n2 H2].
    exists (S (n1 + n2)). intros [|f] Hf; [lia|]. rewrite H1 by lia. unfold after_element, tail_of at 1. rewrite join_tail.
    change (skipWhitespace ("," +:+ ?x)) with (String "," x). cbn iota. rewrite skip_blank by done.
    assert (Hs : solid (e_text e' +:+ tail_of inner pad "]" rest e_text es)) by by apply solid_app, He'.
    rewrite skip_solid by done. specialize (H2 f ltac:(lia)). clear -Hs H2. rewrite <- app_assoc in H2.
    destruct (e_text e' +:+ _) as [|c r]; [done|]. destruct Hs as (_ & _ & _ & Hc & _).
    destruct c as [[][][][][][][][]]; first [discriminate Hc | exact H2].
Qed.

Lemma bracketed_shape open_ close pad rest line e es :
  bracketed open_ close pad (map line (e :: es)) +:+ rest =
  open_ +:+ (String newline (pad +:+ "  ")) +:+ line e +:+ tail_of (String newline (pad +:+ "  ")) pad close rest line es.
Proof.
  rewrite <- join_tail. unfold bracketed. cbn [map]. rewrite !app_assoc_str.
  change (String newline pad +:+ ?x) with (String newline (pad +:+ x)). done.
Qed.

Lemma blank_inner pad : blank pad -> blank (String newline (pad +:+ "  ")).
Proof. unfold blank. cbn [str_forall]. rewrite str_forall_app. intros ->. done. Qed.

Lemma word_read w v rest : stops rest -> solid w -> str_forall ident_char w = true ->
  match w with String c _ => is_alpha c = true | EmptyString => False end ->
  parseIdentifier (w +:+ rest) = Ok (v, rest) -> reads (w +:+ rest) v rest.
Proof.
  intros Hr Hs Hi Ha E. apply (reads_ok 1). cbn [parseValue]. rewrite skip_solid by by apply solid_app.
  rewrite <- E. clear E. destruct w as [|c r]; [done|]. simpl. clear -Ha.
  destruct c as [[][][][][][][][]]; first [discriminate Ha | reflexivity].
Qed.

Definition entry_of (pad : string) (e : string * ParsedValue) : entry :=
  {| e_key := e.1; e_val := canonical e.2; e_text := stringify pad e.2 ?? "null" |}.

(** [JSON.stringify]'s text of a printable value reads back as that value, its
    members in order, and what follows is left. *)
Definition read_back (v : ParsedValue) : Prop :=
  printable v -> forall pad, blank pad -> exists t, stringify pad v = Some t /\ solid t /\
  forall rest, stops rest -> reads (t +:+ rest) (canonical v) rest.

Lemma entries_read pad l : blank pad -> Forall (fun e => plain e.1 /\ printable e.2) l -> Forall (fun e => read_back e.2) l ->
  Forall entry_ok (map (entry_of (pad +:+ "  ")) l).
Proof.
  intros Hp Hl Hr. apply Forall_map. apply Forall_forall. intros [k v] Hin.
  rewrite Forall_forall in Hl, Hr. destruct (Hl _ Hin) as [Hk Hv]. simpl in *.
  assert (Hb : blank (pad +:+ "  ")) by (unfold blank in *; by rewrite str_forall_app, Hp).
  destruct (Hr _ Hin Hv _ Hb) as (t & Ht & Hs & Hrd). unfold entry_ok, entry_of. simpl in *. by rewrite Ht.
Qed.

Lemma array_read pad e es : blank pad -> Forall entry_ok (e :: es) -> forall rest, stops rest ->
  reads (bracketed "[" "]" pad (map e_text (e :: es)) +:+ rest) (PArr (map e_val (e :: es))) rest.
Proof.
  intros Hp Hes rest Hr. apply Forall_cons in Hes as [He Hes]. rewrite bracketed_shape.
  destruct (elements_read _ _ rest _ (blank_inner pad Hp) Hp Hes _ [] He) as [n H]. exists (S n). intros [|f] Hf; [lia|].
  specialize (H f ltac:(lia)). cbn [parseValue]. change (skipWhitespace ("[" +:+ ?x)) with (String "[" x). cbn iota.
  change (Ascii.eqb "[" "{") with false. change (Ascii.eqb "[" "[") with true. cbn iota.
  rewrite skip_blank by by apply blank_inner. assert (Hs : solid (e_text e)) by apply He.
  rewrite skip_solid by by apply solid_app. simpl app in H. clear -Hs H.
  destruct (e_text e) as [|c r]; [done|]. destruct Hs as (_ & _ & _ & Hc & _). simpl in H |- *.
  destruct c as [[][][][][][][][]]; first [discriminate Hc | exact H].
Qed.

Lemma object_read pad e es : blank pad -> Forall entry_ok (e :: es) -> NoDup (map e_key (e :: es)) -> forall rest, stops rest ->
  reads (bracketed "{" "}" pad (map entry_line (e :: es)) +:+ rest) (PObj (map (fun e => (e_key e, e_val e)) (e :: es))) rest.
Proof.
  intros Hp Hes Hnd rest Hr. apply Forall_cons in Hes as [He Hes]. rewrite bracketed_shape.
  destruct (members_read _ _ rest _ (blank_inner pad Hp) Hp Hes _ [] He Hnd) as [n H]. exists (S n). intros [|f] Hf; [lia|].
  specialize (H f ltac:(lia)). cbn [parseValue]. change (skipWhitespace ("{" +:+ ?x)) with (String "{" x). cbn iota.
  change (Ascii.eqb "{" "{") with true. cbn iota. rewrite skip_blank by by apply blank_inner.
  rewrite member_shape in *. exact H.
Qed.

Lemma empty_read s v rest : parseValue 1 (s +:+ rest) = Ok (v, rest) -> reads (s +:+ rest) v rest.
Proof. apply reads_ok. Qed.

Lemma array_back l : Forall read_back l -> read_back (PArr l).
Proof.
  intros IH Hpr pad Hp. apply printable_arr in Hpr. cbn [stringify canonical]. eexists. split; [done|].
  assert (Hes : Forall entry_ok (map (entry_of (pad +:+ "  ")) (map (pair EmptyString) l))).
  { apply entries_read; [done| |]; apply Forall_map; [eapply Forall_impl; [exact Hpr|]; by intros x Hx|exact IH]. }
  destruct l as [|v l]; [split; [done|]; intros rest Hr; by apply (reads_ok 1)|]. split; [done|]. intros rest Hr.
  cbn [map] in Hes. pose proof (array_read pad _ _ Hp Hes rest Hr) as H. cbn [map] in *. rewrite !map_map in H. exact H.
Qed.

Lemma lines_of pad fs : blank pad -> Forall (fun e => plain e.1 /\ printable e.2) fs -> Forall (fun e => read_back e.2) fs ->
  omap (fun e => (fun t => member_line (e.1, t)) <$> e.2) (map (fun e => (e.1, stringify (pad +:+ "  ") e.2)) fs) =
  map entry_line (map (entry_of (pad +:+ "  ")) fs).
Proof.
  intros Hp Hpr IH. induction fs as [|[k v] fs IHf]; [done|]. apply Forall_cons in Hpr as [[_ Hv] Hpr].
  apply Forall_cons in IH as [Hr IH]. assert (Hb : blank (pad +:+ "  ")) by (unfold blank in *; by rewrite str_forall_app, Hp).
  destruct (Hr Hv _ Hb) as (t & Ht & _). simpl in Ht |- *. rewrite Ht. simpl. rewrite <- IHf by done. f_equal.
  unfold entry_line, entry_of. simpl. by rewrite Ht.
Qed.

Lemma object_back fs : Forall (fun e => read_back e.2) fs -> read_back (PObj fs).
Proof.
  intros IH Hpr pad Hp. apply printable_obj in Hpr as [Hw Hpr]. cbn [stringify canonical]. eexists. split; [done|].
  rewrite <- (own_entries_map (fun e => (e.1, stringify (pad +:+ "  ") e.2))), <- (own_entries_map (fun e => (e.1, canonical e.2))) by done.
  apply own_entries_wf in Hw. rewrite <- (own_entries_permutation fs) in Hpr, IH. generalize dependent (own_entries fs). clear fs.
  intros fs IH Hw Hpr. rewrite lines_of by done. pose proof (entries_read pad fs Hp Hpr IH) as Hes.
  destruct fs as [|e fs]; [split; [done|]; intros rest Hr; by apply (reads_ok 1)|]. split; [done|]. intros rest Hr.
  cbn [map] in Hes. pose proof (object_read pad _ _ Hp Hes) as H. cbn [map] in *. rewrite !map_map in *. exact (H Hw rest Hr).
Qed.

Lemma stringify_read v : read_back v.
Proof.
  induction v as [| |b|n|s|l IH|fs IH] using parsed_ind; [..|by apply array_back|by apply object_back]; intros Hpr pad Hp.
  - done.
  - exists "null". split; [done|]. split; [done|]. intros rest Hr. apply word_read; try done.
    unfold parseIdentifier. by rewrite ident_read.
  - exists (if b then "true" else "false"). split; [done|]. split; [by destruct b|]. intros rest Hr.
    destruct b; (apply word_read; try done; unfold parseIdentifier; by rewrite ident_read).
  - destruct (number_read n EmptyString Hpr I) as [Hs _]. exists (show_num n). cbn [stringify]. rewrite (proj1 Hpr).
    split; [done|]. split; [done|]. intros rest Hr. by apply number_read.
  - exists (json_string s). split; [done|]. split; [done|]. intros rest Hr. apply (reads_ok 1). cbn [parseValue].
    unfold json_string. change (String dquote ?x +:+ ?y) with (String dquote (x +:+ y)). rewrite app_assoc_str.
    change (skipWhitespace (String dquote ?x)) with (String dquote x). cbn iota.
    change (String dquote EmptyString +:+ rest) with (String dquote rest).
    pose proof (string_read s rest Hpr) as E. simpl in *. by rewrite E.
Qed.

(** ** Trimming *)

Lemma trim_end_last s c : is_space c = false -> trim_end (s +:+ String c EmptyString) = s +:+ String c EmptyString.
Proof. intros Hc. induction s as [|d s IH]; simpl; [by rewrite Hc|]. rewrite IH. by destruct s. Qed.

Lemma trim_end_shape s : trim_end s = EmptyString \/ exists t c, trim_end s = t +:+ String c EmptyString /\ is_space c = false.
Proof.
  induction s as [|c s IH]; [by left|]. simpl. destruct IH as [->|(t & d & -> & Hd)].
  - destruct (is_space c) eqn:E; [by left|]. right. by exists EmptyString, c.
  - right. exists (String c t), d. by destruct t.
Qed.

Lemma trim_end_first c s : is_space c = false -> exists r, trim_end (String c s) = String c r.
Proof. intros Hc. simpl. destruct (trim_end s); [rewrite Hc|]; eauto. Qed.

Lemma trim_start_shape s : trim_start s = EmptyString \/ exists c r, trim_start s = String c r /\ is_space c = false.
Proof. induction s as [|c s IH]; [by left|]. simpl. destruct (is_space c) eqn:E; [done|]. right. eauto. Qed.

Lemma trim_idem s : trim (trim s) = trim s.
Proof.
  unfold trim. destruct (trim_start_shape s) as [->|(c & r & -> & Hc)]; [done|].
  assert (H : trim_start (trim_end (String c r)) = trim_end (String c r)).
  { destruct (trim_end_first c r Hc) as [r' ->]. simpl. by rewrite Hc. }
  rewrite H. destruct (trim_end_shape (String c r)) as [->|(t & d & -> & Hd)]; [done|]. by apply trim_end_last.
Qed.

Lemma trim_forall p s : str_forall p s = true -> str_forall p (trim s) = true.
Proof.
  unfold trim. intros H. assert (H' : str_forall p (trim_start s) = true).
  { induction s as [|c s IH]; [done|]. simpl. destruct (is_space c); [|done]. apply IH. by apply andb_prop in H as [_ H]. }
  revert H'. generalize (trim_start s). clear. intros s. induction s as [|c s IH]; [done|]. intros [Hc Hs]%andb_prop.
  specialize (IH Hs). simpl. destruct (trim_end s) as [|d r]; [destruct (is_space c); simpl; by rewrite ?Hc|].
  simpl in *. by rewrite Hc.
Qed.

(** A text of one token or more, up to its last character. *)
Lemma trim_whole s t c : is_space c = false -> s = t +:+ String c EmptyString -> match s with String d _ => is_space d = false | _ => True end ->
  trim s = s.
Proof. intros Hc Hs Hd. unfold trim. rewrite trim_start_id by done. rewrite Hs. by apply trim_end_last. Qed.

Lemma bracketed_whole open_ close pad lines : exists t, bracketed open_ close pad lines = t +:+ close.
Proof.
  unfold bracketed. destruct lines as [|l ls]; [by eexists|].
  exists (open_ +:+ String newline (pad +:+ "  ") +:+ join ("," +:+ String newline (pad +:+ "  ")) (l :: ls) +:+ String newline pad).
  by rewrite !app_assoc_str.
Qed.

Lemma solid_first s : solid s -> match s with String c _ => is_space c = false | _ => True end.
Proof. destruct s; [done|]. by intros [? _]. Qed.

(** A class of characters that numbers are written with. *)
Lemma number_forall p n : (forall c, sign_char c || number_char c = true -> p c = true) -> plain_num n -> str_forall p (show_num n) = true.
Proof.
  intros Hp (_ & _ & Ht & _). destruct (show_num n) as [|c r]; [done|].
  assert (Hall : forall t, (span number_char t).2 = EmptyString -> str_forall p t = true).
  { intros t H. rewrite <- (span_app number_char t), H, str_app_nil_r. clear -Hp. induction t as [|c t IH]; [done|].
    simpl. destruct (number_char c) eqn:E; [|done]. simpl. by rewrite IH, Hp by by rewrite E, orb_true_r. }
  simpl in Ht. destruct (sign_char c) eqn:Es.
  - injection Ht as _ H. simpl. by rewrite (Hall _ H), Hp by by rewrite Es.
  - apply (Hall (String c r)). simpl. by rewrite Ht.
Qed.

Lemma trim_number n : plain_num n -> trim (show_num n) = show_num n.
Proof.
  intros H. apply trim_no_space. apply number_forall; [|done]. clear. intros c E.
  destruct c as [[][][][][][][][]]; first [discriminate E | done].
Qed.

Lemma trim_text v t : printable v -> stringify EmptyString v = Some t -> trim t = t.
Proof.
  intros Hp Ht. destruct (stringify_read v Hp EmptyString eq_refl) as (t' & Ht' & Hs & _). rewrite Ht in Ht'. injection Ht' as <-.
  apply solid_first in Hs. destruct v as [| |b|n|s|l|fs]; try done.
  - injection Ht as <-. done.
  - injection Ht as <-. by destruct b.
  - simpl in Ht, Hp. rewrite (proj1 Hp) in Ht. injection Ht as <-. by apply trim_number.
  - injection Ht as <-. by eapply (trim_whole _ (String dquote (json_chars s)) dquote).
  - cbn [stringify] in Ht. injection Ht as Ht. destruct (bracketed_whole "[" "]" EmptyString (map (fun x => stringify (EmptyString +:+ "  ") x ?? "null") l)) as [u Eu].
    rewrite Ht in Eu. by apply (trim_whole t u "]").
  - cbn [stringify] in Ht. injection Ht as Ht. rewrite <- Ht in *. edestruct (bracketed_whole "{" "}" EmptyString) as [u Eu].
    by apply (trim_whole _ u "}").
Qed.

(** C36. What [JSON.stringify(value, null, 2)] writes, the parser reads back, up to the
    order in which an object's members are enumerated: for every value, at any depth of
    arrays and objects, without [undefined] and without a key twice, whose strings and
    keys hold no control characters but ends of line and tabs, and whose numbers are
    finite, written without an exponent and given back by their texts. (The parser
    misreads the escapes of other control characters, and exponents.) *)
Theorem json_text_reads_back v t :
  printable v -> stringify EmptyString v = Some t -> parsePythonOrJson t = Ok (canonical v).
Proof.
  intros Hp Ht. unfold parsePythonOrJson. rewrite (trim_text v t Hp Ht).
  destruct (stringify_read v Hp EmptyString eq_refl) as (t' & Ht' & _ & Hr). rewrite Ht in Ht'. injection Ht' as <-.
  destruct (Hr EmptyString I) as [n H]. rewrite str_app_nil_r in H. specialize (H (n + fuel_for t)%nat ltac:(lia)).
  destruct (parsers_end (fuel_for t)) as [He _]. specialize (He t ltac:(unfold fuel_for; lia)).
  assert (E : parseValue (n + fuel_for t) t = parseValue (fuel_for t) t).
  { apply (value_fuel (fuel_for t)); [lia|done|]. intros Hu. by rewrite Hu in He. }
  by rewrite <- E, H.
Qed.

Definition demo_object : ParsedValue :=
  PObj [("sess", PStr "a b"); ("7", PNum #3); ("list", PArr [PNull; PBool true; PObj [("x", PNum (#5 ⊘ #2))]; PArr []])].

Lemma plain_demo : plain_num #3 /\ plain_num (#5 ⊘ #2).
Proof. split; (split; [|split; [|split]]); vm_compute; reflexivity. Qed.

Lemma demo_printable : printable demo_object.
Proof.
  destruct plain_demo as [H3 H5]. unfold demo_object. cbn [printable foldr fst snd].
  repeat match goal with |- _ /\ _ => split | |- JMap.wf _ => apply (bool_decide_unpack _); vm_compute; exact I end;
    first [exact I | exact H3 | exact H5 | vm_compute; reflexivity].
Qed.

Lemma json_text_reads_back_witness :
  parsePythonOrJson (stringify EmptyString demo_object ?? EmptyString) = Ok (canonical demo_object).
Proof. apply (json_text_reads_back demo_object _ demo_printable). vm_compute. reflexivity. Defined.
