(* ===== verification/AuthNormalizeSpec.v ===== *)
(** * The rewriting of pasted credentials

    The JSON form is a fixed point, and an input is taken by exactly the tab it
    is detected for. *)

From Stdlib Require Import Ascii ZArith Lia SpecFloat.
From stdpp Require Import base list strings option sorting sets.
From S2P Require Import Prelude JsString JsNum JsValue JsSort JsObject AuthImport AuthImportSpec.

(** ** Clean texts *)

(** A text the form writes: not blank at either end, not empty. *)
Definition clean (s : string) : Prop := s <> EmptyString /\ trim s = s.
Definition opt_clean (o : option string) : Prop := forall s, o = Some s -> clean s.

Lemma trimmed_clean s : opt_clean (truthy_opt (Some (trim s))).
Proof. intros t H. apply truthy_opt_Some in H as [[= <-] H]. split; [done|apply trim_idem]. Qed.

Lemma nullish_clean o o' : opt_clean o -> opt_clean o' -> opt_clean (o ??? o').
Proof. intros H H'. by destruct o. Qed.

Lemma text_field_clean obj k : opt_clean (text_field obj k).
Proof. unfold text_field. destruct (JMap.get k obj) as [[]|]; try done; apply trimmed_clean. Qed.

Lemma cookie_value_clean name c : opt_clean (cookie_value name c).
Proof. unfold cookie_value. destruct (after_boundary _ _); [apply trimmed_clean|done]. Qed.

(** What an accepted position of a boundary search satisfies, in a text of
    characters of the class [p]. *)
Lemma boundary_Some {A} (f : string -> option A) p (Q : A -> Prop) c :
  (forall s a, str_forall p s = true -> f s = Some a -> Q a) -> str_forall p c = true -> forall a, after_boundary f c = Some a -> Q a.
Proof.
  intros Hf Hc a. unfold after_boundary. destruct (f c) as [b|] eqn:E; [intros [= <-]; by apply (Hf c)|]. clear E.
  induction c as [|x r IH]; [done|]. cbn [search]. simpl in Hc. apply andb_prop in Hc as [_ Hr]. specialize (IH Hr).
  destruct x as [[][][][][][][][]]; try exact IH. destruct (f (trim_start r)) as [b|] eqn:E; [|exact IH].
  intros [= <-]. refine (Hf _ _ _ E). clear -Hr. induction r as [|c r IH]; [done|]. simpl in *.
  destruct (is_space c); [|done]. apply IH. by apply andb_prop in Hr as [_ Hr].
Qed.

Lemma str_forall_true s : str_forall (fun _ => true) s = true.
Proof. by induction s. Qed.

Lemma digits_clean s : str_forall is_digit s = true -> truthy s = true -> clean s.
Proof.
  intros Hd Ht%truthy_nonempty. split; [done|]. apply trim_no_space. clear Ht. induction s as [|c s IH]; [done|].
  simpl in *. apply andb_prop in Hd as [Hc Hs]. by rewrite (is_digit_not_space c Hc), IH.
Qed.

Lemma auth_uid_clean c : opt_clean (auth_uid_value c).
Proof.
  unfold auth_uid_value. destruct (after_boundary auth_uid_field c) as [[id v]|] eqn:E; [|done].
  destruct (truthy (trim v)) eqn:Ht.
  { intros s [= <-]. split; [by apply truthy_nonempty|apply trim_idem]. }
  intros s [-> _]%truthy_opt_Some.
  refine (boundary_Some auth_uid_field (fun _ => true) (fun a => forall s, a.1 = Some s -> clean s) c _ (str_forall_true c) _ E s eq_refl).
  clear. intros t [i v] _ H s Hs. simpl in Hs. subst i. unfold auth_uid_field in H. destruct (literal_i _ t) as [r|]; [|done].
  destruct r as [|[[][][][][][][][]] r]; try done. pose proof (span_forall is_digit r) as Hd.
  destruct (span is_digit r) as [d u]. destruct u as [|[[][][][][][][][]] u]; try done.
  destruct (truthy d) eqn:Ht; [|done]. injection H as -> _. by apply digits_clean.
Qed.

Lemma cookie_clean c : opt_clean (cookie_authId (extractCookieValues c)) /\ opt_clean (cookie_sess (extractCookieValues c)) /\
  opt_clean (cookie_authUid (extractCookieValues c)).
Proof.
  unfold extractCookieValues. destruct (truthy_opt c) as [t|]; [|done]. simpl.
  split; [|split]; repeat apply nullish_clean; first [apply cookie_value_clean | apply auth_uid_clean].
Qed.

(** ** The known fields *)

Section fields.
Context (obj : ParsedObject).

(** The texts of the form, with the keys they are written under. *)
Definition known_texts : list (string * option string) :=
  [("auth_id", auth_id_text obj); ("sess", sess_text obj); ("auth_uid_", auth_uid_text obj);
   ("user_agent", user_agent_text obj); ("x_bc", x_bc_text obj); ("app-token", app_token_text obj);
   ("authorization", authorization_text obj); ("cookie", truthy_opt (cookie_text obj))].

Lemma cookie_text_clean : opt_clean (truthy_opt (cookie_text obj)).
Proof.
  unfold cookie_text. destruct (JMap.get "cookie" obj) as [[]|]; try apply trimmed_clean;
    destruct (JMap.get "Cookie" obj) as [[]|]; try apply trimmed_clean; done.
Qed.

(** What holds of every text read holds of the form's texts. *)
Lemma known_all (Q : string -> Prop) : (forall k s, text_field obj k = Some s -> Q s) ->
  (forall s, truthy_opt (cookie_text obj) = Some s -> Q s) ->
  (forall o, o ∈ [cookie_authId (cookieVals obj); cookie_sess (cookieVals obj); cookie_authUid (cookieVals obj)] -> forall s, o = Some s -> Q s) ->
  Forall (fun e => forall s, e.2 = Some s -> Q s) known_texts.
Proof.
  intros Ht Hc Hv. assert (Hf : forall ks s, first_text obj ks = Some s -> Q s).
  { intros ks s. induction ks as [|k ks IH]; [done|]. simpl. destruct (text_field obj k) as [t|] eqn:E; [|done].
    intros [= <-]. by apply (Ht k). }
  assert (Hn : forall (o o' : option string), (forall s, o = Some s -> Q s) -> (forall s, o' = Some s -> Q s) -> forall s, o ??? o' = Some s -> Q s)
    by (intros [] o' H H'; done).
  assert (Hi : forall s, id_text obj = Some s -> Q s).
  { unfold id_text. intros s. destruct (JMap.get "id" obj) as [[]|]; try apply Ht. case_match; [done|apply Ht]. }
  assert (Ha : forall s, auth_id_text obj = Some s -> Q s) by (apply Hn; [apply Hf|]; apply Hn; [apply Hi|apply Hv; set_solver]).
  unfold known_texts. repeat (apply Forall_cons; split); [..|done]; simpl; try apply Hf; [done| | |done].
  - apply Hn; [apply Hf|apply Hv; set_solver].
  - apply Hn; [apply Hf|]. apply Hn; [apply Hv; set_solver|done].
Qed.

Lemma known_clean : Forall (fun e => opt_clean e.2) known_texts.
Proof.
  destruct (cookie_clean (cookie_text obj)) as (H1 & H2 & H3). apply (known_all clean).
  - intros k. apply text_field_clean.
  - apply cookie_text_clean.
  - intros o [->|[->|[->|[]%elem_of_nil]%elem_of_cons]%elem_of_cons]%elem_of_cons; done.
Qed.

Definition written (l : list (string * option string)) : ParsedObject := omap (fun e => (fun s => (e.1, PStr s)) <$> e.2) l.

Lemma put_all l : NoDup (map fst l) -> Forall (fun e => opt_clean e.2) l ->
  foldl (fun m e => put e.1 e.2 m) [] l = written l.
Proof.
  induction l as [|[k t] l IH] using rev_ind; [done|]. rewrite map_app, foldl_app. intros Hnd Hc.
  apply Forall_app in Hc as [Hl Hk]. apply Forall_cons in Hk as [Hk _]. apply NoDup_app in Hnd as (Hnd & Hin & _).
  rewrite (IH Hnd Hl). unfold written. rewrite omap_app. unfold put. cbn [foldl fst snd] in *. destruct t as [s|]; [|by simpl; rewrite app_nil_r].
  destruct (Hk s eq_refl) as [Hs _]. rewrite truthy_opt_nonempty by done. simpl. apply JMap.set_absent, JMap.get_None.
  intros H. apply list_elem_of_fmap in H as ([k' v] & -> & H). apply list_elem_of_omap in H as ([k0 t0] & H & E).
  simpl in *. destruct t0; [|done]. injection E as <- <-. apply (Hin k0); [|set_solver]. apply list_elem_of_fmap. by exists (k0, Some s0).
Qed.

Lemma put_truthy k t m : put k (truthy_opt t) m = put k t m.
Proof. unfold put. destruct t as [s|]; [|done]. by destruct s. Qed.

Lemma known_written : known_fields obj = written known_texts.
Proof.
  rewrite <- put_all; [|cbn [known_texts map fst]; apply (bool_decide_unpack _); vm_compute; exact I|apply known_clean]. unfold known_fields, known_texts. simpl.
  symmetry. apply put_truthy.
Qed.
End fields.

(** Both keys an index never has and keys the rewriting handles. *)
Lemma known_keys obj e : e ∈ known_fields obj -> str_in (snake e.1) HANDLED = true /\ is_index e.1 = false.
Proof.
  rewrite known_written. intros H. apply list_elem_of_omap in H as ([k t] & Hin & E). simpl in E.
  destruct t as [s|]; [|done]. injection E as <-.
  assert (Hk : k ∈ ["auth_id"; "sess"; "auth_uid_"; "user_agent"; "x_bc"; "app-token"; "authorization"; "cookie"]).
  { apply (list_elem_of_fmap_2 fst) in Hin. exact Hin. }
  clear -Hk. simpl. revert Hk. rewrite !elem_of_cons, elem_of_nil.
  intros Hk. repeat destruct Hk as [->|Hk]; try done; split; vm_compute; reflexivity.
Qed.

Lemma get_written k l : NoDup (map fst l) -> JMap.get k (written l) = PStr <$> (JMap.get k l ≫= id).
Proof.
  induction l as [|[k' t] l IH]; [done|]. intros Hnd. apply NoDup_cons in Hnd as [Hk Hnd]. simpl in *.
  destruct t as [s|]; simpl; (destruct (str_eqb k' k) eqn:E; [|by apply IH]); [done|].
  apply str_eqb_eq in E as ->. rewrite IH by done. by rewrite (proj2 (JMap.get_None k l) Hk).
Qed.

Lemma foldl_set_app {V} (l m : JMap.t V) : NoDup (map fst m ++ map fst l) -> foldl (fun m e => JMap.set e.1 e.2 m) m l = m ++ l.
Proof.
  revert m. induction l as [|[k v] l IH]; intros m Hnd; [by rewrite app_nil_r|]. simpl in *.
  rewrite JMap.set_absent; [|apply JMap.get_None; apply NoDup_app in Hnd as (_ & H & _); intros Hin; apply (H _ Hin); set_solver].
  rewrite IH; [by rewrite <- app_assoc|]. rewrite map_app, <- app_assoc. exact Hnd.
Qed.

(** ** The rewritten object *)

Section rewritten.
Context (obj : ParsedObject) (Hwf : JMap.wf obj).

Definition others : ParsedObject := keep carried (own_entries obj).

Lemma carried_handled (k : string) v : carried (k, v) = true -> str_in (snake k) HANDLED = false.
Proof. unfold carried. simpl. intros H. apply andb_prop in H as [H _]. by apply negb_true_iff. Qed.

Lemma known_wf : JMap.wf (known_fields obj).
Proof. unfold known_fields, put. repeat case_match; auto 10 using JMap.wf_set, JMap.wf_empty. Qed.

Lemma others_wf : JMap.wf others.
Proof.
  pose proof (own_entries_wf obj Hwf) as H. unfold JMap.wf, JMap.keys, others in *.
  eapply sublist_NoDup; [exact H|]. apply (fmap_sublist fst), keep_sublist.
Qed.

Lemma known_handled k : k ∈ JMap.keys (known_fields obj) -> str_in (snake k) HANDLED = true.
Proof. intros H. apply list_elem_of_fmap in H as (e & -> & H). apply (known_keys _ _ H). Qed.

Lemma others_free k : k ∈ JMap.keys others -> str_in (snake k) HANDLED = false.
Proof. intros H. apply list_elem_of_fmap in H as ([k' v] & -> & H). apply elem_of_keep in H as [_ H]. by apply carried_handled in H. Qed.

Lemma normalized_wf : JMap.wf (known_fields obj ++ others).
Proof.
  unfold JMap.wf, JMap.keys. rewrite map_app. apply NoDup_app. split; [apply known_wf|]. split; [|apply others_wf].
  intros k H1%known_handled H2%others_free. congruence.
Qed.

Lemma normalized_app : normalized obj = known_fields obj ++ others.
Proof. unfold normalized. rewrite foldl_set_app; [done|]. rewrite <- map_app. apply normalized_wf. Qed.

Lemma get_app {V} k (m m' : JMap.t V) : JMap.get k (m ++ m') = match JMap.get k m with Some v => Some v | None => JMap.get k m' end.
Proof. induction m as [|[k' v] m IH]; [done|]. simpl. by destruct (str_eqb k' k). Qed.

Lemma get_handled k : str_in (snake k) HANDLED = true -> JMap.get k (normalized obj) = PStr <$> (JMap.get k (known_texts obj) ≫= id).
Proof.
  intros Hk. rewrite normalized_app, get_app, known_written, get_written by (cbn [known_texts map fst]; apply (bool_decide_unpack _); vm_compute; exact I).
  destruct (PStr <$> _); [done|]. apply JMap.get_None. intros H%others_free. congruence.
Qed.

Lemma get_other k : str_in (snake k) HANDLED = false ->
  JMap.get k (normalized obj) = match JMap.get k obj with Some v => if is_present v then Some v else None | None => None end.
Proof.
  intros Hk. rewrite normalized_app, get_app. rewrite (proj2 (JMap.get_None k (known_fields obj))) by (intros H%known_handled; congruence).
  assert (Hm : forall v, (k, v) ∈ others <-> JMap.get k obj = Some v /\ is_present v = true).
  { intros v. unfold others. rewrite elem_of_keep, own_entries_permutation. unfold carried. simpl. rewrite Hk. simpl.
    split; intros [H1 H2]; (split; [|done]); [by apply JMap.elem_get|by apply JMap.get_Some_elem]. }
  destruct (JMap.get k others) as [v|] eqn:E.
  - apply JMap.get_Some_elem, Hm in E as [-> ->]. done.
  - destruct (JMap.get k obj) as [v|] eqn:E'; [|done]. destruct (is_present v) eqn:Hp; [|done].
    exfalso. apply JMap.get_None in E. apply E. apply list_elem_of_fmap. exists (k, v). split; [done|]. by apply Hm.
Qed.

(** What the form's texts are when it is rewritten again. *)
Lemma field_known k t : JMap.get k (known_texts obj) = Some t -> str_in (snake k) HANDLED = true -> text_field (normalized obj) k = t.
Proof.
  intros Ht Hk. unfold text_field. rewrite get_handled, Ht by done. simpl. destruct t as [s|]; [|done]. simpl.
  pose proof (known_clean obj) as Hc. rewrite Forall_forall in Hc.
  destruct (Hc (k, Some s) (JMap.get_Some_elem _ _ _ Ht) s eq_refl) as [Hs ->]. by apply truthy_opt_nonempty.
Qed.

Lemma get_dropped k : JMap.get k (known_texts obj) = None -> str_in (snake k) HANDLED = true -> JMap.get k (normalized obj) = None.
Proof. intros Ht Hk. by rewrite get_handled, Ht. Qed.

Lemma field_dropped k : JMap.get k (known_texts obj) = None -> str_in (snake k) HANDLED = true -> text_field (normalized obj) k = None.
Proof. intros Ht Hk. unfold text_field. by rewrite get_dropped. Qed.

Lemma field_other k : str_in (snake k) HANDLED = false -> text_field (normalized obj) k = text_field obj k.
Proof.
  intros Hk. unfold text_field. rewrite get_other by done. destruct (JMap.get k obj) as [v|]; [|done].
  destruct v as [| | | |s| |]; try done. simpl. by destruct s.
Qed.

Lemma extract_truthy c : extractCookieValues (truthy_opt c) = extractCookieValues c.
Proof. unfold extractCookieValues. destruct c as [s|]; [|done]. by destruct s. Qed.

Lemma cookie_text_again : truthy_opt (cookie_text (normalized obj)) = truthy_opt (cookie_text obj).
Proof.
  unfold cookie_text at 1. rewrite (get_handled "cookie"), (get_dropped "Cookie") by done. cbn [known_texts JMap.get].
  change (JMap.get "cookie" (known_texts obj)) with (Some (truthy_opt (cookie_text obj))). cbn [mbind option_bind id].
  pose proof (cookie_text_clean obj) as Hc. destruct (truthy_opt (cookie_text obj)) as [s|]; [|done].
  simpl fmap. cbn iota. destruct (Hc s eq_refl) as [Hs E]. rewrite E. by apply truthy_opt_nonempty.
Qed.

Lemma cookie_vals_again : cookieVals (normalized obj) = cookieVals obj.
Proof. unfold cookieVals. by rewrite <- extract_truthy, cookie_text_again, extract_truthy. Qed.

Lemma id_again : id_text (normalized obj) = None.
Proof. unfold id_text, text_field. by rewrite (get_dropped "id"). Qed.

Lemma auth_id_again : auth_id_text (normalized obj) = auth_id_text obj.
Proof.
  unfold auth_id_text at 1. cbn [first_text]. rewrite (field_known "auth_id" (auth_id_text obj)), (field_dropped "user_id") by done.
  destruct (auth_id_text obj) as [s|] eqn:E; [done|]. rewrite id_again, cookie_vals_again. unfold auth_id_text in E.
  destruct (first_text obj _); [done|]. by destruct (id_text obj).
Qed.

Lemma sess_again : sess_text (normalized obj) = sess_text obj.
Proof.
  unfold sess_text at 1. cbn [first_text]. rewrite (field_known "sess" (sess_text obj)), (field_dropped "session") by done.
  destruct (sess_text obj) as [s|] eqn:E; [done|]. rewrite cookie_vals_again. unfold sess_text in E. by destruct (first_text obj _).
Qed.

Lemma auth_uid_again : auth_uid_text (normalized obj) = auth_uid_text obj.
Proof.
  unfold auth_uid_text at 1. cbn [first_text]. rewrite (field_known "auth_uid_" (auth_uid_text obj)), (field_dropped "auth_uid") by done.
  destruct (auth_uid_text obj) as [s|] eqn:E; [done|]. rewrite cookie_vals_again, auth_id_again. unfold auth_uid_text in E.
  by destruct (first_text obj _).
Qed.

(** A text read from its own key first and from other keys that the rewriting
    drops or leaves as they are. *)
Lemma first_text_none ks : first_text obj ks = None -> forall k, k ∈ ks -> text_field obj k = None.
Proof.
  induction ks as [|k ks IH]; [set_solver|]. simpl. destruct (text_field obj k) as [s|] eqn:E; [done|].
  intros H k' [->|Hk]%elem_of_cons; [done|by apply IH].
Qed.

Lemma first_text_again k ks : JMap.get k (known_texts obj) = Some (first_text obj (k :: ks)) -> str_in (snake k) HANDLED = true ->
  (forall k', k' ∈ ks -> str_in (snake k') HANDLED = true -> JMap.get k' (known_texts obj) = None) ->
  first_text (normalized obj) (k :: ks) = first_text obj (k :: ks).
Proof.
  intros Hg Hk Hks. change (first_text (normalized obj) (k :: ks)) with
    (match text_field (normalized obj) k with Some s => Some s | None => first_text (normalized obj) ks end).
  rewrite (field_known k _ Hg Hk). destruct (first_text obj (k :: ks)) as [s|] eqn:E; [done|].
  pose proof (first_text_none _ E) as Hn. clear E Hg. induction ks as [|k' ks IH]; [done|]. simpl.
  assert (E : text_field (normalized obj) k' = None).
  { destruct (str_in (snake k') HANDLED) eqn:Ek; [apply field_dropped; [apply Hks; [set_solver|done]|done]|].
    rewrite field_other by done. apply Hn. set_solver. }
  rewrite E. apply IH; [intros; apply Hks; [set_solver|done]|]. intros x Hx. apply Hn. set_solver.
Qed.

Lemma known_texts_again : known_texts (normalized obj) = known_texts obj.
Proof.
  unfold known_texts. rewrite auth_id_again, sess_again, auth_uid_again, cookie_text_again.
  unfold user_agent_text, x_bc_text, app_token_text, authorization_text.
  rewrite !first_text_again; [done|..]; try done; intros k Hk; repeat (apply elem_of_cons in Hk as [->|Hk]; [done|]);
    by apply elem_of_nil in Hk.
Qed.
End rewritten.

(** ** The text read back *)

Lemma text_canonical v : parsed_text (canonical v) = parsed_text v.
Proof.
  induction v as [| | | | |l IH|fs _] using parsed_ind; try done. cbn [canonical parsed_text]. f_equal. rewrite map_map.
  apply map_ext_Forall. eapply Forall_impl; [exact IH|]. intros v Hv. by destruct v.
Qed.

(** An object that agrees with another up to the order inside its members. *)
Definition same_fields (obj' obj : ParsedObject) : Prop := forall k, JMap.get k obj' = canonical <$> JMap.get k obj.

Lemma known_texts_same obj' obj : same_fields obj' obj -> known_texts obj' = known_texts obj.
Proof.
  intros Hs. assert (Ht : forall k, text_field obj' k = text_field obj k).
  { intros k. unfold text_field. rewrite Hs. destruct (JMap.get k obj) as [v|]; [|done]. simpl.
    destruct v; try done; by rewrite (text_canonical _). }
  assert (Hf : forall ks, first_text obj' ks = first_text obj ks).
  { intros ks. induction ks as [|k ks IH]; [done|]. simpl. by rewrite Ht, IH. }
  assert (Hc : cookie_text obj' = cookie_text obj).
  { unfold cookie_text. rewrite !Hs. destruct (JMap.get "cookie" obj) as [[]|]; try done; simpl;
      destruct (JMap.get "Cookie" obj) as [[]|]; done. }
  assert (Hi : id_text obj' = id_text obj).
  { unfold id_text. rewrite Hs, Ht. by destruct (JMap.get "id" obj) as [[]|]. }
  unfold known_texts, auth_uid_text, auth_id_text, sess_text, user_agent_text, x_bc_text, app_token_text, authorization_text, cookieVals.
  by rewrite Hc, Hi, !Hf.
Qed.

Lemma carried_canonical k v : carried (k, canonical v) = carried (k, v).
Proof. unfold carried. simpl. by destruct v. Qed.

Definition canon_entry (e : string * ParsedValue) : string * ParsedValue := (e.1, canonical e.2).

Lemma get_canon k m : JMap.get k (map canon_entry m) = canonical <$> JMap.get k m.
Proof. induction m as [|[k' v] m IH]; [done|]. simpl. by destruct (str_eqb k' k). Qed.

Lemma keys_canon m : JMap.keys (map canon_entry m) = JMap.keys m.
Proof. unfold JMap.keys. by rewrite map_map. Qed.

(** Keeping some entries of an enumeration keeps its order. *)
Lemma own_entries_keep {V} (q : string * V -> bool) (m : JMap.t V) : own_entries (keep q (own_entries m)) = keep q (own_entries m).
Proof.
  unfold own_entries at 2 3. set (a := stable_sort higher_index (keep (fun e => is_index e.1) m)).
  set (b := keep (fun e => negb (is_index e.1)) m). rewrite keep_app.
  assert (Ha : forall e, e ∈ keep q a -> is_index e.1 = true).
  { intros e [H _]%elem_of_keep. apply elem_of_stable_sort, elem_of_keep in H as [_ H]. done. }
  assert (Hb : forall e, e ∈ keep q b -> is_index e.1 = false).
  { intros e [H _]%elem_of_keep. unfold b in H. apply elem_of_keep in H as [_ H]. by apply negb_true_iff. }
  unfold own_entries. rewrite !keep_app, (keep_all _ (keep q a)), (keep_none _ (keep q b)), (keep_none _ (keep q a)), (keep_all _ (keep q b)), app_nil_r;
    [|intros e He; by rewrite ?(Ha e He), ?(Hb e He)..].
  f_equal. apply stable_sort_id.
  assert (Hs : StronglySorted (in_place higher_index) a) by (apply (stable_sort_sorted higher_index higher_orders), Forall_forall; done).
  clearbody a. clear -Hs. induction a as [|e a IH]; [constructor|]. apply StronglySorted_inv in Hs as [Hs Hf]. simpl.
  destruct (q e); [|by apply IH]. constructor; [by apply IH|]. rewrite Forall_forall in *. intros x [Hx _]%elem_of_keep. by apply Hf.
Qed.

Lemma keep_own_entries_app {V} (q : string * V -> bool) (k m : JMap.t V) :
  (forall e, e ∈ k -> is_index e.1 = false /\ q e = false) -> (forall e, e ∈ m -> q e = true) ->
  keep q (own_entries (k ++ m)) = own_entries m.
Proof.
  intros Hk Hm. unfold own_entries. rewrite !keep_app, (keep_none _ k) by (intros e He; by rewrite (proj1 (Hk e He))).
  rewrite (keep_all _ k) by (intros e He; by rewrite (proj1 (Hk e He))). rewrite (keep_none q k) by (intros e He; apply (Hk e He)).
  simpl. f_equal; apply keep_all; intros e He; apply Hm; [apply elem_of_stable_sort in He|]; by apply elem_of_keep in He as [He _].
Qed.

Lemma normalized_again obj : JMap.wf obj ->
  normalized (own_entries (map canon_entry (normalized obj))) = map canon_entry (normalized obj).
Proof.
  intros Hwf. pose proof (normalized_app obj Hwf) as E. pose proof (normalized_wf obj Hwf) as Hn. rewrite <- E in Hn.
  assert (Hn' : JMap.wf (map canon_entry (normalized obj))) by (unfold JMap.wf; by rewrite keys_canon).
  assert (Hs : same_fields (own_entries (map canon_entry (normalized obj))) (normalized obj)).
  { intros k. rewrite get_own_entries by done. apply get_canon. }
  rewrite normalized_app by by apply own_entries_wf.
  rewrite known_written, (known_texts_same _ _ Hs), known_texts_again, <- known_written by done.
  unfold others. rewrite own_entries_idem, <- own_entries_map by done. rewrite keep_map.
  rewrite (keep_ext _ carried) by (intros [k v]; apply carried_canonical). rewrite E, keep_own_entries_app.
  - assert (Ho : own_entries (others obj) = others obj) by apply own_entries_keep. rewrite Ho, map_app. f_equal.
    rewrite known_written. clear. induction (known_texts obj) as [|[k [s|]] l IH]; [done|cbn; f_equal; exact IH|exact IH].
  - intros e He. destruct (known_keys _ _ He) as [H1 H2]. split; [done|]. destruct e as [k v]. unfold carried. simpl in *. by rewrite H1.
  - intros e [_ He]%elem_of_keep. done.
Qed.

(** ** The form is printable *)

Lemma span_plain p q s : str_forall p s = true -> str_forall p (span q s).1 = true /\ str_forall p (span q s).2 = true.
Proof. intros H. rewrite <- (span_app q s), str_forall_app in H. by apply andb_prop. Qed.

Lemma literal_plain p lit s r : literal_i lit s = Some r -> str_forall p s = true -> str_forall p r = true.
Proof.
  unfold literal_i. destruct (starts_with _ _); [|done]. intros [= <-]. generalize (len lit) as n. intros n. revert s.
  induction n as [|n IH]; intros s Hs; [by destruct s|]. destruct s as [|c s]; [done|]. simpl in *. apply IH. by apply andb_prop in Hs as [_ Hs].
Qed.

Lemma cookie_value_plain name c s : plain c -> cookie_value name c = Some s -> plain s.
Proof.
  intros Hc. unfold cookie_value. destruct (after_boundary _ c) as [v|] eqn:E; [|done]. intros [[= <-] _]%truthy_opt_Some.
  apply trim_forall. refine (boundary_Some (cookie_field name) plain_char plain c _ Hc _ E). clear. intros s v Hs. unfold cookie_field.
  destruct (literal_i _ s) as [r|] eqn:E; [|done]. destruct (truthy _); [|done]. intros [= <-].
  apply (span_plain _ _ r), (literal_plain _ _ _ _ E Hs).
Qed.

Lemma auth_uid_plain c s : plain c -> auth_uid_value c = Some s -> plain s.
Proof.
  intros Hc. unfold auth_uid_value. destruct (after_boundary auth_uid_field c) as [[id v]|] eqn:E; [|done].
  assert (H : plain v /\ forall s, id = Some s -> plain s).
  { refine (boundary_Some auth_uid_field plain_char (fun a => plain a.2 /\ forall s, a.1 = Some s -> plain s) c _ Hc _ E).
    clear. intros t [i v] Ht H. simpl. unfold auth_uid_field in H. destruct (literal_i _ t) as [r|] eqn:E; [|done].
    pose proof (literal_plain _ _ _ _ E Ht) as Hr. destruct r as [|[[][][][][][][][]] r]; try done; simpl in Hr.
    - destruct (span_plain _ is_digit r Hr) as [H1 H2]. destruct (span is_digit r) as [d u]. simpl in *.
      destruct u as [|[[][][][][][][][]] u]; try done. destruct (truthy d); [|done]. injection H as <- <-.
      split; [by apply (span_plain _ _ u)|by intros s [= <-]].
    - injection H as <- <-. split; [by apply (span_plain _ _ r)|done]. }
  destruct H as [Hv Hi]. destruct (truthy (trim v)); [intros [= <-]; by apply trim_forall|]. intros [-> _]%truthy_opt_Some. by apply Hi.
Qed.

Lemma cookie_vals_plain c o : (forall s, c = Some s -> plain s) ->
  o ∈ [cookie_authId (extractCookieValues c); cookie_sess (extractCookieValues c); cookie_authUid (extractCookieValues c)] ->
  forall s, o = Some s -> plain s.
Proof.
  intros Hc. unfold extractCookieValues. destruct (truthy_opt c) as [t|] eqn:E.
  - apply truthy_opt_Some in E as [-> _]. specialize (Hc t eq_refl). simpl.
    assert (Hn : forall (o o' : option string), (forall s, o = Some s -> plain s) -> (forall s, o' = Some s -> plain s) -> forall s, o ??? o' = Some s -> plain s)
      by (intros [] o' H H'; done).
    intros [->|[->|[->|[]%elem_of_nil]%elem_of_cons]%elem_of_cons]%elem_of_cons;
      [intros s; by apply cookie_value_plain|apply Hn; intros s; by apply cookie_value_plain|apply Hn; intros s; [by apply auth_uid_plain|by apply cookie_value_plain]].
  - intros [->|[->|[->|[]%elem_of_nil]%elem_of_cons]%elem_of_cons]%elem_of_cons; done.
Qed.

Lemma join_plain sep l : plain sep -> Forall plain l -> plain (join sep l).
Proof.
  unfold plain. intros Hs. induction 1 as [|x l Hx Hl IH]; [done|]. destruct l as [|y l]; [done|].
  change (join sep (x :: y :: l)) with (x +:+ sep +:+ join sep (y :: l)). by rewrite !str_forall_app, Hx, Hs, IH.
Qed.

Lemma text_plain v : printable v -> plain (parsed_text v).
Proof.
  induction v as [| |b|n|s|l IH|fs _] using parsed_ind; intros Hp; try done.
  - by destruct b.
  - apply number_forall; [|exact Hp]. clear. intros c E. destruct c as [[][][][][][][][]]; first [discriminate E | done].
  - apply printable_arr in Hp. apply join_plain; [done|]. apply Forall_map. rewrite Forall_forall in *. intros v Hv.
    specialize (IH v Hv (Hp v Hv)). by destruct v.
Qed.

Lemma printable_normalized obj : printable (PObj obj) -> printable (PObj (normalized obj)).
Proof.
  intros [Hw Hp]%printable_obj. rewrite normalized_app by done. apply printable_obj. split; [by apply normalized_wf|].
  rewrite Forall_forall in Hp.
  assert (Hg : forall k v, JMap.get k obj = Some v -> printable v) by (intros k v H%JMap.get_Some_elem; apply (Hp _ H)).
  apply Forall_app. split.
  - assert (Hc : forall s, cookie_text obj = Some s -> plain s).
    { unfold cookie_text. intros s. destruct (JMap.get "cookie" obj) as [[]|] eqn:E;
        try (destruct (JMap.get "Cookie" obj) as [[]|] eqn:E'; try done; intros [= <-]; apply trim_forall, (Hg _ _ E')).
      intros [= <-]. apply trim_forall, (Hg _ _ E). }
    assert (Hk : Forall (fun e => forall s, e.2 = Some s -> plain s) (known_texts obj)).
    { apply known_all.
      - intros k s. unfold text_field. destruct (JMap.get k obj) as [v|] eqn:E; [|done].
        destruct v; try done; intros [[= <-] _]%truthy_opt_Some; apply trim_forall; exact (text_plain _ (Hg _ _ E)).
      - intros s [H _]%truthy_opt_Some. by apply Hc.
      - intros o. by apply cookie_vals_plain. }
    rewrite known_written. apply Forall_forall. rewrite Forall_forall in Hk. intros e H.
    pose proof (known_keys obj) as Hkk. rewrite known_written in Hkk. destruct (Hkk e H) as [_ _].
    apply list_elem_of_omap in H as ([k t] & Hin & E). simpl in E. destruct t as [s|]; [|done]. injection E as <-. simpl.
    split; [|by apply (Hk _ Hin)]. apply (list_elem_of_fmap_2 fst) in Hin. revert Hin. simpl. rewrite !elem_of_cons, elem_of_nil.
    intros Hin. repeat destruct Hin as [->|Hin]; try done.
  - apply Forall_forall. intros e [H _]%elem_of_keep. apply Hp. by rewrite <- own_entries_permutation.
Qed.

(** ** The properties *)

Lemma stringify_canon_entries pad m : stringify pad (PObj (map canon_entry m)) = stringify pad (PObj m).
Proof.
  cbn [stringify]. do 4 f_equal. rewrite map_map. apply map_ext. intros [k v]. unfold canon_entry. simpl. by rewrite stringify_canonical.
Qed.

(** The JSON form is a fixed point: the page shows the rewritten input and
    the API client rewrites it again before sending it, which changes nothing. *)
Theorem normalize_idempotent value :
  (forall fs, parsed_object value = Some fs -> printable (PObj fs)) ->
  normalizeToAuthJson (normalizeToAuthJson value) = normalizeToAuthJson value.
Proof.
  intros Hp. unfold normalizeToAuthJson at 2 3. destruct (parsed_object value) as [fs|] eqn:E; [|unfold normalizeToAuthJson; by rewrite E].
  specialize (Hp fs eq_refl). pose proof (printable_normalized fs Hp) as Hn. apply printable_obj in Hp as [Hw _].
  destruct (stringify EmptyString (PObj (normalized fs))) as [t|] eqn:Et; [|done]. cbn [nullish].
  pose proof Et as Ht. apply json_text_reads_back in Et; [|done]. unfold normalizeToAuthJson, parsed_object.
  assert (Ho : object_text t = true).
  { cbn [stringify] in Ht. injection Ht as <-. unfold bracketed. by destruct (omap _ _). }
  rewrite Ho, Et. cbn [canonical]. change (map (fun e => (e.1, canonical e.2)) (normalized fs)) with (map canon_entry (normalized fs)).
  rewrite (normalized_again fs Hw), stringify_canon_entries, Ht. done.
Qed.

Definition quoted (s : string) : string := String dquote (s +:+ String dquote EmptyString).
Definition demo_paste : string := "# my account
{'cookie': 'auth_id=7; sess=abc; auth_uid_7=', 'x-bc': ' k ', 7: [1, {" +:+ quoted "a" +:+ ": None}], 'userAgent': 'Mozilla'}".

Lemma normalize_idempotent_witness :
  normalizeToAuthJson (normalizeToAuthJson demo_paste) = normalizeToAuthJson demo_paste /\
  canNormalizeToAuthJson demo_paste = true.
Proof.
  split; [|vm_compute; reflexivity]. apply (normalize_idempotent demo_paste). intros fs H. vm_compute in H. injection H as <-.
  assert (H1 : plain_num #1) by (split; [|split; [|split]]; vm_compute; reflexivity). vm_compute in H1.
  cbn [printable foldr fst snd].
  repeat match goal with |- _ /\ _ => split | |- JMap.wf _ => apply (bool_decide_unpack _); vm_compute; exact I end;
    first [exact I | exact H1 | vm_compute; reflexivity].
Defined.

(** An input is taken by a tab of the import form exactly when that is the
    tab it is detected for. *)
Theorem supported_iff_detected value tab :
  isSupportedAuthImportInput value tab = true <-> detectAuthImportType value = Some tab.
Proof.
  unfold isSupportedAuthImportInput, detectAuthImportType. destruct (truthy (trim value)) eqn:Ht; simpl; [|done].
  assert (Hc : is_curl (trim value) = true -> starts_with (trim value) "{" || canNormalizeToAuthJson (trim value) = false).
  { intros H. unfold is_curl in H. destruct (trim value) as [|c r]; [done|].
    assert (Ec : lower_char c = "c"%char) by (destruct (starts_with_inv _ _ H) as [t Et]; by injection Et).
    assert (Hs : solid (String c r)) by (clear -Ec; destruct c as [[][][][][][][][]]; first [discriminate Ec | done]).
    apply orb_false_iff. split; [clear -Ec; destruct c as [[][][][][][][][]]; first [discriminate Ec | done]|].
    unfold canNormalizeToAuthJson, parsed_object, object_text, stripLeadingCommentsAndWhitespace.
    change (skip_text false ?s) with (skipWhitespace s). rewrite skip_solid by done. by rewrite H, andb_false_r. }
  destruct (is_curl (trim value)); destruct tab; simpl.
  - done.
  - rewrite Hc by done. done.
  - split; [done|]. clear Hc. destruct (_ || _); intros [=].
  - clear Hc. rewrite orb_comm. destruct (_ || _); split; done.
Qed.

(** The recogniser accepts a header's usual spelling that the rewriting does not
    read and drops as one it handles. *)
Theorem spelled_header_lost :
  let paste := "{'User-Agent': 'Mozilla', 'sess': 'abc'}" in
  canNormalizeToAuthJson paste = true /\
  parsed_object (normalizeToAuthJson paste) = Some [("sess", PStr "abc")].
Proof. split; vm_compute; reflexivity. Qed.

(** An escape of JSON text the parser does not know is read as the characters
    after the backslash. *)
Theorem unicode_escape_misread :
  parsePythonOrJson ("{" +:+ quoted "sess" +:+ ":" +:+ quoted "a\u0026b" +:+ "}") = Ok (PObj [("sess", PStr "au0026b")]).
Proof. vm_compute. reflexivity. Qed.

(** A number of JSON text with an exponent is an error. *)
Theorem exponent_refused : exists message,
  parsePythonOrJson ("{" +:+ quoted "id" +:+ ": 1e3}") = Throw message.
Proof. eexists. vm_compute. reflexivity. Qed.
