(* ===== verification/PluginHost.v ===== *)
(** * The plugin registry ([features/plugins/lib/pluginHost.ts])

    Plugins are activated and deactivated while the page runs; each activation
    is an installation with an abort controller and a generation of its own, and
    the scoped API a plugin is given captures its installation. Components and
    functions are identities; objects compared by identity (registrations,
    hooks, generations with their controllers) carry a number from one supply.
    The calls of the listeners are logged. A handler of a hook is a function that
    returns or throws; the transport's answer is an argument of the second half
    of a call, which runs after the [await]. *)

From Stdlib Require Import Ascii ZArith Lia SpecFloat.
From stdpp Require Import base list strings option pretty.
From S2P Require Import Prelude JsString JsNum JsSort JsValue JsObject.

Definition PLUGIN_SLOTS : list string :=
  ["users.card.badges"; "users.table.identity_extra"; "users.edit_modal.top"; "user.profile.panels"; "navigation.pages"].

(** ** Descriptors ([api/types/plugins.ts]) *)

Record PluginAccessScopes := {
  profile_fields : list string;
  task_types : list string;
  outbound_domains : list string;
  state_keys : option (list string);
  http_services : option (list string);
  proxy_sources : option (list string);
  propose_profile_changes : bool
}.

Inductive plugin_mode := Native | Sandbox | Declarative.

#[export] Instance plugin_mode_eq_dec : EqDecision plugin_mode.
Proof. solve_decision. Defined.

Inductive contribution_kind := KindBadge | KindAction | KindPanel | KindPage.

Record PluginUIContribution := {
  contribution_id : string;
  contribution_slot : string;
  contribution_kind_of : contribution_kind;
  contribution_title : string;
  contribution_text : string;
  contribution_order : num;
  contribution_task_type : option string
}.

Record ActivePluginWebUI := {
  plugin_id : string;
  display_name : string;
  plugin_version : string;
  entry_url : string;
  styles : list string;
  package_digest : option string;
  sdk_version : option string;
  pl_mode : option plugin_mode;
  access : option PluginAccessScopes;
  contributions : option (list PluginUIContribution)
}.

(** ** State *)

Record Registration := {
  reg_ref : nat;
  reg_id : string;
  reg_plugin : string;
  component : nat;
  order : num
}.

Record Installation := {
  descriptor_of : ActivePluginWebUI;
  generation : nat
}.

Record Hook := {
  hook_ref : nat;
  hook_plugin : string;
  handler : nat
}.

Record registry := {
  installations : JMap.t Installation;
  slots : JMap.t (list Registration);
  hooks : JMap.t (list Hook);
  listeners : list nat;
  revision : Z;
  nextId : Z;
  transport : bool;
  (* the supply of identities, the controllers aborted, the listeners called *)
  supply : nat;
  aborted : list nat;
  notified : list nat
}.

Definition new_registry : registry := {|
  installations := []; slots := []; hooks := []; listeners := []; revision := 0; nextId := 0;
  transport := false; supply := O; aborted := []; notified := []
|}.

Definition set_installations x w := {| installations := x; slots := slots w; hooks := hooks w; listeners := listeners w;
  revision := revision w; nextId := nextId w; transport := transport w; supply := supply w; aborted := aborted w; notified := notified w |}.
Definition set_slots x w := {| installations := installations w; slots := x; hooks := hooks w; listeners := listeners w;
  revision := revision w; nextId := nextId w; transport := transport w; supply := supply w; aborted := aborted w; notified := notified w |}.
Definition set_hooks x w := {| installations := installations w; slots := slots w; hooks := x; listeners := listeners w;
  revision := revision w; nextId := nextId w; transport := transport w; supply := supply w; aborted := aborted w; notified := notified w |}.
Definition set_listeners x w := {| installations := installations w; slots := slots w; hooks := hooks w; listeners := x;
  revision := revision w; nextId := nextId w; transport := transport w; supply := supply w; aborted := aborted w; notified := notified w |}.
Definition set_nextId x w := {| installations := installations w; slots := slots w; hooks := hooks w; listeners := listeners w;
  revision := revision w; nextId := x; transport := transport w; supply := supply w; aborted := aborted w; notified := notified w |}.
Definition set_transport x w := {| installations := installations w; slots := slots w; hooks := hooks w; listeners := listeners w;
  revision := revision w; nextId := nextId w; transport := x; supply := supply w; aborted := aborted w; notified := notified w |}.
Definition set_aborted x w := {| installations := installations w; slots := slots w; hooks := hooks w; listeners := listeners w;
  revision := revision w; nextId := nextId w; transport := transport w; supply := supply w; aborted := x; notified := notified w |}.
Definition take_ref w := {| installations := installations w; slots := slots w; hooks := hooks w; listeners := listeners w;
  revision := revision w; nextId := nextId w; transport := transport w; supply := S (supply w); aborted := aborted w; notified := notified w |}.

(** [notify] *)
Definition notify w := {| installations := installations w; slots := slots w; hooks := hooks w; listeners := listeners w;
  revision := revision w + 1; nextId := nextId w; transport := transport w; supply := supply w; aborted := aborted w;
  notified := notified w ++ listeners w |}.

(** [map.delete(key)] *)
Definition without {V} (key : string) (m : JMap.t V) : JMap.t V := keep (fun e => negb (e.1 =s key)) m.

(** [map.get(name) ?? []] *)
Definition at_name {V} (name : string) (m : JMap.t (list V)) : list V := JMap.get name m ?? [].

(** Every list of a map filtered in place. *)
Definition filter_all {V} (p : V -> bool) (m : JMap.t (list V)) : JMap.t (list V) := map (fun e => (e.1, keep p e.2)) m.

(** ** Activation *)

(** The scoped API of an installation. *)
Record handle := { h_plugin : string; h_installation : Installation }.

Definition inactive_error (pluginId : string) : string :=
  "Plugin " +:+ String dquote pluginId +:+ String dquote " is inactive.".
Definition replaced_error (pluginId : string) : string :=
  "Plugin " +:+ String dquote pluginId +:+ String dquote " was disabled or replaced.".

Definition deactivate (pluginId : string) (w : registry) : registry :=
  let w := match JMap.get pluginId (installations w) with
           | Some i => set_aborted (aborted w ++ [generation i]) w
           | None => w
           end in
  let w := set_installations (without pluginId (installations w)) w in
  let w := set_slots (filter_all (fun r => negb (reg_plugin r =s pluginId)) (slots w)) w in
  let w := set_hooks (filter_all (fun h => negb (hook_plugin h =s pluginId)) (hooks w)) w in
  notify w.

Definition forPlugin (pluginId : string) (w : registry) : string + handle :=
  match JMap.get pluginId (installations w) with
  | Some i => inr {| h_plugin := pluginId; h_installation := i |}
  | None => inl (inactive_error pluginId)
  end.

Definition activate (d : ActivePluginWebUI) (w : registry) : (string + handle) * registry :=
  let w := deactivate (plugin_id d) w in
  let i := {| descriptor_of := d; generation := supply w |} in
  let w := notify (set_installations (JMap.set (plugin_id d) i (installations w)) (take_ref w)) in
  (forPlugin (plugin_id d) w, w).

Definition descriptor (pluginId : string) (w : registry) : option ActivePluginWebUI :=
  descriptor_of <$> JMap.get pluginId (installations w).

(** [assertActive]: whether the handle's installation is the current one. *)
Definition is_active (h : handle) (w : registry) : bool :=
  match JMap.get (h_plugin h) (installations w) with
  | Some i => (generation i =? generation (h_installation h))%nat
  | None => false
  end.

Definition assertActive {A} (h : handle) (w : registry) (body : (string + A) * registry) : (string + A) * registry :=
  if is_active h w then body else (inl (replaced_error (h_plugin h)), w).

(** ** Contributions *)

(** The result is the identity the disposer removes. *)
Definition registerSlot (h : handle) (name : string) (c : nat) (id : option string) (ord : option num) (w : registry) : (string + nat) * registry :=
  assertActive h w (
    if negb (str_in name PLUGIN_SLOTS) then
      (inl ("Unknown plugin slot " +:+ String dquote name +:+ String dquote "."), w)
    else
      let '(id, w) := match id with
                      | Some s => (s, w)
                      | None => (show_Z (nextId w + 1), set_nextId (nextId w + 1) w)
                      end in
      let registrations := at_name name (slots w) in
      if some (fun r => (reg_plugin r =s h_plugin h) && (reg_id r =s id)) registrations then
        (inl ("Duplicate plugin contribution " +:+ String dquote id +:+ String dquote "."), w)
      else
        let r := {| reg_ref := supply w; reg_id := id; reg_plugin := h_plugin h; component := c; order := ord ?? #0 |} in
        (inr (reg_ref r), notify (set_slots (JMap.set name (registrations ++ [r]) (slots w)) (take_ref w)))).

(** The function [registerSlot] returns. *)
Definition disposeSlot (name : string) (ref : nat) (w : registry) : registry :=
  notify (set_slots (JMap.set name (keep (fun r => negb (reg_ref r =? ref)%nat) (at_name name (slots w))) (slots w)) w).

Definition unregisterSlot (h : handle) (name : string) (c : nat) (w : registry) : (string + unit) * registry :=
  assertActive h w
    (inr tt, notify (set_slots (JMap.set name
       (keep (fun r => negb (reg_plugin r =s h_plugin h) || negb (component r =? c)%nat) (at_name name (slots w))) (slots w)) w)).

Definition registerHook (h : handle) (name : string) (fn : nat) (w : registry) : (string + nat) * registry :=
  assertActive h w
    (let x := {| hook_ref := supply w; hook_plugin := h_plugin h; handler := fn |} in
     (inr (hook_ref x), set_hooks (JMap.set name (at_name name (hooks w) ++ [x]) (hooks w)) (take_ref w))).

Definition disposeHook (name : string) (ref : nat) (w : registry) : registry :=
  set_hooks (JMap.set name (keep (fun x => negb (hook_ref x =? ref)%nat) (at_name name (hooks w))) (hooks w)) w.

(** The results of the plugin's handlers; [run] gives [None] for a handler that
    throws, whose result is [undefined]. *)
Definition triggerHook {R} (run : nat -> option R) (h : handle) (name : string) (w : registry) : (string + list (option R)) * registry :=
  assertActive h w
    (inr (map (fun x => run (handler x)) (keep (fun x => hook_plugin x =s h_plugin h) (at_name name (hooks w)))), w).

(** ** Tasks *)

(** The request a call hands to the transport. *)
Record request := { req_plugin : string; req_task : string; req_signal : nat }.

Definition call_start (h : handle) (taskType : string) (w : registry) : string + request :=
  if negb (is_active h w) then inl (replaced_error (h_plugin h))
  else if match access (descriptor_of (h_installation h)) with Some a => negb (str_in taskType (task_types a)) | None => false end then
    inl "Task is outside the plugin scope."
  else if negb (transport w) then inl "Plugin transport is unavailable."
  else inr {| req_plugin := h_plugin h; req_task := taskType; req_signal := generation (h_installation h) |}.

(** What the caller is given once the transport has answered. *)
Definition call_finish {R} (h : handle) (answer : string + R) (w : registry) : string + R :=
  match answer with
  | inl e => inl e
  | inr r => if is_active h w then inr r else inl (replaced_error (h_plugin h))
  end.

(** ** What plugins are shown *)

Section locale.
(** [String.prototype.localeCompare], as the sign of its result. *)
Context (localeCompare : string -> string -> Z).

(** [a.order - b.order || a.pluginId.localeCompare(..) || a.id.localeCompare(..)]
    is positive. *)
Definition after (a b : Registration) : bool :=
  let d := order a ⊖ order b in
  if num_truthy d then d >! #0
  else if negb (localeCompare (reg_plugin a) (reg_plugin b) =? 0) then 0 <? localeCompare (reg_plugin a) (reg_plugin b)
  else 0 <? localeCompare (reg_id a) (reg_id b).

Definition getRegistrations (name : string) (w : registry) : list Registration := stable_sort after (at_name name (slots w)).
End locale.

(** A member of a context: data or a function of the page. *)
Inductive context_value :=
| Data (v : value)
| Callback (f : nat).

(** [Object.entries(value)] of a value that is an object. *)
Definition object_entries (v : context_value) : option fields :=
  match v with
  | Data (VObj fs) => Some (own_entries fs)
  | Data (VArr l) => Some (imap (fun i x => (show_Z (Z.of_nat i), x)) l)
  | _ => None
  end.

Definition project_member (d : ActivePluginWebUI) (a : PluginAccessScopes) (e : string * context_value) : option (string * context_value) :=
  let '(key, v) := e in
  match (if str_in key ["user"; "item"] then object_entries v else None) with
  | Some fs => Some (key, Data (VObj (keep (fun f => str_in f.1 (profile_fields a)) fs)))
  | None =>
      if (key =s "formValues") && propose_profile_changes a then Some e
      else if (key =s "setFieldValue") && propose_profile_changes a && bool_decide (pl_mode d = Some Declarative) then Some e
      else None
  end.

Definition contextFor (pluginId : string) (context : JMap.t context_value) (w : registry) : JMap.t context_value :=
  match descriptor pluginId w with
  | None => []
  | Some d =>
      match pl_mode d, access d with
      | Some Native, _ | _, None => context
      | _, Some a => omap (project_member d a) (own_entries context)
      end
  end.

(** ** The page's store *)

Definition subscribe (l : nat) (w : registry) : registry :=
  if existsb (Nat.eqb l) (listeners w) then w else set_listeners (listeners w ++ [l]) w.
Definition unsubscribe (l : nat) (w : registry) : registry :=
  set_listeners (keep (fun x => negb (x =? l)%nat) (listeners w)) w.
Definition getSnapshot (w : registry) : Z := revision w.
