(* ===== verification/PluginHostSpec.v ===== *)
(** * Properties of the plugin registry

    Every state a page can bring the registry to, with the scoped APIs handed out
    on the way: contributions belong to active plugins, an API works exactly as
    long as its abort signal has not fired, and never again afterwards, and a
    sandboxed plugin is shown the granted fields only. *)

From Stdlib Require Import Ascii ZArith Lia SpecFloat.
From stdpp Require Import base list strings option relations sets.
From S2P Require Import Prelude JsString JsNum JsSort JsValue JsObject PluginHost.

(** ** Steps *)

Inductive op :=
| SetTransport
| Activate (d : ActivePluginWebUI)
| Deactivate (p : string)
| ForPlugin (p : string)
| RegisterSlot (h : handle) (name : string) (c : nat) (id : option string) (ord : option num)
| DisposeSlot (name : string) (ref : nat)
| UnregisterSlot (h : handle) (name : string) (c : nat)
| RegisterHook (h : handle) (name : string) (fn : nat)
| DisposeHook (name : string) (ref : nat)
| Subscribe (l : nat)
| Unsubscribe (l : nat).

(** The API an operation is called on. *)
Definition called_on (o : op) : option handle :=
  match o with RegisterSlot h _ _ _ _ | UnregisterSlot h _ _ | RegisterHook h _ _ => Some h | _ => None end.

(** The error an operation on an API ends with. *)
Definition error_of (o : op) (w : registry) : option string :=
  let left {A} (r : (string + A) * registry) := match r.1 with inl e => Some e | inr _ => None end in
  match o with
  | RegisterSlot h name c id ord => left (registerSlot h name c id ord w)
  | UnregisterSlot h name c => left (unregisterSlot h name c w)
  | RegisterHook h name fn => left (registerHook h name fn w)
  | _ => None
  end.

Definition apply_op (o : op) (w : registry) : registry :=
  match o with
  | SetTransport => set_transport true w
  | Activate d => (activate d w).2
  | Deactivate p => deactivate p w
  | ForPlugin _ => w
  | RegisterSlot h name c id ord => (registerSlot h name c id ord w).2
  | DisposeSlot name ref => disposeSlot name ref w
  | UnregisterSlot h name c => (unregisterSlot h name c w).2
  | RegisterHook h name fn => (registerHook h name fn w).2
  | DisposeHook name ref => disposeHook name ref w
  | Subscribe l => subscribe l w
  | Unsubscribe l => unsubscribe l w
  end.

(** The APIs an operation hands out. *)
Definition handed_out (o : op) (w : registry) : list handle :=
  let right (r : string + handle) := match r with inr h => [h] | inl _ => [] end in
  match o with
  | Activate d => right (activate d w).1
  | ForPlugin p => right (forPlugin p w)
  | _ => []
  end.

(** A step calls an API only if it was handed out before. *)
Inductive step : registry * list handle -> registry * list handle -> Prop :=
| Step o w hs : (forall h, called_on o = Some h -> h ∈ hs) -> step (w, hs) (apply_op o w, hs ++ handed_out o w).

Definition reachable (w : registry) (hs : list handle) : Prop := rtc step (new_registry, []) (w, hs).

(** ** Lists by name *)

Lemma at_name_set {V} n n' (l : list V) m : at_name n (JMap.set n' l m) = if decide (n = n') then l else at_name n m.
Proof.
  unfold at_name. destruct (decide (n = n')) as [->|]; [by rewrite JMap.get_set_eq|by rewrite JMap.get_set_ne].
Qed.

Lemma at_name_filter {V} n (p : V -> bool) m : at_name n (filter_all p m) = keep p (at_name n m).
Proof. unfold at_name. induction m as [|[k l] m IH]; [done|]. simpl. by destruct (str_eqb k n). Qed.

Lemma get_without {V} k k' (m : JMap.t V) : JMap.get k (without k' m) = if decide (k = k') then None else JMap.get k m.
Proof.
  induction m as [|[k0 v] m IH]; [by destruct (decide _)|]. simpl. destruct (str_eqb k0 k') eqn:E; simpl.
  - rewrite IH. apply str_eqb_eq in E as ->. destruct (decide (k = k')); [done|]. by rewrite (proj2 (str_eqb_neq k' k)).
  - rewrite IH. destruct (str_eqb k0 k) eqn:E2; [|done]. apply str_eqb_eq in E2 as ->. apply str_eqb_neq in E.
    by destruct (decide (k = k')).
Qed.

(** ** The invariant *)

Definition owner_key (r : Registration) : string * string := (reg_plugin r, reg_id r).
Definition installed (p : string) (w : registry) : Prop := is_Some (JMap.get p (installations w)).

Record well_formed (w : registry) (hs : list handle) : Prop := {
  wf_install : forall p i, JMap.get p (installations w) = Some i ->
    plugin_id (descriptor_of i) = p /\ (generation i < supply w)%nat /\ generation i ∉ aborted w;
  wf_distinct : forall p q i j, JMap.get p (installations w) = Some i -> JMap.get q (installations w) = Some j ->
    generation i = generation j -> p = q;
  wf_aborted : forall g, g ∈ aborted w -> (g < supply w)%nat;
  wf_handles : forall h, h ∈ hs -> (generation (h_installation h) < supply w)%nat /\
    (generation (h_installation h) ∈ aborted w \/ JMap.get (h_plugin h) (installations w) = Some (h_installation h));
  wf_slots : forall n r, r ∈ at_name n (slots w) -> installed (reg_plugin r) w /\ n ∈ PLUGIN_SLOTS;
  wf_unique : forall n, NoDup (map owner_key (at_name n (slots w)));
  wf_hooks : forall n x, x ∈ at_name n (hooks w) -> installed (hook_plugin x) w
}.

(** Operations on contributions that only remove some. *)
Lemma fewer_slots w hs m : (forall n, exists p, at_name n m = keep p (at_name n (slots w))) ->
  well_formed w hs -> well_formed (notify (set_slots m w)) hs.
Proof.
  intros Hf [H1 Hd H2 H3 H4 H5 H6]. split; try assumption; intros n; destruct (Hf n) as [p E]; simpl; rewrite E.
  - intros r [Hr _]%elem_of_keep. by apply H4.
  - by apply NoDup_map_keep.
Qed.

Lemma set_keep {V} n n0 (p : V -> bool) (m : JMap.t (list V)) : exists q, at_name n (JMap.set n0 (keep p (at_name n0 m)) m) = keep q (at_name n m).
Proof.
  rewrite at_name_set. destruct (decide (n = n0)) as [->|]; [by exists p|]. exists (fun _ => true). by rewrite keep_all.
Qed.

(** The controllers aborted by a deactivation. *)
Definition aborts (p : string) (w : registry) (g : nat) : Prop := exists i, JMap.get p (installations w) = Some i /\ g = generation i.

Lemma aborted_deactivate p w g : g ∈ aborted (deactivate p w) <-> g ∈ aborted w \/ aborts p w g.
Proof.
  unfold deactivate, aborts. destruct (JMap.get p (installations w)) as [i|]; simpl; [|naive_solver].
  rewrite elem_of_app, list_elem_of_singleton. naive_solver.
Qed.

Lemma fields_deactivate p w : installations (deactivate p w) = without p (installations w) /\
  slots (deactivate p w) = filter_all (fun r => negb (reg_plugin r =s p)) (slots w) /\
  hooks (deactivate p w) = filter_all (fun h => negb (hook_plugin h =s p)) (hooks w) /\ supply (deactivate p w) = supply w.
Proof. unfold deactivate. by destruct (JMap.get p (installations w)). Qed.

Lemma well_formed_deactivate p w hs : well_formed w hs -> well_formed (deactivate p w) hs.
Proof.
  intros [H1 Hd H2 H3 H4 H5 H6]. destruct (fields_deactivate p w) as (Ei & Es & Eh & Eu).
  assert (Hk : forall q, q <> p -> installed q w -> installed q (deactivate p w)).
  { intros q Hq H. unfold installed. rewrite Ei, get_without. by rewrite decide_False. }
  split; rewrite ?Ei, ?Es, ?Eh, ?Eu.
  - intros q i. rewrite get_without. destruct (decide (q = p)) as [|Hq]; [done|]. intros Hg. destruct (H1 _ _ Hg) as (? & ? & Hn).
    split; [done|]. split; [done|]. rewrite aborted_deactivate. intros [?|(j & Hj & E)]; [done|]. by apply Hq, (Hd _ _ _ _ Hg Hj).
  - intros q q' i j. rewrite !get_without. destruct (decide (q = p)), (decide (q' = p)); try done. apply Hd.
  - intros g [?|(i & Hg & ->)]%aborted_deactivate; [by apply H2|by apply (H1 p)].
  - intros h Hh. destruct (H3 h Hh) as [Hl Hc]. split; [done|]. rewrite aborted_deactivate, get_without.
    destruct Hc as [?|Hc]; [by left; left|]. destruct (decide (h_plugin h = p)) as [<-|]; [left; right; by eexists|by right].
  - intros n r. rewrite at_name_filter, elem_of_keep, negb_true_iff, str_eqb_neq. intros [Hr Hq]. destruct (H4 n r Hr). split; [|done]. by apply Hk.
  - intros n. rewrite at_name_filter. by apply NoDup_map_keep.
  - intros n x. rewrite at_name_filter, elem_of_keep, negb_true_iff, str_eqb_neq. intros [Hx Hq]. apply Hk; [done|]. by apply (H6 n).
Qed.

Lemma is_active_spec w hs h : well_formed w hs -> h ∈ hs ->
  is_active h w = true <-> generation (h_installation h) ∉ aborted w.
Proof.
  intros W Hh. destruct (wf_handles _ _ W h Hh) as [_ Hc]. unfold is_active. split.
  - destruct (JMap.get (h_plugin h) (installations w)) as [i|] eqn:E; [|done]. intros <-%Nat.eqb_eq. apply (wf_install _ _ W _ _ E).
  - intros Hn. destruct Hc as [Hc|Hc]; [done|]. rewrite Hc. apply Nat.eqb_refl.
Qed.

Lemma active_installed w h : is_active h w = true -> installed (h_plugin h) w.
Proof. unfold is_active, installed. destruct (JMap.get (h_plugin h) (installations w)); [by eexists|done]. Qed.

(** More handles, of current installations. *)
Lemma more_handles w hs h : well_formed w hs -> JMap.get (h_plugin h) (installations w) = Some (h_installation h) -> well_formed w (hs ++ [h]).
Proof.
  intros [H1 Hd H2 H3 H4 H5 H6] Hg. split; try assumption. intros h' [Hh|Hh]%elem_of_app; [by apply H3|]. apply list_elem_of_singleton in Hh as ->.
  split; [by apply (H1 (h_plugin h))|by right].
Qed.

Lemma well_formed_activate d w hs : well_formed w hs -> well_formed (activate d w).2 (hs ++ handed_out (Activate d) w).
Proof.
  intros W. apply (well_formed_deactivate (plugin_id d)) in W. unfold handed_out, activate, forPlugin. cbn [fst snd].
  destruct (fields_deactivate (plugin_id d) w) as (Ei & _ & _ & Eu). set (w1 := deactivate (plugin_id d) w) in *.
  assert (Hno : JMap.get (plugin_id d) (installations w1) = None) by (rewrite Ei, get_without; by rewrite decide_True).
  clearbody w1. clear Ei Eu w. cbn [installations notify set_installations]. rewrite JMap.get_set_eq. apply more_handles; [|apply JMap.get_set_eq].
  destruct W as [H1 Hd H2 H3 H4 H5 H6].
  assert (Hne : forall p i, JMap.get p (installations w1) = Some i -> plugin_id d <> p) by (intros p i H <-; congruence).
  assert (Hin : forall p, installed p w1 -> is_Some (JMap.get p (JMap.set (plugin_id d) {| descriptor_of := d; generation := supply w1 |} (installations w1)))).
  { intros p [i Hi]. rewrite JMap.get_set_ne by by apply (Hne p i). by eexists. }
  split; simpl; try assumption.
  - intros p i. destruct (decide (plugin_id d = p)) as [<-|Hp].
    + rewrite JMap.get_set_eq. intros [= <-]. split; [done|]. split; [simpl; lia|]. simpl. intros H%H2. lia.
    + rewrite JMap.get_set_ne by done. intros Hg. destruct (H1 p i Hg) as (? & ? & ?). split; [done|]. split; [lia|done].
  - intros p q i j. destruct (decide (plugin_id d = p)) as [<-|Hp]; destruct (decide (plugin_id d = q)) as [<-|Hq];
      rewrite ?JMap.get_set_eq, ?JMap.get_set_ne by done; try done.
    + intros [= <-] Hg E. destruct (H1 q j Hg). simpl in E. lia.
    + intros Hg [= <-] E. destruct (H1 p i Hg). simpl in E. lia.
    + apply Hd.
  - intros g Hg. specialize (H2 g Hg). lia.
  - intros h Hh. destruct (H3 h Hh) as [? Hc]. split; [lia|]. destruct Hc as [?|Hc]; [by left|]. right.
    by rewrite JMap.get_set_ne by by apply (Hne _ _ Hc).
  - intros n r Hr. destruct (H4 n r Hr). split; [by apply Hin|done].
  - intros n x Hx. apply Hin. by apply (H6 n).
Qed.

Lemma well_formed_register h name c id ord w hs : well_formed w hs -> well_formed (registerSlot h name c id ord w).2 hs.
Proof.
  intros W. unfold registerSlot, assertActive. destruct (is_active h w) eqn:Ha; [|done]. destruct (str_in name PLUGIN_SLOTS) eqn:Hn; [|done].
  apply str_in_iff in Hn. cbn [negb].
  assert (Hr : forall id n w', well_formed w' hs -> installed (h_plugin h) w' ->
    some (fun r => (reg_plugin r =s h_plugin h) && (reg_id r =s id)) (at_name name (slots w')) = false ->
    well_formed (notify (set_slots (JMap.set name (at_name name (slots w') ++
      [{| reg_ref := n; reg_id := id; reg_plugin := h_plugin h; component := c; order := ord ?? #0 |}]) (slots w')) (take_ref w'))) hs).
  { clear W Ha id w. intros id n w [H1 Hd H2 H3 H4 H5 H6] Hi Hs. split; simpl; try assumption.
    - intros p i Hg. destruct (H1 p i Hg) as (? & ? & ?). split; [done|]. split; [lia|done].
    - intros g Hg. specialize (H2 g Hg). lia.
    - intros h' Hh. destruct (H3 h' Hh). split; [lia|done].
    - intros n' r. rewrite at_name_set. destruct (decide (n' = name)) as [->|]; [|apply H4].
      intros [Hr|Hr]%elem_of_app; [by apply H4|]. by apply list_elem_of_singleton in Hr as ->.
    - intros n'. rewrite at_name_set. destruct (decide (n' = name)) as [->|]; [|apply H5]. rewrite map_app. apply NoDup_app.
      split; [apply H5|]. split; [|apply NoDup_singleton]. intros k Hk Hk'. apply list_elem_of_singleton in Hk' as ->.
      apply list_elem_of_fmap in Hk as (r & E & Hr). assert (some (fun r => (reg_plugin r =s h_plugin h) && (reg_id r =s id)) (at_name name (slots w)) = true); [|congruence].
      apply some_iff. exists r. split; [done|]. unfold owner_key in E. simpl in E. injection E as -> ->. by rewrite !str_eqb_refl. }
  destruct id as [id|]; cbn [fst snd];
    destruct (some _ _) eqn:Es; cbn [snd]; try done; try (apply Hr; [|by apply active_installed|done]; done).
  - destruct W. by split.
  - apply (Hr _ _ (set_nextId (nextId w + 1) w)); [destruct W; by split|by apply active_installed|done].
Qed.

Lemma well_formed_step s s' : step s s' -> well_formed s.1 s.2 -> well_formed s'.1 s'.2.
Proof.
  intros [o w hs Hc] W. simpl in *. assert (E : well_formed (apply_op o w) hs -> handed_out o w = [] -> well_formed (apply_op o w) (hs ++ handed_out o w))
    by (intros ? ->; by rewrite app_nil_r).
  destruct o as [|d|p|p|h name c id ord|name ref|h name c|h name fn|name ref|l|l]; try (apply E; [|done]; clear E; simpl).
  - destruct W. by split.
  - by apply well_formed_activate.
  - by apply well_formed_deactivate.
  - unfold apply_op, handed_out, forPlugin. destruct (JMap.get p (installations w)) eqn:Eg; [|by rewrite app_nil_r].
    by apply more_handles.
  - by apply well_formed_register.
  - apply fewer_slots; [|done]. intros n. apply set_keep.
  - unfold unregisterSlot, assertActive. destruct (is_active h w); [|done]. apply fewer_slots; [|done]. intros n. apply set_keep.
  - unfold registerHook, assertActive. destruct (is_active h w) eqn:Ha; [|done]. destruct W as [H1 Hd H2 H3 H4 H5 H6].
    split; simpl; try assumption.
    + intros p i Hg. destruct (H1 p i Hg) as (? & ? & ?). split; [done|]. split; [lia|done].
    + intros g Hg. specialize (H2 g Hg). lia.
    + intros h' Hh. destruct (H3 h' Hh). split; [lia|done].
    + intros n x. rewrite at_name_set. destruct (decide (n = name)) as [->|]; [|apply H6].
      intros [Hx|Hx]%elem_of_app; [by apply (H6 name)|]. apply list_elem_of_singleton in Hx as ->. by apply active_installed.
  - destruct W as [H1 Hd H2 H3 H4 H5 H6]. split; try assumption. intros n x. simpl. rewrite at_name_set.
    destruct (decide (n = name)) as [->|]; [|apply H6]. intros [Hx _]%elem_of_keep. by apply (H6 name).
  - unfold subscribe. destruct (existsb _ _); [done|]. destruct W. by split.
  - destruct W. by split.
Qed.

Lemma well_formed_steps s s' : rtc step s s' -> well_formed s.1 s.2 -> well_formed s'.1 s'.2.
Proof. induction 1 as [|s s' s'' Hs _ IH]; [done|]. intros W. by apply IH, (well_formed_step s). Qed.

Lemma well_formed_reachable w hs : reachable w hs -> well_formed w hs.
Proof. 
  intros H. apply well_formed_steps in H; [done|]. split; simpl.
  - done.
  - done.
  - by intros g ?%elem_of_nil.
  - by intros h ?%elem_of_nil.
  - by intros n r ?%elem_of_nil.
  - intros n. constructor.
  - by intros n x ?%elem_of_nil.
Qed.

(** ** What never comes back *)

Lemma step_keeps s s' : step s s' -> (forall g, g ∈ aborted s.1 -> g ∈ aborted s'.1) /\ (forall h, h ∈ s.2 -> h ∈ s'.2).
Proof.
  intros [o w hs _]. simpl. split; [|set_solver]. intros g Hg.
  destruct o as [|d|p|p|h name c id ord|name ref|h name c|h name fn|name ref|l|l]; try done.
  - simpl. apply aborted_deactivate. by left.
  - apply aborted_deactivate. by left.
  - simpl. unfold registerSlot, assertActive. destruct (is_active h w); [|done]. destruct (negb _); [done|].
    by destruct id; simpl; destruct (some _ _).
  - simpl. unfold unregisterSlot, assertActive. by destruct (is_active h w).
  - simpl. unfold registerHook, assertActive. by destruct (is_active h w).
  - simpl. unfold subscribe. by destruct (existsb _ _).
Qed.

Lemma steps_keep s s' : rtc step s s' -> (forall g, g ∈ aborted s.1 -> g ∈ aborted s'.1) /\ (forall h, h ∈ s.2 -> h ∈ s'.2).
Proof.
  induction 1 as [|s s' s'' Hs _ [I1 I2]]; [done|]. destruct (step_keeps _ _ Hs) as [S1 S2]. split; auto.
Qed.

Lemma inactive_fails o h w : called_on o = Some h -> is_active h w = false ->
  apply_op o w = w /\ error_of o w = Some (replaced_error (h_plugin h)).
Proof.
  intros Hc Ha. destruct o; try done; injection Hc as ->; simpl; unfold registerSlot, unregisterSlot, registerHook, assertActive; by rewrite Ha.
Qed.

(** ** Properties *)

(** C34. Every contribution shown belongs to an active plugin and is in a slot the
    page has; no plugin has two contributions of one id in a slot; and every hook
    belongs to an active plugin -- in every state a page can bring the registry
    to, whichever plugins were replaced or disabled on the way and however late
    a disposer or a stale API is called. *)
Theorem contributions_of_active_plugins w hs : reachable w hs ->
  (forall n r, r ∈ at_name n (slots w) -> installed (reg_plugin r) w /\ n ∈ PLUGIN_SLOTS) /\
  (forall n, NoDup (map owner_key (at_name n (slots w)))) /\
  (forall n x, x ∈ at_name n (hooks w) -> installed (hook_plugin x) w).
Proof. intros [_ _ _ _ H4 H5 H6]%well_formed_reachable. done. Qed.

(** The errors of an API that is active are not those of one that was replaced. *)
Lemma active_not_replaced o h w : called_on o = Some h -> is_active h w = true -> error_of o w <> Some (replaced_error (h_plugin h)).
Proof.
  intros Ho Ha. destruct o as [| | | |h' name c id ord| |h' name c|h' name fn| | |]; try done; injection Ho as ->;
    cbn [error_of]; unfold registerSlot, unregisterSlot, registerHook, assertActive; rewrite Ha; [|done..].
  destruct (negb _); [done|]. destruct id as [id|]; cbn [fst]; by destruct (some _ _).
Qed.

Lemma active_starts h task w : is_active h w = true -> call_start h task w <> inl (replaced_error (h_plugin h)).
Proof.
  intros Ha. unfold call_start. rewrite Ha. cbn [negb]. destruct (match access _ with Some _ => _ | None => _ end); [done|]. by destruct (negb _).
Qed.

(** C35. An API works exactly as long as its abort signal has not fired, and once
    it has, never again: whatever happens afterwards, reactivation of the same
    plugin included, registering or removing a contribution, registering hooks,
    triggering them and starting a task all fail with the same error and change
    nothing, no handler runs and no request is sent, and no result of a task that was
    started before reaches its caller. While the signal has not fired, none of them
    fails with that error. *)
Theorem stale_api_is_inert w hs w' hs' h :
  reachable w hs -> h ∈ hs -> rtc step (w, hs) (w', hs') ->
  (is_active h w = true <-> generation (h_installation h) ∉ aborted w) /\
  (is_active h w = true ->
    (forall o, called_on o = Some h -> error_of o w <> Some (replaced_error (h_plugin h))) /\
    (forall R (run : nat -> option R) name, exists results, triggerHook run h name w = (inr results, w)) /\
    (forall task, call_start h task w <> inl (replaced_error (h_plugin h))) /\
    (forall R (answer : R), call_finish h (inr answer) w = inr answer)) /\
  (is_active h w = false ->
    is_active h w' = false /\
    (forall o, called_on o = Some h -> apply_op o w' = w' /\ error_of o w' = Some (replaced_error (h_plugin h))) /\
    (forall R (run : nat -> option R) name, triggerHook run h name w' = (inl (replaced_error (h_plugin h)), w')) /\
    (forall task, call_start h task w' = inl (replaced_error (h_plugin h))) /\
    (forall R (answer : R), call_finish h (inr answer) w' = inl (replaced_error (h_plugin h)))).
Proof.
  intros Hr Hh Hs. pose proof (well_formed_reachable _ _ Hr) as W. destruct (steps_keep _ _ Hs) as [Hk1 Hk2].
  apply well_formed_steps in Hs; [|done]. simpl in *. split; [by apply (is_active_spec w hs)|]. split; intros Ha.
  { split; [by intros o Ho; apply active_not_replaced|]. split; [intros R run name; unfold triggerHook, assertActive; rewrite Ha; by eexists|].
    split; [intros task; by apply active_starts|]. intros R answer. unfold call_finish. by rewrite Ha. }
  assert (Ha' : is_active h w' = false).
  { apply not_true_is_false. rewrite (is_active_spec w' hs' h Hs (Hk2 h Hh)). apply not_true_iff_false in Ha.
    rewrite (is_active_spec w hs h W Hh) in Ha. intros Hn. apply Ha. intros Hin. apply Hn. by apply Hk1. }
  split; [done|]. split; [intros o Ho; by apply inactive_fails|]. unfold triggerHook, assertActive, call_start, call_finish. by rewrite Ha'.
Qed.

(** Deactivation removes everything of the plugin and nothing of the others:
    its descriptor, its contributions and hooks in every slot and under every
    name, while its controller is aborted and the contributions and hooks of the
    others stay as they are, in order. *)
Theorem deactivation_is_complete p w : let w' := deactivate p w in
  descriptor p w' = None /\ (forall g, aborts p w g -> g ∈ aborted w') /\
  (forall n r, r ∈ at_name n (slots w') -> reg_plugin r <> p) /\
  (forall n x, x ∈ at_name n (hooks w') -> hook_plugin x <> p) /\
  (forall q, q <> p -> descriptor q w' = descriptor q w /\
    (forall n, keep (fun r => reg_plugin r =s q) (at_name n (slots w')) = keep (fun r => reg_plugin r =s q) (at_name n (slots w))) /\
    (forall n, keep (fun x => hook_plugin x =s q) (at_name n (hooks w')) = keep (fun x => hook_plugin x =s q) (at_name n (hooks w)))).
Proof.
  intros w'. destruct (fields_deactivate p w) as (Ei & Es & Eh & _). unfold w', descriptor. rewrite Ei, Es, Eh.
  split; [rewrite get_without; by rewrite decide_True|]. split; [intros g Hg; apply aborted_deactivate; by right|].
  split; [intros n r; rewrite at_name_filter, elem_of_keep, negb_true_iff, str_eqb_neq; tauto|].
  split; [intros n x; rewrite at_name_filter, elem_of_keep, negb_true_iff, str_eqb_neq; tauto|].
  intros q Hq. split; [rewrite get_without; by rewrite decide_False|].
  split; intros n; rewrite at_name_filter, keep_keep; apply keep_ext; intros x; destruct (_ =s q) eqn:E; rewrite ?andb_false_r; try done;
    apply str_eqb_eq in E; rewrite E; by rewrite (proj2 (str_eqb_neq q p) Hq).
Qed.

(** The members a sandboxed plugin may be shown. *)
Definition granted (d : ActivePluginWebUI) (a : PluginAccessScopes) (context : JMap.t context_value) (e : string * context_value) : Prop :=
  (exists v fs shown, e.1 ∈ ["user"; "item"] /\ (e.1, v) ∈ context /\ object_entries v = Some fs /\ e.2 = Data (VObj shown) /\
     (forall f, f ∈ shown <-> f ∈ fs /\ f.1 ∈ profile_fields a)) \/
  (e ∈ context /\ propose_profile_changes a = true /\
     (e.1 = "formValues" \/ (e.1 = "setFieldValue" /\ pl_mode d = Some Declarative))).

(** A plugin that is not native and declares its access is shown the profile
    fields it was granted and, if it may propose changes, the form -- its setter
    only when it is declarative; an inactive plugin is shown nothing. *)
Theorem context_is_projected p context w :
  (descriptor p w = None -> contextFor p context w = []) /\
  (forall d a, descriptor p w = Some d -> pl_mode d <> Some Native -> access d = Some a ->
    forall e, e ∈ contextFor p context w -> granted d a context e).
Proof.
  unfold contextFor. split; [by intros ->|]. intros d a -> Hm Ha e He.
  assert (He' : e ∈ omap (project_member d a) (own_entries context)) by (rewrite Ha in He; destruct (pl_mode d) as [[]|]; done).
  clear He. apply list_elem_of_omap in He' as ([k v] & Hin & Hp). rewrite own_entries_permutation in Hin.
  unfold project_member in Hp. destruct (str_in k ["user"; "item"]) eqn:Ek; [destruct (object_entries v) as [fs|] eqn:Ev|].
  - injection Hp as <-. left. apply str_in_iff in Ek. exists v, fs, (keep (fun f => str_in f.1 (profile_fields a)) fs).
    split; [done|]. split; [done|]. split; [done|]. split; [done|]. intros f. by rewrite elem_of_keep, str_in_iff.
  - right. destruct (k =s "formValues") eqn:E1; [apply str_eqb_eq in E1 as ->; done|].
    destruct (k =s "setFieldValue") eqn:E2; [apply str_eqb_eq in E2 as ->; done|done].
  - right. destruct (k =s "formValues") eqn:E1; simpl in Hp.
    + apply str_eqb_eq in E1 as ->. destruct (propose_profile_changes a) eqn:Epr; simpl in Hp; [injection Hp as <-; auto|done].
    + destruct (k =s "setFieldValue") eqn:E2; simpl in Hp; [|done]. apply str_eqb_eq in E2 as ->.
      destruct (propose_profile_changes a) eqn:Epr; simpl in Hp; [|done]. case_bool_decide; [|done]. injection Hp as <-. auto.
Qed.

(** ** A plugin activated, replaced and called through its old API *)

Definition demo (mode : plugin_mode) : ActivePluginWebUI := {|
  plugin_id := "demo"; display_name := "Demo"; plugin_version := "1"; entry_url := "/demo.js"; styles := [];
  package_digest := None; sdk_version := None; pl_mode := Some mode;
  access := Some {| profile_fields := ["name"]; task_types := ["scan"]; outbound_domains := []; state_keys := None;
                    http_services := None; proxy_sources := None; propose_profile_changes := true |};
  contributions := None
|}.

Definition demo_handle (n : nat) : handle := {| h_plugin := "demo"; h_installation := {| descriptor_of := demo Sandbox; generation := n |} |}.
Lemma step_to o w hs w' hs' : (forall h, called_on o = Some h -> h ∈ hs) -> apply_op o w = w' -> hs ++ handed_out o w = hs' ->
  step (w, hs) (w', hs').
Proof. intros H <- <-. by apply Step. Qed.

Definition run (ops : list op) : registry := foldl (fun w o => apply_op o w) new_registry ops.

Definition demo_ops : list op := [Activate (demo Sandbox); RegisterSlot (demo_handle 0) "navigation.pages" 7 (Some "page") (Some #3)].
Definition demo_state : registry := Eval vm_compute in run demo_ops.
Definition replaced_state : registry := Eval vm_compute in apply_op (Activate (demo Native)) demo_state.
Definition replaced_handles : list handle := Eval vm_compute in [demo_handle 0] ++ handed_out (Activate (demo Native)) demo_state.

Lemma demo_reachable : reachable demo_state [demo_handle 0].
Proof.
  eapply rtc_l; [|apply rtc_once].
  - apply (step_to (Activate (demo Sandbox))) with (w' := run (take 1 demo_ops)) (hs' := [demo_handle 0]); [done|reflexivity|].
    vm_compute. reflexivity.
  - apply (step_to (RegisterSlot (demo_handle 0) "navigation.pages" 7 (Some "page") (Some #3))).
    + intros h [= <-]. constructor.
    + vm_compute. reflexivity.
    + reflexivity.
Qed.

Lemma contributions_of_active_plugins_witness : exists r, at_name "navigation.pages" (slots demo_state) = [r] /\ installed (reg_plugin r) demo_state.
Proof.
  eexists. split; [reflexivity|]. apply (contributions_of_active_plugins _ _ demo_reachable) with (n := "navigation.pages").
  constructor.
Defined.

Lemma replaced_steps : rtc step (demo_state, [demo_handle 0]) (replaced_state, replaced_handles).
Proof. apply rtc_once, (step_to (Activate (demo Native))); [done|vm_compute; reflexivity|vm_compute; reflexivity]. Qed.

Lemma stale_api_is_inert_witness :
  is_active (demo_handle 0) demo_state = true /\ is_active (demo_handle 0) replaced_state = false /\
  call_start (demo_handle 0) "scan" replaced_state = inl (replaced_error "demo").
Proof.
  destruct (stale_api_is_inert _ _ _ _ (demo_handle 0) demo_reachable ltac:(constructor) replaced_steps) as [H _].
  split; [apply H; vm_compute; by intros ?%elem_of_nil|]. split; [reflexivity|].
  assert (R : reachable replaced_state replaced_handles) by (unfold reachable; etrans; [exact demo_reachable|exact replaced_steps]).
  refine (proj1 (proj2 (proj2 (proj2 (proj2 (proj2 (stale_api_is_inert _ _ _ _ (demo_handle 0) R _ (rtc_refl step _))) _)))) "scan"); [vm_compute; constructor|reflexivity].
Defined.

Definition demo_context : JMap.t context_value :=
  [("user", Data (VObj [("name", VStr "Ada"); ("email", VStr "a@b")])); ("formValues", Data (VStr "form")); ("setFieldValue", Callback 5)].

Lemma context_is_projected_witness :
  contextFor "demo" demo_context demo_state = [("user", Data (VObj [("name", VStr "Ada")])); ("formValues", Data (VStr "form"))] /\
  granted (demo Sandbox) {| profile_fields := ["name"]; task_types := ["scan"]; outbound_domains := []; state_keys := None;
    http_services := None; proxy_sources := None; propose_profile_changes := true |} demo_context ("user", Data (VObj [("name", VStr "Ada")])).
Proof.
  split; [vm_compute; reflexivity|]. apply (context_is_projected "demo" demo_context demo_state); [reflexivity|done|reflexivity|].
  replace (contextFor _ _ _) with [("user", Data (VObj [("name", VStr "Ada")])); ("formValues", Data (VStr "form"))] by (vm_compute; reflexivity).
  constructor.
Defined.
