(* ===== verification/InstallRun.v ===== *)
(** * Following an installation ([features/connections/lib/useInstallRun.ts])

    The hook polls a run's status with the number of the last event it has seen
    and appends the events it is sent. Each run of its effect is a poller of its
    own: an asynchronous loop with its [after], told to stop by the effect's
    cleanup but not interrupted by it. The page's state, the pollers and the
    installer's log of events are threaded through the steps; a poller waits for
    the installer's answer, then for the answer's delivery, then for its timer,
    and any of these may happen in any order with the others.

    As long as no run is started while an answer of another is awaited and no run
    is followed twice, the events shown are those of the installer's log up to the
    last one seen, whatever the pace of the polls and the failures between them,
    and the end is always reached. Both conditions are needed. *)

From Stdlib Require Import ZArith Lia.
From stdpp Require Import base list strings option relations sets sorting.
From S2P Require Import Prelude JsString JsNum JsSort.

(** ** Records ([api/webui.ts]) *)

Inductive event_kind := KindStep | KindOutput | KindError | KindDone.

Record InstallEvent := {
  seq : Z;
  at_time : num;
  ev_kind : event_kind;
  ev_message : string
}.

Record StorePostgres := { pg_port : num; pg_name : string; pg_user : string; pg_password : string }.
Record StoreRedis := { redis_port : num; redis_password : string }.

Record StoreConnection := {
  store_host : string;
  store_install_dir : string;
  store_postgres : option StorePostgres;
  store_redis : option StoreRedis
}.

Inductive run_state := Running | Succeeded | Failed.

#[export] Instance run_state_eq_dec : EqDecision run_state.
Proof. solve_decision. Defined.

Record InstallStatus := {
  is_id : string;
  is_name : string;
  is_target : string;
  is_state : run_state;
  is_connection_id : option string;
  is_events : list InstallEvent;
  store_connection : option StoreConnection
}.

(** ** The hook *)

Record Run := {
  run_id : option string;
  run_status : option InstallStatus;
  run_events : list InstallEvent
}.

Definition EMPTY : Run := {| run_id := None; run_status := None; run_events := [] |}.

(** Where a poller is: waiting for the answer to a request with its [after],
    with an answer on its way, in its pause, or returned. *)
Inductive poll_phase :=
| Asking
| Answered (current : InstallStatus)
| Pausing
| Returned.

Record poller := {
  poll_run : string;
  after : Z;
  stopped : bool;
  phase : poll_phase
}.

Record page := {
  run : Run;
  runId : option string;
  pollers : list poller;
  (* the effect whose cleanup is to run: an index in [pollers] *)
  effect : option nat
}.

Definition new_page : page := {| run := EMPTY; runId := None; pollers := []; effect := None |}.

Definition set_phase f p := {| poll_run := poll_run p; after := after p; stopped := stopped p; phase := f |}.
Definition set_after a p := {| poll_run := poll_run p; after := a; stopped := stopped p; phase := phase p |}.
Definition stop p := {| poll_run := poll_run p; after := after p; stopped := true; phase := phase p |}.

(** The head of the loop: [while (!stopped)], up to the [await]. *)
Definition poll (p : poller) : poller := set_phase (if stopped p then Returned else Asking) p.

Definition with_pollers l s := {| run := run s; runId := runId s; pollers := l; effect := effect s |}.
Definition with_run r s := {| run := r; runId := runId s; pollers := pollers s; effect := effect s |}.

(** The effect's body; [None] when it returns early. *)
Definition start_effect (id : option string) (s : page) : page :=
  match truthy_opt id with
  | None => {| run := run s; runId := id; pollers := pollers s; effect := None |}
  | Some r =>
      {| run := run s; runId := id; effect := Some (length (pollers s));
         pollers := pollers s ++ [poll {| poll_run := r; after := 0; stopped := false; phase := Returned |}] |}
  end.

Definition cleanup (s : page) : page :=
  match effect s with
  | Some k => with_pollers (alter stop k (pollers s)) s
  | None => s
  end.

(** A render with the argument [id]. *)
Definition render (id : option string) (s : page) : page :=
  if bool_decide (id = runId s) then s else start_effect id (cleanup s).

(** [current.events[current.events.length - 1].seq], if there are events. *)
Definition last_seen (a : Z) (events : list InstallEvent) : Z :=
  match last events with Some e => seq e | None => a end.

Definition received (id : string) (current : InstallStatus) (previous : Run) : Run := {|
  run_id := Some id;
  run_status := Some current;
  run_events := (if opt_eqb (run_id previous) id then run_events previous else []) ++ is_events current
|}.

(** The loop's body once the answer is there. *)
Definition deliver (k : nat) (s : page) : page :=
  match pollers s !! k with
  | Some p =>
      match phase p with
      | Answered current =>
          let p' := set_after (last_seen (after p) (is_events current)) p in
          let p' := set_phase (if bool_decide (is_state current = Running) then Pausing else Returned) p' in
          with_run (received (poll_run p) current (run s)) (with_pollers (<[k := p']> (pollers s)) s)
      | _ => s
      end
  | None => s
  end.

(** The request failed: the exception is ignored. *)
Definition fail_poll (k : nat) (s : page) : page := with_pollers (alter (set_phase Pausing) k (pollers s)) s.

(** The timer has run. *)
Definition wake (k : nat) (s : page) : page := with_pollers (alter poll k (pollers s)) s.

(** What the hook returns. *)
Definition useInstallRun (s : page) : Run :=
  if bool_decide (run_id (run s) = runId s) then run s else EMPTY.

(** ** The installer

    Its log of a run and the run's result; [getInstall(id, after)] is answered
    with the events numbered above [after]. *)

Record installer := {
  log : string -> list InstallEvent;
  result : string -> run_state
}.

Definition newer (a : Z) (l : list InstallEvent) : list InstallEvent := keep (fun e => a <? seq e) l.
Definition seen (a : Z) (l : list InstallEvent) : list InstallEvent := keep (fun e => seq e <=? a) l.

Definition getInstall (i : installer) (id : string) (a : Z) (current : InstallStatus) : Prop :=
  is_events current = newer a (log i id) /\ (is_state current = Running \/ is_state current = result i id).

(** A number the log has not reached. *)
Definition fresh (l : list InstallEvent) (e : InstallEvent) : Prop := 0 < seq e /\ forall x, x ∈ l -> seq x < seq e.

Definition update {A} (id : string) (a : A) (f : string -> A) (x : string) : A := if bool_decide (x = id) then a else f x.
Definition log_event id e i := {| log := update id (log i id ++ [e]) (log i); result := result i |}.
Definition end_run id r i := {| log := log i; result := update id r (result i) |}.

(** ** Steps *)

Inductive step : page * installer -> page * installer -> Prop :=
| Logs id e s i : result i id = Running -> fresh (log i id) e -> step (s, i) (s, log_event id e i)
| Ends id r s i : result i id = Running -> step (s, i) (s, end_run id r i)
| Renders id s i : step (s, i) (render id s, i)
| Answers k p current s i : pollers s !! k = Some p -> phase p = Asking -> getInstall i (poll_run p) (after p) current ->
    step (s, i) (with_pollers (<[k := set_phase (Answered current) p]> (pollers s)) s, i)
| Delivers k s i : step (s, i) (deliver k s, i)
| Fails k p s i : pollers s !! k = Some p -> phase p = Asking -> step (s, i) (fail_poll k s, i)
| Wakes k p s i : pollers s !! k = Some p -> phase p = Pausing -> step (s, i) (wake k s, i).

Definition no_installs : installer := {| log := fun _ => []; result := fun _ => Running |}.
Definition reachable (w : page * installer) : Prop := rtc step (new_page, no_installs) w.

(** * Properties of following an installation *)

(** ** Parts of a log *)

Definition before (x y : InstallEvent) : Prop := seq x < seq y.
Definition ordered (l : list InstallEvent) : Prop := StronglySorted before l /\ Forall (fun e => 0 < seq e) l.

Lemma ordered_snoc l e : ordered l -> fresh l e -> ordered (l ++ [e]).
Proof.
  intros [Hs Hp] [He Hl]. split; [|by apply Forall_app_2; [|constructor]].
  clear Hp. induction Hs as [|x l Hs IH Hx]; simpl; [repeat constructor|]. constructor.
  - apply IH. intros y Hy. apply Hl. by right.
  - apply Forall_app_2; [done|]. constructor; [|constructor]. apply Hl. by left.
Qed.

Lemma ordered_app l1 l2 x y : ordered (l1 ++ l2) -> x ∈ l1 -> y ∈ l2 -> seq x < seq y.
Proof.
  intros [Hs _] Hx Hy. revert Hs. induction l1 as [|z l1 IH]; [by apply elem_of_nil in Hx|]. simpl. intros Hs.
  apply StronglySorted_inv in Hs as [Hs Hf]. apply elem_of_cons in Hx as [->|Hx]; [|by apply IH].
  rewrite Forall_forall in Hf. apply Hf. apply elem_of_app. by right.
Qed.

Lemma seen_newer a l : ordered l -> seen a l ++ newer a l = l.
Proof.
  intros [Hs _]. induction Hs as [|x l Hs IH Hx]; [done|]. simpl. destruct (seq x <=? a) eqn:E; simpl.
  - replace (a <? seq x) with false by (symmetry; lia). simpl. by rewrite IH.
  - replace (a <? seq x) with true by (symmetry; lia). rewrite Forall_forall in Hx.
    unfold seen. rewrite keep_none; [|intros y Hy; specialize (Hx y Hy); unfold before in Hx; lia]. simpl. f_equal.
    apply keep_all. intros y Hy. specialize (Hx y Hy). unfold before in Hx. lia.
Qed.

Lemma seen_app a l1 l2 : (forall x, x ∈ l2 -> a < seq x) -> seen a (l1 ++ l2) = seen a l1.
Proof.
  intros H. unfold seen. rewrite keep_app. rewrite (keep_none _ l2); [apply app_nil_r|].
  intros x Hx. specialize (H x Hx). lia.
Qed.

Lemma seen_prefix a l : ordered l -> seen a l `prefix_of` l.
Proof. intros H. exists (newer a l). by rewrite seen_newer. Qed.

(** Nothing has been seen, or up to an event of the log. *)
Definition position (a : Z) (l : list InstallEvent) : Prop := a = 0 \/ exists x, x ∈ l /\ seq x = a.

Lemma position_fresh a l e : ordered l -> position a l -> fresh l e -> a < seq e.
Proof. intros _ [->|(x & Hx & <-)] [H Hl]; [done|by apply Hl]. Qed.

(** The answer's events complete what was seen up to its moment. *)
Lemma seen_answer a l0 l1 : ordered (l0 ++ l1) -> position a (l0 ++ l1) ->
  let b := last_seen a (newer a l0) in
  position b (l0 ++ l1) /\ seen a (l0 ++ l1) ++ newer a l0 = seen b (l0 ++ l1) /\ (l1 = [] -> seen b (l0 ++ l1) = l0).
Proof.
  intros Ho Hp b. assert (Ho0 : ordered l0).
  { destruct Ho as [Hs Hf]. split; [|by apply Forall_app in Hf as [? _]].
    clear Hp Hf b. induction l0 as [|x l0 IH]; [constructor|]. apply StronglySorted_inv in Hs as [Hs Hf].
    constructor; [by apply IH|by apply Forall_app in Hf as [? _]]. }
  unfold b, last_seen. destruct (last (newer a l0)) as [e|] eqn:E.
  - assert (He : e ∈ newer a l0) by (apply last_Some in E as [l ->]; set_solver).
    pose proof He as He'. unfold newer in He'. apply elem_of_keep in He' as [Hin Hlt]. apply Z.ltb_lt in Hlt.
    assert (Hall : forall x, x ∈ l0 -> seq x <= seq e).
    { intros x Hx. destruct (decide (seq x <= a)) as [|Hn]; [lia|]. assert (Hx' : x ∈ newer a l0) by (apply elem_of_keep; split; [done|lia]).
      apply last_Some in E as [l' E']. pose proof (seen_newer a l0 Ho0) as Hl. rewrite E', app_assoc in Hl. rewrite <- Hl in Ho0.
      rewrite E' in Hx'. apply elem_of_app in Hx' as [Hx'|Hx']; [|apply list_elem_of_singleton in Hx' as ->; lia].
      assert (seq x < seq e); [|lia]. apply (ordered_app _ _ x e Ho0); [|by left]. apply elem_of_app. by right. }
    assert (Hl1 : forall x, x ∈ l1 -> seq e < seq x) by (intros x Hx; by apply (ordered_app _ _ e x Ho)).
    split; [right; exists e; split; [apply elem_of_app; by left|done]|].
    rewrite (seen_app (seq e)) by done. rewrite (seen_app a) by (intros x Hx; specialize (Hl1 x Hx); lia).
    rewrite (seen_newer a l0 Ho0). unfold seen. rewrite keep_all by (intros x Hx; specialize (Hall x Hx); lia). done.
  - apply last_None in E. split; [done|]. rewrite E, app_nil_r. split; [done|]. intros ->. rewrite app_nil_r.
    pose proof (seen_newer a l0 Ho0) as Hl. by rewrite E, app_nil_r in Hl.
Qed.

(** ** Careful pages *)

Definition settled (p : poller) : Prop := phase p = Pausing \/ phase p = Returned.

(** A render follows a new run, and only when no answer is awaited. *)
Definition calm (id : option string) (s : page) : Prop :=
  id = runId s \/ forall p, p ∈ pollers s -> settled p /\ id <> Some (poll_run p).

Inductive careful : page * installer -> page * installer -> Prop :=
| CarefulRender id s i : calm id s -> careful (s, i) (render id s, i)
| CarefulOther w w' : step w w' -> runId w'.1 = runId w.1 -> careful w w'.

Definition carefully_reachable (w : page * installer) : Prop := rtc careful (new_page, no_installs) w.

(** What is known of the poller of the run being followed. *)
Record follows (r : Run) (i : installer) (p : poller) : Prop := {
  fo_position : position (after p) (log i (poll_run p));
  fo_events : if opt_eqb (run_id r) (poll_run p) then run_events r = seen (after p) (log i (poll_run p)) else after p = 0;
  fo_answer : forall c, phase p = Answered c -> exists l0 l1, log i (poll_run p) = l0 ++ l1 /\ is_events c = newer (after p) l0 /\
    (is_state c <> Running -> l1 = [] /\ is_state c = result i (poll_run p));
  fo_returned : phase p = Returned -> run_id r = Some (poll_run p) /\ run_events r = log i (poll_run p) /\
    exists c, run_status r = Some c /\ is_state c = result i (poll_run p) /\ is_state c <> Running
}.

Record tracked (w : page * installer) : Prop := {
  tr_ordered : forall id, ordered (log w.2 id);
  tr_current : forall k, effect w.1 = Some k -> exists p, pollers w.1 !! k = Some p /\ stopped p = false /\
    runId w.1 = Some (poll_run p) /\ truthy (poll_run p) = true /\ follows (run w.1) w.2 p;
  tr_idle : effect w.1 = None -> truthy_opt (runId w.1) = None;
  tr_others : forall k p, pollers w.1 !! k = Some p -> effect w.1 <> Some k -> stopped p = true /\ settled p;
  tr_shown : forall id, run_id (run w.1) = Some id -> exists p, p ∈ pollers w.1 /\ poll_run p = id;
  tr_named : forall p, p ∈ pollers w.1 -> truthy (poll_run p) = true;
  tr_empty : run_id (run w.1) = None -> run w.1 = EMPTY
}.

Lemma tracked_initial : tracked (new_page, no_installs).
Proof. split; simpl; try done; [intros id; split; constructor|by intros p ?%elem_of_nil]. Qed.

Lemma log_grows r i p id e : ordered (log i (poll_run p)) -> result i id = Running -> fresh (log i id) e ->
  follows r i p -> follows r (log_event id e i) p.
Proof.
  intros Ho Hr Hf [F1 F2 F3 F4]. split; simpl; unfold update in *; case_bool_decide as E; subst; try done.
  - destruct F1 as [->|(x & Hx & <-)]; [by left|]. right. exists x. split; [apply elem_of_app; by left|done].
  - destruct (opt_eqb _ _); [|done]. rewrite F2. symmetry. apply seen_app. intros x ->%list_elem_of_singleton.
    by apply (position_fresh _ (log i (poll_run p))).
  - intros c Hc. destruct (F3 c Hc) as (l0 & l1 & El & Ec & Hd). exists l0, (l1 ++ [e]). split; [by rewrite El, app_assoc|].
    split; [done|]. intros Hs. destruct (Hd Hs) as [_ ?]. congruence.
  - intros Hp. destruct (F4 Hp) as (_ & _ & c & _ & ? & ?). congruence.
Qed.

Lemma end_keeps r i p id x : result i id = Running -> follows r i p -> follows r (end_run id x i) p.
Proof.
  intros Hr [F1 F2 F3 F4]. split; simpl; unfold update; try done.
  - intros c Hc. destruct (F3 c Hc) as (l0 & l1 & El & Ec & Hd). exists l0, l1. split; [done|]. split; [done|]. intros Hs.
    destruct (Hd Hs) as [? ?]. split; [done|]. case_bool_decide; [congruence|done].
  - intros Hp. destruct (F4 Hp) as (? & ? & c & ? & ? & ?). split; [done|]. split; [done|]. exists c. split; [done|].
    split; [|done]. case_bool_decide; [congruence|done].
Qed.

(** A step of the poller of the run being followed. *)
Lemma tracked_current s i k p p' r : tracked (s, i) -> effect s = Some k -> pollers s !! k = Some p ->
  poll_run p' = poll_run p -> stopped p' = stopped p -> (r = run s \/ run_id r = Some (poll_run p)) -> follows r i p' ->
  tracked (with_run r (with_pollers (<[k := p']> (pollers s)) s), i).
Proof.
  intros [T1 T2 T3 T4 T5 T6 T7] He Hk Hp Hs Hr Hf. simpl in *. pose proof (lookup_lt_Some _ _ _ Hk) as Hlt.
  split; simpl; try done.
  - intros k'. rewrite He. intros [= <-]. exists p'. rewrite list_lookup_insert_eq by done. destruct (T2 k He) as (q & Hq & ? & ? & ? & _).
    assert (q = p) by congruence. subst q. rewrite Hp, Hs. auto.
  - intros k' q Hq Hn. rewrite list_lookup_insert_ne in Hq by congruence. by apply (T4 k').
  - intros id Hid. assert (Hex : exists q, q ∈ pollers s /\ poll_run q = id).
    { destruct Hr as [Hr|Hr]; [apply T5; congruence|]. exists p. split; [by apply list_elem_of_lookup_2 in Hk|congruence]. }
    destruct Hex as (q & Hq & <-). apply list_elem_of_lookup in Hq as [k' Hq]. destruct (decide (k' = k)) as [->|Hne].
    + exists p'. split; [|congruence]. apply (list_elem_of_lookup_2 _ k). by apply list_lookup_insert_eq.
    + exists q. split; [|done]. apply (list_elem_of_lookup_2 _ k'). by rewrite list_lookup_insert_ne.
  - intros q Hq. apply list_elem_of_lookup in Hq as [k' Hq]. destruct (decide (k' = k)) as [->|Hne].
    + rewrite list_lookup_insert_eq in Hq by done. injection Hq as <-. rewrite Hp. apply T6. by apply list_elem_of_lookup_2 in Hk.
    + rewrite list_lookup_insert_ne in Hq by done. apply T6. by apply list_elem_of_lookup_2 in Hq.
  - destruct Hr as [->|Hr]; [done|congruence].
Qed.

Lemma current_of s i k p : tracked (s, i) -> pollers s !! k = Some p -> ~ settled p -> effect s = Some k.
Proof. intros T Hk Hn. destruct (decide (effect s = Some k)); [done|]. by destruct (tr_others _ T k p Hk n). Qed.

(** The poller of the run being followed. *)
Lemma current_follows s i k p : tracked (s, i) -> effect s = Some k -> pollers s !! k = Some p ->
  stopped p = false /\ runId s = Some (poll_run p) /\ follows (run s) i p.
Proof. intros T He Hk. destruct (tr_current _ T k He) as (q & Hq & ? & ? & _ & ?). simpl in *. by assert (q = p) as -> by congruence. Qed.

Lemma with_same_run s l : with_run (run s) (with_pollers l s) = with_pollers l s.
Proof. by destruct s. Qed.

Lemma tracked_deliver k s i : tracked (s, i) -> tracked (deliver k s, i).
Proof.
  intros T. unfold deliver. destruct (pollers s !! k) as [p|] eqn:Hk; [|done]. destruct (phase p) as [|c| |] eqn:Hp; try done.
  assert (He : effect s = Some k) by (apply (current_of s i k p); [done|done|intros [H|H]; congruence]).
  destruct (current_follows s i k p T He Hk) as (_ & _ & [F1 F2 F3 F4]).
  eapply tracked_current; try done; [by right|]. destruct (F3 c Hp) as (l0 & l1 & El & Ec & Hd).
  pose proof (tr_ordered _ T (poll_run p)) as Ho. simpl in Ho. rewrite El in Ho, F1.
  destruct (seen_answer (after p) l0 l1 Ho F1) as (H1 & H2 & H3).
  assert (Hev : (if opt_eqb (run_id (run s)) (poll_run p) then run_events (run s) else []) ++ is_events c
                = seen (last_seen (after p) (newer (after p) l0)) (l0 ++ l1)).
  { rewrite <- H2, Ec. f_equal. destruct (opt_eqb _ _); [by rewrite F2, El|]. symmetry. apply keep_none. intros x Hx. rewrite F2.
    destruct Ho as [_ Hf]. rewrite Forall_forall in Hf. specialize (Hf x Hx). lia. }
  rewrite <- Ec in *. split; cbn [received run_id run_events run_status poll_run after set_phase set_after].
  - by rewrite El.
  - simpl. rewrite str_eqb_refl. by rewrite El.
  - intros c'. simpl. by case_bool_decide.
  - simpl. case_bool_decide as Es; [done|]. intros _. destruct (Hd Es) as [-> Hres]. split; [done|]. split.
    + rewrite Hev, El, app_nil_r. rewrite app_nil_r in H3. by apply H3.
    + exists c. auto.
Qed.

Lemma tracked_render id s i : calm id s -> tracked (s, i) -> tracked (render id s, i).
Proof.
  intros Hc T. unfold render. case_bool_decide as Eq; [done|]. destruct Hc as [|Hc]; [done|].
  assert (Hst : forall k p, pollers (cleanup s) !! k = Some p -> stopped p = true /\ settled p /\ exists q, q ∈ pollers s /\ poll_run p = poll_run q).
  { intros k p. unfold cleanup. destruct (effect s) as [k0|] eqn:He; simpl.
    - destruct (decide (k0 = k)) as [->|Hn]; [rewrite list_lookup_alter_eq|rewrite list_lookup_alter_ne by done].
      + destruct (pollers s !! k) as [q|] eqn:Hq; [|done]. simpl. intros [= <-]. apply list_elem_of_lookup_2 in Hq as Hin.
        destruct (Hc q Hin) as [Hset _]. split; [done|]. split; [done|]. by exists q.
      + intros Hp. apply list_elem_of_lookup_2 in Hp as Hin. destruct (tr_others _ T k p Hp) as [? ?]; [simpl; congruence|]. eauto.
    - intros Hp. apply list_elem_of_lookup_2 in Hp as Hin. destruct (tr_others _ T k p Hp) as [? ?]; [simpl; congruence|]. eauto. }
  assert (Hru : forall q, q ∈ pollers s -> exists p, p ∈ pollers (cleanup s) /\ poll_run p = poll_run q).
  { intros q Hq. unfold cleanup. destruct (effect s) as [k0|]; [|eauto]. simpl. apply list_elem_of_lookup in Hq as [k Hq].
    destruct (decide (k0 = k)) as [->|Hn].
    - exists (stop q). split; [|done]. apply (list_elem_of_lookup_2 _ k). by rewrite list_lookup_alter_eq, Hq.
    - exists q. split; [|done]. apply (list_elem_of_lookup_2 _ k). by rewrite list_lookup_alter_ne. }
  assert (Hrun : run (cleanup s) = run s) by (unfold cleanup; by destruct (effect s)).
  assert (Hna : forall p, p ∈ pollers (cleanup s) -> truthy (poll_run p) = true).
  { intros p Hp. apply list_elem_of_lookup in Hp as [k Hp]. destruct (Hst k p Hp) as (_ & _ & q & Hq & ->). by apply (tr_named _ T). }
  unfold start_effect. destruct (truthy_opt id) as [r|] eqn:Hid.
  - apply truthy_opt_Some in Hid as [-> Hne]. split; simpl; rewrite ?Hrun; try done.
    + apply T.
    + intros k [= <-]. eexists. rewrite list_lookup_middle by done. split; [done|]. split; [done|]. split; [done|].
      split; [by apply truthy_nonempty|]. split; simpl; try done; [by left|].
      destruct (opt_eqb (run_id (run s)) r) eqn:E; [|done]. exfalso. destruct (run_id (run s)) as [r'|] eqn:Er; [|done].
      simpl in E. apply str_eqb_eq in E as ->. destruct (tr_shown _ T r Er) as (q & Hq & Hrq). destruct (Hc q Hq) as [_ Hx]. by rewrite Hrq in Hx.
    + intros k p Hk Hn. apply lookup_app_Some in Hk as [Hk|[Hk1 Hk]]; [by destruct (Hst k p Hk) as (? & ? & _)|].
      apply list_lookup_singleton_Some in Hk as [Hk _]. exfalso. apply Hn. f_equal. lia.
    + intros id Hi. destruct (tr_shown _ T id Hi) as (q & Hq & <-). destruct (Hru q Hq) as (p & Hp & <-). exists p.
      split; [apply elem_of_app; by left|done].
    + intros p [Hp|Hp]%elem_of_app; [by apply Hna|]. apply list_elem_of_singleton in Hp as ->. by apply truthy_nonempty.
    + apply T.
  - split; simpl; rewrite ?Hrun; try done.
    + apply T.
    + intros k p Hk _. by destruct (Hst k p Hk) as (? & ? & _).
    + intros id' Hi. destruct (tr_shown _ T id' Hi) as (q & Hq & <-). by apply Hru.
    + apply T.
Qed.

Lemma tracked_world s i i' : tracked (s, i) -> (forall id, ordered (log i' id)) ->
  (forall k p, pollers s !! k = Some p -> follows (run s) i p -> follows (run s) i' p) -> tracked (s, i').
Proof.
  intros [T1 T2 T3 T4 T5 T6 T7] Ho Hf. split; simpl in *; try done. intros k He. destruct (T2 k He) as (p & Hp & ? & ? & ? & ?).
  exists p. repeat split; try done; by apply (Hf k).
Qed.

Lemma set_phase_follows r i p f : follows r i p -> (forall c, f <> Answered c) -> f <> Returned -> follows r i (set_phase f p).
Proof. intros [F1 F2 F3 F4] H1 H2. split; simpl; try done. intros c E. by destruct (H1 c). Qed.

Lemma tracked_careful w w' : careful w w' -> tracked w -> tracked w'.
Proof.
  intros [id s i Hc|[s0 i0] [s0' i0'] Hs Hr] T; [by apply tracked_render|].
  inversion Hs as [id e s i Hres Hf|id r s i Hres|id s i|k p c s i Hk Hp Hg|k s i|k p s i Hk Hp|k p s i Hk Hp]; subst; simpl in *.
  - apply (tracked_world s0' i0); [done| |].
    + intros x. simpl. unfold update. case_bool_decide; subst; [apply ordered_snoc; [apply T|done]|apply T].
    + intros k p _. apply log_grows; [apply T|done|done].
  - apply (tracked_world s0' i0); [done|apply T|]. intros k p _. by apply end_keeps.
  - apply tracked_render; [|done]. left. unfold render in Hr. case_bool_decide; [done|].
    unfold start_effect in Hr. by destruct (truthy_opt id).
  - assert (He : effect s0 = Some k) by (apply (current_of s0 i0' k p); [done|done|intros [H|H]; congruence]).
    destruct (current_follows _ _ k p T He Hk) as (_ & _ & Hf). rewrite <- with_same_run.
    eapply tracked_current; try done; [by left|]. destruct Hf as [F1 F2 F3 F4]. split; simpl; try done.
    intros c' [= <-]. destruct Hg as [Ec Hst]. exists (log i0' (poll_run p)), []. split; [by rewrite app_nil_r|]. split; [done|].
    intros Hn. split; [done|]. by destruct Hst.
  - by apply tracked_deliver.
  - assert (He : effect s0 = Some k) by (apply (current_of s0 i0' k p); [done|done|intros [H|H]; congruence]).
    destruct (current_follows _ _ k p T He Hk) as (_ & _ & Hf). unfold fail_poll. rewrite <- with_same_run.
    rewrite (list_alter_some _ _ _ _ Hk). eapply tracked_current; try done; [by left|]. by apply set_phase_follows.
  - unfold wake. rewrite (list_alter_some _ _ _ _ Hk). destruct (decide (effect s0 = Some k)) as [He|He].
    + destruct (current_follows _ _ k p T He Hk) as (Hst & _ & Hf). unfold poll. rewrite Hst, <- with_same_run.
      eapply tracked_current; try done; [by left|]. by apply set_phase_follows.
    + destruct (tr_others _ T k p Hk He) as [Hst _]. destruct T as [T1 T2 T3 T4 T5 T6 T7]. simpl in *. unfold poll. rewrite Hst.
      pose proof (lookup_lt_Some _ _ _ Hk) as Hlt. split; simpl; try done.
      * intros k' He'. destruct (T2 k' He') as (q & Hq & ?). exists q. rewrite list_lookup_insert_ne by congruence. done.
      * intros k' q Hq Hn. destruct (decide (k' = k)) as [->|Hk']; [|rewrite list_lookup_insert_ne in Hq by done; by apply (T4 k')].
        rewrite list_lookup_insert_eq in Hq by done. injection Hq as <-. split; [done|by right].
      * intros id Hi. destruct (T5 id Hi) as (q & Hq & <-). apply list_elem_of_lookup in Hq as [k' Hq].
        destruct (decide (k' = k)) as [->|Hk'].
        -- exists (set_phase Returned p). split; [|simpl; congruence]. apply (list_elem_of_lookup_2 _ k). by apply list_lookup_insert_eq.
        -- exists q. split; [|done]. apply (list_elem_of_lookup_2 _ k'). by rewrite list_lookup_insert_ne.
      * intros q Hq. apply list_elem_of_lookup in Hq as [k' Hq]. destruct (decide (k' = k)) as [->|Hk'].
        -- rewrite list_lookup_insert_eq in Hq by done. injection Hq as <-. apply (T6 p). by apply list_elem_of_lookup_2 in Hk.
        -- rewrite list_lookup_insert_ne in Hq by done. apply T6. by apply list_elem_of_lookup_2 in Hq.
Qed.

Lemma tracked_reachable w : carefully_reachable w -> tracked w.
Proof.
  intros H. assert (Hi : forall v, rtc careful v w -> tracked v -> tracked w); [|by apply (Hi _ H), tracked_initial].
  clear H. induction 1 as [|v v' w Hs _ IH]; [done|]. intros T. by apply IH, (tracked_careful v).
Qed.

(** What is shown is nothing, or the state of the run being followed. *)
Lemma shown_of s i : tracked (s, i) -> useInstallRun s = EMPTY \/
  exists k p, effect s = Some k /\ pollers s !! k = Some p /\ runId s = Some (poll_run p) /\ useInstallRun s = run s /\
    run_id (run s) = Some (poll_run p) /\ follows (run s) i p.
Proof.
  intros T. unfold useInstallRun. case_bool_decide as E; [|by left].
  destruct (effect s) as [k|] eqn:He.
  - destruct (tr_current _ T k He) as (p & Hp & _ & Hr & _ & Hf). simpl in *. right. exists k, p. by rewrite E.
  - left. pose proof (tr_idle _ T He) as Hi. simpl in Hi. rewrite <- E in Hi. destruct (run_id (run s)) as [id|] eqn:Er.
    + destruct (tr_shown _ T id Er) as (p & Hp & Hn). pose proof (tr_named _ T p Hp) as Ht. rewrite Hn in Ht. simpl in Hi. by rewrite Ht in Hi.
    + by apply (tr_empty _ T).
Qed.

(** ** The end is reached *)

Lemma careful_step w w' : careful w w' -> step w w'.
Proof. intros [id s i _|v v' H _]; [apply Renders|done]. Qed.

Definition returned_at (k : nat) (id : string) (w : page * installer) : Prop :=
  effect w.1 = Some k /\ exists p, pollers w.1 !! k = Some p /\ poll_run p = id /\ phase p = Returned.

(** The installer answers, an answer is delivered, a timer runs; nothing else:
    no render, no event logged, no failed request. *)
Inductive attends (i : installer) : page -> page -> Prop :=
| AttendAnswer k p current s : pollers s !! k = Some p -> phase p = Asking -> getInstall i (poll_run p) (after p) current ->
    attends i s (with_pollers (<[k := set_phase (Answered current) p]> (pollers s)) s)
| AttendDeliver k s : attends i s (deliver k s)
| AttendTimer k p s : pollers s !! k = Some p -> phase p = Pausing -> attends i s (wake k s).

Lemma attends_careful i s s' : attends i s s' -> careful (s, i) (s', i).
Proof.
  intros [k p c t Hk Hp Hg|k t|k p t Hk Hp]; apply CarefulOther; try done.
  - by apply (Answers k p c).
  - apply Delivers.
  - unfold deliver. by repeat case_match.
  - by apply (Wakes k p).
Qed.

Lemma attends_tracked i s s' : rtc (attends i) s s' -> tracked (s, i) -> tracked (s', i).
Proof. induction 1 as [|s t s' H _ IH]; [done|]. intros T. by apply IH, (tracked_careful (s, i)), T; apply attends_careful. Qed.

Section finish.
Context (k : nat) (i : installer) (id : string) (Hend : result i id <> Running).

Lemma asking_ends s p : tracked (s, i) -> effect s = Some k -> pollers s !! k = Some p -> poll_run p = id -> phase p = Asking ->
  exists s', rtc (attends i) s s' /\ returned_at k id (s', i).
Proof.
  intros T He Hk Hid Hp. pose proof (lookup_lt_Some _ _ _ Hk) as Hlt.
  set (c := {| is_id := id; is_name := EmptyString; is_target := EmptyString; is_state := result i id; is_connection_id := None;
               is_events := newer (after p) (log i id); store_connection := None |}).
  eexists. split.
  - eapply rtc_l; [apply (AttendAnswer i k p c); [done|done|]|apply rtc_once, (AttendDeliver i k)].
    rewrite Hid. split; [done|by right].
  - unfold deliver. simpl. rewrite list_lookup_insert_eq by done. simpl. rewrite bool_decide_eq_false_2 by done.
    split; [done|]. simpl. eexists. rewrite list_insert_insert_eq, list_lookup_insert_eq by done. done.
Qed.

Lemma pausing_ends s p : tracked (s, i) -> effect s = Some k -> pollers s !! k = Some p -> poll_run p = id -> phase p = Pausing ->
  exists s', rtc (attends i) s s' /\ returned_at k id (s', i).
Proof.
  intros T He Hk Hid Hp. pose proof (lookup_lt_Some _ _ _ Hk) as Hlt.
  assert (Hs : attends i s (wake k s)) by by apply (AttendTimer i k p).
  destruct (current_follows _ _ _ _ T He Hk) as (Hst & _ & _).
  destruct (asking_ends (wake k s) (poll p)) as (s' & H1 & H2).
  - by apply (tracked_careful (s, i)), T; apply attends_careful.
  - done.
  - unfold wake. simpl. by rewrite list_lookup_alter_eq, Hk.
  - done.
  - unfold poll. by rewrite Hst.
  - exists s'. split; [by eapply rtc_l|done].
Qed.

Lemma run_ends s p : tracked (s, i) -> effect s = Some k -> pollers s !! k = Some p -> poll_run p = id ->
  exists s', rtc (attends i) s s' /\ returned_at k id (s', i).
Proof.
  intros T He Hk Hid. destruct (phase p) as [|c| |] eqn:Hp.
  - by apply (asking_ends s p).
  - assert (Hs : attends i s (deliver k s)) by apply AttendDeliver.
    pose proof (lookup_lt_Some _ _ _ Hk) as Hlt. pose proof (tracked_careful _ _ (attends_careful _ _ _ Hs) T) as T'.
    assert (Hd : effect (deliver k s) = Some k /\ exists p', pollers (deliver k s) !! k = Some p' /\ poll_run p' = id /\
      (phase p' = Pausing \/ phase p' = Returned)).
    { unfold deliver. rewrite Hk, Hp. split; [done|]. simpl. eexists. rewrite list_lookup_insert_eq by done. split; [done|].
      split; [done|]. simpl. case_bool_decide; auto. }
    destruct Hd as (He' & p' & Hk' & Hid' & [Hp'|Hp']).
    + destruct (pausing_ends _ p' T' He' Hk' Hid' Hp') as (s' & H1 & H2). exists s'. split; [by eapply rtc_l|done].
    + exists (deliver k s). split; [by apply rtc_once|]. split; [done|]. by exists p'.
  - by apply (pausing_ends s p).
  - exists s. split; [apply rtc_refl|]. split; [done|]. by exists p.
Qed.
End finish.

Lemma returned_shows s i k id : tracked (s, i) -> returned_at k id (s, i) -> runId s = Some id /\
  run_events (useInstallRun s) = log i id /\ exists c, run_status (useInstallRun s) = Some c /\ is_state c = result i id.
Proof.
  intros T (He & p & Hk & <- & Hp). destruct (current_follows _ _ _ _ T He Hk) as (_ & Hr & Hf).
  destruct (fo_returned _ _ _ Hf Hp) as (H1 & H2 & c & H3 & H4 & _). split; [done|].
  unfold useInstallRun. rewrite bool_decide_eq_true_2 by congruence. eauto.
Qed.

(** ** Properties *)

(** C10. If the page turns to another run only while no answer is awaited, and
    never to a run it has followed before, then the events shown of a run are a
    first part of the installer's log, in order and without gaps or repetitions,
    whatever the pace of the polls, the requests that fail and the events logged
    meanwhile; and once the hook has stopped polling they are the whole log, with
    the run's result. Without the first condition events are lost
    ([late_answer_loses_events]), without the second they are repeated
    ([followed_again_repeats_events]). *)
Theorem events_carry_on s i id : carefully_reachable (s, i) -> runId s = Some id ->
  run_events (useInstallRun s) `prefix_of` log i id /\
  (forall k, returned_at k id (s, i) ->
    run_events (useInstallRun s) = log i id /\ exists c, run_status (useInstallRun s) = Some c /\ is_state c = result i id).
Proof.
  intros T%tracked_reachable Hr. split; [|by intros k [_ H]%returned_shows].
  destruct (shown_of s i T) as [->|(k & p & _ & _ & Hr' & -> & Hid & Hf)]; [apply prefix_nil|].
  assert (poll_run p = id) as <- by congruence. pose proof (fo_events _ _ _ Hf) as He. rewrite Hid in He. simpl in He.
  rewrite str_eqb_refl in He. rewrite He. apply seen_prefix, (tr_ordered _ T).
Qed.

(** C39. Once a run has ended the hook can always get to its end: if the page
    turns to another run only while no answer is awaited, and never to a run it
    has followed before, then from every state in which the run is followed there
    is a way of answers, their deliveries and timers alone to the whole log and
    the result being shown. *)
Theorem followed_to_the_end s i id : carefully_reachable (s, i) -> runId s = Some id -> truthy id = true -> result i id <> Running ->
  exists s', rtc (attends i) s s' /\ runId s' = Some id /\ run_events (useInstallRun s') = log i id /\
    exists c, run_status (useInstallRun s') = Some c /\ is_state c = result i id.
Proof.
  intros T%tracked_reachable Hr Ht Hend. destruct (effect s) as [k|] eqn:He.
  - destruct (tr_current _ T k He) as (p & Hk & _ & Hr' & _). simpl in *. assert (Hid : poll_run p = id) by congruence.
    destruct (run_ends k i id Hend s p T He Hk Hid) as (s' & H1 & H2). exists s'.
    split; [done|]. apply (returned_shows s' i k); [|done]. by apply (attends_tracked i s).
  - pose proof (tr_idle _ T He) as Hi. simpl in Hi. rewrite Hr in Hi. simpl in Hi. by rewrite Ht in Hi.
Qed.

(** ** Concrete runs *)

Definition event (n : Z) : InstallEvent := {| seq := n; at_time := #0; ev_kind := KindStep; ev_message := "step" |}.
Definition answer (id : string) (st : run_state) (l : list InstallEvent) : InstallStatus :=
  {| is_id := id; is_name := "install"; is_target := "host"; is_state := st; is_connection_id := None; is_events := l; store_connection := None |}.

(** A step of an effect given by its result. *)
Lemma step_by w w' w'' : step w w' -> w' = w'' -> step w w''.
Proof. by intros ? <-. Qed.

Tactic Notation "steps_by" uconstr(s) := eapply rtc_l; [eapply s|simpl].

(** One event logged and shown, the run ended. *)
Definition demo_log : installer := end_run "a" Succeeded (log_event "a" (event 1) no_installs).
Definition demo_page : page := render (Some "a") new_page.
Definition demo_answered : page := with_pollers [set_phase (Answered (answer "a" Running [event 1])) {| poll_run := "a"; after := 0; stopped := false; phase := Asking |}] demo_page.

Lemma fresh_1 : fresh [] (event 1).
Proof. split; [done|]. by intros x ?%elem_of_nil. Qed.

Lemma demo_carefully : carefully_reachable (deliver 0 demo_answered, demo_log).
Proof.
  eapply rtc_l; [apply CarefulOther; [by apply (Logs "a" (event 1)), fresh_1|done]|].
  eapply rtc_l; [apply CarefulOther; [by apply (Ends "a" Succeeded)|done]|].
  eapply rtc_l; [apply (CarefulRender (Some "a")); right; by intros p ?%elem_of_nil|].
  eapply rtc_l; [apply CarefulOther; [eapply (Answers 0 _ (answer "a" Running [event 1])); [reflexivity|reflexivity|]|done]|].
  - split; [reflexivity|by left].
  - apply rtc_once, CarefulOther; [apply (Delivers 0)|done].
Qed.

Lemma events_carry_on_witness : run_events (useInstallRun (deliver 0 demo_answered)) = [event 1] /\
  [event 1] `prefix_of` log demo_log "a".
Proof.
  split; [reflexivity|].
  apply (events_carry_on (deliver 0 demo_answered) demo_log "a" demo_carefully). reflexivity.
Defined.

Lemma followed_to_the_end_witness : exists s', rtc (attends demo_log) (deliver 0 demo_answered) s' /\
  run_events (useInstallRun s') = [event 1].
Proof.
  destruct (followed_to_the_end (deliver 0 demo_answered) demo_log "a" demo_carefully) as (s' & H1 & _ & H2 & _); [reflexivity|reflexivity|discriminate|].
  exists s'. split; [exact H1|exact H2].
Defined.

(** ** What the conditions are for *)

Definition phase_of (s : page) (k : nat) : option poll_phase := phase <$> pollers s !! k.

(** An answer that arrives after another run is followed replaces what is
    shown, and the other run's next answer starts from no events: the run is
    over, the hook has stopped polling, and its first event is not shown and never
    will be. The comment says that a slow poll loses nothing. *)
Theorem late_answer_loses_events : exists s i, reachable (s, i) /\ runId s = Some "b" /\ phase_of s 1 = Some Returned /\
  result i "b" = Succeeded /\ log i "b" = [event 1; event 2] /\ run_events (useInstallRun s) = [event 2].
Proof.
  do 2 eexists. split.
  - steps_by (Logs "b" (event 1)); [done|apply fresh_1|].
    steps_by (Renders (Some "a")).
    steps_by (Answers 0 _ (answer "a" Running [])); [done|done|by split; [|left]|].
    steps_by (Renders (Some "b")).
    steps_by (Answers 1 _ (answer "b" Running [event 1])); [done|done|by split; [|left]|].
    steps_by (Delivers 1). steps_by (Delivers 0).
    steps_by (Logs "b" (event 2)); [done|split; [done|]; by intros x ->%list_elem_of_singleton|].
    steps_by (Ends "b" Succeeded); [done|].
    steps_by (Wakes 1); [done|done|].
    steps_by (Answers 1 _ (answer "b" Succeeded [event 2])); [done|done|by split; [|right]|].
    steps_by (Delivers 1). apply rtc_refl.
  - vm_compute. done.
Qed.

(** A run that is followed again is asked for from its start, but the events
    shown before are kept: they are all shown twice. *)
Theorem followed_again_repeats_events : exists s i, reachable (s, i) /\ log i "a" = [event 1] /\
  run_events (useInstallRun s) = [event 1; event 1].
Proof.
  do 2 eexists. split.
  - steps_by (Logs "a" (event 1)); [done|apply fresh_1|].
    steps_by (Renders (Some "a")).
    steps_by (Answers 0 _ (answer "a" Running [event 1])); [done|done|by split; [|left]|].
    steps_by (Delivers 0). steps_by (Renders None). steps_by (Renders (Some "a")).
    steps_by (Answers 1 _ (answer "a" Running [event 1])); [done|done|by split; [|left]|].
    steps_by (Delivers 1). apply rtc_refl.
  - vm_compute. done.
Qed.
