(* ===== verification/PluginClient.v ===== *)
(** * Calls of plugins on their backend ([features/plugins/lib/pluginClient.ts])

    A plugin's calls carry a token of its own. The module keeps the tokens and the
    requests for tokens that are under way, both by backend and plugin. An
    asynchronous function is cut at its [await]s: a request for a token is sent,
    answered ([then]) and finished ([finally]); a call waits for its token, then
    for the backend's response. Everything else may happen in between, also the
    page leaving for another backend. Times are milliseconds, in [Z].

    At most one request for a token is under way for a backend and plugin; a
    token is only sent to the backend it was issued by and for the plugin it was
    issued for, provided the calls under way are aborted before the page leaves; and forgetting a plugin's token
    removes it on every backend, but a request under way brings it back. *)

From Stdlib Require Import Ascii ZArith Lia.
From stdpp Require Import base list strings option relations sets.
From S2P Require Import Prelude JsString JsNum JsValue JsUri HttpRouting PluginHost PluginHostSpec.

Record cached := { token : string; expires : Z }.

Inductive operation := Invoke | Jobs.
Definition operation_text (o : operation) : string := match o with Invoke => "invoke" | Jobs => "jobs" end.

(** A request for a token; its promise is settled when it is [Finished]. [rq_base] is the
    address of the backend it goes to, which the interceptor of [createHttpClient] reads
    as it is sent, and [rq_path] its path there. *)
Inductive request_state :=
| Sent
| Settling (result : string + string)
| Finished (result : string + string).

Record token_request := { rq_key : string; rq_base : string; rq_path : string; rq_state : request_state }.

(** What [await tokenFor(pluginId)] waits for. *)
Inductive awaited :=
| Known (result : string + string)
| Request (r : nat).

(** A call: waiting for its token, for the response, or settled. *)
Inductive call_state :=
| NeedsToken (t : awaited)
| Fetching
| Settled (result : string + option value).

Record call := {
  call_plugin : string;
  call_operation : operation;
  call_task : string;
  call_payload : fields;
  call_signal : nat;
  call_state_of : call_state
}.

(** A request sent to a backend, for the call at a place of [calls]. *)
Record fetched := { f_call : nat; f_url : string; f_token : string; f_body : value }.

Record client := {
  cl_page : Page;
  tokens : JMap.t cached;
  pendingTokens : JMap.t nat;
  requests : list token_request;
  calls : list call;
  fetches : list fetched;
  (* the signals that have fired *)
  cl_aborted : list nat
}.

Definition new_client (p : Page) : client :=
  {| cl_page := p; tokens := []; pendingTokens := []; requests := []; calls := []; fetches := []; cl_aborted := [] |}.

Definition set_page x c := {| cl_page := x; tokens := tokens c; pendingTokens := pendingTokens c; requests := requests c; calls := calls c;
  fetches := fetches c; cl_aborted := cl_aborted c |}.
Definition set_tokens x c := {| cl_page := cl_page c; tokens := x; pendingTokens := pendingTokens c; requests := requests c; calls := calls c;
  fetches := fetches c; cl_aborted := cl_aborted c |}.
Definition set_pendingTokens x c := {| cl_page := cl_page c; tokens := tokens c; pendingTokens := x; requests := requests c; calls := calls c;
  fetches := fetches c; cl_aborted := cl_aborted c |}.
Definition set_requests x c := {| cl_page := cl_page c; tokens := tokens c; pendingTokens := pendingTokens c; requests := x; calls := calls c;
  fetches := fetches c; cl_aborted := cl_aborted c |}.
Definition set_calls x c := {| cl_page := cl_page c; tokens := tokens c; pendingTokens := pendingTokens c; requests := requests c; calls := x;
  fetches := fetches c; cl_aborted := cl_aborted c |}.
Definition set_fetches x c := {| cl_page := cl_page c; tokens := tokens c; pendingTokens := pendingTokens c; requests := requests c; calls := calls c;
  fetches := x; cl_aborted := cl_aborted c |}.
Definition abort_all x c := {| cl_page := cl_page c; tokens := tokens c; pendingTokens := pendingTokens c; requests := requests c; calls := calls c;
  fetches := fetches c; cl_aborted := x ++ cl_aborted c |}.

(** The separator of a key, [\u0000]. *)
Definition NUL : ascii := ascii_of_nat 0.

(** [None]: [getActiveConnectionId] throws. *)
Definition tokenKey (p : Page) (pluginId : string) : option string :=
  (fun id => (id ?? EmptyString) +:+ String NUL pluginId) <$> getActiveConnectionId p.

Definition set_state st r := {| rq_key := rq_key r; rq_base := rq_base r; rq_path := rq_path r; rq_state := st |}.

(** Up to the promise it returns; [now] is [Date.now()]. *)
Definition tokenFor (pluginId : string) (now : Z) (c : client) : awaited * client :=
  match tokenKey (cl_page c) pluginId with
  | None => (Known (inl "URIError"), c)
  | Some key =>
      match (match JMap.get key (tokens c) with Some t => if expires t >? now then Some t else None | None => None end) with
      | Some t => (Known (inr (token t)), c)
      | None =>
          match JMap.get key (pendingTokens c) with
          | Some r => (Request r, c)
          | None =>
              let r := length (requests c) in
              let path := "/api/v1/plugins/" +:+ encodeURIComponent pluginId +:+ "/token" in
              let base := getApiBaseUrl (cl_page c) ?? EmptyString in
              let c := set_requests (requests c ++ [{| rq_key := key; rq_base := base; rq_path := path; rq_state := Sent |}]) c in
              (Request r, set_pendingTokens (JMap.set key r (pendingTokens c)) c)
          end
      end
  end.

(** [then]: the answer, with the token's lifetime in seconds, or a failure. *)
Definition answered (r : nat) (answer : string + string * Z) (now : Z) (c : client) : client :=
  match requests c !! r with
  | Some q =>
      match answer with
      | inr (tok, expires_in) =>
          let c := set_tokens (JMap.set (rq_key q) {| token := tok; expires := now + (expires_in - 30) * 1000 |} (tokens c)) c in
          set_requests (<[r := set_state (Settling (inr tok)) q]> (requests c)) c
      | inl e => set_requests (<[r := set_state (Settling (inl e)) q]> (requests c)) c
      end
  | None => c
  end.

(** [finally]: the promise is settled. *)
Definition finished (r : nat) (c : client) : client :=
  match requests c !! r with
  | Some q =>
      match rq_state q with
      | Settling result =>
          let c := set_pendingTokens (without (rq_key q) (pendingTokens c)) c in
          set_requests (<[r := set_state (Finished result) q]> (requests c)) c
      | _ => c
      end
  | None => c
  end.

Definition forgetPluginToken (pluginId : string) (c : client) : client :=
  set_tokens (keep (fun e => negb (ends_with e.1 (String NUL pluginId))) (tokens c)) c.

(** What is awaited is there. *)
Definition token_result (t : awaited) (c : client) : option (string + string) :=
  match t with
  | Known result => Some result
  | Request r => match rq_state <$> requests c !! r with Some (Finished result) => Some result | _ => None end
  end.

Definition set_call st k := {| call_plugin := call_plugin k; call_operation := call_operation k; call_task := call_task k;
  call_payload := call_payload k; call_signal := call_signal k; call_state_of := st |}.

(** [pluginTransport] up to its first [await]. *)
Definition pluginTransport (pluginId : string) (o : operation) (taskType : string) (payload : fields) (signal : nat) (now : Z) (c : client) : client :=
  let '(t, c) := tokenFor pluginId now c in
  set_calls (calls c ++ [{| call_plugin := pluginId; call_operation := o; call_task := taskType; call_payload := payload; call_signal := signal;
                            call_state_of := NeedsToken t |}]) c.

Definition is_aborted (k : call) (c : client) : bool := bool_decide (call_signal k ∈ cl_aborted c).

(** Once the token is there, up to the [fetch]. *)
Definition resume (n : nat) (c : client) : client :=
  let finish st := set_calls (alter (set_call st) n (calls c)) c in
  match calls c !! n with
  | Some k =>
      match call_state_of k with
      | NeedsToken t =>
          match token_result t c with
          | None => c
          | Some (inl e) => finish (Settled (inl e))
          | Some (inr tok) =>
              if is_aborted k c then finish (Settled (inl "AbortError"))
              else match getApiBaseUrl (cl_page c) with
                   | None => finish (Settled (inl "URIError"))
                   | Some base =>
                       let f := {| f_call := n;
                                   f_url := strip_last "/" base +:+ "/api/v1/plugins/runtime/" +:+ operation_text (call_operation k);
                                   f_token := tok;
                                   f_body := VObj [("task_type", VStr (call_task k)); ("payload", VObj (call_payload k))] |} in
                       set_fetches (fetches c ++ [f]) (finish Fetching)
                   end
          end
      | _ => c
      end
  | None => c
  end.

(** A response and its JSON body, if it is JSON; or a failed request. *)
Record response := { status : Z; body : option value }.

(** [response.ok] *)
Definition ok (r : response) : bool := (200 <=? status r) && (status r <=? 299).

(** [new Error(body.detail ?? ..)] *)
Definition failure (r : response) : string :=
  match body r with
  | Some VNull => "TypeError"
  | b => match val_nullish (get_field b "detail") None with
         | Some v => to_str v
         | None => "Plugin operation failed (" +:+ show_Z (status r) +:+ ")."
         end
  end.

(** The rest of [pluginTransport]. *)
Definition respond (n : nat) (r : string + response) (c : client) : client :=
  match calls c !! n with
  | Some k =>
      match call_state_of k with
      | Fetching =>
          let finish result c := set_calls (alter (set_call (Settled result)) n (calls c)) c in
          match r with
          | inl e => finish (inl e) c
          | inr r =>
              if ok r then
                finish (match body r with Some v => inr (Some v) | None => inl "SyntaxError" end) c
              else
                let c := if status r =? 401 then forgetPluginToken (call_plugin k) c else c in
                finish (inl (failure r)) c
          end
      | _ => c
      end
  | None => c
  end.

(** ** Steps

    [navigable p c] says when the page may leave for [p]. *)

Section steps.
Context (navigable : Page -> client -> Prop).

Inductive step : client -> client -> Prop :=
| Calls p o t l signal now c : step c (pluginTransport p o t l signal now c)
| Answers r q answer now c : requests c !! r = Some q -> rq_state q = Sent -> step c (answered r answer now c)
| Finishes r c : step c (finished r c)
| Resumes n c : step c (resume n c)
| Responds n r c : step c (respond n r c)
| Forgets p c : step c (forgetPluginToken p c)
| Aborts signals c : step c (abort_all signals c)
| Navigates p c : navigable p c -> step c (set_page p c).

Definition reachable (p : Page) (c : client) : Prop := rtc step (new_client p) c.
End steps.

(** * Properties of the plugins' calls *)

(** ** Keys *)

Lemma app_length_str s t : String.length (s +:+ t) = (String.length s + String.length t)%nat.
Proof. induction s as [|c s IH]; [done|]. simpl. by rewrite IH. Qed.

Lemma ends_with_iff s p : ends_with s p = true <-> exists a, s = a +:+ p.
Proof.
  unfold ends_with. rewrite andb_true_iff, Nat.leb_le, str_eqb_eq. split.
  - intros [Hl Hd]. exists (take_str (String.length s - String.length p) s). rewrite <- Hd at 2. clear.
    generalize (String.length s - String.length p)%nat as n. induction s as [|c s IH]; intros [|n]; try done. cbn [take_str drop_str]. change (String c s = String c (take_str n s +:+ drop_str n s)). by rewrite <- IH.
  - intros [a ->]. rewrite app_length_str. split; [lia|].
    replace (String.length a + String.length p - String.length p)%nat with (String.length a) by lia. apply drop_str_app.
Qed.

Lemma last_piece a a' q p : has_char NUL q = false -> has_char NUL p = false ->
  a +:+ String NUL q = a' +:+ String NUL p -> q = p.
Proof.
  intros Hq Hp. revert a'. induction a as [|c a IH]; intros [|c' a'] E; injection E as Hc.
  - done.
  - subst q. by rewrite has_char_app, orb_comm in Hq.
  - subst p. by rewrite has_char_app, orb_comm in Hp.
  - by apply (IH a').
Qed.

(** ** The invariant *)

Definition open_request (q : token_request) : Prop := forall x, rq_state q <> Finished x.
Definition gave (q : token_request) (tok : string) : Prop := rq_state q = Settling (inr tok) \/ rq_state q = Finished (inr tok).

(** The token was received for the backend and plugin of [key]. *)
Definition issued (c : client) (key tok : string) : Prop :=
  exists r q, requests c !! r = Some q /\ rq_key q = key /\ gave q tok.

(** What a call waits for is a token for [key]. *)
Definition awaits (c : client) (t : awaited) (key : string) : Prop :=
  match t with
  | Known (inr tok) => issued c key tok
  | Known (inl _) => True
  | Request r => exists q, requests c !! r = Some q /\ rq_key q = key
  end.

Definition failed (t : awaited) : Prop := exists e, t = Known (inl e).

(** The calls whose page was left are aborted. *)
Definition left_behind (p : Page) (c : client) : Prop :=
  forall k t, k ∈ calls c -> call_state_of k = NeedsToken t -> is_aborted k c = true.

(** Where a page is from; a page that stays loaded stays there. *)
Definition home (p : Page) : option string := origin <$> window p.

(** A page of the same origin is gone to, and what waits for a token was aborted. *)
Definition leaves (p : Page) (c : client) : Prop := left_behind p c /\ home p = home (cl_page c).

(** A request for a call's plugin, to the backend of a page [p], with a token for that
    plugin and page. *)
Definition at_home (c : client) (f : fetched) : Prop :=
  exists p k key base, home p = home (cl_page c) /\ calls c !! f_call f = Some k /\ tokenKey p (call_plugin k) = Some key /\
    getApiBaseUrl p = Some base /\ issued c key (f_token f) /\
    f_url f = strip_last "/" base +:+ "/api/v1/plugins/runtime/" +:+ operation_text (call_operation k).

Record requests_ok (c : client) : Prop := {
  ro_pending : forall key r, JMap.get key (pendingTokens c) = Some r <->
    exists q, requests c !! r = Some q /\ rq_key q = key /\ open_request q;
  ro_tokens : forall key t, JMap.get key (tokens c) = Some t -> issued c key (token t)
}.

Record calls_ok (c : client) : Prop := {
  ca_waiting : forall k t, k ∈ calls c -> call_state_of k = NeedsToken t -> is_aborted k c = true \/ failed t \/
    exists key, tokenKey (cl_page c) (call_plugin k) = Some key /\ awaits c t key;
  ca_fetches : forall f, f ∈ fetches c -> at_home c f
}.

(** The requests of one client went on in another. *)
Definition later (c c' : client) : Prop := forall r q, requests c !! r = Some q ->
  exists q', requests c' !! r = Some q' /\ rq_key q' = rq_key q /\ forall tok, gave q tok -> gave q' tok.

Lemma requests_refl c : later c c.
Proof. intros r q H. by exists q. Qed.

Lemma issued_later c c' key tok : later c c' -> issued c key tok -> issued c' key tok.
Proof. intros H (r & q & Hr & <- & Hg). destruct (H r q Hr) as (q' & Hr' & Hk & Hg'). exists r, q'. auto. Qed.

Lemma awaits_later c c' t key : later c c' -> awaits c t key -> awaits c' t key.
Proof.
  intros H. destruct t as [[e|tok]|r]; simpl; [done|by apply issued_later|].
  intros (q & Hq & <-). destruct (H r q Hq) as (q' & ? & ? & _). by exists q'.
Qed.

Lemma at_home_later c c' f : later c c' -> cl_page c' = cl_page c -> calls c' = calls c -> at_home c f -> at_home c' f.
Proof.
  intros H Ep Ec (p & k & key & base & ? & ? & ? & ? & ? & ?). exists p, k, key, base. rewrite Ep, Ec.
  split_and!; try done. by apply (issued_later c).
Qed.

(** A call going on leaves the requests of all calls where they are. *)
Lemma at_home_advance c n st f : at_home c f -> at_home (set_calls (alter (set_call st) n (calls c)) c) f.
Proof.
  intros (p & k & key & base & ? & Hk & ? & ? & ? & ?). destruct (decide (n = f_call f)) as [->|Hn].
  - exists p, (set_call st k), key, base. cbn [calls set_calls cl_page]. rewrite list_lookup_alter_eq, Hk. done.
  - exists p, k, key, base. cbn [calls set_calls cl_page]. by rewrite list_lookup_alter_ne.
Qed.

(** A request that goes on, with its key. *)
Lemma later_set c r q st : requests c !! r = Some q -> (forall tok, gave q tok -> st = Settling (inr tok) \/ st = Finished (inr tok)) ->
  forall c', requests c' = <[r := set_state st q]> (requests c) -> later c c'.
Proof.
  intros Hr Hg c' E r' q' Hr'. rewrite E. destruct (decide (r = r')) as [<-|Hn].
  - rewrite list_lookup_insert_eq by by eapply lookup_lt_Some. assert (q' = q) as -> by congruence.
    exists (set_state st q). split; [done|]. split; [done|]. apply Hg.
  - rewrite list_lookup_insert_ne by done. by exists q'.
Qed.

Lemma get_keep {V} (p : string -> bool) key (m : JMap.t V) : JMap.get key (keep (fun e => p e.1) m) = if p key then JMap.get key m else None.
Proof.
  induction m as [|[k v] m IH]; [by destruct (p key)|]. simpl. destruct (p k) eqn:E; simpl; destruct (str_eqb k key) eqn:Ek; try done;
    apply str_eqb_eq in Ek as ->; by rewrite ?IH, E.
Qed.

(** ** Requests *)

Definition same_calls (c c' : client) : Prop :=
  cl_page c' = cl_page c /\ calls c' = calls c /\ fetches c' = fetches c /\ cl_aborted c' = cl_aborted c.

Lemma token_for_ok p now c t c' : requests_ok c -> tokenFor p now c = (t, c') ->
  requests_ok c' /\ later c c' /\ same_calls c c' /\
  (failed t \/ exists key, tokenKey (cl_page c) p = Some key /\ awaits c' t key).
Proof.
  intros [R1 R2] E. unfold tokenFor in E. destruct (tokenKey (cl_page c) p) as [key|] eqn:Ek.
  2: { injection E as <- <-. split; [done|]. split; [apply requests_refl|]. split; [done|]. left. by eexists. }
  destruct (match JMap.get key (tokens c) with Some t0 => if expires t0 >? now then Some t0 else None | None => None end) as [tk|] eqn:Et.
  - injection E as <- <-. split; [done|]. split; [apply requests_refl|]. split; [done|]. right. exists key. split; [done|]. simpl.
    destruct (JMap.get key (tokens c)) as [t0|] eqn:Eg; [|done]. destruct (_ >? now); [|done]. injection Et as ->. by apply R2.
  - destruct (JMap.get key (pendingTokens c)) as [r|] eqn:Ep; injection E as <- <-.
    + split; [done|]. split; [apply requests_refl|]. split; [done|]. right. exists key. split; [done|].
      apply R1 in Ep as (q & ? & ? & _). by exists q.
    + set (q0 := {| rq_key := key; rq_base := _; rq_path := _; rq_state := Sent |}).
      assert (Hl : forall r q, requests c !! r = Some q -> (requests c ++ [q0]) !! r = Some q) by (intros; by apply lookup_app_l_Some).
      assert (Hla : later c (set_pendingTokens (JMap.set key (length (requests c)) (pendingTokens c)) (set_requests (requests c ++ [q0]) c))).
      { intros r q Hr. exists q. split; [by apply Hl|done]. }
      split; [split; simpl|].
      * intros key' r. destruct (decide (key = key')) as [<-|Hn].
        -- rewrite JMap.get_set_eq. split.
           ++ intros [= <-]. exists q0. rewrite list_lookup_middle by done. done.
           ++ intros (q & Hr & Hk & Ho). apply lookup_app_Some in Hr as [Hr|[Hge Hr]].
              ** assert (Hp : JMap.get key (pendingTokens c) = Some r) by (apply R1; eauto). congruence.
              ** apply list_lookup_singleton_Some in Hr as [Hr _]. f_equal. lia.
        -- rewrite JMap.get_set_ne by done. rewrite R1. split; intros (q & Hr & Hk & Ho); exists q; (split; [|done]); [by apply Hl|].
           apply lookup_app_Some in Hr as [Hr|[Hge Hr]]; [done|]. apply list_lookup_singleton_Some in Hr as [_ Hr]. by subst q.
      * intros key' tk Hg. eapply issued_later; [exact Hla|by apply R2].
      * split; [exact Hla|]. split; [done|]. right. exists key. split; [done|]. exists q0. simpl. by rewrite list_lookup_middle.
Qed.

Lemma open_unique c r r' q q' : requests_ok c -> requests c !! r = Some q -> requests c !! r' = Some q' ->
  open_request q -> open_request q' -> rq_key q = rq_key q' -> r = r'.
Proof.
  intros [R1 _] Hr Hr' Ho Ho' Hk. assert (H : JMap.get (rq_key q) (pendingTokens c) = Some r) by (apply R1; eauto).
  assert (H' : JMap.get (rq_key q) (pendingTokens c) = Some r') by (apply R1; eauto). congruence.
Qed.

(** The open requests are the same when one of them is settled. *)
Lemma pending_settling c c' r q result : requests_ok c -> requests c !! r = Some q -> rq_state q = Sent ->
  requests c' = <[r := set_state (Settling result) q]> (requests c) -> pendingTokens c' = pendingTokens c ->
  forall key r', JMap.get key (pendingTokens c') = Some r' <-> exists q', requests c' !! r' = Some q' /\ rq_key q' = key /\ open_request q'.
Proof.
  intros [R1 _] Hr Hs Er Ep key r'. rewrite Ep, Er, R1. destruct (decide (r = r')) as [<-|Hn].
  - rewrite list_lookup_insert_eq by by eapply lookup_lt_Some. split.
    + intros (q' & Hr' & Hk & _). assert (q' = q) as -> by congruence. by exists (set_state (Settling result) q).
    + intros (q' & [= <-] & Hk & _). exists q. split; [done|]. split; [done|]. intros x. by rewrite Hs.
  - by rewrite list_lookup_insert_ne.
Qed.

Lemma answered_ok r q answer now c : requests_ok c -> requests c !! r = Some q -> rq_state q = Sent ->
  requests_ok (answered r answer now c) /\ later c (answered r answer now c) /\ same_calls c (answered r answer now c).
Proof.
  intros R Hr Hs. unfold answered. rewrite Hr.
  assert (Hl : forall st c', requests c' = <[r := set_state st q]> (requests c) -> later c c').
  { intros st c' E. apply (later_set c r q st Hr); [|done]. intros tok [?|?]; congruence. }
  destruct answer as [e|[tok n]]; (split; [|split; [by eapply Hl|done]]).
  - split; [by eapply pending_settling|]. intros key t Ht. apply (issued_later c); [by eapply Hl|by apply R].
  - split; [by eapply pending_settling|]. simpl. intros key t. destruct (decide (rq_key q = key)) as [<-|Hn].
    + rewrite JMap.get_set_eq. intros [= <-]. exists r, (set_state (Settling (inr tok)) q). simpl.
      rewrite list_lookup_insert_eq by by eapply lookup_lt_Some. split; [done|]. split; [done|]. by left.
    + rewrite JMap.get_set_ne by done. intros Ht. apply (issued_later c); [by eapply Hl|by apply R].
Qed.

Lemma finished_ok r c : requests_ok c ->
  requests_ok (finished r c) /\ later c (finished r c) /\ same_calls c (finished r c).
Proof.
  intros R. unfold finished. destruct (requests c !! r) as [q|] eqn:Hr; [|split; [done|split; [apply requests_refl|done]]].
  destruct (rq_state q) as [|result|result] eqn:Hs; try (split; [done|split; [apply requests_refl|done]]).
  assert (Hl : forall c', requests c' = <[r := set_state (Finished result) q]> (requests c) -> later c c').
  { apply (later_set c r q (Finished result) Hr). intros tok [H|H]; [|congruence]. right. congruence. }
  assert (Ho : open_request q) by (intros x; congruence).
  split; [|split; [by eapply Hl|done]]. split; simpl.
  - intros key r'. rewrite get_without. destruct (decide (r = r')) as [<-|Hn].
    + rewrite list_lookup_insert_eq by by eapply lookup_lt_Some. split.
      * case_decide; [done|]. intros (q' & Hr' & Hk & _)%R. congruence.
      * intros (q' & [= <-] & _ & Hf). by destruct (Hf result).
    + rewrite list_lookup_insert_ne by done. case_decide as Hk.
      * split; [done|]. intros (q' & Hr' & Hk' & Ho'). exfalso. apply Hn. apply (open_unique c r r' q q'); congruence.
      * apply R.
  - intros key t Ht. apply (issued_later c); [by eapply Hl|by apply R].
Qed.

Lemma forget_ok p c : requests_ok c -> requests_ok (forgetPluginToken p c).
Proof.
  intros [R1 R2]. split; [done|]. simpl. intros key t.
  rewrite (get_keep (fun k => negb (ends_with k (String NUL p)))). destruct (negb _); [apply R2|done].
Qed.

(** ** Calls *)

Lemma calls_later c c' : later c c' -> same_calls c c' -> calls_ok c -> calls_ok c'.
Proof.
  intros Hl (Ep & Ec & Ef & Ea) [C1 C2]. split; rewrite ?Ec, ?Ef.
  - intros k t Hk Ht. unfold is_aborted. rewrite Ea, Ep. destruct (C1 k t Hk Ht) as [?|[?|(key & ? & ?)]]; [by left|by right; left|].
    right; right. exists key. split; [done|]. by apply (awaits_later c).
  - intros f Hf. apply (at_home_later c); [done..|by apply C2].
Qed.

(** The call at [n] gets past its token. *)
Lemma calls_advance c n st : (forall t, st <> NeedsToken t) -> calls_ok c -> calls_ok (set_calls (alter (set_call st) n (calls c)) c).
Proof.
  intros Hst [C1 C2]. split; [|intros f Hf; by apply at_home_advance, C2]. simpl. intros k t Hk Ht. apply list_elem_of_lookup in Hk as [n' Hk].
  destruct (decide (n = n')) as [<-|Hn].
  - rewrite list_lookup_alter_eq in Hk. destruct (calls c !! n) as [k0|]; [|done]. injection Hk as <-. by destruct (Hst t).
  - rewrite list_lookup_alter_ne in Hk by done. apply list_elem_of_lookup_2 in Hk. by apply (C1 k t).
Qed.

Lemma transport_ok p o t l signal now c : requests_ok c -> calls_ok c ->
  requests_ok (pluginTransport p o t l signal now c) /\ calls_ok (pluginTransport p o t l signal now c).
Proof.
  intros R C. unfold pluginTransport. destruct (tokenFor p now c) as [tk c'] eqn:E.
  destruct (token_for_ok p now c tk c' R E) as (R' & Hl & Hs & Ht). split; [destruct R'; by split|].
  destruct (calls_later c c' Hl Hs C) as [C1 C2]. split.
  2: { intros f Hf. destruct (C2 f Hf) as (pg & k & key & base & ? & Hk & ?). exists pg, k, key, base. cbn [calls set_calls cl_page].
       by rewrite (lookup_app_l_Some _ _ _ _ Hk). }
  simpl.
  intros k t' [Hk|Hk]%elem_of_app Hst; [by apply (C1 k t')|]. apply list_elem_of_singleton in Hk as ->. injection Hst as <-. simpl.
  right. destruct Hs as (-> & _). done.
Qed.

Lemma awaited_token c t key tok : awaits c t key -> token_result t c = Some (inr tok) -> issued c key tok.
Proof.
  destruct t as [[e|tok']|r]; simpl; [done|by intros ? [= <-]|]. intros (q & Hq & Hk). rewrite Hq. simpl.
  destruct (rq_state q) as [|x|x] eqn:Es; try done. intros [= ->]. exists r, q. split; [done|]. split; [done|]. by right.
Qed.

Lemma requests_same c c' : requests c' = requests c -> pendingTokens c' = pendingTokens c -> tokens c' = tokens c ->
  requests_ok c -> requests_ok c'.
Proof.
  intros Er Ep Et [R1 R2]. split; [by rewrite Ep, Er|]. rewrite Et. intros key t Ht.
  destruct (R2 key t Ht) as (r & q & Hr & H). exists r, q. by rewrite Er.
Qed.

Lemma resume_requests n c : requests (resume n c) = requests c /\ pendingTokens (resume n c) = pendingTokens c /\ tokens (resume n c) = tokens c.
Proof. unfold resume. by repeat case_goal. Qed.

Lemma resume_ok n c : calls_ok c -> calls_ok (resume n c).
Proof.
  intros C. unfold resume. destruct (calls c !! n) as [k|] eqn:Hk; [|done]. destruct (call_state_of k) as [t| |] eqn:Hs; try done.
  destruct (token_result t c) as [[e|tok]|] eqn:Ht; [by apply calls_advance| |done].
  destruct (is_aborted k c) eqn:Ha; [by apply calls_advance|]. destruct (getApiBaseUrl (cl_page c)) as [base|] eqn:Eb; [|by apply calls_advance].
  assert (C' : calls_ok (set_calls (alter (set_call Fetching) n (calls c)) c)) by by apply calls_advance.
  destruct C' as [C1 C2]. split; [done|]. simpl. intros f [Hf|Hf]%elem_of_app; [by apply C2|]. apply list_elem_of_singleton in Hf as ->.
  destruct (ca_waiting _ C k t (list_elem_of_lookup_2 _ _ _ Hk) Hs) as [?|[[e ->]|(key & Hkey & Hw)]]; [congruence|done|].
  exists (cl_page c), (set_call Fetching k), key, base. cbn [f_call f_url f_token calls set_calls set_fetches cl_page]. rewrite list_lookup_alter_eq, Hk.
  split_and!; try done. by apply (awaited_token c t).
Qed.

Lemma respond_ok n r c : requests_ok c -> calls_ok c -> requests_ok (respond n r c) /\ calls_ok (respond n r c).
Proof.
  intros R C. unfold respond. destruct (calls c !! n) as [k|]; [|done]. destruct (call_state_of k); try done.
  assert (H : forall x c, requests_ok c -> calls_ok c -> requests_ok (set_calls (alter (set_call (Settled x)) n (calls c)) c) /\
    calls_ok (set_calls (alter (set_call (Settled x)) n (calls c)) c)).
  { intros x c' R' C'. split; [destruct R'; by split|by apply calls_advance]. }
  destruct r as [e|r]; [by apply H|]. destruct (ok r); [by apply H|]. destruct (status r =? 401); apply H; try done.
  - by apply forget_ok.
  - by destruct C; split.
Qed.

Section invariant.
Context (navigable : Page -> client -> Prop).

Lemma requests_step c c' : step navigable c c' -> requests_ok c -> requests_ok c'.
Proof.
  intros [p o t l s now c0|r q answer now c0 Hr Hs|r c0|n c0|n r c0|p c0|signals c0|p c0 _] R.
  - unfold pluginTransport. destruct (tokenFor p now c0) as [tk c1] eqn:E. destruct (token_for_ok _ _ _ _ _ R E) as ([? ?] & _). by split.
  - by apply (answered_ok r q).
  - by apply finished_ok.
  - destruct (resume_requests n c0) as (? & ? & ?). by apply (requests_same c0).
  - unfold respond. destruct (calls c0 !! n) as [k|]; [|done]. destruct (call_state_of k); try done.
    destruct r as [e|r]; [by apply (requests_same c0)|]. destruct (ok r); [by apply (requests_same c0)|].
    destruct (status r =? 401); [|by apply (requests_same c0)]. by apply (requests_same (forgetPluginToken (call_plugin k) c0)), forget_ok.
  - by apply forget_ok.
  - by apply (requests_same c0).
  - by apply (requests_same c0).
Qed.

Lemma calls_step (Hnav : forall p c, navigable p c -> leaves p c) c c' : step navigable c c' -> requests_ok c -> calls_ok c -> calls_ok c'.
Proof.
  intros [p o t l s now c0|r q answer now c0 Hr Hs|r c0|n c0|n r c0|p c0|signals c0|p c0 Hn] R C.
  - by apply transport_ok.
  - destruct (answered_ok r q answer now c0 R Hr Hs) as (_ & ? & ?). by apply (calls_later c0).
  - destruct (finished_ok r c0 R) as (_ & ? & ?). by apply (calls_later c0).
  - by apply resume_ok.
  - by apply respond_ok.
  - destruct C; by split.
  - destruct C as [C1 C2]. split; [|done]. simpl. intros k t Hk Ht. destruct (C1 k t Hk Ht) as [Ha|?]; [left|by right].
    unfold is_aborted in *. apply bool_decide_eq_true in Ha. apply bool_decide_eq_true. simpl. apply elem_of_app. by right.
  - destruct C as [C1 C2], (Hnav p c0 Hn) as [Hl Hh]. split; [simpl; intros k t Hk Ht; left; by apply (Hl k t)|].
    intros f Hf. destruct (C2 f Hf) as (pg & k & key & base & Hpg & ?). exists pg, k, key, base. cbn [cl_page set_page]. by rewrite Hh, Hpg.
Qed.

Lemma reachable_requests p c : reachable navigable p c -> requests_ok c.
Proof.
  intros H. assert (Hi : requests_ok (new_client p)).
  { split; simpl; [|done]. intros key r. split; [done|]. by intros (q & Hq & _). }
  revert Hi. induction H as [|c0 c1 c2 Hs _ IH]; [done|]. intros R. by apply IH, (requests_step c0).
Qed.

Lemma reachable_calls (Hnav : forall p c, navigable p c -> leaves p c) p c : reachable navigable p c -> calls_ok c.
Proof.
  intros H. assert (Hi : requests_ok (new_client p) /\ calls_ok (new_client p)).
  { split; split; simpl; try done; [|by intros k t ?%elem_of_nil|by intros f ?%elem_of_nil].
    intros key r. split; [done|]. by intros (q & Hq & _). }
  revert Hi. induction H as [|c0 c1 c2 Hs _ IH]; [tauto|]. intros [R C]. apply IH. split; [by apply (requests_step c0)|by apply (calls_step Hnav c0)].
Qed.
End invariant.

(** ** What a token was asked for *)

Lemma same_tail (a b t : string) : a +:+ t = b +:+ t -> a = b.
Proof.
  intros H. assert (Hl : String.length a = String.length b) by (apply (f_equal String.length) in H; rewrite !app_length_str in H; lia).
  revert b Hl H. induction a as [|c a IH]; intros [|d b] Hl H; try done. injection H as -> H. injection Hl as Hl. by rewrite (IH b Hl H).
Qed.

(** The key of a token tells the plugin and the backend apart. *)
Lemma key_tells p p' a b key : has_char NUL a = false -> has_char NUL b = false -> home p = home p' ->
  tokenKey p a = Some key -> tokenKey p' b = Some key -> a = b /\ getApiBaseUrl p = getApiBaseUrl p'.
Proof.
  intros Ha Hb Hh H H'. unfold tokenKey in H, H'.
  destruct (getActiveConnectionId p) as [id|] eqn:E; [|done]. destruct (getActiveConnectionId p') as [id'|] eqn:E'; [|done].
  injection H as <-. injection H' as H'.
  assert (Hab : b = a) by (by eapply last_piece). split; [done|]. subst b. 
  assert (Hi : id' ?? EmptyString = id ?? EmptyString) by (eapply same_tail, H').
  unfold getApiBaseUrl, home in *. destruct (window p) as [l|], (window p') as [l'|]; try done. injection Hh as ->.
  unfold getConnectionBasePath. rewrite E, E'. cbn [mbind option_bind fmap option_fmap option_map]. do 3 f_equal.
  unfold remote_id, truthy_opt. destruct id as [[|]|], id' as [[|]|]; cbn in *; first [done | by rewrite Hi].
Qed.

(** What does not change as a request goes on. *)
Definition sent_as (q : token_request) : string * string * string := (rq_key q, rq_base q, rq_path q).

(** Every request for a token was made for the plugin of a call, from a page of this origin. *)
Definition sourced (c : client) (x : string * string * string) : Prop := exists p plugin,
  home p = home (cl_page c) /\ plugin ∈ map call_plugin (calls c) /\ tokenKey p plugin = Some x.1.1 /\ getApiBaseUrl p = Some x.1.2 /\
  x.2 = "/api/v1/plugins/" +:+ encodeURIComponent plugin +:+ "/token".
Definition sources (c : client) : Prop := forall q, q ∈ requests c -> sourced c (sent_as q).

Lemma sources_keep c c' : home (cl_page c') = home (cl_page c) -> (forall x, x ∈ map call_plugin (calls c) -> x ∈ map call_plugin (calls c')) ->
  (forall q, q ∈ requests c' -> exists q0, q0 ∈ requests c /\ sent_as q0 = sent_as q) -> sources c -> sources c'.
Proof.
  intros Hh Hc Hr S q (q0 & Hq & <-)%Hr. destruct (S q0 Hq) as (p & pl & ? & Hp & ? & ? & ?). exists p, pl. rewrite Hh. split_and!; auto.
Qed.

Lemma plugins_advance c n st : map call_plugin (alter (set_call st) n (calls c)) = map call_plugin (calls c).
Proof.
  generalize (calls c). intros l. revert n. induction l as [|k l IH]; intros [|n]; try done. cbn [alter list_alter map]. by rewrite <- (IH n).
Qed.

Lemma set_request_sent (l : list token_request) r q st x : l !! r = Some q -> x ∈ <[r := set_state st q]> l -> exists q0, q0 ∈ l /\ sent_as q0 = sent_as x.
Proof.
  intros Hr [n Hx]%list_elem_of_lookup. destruct (decide (r = n)) as [<-|Hn].
  - rewrite list_lookup_insert_eq in Hx by by eapply lookup_lt_Some. injection Hx as <-. exists q. split; [by eapply list_elem_of_lookup_2|done].
  - rewrite list_lookup_insert_ne in Hx by done. exists x. split; [by eapply list_elem_of_lookup_2|done].
Qed.

(** Requests and calls only added to, from the same page. *)
Lemma sources_same c c' : cl_page c' = cl_page c -> map call_plugin (calls c') = map call_plugin (calls c) -> requests c' = requests c -> sources c -> sources c'.
Proof. intros Ep Ec Er. apply sources_keep; rewrite ?Ep, ?Ec, ?Er; try done. intros q Hq. by exists q. Qed.

Lemma sources_transport pl o t l signal now c : sources c -> sources (pluginTransport pl o t l signal now c).
Proof.
  intros S. unfold pluginTransport. destruct (tokenFor pl now c) as [tk c'] eqn:E.
  assert (K : requests c' = requests c \/ exists q, requests c' = requests c ++ [q] /\ tokenKey (cl_page c) pl = Some (rq_key q) /\
    rq_base q = getApiBaseUrl (cl_page c) ?? EmptyString /\ rq_path q = "/api/v1/plugins/" +:+ encodeURIComponent pl +:+ "/token").
  { unfold tokenFor in E. repeat case_match; injection E as <- <-; first [by left | right; eexists; by split]. }
  assert (Kc : cl_page c' = cl_page c /\ calls c' = calls c) by (unfold tokenFor in E; repeat case_match; by injection E as <- <-).
  destruct Kc as [Ep Ec].
  assert (Hold : forall q, q ∈ requests c -> sourced (set_calls (calls c' ++ [{| call_plugin := pl; call_operation := o; call_task := t; call_payload := l;
    call_signal := signal; call_state_of := NeedsToken tk |}]) c') (sent_as q)).
  { intros q Hq. destruct (S q Hq) as (p & pl' & ? & ? & ?). exists p, pl'. cbn [cl_page calls set_calls]. rewrite Ep, Ec, map_app, elem_of_app. auto. }
  intros q Hq. cbn [requests set_calls] in Hq. destruct K as [Er|(q1 & Er & Hkey & Hb & Hp)]; rewrite Er in Hq; [by apply Hold|].
  apply elem_of_app in Hq as [Hq|Hq]; [by apply Hold|]. apply list_elem_of_singleton in Hq as ->.
  exists (cl_page c), pl. cbn [cl_page calls set_calls sent_as fst snd]. rewrite Ep, map_app, elem_of_app. split_and!; try done; [right; by apply list_elem_of_singleton|].
  rewrite Hb. unfold tokenKey in Hkey. unfold getApiBaseUrl, getConnectionBasePath. destruct (getActiveConnectionId (cl_page c)); [|done]. by destruct (window (cl_page c)).
Qed.

Lemma sources_step c c' : step leaves c c' -> sources c -> sources c'.
Proof.
  intros [p o t l s now c0|r q answer now c0 Hr Hs|r c0|n c0|n r c0|p c0|signals c0|p c0 Hn] S; try (by apply (sources_same c0)).
  - by apply sources_transport.
  - unfold answered. rewrite Hr. destruct answer as [e|[tok k]]; apply (sources_keep c0); try done; intros x; by apply set_request_sent.
  - unfold finished. destruct (requests c0 !! r) as [q|] eqn:Hr; [|done]. destruct (rq_state q); try done.
    apply (sources_keep c0); try done. intros x. by apply set_request_sent.
  - unfold resume. repeat case_match; try done; apply (sources_same c0); try done; apply (plugins_advance c0).
  - unfold respond. repeat case_match; try done; apply (sources_same c0); try done; apply (plugins_advance c0).
  - destruct Hn as [_ Hh]. apply (sources_keep c0); try done. intros q Hq. by exists q.
Qed.

Lemma reachable_sources p c : reachable leaves p c -> sources c.
Proof.
  intros H. assert (Hi : sources (new_client p)) by (by intros q ?%elem_of_nil).
  revert Hi. induction H as [|c0 c1 c2 Hs _ IH]; [done|]. intros S. by apply IH, (sources_step c0).
Qed.

(** ** Properties *)

(** No token of the plugin that is still good. *)
Definition no_good_token (c : client) (key : string) (now : Z) : Prop :=
  forall t, JMap.get key (tokens c) = Some t -> expires t <= now.

(** C28. For one backend and plugin at most one request for a token is under way,
    however the calls, answers and navigations interleave, and a call that needs
    a token meanwhile waits for that request and sends none. *)
Theorem one_token_request navigable p c : reachable navigable p c ->
  (forall r r' q q', requests c !! r = Some q -> requests c !! r' = Some q' -> open_request q -> open_request q' ->
    rq_key q = rq_key q' -> r = r') /\
  (forall pluginId now key r q, tokenKey (cl_page c) pluginId = Some key -> no_good_token c key now ->
    requests c !! r = Some q -> rq_key q = key -> open_request q -> tokenFor pluginId now c = (Request r, c)).
Proof.
  intros H. apply (reachable_requests navigable) in H as R. clear H. split; [intros r r' q q' ? ?; by apply (open_unique c)|].
  intros pluginId now key r q Hk Hn Hr Hq Ho. unfold tokenFor. rewrite Hk.
  assert (Hp : JMap.get key (pendingTokens c) = Some r) by (apply R; eauto).
  destruct (JMap.get key (tokens c)) as [t|] eqn:Et; [|by rewrite Hp]. specialize (Hn t Et).
  replace (expires t >? now) with false by lia. by rewrite Hp.
Qed.

(** C27. A request for a plugin's call carries a token that was issued for that very
    plugin, by the very backend the request goes to -- although the address is read when
    the request is sent, after the token was waited for. The page leaves a backend only
    after the calls that wait for a token were aborted and stays at its origin, and no
    plugin's identifier holds the NUL that separates the parts of a token's key. *)
Theorem token_stays_with_backend p c f : reachable leaves p c -> (forall k, k ∈ calls c -> has_char NUL (call_plugin k) = false) -> f ∈ fetches c ->
  exists k r q, calls c !! f_call f = Some k /\ requests c !! r = Some q /\ gave q (f_token f) /\
    rq_path q = "/api/v1/plugins/" +:+ encodeURIComponent (call_plugin k) +:+ "/token" /\
    f_url f = strip_last "/" (rq_base q) +:+ "/api/v1/plugins/runtime/" +:+ operation_text (call_operation k).
Proof.
  intros H Hplain Hf. pose proof (reachable_sources p c H) as S. apply (reachable_calls leaves) in H; [|done].
  destruct (ca_fetches c H f Hf) as (pg & k & key & base & Hh & Hk & Hkey & Hbase & (r & q & Hr & Hq & Hg) & Hu).
  destruct (S q (list_elem_of_lookup_2 _ _ _ Hr)) as (pg' & pl & Hh' & Hpl & Hkey' & Hb & Hp). cbn [sent_as fst snd] in *. rewrite Hq in Hkey'.
  assert (E : call_plugin k = pl /\ getApiBaseUrl pg = getApiBaseUrl pg').
  { apply (key_tells pg pg' _ _ key); try done; [by eapply Hplain, list_elem_of_lookup_2| |by rewrite Hh, Hh'].
    apply list_elem_of_fmap in Hpl as (k' & -> & Hk'). by apply Hplain. }
  destruct E as [<- E]. exists k, r, q. split_and!; try done. rewrite Hu. do 2 f_equal. congruence.
Qed.

(** Forgetting a plugin's token forgets it on every backend and no other
    plugin's token, if no name contains the separator. *)
Theorem forgets_on_every_backend p q conn c : has_char NUL p = false -> has_char NUL q = false ->
  JMap.get (conn +:+ String NUL q) (tokens (forgetPluginToken p c)) =
  if decide (q = p) then None else JMap.get (conn +:+ String NUL q) (tokens c).
Proof.
  intros Hp Hq. simpl. rewrite (get_keep (fun k => negb (ends_with k (String NUL p)))).
  destruct (ends_with (conn +:+ String NUL q) (String NUL p)) eqn:E; simpl.
  - apply ends_with_iff in E as [a E]. apply last_piece in E; [|done|done]. by rewrite decide_True.
  - destruct (decide (q = p)) as [->|]; [|done]. exfalso. apply not_true_iff_false in E. apply E. apply ends_with_iff. by exists conn.
Qed.

(** ** Concrete calls *)

Definition on_backend (id : string) : Page :=
  {| window := Some {| pathname := "/b/" +:+ id +:+ "/users"; origin := "https://host" |}; scopedConnectionId := None |}.

Definition one_call (c : client) : client := pluginTransport "demo" Invoke "scan" [] 0 1000 c.
Definition waiting : client := one_call (new_client (on_backend "one")).
Definition with_token : client := finished 0 (answered 0 (inr ("secret", 600)) 2000 waiting).

Lemma waiting_reachable navigable : reachable navigable (on_backend "one") waiting.
Proof. apply rtc_once, Calls. Qed.

Lemma with_token_reachable navigable : reachable navigable (on_backend "one") with_token.
Proof.
  eapply rtc_r; [eapply rtc_r; [apply waiting_reachable|]|apply Finishes]. by eapply Answers.
Qed.

Lemma one_token_request_witness : tokenFor "demo" 5 waiting = (Request 0, waiting) /\ length (requests waiting) = 1%nat.
Proof.
  split; [|reflexivity].
  apply (proj2 (one_token_request _ _ _ (waiting_reachable left_behind)) "demo" 5 ("one" +:+ String NUL "demo") 0%nat
    {| rq_key := "one" +:+ String NUL "demo"; rq_base := "https://host/b/one"; rq_path := "/api/v1/plugins/demo/token"; rq_state := Sent |}); try reflexivity; done.
Defined.

Lemma token_stays_with_backend_witness : exists f, fetches (resume 0 with_token) = [f] /\
  f_url f = "https://host/b/one/api/v1/plugins/runtime/invoke" /\
  exists q, requests (resume 0 with_token) = [q] /\ rq_path q = "/api/v1/plugins/demo/token" /\ gave q (f_token f).
Proof.
  eexists. split; [vm_compute; reflexivity|]. split; [reflexivity|].
  destruct (token_stays_with_backend (on_backend "one") (resume 0 with_token)
    {| f_call := 0; f_url := "https://host/b/one/api/v1/plugins/runtime/invoke"; f_token := "secret"; f_body := VObj [("task_type", VStr "scan"); ("payload", VObj [])] |})
    as (k & r & q & Hk & Hr & Hg & Hp & _).
  - eapply rtc_r; [apply with_token_reachable|apply Resumes].
  - intros k Hk. vm_compute in Hk. apply list_elem_of_singleton in Hk as ->. reflexivity.
  - vm_compute. constructor.
  - exists q. destruct r as [|r]; [|discriminate Hr]. vm_compute in Hr. injection Hr as <-. split; [vm_compute; reflexivity|].
    split; [reflexivity|exact Hg].
Defined.

Lemma forgets_on_every_backend_witness :
  JMap.get ("one" +:+ String NUL "demo") (tokens with_token) = Some {| token := "secret"; expires := 572000 |} /\
  JMap.get ("one" +:+ String NUL "demo") (tokens (forgetPluginToken "demo" with_token)) = None.
Proof.
  split; [vm_compute; reflexivity|]. etransitivity; [by apply (forgets_on_every_backend "demo" "demo" "one" with_token)|reflexivity].
Defined.

(** A request under way brings a forgotten token back: after the plugin was
    forgotten, nothing but the answer of the earlier request arrives, and the
    plugin's next call is given the token from the store. *)
Theorem forgotten_token_comes_back : exists c, reachable left_behind (on_backend "one") (forgetPluginToken "demo" c) /\
  tokens (forgetPluginToken "demo" c) = [] /\
  tokenFor "demo" 3000 (answered 0 (inr ("secret", 600)) 2000 (forgetPluginToken "demo" c)) =
    (Known (inr "secret"), answered 0 (inr ("secret", 600)) 2000 (forgetPluginToken "demo" c)).
Proof.
  exists waiting. split; [|split; vm_compute; reflexivity]. eapply rtc_r; [apply waiting_reachable|apply Forgets].
Qed.

(** Without the abort before the page leaves, a token of one backend is sent
    to another: a call waits for its token, the page leaves, and the call goes on
    with the new address. *)
Theorem token_reaches_other_backend : exists c f q, reachable (fun _ _ => True) (on_backend "one") c /\ f ∈ fetches c /\
  requests c = [q] /\ rq_key q = "one" +:+ String NUL "demo" /\ gave q (f_token f) /\
  f_url f = "https://host/b/two/api/v1/plugins/runtime/invoke".
Proof.
  exists (resume 0 (set_page (on_backend "two") with_token)). do 2 eexists. split.
  - eapply rtc_r; [eapply rtc_r; [apply with_token_reachable|by apply Navigates]|apply Resumes].
  - vm_compute. split; [constructor|]. split; [reflexivity|]. split; [reflexivity|]. split; [by right|reflexivity].
Qed.
