(* ===== verification/Favourites.v ===== *)
(** * Favourites ([api/favourites.ts], [features/favourites/favouritesCache.ts])

    The state of visible favourite buttons is asked for in batches: the keys that
    are loaded before the next turn of the event loop are collected in a bucket,
    and its timer sends them in pages. A promise is a number into the list of
    their states; an entry of the bucket holds the promise it settles. After a
    change, cached query results are patched in place and views are marked as
    stale.

    Batches are bounded and cover the buttons that asked, each button is answered
    with the state of its own key, and all are answered once no request is under
    way -- if none asks for a key that is in the bucket already, which leaves the
    earlier one waiting for ever. Patching a projection twice is patching it the
    last time, and patching back restores it. *)

From Stdlib Require Import Ascii ZArith Lia SpecFloat.
From stdpp Require Import base list strings option relations sets.
From S2P Require Import Prelude JsString JsNum JsValue JsUri JsObject.

(** ** Records ([api/favourites.ts]) *)

Inductive FavouriteType := FavUser | FavPost | FavStory | FavMessage.

#[export] Instance favourite_type_eq_dec : EqDecision FavouriteType.
Proof. solve_decision. Defined.

Definition type_text (t : FavouriteType) : string :=
  match t with FavUser => "user" | FavPost => "post" | FavStory => "story" | FavMessage => "message" end.

Record FavouriteKey := { site : string; entity_type : FavouriteType; entity_id : num }.

Record FavouriteState := {
  state_key : FavouriteKey;
  favourited : bool;
  favourite_id : option num;
  created_at : option string;
  created_at_source : option string;
  state_pending : option bool
}.

Inductive Availability := Available | Inactive | Deleted | Expired | Unavailable.

Record FavouriteItem := {
  item_key : FavouriteKey;
  item_id : num;
  item_created_at : string;
  item_created_at_source : string;
  availability : Availability;
  entity : option value
}.

Record FavouritePage := { items : list FavouriteItem; has_more : bool; next_cursor : option string }.
Record FavouriteCounts := { total : num; by_type : FavouriteType -> num }.

(** [JSON.stringify(favouriteKey(key))] *)
Definition key_text (k : FavouriteKey) : string :=
  "[" +:+ join "," [json_string "favourite-state"; json_string (site k); json_string (type_text (entity_type k));
                    if is_finite (entity_id k) then show_num (entity_id k) else "null"] +:+ "]".

(** [setFavourite]: the method and the path of its request. *)
Definition setFavourite (k : FavouriteKey) (desired : bool) : string * string :=
  (if desired then "PUT" else "DELETE",
   "/api/v1/favourites/" +:+ encodeURIComponent (site k) +:+ "/" +:+ type_text (entity_type k) +:+ "/" +:+ show_num (entity_id k)).

(** ** Batches *)

Record entry := { entry_key : FavouriteKey; entry_promise : nat }.

Inductive promise :=
| Pending
| Resolved (s : FavouriteState)
| Rejected (error : string).

(** A request for a page of entries, until it is answered. *)
Record page := { page_entries : list entry; page_answered : bool }.

Record cache := {
  (* the client's bucket, whose timer is running *)
  bucket : option (JMap.t entry);
  pages : list page;
  promises : list promise
}.

Definition no_favourites : cache := {| bucket := None; pages := []; promises := [] |}.

Definition loadFavouriteState (key : FavouriteKey) (c : cache) : cache :=
  let b := bucket c ?? [] in
  {| bucket := Some (JMap.set (key_text key) {| entry_key := key; entry_promise := length (promises c) |} b);
     pages := pages c; promises := promises c ++ [Pending] |}.

(** [for (offset = 0; offset < entries.length; offset += 200)] *)
Definition PAGE : nat := 200.

Fixpoint pages_of (fuel : nat) (entries : list entry) : list (list entry) :=
  match fuel, entries with
  | S fuel, _ :: _ => take PAGE entries :: pages_of fuel (drop PAGE entries)
  | _, _ => []
  end.

(** The timer's callback. *)
Definition flush (c : cache) : cache :=
  match bucket c with
  | Some b =>
      let entries := JMap.values b in
      {| bucket := None;
         pages := pages c ++ map (fun es => {| page_entries := es; page_answered := false |}) (pages_of (length entries) entries);
         promises := promises c |}
  | None => c
  end.

(** [resolve] and [reject]: the first one decides. *)
Definition settle (outcome : promise) (p : promise) : promise := match p with Pending => outcome | _ => p end.

(** [new Map(states.map(state => [text(state), state]))] *)
Definition lookup_states (states : list FavouriteState) : JMap.t FavouriteState :=
  JMap.of_list (map (fun s => (key_text (state_key s), s)) states).

Definition outcome_of (states : list FavouriteState) (e : entry) : promise :=
  match JMap.get (key_text (entry_key e)) (lookup_states states) with
  | Some s => Resolved s
  | None => Rejected "Missing favourite state"
  end.

Definition settle_entries (outcome : entry -> promise) (es : list entry) (ps : list promise) : list promise :=
  foldl (fun ps e => alter (settle (outcome e)) (entry_promise e) ps) ps es.

(** The answer of page [n]: the states, or an error (also when the answer has
    none). *)
Definition receive (n : nat) (answer : string + list FavouriteState) (c : cache) : cache :=
  match pages c !! n with
  | Some p =>
      if page_answered p then c
      else
        let outcome := match answer with inr states => outcome_of states | inl e => fun _ => Rejected e end in
        {| bucket := bucket c;
           pages := <[n := {| page_entries := page_entries p; page_answered := true |}]> (pages c);
           promises := settle_entries outcome (page_entries p) (promises c) |}
  | None => c
  end.

(** ** Stale views

    [None] is the [TypeError] of reading a property of [undefined] or [null]. *)

Definition is_text (v : jsval) (s : string) : bool := match v with Some (VStr t) => t =s s | _ => false end.

Section invalidate.
Context (key : option FavouriteKey).

Definition names : list string :=
  ["favourites-list"; "favourites-counts"] ++
  (if match key with Some k => bool_decide (entity_type k = FavUser) | None => false end
   then ["users-list"; "users-stats"; "user-profile"; "subscriptions"] else []).

Definition matchesSite (v : jsval) : bool :=
  negb (val_truthy v) || is_text v "all" || match key with Some k => is_text v (site k) | None => false end.

(** The predicate of [invalidateQueries] on a query's key. *)
Definition is_stale (queryKey : list value) : option bool :=
  let name := head queryKey in
  let filter := queryKey !! 1%nat in
  let query_site := queryKey !! 2%nat in
  if negb (str_in (val_to_str name) names) then Some false
  else match key with
  | None => Some true
  | Some k =>
      if is_text name "favourites-list" then
        match filter with
        | None | Some VNull => None
        | _ => Some (matchesSite (get_field filter "site") &&
                     (negb (val_truthy (get_field filter "entity_type")) || is_text (get_field filter "entity_type") (type_text (entity_type k))))
        end
      else if is_text name "favourites-counts" then
        Some (matchesSite (match filter with Some (VObj _) | Some (VArr _) => get_field filter "site" | _ => filter end))
      else if is_text name "user-profile" then Some ((to_number filter =! entity_id k) && matchesSite query_site)
      else if is_text name "users-list" || is_text name "users-stats" then Some (matchesSite query_site)
      else if is_text name "subscriptions" then Some (matchesSite filter)
      else Some true
  end.
End invalidate.

(** ** Patched projections *)

Section patch.
Context (key : FavouriteKey) (desired : bool).

(** The queries whose data is patched, by the first element of their key. *)
Definition patched_queries : list string :=
  if bool_decide (entity_type key = FavUser) then ["users-list"; "user-profile"; "subscriptions"] else ["content-library"].

Definition is_number (v : jsval) (n : num) : bool := match v with Some (VNum m) => m =! n | _ => false end.

(** The object is the entity of the key. *)
Definition matches (object : fields) : bool :=
  is_text (prop "site" object) (site key) &&
  (is_number (prop "user_id" object) (entity_id key) || is_number (prop "id" object) (entity_id key)) &&
  (if bool_decide (entity_type key = FavUser)
   then JMap.has "favorite" object && negb (JMap.has "content_type" object)
   else is_text (prop "content_type" object) (type_text (entity_type key)) && is_number (prop "id" object) (entity_id key)).

Fixpoint patch (v : value) : value :=
  match v with
  | VArr l => VArr (map patch l)
  | VObj fs =>
      VObj (own_entries (map (fun e => (e.1, if (e.1 =s "favorite") && matches fs then VBool desired else patch e.2)) fs))
  | _ => v
  end.
End patch.

(** [setQueriesData] with [patch] on the cached queries: their keys and data. *)
Definition patchFavouriteProjections (key : FavouriteKey) (desired : bool) (queries : list (list value * value)) : list (list value * value) :=
  map (fun q => if str_in (val_to_str (head q.1)) (patched_queries key) then (q.1, patch key desired q.2) else q) queries.

(** ** Steps *)

Section steps.
Context (loadable : FavouriteKey -> cache -> Prop).

Inductive step : cache -> cache -> Prop :=
| Loads k c : loadable k c -> step c (loadFavouriteState k c)
| Flushes c : step c (flush c)
| Receives n answer c : step c (receive n answer c).

Definition reachable (c : cache) : Prop := rtc step no_favourites c.
End steps.

(** * Properties of favourites *)

(** ** Pages *)

Lemma pages_of_concat fuel es : (length es <= fuel)%nat -> concat (pages_of fuel es) = es.
Proof.
  revert es. induction fuel as [|fuel IH]; intros [|e es] H; try done; [simpl in H; lia|].
  cbn [pages_of concat]. rewrite IH; [apply take_drop|]. rewrite length_drop. unfold PAGE. simpl in *. lia.
Qed.

Lemma pages_of_bounded fuel es : Forall (fun p => (1 <= length p <= PAGE)%nat) (pages_of fuel es).
Proof.
  revert es. induction fuel as [|fuel IH]; intros [|e es]; try constructor; [|apply IH].
  rewrite length_take. unfold PAGE. cbn [length]. lia.
Qed.

Lemma pages_of_count fuel es : (length es <= fuel)%nat -> Z.of_nat (length (pages_of fuel es)) = (Z.of_nat (length es) + 199) / 200.
Proof.
  revert es. induction fuel as [|fuel IH]; intros [|e es] H; try done; [simpl in H; lia|].
  cbn [pages_of length]. rewrite Nat2Z.inj_succ, IH; [|rewrite length_drop; unfold PAGE; simpl in *; lia].
  rewrite length_drop. change (length (e :: es)) with (S (length es)). unfold PAGE.
  destruct (decide (length es < 200)%nat) as [Hl|Hl].
  - replace (S (length es) - 200)%nat with 0%nat by lia.
    replace (Z.of_nat (S (length es)) + 199) with (Z.of_nat (length es) + 1 * 200) by lia.
    rewrite Z.div_add, (Z.div_small (Z.of_nat (length es))) by lia. done.
  - replace (Z.of_nat (S (length es)) + 199) with (Z.of_nat (S (length es) - 200) + 199 + 1 * 200) by lia.
    rewrite Z.div_add by lia. lia.
Qed.

(** ** Who is waiting *)

Definition in_bucket (c : cache) (e : entry) : Prop := exists b k, bucket c = Some b /\ (k, e) ∈ b.
Definition in_page (c : cache) (answered : bool) (e : entry) : Prop :=
  exists n p, pages c !! n = Some p /\ page_answered p = answered /\ e ∈ page_entries p.

Definition own_state (e : entry) (p : promise) : Prop :=
  match p with Resolved s => key_text (state_key s) = key_text (entry_key e) | _ => True end.

Record coherent (c : cache) : Prop := {
  co_known : forall e, in_bucket c e \/ in_page c false e \/ in_page c true e -> (entry_promise e < length (promises c))%nat;
  co_resolved : forall n s, promises c !! n = Some (Resolved s) ->
    exists e, in_page c true e /\ entry_promise e = n /\ key_text (state_key s) = key_text (entry_key e);
  co_bucket : forall b, bucket c = Some b -> JMap.wf b
}.

Lemma lookup_states_key states t s : JMap.get t (lookup_states states) = Some s -> key_text (state_key s) = t.
Proof.
  unfold lookup_states, JMap.of_list. assert (Hi : forall m, (forall t s, JMap.get t m = Some s -> key_text (state_key s) = t) ->
    forall l t s, JMap.get t (foldl (fun m '(k, v) => JMap.set k v m) m (map (fun s => (key_text (state_key s), s)) l)) = Some s ->
      key_text (state_key s) = t); [|by apply (Hi [])].
  intros m Hm l. revert m Hm. induction l as [|x l IH]; simpl; [done|]. intros m Hm. apply IH. intros t' s'.
  destruct (decide (key_text (state_key x) = t')) as [<-|Hn]; [rewrite JMap.get_set_eq|rewrite JMap.get_set_ne by done].
  - by intros [= <-].
  - apply Hm.
Qed.

Lemma outcome_own states e : own_state e (outcome_of states e).
Proof. unfold outcome_of. destruct (JMap.get _ _) eqn:E; [|done]. simpl. by apply lookup_states_key in E. Qed.

Definition settled (p : promise) : Prop := p <> Pending.

(** What settling a page's entries does to one promise. *)
Lemma settle_lookup outcome es ps n p : settle_entries outcome es ps !! n = Some p ->
  exists p0, ps !! n = Some p0 /\ ((p = p0 /\ (settled p0 \/ forall e, e ∈ es -> entry_promise e <> n)) \/
    (p0 = Pending /\ exists e, e ∈ es /\ entry_promise e = n /\ (p = outcome e \/ outcome e = Pending))).
Proof.
  unfold settle_entries. revert ps. induction es as [|e es IH]; intros ps.
  - simpl. intros H. exists p. split; [done|]. left. split; [done|]. right. by intros e ?%elem_of_nil.
  - simpl. intros H. destruct (IH _ H) as (p1 & Hp1 & Hc). destruct (decide (entry_promise e = n)) as [He|He].
    + rewrite <- He, list_lookup_alter_eq in Hp1. destruct (ps !! entry_promise e) as [p0|] eqn:E; [|done]. injection Hp1 as <-.
      exists p0. rewrite <- He. split; [done|]. destruct p0 as [|s|x]; simpl in Hc.
      * right. split; [done|]. destruct Hc as [[-> _]|(Ho & e' & Hin & He' & Hp)]; [exists e; split; [by left|auto]|].
        exists e. split; [by left|]. auto.
      * left. destruct Hc as [[-> _]|[? _]]; [split; [done|by left]|done].
      * left. destruct Hc as [[-> _]|[? _]]; [split; [done|by left]|done].
    + rewrite list_lookup_alter_ne in Hp1 by done. exists p1. split; [done|].
      destruct Hc as [[-> Hc]|(-> & e' & Hin & He' & Hp)].
      * left. split; [done|]. destruct Hc as [?|Hc]; [by left|]. right. intros e' [->|Hin]%elem_of_cons; [done|by apply Hc].
      * right. split; [done|]. exists e'. split; [by right|done].
Qed.

Lemma length_settle outcome es ps : length (settle_entries outcome es ps) = length ps.
Proof. unfold settle_entries. revert ps. induction es as [|e es IH]; intros ps; [done|]. simpl. rewrite IH. apply length_alter. Qed.

Lemma elem_set {V} k (v : V) m x : JMap.wf m -> x ∈ JMap.set k v m -> x = (k, v) \/ (x ∈ m /\ x.1 <> k).
Proof.
  intros Hw Hx. destruct x as [k' v']. pose proof (JMap.wf_set k v m Hw) as Hw'. apply (JMap.elem_get _ _ _ Hw') in Hx.
  destruct (decide (k = k')) as [<-|Hn]; [rewrite JMap.get_set_eq in Hx; left; congruence|].
  rewrite JMap.get_set_ne in Hx by done. right. split; [by apply JMap.get_Some_elem|done].
Qed.

Lemma in_page_flush c a e : in_page (flush c) a e <-> in_page c a e \/ (a = false /\ in_bucket c e).
Proof.
  unfold flush, in_page, in_bucket. destruct (bucket c) as [b|] eqn:Eb.
  2: { split; [by left|]. intros [?|(_ & b & k & ? & _)]; [done|congruence]. }
  set (es := JMap.values b). split.
  - intros (n & p & Hn & Ha & He). simpl in Hn. apply lookup_app_Some in Hn as [Hn|[_ Hn]]; [left; eauto|].
    apply list_elem_of_lookup_2 in Hn. apply list_elem_of_fmap in Hn as (l & -> & Hl). right. split; [done|].
    simpl in He. assert (Hin : e ∈ es).
    { rewrite <- (pages_of_concat (length es) es) by done. apply list_elem_of_In, List.in_concat. exists l. by rewrite <- !list_elem_of_In. }
    unfold es, JMap.values in Hin. apply list_elem_of_fmap in Hin as ([k e'] & -> & Hk). eauto.
  - intros [(n & p & Hn & Ha & He)|(-> & b' & k & [= <-] & Hk)].
    + exists n, p. split; [by apply lookup_app_l_Some|done].
    + assert (Hin : e ∈ es) by (apply list_elem_of_fmap; by exists (k, e)).
      rewrite <- (pages_of_concat (length es) es) in Hin by done. apply list_elem_of_In, List.in_concat in Hin as (l & Hl & He).
      apply list_elem_of_In in Hl, He. set (pg := {| page_entries := l; page_answered := false |}).
      assert (Hp : pg ∈ map (fun es => {| page_entries := es; page_answered := false |}) (pages_of (length es) es)) by (apply list_elem_of_fmap; by exists l).
      apply list_elem_of_lookup in Hp as [n Hn]. exists (length (pages c) + n)%nat, pg. split; [|done].
      simpl. rewrite lookup_app_r by lia. by replace (length (pages c) + n - length (pages c))%nat with n by lia.
Qed.

Lemma in_page_answer c n p b ps a e : pages c !! n = Some p -> page_answered p = false ->
  in_page {| bucket := b; pages := <[n := {| page_entries := page_entries p; page_answered := true |}]> (pages c); promises := ps |} a e <->
  (exists m q, m <> n /\ pages c !! m = Some q /\ page_answered q = a /\ e ∈ page_entries q) \/ (a = true /\ e ∈ page_entries p).
Proof.
  intros Hn Ha. pose proof (lookup_lt_Some _ _ _ Hn) as Hlt. split.
  - intros (m & q & Hm & Hq & He). simpl in Hm. destruct (decide (m = n)) as [->|Hne].
    + rewrite list_lookup_insert_eq in Hm by done. injection Hm as <-. right. simpl in *. by subst a.
    + rewrite list_lookup_insert_ne in Hm by done. left. eauto 8.
  - intros [(m & q & Hne & Hm & Hq & He)|[-> He]].
    + exists m, q. simpl. by rewrite list_lookup_insert_ne.
    + eexists n, _. simpl. by rewrite list_lookup_insert_eq.
Qed.

(** The answered page's entries and the others, as before. *)
Lemma in_page_same c n p b ps e a : pages c !! n = Some p -> page_answered p = false ->
  in_page {| bucket := b; pages := <[n := {| page_entries := page_entries p; page_answered := true |}]> (pages c); promises := ps |} a e ->
  in_page c false e \/ in_page c true e.
Proof.
  intros Hn Ha. rewrite in_page_answer by done. intros [(m & q & _ & Hm & Hq & He)|[-> He]].
  - destruct a; [right|left]; by exists m, q.
  - left. by exists n, p.
Qed.

Lemma in_bucket_load k c e : coherent c -> in_bucket (loadFavouriteState k c) e ->
  entry_promise e = length (promises c) /\ entry_key e = k \/ in_bucket c e.
Proof.
  intros C (b & k' & [= <-] & Hin). apply elem_set in Hin as [[= -> ->]|[Hin _]]; [by left| |].
  - right. destruct (bucket c) as [b|] eqn:Eb; simpl in Hin; [|by apply elem_of_nil in Hin]. by exists b, k'.
  - destruct (bucket c) as [b|] eqn:Eb; [by apply (co_bucket _ C)|apply JMap.wf_empty].
Qed.

Lemma coherent_step loadable c c' : step loadable c c' -> coherent c -> coherent c'.
Proof.
  intros [k c0 _|c0|n answer c0] C.
  - split.
    + intros e H. simpl. rewrite length_app. simpl. destruct H as [H|H].
      * apply (in_bucket_load k c0 e C) in H as [[-> _]|H]; [lia|]. enough (entry_promise e < length (promises c0))%nat by lia. apply C. auto.
      * enough (entry_promise e < length (promises c0))%nat by lia. apply C. by right.
    + intros n s Hn. simpl in Hn. apply lookup_app_Some in Hn as [Hn|[_ Hn]]; [|by apply list_lookup_singleton_Some in Hn as [_ ?]].
      destruct (co_resolved _ C n s Hn) as (e & He & ?). by exists e.
    + intros b [= <-]. apply JMap.wf_set. destruct (bucket c0) as [b|] eqn:Eb; [by apply (co_bucket _ C)|apply JMap.wf_empty].
  - assert (Hb : forall e, ~ in_bucket (flush c0) e).
    { intros e (b & k & Hb & _). unfold flush in Hb. destruct (bucket c0) eqn:E; [done|congruence]. }
    assert (Hp : promises (flush c0) = promises c0) by (unfold flush; by destruct (bucket c0)).
    split; rewrite ?Hp.
    + intros e [H|H]; [by destruct (Hb e)|]. rewrite !in_page_flush in H. apply C. naive_solver.
    + intros n s Hn. destruct (co_resolved _ C n s Hn) as (e & He & ?). exists e. split; [|done]. apply in_page_flush. by left.
    + intros b H. unfold flush in H. destruct (bucket c0) eqn:E; [done|congruence].
  - unfold receive. destruct (pages c0 !! n) as [p|] eqn:Hn; [|done]. destruct (page_answered p) eqn:Ha; [done|].
    set (outcome := match answer with inr states => outcome_of states | inl e => fun _ => Rejected e end).
    assert (Hown : forall e, own_state e (outcome e)) by (intros e; unfold outcome; destruct answer; [done|apply outcome_own]).
    split; simpl.
    + intros e [H|H]; rewrite length_settle; apply C; [by left|]. right. destruct H as [H|H]; eapply in_page_same in H; eauto.
    + intros m s Hm. apply settle_lookup in Hm as (p0 & Hp0 & [[<- _]|(_ & e & He & <- & Hx)]).
      * destruct (co_resolved _ C m s Hp0) as (e & (m' & q & Hm' & Hq & He) & ?). exists e. split; [|done].
        apply in_page_answer; [done|done|]. left. exists m', q. split; [|done]. intros ->. congruence.
      * exists e. split; [apply in_page_answer; [done|done|]; by right|]. split; [done|]. specialize (Hown e).
        destruct Hx as [Hx|Hx]; [by rewrite <- Hx in Hown|]. destruct answer; unfold outcome in Hx; [done|]. unfold outcome_of in Hx. by destruct (JMap.get _ _).
    + apply C.
Qed.

Lemma coherent_reachable loadable c : reachable loadable c -> coherent c.
Proof.
  intros H. assert (Hi : coherent no_favourites).
  { split; simpl; try done. intros e [(b & k & ? & _)|[(n & p & ? & _)|(n & p & ? & _)]]; done. }
  revert Hi. induction H as [|c0 c1 c2 Hs _ IH]; [done|]. intros C. by apply IH, (coherent_step loadable c0).
Qed.

(** ** Fresh keys *)

(** No button asks for a key that is in the bucket. *)
Definition fresh (k : FavouriteKey) (c : cache) : Prop := JMap.get (key_text k) (bucket c ?? []) = None.

Definition awaited (c : cache) : Prop := forall n, promises c !! n = Some Pending ->
  exists e, (in_bucket c e \/ in_page c false e) /\ entry_promise e = n.

Lemma awaited_step c c' : step fresh c c' -> awaited c -> awaited c'.
Proof.
  intros [k c0 Hf|c0|n answer c0] A.
  - intros n Hn. simpl in Hn. unfold fresh in Hf. apply JMap.set_absent with (v := {| entry_key := k; entry_promise := length (promises c0) |}) in Hf.
    assert (Hin : forall x, x ∈ (bucket c0 ?? []) \/ x = (key_text k, {| entry_key := k; entry_promise := length (promises c0) |}) ->
      in_bucket (loadFavouriteState k c0) x.2).
    { intros [k' e] H. eexists _, k'. split; [done|]. rewrite Hf. apply elem_of_app. destruct H as [?|H]; [by left|right]. injection H as -> ->. constructor. }
    apply lookup_app_Some in Hn as [Hn|[Hge Hn]].
    + destruct (A n Hn) as (e & [(b & k' & Eb & He)|He] & ?); exists e; (split; [|done]); [left|by right].
      apply (Hin (k', e)). left. by rewrite Eb.
    + apply list_lookup_singleton_Some in Hn as [Hn _]. eexists. split; [left; apply Hin; by right|]. simpl. lia.
  - intros n Hn. assert (Hp : promises (flush c0) = promises c0) by (unfold flush; by destruct (bucket c0)). rewrite Hp in Hn.
    destruct (A n Hn) as (e & He & ?). exists e. split; [|done]. right. apply in_page_flush. destruct He; [by right|by left].
  - unfold receive. destruct (pages c0 !! n) as [p|] eqn:Hp; [|done]. destruct (page_answered p) eqn:Ha; [done|].
    intros m Hm. simpl in Hm. apply settle_lookup in Hm as (p0 & Hp0 & [[<- Hc]|(_ & e & He & _ & Hx)]).
    + destruct Hc as [Hc|Hc]; [by destruct Hc|]. destruct (A m Hp0) as (e & He & Hm). exists e. split; [|done].
      destruct He as [He|(m' & q & Hm' & Hq & He)]; [by left|]. right. apply in_page_answer; [done|done|]. left.
      exists m', q. split; [|done]. intros ->. assert (q = p) as -> by congruence. by apply (Hc e).
    + exfalso. destruct answer as [x|states]; [by destruct Hx|]. unfold outcome_of in Hx. destruct (JMap.get _ _); by destruct Hx.
Qed.

Lemma awaited_reachable c : reachable fresh c -> awaited c.
Proof.
  intros H. assert (Hi : awaited no_favourites) by done.
  revert Hi. induction H as [|c0 c1 c2 Hs _ IH]; [done|]. intros A. by apply IH, (awaited_step c0).
Qed.

(** ** Patching *)

(** Objects have each name once, as JavaScript's do. *)
Fixpoint distinct (v : value) : Prop :=
  match v with
  | VArr l => Forall id (map distinct l)
  | VObj fs => NoDup (map fst fs) /\ Forall id (map (fun f => distinct f.2) fs)
  | _ => True
  end.

(** The value with its names in their order of enumeration. *)
Fixpoint tidy (v : value) : value :=
  match v with
  | VArr l => VArr (map tidy l)
  | VObj fs => VObj (own_entries (map (fun e => (e.1, tidy e.2)) fs))
  | _ => v
  end.

(** Every object of the key's entity says [b]. *)
Fixpoint says (key : FavouriteKey) (b : bool) (v : value) : Prop :=
  match v with
  | VArr l => Forall id (map (says key b) l)
  | VObj fs => (matches key fs = true -> prop "favorite" fs = Some (VBool b)) /\ Forall id (map (fun f => says key b f.2) fs)
  | _ => True
  end.

Lemma map_ext_elem {A B} (f g : A -> B) l : (forall x, x ∈ l -> f x = g x) -> map f l = map g l.
Proof. intros H. apply List.map_ext_in. intros x Hx. apply H. by apply list_elem_of_In. Qed.

Lemma Forall_map_id {A} (f : A -> Prop) l : Forall id (map f l) <-> forall x, x ∈ l -> f x.
Proof. rewrite List.Forall_map, Forall_forall. done. Qed.

Section patching.
Context (key : FavouriteKey).

(** One member patched. *)
Definition member (fs : fields) (b : bool) (e : string * value) : string * value :=
  (e.1, if (e.1 =s "favorite") && matches key fs then VBool b else patch key b e.2).

Lemma patch_obj b fs : patch key b (VObj fs) = VObj (own_entries (map (member fs b) fs)).
Proof. done. Qed.

Lemma get_map (f : string * value -> string * value) k fs : (forall e, (f e).1 = e.1) ->
  JMap.get k (map f fs) = (fun v => (f (k, v)).2) <$> JMap.get k fs.
Proof.
  intros Hf. induction fs as [|[k' v] fs IH]; [done|]. simpl. destruct (f (k', v)) as [k0 w] eqn:E. pose proof (Hf (k', v)) as E1. rewrite E in E1. simpl in E1. subst k0.
  destruct (str_eqb k' k) eqn:Ek; [|done]. apply str_eqb_eq in Ek as ->. simpl. by rewrite E.
Qed.

Lemma get_patched b fs k : NoDup (map fst fs) -> k <> "favorite" ->
  prop k (own_entries (map (member fs b) fs)) = patch key b <$> prop k fs.
Proof.
  intros Hw Hk. unfold prop. rewrite get_own_entries by (unfold JMap.wf, JMap.keys; rewrite map_map; done).
  rewrite get_map by done. unfold member. simpl. by rewrite (proj2 (str_eqb_neq k "favorite") Hk).
Qed.

Lemma has_patched b fs k : NoDup (map fst fs) -> JMap.has k (own_entries (map (member fs b) fs)) = JMap.has k fs.
Proof.
  intros Hw. unfold JMap.has. rewrite get_own_entries by (unfold JMap.wf, JMap.keys; rewrite map_map; done).
  rewrite get_map by done. by destruct (JMap.get k fs).
Qed.

Lemma is_text_patch b v s : is_text (patch key b <$> v) s = is_text v s.
Proof. by destruct v as [[]|]. Qed.

Lemma is_number_patch b v n : is_number (patch key b <$> v) n = is_number v n.
Proof. by destruct v as [[]|]. Qed.

(** Patching does not change which object is the entity. *)
Lemma matches_patched b fs : NoDup (map fst fs) -> matches key (own_entries (map (member fs b) fs)) = matches key fs.
Proof.
  intros Hw. unfold matches. rewrite !(get_patched b fs) by done. by rewrite !is_text_patch, !is_number_patch, !has_patched.
Qed.

Lemma map_own_entries (f : string * value -> string * value) fs : (forall e, (f e).1 = e.1) ->
  own_entries (map f (own_entries fs)) = own_entries (map f fs).
Proof. intros Hf. rewrite own_entries_map by done. apply own_entries_idem. Qed.

Lemma patch_again b b' v : distinct v -> patch key b' (patch key b v) = patch key b' v.
Proof.
  induction v as [| | | |l IH|fs IH] using value_ind'; try done.
  - simpl. intros H. rewrite Forall_map_id in H. f_equal. rewrite map_map. apply map_ext_elem. intros x Hx.
    rewrite Forall_forall in IH. by apply IH, H.
  - intros [Hw H]. rewrite Forall_map_id in H. rewrite Forall_forall in IH. rewrite !patch_obj. f_equal.
    set (gs := own_entries (map (member fs b) fs)). assert (Hm : matches key gs = matches key fs) by by apply matches_patched.
    unfold gs at 2. rewrite map_own_entries by done. f_equal. rewrite map_map. apply map_ext_elem. intros [k v] Hx. unfold member. simpl.
    rewrite Hm. destruct (k =s "favorite") eqn:Ek, (matches key fs) eqn:Em; simpl; try done; f_equal; by apply (IH (k, v)), (H (k, v)).
Qed.

Lemma patch_tidy b v : distinct v -> says key b v -> patch key b v = tidy v.
Proof.
  induction v as [| | | |l IH|fs IH] using value_ind'; try done.
  - simpl. rewrite !Forall_map_id. intros Hd Hs. f_equal. apply map_ext_elem. intros x Hx. rewrite Forall_forall in IH. apply IH; auto.
  - rewrite patch_obj. simpl. rewrite !Forall_map_id. intros [Hw Hd] [Hf Hs]. rewrite Forall_forall in IH. do 2 f_equal.
    apply map_ext_elem. intros [k v] Hx. unfold member. simpl. f_equal. destruct (k =s "favorite") eqn:Ek, (matches key fs) eqn:Em; simpl;
      try (by apply (IH (k, v)); [done|apply (Hd (k, v))|apply (Hs (k, v))]).
    apply str_eqb_eq in Ek as ->. specialize (Hf eq_refl). apply JMap.elem_get in Hx; [|done]. unfold prop in Hf. assert (v = VBool b) as -> by congruence. done.
Qed.
End patching.

(** ** Properties *)

(** The bucket is sent in pages of at most 200 entries, as few as that allows,
    which hold every entry once and in the order they were asked for. *)
Theorem batches_are_bounded c b : bucket c = Some b -> exists ps, pages (flush c) = pages c ++ ps /\ bucket (flush c) = None /\
  concat (map page_entries ps) = JMap.values b /\
  Forall (fun p => (1 <= length (page_entries p) <= 200)%nat /\ page_answered p = false) ps /\
  Z.of_nat (length ps) = (Z.of_nat (length b) + 199) / 200.
Proof.
  intros Eb. unfold flush. rewrite Eb. set (es := JMap.values b). eexists. split; [reflexivity|]. split; [done|].
  split; [rewrite map_map; simpl; rewrite map_id; by apply pages_of_concat|]. split.
  - apply List.Forall_map. eapply Forall_impl; [apply pages_of_bounded|]. done.
  - rewrite length_map, pages_of_count by done. unfold es, JMap.values. by rewrite length_map.
Qed.

(** A button is only ever given the state of its own key, from the answer of
    the page that asked for it. *)
Theorem answered_with_own_state loadable c n s : reachable loadable c -> promises c !! n = Some (Resolved s) ->
  exists e, in_page c true e /\ entry_promise e = n /\ key_text (state_key s) = key_text (entry_key e).
Proof. intros C%coherent_reachable. by apply co_resolved. Qed.

(** C33. Once the bucket was sent and every page was answered or has failed, every
    button has its answer or an error -- if no button asked for a key that was in
    the bucket already. *)
Theorem every_button_is_answered c : reachable fresh c -> bucket c = None -> Forall (fun p => page_answered p = true) (pages c) ->
  Forall settled (promises c).
Proof.
  intros A%awaited_reachable Eb Hp. apply Forall_lookup. intros n p Hn ->. destruct (A n Hn) as (e & [(b & k & ? & _)|(m & q & Hm & Hq & _)] & _).
  - congruence.
  - apply (Forall_lookup_1 _ _ _ _ Hp) in Hm. congruence.
Qed.

(** Patching a projection with one outcome and then with another gives what
    the other alone gives, so a toggle that fails can be patched back: where the
    entity said so before, that restores the projection. *)
Theorem patch_last_wins key b b' v : distinct v ->
  patch key b' (patch key b v) = patch key b' v /\ (says key b' v -> patch key b' (patch key b v) = tidy v).
Proof. intros H. split; [by apply patch_again|]. intros Hs. rewrite patch_again by done. by apply patch_tidy. Qed.

(** ** Concrete buttons *)

Definition button (n : Z) : FavouriteKey := {| site := "onlyfans"; entity_type := FavUser; entity_id := num_of_Z n |}.
Definition state_of (k : FavouriteKey) : FavouriteState :=
  {| state_key := k; favourited := true; favourite_id := None; created_at := None; created_at_source := None; state_pending := None |}.

Definition two_buttons : cache := loadFavouriteState (button 2) (loadFavouriteState (button 1) no_favourites).
Definition answered_buttons : cache := receive 0 (inr [state_of (button 1)]) (flush two_buttons).

Lemma answered_reachable : reachable fresh answered_buttons.
Proof.
  eapply rtc_l; [apply (Loads fresh (button 1)); reflexivity|].
  eapply rtc_l; [apply (Loads fresh (button 2)); vm_compute; reflexivity|].
  eapply rtc_l; [apply Flushes|]. apply rtc_once, (Receives fresh 0).
Qed.

Lemma batches_are_bounded_witness : exists b, bucket two_buttons = Some b /\ length (pages (flush two_buttons)) = 1%nat.
Proof.
  eexists. split; [vm_compute; reflexivity|].
  edestruct (batches_are_bounded two_buttons) as (ps & H & _ & _ & _ & Hl); [vm_compute; reflexivity|]. rewrite H.
  change (length ps = 1%nat). replace (_ / 200) with 1 in Hl by (vm_compute; reflexivity). lia.
Defined.

Lemma answered_with_own_state_witness : exists e, in_page answered_buttons true e /\ entry_promise e = 0%nat /\
  key_text (button 1) = key_text (entry_key e).
Proof. apply (answered_with_own_state fresh answered_buttons 0 (state_of (button 1)) answered_reachable). vm_compute. reflexivity. Defined.

Lemma every_button_is_answered_witness : promises answered_buttons = [Resolved (state_of (button 1)); Rejected "Missing favourite state"] /\
  Forall settled (promises answered_buttons).
Proof.
  split; [vm_compute; reflexivity|]. apply (every_button_is_answered answered_buttons answered_reachable); [reflexivity|].
  vm_compute. repeat constructor.
Defined.

Definition demo_users (b : bool) : value :=
  VObj [("users", VArr [VObj [("site", VStr "onlyfans"); ("user_id", VNum (#1)); ("favorite", VBool b)];
                        VObj [("site", VStr "onlyfans"); ("user_id", VNum (#2)); ("favorite", VBool false)]])].

Lemma patch_last_wins_witness : patch (button 1) true (demo_users false) = demo_users true /\
  patch (button 1) false (patch (button 1) true (demo_users false)) = demo_users false.
Proof.
  split; [vm_compute; reflexivity|]. destruct (patch_last_wins (button 1) true false (demo_users false)) as [_ H].
  - simpl. repeat constructor; set_solver.
  - rewrite H; [vm_compute; reflexivity|]. simpl. repeat constructor; by vm_compute.
Defined.

(** A second button for a key that is in the bucket takes the first one's
    place: the first is never answered, although every page was. *)
Theorem second_button_hides_the_first : exists c, reachable (fun _ _ => True) c /\ bucket c = None /\
  Forall (fun p => page_answered p = true) (pages c) /\ promises c = [Pending; Resolved (state_of (button 1))].
Proof.
  exists (receive 0 (inr [state_of (button 1)]) (flush (loadFavouriteState (button 1) (loadFavouriteState (button 1) no_favourites)))).
  split; [|split; [reflexivity|split; [vm_compute; repeat constructor|vm_compute; reflexivity]]].
  eapply rtc_l; [by apply (Loads _ (button 1))|]. eapply rtc_l; [by apply (Loads _ (button 1))|].
  eapply rtc_l; [apply Flushes|]. apply rtc_once, (Receives _ 0).
Qed.
