(* ===== verification/ProxyImport.v ===== *)
(** * Importing proxies ([features/network/lib/proxyParser.ts])

    A pasted list of proxies, one per line, in three formats and with an optional
    group after a hash. A thrown [Error] is its message; the attempts to read a
    line as a URL give nothing when any of their calls throws, as their [catch]
    falls through. The browser's [URL] is a parameter ([UrlApi]), with the two
    members only this file reads.

    The list is read line by line, nothing is lost or invented and no entry's
    identifier is given twice; the formats with colons are read as written, with
    ports between 1 and 65535; the group of a line that is shown is read back. *)

From Stdlib Require Import Ascii ZArith Lia.
From stdpp Require Import base list strings option pretty sets.
From S2P Require Import Prelude JsString JsNum JsInt JsText JsUri JsObject WebUrl JsSort.

Class UrlParts `{UrlApi} := {
  (** With its colon. *)
  url_protocol : url -> string;
  (** With the port. *)
  url_host : url -> string
}.

Record parsed_proxy := {
  proxy_url : string;
  proxy_username : option string;
  proxy_password : option string;
  proxy_group : option string
}.

Record ParsedProxyLine := {
  line_id : string;
  raw : string;
  line_url : string;
  line_username : option string;
  line_password : option string;
  line_group : option string;
  line_error : option string
}.

(** [a?.trim() || null] *)
Definition group_text (group : option string) : option string := truthy_opt (trim <$> group).

(** The line without its comment, and the group: the comment's if it has one. *)
Definition split_comment (line : string) (defaultGroup : option string) : string * option string :=
  let group := group_text defaultGroup in
  match split "#" line with
  | mainPart :: commentPart :: _ => (trim mainPart, truthy_opt (Some (trim commentPart)) ??? group)
  | _ => (line, group)
  end.

Section url.
Context `{UrlParts}.

(** [s ? decodeURIComponent(s) : null]; [None] when it throws. *)
Definition credential (s : string) : option (option string) :=
  if truthy s then Some <$> decodeURIComponent s else Some None.

(** A line read as a URL, with the scheme to show. *)
Definition read_url (scheme_of : url -> string) (text : string) (group : option string) : option parsed_proxy :=
  parsed ← parse_url text;
  let host := url_hostname parsed in
  let port := url_port parsed in
  username ← credential (url_username parsed);
  password ← credential (url_password parsed);
  if negb (truthy host) then None
  else Some {| proxy_url := scheme_of parsed +:+ "://" +:+ host +:+ (if truthy port then ":" +:+ port else EmptyString);
               proxy_username := username; proxy_password := password; proxy_group := group |}.

(** [parsed.protocol.replace(':', '').toLowerCase()] *)
Fixpoint without_first (c : ascii) (s : string) : string :=
  match s with
  | String d r => if Ascii.eqb d c then r else String d (without_first c r)
  | EmptyString => EmptyString
  end.
Definition url_scheme (u : url) : string := to_lower (without_first ":" (url_protocol u)).

(** [Number.parseInt(portStr, 10)] between 1 and 65535. *)
Definition valid_port (portStr : string) : option Z :=
  port ← parse_int portStr;
  if (port <=? 0) || (port >? 65535) then None else Some port.

(** [host:port:user:pass] and [host:port]. *)
Definition read_parts (line : string) (group : option string) : string + parsed_proxy :=
  let result host portStr username password :=
    match valid_port portStr with
    | None => inl ("Invalid port in: " +:+ line)
    | Some port => inr {| proxy_url := "http://" +:+ host +:+ ":" +:+ show_Z port;
                          proxy_username := username; proxy_password := password; proxy_group := group |}
    end in
  match split ":" line with
  | [host; portStr; user; pass] => result host portStr (truthy_opt (Some user)) (truthy_opt (Some pass))
  | [host; portStr] => result host portStr None None
  | _ => inl ("Unrecognized proxy format: " +:+ line)
  end.

Definition parseProxyLine (line : string) (defaultGroup : option string) : string + parsed_proxy :=
  let line := trim line in
  if negb (truthy line) then inl "Empty line"
  else
    let '(line, group) := split_comment line defaultGroup in
    if negb (truthy line) then inl "Empty line"
    else match (if includes line "://" then read_url url_scheme line group else None) with
         | Some p => inr p
         | None =>
             match (if includes line "@" then read_url (fun _ => "http") ("http://" +:+ line) group else None) with
             | Some p => inr p
             | None => read_parts line group
             end
         end.

(** One line of the list, unless it is blank or a comment. *)
Definition import_line (defaultGroup : option string) (i : nat) (line : string) : option ParsedProxyLine :=
  let line := trim line in
  if negb (truthy line) || starts_with line "//" then None
  else
    let id := "proxy-import-" +:+ show_Z (Z.of_nat i) +:+ "-" in
    Some match parseProxyLine line defaultGroup with
         | inr p => {| line_id := id +:+ proxy_url p; raw := line; line_url := proxy_url p; line_username := proxy_username p;
                       line_password := proxy_password p; line_group := proxy_group p; line_error := None |}
         | inl e => {| line_id := id +:+ "err"; raw := line; line_url := line; line_username := None; line_password := None;
                       line_group := group_text defaultGroup; line_error := Some e |}
         end.

Definition parseBulkProxyText (text : string) (defaultGroup : option string) : list ParsedProxyLine :=
  omap id (imap (import_line defaultGroup) (split newline text)).

Definition formatProxyForText (proxy_line : string) (username group : option string) : string :=
  let line :=
    match truthy_opt username with
    | Some u =>
        match parse_url proxy_line with
        | Some parsed => url_protocol parsed +:+ "//" +:+ encodeURIComponent u +:+ "@" +:+ url_host parsed
        | None => u +:+ "@" +:+ proxy_line
        end
    | None => proxy_line
    end in
  match truthy_opt group with Some g => line +:+ " # " +:+ g | None => line end.
End url.

(** ** Concrete instance, for examples *)

Definition plain_protocol (u : plain_url) : string := scheme u +:+ ":".
Definition plain_host (u : plain_url) : string := host u +:+ (if truthy (port u) then ":" +:+ port u else EmptyString).
#[export] Instance plain_parts : @UrlParts plain_api := @Build_UrlParts plain_api plain_protocol plain_host.

(** * Properties of the proxy import *)

(** ** Lines *)

Definition listed (line : string) : bool := truthy (trim line) && negb (starts_with (trim line) "//").

(** An entry says what the parser says of its line. *)
Definition faithful `{UrlParts} (defaultGroup : option string) (e : ParsedProxyLine) : Prop :=
  match parseProxyLine (raw e) defaultGroup with
  | inr p => line_error e = None /\ line_url e = proxy_url p /\ line_username e = proxy_username p /\
             line_password e = proxy_password p /\ line_group e = proxy_group p
  | inl message => line_error e = Some message /\ line_url e = raw e /\ line_username e = None /\ line_password e = None /\
                   line_group e = group_text defaultGroup
  end.

Section import.
Context `{UrlParts} (g : option string).

Lemma import_line_spec i line : match import_line g i line with
  | Some e => listed line = true /\ raw e = trim line /\ faithful g e /\
      exists x, line_id e = "proxy-import-" +:+ (show_Z (Z.of_nat i) +:+ String "-" x)
  | None => listed line = false
  end.
Proof.
  unfold import_line, listed. destruct (truthy (trim line)); [|done]. destruct (starts_with (trim line) "//"); [done|]. simpl.
  unfold faithful. destruct (parseProxyLine (trim line) g) as [m|p] eqn:E; simpl; rewrite E; rewrite !app_assoc_str; eauto 10.
Qed.

Definition import_from (k : nat) (lines : list string) : list ParsedProxyLine := omap id (imap (fun i => import_line g (k + i)) lines).

Lemma import_cons k line lines : import_from k (line :: lines) =
  match import_line g k line with Some e => [e] | None => [] end ++ import_from (S k) lines.
Proof.
  unfold import_from. cbn [imap]. rewrite Nat.add_0_r.
  rewrite (imap_ext _ (fun i => import_line g (S k + i))) by (intros; simpl; f_equal; lia).
  by destruct (import_line g k line).
Qed.

Lemma import_raw k lines : map raw (import_from k lines) = map trim (keep listed lines).
Proof.
  revert k. induction lines as [|line lines IH]; intros k; [done|]. rewrite import_cons, map_app, IH. simpl.
  pose proof (import_line_spec k line) as Hl. destruct (import_line g k line) as [e|]; [|by rewrite Hl].
  destruct Hl as (-> & E & _). simpl. by rewrite E.
Qed.

Lemma import_faithful k lines e : e ∈ import_from k lines -> faithful g e /\
  exists i x, (k <= i)%nat /\ line_id e = "proxy-import-" +:+ (show_Z (Z.of_nat i) +:+ String "-" x).
Proof.
  revert k. induction lines as [|line lines IH]; intros k; [by intros ?%elem_of_nil|]. rewrite import_cons.
  intros [He|He]%elem_of_app.
  - pose proof (import_line_spec k line) as Hl. destruct (import_line g k line) as [e'|]; [|by apply elem_of_nil in He].
    apply list_elem_of_singleton in He as ->. destruct Hl as (_ & _ & Hf & x & Hx). eauto 6.
  - destruct (IH (S k) He) as (Hf & i & x & Hi & Hx). split; [done|]. exists i, x. split; [lia|done].
Qed.

Lemma same_id i j x y : show_Z (Z.of_nat i) +:+ String "-" x = show_Z (Z.of_nat j) +:+ String "-" y -> i = j.
Proof.
  intros E. apply first_piece in E; [|apply digits_no_char; [apply show_Z_digits; lia|done]..].
  apply (inj pretty) in E. lia.
Qed.

Lemma import_ids k lines : NoDup (map line_id (import_from k lines)).
Proof.
  revert k. induction lines as [|line lines IH]; intros k; [constructor|]. rewrite import_cons, map_app.
  pose proof (import_line_spec k line) as Hl. destruct (import_line g k line) as [e|]; [|apply IH]. simpl. constructor; [|apply IH].
  intros He. apply list_elem_of_fmap in He as (e' & E & He). destruct (import_faithful _ _ _ He) as (_ & i & x & Hi & Hx).
  destruct Hl as (_ & _ & _ & y & Hy). rewrite Hx, Hy in E. apply app_inj_l in E. apply same_id in E. lia.
Qed.
End import.

(** ** The formats with colons *)

Lemma includes_split s sub : includes s sub = true -> exists a b, s = a +:+ (sub +:+ b).
Proof.
  induction s as [|c s IH]; cbn [includes]; intros Hi.
  - rewrite orb_false_r in Hi. apply starts_with_inv in Hi as [t Ht]. by exists EmptyString, t.
  - apply orb_true_iff in Hi as [Hi|Hi].
    + apply starts_with_inv in Hi as [t Ht]. by exists EmptyString, t.
    + destruct (IH Hi) as (a & b & ->). by exists (String c a), b.
Qed.

Lemma not_includes s sub c : has_char c sub = true -> has_char c s = false -> includes s sub = false.
Proof.
  intros Hc Hs. apply not_true_is_false. intros Hi. apply includes_split in Hi as (a & b & ->).
  by rewrite !has_char_app, Hc, orb_true_r in Hs.
Qed.

(** Neither white space nor a character with a meaning. *)
Definition bare_char (c : ascii) : bool := negb (is_space c) && negb (has_char c "#@/:").
Definition bare (s : string) : Prop := str_forall bare_char s = true.

Lemma bare_no c s : bare s -> bare_char c = false -> has_char c s = false.
Proof.
  intros Hs Hc. unfold has_char. apply negb_false_iff. unfold bare in Hs. induction s as [|d s IH]; [done|]. simpl in *.
  apply andb_true_iff in Hs as [Hd Hs]. rewrite IH by done. rewrite andb_true_r. apply negb_true_iff, Ascii.eqb_neq. congruence.
Qed.

Lemma bare_digits s : str_forall is_digit s = true -> bare s.
Proof.
  unfold bare. induction s as [|c s IH]; [done|]. simpl. intros [Hc Hs]%andb_true_iff. rewrite IH by done. rewrite andb_true_r.
  clear - Hc. by destruct c as [[] [] [] [] [] [] [] []].
Qed.

(** A line made of bare parts. *)
Lemma bare_line `{UrlParts} parts g : parts <> [] -> Forall bare parts -> join ":" parts <> EmptyString ->
  parseProxyLine (join ":" parts) g = read_parts (join ":" parts) (group_text g).
Proof.
  intros Hp Hb Hne.
  assert (Hc : forall c, bare_char c = false -> c <> ":"%char -> has_char c (join ":" parts) = false).
  { intros c Hc Hn. clear Hne Hp. induction Hb as [|p parts Hp Hb IH]; [done|]. destruct parts as [|q parts]; [by apply bare_no|].
    change (join ":" (p :: q :: parts)) with (p +:+ (":" +:+ join ":" (q :: parts))). rewrite !has_char_app, IH, (bare_no c p) by done.
    rewrite has_char_cons, (proj2 (Ascii.eqb_neq ":" c)) by congruence. done. }
  assert (Ht : trim (join ":" parts) = join ":" parts).
  { apply trim_no_space. clear Hc Hne Hp. induction Hb as [|p parts Hp Hb IH]; [done|].
    assert (Hs : str_forall (fun c => negb (is_space c)) p = true).
    { clear - Hp. unfold bare in Hp. induction p as [|c p IH]; [done|]. simpl in *. apply andb_true_iff in Hp as [Hc Hp].
      apply andb_true_iff in Hc as [Hc _]. by rewrite Hc, IH. }
    destruct parts as [|q parts]; [done|]. change (join ":" (p :: q :: parts)) with (p +:+ (":" +:+ join ":" (q :: parts))).
    by rewrite !str_forall_app, Hs, IH. }
  unfold parseProxyLine, split_comment. rewrite Ht. apply truthy_nonempty in Hne as Htr. rewrite Htr. simpl.
  rewrite split_no_sep by by apply Hc. rewrite Htr. simpl.
  rewrite (not_includes _ "://" "/"), (not_includes _ "@" "@") by (done || by apply Hc). done.
Qed.

(** ** Properties *)

(** The list is imported line by line: one entry for each line that is neither
    blank nor a comment, in order, no two with the same identifier, and each with
    what the parser says of its line -- a refused line is an entry with the
    error, never a failure of the import. *)
Theorem bulk_import_spec `{UrlParts} text g :
  map raw (parseBulkProxyText text g) = map trim (keep listed (split newline text)) /\
  NoDup (map line_id (parseBulkProxyText text g)) /\
  (forall e, e ∈ parseBulkProxyText text g -> faithful g e).
Proof.
  assert (E : parseBulkProxyText text g = import_from g 0 (split newline text)) by done. rewrite E.
  split; [apply import_raw|]. split; [apply import_ids|]. intros e He. by apply (import_faithful g 0 _ e He).
Qed.

Lemma valid_port_range s p : valid_port s = Some p -> 1 <= p <= 65535.
Proof.
  unfold valid_port. destruct (parse_int s) as [q|]; [|done]. simpl. destruct ((q <=? 0) || (q >? 65535)) eqn:E; [done|]. intros [= <-].
  apply orb_false_iff in E as [? ?]. lia.
Qed.

Lemma valid_port_show p : 1 <= p <= 65535 -> valid_port (show_Z p) = Some p.
Proof.
  intros H. unfold valid_port. rewrite parse_int_show by lia. simpl. replace (p <=? 0) with false by lia. by replace (p >? 65535) with false by lia.
Qed.

(** The formats with colons are read as they are written, for every port
    between 1 and 65535 and every host, user and password without the characters
    that have a meaning, whatever the browser's URL parser does; an empty user or
    password is none. *)
Theorem colon_formats_read `{UrlParts} host user pass port g :
  bare host -> bare user -> bare pass -> 1 <= port <= 65535 ->
  parseProxyLine (join ":" [host; show_Z port]) g =
    inr {| proxy_url := "http://" +:+ host +:+ ":" +:+ show_Z port; proxy_username := None; proxy_password := None; proxy_group := group_text g |} /\
  parseProxyLine (join ":" [host; show_Z port; user; pass]) g =
    inr {| proxy_url := "http://" +:+ host +:+ ":" +:+ show_Z port; proxy_username := truthy_opt (Some user);
           proxy_password := truthy_opt (Some pass); proxy_group := group_text g |}.
Proof.
  intros Hh Hu Hp Hr. assert (Hport : bare (show_Z port)) by (apply bare_digits, show_Z_digits; lia).
  assert (Hne : forall l, join ":" (host :: show_Z port :: l) <> EmptyString) by (intros l; by destruct host, l).
  split; (rewrite bare_line; [|done|by repeat constructor|by apply Hne]); unfold read_parts;
    rewrite split_join; try done; try (by repeat constructor; apply bare_no); by rewrite valid_port_show.
Qed.

(** A line accepted in one of those formats has a port between 1 and 65535. *)
Lemma ports_in_range line g p : read_parts line g = inr p ->
  exists host port, 1 <= port <= 65535 /\ proxy_url p = "http://" +:+ host +:+ ":" +:+ show_Z port.
Proof.
  unfold read_parts. destruct (split ":" line) as [|host [|portStr [|user [|pass [|? ?]]]]]; try done;
    destruct (valid_port portStr) as [port|] eqn:E; try done; apply valid_port_range in E; intros [= <-]; by exists host, port.
Qed.

(** A line without a host is accepted in the formats with colons, and becomes
    the URL [http://:8080], although a missing host is an error in the formats
    that are read as URLs. *)
Lemma missing_host_accepted `{UrlParts} : exists p, parseProxyLine ":8080" None = inr p /\ proxy_url p = "http://:8080".
Proof. eexists. split; [vm_compute; reflexivity|reflexivity]. Qed.

(** ** Examples *)

Definition demo_list : string :=
  "10.0.0.1:8080:ada:secret # west" +:+ String newline ("// old ones" +:+ String newline (String newline
  ("http://bob:pw@proxy.example:3128" +:+ String newline "not a proxy"))).

Lemma demo_import : map (fun e => (line_id e, line_url e, line_username e, line_password e, line_group e, line_error e))
    (@parseBulkProxyText plain_api plain_parts demo_list (Some " east ")) =
  [("proxy-import-0-http://10.0.0.1:8080", "http://10.0.0.1:8080", Some "ada", Some "secret", Some "west", None);
   ("proxy-import-3-http://proxy.example:3128", "http://proxy.example:3128", Some "bob", Some "pw", Some "east", None);
   ("proxy-import-4-err", "not a proxy", None, None, Some "east", Some "Unrecognized proxy format: not a proxy")].
Proof. vm_compute. reflexivity. Qed.

Lemma bulk_import_spec_witness : exists e, e ∈ @parseBulkProxyText plain_api plain_parts demo_list None /\ @faithful plain_api plain_parts None e.
Proof.
  eexists. split; [vm_compute; constructor|].
  apply (bulk_import_spec (H := plain_api) (H0 := plain_parts) demo_list None). vm_compute. constructor.
Defined.

Lemma colon_formats_read_witness :
  @parseProxyLine plain_api plain_parts "10.0.0.1:8080:ada:secret" None =
    inr {| proxy_url := "http://10.0.0.1:8080"; proxy_username := Some "ada"; proxy_password := Some "secret"; proxy_group := None |}.
Proof. apply (colon_formats_read (H := plain_api) (H0 := plain_parts) "10.0.0.1" "ada" "secret" 8080 None); [reflexivity..|lia]. Defined.
