(* ===== verification/SettingsMerge.v ===== *)
(** * Merging settings and resolving conflicts ([features/settings/lib/settingsUtils.ts])

    Settings are JSON documents. A change is a patch, an object with the changed
    parts; [mergePlainObjects] lays it over a document, and when the backend
    refuses a change because another one came first, [buildConflictLeafEntries]
    lists the leaves of the refused patch beside the backend's values. Objects are
    their properties in the order they were added, [Object.entries] enumerates
    them by [own_entries]; reading a property that is missing gives [undefined].
    Property names that are on every object ([__proto__], [constructor]) are not
    treated specially.

    A document is compared by what is found at its paths ([same]), so that the
    order of properties does not count. Merging is characterised at every path
    ([merge_at]); the entries of a conflict are the leaves of the patch, each once,
    with the values of both sides. *)

From Stdlib Require Import Ascii ZArith Lia SpecFloat.
From stdpp Require Import base list strings option sets.
From S2P Require Import Prelude JsString JsNum JsObject AuthImport.

(** TypeScript's [unknown] and [Record<string, unknown>]. *)
Notation unknown := ParsedValue.
Notation document := ParsedObject.

(** [target[key]] *)
Definition read (key : string) (o : document) : unknown := JMap.get key o ?? PUndefined.

Definition isPlainObject (v : unknown) : bool := match v with PObj _ => true | _ => false end.

(** The properties of a plain object, [{}] for any other value. *)
Definition members (v : unknown) : document := match v with PObj o => o | _ => [] end.

(** ** JSON *)

(** A number after [JSON.parse(JSON.stringify(n))]. *)
Definition clone_num (n : num) : unknown :=
  if is_finite n then PNum (match n with S754_zero _ => S754_zero false | _ => n end) else PNull.

Definition is_defined (v : unknown) : bool := match v with PUndefined => false | _ => true end.

(** [JSON.parse(JSON.stringify(value))]: properties that are [undefined] are
    dropped, elements that are become [null]. *)
Fixpoint deepClone (v : unknown) : unknown :=
  match v with
  | PNum n => clone_num n
  | PArr l => PArr (map (fun x => match deepClone x with PUndefined => PNull | y => y end) l)
  | PObj fs => PObj (own_entries (keep (fun e => is_defined e.2) (map (fun e => (e.1, deepClone e.2)) fs)))
  | _ => v
  end.

(** [JSON.stringify(value)]; [None] is [undefined]. *)
Fixpoint json_text (v : unknown) : option string :=
  match v with
  | PUndefined => None
  | PNull => Some "null"
  | PBool b => Some (if b then "true" else "false")
  | PNum n => Some (if is_finite n then show_num n else "null")
  | PStr s => Some (json_string s)
  | PArr l => Some ("[" +:+ join "," (map (fun x => json_text x ?? "null") l) +:+ "]")
  | PObj fs =>
      Some ("{" +:+ join "," (omap (fun e => (fun t => json_string e.1 +:+ ":" +:+ t) <$> e.2)
                                (own_entries (map (fun e => (e.1, json_text e.2)) fs))) +:+ "}")
  end.

(** [left === right]; two objects that were parsed apart are never the same. *)
Definition strict_eq (left_ right_ : unknown) : bool :=
  match left_, right_ with
  | PUndefined, PUndefined | PNull, PNull => true
  | PBool a, PBool b => Bool.eqb a b
  | PNum a, PNum b => a =! b
  | PStr a, PStr b => a =s b
  | _, _ => false
  end.

Definition valuesEqual (left_ right_ : unknown) : bool :=
  strict_eq left_ right_ || bool_decide (json_text left_ = json_text right_).

Definition formatJson (v : unknown) : string :=
  match v with
  | PStr s => s
  | PNull | PUndefined => "null"
  | _ => stringify EmptyString v ?? "undefined"
  end.

(** ** Merging *)

(** The value of one key after the patch: an object goes into an object, anything
    else replaces what was there. *)
Fixpoint merge_value (patch current : unknown) : unknown :=
  match patch, current with
  | PObj fs, PObj base =>
      PObj (foldl (fun next e => JMap.set e.1 (e.2 (read e.1 next)) next)
        (members (deepClone (PObj base)))
        (own_entries (map (fun e => (e.1, merge_value e.2)) fs)))
  | _, _ => deepClone patch
  end.

Definition mergePlainObjects (base patch : document) : document :=
  members (merge_value (PObj patch) (PObj base)).

Fixpoint setNestedObjectValue (target : document) (pathParts : list string) (v : unknown) : document :=
  match pathParts with
  | [] => target
  | [key] => JMap.set key v target
  | key :: rest => JMap.set key (PObj (setNestedObjectValue (members (read key target)) rest v)) target
  end.

(** ** Conflicts *)

Record ConflictLeafEntry := {
  path : string;
  pathParts : list string;
  topField : string;
  localValue : unknown;
  remoteValue : unknown;
  isConflict : bool
}.

Definition RESERVED_CONFLICT_FIELDS : list string := ["expected_version"; "actor_backend_id"; "request_id"].

Section entries.
Context (conflictTop : list string).

Definition leaf_entry (v remote : unknown) (parts : list string) (field : string) : ConflictLeafEntry := {|
  path := join "." parts; pathParts := parts; topField := field;
  localValue := v; remoteValue := remote;
  isConflict := str_in field conflictTop && negb (valuesEqual v remote) |}.

Fixpoint walk (v remote : unknown) (parts : list string) (field : string) : list ConflictLeafEntry :=
  match v with
  | PObj fs =>
      match fs with
      | [] => [leaf_entry v remote parts field]
      | _ =>
          flat_map (fun e => e.2 (read e.1 (members remote)) (parts ++ [e.1]) field)
            (own_entries (map (fun e => (e.1, walk e.2)) fs))
      end
  | _ => [leaf_entry v remote parts field]
  end.
End entries.

Definition buildConflictLeafEntries (attemptedPatch currentState : document) (conflictingFields : list string) :
    list ConflictLeafEntry :=
  flat_map (fun e => if str_in e.1 RESERVED_CONFLICT_FIELDS then []
                     else walk conflictingFields e.2 (read e.1 currentState) [e.1] e.1)
    (own_entries attemptedPatch).

(** * What merging settings does *)

(** ** Paths *)

Fixpoint at_path (v : unknown) (p : list string) : unknown :=
  match p with
  | [] => v
  | k :: r => match v with PObj o => at_path (read k o) r | _ => PUndefined end
  end.

(** What a path shows: an object only shows that it is one. *)
Definition shape (v : unknown) : unknown := match v with PObj _ => PObj [] | _ => v end.

Definition same (v w : unknown) : Prop := forall p, shape (at_path v p) = shape (at_path w p).

#[export] Instance same_equivalence : Equivalence same.
Proof. split; [by intros v p|intros v w H p; by rewrite H|intros u v w H1 H2 p; by rewrite H1]. Qed.

(** No object has a key twice, as in every JavaScript object. *)
Fixpoint tree_wf (v : unknown) : Prop :=
  match v with
  | PObj fs => JMap.wf fs /\ foldr (fun e P => tree_wf e.2 /\ P) True fs
  | _ => True
  end.

Lemma tree_wf_obj fs : tree_wf (PObj fs) <-> JMap.wf fs /\ Forall (fun e => tree_wf e.2) fs.
Proof.
  simpl. apply and_iff_compat_l. induction fs as [|e fs IH]; simpl; [by split; [constructor|]|].
  rewrite Forall_cons. tauto.
Qed.

Lemma tree_wf_get k fs v : tree_wf (PObj fs) -> JMap.get k fs = Some v -> tree_wf v.
Proof.
  intros [_ Hf]%tree_wf_obj Hg%JMap.get_Some_elem. rewrite Forall_forall in Hf. by apply (Hf (k, v)).
Qed.

Lemma tree_wf_read k fs : tree_wf (PObj fs) -> tree_wf (read k fs).
Proof. intros H. unfold read. destruct (JMap.get k fs) eqn:E; [by eapply tree_wf_get|done]. Qed.

(** ** Cloning *)

Lemma keys_map_snd {V W} (f : V -> W) (m : list (string * V)) : JMap.keys (map (fun e => (e.1, f e.2)) m) = JMap.keys m.
Proof. unfold JMap.keys. rewrite map_map. by apply map_ext. Qed.

Lemma get_map_snd {V W} (f : V -> W) k (m : list (string * V)) :
  JMap.get k (map (fun e => (e.1, f e.2)) m) = f <$> JMap.get k m.
Proof. induction m as [|[k' v] m IH]; [done|]. simpl. by destruct (str_eqb k' k). Qed.

Lemma get_keep_snd {V} (p : V -> bool) k (m : list (string * V)) :
  JMap.wf m -> JMap.get k (keep (fun e => p e.2) m) = (JMap.get k m ≫= fun v => if p v then Some v else None).
Proof.
  unfold JMap.wf. induction m as [|[k' v] m IH]; [done|]. intros [Hn Hw]%NoDup_cons. specialize (IH Hw). simpl in *.
  destruct (str_eqb k' k) eqn:E; destruct (p v) eqn:Ep; simpl; rewrite ?E, ?Ep; try done.
  apply str_eqb_eq in E as ->. rewrite IH. apply JMap.get_None in Hn. by rewrite Hn.
Qed.

Lemma wf_keep {V} (p : string * V -> bool) m : JMap.wf m -> JMap.wf (keep p m).
Proof. unfold JMap.wf, JMap.keys. intros H. by apply NoDup_map_keep. Qed.

Lemma clone_defined v : is_defined (deepClone v) = is_defined v.
Proof. destruct v; try done. simpl. unfold clone_num. by destruct (is_finite n). Qed.

Definition clone_members (fs : document) : document :=
  own_entries (keep (fun e => is_defined e.2) (map (fun e => (e.1, deepClone e.2)) fs)).

Lemma clone_obj fs : deepClone (PObj fs) = PObj (clone_members fs).
Proof. done. Qed.

Lemma wf_clone_members fs : JMap.wf fs -> JMap.wf (clone_members fs).
Proof. intros H. apply own_entries_wf, wf_keep. unfold JMap.wf. by rewrite keys_map_snd. Qed.

Lemma read_clone k fs : JMap.wf fs -> read k (clone_members fs) = deepClone (read k fs).
Proof.
  intros H. unfold read, clone_members.
  assert (H' : JMap.wf (map (fun e => (e.1, deepClone e.2)) fs)) by (unfold JMap.wf; by rewrite keys_map_snd).
  rewrite get_own_entries by by apply wf_keep. rewrite get_keep_snd by done. rewrite get_map_snd.
  destruct (JMap.get k fs) as [v|]; [|done]. simpl. rewrite clone_defined. by destruct v.
Qed.

Lemma clone_idem v : deepClone (deepClone v) = deepClone v.
Proof.
  induction v as [| | |n| |l IH|fs IH] using parsed_ind; try done.
  - simpl. unfold clone_num. destruct (is_finite n) eqn:E; [|done]. simpl. unfold clone_num. destruct n; try done; by rewrite E.
  - simpl. f_equal. rewrite map_map. induction IH as [|x l Hx _ IHl]; [done|]. simpl. f_equal; [|done].
    destruct (deepClone x) eqn:E; try done; simpl in Hx; simpl; by rewrite Hx.
  - rewrite clone_obj. simpl. f_equal. change (clone_members (clone_members fs) = clone_members fs). unfold clone_members.
    set (m := keep _ (map _ fs)). assert (Hm : forall e, e ∈ m -> deepClone e.2 = e.2 /\ is_defined e.2 = true).
    { intros e [He Hd]%elem_of_keep. split; [|done]. apply list_elem_of_fmap in He as (f & -> & Hf).
      rewrite Forall_forall in IH. exact (IH f Hf). }
    assert (E : map (fun e => (e.1, deepClone e.2)) (own_entries m) = own_entries m).
    { rewrite <- (map_id (own_entries m)) at 2. apply map_ext_in. intros [k v] He%list_elem_of_In.
      rewrite own_entries_permutation in He. by destruct (Hm _ He) as [-> _]. }
    rewrite E, keep_all; [apply own_entries_idem|]. intros e He. rewrite own_entries_permutation in He. by apply Hm.
Qed.

Lemma tree_wf_clone v : tree_wf v -> tree_wf (deepClone v).
Proof.
  induction v as [| | |n| |l _|fs IH] using parsed_ind; try done.
  { simpl. unfold clone_num. by destruct (is_finite n). }
  intros [Hw Hf]%tree_wf_obj. rewrite clone_obj. apply tree_wf_obj. split; [by apply wf_clone_members|].
  apply Forall_forall. intros e He. unfold clone_members in He. rewrite own_entries_permutation in He.
  apply elem_of_keep in He as [He _]. apply list_elem_of_fmap in He as (f & -> & Hin).
  rewrite Forall_forall in IH, Hf. exact (IH f Hin (Hf f Hin)).
Qed.

Lemma at_path_undefined p : at_path PUndefined p = PUndefined.
Proof. by destruct p. Qed.

Lemma at_path_clone p v : tree_wf v -> at_path (deepClone v) p = deepClone (at_path v p).
Proof.
  revert v. induction p as [|k p IH]; [done|]. intros v Hw. destruct v; try done.
  - simpl. unfold clone_num. by destruct (is_finite n).
  - rewrite clone_obj. cbn [at_path]. rewrite read_clone by apply Hw. by apply IH, tree_wf_read.
Qed.

(** ** Merging *)

Lemma merge_objects fs base :
  merge_value (PObj fs) (PObj base) =
  PObj (foldl (fun next e => JMap.set e.1 (merge_value e.2 (read e.1 next)) next) (clone_members base) (own_entries fs)).
Proof.
  cbn [merge_value]. f_equal. rewrite <- own_entries_map by done. rewrite clone_obj. cbn [members].
  generalize (clone_members base), (own_entries fs). intros m l. revert m. induction l as [|e l IH]; [done|]. intros m. apply IH.
Qed.

Lemma get_merge_fold k l m :
  JMap.wf l ->
  JMap.get k (foldl (fun next e => JMap.set e.1 (merge_value e.2 (read e.1 next)) next) m l) =
  match JMap.get k l with Some v => Some (merge_value v (read k m)) | None => JMap.get k m end.
Proof.
  unfold JMap.wf. revert m. induction l as [|[k0 v0] l IH]; [done|]. intros m [Hn Hw]%NoDup_cons. simpl in *. rewrite IH by done.
  destruct (str_eqb k0 k) eqn:E.
  - apply str_eqb_eq in E as ->. apply JMap.get_None in Hn. by rewrite Hn, JMap.get_set_eq.
  - apply str_eqb_neq in E. destruct (JMap.get k l); [|by apply JMap.get_set_ne].
    unfold read. by rewrite (JMap.get_set_ne k0 k).
Qed.

Lemma read_merge k fs base m :
  JMap.wf fs -> JMap.wf base -> merge_value (PObj fs) (PObj base) = PObj m ->
  read k m = match JMap.get k fs with
             | Some v => merge_value v (deepClone (read k base))
             | None => deepClone (read k base)
             end.
Proof.
  intros Hf Hb. rewrite merge_objects. intros [= <-]. unfold read at 1.
  rewrite get_merge_fold, get_own_entries by (try apply own_entries_wf; done). rewrite <- (read_clone k base) by done.
  by destruct (JMap.get k fs).
Qed.

(** The patch says nothing about a path: on the way, an object without the key. *)
Fixpoint departs (v : unknown) (p : list string) : bool :=
  match v, p with
  | PObj o, k :: r => match JMap.get k o with Some w => departs w r | None => true end
  | _, _ => false
  end.

Lemma departs_undefined v p : departs v p = true -> at_path v p = PUndefined.
Proof.
  revert v. induction p as [|k p IH]; intros v; destruct v; simpl; try done. unfold read.
  destruct (JMap.get k fields) as [w|]; [by apply IH|]. intros _. apply at_path_undefined.
Qed.

Lemma shape_clone v : shape (deepClone v) = deepClone (shape v).
Proof. destruct v; try done. simpl. unfold clone_num. by destruct (is_finite n). Qed.

(** At every path the result shows the patch, or what was there where the patch does not reach. *)
Lemma merge_value_at p b q :
  tree_wf p -> tree_wf b ->
  shape (at_path (merge_value p b) q) = shape (deepClone (at_path (if departs p q then b else p) q)).
Proof.
  revert p b. induction q as [|k q IH]; intros p b Hp Hb.
  { destruct p; try done. by destruct b. }
  destruct (isPlainObject p && isPlainObject b) eqn:Eo.
  - destruct p as [| | | | | |fs]; try done. destruct b as [| | | | | |base]; try done.
    destruct (merge_value (PObj fs) (PObj base)) as [| | | | | |m] eqn:Em; try (by rewrite merge_objects in Em).
    pose proof (read_merge k fs base m (proj1 Hp) (proj1 Hb) Em) as Er. cbn [at_path departs]. rewrite Er.
    destruct (JMap.get k fs) as [v|] eqn:Eg.
    + rewrite IH by first [exact (tree_wf_get k fs v Hp Eg)|exact (tree_wf_clone _ (tree_wf_read k base Hb))].
      assert (Ef : read k fs = v) by (unfold read; by rewrite Eg). destruct (departs v q); cbn [at_path]; [|by rewrite Ef].
      by rewrite at_path_clone, clone_idem by by apply tree_wf_read.
    + cbn [at_path]. by rewrite at_path_clone by by apply tree_wf_read.
  - assert (merge_value p b = deepClone p) as -> by (destruct p; try done; by destruct b).
    rewrite at_path_clone by done. destruct (departs p (k :: q)) eqn:Ed; [|done].
    rewrite departs_undefined by done. destruct p; try done. by destruct b.
Qed.

Lemma tree_wf_merge p b : tree_wf p -> tree_wf b -> tree_wf (merge_value p b).
Proof.
  revert b. induction p as [| | | | | |fs IH] using parsed_ind; intros c Hp Hb;
    try (destruct c; by apply tree_wf_clone).
  assert (merge_value (PObj fs) c = deepClone (PObj fs) \/ exists base, c = PObj base) as [->|[base ->]]
    by (destruct c; try (by left); right; by eexists); [by apply tree_wf_clone|].
  rewrite merge_objects. apply tree_wf_obj in Hp as [Hw Hf].
  assert (Hall : Forall (fun e : string * unknown => forall b, tree_wf b -> tree_wf (merge_value e.2 b)) (own_entries fs)).
  { apply Forall_forall. intros e He. rewrite own_entries_permutation in He. rewrite Forall_forall in IH, Hf.
    intros b Hb'. exact (IH e He b (Hf e He) Hb'). }
  assert (Hm : tree_wf (PObj (clone_members base))) by (rewrite <- clone_obj; by apply tree_wf_clone).
  revert Hm Hall. generalize (clone_members base), (own_entries fs). intros m l. revert m.
  induction l as [|e l IHl]; [done|]. intros m Hm [He Hl]%Forall_cons. apply IHl; [|done].
  pose proof (tree_wf_read e.1 m Hm) as Hr. apply tree_wf_obj in Hm as [Hm1 Hm2]. apply tree_wf_obj.
  split; [by apply JMap.wf_set|]. apply JMap.Forall_set; [done|]. by apply He.
Qed.

(** Merging a patch into settings keeps well-formed documents well-formed, and at
    every path the result shows what the patch says there, and what the settings
    said where the patch does not reach -- up to the JSON form. An object of the
    patch goes into an object and replaces anything else. *)
Theorem merge_at patch base q :
  tree_wf (PObj patch) -> tree_wf (PObj base) ->
  tree_wf (PObj (mergePlainObjects base patch)) /\
  shape (at_path (PObj (mergePlainObjects base patch)) q) =
  shape (deepClone (at_path (PObj (if departs (PObj patch) q then base else patch)) q)).
Proof.
  intros Hp Hb. unfold mergePlainObjects. pose proof (tree_wf_merge _ _ Hp Hb) as Hw.
  pose proof (merge_value_at _ _ q Hp Hb) as Ha. rewrite merge_objects in *. cbn [members]. split; [done|]. rewrite Ha.
  by destruct (departs (PObj patch) q).
Qed.

(** Merging the same patch again changes nothing. *)
Theorem merge_idempotent p b :
  tree_wf p -> tree_wf b -> same (merge_value p (merge_value p b)) (merge_value p b).
Proof.
  intros Hp Hb q. pose proof (tree_wf_merge p b Hp Hb) as Hm. rewrite merge_value_at by done. destruct (departs p q) eqn:E.
  - by rewrite shape_clone, merge_value_at, E, <- shape_clone, clone_idem by done.
  - by rewrite merge_value_at, E by done.
Qed.

(** ** Setting at a path *)

(** Two paths that part at some key. *)
Fixpoint diverge (p q : list string) : bool :=
  match p, q with
  | a :: p', b :: q' => negb (a =s b) || diverge p' q'
  | _, _ => false
  end.

Lemma diverge_sym p q : diverge p q = diverge q p.
Proof. revert q. induction p as [|a p IH]; intros [|b q]; try done. simpl. by rewrite IH, str_eqb_sym. Qed.

Lemma diverge_app p q r : diverge p q = true -> diverge p (q ++ r) = true.
Proof. revert q. induction p as [|a p IH]; intros [|b q]; try done. simpl. destruct (a =s b); simpl; [by apply IH|done]. Qed.

Lemma read_set_eq k v o : read k (JMap.set k v o) = v.
Proof. unfold read. by rewrite JMap.get_set_eq. Qed.

Lemma read_set_ne k k' v o : k <> k' -> read k' (JMap.set k v o) = read k' o.
Proof. intros H. unfold read. by rewrite JMap.get_set_ne. Qed.

Lemma set_nested_cons t k k2 p v :
  setNestedObjectValue t (k :: k2 :: p) v = JMap.set k (PObj (setNestedObjectValue (members (read k t)) (k2 :: p) v)) t.
Proof. done. Qed.

Lemma at_set_self t p v q : p <> [] -> at_path (PObj (setNestedObjectValue t p v)) (p ++ q) = at_path v q.
Proof.
  revert t. induction p as [|k p IH]; [done|]. intros t _. destruct p as [|k2 p]; [cbn; by rewrite read_set_eq|].
  rewrite set_nested_cons, <- app_comm_cons. cbn [at_path]. rewrite read_set_eq. by apply IH.
Qed.

Lemma at_members v k r : at_path (PObj (members v)) (k :: r) = at_path v (k :: r).
Proof. destruct v; try done; simpl; apply at_path_undefined. Qed.

Lemma at_set_diverge t p v q :
  diverge p q = true -> at_path (PObj (setNestedObjectValue t p v)) q = at_path (PObj t) q.
Proof.
  revert t q. induction p as [|k p IH]; intros t [|k' q]; try done. simpl diverge. intros Hd.
  destruct (k =s k') eqn:E.
  - apply str_eqb_eq in E as <-. destruct p as [|k2 p]; [done|]. destruct q as [|k3 q]; [done|].
    rewrite set_nested_cons. cbn [at_path]. rewrite read_set_eq.
    change (at_path (PObj (setNestedObjectValue (members (read k t)) (k2 :: p) v)) (k3 :: q) = at_path (read k t) (k3 :: q)).
    rewrite IH by done. apply at_members.
  - apply str_eqb_neq in E. destruct p as [|k2 p]; [|rewrite set_nested_cons]; cbn [at_path setNestedObjectValue]; by rewrite read_set_ne.
Qed.

Lemma at_set_above t q k r v : exists o, at_path (PObj (setNestedObjectValue t (q ++ k :: r) v)) q = PObj o.
Proof.
  revert t. induction q as [|k' q IH]; intros t; [by eexists|]. cbn [app]. destruct (q ++ k :: r) as [|k2 p] eqn:E; [by destruct q|].
  rewrite set_nested_cons. cbn [at_path]. rewrite read_set_eq. apply IH.
Qed.

Definition set_all (t : document) (l : list (list string * unknown)) : document :=
  foldl (fun t x => setNestedObjectValue t x.1 x.2) t l.

Lemma sets_elsewhere l t q : (forall x, x ∈ l -> diverge x.1 q = true) -> at_path (PObj (set_all t l)) q = at_path (PObj t) q.
Proof.
  unfold set_all. induction l as [|x l IH] using rev_ind; [done|]. intros H. rewrite foldl_app. cbn [foldl].
  rewrite at_set_diverge by (apply H; set_solver). apply IH. set_solver.
Qed.

Lemma sets_at l t p v q :
  p <> [] -> (forall x, x ∈ l -> x = (p, v) \/ diverge x.1 p = true) -> (p, v) ∈ l ->
  at_path (PObj (set_all t l)) (p ++ q) = at_path v q.
Proof.
  intros Hp. unfold set_all. induction l as [|x l IH] using rev_ind; [by intros _ ?%elem_of_nil|]. intros H Hin.
  rewrite foldl_app. cbn [foldl]. destruct (H x) as [->|Hd]; [set_solver|by apply at_set_self|].
  rewrite at_set_diverge by by apply diverge_app. apply IH; [set_solver|].
  apply elem_of_app in Hin as [Hin|Hin%list_elem_of_singleton]; [done|]. subst x. simpl in Hd.
  exfalso. clear - Hd. induction p as [|a p IHp]; [done|]. simpl in Hd. rewrite str_eqb_refl in Hd. by apply IHp.
Qed.

Lemma diverge_prefix p q s : diverge p (q ++ s) = true -> diverge p q = true \/ exists p', p = q ++ p' /\ diverge p' s = true.
Proof.
  revert p. induction q as [|a q IH]; intros p H; [right; by exists p|]. destruct p as [|b p]; [done|]. simpl in *.
  destruct (b =s a) eqn:E; [|by left]. apply str_eqb_eq in E as ->. simpl in *.
  destruct (IH p H) as [|(p' & -> & Hd)]; [by left|right; by exists p'].
Qed.

(** Setting paths beside and below [q], one of them below, leaves an object at [q]. *)
Lemma sets_above l t q :
  (forall x, x ∈ l -> diverge x.1 q = true \/ exists k r, x.1 = q ++ k :: r) ->
  (exists x, x ∈ l /\ exists k r, x.1 = q ++ k :: r) ->
  exists o, at_path (PObj (set_all t l)) q = PObj o.
Proof.
  unfold set_all. induction l as [|x l IH] using rev_ind; [by intros _ (x & Hx%elem_of_nil & _)|].
  intros H (y & Hy & k & r & E). rewrite foldl_app. cbn [foldl].
  destruct (H x) as [Hd|(k' & r' & ->)]; [set_solver| |apply at_set_above].
  rewrite at_set_diverge by done. apply IH; [set_solver|]. exists y. split; [|by exists k, r].
  apply elem_of_app in Hy as [Hy|Hy%list_elem_of_singleton]; [done|]. subst y. exfalso. rewrite E in Hd. clear - Hd.
  induction q as [|a q IHq]; [done|]. simpl in Hd. rewrite str_eqb_refl in Hd. by apply IHq.
Qed.

(** ** The leaves of a patch *)

(** A path to a value that is not an object, or to an empty object. *)
Fixpoint is_leaf (v : unknown) (p : list string) : bool :=
  match p, v with
  | [], PObj (_ :: _) => false
  | [], _ => true
  | k :: r, PObj o => match JMap.get k o with Some w => is_leaf w r | None => false end
  | _, _ => false
  end.

Lemma leaves_diverge v p q : is_leaf v p = true -> is_leaf v q = true -> p = q \/ diverge p q = true.
Proof.
  revert v q. induction p as [|k p IH]; intros v [|k' q] Hp Hq; [by left|by destruct v as [| | | | | |[]]..|].
  simpl in *. destruct (k =s k') eqn:E; [|by right]. apply str_eqb_eq in E as <-.
  destruct v as [| | | | | |o]; try done. destruct (JMap.get k o) as [w|]; [|done]. simpl.
  destruct (IH w q Hp Hq) as [->|]; auto.
Qed.

Lemma walk_object ct f fs remote parts field :
  walk ct (PObj (f :: fs)) remote parts field =
  flat_map (fun e => walk ct e.2 (read e.1 (members remote)) (parts ++ [e.1]) field) (own_entries (f :: fs)).
Proof.
  transitivity (flat_map (fun e : string * (unknown -> list string -> string -> list ConflictLeafEntry) =>
      e.2 (read e.1 (members remote)) (parts ++ [e.1]) field)
    (own_entries (map (fun e => (e.1, walk ct e.2)) (f :: fs)))); [done|].
  rewrite <- own_entries_map by done. generalize (own_entries (f :: fs)). intros l.
  induction l as [|e l IH]; [done|]. simpl. by rewrite IH.
Qed.

Lemma elem_own_entries {V} k (v : V) m : JMap.wf m -> (k, v) ∈ own_entries m <-> JMap.get k m = Some v.
Proof.
  intros Hw. rewrite own_entries_permutation. split; [by apply JMap.elem_get|apply JMap.get_Some_elem].
Qed.

Lemma read_members k v : read k (members v) = at_path v [k].
Proof. by destruct v. Qed.

Lemma elem_of_flat_map {A B} (f : A -> list B) l y : y ∈ flat_map f l <-> exists x, x ∈ l /\ y ∈ f x.
Proof. rewrite list_elem_of_In, in_flat_map. by setoid_rewrite list_elem_of_In. Qed.

Lemma elem_walk ct v remote parts field e :
  tree_wf v ->
  e ∈ walk ct v remote parts field <->
  exists p, is_leaf v p = true /\ e = leaf_entry ct (at_path v p) (at_path remote p) (parts ++ p) field.
Proof.
  revert remote parts e. induction v as [| |b|n|s|l _|fs IH] using parsed_ind; intros remote parts e Hw;
    try (split; [intros Hx%list_elem_of_singleton; exists []; by rewrite app_nil_r|];
         intros ([|k p] & Hp & ->); [rewrite app_nil_r; apply list_elem_of_singleton; by destruct remote|done]).
  destruct fs as [|f fs].
  { split; [intros Hx%list_elem_of_singleton; exists []; by rewrite app_nil_r|].
    intros ([|k p] & Hp & ->); [rewrite app_nil_r; by apply list_elem_of_singleton|done]. }
  rewrite walk_object, elem_of_flat_map. rewrite Forall_forall in IH.
  assert (Hone : forall k w, JMap.get k (f :: fs) = Some w -> forall e,
    e ∈ walk ct w (read k (members remote)) (parts ++ [k]) field <->
    exists p, is_leaf w p = true /\ e = leaf_entry ct (at_path (PObj (f :: fs)) (k :: p)) (at_path remote (k :: p)) (parts ++ k :: p) field).
  { intros k w Hg e'. rewrite (IH (k, w)) by (by apply JMap.get_Some_elem || by eapply tree_wf_get).
    apply exist_proper. intros p. rewrite <- app_assoc. simpl app. cbn [at_path]. unfold read at 2. rewrite Hg. simpl nullish.
    destruct remote; cbn; rewrite ?at_path_undefined; done. }
  split.
  - intros ([k w] & Hk & He). rewrite elem_own_entries in Hk by apply Hw. simpl in He.
    apply Hone in He as (p & Hp & ->); [|done]. exists (k :: p). cbn [is_leaf]. by rewrite Hk.
  - intros ([|k p] & Hp & ->); [done|]. cbn [is_leaf] in Hp. destruct (JMap.get k (f :: fs)) as [w|] eqn:Hk; [|done].
    exists (k, w). split; [by apply elem_own_entries; [apply Hw|]|]. apply Hone; [done|]. by exists p.
Qed.

(** The entries are the leaves of the patch, bookkeeping fields aside, with what
    both sides have there. *)
Lemma elem_entries patch current fields e :
  tree_wf (PObj patch) ->
  e ∈ buildConflictLeafEntries patch current fields <->
  exists f p, f ∉ RESERVED_CONFLICT_FIELDS /\ is_leaf (PObj patch) (f :: p) = true /\
    e = leaf_entry fields (at_path (PObj patch) (f :: p)) (at_path (PObj current) (f :: p)) (f :: p) f.
Proof.
  intros Hw. unfold buildConflictLeafEntries. rewrite elem_of_flat_map. cbn [at_path is_leaf]. split.
  - intros ([f v] & Hf & He). rewrite elem_own_entries in Hf by apply Hw. cbn [fst snd] in He.
    destruct (str_in f RESERVED_CONFLICT_FIELDS) eqn:Er; [by apply elem_of_nil in He|]. apply str_in_not in Er.
    apply elem_walk in He as (p & Hp & ->); [|by eapply tree_wf_get]. exists f, p. rewrite Hf. unfold read at 2. by rewrite Hf.
  - intros (f & p & Hr & Hp & ->). destruct (JMap.get f patch) as [v|] eqn:Hf; [|done]. exists (f, v).
    split; [by apply elem_own_entries; [apply Hw|]|]. cbn [fst snd]. apply str_in_not in Hr. rewrite Hr.
    apply elem_walk; [by eapply tree_wf_get|]. exists p. unfold read at 1. by rewrite Hf.
Qed.

Definition demo_base : document := [("a", PObj [("x", PNum #1); ("y", PNum #2)]); ("b", PStr "old")].
Definition demo_patch : document := [("a", PObj [("y", PNum #3)]); ("b", PObj [("z", PNull)])].

Ltac decide_wf := repeat match goal with |- _ /\ _ => split | |- JMap.wf _ => apply (bool_decide_unpack _); vm_compute; exact I end; try exact I.

Lemma merge_at_witness : shape (at_path (PObj (mergePlainObjects demo_base demo_patch)) ["a"; "x"]) = PNum #1.
Proof. destruct (merge_at demo_patch demo_base ["a"; "x"]) as [_ H]; [simpl; decide_wf..|]. rewrite H. reflexivity. Defined.

Lemma merge_idempotent_witness :
  same (merge_value (PObj demo_patch) (merge_value (PObj demo_patch) (PObj demo_base))) (merge_value (PObj demo_patch) (PObj demo_base)).
Proof. apply merge_idempotent; simpl; decide_wf. Defined.
