(* ===== verification/SettingsEdit.v ===== *)
(** * Editing and saving settings ([features/settings/hooks/useSettingsPageController.ts])

    The page keeps the edits as a patch of the settings it has loaded. Saving lays
    the edits over the loaded settings, names the version they were made on and
    sends them; the backend refuses them when another version came first, and the
    page then asks, leaf by leaf, which side to keep. An asynchronous function is
    cut at its [await]s; what it captured from the render it started in is kept with
    the pending call. Also the requests of [api/settings.ts] a save is made of.
    The page's settings are the objects the types say they are ([redis], [network]
    and [backend] are objects). *)

From Stdlib Require Import Ascii ZArith Lia SpecFloat.
From stdpp Require Import base list strings option.
From S2P Require Import Prelude JsString JsNum JsInt JsText JsObject AuthImport SettingsMerge.

(** [a ?? b] *)
Definition coalesce (a b : unknown) : unknown := match a with PUndefined | PNull => b | _ => a end.

Definition is_nullish (v : unknown) : bool := match v with PUndefined | PNull => true | _ => false end.

(** [Boolean(v)] *)
Definition is_truthy (v : unknown) : bool :=
  match v with
  | PUndefined | PNull => false
  | PBool b => b
  | PNum n => num_truthy n
  | PStr s => truthy s
  | PArr _ | PObj _ => true
  end.

(** [v?.key] *)
Definition field (key : string) (v : unknown) : unknown := read key (members v).

(** [{ ...a, ...b }] *)
Definition spread (a b : document) : document := foldl (fun m e => JMap.set e.1 e.2 m) a (own_entries b).

(** ** Requests *)

Record TestRedisConnectionRequest := { tr_host : unknown; tr_port : unknown; tr_db : unknown; tr_password : unknown }.

Record TestRedisConnectionResponse := { success : bool; message : string; latency_ms : option num }.

Record SettingsConflictDetail := {
  detail_message : option string;
  current : unknown;
  current_version : unknown;
  current_updated_at : unknown;
  attempted_patch : option document;
  conflicting_fields : option (list string)
}.

(** What a request fails with: the response's status and detail, if there was a
    response, and the message of an [Error]. *)
Record failure := {
  status : option Z;
  detail : option SettingsConflictDetail;
  error_message : option string
}.

Definition ALLOWED : list string :=
  ["worker_pool"; "network"; "download_setup"; "metadata_setup"; "drm"; "job_execution"; "previews_directory";
   "subtitles_directory"; "sites"; "infinite_loop"; "exit_on_completion"; "expected_version"; "actor_backend_id"; "request_id"].

Definition applicationSettingsPayload (settings : document) : document :=
  let payload := foldl (fun payload key => if JMap.has key settings then JMap.set key (read key settings) payload else payload)
                   [] ALLOWED in
  if is_truthy (read "backend" settings)
  then JMap.set "backend" (PObj (keep (fun e => negb (e.1 =s "backend_id")) (members (read "backend" settings)))) payload
  else payload.

(** The backend: its state, and how it answers the two requests. *)
Class SettingsApi := {
  backend_state : Type;
  put_settings : backend_state -> document -> backend_state * (failure + document);
  put_redis : backend_state -> unknown -> backend_state * (failure + document)
}.

Section update.
Context {A : SettingsApi}.

Definition application_keys (payload : document) : list string :=
  keep (fun key => negb (str_in key ["expected_version"; "actor_backend_id"; "request_id"])) (JMap.keys payload).

Definition updateSettings (b : backend_state) (settings : document) : backend_state * (failure + document) :=
  let applicationPayload := applicationSettingsPayload settings in
  let sends := negb (length (application_keys applicationPayload) =? 0)%nat || negb (is_truthy (read "redis" settings)) in
  let '(b, first) := if sends then let '(b, r) := put_settings b applicationPayload in (b, match r with inl e => inl e | inr d => inr (Some d) end)
                     else (b, inr None) in
  match first with
  | inl e => (b, inl e)
  | inr current =>
      if is_truthy (read "redis" settings) then put_redis b (read "redis" settings)
      else (b, match current with
               | Some d => inr d
               | None => inl {| status := None; detail := None; error_message := Some "No settings changes were provided." |}
               end)
  end.
End update.

(** ** The page's state *)

Inductive MergeChoice := Local | Remote.

Record ConflictModalState := {
  conflict_current : document;
  currentVersion : unknown;
  currentUpdatedAt : unknown;
  attemptedPatch : document;
  conflictingFields : list string
}.

Record page := {
  settings : option document;
  editedSettings : document;
  hasChanges : bool;
  isTestingRedis : bool;
  redisTestResult : option TestRedisConnectionResponse;
  isSaving : bool;
  conflictState : option ConflictModalState;
  conflictChoices : JMap.t MergeChoice;
  conflictSaveError : option string
}.

Definition new_page : page := {|
  settings := None; editedSettings := []; hasChanges := false; isTestingRedis := false; redisTestResult := None;
  isSaving := false; conflictState := None; conflictChoices := JMap.empty; conflictSaveError := None |}.

Definition set_edits (edits : document) (p : page) : page := {|
  settings := settings p; editedSettings := edits; hasChanges := true; isTestingRedis := isTestingRedis p;
  redisTestResult := redisTestResult p; isSaving := isSaving p; conflictState := conflictState p;
  conflictChoices := conflictChoices p; conflictSaveError := conflictSaveError p |}.

Definition set_result (r : option TestRedisConnectionResponse) (p : page) : page := {|
  settings := settings p; editedSettings := editedSettings p; hasChanges := hasChanges p; isTestingRedis := isTestingRedis p;
  redisTestResult := r; isSaving := isSaving p; conflictState := conflictState p;
  conflictChoices := conflictChoices p; conflictSaveError := conflictSaveError p |}.

Definition set_busy (saving testing : bool) (p : page) : page := {|
  settings := settings p; editedSettings := editedSettings p; hasChanges := hasChanges p; isTestingRedis := testing;
  redisTestResult := redisTestResult p; isSaving := saving; conflictState := conflictState p;
  conflictChoices := conflictChoices p; conflictSaveError := conflictSaveError p |}.

Definition set_conflict (c : option ConflictModalState) (choices : JMap.t MergeChoice) (e : option string) (p : page) : page := {|
  settings := settings p; editedSettings := editedSettings p; hasChanges := hasChanges p; isTestingRedis := isTestingRedis p;
  redisTestResult := redisTestResult p; isSaving := isSaving p; conflictState := c;
  conflictChoices := choices; conflictSaveError := e |}.

(** The query's data is replaced and the edits are dropped. *)
Definition adopt (d : option document) (p : page) : page := {|
  settings := d; editedSettings := []; hasChanges := false; isTestingRedis := isTestingRedis p;
  redisTestResult := redisTestResult p; isSaving := isSaving p; conflictState := conflictState p;
  conflictChoices := conflictChoices p; conflictSaveError := conflictSaveError p |}.

(** The settings arrive again. *)
Definition fetched (d : document) (p : page) : page := {|
  settings := Some d; editedSettings := editedSettings p; hasChanges := hasChanges p; isTestingRedis := isTestingRedis p;
  redisTestResult := redisTestResult p; isSaving := isSaving p; conflictState := conflictState p;
  conflictChoices := conflictChoices p; conflictSaveError := conflictSaveError p |}.

(** ** Editing *)

Definition handleChange (key : string) (v : unknown) (p : page) : page := set_edits (JMap.set key v (editedSettings p)) p.

(** [settings?.[key]] *)
Definition loaded (p : page) (key : string) : unknown := read key (settings p ?? []).

Definition handleNestedChange (section key : string) (v : unknown) (p : page) : page :=
  let sectionData := JMap.set key v (members (read section (editedSettings p))) in
  let next := JMap.set section (PObj sectionData) (editedSettings p) in
  let next :=
    if (section =s "redis") && (key =s "enabled") && match v with PBool false => true | _ => false end then
      let currentBackend := read "backend" next in
      let backend_id := coalesce (coalesce (field "backend_id" currentBackend) (field "backend_id" (loaded p "backend"))) PNull in
      JMap.set "backend" (PObj (JMap.set "execution_mode" (PStr "local")
        (spread [("backend_id", backend_id)] (members currentBackend)))) next
    else next in
  let p := set_edits next p in
  if section =s "redis" then set_result None p else p.

Definition handleDeepNestedChange (section subsection key : string) (v : unknown) (p : page) : page :=
  let currentSection := spread (members (loaded p section)) (members (read section (editedSettings p))) in
  let updatedSubsection := JMap.set key v (members (read subsection currentSection)) in
  set_edits (JMap.set section (PObj (JMap.set subsection (PObj updatedSubsection) currentSection)) (editedSettings p)) p.

Definition handleReset (p : page) : page :=
  set_result None {| settings := settings p; editedSettings := []; hasChanges := false; isTestingRedis := isTestingRedis p;
    redisTestResult := redisTestResult p; isSaving := isSaving p; conflictState := conflictState p;
    conflictChoices := conflictChoices p; conflictSaveError := conflictSaveError p |}.

Definition getCurrentValue (p : page) (key : string) : unknown :=
  if JMap.has key (editedSettings p) then read key (editedSettings p) else loaded p key.

Definition getNestedValue (p : page) (section key : string) : unknown :=
  let editedSection := members (read section (editedSettings p)) in
  if JMap.has key editedSection then read key editedSection else field key (loaded p section).

Definition getDeepNestedValue (p : page) (section subsection key : string) : unknown :=
  let editedSection := members (read section (editedSettings p)) in
  if JMap.has subsection editedSection && JMap.has key (members (read subsection editedSection))
  then field key (read subsection editedSection)
  else field key (field subsection (loaded p section)).

Definition redisEnabled (p : page) : unknown :=
  coalesce (coalesce (getNestedValue p "redis" "enabled") (field "enabled" (loaded p "redis"))) (PBool false).

Definition executionMode (p : page) : unknown :=
  coalesce (coalesce (getNestedValue p "backend" "execution_mode") (field "execution_mode" (loaded p "backend")))
    (PStr "distributed").

Definition changedFields (p : page) : nat := length (JMap.keys (editedSettings p)).

(** ** What is saved *)

Definition three_and_a_half : num := #7 ⊘ #2.
Definition one_half : num := #1 ⊘ #2.

(** The timeout of a guest lookup as it is sent. *)
Definition guest_lookup_timeout (raw loaded_timeout : unknown) : unknown :=
  if negb (is_nullish raw) then
    let parsed := match raw with PNum n => n | _ => parse_float (parsed_text raw) end in
    PNum (if is_nan parsed || (one_half >! parsed) then three_and_a_half else parsed)
  else match loaded_timeout with PUndefined => PNum three_and_a_half | t => t end.

Definition merge_edits (settings edited : document) : document :=
  foldl (fun payload e =>
      if isPlainObject e.2 && isPlainObject (read e.1 settings)
      then JMap.set e.1 (PObj (mergePlainObjects (members (read e.1 settings)) (members e.2))) payload
      else payload)
    edited (own_entries edited).

Definition save_payload (settings edited : document) : document :=
  let payload := merge_edits settings edited in
  let payload :=
    match read "network" payload with
    | PObj network =>
        JMap.set "network" (PObj (JMap.set "guest_lookup_timeout"
          (guest_lookup_timeout (read "guest_lookup_timeout" network) (field "guest_lookup_timeout" (read "network" settings)))
          network)) payload
    | _ => payload
    end in
  if is_nullish (read "config_version" settings) then payload
  else JMap.set "expected_version" (read "config_version" settings) payload.

(** ** Saving *)

(** A pending call: what it captured, and the request it waits for. *)
Inductive pending :=
| Testing (settings edited : document) (request : TestRedisConnectionRequest)
| Saving (edited : document) (payload : document)
| Merging (payload : document).

Definition handleSave (p : page) : page * option pending :=
  match settings p with
  | None => (p, None)
  | Some s =>
      let edited := editedSettings p in
      let editedRedis := read "redis" edited in
      let loadedRedis := read "redis" s in
      let enabled := is_truthy (coalesce (field "enabled" editedRedis) (field "enabled" loadedRedis)) in
      let password := if JMap.has "password" (members editedRedis) then coalesce (field "password" editedRedis) PNull
                      else field "password" loadedRedis in
      let either key := coalesce (field key editedRedis) (field key loadedRedis) in
      if JMap.has "redis" edited && enabled
      then (set_busy true true (set_result None p),
            Some (Testing s edited {| tr_host := either "host"; tr_port := either "port"; tr_db := either "db"; tr_password := password |}))
      else (set_busy true (isTestingRedis p) (set_result None p), Some (Saving edited (save_payload s edited)))
  end.

(** [onSuccess] of the mutation. *)
Definition saved (updated : document) (p : page) : page := set_conflict None JMap.empty None (adopt (Some updated) p).

(** The [catch] of [handleSave], then its [finally]. *)
Definition conflict_settings (d : SettingsConflictDetail) : option document :=
  match current d with
  | PObj c => if JMap.has "hostname" c && JMap.has "worker_pool" c then Some c else None
  | _ => None
  end.

Definition initial_choices (c : ConflictModalState) : JMap.t MergeChoice :=
  foldl (fun m e => JMap.set (path e) Local m) JMap.empty
    (buildConflictLeafEntries (attemptedPatch c) (conflict_current c) (conflictingFields c)).

Definition conflict_of (edited : document) (d : SettingsConflictDetail) (current : document) : ConflictModalState := {|
  conflict_current := current;
  currentVersion := coalesce (coalesce (current_version d) (read "config_version" current)) PNull;
  currentUpdatedAt := coalesce (coalesce (current_updated_at d) (read "config_updated_at" current)) PNull;
  attemptedPatch := attempted_patch d ?? edited;
  conflictingFields := conflicting_fields d ?? [] |}.

Definition save_failed (edited : document) (e : failure) (p : page) : page :=
  let conflict := if bool_decide (status e = Some 409) then detail e ?> (fun d => (fun c => (d, c)) <$> conflict_settings d) else None in
  match conflict with
  | Some (d, c) =>
      let state := conflict_of edited d c in
      set_busy false false (set_result None (set_conflict (Some state) (initial_choices state) None p))
  | None =>
      let message := truthy_opt (detail e ?> detail_message) ?? (error_message e ?? "Failed to save settings") in
      set_busy false false (set_result (Some {| success := false; message := message; latency_ms := None |}) p)
  end.

(** ** Resolving a conflict *)

Definition entries_of (c : ConflictModalState) : list ConflictLeafEntry :=
  buildConflictLeafEntries (attemptedPatch c) (conflict_current c) (conflictingFields c).

Definition conflictEntriesByTopField (c : ConflictModalState) : JMap.t (list ConflictLeafEntry) :=
  foldl (fun grouped e => JMap.set (topField e) ((JMap.get (topField e) grouped ?? []) ++ [e]) grouped) JMap.empty (entries_of c).

Definition setConflictChoice (at_ : string) (choice : MergeChoice) (p : page) : page :=
  set_conflict (conflictState p) (JMap.set at_ choice (conflictChoices p)) (conflictSaveError p) p.

Definition handleDiscardConflict (p : page) : page :=
  match conflictState p with
  | None => p
  | Some c => set_conflict None JMap.empty None (adopt (Some (conflict_current c)) p)
  end.

Definition selected_paths (entries : list ConflictLeafEntry) (choices : JMap.t MergeChoice) : JMap.t MergeChoice :=
  JMap.of_list (map (fun e => (path e, JMap.get (path e) choices ?? Local)) entries).

(** The choice for a path. *)
Definition choice_at (selected : JMap.t MergeChoice) (at_ : string) : MergeChoice := JMap.get at_ selected ?? Local.

(** One entry: what the field is set to outright, and the merged copy of the
    backend's object. *)
Definition take_entry (selected : JMap.t MergeChoice) (acc : option unknown * document) (e : ConflictLeafEntry) :
    option unknown * document :=
  match choice_at selected (path e), tail (pathParts e) with
  | Remote, _ => acc
  | Local, [] => (Some (deepClone (localValue e)), acc.2)
  | Local, nestedPath => (acc.1, setNestedObjectValue acc.2 nestedPath (deepClone (localValue e)))
  end.

Definition resolve_field (entries : list ConflictLeafEntry) (selected : JMap.t MergeChoice) (attempted current : document)
    (top : string) : unknown :=
  match read top attempted with
  | PObj _ =>
      let remoteTop := match read top current with PObj o => members (deepClone (PObj o)) | _ => [] end in
      let '(whole, merged) := foldl (take_entry selected) (None, remoteTop) (keep (fun e => topField e =s top) entries) in
      whole ?? PObj merged
  | localTopValue => match choice_at selected top with Remote => read top current | Local => localTopValue end
  end.

Definition top_fields (attempted : document) : list string :=
  keep (fun f => negb (str_in f RESERVED_CONFLICT_FIELDS)) (map fst (own_entries attempted)).

Definition merged_fields (c : ConflictModalState) (choices : JMap.t MergeChoice) : document :=
  let entries := entries_of c in
  let selected := selected_paths entries choices in
  foldl (fun m f => JMap.set f (resolve_field entries selected (attemptedPatch c) (conflict_current c) f) m)
    [] (top_fields (attemptedPatch c)).

Definition merged_patch (c : ConflictModalState) (choices : JMap.t MergeChoice) (edited : document) : document :=
  let merged := merged_fields c choices in
  let merged :=
    match read "redis" edited with
    | PObj editedRedis =>
        JMap.set "redis" (PObj (mergePlainObjects (members (read "redis" (conflict_current c))) editedRedis)) merged
    | _ => merged
    end in
  let latestVersion := coalesce (coalesce (currentVersion c) (read "config_version" (conflict_current c))) PNull in
  if is_nullish latestVersion then merged else JMap.set "expected_version" latestVersion merged.

Definition handleMergeConflict (p : page) : page * option pending :=
  match conflictState p with
  | None => (p, None)
  | Some c =>
      (set_conflict (Some c) (conflictChoices p) None p,
       Some (Merging (merged_patch c (conflictChoices p) (editedSettings p))))
  end.

(** ** Answers *)

Inductive answer :=
| Tested (r : failure + TestRedisConnectionResponse)
| Updated (r : failure + document).

(** A pending call goes on with the answer to its request. *)
Definition resume (call : pending) (a : answer) (p : page) : page * option pending :=
  match call, a with
  | Testing s edited _, Tested (inr result) =>
      let p := set_busy (isSaving p) false (set_result (Some result) p) in
      if success result then (p, Some (Saving edited (save_payload s edited))) else (set_busy false false p, None)
  | Testing _ edited _, Tested (inl e) => (save_failed edited e p, None)
  | Saving _ _, Updated (inr updated) => (set_busy false false (saved updated p), None)
  | Saving edited _, Updated (inl e) => (save_failed edited e p, None)
  | Merging _, Updated (inr updated) => (saved updated p, None)
  | Merging _, Updated (inl e) =>
      (set_conflict (conflictState p) (conflictChoices p) (Some (error_message e ?? "Failed to merge and save")) p, None)
  | _, _ => (p, Some call)
  end.

(** What the user does. *)
Inductive event :=
| Change (key : string) (v : unknown)
| NestedChange (section key : string) (v : unknown)
| DeepNestedChange (section subsection key : string) (v : unknown)
| ResetEdits
| Save
| ChooseSide (at_ : string) (choice : MergeChoice)
| Discard
| Merge.

Definition handle (e : event) (p : page) : page * option pending :=
  match e with
  | Change k v => (handleChange k v p, None)
  | NestedChange s k v => (handleNestedChange s k v p, None)
  | DeepNestedChange s t k v => (handleDeepNestedChange s t k v p, None)
  | ResetEdits => (handleReset p, None)
  | Save => handleSave p
  | ChooseSide f c => (setConflictChoice f c p, None)
  | Discard => (handleDiscardConflict p, None)
  | Merge => handleMergeConflict p
  end.

(** The page with its pending calls: the user acts, settings arrive, a request is
    answered. *)
Inductive step : page * list pending -> page * list pending -> Prop :=
| step_event e p calls : step (p, calls) ((handle e p).1, calls ++ option_list (handle e p).2)
| step_fetched d p calls : step (p, calls) (fetched d p, calls)
| step_answer call a p before after :
    step (p, before ++ call :: after) ((resume call a p).1, before ++ option_list (resume call a p).2 ++ after).
