(* ===== verification/SettingsEditSpec.v ===== *)
(** * Settings are saved as they are shown, and conflicts are resolved as chosen

    First the resolution of a conflict: for every leaf the chosen side is sent, and
    choosing one's own side everywhere is merging the patch into the backend's
    settings. Then what a save sends, what the fields show, an invariant of the
    page over all sequences of events and answers, and situations in which the code
    does less than it means to. *)

From Stdlib Require Import Ascii ZArith Lia.
From stdpp Require Import base list strings option sets relations.
From S2P Require Import Prelude JsString JsNum JsObject AuthImport SettingsMerge SettingsEdit.

(** ** Choices *)

Lemma get_of_pairs {A V} (key : A -> string) (g : string -> V) k l :
  JMap.get k (JMap.of_list (map (fun e => (key e, g (key e))) l)) = if str_in k (map key l) then Some (g k) else None.
Proof.
  unfold JMap.of_list. induction l as [|e l IH] using rev_ind; [done|].
  rewrite map_app, foldl_app. cbn [map foldl]. rewrite map_app. cbn [map].
  destruct (decide (key e = k)) as [<-|Hn].
  - rewrite JMap.get_set_eq. rewrite (proj2 (str_in_iff _ _)); [done|set_solver].
  - rewrite JMap.get_set_ne, IH by done. destruct (str_in k (map key l)) eqn:E.
    + apply str_in_iff in E. rewrite (proj2 (str_in_iff _ _)); [done|set_solver].
    + apply str_in_not in E. rewrite (proj2 (str_in_not _ _)); [done|set_solver].
Qed.

Lemma choice_selected entries choices at_ :
  at_ ∈ map path entries -> choice_at (selected_paths entries choices) at_ = JMap.get at_ choices ?? Local.
Proof.
  intros H. unfold choice_at, selected_paths.
  rewrite (get_of_pairs path (fun k => JMap.get k choices ?? Local)). apply str_in_iff in H. by rewrite H.
Qed.

(** ** One field *)

Definition chosen_sets (selected : JMap.t MergeChoice) (es : list ConflictLeafEntry) : list (list string * unknown) :=
  map (fun e => (tail (pathParts e), deepClone (localValue e)))
    (keep (fun e => match choice_at selected (path e) with Local => true | Remote => false end) es).

Lemma fold_take selected es w t :
  Forall (fun e => tail (pathParts e) <> []) es ->
  foldl (take_entry selected) (w, t) es = (w, set_all t (chosen_sets selected es)).
Proof.
  unfold chosen_sets, set_all. revert t. induction es as [|e es IH]; [done|]. intros t [He Hes]%Forall_cons. simpl.
  unfold take_entry at 2. destruct (choice_at selected (path e)); simpl; [|by apply IH].
  destruct (tail (pathParts e)) as [|k r]; [done|]. by apply IH.
Qed.

Section resolution.
Context (c : ConflictModalState) (choices : JMap.t MergeChoice).
Hypothesis (Hpatch : tree_wf (PObj (attemptedPatch c))) (Hcurrent : tree_wf (PObj (conflict_current c))).

Notation selected := (selected_paths (entries_of c) choices).
Notation field_entries f := (keep (fun e => topField e =s f) (entries_of c)).

Lemma elem_field_entries f e :
  e ∈ field_entries f <->
  exists p, f ∉ RESERVED_CONFLICT_FIELDS /\ is_leaf (PObj (attemptedPatch c)) (f :: p) = true /\
    e = leaf_entry (conflictingFields c) (at_path (PObj (attemptedPatch c)) (f :: p))
          (at_path (PObj (conflict_current c)) (f :: p)) (f :: p) f.
Proof.
  rewrite elem_of_keep. unfold entries_of. rewrite elem_entries by done. split.
  - intros ((f' & p & Hr & Hp & ->) & E%str_eqb_eq). simpl in E. subst f'. by exists p.
  - intros (p & Hr & Hp & ->). split; [by exists f, p|apply str_eqb_refl].
Qed.

(** The copy of the backend's object that the chosen leaves are set in. *)
Definition backend_object (f : string) : document :=
  match read f (conflict_current c) with PObj o => members (deepClone (PObj o)) | _ => [] end.

Lemma at_backend_object f k r :
  at_path (PObj (backend_object f)) (k :: r) = deepClone (at_path (PObj (conflict_current c)) (f :: k :: r)).
Proof.
  pose proof (tree_wf_read f _ Hcurrent) as Hw. unfold backend_object. cbn [at_path].
  destruct (read f (conflict_current c)) as [| | | | | |o]; rewrite ?at_path_undefined; try done.
  change (at_path (deepClone (PObj o)) (k :: r) = deepClone (at_path (PObj o) (k :: r))). by apply at_path_clone.
Qed.

(** A field whose patch is an object with properties. *)
Section nested.
Context (f : string) (m : string * unknown) (ms : document).
Hypothesis (Hf : f ∉ RESERVED_CONFLICT_FIELDS) (Hread : read f (attemptedPatch c) = PObj (m :: ms)).

Lemma get_field : JMap.get f (attemptedPatch c) = Some (PObj (m :: ms)).
Proof. revert Hread. unfold read. by destruct (JMap.get f (attemptedPatch c)) as [v|]; [intros [= ->]|]. Qed.

Lemma nested_entry e :
  e ∈ field_entries f <->
  exists p, p <> [] /\ is_leaf (PObj (m :: ms)) p = true /\
    e = leaf_entry (conflictingFields c) (at_path (PObj (m :: ms)) p) (at_path (PObj (conflict_current c)) (f :: p)) (f :: p) f.
Proof.
  rewrite elem_field_entries. apply exist_proper. intros p. cbn [is_leaf]. rewrite get_field.
  replace (at_path (PObj (attemptedPatch c)) (f :: p)) with (at_path (PObj (m :: ms)) p) by (cbn [at_path]; by rewrite Hread).
  split; [intros (_ & Hp & ->)|intros (_ & Hp & ->)]; (split; [|done]); [by intros ->|done].
Qed.

Lemma resolve_nested :
  resolve_field (entries_of c) selected (attemptedPatch c) (conflict_current c) f =
  PObj (set_all (backend_object f) (chosen_sets selected (field_entries f))).
Proof.
  unfold resolve_field. rewrite Hread. fold (backend_object f). rewrite fold_take; [done|].
  apply Forall_forall. intros e (p & Hp & _ & ->)%nested_entry. simpl. exact Hp.
Qed.

Lemma elem_chosen x :
  x ∈ chosen_sets selected (field_entries f) <->
  exists p, p <> [] /\ is_leaf (PObj (m :: ms)) p = true /\ (JMap.get (join "." (f :: p)) choices ?? Local) = Local /\
    x = (p, deepClone (at_path (PObj (m :: ms)) p)).
Proof.
  unfold chosen_sets. rewrite list_elem_of_fmap. setoid_rewrite elem_of_keep.
  assert (Hc : forall e, e ∈ field_entries f -> choice_at selected (path e) = (JMap.get (path e) choices ?? Local)).
  { intros e [He _]%elem_of_keep. apply choice_selected. by apply list_elem_of_fmap_2. }
  split.
  - intros (e & -> & He & Hl). rewrite (Hc e He) in Hl. apply nested_entry in He as (p & Hp & Hleaf & ->). exists p.
    split; [done|]. split; [done|]. split; [|done]. simpl path in Hl. by destruct (_ ?? Local).
  - intros (p & Hp & Hleaf & Hl & ->). exists (leaf_entry (conflictingFields c) (at_path (PObj (m :: ms)) p) (at_path (PObj (conflict_current c)) (f :: p)) (f :: p) f).
    split; [done|]. split.
    + apply nested_entry. exists p. done.
    + rewrite Hc; [|apply nested_entry; by exists p]. unfold leaf_entry. cbn [path]. by rewrite Hl.
Qed.

Lemma resolved_local p q :
  p <> [] -> is_leaf (PObj (m :: ms)) p = true -> (JMap.get (join "." (f :: p)) choices ?? Local) = Local ->
  at_path (resolve_field (entries_of c) selected (attemptedPatch c) (conflict_current c) f) (p ++ q) =
  at_path (deepClone (at_path (PObj (m :: ms)) p)) q.
Proof.
  intros Hp Hleaf Hl. rewrite resolve_nested. apply sets_at; [done| |].
  - intros x (p' & _ & Hleaf' & _ & ->)%elem_chosen. destruct (leaves_diverge _ _ _ Hleaf' Hleaf) as [->|]; auto.
  - apply elem_chosen. by exists p.
Qed.

Lemma resolved_elsewhere k r :
  (forall p, is_leaf (PObj (m :: ms)) p = true -> (JMap.get (join "." (f :: p)) choices ?? Local) = Local -> diverge p (k :: r) = true) ->
  at_path (resolve_field (entries_of c) selected (attemptedPatch c) (conflict_current c) f) (k :: r) =
  deepClone (at_path (PObj (conflict_current c)) (f :: k :: r)).
Proof.
  intros H. rewrite resolve_nested, sets_elsewhere; [apply at_backend_object|].
  intros x (p & _ & Hleaf & Hl & ->)%elem_chosen. by apply H.
Qed.

Lemma resolved_above q k r :
  is_leaf (PObj (m :: ms)) (q ++ k :: r) = true -> (JMap.get (join "." (f :: q ++ k :: r)) choices ?? Local) = Local ->
  exists o, at_path (resolve_field (entries_of c) selected (attemptedPatch c) (conflict_current c) f) q = PObj o.
Proof.
  intros Hleaf Hl. rewrite resolve_nested. apply sets_above.
  - intros x (p' & _ & Hleaf' & _ & ->)%elem_chosen. destruct (leaves_diverge _ _ _ Hleaf' Hleaf) as [->|Hd]; [by right; exists k, r|].
    destruct (diverge_prefix _ _ _ Hd) as [|([|k' r'] & -> & Hd')]; [by left|done|by right; exists k', r'].
  - exists (q ++ k :: r, deepClone (at_path (PObj (m :: ms)) (q ++ k :: r))). split; [|by exists k, r]. apply elem_chosen. exists (q ++ k :: r). split; [by destruct q|done].
Qed.
End nested.

(** A field whose patch is the empty object. *)
Lemma resolve_empty f :
  f ∉ RESERVED_CONFLICT_FIELDS -> JMap.get f (attemptedPatch c) = Some (PObj []) ->
  resolve_field (entries_of c) selected (attemptedPatch c) (conflict_current c) f =
  match JMap.get f choices ?? Local with Local => PObj [] | Remote => PObj (backend_object f) end.
Proof.
  intros Hf Hg. unfold resolve_field. assert (Hr : read f (attemptedPatch c) = PObj []) by (unfold read; by rewrite Hg).
  rewrite Hr. fold (backend_object f).
  set (e0 := leaf_entry (conflictingFields c) (PObj []) (read f (conflict_current c)) [f] f).
  assert (Hall : forall e, e ∈ field_entries f <-> e = e0).
  { intros e. rewrite elem_field_entries. cbn [is_leaf at_path]. rewrite Hg, Hr. split; [|intros ->; by exists []].
    intros ([|k p] & _ & Hp & ->); [done|by destruct p]. }
  assert (Hin : e0 ∈ field_entries f) by by apply Hall.
  assert (Hc : choice_at selected (path e0) = (JMap.get f choices ?? Local)).
  { apply choice_selected. change (path e0 ∈ map path (entries_of c)). apply list_elem_of_fmap_2. by apply elem_of_keep in Hin as [Hin _]. }
  assert (Hall' : forall e, e ∈ field_entries f -> e = e0) by (intros e; by rewrite Hall). clear Hall.
  destruct (JMap.get f choices ?? Local) eqn:Ec.
  - assert (H : forall l acc, (forall e, e ∈ l -> e = e0) -> l <> [] \/ acc.1 = Some (PObj []) ->
                (foldl (take_entry selected) acc l).1 = Some (PObj [])).
    { induction l as [|e l IH]; intros acc Hl Hn; [by destruct Hn|]. simpl. apply IH; [set_solver|]. right.
      rewrite (Hl e) by set_solver. unfold take_entry. by rewrite Hc. }
    specialize (H (field_entries f) (None, backend_object f) Hall').
    destruct (foldl _ _ _) as [w t]. simpl in H. rewrite H; [done|]. left. intros E. rewrite E in Hin. by apply elem_of_nil in Hin.
  - assert (H : forall l acc, (forall e, e ∈ l -> e = e0) -> foldl (take_entry selected) acc l = acc).
    { induction l as [|e l IH]; intros acc Hl; [done|]. simpl. rewrite (Hl e) by set_solver.
      unfold take_entry at 2. rewrite Hc. apply IH. set_solver. }
    by rewrite H.
Qed.

(** A field whose patch is no object. *)
Lemma resolve_scalar f v :
  f ∉ RESERVED_CONFLICT_FIELDS -> JMap.get f (attemptedPatch c) = Some v -> isPlainObject v = false ->
  resolve_field (entries_of c) selected (attemptedPatch c) (conflict_current c) f =
  match JMap.get f choices ?? Local with Local => v | Remote => read f (conflict_current c) end.
Proof.
  intros Hf Hg Hv. assert (Hr : read f (attemptedPatch c) = v) by (unfold read; by rewrite Hg).
  set (e0 := leaf_entry (conflictingFields c) v (read f (conflict_current c)) [f] f).
  assert (Hin : e0 ∈ entries_of c).
  { unfold entries_of. apply elem_entries; [done|]. exists f, []. split; [done|]. cbn [is_leaf at_path]. rewrite Hg, Hr.
    split; [by destruct v|done]. }
  assert (Hc : choice_at selected (path e0) = (JMap.get f choices ?? Local)).
  { apply choice_selected. change (path e0 ∈ map path (entries_of c)). by apply list_elem_of_fmap_2. }
  change (choice_at selected f = (JMap.get f choices ?? Local)) in Hc.
  unfold resolve_field. rewrite Hr, Hc. destruct v; try done; by destruct (_ ?? Local).
Qed.

(** What one top field of the merged patch is. *)
Lemma get_fold_set {V} (g : string -> V) k l :
  JMap.get k (foldl (fun m f => JMap.set f (g f) m) [] l) = if str_in k l then Some (g k) else None.
Proof.
  pose proof (get_of_pairs (fun x => x) g k l) as H. rewrite map_id in H. rewrite <- H. unfold JMap.of_list, JMap.empty.
  generalize (@nil (string * V)). clear H. induction l as [|x l IH]; [done|]. intros m. apply IH.
Qed.

Lemma elem_top_fields f : f ∈ top_fields (attemptedPatch c) <-> f ∉ RESERVED_CONFLICT_FIELDS /\ JMap.has f (attemptedPatch c) = true.
Proof.
  unfold top_fields. rewrite elem_of_keep, negb_true_iff, str_in_not.
  enough (H : f ∈ map fst (own_entries (attemptedPatch c)) <-> JMap.has f (attemptedPatch c) = true) by tauto.
  unfold JMap.has. destruct (JMap.get f (attemptedPatch c)) eqn:E.
  - split; [done|]. intros _. apply elem_own_entries in E; [|apply Hpatch]. by apply (list_elem_of_fmap_2 fst) in E.
  - split; [|done]. intros Hin. exfalso. apply JMap.get_None in E. apply E. unfold JMap.keys.
    by rewrite own_entries_permutation in Hin.
Qed.

Lemma read_merged_patch edited f :
  f ∈ top_fields (attemptedPatch c) -> (f = "redis" -> isPlainObject (read "redis" edited) = false) ->
  read f (merged_patch c choices edited) =
  resolve_field (entries_of c) selected (attemptedPatch c) (conflict_current c) f.
Proof.
  intros Hf Hr. assert (f <> "expected_version") as Hv.
  { intros ->. apply elem_top_fields in Hf as [Hf _]. apply Hf. set_solver. }
  assert (E : read f (merged_fields c choices) = resolve_field (entries_of c) selected (attemptedPatch c) (conflict_current c) f).
  { unfold read, merged_fields. rewrite get_fold_set. apply str_in_iff in Hf. by rewrite Hf. }
  unfold merged_patch. rewrite <- E. set (m := match read "redis" edited with PObj _ => _ | _ => _ end).
  assert (Em : read f m = read f (merged_fields c choices)).
  { unfold m. destruct (read "redis" edited); try done. apply read_set_ne. intros <-. by specialize (Hr eq_refl). }
  destruct (is_nullish _); [done|]. by rewrite read_set_ne by done.
Qed.
End resolution.

(** The same JSON at every path. *)
Definition same_json (v w : unknown) : Prop := forall q, shape (deepClone (at_path v q)) = shape (deepClone (at_path w q)).

#[export] Instance same_json_equivalence : Equivalence same_json.
Proof. split; [by intros v q|intros v w H q; by rewrite H|intros u v w H1 H2 q; by rewrite H1]. Qed.

(** No object of a patch is empty. *)
Fixpoint no_empty (v : unknown) : Prop :=
  match v with
  | PObj fs => match fs with [] => False | _ => foldr (fun e P => no_empty e.2 /\ P) True fs end
  | _ => True
  end.

Lemma no_empty_get k fs v : no_empty (PObj fs) -> JMap.get k fs = Some v -> no_empty v.
Proof.
  intros H Hg%JMap.get_Some_elem. assert (H' : foldr (fun e P => no_empty e.2 /\ P) True fs) by by destruct fs.
  clear H. induction fs as [|e fs IH]; [by apply elem_of_nil in Hg|]. destruct H' as [H1 H2].
  apply elem_of_cons in Hg as [<-|Hg]; [done|by apply IH].
Qed.

(** Leaves part from the paths the patch says nothing about. *)
Lemma leaf_departs v p q : no_empty v -> is_leaf v p = true -> departs v q = true -> diverge p q = true.
Proof.
  revert v q. induction p as [|k p IH]; intros v q Hn Hp Hq.
  - destruct v as [| | | | | |[]], q; done.
  - destruct v as [| | | | | |fs]; try done. destruct q as [|k' q]; [done|]. simpl in Hp, Hq |- *.
    destruct (k =s k') eqn:E; [|done]. apply str_eqb_eq in E as <-. destruct (JMap.get k fs) as [w|] eqn:Eg; [|done].
    simpl. apply (IH w); [by eapply no_empty_get|done|done].
Qed.

Lemma leaf_exists v : no_empty v -> exists p, is_leaf v p = true.
Proof.
  induction v as [| | | | | |fs IH] using parsed_ind; intros Hn; try by exists [].
  destruct fs as [|[k w] fs]; [done|]. apply Forall_cons in IH as [IH _].
  destruct IH as [p Hp]; [apply Hn|]. exists (k :: p). simpl. by rewrite str_eqb_refl.
Qed.

(** Every other path goes to or through a leaf, or stops above one. *)
Lemma covered v q :
  no_empty v -> departs v q = false ->
  (exists p s, q = p ++ s /\ is_leaf v p = true) \/
  (exists k r o, is_leaf v (q ++ k :: r) = true /\ at_path v q = PObj o).
Proof.
  revert v. induction q as [|k q IH]; intros v Hn Hd.
  - destruct (leaf_exists v Hn) as [[|k r] Hp]; [left; by exists [], []|right].
    destruct v as [| | | | | |o]; try done. by exists k, r, o.
  - destruct v as [| | | | | |fs]; try (left; by exists [], (k :: q)). simpl in Hd.
    destruct (JMap.get k fs) as [w|] eqn:Eg; [|done]. assert (Er : read k fs = w) by (unfold read; by rewrite Eg).
    destruct (IH w) as [(p & s & -> & Hp)|(k' & r & o & Hp & Ho)]; [by eapply no_empty_get|done| |].
    + left. exists (k :: p), s. simpl. by rewrite Eg.
    + right. exists k', r, o. simpl. by rewrite Eg, Er.
Qed.

Lemma tree_wf_at v q : tree_wf v -> tree_wf (at_path v q).
Proof.
  revert v. induction q as [|k q IH]; [done|]. intros v H. destruct v; try done. by apply IH, tree_wf_read.
Qed.

Lemma at_path_app v p q : at_path v (p ++ q) = at_path (at_path v p) q.
Proof.
  revert v. induction p as [|k p IH]; [done|]. intros v. destruct v; simpl; rewrite ?at_path_undefined; done.
Qed.

(** C29. A conflict is resolved as chosen: for every leaf of the refused patch the merged
    patch has, at the leaf's path, the value of the side that was chosen for it, one's
    own where nothing was chosen. Two cases are left out: the leaves of redis while the
    page holds an edit of redis, which is then what is merged into the backend's, and a
    whole field that one's own side sets to the empty object where the backend has no
    object for it, see [null_becomes_an_object]. *)
Theorem resolved_as_chosen c choices edited e :
  tree_wf (PObj (attemptedPatch c)) -> tree_wf (PObj (conflict_current c)) ->
  e ∈ entries_of c -> (topField e = "redis" -> isPlainObject (read "redis" edited) = false) ->
  (pathParts e = [topField e] -> localValue e = PObj [] -> isPlainObject (remoteValue e) = true) ->
  deepClone (at_path (PObj (merged_patch c choices edited)) (pathParts e)) =
  deepClone (match JMap.get (path e) choices ?? Local with Local => localValue e | Remote => remoteValue e end).
Proof.
  intros Hp Hc He Hr Hx. apply elem_entries in He as (f & p & Hf & Hleaf & ->); [|done].
  change (topField (leaf_entry (conflictingFields c) (at_path (PObj (attemptedPatch c)) (f :: p)) (at_path (PObj (conflict_current c)) (f :: p)) (f :: p) f)) with f in *.
  unfold leaf_entry in *. cbn [localValue remoteValue path pathParts topField] in *.
  cbn [is_leaf] in Hleaf. destruct (JMap.get f (attemptedPatch c)) as [v|] eqn:Hg; [|done].
  assert (Er : read f (attemptedPatch c) = v) by (unfold read; by rewrite Hg).
  assert (Ht : f ∈ top_fields (attemptedPatch c)) by (apply elem_top_fields; [done|]; unfold JMap.has; by rewrite Hg).
  cbn [at_path] in Hx |- *. rewrite read_merged_patch, Er in * by done.
  destruct (isPlainObject v) eqn:Eo.
  2: { rewrite (resolve_scalar c choices Hp f v) by done. destruct p; [|by destruct v]. cbn [at_path join String.concat].
       by destruct (JMap.get f choices ?? Local). }
  destruct v as [| | | | | |[|m ms]]; try done.
  - destruct p; [|done]. rewrite (resolve_empty c choices Hp Hc f Hf Hg). cbn [at_path join String.concat] in *.
    destruct (JMap.get f choices ?? Local); [done|]. specialize (Hx eq_refl eq_refl). unfold backend_object.
    destruct (read f (conflict_current c)) as [| | | | | |o]; try done. exact (clone_idem (PObj o)).
  - destruct (JMap.get (join "." (f :: p)) choices ?? Local) eqn:El.
    + pose proof (resolved_local c choices Hp f m ms Hf Er p [] ltac:(by intros ->) Hleaf El) as H. rewrite app_nil_r in H.
      rewrite H. apply clone_idem.
    + destruct p as [|k r]; [done|]. rewrite (resolved_elsewhere c choices Hp Hc f m ms Hf Er); [by rewrite clone_idem|].
      intros p' Hleaf' El'. destruct (leaves_diverge _ _ _ Hleaf' Hleaf) as [->|]; [by rewrite El in El'|done].
Qed.

(** C30. Choosing one's own side for every leaf of a field is merging the field of the
    refused patch into the backend's: the two ways the page has to combine a patch with
    settings agree on that field, whatever is chosen for the others. Left out are a
    field that holds an empty object, and redis while the page holds an edit of it. *)
Theorem own_side_is_merge c choices edited f :
  tree_wf (PObj (attemptedPatch c)) -> tree_wf (PObj (conflict_current c)) ->
  f ∈ top_fields (attemptedPatch c) -> (f = "redis" -> isPlainObject (read "redis" edited) = false) ->
  no_empty (read f (attemptedPatch c)) ->
  (forall e, e ∈ entries_of c -> topField e = f -> (JMap.get (path e) choices ?? Local) = Local) ->
  same_json (read f (merged_patch c choices edited))
            (merge_value (read f (attemptedPatch c)) (read f (conflict_current c))).
Proof.
  intros Hp Hc Hf Hr Hn Hl q. rewrite read_merged_patch by done. apply elem_top_fields in Hf as [Hf Hh]; [|done].
  assert (Hlocal : forall p, is_leaf (PObj (attemptedPatch c)) (f :: p) = true -> (JMap.get (join "." (f :: p)) choices ?? Local) = Local).
  { intros p Hleaf. assert (He : leaf_entry (conflictingFields c) (at_path (PObj (attemptedPatch c)) (f :: p))
      (at_path (PObj (conflict_current c)) (f :: p)) (f :: p) f ∈ entries_of c) by (apply elem_entries; [done|]; by exists f, p).
    exact (Hl _ He eq_refl). }
  pose proof (tree_wf_read f _ Hp) as Hwp. pose proof (tree_wf_read f _ Hc) as Hwc.
  rewrite shape_clone, (shape_clone (at_path (merge_value _ _) q)), merge_value_at, <- !shape_clone, clone_idem by done.
  assert (Hg : JMap.get f (attemptedPatch c) = Some (read f (attemptedPatch c))).
  { unfold read, JMap.has in *. by destruct (JMap.get f (attemptedPatch c)). }
  destruct (isPlainObject (read f (attemptedPatch c))) eqn:Eo.
  2: { assert (Hl0 : (JMap.get f choices ?? Local) = Local) by (apply (Hlocal []); cbn [is_leaf]; rewrite Hg; by destruct (read f _)).
       rewrite (resolve_scalar c choices Hp f _ Hf Hg Eo), Hl0. by destruct (read f (attemptedPatch c)), q. }
  destruct (read f (attemptedPatch c)) as [| | | | | |[|m ms]] eqn:Er; try done.
  assert (Hlocal' : forall p, is_leaf (PObj (m :: ms)) p = true -> (JMap.get (join "." (f :: p)) choices ?? Local) = Local).
  { intros p Hleaf. apply Hlocal. cbn [is_leaf]. by rewrite Hg. }
  destruct (departs (PObj (m :: ms)) q) eqn:Ed.
  - destruct q as [|k q]; [done|].
    rewrite (resolved_elsewhere c choices Hp Hc f m ms Hf Er) by (intros p Hleaf _; by eapply leaf_departs).
    by rewrite clone_idem.
  - destruct (covered _ _ Hn Ed) as [(p & s & -> & Hleaf)|(k & r & o & Hleaf & Ho)].
    + rewrite (resolved_local c choices Hp f m ms Hf Er p s) by first [by intros ->|done|by apply Hlocal'].
      rewrite at_path_clone by by apply tree_wf_at. by rewrite clone_idem, at_path_app.
    + destruct (resolved_above c choices Hp f m ms Hf Er q k r Hleaf) as [o' Ho']; [by apply Hlocal'|].
      by rewrite Ho', Ho.
Qed.

(** ** The page *)

(** The edits are counted, and a choice is shown for every entry of a conflict. *)
Definition page_ok (p : page) : Prop :=
  (hasChanges p = true <-> editedSettings p <> []) /\
  match conflictState p with
  | Some c => forall e, e ∈ entries_of c -> JMap.has (path e) (conflictChoices p) = true
  | None => True
  end.

Lemma has_set {V} k k' (v : V) m : JMap.has k m = true -> JMap.has k (JMap.set k' v m) = true.
Proof.
  unfold JMap.has. destruct (decide (k' = k)) as [->|Hn]; [by rewrite JMap.get_set_eq|by rewrite JMap.get_set_ne].
Qed.

Lemma set_not_empty {V} k (v : V) m : JMap.set k v m <> [].
Proof. destruct m as [|[k' v'] m]; simpl; [done|]. by destruct (str_eqb k' k). Qed.

Lemma initial_choices_cover c e : e ∈ entries_of c -> JMap.has (path e) (initial_choices c) = true.
Proof.
  unfold initial_choices. fold (entries_of c). generalize (JMap.empty (V := MergeChoice)), (entries_of c). intros m l. revert m.
  assert (Hkeep : forall l m, JMap.has (path e) m = true -> JMap.has (path e) (foldl (fun m e => JMap.set (path e) Local m) m l) = true).
  { clear. induction l as [|x l IH]; [done|]. intros m H. by apply IH, has_set. }
  induction l as [|x l IH]; intros m; [by intros ?%elem_of_nil|]. intros [<-|He]%elem_of_cons; cbn [foldl]; [|by apply IH].
  apply Hkeep. unfold JMap.has. by rewrite JMap.get_set_eq.
Qed.

Lemma save_failed_ok edited e p : page_ok p -> page_ok (save_failed edited e p).
Proof.
  intros [H1 H2]. unfold save_failed. destruct (if bool_decide _ then _ else _) as [[d c]|]; (split; [done|]); [|done].
  exact (initial_choices_cover (conflict_of edited d c)).
Qed.

Lemma adopted_ok d p : page_ok (set_conflict None JMap.empty None (adopt d p)).
Proof. by split; [split|]. Qed.

Lemma handle_ok e p : page_ok p -> page_ok (handle e p).1.
Proof.
  intros [H1 H2]. destruct e as [k v|s k v|s t k v| | |at_ choice| |]; simpl.
  - split; [|done]. split; [intros _; apply set_not_empty|done].
  - unfold handleNestedChange. cbv zeta. destruct (s =s "redis"); (split; [|done]); split; try done; intros _; cbn;
      try destruct (_ && _); apply set_not_empty.
  - split; [|done]. split; [intros _; apply set_not_empty|done].
  - by split; [split|].
  - unfold handleSave. destruct (settings p); [|done]. cbv zeta. by destruct (_ && _).
  - split; [done|]. cbn. destruct (conflictState p); [|done]. intros e He. by apply has_set, H2.
  - unfold handleDiscardConflict. destruct (conflictState p) eqn:E; [apply adopted_ok|]. by split; [|rewrite E].
  - unfold handleMergeConflict. destruct (conflictState p) eqn:E; split; cbn; rewrite ?E; done.
Qed.

Lemma resume_consistent call a p : page_ok p -> page_ok (resume call a p).1.
Proof.
  intros H. destruct call as [s edited r|edited payload|payload], a as [[e|t]|[e|d]]; simpl; try done.
  - by apply save_failed_ok.
  - by destruct (success t).
  - by apply save_failed_ok.
Qed.

(** In every state the page can reach -- however the user's actions, the arriving
    settings and the answers, failures and conflicts of any number of saves follow
    each other -- it says there are changes exactly when there are edits, and every
    entry of a conflict has a side chosen. *)
Theorem page_is_consistent p calls : rtc step (new_page, []) (p, calls) -> page_ok p.
Proof.
  assert (H0 : page_ok (new_page, @nil pending).1) by (by split; [split|]).
  intros H. remember (new_page, []) as w eqn:E. clear E. revert H0. change p with (p, calls).1.
  induction H as [w|w1 w2 w3 Hs _ IH]; [done|]. intros Hok. apply IH. clear IH.
  destruct Hs as [e p' c|d p' c|call a p' before after]; simpl in *; [by apply handle_ok|done|by apply resume_consistent].
Qed.

(** ** What is shown and sent *)

Lemma get_set_all {V} k (b m : list (string * V)) :
  JMap.wf b -> JMap.get k (foldl (fun m e => JMap.set e.1 e.2 m) m b) = (JMap.get k b ??? JMap.get k m).
Proof.
  unfold JMap.wf. revert m. induction b as [|[k0 v0] b IH]; [done|]. intros m [Hn Hw]%NoDup_cons. cbn [foldl fst snd].
  rewrite IH by done. simpl in *. destruct (str_eqb k0 k) eqn:E.
  - apply str_eqb_eq in E as ->. apply JMap.get_None in Hn. by rewrite Hn, JMap.get_set_eq.
  - apply str_eqb_neq in E. by rewrite JMap.get_set_ne.
Qed.

Lemma get_spread k a b : JMap.wf b -> JMap.get k (spread a b) = (JMap.get k b ??? JMap.get k a).
Proof. intros H. unfold spread. by rewrite get_set_all, get_own_entries by (try apply own_entries_wf; done). Qed.

(** The value a section shows: the edit, or what was loaded. *)
Definition shown (edits : document) (old : unknown) (k : string) : unknown :=
  if JMap.has k edits then read k edits else field k old.

Lemma shown_set edits old k v k' : shown (JMap.set k v edits) old k' = if k =s k' then v else shown edits old k'.
Proof.
  unfold shown, JMap.has. destruct (k =s k') eqn:E.
  - apply str_eqb_eq in E as ->. by rewrite JMap.get_set_eq, read_set_eq.
  - apply str_eqb_neq in E. by rewrite JMap.get_set_ne, read_set_ne.
Qed.

(** The backend's section after Redis is turned off. *)
Lemma shown_backend edits old k' :
  JMap.wf edits ->
  coalesce (shown (JMap.set "execution_mode" (PStr "local")
    (spread [("backend_id", coalesce (coalesce (read "backend_id" edits) (field "backend_id" old)) PNull)] edits)) old k') PNull =
  coalesce (if k' =s "execution_mode" then PStr "local" else shown edits old k') PNull.
Proof.
  intros Hw. rewrite shown_set, str_eqb_sym. destruct (k' =s "execution_mode"); [done|]. unfold shown, read, JMap.has.
  rewrite get_spread by done. destruct (JMap.get k' edits) as [w|] eqn:Eg; [done|]. cbn [nullish_opt JMap.get].
  destruct (str_eqb "backend_id" k') eqn:Ek; [|done]. apply str_eqb_eq in Ek as <-. rewrite Eg. cbn [nullish coalesce].
  by destruct (field "backend_id" old).
Qed.

(** A value that is edited in a section is the value shown from then on, and every
    other value of the settings is shown as before -- except the execution mode, which
    turning Redis off makes local. (A missing value counts as [null].) *)
Theorem nested_edit_is_shown p s k v s' k' :
  tree_wf (PObj (editedSettings p)) ->
  coalesce (getNestedValue (handleNestedChange s k v p) s' k') PNull =
  coalesce
    (if (s =s s') && (k =s k') then v
     else if (s =s "redis") && (k =s "enabled") && (match v with PBool false => true | _ => false end) &&
             (s' =s "backend") && (k' =s "execution_mode") then PStr "local"
     else getNestedValue p s' k') PNull.
Proof.
  intros Hw. set (off := (s =s "redis") && (k =s "enabled") && _).
  assert (Hl : loaded (handleNestedChange s k v p) s' = loaded p s') by (unfold handleNestedChange; by destruct (s =s "redis")).
  unfold getNestedValue. rewrite Hl. unfold handleNestedChange. fold off.
  set (next := JMap.set s _ _). set (next' := if off then _ else _).
  replace (editedSettings (if s =s "redis" then set_result None (set_edits next' p) else set_edits next' p)) with next'
    by by destruct (s =s "redis").
  change (coalesce (shown (members (read s' next')) (loaded p s') k') PNull =
    coalesce (if (s =s s') && (k =s k') then v else if off && (s' =s "backend") && (k' =s "execution_mode") then PStr "local"
              else shown (members (read s' (editedSettings p))) (loaded p s') k') PNull).
  assert (Hsame : read s' next' = read s' next -> shown (members (read s' next')) (loaded p s') k' =
    if (s =s s') && (k =s k') then v else shown (members (read s' (editedSettings p))) (loaded p s') k').
  { intros ->. unfold next. destruct (s =s s') eqn:Es.
    - apply str_eqb_eq in Es as ->. rewrite read_set_eq. apply shown_set.
    - apply str_eqb_neq in Es. by rewrite read_set_ne. }
  destruct (off && (s' =s "backend")) eqn:Eb.
  - apply andb_true_iff in Eb as [Eoff Eb]. apply str_eqb_eq in Eb as ->. unfold off in Eoff.
    apply andb_true_iff in Eoff as [[E1 E2]%andb_true_iff E3]. unfold next', off. rewrite E1, E2, E3. cbn [andb].
    apply str_eqb_eq in E1 as ->. rewrite read_set_eq. cbn [members].
    assert (Er : read "backend" next = read "backend" (editedSettings p)) by by apply read_set_ne. rewrite Er.
    replace (("redis" =s "backend") && (k =s k')) with false by done.
    apply shown_backend. pose proof (tree_wf_read "backend" _ Hw) as Hb.
    destruct (read "backend" (editedSettings p)); try apply JMap.wf_empty. apply Hb.
  - rewrite Hsame; [by destruct (_ && _)|]. unfold next'. destruct off; [|done]. cbn [andb] in Eb. apply str_eqb_neq in Eb.
    by apply read_set_ne.
Qed.

(** The guest lookup timeout that is sent is a number of at least half a second
    whatever was typed, unless nothing was typed and the loaded value is kept. *)
Theorem timeout_is_sane raw old :
  is_nullish raw = false -> exists n, guest_lookup_timeout raw old = PNum n /\ num_leb one_half n = true.
Proof.
  intros H. unfold guest_lookup_timeout. rewrite H. cbn [negb]. eexists. split; [done|].
  set (parsed := match raw with PNum n => n | _ => _ end). destruct (is_nan parsed) eqn:En; [by vm_compute|]. cbn [orb].
  destruct (num_ltb parsed one_half) eqn:El; [by vm_compute|]. apply num_ltb_false_leb; done.
Qed.

(** What a field of the payload is before the timeout and the version. *)
Definition merged_edit (s : document) (f : string) (v : unknown) : unknown :=
  if isPlainObject v && isPlainObject (read f s) then PObj (mergePlainObjects (members (read f s)) (members v)) else v.

Lemma get_merge_edits s edited f :
  JMap.wf edited -> JMap.get f (merge_edits s edited) = merged_edit s f <$> JMap.get f edited.
Proof.
  intros Hw. unfold merge_edits.
  enough (H : forall l m, JMap.wf l ->
    JMap.get f (foldl (fun payload e => if isPlainObject e.2 && isPlainObject (read e.1 s)
      then JMap.set e.1 (PObj (mergePlainObjects (members (read e.1 s)) (members e.2))) payload else payload) m l) =
    match JMap.get f l with
    | Some v => if isPlainObject v && isPlainObject (read f s) then Some (merged_edit s f v) else JMap.get f m
    | None => JMap.get f m
    end).
  { rewrite H, get_own_entries by (try apply own_entries_wf; done). destruct (JMap.get f edited) as [v|]; [|done].
    unfold merged_edit. simpl. by destruct (_ && _). }
  unfold JMap.wf, merged_edit. induction l as [|[k v] l IH]; [done|]. intros m [Hn Hl]%NoDup_cons. simpl in *. rewrite IH by done.
  destruct (str_eqb k f) eqn:E.
  - apply str_eqb_eq in E as ->. apply JMap.get_None in Hn. rewrite Hn. by destruct (_ && _); [apply JMap.get_set_eq|].
  - apply str_eqb_neq in E. assert (Em : forall x, JMap.get f (JMap.set k x m) = JMap.get f m) by (intros x; by apply JMap.get_set_ne).
    destruct (JMap.get f l); destruct (isPlainObject v && _); rewrite ?Em; done.
Qed.

Lemma get_payload s edited f :
  JMap.wf edited -> f <> "network" -> f <> "expected_version" ->
  JMap.get f (save_payload s edited) = merged_edit s f <$> JMap.get f edited.
Proof.
  intros Hw Hn Hv. rewrite <- get_merge_edits by done. unfold save_payload. cbv zeta.
  set (payload := match read "network" _ with PObj _ => _ | _ => _ end).
  assert (E : JMap.get f payload = JMap.get f (merge_edits s edited)).
  { unfold payload. destruct (read "network" _); try done. by apply JMap.get_set_ne. }
  destruct (is_nullish _); [done|]. by rewrite JMap.get_set_ne.
Qed.

(** What a save sends: the version of the settings the edits were made on; no field
    that was not edited; an edited field as it is, if one side is no object; and of
    an edited section every value that is shown, edited or not -- the network's
    timeout aside, and unless the value is itself an object. *)
Theorem save_sends_what_is_shown p p' s edited payload :
  settings p = Some s -> tree_wf (PObj s) -> tree_wf (PObj (editedSettings p)) ->
  handleSave p = (p', Some (Saving edited payload)) ->
  (is_nullish (read "config_version" s) = false -> read "expected_version" payload = read "config_version" s) /\
  forall f, f <> "network" -> f <> "expected_version" ->
    JMap.has f payload = JMap.has f (editedSettings p) /\
    (isPlainObject (getCurrentValue p f) && isPlainObject (read f s) = false -> JMap.has f payload = true ->
       read f payload = getCurrentValue p f) /\
    (forall k, JMap.has f payload = true -> isPlainObject (read f (editedSettings p)) && isPlainObject (read f s) = true ->
       isPlainObject (getNestedValue p f k) = false ->
       at_path (PObj payload) [f; k] = deepClone (getNestedValue p f k)).
Proof.
  intros Hs Hws Hwe. unfold handleSave. rewrite Hs. cbv zeta. destruct (_ && _); [done|]. intros [= _ <- <-].
  set (e := editedSettings p) in *. split.
  { intros Hn. unfold save_payload. cbv zeta. rewrite Hn. apply read_set_eq. }
  intros f Hn Hv. pose proof (get_payload s e f (proj1 Hwe) Hn Hv) as Hg.
  unfold getCurrentValue, JMap.has. fold e. unfold loaded. rewrite Hs, Hg. cbn [nullish].
  destruct (JMap.get f e) as [v|] eqn:Ev; [|done]. simpl fmap in *.
  assert (Er : read f e = v) by (unfold read; by rewrite Ev). rewrite Er.
  assert (Ep : read f (save_payload s e) = merged_edit s f v) by (unfold read; by rewrite Hg). rewrite Ep.
  unfold merged_edit in *. split; [done|]. split; [by intros -> _|].
  intros k _ Ho. rewrite Ho in *. intros Hk. cbn [at_path]. rewrite Ep. cbn [at_path].
  apply andb_true_iff in Ho as [Ho1 Ho2]. destruct v as [| | | | | |fs]; try done.
  pose proof (tree_wf_get _ _ _ Hwe Ev) as Hwf. pose proof (tree_wf_read f s Hws) as Hwb.
  destruct (read f s) as [| | | | | |base] eqn:Eb; try done. unfold mergePlainObjects. cbn [members].
  destruct (merge_value (PObj fs) (PObj base)) as [| | | | | |m] eqn:Em; try (by rewrite merge_objects in Em).
  cbn [members]. rewrite (read_merge k fs base m (proj1 Hwf) (proj1 Hwb) Em).
  unfold getNestedValue, loaded in *. fold e in Hk |- *. rewrite Er, Hs in *. cbn [nullish members] in *. unfold JMap.has in *.
  rewrite Eb in *. unfold field in *. cbn [members] in *. unfold read in *. destruct (JMap.get k fs) as [w|] eqn:Ew.
  - by destruct w.
  - done.
Qed.

(** ** Where the code does less *)

(** A failed merge leaves the page as it was: the same patch is sent again, with the
    version of the first conflict, which a backend that moved on refuses again. *)
Theorem retry_sends_the_same payload e p p1 payload' :
  handleMergeConflict p = (p1, Some (Merging payload)) ->
  handleMergeConflict (resume (Merging payload') (Updated (inl e)) p1).1 = (p1, Some (Merging payload)).
Proof.
  unfold handleMergeConflict. destruct (conflictState p) as [c|] eqn:E; [|done]. intros [= <- <-]. done.
Qed.

(** Choosing the backend's side for everything replaces its [null] by an object. *)
Lemma null_becomes_an_object :
  let c := {| conflict_current := [("drm", PNull)]; currentVersion := PNum #2; currentUpdatedAt := PNull;
              attemptedPatch := [("drm", PObj [("device", PStr "x")])]; conflictingFields := ["drm"] |} in
  read "drm" (merged_patch c [("drm.device", Remote)] []) = PObj [].
Proof. vm_compute. reflexivity. Qed.

(** Removing the only alias of a site is undone by the merge of the save. *)
Definition aliases (m : document) : document := [("download_setup", PObj [("site_directory_aliases", PObj m)])].

Lemma removed_alias_comes_back :
  let p := handleNestedChange "download_setup" "site_directory_aliases" (PObj [])
             (fetched (aliases [("onlyfans", PArr [PStr "OF"])]) new_page) in
  getNestedValue p "download_setup" "site_directory_aliases" = PObj [] /\
  match (handleSave p).2 with
  | Some (Saving _ payload) => payload = aliases [("onlyfans", PArr [PStr "OF"])]
  | _ => False
  end.
Proof. vm_compute. done. Qed.

(** An edit made while a save is under way is dropped by its answer. *)
Lemma edit_while_saving_is_lost :
  let p0 := handleChange "infinite_loop" (PBool true) (fetched [("infinite_loop", PBool false)] new_page) in
  match (handleSave p0).2 with
  | Some call =>
      let p1 := handleChange "previews_directory" (PStr "/previews") (handleSave p0).1 in
      let p2 := (resume call (Updated (inr [("infinite_loop", PBool true)])) p1).1 in
      getCurrentValue p1 "previews_directory" = PStr "/previews" /\
      getCurrentValue p2 "previews_directory" = PUndefined /\ hasChanges p2 = false
  | None => False
  end.
Proof. vm_compute. done. Qed.

(** An edit two levels deep copies the whole section, so a conflict offers, and by
    default sends, values of the section nobody edited here: the other change is
    undone. *)
Definition downloads (concurrency proxies : Z) : document :=
  [("hostname", PStr "h"); ("worker_pool", PObj []);
   ("network", PObj [("max_connections", PNum #proxies); ("downloads", PObj [("max_concurrency", PNum #concurrency)])])].

Lemma default_choice_reverts_the_other_change :
  let p0 := handleDeepNestedChange "network" "downloads" "max_concurrency" (PNum #8) (fetched (downloads 4 10) new_page) in
  match (handleSave p0).2 with
  | Some call =>
      let refused := {| status := Some 409; error_message := None; detail := Some {| detail_message := None;
          current := PObj (downloads 4 20); current_version := PNum #2; current_updated_at := PNull;
          attempted_patch := None; conflicting_fields := Some ["network"] |} |} in
      let p1 := (resume call (Updated (inl refused)) (handleSave p0).1).1 in
      match (handleMergeConflict p1).2 with
      | Some (Merging payload) => at_path (PObj payload) ["network"; "max_connections"] = PNum #10
      | _ => False
      end
  | None => False
  end.
Proof. vm_compute. done. Qed.

(** A backend that keeps one version number and whose Redis endpoint fails. *)
#[local] Instance versioned : SettingsApi := {|
  backend_state := Z;
  put_settings version d :=
    if match read "expected_version" d with PNum n => num_eqb n #version | _ => true end
    then (version + 1, inr d)
    else (version, inl {| status := Some 409; detail := None; error_message := None |});
  put_redis version _ := (version, inl {| status := Some 500; detail := None; error_message := Some "down" |})
|}.

(** A save of both parts stops half way: the application's settings are stored, the save
    fails, and saving again conflicts with the page's own change. *)
Lemma half_saved :
  let payload := [("infinite_loop", PBool true); ("redis", PObj []); ("expected_version", PNum #1)] in
  let '(b1, first) := updateSettings 1 payload in
  let '(_, second) := updateSettings b1 payload in
  b1 = 2 /\ first = inl {| status := Some 500; detail := None; error_message := Some "down" |} /\
  second = inl {| status := Some 409; detail := None; error_message := None |}.
Proof. vm_compute. done. Qed.

(** ** Witnesses *)

Definition demo_conflict : ConflictModalState := {|
  conflict_current := [("network", PObj [("max_connections", PNum #20); ("downloads", PNull)]); ("infinite_loop", PBool false)];
  currentVersion := PNum #2; currentUpdatedAt := PNull;
  attemptedPatch := [("network", PObj [("max_connections", PNum #10); ("downloads", PObj [("max_concurrency", PNum #8)])]);
                     ("infinite_loop", PBool true)];
  conflictingFields := ["network"] |}.

Definition demo_entry : ConflictLeafEntry :=
  leaf_entry ["network"] (PNum #8) PUndefined ["network"; "downloads"; "max_concurrency"] "network".


Lemma demo_wf : tree_wf (PObj (attemptedPatch demo_conflict)) /\ tree_wf (PObj (conflict_current demo_conflict)).
Proof. simpl. decide_wf. Defined.

Lemma demo_listed : demo_entry ∈ entries_of demo_conflict.
Proof.
  assert (E : exists a b, entries_of demo_conflict = a :: demo_entry :: b) by (do 2 eexists; vm_compute; reflexivity).
  destruct E as (a & b & ->). set_solver.
Qed.

Lemma resolved_as_chosen_witness :
  deepClone (at_path (PObj (merged_patch demo_conflict [(path demo_entry, Remote)] [])) (pathParts demo_entry)) = PUndefined.
Proof.
  rewrite (resolved_as_chosen demo_conflict [(path demo_entry, Remote)] [] demo_entry);
    [vm_compute; reflexivity|apply demo_wf|apply demo_wf|apply demo_listed|done|done].
Defined.

Lemma own_side_is_merge_witness :
  same_json (read "network" (merged_patch demo_conflict [] []))
            (merge_value (read "network" (attemptedPatch demo_conflict)) (read "network" (conflict_current demo_conflict))).
Proof.
  apply own_side_is_merge; [apply demo_wf|apply demo_wf| |done| |done].
  - apply (bool_decide_unpack _). vm_compute. exact I.
  - vm_compute. tauto.
Defined.

Lemma page_is_consistent_witness : page_ok (handle (Change "infinite_loop" (PBool true)) new_page).1.
Proof. apply (page_is_consistent _ []). eapply rtc_l; [apply (step_event (Change "infinite_loop" (PBool true)) new_page [])|apply rtc_refl]. Defined.

Lemma nested_edit_is_shown_witness :
  coalesce (getNestedValue (handleNestedChange "redis" "enabled" (PBool false) new_page) "backend" "execution_mode") PNull = PStr "local".
Proof. rewrite nested_edit_is_shown; [reflexivity|]. simpl. decide_wf. Defined.

Lemma timeout_is_sane_witness : exists n, guest_lookup_timeout (PStr "0.2s") PNull = PNum n /\ num_leb one_half n = true.
Proof. apply timeout_is_sane. reflexivity. Defined.

Definition demo_saved : page :=
  handleNestedChange "worker_pool" "size" (PNum #4)
    (fetched [("worker_pool", PObj [("enabled", PBool true); ("size", PNum #2)]); ("config_version", PNum #7)] new_page).

Lemma save_sends_what_is_shown_witness :
  exists payload, (handleSave demo_saved).2 = Some (Saving (editedSettings demo_saved) payload) /\
    read "expected_version" payload = PNum #7 /\ at_path (PObj payload) ["worker_pool"; "enabled"] = PBool true.
Proof.
  destruct (handleSave demo_saved) as [p' [[| edited payload |]|]] eqn:E; try (vm_compute in E; discriminate E).
  assert (edited = editedSettings demo_saved) as -> by (vm_compute in E; by injection E).
  assert (Hw : tree_wf (PObj (settings demo_saved ?? [])) /\ tree_wf (PObj (editedSettings demo_saved))) by (simpl; decide_wf).
  destruct (save_sends_what_is_shown demo_saved p' (settings demo_saved ?? []) _ payload eq_refl (proj1 Hw) (proj2 Hw) E) as [Hv Hf].
  destruct (Hf "worker_pool") as (Hh & _ & Hk); [done|done|]. exists payload. split; [done|].
  split; [rewrite Hv; reflexivity|]. rewrite Hk; [reflexivity|by rewrite Hh|reflexivity|reflexivity].
Defined.
