(* ===== verification/SettingsRows.v ===== *)
(** * The database section of the settings ([features/settings/hooks/useSettingsPageController.ts])

    Two editors over two lists of rows: settings as the database stores them, and the
    mapping of backends to settings. A row is chosen, edited and written back with
    the version it was loaded with; without a chosen row a new one is made. The
    functions are cut at the [await] of their request and at the [refetch] after it;
    what they captured stays with the pending call.

    What is sent is the editor's content and the version of the chosen row; choosing
    a row and saving it sends the row itself. *)

From Stdlib Require Import Ascii ZArith Lia.
From stdpp Require Import base list strings option relations sets.
From S2P Require Import Prelude JsString JsText ProxyImport.

Record DBSettingRecord := {
  id : Z;
  backend : string;
  key : string;
  value : string;
  is_secret : bool;
  description : option string;
  version : Z;
  created_at : option string;
  updated_at : option string
}.

Record DbEditorState := { ed_backend : string; ed_key : string; ed_value : string; ed_description : string; ed_isSecret : bool }.

Definition createEmptyDbEditor : DbEditorState :=
  {| ed_backend := EmptyString; ed_key := EmptyString; ed_value := EmptyString; ed_description := EmptyString; ed_isSecret := false |}.

Record BackendInventoryRecord := {
  inv_id : Z;
  backend_name : string;
  hostname : string;
  local_ip : option string;
  settings_id : Z;
  settings_scope : option string;
  settings_key : option string;
  inv_created_at : option string;
  inv_updated_at : option string
}.

Record InventoryEditorState := { ie_backendName : string; ie_hostname : string; ie_localIp : string; ie_settingsId : string }.

Definition createEmptyInventoryEditor : InventoryEditorState :=
  {| ie_backendName := EmptyString; ie_hostname := EmptyString; ie_localIp := EmptyString; ie_settingsId := EmptyString |}.

Inductive DbMessage := Success (text : string) | Error_ (text : string).

Record rows_page := {
  dbSettings : option (list DBSettingRecord);
  backendInventory : option (list BackendInventoryRecord);
  dbMessage : option DbMessage;
  selectedDbSettingId : option Z;
  dbEditor : DbEditorState;
  selectedInventoryId : option Z;
  inventoryEditor : InventoryEditorState
}.

Definition new_rows_page : rows_page := {|
  dbSettings := None; backendInventory := None; dbMessage := None; selectedDbSettingId := None;
  dbEditor := createEmptyDbEditor; selectedInventoryId := None; inventoryEditor := createEmptyInventoryEditor |}.

Definition set_message (m : option DbMessage) (p : rows_page) : rows_page := {|
  dbSettings := dbSettings p; backendInventory := backendInventory p; dbMessage := m;
  selectedDbSettingId := selectedDbSettingId p; dbEditor := dbEditor p;
  selectedInventoryId := selectedInventoryId p; inventoryEditor := inventoryEditor p |}.

Definition set_db (sel : option Z) (ed : DbEditorState) (p : rows_page) : rows_page := {|
  dbSettings := dbSettings p; backendInventory := backendInventory p; dbMessage := dbMessage p;
  selectedDbSettingId := sel; dbEditor := ed;
  selectedInventoryId := selectedInventoryId p; inventoryEditor := inventoryEditor p |}.

Definition set_inventory (sel : option Z) (ed : InventoryEditorState) (p : rows_page) : rows_page := {|
  dbSettings := dbSettings p; backendInventory := backendInventory p; dbMessage := dbMessage p;
  selectedDbSettingId := selectedDbSettingId p; dbEditor := dbEditor p;
  selectedInventoryId := sel; inventoryEditor := ed |}.

(** The lists as they were last fetched. *)
Definition set_lists (rows : option (list DBSettingRecord)) (inv : option (list BackendInventoryRecord)) (p : rows_page) : rows_page := {|
  dbSettings := rows; backendInventory := inv; dbMessage := dbMessage p;
  selectedDbSettingId := selectedDbSettingId p; dbEditor := dbEditor p;
  selectedInventoryId := selectedInventoryId p; inventoryEditor := inventoryEditor p |}.

(** Keys that only the deployment sets: [/^(db|redis|download)\./] and five names. *)
Definition isProtectedSettingKey (key : string) : bool :=
  str_in key ["config"; "config_scope"; "hostname"; "network.config"; "drm.config"]
  || some (fun p => starts_with key (p +:+ ".")) ["db"; "redis"; "download"].

(** ** Settings *)

Definition selectDbSetting (row : DBSettingRecord) (p : rows_page) : rows_page :=
  set_db (Some (id row)) {| ed_backend := backend row; ed_key := key row; ed_value := value row;
    ed_description := description row ?? EmptyString; ed_isSecret := is_secret row |} p.

Definition resetDbEditor (p : rows_page) : rows_page := set_db None createEmptyDbEditor p.

(** The row whose id is selected; ids are numbers, [null] is none of them. *)
Definition selectedDbSetting (p : rows_page) : option DBSettingRecord :=
  dbSettings p ?> find_first (fun row => bool_decide (Some (id row) = selectedDbSettingId p)).

(** [handleDbEditorChange(field, value)]: the editor with one field replaced. *)
Inductive db_field := FBackend (v : string) | FKey (v : string) | FValue (v : string) | FDescription (v : string) | FSecret (v : bool).

Definition handleDbEditorChange (f : db_field) (p : rows_page) : rows_page :=
  let e := dbEditor p in
  let '(b, k, v, d, s) := match f with
    | FBackend x => (x, ed_key e, ed_value e, ed_description e, ed_isSecret e)
    | FKey x => (ed_backend e, x, ed_value e, ed_description e, ed_isSecret e)
    | FValue x => (ed_backend e, ed_key e, x, ed_description e, ed_isSecret e)
    | FDescription x => (ed_backend e, ed_key e, ed_value e, x, ed_isSecret e)
    | FSecret x => (ed_backend e, ed_key e, ed_value e, ed_description e, x)
    end in
  set_db (selectedDbSettingId p) {| ed_backend := b; ed_key := k; ed_value := v; ed_description := d; ed_isSecret := s |} p.

Record DBSettingRequest := {
  rq_backend : string;
  rq_key : string;
  rq_value : string;
  rq_is_secret : bool;
  rq_description : option string;
  rq_expected_version : option Z
}.

Definition db_request (ed : DbEditorState) (expected : option Z) : DBSettingRequest := {|
  rq_backend := ed_backend ed; rq_key := ed_key ed; rq_value := ed_value ed; rq_is_secret := ed_isSecret ed;
  rq_description := truthy_opt (Some (ed_description ed)); rq_expected_version := expected |}.

(** ** Mappings *)

Definition selectBackendInventory (row : BackendInventoryRecord) (p : rows_page) : rows_page :=
  set_inventory (Some (inv_id row)) {| ie_backendName := backend_name row; ie_hostname := hostname row;
    ie_localIp := local_ip row ?? EmptyString; ie_settingsId := show_Z (settings_id row) |} p.

Definition resetInventoryEditor (p : rows_page) : rows_page := set_inventory None createEmptyInventoryEditor p.

Definition selectedInventory (p : rows_page) : option BackendInventoryRecord :=
  backendInventory p ?> find_first (fun row => bool_decide (Some (inv_id row) = selectedInventoryId p)).

Inductive inventory_field := FBackendName (v : string) | FHostname (v : string) | FLocalIp (v : string) | FSettingsId (v : string).

Definition handleInventoryEditorChange (f : inventory_field) (p : rows_page) : rows_page :=
  let e := inventoryEditor p in
  let '(b, h, l, s) := match f with
    | FBackendName x => (x, ie_hostname e, ie_localIp e, ie_settingsId e)
    | FHostname x => (ie_backendName e, x, ie_localIp e, ie_settingsId e)
    | FLocalIp x => (ie_backendName e, ie_hostname e, x, ie_settingsId e)
    | FSettingsId x => (ie_backendName e, ie_hostname e, ie_localIp e, x)
    end in
  set_inventory (selectedInventoryId p) {| ie_backendName := b; ie_hostname := h; ie_localIp := l; ie_settingsId := s |} p.

Record InventoryRequest := {
  rq_backend_name : string;
  rq_hostname : string;
  rq_local_ip : option string;
  rq_settings_id : Z
}.

Definition inventory_request (ed : InventoryEditorState) (parsedSettingsId : Z) : InventoryRequest := {|
  rq_backend_name := ie_backendName ed; rq_hostname := ie_hostname ed;
  rq_local_ip := truthy_opt (Some (ie_localIp ed)); rq_settings_id := parsedSettingsId |}.

(** ** Requests *)

(** What a pending call waits for. *)
Inductive call :=
| PatchDb (row : Z) (rq : DBSettingRequest)
| UpsertDb (rq : DBSettingRequest)
| RefetchDb (verb : string) (row : Z)
| DeleteDb (row : Z)
| PatchInventory (row : Z) (rq : InventoryRequest)
| UpsertInventory (rq : InventoryRequest)
| RefetchInventory (verb : string) (row : Z) (resets : bool)
| DeleteInventory (row : Z).

Definition saveDbSetting (p : rows_page) : rows_page * option call :=
  (set_message None p,
   Some (match selectedDbSetting p with
         | Some row => PatchDb (id row) (db_request (dbEditor p) (Some (version row)))
         | None => UpsertDb (db_request (dbEditor p) None)
         end)).

Definition deleteSelectedDbSetting (p : rows_page) : rows_page * option call :=
  match selectedDbSetting p with
  | None => (p, None)
  | Some row => (set_message None p, Some (DeleteDb (id row)))
  end.

Definition saveInventory (p : rows_page) : rows_page * option call :=
  let p := set_message None p in
  match parse_int (ie_settingsId (inventoryEditor p)) with
  | Some n =>
      if n <=? 0 then (set_message (Some (Error_ "settings_id must be a positive integer.")) p, None)
      else (p, Some (match selectedInventory p with
                     | Some row => PatchInventory (inv_id row) (inventory_request (inventoryEditor p) n)
                     | None => UpsertInventory (inventory_request (inventoryEditor p) n)
                     end))
  | None => (set_message (Some (Error_ "settings_id must be a positive integer.")) p, None)
  end.

Definition deleteSelectedInventory (p : rows_page) : rows_page * option call :=
  match selectedInventory p with
  | None => (p, None)
  | Some row => (set_message None p, Some (DeleteInventory (inv_id row)))
  end.

(** A failed request: the status of its response, the row a conflict reports, and the
    message of an [Error]. *)
Record failure := { status : option Z; current_row : option DBSettingRecord; error_message : option string }.

Inductive answer :=
| Failed (e : failure)
| Row (row : Z)
| Deleted (success : bool)
| Lists (rows : option (list DBSettingRecord)) (inv : option (list BackendInventoryRecord)).

Definition failed (fallback : string) (e : failure) (p : rows_page) : rows_page :=
  set_message (Some (Error_ (error_message e ?? fallback))) p.

(** The [catch] of [saveDbSetting]. *)
Definition db_save_failed (e : failure) (p : rows_page) : rows_page :=
  match (if bool_decide (status e = Some 409) then current_row e else None) with
  | Some current =>
      set_message (Some (Error_ ("Conflict detected. Reloaded latest row #" +:+ show_Z (id current) +:+ ".")))
        (selectDbSetting current p)
  | None => failed "Failed to save DB setting" e p
  end.

Definition resume (c : call) (a : answer) (p : rows_page) : rows_page * option call :=
  match c, a with
  | PatchDb _ _, Row row => (p, Some (RefetchDb "Updated" row))
  | UpsertDb _, Row row => (p, Some (RefetchDb "Created" row))
  | (PatchDb _ _ | UpsertDb _), Failed e => (db_save_failed e p, None)
  | RefetchDb verb row, Lists rows _ =>
      let p := set_lists rows (backendInventory p) p in
      (set_db (Some row) (dbEditor p) (set_message (Some (Success (verb +:+ " setting #" +:+ show_Z row))) p), None)
  | DeleteDb row, Deleted true => (resetDbEditor (set_message (Some (Success ("Deleted setting #" +:+ show_Z row))) p), None)
  | DeleteDb row, Deleted false => (set_message (Some (Error_ ("No row deleted for #" +:+ show_Z row))) p, None)
  | DeleteDb _, Failed e => (failed "Failed to delete DB setting" e p, None)
  | PatchInventory _ _, Row row => (p, Some (RefetchInventory "Updated" row false))
  | UpsertInventory _, Row row => (p, Some (RefetchInventory "Created" row false))
  | (PatchInventory _ _ | UpsertInventory _), Failed e => (failed "Failed to save backend mapping" e p, None)
  | RefetchInventory verb row resets, Lists _ inv =>
      let p := set_message (Some (Success (verb +:+ " backend mapping #" +:+ show_Z row))) (set_lists (dbSettings p) inv p) in
      (if resets then resetInventoryEditor p else set_inventory (Some row) (inventoryEditor p) p, None)
  | DeleteInventory row, Deleted true => (p, Some (RefetchInventory "Deleted" row true))
  | DeleteInventory row, Deleted false => (set_message (Some (Error_ ("No mapping deleted for #" +:+ show_Z row))) p, None)
  | DeleteInventory _, Failed e => (failed "Failed to delete backend mapping" e p, None)
  | _, _ => (p, Some c)
  end.

(** What the user does, and lists that arrive by themselves. *)
Inductive event :=
| SelectDb (row : DBSettingRecord)
| ResetDb
| EditDb (f : db_field)
| SaveDb
| RemoveDb
| SelectInventory (row : BackendInventoryRecord)
| ResetInventory
| EditInventory (f : inventory_field)
| SaveInventory
| RemoveInventory
| Arrive (rows : option (list DBSettingRecord)) (inv : option (list BackendInventoryRecord)).

Definition handle (e : event) (p : rows_page) : rows_page * option call :=
  match e with
  | SelectDb row => (selectDbSetting row p, None)
  | ResetDb => (resetDbEditor p, None)
  | EditDb f => (handleDbEditorChange f p, None)
  | SaveDb => saveDbSetting p
  | RemoveDb => deleteSelectedDbSetting p
  | SelectInventory row => (selectBackendInventory row p, None)
  | ResetInventory => (resetInventoryEditor p, None)
  | EditInventory f => (handleInventoryEditorChange f p, None)
  | SaveInventory => saveInventory p
  | RemoveInventory => deleteSelectedInventory p
  | Arrive rows inv => (set_lists rows inv p, None)
  end.

Inductive step : rows_page * list call -> rows_page * list call -> Prop :=
| step_event e p calls : step (p, calls) ((handle e p).1, calls ++ option_list (handle e p).2)
| step_answer c a p before after :
    step (p, before ++ c :: after) ((resume c a p).1, before ++ option_list (resume c a p).2 ++ after).

(** * The rows of the database section are written as they are edited *)

(** A list of rows with an id each of their own. *)
Definition distinct {A} (f : A -> Z) (l : list A) : Prop := NoDup (map f l).

Lemma find_by_id {A} (f : A -> Z) l x :
  distinct f l -> x ∈ l -> find_first (fun y => bool_decide (Some (f y) = Some (f x))) l = Some x.
Proof.
  unfold distinct, find_first. induction l as [|y l IH]; [by intros _ ?%elem_of_nil|]. intros [Hn Hd]%NoDup_cons [->|Hx]%elem_of_cons; simpl.
  - by rewrite bool_decide_true.
  - rewrite bool_decide_false; [by apply IH|]. intros [= E]. apply Hn. rewrite E. by apply (list_elem_of_fmap_2 f).
Qed.

Lemma truthy_opt_nullish o : truthy_opt (Some (o ?? EmptyString)) = truthy_opt o.
Proof. by destruct o as [[]|]. Qed.

(** Choosing a row and saving it changes nothing: the row's own fields are sent back
    with the version it was loaded with, and likewise for a mapping, whose settings id
    passes through its text. (An empty description or address is sent as [null].) *)
Theorem select_then_save p rows inv r m :
  dbSettings p = Some rows -> backendInventory p = Some inv ->
  distinct id rows -> distinct inv_id inv -> r ∈ rows -> m ∈ inv -> 0 < settings_id m ->
  (saveDbSetting (selectDbSetting r p)).2 =
    Some (PatchDb (id r) {| rq_backend := backend r; rq_key := key r; rq_value := value r; rq_is_secret := is_secret r;
                            rq_description := truthy_opt (description r); rq_expected_version := Some (version r) |}) /\
  (saveInventory (selectBackendInventory m p)).2 =
    Some (PatchInventory (inv_id m) {| rq_backend_name := backend_name m; rq_hostname := hostname m;
                                       rq_local_ip := truthy_opt (local_ip m); rq_settings_id := settings_id m |}).
Proof.
  intros Hr Hi Hdr Hdi Hin Him Hpos. split.
  - unfold saveDbSetting, selectedDbSetting. cbn. rewrite Hr. cbn. rewrite find_by_id by done. unfold db_request. cbn.
    do 3 f_equal. apply truthy_opt_nullish.
  - unfold saveInventory. cbn [inventoryEditor selectBackendInventory set_inventory set_message ie_settingsId].
    rewrite parse_int_show by lia. replace (settings_id m <=? 0) with false by lia.
    unfold selectedInventory. cbn. rewrite Hi. cbn. rewrite find_by_id by done. unfold inventory_request. cbn.
    do 3 f_equal. apply truthy_opt_nullish.
Qed.

(** A mapping is only ever written with a positive settings id, and a row only with the
    version of a row that was listed. *)
Definition call_ok (c : call) : Prop :=
  match c with
  | PatchInventory _ rq | UpsertInventory rq => 0 < rq_settings_id rq
  | PatchDb _ rq => exists v, rq_expected_version rq = Some v
  | UpsertDb rq => rq_expected_version rq = None
  | _ => True
  end.

Lemma handle_call_ok e p c : (handle e p).2 = Some c -> call_ok c.
Proof.
  destruct e; simpl; try done.
  - intros [= <-]. destruct (selectedDbSetting p); simpl; [by eexists|done].
  - unfold deleteSelectedDbSetting. by destruct (selectedDbSetting p); [intros [= <-]|].
  - unfold saveInventory. cbn [inventoryEditor set_message]. destruct (parse_int _) as [n|]; [|done].
    destruct (n <=? 0) eqn:E; [done|]. intros [= <-]. by destruct (selectedInventory _); simpl; lia.
  - unfold deleteSelectedInventory. by destruct (selectedInventory p); [intros [= <-]|].
Qed.

Lemma resume_call_ok c a p c' : call_ok c -> (resume c a p).2 = Some c' -> call_ok c'.
Proof. intros Hc. destruct c, a as [| | []|]; simpl; intros [= <-]; done. Qed.

(** In every reachable state each pending write of a mapping carries a positive
    settings id, a write to an existing row names the version it was read with, and a
    new row names none. *)
Theorem writes_are_guarded p calls : rtc step (new_rows_page, []) (p, calls) -> Forall call_ok calls.
Proof.
  assert (H0 : Forall call_ok (new_rows_page, @nil call).2) by constructor.
  intros H. remember (new_rows_page, []) as w eqn:E. clear E. revert H0. change calls with (p, calls).2.
  induction H as [w|w1 w2 w3 Hs _ IH]; [done|]. intros Hok. apply IH. clear IH.
  destruct Hs as [e p' cs|c a p' before after]; simpl in *.
  - apply Forall_app. split; [done|]. destruct (handle e p').2 as [c|] eqn:E; [|constructor].
    constructor; [|constructor]. by eapply handle_call_ok.
  - apply Forall_app in Hok as [Hb [Hc Ha]%Forall_cons]. apply Forall_app. split; [done|].
    apply Forall_app. split; [|done]. destruct (resume c a p').2 as [c'|] eqn:E; [|constructor].
    constructor; [|constructor]. by eapply resume_call_ok.
Qed.

(** After a conflict the latest row is shown, but the list still has the old one: the
    next save names the old version again, and conflicts again. *)
Theorem conflict_keeps_the_old_version p rows r latest e :
  dbSettings p = Some rows -> distinct id rows -> r ∈ rows -> id latest = id r ->
  status e = Some 409 -> current_row e = Some latest ->
  exists rq, (saveDbSetting (db_save_failed e p)).2 = Some (PatchDb (id r) rq) /\
    rq_value rq = value latest /\ rq_expected_version rq = Some (version r).
Proof.
  intros Hr Hd Hin Hid Hs Hc. unfold db_save_failed. rewrite Hs, bool_decide_true, Hc by done.
  unfold saveDbSetting, selectedDbSetting. cbn. rewrite Hr, Hid. cbn. rewrite find_by_id by done. by eexists.
Qed.

(** Text after the number is accepted. *)
Lemma trailing_text_accepted :
  let p := handleInventoryEditorChange (FSettingsId "12abc") new_rows_page in
  match (saveInventory p).2 with Some (UpsertInventory rq) => rq_settings_id rq = 12 | _ => False end.
Proof. vm_compute. reflexivity. Qed.

(** ** Witnesses *)

Definition demo_row : DBSettingRecord :=
  {| id := 3; backend := "b"; key := "k"; value := "v"; is_secret := false; description := Some EmptyString; version := 7; created_at := None; updated_at := None |}.
Definition demo_map : BackendInventoryRecord :=
  {| inv_id := 1; backend_name := "b"; hostname := "h"; local_ip := None; settings_id := 12;
     settings_scope := None; settings_key := None; inv_created_at := None; inv_updated_at := None |}.
Definition demo_rows : rows_page := set_lists (Some [demo_row]) (Some [demo_map]) new_rows_page.

Lemma select_then_save_witness :
  (saveInventory (selectBackendInventory demo_map demo_rows)).2 =
    Some (PatchInventory 1 {| rq_backend_name := "b"; rq_hostname := "h"; rq_local_ip := None; rq_settings_id := 12 |}).
Proof.
  apply (select_then_save demo_rows [demo_row] [demo_map] demo_row demo_map); try done;
    try (apply NoDup_singleton); set_solver.
Defined.

Lemma writes_are_guarded_witness : Forall call_ok (option_list (handle SaveDb new_rows_page).2).
Proof.
  apply (writes_are_guarded (handle SaveDb new_rows_page).1).
  eapply rtc_l; [apply (step_event SaveDb new_rows_page [])|apply rtc_refl].
Defined.
