(* ===== verification/DriveInventory.v ===== *)
(** * Drives of a machine ([features/system/lib/systemUtils.ts])

    The drives a machine reports and the directories its settings name are merged
    into one list: a directory goes to the deepest reported drive that contains it,
    and the directories of a group that no drive contains get a drive of their own,
    marked unavailable. The reported drives are copied first; the copies are then
    changed in place, through a map from paths in which the last drive with a path
    wins. Paths are POSIX paths. *)

From Stdlib Require Import Ascii ZArith Lia.
From stdpp Require Import base list strings option.
From S2P Require Import Prelude JsString JsNum JsSort.

(** ** Paths *)

Definition slash : ascii := "/".

(** One segment of [normalizePosixPath]'s loop. *)
Definition push_segment (isAbsolute : bool) (segments : list string) (segment : string) : list string :=
  if negb (truthy segment) || (segment =s ".") then segments
  else if segment =s ".." then
    match list.last segments with
    | Some l => if negb (l =s "..") then removelast segments
                else if negb isAbsolute then segments ++ [".."] else segments
    | None => if negb isAbsolute then segments ++ [".."] else segments
    end
  else segments ++ [segment].

Definition normalizePosixPath (path : string) : string :=
  if negb (truthy path) then "/"
  else
    let isAbsolute := starts_with path "/" in
    let segments := foldl (push_segment isAbsolute) [] (split slash path) in
    let normalized := (if isAbsolute then "/" else EmptyString) +:+ join "/" segments in
    str_or normalized (if isAbsolute then "/" else ".").

(** [path.slice(0, path.lastIndexOf(c))], if [c] occurs. *)
Fixpoint before_last (c : ascii) (s : string) : option string :=
  match s with
  | EmptyString => None
  | String d r => match before_last c r with
                  | Some t => Some (String d t)
                  | None => if Ascii.eqb d c then Some EmptyString else None
                  end
  end.

Definition dirnamePosixPath (path : string) : string :=
  let normalized := normalizePosixPath path in
  if (normalized =s "/") || (normalized =s ".") then normalized
  else match before_last slash normalized with
       | None => "."
       | Some EmptyString => "/"
       | Some t => t
       end.

Definition normalizePath (path : string) : string :=
  let normalized := normalizePosixPath path in
  if (1 <? String.length normalized)%nat && ends_with normalized "/" then drop_last normalized else normalized.

Definition isWithinDrive (directory drivePath : string) : bool :=
  let normalizedDirectory := normalizePath directory in
  let normalizedDrivePath := normalizePath drivePath in
  if normalizedDrivePath =s "/" then starts_with normalizedDirectory "/"
  else (normalizedDirectory =s normalizedDrivePath) || starts_with normalizedDirectory (normalizedDrivePath +:+ "/").

(** ** Drives *)

Record DriveInfo := {
  path : string;
  device : string;
  total_bytes : num;
  used_bytes : num;
  free_bytes : num;
  percent_used : num;
  is_configured : bool;
  directory_count : Z;
  configured_directories : list string;
  is_available : option bool
}.

Definition with_directories (dirs : list string) (count : Z) (configured : bool) (d : DriveInfo) : DriveInfo := {|
  path := path d; device := device d; total_bytes := total_bytes d; used_bytes := used_bytes d; free_bytes := free_bytes d;
  percent_used := percent_used d; is_configured := configured; directory_count := count;
  configured_directories := dirs; is_available := is_available d |}.

Definition addConfiguredDirectory (directory : string) (drive : DriveInfo) : DriveInfo :=
  let normalizedDirectory := normalizePath directory in
  let dirs := if str_in normalizedDirectory (configured_directories drive) then configured_directories drive
              else configured_directories drive ++ [normalizedDirectory] in
  with_directories dirs (Z.of_nat (length dirs)) (negb (length dirs =? 0)%nat) drive.

(** The segments two paths begin with in common. *)
Fixpoint common_segments (a b : list string) : list string :=
  match a, b with
  | x :: a', y :: b' => if x =s y then x :: common_segments a' b' else []
  | _, _ => []
  end.

Definition path_segments (p : string) : list string := keep truthy (split slash p).

(** The loop over the remaining directories; nothing in common ends it. *)
Definition inferDrivePathFromDirectories (directories : list string) : string :=
  match keep truthy (map normalizePath directories) with
  | [] => "/"
  | [d] => normalizePath (dirnamePosixPath d)
  | first :: rest =>
      let common := foldl (fun c d => common_segments c (path_segments d)) (path_segments first) rest in
      "/" +:+ join "/" common
  end.

(** ** Settings *)

Record DriveSettings := {
  minimum_space : num;
  store : bool;
  scan_existing : bool;
  overflow : bool;
  directories : list string
}.

Record StagingDirectory := { sd_path : string; usage : list string; policy : list string; min_free_bytes : option num }.

Record DownloadSetupSettings := {
  download_drives : list DriveSettings;
  alt_directory_formats : list string;
  staging_directories : list StagingDirectory;
  directory_format : string;
  filename_format : string;
  text_length : num;
  date_format : string;
  overwrite_files : bool
}.

Record MetadataSetupSettings := { metadata_drives : list DriveSettings; metadata_directory_format : string }.

Record DriveConfiguration := { download_setup : DownloadSetupSettings; metadata_setup : MetadataSetupSettings }.

(** ** Merging *)

(** The copy of a reported drive. *)
Definition live_entry (drive : DriveInfo) : DriveInfo := {|
  path := normalizePath (path drive); device := device drive; total_bytes := total_bytes drive;
  used_bytes := used_bytes drive; free_bytes := free_bytes drive; percent_used := percent_used drive;
  is_configured := is_configured drive;
  directory_count := Z.of_nat (length (configured_directories drive));
  configured_directories := map normalizePath (configured_directories drive);
  is_available := Some (is_available drive ?? true) |}.

(** The last element that satisfies [p] is changed. *)
Fixpoint update_last {A} (p : A -> bool) (f : A -> A) (l : list A) : list A :=
  match l with
  | [] => []
  | x :: r => if negb (some p r) && p x then f x :: r else x :: update_last p f r
  end.

Definition shorter_path (a b : string) : bool := (String.length a <? String.length b)%nat.

Definition sortedLivePaths (entries : list DriveInfo) : list string := stable_sort shorter_path (map path entries).

Definition liveDrivePath (sorted : list string) (directory : string) : option string :=
  find_first (fun drivePath => isWithinDrive directory drivePath) sorted.

Definition unavailable_drive (inferredDrivePath : string) : DriveInfo := {|
  path := inferredDrivePath; device := "Mount unavailable"; total_bytes := #0; used_bytes := #0; free_bytes := #0;
  percent_used := #0; is_configured := true; directory_count := 0; configured_directories := [];
  is_available := Some false |}.

(** The live copies and the unavailable drives. *)
Record inventory := { live : list DriveInfo; unavailable : JMap.t DriveInfo }.

(** One directory of a group: onto a live drive, or left over. *)
Definition place_directory (sorted : list string) (acc : list DriveInfo * list string) (directory : string) :
    list DriveInfo * list string :=
  match liveDrivePath sorted directory with
  | Some drivePath =>
      if truthy drivePath
      then (update_last (fun d => path d =s drivePath) (addConfiguredDirectory directory) acc.1, acc.2)
      else (acc.1, acc.2 ++ [directory])
  | None => (acc.1, acc.2 ++ [directory])
  end.

Definition add_unavailable (inferredDrivePath : string) (m : JMap.t DriveInfo) (directory : string) : JMap.t DriveInfo :=
  JMap.set inferredDrivePath
    (addConfiguredDirectory directory (JMap.get inferredDrivePath m ?? unavailable_drive inferredDrivePath)) m.

Definition place_group (sorted : list string) (inv : inventory) (group : DriveSettings) : inventory :=
  let configuredDirectories := map normalizePath (directories group) in
  let '(entries, unmatched) := foldl (place_directory sorted) (live inv, []) configuredDirectories in
  match unmatched with
  | [] => {| live := entries; unavailable := unavailable inv |}
  | _ => {| live := entries;
            unavailable := foldl (add_unavailable (inferDrivePathFromDirectories unmatched)) (unavailable inv) unmatched |}
  end.

Section merge.
(** [String.prototype.localeCompare], as the sign of its result. *)
Context (localeCompare : string -> string -> Z).

Definition groups (settings : option DriveConfiguration) : list DriveSettings :=
  match settings with
  | Some s => download_drives (download_setup s) ++ metadata_drives (metadata_setup s)
  | None => []
  end.

Definition placed (liveDrives : list DriveInfo) (settings : option DriveConfiguration) : inventory :=
  let entries := map live_entry liveDrives in
  foldl (place_group (sortedLivePaths entries)) {| live := entries; unavailable := JMap.empty |} (groups settings).

Definition mergeConfiguredDrivesWithInventory (liveDrives : list DriveInfo) (settings : option DriveConfiguration) : list DriveInfo :=
  let inv := placed liveDrives settings in
  live inv ++ stable_sort (fun a b => 0 <? localeCompare (path a) (path b)) (JMap.values (unavailable inv)).
End merge.

(** ** Around *)

Definition getWorkerGridClassName (workerCount : Z) : string :=
  if 32 <=? workerCount then "workers-grid workers-grid-compact"
  else if 16 <=? workerCount then "workers-grid workers-grid-dense"
  else "workers-grid".

Record DriveSettingsDraft := {
  downloadDirFormat : string;
  downloadAltDirectoryFormats : list string;
  downloadFilenameFormat : string;
  downloadTextLength : num;
  downloadDateFormat : string;
  downloadOverwrite : bool;
  stagingDirectories : list StagingDirectory;
  metadataDirFormat : string
}.

Definition createDriveSettingsDraft (s : DriveConfiguration) : DriveSettingsDraft :=
  let d := download_setup s in
  {| downloadDirFormat := directory_format d; downloadAltDirectoryFormats := alt_directory_formats d;
     downloadFilenameFormat := filename_format d; downloadTextLength := text_length d; downloadDateFormat := date_format d;
     downloadOverwrite := overwrite_files d; stagingDirectories := staging_directories d;
     metadataDirFormat := metadata_directory_format (metadata_setup s) |}.
