(* ===== verification/DriveInventorySpec.v ===== *)
(** * Every configured directory is on one drive of the merged list

    Paths are lists of segments: normalising a path yields a canonical one and
    normalising it again changes nothing; containment is having the drive's segments
    first. On top of it the merge: where each directory ends, that nothing is lost,
    and that the counts shown are right. *)

From Stdlib Require Import Ascii ZArith Lia.
From stdpp Require Import base list strings option sorting sets.
From S2P Require Import Prelude JsString JsNum JsSort PluginClient DriveInventory.

(** ** Canonical paths *)

(** A segment that is kept as it is. *)
Definition plain (s : string) : Prop := s <> EmptyString /\ s <> "." /\ has_char slash s = false.

(** What the loop of [normalizePosixPath] builds: steps up come first, and only in a
    relative path. *)
Inductive canonical (isAbsolute : bool) : list string -> Prop :=
| can_nil : canonical isAbsolute []
| can_up l : isAbsolute = false -> Forall (fun s => s = "..") l -> canonical isAbsolute (l ++ [".."])
| can_push l s : canonical isAbsolute l -> plain s -> s <> ".." -> canonical isAbsolute (l ++ [s]).

Definition show_path (isAbsolute : bool) (l : list string) : string :=
  str_or ((if isAbsolute then "/" else EmptyString) +:+ join "/" l) (if isAbsolute then "/" else ".").

Lemma push_plain a l s : plain s -> s <> ".." -> push_segment a l s = l ++ [s].
Proof.
  intros (H1 & H2 & _) H3. unfold push_segment. apply truthy_nonempty in H1. apply str_eqb_neq in H2, H3. by rewrite H1, H2, H3.
Qed.

Lemma push_up a l : Forall (fun s => s = "..") l -> push_segment a l ".." = if a then l else l ++ [".."].
Proof.
  intros H. unfold push_segment. change (negb (truthy "..") || (".." =s ".")) with false. change (".." =s "..") with true. cbv iota.
  destruct (list.last l) as [x|] eqn:E; [|by destruct a].
  apply last_Some_elem_of in E. rewrite Forall_forall in H. rewrite (H x E). by destruct a.
Qed.

Lemma push_canonical a l s : canonical a l -> has_char slash s = false -> canonical a (push_segment a l s).
Proof.
  intros Hc Hs. destruct (decide (s = EmptyString)) as [->|H1]; [done|]. destruct (decide (s = ".")) as [->|H2]; [done|].
  destruct (decide (s = "..")) as [->|H3]; [|rewrite push_plain by done; by constructor].
  inversion Hc as [|l' Ha Hl|l' s' Hl' Hp Hn]; subst.
  - rewrite push_up by constructor. destruct a; [constructor|]. by apply (can_up false []).
  - rewrite push_up by (apply Forall_app; by split; [|repeat constructor]). apply can_up; [done|]. apply Forall_app. by split; [|repeat constructor].
  - unfold push_segment. change (negb (truthy "..") || (".." =s ".")) with false. change (".." =s "..") with true. cbv iota.
    rewrite last_snoc. apply str_eqb_neq in Hn. rewrite Hn. simpl. by rewrite removelast_last.
Qed.

Lemma fold_canonical a l : canonical a l -> foldl (push_segment a) [] l = l.
Proof.
  induction 1 as [|l Ha Hl|l s Hl IH Hp Hn]; [done| |rewrite foldl_app, IH; by apply push_plain].
  subst a. rewrite foldl_app. cbn [foldl].
  assert (foldl (push_segment false) [] l = l) as ->.
  { induction l as [|x l IH] using rev_ind; [done|]. apply Forall_app in Hl as [Hl Hx]. apply Forall_cons in Hx as [-> _].
    rewrite foldl_app, IH by done. by apply (push_up false). }
  by apply (push_up false).
Qed.

Lemma canonical_fold a l : Forall (fun s => has_char slash s = false) l -> canonical a (foldl (push_segment a) [] l).
Proof.
  intros H. induction l as [|x l IH] using rev_ind; [constructor|]. apply Forall_app in H as [Hl Hx].
  rewrite foldl_app. cbn [foldl]. apply push_canonical; [by apply IH|]. by apply Forall_cons in Hx as [Hx _].
Qed.

Lemma canonical_pieces a l : canonical a l -> Forall (fun s => s <> EmptyString /\ has_char slash s = false) l.
Proof.
  induction 1 as [|l Ha Hl|l s Hl IH (H1 & _ & H3) Hn]; [done| |]; apply Forall_app; (split; [|repeat constructor; done]); [|done].
  apply Forall_forall. intros s Hs. rewrite Forall_forall in Hl. by rewrite (Hl s Hs).
Qed.

Lemma normal_form p : exists a l, canonical a l /\ normalizePosixPath p = show_path a l.
Proof.
  unfold normalizePosixPath. destruct (truthy p); simpl; [|exists true, []; by split; [constructor|]].
  exists (starts_with p "/"), (foldl (push_segment (starts_with p "/")) [] (split slash p)).
  split; [|done]. apply canonical_fold, split_pieces.
Qed.

(** ** Reading a canonical path *)

Lemma split_app c s t : split c (s +:+ String c t) = split c s ++ split c t.
Proof.
  induction s as [|d s IH].
  - change (EmptyString +:+ String c t) with (String c t). simpl. by rewrite Ascii.eqb_refl.
  - change (String d s +:+ String c t) with (String d (s +:+ String c t)). cbn [split]. rewrite IH.
    destruct (Ascii.eqb d c); [done|]. destruct (split c s) as [|h r] eqn:E; [by destruct (split_cons_nonempty c s)|done].
Qed.

Lemma join_cons x y l : join "/" (x :: y :: l) = x +:+ "/" +:+ join "/" (y :: l).
Proof. done. Qed.

Lemma join_empty a l : canonical a l -> join "/" l = EmptyString -> l = [].
Proof.
  intros H%canonical_pieces. destruct l as [|x [|y l]]; [done| |].
  - apply Forall_cons in H as [[Hx _] _]. by intros E.
  - rewrite join_cons. by destruct x.
Qed.

Lemma show_path_cons a x l : canonical a (x :: l) -> show_path a (x :: l) = (if a then "/" else EmptyString) +:+ join "/" (x :: l).
Proof.
  intros H. unfold show_path, str_or. destruct (truthy _) eqn:E; [done|]. destruct a; [done|].
  destruct (join "/" (x :: l)) as [|ch s] eqn:Ej; [|done]. by apply (join_empty _ _ H) in Ej.
Qed.

Lemma starts_slash a x l : canonical a (x :: l) -> starts_with (join "/" (x :: l)) "/" = false.
Proof.
  intros H%canonical_pieces. apply Forall_cons in H as [[Hx Hs] _]. destruct x as [|ch x]; [done|].
  assert (Hch : Ascii.eqb ch slash = false) by (unfold has_char in Hs; simpl in Hs; by destruct (Ascii.eqb ch slash)).
  assert (Hd : forall s, starts_with (String ch s) "/" = false).
  { intros s. change (starts_with (String ch s) "/") with (if ascii_dec "/" ch then String.prefix EmptyString s else false).
    destruct (ascii_dec "/" ch) as [<-|]; [by compute in Hch|done]. }
  destruct l as [|y l]; [apply Hd|]. rewrite join_cons. apply Hd.
Qed.

Lemma read_path a l :
  canonical a l -> starts_with (show_path a l) "/" = a /\ foldl (push_segment a) [] (split slash (show_path a l)) = l.
Proof.
  intros H. destruct l as [|x l]; [by destruct a|]. rewrite show_path_cons by done.
  assert (Hs : split slash (join "/" (x :: l)) = x :: l).
  { apply (split_join slash); [done|]. eapply Forall_impl; [exact (canonical_pieces _ _ H)|]. by intros s [_ ?]. }
  destruct a.
  - split; [apply starts_with_app|]. change ("/" +:+ join "/" (x :: l)) with (EmptyString +:+ String slash (join "/" (x :: l))).
    rewrite split_app, Hs. apply (fold_canonical true (x :: l) H).
  - change (EmptyString +:+ join "/" (x :: l)) with (join "/" (x :: l)). split; [by eapply starts_slash|]. rewrite Hs. by apply fold_canonical.
Qed.

Lemma show_path_truthy a l : canonical a l -> truthy (show_path a l) = true.
Proof.
  intros H. destruct l as [|x l]; [by destruct a|]. rewrite show_path_cons by done. destruct a; [done|].
  apply truthy_nonempty. intros E. by apply (join_empty _ _ H) in E.
Qed.

Lemma normalize_shown a l : canonical a l -> normalizePosixPath (show_path a l) = show_path a l.
Proof.
  intros H. unfold normalizePosixPath. rewrite show_path_truthy by done. cbn [negb]. destruct (read_path a l H) as [-> ->]. done.
Qed.

Lemma no_trailing_slash a l : canonical a l -> l <> [] -> ends_with (show_path a l) "/" = false.
Proof.
  intros H Hl. apply not_true_iff_false. intros [s E]%ends_with_iff. destruct l as [|x l]; [done|].
  pose proof (read_path a _ H) as [_ Hr]. rewrite E in Hr. change (s +:+ "/") with (s +:+ String slash EmptyString) in Hr.
  rewrite show_path_cons in E by done. apply (f_equal (split slash)) in E.
  change (s +:+ "/") with (s +:+ String slash EmptyString) in E. rewrite split_app in E.
  assert (Hs : split slash (join "/" (x :: l)) = x :: l).
  { apply (split_join slash); [done|]. eapply Forall_impl; [exact (canonical_pieces _ _ H)|]. by intros t [_ ?]. }
  assert (E' : exists b, x :: l = b ++ [EmptyString]).
  { destruct a.
    - change ("/" +:+ join "/" (x :: l)) with (EmptyString +:+ String slash (join "/" (x :: l))) in E.
      rewrite split_app, Hs in E. simpl in E. destruct (split slash s) as [|h b] eqn:Es; [by destruct (split_cons_nonempty slash s)|].
      injection E as _ E. by exists b.
    - change (EmptyString +:+ join "/" (x :: l)) with (join "/" (x :: l)) in E. rewrite Hs in E. by exists (split slash s). }
  destruct E' as [b E']. apply canonical_pieces in H. rewrite E' in H. apply Forall_app in H as [_ H].
  by apply Forall_cons in H as [[H _] _].
Qed.

Lemma normalizePath_posix p : normalizePath p = normalizePosixPath p.
Proof.
  unfold normalizePath. destruct (normal_form p) as (a & l & Hc & ->). destruct l as [|x l]; [by destruct a|].
  rewrite no_trailing_slash by done. by rewrite andb_false_r.
Qed.

Lemma normalize_form p : exists a l, canonical a l /\ normalizePath p = show_path a l.
Proof. rewrite normalizePath_posix. apply normal_form. Qed.

Lemma normalize_normal a l : canonical a l -> normalizePath (show_path a l) = show_path a l.
Proof. intros H. rewrite normalizePath_posix. by apply normalize_shown. Qed.

Lemma normalize_twice p : normalizePath (normalizePath p) = normalizePath p.
Proof. destruct (normalize_form p) as (a & l & Hc & ->). by apply normalize_normal. Qed.

(** ** Containment *)

Lemma canonical_absolute l : canonical true l <-> Forall (fun s => plain s /\ s <> "..") l.
Proof.
  split.
  - induction 1; [constructor|done|]. apply Forall_app. split; [done|]. by apply Forall_singleton.
  - induction l as [|x l IH] using rev_ind; [constructor|]. intros [H1 H2]%Forall_app. apply Forall_cons in H2 as [[Hp Hn] _].
    by apply can_push; [apply IH| |].
Qed.

Lemma prefix_canonical c l : canonical true l -> c `prefix_of` l -> canonical true c.
Proof. rewrite !canonical_absolute. intros H [r ->]. by apply Forall_app in H as [H _]. Qed.

Lemma join_app c r : c <> [] -> r <> [] -> join "/" (c ++ r) = join "/" c +:+ "/" +:+ join "/" r.
Proof.
  intros Hc Hr. induction c as [|x c IH]; [done|]. destruct c as [|y c].
  - destruct r as [|z r]; [done|]. apply join_cons.
  - change (x :: y :: c) with ([x] ++ (y :: c)). rewrite <- app_assoc. simpl app. rewrite !join_cons.
    change (y :: c ++ r) with ((y :: c) ++ r). rewrite IH by done. by rewrite !app_assoc_str.
Qed.

Lemma show_absolute l : canonical true l -> show_path true l = "/" +:+ join "/" l.
Proof. intros H. destruct l as [|x l]; [done|]. by rewrite show_path_cons. Qed.

Lemma prefix_within c l d :
  canonical true l -> normalizePath d = show_path true l -> c `prefix_of` l -> isWithinDrive d (show_path true c) = true.
Proof.
  intros Hl Hd Hc. pose proof (prefix_canonical c l Hl Hc) as Hcc. unfold isWithinDrive.
  rewrite Hd, normalize_normal by done. destruct (read_path true l Hl) as [Hs _]. destruct (show_path true c =s "/") eqn:E; [done|].
  destruct c as [|x c]; [done|]. destruct Hc as [r ->]. destruct r as [|y r]; [by rewrite app_nil_r, str_eqb_refl|].
  apply orb_true_iff. right. rewrite !show_absolute, join_app by done. rewrite <- (app_assoc_str "/"), <- app_assoc_str. apply starts_with_app.
Qed.

Lemma common_prefix_l a b : common_segments a b `prefix_of` a.
Proof.
  revert b. induction a as [|x a IH]; [done|]. intros [|y b]; simpl; [apply prefix_nil|].
  destruct (x =s y); [by apply prefix_cons|apply prefix_nil].
Qed.

Lemma common_prefix_r a b : common_segments a b `prefix_of` b.
Proof.
  revert b. induction a as [|x a IH]; intros [|y b]; simpl; try apply prefix_nil.
  destruct (x =s y) eqn:E; [apply str_eqb_eq in E as ->; by apply prefix_cons|apply prefix_nil].
Qed.

Lemma common_all (segs : string -> list string) ds c :
  let r := foldl (fun c d => common_segments c (segs d)) c ds in
  r `prefix_of` c /\ Forall (fun d => r `prefix_of` segs d) ds.
Proof.
  revert c. induction ds as [|d ds IH]; intros c; simpl; [by split|].
  destruct (IH (common_segments c (segs d))) as [H1 H2]. split; [by etrans; [|apply common_prefix_l]|].
  constructor; [by etrans; [|apply common_prefix_r]|done].
Qed.

Lemma segments_of l : canonical true l -> path_segments (show_path true l) = l.
Proof.
  intros H. unfold path_segments. rewrite show_absolute by done. destruct l as [|x l]; [done|].
  change ("/" +:+ join "/" (x :: l)) with (EmptyString +:+ String slash (join "/" (x :: l))). rewrite split_app.
  rewrite (split_join slash); [|done|eapply Forall_impl; [exact (canonical_pieces _ _ H)|by intros s [_ ?]]].
  change (keep truthy (split slash EmptyString ++ x :: l)) with (keep truthy (x :: l)). apply keep_all.
  apply canonical_pieces in H. rewrite Forall_forall in H. intros s Hs. by apply truthy_nonempty, H.
Qed.

Lemma before_last_app s x : has_char slash x = false -> before_last slash (s +:+ String slash x) = Some s.
Proof.
  intros Hx. assert (H : before_last slash x = None).
  { clear s. induction x as [|d x IH]; [done|]. unfold has_char in Hx. simpl in Hx.
    destruct (Ascii.eqb d slash) eqn:E; [done|]. simpl. by rewrite IH, E. }
  induction s as [|d s IH].
  - change (EmptyString +:+ String slash x) with (String slash x). cbn [before_last]. by rewrite H.
  - change (String d s +:+ String slash x) with (String d (s +:+ String slash x)). cbn [before_last]. by rewrite IH.
Qed.

Lemma dirname_prefix l : canonical true l -> exists c, c `prefix_of` l /\ dirnamePosixPath (show_path true l) = show_path true c.
Proof.
  intros H. unfold dirnamePosixPath. rewrite normalize_shown by done. destruct l as [|x l _] using rev_ind; [by exists []|].
  assert (Hpre : l `prefix_of` l ++ [x]) by by apply prefix_app_r.
  exists l. split; [done|]. pose proof (prefix_canonical l _ H Hpre) as Hl.
  assert (Hx : x <> EmptyString /\ has_char slash x = false).
  { apply canonical_pieces, Forall_app in H as [_ H]. by apply Forall_cons in H as [H _]. }
  rewrite (show_absolute (l ++ [x])), (show_absolute l) by done.
  assert (E : exists t, "/" +:+ join "/" (l ++ [x]) = t +:+ String slash x /\
                (t = EmptyString /\ l = [] \/ t = "/" +:+ join "/" l /\ l <> [])).
  { destruct l as [|y l]; [by exists EmptyString; auto|]. rewrite join_app by done. exists ("/" +:+ join "/" (y :: l)). auto. }
  destruct E as (t & -> & Ht). rewrite before_last_app by apply Hx.
  assert (Hn : (t +:+ String slash x =s "/") || (t +:+ String slash x =s ".") = false).
  { apply orb_false_iff. destruct Ht as [[-> _]|[-> _]]; split; apply str_eqb_neq; try (by intros [=]);
      intros E'; destruct Hx as [Hx _]; [by injection E' as E'|]. injection E' as E'.
    by destruct (join "/" l). }
  rewrite Hn. by destruct Ht as [[-> ->]|[-> _]].
Qed.

(** The place made up for directories that no drive contains contains each of them,
    when they are absolute paths. *)
Theorem inferred_drive_contains ds d :
  (forall x, x ∈ ds -> starts_with (normalizePath x) "/" = true) -> d ∈ ds ->
  isWithinDrive d (inferDrivePathFromDirectories ds) = true.
Proof.
  intros Habs Hd.
  assert (Hform : forall x, x ∈ ds -> exists l, canonical true l /\ normalizePath x = show_path true l).
  { intros x Hx. destruct (normalize_form x) as (a & l & Hc & E). specialize (Habs x Hx). rewrite E in Habs.
    destruct (read_path a l Hc) as [Ha _]. rewrite Ha in Habs. subst a. by exists l. }
  assert (Hk : keep truthy (map normalizePath ds) = map normalizePath ds).
  { apply keep_all. intros y (x & -> & Hx)%list_elem_of_fmap. destruct (Hform x Hx) as (l & Hc & ->). by apply show_path_truthy. }
  assert (Hc : exists c, inferDrivePathFromDirectories ds = show_path true c /\
             forall x l, x ∈ ds -> canonical true l -> normalizePath x = show_path true l -> c `prefix_of` l).
  { unfold inferDrivePathFromDirectories. rewrite Hk. clear Hk d Hd. destruct ds as [|d1 [|d2 ds]]; [exists []; split; [done|intros; apply prefix_nil]| |].
    - destruct (Hform d1) as (l1 & Hl1 & E1); [set_solver|]. simpl map. rewrite E1.
      destruct (dirname_prefix l1 Hl1) as (c & Hc & ->). exists c. split; [by apply normalize_normal; eapply prefix_canonical|].
      intros x l ->%list_elem_of_singleton Hl E. rewrite E1 in E. apply (f_equal path_segments) in E. rewrite !segments_of in E by done.
      by subst.
    - destruct (common_all path_segments (map normalizePath (d2 :: ds)) (path_segments (normalizePath d1))) as [H1 H2].
      set (c := foldl _ _ _) in *. destruct (Hform d1) as (l1 & Hl1 & E1); [set_solver|].
      assert (Hcc : canonical true c) by (eapply prefix_canonical; [exact Hl1|]; by rewrite E1, segments_of in H1).
      exists c. split; [by rewrite (show_absolute c Hcc)|]. intros x l [->|Hx]%elem_of_cons Hl E.
      + by rewrite E, segments_of in H1.
      + rewrite Forall_forall in H2. specialize (H2 (normalizePath x) ltac:(by apply (list_elem_of_fmap_2 normalizePath))).
        by rewrite E, segments_of in H2. }
  destruct Hc as (c & -> & Hc). destruct (Hform d Hd) as (l & Hl & E). by eapply prefix_within; [|exact E|eapply Hc].
Qed.

(** ** Placing *)

(** A drive that only gains directories; its count is right before and after. *)
Definition gains (a b : DriveInfo) : Prop :=
  path a = path b /\ device a = device b /\ is_available a = is_available b /\
  total_bytes a = total_bytes b /\ used_bytes a = used_bytes b /\ free_bytes a = free_bytes b /\ percent_used a = percent_used b /\
  configured_directories a `prefix_of` configured_directories b.

Definition counted (d : DriveInfo) : Prop := directory_count d = Z.of_nat (length (configured_directories d)).

#[export] Instance gains_preorder : PreOrder gains.
Proof.
  split; [by intros d; repeat split|]. intros a b c (H1 & H2 & H3 & H4 & H5 & H6 & H7 & H8) (I1 & I2 & I3 & I4 & I5 & I6 & I7 & I8).
  unfold gains. rewrite H1, H2, H3, H4, H5, H6, H7. repeat split; try done. by etrans.
Qed.

Lemma add_gains d x : gains x (addConfiguredDirectory d x).
Proof.
  unfold gains, addConfiguredDirectory. cbn. repeat split. destruct (str_in _ _); [done|]. by apply prefix_app_r.
Qed.

Lemma add_counted d x : counted (addConfiguredDirectory d x).
Proof. done. Qed.

Lemma add_has d x : normalizePath d ∈ configured_directories (addConfiguredDirectory d x).
Proof.
  unfold addConfiguredDirectory. cbn. destruct (str_in _ _) eqn:E; [by apply str_in_iff in E|]. set_solver.
Qed.

Lemma add_only d x y : y ∈ configured_directories (addConfiguredDirectory d x) -> y ∈ configured_directories x \/ y = normalizePath d.
Proof. unfold addConfiguredDirectory. cbn. destruct (str_in _ _); set_solver. Qed.

Lemma update_last_gains p d l : Forall2 gains l (update_last p (addConfiguredDirectory d) l).
Proof.
  induction l as [|x l IH]; [constructor|]. simpl. destruct (negb _ && _); (constructor; [|done || reflexivity]); [apply add_gains|reflexivity].
Qed.

Lemma update_last_elem {A} p (f : A -> A) l y : y ∈ update_last p f l -> y ∈ l \/ exists x, x ∈ l /\ p x = true /\ y = f x.
Proof.
  induction l as [|x l IH]; [by intros ?%elem_of_nil|]. simpl. destruct (negb (some p l) && p x) eqn:E.
  - apply andb_true_iff in E as [_ E]. intros [->|H]%elem_of_cons; [right; exists x; set_solver|set_solver].
  - intros [->|H]%elem_of_cons; [set_solver|]. destruct (IH H) as [|(z & Hz & Hp & ->)]; [set_solver|right; exists z; set_solver].
Qed.

Lemma update_last_hit {A} p (f : A -> A) l : some p l = true -> exists x, x ∈ l /\ p x = true /\ f x ∈ update_last p f l.
Proof.
  induction l as [|x l IH]; [done|]. simpl. destruct (some p l) eqn:E; simpl.
  - intros _. destruct (IH eq_refl) as (y & Hy & Hp & Hin). exists y. set_solver.
  - rewrite orb_false_r. intros Hx. rewrite Hx. exists x. set_solver.
Qed.

Lemma gains_paths l l' : Forall2 gains l l' -> map path l = map path l'.
Proof. induction 1 as [|x y l l' (H & _) _ IH]; [done|]. simpl. by rewrite H, IH. Qed.

(** *** One group *)

Section group.
Context (sorted : list string).

Lemma place_gains acc d : Forall2 gains acc.1 (place_directory sorted acc d).1.
Proof.
  unfold place_directory. destruct (liveDrivePath sorted d) as [v|]; [|done]. destruct (truthy v); [apply update_last_gains|done].
Qed.

Lemma place_fold_gains ds acc : Forall2 gains acc.1 (foldl (place_directory sorted) acc ds).1.
Proof. revert acc. induction ds as [|d ds IH]; intros acc; [done|]. simpl. etrans; [apply place_gains|apply IH]. Qed.

(** Where a directory goes: a containing live drive, or the rest. *)
Definition target (d : string) : option string := liveDrivePath sorted d ?> (fun v => truthy_opt (Some v)).

Lemma place_unmatched ds acc :
  (foldl (place_directory sorted) acc ds).2 = acc.2 ++ keep (fun d => match target d with Some _ => false | None => true end) ds.
Proof.
  revert acc. induction ds as [|d ds IH]; intros acc; [by rewrite app_nil_r|]. simpl. rewrite IH. unfold place_directory, target.
  destruct (liveDrivePath sorted d) as [v|]; simpl; [destruct (truthy v); simpl|]; rewrite <- ?app_assoc; done.
Qed.

(** A directory with a live drive is on that drive afterwards. *)
Lemma place_matched ds acc d v :
  d ∈ ds -> target d = Some v -> v ∈ map path acc.1 ->
  exists x, x ∈ (foldl (place_directory sorted) acc ds).1 /\ path x = v /\ normalizePath d ∈ configured_directories x.
Proof.
  intros Hd Ht. revert acc. induction ds as [|d' ds IH]; [by apply elem_of_nil in Hd|]. intros acc Hv. simpl.
  assert (Hv' : v ∈ map path (place_directory sorted acc d').1) by by rewrite <- (gains_paths _ _ (place_gains acc d')).
  apply elem_of_cons in Hd as [<-|Hd]; [|by apply IH]. clear IH.
  assert (H : exists x, x ∈ (place_directory sorted acc d).1 /\ path x = v /\ normalizePath d ∈ configured_directories x).
  { unfold place_directory. unfold target in Ht. destruct (liveDrivePath sorted d) as [w|]; [|done]. simpl in Ht.
    destruct (truthy w); [|done]. injection Ht as ->. simpl.
    destruct (update_last_hit (fun x => path x =s v) (addConfiguredDirectory d) acc.1) as (x & Hx & Hp & Hin).
    - apply some_iff. apply list_elem_of_fmap in Hv as (x & -> & Hx). exists x. split; [done|apply str_eqb_refl].
    - exists (addConfiguredDirectory d x). apply str_eqb_eq in Hp. split; [done|]. split; [done|]. apply add_has. }
  destruct H as (x & Hx & Hp & Hin). pose proof (place_fold_gains ds (place_directory sorted acc d)) as Hg.
  apply list_elem_of_lookup in Hx as [i Hi]. destruct (Forall2_lookup_l _ _ _ _ _ Hg Hi) as (y & Hy & Hgy).
  exists y. split; [by eapply list_elem_of_lookup_2|]. destruct Hgy as (E & _ & _ & _ & _ & _ & _ & [t Ht']). split; [by rewrite <- E|].
  rewrite Ht'. set_solver.
Qed.

(** Whatever is on a live drive was there or was placed there. *)
Lemma place_only ds acc y e :
  y ∈ (foldl (place_directory sorted) acc ds).1 -> e ∈ configured_directories y ->
  (exists x, x ∈ acc.1 /\ path x = path y /\ e ∈ configured_directories x) \/
  (exists d, d ∈ ds /\ target d = Some (path y) /\ e = normalizePath d).
Proof.
  revert acc. induction ds as [|d ds IH]; intros acc Hy He; [left; by exists y|]. simpl in Hy.
  destruct (IH _ Hy He) as [(x & Hx & Hp & Hin)|(d' & Hd & Ht & ->)]; [|right; exists d'; set_solver]. clear IH Hy.
  unfold place_directory in Hx. unfold target. destruct (liveDrivePath sorted d) as [v|] eqn:El; [|left; by exists x].
  destruct (truthy v) eqn:Ev; [|left; by exists x]. simpl in Hx.
  apply update_last_elem in Hx as [Hx|(z & Hz & Hpz & ->)]; [left; by exists x|].
  apply str_eqb_eq in Hpz. apply add_only in Hin as [Hin| ->]; [left; by exists z|].
  right. exists d. split; [set_solver|]. split; [|done]. rewrite El. simpl. rewrite Ev. by rewrite <- Hp, <- Hpz.
Qed.

Lemma place_counted ds acc : Forall counted acc.1 -> Forall counted (foldl (place_directory sorted) acc ds).1.
Proof.
  revert acc. induction ds as [|d ds IH]; [done|]. intros acc H. simpl. apply IH. unfold place_directory.
  destruct (liveDrivePath sorted d) as [v|]; [|done]. destruct (truthy v); [|done]. simpl.
  rewrite Forall_forall in *. intros y [Hy|(z & _ & _ & ->)]%update_last_elem; [by apply H|done].
Qed.
End group.

(** *** Drives that are not available *)

Definition missing_ok (m : JMap.t DriveInfo) : Prop :=
  JMap.wf m /\ forall k y, JMap.get k m = Some y -> path y = k /\ is_available y = Some false /\ counted y.

Lemma add_missing_ok p m d : missing_ok m -> missing_ok (add_unavailable p m d).
Proof.
  intros [Hw H]. split; [by apply JMap.wf_set|]. intros k y. unfold add_unavailable.
  destruct (decide (p = k)) as [<-|Hn]; [|rewrite JMap.get_set_ne by done; apply H].
  rewrite JMap.get_set_eq. intros [= <-]. destruct (JMap.get p m) as [x|] eqn:E; [|done].
  destruct (H p x E) as (H1 & H2 & _). simpl. done.
Qed.

Lemma add_missing_keeps p m d k x : JMap.get k m = Some x -> exists y, JMap.get k (add_unavailable p m d) = Some y /\ gains x y.
Proof.
  intros E. unfold add_unavailable. destruct (decide (p = k)) as [<-|Hn].
  - rewrite JMap.get_set_eq, E. simpl. eexists. split; [done|apply add_gains].
  - rewrite JMap.get_set_ne by done. by exists x.
Qed.

Lemma fold_missing p ds m :
  missing_ok m ->
  let m' := foldl (add_unavailable p) m ds in
  missing_ok m' /\
  (forall k x, JMap.get k m = Some x -> exists y, JMap.get k m' = Some y /\ gains x y) /\
  (forall d, d ∈ ds -> exists y, JMap.get p m' = Some y /\ normalizePath d ∈ configured_directories y).
Proof.
  revert m. induction ds as [|d ds IH]; intros m Hm; [split; [done|]; split; [intros k x H; by exists x|by intros ? ?%elem_of_nil]|].
  simpl. destruct (IH _ (add_missing_ok p m d Hm)) as (H1 & H2 & H3). split; [done|]. split.
  - intros k x E. destruct (add_missing_keeps p m d k x E) as (y & Ey & Hy). destruct (H2 k y Ey) as (z & Ez & Hz).
    exists z. split; [done|]. by etrans.
  - intros e [->|He]%elem_of_cons; [|by apply H3].
    destruct (H2 p (addConfiguredDirectory d (JMap.get p m ?? unavailable_drive p))) as (y & Ey & Hy); [by apply JMap.get_set_eq|].
    exists y. split; [done|]. destruct Hy as (_ & _ & _ & _ & _ & _ & _ & [t ->]). apply elem_of_app. left. apply add_has.
Qed.

Lemma fold_missing_only p ds m k y e :
  JMap.get k (foldl (add_unavailable p) m ds) = Some y -> e ∈ configured_directories y ->
  (exists x, JMap.get k m = Some x /\ e ∈ configured_directories x) \/ (exists d, d ∈ ds /\ e = normalizePath d).
Proof.
  revert m. induction ds as [|d ds IH]; intros m Hy He; [left; by exists y|]. simpl in Hy.
  destruct (IH _ Hy He) as [(x & Hx & Hin)|(d' & Hd & ->)]; [|right; exists d'; set_solver]. unfold add_unavailable in Hx.
  destruct (decide (p = k)) as [<-|Hn]; [|rewrite JMap.get_set_ne in Hx by done; left; by exists x].
  rewrite JMap.get_set_eq in Hx. injection Hx as <-. apply add_only in Hin as [Hin| ->]; [|right; exists d; set_solver].
  destruct (JMap.get p m) as [x|]; [left; by exists x|by apply elem_of_nil in Hin].
Qed.

(** *** All groups *)

Definition inv_ok (i : inventory) : Prop := Forall counted (live i) /\ missing_ok (unavailable i).

(** The inventory only grows. *)
Definition inv_grows (i j : inventory) : Prop :=
  Forall2 gains (live i) (live j) /\
  forall k x, JMap.get k (unavailable i) = Some x -> exists y, JMap.get k (unavailable j) = Some y /\ gains x y.

#[export] Instance inv_grows_preorder : PreOrder inv_grows.
Proof.
  split; [intros i; split; [done|intros k x H; by exists x]|]. intros i j k [H1 H2] [I1 I2]. split; [by etrans|].
  intros q x E. destruct (H2 q x E) as (y & Ey & Hy). destruct (I2 q y Ey) as (z & Ez & Hz). exists z. split; [done|]. by etrans.
Qed.

Section all_groups.
Context (sorted : list string).

(** What of a group no live drive contains. *)
Definition left_over (g : DriveSettings) : list string :=
  keep (fun d => match target sorted d with Some _ => false | None => true end) (map normalizePath (directories g)).

Lemma place_group_eq i g :
  place_group sorted i g =
  {| live := (foldl (place_directory sorted) (live i, []) (map normalizePath (directories g))).1;
     unavailable := foldl (add_unavailable (inferDrivePathFromDirectories (left_over g))) (unavailable i) (left_over g) |}.
Proof.
  unfold place_group. pose proof (place_unmatched sorted (map normalizePath (directories g)) (live i, [])) as H.
  fold (left_over g) in H. simpl app in H. destruct (foldl (place_directory sorted) (live i, []) _) as [es un]. simpl in H |- *.
  subst un. by destruct (left_over g).
Qed.

Lemma place_group_ok i g : inv_ok i -> inv_ok (place_group sorted i g) /\ inv_grows i (place_group sorted i g).
Proof.
  intros [H1 H2]. rewrite place_group_eq. destruct (fold_missing (inferDrivePathFromDirectories (left_over g)) (left_over g) _ H2) as (I1 & I2 & _).
  split; (split; simpl; [|done]); [by apply (place_counted sorted _ (live i, []))|by apply (place_fold_gains sorted _ (live i, []))].
Qed.

Lemma place_groups_ok gs i : inv_ok i -> inv_ok (foldl (place_group sorted) i gs) /\ inv_grows i (foldl (place_group sorted) i gs).
Proof.
  revert i. induction gs as [|g gs IH]; intros i H; [done|]. simpl. destruct (place_group_ok i g H) as [H1 H2].
  destruct (IH _ H1) as [H3 H4]. split; [done|]. by etrans.
Qed.

(** Where each directory of a group is in the end. *)
Lemma placed_directory gs i g d :
  inv_ok i -> (forall v, v ∈ sorted -> v ∈ map path (live i)) -> g ∈ gs -> d ∈ directories g ->
  let j := foldl (place_group sorted) i gs in
  match target sorted (normalizePath d) with
  | Some v => exists x, x ∈ live j /\ path x = v /\ normalizePath d ∈ configured_directories x
  | None => exists x, JMap.get (inferDrivePathFromDirectories (left_over g)) (unavailable j) = Some x /\
                      normalizePath d ∈ configured_directories x
  end.
Proof.
  intros Hok Hsub Hg Hd. revert i Hok Hsub. induction gs as [|g' gs IH]; [by apply elem_of_nil in Hg|]. intros i Hok Hsub. simpl.
  destruct (place_group_ok i g' Hok) as [Hok' Hgrow].
  assert (Hsub' : forall v, v ∈ sorted -> v ∈ map path (live (place_group sorted i g'))).
  { intros v Hv. rewrite <- (gains_paths _ _ (proj1 Hgrow)). by apply Hsub. }
  apply elem_of_cons in Hg as [<-|Hg]; [|by apply IH]. clear IH.
  destruct (place_groups_ok gs _ Hok') as [_ [Hl Hm]].
  assert (Hin : normalizePath d ∈ map normalizePath (directories g)) by by apply (list_elem_of_fmap_2 normalizePath).
  destruct (target sorted (normalizePath d)) as [v|] eqn:Et.
  - assert (Hv : v ∈ map path (live i)).
    { apply Hsub. unfold target in Et. destruct (liveDrivePath sorted (normalizePath d)) as [w|] eqn:El; [|done]. simpl in Et.
      destruct (truthy w); [|done]. injection Et as ->. unfold liveDrivePath in El. by apply find_first_Some in El as [Hw _]. }
    rewrite place_group_eq in Hl |- *. cbn [live] in Hl.
    destruct (place_matched sorted _ (live i, []) _ v Hin Et Hv) as (x & Hx & Hp & He). rewrite normalize_twice in He.
    apply list_elem_of_lookup in Hx as [n Hn]. destruct (Forall2_lookup_l _ _ _ _ _ Hl Hn) as (y & Hy & Hgy).
    exists y. split; [by eapply list_elem_of_lookup_2|]. destruct Hgy as (E & _ & _ & _ & _ & _ & _ & [t Ht]).
    split; [by rewrite <- E|]. rewrite Ht. set_solver.
  - rewrite place_group_eq in Hm |- *. cbn [unavailable] in Hm.
    assert (Hd' : normalizePath d ∈ left_over g) by (unfold left_over; apply elem_of_keep; by rewrite Et).
    destruct (fold_missing (inferDrivePathFromDirectories (left_over g)) (left_over g) _ (proj2 Hok)) as (_ & _ & H3).
    destruct (H3 _ Hd') as (x & Ex & Hx). destruct (Hm _ _ Ex) as (y & Ey & Hy). exists y. split; [done|].
    rewrite normalize_twice in Hx. destruct Hy as (_ & _ & _ & _ & _ & _ & _ & [t ->]). set_solver.
Qed.

(** Nothing else is there. *)
Lemma placed_only gs i e :
  (exists y, (y ∈ live (foldl (place_group sorted) i gs) \/
              exists k, JMap.get k (unavailable (foldl (place_group sorted) i gs)) = Some y) /\ e ∈ configured_directories y) ->
  (exists y, (y ∈ live i \/ exists k, JMap.get k (unavailable i) = Some y) /\ e ∈ configured_directories y) \/
  (exists g d, g ∈ gs /\ d ∈ directories g /\ e = normalizePath d).
Proof.
  revert i. induction gs as [|g gs IH]; intros i H; [by left|]. simpl in H.
  destruct (IH _ H) as [(y & Hy & He)|(g' & d & Hg & Hd & ->)]; [|right; exists g', d; set_solver]. clear IH H.
  rewrite place_group_eq in Hy. cbn [live unavailable] in Hy. destruct Hy as [Hy|[k Hy]].
  - destruct (place_only sorted _ (live i, []) y e Hy He) as [(x & Hx & _ & Hin)|(d & Hd & _ & ->)]; [left; exists x; auto|].
    apply list_elem_of_fmap in Hd as (d' & -> & Hd). right. exists g, d'. split; [set_solver|]. split; [done|]. apply normalize_twice.
  - destruct (fold_missing_only _ _ _ _ _ _ Hy He) as [(x & Hx & Hin)|(d & Hd & ->)]; [left; exists x; eauto|].
    unfold left_over in Hd. apply elem_of_keep in Hd as [Hd _]. apply list_elem_of_fmap in Hd as (d' & -> & Hd).
    right. exists g, d'. split; [set_solver|]. split; [done|]. apply normalize_twice.
Qed.
End all_groups.

(** ** The deepest drive *)

Lemma shorter_orders : orders shorter_path (fun _ => True).
Proof. unfold shorter_path. split; intros; rewrite ?Nat.ltb_lt, ?Nat.ltb_ge in *; lia. Qed.

Lemma find_first_sorted {A} (R : A -> A -> Prop) p l v w :
  StronglySorted R l -> find_first p l = Some v -> w ∈ l -> p w = true -> v = w \/ R v w.
Proof.
  unfold find_first. induction 1 as [|x l Hs IH Hf]; [done|]. simpl. destruct (p x) eqn:E.
  - intros [= ->] [->|Hw]%elem_of_cons _; [by left|]. right. rewrite Forall_forall in Hf. by apply Hf.
  - intros Hv [->|Hw]%elem_of_cons Hp; [by rewrite Hp in E|by apply IH].
Qed.

Lemma within_normalized d v : isWithinDrive (normalizePath d) v = isWithinDrive d v.
Proof. unfold isWithinDrive. by rewrite normalize_twice. Qed.

Lemma within_drive_normalized d v : isWithinDrive d (normalizePath v) = isWithinDrive d v.
Proof. unfold isWithinDrive. by rewrite normalize_twice. Qed.

Lemma normalize_truthy p : truthy (normalizePath p) = true.
Proof. destruct (normalize_form p) as (a & l & Hc & ->). by apply show_path_truthy. Qed.

Lemma live_paths drives : map path (map live_entry drives) = map (fun l => normalizePath (path l)) drives.
Proof. by rewrite map_map. Qed.

(** The drive chosen for a directory: a longest path among the drives around it. *)
Lemma target_spec drives d :
  match target (sortedLivePaths (map live_entry drives)) (normalizePath d) with
  | Some v => v ∈ map (fun l => normalizePath (path l)) drives /\ isWithinDrive d v = true /\
      forall l, l ∈ drives -> isWithinDrive d (path l) = true -> (String.length (normalizePath (path l)) <= String.length v)%nat
  | None => forall l, l ∈ drives -> isWithinDrive d (path l) = false
  end.
Proof.
  unfold target, liveDrivePath, sortedLivePaths. rewrite live_paths. set (paths := map _ drives).
  pose proof (stable_sort_sorted shorter_path shorter_orders paths ltac:(by apply Forall_forall)) as Hs.
  assert (Hin : forall l, l ∈ drives -> normalizePath (path l) ∈ stable_sort shorter_path paths).
  { intros l Hl. apply elem_of_stable_sort. by apply (list_elem_of_fmap_2 (fun l => normalizePath (path l))). }
  destruct (find_first _ _) as [v|] eqn:Ef.
  - pose proof (find_first_Some _ _ _ Ef) as [Hv Hw]. rewrite within_normalized in Hw. apply elem_of_stable_sort in Hv.
    assert (Ht : truthy v = true) by (apply list_elem_of_fmap in Hv as (l & -> & _); apply normalize_truthy).
    simpl. rewrite Ht. split; [done|]. split; [done|]. intros l Hl Hwl.
    destruct (find_first_sorted _ _ _ _ (normalizePath (path l)) Hs Ef (Hin l Hl)) as [->|Hr]; [|done|].
    + by rewrite within_normalized, within_drive_normalized.
    + unfold in_place, shorter_path in Hr. apply Nat.ltb_ge in Hr. lia.
  - simpl. intros l Hl. rewrite <- within_normalized, <- within_drive_normalized. by apply (proj1 (find_first_None _ _) Ef), Hin.
Qed.

(** ** The merged list *)

Lemma entries_counted drives : Forall counted (map live_entry drives).
Proof. apply Forall_forall. intros y (l & -> & _)%list_elem_of_fmap. unfold counted. simpl. by rewrite length_map. Qed.

Section merged.
Context (localeCompare : string -> string -> Z) (liveDrives : list DriveInfo) (settings : option DriveConfiguration).

Notation result := (mergeConfiguredDrivesWithInventory localeCompare liveDrives settings).
Notation start := {| live := map live_entry liveDrives; unavailable := JMap.empty |}.

Lemma start_ok : inv_ok start.
Proof. split; [apply entries_counted|]. split; [apply JMap.wf_empty|by intros k y]. Qed.

Lemma elem_result x : x ∈ result <-> x ∈ live (placed liveDrives settings) \/ exists k, JMap.get k (unavailable (placed liveDrives settings)) = Some x.
Proof.
  pose proof (proj1 (place_groups_ok (sortedLivePaths (map live_entry liveDrives)) (groups settings) _ start_ok)) as [_ [Hw _]].
  unfold mergeConfiguredDrivesWithInventory. rewrite elem_of_app, elem_of_stable_sort. fold (placed liveDrives settings) in Hw.
  apply or_iff_compat_l. unfold JMap.values. rewrite list_elem_of_fmap. split.
  - intros ([k y] & -> & Hy). exists k. by apply JMap.elem_get.
  - intros [k Hk]. exists (k, x). split; [done|]. by apply JMap.get_Some_elem.
Qed.

(** Every directory the settings name is on a drive of the merged list: on a reported
    drive that contains it, of which there is none deeper, and, if no reported drive
    contains it, on a drive that is marked unavailable. *)
Theorem every_directory_is_placed g d :
  g ∈ groups settings -> d ∈ directories g ->
  exists x, x ∈ result /\ normalizePath d ∈ configured_directories x /\
    ((exists l, l ∈ liveDrives /\ isWithinDrive d (path l) = true) ->
       path x ∈ map (fun l => normalizePath (path l)) liveDrives /\ isWithinDrive d (path x) = true /\
       forall l, l ∈ liveDrives -> isWithinDrive d (path l) = true ->
         (String.length (normalizePath (path l)) <= String.length (path x))%nat) /\
    ((forall l, l ∈ liveDrives -> isWithinDrive d (path l) = false) -> is_available x = Some false).
Proof.
  intros Hg Hd. set (sorted := sortedLivePaths (map live_entry liveDrives)).
  assert (Hsub : forall v, v ∈ sorted -> v ∈ map path (live start)) by (intros v; unfold sorted, sortedLivePaths; by rewrite elem_of_stable_sort).
  pose proof (placed_directory sorted (groups settings) start g d start_ok Hsub Hg Hd) as H.
  pose proof (target_spec liveDrives d) as Ht. fold sorted in Ht. cbv zeta in H. fold (placed liveDrives settings) in H.
  destruct (target sorted (normalizePath d)) as [v|].
  - destruct H as (x & Hx & Hp & Hin). exists x. split; [by apply elem_result; left|]. split; [done|]. rewrite Hp. split; [done|].
    intros Hno. destruct Ht as (Hv & Hw & _). apply list_elem_of_fmap in Hv as (l & -> & Hl).
    rewrite within_drive_normalized, (Hno l Hl) in Hw. done.
  - destruct H as (x & Hx & Hin). exists x. split; [apply elem_result; right; by eexists|]. split; [done|].
    split; [intros (l & Hl & Hw); by rewrite (Ht l Hl) in Hw|]. intros _.
    pose proof (proj1 (place_groups_ok sorted (groups settings) _ start_ok)) as [_ [_ Hm]]. by destruct (Hm _ _ Hx) as (_ & ? & _).
Qed.

(** Nothing is lost or made up: the merged list begins with the reported drives, in
    order and with their sizes, each with at least the directories it reported; every
    directory in the list was reported or is configured; and every drive shows the
    number of its directories. *)
Theorem nothing_lost_or_made_up :
  exists l' m, result = l' ++ m /\ Forall2 gains (map live_entry liveDrives) l' /\ Forall (fun x => is_available x = Some false) m /\
    Forall counted result /\
    forall x e, x ∈ result -> e ∈ configured_directories x ->
      (exists l d, l ∈ liveDrives /\ d ∈ configured_directories l /\ e = normalizePath d) \/
      (exists g d, g ∈ groups settings /\ d ∈ directories g /\ e = normalizePath d).
Proof.
  set (sorted := sortedLivePaths (map live_entry liveDrives)).
  destruct (place_groups_ok sorted (groups settings) _ start_ok) as [[Hc [Hw Hm]] [Hl _]]. fold (placed liveDrives settings) in *.
  exists (live (placed liveDrives settings)), (stable_sort (fun a b => 0 <? localeCompare (path a) (path b)) (JMap.values (unavailable (placed liveDrives settings)))).
  split; [done|]. split; [done|].
  assert (Hun : forall y, y ∈ JMap.values (unavailable (placed liveDrives settings)) -> is_available y = Some false /\ counted y).
  { intros y ([k z] & -> & Hz)%list_elem_of_fmap. destruct (Hm k z) as (_ & H); [by apply JMap.elem_get|done]. }
  split; [apply Forall_forall; intros y Hy%elem_of_stable_sort; by apply Hun|]. split.
  { apply Forall_app. split; [done|]. apply Forall_forall. intros y Hy%elem_of_stable_sort. by apply Hun. }
  intros x e Hx He. apply elem_result in Hx.
  destruct (placed_only sorted (groups settings) start e) as [(y & [Hy|[k Hk]] & Hin)|H]; [by exists x| |done|by right].
  left. cbn [live] in Hy. apply list_elem_of_fmap in Hy as (l & -> & Hl'). simpl in Hin.
  apply list_elem_of_fmap in Hin as (d & -> & Hd). by exists l, d.
Qed.
End merged.

(** A path that is normalised stays as it is, is not empty, and ends in a slash only
    when it is the root. *)
Theorem normalize_path_idempotent p :
  normalizePath (normalizePath p) = normalizePath p /\ normalizePath p <> EmptyString /\
  ends_with (normalizePath p) "/" = (normalizePath p =s "/").
Proof.
  split; [apply normalize_twice|]. split; [by apply truthy_nonempty, normalize_truthy|].
  destruct (normalize_form p) as (a & l & Hc & ->). destruct l as [|x l]; [by destruct a|].
  rewrite no_trailing_slash by done. symmetry. apply str_eqb_neq. intros E.
  pose proof (no_trailing_slash a (x :: l) Hc ltac:(done)) as H. by rewrite E in H.
Qed.

(** ** Where the code does less *)

(** Two relative directories get an absolute place, one alone a relative one. *)
Lemma relative_becomes_absolute :
  inferDrivePathFromDirectories ["downloads/a"; "downloads/b"] = "/downloads" /\
  inferDrivePathFromDirectories ["downloads/a"] = "downloads".
Proof. vm_compute. done. Qed.

(** The current directory contains nothing but itself. *)
Lemma dot_contains_nothing : isWithinDrive "downloads" "." = false /\ isWithinDrive "./downloads" "." = false.
Proof. vm_compute. done. Qed.

(** ** Witnesses *)

Definition demo_drive (p : string) : DriveInfo := {|
  path := p; device := "sda"; total_bytes := #10; used_bytes := #5; free_bytes := #5; percent_used := #50;
  is_configured := false; directory_count := 0; configured_directories := []; is_available := None |}.

Definition demo_group : DriveSettings :=
  {| minimum_space := #1; store := true; scan_existing := false; overflow := false; directories := ["/mnt/a/./b/"; "/lost/x"; "/lost/y"] |}.

Definition demo_settings : DriveConfiguration := {|
  download_setup := {| download_drives := [demo_group]; alt_directory_formats := []; staging_directories := [];
    directory_format := "{site}"; filename_format := "{file}"; text_length := #255; date_format := "%Y"; overwrite_files := false |};
  metadata_setup := {| metadata_drives := []; metadata_directory_format := "{site}" |} |}.

Definition by_length (a b : string) : Z := Z.of_nat (String.length a) - Z.of_nat (String.length b).

Lemma every_directory_is_placed_witness :
  exists x, x ∈ mergeConfiguredDrivesWithInventory by_length [demo_drive "/"; demo_drive "/mnt/a"] (Some demo_settings) /\
    normalizePath "/mnt/a/./b/" ∈ configured_directories x.
Proof.
  destruct (every_directory_is_placed by_length [demo_drive "/"; demo_drive "/mnt/a"] (Some demo_settings) demo_group "/mnt/a/./b/") as (x & Hx & He & _);
    [set_solver|set_solver|by exists x].
Defined.

Lemma inferred_drive_contains_witness : isWithinDrive "/lost/y" (inferDrivePathFromDirectories ["/lost/x"; "/lost/y"]) = true.
Proof.
  apply inferred_drive_contains; [|set_solver]. intros x Hx. repeat (apply elem_of_cons in Hx as [->|Hx]; [reflexivity|]). by apply elem_of_nil in Hx.
Defined.
