(* ===== verification/FleetRegister.v ===== *)
(** * The register of backends ([features/system/systemFleetRegisterData.ts])

    The rows of the fleet page: every backend the cluster knows, and this machine's
    own backend from its status, its drives and, where those are missing, from what
    the cluster says about it. Times are milliseconds as JavaScript numbers.

    This machine's backend first, then the others in the cluster's order; a
    heartbeat that gets older never improves a backend's health. *)

From Stdlib Require Import Ascii ZArith Lia SpecFloat.
From stdpp Require Import base list strings option sets.
From S2P Require Import Prelude JsString JsNum JsDate DriveInventory JsOrder.

(** ** API records ([api/types/system.ts]) *)

Record RemoteBackendDrive := {
  rd_path : string;
  rd_device : string;
  rd_total_bytes : num;
  rd_used_bytes : num;
  rd_free_bytes : num;
  rd_percent_used : num;
  rd_configured_directories : option (list string)
}.

(** [RemoteBackendWorker] and [WorkerInfo], which have the same fields. *)
Record RemoteBackendWorker := {
  worker_id : string;
  worker_status : string;
  current_job : option string;
  jobs_completed : num
}.

Record RemoteBackendInfo := {
  backend_id : string;
  hostname : string;
  status : string;
  last_seen : string;
  max_workers : num;
  version : string;
  drives : list RemoteBackendDrive;
  workers : list RemoteBackendWorker;
  active_workers : num;
  pending_jobs : num;
  cluster_id : option string;
  api_url : option string;
  address : option string
}.

Record AllBackends := { local_backend_id : string; local_hostname : string; backends : list RemoteBackendInfo }.

Record BackendStatusResponse := {
  st_backend_id : string;
  redis_connected : bool;
  worker_count : num;
  st_active_workers : num;
  st_pending_jobs : num;
  st_workers : list RemoteBackendWorker
}.

(** ** Rows *)

Inductive RegisterHealth := Healthy | Warning | Offline.
Inductive RegisterWorkerState := WRunning | WIdle | WOffline | WWarning.

Record RegisterWorker := {
  rw_workerId : string;
  rw_status : RegisterWorkerState;
  rw_currentJob : option string;
  rw_jobsCompleted : num
}.

Record RegisterMount := {
  rm_id : string;
  rm_backendId : string;
  rm_path : string;
  rm_device : string;
  rm_totalBytes : num;
  rm_usedBytes : num;
  rm_freeBytes : num;
  rm_percentUsed : num;
  rm_configuredDirectories : list string;
  rm_isAvailable : bool;
  rm_isConfigured : bool
}.

Record RegisterBackend := {
  rb_backendId : string;
  rb_label : string;
  rb_hostname : string;
  rb_status : string;
  rb_version : string;
  rb_maxWorkers : num;
  rb_activeWorkers : num;
  rb_pendingJobs : num;
  rb_lastSeen : string;
  rb_heartbeatAge : option num;
  rb_health : RegisterHealth;
  rb_isLocal : bool;
  rb_clusterId : option string;
  rb_apiUrl : option string;
  rb_address : option string;
  rb_workers : list RegisterWorker;
  rb_mounts : list RegisterMount
}.

Definition normalizeWorkerState (status : string) : RegisterWorkerState :=
  let normalized := to_lower status in
  if (normalized =s "busy") || (normalized =s "running") then WRunning
  else if (normalized =s "idle") || (normalized =s "online") then WIdle
  else if (normalized =s "offline") || (normalized =s "stopped") then WOffline
  else WWarning.

Definition heartbeatAge {E : Env} (lastSeen : string) (now : num) : option num :=
  let timestamp := date_ms lastSeen in
  if negb (is_finite timestamp) then None
  else Some (math_max #0 (math_floor ((now ⊖ timestamp) ⊘ #1000))).

(** [age !== null && age > limit] *)
Definition older (age : option num) (limit : num) : bool := match age with Some a => a >! limit | None => false end.

Definition getBackendHealth (status : string) (age : option num) (isLocal : bool) (redisConnected : option bool) : RegisterHealth :=
  if isLocal && bool_decide (redisConnected = Some false) then Warning
  else
    let normalized := to_lower status in
    if (normalized =s "offline") || older age #60 then Offline
    else if negb (normalized =s "online") || (negb isLocal && older age #30) || bool_decide (age = None) then Warning
    else Healthy.

Definition toRegisterWorker (worker : RemoteBackendWorker) : RegisterWorker := {|
  rw_workerId := worker_id worker; rw_status := normalizeWorkerState (worker_status worker);
  rw_currentJob := current_job worker; rw_jobsCompleted := jobs_completed worker |}.

(** A drive as another backend reports it, or as this one does, with two properties
    more. *)
Inductive any_drive := RemoteDrive (d : RemoteBackendDrive) | LocalDrive (d : DriveInfo).

Definition mount_id (backendId path : string) (index : nat) : string :=
  backendId +:+ ":" +:+ path +:+ ":" +:+ show_Z (Z.of_nat index).

Definition toRegisterMount (backendId : string) (index : nat) (drive : any_drive) : RegisterMount :=
  match drive with
  | RemoteDrive d =>
      let configuredDirectories := rd_configured_directories d ?? [] in
      {| rm_id := mount_id backendId (rd_path d) index; rm_backendId := backendId; rm_path := rd_path d; rm_device := rd_device d;
         rm_totalBytes := rd_total_bytes d; rm_usedBytes := rd_used_bytes d; rm_freeBytes := rd_free_bytes d;
         rm_percentUsed := rd_percent_used d; rm_configuredDirectories := configuredDirectories;
         rm_isAvailable := true; rm_isConfigured := (0 <? length configuredDirectories)%nat |}
  | LocalDrive d =>
      {| rm_id := mount_id backendId (path d) index; rm_backendId := backendId; rm_path := path d; rm_device := device d;
         rm_totalBytes := total_bytes d; rm_usedBytes := used_bytes d; rm_freeBytes := free_bytes d;
         rm_percentUsed := percent_used d; rm_configuredDirectories := configured_directories d;
         rm_isAvailable := is_available d ?? true; rm_isConfigured := is_configured d |}
  end.

(** [/^[0-9a-f]{12}$/i]: the hostname of a container. *)
Definition container_id (s : string) : bool :=
  (String.length s =? 12)%nat && str_forall (fun c => match hex_val c with Some _ => true | None => false end) s.

Section register.
Context {E : Env}.

Definition remote_row (localStatus : option BackendStatusResponse) (now : num) (b : RemoteBackendInfo) : RegisterBackend :=
  let age := heartbeatAge (last_seen b) now in
  {| rb_backendId := backend_id b;
     rb_label := if truthy (hostname b) && negb (container_id (hostname b)) then hostname b else backend_id b;
     rb_hostname := str_or (hostname b) "Hostname unavailable"; rb_status := status b;
     rb_version := str_or (version b) "Version unavailable"; rb_maxWorkers := max_workers b;
     rb_activeWorkers := active_workers b; rb_pendingJobs := pending_jobs b; rb_lastSeen := last_seen b;
     rb_heartbeatAge := age; rb_health := getBackendHealth (status b) age false (redis_connected <$> localStatus);
     rb_isLocal := false; rb_clusterId := cluster_id b; rb_apiUrl := api_url b; rb_address := address b;
     rb_workers := map toRegisterWorker (workers b);
     rb_mounts := imap (toRegisterMount (backend_id b)) (map RemoteDrive (drives b)) |}.

(** [new Date(now).toISOString()] for a time in whole milliseconds. *)
Definition iso_now (now : num) : string := iso_string (num_to_Z now).

Definition local_row (localStatus : option BackendStatusResponse) (cluster : option AllBackends) (localDrives : list DriveInfo)
    (now : num) (registeredLocal : option RegisterBackend) (localBackendId : string) : RegisterBackend :=
  let lastSeen := (rb_lastSeen <$> registeredLocal) ?? iso_now now in
  let age := heartbeatAge lastSeen now in
  let localWorkers := ((map toRegisterWorker ∘ st_workers <$> localStatus) ??? (rb_workers <$> registeredLocal)) ?? [] in
  let state := if bool_decide (redis_connected <$> localStatus = Some false) then "degraded"
               else (rb_status <$> registeredLocal) ?? "online" in
  {| rb_backendId := localBackendId;
     rb_label := ((rb_label <$> registeredLocal) ??? (local_hostname <$> cluster)) ?? localBackendId;
     rb_hostname := ((rb_hostname <$> registeredLocal) ??? (local_hostname <$> cluster)) ?? "Local host";
     rb_status := state; rb_version := (rb_version <$> registeredLocal) ?? "Current process";
     rb_maxWorkers := num_or ((rb_maxWorkers <$> registeredLocal) ?? #0)
                        (num_or ((worker_count <$> localStatus) ?? #0) #(Z.of_nat (length localWorkers)));
     rb_activeWorkers := ((st_active_workers <$> localStatus) ??? (rb_activeWorkers <$> registeredLocal)) ?? #0;
     rb_pendingJobs := ((st_pending_jobs <$> localStatus) ??? (rb_pendingJobs <$> registeredLocal)) ?? #0;
     rb_lastSeen := lastSeen; rb_heartbeatAge := age;
     rb_health := getBackendHealth state age true (redis_connected <$> localStatus); rb_isLocal := true;
     rb_clusterId := registeredLocal ?> rb_clusterId; rb_apiUrl := registeredLocal ?> rb_apiUrl;
     rb_address := registeredLocal ?> rb_address; rb_workers := localWorkers;
     rb_mounts := if (0 <? length localDrives)%nat then imap (toRegisterMount localBackendId) (map LocalDrive localDrives)
                  else (rb_mounts <$> registeredLocal) ?? [] |}.

Definition buildRegisterBackends (localStatus : option BackendStatusResponse) (cluster : option AllBackends)
    (localDrives : list DriveInfo) (now : num) : list RegisterBackend :=
  let remoteRows := map (remote_row localStatus now) ((backends <$> cluster) ?? []) in
  match (st_backend_id <$> localStatus) ??? (local_backend_id <$> cluster) with
  | Some localBackendId =>
      if truthy localBackendId then
        local_row localStatus cluster localDrives now (find_first (fun b => rb_backendId b =s localBackendId) remoteRows) localBackendId
        :: keep (fun b => negb (rb_backendId b =s localBackendId)) remoteRows
      else remoteRows
  | None => remoteRows
  end.
End register.

(** * The register lists every backend once *)

Section register.
Context {E : Env} (localStatus : option BackendStatusResponse) (cluster : option AllBackends) (localDrives : list DriveInfo) (now : num).

Definition known_ids : list string := map backend_id ((backends <$> cluster) ?? []).

(** The backend this page talks to, if it is known. *)
Definition local_id : option string :=
  truthy_opt ((st_backend_id <$> localStatus) ??? (local_backend_id <$> cluster)).

Notation register := (buildRegisterBackends localStatus cluster localDrives now).

Lemma ids_remote bs : map rb_backendId (map (remote_row localStatus now) bs) = map backend_id bs.
Proof. by rewrite map_map. Qed.

Lemma map_keep_ne id bs :
  map rb_backendId (keep (fun b => negb (rb_backendId b =s id)) (map (remote_row localStatus now) bs)) =
  keep (fun x => negb (x =s id)) (map backend_id bs).
Proof. induction bs as [|b bs IH]; [done|]. simpl. destruct (negb (backend_id b =s id)); simpl; by rewrite IH. Qed.

(** The register lists this machine's backend first and then every other backend the
    cluster knows, in its order; exactly the first row is marked as local, with this
    machine's drives when it reports any. *)
Theorem register_lists_everyone :
  match local_id with
  | Some id =>
      map rb_backendId register = id :: keep (fun x => negb (x =s id)) known_ids /\
      map rb_isLocal register = true :: map (fun _ => false) (keep (fun x => negb (x =s id)) known_ids) /\
      match register with
      | r :: _ => localDrives = [] \/ map rm_path (rb_mounts r) = map path localDrives
      | [] => False
      end
  | None => map rb_backendId register = known_ids /\ Forall (fun b => rb_isLocal b = false) register
  end.
Proof.
  unfold local_id, buildRegisterBackends, known_ids. set (bs := (backends <$> cluster) ?? []).
  assert (Hrem : Forall (fun b => rb_isLocal b = false) (map (remote_row localStatus now) bs)).
  { apply Forall_forall. by intros b (x & -> & _)%list_elem_of_fmap. }
  destruct (_ ??? _) as [id|]; [|by rewrite ids_remote]. unfold truthy_opt. destruct (truthy id) eqn:Et; [|by rewrite ids_remote].
  cbn [map rb_backendId rb_isLocal local_row rb_mounts]. rewrite map_keep_ne. split; [done|]. split.
  - f_equal. rewrite <- (map_keep_ne id bs), map_map. apply map_ext_in. intros b Hb%list_elem_of_In.
    apply elem_of_keep in Hb as [Hb _]. rewrite Forall_forall in Hrem. by apply Hrem.
  - destruct localDrives as [|d ds]; [by left|right]. cbn [length Nat.ltb Nat.leb].
    change (0 <? S (length ds))%nat with true. cbv iota. clear.
    generalize (d :: ds) as l. intros l.
    assert (H : forall n, map rm_path (imap (fun i => toRegisterMount id (n + i)%nat) (map LocalDrive l)) = map path l).
    { induction l as [|x l IH]; intros n; [done|]. cbn [map]. rewrite imap_cons. cbn [map]. f_equal.
      rewrite <- (IH (S n)). f_equal. apply imap_ext. intros i y _. simpl. f_equal. lia. }
    exact (H 0%nat).
Qed.
End register.

(** ** Health *)

Definition rank (h : RegisterHealth) : Z := match h with Healthy => 0 | Warning => 1 | Offline => 2 end.

Lemma older_mono a b limit : num_leb a b = true -> older (Some a) limit = true -> older (Some b) limit = true.
Proof.
  unfold older. intros Hab Ha. destruct (num_leb_real a b Hab) as [Hra Hrb]. destruct (num_ltb_real limit a Ha) as [Hrl _].
  destruct (num_ltb limit b) eqn:El; [done|]. pose proof (num_ltb_false_leb limit b Hrl Hrb El) as Hbl.
  exfalso. pose proof (num_leb_trans a b limit Hra Hrb Hrl Hab Hbl) as Hal.
  unfold num_ltb in Ha. unfold num_leb in Hal. rewrite (cmp_swap limit a) in Hal. destruct (SFcompare limit a) as [[]|]; done.
Qed.

(** A backend that is not heard of for longer is never shown in better health, and
    beyond a minute it is offline. *)
Theorem health_gets_worse_with_age status a b isLocal redis :
  num_leb a b = true ->
  rank (getBackendHealth status (Some a) isLocal redis) <= rank (getBackendHealth status (Some b) isLocal redis) /\
  (older (Some b) #60 = true -> isLocal && bool_decide (redis = Some false) = false -> getBackendHealth status (Some b) isLocal redis = Offline).
Proof.
  intros H. unfold getBackendHealth. destruct (isLocal && _); [done|].
  pose proof (older_mono a b #60 H) as H60. pose proof (older_mono a b #30 H) as H30.
  destruct (to_lower status =s "offline"), (older (Some a) #60), (older (Some b) #60); simpl in *; try done; try by specialize (H60 eq_refl).
  all: split; [|done]; try (destruct (_ || _ || _); simpl; lia).
  all: destruct (to_lower status =s "online"), isLocal, (num_ltb #30 a), (num_ltb #30 b); simpl in *; try done; by specialize (H30 eq_refl).
Qed.

Lemma health_gets_worse_with_age_witness :
  rank (getBackendHealth "online" (Some #10) false None) <= rank (getBackendHealth "online" (Some #45) false None).
Proof. apply (health_gets_worse_with_age "online" #10 #45 false None). reflexivity. Defined.
