(* ===== verification/Storage.v ===== *)
(** * Storage of the fleet ([features/system/lib/storagePool.ts], [architectureStorage.ts])

    Capacity summed over the mounts of all backends, each device counted once, and
    the storage of each host as the architecture diagram shows it: mounts with
    duplicates folded, staging directories and download drives, marked with where a
    download passes through. Sizes are JavaScript numbers. A [Map] keeps its keys in
    the order they were added; the rows are objects that are changed in place.

    Counting mounts again changes no sum; in the diagram every mount path is on one
    row of its device, and a download passes through at most one row per step. *)

From Stdlib Require Import Ascii ZArith Lia SpecFloat.
From stdpp Require Import base list strings option sets.
From S2P Require Import Prelude JsString JsNum JsSort DriveInventory FleetRegister.

(** ** The pool ([storagePool.ts]) *)

Record StoragePoolSummary := {
  totalBytes : num;
  usedBytes : num;
  freeBytes : num;
  mountCount : nat;
  storageCount : nat
}.

Record network_source := { server : string; source_key : string }.

(** A host without colon, white space or slash, a colon, and a path on one line. *)
Definition host_and_path (s : string) : option (string * string) :=
  let '(host, rest) := span (fun c => negb (Ascii.eqb c ":" || is_space c || Ascii.eqb c "/")) s in
  match rest with
  | String ":" path =>
      if truthy host && starts_with path "/" && str_forall (fun c => negb (Ascii.eqb c "010" || Ascii.eqb c "013")) path
      then Some (host, path) else None
  | _ => None
  end.

(** The regular expression of [networkSource]: a user and an at sign first, if the rest
    then matches. *)
Definition networkSource (device : string) : option network_source :=
  let '(user, rest) := span (fun c => negb (Ascii.eqb c "@" || is_space c || Ascii.eqb c "/")) device in
  let with_user := match rest with
                   | String "@" r => if truthy user then host_and_path r else None
                   | _ => None
                   end in
  (fun '(host, path) => {| server := host; source_key := host +:+ ":" +:+ path |}) <$> (with_user ??? host_and_path device).

Definition GIB : num := #1073741824.
Definition half_percent : num := #5 ⊘ #1000.

Definition sameFree (a b : num) : bool :=
  math_abs (a ⊖ b) <=! math_max GIB (math_max a b ⊗ half_percent).

(** [device.replace(/^\/dev\//, '')] *)
Definition without_dev (device : string) : string := if starts_with device "/dev/" then drop_str 5 device else device.

(** The keys a mount is known by. *)
Definition identity (m : RegisterMount) : list string :=
  match networkSource (rm_device m) with
  | Some n => [server n +:+ ":" +:+ show_num (rm_totalBytes m) +:+ ":" +:+ show_num (rm_usedBytes m) +:+ ":" +:+ show_num (rm_freeBytes m);
               source_key n]
  | None => [rm_backendId m +:+ ":" +:+ without_dev (rm_device m)]
  end.

Definition pools := JMap.t (list RegisterMount).

(** [pools.get(key)![0].freeBytes] *)
Definition first_free (p : pools) (key : string) : num :=
  match JMap.get key p with Some (m :: _) => rm_freeBytes m | _ => nan end.

Definition pool_key (p : pools) (m : RegisterMount) : string :=
  match networkSource (rm_device m) with
  | Some n =>
      find_first (fun key => starts_with key (server n +:+ "|") && sameFree (first_free p key) (rm_freeBytes m)) (JMap.keys p)
        ?? (server n +:+ "|" +:+ rm_path m)
  | None => rm_backendId m +:+ ":" +:+ without_dev (rm_device m)
  end.

(** One mount: skipped, or added to its pool. [seen] is a set. *)
Definition pool_mount (acc : list string * pools) (m : RegisterMount) : list string * pools :=
  let '(seen, p) := acc in
  if some (fun key => str_in key seen) (identity m) then acc
  else (seen ++ identity m, JMap.set (pool_key p m) ((JMap.get (pool_key p m) p ?? []) ++ [m]) p).

Definition pool_used (members : list RegisterMount) : num := foldl (fun sum m => sum ⊕ rm_usedBytes m) #0 members.

(** The sums over the pools: total, used and free. *)
Definition add_pool (acc : num * num * num) (members : list RegisterMount) : num * num * num :=
  let '(total, used, free) := acc in
  let u := pool_used members in
  let f := match members with m :: _ => rm_freeBytes m | [] => nan end in
  (total ⊕ match members with [m] => rm_totalBytes m | _ => u ⊕ f end, used ⊕ u, free ⊕ f).

Definition summarizeStoragePool (mounts : list RegisterMount) : StoragePoolSummary :=
  let p := (foldl pool_mount ([], JMap.empty) mounts).2 in
  let '(total, used, free) := foldl add_pool (#0, #0, #0) (JMap.values p) in
  {| totalBytes := total; usedBytes := used; freeBytes := free; mountCount := length mounts; storageCount := length (JMap.keys p) |}.

(** ** The diagram ([architectureStorage.ts]) *)

Inductive StorageKind := RamStaging | Staging | Drive | Mount.
#[export] Instance StorageKind_eq : EqDecision StorageKind.
Proof. solve_decision. Defined.

(** [FlowTarget] of [downloadFlows.ts]. *)
Inductive FlowTarget := FtWebui | FtBackend | FtRedis | FtWorkers | FtRam | FtDisk | FtDrive | FtPostgres.
#[export] Instance FlowTarget_eq : EqDecision FlowTarget.
Proof. solve_decision. Defined.

Record StorageRow := {
  row_key : string;
  row_path : string;
  alsoAt : list string;
  row_device : string;
  row_totalBytes : option num;
  row_percentUsed : option num;
  kind : StorageKind;
  note : option string;
  stagingPath : option string;
  flowTarget : option FlowTarget
}.

Record StorageGroup := { group_backendId : string; host : string; group_clusterId : option string; rows : list StorageRow }.

Definition KIND_ORDER (k : StorageKind) : Z := match k with RamStaging => 0 | Staging => 1 | Drive => 2 | Mount => 3 end.

Definition RAM_DISKS : list string := ["/dev/shm"; "/run/shm"].

Definition deviceKey (m : RegisterMount) : string := without_dev (rm_device m).

(** [path === point || path.startsWith(point.endsWith('/') ? point : `${point}/`)] *)
Definition is_inside (path point : string) : bool :=
  (path =s point) || starts_with path (if ends_with point "/" then point else point +:+ "/").

Definition points (r : StorageRow) : list string := row_path r :: alsoAt r.

(** The two loops of [mountFor] over rows and points: the index of the best row and
    the length of its point, [-1] at first. *)
Definition mountFor (path : string) (rs : list StorageRow) : option nat :=
  (foldl (fun best '(i, point) =>
      if is_inside path point && (best.2 <? Z.of_nat (String.length point)) then (Some i, Z.of_nat (String.length point)) else best)
    (None, -1) (concat (imap (fun i r => map (fun point => (i, point)) (points r)) rs))).1.

(** An object that is changed. *)
Definition set_row (also : list string) (k : StorageKind) (n : option string) (staging : option string) (t : option FlowTarget)
    (r : StorageRow) : StorageRow := {|
  row_key := row_key r; row_path := row_path r; alsoAt := also; row_device := row_device r;
  row_totalBytes := row_totalBytes r; row_percentUsed := row_percentUsed r; kind := k; note := n; stagingPath := staging; flowTarget := t |}.

Definition mount_row (backendId : string) (m : RegisterMount) : StorageRow := {|
  row_key := backendId +:+ ":" +:+ rm_path m; row_path := rm_path m; alsoAt := []; row_device := deviceKey m;
  row_totalBytes := Some (rm_totalBytes m); row_percentUsed := Some (rm_percentUsed m);
  kind := if rm_isConfigured m then Drive else Mount;
  note := if rm_isConfigured m then Some "download drive" else None; stagingPath := None; flowTarget := None |}.

(** A further path of a device. *)
Definition fold_mount (m : RegisterMount) (r : StorageRow) : StorageRow :=
  let also := alsoAt r ++ [rm_path m] in
  if rm_isConfigured m && bool_decide (kind r = Mount)
  then set_row also Drive (Some "download drive") (stagingPath r) (flowTarget r) r
  else set_row also (kind r) (note r) (stagingPath r) (flowTarget r) r.

Definition add_mount (backendId : string) (rs : list StorageRow) (m : RegisterMount) : list StorageRow :=
  match find_index (fun r => row_device r =s deviceKey m) rs with
  | Some i => alter (fold_mount m) i rs
  | None => rs ++ [mount_row backendId m]
  end.

(** The loop over the staging directories, with its two marks. *)
Record staging_state := { st_rows : list StorageRow; ramMarked : bool; diskMarked : bool }.

Definition staging_target (s : staging_state) (preferred : bool) : option FlowTarget :=
  if preferred && negb (ramMarked s) then Some FtRam
  else if negb preferred && negb (diskMarked s) then Some FtDisk else None.

Definition staging_note (d : StagingDirectory) : string :=
  "staging " +:+ sd_path d +:+ (if str_in "prefer" (policy d) then " (preferred)" else EmptyString).

Definition hold_staging (d : StagingDirectory) (t : option FlowTarget) (r : StorageRow) : StorageRow :=
  set_row (alsoAt r) Staging (Some (staging_note d)) (stagingPath r ??? Some (sd_path d)) (flowTarget r ??? t) r.

Definition staging_row (backendId : string) (d : StagingDirectory) (t : option FlowTarget) : StorageRow := {|
  row_key := backendId +:+ ":staging:" +:+ sd_path d; row_path := sd_path d; alsoAt := []; row_device := "tmpfs (RAM)";
  row_totalBytes := None; row_percentUsed := None; kind := RamStaging; note := Some (staging_note d);
  stagingPath := Some (sd_path d); flowTarget := t |}.

Definition add_staging (backendId : string) (s : staging_state) (d : StagingDirectory) : staging_state :=
  let preferred := str_in "prefer" (policy d) in
  let target := staging_target s preferred in
  let inRam := some (fun disk => (sd_path d =s disk) || starts_with (sd_path d) (disk +:+ "/")) RAM_DISKS in
  let holder := if inRam then None else mountFor (sd_path d) (st_rows s) in
  {| st_rows := match holder with
                | Some i => alter (hold_staging d target) i (st_rows s)
                | None => st_rows s ++ [staging_row backendId d target]
                end;
     ramMarked := ramMarked s || bool_decide (target = Some FtRam);
     diskMarked := diskMarked s || bool_decide (target = Some FtDisk) |}.

(** The configured mount with the most room. *)
Definition roomiest (mounts : list RegisterMount) : option RegisterMount :=
  head (stable_sort (fun a b => (rm_freeBytes b ⊖ rm_freeBytes a) >! #0) (keep rm_isConfigured mounts)).

Definition mark_drive (mounts : list RegisterMount) (rs : list StorageRow) : list StorageRow :=
  match roomiest mounts with
  | Some m =>
      match find_index (fun r => bool_decide (kind r = Drive) && ((row_path r =s rm_path m) || str_in (rm_path m) (alsoAt r))) rs with
      | Some i => alter (fun r => set_row (alsoAt r) (kind r) (note r) (stagingPath r) (Some FtDrive) r) i rs
      | None => rs
      end
  | None => rs
  end.

Section groups.
(** [String.prototype.localeCompare], as the sign of its result. *)
Context (localeCompare : string -> string -> Z).

Definition row_after (a b : StorageRow) : bool :=
  let d := KIND_ORDER (kind a) - KIND_ORDER (kind b) in
  if d =? 0 then 0 <? localeCompare (row_path a) (row_path b) else 0 <? d.

(** The rows of a backend before they are sorted. *)
Definition unsorted_rows (backend : RegisterBackend) (staging : option (list StagingDirectory)) : list StorageRow :=
  let rs := foldl (add_mount (rb_backendId backend)) [] (rb_mounts backend) in
  if rb_isLocal backend then
    mark_drive (rb_mounts backend)
      (st_rows (foldl (add_staging (rb_backendId backend)) {| st_rows := rs; ramMarked := false; diskMarked := false |} (staging ?? [])))
  else rs.

Definition buildStorageGroups (bs : list RegisterBackend) (staging : option (list StagingDirectory)) : list StorageGroup :=
  map (fun backend => {| group_backendId := rb_backendId backend; host := rb_label backend; group_clusterId := rb_clusterId backend;
                         rows := stable_sort row_after (unsorted_rows backend staging) |}) bs.

Record ActiveMount := { active_row : StorageRow; active_backendId : string; active_host : string; active_clusterId : option string }.

Definition buildActiveMounts (bs : list RegisterBackend) (staging : option (list StagingDirectory)) : list ActiveMount :=
  flat_map (fun g => map (fun r => {| active_row := r; active_backendId := group_backendId g; active_host := host g;
                                      active_clusterId := group_clusterId g |})
                       (keep (fun r => negb (bool_decide (kind r = Mount))) (rows g)))
    (buildStorageGroups bs staging).
End groups.

(** * Storage is counted and shown once *)

(** ** The pool *)

Lemma seen_grows acc m key : key ∈ acc.1 -> key ∈ (pool_mount acc m).1.
Proof. destruct acc as [seen p]. unfold pool_mount. simpl. destruct (some _ _); [done|]. simpl. set_solver. Qed.

Lemma seen_grows_all ms acc key : key ∈ acc.1 -> key ∈ (foldl pool_mount acc ms).1.
Proof. revert acc. induction ms as [|m ms IH]; intros acc H; [done|]. simpl. by apply IH, seen_grows. Qed.

(** A mount that was met is known, whether it was counted or not. *)
Definition known (acc : list string * pools) (m : RegisterMount) : bool := some (fun key => str_in key acc.1) (identity m).

Lemma known_iff acc m : known acc m = true <-> exists key, key ∈ identity m /\ key ∈ acc.1.
Proof. unfold known. rewrite some_iff. by setoid_rewrite str_in_iff. Qed.

Lemma met_is_known acc m : known (pool_mount acc m) m = true.
Proof.
  apply known_iff. destruct acc as [seen p]. unfold pool_mount. destruct (some _ _) eqn:E.
  - apply some_iff in E as (key & Hk & Hs). apply str_in_iff in Hs. by exists key.
  - assert (Hne : exists key, key ∈ identity m) by (unfold identity; destruct (networkSource _); eexists; apply list_elem_of_here).
    destruct Hne as [key Hk]. exists key. split; [done|]. simpl. set_solver.
Qed.

Lemma known_grows ms acc m : known acc m = true -> known (foldl pool_mount acc ms) m = true.
Proof. rewrite !known_iff. intros (key & Hk & Hs). exists key. split; [done|]. by apply seen_grows_all. Qed.

Lemma known_skipped acc m : known acc m = true -> pool_mount acc m = acc.
Proof. destruct acc as [seen p]. unfold known, pool_mount. cbn [fst]. by intros ->. Qed.

Lemma all_known ms acc m : m ∈ ms -> known (foldl pool_mount acc ms) m = true.
Proof.
  revert acc. induction ms as [|m' ms IH]; intros acc; [by intros ?%elem_of_nil|]. intros [<-|H]%elem_of_cons; simpl; [|by apply IH].
  apply known_grows, met_is_known.
Qed.

Lemma fold_known ms acc : (forall m, m ∈ ms -> known acc m = true) -> foldl pool_mount acc ms = acc.
Proof.
  revert acc. induction ms as [|m ms IH]; intros acc H; [done|]. simpl. rewrite known_skipped by (apply H; set_solver).
  apply IH. set_solver.
Qed.

(** Storage is counted once: mounts that were counted before, in whatever order and
    however often they are reported again, change the number of mounts and nothing
    else. *)
Theorem counted_once ms again :
  (forall m, m ∈ again -> m ∈ ms) ->
  summarizeStoragePool (ms ++ again) =
  let s := summarizeStoragePool ms in
  {| totalBytes := totalBytes s; usedBytes := usedBytes s; freeBytes := freeBytes s;
     mountCount := mountCount s + length again; storageCount := storageCount s |}.
Proof.
  intros H. unfold summarizeStoragePool. rewrite foldl_app, fold_known by (intros m Hm; by apply all_known, H).
  destruct (foldl add_pool _ _) as [[t u] f]. simpl. by rewrite length_app.
Qed.

(** A mount that was folded into another leaves only its figures: seen from another
    host a moment later, with other figures, the same export is counted again. *)
Definition demo_mount (backend_ path_ device_ : string) (total used free : Z) (configured : bool) : RegisterMount := {|
  rm_id := path_; rm_backendId := backend_; rm_path := path_; rm_device := device_; rm_totalBytes := #total; rm_usedBytes := #used;
  rm_freeBytes := #free; rm_percentUsed := #0; rm_configuredDirectories := []; rm_isAvailable := true; rm_isConfigured := configured |}.

Lemma folded_export_counted_again :
  let a := demo_mount "h1" "/a" "nas:/a" 100 40 60 false in
  let b := demo_mount "h1" "/b" "nas:/b" 100 40 60 false in
  let b_later := demo_mount "h2" "/b" "nas:/b" 100 41 59 false in
  usedBytes (summarizeStoragePool [a; b]) = #40 /\ usedBytes (summarizeStoragePool [a; b; b_later]) = #81 /\
  usedBytes (summarizeStoragePool [b; b_later]) = #40.
Proof. vm_compute. done. Qed.

(** ** The diagram *)

Definition all_points (rs : list StorageRow) : list string := concat (map points rs).

Lemma points_alter f rs i p :
  (i < length rs)%nat -> (forall r, points (f r) = points r ++ [p]) -> all_points (alter f i rs) ≡ₚ all_points rs ++ [p].
Proof.
  intros Hi Hf. revert i Hi. unfold all_points. induction rs as [|r rs IH]; intros i Hi; [simpl in Hi; lia|].
  destruct i as [|i]; simpl in *.
  - change (points (f r) ++ concat (map points rs) ≡ₚ (points r ++ concat (map points rs)) ++ [p]). rewrite Hf. solve_Permutation.
  - change (points r ++ concat (map points (alter f i rs)) ≡ₚ (points r ++ concat (map points rs)) ++ [p]).
    rewrite IH by lia. solve_Permutation.
Qed.

Lemma points_alter_id f rs i : (forall r, points (f r) = points r) -> all_points (alter f i rs) = all_points rs.
Proof.
  intros Hf. revert i. unfold all_points. induction rs as [|r rs IH]; intros [|i]; simpl; try done.
  - change (points (f r) ++ concat (map points rs) = points r ++ concat (map points rs)). by rewrite Hf.
  - change (points r ++ concat (map points (alter f i rs)) = points r ++ concat (map points rs)). by rewrite IH.
Qed.

Lemma devices_alter f rs i : (forall r, row_device (f r) = row_device r) -> map row_device (alter f i rs) = map row_device rs.
Proof. intros Hf. revert i. induction rs as [|r rs IH]; intros [|i]; simpl; try done; [by rewrite Hf|]. f_equal. apply IH. Qed.

Lemma fold_mount_points m r : points (fold_mount m r) = points r ++ [rm_path m].
Proof. unfold fold_mount. by destruct (_ && _). Qed.

Lemma fold_mount_device m r : row_device (fold_mount m r) = row_device r.
Proof. unfold fold_mount. by destruct (_ && _). Qed.

Lemma find_index_lt {A} (p : A -> bool) l i : find_index p l = Some i -> (i < length l)%nat.
Proof. intros H. apply find_index_Some in H as (x & Hx & _). by eapply lookup_lt_Some. Qed.

Lemma add_mounts_points b ms rs : all_points (foldl (add_mount b) rs ms) ≡ₚ all_points rs ++ map rm_path ms.
Proof.
  revert rs. induction ms as [|m ms IH]; intros rs; simpl; [by rewrite app_nil_r|]. rewrite IH. unfold add_mount.
  destruct (find_index _ rs) as [i|] eqn:E.
  - rewrite (points_alter _ _ _ (rm_path m)); [solve_Permutation|by eapply find_index_lt|apply fold_mount_points].
  - unfold all_points. rewrite map_app, concat_app. simpl. solve_Permutation.
Qed.

Lemma add_mounts_devices b ms rs : NoDup (map row_device rs) -> NoDup (map row_device (foldl (add_mount b) rs ms)).
Proof.
  revert rs. induction ms as [|m ms IH]; intros rs H; [done|]. simpl. apply IH. unfold add_mount.
  destruct (find_index _ rs) as [i|] eqn:E; [by rewrite devices_alter by apply fold_mount_device|].
  rewrite map_app. apply NoDup_app. split; [done|]. split; [|apply NoDup_singleton].
  intros d (r & -> & Hr)%list_elem_of_fmap Hd%list_elem_of_singleton.
  apply find_index_None in E. rewrite every_iff in E. specialize (E r Hr). simpl in Hd. rewrite Hd, str_eqb_refl in E. done.
Qed.

(** What the staging loop adds: rows for directories no mount holds. *)
Lemma add_stagings_points b ds s :
  exists added, all_points (st_rows (foldl (add_staging b) s ds)) = all_points (st_rows s) ++ added /\ added `sublist_of` map sd_path ds.
Proof.
  revert s. induction ds as [|d ds IH]; intros s; [exists []; by rewrite app_nil_r|]. simpl.
  destruct (IH (add_staging b s d)) as (added & -> & Hsub). unfold add_staging. cbn [st_rows].
  set (holder := if some _ _ then _ else _). destruct holder as [i|].
  - exists added. rewrite points_alter_id by done. split; [done|]. by apply sublist_cons.
  - exists (sd_path d :: added). split; [|by apply sublist_skip].
    unfold all_points. rewrite map_app, concat_app. simpl. by rewrite <- app_assoc.
Qed.

Lemma mark_drive_points ms rs : all_points (mark_drive ms rs) = all_points rs.
Proof. unfold mark_drive. destruct (roomiest ms); [|done]. destruct (find_index _ _); [by apply points_alter_id|done]. Qed.

(** On each host every mount path is shown once, on the one row of its device, and
    the only other paths are those of staging directories. *)
Theorem each_path_shown_once lc bs staging g :
  g ∈ buildStorageGroups lc bs staging ->
  exists backend added, backend ∈ bs /\ group_backendId g = rb_backendId backend /\
    all_points (rows g) ≡ₚ map rm_path (rb_mounts backend) ++ added /\ added `sublist_of` map sd_path (staging ?? []) /\
    NoDup (map row_device (foldl (add_mount (rb_backendId backend)) [] (rb_mounts backend))).
Proof.
  intros (b & -> & Hb)%list_elem_of_fmap. exists b. unfold unsorted_rows. cbn [rows group_backendId].
  assert (Hsort : forall l, all_points (stable_sort (row_after lc) l) ≡ₚ all_points l).
  { intros l. unfold all_points. by rewrite stable_sort_permutation. }
  pose proof (add_mounts_points (rb_backendId b) (rb_mounts b) []) as Hp. simpl in Hp.
  assert (Hd : NoDup (map row_device (foldl (add_mount (rb_backendId b)) [] (rb_mounts b)))) by (apply add_mounts_devices; constructor).
  destruct (rb_isLocal b).
  - destruct (add_stagings_points (rb_backendId b) (staging ?? [])
      {| st_rows := foldl (add_mount (rb_backendId b)) [] (rb_mounts b); ramMarked := false; diskMarked := false |}) as (added & E & Hsub).
    exists added. repeat split; try done. rewrite Hsort, mark_drive_points, E. cbn [st_rows]. by rewrite Hp.
  - exists []. repeat split; try done; [by rewrite Hsort, app_nil_r|apply sublist_nil_l].
Qed.

(** *** The marks *)

Definition marks (t : FlowTarget) (l : list (option FlowTarget)) : nat := length (keep (fun x => bool_decide (x = Some t)) l).

Lemma marks_app t l1 l2 : marks t (l1 ++ l2) = (marks t l1 + marks t l2)%nat.
Proof. unfold marks. by rewrite keep_app, length_app. Qed.

Definition mark_of (t : FlowTarget) (u : option FlowTarget) : nat := if bool_decide (u = Some t) then 1 else 0.

Lemma marks_cons t x l : marks t (x :: l) = (mark_of t x + marks t l)%nat.
Proof. unfold marks, mark_of. simpl. by destruct (bool_decide _). Qed.

Lemma marks_alter t f rs i u :
  (forall r, flowTarget (f r) = flowTarget r \/ flowTarget (f r) = u) ->
  (marks t (map flowTarget (alter f i rs)) <= marks t (map flowTarget rs) + mark_of t u)%nat.
Proof.
  intros Hf. revert i. induction rs as [|r rs IH]; intros [|i].
  - change (alter f 0%nat []) with (@nil StorageRow). apply Nat.le_add_r.
  - change (alter f (S i) []) with (@nil StorageRow). apply Nat.le_add_r.
  - change (alter f 0%nat (r :: rs)) with (f r :: rs). cbn [map]. rewrite !marks_cons. destruct (Hf r) as [->| ->]; unfold mark_of; lia.
  - change (alter f (S i) (r :: rs)) with (r :: alter f i rs). cbn [map]. rewrite !marks_cons. specialize (IH i). lia.
Qed.

Definition marked_once (s : staging_state) : Prop :=
  marks FtDrive (map flowTarget (st_rows s)) = 0%nat /\
  (marks FtRam (map flowTarget (st_rows s)) <= if ramMarked s then 1 else 0)%nat /\
  (marks FtDisk (map flowTarget (st_rows s)) <= if diskMarked s then 1 else 0)%nat.

Lemma add_staging_marks b s d : marked_once s -> marked_once (add_staging b s d).
Proof.
  intros (H1 & H2 & H3). unfold add_staging. set (holder := if some _ _ then _ else _). set (t := staging_target s _).
  assert (Hle : forall u, (marks u (map flowTarget (match holder with
      | Some i => alter (hold_staging d t) i (st_rows s) | None => st_rows s ++ [staging_row b d t] end)) <=
      marks u (map flowTarget (st_rows s)) + mark_of u t)%nat).
  { intros u. destruct holder as [i|].
    - apply marks_alter. intros r. simpl. destruct (flowTarget r); [by left|by right].
    - rewrite map_app, marks_app. cbn [map]. rewrite marks_cons. simpl. unfold marks at 2. simpl. lia. }
  assert (Ht : (t = Some FtRam /\ ramMarked s = false) \/ (t = Some FtDisk /\ diskMarked s = false) \/ t = None).
  { unfold t, staging_target. destruct (str_in _ _), (ramMarked s), (diskMarked s); simpl; auto. }
  unfold marked_once. cbn [st_rows ramMarked diskMarked].
  pose proof (Hle FtDrive) as L1. pose proof (Hle FtRam) as L2. pose proof (Hle FtDisk) as L3.
  destruct Ht as [[-> Hm]|[[-> Hm]| ->]]; rewrite ?Hm in *; unfold mark_of in *; simpl in *; rewrite ?orb_false_r, ?orb_true_r; lia.
Qed.

Lemma add_mounts_marks b ms rs t : marks t (map flowTarget rs) = 0%nat -> marks t (map flowTarget (foldl (add_mount b) rs ms)) = 0%nat.
Proof.
  revert rs. induction ms as [|m ms IH]; intros rs H; [done|]. simpl. apply IH. unfold add_mount.
  destruct (find_index _ rs) as [i|].
  - pose proof (marks_alter t (fold_mount m) rs i None) as L. unfold mark_of in L. simpl in L.
    enough (marks t (map flowTarget (alter (fold_mount m) i rs)) <= 0)%nat by lia. etrans; [apply L|lia].
    intros r. left. unfold fold_mount. by destruct (_ && _).
  - by rewrite map_app, marks_app, H.
Qed.

(** A download passes through one place per step: on each host at most one row is
    marked as the RAM staging, one as the disk staging and one as the drive. *)
Theorem one_place_per_step lc bs staging g t :
  g ∈ buildStorageGroups lc bs staging -> t = FtRam \/ t = FtDisk \/ t = FtDrive ->
  (marks t (map flowTarget (rows g)) <= 1)%nat.
Proof.
  intros (b & -> & Hb)%list_elem_of_fmap Ht. cbn [rows]. unfold unsorted_rows.
  assert (Hsort : forall l, marks t (map flowTarget (stable_sort (row_after lc) l)) = marks t (map flowTarget l)).
  { intros l. unfold marks. apply Permutation_length. unfold keep.
    assert (Hp : map flowTarget (stable_sort (row_after lc) l) ≡ₚ map flowTarget l) by by rewrite stable_sort_permutation.
    induction Hp; simpl; repeat destruct (bool_decide _); eauto using Permutation; by etrans. }
  rewrite Hsort. pose proof (fun u => add_mounts_marks (rb_backendId b) (rb_mounts b) [] u eq_refl) as H0.
  destruct (rb_isLocal b); [|rewrite H0; lia].
  set (s0 := {| st_rows := _; ramMarked := false; diskMarked := false |}).
  assert (H1 : marked_once (foldl (add_staging (rb_backendId b)) s0 (staging ?? []))).
  { assert (Hs : marked_once s0) by (unfold marked_once, s0; cbn [st_rows ramMarked diskMarked]; rewrite !H0; lia).
    revert Hs. generalize s0, (staging ?? []). intros s ds. revert s. induction ds as [|d ds IH]; intros s Hs; [done|].
    simpl. by apply IH, add_staging_marks. }
  set (s1 := foldl (add_staging _) _ _) in *. destruct H1 as (D1 & D2 & D3). unfold mark_drive.
  assert (Hbase : (marks t (map flowTarget (st_rows s1)) <= (if bool_decide (t = FtDrive) then 0 else 1))%nat).
  { destruct Ht as [->|[->| ->]]; simpl; [destruct (ramMarked s1)|destruct (diskMarked s1)|]; lia. }
  assert (Hbase' : (marks t (map flowTarget (st_rows s1)) <= 1)%nat) by (by destruct (bool_decide (t = FtDrive)); lia).
  destruct (roomiest _); [|done]. destruct (find_index _ _) as [i|]; [|done].
  etrans; [apply (marks_alter t _ _ i (Some FtDrive)); by right|]. unfold mark_of.
  destruct Ht as [->|[->| ->]]; simpl in *; lia.
Qed.

(** A download drive that also holds a staging directory is not marked as the drive
    any more: no row of the host is. *)
Lemma staging_hides_the_drive :
  let b := {| rb_backendId := "b"; rb_label := "b"; rb_hostname := "h"; rb_status := "online"; rb_version := "1"; rb_maxWorkers := #1;
              rb_activeWorkers := #0; rb_pendingJobs := #0; rb_lastSeen := EmptyString; rb_heartbeatAge := None; rb_health := Healthy;
              rb_isLocal := true; rb_clusterId := None; rb_apiUrl := None; rb_address := None; rb_workers := [];
              rb_mounts := [demo_mount "b" "/mnt" "/dev/sda" 100 40 60 true] |} in
  let staging := [{| sd_path := "/mnt/staging"; usage := []; policy := []; min_free_bytes := None |}] in
  map (fun g => map flowTarget (rows g)) (buildStorageGroups (fun _ _ => 0) [b] (Some [])) = [[Some FtDrive]] /\
  map (fun g => map flowTarget (rows g)) (buildStorageGroups (fun _ _ => 0) [b] (Some staging)) = [[Some FtDisk]].
Proof. vm_compute. done. Qed.

(** ** Witnesses *)

Definition demo_backend : RegisterBackend :=
  {| rb_backendId := "b"; rb_label := "b"; rb_hostname := "h"; rb_status := "online"; rb_version := "1"; rb_maxWorkers := #1;
     rb_activeWorkers := #0; rb_pendingJobs := #0; rb_lastSeen := EmptyString; rb_heartbeatAge := None; rb_health := Healthy;
     rb_isLocal := true; rb_clusterId := None; rb_apiUrl := None; rb_address := None; rb_workers := [];
     rb_mounts := [demo_mount "b" "/mnt" "/dev/sda" 100 40 60 true; demo_mount "b" "/again" "sda" 100 40 60 false] |}.

Lemma counted_once_witness :
  mountCount (summarizeStoragePool (rb_mounts demo_backend ++ rb_mounts demo_backend)) = 4%nat.
Proof. rewrite counted_once; [reflexivity|done]. Defined.

Definition by_length (a b : string) : Z := Z.of_nat (String.length a) - Z.of_nat (String.length b).

Lemma demo_group : exists g, g ∈ buildStorageGroups by_length [demo_backend] None.
Proof. eexists. apply list_elem_of_here. Defined.

Lemma each_path_shown_once_witness :
  exists g, g ∈ buildStorageGroups by_length [demo_backend] None /\ all_points (rows g) ≡ₚ ["/mnt"; "/again"].
Proof.
  destruct demo_group as [g Hg]. exists g. split; [done|].
  destruct (each_path_shown_once by_length [demo_backend] None g Hg) as (b & added & Hb & _ & Hp & Hs & _).
  apply list_elem_of_singleton in Hb as ->. apply sublist_nil_r in Hs as ->. exact Hp.
Defined.

Lemma one_place_per_step_witness :
  exists g, g ∈ buildStorageGroups by_length [demo_backend] None /\ (marks FtDrive (map flowTarget (rows g)) <= 1)%nat.
Proof.
  destruct demo_group as [g Hg]. exists g. split; [done|].
  apply (one_place_per_step by_length [demo_backend] None g FtDrive Hg). auto.
Defined.
