(* ===== verification/Users.v ===== *)
(** * The users page's filters, identities and loadouts

    [features/users/lib/usersUtils.ts], [features/user-profile/lib/userProfileUtils.ts]
    and [identityDraft.ts], [features/favourites/favouriteFilters.ts] and
    [features/network/lib/downloadLimits.ts]: what the pages read from their address,
    from saved loadouts and from forms, and what they show of a user. [null] and
    [undefined] are [None]; a [URLSearchParams] is the function that reads it.

    The identity form gives back what it was filled with and accepts nothing else
    for sex and gender; filters from the address and from loadouts hold valid values
    only, each key once; names of loadouts are short. *)

From Stdlib Require Import Ascii ZArith Lia SpecFloat.
From stdpp Require Import base list strings option sets.
From S2P Require Import Prelude JsString JsNum JsValue JsDate.

(** ** Numbers *)

(** [Number.isInteger] and [Number.isSafeInteger]. *)
Definition is_integer (n : num) : bool := is_finite n && (math_floor n =! n).
Definition is_safe_integer (n : num) : bool := is_integer n && (math_abs n <=! #9007199254740991).

(** [list.includes(n)] *)
Definition num_in (n : num) (l : list num) : bool := some (fun x => same_value_zero x n) l.

(** [o === n] for a nullable number. *)
Definition is_num (o : option num) (n : num) : bool := match o with Some x => x =! n | None => false end.

(** ** Labels ([userProfileUtils.ts]) *)

Definition em_dash : string := "—".

Definition sexLabel (sex : option num) : string :=
  if is_num sex #0 then "Female" else if is_num sex #1 then "Male" else if is_num sex #2 then "Other" else em_dash.

Definition genderLabel (gender : option num) : string :=
  if is_num gender #0 then "Woman" else if is_num gender #1 then "Man" else if is_num gender #2 then "Other" else em_dash.

Definition profileTypeLabel (profileType : option num) : string :=
  if is_num profileType #0 then "Solo" else if is_num profileType #1 then "Couple"
  else if is_num profileType #2 then "Group" else if is_num profileType #3 then "Other" else em_dash.

Definition sexualContentLabel (sexualContent : option num) : string :=
  if is_num sexualContent #0 then "Heterosexual (B/G)" else if is_num sexualContent #1 then "Lesbian (G/G)"
  else if is_num sexualContent #2 then "Gay (M/M)" else if is_num sexualContent #3 then "Bisexual"
  else if is_num sexualContent #4 then "Trans / Queer" else if is_num sexualContent #5 then "Solo"
  else if is_num sexualContent #6 then "Other" else em_dash.

(** The identity of a user, or what an identity form holds ([IdentityValues]). *)
Record IdentityValues := {
  sex : option num;
  gender : option num;
  profile_type : option num;
  sexual_content : option num;
  partner_sex : option num;
  partner_gender : option num
}.

Definition trans (label : string) : string := "🏳️‍⚧️ " +:+ label.

Definition userIdentityLabel (user : IdentityValues) : string :=
  if is_num (sexual_content user) #4 then
    if is_num (gender user) #0 || (is_num (sex user) #1 && is_num (gender user) #0) then trans "Trans Woman"
    else if is_num (gender user) #1 || (is_num (sex user) #0 && is_num (gender user) #1) then trans "Trans Man"
    else let s := sexLabel (sex user) in
         if truthy s && negb (s =s em_dash) then trans ("Trans (" +:+ s +:+ ")") else trans "Trans"
  else if is_num (sex user) #1 && is_num (gender user) #0 then trans "Trans Woman"
  else if is_num (sex user) #0 && is_num (gender user) #1 then trans "Trans Man"
  else if is_num (profile_type user) #1 then
    let label := sexualContentLabel (sexual_content user) in
    if bool_decide (sexual_content user <> None) && negb (label =s em_dash) then "Couple · " +:+ label
    else match partner_sex user with
         | Some p => "Couple (" +:+ sexLabel (sex user) +:+ " & " +:+ sexLabel (Some p) +:+ ")"
         | None => "Couple"
         end
  else if is_num (profile_type user) #2 then "Group"
  else sexLabel (sex user).

Inductive preset_category := Solo | Couple.

Record IdentityPreset := {
  preset_id : string;
  preset_label : string;
  category : preset_category;
  pr_profileType : num;
  pr_sexualContent : num;
  pr_sex : num;
  pr_gender : num;
  pr_partnerSex : option num;
  pr_partnerGender : option num
}.

Definition solo (id label : string) (content s g : Z) : IdentityPreset :=
  {| preset_id := id; preset_label := label; category := Solo; pr_profileType := #0; pr_sexualContent := #content;
     pr_sex := #s; pr_gender := #g; pr_partnerSex := None; pr_partnerGender := None |}.

Definition couple (id label : string) (content s g ps pg : Z) : IdentityPreset :=
  {| preset_id := id; preset_label := label; category := Couple; pr_profileType := #1; pr_sexualContent := #content;
     pr_sex := #s; pr_gender := #g; pr_partnerSex := Some #ps; pr_partnerGender := Some #pg |}.

Definition IDENTITY_PRESETS : list IdentityPreset := [
  solo "cis_woman" "Cis Woman" 5 0 0; solo "cis_man" "Cis Man" 5 1 1;
  solo "trans_woman" "Trans Woman" 4 1 0; solo "trans_man" "Trans Man" 4 0 1;
  couple "straight_couple" "Straight Couple (F/M)" 0 0 0 1 1; couple "lesbian_couple" "Lesbian Couple (F/F)" 1 0 0 0 0;
  couple "gay_couple" "Gay Couple (M/M)" 2 1 1 1 1; couple "trans_couple" "Trans / Queer Couple" 4 1 0 0 0].

(** ** Times ([userProfileUtils.ts]) *)

Section times.
Context {E : Env}.

Definition formatRelativeTime (isoDate : option string) (now : num) : string :=
  match truthy_opt isoDate with
  | None => "Never"
  | Some d =>
      let diffMs := now ⊖ date_ms d in
      let diffMins := math_floor (diffMs ⊘ #60000) in
      let diffHours := math_floor (diffMs ⊘ #3600000) in
      let diffDays := math_floor (diffMs ⊘ #86400000) in
      if diffMins <! #1 then "Just now"
      else if diffMins <! #60 then show_num diffMins +:+ "m ago"
      else if diffHours <! #24 then show_num diffHours +:+ "h ago"
      else if diffDays <! #7 then show_num diffDays +:+ "d ago"
      else if diffDays <! #30 then show_num (math_floor (diffDays ⊘ #7)) +:+ "w ago"
      else if diffDays <! #365 then show_num (math_floor (diffDays ⊘ #30)) +:+ "mo ago"
      else show_num (math_floor (diffDays ⊘ #365)) +:+ "y ago"
  end.

(** [toLocaleDateString] and [toLocaleString] with the page's options. *)
Definition formatDate (iso : option string) : string :=
  match truthy_opt iso with None => em_dash | Some d => toLocaleDateString (date_ms d) end.

Definition formatDateTime (iso : option string) : string :=
  match truthy_opt iso with None => em_dash | Some d => toLocaleString (date_ms d) end.

Definition formatDuration (diffMs : num) : string :=
  let totalMinutes := math_max #0 (math_floor (diffMs ⊘ #60000)) in
  let days := math_floor (totalMinutes ⊘ #1440) in
  let hours := math_floor (num_rem totalMinutes #1440 ⊘ #60) in
  let minutes := num_rem totalMinutes #60 in
  if days >! #0 then show_num days +:+ "d " +:+ show_num hours +:+ "h"
  else if hours >! #0 then show_num hours +:+ "h " +:+ show_num minutes +:+ "m"
  else if minutes >! #0 then show_num minutes +:+ "m"
  else "<1m".

Inductive tone := Active | Expired | Neutral.
Record SubscriptionCountdown := { countdown : string; countdown_detail : string; countdown_tone : tone }.

Definition getSubscriptionCountdown (expiresAt : option string) (isSubscribed : bool) (nowMs : num) : SubscriptionCountdown :=
  match truthy_opt expiresAt with
  | None => {| countdown := "N/A";
               countdown_detail := if isSubscribed then "Subscription expiry unavailable" else "No subscription expiry";
               countdown_tone := Neutral |}
  | Some at_ =>
      let expiresMs := date_ms at_ in
      if is_nan expiresMs then {| countdown := "Unknown"; countdown_detail := "Invalid expiry timestamp"; countdown_tone := Neutral |}
      else
        let diffMs := expiresMs ⊖ nowMs in
        if diffMs <=! #0 then
          {| countdown := formatDuration (math_abs diffMs) +:+ " ago"; countdown_detail := "Expired " +:+ formatDateTime (Some at_);
             countdown_tone := Expired |}
        else {| countdown := formatDuration diffMs; countdown_detail := "Expires " +:+ formatDateTime (Some at_); countdown_tone := Active |}
  end.
End times.

(** [identifier.trim().replace(/^@/, '')] and the known sites. *)
Definition without_at (s : string) : string := match s with String "@" r => r | _ => s end.

Definition getSocialUrl (site identifier : string) : option string :=
  let normalizedSite := to_lower (trim site) in
  let id := without_at (trim identifier) in
  if negb (truthy id) then None
  else if starts_with (to_lower (trim identifier)) "http://" || starts_with (to_lower (trim identifier)) "https://"
  then Some (trim identifier)
  else if (normalizedSite =s "x") || (normalizedSite =s "twitter") then Some ("https://x.com/" +:+ id)
  else if normalizedSite =s "instagram" then Some ("https://www.instagram.com/" +:+ id)
  else if normalizedSite =s "tiktok" then Some ("https://www.tiktok.com/@" +:+ id)
  else if normalizedSite =s "youtube" then Some ("https://www.youtube.com/@" +:+ id)
  else if normalizedSite =s "reddit" then Some ("https://www.reddit.com/user/" +:+ id)
  else if normalizedSite =s "snapchat" then Some ("https://www.snapchat.com/add/" +:+ id)
  else if normalizedSite =s "threads" then Some ("https://www.threads.net/@" +:+ id)
  else if normalizedSite =s "facebook" then Some ("https://www.facebook.com/" +:+ id)
  else if normalizedSite =s "twitch" then Some ("https://www.twitch.tv/" +:+ id)
  else if normalizedSite =s "linktree" then Some ("https://linktr.ee/" +:+ id)
  else None.

(** ** The identity form ([identityDraft.ts]) *)

Record IdentityDraft := {
  profileType : string;
  sexualContent : string;
  dr_sex : string;
  dr_gender : string;
  partnerSex : string;
  partnerGender : string
}.

Definition EMPTY_IDENTITY_DRAFT : IdentityDraft :=
  {| profileType := EmptyString; sexualContent := EmptyString; dr_sex := EmptyString; dr_gender := EmptyString;
     partnerSex := EmptyString; partnerGender := EmptyString |}.

Definition draftValue (v : option num) : string := match v with None => EmptyString | Some n => show_num n end.
Definition parsedValue (s : string) : option num := if s =s EmptyString then None else Some (number_of_string s).

Definition identityDraftFromUser (user : IdentityValues) : IdentityDraft :=
  {| profileType := draftValue (profile_type user); sexualContent := draftValue (sexual_content user);
     dr_sex := draftValue (sex user); dr_gender := draftValue (gender user);
     partnerSex := draftValue (partner_sex user); partnerGender := draftValue (partner_gender user) |}.

Definition identityDraftFromPreset (p : IdentityPreset) : IdentityDraft :=
  {| profileType := show_num (pr_profileType p); sexualContent := show_num (pr_sexualContent p);
     dr_sex := show_num (pr_sex p); dr_gender := show_num (pr_gender p);
     partnerSex := draftValue (pr_partnerSex p); partnerGender := draftValue (pr_partnerGender p) |}.

Definition SEX_OR_GENDER_VALUES : list num := [#0; #1; #2].

Definition parseIdentityDraft (d : IdentityDraft) : string + IdentityValues :=
  let values := {| sex := parsedValue (dr_sex d); gender := parsedValue (dr_gender d);
                   profile_type := parsedValue (profileType d); sexual_content := parsedValue (sexualContent d);
                   partner_sex := parsedValue (partnerSex d); partner_gender := parsedValue (partnerGender d) |} in
  let checks := [(sex values, "Invalid sex value"); (gender values, "Invalid gender value");
                 (partner_sex values, "Invalid partner sex value"); (partner_gender values, "Invalid partner gender value")] in
  match find_first (fun c => match c.1 with Some n => negb (num_in n SEX_OR_GENDER_VALUES) | None => false end) checks with
  | Some c => inl c.2
  | None => inr values
  end.

(** ** Filters ([usersUtils.ts]) *)

Inductive UserFilterState := FilterNone | Include | Exclude.

Record UserFilterMap := { performer : UserFilterState; subscribed : UserFilterState }.

Definition DEFAULT_USER_FILTERS : UserFilterMap := {| performer := Include; subscribed := FilterNone |}.

Definition USERS_SORT_OPTIONS : list (string * string) :=
  [("username", "Name"); ("price", "Price"); ("post_count", "Post Count"); ("last_checked_at", "Recently Checked");
   ("created_at", "Created"); ("id", "ID")].

Definition FAVORITE_USERS_SORT_OPTIONS : list (string * string) := keep (fun o => negb (o.1 =s "created_at")) USERS_SORT_OPTIONS.

Definition SEX_FILTER_OPTIONS : list (num * string) := [(#(-1), "Unset"); (#0, "Female"); (#1, "Male"); (#2, "Other")].
Definition GENDER_FILTER_OPTIONS : list (num * string) := [(#(-1), "Unset"); (#0, "Woman"); (#1, "Man"); (#2, "Other")].
Definition PROFILE_TYPE_FILTER_OPTIONS : list (num * string) :=
  [(#(-1), "Unset"); (#0, "Solo"); (#1, "Couple"); (#2, "Group"); (#3, "Other")].
Definition SEXUAL_CONTENT_FILTER_OPTIONS : list (num * string) :=
  [(#(-1), "Unset"); (#0, "Heterosexual (B/G)"); (#1, "Lesbian (G/G)"); (#2, "Gay (M/M)"); (#3, "Bisexual");
   (#4, "Trans / Queer"); (#5, "Solo"); (#6, "Other")].

Definition parseBooleanParam (v : option string) (fallback : bool) : bool :=
  match v with None => fallback | Some s => (s =s "true") || (s =s "1") end.

Definition parseIntListParam (v : option string) (allowed : list num) : list num :=
  match truthy_opt v with
  | None => []
  | Some s => keep (fun n => is_integer n && num_in n allowed) (map number_of_string (split "," s))
  end.

(** The runs of white space of a text, each as one space. *)
Fixpoint collapse_spaces (in_space : bool) (s : string) : string :=
  match s with
  | String c r => if is_space c then if in_space then collapse_spaces true r else String " " (collapse_spaces true r)
                  else String c (collapse_spaces false r)
  | EmptyString => EmptyString
  end.

Definition normalize (v : string) (maxLength : nat) : string := take_str maxLength (collapse_spaces false (trim v)).

Definition buildUsersLoadoutName (selectedSite searchQuery searchTerm searchDescriptionQuery searchDescriptionTerm : string) : string :=
  let siteValue := str_or (normalize (str_or selectedSite "all") 24) "all" in
  let identifierValue := normalize (str_or searchQuery searchTerm) 36 in
  let descriptionValue := normalize (str_or searchDescriptionQuery searchDescriptionTerm) 36 in
  join " | " (["site:" +:+ siteValue]
              ++ (if truthy identifierValue then ["identifier:" +:+ identifierValue] else [])
              ++ (if truthy descriptionValue then ["description:" +:+ descriptionValue] else [])).

Definition getUsersSortOptions (favoriteOnly : bool) : list (string * string) :=
  if favoriteOnly then FAVORITE_USERS_SORT_OPTIONS else USERS_SORT_OPTIONS.

Definition normalizeUsersSortBy (sortBy : option string) (favoriteOnly : bool) : string :=
  match sortBy with
  | Some s => if some (fun o => o.1 =s s) (getUsersSortOptions favoriteOnly) then s else "id"
  | None => "id"
  end.

Record UsersListResponse := {
  ul_success : bool;
  total : option num;
  active : option num;
  inactive : option num;
  avg_price : option num;
  free : option num;
  paid : option num
}.

Record UsersStats := {
  us_total : num;
  us_active : num;
  us_inactive : num;
  us_free : num;
  us_paid : num;
  us_avgPrice : string
}.

Definition buildUsersStats (usersData : option UsersListResponse) : option UsersStats :=
  match usersData with
  | Some d =>
      if ul_success d then
        (fun t => {| us_total := t; us_active := active d ?? #0; us_inactive := inactive d ?? #0; us_free := free d ?? #0;
                     us_paid := paid d ?? #0; us_avgPrice := to_fixed 2 (avg_price d ?? #0) |}) <$> total d
      else None
  | None => None
  end.

(** ** Loadouts ([usersUtils.ts], [api/types/loadouts.ts]) *)

Record SearchLoadoutItem := {
  identifier : string;
  description : string;
  site : string;
  filters : fields
}.

Record UsersLoadoutState := {
  ls_identifier : string;
  ls_description : string;
  siteValue : string;
  nextSex : list num;
  nextGender : list num;
  performerFilter : UserFilterState;
  subscribedFilter : UserFilterState;
  sortByValue : string;
  ascending : bool;
  ranges_of : list (string * string);
  activeOnly : bool
}.

(** [Array.isArray(v) ? v.map(Number).filter(..) : []] *)
Definition int_list (v : jsval) (allowed : list num) : list num :=
  match as_arr v with
  | Some l => keep (fun n => is_integer n && num_in n allowed) (map (fun x => to_number (Some x)) l)
  | None => []
  end.

(** The texts of the range fields, in the order of the result's properties. *)
Definition RANGE_FIELDS : list string :=
  ["min_price"; "max_price"; "min_post_count"; "max_post_count"; "min_image_count"; "max_image_count"; "min_video_count"; "max_video_count"].

Definition is_text (v : jsval) (s : string) : bool := bool_decide (as_str v = Some s).

Definition applyUsersLoadoutState (loadout : SearchLoadoutItem) (favoriteOnly : bool) : UsersLoadoutState :=
  let f key := prop key (filters loadout) in
  {| ls_identifier := identifier loadout; ls_description := description loadout; siteValue := site loadout;
     nextSex := int_list (f "sex") [#(-1); #0; #1; #2];
     nextGender := int_list (f "gender") [#(-1); #0; #1; #2];
     performerFilter := if is_text (f "performer_filter") "exclude" then Exclude
                        else if is_text (f "performer_filter") "none" then FilterNone else Include;
     subscribedFilter := if is_text (f "subscribed_filter") "include" then Include
                         else if is_text (f "subscribed_filter") "exclude" then Exclude else FilterNone;
     sortByValue := normalizeUsersSortBy (as_str (f "sort_by")) favoriteOnly;
     ascending := is_text (f "sort_order") "asc";
     ranges_of := map (fun key => (key, as_str (f key) ?? EmptyString)) RANGE_FIELDS;
     activeOnly := match f "active_only" with Some (VBool b) => b | _ => true end |}.

(** ** The favourites' filters ([favouriteFilters.ts]) *)

Definition identity_options : list (string * list num) :=
  [("sex", map fst SEX_FILTER_OPTIONS); ("gender", map fst GENDER_FILTER_OPTIONS);
   ("profile_type", map fst PROFILE_TYPE_FILTER_OPTIONS); ("sexual_content", map fst SEXUAL_CONTENT_FILTER_OPTIONS)].

Definition ranges : list string := ["price"; "post_count"; "image_count"; "video_count"].
Definition availability : list string := ["available"; "inactive"; "deleted"; "expired"; "unavailable"].
Definition noUserFilters : UserFilterMap := {| performer := FilterNone; subscribed := FilterNone |}.

Definition range_keys : list (string * string) := flat_map (fun name => map (fun bound => (name, bound +:+ "_" +:+ name)) ["min"; "max"]) ranges.

Definition keys : list string :=
  ["availability"; "active_only"; "performer"; "subscribed"] ++ map fst identity_options ++ map snd range_keys.

(** A value of the result. *)
Inductive filter_value := FText (s : string) | FTrue | FNums (l : list num) | FNum (n : num).

Definition parse_range (name : string) (v : option string) : option num :=
  match v with
  | Some s =>
      let n := number_of_string s in
      if truthy (trim s) && is_finite n && (n >=! #0) && ((name =s "price") || is_safe_integer n) then Some n else None
  | None => None
  end.

Definition parseFavouriteFilters (params : string -> option string) : list (string * filter_value) :=
  match params "availability" with Some s => if str_in s availability then [("availability", FText s)] else [] | None => [] end
  ++ (if bool_decide (params "active_only" = Some "true") then [("active_only", FTrue)] else [])
  ++ omap (fun key => match params key with
                      | Some s => if (s =s "include") || (s =s "exclude") then Some (key, FText s) else None
                      | None => None
                      end) ["performer"; "subscribed"]
  ++ omap (fun '(key, allowed) => match parseIntListParam (params key) allowed with
                                  | [] => None
                                  | l => Some (key, FNums l)
                                  end) identity_options
  ++ omap (fun '(name, key) => (fun n => (key, FNum n)) <$> parse_range name (params key)) range_keys.

(** ** Download limits ([downloadLimits.ts]) *)

Record DownloadLimits := { max_concurrency : num; per_domain_concurrency : num; head_concurrency : num }.
Record DownloadLimitsDraft := { d_max_concurrency : string; d_per_domain_concurrency : string; d_head_concurrency : string }.

Definition toDownloadLimitsDraft (l : DownloadLimits) : DownloadLimitsDraft :=
  {| d_max_concurrency := show_num (max_concurrency l); d_per_domain_concurrency := show_num (per_domain_concurrency l);
     d_head_concurrency := show_num (head_concurrency l) |}.

Definition parse_limit (text : string) : num :=
  let raw := trim text in if all_digits raw then number_of_string raw else nan.

Definition parseDownloadLimits (d : DownloadLimitsDraft) : option DownloadLimits :=
  let a := parse_limit (d_max_concurrency d) in
  let b := parse_limit (d_per_domain_concurrency d) in
  let c := parse_limit (d_head_concurrency d) in
  if some (fun v => negb (is_safe_integer v) || (v <! #1)) [a; b; c] then None
  else Some {| max_concurrency := a; per_domain_concurrency := b; head_concurrency := c |}.

(** * What the users page accepts *)

(** ** The identity form *)

#[local] Instance num_eq_dec : EqDecision num.
Proof. unfold EqDecision, Decision, num. decide equality; (apply Pos.eq_dec || apply Z.eq_dec || apply bool_dec). Defined.

Definition one_of (l : list num) (o : option num) : Prop := match o with None => True | Some n => n ∈ l end.

Lemma draft_reads_back l o :
  forallb (fun n => negb (show_num n =s EmptyString) && bool_decide (number_of_string (show_num n) = n)) l = true ->
  one_of l o -> parsedValue (draftValue o) = o.
Proof.
  intros Hl. destruct o as [n|]; [|done]. simpl. intros Hn. rewrite forallb_forall in Hl.
  specialize (Hl n ltac:(by apply list_elem_of_In)). apply andb_true_iff in Hl as [H1 H2]. apply negb_true_iff in H1.
  unfold parsedValue. rewrite H1. apply bool_decide_eq_true in H2. by rewrite H2.
Qed.

Definition SEXES : list num := [#0; #1; #2].
Definition PROFILES : list num := map fst PROFILE_TYPE_FILTER_OPTIONS.
Definition CONTENTS : list num := map fst SEXUAL_CONTENT_FILTER_OPTIONS.

Lemma allowed_one_of o : one_of SEXES o -> match o with Some n => negb (num_in n SEX_OR_GENDER_VALUES) | None => false end = false.
Proof.
  destruct o as [n|]; [|done]. simpl. intros H. repeat (apply elem_of_cons in H as [->|H]; [vm_compute; reflexivity|]). by apply elem_of_nil in H.
Qed.

(** The identity form gives back what it was filled with: every identity the page
    can offer passes through the texts of the form unchanged, and so does every
    preset. *)
Theorem identity_passes_the_form u :
  one_of SEXES (sex u) -> one_of SEXES (gender u) -> one_of SEXES (partner_sex u) -> one_of SEXES (partner_gender u) ->
  one_of PROFILES (profile_type u) -> one_of CONTENTS (sexual_content u) ->
  parseIdentityDraft (identityDraftFromUser u) = inr u /\
  Forall (fun p => parseIdentityDraft (identityDraftFromPreset p) =
                   inr {| sex := Some (pr_sex p); gender := Some (pr_gender p); profile_type := Some (pr_profileType p);
                          sexual_content := Some (pr_sexualContent p); partner_sex := pr_partnerSex p;
                          partner_gender := pr_partnerGender p |}) IDENTITY_PRESETS.
Proof.
  intros H1 H2 H3 H4 H5 H6. split; [|repeat constructor; vm_compute; reflexivity].
  unfold parseIdentityDraft, identityDraftFromUser. cbn [dr_sex dr_gender profileType sexualContent partnerSex partnerGender].
  assert (Hs : forall o, one_of SEXES o -> parsedValue (draftValue o) = o) by (intros o; apply draft_reads_back; vm_compute; reflexivity).
  rewrite (Hs (sex u)), (Hs (gender u)), (Hs (partner_sex u)), (Hs (partner_gender u)), (draft_reads_back PROFILES), (draft_reads_back CONTENTS) by (assumption || (vm_compute; reflexivity)).
  unfold find_first. cbn [List.find fst snd sex gender partner_sex partner_gender]. rewrite !allowed_one_of by done. by destruct u.
Qed.

(** ** Filters *)

Lemma int_list_param v allowed n : n ∈ parseIntListParam v allowed -> is_integer n = true /\ num_in n allowed = true.
Proof.
  unfold parseIntListParam. destruct (truthy_opt v); [|by intros ?%elem_of_nil]. intros [_ H]%elem_of_keep. by apply andb_true_iff in H.
Qed.

(** What the value of a favourites filter may be. *)
Definition filter_ok (e : string * filter_value) : Prop :=
  match e.2 with
  | FText s => (e.1 = "availability" /\ s ∈ availability) \/ (e.1 ∈ ["performer"; "subscribed"] /\ (s = "include" \/ s = "exclude"))
  | FTrue => e.1 = "active_only"
  | FNums l => l <> [] /\ exists allowed, (e.1, allowed) ∈ identity_options /\ forall n, n ∈ l -> is_integer n = true /\ num_in n allowed = true
  | FNum n => exists name, (name, e.1) ∈ range_keys /\ is_finite n = true /\ (n >=! #0) = true /\ (name = "price" \/ is_safe_integer n = true)
  end.

Lemma omap_keys {A V} (f : A -> option (string * V)) (key : A -> string) l :
  (forall x y, f x = Some y -> y.1 = key x) -> map fst (omap f l) `sublist_of` map key l.
Proof.
  intros H. induction l as [|x l IH]; [constructor|]. simpl. destruct (f x) as [y|] eqn:E; simpl.
  - rewrite (H x y E). by apply sublist_skip.
  - by apply sublist_cons.
Qed.

(** C38. The favourites' filters read from an address are well-formed, whatever the
    address holds: each key at most once and in the page's order; the status and the
    choices are words the page knows; lists of numbers are not empty and hold only
    offered values; bounds are finite, not negative and, prices aside, safe integers. *)
Theorem favourite_filters_are_valid params :
  Forall filter_ok (parseFavouriteFilters params) /\ map fst (parseFavouriteFilters params) `sublist_of` keys.
Proof.
  split.
  - unfold parseFavouriteFilters. rewrite !Forall_app. repeat split.
    + destruct (params "availability") as [s|]; [|done]. destruct (str_in s availability) eqn:E; [|done].
      apply Forall_singleton. left. split; [done|]. by apply str_in_iff.
    + destruct (bool_decide _); [by apply Forall_singleton|done].
    + apply Forall_forall. intros e (key & Hk & He)%list_elem_of_omap. destruct (params key) as [s|]; [|done].
      destruct (s =s "include") eqn:E1; [|destruct (s =s "exclude") eqn:E2; [|done]]; injection He as <-; right;
        (split; [done|]); apply str_eqb_eq in E1 || apply str_eqb_eq in E2; auto.
    + apply Forall_forall. intros e ([key allowed] & Hk & He)%list_elem_of_omap.
      destruct (parseIntListParam (params key) allowed) as [|n l] eqn:E; [done|]. injection He as <-. split; [done|].
      exists allowed. split; [done|]. intros x Hx. rewrite <- E in Hx. by eapply int_list_param.
    + apply Forall_forall. intros e ([name key] & Hk & He)%list_elem_of_omap. unfold parse_range in He.
      destruct (params key) as [s|]; [|done]. destruct (_ && _) eqn:E; [|done]. injection He as <-.
      apply andb_true_iff in E as [[[_ E1]%andb_true_iff E2]%andb_true_iff E3]. exists name. split; [done|]. split; [done|]. split; [done|].
      apply orb_true_iff in E3 as [E3|E3]; [left; by apply str_eqb_eq|by right].
  - unfold parseFavouriteFilters, keys. rewrite !map_app. change (["availability"; "active_only"; "performer"; "subscribed"] ++ ?r)
      with (["availability"] ++ ["active_only"] ++ ["performer"; "subscribed"] ++ r).
    repeat apply sublist_app.
    + destruct (params "availability") as [s|]; [|apply sublist_nil_l]. destruct (str_in s availability); [done|apply sublist_nil_l].
    + destruct (bool_decide _); [done|apply sublist_nil_l].
    + etrans; [apply (omap_keys _ (fun x => x))|by rewrite map_id]. intros x y. destruct (params x); [|done]. destruct (_ || _); [by intros [= <-]|done].
    + apply omap_keys. intros [k a] y. destruct (parseIntListParam _ _); [done|by intros [= <-]].
    + apply (omap_keys _ snd). intros [name k] y. destruct (parse_range _ _); [by intros [= <-]|done].
Qed.

(** ** Names of loadouts *)

Lemma take_str_length n s : (String.length (take_str n s) <= n)%nat.
Proof. revert s. induction n as [|n IH]; intros [|c s]; simpl; try lia. specialize (IH s). lia. Qed.

Lemma app_length_string s t : String.length (s +:+ t) = (String.length s + String.length t)%nat.
Proof. induction s as [|c s IH]; [done|]. change (S (String.length (s +:+ t)) = S (String.length s + String.length t)). by rewrite IH. Qed.

(** The name made up for a loadout is at most 131 characters long, whatever was
    typed, and begins with the site. *)
Theorem loadout_names_are_short a b c d e :
  (String.length (buildUsersLoadoutName a b c d e) <= 131)%nat /\ starts_with (buildUsersLoadoutName a b c d e) "site:" = true.
Proof.
  unfold buildUsersLoadoutName. set (s := str_or (normalize (str_or a "all") 24) "all").
  set (i := normalize (str_or b c) 36). set (t := normalize (str_or d e) 36).
  assert (Hs : (String.length s <= 24)%nat).
  { unfold s, str_or at 1. destruct (truthy _); [apply take_str_length|simpl; lia]. }
  pose proof (take_str_length 36 (collapse_spaces false (trim (str_or b c)))) as Hi. fold (normalize (str_or b c) 36) in Hi. fold i in Hi.
  pose proof (take_str_length 36 (collapse_spaces false (trim (str_or d e)))) as Ht. fold (normalize (str_or d e) 36) in Ht. fold t in Ht.
  assert (H1 : String.length ("site:" +:+ s) = (5 + String.length s)%nat) by apply app_length_string.
  assert (H2 : String.length ("identifier:" +:+ i) = (11 + String.length i)%nat) by apply app_length_string.
  assert (H3 : String.length ("description:" +:+ t) = (12 + String.length t)%nat) by apply app_length_string.
  revert H1 H2 H3 Hs Hi Ht. generalize ("identifier:" +:+ i) as x, ("description:" +:+ t) as y. intros x y.
  pose proof (starts_with_app "site:" s) as Hp. revert Hp.
  assert (Hpre : forall u r, starts_with u "site:" = true -> starts_with (u +:+ r) "site:" = true).
  { intros u r (v & ->)%starts_with_inv. rewrite app_assoc_str. apply starts_with_app. }
  generalize ("site:" +:+ s) as z. intros z Hz H1 H2 H3 Hs Hi Ht.
  destruct (truthy i), (truthy t); cbn [app].
  - change (join " | " [z; x; y]) with (z +:+ " | " +:+ x +:+ " | " +:+ y). split; [|by apply Hpre].
    rewrite !app_length_string. simpl. lia.
  - change (join " | " [z; x]) with (z +:+ " | " +:+ x). split; [|by apply Hpre]. rewrite !app_length_string. simpl. lia.
  - change (join " | " [z; y]) with (z +:+ " | " +:+ y). split; [|by apply Hpre]. rewrite !app_length_string. simpl. lia.
  - change (join " | " [z]) with z. split; [lia|done].
Qed.

(** Limits that are accepted are whole numbers of at least 1. *)
Lemma limits_are_positive d l :
  parseDownloadLimits d = Some l ->
  Forall (fun v => is_safe_integer v = true /\ (v <! #1) = false) [max_concurrency l; per_domain_concurrency l; head_concurrency l].
Proof.
  unfold parseDownloadLimits. destruct (some _ _) eqn:E; [done|]. intros [= <-]. cbn [max_concurrency per_domain_concurrency head_concurrency].
  apply Forall_forall. intros v Hv. apply not_true_iff_false in E. rewrite some_iff in E.
  destruct (is_safe_integer v) eqn:E1; [|exfalso; apply E; exists v; split; [done|by rewrite E1]].
  split; [done|]. destruct (v <! #1) eqn:E2; [|done]. exfalso. apply E. exists v. split; [done|]. by rewrite E1, E2.
Qed.

(** ** Where the code does less *)

(** An empty item of a list counts as 0. *)
Lemma empty_item_is_zero : parseIntListParam (Some "1,") (map fst SEX_FILTER_OPTIONS) = [#1; #0].
Proof. vm_compute. reflexivity. Qed.

(** A profile type that is no number is accepted. *)
Lemma bad_profile_type_accepted :
  match parseIdentityDraft {| profileType := "abc"; sexualContent := EmptyString; dr_sex := EmptyString; dr_gender := EmptyString;
                              partnerSex := EmptyString; partnerGender := EmptyString |} with
  | inr v => profile_type v = Some nan
  | inl _ => False
  end.
Proof. vm_compute. reflexivity. Qed.

(** The label of the preset for a trans couple names one woman. *)
Lemma trans_couple_is_shown_as_one :
  match find_first (fun p => preset_id p =s "trans_couple") IDENTITY_PRESETS with
  | Some p => match parseIdentityDraft (identityDraftFromPreset p) with
              | inr v => userIdentityLabel v = trans "Trans Woman"
              | inl _ => False
              end
  | None => False
  end.
Proof. vm_compute. reflexivity. Qed.

(** A date that cannot be read is shown as a number of years. *)
Lemma unreadable_date : @formatRelativeTime utc_env (Some "yesterday") #0 = "NaNy ago".
Proof. vm_compute. reflexivity. Qed.

Lemma identity_passes_the_form_witness :
  parseIdentityDraft (identityDraftFromUser {| sex := Some #1; gender := None; profile_type := Some #3; sexual_content := Some #6;
    partner_sex := Some #2; partner_gender := None |}) =
  inr {| sex := Some #1; gender := None; profile_type := Some #3; sexual_content := Some #6; partner_sex := Some #2; partner_gender := None |}.
Proof.
  apply identity_passes_the_form; simpl; try exact I; apply (bool_decide_unpack _); vm_compute; exact I.
Defined.
