(* ===== verification/WebhookStream.v ===== *)
(** * The stream of webhook events ([hooks/useWebhookStream.tsx])

    The provider listens on the shared socket, turns every event into a compact
    message and collects the messages; a timer moves what was collected into the
    list that is shown, at most every 250 ms. The state of the provider is one
    record; its callbacks, the timer and the unmounting are steps that come in any
    order. [new Date().toISOString()] and the random suffix of an identifier are
    arguments. The event names are declared to be strings, but come from the
    network: they are any value here, and reading them as a string can throw.

    However many events arrive and whatever they hold: the list and each of its
    payloads stay within fixed sizes, no two messages shown have the same payload
    identifier, and the timer runs exactly while messages wait for it. *)

From Stdlib Require Import Ascii ZArith Lia Sorting.Sorted SpecFloat.
From stdpp Require Import base list strings option sets sorting.
From S2P Require Import Prelude JsString JsNum JsValue.

Inductive WebhookMessageCategory := Backend | Usapi | System.
#[export] Instance WebhookMessageCategory_eq : EqDecision WebhookMessageCategory.
Proof. solve_decision. Defined.

Record WebhookMessage := {
  msg_id : string;
  payloadId : jsval;
  receivedAt : value;
  event : value;
  eventType : jsval;
  payload : value;
  category : WebhookMessageCategory
}.

(** ** Reading an event *)

(** [v === s1 || v === s2 || ..] *)
Definition is_one_of (names : list string) (v : jsval) : bool :=
  match as_str v with Some s => str_in s names | None => false end.

(** [key in v] *)
Definition has_key (key : string) (v : value) : bool :=
  match v with VObj fs => JMap.has key fs | _ => false end.

(** [a || b || .. || d] *)
Fixpoint first_truthy (l : list jsval) (d : value) : value :=
  match l with
  | v :: r => match v with Some x => if val_truthy v then x else first_truthy r d | None => first_truthy r d end
  | [] => d
  end.

(** The tests of [eventName] for jobs and tasks; [None] is the [TypeError] of a
    value without [includes] or [startsWith]. *)
Definition names_job (eventName : value) : option bool :=
  match eventName with
  | VStr s => Some (includes s "job_" || includes s "task_" || starts_with s "JOB_" || starts_with s "TASK_")
  | VArr l => if some (fun x => is_one_of ["job_"; "task_"] (Some x)) l then Some true else None
  | _ => None
  end.

Definition detectCategory (e eventName : value) : option WebhookMessageCategory :=
  let field key := get_field (Some e) key in
  if is_one_of ["queue_depth"; "system_health"; "heartbeat"] (Some eventName)
     || is_one_of ["queue_depth"; "system_health"] (field "type") then Some System
  else if has_key "api2_chat_message" e
     || is_one_of ["api2_chat_message"; "chat_message"; "websocket_message"; "subscription_added"; "subscription_removed";
                   "message_received"; "story_update"; "post_update"; "stream_event"] (Some eventName)
     || (val_truthy (field "source_id") && includes (val_to_str (field "source_id")) ":ws:")
     || is_one_of ["ultimascraper:websocket:stream"] (field "channel") then Some Usapi
  else match names_job eventName with
       | None => None
       | Some job =>
           if job || val_truthy (field "job_id") || val_truthy (field "task_id")
              || is_one_of ["scrape_progress"; "download_progress"; "subscription_processing"] (Some eventName)
           then Some Backend else Some Backend
       end.

(** ** Compact payloads *)

Definition MAX_MESSAGES : nat := Z.to_nat 10000.
Definition MAX_STRING_LENGTH : nat := Z.to_nat 2000.
Definition MAX_OBJECT_KEYS : nat := 40.
Definition MAX_ARRAY_ITEMS : nat := 40.
Definition MAX_DEPTH : nat := 4.

Definition show_nat (n : nat) : string := show_Z (Z.of_nat n).

Definition truncateString (v : string) : string :=
  if (String.length v <=? MAX_STRING_LENGTH)%nat then v
  else take_str MAX_STRING_LENGTH v +:+ "... [truncated " +:+ show_nat (String.length v - MAX_STRING_LENGTH) +:+ " chars]".

(** [compactPayload(value, depth)] with [left = MAX_DEPTH - depth]. Assigning the
    property [__proto__] adds none. *)
Fixpoint compact_at (left : nat) (v : value) {struct v} : value :=
  match v with
  | VNull | VNum _ | VBool _ => v
  | VStr s => VStr (truncateString s)
  | VArr l =>
      match left with
      | O => VStr "[truncated-depth]"
      | S deeper =>
          let items := take MAX_ARRAY_ITEMS (map (compact_at deeper) l) in
          VArr (if (MAX_ARRAY_ITEMS <? length l)%nat
                then items ++ [VStr ("[+" +:+ show_nat (length l - MAX_ARRAY_ITEMS) +:+ " more items]")] else items)
      end
  | VObj fs =>
      match left with
      | O => VStr "[truncated-depth]"
      | S deeper =>
          let entries := take MAX_OBJECT_KEYS (map (fun e => (e.1, compact_at deeper e.2)) fs) in
          let compacted := JMap.of_list (keep (fun e => negb (e.1 =s "__proto__")) entries) in
          VObj (if (MAX_OBJECT_KEYS <? length fs)%nat
                then JMap.set "__truncated_keys__" (VNum #(Z.of_nat (length fs - MAX_OBJECT_KEYS))) compacted else compacted)
      end
  end.

Definition compactPayload (v : value) : value := compact_at MAX_DEPTH v.

(** [None] is a thrown [TypeError], [Some None] no message. *)
Definition buildWebhookMessage (now random : string) (e : value) : option (option WebhookMessage) :=
  match e with
  | VObj _ | VArr _ =>
      let field key := get_field (Some e) key in
      if is_one_of ["log"; "ack"; "pong"] (field "type") then Some None
      else
        let eventName := first_truthy
          [field "event"; field "type"; if has_key "api2_chat_message" e then Some (VStr "api2_chat_message") else None] (VStr "message") in
        let timestamp := first_truthy [field "timestamp"; field "stored_at"] (VStr now) in
        match detectCategory e eventName with
        | None => None
        | Some c => Some (Some {|
            msg_id := to_str eventName +:+ "-" +:+ to_str timestamp +:+ "-" +:+ random;
            payloadId := val_or (field "id") (val_or (field "job_id") (field "task_id"));
            receivedAt := timestamp;
            event := eventName;
            eventType := if val_truthy (field "event_type") then field "event_type" else None;
            payload := compactPayload e;
            category := c |})
        end
  | _ => Some None
  end.

(** ** The provider *)

Record stream := {
  messages : list WebhookMessage;
  pending : list WebhookMessage;
  flushTimer : bool;
  watchers : Z
}.

Definition new_stream : stream := {| messages := []; pending := []; flushTimer := false; watchers := 0 |}.

Definition set_list (ms : list WebhookMessage) (s : stream) : stream :=
  {| messages := ms; pending := pending s; flushTimer := flushTimer s; watchers := watchers s |}.
Definition set_refs (batch : list WebhookMessage) (timer : bool) (s : stream) : stream :=
  {| messages := messages s; pending := batch; flushTimer := timer; watchers := watchers s |}.
Definition set_watchers (n : Z) (s : stream) : stream :=
  {| messages := messages s; pending := pending s; flushTimer := flushTimer s; watchers := n |}.

Definition FLUSH_INTERVAL_MS : Z := 250.

(** Equality of the values of a [Set]: objects parsed apart are different. *)
Definition same_key (a b : value) : bool :=
  match a, b with
  | VStr x, VStr y => x =s y
  | VNum x, VNum y => same_value_zero x y
  | VBool x, VBool y => Bool.eqb x y
  | VNull, VNull => true
  | _, _ => false
  end.

(** The payload's identifier, if it is truthy. *)
Definition known_id (m : WebhookMessage) : option value := if val_truthy (payloadId m) then payloadId m else None.

(** The loop over a batch. *)
Fixpoint fresh (existingIds : list value) (batch : list WebhookMessage) : list WebhookMessage :=
  match batch with
  | [] => []
  | m :: r =>
      match known_id m with
      | Some k => if some (same_key k) existingIds then fresh existingIds r else m :: fresh (existingIds ++ [k]) r
      | None => m :: fresh existingIds r
      end
  end.

Definition merge_batch (batch prev : list WebhookMessage) : list WebhookMessage :=
  match fresh (omap known_id prev) batch with
  | [] => prev
  | newMessages => take MAX_MESSAGES (newMessages ++ prev)
  end.

Definition flushPending (s : stream) : stream :=
  let s := set_refs (pending s) false s in
  match pending s with
  | [] => s
  | batch => set_list (merge_batch batch (messages s)) (set_refs [] false s)
  end.

(** A callback that throws leaves the state as it was. *)
Definition handleWebSocketMessage (now random : string) (wsEvent : value) (s : stream) : stream :=
  match buildWebhookMessage now random wsEvent with
  | None | Some None => s
  | Some (Some m) =>
      if is_one_of ["scrape_progress"; "download_progress"; "task_progress"] (Some (event m)) then s
      else set_refs (pending s ++ [m]) true s
  end.

Definition topics (s : stream) : list string :=
  if watchers s >? 0 then ["jobs"; "system"; "api_hooks"] else ["jobs"; "system"].

Definition watch (s : stream) : stream := set_watchers (watchers s + 1) s.
Definition unwatch (s : stream) : stream := set_watchers (watchers s - 1) s.

Definition clearMessages (s : stream) : stream := set_list [] (set_refs [] false s).
Definition unmount (s : stream) : stream := set_refs [] false s.

Inductive step : stream -> stream -> Prop :=
| Receive now random e s : step s (handleWebSocketMessage now random e s)
| Fire s : flushTimer s = true -> step s (flushPending s)
| Watch s : step s (watch s)
| Unwatch s : step s (unwatch s)
| Clear s : step s (clearMessages s)
| Unmount s : step s (unmount s).

Inductive reachable : stream -> Prop :=
| Start : reachable new_stream
| Next s s' : reachable s -> step s s' -> reachable s'.

(** * The stream of events is bounded *)

(** ** Compact values *)

(** Texts of a compact value: short ones, cut ones with the number of characters
    left out, and the last element of a cut array. *)
Definition tidy_text (s : string) : Prop :=
  (String.length s <= MAX_STRING_LENGTH)%nat \/
  (exists kept n, String.length kept = MAX_STRING_LENGTH /\ s = kept +:+ "... [truncated " +:+ show_nat n +:+ " chars]") \/
  (exists n, s = "[+" +:+ show_nat n +:+ " more items]").

(** At most [depth] levels of arrays and objects, each with at most [items]
    elements or properties, and texts that satisfy [text]. *)
Fixpoint within (text : string -> Prop) (items depth : nat) (v : value) {struct v} : Prop :=
  match v with
  | VNull | VNum _ | VBool _ => True
  | VStr s => text s
  | VArr l =>
      match depth with
      | O => False
      | S d => (length l <= items)%nat /\ (fix all l := match l with [] => True | x :: r => within text items d x /\ all r end) l
      end
  | VObj fs =>
      match depth with
      | O => False
      | S d => (length fs <= items)%nat /\
               (fix all fs := match fs with [] => True | e :: r => within text items d e.2 /\ all r end) fs
      end
  end.

Section within.
Context (text : string -> Prop) (items d : nat).

Lemma within_arr l : within text items (S d) (VArr l) <-> (length l <= items)%nat /\ Forall (within text items d) l.
Proof. simpl. apply and_iff_compat_l. induction l as [|x l IH]; [by split|]. by rewrite Forall_cons, <- IH. Qed.

Lemma within_obj fs :
  within text items (S d) (VObj fs) <-> (length fs <= items)%nat /\ Forall (fun e => within text items d e.2) fs.
Proof. simpl. apply and_iff_compat_l. induction fs as [|x l IH]; [by split|]. by rewrite Forall_cons, <- IH. Qed.
End within.

Lemma length_take_str n s : String.length (take_str n s) = Nat.min n (String.length s).
Proof. revert s. induction n as [|n IH]; intros [|c s]; simpl; try done. by rewrite IH. Qed.

Lemma truncated_tidy s : tidy_text (truncateString s).
Proof.
  unfold truncateString. destruct (_ <=? _)%nat eqn:E; [left; by apply Nat.leb_le|]. apply Nat.leb_gt in E.
  right; left. eexists _, _. split; [|done]. rewrite length_take_str. lia.
Qed.

Lemma set_length {V} k (v : V) m : (length (JMap.set k v m) <= S (length m))%nat.
Proof. induction m as [|[k' v'] m IH]; simpl; [done|]. destruct (k' =s k); simpl; lia. Qed.

Lemma of_list_snoc {V} (l : list (string * V)) e : JMap.of_list (l ++ [e]) = JMap.set e.1 e.2 (JMap.of_list l).
Proof. unfold JMap.of_list. rewrite foldl_app. by destruct e. Qed.

Lemma of_list_within {V} (P : V -> Prop) (l : list (string * V)) :
  Forall (fun e => P e.2) l -> (length (JMap.of_list l) <= length l)%nat /\ Forall (fun e => P e.2) (JMap.of_list l).
Proof.
  induction l as [|e l IH] using rev_ind; [done|]. intros [Hl He]%Forall_app. apply Forall_cons in He as [He _].
  destruct (IH Hl) as [I1 I2]. rewrite of_list_snoc, length_app. simpl. split; [|by apply JMap.Forall_set].
  pose proof (set_length e.1 e.2 (JMap.of_list l)). lia.
Qed.

Lemma compact_within v : forall left, within tidy_text 41 left (compact_at left v).
Proof.
  induction v as [|b|n|s|l IH|fs IH] using value_ind'; intros left; try done; [apply truncated_tidy| |].
  - destruct left as [|d]; [simpl; left; apply Nat.leb_le; reflexivity|]. cbn [compact_at]. apply within_arr.
    assert (Hl : Forall (within tidy_text 41 d) (take MAX_ARRAY_ITEMS (map (compact_at d) l))).
    { apply Forall_take, Forall_fmap. eapply Forall_impl; [exact IH|]. intros x Hx. apply Hx. }
    assert (Hn : (length (take MAX_ARRAY_ITEMS (map (compact_at d) l)) <= 40)%nat) by (rewrite length_take; unfold MAX_ARRAY_ITEMS; lia).
    destruct (MAX_ARRAY_ITEMS <? length l)%nat; [|split; [lia|done]]. rewrite length_app. split; [simpl; lia|].
    apply Forall_app. split; [done|]. apply Forall_singleton. right; right. by eexists.
  - destruct left as [|d]; [simpl; left; apply Nat.leb_le; reflexivity|]. cbn [compact_at]. apply within_obj.
    set (es := keep _ _). assert (Hes : Forall (fun e => within tidy_text 41 d e.2) es /\ (length es <= 40)%nat).
    { subst es. split.
      - apply Forall_forall. intros e [He _]%elem_of_keep. revert e He. apply Forall_forall, Forall_take, Forall_fmap.
        eapply Forall_impl; [exact IH|]. intros x Hx. apply Hx.
      - etrans; [apply length_keep|]. rewrite length_take. unfold MAX_OBJECT_KEYS. lia. }
    destruct Hes as [Hes Hn]. destruct (of_list_within _ es Hes) as [Hl Hf].
    destruct (MAX_OBJECT_KEYS <? length fs)%nat; [|split; [lia|done]].
    split; [etrans; [apply set_length|lia]|]. by apply JMap.Forall_set.
Qed.

(** *** Small values are kept as they are *)

Fixpoint plain_keys (v : value) : Prop :=
  match v with
  | VArr l => (fix all l := match l with [] => True | x :: r => plain_keys x /\ all r end) l
  | VObj fs => JMap.wf fs /\ "__proto__" ∉ JMap.keys fs /\
               (fix all fs := match fs with [] => True | e :: r => plain_keys e.2 /\ all r end) fs
  | _ => True
  end.

Lemma set_new {V} k (v : V) m : k ∉ JMap.keys m -> JMap.set k v m = m ++ [(k, v)].
Proof.
  induction m as [|[k' v'] m IH]; simpl; [done|]. intros [Hk Hm]%not_elem_of_cons.
  rewrite (proj2 (str_eqb_neq k' k)) by done. by rewrite IH.
Qed.

Lemma of_list_wf {V} (l : JMap.t V) : JMap.wf l -> JMap.of_list l = l.
Proof.
  induction l as [|[k v] l IH] using rev_ind; [done|]. unfold JMap.wf, JMap.keys. rewrite map_app. simpl.
  intros (Hl & Hk & _)%NoDup_app. rewrite of_list_snoc, IH by done. simpl. apply set_new. intros Hin. apply (Hk k Hin). set_solver.
Qed.

Lemma compact_small v : forall left, within (fun s => (String.length s <= MAX_STRING_LENGTH)%nat) 40 left v -> plain_keys v -> compact_at left v = v.
Proof.
  induction v as [|b|n|s|l IH|fs IH] using value_ind'; intros left Hv Hk; try done.
  - simpl in *. unfold truncateString. apply Nat.leb_le in Hv. by rewrite Hv.
  - destruct left as [|d]; [done|]. apply within_arr in Hv as [Hn Hl]. cbn [compact_at].
    rewrite (proj2 (Nat.ltb_ge _ _)) by done.
    assert (E : map (compact_at d) l = l).
    { clear Hn. revert IH Hl Hk. induction l as [|x l IHl]; [done|]. intros [Hx IH]%Forall_cons [Wx Wl]%Forall_cons [Kx Kl].
      simpl. f_equal; [by apply Hx|by apply IHl]. }
    rewrite E, take_ge by done. done.
  - destruct left as [|d]; [done|]. apply within_obj in Hv as [Hn Hl]. destruct Hk as (Hw & Hp & Hk). cbn [compact_at].
    rewrite (proj2 (Nat.ltb_ge _ _)) by done.
    assert (E : map (fun e => (e.1, compact_at d e.2)) fs = fs).
    { clear Hn Hw Hp. revert IH Hl Hk. induction fs as [|[k x] l IHl]; [done|]. intros [Hx IH]%Forall_cons [Wx Wl]%Forall_cons [Kx Kl].
      simpl in *. f_equal; [by rewrite Hx|by apply IHl]. }
    rewrite E, take_ge by done. rewrite keep_all; [by rewrite of_list_wf|].
    intros e He. apply negb_true_iff, str_eqb_neq. intros He1. apply Hp. unfold JMap.keys.
    apply list_elem_of_fmap. by exists e.
Qed.

(** A compact payload is bounded whatever the event held: at most four levels, 41
    elements or properties at each (the last one counts those left out), texts of at
    most 2000 characters besides the mark of a cut; and what is within the limits is
    kept as it is. *)
Theorem payloads_are_compact v :
  within tidy_text 41 MAX_DEPTH (compactPayload v) /\
  (within (fun s => (String.length s <= MAX_STRING_LENGTH)%nat) 40 MAX_DEPTH v -> plain_keys v -> compactPayload v = v).
Proof. split; [apply compact_within|apply compact_small]. Qed.

(** ** The list *)

Lemma same_key_sym a b : same_key a b = same_key b a.
Proof.
  destruct a, b; simpl; try done.
  - by destruct b0, b.
  - unfold same_value_zero, num_eqb. rewrite (cmp_swap n n0). destruct (SFcompare n n0) as [[]|]; simpl; try done; by rewrite andb_comm.
  - apply str_eqb_sym.
Qed.

(** Two messages with the same payload identifier. *)
Definition clash (a b : WebhookMessage) : bool :=
  match known_id a, known_id b with Some x, Some y => same_key x y | _, _ => false end.

Definition apart (a b : WebhookMessage) : Prop := clash a b = false.

Notation distinct := (StronglySorted apart).

Lemma apart_sym a b : apart a b -> apart b a.
Proof. unfold apart, clash. destruct (known_id a), (known_id b); try done. by rewrite same_key_sym. Qed.

(** A message of the batch is new if its identifier is not among the known ones. *)
Lemma fresh_spec ids batch :
  distinct (fresh ids batch) /\ fresh ids batch `sublist_of` batch /\
  (forall m k x, m ∈ fresh ids batch -> known_id m = Some k -> x ∈ ids -> same_key k x = false) /\
  (forall m, m ∈ batch -> m ∈ fresh ids batch \/
     exists k x, known_id m = Some k /\ same_key k x = true /\ (x ∈ ids \/ exists m', m' ∈ fresh ids batch /\ known_id m' = Some x)).
Proof.
  revert ids. induction batch as [|m batch IH]; intros ids; simpl; [repeat split; set_solver by constructor|].
  destruct (known_id m) as [k|] eqn:Ek.
  - destruct (some (same_key k) ids) eqn:Es.
    + destruct (IH ids) as (I1 & I2 & I3 & I4). repeat split; [done|by constructor|done|].
      intros m' [->|Hm]%elem_of_cons; [|by apply I4]. right. apply some_iff in Es as (x & Hx & E). exists k, x. auto.
    + destruct (IH (ids ++ [k])) as (I1 & I2 & I3 & I4). repeat split.
      * constructor; [done|]. apply List.Forall_forall. intros m' Hm%list_elem_of_In. apply apart_sym. unfold apart, clash.
        rewrite Ek. destruct (known_id m') as [k'|] eqn:Ek'; [|done]. apply (I3 m' k' k Hm Ek'). set_solver.
      * by constructor.
      * intros m' k' x [->|Hm]%elem_of_cons Hk Hx; [|apply (I3 m' k' x Hm Hk); set_solver].
        rewrite Ek in Hk. injection Hk as <-. apply not_true_iff_false. intros E. apply not_true_iff_false in Es. apply Es.
        apply some_iff. by exists x.
      * intros m' [->|Hm]%elem_of_cons; [left; set_solver|]. destruct (I4 m' Hm) as [H|(k' & x & H1 & H2 & [H3|(m'' & H3 & H4)])].
        -- left. set_solver.
        -- right. exists k', x. split; [done|]. split; [done|]. apply elem_of_app in H3 as [H3|H3%list_elem_of_singleton]; [by left|].
           right. subst x. exists m. set_solver.
        -- right. exists k', x. split; [done|]. split; [done|]. right. exists m''. set_solver.
  - destruct (IH ids) as (I1 & I2 & I3 & I4). repeat split.
    + constructor; [done|]. apply List.Forall_forall. intros m' _. unfold apart, clash. by rewrite Ek.
    + by constructor.
    + intros m' k' x [->|Hm]%elem_of_cons Hk Hx; [congruence|]. by apply (I3 m' k' x).
    + intros m' [->|Hm]%elem_of_cons; [left; set_solver|]. destruct (I4 m' Hm) as [H|(k' & x & H1 & H2 & [H3|(m'' & H3 & H4)])].
      * left. set_solver.
      * right. exists k', x. auto.
      * right. exists k', x. split; [done|]. split; [done|]. right. exists m''. set_solver.
Qed.

Lemma sorted_take n l : distinct l -> distinct (take n l).
Proof. intros H. rewrite <- (take_drop n l) in H. by apply StronglySorted_app_1_l in H. Qed.

Lemma merge_distinct batch prev : distinct prev -> distinct (merge_batch batch prev).
Proof.
  intros Hp. unfold merge_batch. destruct (fresh_spec (omap known_id prev) batch) as (F1 & _ & F3 & _).
  destruct (fresh _ _) as [|m l]; [done|]. apply sorted_take. apply StronglySorted_app_2; try done.
  intros a b Ha Hb. unfold apart, clash. destruct (known_id a) as [k|] eqn:Ek; [|done]. destruct (known_id b) as [x|] eqn:Ex; [|done].
  apply (F3 a k x Ha Ek). apply list_elem_of_omap. by exists b.
Qed.

Lemma merge_elem m batch prev : m ∈ merge_batch batch prev -> m ∈ batch \/ m ∈ prev.
Proof.
  unfold merge_batch. destruct (fresh_spec (omap known_id prev) batch) as (_ & F2 & _ & _).
  destruct (fresh _ _) as [|x l]; [by right|]. intros Hm. apply (subseteq_take MAX_MESSAGES) in Hm.
  apply elem_of_app in Hm as [Hm|Hm]; [left|by right]. by eapply elem_of_sublist.
Qed.

(** A message the provider keeps: a compact payload, and no progress event. *)
Definition kept_message (m : WebhookMessage) : Prop :=
  within tidy_text 41 MAX_DEPTH (payload m) /\
  is_one_of ["scrape_progress"; "download_progress"; "task_progress"] (Some (event m)) = false.

Record stream_ok (s : stream) : Prop := {
  list_bounded : (length (messages s) <= MAX_MESSAGES)%nat;
  list_distinct : distinct (messages s);
  timer_iff_pending : flushTimer s = true <-> pending s <> [];
  all_kept : forall m, m ∈ messages s \/ m ∈ pending s -> kept_message m
}.

Lemma built_is_compact now random e m : buildWebhookMessage now random e = Some (Some m) -> payload m = compactPayload e.
Proof.
  unfold buildWebhookMessage. destruct e; try done; destruct (is_one_of _ _); try done; destruct (detectCategory _ _); try done; by intros [= <-].
Qed.

Lemma step_ok s s' : stream_ok s -> step s s' -> stream_ok s'.
Proof.
  intros H Hs. revert H. destruct Hs as [now random e s0|s0 Ht|s0|s0|s0|s0]; intros [H1 H2 H3 H4]; try (by split).
  - unfold handleWebSocketMessage. destruct (buildWebhookMessage now random e) as [[m|]|] eqn:E; [|by split|by split].
    destruct (is_one_of _ _) eqn:Ep; [by split|]. split; simpl; [done|done|by destruct (pending s0)|].
    intros m' [Hm|[Hm| ->%list_elem_of_singleton]%elem_of_app]; [by apply H4; left|by apply H4; right|].
    split; [|done]. rewrite (built_is_compact _ _ _ _ E). apply compact_within.
  - apply H3 in Ht. unfold flushPending. simpl. destruct (pending s0) as [|x l] eqn:Ep; [done|]. split; simpl.
    + unfold merge_batch. destruct (fresh _ _); [done|]. rewrite length_take. lia.
    + by apply merge_distinct.
    + done.
    + intros m [Hm|Hm]; [|by apply elem_of_nil in Hm]. apply merge_elem in Hm as [Hm|Hm]; apply H4; [by right|by left].
  - split; simpl; [lia|constructor|done|]. intros m [Hm|Hm]; by apply elem_of_nil in Hm.
  - split; simpl; [done|done|done|]. intros m [Hm|Hm]; [by apply H4; left|by apply elem_of_nil in Hm].
Qed.

(** C31. However events, the timer, clearing and unmounting interleave: the list holds at
    most 10000 messages, no two with the same payload identifier; the timer runs
    exactly while messages wait for it; what is held is compact and no progress event. *)
Theorem stream_stays_bounded s : reachable s -> stream_ok s.
Proof.
  induction 1 as [|s s' _ IH Hs]; [|by eapply step_ok].
  split; simpl; [lia|constructor|done|]. intros m [Hm|Hm]; by apply elem_of_nil in Hm.
Qed.

(** A flush shows every waiting message, newest batch first, except those whose
    identifier is shown already; below the limit nothing else is dropped. *)
Lemma flush_shows s :
  pending s <> [] -> (length (pending s) + length (messages s) <= MAX_MESSAGES)%nat ->
  exists new, messages (flushPending s) = new ++ messages s /\ new `sublist_of` pending s /\
    forall m, m ∈ pending s -> known_id m = None \/ m ∈ new \/ exists m', m' ∈ new ++ messages s /\ clash m m' = true.
Proof.
  intros Hp Hn. unfold flushPending. simpl. destruct (pending s) as [|x l] eqn:Ep; [done|]. rewrite <- Ep in *. clear Hp Ep x l. simpl.
  unfold merge_batch. destruct (fresh_spec (omap known_id (messages s)) (pending s)) as (_ & F2 & _ & F4).
  exists (fresh (omap known_id (messages s)) (pending s)). split; [|split; [done|]].
  - pose proof (sublist_length _ _ F2) as Hl. destruct (fresh _ _) as [|x l] eqn:E; [done|]. rewrite take_ge; [done|]. rewrite length_app. lia.
  - intros m Hm. destruct (F4 m Hm) as [H|(k & x & Hk & Hs & H)]; [right; by left|]. right; right.
    destruct H as [(m' & Hm' & Hx)%list_elem_of_omap|(m' & Hm' & Hx)]; exists m'; (split; [set_solver|]); unfold clash; by rewrite Hk, Hx.
Qed.

(** ** Where the code does less *)

Definition job_event (name : string) : value := VObj [("type", VStr name); ("job_id", VStr "7")].

Definition after (events : list value) : stream :=
  flushPending (foldl (fun s e => handleWebSocketMessage "2026-01-01T00:00:00.000Z" "abcdef" e s) new_stream events).

(** An event of a job is known by the job's identifier: the end of a job whose start
    is shown is dropped. *)
Lemma end_of_job_is_dropped : map event (messages (after [job_event "job_started"; job_event "job_completed"])) = [VStr "job_started"].
Proof. vm_compute. reflexivity. Qed.

(** Within a batch the oldest message comes first, although newer batches come before
    older ones. *)
Lemma batch_is_oldest_first :
  map event (messages (flushPending (handleWebSocketMessage "t" "r" (VObj [("type", VStr "c")]) (after [VObj [("type", VStr "a")]; VObj [("type", VStr "b")]])))) =
  [VStr "c"; VStr "a"; VStr "b"].
Proof. vm_compute. reflexivity. Qed.

Lemma payloads_are_compact_witness :
  compactPayload (VObj [("type", VStr "job_started"); ("ids", VArr [VNum #1; VNull])]) =
  VObj [("type", VStr "job_started"); ("ids", VArr [VNum #1; VNull])].
Proof.
  apply payloads_are_compact.
  - repeat split; vm_compute; repeat constructor.
  - repeat split; try (by apply (bool_decide_unpack _)); vm_compute; repeat constructor; set_solver.
Defined.

Lemma stream_stays_bounded_witness : stream_ok (handleWebSocketMessage "t" "r" (VObj [("type", VStr "a")]) new_stream).
Proof. apply stream_stays_bounded. eapply Next; [apply Start|apply Receive]. Defined.
