(* ===== verification/Webhooks.v ===== *)
(** * The webhooks page ([features/webhooks])

    The filter over the stream's messages ([lib/webhooksUtils.ts]), the routing of
    hooks to destinations with the translation of the older format and the check of
    an edited routing ([lib/webhookConfiguration.ts]), the counts and the paged
    watch list of [hooks/useWebhooksPageController.ts]. The browser's [URL] is a
    parameter. A [TypeError] of the filter is [None].

    What the check of a routing accepts, what the translation of the older format
    keeps, that the paged watch list is the one that was asked for, and what the
    filter shows. *)

From Stdlib Require Import Ascii ZArith Lia SpecFloat.
From stdpp Require Import base list strings option sets.
From S2P Require Import Prelude JsString JsNum JsValue WebUrl AuthImport ProxyImport SettingsMerge.
From S2P Require Import WebhookStream JsObject.

(** ** The filter ([webhooksUtils.ts]) *)

Inductive CategoryFilter := All | Only (c : WebhookMessageCategory).
Inductive SiteKey := Onlyfans | Fansly.

Definition categoryLabels (f : CategoryFilter) : string :=
  match f with All => "All" | Only Backend => "Backend" | Only Usapi => "Sites (USAPI)" | Only System => "System" end.
Definition siteLabels (s : SiteKey) : string := match s with Onlyfans => "OnlyFans" | Fansly => "Fansly" end.

Definition is_object (v : value) : bool := match v with VObj _ | VArr _ => true | _ => false end.

Definition isChatMessageEvent (m : WebhookMessage) : bool :=
  let field key := get_field (Some (payload m)) key in
  if negb (is_object (payload m)) then false
  else if has_key "api2_chat_message" (payload m) then true
  else if has_key "message" (payload m) && match as_str (field "message") with Some _ => true | None => false end then true
  else val_truthy (field "source_id") && includes (val_to_str (field "source_id")) ":ws:".

Definition isWebhookEvent (m : WebhookMessage) : bool :=
  is_one_of ["subscription_processing"; "scrape_progress"; "download_progress"; "chat_message"; "webhook"; "webhook_message";
             "websocket_message"; "subscription_added"] (Some (event m))
  || val_truthy (eventType m) || isChatMessageEvent m.

(** A value as the text of [JSON.stringify] sees it. *)
Fixpoint to_unknown (v : value) : unknown :=
  match v with
  | VNull => PNull
  | VBool b => PBool b
  | VNum n => PNum n
  | VStr s => PStr s
  | VArr l => PArr (map to_unknown l)
  | VObj fs => PObj (map (fun e => (e.1, to_unknown e.2)) fs)
  end.

(** [v.toLowerCase().includes(lower)]; [None] when [v] is no string. *)
Definition lower_includes (lower : string) (v : value) : option bool :=
  match v with VStr s => Some (includes (to_lower s) lower) | _ => None end.

(** One message against the text that was typed. *)
Definition matches_text (lower : string) (m : WebhookMessage) : option bool :=
  let raw := to_lower (json_text (to_unknown (payload m)) ?? "undefined") in
  match lower_includes lower (event m) with
  | None => None
  | Some true => Some true
  | Some false =>
      match eventType m with
      | Some t => match lower_includes lower t with
                  | None => None
                  | Some b => Some (b || includes raw lower)
                  end
      | None => Some (includes raw lower)
      end
  end.

(** [xs.filter(p)] with a [p] that can throw. *)
Fixpoint try_keep {A} (p : A -> option bool) (l : list A) : option (list A) :=
  match l with
  | [] => Some []
  | x :: r => match p x with
              | None => None
              | Some b => (fun kept => if b then x :: kept else kept) <$> try_keep p r
              end
  end.

Definition in_category (f : CategoryFilter) (m : WebhookMessage) : bool :=
  match f with All => true | Only c => bool_decide (category m = c) end.

Definition filterWebhookMessages (ms : list WebhookMessage) (categoryFilter : CategoryFilter) (showAllEvents : bool)
    (filterText : string) : option (list WebhookMessage) :=
  let filtered := match categoryFilter with All => ms | _ => keep (in_category categoryFilter) ms end in
  let filtered := if showAllEvents then filtered else keep isWebhookEvent filtered in
  if negb (truthy (trim filterText)) then Some filtered
  else try_keep (matches_text (to_lower filterText)) filtered.

(** The counts beside the categories ([useWebhooksPageController.ts]). *)
Definition categoryCounts (ms : list WebhookMessage) (f : CategoryFilter) : nat :=
  match f with
  | All => length ms
  | Only c => foldl (fun n m => if bool_decide (category m = c) then S n else n) 0%nat ms
  end.

(** ** The watch list ([useWebhooksPageController.ts]) *)

Section watch_list.
Context {User : Type}.

(** [getWatchList(site, search, limit, offset)] for the site and search of the query;
    [None] is a failed request. *)
Variable getWatchList : Z -> Z -> option (list User * Z).

(** The loop from [offset] on; [requests] are the pages asked for so far. *)
Fixpoint fetch_pages (fuel : nat) (watchLimit offset : Z) (users : list User) (total : Z) : option (list User * Z) :=
  if offset <? watchLimit then
    match fuel with
    | O => None
    | S f =>
        let limit := Z.min 500 (watchLimit - offset) in
        match getWatchList limit offset with
        | None => None
        | Some (page_users, page_total) =>
            let users := users ++ page_users in
            if (length page_users =? 0)%nat || (Z.of_nat (length users) >=? page_total) then Some (users, page_total)
            else fetch_pages f watchLimit (offset + 500) users page_total
        end
    end
  else Some (users, total).

(** Enough for every page. *)
Definition page_fuel (watchLimit : Z) : nat := Z.to_nat (watchLimit / 500 + 1).

Definition watchListQuery (watchLimit : Z) : option (list User * Z) := fetch_pages (page_fuel watchLimit) watchLimit 0 [] 0.
End watch_list.

(** ** Routing ([api/types/webhooks.ts], [webhookConfiguration.ts]) *)

Inductive WebhookHook :=
| HkAuth | HkDownload | HkChatMessage | HkSubscriber | HkPostPublished | HkPostUpdated | HkStreamStarted | HkComment
| HkPriceChanged | HkOnline | HkSiteMessage.

Inductive HookGroup := GrAccount | GrDownloads | GrSiteMessages.
Inductive DestinationFormat := FmtJson | FmtDiscord.

Record WebhookHookDefinition := {
  hook_id : WebhookHook;
  hook_label : string;
  hook_description : string;
  hook_sites : list SiteKey;
  hook_group : HookGroup
}.

Record WebhookInfo := { info_active : bool; info_url : option string; info_hide : list string }.
Record WebhooksInfo := { info_auth : WebhookInfo; info_download : WebhookInfo }.

Record WebhookDestination := { dest_id : string; dest_name : string; dest_url : string; dest_format : DestinationFormat }.

Record WebhookRule := {
  rule_id : string;
  rule_name : string;
  rule_hooks : list WebhookHook;
  destination_ids : list string;
  rule_active : bool;
  hide_info : list string
}.

Record SiteWebhookRouting := { destinations : list WebhookDestination; rules : list WebhookRule }.

Record WebhookConfiguration := {
  version : option num;
  catalog : list WebhookHookDefinition;
  config_sites : SiteKey -> SiteWebhookRouting
}.

Record WebhooksResponse := { sites : SiteKey -> WebhooksInfo; configuration : option WebhookConfiguration }.

Definition hook (id : WebhookHook) (label description : string) (on : list SiteKey) (group : HookGroup) : WebhookHookDefinition :=
  {| hook_id := id; hook_label := label; hook_description := description; hook_sites := on; hook_group := group |}.

Definition webhookHookCatalog : list WebhookHookDefinition := [
  hook HkAuth "Auth" "Accounts added, updated, or removed." [Onlyfans; Fansly] GrAccount;
  hook HkDownload "Download" "Completed or failed download batches." [Onlyfans; Fansly] GrDownloads;
  hook HkChatMessage "Chat messages" "Incoming API chat messages." [Onlyfans] GrSiteMessages;
  hook HkSubscriber "New subscribers" "New subscriptions, including trial subscribers." [Onlyfans] GrSiteMessages;
  hook HkPostPublished "Published posts" "Notifications when a post is published." [Onlyfans] GrSiteMessages;
  hook HkPostUpdated "Updated posts" "Notifications when a post changes." [Onlyfans] GrSiteMessages;
  hook HkStreamStarted "Live streams" "New stream notifications." [Onlyfans] GrSiteMessages;
  hook HkComment "Comments" "New comment notifications." [Onlyfans] GrSiteMessages;
  hook HkPriceChanged "Price changes" "Subscription price changes." [Onlyfans] GrSiteMessages;
  hook HkOnline "Online activity" "User online notifications." [Onlyfans] GrSiteMessages;
  hook HkSiteMessage "All site messages" "All incoming site notifications except connection keepalives." [Onlyfans] GrSiteMessages
].

(** One hook of the older format: its key, its name and what it held. *)
Record legacy_hook := { legacy_key : string; legacy_name : string; legacy_id : WebhookHook; legacy : WebhookInfo }.

Definition legacy_hooks (info : WebhooksInfo) : list legacy_hook := [
  {| legacy_key := "auth"; legacy_name := "Auth"; legacy_id := HkAuth; legacy := info_auth info |};
  {| legacy_key := "download"; legacy_name := "Download"; legacy_id := HkDownload; legacy := info_download info |}
].

Definition add_legacy (routing : SiteWebhookRouting) (h : legacy_hook) : SiteWebhookRouting :=
  match truthy_opt (info_url (legacy h)) with
  | None => routing
  | Some u =>
      let found := find_first (fun item => dest_url item =s u) (destinations routing) in
      let destination := found ??
        {| dest_id := "legacy-" +:+ legacy_key h; dest_name := legacy_name h +:+ " destination"; dest_url := u; dest_format := FmtDiscord |} in
      {| destinations := match found with Some _ => destinations routing | None => destinations routing ++ [destination] end;
         rules := rules routing ++ [{|
           rule_id := "legacy-" +:+ legacy_key h; rule_name := legacy_name h; rule_hooks := [legacy_id h];
           destination_ids := [dest_id destination]; rule_active := info_active (legacy h); hide_info := info_hide (legacy h) |}] |}
  end.

Definition legacy_routing (info : WebhooksInfo) : SiteWebhookRouting :=
  foldl add_legacy {| destinations := []; rules := [] |} (legacy_hooks info).

Definition webhookConfiguration (data : WebhooksResponse) : WebhookConfiguration :=
  match configuration data with
  | Some c => c
  | None => {| version := None; catalog := webhookHookCatalog; config_sites := fun site => legacy_routing (sites data site) |}
  end.

(** [url.hash] *)
Class UrlHash `{UrlApi} := { url_hash : url -> string }.

Section routing.
Context `{UrlParts} {UH : UrlHash}.

(** The body of the [try]: [false] when it throws. *)
Definition plain_http_url (text : string) : bool :=
  match parse_url text with
  | Some u => str_in (url_protocol u) ["http:"; "https:"] && negb (truthy (url_username u)) && negb (truthy (url_password u))
              && negb (truthy (url_hash u))
  | None => false
  end.

Definition destination_error (d : WebhookDestination) : option string :=
  if negb (truthy (trim (dest_name d))) then Some "Give each destination a name."
  else if plain_http_url (dest_url d) then None
  else Some ("Enter a valid HTTP or HTTPS URL for " +:+ dest_name d +:+ ".").

Definition rule_error (r : WebhookRule) : option string :=
  if negb (truthy (trim (rule_name r))) then Some "Give each routing rule a name."
  else match rule_hooks r with
       | [] => Some ("Choose at least one hook for " +:+ rule_name r +:+ ".")
       | _ => match destination_ids r with
              | [] => Some ("Choose at least one destination for " +:+ rule_name r +:+ ".")
              | _ => None
              end
       end.

(** The first error of a loop that returns. *)
Fixpoint first_error {A} (f : A -> option string) (l : list A) : option string :=
  match l with [] => None | x :: r => f x ??? first_error f r end.

Definition routingError (routing : SiteWebhookRouting) : option string :=
  match first_error destination_error (destinations routing) with
  | Some e => Some e
  | None =>
      let urls := map (fun item => trim (dest_url item)) (destinations routing) in
      if negb (length (uniq urls) =? length (destinations routing))%nat then Some "This destination URL is already configured."
      else first_error rule_error (rules routing)
  end.
End routing.

(** * Routing, watch list and filter of the webhooks page *)

(** ** Routing *)

Lemma first_error_None {A} (f : A -> option string) l : first_error f l = None <-> Forall (fun x => f x = None) l.
Proof.
  induction l as [|x l IH]; [by split|]. simpl. rewrite Forall_cons, <- IH. destruct (f x); simpl; naive_solver.
Qed.

Lemma uniq_length_NoDup (l : list string) : length (uniq l) = length l <-> NoDup l.
Proof.
  split; [|intros H; by rewrite uniq_NoDup].
  induction l as [|x l IH]; [constructor|]. simpl. intros [= H].
  pose proof (length_keep (fun y => negb (bool_decide (y = x))) (uniq l)) as Hk.
  assert (Hu : (length (uniq l) <= length l)%nat).
  { clear. induction l as [|y l IH]; [done|]. simpl. pose proof (length_keep (fun z => negb (bool_decide (z = y))) (uniq l)). lia. }
  constructor; [|apply IH; lia]. intros Hx.
  assert (Hlt : (length (keep (fun y => negb (bool_decide (y = x))) (uniq l)) < length (uniq l))%nat); [|lia].
  apply elem_of_uniq in Hx. clear -Hx. induction (uniq l) as [|y r IH]; [by apply elem_of_nil in Hx|]. simpl.
  pose proof (length_keep (fun y => negb (bool_decide (y = x))) r). destruct (bool_decide (y = x)) eqn:E; simpl; [lia|].
  apply bool_decide_eq_false in E. apply elem_of_cons in Hx as [->|Hx]; [done|]. specialize (IH Hx). lia.
Qed.

Section routing.
Context `{UrlParts} {UH : UrlHash}.

(** What a routing must be to be saved. *)
Record routing_valid (r : SiteWebhookRouting) : Prop := {
  named : Forall (fun d => trim (dest_name d) <> EmptyString) (destinations r);
  plain_urls : Forall (fun d => plain_http_url (dest_url d) = true) (destinations r);
  distinct_urls : NoDup (map (fun d => trim (dest_url d)) (destinations r));
  rules_complete : Forall (fun x => trim (rule_name x) <> EmptyString /\ rule_hooks x <> [] /\ destination_ids x <> []) (rules r)
}.

Lemma destination_error_None d :
  destination_error d = None <-> trim (dest_name d) <> EmptyString /\ plain_http_url (dest_url d) = true.
Proof.
  unfold destination_error. rewrite <- truthy_nonempty. destruct (truthy _); simpl; [|naive_solver]. destruct (plain_http_url _); naive_solver.
Qed.

Lemma rule_error_None x :
  rule_error x = None <-> trim (rule_name x) <> EmptyString /\ rule_hooks x <> [] /\ destination_ids x <> [].
Proof.
  unfold rule_error. rewrite <- truthy_nonempty. destruct (truthy _); simpl; [|naive_solver].
  destruct (rule_hooks x); [naive_solver|]. destruct (destination_ids x); naive_solver.
Qed.

(** The check of an edited routing accepts exactly the routings in which every
    destination has a name and a plain HTTP or HTTPS URL, no URL is given twice, and
    every rule has a name, a hook and a destination. *)
Theorem routing_check_is_exact r : routingError r = None <-> routing_valid r.
Proof.
  unfold routingError. destruct (first_error destination_error (destinations r)) as [e|] eqn:Ed.
  - split; [done|]. intros [V1 V2 _ _]. assert (E : first_error destination_error (destinations r) = None); [|congruence].
    apply first_error_None, Forall_forall. intros d Hd. rewrite Forall_forall in V1. rewrite Forall_forall in V2.
    apply destination_error_None. auto.
  - apply first_error_None in Ed. setoid_rewrite destination_error_None in Ed.
    destruct (_ =? _)%nat eqn:Eu; simpl.
    + apply Nat.eqb_eq in Eu. rewrite <- (length_map (fun d => trim (dest_url d))) in Eu. apply uniq_length_NoDup in Eu.
      rewrite first_error_None. setoid_rewrite rule_error_None. split; [|by intros [_ _ _ V4]].
      intros Hr. apply Forall_and in Ed as [E1 E2]. by split.
    + split; [done|]. intros [_ _ V3 _]. apply Nat.eqb_neq in Eu. exfalso. apply Eu.
      rewrite <- (length_map (fun d => trim (dest_url d)) (destinations r)). by apply uniq_length_NoDup.
Qed.
End routing.

(** *** The older format *)

(** The rule a hook of the older format becomes. *)
Definition routed (r : SiteWebhookRouting) (h : legacy_hook) (u : string) (x : WebhookRule) : Prop :=
  rule_hooks x = [legacy_id h] /\ rule_active x = info_active (legacy h) /\ hide_info x = info_hide (legacy h) /\
  exists d, d ∈ destinations r /\ destination_ids x = [dest_id d] /\ dest_url d = u.

Ltac solve_distinct :=
  first [apply (bool_decide_unpack _); vm_compute; exact I | rewrite ?NoDup_cons; split_and!; first [apply NoDup_nil_2 | set_solver]].
Ltac routed_rule :=
  eexists; split; [eassumption|split; [done|]]; split; [done|split; [done|split; [done|]]]; 
  first [eexists; split; [left|split; done] | eexists; split; [right; left|split; done]].

(** The translation of the older format loses nothing: every hook that has a URL gets
    its own rule, with its state and the information it hides, to a destination with
    that URL; a hook without a URL gets none; URLs and identifiers of destinations are
    distinct, and so are the names of the rules. *)
Theorem legacy_hooks_are_routed info :
  let r := legacy_routing info in
  Forall2 (fun h x => exists u, info_url (legacy h) = Some u /\ u <> EmptyString /\ routed r h u x)
    (keep (fun h => match truthy_opt (info_url (legacy h)) with Some _ => true | None => false end) (legacy_hooks info)) (rules r) /\
  NoDup (map dest_url (destinations r)) /\ NoDup (map dest_id (destinations r)) /\ NoDup (map rule_name (rules r)).
Proof.
  unfold legacy_routing, legacy_hooks. simpl. unfold add_legacy. simpl.
  destruct (truthy_opt (info_url (info_auth info))) as [u|] eqn:Eu, (truthy_opt (info_url (info_download info))) as [v|] eqn:Ev; simpl;
    repeat match goal with E : truthy_opt _ = Some _ |- _ => apply truthy_opt_Some in E as [? ?] end.
  - destruct (str_eqb u v) eqn:E; [apply str_eqb_eq in E as ->|apply str_eqb_neq in E]; simpl; split_and!; try solve_distinct;
      (constructor; [routed_rule|constructor; [routed_rule|constructor]]).
  - split_and!; try solve_distinct. constructor; [routed_rule|constructor].
  - split_and!; try solve_distinct. constructor; [routed_rule|constructor].
  - split_and!; constructor.
Qed.

(** ** The watch list *)

Section watch_list.
Context {User : Type} (roster : list User).

(** A backend with this roster: a page is at most [limit] users from [offset] on. *)
Definition roster_page (limit offset : Z) : option (list User * Z) :=
  Some (take (Z.to_nat limit) (drop (Z.to_nat offset) roster), Z.of_nat (length roster)).

Lemma fetch_from fuel watchLimit offset total :
  0 <= offset -> watchLimit <= offset + 500 * Z.of_nat fuel -> offset < watchLimit ->
  (Z.to_nat offset < length roster)%nat \/ offset = 0 ->
  fetch_pages roster_page fuel watchLimit offset (take (Z.to_nat offset) roster) total =
    Some (take (Z.to_nat watchLimit) roster, Z.of_nat (length roster)).
Proof.
  revert offset total. induction fuel as [|fuel IH]; intros offset total H0 Hf Hlt Hr; [simpl in Hf; lia|].
  cbn [fetch_pages]. rewrite (proj2 (Z.ltb_lt offset watchLimit)) by done. cbn [roster_page]. unfold roster_page at 1.
  set (limit := Z.min 500 (watchLimit - offset)). assert (Hlimit : 0 < limit <= 500 /\ limit <= watchLimit - offset) by (unfold limit; lia).
  assert (E : take (Z.to_nat offset) roster ++ take (Z.to_nat limit) (drop (Z.to_nat offset) roster) = take (Z.to_nat (offset + limit)) roster).
  { rewrite take_take_drop. f_equal. lia. }
  rewrite E. destruct (_ || _) eqn:Eb.
  - f_equal. f_equal. apply orb_true_iff in Eb. rewrite length_take, length_drop in Eb.
    destruct Eb as [Eb|Eb].
    { apply Nat.eqb_eq in Eb. assert (E0 : length roster = 0%nat) by lia. apply nil_length_inv in E0. by rewrite E0, !take_nil. }
    apply Z.geb_le in Eb. rewrite length_take in Eb. assert (length roster <= Z.to_nat (offset + limit))%nat by lia.
    rewrite !take_ge; [done|lia|lia].
  - apply orb_false_iff in Eb as [_ Eb]. rewrite Z.geb_leb in Eb. apply Z.leb_gt in Eb. rewrite length_take in Eb.
    destruct (Z.lt_ge_cases (offset + 500) watchLimit) as [H|H].
    + replace limit with 500 by lia. apply IH; [lia|lia|done|]. left. replace limit with 500 in Eb by lia. lia.
    + replace limit with (watchLimit - offset) by lia. replace (offset + (watchLimit - offset)) with watchLimit by lia.
      destruct fuel; cbn [fetch_pages]; by rewrite (proj2 (Z.ltb_ge _ _)) by lia.
Qed.

(** The paged watch list is the one that was asked for: the first [watchLimit] users
    of the backend's roster with its size, from pages of at most 500. *)
Theorem watch_list_is_complete watchLimit :
  0 < watchLimit -> watchListQuery roster_page watchLimit = Some (take (Z.to_nat watchLimit) roster, Z.of_nat (length roster)).
Proof.
  intros H. unfold watchListQuery. change [] with (take (Z.to_nat 0) roster). apply fetch_from; [lia| |done|by right].
  unfold page_fuel. pose proof (Z.div_mod watchLimit 500 ltac:(lia)). pose proof (Z.mod_pos_bound watchLimit 500 ltac:(lia)).
  pose proof (Z.div_pos watchLimit 500 ltac:(lia) ltac:(lia)). lia.
Qed.
End watch_list.

(** ** The filter *)

Lemma try_keep_spec {A} (p : A -> option bool) (q : A -> bool) l :
  (forall x, x ∈ l -> p x = Some (q x)) -> try_keep p l = Some (keep q l).
Proof.
  induction l as [|x l IH]; [done|]. intros H. simpl. rewrite (H x) by (by left). rewrite IH by (intros y Hy; apply H; by right).
  simpl. by destruct (q x).
Qed.

Lemma counts_keep ms c : categoryCounts ms (Only c) = length (keep (in_category (Only c)) ms).
Proof.
  simpl. assert (E : forall n, foldl (fun n m => if bool_decide (category m = c) then S n else n) n ms = (n + length (keep (fun m => bool_decide (category m = c)) ms))%nat).
  { induction ms as [|m ms IH]; intros n; simpl; [lia|]. rewrite IH. destruct (bool_decide _); simpl; lia. }
  apply E.
Qed.

(** The names of an event are texts, as their type says. *)
Definition named_by_text (m : WebhookMessage) : Prop :=
  (exists s, event m = VStr s) /\ (eventType m = None \/ exists s, eventType m = Some (VStr s)).

(** What the typed text is looked for in. *)
Definition mentions (lower : string) (m : WebhookMessage) : bool :=
  includes (to_lower (to_str (event m))) lower
  || match eventType m with Some t => includes (to_lower (to_str t)) lower | None => false end
  || includes (to_lower (SettingsMerge.json_text (to_unknown (payload m)) ?? "undefined")) lower.

Lemma matches_mentions lower m : named_by_text m -> matches_text lower m = Some (mentions lower m).
Proof.
  intros [[s Hs] Ht]. unfold matches_text, mentions. rewrite Hs. simpl. destruct (includes (to_lower s) lower); [done|].
  destruct Ht as [->|[t ->]]; [done|]. done.
Qed.

(** When the names of the events are texts, the page never throws and shows, in the
    stream's order, exactly the messages of the chosen category that are webhook events
    (or any event, if all are asked for) and mention the typed text; and the number
    beside a category is the number of messages shown for it when all are asked for. *)
Theorem filter_shows_what_is_asked ms f showAll text :
  Forall named_by_text ms ->
  filterWebhookMessages ms f showAll text =
    Some (keep (fun m => in_category f m && (showAll || isWebhookEvent m) &&
                         (negb (truthy (trim text)) || mentions (to_lower text) m)) ms) /\
  (length <$> filterWebhookMessages ms f true EmptyString) = Some (categoryCounts ms f).
Proof.
  intros Hn. unfold filterWebhookMessages.
  assert (E1 : match f with All => ms | _ => keep (in_category f) ms end = keep (in_category f) ms) by (destruct f; [by rewrite keep_all|done]).
  rewrite E1. split.
  - assert (E2 : (if showAll then keep (in_category f) ms else keep isWebhookEvent (keep (in_category f) ms)) =
                 keep (fun m => in_category f m && (showAll || isWebhookEvent m)) ms).
    { destruct showAll; rewrite ?keep_keep; [|done]. apply keep_ext. intros m. by rewrite andb_true_r. }
    rewrite E2. destruct (negb _) eqn:Et.
    + f_equal. apply keep_ext. intros m. by rewrite andb_true_r.
    + rewrite (try_keep_spec _ (mentions (to_lower text))).
      * rewrite keep_keep. f_equal.
      * intros m [Hm _]%elem_of_keep. apply matches_mentions. rewrite Forall_forall in Hn. by apply Hn.
  - simpl. destruct f; [by rewrite keep_all|]. by rewrite counts_keep.
Qed.

(** ** Where the code does less *)

(** Two hooks of the older format whose URLs differ by a space are two destinations
    that the check then refuses. *)
Definition spaced : WebhooksInfo := {|
  info_auth := {| info_active := true; info_url := Some "https://hooks.example/a"; info_hide := [] |};
  info_download := {| info_active := true; info_url := Some "https://hooks.example/a "; info_hide := [] |} |}.

#[local] Instance plain_hash : @UrlHash plain_api := {| url_hash := fun _ => EmptyString |}.

Lemma spaced_urls_are_refused :
  @routingError plain_api plain_parts plain_hash (legacy_routing spaced) = Some "This destination URL is already configured.".
Proof. vm_compute. reflexivity. Qed.

(** ** The theorems at concrete inputs *)

Lemma routing_check_is_exact_witness : @routing_valid plain_api plain_parts plain_hash (legacy_routing {|
  info_auth := {| info_active := true; info_url := Some "https://hooks.example/a"; info_hide := [] |};
  info_download := {| info_active := true; info_url := None; info_hide := [] |} |}).
Proof. apply routing_check_is_exact. vm_compute. reflexivity. Defined.

Lemma watch_list_is_complete_witness : watchListQuery (roster_page [1; 2; 3]) 2 = Some ([1; 2], 3).
Proof. exact (watch_list_is_complete [1; 2; 3] 2 eq_refl). Defined.

Lemma filter_shows_what_is_asked_witness :
  length <$> filterWebhookMessages [{| msg_id := "a"; payloadId := None; receivedAt := VStr "t"; event := VStr "chat_message";
    eventType := None; payload := VObj []; category := Usapi |}] (Only Usapi) true EmptyString = Some 1%nat.
Proof.
  refine (proj2 (filter_shows_what_is_asked _ (Only Usapi) true EmptyString _)). constructor; [|constructor]. split; [by eexists|by left].
Defined.
