(* ===== verification/ProxyAnalyzer.v ===== *)
(** * Performance analysis of a proxy

    The stream of one tested level ([api/network.ts], [analyzeProxyLevel]), the
    search over concurrency levels that [startAnalysis] of
    [features/network/hooks/useNetworkPageController.ts] runs on it, and the view of
    its results ([features/network/lib/networkUtils.ts]). The place of a result and
    the parts of a response that are always empty are left out.

    A run of the analysis is cut at its only [await], the test of a level: it is
    a phase of the search with what was collected, and answers resume it. Several
    runs, for different proxies, share the page's state and its one reference to an
    abort controller; a controller is the number of its run. [JSON.parse] of an event
    is a parameter; [None] is a text it refuses, or [null]. *)

From Stdlib Require Import Ascii ZArith Lia SpecFloat.
From stdpp Require Import base list strings option.
From S2P Require Import Prelude JsString JsNum JsSort JsObject.

(** ** Records ([api/types/network.ts]) *)

Record ProxyAnalyzerResult := {
  concurrency : num;
  max_connections : num;
  requests : num;
  successes : num;
  errors : num;
  avg_latency_ms : num;
  p50_latency_ms : num;
  p95_latency_ms : num;
  p99_latency_ms : num;
  max_latency_ms : num;
  min_latency_ms : num;
  jitter_ms : num;
  avg_ttfb_ms : num;
  throughput_mbps : num;
  efficiency_score : num;
  status_counts : list (string * num);
  head_status_counts : option (list (string * num));
  download_status_counts : option (list (string * num));
  proxy_ip : option string;
  ip_consistent : bool
}.

Record ProxyAnalyzerResponse := {
  success : bool;
  message : string;
  results : list ProxyAnalyzerResult;
  recommended_concurrency : option num;
  recommended_connections : option num
}.

Record ProxyAnalysisStreamEvent := {
  ev_type : option string;
  ev_ip : option string;
  ev_concurrency : option num;
  ev_connections : option num;
  ev_requests : option num;
  ev_result : option ProxyAnalyzerResult;
  ev_recommended_concurrency : option num;
  ev_recommended_connections : option num
}.

Inductive AnalyzerTab := TabResults | TabSettings | TabCompare | TabMediaPool | TabGeolocation.

(** ** The stream of a level ([api/network.ts]) *)

(** [buffer.split('\n\n')]: the first blank line that can be found, then the next. *)
Definition cons_head (c : ascii) (l : list string) : list string :=
  match l with
  | x :: r => String c x :: r
  | [] => [String c EmptyString]
  end.

Fixpoint split_frames (s : string) : list string :=
  match s with
  | EmptyString => [EmptyString]
  | String c r =>
      match r with
      | String d r' => if Ascii.eqb c newline && Ascii.eqb d newline then EmptyString :: split_frames r' else cons_head c (split_frames r)
      | EmptyString => [String c EmptyString]
      end
  end.

(** [frames.pop() || ''], with the frames that are left. *)
Definition pop (l : list string) : list string * string := (removelast l, List.last l EmptyString).

(** One chunk: the complete frames, in order, and the buffer that is left. *)
Definition read_chunk (acc : list string * string) (chunk : string) : list string * string :=
  let '(frames, buffer) := acc in
  let '(complete, rest) := pop (split_frames (buffer +:+ chunk)) in
  (frames ++ complete, rest).

Definition read_frames (chunks : list string) : list string := (foldl read_chunk ([], EmptyString) chunks).1.

(** What a frame makes the reader call. *)
Inductive stream_call :=
| OnWarmup (ip : option string)
| OnProgress (e : ProxyAnalysisStreamEvent)
| OnResult (r : ProxyAnalyzerResult)
| OnComplete (e : ProxyAnalysisStreamEvent).

Section stream.
Variable JSON_parse : string -> option ProxyAnalysisStreamEvent.

Definition frame_call (frame : string) : option stream_call :=
  if negb (starts_with frame "data: ") then None
  else match JSON_parse (drop_str 6 frame) with
       | None => None
       | Some e =>
           if opt_eqb (ev_type e) "warmup" then Some (OnWarmup (ev_ip e))
           else if opt_eqb (ev_type e) "progress" then Some (OnProgress e)
           else match ev_result e with
                | Some r => if opt_eqb (ev_type e) "result" then Some (OnResult r)
                            else if opt_eqb (ev_type e) "complete" then Some (OnComplete e) else None
                | None => if opt_eqb (ev_type e) "complete" then Some (OnComplete e) else None
                end
       end.

Definition is_result (c : stream_call) : bool := match c with OnResult _ => true | _ => false end.

(** The calls of a level and the value it returns. *)
Definition analyzeProxyLevel (chunks : list string) : list stream_call * bool :=
  let calls := omap frame_call (read_frames chunks) in (calls, some is_result calls).
End stream.

(** ** One run of the search *)

Definition startLevel : Z := 32.
Definition minLevel : Z := 1.
Definition maxLevel : Z := 1024.

(** The [await] the run is at; [prev] is [previousEfficiency]. *)
Inductive phase :=
| Baseline
| Up (baseline : option num)
| Down (baseline up : option num)
| Climb (level : Z) (prev : num)
| Descend (level : Z) (prev : num)
| Done.

Record run := {
  run_proxy : string;
  aborted : bool;
  at_phase : phase;
  collectedResults : list ProxyAnalyzerResult;
  recommendedConcurrency : option num;
  recommendedConnections : option num;
  bestEfficiency : num;
  testedLevels : list Z;
  efficiencyMap : list (Z * num)
}.

Definition new_run (proxy : string) : run := {|
  run_proxy := proxy; aborted := false; at_phase := Baseline; collectedResults := []; recommendedConcurrency := None;
  recommendedConnections := None; bestEfficiency := #0; testedLevels := []; efficiencyMap := [] |}.

Definition set_phase (p : phase) (r : run) : run := {|
  run_proxy := run_proxy r; aborted := aborted r; at_phase := p; collectedResults := collectedResults r;
  recommendedConcurrency := recommendedConcurrency r; recommendedConnections := recommendedConnections r;
  bestEfficiency := bestEfficiency r; testedLevels := testedLevels r; efficiencyMap := efficiencyMap r |}.

Definition set_aborted (r : run) : run := {|
  run_proxy := run_proxy r; aborted := true; at_phase := at_phase r; collectedResults := collectedResults r;
  recommendedConcurrency := recommendedConcurrency r; recommendedConnections := recommendedConnections r;
  bestEfficiency := bestEfficiency r; testedLevels := testedLevels r; efficiencyMap := efficiencyMap r |}.

Definition set_recommended (c n : option num) (best : num) (r : run) : run := {|
  run_proxy := run_proxy r; aborted := aborted r; at_phase := at_phase r; collectedResults := collectedResults r;
  recommendedConcurrency := c; recommendedConnections := n; bestEfficiency := best; testedLevels := testedLevels r;
  efficiencyMap := efficiencyMap r |}.

Definition set_collected (l : list ProxyAnalyzerResult) (r : run) : run := {|
  run_proxy := run_proxy r; aborted := aborted r; at_phase := at_phase r; collectedResults := l;
  recommendedConcurrency := recommendedConcurrency r; recommendedConnections := recommendedConnections r;
  bestEfficiency := bestEfficiency r; testedLevels := testedLevels r; efficiencyMap := efficiencyMap r |}.

Definition set_tested (levels : list Z) (known : list (Z * num)) (r : run) : run := {|
  run_proxy := run_proxy r; aborted := aborted r; at_phase := at_phase r; collectedResults := collectedResults r;
  recommendedConcurrency := recommendedConcurrency r; recommendedConnections := recommendedConnections r;
  bestEfficiency := bestEfficiency r; testedLevels := levels; efficiencyMap := known |}.

Definition good_rate : num := #95 ⊘ #100.
Definition success_rate (r : ProxyAnalyzerResult) : num := successes r ⊘ requests r.

(** [successRate >= 0.95 && result.efficiency_score > best] *)
Definition improves (best : num) (r : ProxyAnalyzerResult) : bool :=
  (success_rate r >=! good_rate) && (efficiency_score r >! best).

Definition by_level (l r : ProxyAnalyzerResult) : bool :=
  let d := concurrency l ⊖ concurrency r in
  num_or d (max_connections l ⊖ max_connections r) >! #0.

Definition sorted_results (l : list ProxyAnalyzerResult) : list ProxyAnalyzerResult := stable_sort by_level l.

(** [onResult] without its report: the result is collected and may be recommended. *)
Definition on_result (x : ProxyAnalyzerResult) (r : run) : run :=
  let r := set_collected (collectedResults r ++ [x]) r in
  if improves (bestEfficiency r) x
  then set_recommended (Some (concurrency x)) (Some (max_connections x)) (efficiency_score x) r else r.

(** [a || b] where [a] is a nullable number. *)
Definition truthy_num (o : option num) (d : option num) : option num :=
  match o with Some n => if num_truthy n then Some n else d | None => d end.

Definition on_complete (e : ProxyAnalysisStreamEvent) (r : run) : run :=
  set_recommended (truthy_num (ev_recommended_concurrency e) (recommendedConcurrency r))
    (truthy_num (ev_recommended_connections e) (recommendedConnections r)) (bestEfficiency r) r.

(** The level the phase waits for. *)
Definition level_of (p : phase) : option Z :=
  match p with
  | Baseline => Some startLevel
  | Up _ => Some (startLevel * 2)
  | Down _ _ => Some (startLevel / 2)
  | Climb l _ | Descend l _ => Some l
  | Done => None
  end.

Definition efficiency_at (level : Z) (r : run) : option num :=
  snd <$> find_first (fun e => e.1 =? level) (efficiencyMap r).

(** [testedLevels.has(level) || level < minLevel || level > maxLevel] *)
Definition skipped (level : Z) (r : run) : bool :=
  bool_decide (level ∈ testedLevels r) || (level <? minLevel) || (level >? maxLevel).

(** The conditions of the two loops. *)
Definition climb (level : Z) (prev : num) : phase := if level <=? maxLevel then Climb level prev else Done.
Definition descend (level : Z) (prev : num) : phase := if level >=? minLevel then Descend level prev else Done.

(** The search after the efficiency of the level it waited for. *)
Definition next_phase (p : phase) (efficiency : option num) : phase :=
  match p with
  | Baseline => Up efficiency
  | Up baseline => Down baseline efficiency
  | Down baseline up =>
      let '(bestLevel, best) := (startLevel, baseline ?? #0) in
      let '(bestLevel, best) := if (up ?? #0) >! best then (startLevel * 2, up ?? #0) else (bestLevel, best) in
      let '(bestLevel, best) := if (efficiency ?? #0) >! best then (startLevel / 2, efficiency ?? #0) else (bestLevel, best) in
      if bestLevel >? startLevel then climb (bestLevel * 2) best
      else if bestLevel <? startLevel then descend (bestLevel / 2) best else Done
  | Climb level prev =>
      match efficiency with
      | None => Done
      | Some e => if e <! prev then Done else climb (level * 2) e
      end
  | Descend level prev =>
      match efficiency with
      | None => Done
      | Some e => if e <! prev then Done else descend (level / 2) e
      end
  | Done => Done
  end.

(** What a run does next: test a level, throw because it was aborted, end, or go
    round a loop whose levels were all tested without coming to an [await] that
    waits. *)
Inductive request := TestLevel (level : Z) | Throw | End | Hang.

(** Levels that were tested are answered from the map; before a request the signal is
    read. *)
Fixpoint advance (fuel : nat) (r : run) : run * request :=
  match level_of (at_phase r), fuel with
  | None, _ => (r, End)
  | Some _, O => (r, Hang)
  | Some level, S f =>
      if skipped level r then advance f (set_phase (next_phase (at_phase r) (efficiency_at level r)) r)
      else let r := set_tested (testedLevels r ++ [level]) (efficiencyMap r) r in
           (r, if aborted r then Throw else TestLevel level)
  end.

(** More turns of the loops than there are levels; a run that needs more is
    counted as one that hangs, which none does. *)
Definition search_fuel : nat := 16.

Definition better_in_level (best current : ProxyAnalyzerResult) : ProxyAnalyzerResult :=
  if improves (efficiency_score best) current then current else best.

Definition level_results (level : Z) (r : run) : list ProxyAnalyzerResult :=
  keep (fun x => concurrency x =! #level) (collectedResults r).

Definition best_of_level (level : Z) (r : run) : option ProxyAnalyzerResult :=
  match level_results level r with
  | [] => None
  | x :: rest => Some (foldl better_in_level x (x :: rest))
  end.

(** [testAndGetEfficiency] after the level's test: the efficiency, and the warning it
    shows when the best result of the level has errors. *)
Definition level_efficiency (level : Z) (hadResults : bool) (r : run) : option num * option string :=
  if negb hadResults then (None, None)
  else match best_of_level level r with
       | None => (None, None)
       | Some x =>
           if success_rate x <! good_rate
           then (None, Some ("⚠️ x" +:+ show_Z level +:+ " has errors (" +:+ show_num (math_round (success_rate x ⊗ #100)) +:+ "% success)"))
           else (Some (efficiency_score x), None)
       end.

(** The run after a level's test. *)
Definition level_ended (hadResults : bool) (r : run) : run * option string :=
  match level_of (at_phase r) with
  | None => (r, None)
  | Some level =>
      let '(efficiency, warning) := level_efficiency level hadResults r in
      let r := match efficiency with Some e => set_tested (testedLevels r) (efficiencyMap r ++ [(level, e)]) r | None => r end in
      (set_phase (next_phase (at_phase r) efficiency) r, warning)
  end.

(** The recommendation at the end: over everything collected, from scratch. *)
Definition recommend (acc : num * option num * option num) (x : ProxyAnalyzerResult) : num * option num * option num :=
  let '(best, c, n) := acc in
  if improves best x then (efficiency_score x, Some (concurrency x), Some (max_connections x)) else acc.

Definition conclude (r : run) : run :=
  let '(best, c, n) := foldl recommend (#0, None, None) (collectedResults r) in
  set_recommended c n best r.

Definition response (text : string) (r : run) : ProxyAnalyzerResponse := {|
  success := true; message := text; results := sorted_results (collectedResults r);
  recommended_concurrency := recommendedConcurrency r; recommended_connections := recommendedConnections r |}.

(** ** The page's state of the analyses ([useNetworkPageController.ts]) *)

Record analyzer := {
  analyzerModalTab : AnalyzerTab;
  analyzerProgress : string;
  analyzerResults : JMap.t (option ProxyAnalyzerResponse);
  analyzerLoading : JMap.t bool;
  analyzerErrors : JMap.t (option string);
  expandedConcurrency : option num;
  compareSelection : list string;
  analyzerAbortControllerRef : option nat;
  runs : list run
}.

Definition new_analyzer : analyzer := {|
  analyzerModalTab := TabSettings; analyzerProgress := EmptyString; analyzerResults := []; analyzerLoading := [];
  analyzerErrors := []; expandedConcurrency := None; compareSelection := []; analyzerAbortControllerRef := None; runs := [] |}.

Definition set_view (tab : AnalyzerTab) (expanded : option num) (compare : list string) (a : analyzer) : analyzer := {|
  analyzerModalTab := tab; analyzerProgress := analyzerProgress a; analyzerResults := analyzerResults a;
  analyzerLoading := analyzerLoading a; analyzerErrors := analyzerErrors a; expandedConcurrency := expanded;
  compareSelection := compare; analyzerAbortControllerRef := analyzerAbortControllerRef a; runs := runs a |}.

Definition set_progress (text : string) (a : analyzer) : analyzer := {|
  analyzerModalTab := analyzerModalTab a; analyzerProgress := text; analyzerResults := analyzerResults a;
  analyzerLoading := analyzerLoading a; analyzerErrors := analyzerErrors a; expandedConcurrency := expandedConcurrency a;
  compareSelection := compareSelection a; analyzerAbortControllerRef := analyzerAbortControllerRef a; runs := runs a |}.

Definition set_results (id : string) (v : option ProxyAnalyzerResponse) (a : analyzer) : analyzer := {|
  analyzerModalTab := analyzerModalTab a; analyzerProgress := analyzerProgress a; analyzerResults := JMap.set id v (analyzerResults a);
  analyzerLoading := analyzerLoading a; analyzerErrors := analyzerErrors a; expandedConcurrency := expandedConcurrency a;
  compareSelection := compareSelection a; analyzerAbortControllerRef := analyzerAbortControllerRef a; runs := runs a |}.

Definition set_loading (id : string) (v : bool) (a : analyzer) : analyzer := {|
  analyzerModalTab := analyzerModalTab a; analyzerProgress := analyzerProgress a; analyzerResults := analyzerResults a;
  analyzerLoading := JMap.set id v (analyzerLoading a); analyzerErrors := analyzerErrors a; expandedConcurrency := expandedConcurrency a;
  compareSelection := compareSelection a; analyzerAbortControllerRef := analyzerAbortControllerRef a; runs := runs a |}.

Definition set_error (id : string) (v : option string) (a : analyzer) : analyzer := {|
  analyzerModalTab := analyzerModalTab a; analyzerProgress := analyzerProgress a; analyzerResults := analyzerResults a;
  analyzerLoading := analyzerLoading a; analyzerErrors := JMap.set id v (analyzerErrors a); expandedConcurrency := expandedConcurrency a;
  compareSelection := compareSelection a; analyzerAbortControllerRef := analyzerAbortControllerRef a; runs := runs a |}.

Definition set_abort (ref : option nat) (a : analyzer) : analyzer := {|
  analyzerModalTab := analyzerModalTab a; analyzerProgress := analyzerProgress a; analyzerResults := analyzerResults a;
  analyzerLoading := analyzerLoading a; analyzerErrors := analyzerErrors a; expandedConcurrency := expandedConcurrency a;
  compareSelection := compareSelection a; analyzerAbortControllerRef := ref; runs := runs a |}.

Definition set_runs (l : list run) (a : analyzer) : analyzer := {|
  analyzerModalTab := analyzerModalTab a; analyzerProgress := analyzerProgress a; analyzerResults := analyzerResults a;
  analyzerLoading := analyzerLoading a; analyzerErrors := analyzerErrors a; expandedConcurrency := expandedConcurrency a;
  compareSelection := compareSelection a; analyzerAbortControllerRef := analyzerAbortControllerRef a; runs := l |}.

(** The part of [openAnalyzerModal] that concerns the analyses. *)
Definition open_analyzer (id : string) (a : analyzer) : analyzer :=
  let a := set_view TabSettings None [] a in
  if JMap.get id (analyzerLoading a) ?? false then a else set_progress EmptyString a.

Definition stopAnalysis (a : analyzer) : analyzer :=
  match analyzerAbortControllerRef a with
  | Some n => set_abort None (set_runs (alter set_aborted n (runs a)) a)
  | None => a
  end.

(** The [finally] block. *)
Definition finish (n : nat) (r : run) (a : analyzer) : analyzer :=
  set_abort None (set_loading (run_proxy r) false (set_runs (<[n := set_phase Done r]> (runs a)) a)).

(** The end of the [try] block. *)
Definition completed (n : nat) (r : run) (a : analyzer) : analyzer :=
  let r := conclude r in
  let a := set_progress "✓ Analysis complete!" a in
  let a := set_results (run_proxy r) (Some (response "Performance analysis complete" r)) a in
  let a := set_view TabSettings (expandedConcurrency a) (compareSelection a) a in
  finish n r a.

(** What the [catch] block distinguishes; an [Error] has a message. *)
Inductive failure := AbortError | Failed (text : option string).

Definition caught (n : nat) (r : run) (f : failure) (a : analyzer) : analyzer :=
  let a := match f with
           | AbortError =>
               let a := set_progress "⏹ Analysis stopped" a in
               match collectedResults r with
               | [] => a
               | _ => set_results (run_proxy r) (Some (response "Performance analysis stopped" r)) a
               end
           | Failed text => set_progress "✗ Analysis failed" (set_error (run_proxy r) (Some (text ?? "Performance analysis failed")) a)
           end in
  finish n r a.

(** The run goes on until its next request. A run that hangs never ends. *)
Definition proceed (n : nat) (r : run) (a : analyzer) : analyzer :=
  let '(r, next) := advance search_fuel r in
  match next with
  | TestLevel _ => set_runs (<[n := r]> (runs a)) a
  | Throw => caught n r AbortError a
  | End => completed n r a
  | Hang => set_runs (<[n := r]> (runs a)) a
  end.

Definition startAnalysis (active : option string) (a : analyzer) : analyzer :=
  match active with
  | None => a
  | Some id =>
      let n := length (runs a) in
      let a := set_abort (Some n) a in
      let a := set_progress EmptyString (set_view TabResults None [] a) in
      let a := set_error id None (set_loading id true (set_results id None a)) in
      proceed n (new_run id) (set_runs (runs a ++ [new_run id]) a)
  end.

Definition show_opt (o : option num) : string := match o with Some n => show_num n | None => "undefined" end.

Definition is_running (r : run) : bool := match at_phase r with Done => false | _ => true end.

(** A call of the stream of a run. The update of the results is a function React calls
    at once ([eager]) or when it renders: it reads the recommendation before or after
    the result was considered. *)
Definition stream_called (eager : bool) (n : nat) (c : stream_call) (a : analyzer) : analyzer :=
  match runs a !! n with
  | Some r =>
      if negb (is_running r) then a
      else match c with
           | OnWarmup ip => set_progress ("Warmup complete (IP: " +:+ (truthy_opt ip ?? "unknown") +:+ ")") a
           | OnProgress e =>
               set_progress ("analyzing x" +:+ show_opt (ev_concurrency e) +:+ " concurrency - " +:+ show_opt (ev_connections e)
                             +:+ " connections - " +:+ show_opt (ev_requests e) +:+ " requests") a
           | OnResult x =>
               let shown := response "In progress..." (if eager then set_collected (collectedResults r ++ [x]) r else on_result x r) in
               set_results (run_proxy r) (Some shown) (set_runs (<[n := on_result x r]> (runs a)) a)
           | OnComplete e => set_runs (<[n := on_complete e r]> (runs a)) a
           end
  | None => a
  end.

(** The stream of the level ends. *)
Definition test_ended (n : nat) (hadResults : bool) (a : analyzer) : analyzer :=
  match runs a !! n with
  | Some r =>
      if negb (is_running r) then a
      else let '(r, warning) := level_ended hadResults r in
           proceed n r (match warning with Some text => set_progress text a | None => a end)
  | None => a
  end.

(** The request fails, or is aborted. *)
Definition test_failed (n : nat) (f : failure) (a : analyzer) : analyzer :=
  match runs a !! n with
  | Some r => if negb (is_running r) then a else caught n r f a
  | None => a
  end.

Inductive step : analyzer -> analyzer -> Prop :=
| Open id a : step a (open_analyzer id a)
| StartRun active a : step a (startAnalysis active a)
| Stop a : step a (stopAnalysis a)
| Called eager n c a : step a (stream_called eager n c a)
| Ended n hadResults a : step a (test_ended n hadResults a)
| Fails n text a : step a (test_failed n (Failed text) a)
| Aborts n a r : runs a !! n = Some r -> aborted r = true -> step a (test_failed n AbortError a).

Inductive reachable : analyzer -> Prop :=
| Begin : reachable new_analyzer
| Next a a' : reachable a -> step a a' -> reachable a'.

(** ** The view of the results ([networkUtils.ts]) *)

Definition better_result (best current : ProxyAnalyzerResult) : ProxyAnalyzerResult :=
  if improves (efficiency_score best) current then current
  else if (success_rate current >=! good_rate) && (success_rate best <! good_rate) then current else best.

(** [reduce] with the first element; [None] stands for [undefined]. *)
Definition findBestAnalyzerResult (l : list ProxyAnalyzerResult) : option ProxyAnalyzerResult :=
  match l with [] => None | x :: _ => Some (foldl better_result x l) end.

Record result_group := { group_concurrency : num; group_results : list ProxyAnalyzerResult; bestResult : option ProxyAnalyzerResult }.

(** An object keyed by concurrency: [String(result.concurrency)]. *)
Definition add_to_group (acc : JMap.t (list ProxyAnalyzerResult)) (x : ProxyAnalyzerResult) : JMap.t (list ProxyAnalyzerResult) :=
  let key := show_num (concurrency x) in JMap.set key ((JMap.get key acc ?? []) ++ [x]) acc.

Definition best_score (o : option ProxyAnalyzerResult) : num := match o with Some x => efficiency_score x | None => nan end.

Definition getGroupedAnalyzerResults (l : list ProxyAnalyzerResult) : list result_group :=
  let grouped := foldl add_to_group JMap.empty l in
  let at_key (c : num) := JMap.get (show_num c) grouped ?? [] in
  map (fun c => {| group_concurrency := c; group_results := at_key c; bestResult := findBestAnalyzerResult (at_key c) |})
    (stable_sort (fun a b => (best_score (findBestAnalyzerResult (at_key b)) ⊖ best_score (findBestAnalyzerResult (at_key a))) >! #0)
       (map number_of_string (map fst (own_entries grouped)))).

Definition is_error_code (e : string * num) : bool := negb (starts_with e.1 "2").

Definition getErrorCount (counts : option (list (string * num))) : num :=
  match counts with
  | None => #0
  | Some l => foldl (fun sum e => sum ⊕ e.2) #0 (keep is_error_code (own_entries l))
  end.

Definition getErrorDetails (counts : option (list (string * num))) : list (string * num) :=
  match counts with None => [] | Some l => keep is_error_code (own_entries l) end.
