(* ===== verification/ProxyAnalyzerSpec.v ===== *)
(** * The analysis of a proxy ends and recommends the best result

    The frames read do not depend on how the stream was cut; every run tests each
    level at most once, in at most seven tests; what it recommends at the end is a
    best result that mostly succeeded. *)

From Stdlib Require Import Ascii ZArith Lia SpecFloat.
From stdpp Require Import base list strings option sets.
From S2P Require Import Prelude JsString JsNum JsOrder JsSort JsObject ProxyAnalyzer.

(** ** The stream *)

Lemma last_app_nonempty {A} (l1 l2 : list A) d : l2 <> [] -> List.last (l1 ++ l2) d = List.last l2 d.
Proof. intros H. induction l1 as [|x l1 IH]; [done|]. simpl. destruct (l1 ++ l2) eqn:E; [|done]. by destruct l1, l2. Qed.

Lemma cons_head_nonempty c l : cons_head c l <> [].
Proof. by destruct l. Qed.

Lemma split_frames_cons c d r :
  split_frames (String c (String d r)) =
  if Ascii.eqb c newline && Ascii.eqb d newline then EmptyString :: split_frames r else cons_head c (split_frames (String d r)).
Proof. reflexivity. Qed.

Lemma split_frames_nonempty s : split_frames s <> [].
Proof. destruct s as [|c [|d r]]; simpl; try done. destruct (_ && _); [done|]. apply cons_head_nonempty. Qed.

(** Joining the frames gives the text back. *)
Definition blank_line : string := String newline (String newline EmptyString).

Lemma join_cons_head c l : l <> [] -> join blank_line (cons_head c l) = String c (join blank_line l).
Proof. destruct l as [|x [|y r]]; done. Qed.

Lemma join_frames s : join blank_line (split_frames s) = s.
Proof.
  induction s as [s IH] using (induction_ltof1 _ String.length). unfold ltof in IH.
  destruct s as [|c [|d r]]; [done|done|]. rewrite split_frames_cons.
  destruct (Ascii.eqb c newline && Ascii.eqb d newline) eqn:E.
  - apply andb_true_iff in E as [->%Ascii.eqb_eq ->%Ascii.eqb_eq].
    pose proof (IH r ltac:(simpl; lia)) as Hr. pose proof (split_frames_nonempty r) as Hn. revert Hr Hn.
    destruct (split_frames r) as [|x l]; [done|]. intros Hr _.
    change (join blank_line (EmptyString :: x :: l)) with (blank_line +:+ join blank_line (x :: l)). by rewrite Hr.
  - rewrite join_cons_head by apply split_frames_nonempty. f_equal. apply IH. simpl. lia.
Qed.

Lemma pop_cons x l : l <> [] -> pop (x :: l) = (x :: (pop l).1, (pop l).2).
Proof. destruct l; done. Qed.

Lemma pop_head c l : l <> [] -> (pop l).1 <> [] -> pop (cons_head c l) = (cons_head c (pop l).1, (pop l).2).
Proof. destruct l as [|x [|y r]]; done. Qed.

(** Text that arrives later only extends the last frame. *)
Lemma split_more s t : split_frames (s +:+ t) = (pop (split_frames s)).1 ++ split_frames ((pop (split_frames s)).2 +:+ t).
Proof.
  induction s as [s IH] using (induction_ltof1 _ String.length). unfold ltof in IH.
  destruct s as [|c [|d r]]; [done|done|]. change (String c (String d r) +:+ t) with (String c (String d (r +:+ t))).
  rewrite !split_frames_cons. destruct (Ascii.eqb c newline && Ascii.eqb d newline) eqn:E.
  - rewrite pop_cons by apply split_frames_nonempty. simpl. f_equal. apply IH. simpl. lia.
  - pose proof (IH (String d r) ltac:(simpl; lia)) as Hr. change (String d r +:+ t) with (String d (r +:+ t)) in Hr.
    pose proof (split_frames_nonempty (String d r)) as Hn. pose proof (join_frames (String d r)) as Hj. rewrite Hr. clear Hr IH.
    destruct (split_frames (String d r)) as [|x [|y l]]; [done| |].
    + simpl in Hj. subst x. cbn [cons_head pop removelast List.last fst snd app].
      change (String c (String d r) +:+ t) with (String c (String d (r +:+ t))). by rewrite split_frames_cons, E.
    + rewrite pop_head by done. cbn [pop removelast]. done.
Qed.

(** The frames that are read are those of the whole text but the last one, however
    the network cut it into chunks. *)
Theorem frames_do_not_depend_on_chunks chunks :
  read_frames chunks = removelast (split_frames (join EmptyString chunks)).
Proof.
  assert (H : forall front s, foldl read_chunk (front ++ (pop (split_frames s)).1, (pop (split_frames s)).2) chunks =
    (front ++ (pop (split_frames (s +:+ join EmptyString chunks))).1, (pop (split_frames (s +:+ join EmptyString chunks))).2)).
  { induction chunks as [|x chunks IH]; intros front s; [by rewrite str_app_nil_r|].
    assert (Ej : join EmptyString (x :: chunks) = x +:+ join EmptyString chunks) by (destruct chunks; [by rewrite str_app_nil_r|done]).
    rewrite Ej, <- app_assoc_str. cbn [foldl]. rewrite <- IH. f_equal. unfold read_chunk. rewrite (split_more s x).
    pose proof (split_frames_nonempty ((pop (split_frames s)).2 +:+ x)) as Hn. set (l := split_frames (_ +:+ x)) in *.
    assert (Ep : pop ((pop (split_frames s)).1 ++ l) = ((pop (split_frames s)).1 ++ (pop l).1, (pop l).2)).
    { unfold pop at 1. rewrite removelast_app by done. rewrite (last_app_nonempty _ l) by done. done. }
    rewrite Ep. destruct (pop l). cbn [fst snd]. by rewrite app_assoc. }
  specialize (H [] EmptyString). unfold read_frames. cbn [app] in H.
  change (pop (split_frames EmptyString)) with (@nil string, EmptyString) in H. cbn [fst snd] in H. rewrite H. done.
Qed.

(** ** The search *)

Definition rising : list Z := [128; 256; 512; 1024].
Definition falling : list Z := [8; 4; 2; 1].

(** The levels that were tested when a phase waits for its level. *)
Definition path (p : phase) : list Z :=
  match p with
  | Baseline => [32]
  | Up _ => [32; 64]
  | Down _ _ => [32; 64; 16]
  | Climb l _ => [32; 64; 16] ++ keep (fun x => x <=? l) rising
  | Descend l _ => [32; 64; 16] ++ keep (fun x => x >=? l) falling
  | Done => []
  end.

(** The levels the two loops come to. *)
Definition on_track (p : phase) : Prop :=
  match p with Climb l _ => l ∈ rising | Descend l _ => l ∈ falling | _ => True end.

Definition waiting (r : run) : Prop := at_phase r <> Done /\ on_track (at_phase r) /\ testedLevels r = path (at_phase r).

(** A phase that was just entered: its level is not tested yet. *)
Definition entering (r : run) : Prop :=
  on_track (at_phase r) /\
  match level_of (at_phase r) with Some l => testedLevels r ++ [l] = path (at_phase r) | None => True end.

(** What holds of the levels of a run at any time. *)
Definition levels_ok (l : list Z) : Prop :=
  NoDup l /\ (length l <= 7)%nat /\ forall x, x ∈ l -> exists k, 0 <= k <= 10 /\ x = 2 ^ k.

Lemma powers l : forallb (fun x => existsb (fun k => x =? 2 ^ k) [0; 1; 2; 3; 4; 5; 6; 7; 8; 9; 10]) l = true ->
  forall x, x ∈ l -> exists k, 0 <= k <= 10 /\ x = 2 ^ k.
Proof.
  intros H x Hx. rewrite forallb_forall in H. specialize (H x ltac:(by apply list_elem_of_In)). apply existsb_exists in H as (k & Hk & E).
  apply Z.eqb_eq in E. exists k. split; [|done]. simpl in Hk. lia.
Qed.

Lemma levels_ok_dec l :
  bool_decide (NoDup l) && (length l <=? 7)%nat && forallb (fun x => existsb (fun k => x =? 2 ^ k) [0; 1; 2; 3; 4; 5; 6; 7; 8; 9; 10]) l = true ->
  levels_ok l.
Proof.
  intros [[H1%bool_decide_eq_true H2%Nat.leb_le]%andb_true_iff H3]%andb_true_iff. split; [done|]. split; [done|]. by apply powers.
Qed.

(** Case analysis on the level of a loop. *)
Ltac on_levels H :=
  repeat (apply elem_of_cons in H as [->|H]); [.. | by apply elem_of_nil in H].

Lemma path_ok p : on_track p -> levels_ok (path p).
Proof.
  destruct p as [|b|b u|l prev|l prev|]; simpl; intros H; try (apply levels_ok_dec; vm_compute; reflexivity).
  - on_levels H; apply levels_ok_dec; vm_compute; reflexivity.
  - on_levels H; apply levels_ok_dec; vm_compute; reflexivity.
Qed.

Lemma entering_not_skipped r l : entering r -> level_of (at_phase r) = Some l -> skipped l r = false.
Proof.
  intros [Ht Hp] Hl. rewrite Hl in Hp. unfold skipped. pose proof (path_ok _ Ht) as (Hn & _ & Hk). rewrite <- Hp in Hn, Hk.
  apply NoDup_app in Hn as (_ & Hn & _). destruct (Hk l ltac:(set_solver)) as (k & Hk1 & ->).
  rewrite !orb_false_iff. repeat split.
  - apply bool_decide_eq_false. intros Hin. apply (Hn _ Hin). by left.
  - apply Z.ltb_ge. unfold minLevel. pose proof (Z.pow_pos_nonneg 2 k ltac:(lia) ltac:(lia)). lia.
  - rewrite Z.gtb_ltb. apply Z.ltb_ge. unfold maxLevel. change 1024 with (2 ^ 10). apply Z.pow_le_mono_r; lia.
Qed.

(** The guard never skips: a phase that is entered asks for its level at once. *)
Lemma advance_asks r : entering r ->
  advance search_fuel r =
  match level_of (at_phase r) with
  | Some l => (set_tested (testedLevels r ++ [l]) (efficiencyMap r) r, if aborted r then Throw else TestLevel l)
  | None => (r, End)
  end.
Proof.
  intros H. unfold search_fuel. generalize 15%nat as f. intros f. simpl. destruct (level_of (at_phase r)) as [l|] eqn:El; [|done].
  by rewrite (entering_not_skipped r l H El).
Qed.

Definition entered (levels : list Z) (p : phase) : Prop :=
  on_track p /\ match level_of p with Some l => levels ++ [l] = path p | None => True end.

Lemma climb_enters l prev : l ∈ 64 :: rising -> entered ([32; 64; 16] ++ keep (fun x => x <=? l) rising) (climb (l * 2) prev).
Proof. intros H. on_levels H; (split; [try (apply (bool_decide_unpack _); reflexivity); exact I|reflexivity]). Qed.

Lemma descend_enters l prev : l ∈ 16 :: falling -> entered ([32; 64; 16] ++ keep (fun x => x >=? l) falling) (descend (l / 2) prev).
Proof. intros H. on_levels H; (split; [try (apply (bool_decide_unpack _); reflexivity); exact I|reflexivity]). Qed.

Lemma done_enters levels : entered levels Done.
Proof. done. Qed.

Lemma enters p e : on_track p -> p <> Done -> entered (path p) (next_phase p e).
Proof.
  intros Ht Hd. destruct p as [|b|b u|l prev|l prev|]; [done|done| | | |done].
  - cbn [next_phase path]. destruct (num_ltb (b ?? #0) (u ?? #0)).
    + destruct (num_ltb (u ?? #0) (e ?? #0)); [apply (descend_enters 16); set_solver|apply (climb_enters 64); set_solver].
    + destruct (num_ltb (b ?? #0) (e ?? #0)); [apply (descend_enters 16); set_solver|apply done_enters].
  - cbn [next_phase path]. destruct e as [e|]; [|apply done_enters]. destruct (e <! prev); [apply done_enters|].
    apply climb_enters. by right.
  - cbn [next_phase path]. destruct e as [e|]; [|apply done_enters]. destruct (e <! prev); [apply done_enters|].
    apply descend_enters. by right.
Qed.

(** ** Every reachable page *)

Definition run_ok (r : run) : Prop := (at_phase r = Done /\ levels_ok (testedLevels r)) \/ waiting r.

Lemma run_levels r : run_ok r -> levels_ok (testedLevels r).
Proof. intros [[_ H]|(_ & Ht & ->)]; [done|]. by apply path_ok. Qed.

Lemma conclude_keeps r : testedLevels (conclude r) = testedLevels r /\ run_proxy (conclude r) = run_proxy r.
Proof. unfold conclude. by destruct (foldl recommend _ _) as [[? ?] ?]. Qed.

Lemma caught_spec n r f a :
  runs (caught n r f a) = <[n := set_phase Done r]> (runs a) /\
  analyzerLoading (caught n r f a) = JMap.set (run_proxy r) false (analyzerLoading a).
Proof. unfold caught. destruct f; [destruct (collectedResults r)|]; done. Qed.

(** What the run becomes when it goes on. *)
Lemma proceed_spec n r a :
  entered (testedLevels r) (at_phase r) -> levels_ok (testedLevels r) ->
  exists r', runs (proceed n r a) = <[n := r']> (runs a) /\ run_proxy r' = run_proxy r /\ run_ok r' /\
    ((at_phase r' = Done /\ analyzerLoading (proceed n r a) = JMap.set (run_proxy r) false (analyzerLoading a)) \/
     (at_phase r' <> Done /\ length (testedLevels r') = S (length (testedLevels r)) /\
      analyzerLoading (proceed n r a) = analyzerLoading a)).
Proof.
  intros He Hl. unfold proceed. rewrite advance_asks by done. destruct He as [Ht He].
  destruct (level_of (at_phase r)) as [l|] eqn:El.
  - assert (Hp : levels_ok (testedLevels r ++ [l])) by (rewrite He; by apply path_ok).
    destruct (aborted r).
    + destruct (caught_spec n (set_tested (testedLevels r ++ [l]) (efficiencyMap r) r) AbortError a) as [E1 E2].
      eexists. split; [exact E1|]. split; [done|]. split; [by left|left; by split].
    + eexists. split; [reflexivity|]. split; [done|]. split.
      * right. split; [|split; [done|done]]. simpl. by destruct (at_phase r).
      * right. simpl. rewrite length_app. simpl. split; [by destruct (at_phase r)|]. split; [lia|done].
  - destruct (conclude_keeps r) as [E1 E2]. eexists. split; [reflexivity|]. simpl. rewrite E2. split; [done|]. split.
    + left. simpl. by rewrite E1.
    + by left.
Qed.

Lemma ended_run hadResults r :
  waiting r -> entered (testedLevels (level_ended hadResults r).1) (at_phase (level_ended hadResults r).1) /\
    testedLevels (level_ended hadResults r).1 = testedLevels r /\ run_proxy (level_ended hadResults r).1 = run_proxy r.
Proof.
  intros (Hd & Ht & Hp). unfold level_ended. destruct (level_of (at_phase r)) as [l|] eqn:El; [|by destruct (at_phase r)].
  destruct (level_efficiency l hadResults r) as [[e|] w]; simpl; rewrite Hp; (split; [by apply enters|done]).
Qed.

Lemma running_waiting r : run_ok r -> is_running r = true -> waiting r.
Proof. intros [[H _]|H]; [|done]. unfold is_running. by rewrite H. Qed.

Lemma start_runs_ok a active : Forall run_ok (runs a) -> Forall run_ok (runs (startAnalysis active a)).
Proof.
  intros H. unfold startAnalysis. destruct active as [id|]; [|done].
  match goal with |- context [proceed ?n ?r ?b] => destruct (proceed_spec n r b) as (r' & E & _ & Hr & _) end.
  - split; [done|]. reflexivity.
  - by apply levels_ok_dec.
  - rewrite E. simpl. rewrite insert_app_r_alt by lia. apply Forall_app. split; [done|].
    replace (length (runs a) - length (runs a))%nat with 0%nat by lia. by apply Forall_singleton.
Qed.

Lemma step_runs_ok a a' : Forall run_ok (runs a) -> step a a' -> Forall run_ok (runs a').
Proof.
  intros H Hs. revert H. destruct Hs as [id a|active a|a|eager n c a|n h a|n text a|n a r Hr _]; intros H.
  - unfold open_analyzer. by destruct (_ ?? _).
  - by apply start_runs_ok.
  - unfold stopAnalysis. destruct (analyzerAbortControllerRef a) as [n|]; [|done]. simpl. apply Forall_alter; [done|].
    intros r Hr [H1|H1]; [left|right]; done.
  - unfold stream_called. destruct (runs a !! n) as [r|] eqn:Er; [|done]. destruct (is_running r) eqn:Eg; [|done]. simpl.
    assert (Hok : run_ok r) by (rewrite Forall_forall in H; apply H; by eapply list_elem_of_lookup_2).
    pose proof (running_waiting r Hok Eg) as Hw. destruct c; simpl; try done; apply Forall_insert; try done; right.
    unfold on_result. by destruct (improves _ _).
  - unfold test_ended. destruct (runs a !! n) as [r|] eqn:Er; [|done]. destruct (is_running r) eqn:Eg; [|done]. simpl.
    assert (Hok : run_ok r) by (rewrite Forall_forall in H; apply H; by eapply list_elem_of_lookup_2).
    destruct (ended_run h r (running_waiting r Hok Eg)) as (He & Hl & _). destruct (level_ended h r) as [r' w]. simpl in *.
    destruct (proceed_spec n r' (match w with Some text => set_progress text a | None => a end)) as (r'' & E & _ & Hr'' & _);
      [done|rewrite Hl; by apply run_levels|]. rewrite E. apply Forall_insert; [by destruct w|done].
  - unfold test_failed. destruct (runs a !! n) as [r|] eqn:Er; [|done]. destruct (is_running r); [|done]. simpl.
    apply Forall_insert; [done|]. left. split; [done|]. apply (run_levels r). rewrite Forall_forall in H. apply H. by eapply list_elem_of_lookup_2.
  - unfold test_failed. rewrite Hr. destruct (is_running r); [|done]. cbn [negb]. rewrite (proj1 (caught_spec n r AbortError a)).
    apply Forall_insert; [done|]. left. split; [done|]. apply (run_levels r). rewrite Forall_forall in H. apply H. by eapply list_elem_of_lookup_2.
Qed.

Lemma reachable_ok a : reachable a -> Forall run_ok (runs a).
Proof. induction 1 as [|a a' _ IH Hs]; [constructor|]. by eapply step_runs_ok. Qed.

(** C12. Whatever the tests answer and however runs interleave, stop and fail: a run tests
    no level twice, tests at most seven, and every one is a power of two between the
    least and the greatest level. *)
Theorem levels_tested_once a r :
  reachable a -> r ∈ runs a ->
  NoDup (testedLevels r) /\ (length (testedLevels r) <= 7)%nat /\
  forall l, l ∈ testedLevels r -> minLevel <= l <= maxLevel /\ exists k, l = 2 ^ k.
Proof.
  intros Ha Hr. pose proof (reachable_ok a Ha) as H. rewrite Forall_forall in H. destruct (run_levels r (H r Hr)) as (H1 & H2 & H3).
  split; [done|]. split; [done|]. intros l Hl. destruct (H3 l Hl) as (k & Hk & ->). split; [|by exists k].
  unfold minLevel, maxLevel. change 1024 with (2 ^ 10). pose proof (Z.pow_pos_nonneg 2 k ltac:(lia) ltac:(lia)).
  pose proof (Z.pow_le_mono_r 2 k 10 ltac:(lia) ltac:(lia)). lia.
Qed.

(** *** Runs go forward *)

(** [r'] is [r] some steps later. *)
Definition later (r r' : run) : Prop :=
  run_proxy r' = run_proxy r /\ (at_phase r = Done -> at_phase r' = Done) /\
  (at_phase r' = Done \/ (length (testedLevels r) <= length (testedLevels r'))%nat).

Definition all_later (l l' : list run) : Prop := forall n r, l !! n = Some r -> exists r', l' !! n = Some r' /\ later r r'.

Lemma later_refl r : later r r.
Proof. split; [done|]. split; [done|by right]. Qed.

Lemma later_fields r r' : run_proxy r' = run_proxy r -> at_phase r' = at_phase r -> testedLevels r' = testedLevels r -> later r r'.
Proof. intros H1 H2 H3. split; [done|]. rewrite H2, H3. split; [done|by right]. Qed.

Lemma all_later_refl l : all_later l l.
Proof. intros n r H. exists r. split; [done|apply later_refl]. Qed.

Lemma all_later_app l l' : all_later l (l ++ l').
Proof. intros n r H. exists r. split; [by apply lookup_app_l_Some|apply later_refl]. Qed.

Lemma all_later_insert m rm r' l : l !! m = Some rm -> later rm r' -> all_later l (<[m := r']> l).
Proof.
  intros Hm Hl n r H. destruct (decide (n = m)) as [->|Hne].
  - exists r'. rewrite list_lookup_insert_eq by (by eapply lookup_lt_Some). split; [done|]. by simplify_eq.
  - exists r. rewrite list_lookup_insert_ne by done. split; [done|apply later_refl].
Qed.

(** Where a proxy is shown as loading, a run of it is under way. *)
Definition loading_ok (a : analyzer) : Prop :=
  forall id, JMap.get id (analyzerLoading a) = Some true -> exists r, r ∈ runs a /\ run_proxy r = id /\ at_phase r <> Done.

Lemma loading_insert m rm r' a a' :
  loading_ok a -> runs a !! m = Some rm -> run_proxy r' = run_proxy rm -> runs a' = <[m := r']> (runs a) ->
  (at_phase r' = Done /\ analyzerLoading a' = JMap.set (run_proxy rm) false (analyzerLoading a)) \/
  ((at_phase rm <> Done -> at_phase r' <> Done) /\ analyzerLoading a' = analyzerLoading a) -> loading_ok a'.
Proof.
  intros H Hm Hp Hr Hc id Hid. assert (Hlt : (m < length (runs a))%nat) by (by eapply lookup_lt_Some).
  assert (Hold : JMap.get id (analyzerLoading a) = Some true /\ (at_phase r' = Done -> id <> run_proxy rm \/ at_phase rm = Done)).
  { destruct Hc as [[Hd E]|[Hd E]]; rewrite E in Hid; [|split; [done|]; intros Hd'; right; destruct (at_phase rm); try done; exfalso; by apply Hd].
    destruct (decide (run_proxy rm = id)) as [<-|Hne]; [by rewrite JMap.get_set_eq in Hid|].
    rewrite JMap.get_set_ne in Hid by done. split; [done|]. intros _. by left. }
  destruct Hold as [Hold Hd]. destruct (H id Hold) as (r & Hin & <- & Hph). apply list_elem_of_lookup in Hin as [k Hk].
  destruct (decide (k = m)) as [->|Hne].
  - assert (r = rm) as -> by congruence. exists r'. rewrite Hr. split; [|split; [done|]].
    + apply (list_elem_of_lookup_2 _ m). by apply list_lookup_insert_eq.
    + intros Hd'. by destruct (Hd Hd').
  - exists r. rewrite Hr. split; [|done]. apply (list_elem_of_lookup_2 _ k). by rewrite list_lookup_insert_ne.
Qed.

(** What a step does to the runs, and to what is shown. *)
Definition forward (a a' : analyzer) : Prop := all_later (runs a) (runs a') /\ (loading_ok a -> loading_ok a').

Lemma forward_insert m rm r' a a' :
  runs a !! m = Some rm -> run_ok rm -> later rm r' -> runs a' = <[m := r']> (runs a) ->
  (at_phase r' = Done /\ analyzerLoading a' = JMap.set (run_proxy rm) false (analyzerLoading a)) \/
  ((at_phase rm <> Done -> at_phase r' <> Done) /\ analyzerLoading a' = analyzerLoading a) -> forward a a'.
Proof.
  intros Hm Hok Hl Hr Hc. split; [rewrite Hr; by eapply all_later_insert|].
  intros H. eapply loading_insert; [exact H|exact Hm|apply Hl|exact Hr|exact Hc].
Qed.

Lemma forward_same a a' : runs a' = runs a -> analyzerLoading a' = analyzerLoading a -> forward a a'.
Proof. intros E1 E2. split; [rewrite E1; apply all_later_refl|]. unfold loading_ok. by rewrite E1, E2. Qed.

Lemma run_ok_at a n r : Forall run_ok (runs a) -> runs a !! n = Some r -> run_ok r.
Proof. intros H Hr. rewrite Forall_forall in H. apply H. by eapply list_elem_of_lookup_2. Qed.

(** A test that ends: the run is over, or has tested one level more. *)
Lemma test_ended_spec n h a r : Forall run_ok (runs a) -> runs a !! n = Some r -> is_running r = true ->
  exists r', runs (test_ended n h a) = <[n := r']> (runs a) /\ later r r' /\
    ((at_phase r' = Done /\ analyzerLoading (test_ended n h a) = JMap.set (run_proxy r) false (analyzerLoading a)) \/
     (at_phase r' <> Done /\ length (testedLevels r') = S (length (testedLevels r)) /\
      analyzerLoading (test_ended n h a) = analyzerLoading a)).
Proof.
  intros H Er Eg. pose proof (run_ok_at a n r H Er) as Hok. unfold test_ended. rewrite Er, Eg. simpl.
  destruct (ended_run h r (running_waiting r Hok Eg)) as (He & Hl & Hx). destruct (level_ended h r) as [r1 w]. simpl in *.
  set (b := match w with Some text => set_progress text a | None => a end).
  assert (Eb : runs b = runs a /\ analyzerLoading b = analyzerLoading a) by (subst b; by destruct w). destruct Eb as [Eb1 Eb2].
  destruct (proceed_spec n r1 b) as (r' & E & Hp & _ & Hc); [done|rewrite Hl; by apply run_levels|].
  rewrite Eb1 in E. rewrite Hx, Hl, Eb2 in Hc. exists r'. split; [exact E|]. split; [|exact Hc].
  split; [congruence|]. split; [unfold is_running in Eg; by destruct (at_phase r)|].
  destruct Hc as [[Hd _]|(_ & Hc & _)]; [by left|right; lia].
Qed.

Lemma start_forward a active : forward a (startAnalysis active a).
Proof.
  unfold startAnalysis. destruct active as [id|]; [|by apply forward_same].
  match goal with |- context [proceed ?n ?r ?b] => destruct (proceed_spec n r b) as (r' & E & Hp & _ & Hc) end.
  - split; [done|]. reflexivity.
  - by apply levels_ok_dec.
  - match type of E with runs ?c = _ => set (started := c) in * end. clearbody started. simpl in E, Hc, Hp.
    rewrite insert_app_r_alt, Nat.sub_diag in E by lia. simpl in E. split; [rewrite E; apply all_later_app|].
    intros H id' Hid. rewrite E.
    assert (Hold : JMap.get id' (analyzerLoading a) = Some true -> exists r, r ∈ runs a ++ [r'] /\ run_proxy r = id' /\ at_phase r <> Done).
    { intros Ho. destruct (H id' Ho) as (r & Hr & Hx). exists r. split; [|done]. apply elem_of_app. by left. }
    destruct Hc as [[Hd El]|(Hd & _ & El)]; rewrite El in Hid.
    + destruct (decide (id = id')) as [<-|Hne]; [by rewrite JMap.get_set_eq in Hid|].
      rewrite !JMap.get_set_ne in Hid by done. by apply Hold.
    + destruct (decide (id = id')) as [<-|Hne].
      * exists r'. split; [|done]. apply elem_of_app. right. by left.
      * rewrite JMap.get_set_ne in Hid by done. by apply Hold.
Qed.

Lemma failed_forward a n f : Forall run_ok (runs a) -> forward a (test_failed n f a).
Proof.
  intros H. unfold test_failed. destruct (runs a !! n) as [r|] eqn:Er; [|by apply forward_same].
  destruct (is_running r); [|by apply forward_same]. cbn [negb]. destruct (caught_spec n r f a) as [E1 E2].
  eapply (forward_insert n r); [done|by apply (run_ok_at a n)| |exact E1|by left]. split; [done|]. split; [done|by left].
Qed.

Lemma step_forward a a' : Forall run_ok (runs a) -> step a a' -> forward a a'.
Proof.
  intros H Hs. revert H. destruct Hs as [id a|active a|a|eager n c a|n h a|n text a|n a r Hr _]; intros H.
  - unfold open_analyzer. apply forward_same; by destruct (_ ?? _).
  - apply start_forward.
  - unfold stopAnalysis. destruct (analyzerAbortControllerRef a) as [n|]; [|by apply forward_same].
    destruct (runs a !! n) as [r|] eqn:Er.
    + eapply (forward_insert n r (set_aborted r)); [done|by apply (run_ok_at a n)|by apply later_fields| |by right].
      simpl. by apply list_alter_some.
    + apply forward_same; [|done]. simpl. apply list_eq. intros k. destruct (decide (k = n)) as [->|Hne].
      * by rewrite list_lookup_alter_eq, Er.
      * by rewrite list_lookup_alter_ne.
  - unfold stream_called. destruct (runs a !! n) as [r|] eqn:Er; [|by apply forward_same].
    destruct (is_running r); [|by apply forward_same]. cbn [negb].
    pose proof (run_ok_at a n r H Er) as Hok. destruct c as [ip|e|x|e]; try (by apply forward_same).
    + apply (forward_insert n r (on_result x r)); [done|done| |done|right]; unfold on_result; destruct (improves _ _); by try apply later_fields.
    + apply (forward_insert n r (on_complete e r)); [done|done|by apply later_fields|done|by right].
  - destruct (runs a !! n) as [r|] eqn:Er; [|unfold test_ended; rewrite Er; by apply forward_same].
    destruct (is_running r) eqn:Eg; [|unfold test_ended; rewrite Er, Eg; by apply forward_same].
    destruct (test_ended_spec n h a r H Er Eg) as (r' & E & Hl & Hc).
    eapply (forward_insert n r r'); [done|by apply (run_ok_at a n)|done|done|]. destruct Hc as [Hc|(H1 & _ & H2)]; auto.
  - by apply failed_forward.
  - by apply failed_forward.
Qed.

Lemma reachable_loading a : reachable a -> loading_ok a.
Proof.
  induction 1 as [|a a' Ha IH Hs]; [done|]. by apply (step_forward a a' (reachable_ok a Ha) Hs).
Qed.

(** A path of steps on which the tests of run [n] are answered [k] times; anything
    may happen in between. *)
Inductive answered_path (n : nat) : nat -> analyzer -> analyzer -> Prop :=
| path_start a : answered_path n 0 a a
| path_answer k a b h : answered_path n k a b -> answered_path n (S k) a (test_ended n h b)
| path_step k a b c : answered_path n k a b -> step b c -> answered_path n k a c.

Lemma path_spec n k a b r : reachable a -> runs a !! n = Some r -> answered_path n k a b ->
  reachable b /\ exists r', runs b !! n = Some r' /\ run_proxy r' = run_proxy r /\ (at_phase r = Done -> at_phase r' = Done) /\
    (at_phase r' = Done \/ (length (testedLevels r) + k <= length (testedLevels r'))%nat).
Proof.
  intros Ha Hr Hp. induction Hp as [a|k a b h Hp IH|k a b c Hp IH Hs].
  - split; [done|]. exists r. split; [done|]. split; [done|]. split; [done|right; lia].
  - destruct (IH Ha Hr) as (Hb & r1 & H1 & Hx & Hk & Hc). split; [eapply Next; [exact Hb|constructor]|].
    destruct (is_running r1) eqn:Eg.
    + destruct (test_ended_spec n h b r1 (reachable_ok b Hb) H1 Eg) as (r' & E & (Hq & Hk' & _) & Hd). exists r'. rewrite E.
      split; [apply list_lookup_insert_eq; by eapply lookup_lt_Some|]. split; [congruence|]. split; [auto|].
      destruct Hd as [[Hd _]|(_ & Hd & _)]; [by left|]. right. destruct Hc as [Hc|Hc]; [|lia].
      unfold is_running in Eg. by rewrite Hc in Eg.
    + exists r1. unfold test_ended. rewrite H1, Eg. split; [done|]. split; [done|]. split; [done|]. left.
      unfold is_running in Eg. by destruct (at_phase r1).
  - destruct (IH Ha Hr) as (Hb & r1 & H1 & Hx & Hk & Hc). split; [by eapply Next|].
    destruct (step_forward b c (reachable_ok b Hb) Hs) as [Hf _]. destruct (Hf n r1 H1) as (r' & H2 & Hq & Hd & Hl).
    exists r'. split; [done|]. split; [congruence|]. split; [auto|].
    destruct Hc as [Hc|Hc]; [left; auto|]. destruct Hl as [Hl|Hl]; [by left|right; lia].
Qed.

Lemma waiting_tested r : waiting r -> (1 <= length (testedLevels r))%nat.
Proof. intros (Hd & _ & ->). destruct (at_phase r); simpl; try lia; done. Qed.

(** C13. An analysis comes to its end: once its tests have been answered seven times
    the run is over, whatever the answers were and whatever happened between them --
    other runs, results of streams, stops and failures; the search never goes round
    without a test. And a proxy is shown as loading only while a run of it is under
    way. *)
Theorem analysis_ends a b n r k :
  reachable a -> runs a !! n = Some r -> answered_path n k a b -> (7 <= k)%nat ->
  (exists r', runs b !! n = Some r' /\ run_proxy r' = run_proxy r /\ at_phase r' = Done) /\
  forall id, (forall r', r' ∈ runs b -> run_proxy r' = id -> at_phase r' = Done) -> JMap.get id (analyzerLoading b) <> Some true.
Proof.
  intros Ha Hr Hp Hk. destruct (path_spec n k a b r Ha Hr Hp) as (Hb & r' & H1 & Hx & Hd & Hc). split.
  - exists r'. split; [done|]. split; [done|]. destruct (run_ok_at a n r (reachable_ok a Ha) Hr) as [[Hr0 _]|Hw]; [auto|].
    destruct Hc as [Hc|Hc]; [done|]. exfalso. apply waiting_tested in Hw.
    destruct (run_levels r' (run_ok_at b n r' (reachable_ok b Hb) H1)) as (_ & Hl & _). lia.
  - intros id Hall Hid. destruct (reachable_loading b Hb id Hid) as (r1 & Hin & Hp1 & Hn). apply Hn. by apply Hall.
Qed.

(** ** The recommendation *)

Definition succeeds (x : ProxyAnalyzerResult) : bool := success_rate x >=! good_rate.

(** [x] is a best result of a list: it mostly succeeded, is worth something, and no
    result that mostly succeeded is worth more. *)
Definition best_in (l : list ProxyAnalyzerResult) (x : ProxyAnalyzerResult) : Prop :=
  x ∈ l /\ succeeds x = true /\ (#0 <! efficiency_score x) = true /\
  forall y, y ∈ l -> succeeds y = true -> (efficiency_score x <! efficiency_score y) = false.

Definition none_in (l : list ProxyAnalyzerResult) : Prop :=
  forall y, y ∈ l -> succeeds y = true -> (#0 <! efficiency_score y) = false.

(** The accumulator of the search for the best after a list. *)
Definition tracks (l : list ProxyAnalyzerResult) (acc : num * option num * option num) : Prop :=
  (acc = (#0, None, None) /\ none_in l) \/
  exists x, acc = (efficiency_score x, Some (concurrency x), Some (max_connections x)) /\ best_in l x.

Lemma ltb_irrefl x : (x <! x) = false.
Proof. destruct (x <! x) eqn:E; [|done]. rewrite <- E. by apply ltb_asym. Qed.

Lemma recommend_tracks l acc x : tracks l acc -> tracks (l ++ [x]) (recommend acc x).
Proof.
  intros H. destruct acc as [[best c] n]. unfold recommend, improves. fold (succeeds x).
  destruct (succeeds x) eqn:Es; [destruct (best <! efficiency_score x) eqn:Ee|]; simpl.
  - right. exists x. split; [done|]. split; [set_solver|]. split; [done|].
    destruct H as [[[= -> -> ->] Hn]|(y & [= -> -> ->] & Hy & Sy & Py & By)].
    + split; [done|]. intros z [Hz|Hz%list_elem_of_singleton]%elem_of_app Sz.
      * destruct (efficiency_score x <! efficiency_score z) eqn:E; [|done]. pose proof (num_ltb_real _ _ Ee) as [R0 Rx].
        pose proof (num_ltb_real _ _ E) as [_ Rz]. rewrite <- E. apply (ltb_negtrans _ #0); try done; [by apply ltb_asym|by apply Hn].
      * subst z. apply ltb_irrefl.
    + pose proof (num_ltb_real _ _ Ee) as [Ry Rx]. pose proof (num_ltb_real _ _ Py) as [R0 _].
      split.
      * destruct (#0 <! efficiency_score x) eqn:E; [done|]. pose proof (ltb_asym _ _ Ee) as Ha.
        assert (Hc : (#0 <! efficiency_score y) = false) by (apply (ltb_negtrans _ (efficiency_score x)); done). congruence.
      * intros z [Hz|Hz%list_elem_of_singleton]%elem_of_app Sz.
        -- destruct (efficiency_score x <! efficiency_score z) eqn:E; [|done]. pose proof (num_ltb_real _ _ E) as [_ Rz].
           rewrite <- E. apply (ltb_negtrans _ (efficiency_score y)); try done; [by apply ltb_asym|by apply By].
        -- subst z. apply ltb_irrefl.
  - destruct H as [[E Hn]|(y & E & Hy & Sy & Py & By)]; [left|right].
    + split; [done|]. injection E as -> _ _. intros z [Hz|Hz%list_elem_of_singleton]%elem_of_app Sz; [by apply Hn|by subst z].
    + exists y. split; [done|]. injection E as -> _ _. split; [set_solver|]. split; [done|]. split; [done|].
      intros z [Hz|Hz%list_elem_of_singleton]%elem_of_app Sz; [by apply By|by subst z].
  - destruct H as [[E Hn]|(y & E & Hy & Sy & Py & By)]; [left|right].
    + split; [done|]. intros z [Hz|Hz%list_elem_of_singleton]%elem_of_app Sz; [by apply Hn|congruence].
    + exists y. split; [done|]. split; [set_solver|]. split; [done|]. split; [done|].
      intros z [Hz|Hz%list_elem_of_singleton]%elem_of_app Sz; [by apply By|congruence].
Qed.

Lemma recommend_all l : tracks l (foldl recommend (#0, None, None) l).
Proof.
  induction l as [|x l IH] using rev_ind; [left; split; [done|]; intros y Hy; by apply elem_of_nil in Hy|].
  rewrite foldl_app. by apply recommend_tracks.
Qed.

Lemma conclude_results r : collectedResults (conclude r) = collectedResults r.
Proof. unfold conclude. by destruct (foldl recommend _ _) as [[? ?] ?]. Qed.

(** When the search is over the page shows everything that was collected and
    recommends the settings of a best result among those that mostly succeeded, or none
    if none is worth anything. *)
Theorem recommends_the_best n r a :
  exists resp,
    JMap.get (run_proxy r) (analyzerResults (completed n r a)) = Some (Some resp) /\
    Permutation (results resp) (collectedResults r) /\
    ((recommended_concurrency resp = None /\ recommended_connections resp = None /\ none_in (collectedResults r)) \/
     exists x, recommended_concurrency resp = Some (concurrency x) /\ recommended_connections resp = Some (max_connections x) /\
       best_in (collectedResults r) x).
Proof.
  exists (response "Performance analysis complete" (conclude r)). split; [|split].
  - unfold completed, finish. simpl. rewrite (proj2 (conclude_keeps r)). apply JMap.get_set_eq.
  - simpl. unfold sorted_results. by rewrite stable_sort_permutation, conclude_results.
  - simpl. pose proof (recommend_all (collectedResults r)) as H. unfold conclude.
    destruct (foldl recommend _ _) as [[best c] m]. simpl.
    destruct H as [[[= -> -> ->] Hn]|(x & [= -> -> ->] & Hx)]; [by left|right]. by exists x.
Qed.

Definition chosen (r : run) : num * option num * option num := (bestEfficiency r, recommendedConcurrency r, recommendedConnections r).

Lemma on_result_fields x r : collectedResults (on_result x r) = collectedResults r ++ [x] /\ chosen (on_result x r) = recommend (chosen r) x.
Proof. unfold on_result, recommend, chosen. simpl. by destruct (improves _ x). Qed.

(** While no test ended with its own recommendation, the running one is that of the
    end: nothing is decided twice. *)
Lemma running_recommendation proxy l :
  conclude (foldl (fun r x => on_result x r) (new_run proxy) l) = foldl (fun r x => on_result x r) (new_run proxy) l.
Proof.
  set (run_of l := foldl (fun r x => on_result x r) (new_run proxy) l).
  assert (H : collectedResults (run_of l) = l /\ chosen (run_of l) = foldl recommend (#0, None, None) l).
  { induction l as [|x l [I1 I2]] using rev_ind; [done|]. unfold run_of in *. rewrite !foldl_app. cbn [foldl].
    destruct (on_result_fields x (foldl (fun r x => on_result x r) (new_run proxy) l)) as [-> ->]. by rewrite I1, I2. }
  destruct H as [H1 H2]. unfold conclude. change (foldl _ _ l) with (run_of l). rewrite H1, <- H2. by destruct (run_of l).
Qed.

(** ** Where the code does less *)

Definition demo_result (level conn requests_ successes_ score : Z) : ProxyAnalyzerResult := {|
  concurrency := #level; max_connections := #conn; requests := #requests_; successes := #successes_; errors := #(requests_ - successes_);
  avg_latency_ms := #0; p50_latency_ms := #0; p95_latency_ms := #0; p99_latency_ms := #0; max_latency_ms := #0; min_latency_ms := #0;
  jitter_ms := #0; avg_ttfb_ms := #0; throughput_mbps := #0; efficiency_score := #score; status_counts := []; head_status_counts := None;
  download_status_counts := None; proxy_ip := None; ip_consistent := true |}.

(** An analysis that ends takes the page's abort controller away from the one that
    was started after it: that one can no longer be stopped. *)
Definition two_runs : analyzer := startAnalysis (Some "b") (startAnalysis (Some "a") new_analyzer).

Lemma second_analysis_cannot_be_stopped :
  (aborted <$> (runs (stopAnalysis two_runs) !! 1%nat)) = Some true /\
  (aborted <$> (runs (stopAnalysis (test_failed 0 (Failed None) two_runs)) !! 1%nat)) = Some false /\
  (is_running <$> (runs (test_failed 0 (Failed None) two_runs) !! 1%nat)) = Some true.
Proof. vm_compute. done. Qed.

(** A first result with many errors but a high score hides the good results of its
    level: the level counts as failed, although the view names a good result. *)
Definition hidden : run := foldl (fun r x => on_result x r) (new_run "p") [demo_result 32 1 100 50 900; demo_result 32 2 100 100 500].

Lemma bad_result_hides_good_ones :
  (level_efficiency 32 true hidden).1 = None /\
  (efficiency_score <$> findBestAnalyzerResult (collectedResults hidden)) = Some #500.
Proof. vm_compute. done. Qed.

(** ** The theorems at concrete inputs *)

Definition one_run : analyzer := startAnalysis (Some "p") new_analyzer.

Lemma one_run_reachable : reachable one_run.
Proof. eapply Next; [apply Begin|apply (StartRun (Some "p"))]. Qed.

Lemma levels_tested_once_witness : exists r, r ∈ runs one_run /\ NoDup (testedLevels r).
Proof.
  exists (set_tested [32] [] (new_run "p")). assert (H : set_tested [32] [] (new_run "p") ∈ runs one_run) by (left).
  split; [exact H|]. exact (proj1 (levels_tested_once one_run _ one_run_reachable H)).
Defined.

(** Seven answers without results, and an analysis of another proxy started and
    failed among them. *)
Definition seven_answers : analyzer :=
  foldl (fun a h => test_ended 0 h a) (test_failed 1 (Failed None) (startAnalysis (Some "q") (test_ended 0 false one_run)))
    [false; false; false; false; false; false].

Lemma seven_answers_path : answered_path 0 7 one_run seven_answers.
Proof.
  unfold seven_answers. cbn [foldl]. do 6 apply path_answer.
  eapply path_step; [|apply (Fails 1 None)]. eapply path_step; [|apply (StartRun (Some "q"))]. apply path_answer, path_start.
Qed.

Lemma analysis_ends_witness :
  JMap.get "p" (analyzerLoading seven_answers) <> Some true /\
  exists r, runs seven_answers !! 0%nat = Some r /\ at_phase r = Done.
Proof.
  destruct (analysis_ends one_run seven_answers 0 (set_tested [32] [] (new_run "p")) 7 one_run_reachable eq_refl
    seven_answers_path (le_n 7)) as ((r & H1 & _ & H2) & H).
  split; [|exists r; exact (conj H1 H2)]. apply H. intros r' Hr'. vm_compute in Hr'.
  apply elem_of_cons in Hr' as [->|Hr']; [reflexivity|].
  apply elem_of_cons in Hr' as [->|Hr']; [intros _; reflexivity|by apply elem_of_nil in Hr'].
Defined.
