(* ===== verification/NetworkPage.v ===== *)
(** * The network page ([features/network/hooks/useNetworkPageController.ts])

    The page over the proxies of a backend: the cached list, the form of a proxy, the
    selection with its bulk operations, connectivity tests and the settings found by
    an analysis ([ProxyAnalyzer]). Every operation is cut at its request: a request
    is added to those under way, and its answer is handled when it comes, in any
    order, by [answered]. Invalidated queries are logged; the refetch they cause, like
    the one every five seconds, is a step that replaces the cached list. *)

From Stdlib Require Import Ascii ZArith Lia SpecFloat.
From stdpp Require Import base list strings option.
From S2P Require Import Prelude JsString JsNum JsText JsValue JsObject JsUri ProxyAnalyzer.

(** ** Records ([api/types/network.ts]) *)

(** The parts of a place the page reads. *)
Record GeolocationData := {
  geo_ip : string;
  geo_city : option string;
  geo_region : option string;
  geo_country : option string;
  geo_country_code : option string;
  geo_isp : option string;
  geo_org : option string
}.

Record NetworkProxy := {
  id : string;
  url : string;
  username : option string;
  enabled : option bool;
  proxy_max_connections : num;
  group : option string;
  assigned_auths : list num;
  active_assigned_count : option num;
  geolocation : option GeolocationData;
  guest_lookup_timeout : option num
}.

Definition DIRECT_CONNECTION_PROXY : NetworkProxy := {|
  id := "direct"; url := "direct"; username := None; enabled := Some true; proxy_max_connections := #(-1); group := None;
  assigned_auths := []; active_assigned_count := None; geolocation := None; guest_lookup_timeout := None |}.

Inductive ProxyTestStatus := TestIdle | Testing | TestSuccess | TestError.

Record AddNetworkProxyRequest := {
  add_url : string;
  add_username : option string;
  add_password : option string;
  add_max_connections : option num;
  add_group : option string;
  add_timeout : option num
}.

(** In an update an absent field keeps what is stored; [Some None] is [null]. *)
Record UpdateNetworkProxyRequest := {
  up_username : option string;
  up_password : option string;
  up_enabled : option bool;
  up_max_connections : option num;
  up_max_concurrency : option (option num);
  up_group : option (option string);
  up_timeout : option (option num)
}.

Record BulkProxyItem := {
  item_url : string;
  item_username : option string;
  item_password : option string;
  item_enabled : option bool;
  item_max_connections : option num;
  item_group : option string
}.

Record BulkSyncProxiesRequest := {
  sync_proxies : option (list BulkProxyItem);
  sync_raw_text : option string;
  sync_default_group : option string;
  sync_target_group : option string
}.

Record BulkTestItem := { test_url : string; test_username : option string; test_password : option string }.
Record BulkTestItemResult := { tested_url : string; test_ok : bool; test_message : string; test_latency : option num }.

(** ** Requests and their answers *)

Inductive call :=
| AddProxy (request : AddNetworkProxyRequest)
| UpdateProxy (proxyUrl : string) (data : UpdateNetworkProxyRequest)
| SetProxyEnabled (proxyUrl : string) (on : bool)
| DeleteProxy (proxyUrl : string)
| AssignProxy (auth_id : num) (proxy_url : option string)
| TestForm (request : AddNetworkProxyRequest)
| TestSingle (proxyUrl : string) (name : option string)
| BulkAdd (items : list BulkProxyItem)
| BulkSync (request : BulkSyncProxiesRequest)
| BulkGroup (proxyUrls : list string) (to : option string)
| BulkState (proxyUrls : list string) (on : bool)
| BulkDelete (proxyUrls : list string)
| BulkEdit (proxyUrls : list string) (connections concurrency_ timeout : option (option num))
| BulkTest (targets : list NetworkProxy)
| ProbeItems (items : list BulkTestItem)
| FetchGeolocation (proxyUrl : string)
| FetchActiveGeolocation (target : NetworkProxy)
| FetchMediaPool
| GroupSettings (target : NetworkProxy) (name : string) (connections : num) (concurrency_ : option num)
| ProxySettings (target : NetworkProxy) (endpoint : string) (connections : num) (concurrency_ : option num)
| SettingsRefetch (heading text : string).

Inductive reply :=
| RFailed (text : option string)
| RDone
| RProxy (p : NetworkProxy)
| RTest (ok : bool) (text : string) (latency : option num)
| RAdded (added updated : list NetworkProxy) (skipped : list string)
| RSynced (text : string) (kept added deleted : nat)
| RCount (count : num) (text : string)
| RTests (l : list BulkTestItemResult)
| RGeo (g : GeolocationData)
| RMedia (ok : bool) (urls : list string) (text : option string).

(** The error's message, for what is not an [Error] the fallback. *)
Definition error_text (text : option string) (fallback : string) : string := text ?? fallback.

(** ** The page's state *)

Record proxy_form := {
  newProxyUrl : string;
  newProxyUsername : string;
  newProxyPassword : string;
  newProxyGroup : string;
  newProxyMaxConnections : num;
  newProxyGuestLookupTimeout : option num;
  formError : option string;
  testStatus : ProxyTestStatus;
  testMessage : option string;
  testLatencyMs : option num
}.

Definition empty_form : proxy_form := {|
  newProxyUrl := EmptyString; newProxyUsername := EmptyString; newProxyPassword := EmptyString; newProxyGroup := EmptyString;
  newProxyMaxConnections := #(-1); newProxyGuestLookupTimeout := None; formError := None; testStatus := TestIdle; testMessage := None;
  testLatencyMs := None |}.

Inductive BulkModalMode := ModeImport | ModeEdit.
Inductive Tone := ToneSuccess | ToneDanger.
Record Notice := { tone : Tone; title : string; detail : string }.
Record QuickTest := { qt_testing : bool; qt_success : option bool; qt_latency : option num; qt_message : string }.

Record dialogs := {
  showAddModal : bool;
  editingProxy : option NetworkProxy;
  showBulkModal : bool;
  bulkModalMode : BulkModalMode;
  showBulkEditModal : bool;
  showAnalyzerModal : bool;
  activeAnalyzerProxy : option NetworkProxy
}.

Record extras := {
  mediaPoolUrls : list string;
  mediaPoolLoading : bool;
  mediaPoolError : option string;
  geoLoading : bool;
  geoError : option string
}.

Record page := {
  cached : option (list NetworkProxy);
  form : proxy_form;
  dialog : dialogs;
  extra : extras;
  searchQuery : string;
  selectedGroupFilter : option string;
  selectedProxyIds : list string;
  proxyStatePending : JMap.t bool;
  proxyStateErrors : JMap.t (option string);
  applySettingsPending : bool;
  applySettingsNotice : option Notice;
  isBulkTesting : bool;
  proxyQuickTestResults : JMap.t QuickTest;
  analysis : analyzer;
  invalidated : list string;
  inflight : list call
}.

Definition new_page : page := {|
  cached := None; form := empty_form;
  dialog := {| showAddModal := false; editingProxy := None; showBulkModal := false; bulkModalMode := ModeImport; showBulkEditModal := false;
               showAnalyzerModal := false; activeAnalyzerProxy := None |};
  extra := {| mediaPoolUrls := []; mediaPoolLoading := false; mediaPoolError := None; geoLoading := false; geoError := None |};
  searchQuery := EmptyString; selectedGroupFilter := None; selectedProxyIds := []; proxyStatePending := []; proxyStateErrors := [];
  applySettingsPending := false; applySettingsNotice := None; isBulkTesting := false; proxyQuickTestResults := [];
  analysis := new_analyzer; invalidated := []; inflight := [] |}.

(** One setter per group of [useState]s that change together. *)
Definition with_cached (f : option (list NetworkProxy) -> option (list NetworkProxy)) (p : page) : page := {|
  cached := f (cached p); form := form p; dialog := dialog p; extra := extra p; searchQuery := searchQuery p;
  selectedGroupFilter := selectedGroupFilter p; selectedProxyIds := selectedProxyIds p; proxyStatePending := proxyStatePending p;
  proxyStateErrors := proxyStateErrors p; applySettingsPending := applySettingsPending p; applySettingsNotice := applySettingsNotice p;
  isBulkTesting := isBulkTesting p; proxyQuickTestResults := proxyQuickTestResults p; analysis := analysis p; invalidated := invalidated p;
  inflight := inflight p |}.

Definition with_form (f : proxy_form -> proxy_form) (p : page) : page := {|
  cached := cached p; form := f (form p); dialog := dialog p; extra := extra p; searchQuery := searchQuery p;
  selectedGroupFilter := selectedGroupFilter p; selectedProxyIds := selectedProxyIds p; proxyStatePending := proxyStatePending p;
  proxyStateErrors := proxyStateErrors p; applySettingsPending := applySettingsPending p; applySettingsNotice := applySettingsNotice p;
  isBulkTesting := isBulkTesting p; proxyQuickTestResults := proxyQuickTestResults p; analysis := analysis p; invalidated := invalidated p;
  inflight := inflight p |}.

Definition with_dialog (f : dialogs -> dialogs) (p : page) : page := {|
  cached := cached p; form := form p; dialog := f (dialog p); extra := extra p; searchQuery := searchQuery p;
  selectedGroupFilter := selectedGroupFilter p; selectedProxyIds := selectedProxyIds p; proxyStatePending := proxyStatePending p;
  proxyStateErrors := proxyStateErrors p; applySettingsPending := applySettingsPending p; applySettingsNotice := applySettingsNotice p;
  isBulkTesting := isBulkTesting p; proxyQuickTestResults := proxyQuickTestResults p; analysis := analysis p; invalidated := invalidated p;
  inflight := inflight p |}.

Definition with_extra (f : extras -> extras) (p : page) : page := {|
  cached := cached p; form := form p; dialog := dialog p; extra := f (extra p); searchQuery := searchQuery p;
  selectedGroupFilter := selectedGroupFilter p; selectedProxyIds := selectedProxyIds p; proxyStatePending := proxyStatePending p;
  proxyStateErrors := proxyStateErrors p; applySettingsPending := applySettingsPending p; applySettingsNotice := applySettingsNotice p;
  isBulkTesting := isBulkTesting p; proxyQuickTestResults := proxyQuickTestResults p; analysis := analysis p; invalidated := invalidated p;
  inflight := inflight p |}.

Definition set_filters (query : string) (groupFilter : option string) (selection : list string) (p : page) : page := {|
  cached := cached p; form := form p; dialog := dialog p; extra := extra p; searchQuery := query;
  selectedGroupFilter := groupFilter; selectedProxyIds := selection; proxyStatePending := proxyStatePending p;
  proxyStateErrors := proxyStateErrors p; applySettingsPending := applySettingsPending p; applySettingsNotice := applySettingsNotice p;
  isBulkTesting := isBulkTesting p; proxyQuickTestResults := proxyQuickTestResults p; analysis := analysis p; invalidated := invalidated p;
  inflight := inflight p |}.

Definition set_state_rows (pending : JMap.t bool) (errs : JMap.t (option string)) (p : page) : page := {|
  cached := cached p; form := form p; dialog := dialog p; extra := extra p; searchQuery := searchQuery p;
  selectedGroupFilter := selectedGroupFilter p; selectedProxyIds := selectedProxyIds p; proxyStatePending := pending;
  proxyStateErrors := errs; applySettingsPending := applySettingsPending p; applySettingsNotice := applySettingsNotice p;
  isBulkTesting := isBulkTesting p; proxyQuickTestResults := proxyQuickTestResults p; analysis := analysis p; invalidated := invalidated p;
  inflight := inflight p |}.

Definition set_apply (pending : bool) (n : option Notice) (p : page) : page := {|
  cached := cached p; form := form p; dialog := dialog p; extra := extra p; searchQuery := searchQuery p;
  selectedGroupFilter := selectedGroupFilter p; selectedProxyIds := selectedProxyIds p; proxyStatePending := proxyStatePending p;
  proxyStateErrors := proxyStateErrors p; applySettingsPending := pending; applySettingsNotice := n;
  isBulkTesting := isBulkTesting p; proxyQuickTestResults := proxyQuickTestResults p; analysis := analysis p; invalidated := invalidated p;
  inflight := inflight p |}.

Definition set_tests (testing : bool) (quick : JMap.t QuickTest) (p : page) : page := {|
  cached := cached p; form := form p; dialog := dialog p; extra := extra p; searchQuery := searchQuery p;
  selectedGroupFilter := selectedGroupFilter p; selectedProxyIds := selectedProxyIds p; proxyStatePending := proxyStatePending p;
  proxyStateErrors := proxyStateErrors p; applySettingsPending := applySettingsPending p; applySettingsNotice := applySettingsNotice p;
  isBulkTesting := testing; proxyQuickTestResults := quick; analysis := analysis p; invalidated := invalidated p;
  inflight := inflight p |}.

Definition with_analysis (f : analyzer -> analyzer) (p : page) : page := {|
  cached := cached p; form := form p; dialog := dialog p; extra := extra p; searchQuery := searchQuery p;
  selectedGroupFilter := selectedGroupFilter p; selectedProxyIds := selectedProxyIds p; proxyStatePending := proxyStatePending p;
  proxyStateErrors := proxyStateErrors p; applySettingsPending := applySettingsPending p; applySettingsNotice := applySettingsNotice p;
  isBulkTesting := isBulkTesting p; proxyQuickTestResults := proxyQuickTestResults p; analysis := f (analysis p); invalidated := invalidated p;
  inflight := inflight p |}.

Definition set_traffic (stale : list string) (calls : list call) (p : page) : page := {|
  cached := cached p; form := form p; dialog := dialog p; extra := extra p; searchQuery := searchQuery p;
  selectedGroupFilter := selectedGroupFilter p; selectedProxyIds := selectedProxyIds p; proxyStatePending := proxyStatePending p;
  proxyStateErrors := proxyStateErrors p; applySettingsPending := applySettingsPending p; applySettingsNotice := applySettingsNotice p;
  isBulkTesting := isBulkTesting p; proxyQuickTestResults := proxyQuickTestResults p; analysis := analysis p; invalidated := stale;
  inflight := calls |}.

Definition send (c : call) (p : page) : page := set_traffic (invalidated p) (inflight p ++ [c]) p.
Definition invalidate (key : string) (p : page) : page := set_traffic (invalidated p ++ [key]) (inflight p) p.
Definition invalidateMpsProxyPreview : page -> page := invalidate "mps-proxy-preview".
Definition notify (t : Tone) (heading text : string) (p : page) : page :=
  set_apply (applySettingsPending p) (Some {| tone := t; title := heading; detail := text |}) p.
Definition set_selection (l : list string) (p : page) : page := set_filters (searchQuery p) (selectedGroupFilter p) l p.

(** ** The cached list *)

Definition proxies (p : page) : list NetworkProxy := cached p ?? [].

(** What of an update can change the routes of a job. *)
Record route_settings := { next_enabled : option bool; next_connections : option num }.

Definition proxyRouteSettingsChanged (proxyUrl : string) (next : route_settings) (p : page) : bool :=
  match next_enabled next, next_connections next with
  | None, None => false
  | _, _ =>
      match cached p with
      | None => true
      | Some current =>
          match find_first (fun x => url x =s proxyUrl) current with
          | None => true
          | Some x =>
              match next_enabled next with Some b => negb (Bool.eqb (enabled x ?? true) b) | None => false end
              || match next_connections next with Some n => negb (proxy_max_connections x =! n) | None => false end
          end
      end
  end.

Definition anyProxyRouteSettingsChanged (proxyUrls : list string) (next : route_settings) (p : page) : bool :=
  some (fun u => proxyRouteSettingsChanged u next p) proxyUrls.

Definition group_name (x : NetworkProxy) : string := trim (group x ?? EmptyString).

Definition existingGroups (p : page) : list string :=
  sort_strings (uniq (keep truthy (map group_name (proxies p)))).

Definition map_cached (f : NetworkProxy -> NetworkProxy) : page -> page := with_cached (fmap (M := option) (map f)).

Definition set_geolocation (g : GeolocationData) (x : NetworkProxy) : NetworkProxy := {|
  id := id x; url := url x; username := username x; enabled := enabled x; proxy_max_connections := proxy_max_connections x; group := group x;
  assigned_auths := assigned_auths x; active_assigned_count := active_assigned_count x; geolocation := Some g;
  guest_lookup_timeout := guest_lookup_timeout x |}.

Definition set_settings (on : option bool) (connections : num) (to : option string) (timeout : option num) (x : NetworkProxy) : NetworkProxy := {|
  id := id x; url := url x; username := username x; enabled := on; proxy_max_connections := connections; group := to;
  assigned_auths := assigned_auths x; active_assigned_count := active_assigned_count x; geolocation := geolocation x;
  guest_lookup_timeout := timeout |}.

Definition set_enabled (on : bool) (x : NetworkProxy) : NetworkProxy :=
  set_settings (Some on) (proxy_max_connections x) (group x) (guest_lookup_timeout x) x.
Definition set_group (to : option string) (x : NetworkProxy) : NetworkProxy :=
  set_settings (enabled x) (proxy_max_connections x) to (guest_lookup_timeout x) x.

Definition updateCachedProxyGeolocation (matches : NetworkProxy -> bool) (g : GeolocationData) : page -> page :=
  map_cached (fun x => if matches x then set_geolocation g x else x).

Definition fetchProxyGeolocation (proxyUrl : string) : page -> page := send (FetchGeolocation proxyUrl).

Definition refreshProxyGeolocations (proxyUrls : list string) (p : page) : page :=
  foldl (fun p u => fetchProxyGeolocation u p) p (uniq (keep truthy proxyUrls)).

(** ** The form *)

Definition set_test (s : ProxyTestStatus) (text : option string) (latency : option num) (f : proxy_form) : proxy_form := {|
  newProxyUrl := newProxyUrl f; newProxyUsername := newProxyUsername f; newProxyPassword := newProxyPassword f;
  newProxyGroup := newProxyGroup f; newProxyMaxConnections := newProxyMaxConnections f;
  newProxyGuestLookupTimeout := newProxyGuestLookupTimeout f; formError := formError f; testStatus := s; testMessage := text;
  testLatencyMs := latency |}.

Definition set_form_error (e : option string) (f : proxy_form) : proxy_form := {|
  newProxyUrl := newProxyUrl f; newProxyUsername := newProxyUsername f; newProxyPassword := newProxyPassword f;
  newProxyGroup := newProxyGroup f; newProxyMaxConnections := newProxyMaxConnections f;
  newProxyGuestLookupTimeout := newProxyGuestLookupTimeout f; formError := e; testStatus := testStatus f; testMessage := testMessage f;
  testLatencyMs := testLatencyMs f |}.

(** Typing: the fields change, and the effect on four of them forgets the last test. *)
Definition set_fields (u name pass to : string) (connections : num) (timeout : option num) (f : proxy_form) : proxy_form :=
  let changed := negb ((u =s newProxyUrl f) && (name =s newProxyUsername f) && (pass =s newProxyPassword f) && (to =s newProxyGroup f)) in
  let f := {| newProxyUrl := u; newProxyUsername := name; newProxyPassword := pass; newProxyGroup := to; newProxyMaxConnections := connections;
              newProxyGuestLookupTimeout := timeout; formError := formError f; testStatus := testStatus f; testMessage := testMessage f;
              testLatencyMs := testLatencyMs f |} in
  if changed then set_test TestIdle None None f else f.

Definition resetProxyFormState (p : page) : page := with_form (fun _ => empty_form) p.

Definition set_editing (shown : bool) (x : option NetworkProxy) (d : dialogs) : dialogs := {|
  showAddModal := shown; editingProxy := x; showBulkModal := showBulkModal d; bulkModalMode := bulkModalMode d;
  showBulkEditModal := showBulkEditModal d; showAnalyzerModal := showAnalyzerModal d; activeAnalyzerProxy := activeAnalyzerProxy d |}.

Definition set_bulk (shown : bool) (mode : BulkModalMode) (edit : bool) (d : dialogs) : dialogs := {|
  showAddModal := showAddModal d; editingProxy := editingProxy d; showBulkModal := shown; bulkModalMode := mode; showBulkEditModal := edit;
  showAnalyzerModal := showAnalyzerModal d; activeAnalyzerProxy := activeAnalyzerProxy d |}.

Definition set_analyzer (shown : bool) (x : option NetworkProxy) (d : dialogs) : dialogs := {|
  showAddModal := showAddModal d; editingProxy := editingProxy d; showBulkModal := showBulkModal d; bulkModalMode := bulkModalMode d;
  showBulkEditModal := showBulkEditModal d; showAnalyzerModal := shown; activeAnalyzerProxy := x |}.

Definition closeProxyFormModal (p : page) : page := resetProxyFormState (with_dialog (set_editing false None) p).
Definition openAddModal (p : page) : page := with_dialog (set_editing true None) (resetProxyFormState p).

Definition openEditModal (x : NetworkProxy) (p : page) : page :=
  with_form (fun _ => {|
    newProxyUrl := url x; newProxyUsername := username x ?? EmptyString; newProxyPassword := EmptyString; newProxyGroup := group x ?? EmptyString;
    newProxyMaxConnections := proxy_max_connections x; newProxyGuestLookupTimeout := guest_lookup_timeout x; formError := None;
    testStatus := TestIdle; testMessage := None; testLatencyMs := None |}) (with_dialog (set_editing true (Some x)) p).

Definition openBulkModal (p : page) : page := with_dialog (fun d => set_bulk true ModeImport (showBulkEditModal d) d) p.
Definition openBulkEditProxiesModal (p : page) : page := with_dialog (fun d => set_bulk true ModeEdit (showBulkEditModal d) d) p.
Definition closeBulkModal (p : page) : page := with_dialog (fun d => set_bulk false (bulkModalMode d) (showBulkEditModal d) d) p.
Definition setShowBulkEditModal (shown : bool) (p : page) : page := with_dialog (fun d => set_bulk (showBulkModal d) (bulkModalMode d) shown d) p.

(** [s || undefined], [s || null] *)
Definition nonempty_text (s : string) : option string := if truthy s then Some s else None.

Definition handleSaveProxy (p : page) : page :=
  let f := form p in
  let trimmedUrl := trim (newProxyUrl f) in
  if negb (truthy trimmedUrl) then with_form (set_form_error (Some "Proxy URL is required.")) p
  else
    let p := with_form (set_form_error None) p in
    match editingProxy (dialog p) with
    | Some x => send (UpdateProxy (url x) {|
        up_username := Some (trim (newProxyUsername f)); up_password := nonempty_text (newProxyPassword f); up_enabled := None;
        up_max_connections := Some (newProxyMaxConnections f); up_max_concurrency := None;
        up_group := Some (nonempty_text (trim (newProxyGroup f))); up_timeout := Some (newProxyGuestLookupTimeout f) |}) p
    | None => send (AddProxy {|
        add_url := trimmedUrl; add_username := nonempty_text (trim (newProxyUsername f)); add_password := nonempty_text (newProxyPassword f);
        add_max_connections := Some (newProxyMaxConnections f); add_group := nonempty_text (trim (newProxyGroup f));
        add_timeout := newProxyGuestLookupTimeout f |}) p
    end.

Definition testProxyMutation (p : page) : page :=
  let f := form p in
  send (TestForm {| add_url := trim (newProxyUrl f); add_username := nonempty_text (trim (newProxyUsername f));
                    add_password := nonempty_text (newProxyPassword f); add_max_connections := None; add_group := None; add_timeout := None |})
    (with_form (set_test Testing None None) p).

(** ** What the list shows *)

(** [value?.toLowerCase().includes(query)] *)
Definition field_matches (query : string) (v : option string) : bool :=
  match v with Some s => includes (to_lower s) query | None => false end.

Definition is_enabled (x : NetworkProxy) : bool := negb (bool_decide (enabled x = Some false)).

Definition searchable_fields (x : NetworkProxy) : list (option string) :=
  let g {A} (f : GeolocationData -> option A) : option A := geolocation x ?> f in
  [Some (url x); username x; group x; Some (if is_enabled x then "enabled active" else "disabled"); geo_ip <$> geolocation x;
   g geo_city; g geo_region; g geo_country; g geo_country_code; g geo_isp; g geo_org].

Definition in_group (groupFilter : option string) (x : NetworkProxy) : bool :=
  match truthy_opt groupFilter with
  | None => true
  | Some f => if f =s "__ungrouped__" then negb (truthy (group_name x)) else opt_eqb (trim <$> group x) f
  end.

Definition filteredProxies (p : page) : list NetworkProxy :=
  let l := keep (in_group (selectedGroupFilter p)) (proxies p) in
  let normalizedQuery := to_lower (trim (searchQuery p)) in
  if negb (truthy normalizedQuery) then l
  else keep (fun x => some (field_matches normalizedQuery) (searchable_fields x)) l.

Definition totalAssigned (p : page) : nat := foldl (fun sum x => (sum + length (assigned_auths x))%nat) 0%nat (proxies p).
Definition enabledCount (p : page) : nat := length (keep is_enabled (proxies p)).
Definition disabledCount (p : page) : nat := (length (proxies p) - enabledCount p)%nat.
Definition unassignedCount (p : page) : nat :=
  length (keep (fun x => is_enabled x && ((active_assigned_count x ?? #0) =! #0)) (proxies p)).

(** ** The selection *)

Definition handleToggleSelectProxy (x : NetworkProxy) (p : page) : page :=
  set_selection (if str_in (url x) (selectedProxyIds p) then set_delete (url x) (selectedProxyIds p) else set_add (url x) (selectedProxyIds p)) p.

Definition all_selected (l : list NetworkProxy) (p : page) : bool :=
  (0 <? length l)%nat && every (fun x => str_in (url x) (selectedProxyIds p)) l.

Definition handleToggleSelectGroup (groupProxies : list NetworkProxy) (p : page) : page :=
  set_selection (foldl (fun l x => if all_selected groupProxies p then set_delete (url x) l else set_add (url x) l) (selectedProxyIds p) groupProxies) p.

Definition handleSelectAllProxies (p : page) : page :=
  set_selection (if all_selected (filteredProxies p) p then [] else uniq (map url (filteredProxies p))) p.

Definition handleClearSelectedProxies (p : page) : page := set_selection [] p.

(** ** Bulk operations *)

Definition handleBulkEditSelected (connections concurrency_ timeout : option (option num)) (p : page) : page :=
  match selectedProxyIds p with [] => p | urls => send (BulkEdit urls connections concurrency_ timeout) p end.

Definition handleBulkEnableSelected (urls : list string) (p : page) : page :=
  match urls with [] => p | _ => send (BulkState urls true) p end.
Definition handleBulkDisableSelected (urls : list string) (p : page) : page :=
  match urls with [] => p | _ => send (BulkState urls false) p end.

(** [confirmed] is the answer of [window.confirm]. *)
Definition handleBulkDeleteSelected (confirmed : bool) (urls : list string) (p : page) : page :=
  match urls with [] => p | _ => if confirmed then send (BulkDelete urls) p else p end.

Definition set_quick (targets : list NetworkProxy) (f : NetworkProxy -> QuickTest) (m : JMap.t QuickTest) : JMap.t QuickTest :=
  foldl (fun m t => JMap.set (url t) (f t) m) m targets.

Definition probing : QuickTest := {| qt_testing := true; qt_success := None; qt_latency := None; qt_message := "Probing route reachability…" |}.

Definition handleBulkTestSelected (urls : list string) (p : page) : page :=
  let targets := keep (fun x => str_in (url x) urls) (proxies p) in
  if (length urls =? 0)%nat || isBulkTesting p then p
  else match targets with
       | [] => p
       | _ =>
           let p := refreshProxyGeolocations (map url targets) (set_tests true (proxyQuickTestResults p) p) in
           send (BulkTest targets) (set_tests true (set_quick targets (fun _ => probing) (proxyQuickTestResults p)) p)
       end.

(** [new Map] of the results: the last one of a URL. *)
Definition result_of (l : list BulkTestItemResult) (u : string) : option BulkTestItemResult :=
  find_first (fun r => tested_url r =s u) (rev l).

Definition quick_result (l : list BulkTestItemResult) (t : NetworkProxy) : QuickTest :=
  match result_of l (url t) with
  | Some r => {| qt_testing := false; qt_success := Some (test_ok r); qt_latency := test_latency r; qt_message := test_message r |}
  | None => {| qt_testing := false; qt_success := Some false; qt_latency := None; qt_message := "No response received" |}
  end.

Definition show_count (n : nat) : string := show_Z (Z.of_nat n).

Definition bulk_tested (targets : list NetworkProxy) (l : list BulkTestItemResult) (p : page) : page :=
  let p := set_tests (isBulkTesting p) (set_quick targets (quick_result l) (proxyQuickTestResults p)) p in
  let passed := length (keep test_ok l) in
  let p := notify (if (passed =? length targets)%nat then ToneSuccess else ToneDanger) "Bulk Connectivity Test Complete"
    (show_count passed +:+ "/" +:+ show_count (length targets) +:+ " tested proxies are active and reachable.") p in
  set_tests false (proxyQuickTestResults p) p.

Definition bulk_test_failed (targets : list NetworkProxy) (text : option string) (p : page) : page :=
  let failed := {| qt_testing := false; qt_success := Some false; qt_latency := None; qt_message := error_text text "Test failed" |} in
  let p := set_tests (isBulkTesting p) (set_quick targets (fun _ => failed) (proxyQuickTestResults p)) p in
  let p := notify ToneDanger "Bulk Test Failed" (error_text text "Unknown error during bulk test") p in
  set_tests false (proxyQuickTestResults p) p.

(** ** Other operations *)

Definition handleBulkTest (items : list BulkTestItem) (p : page) : page :=
  send (ProbeItems items) (refreshProxyGeolocations (map test_url items) p).

Definition testSingleReachability (x : NetworkProxy) (p : page) : page := send (TestSingle (url x) (truthy_opt (username x))) p.

Definition handleDeleteProxy (x : NetworkProxy) (p : page) : page := send (DeleteProxy (url x)) p.

(** With the [onMutate] of the state's mutation. *)
Definition handleToggleProxyEnabled (x : NetworkProxy) (p : page) : page :=
  let p := set_state_rows (JMap.set (url x) true (proxyStatePending p)) (JMap.set (url x) None (proxyStateErrors p)) p in
  send (SetProxyEnabled (url x) (negb (is_enabled x))) p.

Definition openAnalyzerModal (x : NetworkProxy) (p : page) : page :=
  let p := with_dialog (set_analyzer true (Some x)) p in
  set_apply (applySettingsPending p) None (with_analysis (open_analyzer (id x)) p).

Definition analyzeGroupRepresentative (groupName : string) (p : page) : page :=
  let wanted x := opt_eqb (trim <$> group x) (trim groupName) in
  match find_first (fun x => wanted x && is_enabled x) (proxies p) ??? find_first wanted (proxies p) with
  | Some x => openAnalyzerModal x p
  | None => p
  end.

Definition active_id (p : page) : option string := id <$> activeAnalyzerProxy (dialog p).

Definition start_analysis (p : page) : page := with_analysis (startAnalysis (active_id p)) p.
Definition stop_analysis (p : page) : page := with_analysis stopAnalysis p.

Definition analysis_data (p : page) : option ProxyAnalyzerResponse :=
  match active_id p with Some i => JMap.get i (analyzerResults (analysis p)) ?> (fun r => r) | None => None end.

Definition set_media (urls : list string) (loading : bool) (e : option string) (x : extras) : extras := {|
  mediaPoolUrls := urls; mediaPoolLoading := loading; mediaPoolError := e; geoLoading := geoLoading x; geoError := geoError x |}.
Definition set_geo (loading : bool) (e : option string) (x : extras) : extras := {|
  mediaPoolUrls := mediaPoolUrls x; mediaPoolLoading := mediaPoolLoading x; mediaPoolError := mediaPoolError x; geoLoading := loading; geoError := e |}.

Definition fetchMediaPool (p : page) : page :=
  send FetchMediaPool (with_extra (fun x => set_media (mediaPoolUrls x) true None x) p).

Definition fetchGeolocation (p : page) : page :=
  match activeAnalyzerProxy (dialog p) with
  | None => p
  | Some x => send (FetchActiveGeolocation x) (with_extra (set_geo true None) p)
  end.

(** Where a direct connection or a proxy keeps its settings. *)
Definition settings_endpoint (x : NetworkProxy) : string :=
  if id x =s id DIRECT_CONNECTION_PROXY then "/api/v1/proxies/network" else "/api/v1/proxies/" +:+ encodeURIComponent (url x).

Definition applyOptimalSettings (applyToGroup : bool) (p : page) : page :=
  match activeAnalyzerProxy (dialog p), analysis_data p with
  | Some x, Some data =>
      match truthy_num (recommended_connections data) None with
      | Some connections =>
          if applySettingsPending p then p
          else
            let p := set_apply true None p in
            match truthy_opt (group x) with
            | Some name => if applyToGroup then send (GroupSettings x name connections (recommended_concurrency data)) p
                           else send (ProxySettings x (settings_endpoint x) connections (recommended_concurrency data)) p
            | None => send (ProxySettings x (settings_endpoint x) connections (recommended_concurrency data)) p
            end
      | None => p
      end
  | _, _ => p
  end.

(** ** Answers *)

Definition invalidate_proxies : page -> page := invalidate "proxies".
Definition preview_if (changed : bool) (p : page) : page := if changed then invalidateMpsProxyPreview p else p.

Definition proxy_added (x : NetworkProxy) (p : page) : page :=
  let p := with_cached (fun o => Some (keep (fun y => negb (id y =s id x) && negb (url y =s url x)) (o ?? []) ++ [x])) p in
  closeProxyFormModal (fetchProxyGeolocation (url x) (invalidateMpsProxyPreview (invalidate_proxies p))).

Definition proxy_edited (proxyUrl : string) (data : UpdateNetworkProxyRequest) (p : page) : page :=
  let p := invalidate_proxies p in
  let p := preview_if (proxyRouteSettingsChanged proxyUrl {| next_enabled := up_enabled data; next_connections := up_max_connections data |} p) p in
  closeProxyFormModal (fetchProxyGeolocation proxyUrl p).

Definition map_urls (proxyUrls : list string) (f : NetworkProxy -> NetworkProxy) : page -> page :=
  map_cached (fun x => if str_in (url x) proxyUrls then f x else x).

Definition state_changed (proxyUrl : string) (on : bool) (p : page) : page :=
  let routesChanged := proxyRouteSettingsChanged proxyUrl {| next_enabled := Some on; next_connections := None |} p in
  preview_if routesChanged (invalidate_proxies (map_urls [proxyUrl] (set_enabled on) p)).

Definition state_settled (proxyUrl : string) (p : page) : page :=
  set_state_rows (JMap.set proxyUrl false (proxyStatePending p)) (proxyStateErrors p) p.

Definition proxy_assigned (auth_id : num) (proxy_url : option string) (p : page) : page :=
  let changed := match cached p with
                 | None => true
                 | Some l => negb (bool_decide ((url <$> find_first (fun x => some (fun a => same_value_zero a auth_id) (assigned_auths x)) l) = proxy_url))
                 end in
  preview_if changed (invalidate "auths" (invalidate "proxy-auths" (invalidate_proxies p))).

Definition form_tested (r : reply) (p : page) : page :=
  let p := match r with
           | RTest ok text latency => with_form (set_test (if ok then TestSuccess else TestError) (Some text) latency) p
           | RFailed text => with_form (fun f => set_test TestError (Some (error_text text EmptyString)) (testLatencyMs f) f) p
           | _ => p
           end in
  refreshProxyGeolocations [trim (newProxyUrl (form p))] p.

Definition hide_bulk (p : page) : page := closeBulkModal p.

Definition bulk_added (added updated : list NetworkProxy) (skipped : list string) (p : page) : page :=
  let routesChanged := (0 <? length added)%nat
    || some (fun x => proxyRouteSettingsChanged (url x) {| next_enabled := enabled x; next_connections := Some (proxy_max_connections x) |} p) updated in
  notify ToneSuccess "Bulk Import Complete"
    ("Added " +:+ show_count (length added) +:+ " routes, updated " +:+ show_count (length updated) +:+ ", skipped "
     +:+ show_count (length skipped) +:+ ".")
    (hide_bulk (preview_if routesChanged (invalidate_proxies p))).

Definition bulk_synced (text : string) (kept added deleted : nat) (p : page) : page :=
  notify ToneSuccess "Bulk Proxies Edit Complete"
    (str_or text ("Kept " +:+ show_count kept +:+ " existing proxies, added " +:+ show_count added +:+ " new routes, deleted "
                  +:+ show_count deleted +:+ " omitted routes."))
    (hide_bulk (invalidateMpsProxyPreview (invalidate_proxies p))).

Definition group_assigned (proxyUrls : list string) (to : option string) (count : num) (text : string) (p : page) : page :=
  if count =! #0 then
    notify ToneDanger "No Routes Updated" "The API did not match any selected proxy URLs, so no group name was saved." p
  else
    let nextGroup := truthy_opt (trim <$> to) in
    notify ToneSuccess "Group Assignment Updated" text (set_selection [] (invalidate_proxies (map_urls proxyUrls (set_group nextGroup) p))).

Definition bulk_state_changed (proxyUrls : list string) (on : bool) (count : num) (text : string) (p : page) : page :=
  let routesChanged := (count >! #0) && anyProxyRouteSettingsChanged proxyUrls {| next_enabled := Some on; next_connections := None |} p in
  notify ToneSuccess (if on then "Proxies Enabled" else "Proxies Disabled") text
    (preview_if routesChanged (invalidate_proxies (map_urls proxyUrls (set_enabled on) p))).

Definition bulk_deleted (proxyUrls : list string) (count : num) (text : string) (p : page) : page :=
  let p := with_cached (fmap (M := option) (keep (fun x => negb (str_in (url x) proxyUrls)))) p in
  let p := preview_if (count >! #0) (invalidate_proxies p) in
  notify ToneSuccess "Proxies Removed" text (set_selection (foldl (fun l u => set_delete u l) (selectedProxyIds p) proxyUrls) p).

(** [a ?? undefined] of a field that may be absent or [null]. *)
Definition known_num (o : option (option num)) : option num := o ?> (fun x => x).

Definition edited_row (connections timeout : option (option num)) (x : NetworkProxy) : NetworkProxy :=
  set_settings (enabled x) (known_num connections ?? proxy_max_connections x) (group x)
    (match timeout with Some t => t | None => guest_lookup_timeout x end) x.

Definition bulk_edited (proxyUrls : list string) (connections timeout : option (option num)) (count : num) (text : string) (p : page) : page :=
  let routesChanged := (count >! #0) && anyProxyRouteSettingsChanged proxyUrls {| next_enabled := None; next_connections := known_num connections |} p in
  let p := preview_if routesChanged (invalidate_proxies (map_urls proxyUrls (edited_row connections timeout) p)) in
  notify ToneSuccess "Bulk Edit Applied" text (setShowBulkEditModal false p).

Definition media_answered (r : reply) (p : page) : page :=
  with_extra (fun x => match r with
    | RMedia true urls _ => set_media urls false (mediaPoolError x) x
    | RMedia false _ text => set_media (mediaPoolUrls x) false (Some (truthy_opt text ?? "No videos found")) x
    | RFailed text => set_media (mediaPoolUrls x) false (Some (error_text text "Failed to fetch media pool")) x
    | _ => x
    end) p.

Definition active_located (target : NetworkProxy) (r : reply) (p : page) : page :=
  match r with
  | RGeo g =>
      let p := with_dialog (fun d => set_analyzer (showAnalyzerModal d) (set_geolocation g <$> activeAnalyzerProxy d) d) p in
      let p := updateCachedProxyGeolocation (fun x => id x =s id target) g p in
      with_extra (fun x => set_geo false (geoError x) x) p
  | RFailed text => with_extra (set_geo false (Some (error_text text "Failed to fetch geolocation"))) p
  | _ => p
  end.

Definition show_nullable (o : option num) : string := match o with Some n => show_num n | None => "null" end.

(** A name in quotation marks. *)
Definition quoted (name : string) : string := String dquote (name +:+ String dquote EmptyString).

Definition saved_text (connections : num) (concurrency_ : option num) : string :=
  "Saved max_connections=" +:+ show_num connections +:+ " and max_concurrency=" +:+ show_nullable concurrency_.

Definition group_settings_saved (target : NetworkProxy) (name : string) (connections : num) (concurrency_ : option num) (count : num) (p : page) : page :=
  let changed := match cached p with
                 | None => true
                 | Some l => some (fun x => bool_decide ((trim <$> group x) = (trim <$> group target)) && negb (proxy_max_connections x =! connections)) l
                 end in
  let p := invalidate_proxies (preview_if ((count >! #0) && changed) p) in
  send (SettingsRefetch ("Updated Group " +:+ quoted name)
    (saved_text connections concurrency_ +:+ " across all proxies in " +:+ quoted name +:+ ".")) p.

Definition proxy_settings_saved (target : NetworkProxy) (connections : num) (concurrency_ : option num) (p : page) : page :=
  let direct := id target =s id DIRECT_CONNECTION_PROXY in
  let changed := negb direct && proxyRouteSettingsChanged (url target) {| next_enabled := None; next_connections := Some connections |} p in
  let p := invalidate_proxies (preview_if changed p) in
  send (SettingsRefetch ("Updated " +:+ (if direct then "Network (direct)" else url target)) (saved_text connections concurrency_ +:+ ".")) p.

(** After the refetch that [applyOptimalSettings] awaits. *)
Definition settings_applied (heading text : string) (p : page) : page :=
  let p := with_dialog (fun d => set_analyzer false (activeAnalyzerProxy d) d) (notify ToneSuccess heading text p) in
  set_apply false (applySettingsNotice p) p.

Definition settings_failed (text : option string) (p : page) : page :=
  let p := notify ToneDanger "Failed to save network settings" (error_text text "Failed to apply settings") p in
  set_apply false (applySettingsNotice p) p.

Definition bulk_failed (heading : string) (text : option string) : page -> page := notify ToneDanger heading (error_text text EmptyString).

(** The handler of an answer; an answer of another kind does not occur. *)
Definition answered (c : call) (r : reply) (p : page) : page :=
  match c, r with
  | AddProxy _, RProxy x => proxy_added x p
  | UpdateProxy u data, RDone => proxy_edited u data p
  | (AddProxy _ | UpdateProxy _ _), RFailed text => with_form (set_form_error (Some (error_text text EmptyString))) p
  | SetProxyEnabled u on, RDone => state_settled u (state_changed u on p)
  | SetProxyEnabled u _, RFailed text =>
      state_settled u (set_state_rows (proxyStatePending p) (JMap.set u (Some (error_text text EmptyString)) (proxyStateErrors p)) p)
  | DeleteProxy _, RDone => invalidateMpsProxyPreview (invalidate_proxies p)
  | AssignProxy a u, RDone => proxy_assigned a u p
  | TestForm _, _ => form_tested r p
  | TestSingle u _, _ => refreshProxyGeolocations [u] p
  | BulkAdd _, RAdded added updated skipped => bulk_added added updated skipped p
  | BulkAdd _, RFailed text => bulk_failed "Bulk Import Failed" text p
  | BulkSync _, RSynced text kept added deleted => bulk_synced text kept added deleted p
  | BulkSync _, RFailed text => bulk_failed "Bulk Edit Failed" text p
  | BulkGroup urls to, RCount n text => group_assigned urls to n text p
  | BulkGroup _ _, RFailed text => bulk_failed "Group Assignment Failed" text p
  | BulkState urls on, RCount n text => bulk_state_changed urls on n text p
  | BulkState _ _, RFailed text => bulk_failed "Bulk State Update Failed" text p
  | BulkDelete urls, RCount n text => bulk_deleted urls n text p
  | BulkDelete _, RFailed text => bulk_failed "Bulk Deletion Failed" text p
  | BulkEdit urls mc _ t, RCount n text => bulk_edited urls mc t n text p
  | BulkEdit _ _ _ _, RFailed text => bulk_failed "Bulk Edit Failed" text p
  | BulkTest targets, RTests l => bulk_tested targets l p
  | BulkTest targets, RFailed text => bulk_test_failed targets text p
  | FetchGeolocation u, RGeo g => updateCachedProxyGeolocation (fun x => url x =s u) g p
  | FetchActiveGeolocation x, _ => active_located x r p
  | FetchMediaPool, _ => media_answered r p
  | GroupSettings x name mc n, RCount count _ => group_settings_saved x name mc n count p
  | ProxySettings x _ mc n, RDone => proxy_settings_saved x mc n p
  | (GroupSettings _ _ _ _ | ProxySettings _ _ _ _), RFailed text => settings_failed text p
  | SettingsRefetch heading text, _ => settings_applied heading text p
  | _, _ => p
  end.

(** The answer to the call at a place of those under way. *)
Definition answer (i : nat) (r : reply) (p : page) : page :=
  match inflight p !! i with
  | Some c => answered c r (set_traffic (invalidated p) (delete i (inflight p)) p)
  | None => p
  end.

(** The list of a finished fetch. *)
Definition fetched (l : list NetworkProxy) (p : page) : page := with_cached (fun _ => Some l) p.

(** ** The page as a machine *)

(** The answers a request can have. *)
Definition fits (c : call) (r : reply) : bool :=
  match c, r with
  | SettingsRefetch _ _, RDone => true
  | SettingsRefetch _ _, _ => false
  | _, RFailed _ => true
  | AddProxy _, RProxy _ => true
  | (UpdateProxy _ _ | SetProxyEnabled _ _ | DeleteProxy _ | AssignProxy _ _ | ProxySettings _ _ _ _), RDone => true
  | (TestForm _ | TestSingle _ _), RTest _ _ _ => true
  | BulkAdd _, RAdded _ _ _ => true
  | BulkSync _, RSynced _ _ _ _ => true
  | (BulkGroup _ _ | BulkState _ _ | BulkDelete _ | BulkEdit _ _ _ _ | GroupSettings _ _ _ _), RCount _ _ => true
  | (BulkTest _ | ProbeItems _), RTests _ => true
  | (FetchGeolocation _ | FetchActiveGeolocation _), RGeo _ => true
  | FetchMediaPool, RMedia _ _ _ => true
  | _, _ => false
  end.

Inductive page_step : page -> page -> Prop :=
| Type_fields u n s g c t p : page_step p (with_form (set_fields u n s g c t) p)
| Open_add p : page_step p (openAddModal p)
| Open_edit x p : page_step p (openEditModal x p)
| Close_form p : page_step p (closeProxyFormModal p)
| Save p : page_step p (handleSaveProxy p)
| Test_form p : page_step p (testProxyMutation p)
| Bulk_dialog shown mode edit p : page_step p (with_dialog (set_bulk shown mode edit) p)
| Filter q g p : page_step p (set_filters q g (selectedProxyIds p) p)
| Toggle x p : page_step p (handleToggleSelectProxy x p)
| Toggle_group l p : page_step p (handleToggleSelectGroup l p)
| Select_all p : page_step p (handleSelectAllProxies p)
| Clear_selection p : page_step p (handleClearSelectedProxies p)
| Bulk_edit mc n t p : page_step p (handleBulkEditSelected mc n t p)
| Bulk_enable urls p : page_step p (handleBulkEnableSelected urls p)
| Bulk_disable urls p : page_step p (handleBulkDisableSelected urls p)
| Bulk_delete confirmed urls p : page_step p (handleBulkDeleteSelected confirmed urls p)
| Bulk_test urls p : page_step p (handleBulkTestSelected urls p)
| Bulk_probe items p : page_step p (handleBulkTest items p)
| Bulk_send c p : match c with BulkAdd _ | BulkSync _ | BulkGroup _ _ | AssignProxy _ _ => True | _ => False end -> page_step p (send c p)
| Probe x p : page_step p (testSingleReachability x p)
| Delete_proxy x p : page_step p (handleDeleteProxy x p)
| Toggle_enabled x p : page_step p (handleToggleProxyEnabled x p)
| Open_analyzer x p : page_step p (openAnalyzerModal x p)
| Open_group name p : page_step p (analyzeGroupRepresentative name p)
| Close_analyzer p : page_step p (with_dialog (fun d => set_analyzer false (activeAnalyzerProxy d) d) p)
| Analysis f p : page_step p (with_analysis f p)
| Fetch_media p : page_step p (fetchMediaPool p)
| Fetch_place p : page_step p (fetchGeolocation p)
| Apply_settings toGroup p : page_step p (applyOptimalSettings toGroup p)
| Dismiss_notice p : page_step p (set_apply (applySettingsPending p) None p)
| Fetched l p : page_step p (fetched l p)
| Answer i c r p : inflight p !! i = Some c -> fits c r = true -> page_step p (answer i r p).

Inductive page_reachable : page -> Prop :=
| Page_begin : page_reachable new_page
| Page_next p p' : page_reachable p -> page_step p p' -> page_reachable p'.

(** The fields of a bulk edit as they are sent ([null] is left out), and those the
    single edit sends again. *)
Definition bulk_edit_request (connections concurrency_ timeout : option (option num)) : option num * option num * option num :=
  (known_num connections, known_num concurrency_, known_num timeout).
