(* ===== verification/NetworkPageSpec.v ===== *)
(** * The network page is busy only while something is under way

    Flags that show work, in every reachable page, whatever is clicked and in
    whatever order the answers come; the form of a proxy; the selection; when the
    preview of a job's routes is renewed. *)

From Stdlib Require Import Ascii ZArith Lia SpecFloat.
From stdpp Require Import base list strings option sets.
From S2P Require Import Prelude JsString JsNum JsText JsValue ProxyAnalyzer NetworkPage.

(** ** Busy flags *)

Definition is_bulk_test (c : call) : bool := match c with BulkTest _ => true | _ => false end.
Definition is_settings (c : call) : bool :=
  match c with GroupSettings _ _ _ _ | ProxySettings _ _ _ _ | SettingsRefetch _ _ => true | _ => false end.
Definition is_state (c : call) : bool := match c with SetProxyEnabled _ _ => true | _ => false end.
Definition neutral (c : call) : bool := negb (is_bulk_test c) && negb (is_settings c) && negb (is_state c).

(** A URL is shown as being tested; a bulk test under way includes it. *)
Definition shown_tested (quick : JMap.t QuickTest) (u : string) : Prop :=
  exists q, JMap.get u quick = Some q /\ qt_testing q = true.
Definition under_test (calls : list call) (u : string) : Prop := exists ts t, BulkTest ts ∈ calls /\ t ∈ ts /\ url t = u.

(** The flags against the calls under way. *)
Record flags (testing applying : bool) (quick : JMap.t QuickTest) (rows : JMap.t bool) (calls : list call) : Prop := {
  one_test : length (keep is_bulk_test calls) = if testing then 1%nat else 0%nat;
  one_save : length (keep is_settings calls) = if applying then 1%nat else 0%nat;
  rows_wait : forall u, JMap.get u rows = Some true -> exists on, SetProxyEnabled u on ∈ calls;
  tests_wait : forall u, shown_tested quick u <-> under_test calls u
}.

Lemma under_test_other c l u : is_bulk_test c = false -> under_test (c :: l) u <-> under_test l u.
Proof.
  intros Hc. split; intros (ts & t & H & Ht); exists ts, t; (split; [|exact Ht]).
  - apply elem_of_cons in H as [<-|H]; [discriminate Hc|exact H].
  - by right.
Qed.

Definition busy_ok (p : page) : Prop :=
  flags (isBulkTesting p) (applySettingsPending p) (proxyQuickTestResults p) (proxyStatePending p) (inflight p).

Lemma keep_perm {A} (q : A -> bool) l l' : Permutation l l' -> Permutation (keep q l) (keep q l').
Proof.
  induction 1 as [|x l l' _ IH|x y l|l1 l2 l3 _ I1 _ I2]; simpl; [done| | |by etrans].
  - destruct (q x); [by constructor|done].
  - destruct (q x), (q y); try done. constructor.
Qed.

Lemma flags_perm t a q r l l' : Permutation l l' -> flags t a q r l -> flags t a q r l'.
Proof.
  intros H [F1 F2 F3 F4]. split.
  - by rewrite <- (Permutation_length (keep_perm is_bulk_test _ _ H)).
  - by rewrite <- (Permutation_length (keep_perm is_settings _ _ H)).
  - intros u Hu. destruct (F3 u Hu) as [on Hon]. exists on. by rewrite <- H.
  - intros u. rewrite F4. unfold under_test. by setoid_rewrite H.
Qed.

Lemma flags_cons_neutral t a q r c l : neutral c = true -> flags t a q r (c :: l) <-> flags t a q r l.
Proof.
  intros [[Hb Hs]%andb_true_iff Hn]%andb_true_iff.
  assert (Ht : forall u, under_test (c :: l) u <-> under_test l u) by (intros u; apply under_test_other; by apply negb_true_iff).
  split; intros [F1 F2 F3 F4]; split.
  - revert F1. simpl. apply negb_true_iff in Hb. by rewrite Hb.
  - revert F2. simpl. apply negb_true_iff in Hs. by rewrite Hs.
  - intros u Hu. destruct (F3 u Hu) as (on & [<-|H]%elem_of_cons); [done|by exists on].
  - intros u. by rewrite F4.
  - simpl. apply negb_true_iff in Hb. by rewrite Hb.
  - simpl. apply negb_true_iff in Hs. by rewrite Hs.
  - intros u Hu. destruct (F3 u Hu) as (on & H). exists on. by right.
  - intros u. by rewrite F4, Ht.
Qed.

Lemma send_neutral c p : neutral c = true -> busy_ok p -> busy_ok (send c p).
Proof.
  intros Hc H. unfold busy_ok, send. simpl. eapply flags_perm; [apply Permutation_cons_append|]. by apply flags_cons_neutral.
Qed.

(** What leaves flags and calls alone. *)
Section alone.
Context (p : page) (H : busy_ok p).

Lemma alone_cached f : busy_ok (with_cached f p).
Proof. exact H. Qed.
Lemma alone_form f : busy_ok (with_form f p).
Proof. exact H. Qed.
Lemma alone_dialog f : busy_ok (with_dialog f p).
Proof. exact H. Qed.
Lemma alone_extra f : busy_ok (with_extra f p).
Proof. exact H. Qed.
Lemma alone_filters q g l : busy_ok (set_filters q g l p).
Proof. exact H. Qed.
Lemma alone_analysis f : busy_ok (with_analysis f p).
Proof. exact H. Qed.
Lemma alone_invalidate k : busy_ok (invalidate k p).
Proof. exact H. Qed.
Lemma alone_notice n : busy_ok (set_apply (applySettingsPending p) n p).
Proof. exact H. Qed.
Lemma alone_preview b : busy_ok (preview_if b p).
Proof. by destruct b. Qed.
Lemma alone_errors errs : busy_ok (set_state_rows (proxyStatePending p) errs p).
Proof. exact H. Qed.
End alone.

#[local] Hint Resolve alone_cached alone_form alone_dialog alone_extra alone_filters alone_analysis alone_invalidate alone_notice
  alone_preview alone_errors send_neutral : busy.

Lemma refresh_eq urls p :
  refreshProxyGeolocations urls p = set_traffic (invalidated p) (inflight p ++ map FetchGeolocation (uniq (keep truthy urls))) p.
Proof.
  unfold refreshProxyGeolocations. generalize (uniq (keep truthy urls)). intros l. revert p.
  induction l as [|u l IH]; intros p; simpl; [rewrite app_nil_r; by destruct p|]. rewrite IH. unfold fetchProxyGeolocation, send, set_traffic. simpl.
  by rewrite <- app_assoc.
Qed.

Lemma busy_refresh urls p : busy_ok p -> busy_ok (refreshProxyGeolocations urls p).
Proof. unfold refreshProxyGeolocations. generalize (uniq (keep truthy urls)). intros l. revert p. induction l as [|u l IH]; intros p H; [done|]. simpl. apply IH. by apply send_neutral. Qed.

#[local] Hint Resolve busy_refresh : busy.

Lemma get_set_quick u q ts f m :
  JMap.get u (set_quick ts f m) = Some q -> (exists t, t ∈ ts /\ url t = u /\ q = f t) \/ (u ∉ map url ts /\ JMap.get u m = Some q).
Proof.
  unfold set_quick. induction ts as [|t ts IH] using rev_ind; [by right; split; [apply not_elem_of_nil|]|]. rewrite foldl_app, map_app. simpl.
  destruct (decide (url t = u)) as [<-|Hne].
  - rewrite JMap.get_set_eq. intros [= <-]. left. exists t. set_solver.
  - rewrite JMap.get_set_ne by done. intros Hg. destruct (IH Hg) as [(t' & H1 & H2)|[H1 H2]]; [left|right]; [exists t'|]; set_solver.
Qed.

Lemma none_kept {A} (q : A -> bool) l x : length (keep q l) = 0%nat -> x ∈ l -> q x = false.
Proof. intros Hl Hx. destruct (q x) eqn:E; [|done]. apply nil_length_inv in Hl. assert (H : x ∈ keep q l) by (by apply elem_of_keep). rewrite Hl in H. by apply elem_of_nil in H. Qed.

Lemma get_set_quick_in t ts f m : t ∈ ts -> exists t', JMap.get (url t) (set_quick ts f m) = Some (f t').
Proof.
  unfold set_quick. induction ts as [|y ts IH] using rev_ind; [by intros ?%elem_of_nil|]. rewrite foldl_app. simpl. intros Ht.
  destruct (decide (url y = url t)) as [<-|Hne]; [exists y; by rewrite JMap.get_set_eq|]. rewrite JMap.get_set_ne by done.
  apply IH. apply elem_of_app in Ht as [Ht| ->%list_elem_of_singleton]; done.
Qed.

(** No bulk test is under way. *)
Lemma none_tested l u : length (keep is_bulk_test l) = 0%nat -> ~ under_test l u.
Proof. intros H0 (ts & t & H1 & _). by pose proof (none_kept is_bulk_test l _ H0 H1). Qed.

Lemma test_begins a q r ts f l : (forall x, qt_testing (f x) = true) ->
  flags false a q r l -> flags true a (set_quick ts f q) r (BulkTest ts :: l).
Proof.
  intros Hf [F1 F2 F3 F4]. split; [simpl; by rewrite F1|done| |].
  - intros u Hu. destruct (F3 u Hu) as [on Hon]. exists on. by right.
  - intros u. split.
    + intros (x & Hu & Hx). apply get_set_quick in Hu as [(t & Ht & Hurl & _)|[_ Hu]].
      * exists ts, t. split; [by left|done].
      * destruct (none_tested l u F1). apply F4. by exists x.
    + intros (ts' & t & [[= ->]|H1]%elem_of_cons & Ht & <-).
      * destruct (get_set_quick_in t ts f q Ht) as [t' H]. eexists. split; [exact H|apply Hf].
      * destruct (none_tested l (url t) F1). by exists ts', t.
Qed.

Lemma test_finishes t a q r ts f l :
  (forall x, qt_testing (f x) = false) -> flags t a q r (BulkTest ts :: l) -> flags false a (set_quick ts f q) r l.
Proof.
  intros Hf [F1 F2 F3 F4]. simpl in F1. assert (H0 : length (keep is_bulk_test l) = 0%nat) by (destruct t; lia). split; [done|done| |].
  - intros u Hu. destruct (F3 u Hu) as (on & [Hon|Hon]%elem_of_cons); [done|by exists on].
  - intros u. split; [|by intros ?%(none_tested l u H0)]. intros (x & Hu & Hx).
    apply get_set_quick in Hu as [(y & _ & _ & ->)|[Hn Hu]]; [by rewrite Hf in Hx|].
    destruct (proj1 (F4 u)) as (ts' & y & [[= ->]|H1]%elem_of_cons & H2 & H3); [by exists x| |].
    + exfalso. apply Hn. apply list_elem_of_fmap. by exists y.
    + pose proof (none_kept is_bulk_test l _ H0 H1) as Hk. done.
Qed.

Lemma save_begins t q r c l : is_settings c = true -> flags t false q r l -> flags t true q r (c :: l).
Proof.
  intros Hc [F1 F2 F3 F4]. split; simpl.
  - by destruct c.
  - rewrite Hc. simpl. by rewrite F2.
  - intros u Hu. destruct (F3 u Hu) as [on Hon]. exists on. by right.
  - intros u. rewrite under_test_other by (by destruct c). apply F4.
Qed.

Lemma save_finishes t a q r c l : is_settings c = true -> flags t a q r (c :: l) -> flags t false q r l.
Proof.
  intros Hc [F1 F2 F3 F4]. simpl in F2. rewrite Hc in F2. simpl in F2. split.
  - revert F1. by destruct c.
  - destruct a; lia.
  - intros u Hu. destruct (F3 u Hu) as (on & [<-|Hon]%elem_of_cons); [done|by exists on].
  - intros u. rewrite F4. apply under_test_other. by destruct c.
Qed.

Lemma row_begins t a q r u on l : flags t a q r l -> flags t a q (JMap.set u true r) (SetProxyEnabled u on :: l).
Proof.
  intros [F1 F2 F3 F4]. split; [done|done| |].
  - intros v Hv. destruct (decide (u = v)) as [<-|Hne]; [exists on; by left|]. rewrite JMap.get_set_ne in Hv by done.
    destruct (F3 v Hv) as [on' Hon]. exists on'. by right.
  - intros v. by rewrite under_test_other.
Qed.

Lemma row_settles t a q r u on l : flags t a q r (SetProxyEnabled u on :: l) -> flags t a q (JMap.set u false r) l.
Proof.
  intros [F1 F2 F3 F4]. split; [done|done| |].
  - intros v Hv. destruct (decide (u = v)) as [<-|Hne]; [by rewrite JMap.get_set_eq in Hv|]. rewrite JMap.get_set_ne in Hv by done.
    destruct (F3 v Hv) as (on' & [[= -> ->]|Hon]%elem_of_cons); [done|by exists on'].
  - intros v. rewrite F4. by apply under_test_other.
Qed.

Lemma flags_snoc t a q r c l : flags t a q r (c :: l) -> flags t a q r (l ++ [c]).
Proof. apply flags_perm, Permutation_cons_append. Qed.

(** *** Operations *)

Lemma save_busy p : busy_ok p -> busy_ok (handleSaveProxy p).
Proof. intros H. unfold handleSaveProxy. destruct (negb _); [by apply alone_form|]. simpl. destruct (editingProxy _); apply send_neutral; auto with busy. Qed.

Lemma bulk_test_busy urls p : busy_ok p -> busy_ok (handleBulkTestSelected urls p).
Proof.
  intros H. unfold handleBulkTestSelected. destruct (length urls =? 0)%nat; [done|]. simpl. destruct (isBulkTesting p) eqn:Et; [done|].
  destruct (keep _ (proxies p)) as [|x l] eqn:Ek; [done|]. rewrite refresh_eq. apply flags_snoc, (test_begins _ _ _ (x :: l) (fun _ => probing)); [done|].
  pose proof (busy_refresh (url x :: map url l) p H) as Hb. rewrite refresh_eq in Hb. unfold busy_ok in Hb. simpl in Hb. by rewrite Et in Hb.
Qed.

Lemma apply_busy toGroup p : busy_ok p -> busy_ok (applyOptimalSettings toGroup p).
Proof.
  intros H. unfold applyOptimalSettings. destruct (activeAnalyzerProxy _) as [x|]; [|done]. destruct (analysis_data p) as [data|]; [|done].
  destruct (truthy_num _ _) as [n|]; [|done]. destruct (applySettingsPending p) eqn:Ea; [done|].
  assert (Hs : forall c, is_settings c = true -> busy_ok (send c (set_apply true None p))).
  { intros c Hc. unfold busy_ok. simpl. apply flags_snoc, save_begins; [done|]. unfold busy_ok in H. by rewrite Ea in H. }
  destruct (truthy_opt _) as [name|]; [destruct toGroup|]; by apply Hs.
Qed.

Lemma toggle_busy x p : busy_ok p -> busy_ok (handleToggleProxyEnabled x p).
Proof. intros H. unfold busy_ok. simpl. apply flags_snoc, row_begins, H. Qed.

(** *** Answers *)

(** The page without a call that is answered. *)
Definition popped (i : nat) (p : page) : page := set_traffic (invalidated p) (delete i (inflight p)) p.

Lemma popped_flags i c p : inflight p !! i = Some c -> busy_ok p ->
  flags (isBulkTesting p) (applySettingsPending p) (proxyQuickTestResults p) (proxyStatePending p) (c :: inflight (popped i p)).
Proof. intros Hi H. eapply flags_perm; [|exact H]. by apply delete_Permutation. Qed.

Lemma saving_goes_on c c' b p :
  is_settings c = true -> is_settings c' = true ->
  flags (isBulkTesting p) (applySettingsPending p) (proxyQuickTestResults p) (proxyStatePending p) (c :: inflight p) ->
  busy_ok (send c' (invalidate_proxies (preview_if b p))).
Proof.
  intros Hc Hc' H. assert (Ha : applySettingsPending p = true).
  { destruct H as [_ F2 _ _]. simpl in F2. rewrite Hc in F2. simpl in F2. by destruct (applySettingsPending p). }
  apply save_finishes in H; [|done]. assert (Hb : busy_ok (send c' p)).
  { apply flags_snoc. change (applySettingsPending (send c' p)) with (applySettingsPending p). rewrite Ha. by apply save_begins. }
  unfold preview_if. by destruct b.
Qed.

Lemma neutral_answered c r p : neutral c = true -> busy_ok p -> busy_ok (answered c r p).
Proof.
  intros Hc H. destruct c; try done; destruct r; try done; simpl;
    unfold proxy_added, proxy_edited, proxy_assigned, form_tested, bulk_added, bulk_synced, group_assigned, bulk_state_changed, bulk_deleted,
      bulk_edited, active_located, media_answered, bulk_failed, notify, hide_bulk, closeBulkModal, setShowBulkEditModal,
      closeProxyFormModal, resetProxyFormState, fetchProxyGeolocation, invalidateMpsProxyPreview, invalidate_proxies, map_urls, map_cached,
      updateCachedProxyGeolocation, set_selection;
    repeat case_match; eauto 12 with busy.
Qed.

Lemma answer_busy i c r p : inflight p !! i = Some c -> fits c r = true -> busy_ok p -> busy_ok (answer i r p).
Proof.
  intros Hi Hf H. pose proof (popped_flags i c p Hi H) as Hp. unfold answer. rewrite Hi. fold (popped i p).
  destruct (neutral c) eqn:Hn.
  - apply neutral_answered; [done|]. by apply flags_cons_neutral in Hp.
  - assert (Hset : is_settings c = true -> forall n, busy_ok (set_apply false n (popped i p))).
    { intros Hc n. unfold busy_ok. simpl. by eapply save_finishes. }
    destruct c; try done.
    + apply row_settles in Hp. destruct r; try done; simpl; unfold state_settled; try exact Hp.
      unfold state_changed. destruct (proxyRouteSettingsChanged _ _ _); exact Hp.
    + destruct r; try done; simpl; eapply test_finishes; try exact Hp.
      * done.
      * intros t. unfold quick_result. by destruct (result_of _ _).
    + destruct r; try done; simpl; [by apply Hset|]. eapply (saving_goes_on _ _ _ (popped i p)); [| |exact Hp]; done.
    + destruct r; try done; simpl; [by apply Hset|]. eapply (saving_goes_on _ _ _ (popped i p)); [| |exact Hp]; done.
    + exact (Hset eq_refl None).
Qed.

Lemma step_busy p p' : page_step p p' -> busy_ok p -> busy_ok p'.
Proof.
  destruct 1; intros Hb; try (by eapply answer_busy); try exact Hb; auto using save_busy, bulk_test_busy, apply_busy, toggle_busy.
  - by apply send_neutral.
  - unfold handleBulkEditSelected. destruct (selectedProxyIds p); [done|by apply send_neutral].
  - unfold handleBulkEnableSelected. destruct urls; [done|by apply send_neutral].
  - unfold handleBulkDisableSelected. destruct urls; [done|by apply send_neutral].
  - unfold handleBulkDeleteSelected. destruct urls; [done|]. destruct confirmed; [by apply send_neutral|done].
  - apply send_neutral; [done|]. by apply busy_refresh.
  - apply send_neutral; [by destruct c|done].
  - by apply send_neutral.
  - by apply send_neutral.
  - unfold analyzeGroupRepresentative. destruct (_ ??? _); exact Hb.
  - by apply send_neutral.
  - unfold fetchGeolocation. destruct (activeAnalyzerProxy _); [by apply send_neutral|done].
Qed.

Lemma reachable_busy p : page_reachable p -> busy_ok p.
Proof.
  induction 1 as [|p p' _ IH Hs]; [|by eapply step_busy]. split; [done|done|by intros u|].
  intros u. split; [by intros (q & H & _)|by intros (ts & t & ?%elem_of_nil & _)].
Qed.

(** *** Flags of one request each *)

(** [p'] keeps the calls under way and the rows' flags, and sets no other flag. *)
Record keeps (p p' : page) : Prop := {
  keeps_rows : proxyStatePending p' = proxyStatePending p;
  keeps_calls : forall c, c ∈ inflight p -> c ∈ inflight p';
  keeps_test : testStatus (form p') = Testing -> testStatus (form p) = Testing;
  keeps_media : mediaPoolLoading (extra p') = true -> mediaPoolLoading (extra p) = true;
  keeps_geo : geoLoading (extra p') = true -> geoLoading (extra p) = true
}.

Lemma keeps_refl p : keeps p p.
Proof. by split. Qed.

Section keeping.
Context (p p' : page) (H : keeps p p').

Lemma keeps_cached f : keeps p (with_cached f p').
Proof. by destruct H. Qed.
Lemma keeps_form f : (testStatus (f (form p')) = Testing -> testStatus (form p') = Testing) -> keeps p (with_form f p').
Proof. intros Hf. destruct H. split; simpl; auto. Qed.
Lemma keeps_dialog f : keeps p (with_dialog f p').
Proof. by destruct H. Qed.
Lemma keeps_filters q g l : keeps p (set_filters q g l p').
Proof. by destruct H. Qed.
Lemma keeps_analysis f : keeps p (with_analysis f p').
Proof. by destruct H. Qed.
Lemma keeps_apply b n : keeps p (set_apply b n p').
Proof. by destruct H. Qed.
Lemma keeps_tests b m : keeps p (set_tests b m p').
Proof. by destruct H. Qed.
Lemma keeps_invalidate k : keeps p (invalidate k p').
Proof. by destruct H. Qed.
Lemma keeps_send c : keeps p (send c p').
Proof. destruct H. split; simpl; auto. intros c' Hc. apply elem_of_app. auto. Qed.
Lemma keeps_extra f : (mediaPoolLoading (f (extra p')) = true -> mediaPoolLoading (extra p') = true) ->
  (geoLoading (f (extra p')) = true -> geoLoading (extra p') = true) -> keeps p (with_extra f p').
Proof. intros Hm Hg. destruct H. split; simpl; auto. Qed.
Lemma keeps_reset : keeps p (resetProxyFormState p').
Proof. destruct H. by split. Qed.
Lemma keeps_error e : keeps p (with_form (set_form_error e) p').
Proof. by destruct H. Qed.
End keeping.

#[local] Hint Resolve keeps_refl keeps_cached keeps_form keeps_dialog keeps_filters keeps_analysis keeps_apply keeps_tests
  keeps_invalidate keeps_send keeps_extra keeps_reset keeps_error : keeps.

Lemma keeps_preview p p' b : keeps p p' -> keeps p (preview_if b p').
Proof. destruct b; simpl; unfold invalidateMpsProxyPreview; auto with keeps. Qed.

Lemma keeps_refresh p p' urls : keeps p p' -> keeps p (refreshProxyGeolocations urls p').
Proof.
  unfold refreshProxyGeolocations. generalize (uniq (keep truthy urls)). intros l. revert p'.
  induction l as [|u l IH]; intros p' H; [done|]. simpl. apply IH. unfold fetchProxyGeolocation. auto with keeps.
Qed.

#[local] Hint Resolve keeps_preview keeps_refresh : keeps.

(** The requests whose answers clear a flag of their own. *)
Definition own_flag (c : call) : bool :=
  match c with SetProxyEnabled _ _ | TestForm _ | FetchMediaPool | FetchActiveGeolocation _ => true | _ => false end.

Lemma keeps_answered c r p : own_flag c = false -> keeps p (answered c r p).
Proof.
  intros Hc. destruct c; try done; destruct r; try apply keeps_refl; simpl;
    unfold proxy_added, proxy_edited, proxy_assigned, bulk_added, bulk_synced, group_assigned, bulk_state_changed, bulk_deleted, bulk_edited,
      bulk_failed, bulk_tested, bulk_test_failed, group_settings_saved, proxy_settings_saved, settings_applied, settings_failed, notify, hide_bulk,
      closeBulkModal, setShowBulkEditModal, closeProxyFormModal, fetchProxyGeolocation, invalidateMpsProxyPreview,
      invalidate_proxies, map_urls, updateCachedProxyGeolocation, map_cached, set_selection;
    repeat case_match; eauto 14 with keeps.
Qed.

(** The flags of the form's test, of the media pool and of the place shown. *)
Record waits (p : page) : Prop := {
  test_waits : testStatus (form p) = Testing -> exists request, TestForm request ∈ inflight p;
  media_waits : mediaPoolLoading (extra p) = true -> FetchMediaPool ∈ inflight p;
  geo_waits : geoLoading (extra p) = true -> exists x, FetchActiveGeolocation x ∈ inflight p
}.

Lemma waits_keeps p p' : keeps p p' -> waits p -> waits p'.
Proof.
  intros [_ Hc Ht Hm Hg] [W1 W2 W3]. split; [intros H|intros H|intros H].
  - destruct (W1 (Ht H)) as [x Hx]. eauto.
  - auto.
  - destruct (W3 (Hg H)) as [x Hx]. eauto.
Qed.

Lemma popped_in i c c' p : inflight p !! i = Some c -> c' ∈ inflight p -> c' <> c -> c' ∈ inflight (popped i p).
Proof. intros Hi H Hne. apply delete_Permutation in Hi. rewrite Hi in H. by apply elem_of_cons in H as [H|H]. Qed.
Lemma waits_answer i c r p : inflight p !! i = Some c -> fits c r = true -> waits p -> waits (answer i r p).
Proof.
  intros Hi Hf [W1 W2 W3]. unfold answer. rewrite Hi. fold (popped i p). pose proof (fun c' => popped_in i c c' p Hi) as Hin.
  assert (Ht : (forall request, c <> TestForm request) -> testStatus (form p) = Testing -> exists x, TestForm x ∈ inflight (popped i p)).
  { intros Hc H. destruct (W1 H) as [x Hx]. exists x. apply Hin; [done|]. intros <-. by apply (Hc x). }
  assert (Hm : c <> FetchMediaPool -> mediaPoolLoading (extra p) = true -> FetchMediaPool ∈ inflight (popped i p)).
  { intros Hc H. apply Hin; auto. }
  assert (Hg : (forall x, c <> FetchActiveGeolocation x) -> geoLoading (extra p) = true ->
    exists x, FetchActiveGeolocation x ∈ inflight (popped i p)).
  { intros Hc H. destruct (W3 H) as [x Hx]. exists x. apply Hin; [done|]. intros <-. by apply (Hc x). }
  destruct (own_flag c) eqn:Hc.
  2: { apply (waits_keeps (popped i p)); [by apply keeps_answered|]. split; [apply Ht|apply Hm|apply Hg]; by destruct c. }
  destruct c; try done; destruct r; try done.
  - split; simpl; [by apply Ht|by apply Hm|by apply Hg].
  - cbn [answered]. unfold state_settled, state_changed.
    destruct (proxyRouteSettingsChanged _ _ _); split; simpl; [by apply Ht|by apply Hm|by apply Hg|by apply Ht|by apply Hm|by apply Hg].
  - cbn [answered]. unfold form_tested. rewrite refresh_eq. split; simpl; [done|intros H; apply elem_of_app; left; auto|].
    intros H. destruct (Hg ltac:(done) H) as [x Hx]. exists x. apply elem_of_app. by left.
  - cbn [answered]. unfold form_tested. rewrite refresh_eq. split; simpl; [by destruct ok|intros H; apply elem_of_app; left; auto|].
    intros H. destruct (Hg ltac:(done) H) as [x Hx]. exists x. apply elem_of_app. by left.
  - split; simpl; [by apply Ht|by apply Hm|done].
  - split; simpl; [by apply Ht|by apply Hm|done].
  - split; simpl; [by apply Ht|done|by apply Hg].
  - destruct ok; split; simpl; [by apply Ht|done|by apply Hg|by apply Ht|done|by apply Hg].
Qed.

(** What a step does to the flags of single requests. *)
Inductive flag_step (p p' : page) : Prop :=
| flag_kept : keeps p p' -> flag_step p p'
| flag_toggled x : p' = handleToggleProxyEnabled x p -> flag_step p p'
| flag_test : p' = testProxyMutation p -> flag_step p p'
| flag_media : p' = fetchMediaPool p -> flag_step p p'
| flag_place : p' = fetchGeolocation p -> flag_step p p'
| flag_answered i c r : inflight p !! i = Some c -> fits c r = true -> p' = answer i r p -> flag_step p p'.

Lemma keeps_typing u n s g c t p : keeps p (with_form (set_fields u n s g c t) p).
Proof. apply keeps_form; [apply keeps_refl|]. unfold set_fields. by destruct (negb _). Qed.

Lemma step_flags p p' : page_step p p' -> flag_step p p'.
Proof.
  destruct 1; try (by apply flag_kept; auto with keeps).
  - apply flag_kept, keeps_typing.
  - apply flag_kept. unfold handleSaveProxy. repeat case_match; auto with keeps.
  - by apply flag_test.
  - apply flag_kept. unfold handleBulkEditSelected. repeat case_match; auto with keeps.
  - apply flag_kept. unfold handleBulkEnableSelected. repeat case_match; auto with keeps.
  - apply flag_kept. unfold handleBulkDisableSelected. repeat case_match; auto with keeps.
  - apply flag_kept. unfold handleBulkDeleteSelected. repeat case_match; auto with keeps.
  - apply flag_kept. unfold handleBulkTestSelected. repeat case_match; auto with keeps.
  - apply flag_kept. unfold handleBulkTest. auto with keeps.
  - apply flag_kept. unfold testSingleReachability. auto with keeps.
  - apply flag_kept. unfold handleDeleteProxy. auto with keeps.
  - by eapply flag_toggled.
  - apply flag_kept. unfold analyzeGroupRepresentative, openAnalyzerModal. repeat case_match; auto with keeps.
  - by apply flag_media.
  - by apply flag_place.
  - apply flag_kept. unfold applyOptimalSettings. repeat case_match; auto with keeps.
  - by eapply flag_answered.
Qed.

Lemma step_waits p p' : page_step p p' -> waits p -> waits p'.
Proof.
  intros Hs W. assert (Hsent : forall q c, waits q -> waits (send c q)) by (intros q c; apply waits_keeps; auto with keeps).
  destruct (step_flags p p' Hs) as [H|x -> | -> | -> | -> |i c r Hi Hf ->].
  - by apply (waits_keeps p).
  - apply Hsent. by destruct W.
  - destruct W as [W1 W2 W3]. split; simpl.
    + intros _. eexists. apply elem_of_app. right. by left.
    + intros H. apply elem_of_app. auto.
    + intros H. destruct (W3 H) as [x Hx]. exists x. apply elem_of_app. auto.
  - destruct W as [W1 W2 W3]. split; simpl.
    + intros H. destruct (W1 H) as [x Hx]. exists x. apply elem_of_app. auto.
    + intros _. apply elem_of_app. right. by left.
    + intros H. destruct (W3 H) as [x Hx]. exists x. apply elem_of_app. auto.
  - unfold fetchGeolocation. destruct (activeAnalyzerProxy _) as [x|]; [|done]. destruct W as [W1 W2 W3]. split; simpl.
    + intros H. destruct (W1 H) as [y Hy]. exists y. apply elem_of_app. auto.
    + intros H. apply elem_of_app. auto.
    + intros _. exists x. apply elem_of_app. right. by left.
  - by eapply waits_answer.
Qed.

Lemma reachable_waits p : page_reachable p -> waits p.
Proof. induction 1 as [|p p' _ IH Hs]; [by split|by eapply step_waits]. Qed.

(** A row's flag is set by toggling it, cleared by an answer to a toggle of it, and
    changed by nothing else. *)
Lemma row_answered i u on r p : inflight p !! i = Some (SetProxyEnabled u on) -> fits (SetProxyEnabled u on) r = true ->
  proxyStatePending (answer i r p) = JMap.set u false (proxyStatePending p).
Proof.
  intros Hi Hf. unfold answer. rewrite Hi. destruct r; try done; cbn [answered]; unfold state_settled, state_changed.
  by destruct (proxyRouteSettingsChanged _ _ _).
Qed.

Lemma rows_other i c r p : inflight p !! i = Some c -> fits c r = true -> (forall u on, c <> SetProxyEnabled u on) ->
  proxyStatePending (answer i r p) = proxyStatePending p.
Proof.
  intros Hi Hf Hc. unfold answer. rewrite Hi. fold (popped i p). destruct (own_flag c) eqn:Ho.
  2: { by rewrite (keeps_rows _ _ (keeps_answered c r (popped i p) Ho)). }
  destruct c as [| |u on| | | | | | | | | | | | | | | | | |]; try done; [by destruct (Hc u on)|..];
    destruct r; try done; cbn [answered]; unfold form_tested; rewrite ?refresh_eq; done.
Qed.

Lemma row_changes p p' u : page_step p p' -> JMap.get u (proxyStatePending p') <> JMap.get u (proxyStatePending p) ->
  (exists x, url x = u /\ p' = handleToggleProxyEnabled x p) \/
  (exists i on r, inflight p !! i = Some (SetProxyEnabled u on) /\ fits (SetProxyEnabled u on) r = true /\ p' = answer i r p).
Proof.
  intros Hs Hne. destruct (step_flags p p' Hs) as [H|x -> | -> | -> | -> |i c r Hi Hf ->].
  - by rewrite (keeps_rows _ _ H) in Hne.
  - left. exists x. split; [|done]. destruct (decide (url x = u)) as [|Hx]; [done|].
    exfalso. apply Hne. simpl. by apply JMap.get_set_ne.
  - done.
  - done.
  - unfold fetchGeolocation in Hne. by destruct (activeAnalyzerProxy _).
  - right. destruct c as [| |v on| | | | | | | | | | | | | | | | | |]; try (by rewrite (rows_other i _ r p Hi Hf) in Hne).
    rewrite (row_answered i v on r p Hi Hf) in Hne. destruct (decide (v = u)) as [<-|Hv]; [by exists i, on, r|].
    by rewrite JMap.get_set_ne in Hne.
Qed.

(** C11. In every reachable page a flag that shows work means it. A bulk test and a
    saving of settings are under way exactly while their flags are set, at most
    one of each, and a URL is shown as being tested exactly while the bulk test
    under way includes it. A row whose state is pending waits for a request of its
    own; its flag is set by toggling the row, cleared by an answer to a toggle of
    it, and changed by nothing else. The form's test, the media pool and the place
    of the proxy shown are pending only while a request of theirs is under way. *)
Theorem busy_means_under_way p :
  page_reachable p ->
  length (keep is_bulk_test (inflight p)) = (if isBulkTesting p then 1%nat else 0%nat) /\
  length (keep is_settings (inflight p)) = (if applySettingsPending p then 1%nat else 0%nat) /\
  (forall u, shown_tested (proxyQuickTestResults p) u <-> under_test (inflight p) u) /\
  (forall u, JMap.get u (proxyStatePending p) = Some true -> exists on, SetProxyEnabled u on ∈ inflight p) /\
  (forall x, JMap.get (url x) (proxyStatePending (handleToggleProxyEnabled x p)) = Some true) /\
  (forall i u on r, inflight p !! i = Some (SetProxyEnabled u on) -> fits (SetProxyEnabled u on) r = true ->
     JMap.get u (proxyStatePending (answer i r p)) = Some false) /\
  (forall p' u, page_step p p' -> JMap.get u (proxyStatePending p') <> JMap.get u (proxyStatePending p) ->
     (exists x, url x = u /\ p' = handleToggleProxyEnabled x p) \/
     (exists i on r, inflight p !! i = Some (SetProxyEnabled u on) /\ p' = answer i r p)) /\
  (testStatus (form p) = Testing -> exists request, TestForm request ∈ inflight p) /\
  (mediaPoolLoading (extra p) = true -> FetchMediaPool ∈ inflight p) /\
  (geoLoading (extra p) = true -> exists x, FetchActiveGeolocation x ∈ inflight p).
Proof.
  intros Hr. destruct (reachable_busy p Hr) as [F1 F2 F3 F4]. destruct (reachable_waits p Hr) as [W1 W2 W3].
  split; [done|]. split; [done|]. split; [done|]. split; [done|]. split; [intros x; simpl; apply JMap.get_set_eq|].
  split; [intros i u on r Hi Hf; by rewrite (row_answered i u on r p Hi Hf), JMap.get_set_eq|].
  split; [|done]. intros p' u Hs Hne. destruct (row_changes p p' u Hs Hne) as [H|(i & on & r & H1 & _ & H2)]; eauto 8.
Qed.

(** ** The selection *)

Lemma fold_deleted v ts l : v ∈ foldl (fun l (x : NetworkProxy) => set_delete (url x) l) l ts <-> v ∈ l /\ v ∉ map url ts.
Proof.
  revert l. induction ts as [|t ts IH]; intros l; simpl; [set_solver|]. rewrite IH, elem_set_delete, not_elem_of_cons. naive_solver.
Qed.

Lemma fold_added v ts l : v ∈ foldl (fun l (x : NetworkProxy) => set_add (url x) l) l ts <-> v ∈ l \/ v ∈ map url ts.
Proof.
  revert l. induction ts as [|t ts IH]; intros l; simpl; [set_solver|]. rewrite IH, elem_set_add, elem_of_cons. naive_solver.
Qed.

(** Toggling a group selects all of it, or none of it when all of it was selected;
    what is selected outside the group does not change. *)
Theorem group_toggle_is_all_or_none groupProxies p v :
  let before := selectedProxyIds p in
  let after := selectedProxyIds (handleToggleSelectGroup groupProxies p) in
  (v ∉ map url groupProxies -> (v ∈ after <-> v ∈ before)) /\
  (v ∈ map url groupProxies -> (v ∈ after <-> exists x, x ∈ groupProxies /\ url x ∉ before)).
Proof.
  simpl. unfold all_selected. destruct (_ && _) eqn:E; simpl.
  - apply andb_true_iff in E as [_ E]. rewrite every_iff in E. rewrite fold_deleted. split; [naive_solver|]. intros Hv. split; [naive_solver|].
    intros (x & Hx & Hn). exfalso. apply Hn. apply str_in_iff. by apply E.
  - rewrite fold_added. split; [naive_solver|]. intros Hv. split; [intros _|naive_solver]. apply andb_false_iff in E as [E|E].
    + apply Nat.ltb_ge in E. destruct groupProxies; [by apply elem_of_nil in Hv|simpl in E; lia].
    + clear Hv. induction groupProxies as [|x l IH]; [done|]. simpl in E. apply andb_false_iff in E as [E|E].
      * exists x. apply str_in_not in E. set_solver.
      * destruct (IH E) as (y & Hy & Hn). exists y. set_solver.
Qed.

(** ** The preview of a job's routes *)

(** The proxy is not known to have the setting already. *)
Lemma routes_changed_iff u next p :
  proxyRouteSettingsChanged u next p = true <->
  (next_enabled next <> None \/ next_connections next <> None) /\
  forall l x, cached p = Some l -> find_first (fun y => url y =s u) l = Some x ->
    ~ ((forall b, next_enabled next = Some b -> enabled x ?? true = b) /\
       (forall n, next_connections next = Some n -> (proxy_max_connections x =! n) = true)).
Proof.
  unfold proxyRouteSettingsChanged. destruct next as [[b|] [n|]]; simpl; [| | |naive_solver];
    (destruct (cached p) as [l|]; [|naive_solver]); (destruct (find_first _ l) as [x|] eqn:Ex; [|naive_solver]).
  - rewrite orb_true_iff, !negb_true_iff. split; [|intros [_ H]; specialize (H l x eq_refl Ex)].
    + intros [H|H]; (split; [by left|]); intros l' x' [= <-] Ex' [H1 H2]; rewrite Ex in Ex'; injection Ex' as <-.
      * rewrite (H1 b eq_refl) in H. by rewrite eqb_reflx in H.
      * by rewrite (H2 n eq_refl) in H.
    + destruct (Bool.eqb (enabled x ?? true) b) eqn:Eb; [|by left]. right. apply eqb_prop in Eb.
      destruct (proxy_max_connections x =! n) eqn:En; [|done]. exfalso. apply H. naive_solver.
  - rewrite orb_false_r, negb_true_iff. split; [|intros [_ H]; specialize (H l x eq_refl Ex)].
    + intros H; (split; [by left|]); intros l' x' [= <-] Ex' [H1 H2]; rewrite Ex in Ex'; injection Ex' as <-.
      rewrite (H1 b eq_refl) in H. by rewrite eqb_reflx in H.
    + destruct (Bool.eqb (enabled x ?? true) b) eqn:Eb; [|done]. exfalso. apply eqb_prop in Eb. apply H. naive_solver.
  - rewrite negb_true_iff. split; [|intros [_ H]; specialize (H l x eq_refl Ex)].
    + intros H; (split; [by right|]); intros l' x' [= <-] Ex' [H1 H2]; rewrite Ex in Ex'; injection Ex' as <-. by rewrite (H2 n eq_refl) in H.
    + destruct (proxy_max_connections x =! n) eqn:En; [|done]. exfalso. apply H. naive_solver.
Qed.

(** ** Where the code does less *)

Definition demo_proxy (name : string) : NetworkProxy := {|
  id := name; url := "http://" +:+ name +:+ ":80"; username := None; enabled := Some true; proxy_max_connections := #8; group := None;
  assigned_auths := []; active_assigned_count := None; geolocation := None; guest_lookup_timeout := Some #30 |}.

Definition demo_page (names : list string) : page := fetched (map demo_proxy names) new_page.

(** A deleted proxy stays selected: the next bulk edit names it. *)
Lemma deleted_proxy_stays_selected :
  let p := handleDeleteProxy (demo_proxy "a") (handleToggleSelectProxy (demo_proxy "a") (demo_page ["a"; "b"])) in
  let p := fetched [demo_proxy "b"] (answer 0 RDone p) in
  inflight (handleBulkEditSelected (Some (Some #4)) None None p) = [BulkEdit ["http://a:80"] (Some (Some #4)) None None].
Proof. vm_compute. reflexivity. Qed.

(** Clearing the timeout of several proxies sends nothing to clear it, but the list
    shows it cleared until it is fetched again. *)
Lemma cleared_timeout_is_not_sent :
  bulk_edit_request None None (Some None) = (None, None, None) /\
  map guest_lookup_timeout (proxies (bulk_edited ["http://a:80"] None (Some None) #1 EmptyString (demo_page ["a"]))) = [None].
Proof. vm_compute. done. Qed.

Definition somewhere : GeolocationData := {|
  geo_ip := "10.0.0.1"; geo_city := None; geo_region := None; geo_country := None; geo_country_code := None; geo_isp := None; geo_org := None |}.

(** The place of a proxy that arrives after another one was opened is shown as the
    other one's. *)
Lemma place_of_another_proxy :
  let p := fetchGeolocation (openAnalyzerModal (demo_proxy "a") (demo_page ["a"; "b"])) in
  let p := answer 0 (RGeo somewhere) (openAnalyzerModal (demo_proxy "b") p) in
  (geolocation <$> activeAnalyzerProxy (dialog p)) = Some (Some somewhere) /\ active_id p = Some "b" /\
  map (fun x => (id x, geolocation x)) (proxies p) = [("a", Some somewhere); ("b", None)].
Proof. vm_compute. done. Qed.

(** When the regular fetch brings the new state before the answer of the change does,
    the preview of the routes is not renewed. *)
Lemma poll_hides_the_change :
  let p := handleToggleProxyEnabled (demo_proxy "a") (demo_page ["a"]) in
  str_in "mps-proxy-preview" (invalidated (answer 0 RDone p)) = true /\
  str_in "mps-proxy-preview" (invalidated (answer 0 RDone (fetched [set_enabled false (demo_proxy "a")] p))) = false.
Proof. vm_compute. done. Qed.

(** A row is toggled and both proxies are tested. *)
Definition demo_busy : page :=
  handleBulkTestSelected ["http://a:80"; "http://b:80"] (handleToggleProxyEnabled (demo_proxy "a") (demo_page ["a"; "b"])).

Lemma demo_busy_reachable : page_reachable demo_busy.
Proof. do 3 (eapply Page_next; [|constructor]). apply Page_begin. Qed.

Lemma busy_means_under_way_witness :
  isBulkTesting demo_busy = true /\ length (keep is_bulk_test (inflight demo_busy)) = 1%nat /\
  shown_tested (proxyQuickTestResults demo_busy) "http://b:80" /\
  exists on, SetProxyEnabled "http://a:80" on ∈ inflight demo_busy.
Proof.
  destruct (busy_means_under_way demo_busy demo_busy_reachable) as (H1 & _ & H3 & H4 & _).
  split; [vm_compute; reflexivity|]. split; [rewrite H1; vm_compute; reflexivity|]. split.
  - apply H3. exists [demo_proxy "a"; demo_proxy "b"], (demo_proxy "b"). vm_compute. set_solver.
  - apply H4. vm_compute. reflexivity.
Defined.
