(* ===== verification/Preferences.v ===== *)
(** * Preferences of the WebUI ([features/settings/hooks/useWebUIPreferences.ts], [shared/lib/browserStorage.ts])

    The preferences live in the browser's storage; every reader shares one parsed
    copy, renewed when the stored text changes. Storage may be missing or throw on
    any access: each access succeeds or not by the state of [storage]. Preferences are
    an object, since what is stored is any JSON; [JSON.parse] and [JSON.stringify] are
    parameters.

    With storage or without it, every reader sees the last change of this page, and
    every subscriber is told once per change; but for a change back to the stored text
    after a write that was refused. *)

From Stdlib Require Import Ascii ZArith Lia SpecFloat.
From stdpp Require Import base list strings option sets.
From S2P Require Import Prelude JsString JsNum JsValue.

(** ** Best-effort storage ([browserStorage.ts]) *)

Inductive StorageArea := Local | Session.

(** An area: whether an item can be read, written and removed now (a full area refuses
    writing alone), and its items. *)
Record storage := { readable : bool; writable : bool; removable : bool; items : JMap.t string }.

(** [storageFor]: [None] outside a browser or when the access throws. *)
Definition browser := StorageArea -> option storage.

Definition storageFor (b : browser) (area : StorageArea) : option storage := b area.

Definition get_item (key : string) (s : storage) : option string := if readable s then JMap.get key (items s) else None.

Definition readStorage (b : browser) (key : string) (area : StorageArea) : option string := storageFor b area ?> get_item key.

Definition set_area (b : browser) (area : StorageArea) (s : storage) : browser :=
  fun a => match a, area with Local, Local | Session, Session => Some s | _, _ => b a end.

Definition remove_key (key : string) (m : JMap.t string) : JMap.t string := keep (fun e => negb (e.1 =s key)) m.

Definition with_items (m : JMap.t string) (s : storage) : storage := 
  {| readable := readable s; writable := writable s; removable := removable s; items := m |}.

(** The browser afterwards, and whether the value was stored. *)
Definition writeStorage (b : browser) (key text : string) (area : StorageArea) : browser * bool :=
  match storageFor b area with
  | Some s => if writable s then (set_area b area (with_items (JMap.set key text (items s)) s), true) else (b, false)
  | None => (b, false)
  end.

Definition removeStorage (b : browser) (key : string) (area : StorageArea) : browser :=
  match storageFor b area with
  | Some s => if removable s then set_area b area (with_items (remove_key key (items s)) s) else b
  | None => b
  end.

(** ** The preferences ([useWebUIPreferences.ts]) *)

Definition WebUIPreferences := fields.

Definition DEFAULT_PREFERENCES : WebUIPreferences := [
  ("compactMode", VBool false); ("telemetryPollRate", VNum #3000); ("toastDuration", VNum #4000); ("autoFailover", VBool true);
  ("confirmDestructiveActions", VBool true); ("enableSoundCues", VBool false); ("devMode", VBool false)].

Definition STORAGE_KEY : string := "usr_webui_preferences".

(** The properties [..v] spreads into an object. *)
Definition spread_of (v : value) : fields :=
  match v with
  | VObj fs => fs
  | VArr l => imap (fun i x => (show_Z (Z.of_nat i), x)) l
  | VStr s => imap (fun i c => (show_Z (Z.of_nat i), VStr (String c EmptyString))) (String.list_ascii_of_string s)
  | _ => []
  end.

(** [{ ...base, ...over }] *)
Definition spread (base over : fields) : fields := foldl (fun m e => JMap.set e.1 e.2 m) base over.

(** The module's state with the storage it reads: [local] is [localStorage], [None] when
    the access throws; [listeners] counts the calls each subscriber got. *)
Record module := {
  local : option storage;
  cached : option (option string * WebUIPreferences);
  listeners : list nat
}.

Section json.
Variable JSON_parse : string -> option value.
Variable JSON_stringify : fields -> string.

Definition readRaw (m : module) : option string := local m ?> get_item STORAGE_KEY.

Definition parsePreferences (raw : option string) : WebUIPreferences :=
  match truthy_opt raw with
  | None => DEFAULT_PREFERENCES
  | Some text => match JSON_parse text with
                 | Some parsed => spread DEFAULT_PREFERENCES (spread_of parsed)
                 | None => DEFAULT_PREFERENCES
                 end
  end.

Definition set_cached (c : option string * WebUIPreferences) (m : module) : module :=
  {| local := local m; cached := Some c; listeners := listeners m |}.

(** The preferences, and the module with its renewed copy. *)
Definition getPreferences (m : module) : WebUIPreferences * module :=
  let raw := readRaw m in
  match cached m with
  | Some (r, v) => if bool_decide (r = raw) then (v, m) else (parsePreferences raw, set_cached (raw, parsePreferences raw) m)
  | None => (parsePreferences raw, set_cached (raw, parsePreferences raw) m)
  end.

Definition notify (m : module) : module := {| local := local m; cached := cached m; listeners := map S (listeners m) |}.

Definition set_local (s : option storage) (m : module) : module := {| local := s; cached := cached m; listeners := listeners m |}.

(** [localStorage.setItem] and [removeItem]; [None] when they throw. *)
Definition set_item (text : string) (m : module) : option module :=
  match local m with
  | Some s => if writable s then Some (set_local (Some (with_items (JMap.set STORAGE_KEY text (items s)) s)) m) else None
  | None => None
  end.

Definition remove_item (m : module) : option module :=
  match local m with
  | Some s => if removable s then Some (set_local (Some (with_items (remove_key STORAGE_KEY (items s)) s)) m) else None
  | None => None
  end.

Definition updatePreferences (patch : fields) (m : module) : module :=
  let '(current, m) := getPreferences m in
  let next := spread current patch in
  notify match set_item (JSON_stringify next) m with
         | Some m' => m'
         | None => set_cached (readRaw m, next) m
         end.

Definition resetPreferences (m : module) : module :=
  let m := remove_item m ?? m in
  notify (set_cached (readRaw m, DEFAULT_PREFERENCES) m).

Definition useDevMode (m : module) : jsval := prop "devMode" (getPreferences m).1.

(** The density attribute of the document. *)
Definition density (preferences : WebUIPreferences) : option string :=
  if val_truthy (prop "compactMode" preferences) then Some "compact" else None.

Definition subscribe (m : module) : module := {| local := local m; cached := cached m; listeners := listeners m ++ [0%nat] |}.
End json.

(** * Preferences are read as they were written *)

Lemma get_spread_over k base over :
  JMap.wf over -> JMap.get k (spread base over) = match JMap.get k over with Some v => Some v | None => JMap.get k base end.
Proof.
  unfold spread. induction over as [|[k' v'] over IH] using rev_ind; [done|]. unfold JMap.wf, JMap.keys. rewrite map_app. simpl.
  intros (Hw & Hk & _)%NoDup_app. rewrite foldl_app. simpl.
  assert (Hsnoc : JMap.get k (over ++ [(k', v')]) = match JMap.get k over with Some v => Some v | None => if k' =s k then Some v' else None end).
  { clear. induction over as [|[a b] over IH]; simpl; [done|]. by destruct (a =s k). }
  rewrite Hsnoc. destruct (str_eqb k' k) eqn:E.
  - apply str_eqb_eq in E as ->. rewrite JMap.get_set_eq. destruct (JMap.get k over) as [v|] eqn:Eg; [|done].
    exfalso. apply (Hk k); [|set_solver]. apply JMap.get_Some_elem in Eg. apply list_elem_of_fmap. by exists (k, v).
  - apply str_eqb_neq in E. rewrite JMap.get_set_ne by done. rewrite IH by done. by destruct (JMap.get k over).
Qed.

Section json.
Context (JSON_parse : string -> option value) (JSON_stringify : fields -> string).

Notation getPreferences := (getPreferences JSON_parse).
Notation updatePreferences := (updatePreferences JSON_parse JSON_stringify).

(** Reading renews the copy and nothing else. *)
Lemma get_local m : local (getPreferences m).2 = local m.
Proof. unfold Preferences.getPreferences. destruct (cached m) as [[r v]|]; [destruct (bool_decide _)|]; done. Qed.

(** Afterwards the copy is that of the text that is stored. *)
Lemma get_cached m : cached (getPreferences m).2 = Some (readRaw m, (getPreferences m).1).
Proof.
  unfold Preferences.getPreferences. destruct (cached m) as [[r v]|] eqn:Ec; [|done]. destruct (bool_decide _) eqn:E; [|done].
  apply bool_decide_eq_true in E as ->. exact Ec.
Qed.

Lemma get_keep_key key (m : JMap.t string) : JMap.get key (keep (fun e => negb (e.1 =s key)) m) = None.
Proof. induction m as [|[k v] m IH]; [done|]. simpl. destruct (k =s key) eqn:E; simpl; [done|]. by rewrite E. Qed.

Lemma get_listeners m : listeners (getPreferences m).2 = listeners m.
Proof. unfold Preferences.getPreferences. destruct (cached m) as [[r v]|]; [destruct (bool_decide _)|]; done. Qed.

(** The copy is that of its text, as it is until a write fails. *)
Definition synced (m : module) : Prop :=
  match cached m with Some (r, v) => v = parsePreferences JSON_parse r | None => True end.

Lemma get_synced m : synced m -> synced (getPreferences m).2 /\ (getPreferences m).1 = parsePreferences JSON_parse (readRaw m).
Proof.
  unfold synced, Preferences.getPreferences. destruct (cached m) as [[r v]|] eqn:Ec; [|done].
  intros ->. destruct (bool_decide _) eqn:E; simpl; [|done]. rewrite Ec. apply bool_decide_eq_true in E. by subst r.
Qed.

(** The module from when its page is loaded: [b] says that no write to storage was refused.
    Storage may change under it at any time, as another page of the site changes it or as
    it fills up. *)
Definition takes_writes (m : module) : bool := match local m with Some s => writable s | None => false end.
Definition takes_removals (m : module) : bool := match local m with Some s => removable s | None => false end.

Inductive reachable : bool -> module -> Prop :=
| Loaded s l : reachable true {| local := s; cached := None; listeners := l |}
| Reads b m : reachable b m -> reachable b (getPreferences m).2
| Updates b m patch : reachable b m -> reachable (b && takes_writes m) (updatePreferences patch m)
| Resets b m : reachable b m -> reachable (b && takes_removals m) (resetPreferences m)
| Subscribes b m : reachable b m -> reachable b (subscribe m)
| Elsewhere b m s : reachable b m -> reachable b (set_local s m).

(** Every default has a value, and no property is there twice. *)
Definition complete (v : WebUIPreferences) : Prop := JMap.wf v /\ forall key, key ∈ JMap.keys DEFAULT_PREFERENCES -> key ∈ JMap.keys v.

Lemma complete_spread v over : complete v -> complete (spread v over).
Proof.
  unfold spread. revert v. induction over as [|[k x] over IH]; intros v [Hw Hk]; [done|]. apply IH. split; [by apply JMap.wf_set|].
  intros key H. apply JMap.elem_of_keys_set. right. by apply Hk.
Qed.

Lemma complete_default : complete DEFAULT_PREFERENCES.
Proof. split; [|done]. apply (bool_decide_unpack _). vm_compute. exact I. Qed.

Lemma complete_parsed raw : complete (parsePreferences JSON_parse raw).
Proof.
  unfold parsePreferences. destruct (truthy_opt raw) as [t|]; [|apply complete_default].
  destruct (JSON_parse t); [apply complete_spread|]; apply complete_default.
Qed.

Record healthy (b : bool) (m : module) : Prop := {
  he_synced : b = true -> synced m;
  he_complete : match cached m with Some (_, v) => complete v | None => True end
}.

Lemma get_healthy b m : healthy b m -> healthy b (getPreferences m).2 /\ complete (getPreferences m).1.
Proof.
  intros [Hs Hc]. split; [split; [intros E; by apply get_synced, Hs|]|]; unfold Preferences.getPreferences;
    destruct (cached m) as [[r v]|] eqn:Ec; try destruct (bool_decide _); cbn; rewrite ?Ec; try done; apply complete_parsed.
Qed.

Lemma reachable_healthy b m : reachable b m -> healthy b m.
Proof.
  induction 1 as [s l|b m _ IH|b m patch _ IH|b m _ IH|b m _ IH|b m s _ IH].
  - done.
  - by apply get_healthy.
  - destruct (get_healthy _ _ IH) as [[Hs Hc] Hv]. unfold Preferences.updatePreferences, takes_writes. pose proof (get_local m) as Hl.
    destruct (getPreferences m) as [current m1]. cbn [fst snd] in *. unfold set_item. rewrite Hl.
    destruct (local m) as [st|]; [destruct (writable st)|]; rewrite ?andb_true_r, ?andb_false_r; (split; [|]); try done; by apply complete_spread.
  - split; [|apply complete_default]. unfold takes_removals, resetPreferences, remove_item, synced. intros [-> H]%andb_true_iff.
    destruct (local m) as [st|]; [|done]. rewrite H. cbn. unfold readRaw, get_item. cbn.
    unfold remove_key. rewrite get_keep_key. by destruct (readable st).
  - destruct IH. by split.
  - destruct IH. by split.
Qed.

(** C40. A change is read back: whether storage takes it or not, the next reader sees the
    patch over what was read before, and every subscriber is told once. It holds in every
    state in which no write to storage was refused since the page was loaded, and in the
    others for every change but one that brings back the very text that is stored, see
    [reverted_change_is_lost]. [JSON.parse] must read the text of the new preferences
    back as it was written, and storage that can be written can be read. *)
Theorem change_is_read_back b patch m k :
  reachable b m -> JMap.wf patch ->
  (let next := spread (getPreferences m).1 patch in
   JSON_stringify next <> EmptyString /\ JSON_parse (JSON_stringify next) = Some (VObj next) /\
   (b = true \/ readRaw m <> Some (JSON_stringify next))) ->
  (forall s, local m = Some s -> writable s = true -> readable s = true) ->
  prop k (getPreferences (updatePreferences patch m)).1 =
    match prop k patch with Some v => Some v | None => prop k (getPreferences m).1 end /\
  listeners (updatePreferences patch m) = map S (listeners m).
Proof.
  intros Hreach Hw (Hne & Hp & Hb) Hrw. unfold Preferences.updatePreferences.
  pose proof (get_local m) as Hl. pose proof (get_listeners m) as Hs. pose proof (get_cached m) as Hc.
  destruct (get_healthy b m (reachable_healthy b m Hreach)) as [[Hsync _] Hcur].
  destruct (getPreferences m) as [current m1]. cbn [fst snd] in *. set (next := spread current patch) in *.
  destruct (complete_spread current patch Hcur) as [Hn Hall]. fold next in Hn, Hall.
  assert (Hnext : prop k next = match prop k patch with Some v => Some v | None => prop k current end) by (by apply get_spread_over).
  assert (Hfail : prop k (getPreferences (notify (set_cached (readRaw m1, next) m1))).1 =
    match prop k patch with Some v => Some v | None => prop k current end).
  { unfold Preferences.getPreferences. simpl. by rewrite bool_decide_eq_true_2. }
  unfold set_item. rewrite Hl. destruct (local m) as [s|] eqn:El; [destruct (writable s) eqn:Ew|]; (split; [|simpl; by rewrite Hs]); try done.
  set (m2 := notify _).
  assert (Er : readRaw m2 = Some (JSON_stringify next)).
  { unfold readRaw, get_item. simpl. rewrite (Hrw s eq_refl Ew). apply JMap.get_set_eq. }
  assert (Ev : (getPreferences m2).1 = parsePreferences JSON_parse (Some (JSON_stringify next))).
  { destruct Hb as [Hb|Hb]; [by rewrite <- Er; apply (get_synced m2), Hsync|]. unfold Preferences.getPreferences. rewrite Er.
    change (cached m2) with (cached m1). rewrite Hc. by rewrite bool_decide_eq_false_2. }
  rewrite Ev, <- Hnext. unfold parsePreferences. rewrite truthy_opt_nonempty by done. rewrite Hp. simpl. unfold prop.
  rewrite get_spread_over by done. destruct (JMap.get k next) as [v|] eqn:Ek; [done|]. apply JMap.get_None in Ek. apply JMap.get_None.
  intros Hk. by apply Ek, Hall.
Qed.
End json.

(** After a write that failed, changing back to what is stored is not seen: the copy
    still belongs to the stored text. *)
Definition demo_text (p : fields) : string := if val_truthy (prop "devMode" p) then "on" else "off".
Definition demo_parse (s : string) : option value :=
  Some (VObj (spread DEFAULT_PREFERENCES [("devMode", VBool (s =s "on"))])).

Definition demo_prefs (b : bool) : WebUIPreferences := spread DEFAULT_PREFERENCES [("devMode", VBool b)].

Definition full : storage := {| readable := true; writable := false; removable := true; items := [(STORAGE_KEY, "off")] |}.
Definition free : storage := {| readable := true; writable := true; removable := true; items := [(STORAGE_KEY, "off")] |}.

Lemma reverted_change_is_lost :
  let m := updatePreferences demo_parse demo_text [("devMode", VBool true)] {| local := Some full; cached := None; listeners := [] |} in
  let m := updatePreferences demo_parse demo_text [("devMode", VBool false)] (set_local (Some free) m) in
  useDevMode demo_parse m = Some (VBool true).
Proof. vm_compute. reflexivity. Qed.

(** A change is stored; one that storage refuses is read back as well, and another after it. *)
Definition loaded (st : storage) : module := {| local := Some st; cached := None; listeners := [0%nat] |}.

Lemma demo_next b patch m : patch = [("devMode", VBool b)] ->
  (getPreferences demo_parse m).1 = demo_prefs (negb b) \/ (getPreferences demo_parse m).1 = demo_prefs b ->
  let next := spread (getPreferences demo_parse m).1 patch in
  demo_text next <> EmptyString /\ demo_parse (demo_text next) = Some (VObj next).
Proof. intros -> [-> | ->]; destruct b; (split; [done|reflexivity]). Qed.

Lemma change_is_read_back_witness :
  prop "devMode" (getPreferences demo_parse (updatePreferences demo_parse demo_text [("devMode", VBool true)] (loaded free))).1 = Some (VBool true) /\
  prop "devMode" (getPreferences demo_parse (updatePreferences demo_parse demo_text [("devMode", VBool true)]
    (updatePreferences demo_parse demo_text [("devMode", VBool true)] (loaded full)))).1 = Some (VBool true).
Proof.
  assert (Hw : JMap.wf [("devMode", VBool true)]) by (apply (bool_decide_unpack _); vm_compute; exact I). split.
  - refine (proj1 (change_is_read_back demo_parse demo_text true [("devMode", VBool true)] (loaded free) "devMode" (Loaded _ _ _ _) Hw _ _)); [|by intros s [= <-]].
    destruct (demo_next true [("devMode", VBool true)] (loaded free) eq_refl (or_introl eq_refl)) as [H1 H2]. split; [exact H1|]. split; [exact H2|by left].
  - refine (proj1 (change_is_read_back demo_parse demo_text false [("devMode", VBool true)] _ "devMode"
      (Updates _ _ true (loaded full) [("devMode", VBool true)] (Loaded _ _ _ _)) Hw _ _)); [|by intros s [= <-]].
    destruct (demo_next true [("devMode", VBool true)] (updatePreferences demo_parse demo_text [("devMode", VBool true)] (loaded full)) eq_refl
      (or_intror eq_refl)) as [H1 H2].
    split; [exact H1|]. split; [exact H2|right; vm_compute; discriminate].
Defined.
