(* ===== verification/PageAddress.v ===== *)
(** * What the list pages share ([features/users], [features/subscriptions])

    The parameters of an address and of a request, loadouts by name, the accounts a user
    can be scraped with, tasks and messages; and what is needed to read an address back.
    An address is the list of its parameters: its text is a faithful encoding of that
    list. *)

From Stdlib Require Import Ascii ZArith Lia SpecFloat.
From stdpp Require Import base list strings option sets.
From S2P Require Import Prelude JsString JsNum JsInt JsText JsValue Users.

Definition params := JMap.t string.

Definition text_param (key : string) (ps : params) : string := JMap.get key ps ?? EmptyString.
Definition show_bool (b : bool) : string := if b then "true" else "false".
Definition show_order (asc : bool) : string := if asc then "asc" else "desc".

Definition set_if (cond : bool) (key v : string) (ps : params) : params := if cond then JMap.set key v ps else ps.

(** [URLSearchParams.delete]: every parameter of the name. *)
Definition delete_param (key : string) (ps : params) : params := keep (fun e => negb (e.1 =s key)) ps.

(** The numbers of a filter, joined. *)
Definition joined (l : list num) : string := join "," (map show_num l).

(** [${site}-${id}], for a row of the list and for a user. *)
Definition joined_key (site : string) (n : num) : string := site +:+ "-" +:+ show_num n.

(** [s || null] in a request. *)
Definition text_or_null (s : string) : value := if truthy s then VStr s else VNull.

(** A loadout of the list, with its name. *)
Record Loadout := { loadout_name : string; is_default : bool; loadout_item : SearchLoadoutItem }.
Record SearchLoadoutsResponse := { default_name : option string; loadouts : list Loadout }.

Definition find_loadout (n : string) (r : SearchLoadoutsResponse) : option Loadout :=
  find_first (fun e => loadout_name e =s n) (loadouts r).

Record EligibleAuth := { auth_id : num; auth_username : option string; auth_is_active : bool }.

(** A [scrape_and_download] task; its other parameters are constants. *)
Record TaskPayload := { task_site : string; task_username : string; task_auth : option num }.

Inductive toast_type := ToastSuccess | ToastError.

Definition show_count (n : nat) : string := show_Z (Z.of_nat n).
Definition users_text (n : nat) : string := show_count n +:+ " user" +:+ (if (n =? 1)%nat then EmptyString else "s").

(** ** Reading an address *)

Lemma get_set {V} k key (v : V) m : JMap.get k (JMap.set key v m) = if key =s k then Some v else JMap.get k m.
Proof.
  destruct (key =s k) eqn:E.
  - apply str_eqb_eq in E as ->. apply JMap.get_set_eq.
  - apply str_eqb_neq in E. by apply JMap.get_set_ne.
Qed.

Lemma get_set_if k key v (c : bool) m : JMap.get k (set_if c key v m) = if c && (key =s k) then Some v else JMap.get k m.
Proof. destruct c; [apply get_set|done]. Qed.

(** Evaluates the comparisons of literal keys. *)
Ltac literal_keys :=
  repeat match goal with
         | |- context [?a =s ?b] => let v := eval vm_compute in (a =s b) in
                                    match v with true => idtac | false => idtac end; change (a =s b) with v
         end; rewrite ?andb_true_r, ?andb_false_r; cbv iota.

Lemma text_of_if s : (if truthy s then Some s else None) ?? EmptyString = s.
Proof. destruct s; done. Qed.

(** An option of a filter reads back from its text. *)
Definition readable (allowed : list num) (n : num) : Prop :=
  has_char "," (show_num n) = false /\ number_of_string (show_num n) = n /\ (is_integer n && num_in n allowed) = true /\ show_num n <> EmptyString.

Lemma filter_text_nonempty allowed l : Forall (readable allowed) l -> l <> [] -> joined l <> EmptyString.
Proof.
  intros Hl Hne. destruct l as [|n l]; [done|]. inversion Hl as [|? ? Hn _]; subst. destruct Hn as (_ & _ & _ & H).
  unfold joined. destruct l; simpl; [done|]. destruct (show_num n); [done|]. discriminate.
Qed.

Lemma joined_reads_back allowed l : Forall (readable allowed) l -> l <> [] -> parseIntListParam (Some (joined l)) allowed = l.
Proof.
  intros Hl Hne. unfold parseIntListParam. rewrite truthy_opt_nonempty by (by eapply filter_text_nonempty). unfold joined.
  rewrite (split_join ","%char); [|by destruct l|].
  - clear Hne. induction Hl as [|n l (_ & H2 & H3 & _) Hl IH]; [done|]. unfold keep in *. cbn [map List.filter]. rewrite H2, H3. by f_equal.
  - apply Forall_forall. intros s (n & -> & Hn)%list_elem_of_fmap. rewrite Forall_forall in Hl. by apply Hl.
Qed.

(** The same through the address, where an empty filter has no parameter. *)
Lemma filter_reads_back allowed l : Forall (readable allowed) l ->
  parseIntListParam (if negb (length l =? 0)%nat then Some (joined l) else None) allowed = l.
Proof. intros Hl. destruct l as [|n l]; [done|]. cbn [length Nat.eqb negb]. by apply joined_reads_back. Qed.

(** A filter saved in a loadout. *)
Lemma int_list_reads_back allowed l : Forall (readable allowed) l -> int_list (Some (VArr (map VNum l))) allowed = l.
Proof.
  intros Hl. unfold int_list. simpl. rewrite map_map. simpl. rewrite map_id. apply keep_all. intros n Hn. rewrite Forall_forall in Hl. by apply Hl.
Qed.

(** ** Lists of numbers as texts *)

(** Numbers with the same text in the address are sent as the same texts. *)
Lemma joined_texts l l' : joined l = joined l' -> map show_num l = map show_num l'.
Proof.
  unfold joined. intros E.
  assert (Hp : forall l, Forall (fun s => has_char "," s = false) (map show_num l)).
  { intros l0. apply Forall_forall. intros s (x & -> & _)%list_elem_of_fmap. apply show_num_no_comma. }
  assert (Hn : forall x l, join "," (map show_num (x :: l)) <> EmptyString).
  { intros x l0. unfold join. simpl. destruct (map show_num l0); [apply show_num_nonempty|]. apply app_nonempty_l, show_num_nonempty. }
  destruct l as [|x l], l' as [|x' l']; [done| | |].
  - by destruct (Hn x' l').
  - by destruct (Hn x l).
  - by apply (join_inj ","%char) in E.
Qed.

(** ** Removing parameters *)

Lemma get_delete k key ps : JMap.get k (delete_param key ps) = if key =s k then None else JMap.get k ps.
Proof.
  unfold delete_param. induction ps as [|[k' v] ps IH]; simpl; [by destruct (_ =s _)|]. unfold keep in *.
  destruct (k' =s key) eqn:E1; simpl; [apply str_eqb_eq in E1 as ->|].
  - rewrite IH. by destruct (key =s k).
  - destruct (k' =s k) eqn:E2; [|done]. apply str_eqb_eq in E2 as ->. by rewrite str_eqb_sym, E1.
Qed.

(** Setting a parameter to what it is, and removing one that is not there, change nothing. *)
Lemma set_same {V} key (v : V) m : JMap.get key m = Some v -> JMap.set key v m = m.
Proof.
  induction m as [|[k' v'] m IH]; [done|]. simpl. destruct (k' =s key) eqn:E; [|intros H; by rewrite IH].
  apply str_eqb_eq in E as ->. by intros [= ->].
Qed.

Lemma delete_absent key ps : JMap.get key ps = None -> delete_param key ps = ps.
Proof.
  unfold delete_param. intros H. apply keep_all. intros [k v] Hin. simpl. apply negb_true_iff, str_eqb_neq. intros ->.
  apply JMap.get_None in H. apply H. unfold JMap.keys. by apply (list_elem_of_fmap_2 fst _ (key, v)).
Qed.
