(* ===== verification/SubscriptionsPage.v ===== *)
(** * The subscriptions page ([features/subscriptions/hooks/useSubscriptionsPageController.ts])

    The search of the page with its copies in the address, in saved loadouts and in
    the filter dialog; the list that is loaded page by page; the selection, the marks of
    watched and ignored users, and the requests the page sends. As on the network page
    a request is added to those under way and its answer is handled when it comes, in
    any order. An address is the list of its parameters: its text is a faithful
    encoding of that list ([PageAddress]). The scroll listener,
    the keyboard shortcuts' events and the image preview are not modelled.

    The theorems: the selection is always visible; the address and a saved loadout give
    back the search they were made from; the pages cover the backend's list. *)

From Stdlib Require Import Ascii ZArith Lia SpecFloat.
From stdpp Require Import base list strings option sets.
From S2P Require Import Prelude JsString JsNum JsInt JsText JsValue Users PageAddress.

(** ** Records ([api/types/subscriptions.ts], [api/types/users.ts], [api/types/jobs.ts]) *)

(** The fields the page reads. *)
Record SubscriptionInfo := {
  sub_id : num;
  user_id : num;
  username : option string;
  name : option string;
  sub_description : option string;
  sex : option num;
  price : option num;
  watched : bool;
  ignored : bool;
  sub_site : string
}.

Record UserUpdateRequest := { up_name : option string; up_description : option string; up_sex : option num }.

Definition getSubscriptionKey (s : SubscriptionInfo) : string := joined_key (sub_site s) (sub_id s).
Definition user_key (s : SubscriptionInfo) : string := joined_key (sub_site s) (user_id s).

(** ** The search *)

Record search := {
  selectedSite : string;
  selectedAuthId : option num;
  searchTerm : string;
  searchQuery : string;
  activeOnly : bool;
  minPrice : string;
  maxPrice : string;
  sexFilter : list num;
  orderBy : string;
  ascending : bool;
  selectedLoadoutName : string
}.

Definition flag_set (v : option string) : bool := match v with Some s => (s =s "true") || (s =s "1") | None => false end.

Definition SEXES : list num := [#0; #1; #2].

(** The initial values of the [useState]s. *)
Definition from_address (ps : params) : search := {|
  selectedSite := text_param "site" ps;
  selectedAuthId := match truthy_opt (JMap.get "auth_id" ps) with
                    | Some raw => if all_digits raw then Some (number_of_string raw) else None
                    | None => None
                    end;
  searchTerm := text_param "identifier" ps;
  searchQuery := text_param "identifier" ps;
  activeOnly := match JMap.get "active_only" ps with None => true | raw => flag_set raw end;
  minPrice := match JMap.get "min_price" ps with
              | Some raw => raw
              | None => if flag_set (JMap.get "hide_free" ps) then "0.01" else EmptyString
              end;
  maxPrice := text_param "max_price" ps;
  sexFilter := parseIntListParam (JMap.get "sex" ps) SEXES;
  orderBy := str_or (text_param "sort_by" ps) "id";
  ascending := opt_eqb (JMap.get "sort_order" ps) "asc";
  selectedLoadoutName := text_param "loadout" ps |}.

Definition auth_params (o : option num) (ps : params) : params :=
  match o with Some n => JMap.set "auth_id" (show_num n) ps | None => ps end.

(** [nextParams] of the effect that keeps the address. *)
Definition to_address (q : search) : params :=
  let ps := JMap.set "active_only" (show_bool (activeOnly q)) JMap.empty in
  let ps := JMap.set "sort_by" (orderBy q) ps in
  let ps := JMap.set "sort_order" (show_order (ascending q)) ps in
  let ps := set_if (truthy (selectedSite q)) "site" (selectedSite q) ps in
  let ps := auth_params (selectedAuthId q) ps in
  let ps := set_if (truthy (selectedLoadoutName q)) "loadout" (selectedLoadoutName q) ps in
  let ps := set_if (truthy (searchQuery q)) "identifier" (searchQuery q) ps in
  let ps := set_if (truthy (trim (minPrice q))) "min_price" (trim (minPrice q)) ps in
  let ps := set_if (truthy (trim (maxPrice q))) "max_price" (trim (maxPrice q)) ps in
  set_if (negb (length (sexFilter q) =? 0)%nat) "sex" (joined (sexFilter q)) ps.

(** What the debounced effect does when its timer fires. *)
Definition debounced (q : search) : search :=
  if truthy (trim (searchTerm q)) || truthy (searchQuery q)
  then {| selectedSite := selectedSite q; selectedAuthId := selectedAuthId q; searchTerm := searchTerm q; searchQuery := trim (searchTerm q);
          activeOnly := activeOnly q; minPrice := minPrice q; maxPrice := maxPrice q; sexFilter := sexFilter q; orderBy := orderBy q;
          ascending := ascending q; selectedLoadoutName := selectedLoadoutName q |}
  else q.

Definition named (n : string) (q : search) : search :=
  {| selectedSite := selectedSite q; selectedAuthId := selectedAuthId q; searchTerm := searchTerm q; searchQuery := searchQuery q;
     activeOnly := activeOnly q; minPrice := minPrice q; maxPrice := maxPrice q; sexFilter := sexFilter q; orderBy := orderBy q;
     ascending := ascending q; selectedLoadoutName := n |}.

Definition activeFilterCount (q : search) : nat :=
  (if activeOnly q then 1 else 0) + (if truthy (trim (minPrice q)) || truthy (trim (maxPrice q)) then 1 else 0)
  + (if (length (sexFilter q) =? 0)%nat then 0 else 1).

(** ** Loadouts *)

Definition buildAutoLoadoutName (q : search) : string :=
  let siteValue := str_or (normalize (str_or (selectedSite q) "all") 24) "all" in
  let identifierValue := normalize (str_or (searchQuery q) (searchTerm q)) 36 in
  let any (s : string) := str_or (trim s) "any" in
  join " | " (["site:" +:+ siteValue]
              ++ (if truthy identifierValue then ["identifier:" +:+ identifierValue] else [])
              ++ (if truthy (trim (minPrice q)) || truthy (trim (maxPrice q))
                  then ["price:" +:+ any (minPrice q) +:+ "-" +:+ any (maxPrice q)] else [])).

(** The payload of [saveCurrentLoadout]. *)
Definition save_item (q : search) : SearchLoadoutItem := {|
  identifier := str_or (searchQuery q) (trim (searchTerm q));
  description := EmptyString;
  site := selectedSite q;
  filters := [("active_only", VBool (activeOnly q)); ("min_price", text_or_null (trim (minPrice q)));
              ("max_price", text_or_null (trim (maxPrice q))); ("sex", VArr (map VNum (sexFilter q)));
              ("auth_id", match selectedAuthId q with Some n => VNum n | None => VNull end);
              ("order_by", VStr (orderBy q)); ("order_dir", VStr (show_order (ascending q)))] |}.

Definition price_text (v : jsval) : option string :=
  match v with Some (VNum n) => Some (show_num n) | Some (VStr s) => Some s | _ => None end.

Definition applySubscriptionsLoadout (l : SearchLoadoutItem) (q : search) : search :=
  let f key := prop key (filters l) in
  {| selectedSite := site l;
     selectedAuthId := match as_num (f "auth_id") with Some n => if is_integer n then Some n else None | None => None end;
     searchTerm := identifier l;
     searchQuery := identifier l;
     activeOnly := match f "active_only" with Some (VBool b) => b | _ => true end;
     minPrice := price_text (f "min_price") ??
                 match f "hide_free_subscriptions" with Some (VBool true) => "0.01" | _ => EmptyString end;
     maxPrice := price_text (f "max_price") ?? EmptyString;
     sexFilter := int_list (f "sex") SEXES;
     orderBy := as_str (f "order_by") ?? "id";
     ascending := is_text (f "order_dir") "asc";
     selectedLoadoutName := selectedLoadoutName q |}.

(** ** The dialog of filters *)

Record filter_draft := { draftActiveOnly : bool; draftMinPrice : string; draftMaxPrice : string; draftSexFilter : list num }.

Definition cleared_draft : filter_draft :=
  {| draftActiveOnly := true; draftMinPrice := EmptyString; draftMaxPrice := EmptyString; draftSexFilter := [] |}.

Definition draft_of (q : search) : filter_draft :=
  {| draftActiveOnly := activeOnly q; draftMinPrice := minPrice q; draftMaxPrice := maxPrice q; draftSexFilter := sexFilter q |}.

Definition apply_draft (d : filter_draft) (q : search) : search :=
  {| selectedSite := selectedSite q; selectedAuthId := selectedAuthId q; searchTerm := searchTerm q; searchQuery := searchQuery q;
     activeOnly := draftActiveOnly d; minPrice := trim (draftMinPrice d); maxPrice := trim (draftMaxPrice d);
     sexFilter := draftSexFilter d; orderBy := orderBy q; ascending := ascending q; selectedLoadoutName := selectedLoadoutName q |}.

(** ** The list *)

Definition pageSize : Z := 100.

Record SubscriptionListResponse := { page_rows : list SubscriptionInfo; page_total : Z }.

(** The offset of the next page; [None] when there is none. *)
Definition getNextPageParam (lastPage : SubscriptionListResponse) (allPages : list SubscriptionListResponse) : option Z :=
  let loaded := foldl (fun sum p => sum + Z.of_nat (length (page_rows p))) 0 allPages in
  if loaded <? page_total lastPage then Some loaded else None.

(** The offset the next fetch asks for, from the pages that are loaded. *)
Definition next_offset (pages : list SubscriptionListResponse) : option Z :=
  match list.last pages with Some p => getNextPageParam p pages | None => Some 0 end.

(** [fetchNextPage] as often as it takes, from a backend that answers with [fetch limit
    offset]. *)
Fixpoint fetch_all (fetch : Z -> Z -> SubscriptionListResponse) (fuel : nat) (pages : list SubscriptionListResponse)
    : option (list SubscriptionListResponse) :=
  match next_offset pages with
  | None => Some pages
  | Some offset => match fuel with
                   | O => None
                   | S f => fetch_all fetch f (pages ++ [fetch pageSize offset])
                   end
  end.

Definition rows_of (pages : option (list SubscriptionListResponse)) : list SubscriptionInfo := flat_map page_rows (pages ?? []).

Definition finite_or_none (n : num) : option num := if is_finite n then Some n else None.

(** The rows within two prices; a text that is no number is no bound. *)
Definition in_prices (low high : string) (rows : list SubscriptionInfo) : list SubscriptionInfo :=
  let lowest := finite_or_none (parse_float low) in
  let highest := finite_or_none (parse_float high) in
  keep (fun s => let p := price s ?? #0 in
                 negb (match lowest with Some n => p <! n | None => false end)
                 && negb (match highest with Some n => p >! n | None => false end)) rows.

Definition visible (q : search) (rows : list SubscriptionInfo) : list SubscriptionInfo := in_prices (minPrice q) (maxPrice q) rows.

(** [getSubscriptions] of [api/subscriptions.ts] as the query calls it: the parameters
    of its request, in order. *)
Definition getSubscriptions (q : search) (offset : Z) : list (string * string) :=
  (if truthy (selectedSite q) then [("site", selectedSite q)] else [])
  ++ (if truthy (searchQuery q) then [("search", searchQuery q)] else [])
  ++ (if activeOnly q then [("active_only", "true")] else [])
  ++ match selectedAuthId q with Some n => [("auth_id", show_num n)] | None => [] end
  ++ map (fun n => ("sex", show_num n)) (sexFilter q)
  ++ [("limit", show_Z pageSize); ("offset", show_Z offset)]
  ++ (if truthy (orderBy q) then [("order_by", orderBy q)] else [])
  ++ [("order_dir", show_order (ascending q))].

(** ** The page's state *)

Inductive call :=
| CreateJob (job_name : string) (tasks : list TaskPayload)
| FetchAuths (s : SubscriptionInfo)
| Watch (userId : num) (site : string)
| Unwatch (userId : num) (site : string)
| Ignore (userId : num) (site : string)
| Unignore (userId : num) (site : string)
| WatchAll (waiting : list SubscriptionInfo) (count : nat)
| IgnoreAll (waiting : list SubscriptionInfo) (count : nat)
| UpdateUser (s : SubscriptionInfo) (payload : UserUpdateRequest)
| SaveLoadout (n : string) (item : SearchLoadoutItem)
| SetDefaultLoadout (n : string)
| ClearDefaultLoadout
| DeleteLoadout (n : string)
| LoadoutsRefetch (text : string).

Inductive reply :=
| RFailed (text : string)
| RDone
| RJob (job_name : string)
| RAuths (auths : option (list EligibleAuth)) (error : option string).

Record dialogs := {
  filtersModalOpen : bool;
  isScrapeMultipleDialogOpen : bool;
  isWatchMultipleDialogOpen : bool;
  isIgnoreMultipleDialogOpen : bool;
  loadoutModalOpen : bool;
  loadoutNameInput : string
}.

Record picker := {
  authPickerOpen : bool;
  authPickerLoading : bool;
  eligibleAuths : list EligibleAuth;
  authPickerTarget : option SubscriptionInfo
}.

Record editor := {
  editModalOpen : bool;
  editTarget : option SubscriptionInfo;
  editName : string;
  editDescription : string;
  editSex : string
}.

Record page := {
  query : search;
  draft : filter_draft;
  address : params;
  defaultLoadoutApplied : bool;
  loadoutsData : option SearchLoadoutsResponse;
  pages : option (list SubscriptionListResponse);
  selectedSubscriptions : list string;
  watchedKeys : list string;
  ignoredKeys : list string;
  toast : option (string * toast_type);
  toast_timers : nat;
  dialog : dialogs;
  auth_picker : picker;
  edit : editor;
  inflight : list call;
  invalidated : list string
}.

Definition new_page (ps : params) : page := {|
  query := from_address ps; draft := cleared_draft; address := ps; defaultLoadoutApplied := false; loadoutsData := None; pages := None;
  selectedSubscriptions := []; watchedKeys := []; ignoredKeys := []; toast := None; toast_timers := 0;
  dialog := {| filtersModalOpen := false; isScrapeMultipleDialogOpen := false; isWatchMultipleDialogOpen := false;
               isIgnoreMultipleDialogOpen := false; loadoutModalOpen := false; loadoutNameInput := EmptyString |};
  auth_picker := {| authPickerOpen := false; authPickerLoading := false; eligibleAuths := []; authPickerTarget := None |};
  edit := {| editModalOpen := false; editTarget := None; editName := EmptyString; editDescription := EmptyString; editSex := EmptyString |};
  inflight := []; invalidated := [] |}.

(** One setter per group of [useState]s that change together. *)
Definition set_query (q : search) (p : page) : page := {|
  query := q; draft := draft p; address := address p; defaultLoadoutApplied := defaultLoadoutApplied p; loadoutsData := loadoutsData p;
  pages := pages p; selectedSubscriptions := selectedSubscriptions p; watchedKeys := watchedKeys p; ignoredKeys := ignoredKeys p;
  toast := toast p; toast_timers := toast_timers p; dialog := dialog p; auth_picker := auth_picker p; edit := edit p;
  inflight := inflight p; invalidated := invalidated p |}.
Definition set_draft (d : filter_draft) (p : page) : page := {|
  query := query p; draft := d; address := address p; defaultLoadoutApplied := defaultLoadoutApplied p; loadoutsData := loadoutsData p;
  pages := pages p; selectedSubscriptions := selectedSubscriptions p; watchedKeys := watchedKeys p; ignoredKeys := ignoredKeys p;
  toast := toast p; toast_timers := toast_timers p; dialog := dialog p; auth_picker := auth_picker p; edit := edit p;
  inflight := inflight p; invalidated := invalidated p |}.
Definition set_address (ps : params) (p : page) : page := {|
  query := query p; draft := draft p; address := ps; defaultLoadoutApplied := defaultLoadoutApplied p; loadoutsData := loadoutsData p;
  pages := pages p; selectedSubscriptions := selectedSubscriptions p; watchedKeys := watchedKeys p; ignoredKeys := ignoredKeys p;
  toast := toast p; toast_timers := toast_timers p; dialog := dialog p; auth_picker := auth_picker p; edit := edit p;
  inflight := inflight p; invalidated := invalidated p |}.
Definition set_loadouts (applied : bool) (r : option SearchLoadoutsResponse) (p : page) : page := {|
  query := query p; draft := draft p; address := address p; defaultLoadoutApplied := applied; loadoutsData := r;
  pages := pages p; selectedSubscriptions := selectedSubscriptions p; watchedKeys := watchedKeys p; ignoredKeys := ignoredKeys p;
  toast := toast p; toast_timers := toast_timers p; dialog := dialog p; auth_picker := auth_picker p; edit := edit p;
  inflight := inflight p; invalidated := invalidated p |}.
Definition set_pages (l : option (list SubscriptionListResponse)) (p : page) : page := {|
  query := query p; draft := draft p; address := address p; defaultLoadoutApplied := defaultLoadoutApplied p; loadoutsData := loadoutsData p;
  pages := l; selectedSubscriptions := selectedSubscriptions p; watchedKeys := watchedKeys p; ignoredKeys := ignoredKeys p;
  toast := toast p; toast_timers := toast_timers p; dialog := dialog p; auth_picker := auth_picker p; edit := edit p;
  inflight := inflight p; invalidated := invalidated p |}.
Definition set_selection (l : list string) (p : page) : page := {|
  query := query p; draft := draft p; address := address p; defaultLoadoutApplied := defaultLoadoutApplied p; loadoutsData := loadoutsData p;
  pages := pages p; selectedSubscriptions := l; watchedKeys := watchedKeys p; ignoredKeys := ignoredKeys p;
  toast := toast p; toast_timers := toast_timers p; dialog := dialog p; auth_picker := auth_picker p; edit := edit p;
  inflight := inflight p; invalidated := invalidated p |}.
Definition set_marks (w i : list string) (p : page) : page := {|
  query := query p; draft := draft p; address := address p; defaultLoadoutApplied := defaultLoadoutApplied p; loadoutsData := loadoutsData p;
  pages := pages p; selectedSubscriptions := selectedSubscriptions p; watchedKeys := w; ignoredKeys := i;
  toast := toast p; toast_timers := toast_timers p; dialog := dialog p; auth_picker := auth_picker p; edit := edit p;
  inflight := inflight p; invalidated := invalidated p |}.
Definition set_toast (t : option (string * toast_type)) (timers : nat) (p : page) : page := {|
  query := query p; draft := draft p; address := address p; defaultLoadoutApplied := defaultLoadoutApplied p; loadoutsData := loadoutsData p;
  pages := pages p; selectedSubscriptions := selectedSubscriptions p; watchedKeys := watchedKeys p; ignoredKeys := ignoredKeys p;
  toast := t; toast_timers := timers; dialog := dialog p; auth_picker := auth_picker p; edit := edit p;
  inflight := inflight p; invalidated := invalidated p |}.
Definition set_dialog (d : dialogs) (p : page) : page := {|
  query := query p; draft := draft p; address := address p; defaultLoadoutApplied := defaultLoadoutApplied p; loadoutsData := loadoutsData p;
  pages := pages p; selectedSubscriptions := selectedSubscriptions p; watchedKeys := watchedKeys p; ignoredKeys := ignoredKeys p;
  toast := toast p; toast_timers := toast_timers p; dialog := d; auth_picker := auth_picker p; edit := edit p;
  inflight := inflight p; invalidated := invalidated p |}.
Definition set_picker (x : picker) (p : page) : page := {|
  query := query p; draft := draft p; address := address p; defaultLoadoutApplied := defaultLoadoutApplied p; loadoutsData := loadoutsData p;
  pages := pages p; selectedSubscriptions := selectedSubscriptions p; watchedKeys := watchedKeys p; ignoredKeys := ignoredKeys p;
  toast := toast p; toast_timers := toast_timers p; dialog := dialog p; auth_picker := x; edit := edit p;
  inflight := inflight p; invalidated := invalidated p |}.
Definition set_editor (e : editor) (p : page) : page := {|
  query := query p; draft := draft p; address := address p; defaultLoadoutApplied := defaultLoadoutApplied p; loadoutsData := loadoutsData p;
  pages := pages p; selectedSubscriptions := selectedSubscriptions p; watchedKeys := watchedKeys p; ignoredKeys := ignoredKeys p;
  toast := toast p; toast_timers := toast_timers p; dialog := dialog p; auth_picker := auth_picker p; edit := e;
  inflight := inflight p; invalidated := invalidated p |}.
Definition set_traffic (calls : list call) (stale : list string) (p : page) : page := {|
  query := query p; draft := draft p; address := address p; defaultLoadoutApplied := defaultLoadoutApplied p; loadoutsData := loadoutsData p;
  pages := pages p; selectedSubscriptions := selectedSubscriptions p; watchedKeys := watchedKeys p; ignoredKeys := ignoredKeys p;
  toast := toast p; toast_timers := toast_timers p; dialog := dialog p; auth_picker := auth_picker p; edit := edit p;
  inflight := calls; invalidated := stale |}.

Definition send (c : call) (p : page) : page := set_traffic (inflight p ++ [c]) (invalidated p) p.
Definition invalidate (key : string) (p : page) : page := set_traffic (inflight p) (invalidated p ++ [key]) p.

Definition showToast (text : string) (t : toast_type) (p : page) : page := set_toast (Some (text, t)) (S (toast_timers p)) p.
Definition toast_timer (p : page) : page := set_toast None (pred (toast_timers p)) p.

(** ** Derived lists *)

Definition subscriptions (p : page) : list SubscriptionInfo := rows_of (pages p).
Definition subscriptionsTotal (p : page) : Z := match pages p with Some (x :: _) => page_total x | _ => 0 end.
Definition visibleSubscriptions (p : page) : list SubscriptionInfo := visible (query p) (subscriptions p).
Definition visible_keys (p : page) : list string := map getSubscriptionKey (visibleSubscriptions p).

Definition selectedSubscriptionObjects (p : page) : list SubscriptionInfo :=
  keep (fun s => str_in (getSubscriptionKey s) (selectedSubscriptions p)) (visibleSubscriptions p).
Definition selectedScrapableSubscriptions (p : page) : list SubscriptionInfo :=
  keep (fun s => negb (str_in (user_key s) (ignoredKeys p))) (selectedSubscriptionObjects p).
Definition selectedWatchableSubscriptions (p : page) : list SubscriptionInfo :=
  keep (fun s => negb (str_in (user_key s) (watchedKeys p))) (selectedSubscriptionObjects p).
Definition selectedIgnorableSubscriptions (p : page) : list SubscriptionInfo :=
  keep (fun s => negb (str_in (user_key s) (ignoredKeys p))) (selectedSubscriptionObjects p).

(** ** The effects after a render *)

(** The marks, when the list has changed. *)
Definition marks_effect (p : page) : page :=
  let marked (f : SubscriptionInfo -> bool) := foldl (fun l s => if f s then set_add (user_key s) l else l) [] (subscriptions p) in
  set_marks (marked watched) (marked ignored) p.

(** The selection, when what is visible may have changed. *)
Definition selection_effect (p : page) : page :=
  set_selection (keep (fun k => str_in k (visible_keys p)) (selectedSubscriptions p)) p.

Definition address_effect (p : page) : page :=
  if defaultLoadoutApplied p then
    if bool_decide (to_address (query p) = address p) then p else set_address (to_address (query p)) p
  else p.

(** The default loadout, once the loadouts were fetched; [r] is [None] when that failed.
    An address with parameters comes first. *)
Definition loadouts_effect (p : page) : page :=
  if defaultLoadoutApplied p then p
  else if negb (length (address p) =? 0)%nat then set_loadouts true (loadoutsData p) p
  else match loadoutsData p with
       | None => p
       | Some r =>
           let p' := match truthy_opt (default_name r) with
                     | Some n => match find_loadout n r with
                                 | Some l => set_query (named (loadout_name l) (applySubscriptionsLoadout (loadout_item l) (query p))) p
                                 | None => p
                                 end
                     | None => p
                     end in
           set_loadouts true (loadoutsData p) p'
       end.

(** What follows every change. *)
Definition settle (p : page) : page := address_effect (selection_effect p).

(** ** Answers of the list and of the loadouts *)

Definition fetched (l : option (list SubscriptionListResponse)) (p : page) : page := marks_effect (set_pages l p).
Definition loadouts_fetched (r : option SearchLoadoutsResponse) (p : page) : page :=
  loadouts_effect (set_loadouts (defaultLoadoutApplied p) r p).

(** ** Scraping *)

Definition show_name (s : SubscriptionInfo) : string := username s ?? "null".

Definition scrape_task (s : SubscriptionInfo) (auth : option num) : TaskPayload :=
  {| task_site := sub_site s; task_username := username s ?? EmptyString; task_auth := auth |}.

Definition dispatchScrapeUser (s : SubscriptionInfo) (auth : option num) (p : page) : page :=
  send (CreateJob ("Scrape + Download @" +:+ show_name s +:+ " (" +:+ sub_site s +:+ ")") [scrape_task s auth]) p.

Definition set_loading (b : bool) (p : page) : page :=
  let x := auth_picker p in
  set_picker {| authPickerOpen := authPickerOpen x; authPickerLoading := b; eligibleAuths := eligibleAuths x; authPickerTarget := authPickerTarget x |} p.

Definition set_picker_open (b : bool) (p : page) : page :=
  let x := auth_picker p in
  set_picker {| authPickerOpen := b; authPickerLoading := authPickerLoading x; eligibleAuths := eligibleAuths x; authPickerTarget := authPickerTarget x |} p.

(** [resolveAndScrapeUser] up to its [await]. *)
Definition handleScrapeUser (s : SubscriptionInfo) (p : page) : page := send (FetchAuths s) (set_loading true p).

Definition auths_answered (s : SubscriptionInfo) (r : reply) (p : page) : page :=
  set_loading false
    match r with
    | RAuths auths error =>
        match truthy_opt error with
        | Some text => showToast text ToastError p
        | None =>
            match auths ?? [] with
            | [] => dispatchScrapeUser s None p
            | [a] => dispatchScrapeUser s (Some (auth_id a)) p
            | l => set_picker {| authPickerOpen := true; authPickerLoading := authPickerLoading (auth_picker p); eligibleAuths := l;
                                 authPickerTarget := Some s |} p
            end
        end
    | RFailed text => showToast ("Failed to fetch eligible auths: " +:+ text) ToastError p
    | _ => p
    end.

(** ** The selection and its dialogs *)

Definition toggleSubscriptionSelection (s : SubscriptionInfo) (p : page) : page :=
  let key := getSubscriptionKey s in
  set_selection (if str_in key (selectedSubscriptions p) then set_delete key (selectedSubscriptions p)
                 else set_add key (selectedSubscriptions p)) p.

Definition clearSelections (p : page) : page := set_selection [] p.
Definition selectAll (p : page) : page := set_selection (uniq (visible_keys p)) p.

Definition set_dialogs (scrape watch ignore : bool) (p : page) : page :=
  let d := dialog p in
  set_dialog {| filtersModalOpen := filtersModalOpen d; isScrapeMultipleDialogOpen := scrape; isWatchMultipleDialogOpen := watch;
                isIgnoreMultipleDialogOpen := ignore; loadoutModalOpen := loadoutModalOpen d; loadoutNameInput := loadoutNameInput d |} p.
Definition set_scrape_dialog (b : bool) (p : page) : page :=
  set_dialogs b (isWatchMultipleDialogOpen (dialog p)) (isIgnoreMultipleDialogOpen (dialog p)) p.
Definition set_watch_dialog (b : bool) (p : page) : page :=
  set_dialogs (isScrapeMultipleDialogOpen (dialog p)) b (isIgnoreMultipleDialogOpen (dialog p)) p.
Definition set_ignore_dialog (b : bool) (p : page) : page :=
  set_dialogs (isScrapeMultipleDialogOpen (dialog p)) (isWatchMultipleDialogOpen (dialog p)) b p.

Definition if_selected (f : page -> page) (p : page) : page :=
  match selectedSubscriptions p with [] => showToast "No subscriptions selected" ToastError p | _ => f p end.

Definition handleScrapeMultiple : page -> page := if_selected (set_scrape_dialog true).
Definition handleWatchMultiple : page -> page := if_selected (set_watch_dialog true).
Definition handleIgnoreMultiple : page -> page := if_selected (set_ignore_dialog true).

Definition confirmScrapeMultiple (p : page) : page :=
  match selectedScrapableSubscriptions p with
  | [] => set_scrape_dialog false (showToast "All selected users are ignored — nothing to scrape" ToastError p)
  | l => clearSelections (set_scrape_dialog false
           (send (CreateJob ("Scrape Selected (" +:+ show_count (length l) +:+ " users)") (map (fun s => scrape_task s None) l)) p))
  end.

(** The end of a bulk operation, when every request has settled. *)
Definition watch_all_settled (count : nat) (p : page) : page :=
  let p := showToast ("Added " +:+ users_text count +:+ " to watch list") ToastSuccess p in
  clearSelections (set_watch_dialog false (invalidate "watchStats" (invalidate "watchList" p))).
Definition ignore_all_settled (count : nat) (p : page) : page :=
  let p := showToast ("Ignored " +:+ users_text count +:+ " — they will be skipped when scraping") ToastSuccess p in
  clearSelections (set_ignore_dialog false p).

Definition confirmWatchMultiple (p : page) : page :=
  match selectedWatchableSubscriptions p with
  | [] => watch_all_settled 0 p
  | l => send (WatchAll l (length l)) p
  end.
Definition confirmIgnoreMultiple (p : page) : page :=
  match selectedIgnorableSubscriptions p with
  | [] => ignore_all_settled 0 p
  | l => send (IgnoreAll l (length l)) p
  end.

(** ** Marks *)

Definition handleWatchToggle (s : SubscriptionInfo) (p : page) : page :=
  send (if str_in (user_key s) (watchedKeys p) then Unwatch (user_id s) (sub_site s) else Watch (user_id s) (sub_site s)) p.
Definition handleIgnoreToggle (s : SubscriptionInfo) (p : page) : page :=
  send (if str_in (user_key s) (ignoredKeys p) then Unignore (user_id s) (sub_site s) else Ignore (user_id s) (sub_site s)) p.

(** ** The editor *)

Definition openEditModal (s : SubscriptionInfo) (p : page) : page :=
  set_editor {| editModalOpen := true; editTarget := Some s; editName := name s ?? EmptyString;
                editDescription := sub_description s ?? EmptyString;
                editSex := match sex s with None => EmptyString | Some n => show_num n end |} p.

Definition handleSaveUserEdit (p : page) : page :=
  let e := edit p in
  match editTarget e with
  | None => p
  | Some s =>
      let normalizedSex := if editSex e =s EmptyString then None else Some (number_of_string (editSex e)) in
      if match normalizedSex with Some n => negb (num_in n SEXES) | None => false end
      then showToast "Invalid sex value" ToastError p
      else send (UpdateUser s {| up_name := truthy_opt (Some (trim (editName e))); up_description := truthy_opt (Some (trim (editDescription e)));
                                 up_sex := normalizedSex |}) p
  end.

(** ** Filters and loadouts *)

Definition set_filters_modal (b : bool) (p : page) : page :=
  let d := dialog p in
  set_dialog {| filtersModalOpen := b; isScrapeMultipleDialogOpen := isScrapeMultipleDialogOpen d;
                isWatchMultipleDialogOpen := isWatchMultipleDialogOpen d; isIgnoreMultipleDialogOpen := isIgnoreMultipleDialogOpen d;
                loadoutModalOpen := loadoutModalOpen d; loadoutNameInput := loadoutNameInput d |} p.
Definition set_loadout_modal (b : bool) (n : string) (p : page) : page :=
  let d := dialog p in
  set_dialog {| filtersModalOpen := filtersModalOpen d; isScrapeMultipleDialogOpen := isScrapeMultipleDialogOpen d;
                isWatchMultipleDialogOpen := isWatchMultipleDialogOpen d; isIgnoreMultipleDialogOpen := isIgnoreMultipleDialogOpen d;
                loadoutModalOpen := b; loadoutNameInput := n |} p.
Definition set_loadout_input (n : string) (p : page) : page := set_loadout_modal (loadoutModalOpen (dialog p)) n p.

Definition openFiltersModal (p : page) : page := set_filters_modal true (set_draft (draft_of (query p)) p).
Definition applyFilters (p : page) : page := set_filters_modal false (set_query (apply_draft (draft p) (query p)) p).
Definition clearFilters (p : page) : page := set_draft cleared_draft p.

Definition autofillLoadoutName (p : page) : page := set_loadout_input (buildAutoLoadoutName (query p)) p.
Definition openLoadoutModal (p : page) : page :=
  set_loadout_modal true (str_or (selectedLoadoutName (query p)) (buildAutoLoadoutName (query p))) p.

Definition selectedLoadoutIsDefault (p : page) : bool :=
  match loadoutsData p ?> find_loadout (selectedLoadoutName (query p)) with Some l => is_default l | None => false end.

Definition saveCurrentLoadout (p : page) : page :=
  let n := str_or (trim (loadoutNameInput (dialog p))) (buildAutoLoadoutName (query p)) in
  if truthy n then send (SaveLoadout n (save_item (query p))) p else p.

Definition setSelectedAsDefaultLoadout (p : page) : page :=
  let n := selectedLoadoutName (query p) in if truthy n then send (SetDefaultLoadout n) p else p.
Definition clearDefaultLoadout (p : page) : page := send ClearDefaultLoadout p.
Definition deleteSelectedLoadout (p : page) : page :=
  let n := selectedLoadoutName (query p) in if truthy n then send (DeleteLoadout n) p else p.

Definition handleSelectLoadout (v : string) (p : page) : page :=
  let p := set_loadout_input v (set_query (named v (query p)) p) in
  match loadoutsData p ?> find_loadout v with
  | Some l => set_query (applySubscriptionsLoadout (loadout_item l) (query p)) p
  | None => p
  end.

(** [await queryClient.invalidateQueries(..)] and the message after it. *)
Definition refetch_loadouts (text : string) (p : page) : page := send (LoadoutsRefetch text) (invalidate "search-loadouts" p).

(** ** Answers *)

Definition mark_watched (key : string) (p : page) : page := set_marks (set_add key (watchedKeys p)) (ignoredKeys p) p.
Definition unmark_watched (key : string) (p : page) : page := set_marks (set_delete key (watchedKeys p)) (ignoredKeys p) p.
Definition mark_ignored (key : string) (p : page) : page := set_marks (watchedKeys p) (set_add key (ignoredKeys p)) p.
Definition unmark_ignored (key : string) (p : page) : page := set_marks (watchedKeys p) (set_delete key (ignoredKeys p)) p.

Definition watch_invalidated (p : page) : page := invalidate "watchStats" (invalidate "watchList" p).

(** A request has been answered; it is no longer under way. A rejection of the functions
    of loadouts is not handled. *)
Definition answered (c : call) (r : reply) (p : page) : page :=
  match c, r with
  | CreateJob _ _, RJob n => invalidate "jobs" (showToast ("Job " +:+ String "034" (n +:+ String "034" " created successfully!")) ToastSuccess p)
  | CreateJob _ _, RFailed text => showToast ("Failed to create job: " +:+ text) ToastError p
  | FetchAuths s, _ => auths_answered s r p
  | Watch u site, RDone =>
      mark_watched (joined_key site u) (watch_invalidated (showToast ("Added @" +:+ site +:+ " user to watch list") ToastSuccess p))
  | Watch _ _, RFailed text => showToast ("Failed to add to watch list: " +:+ text) ToastError p
  | Unwatch u site, RDone => unmark_watched (joined_key site u) (watch_invalidated (showToast "Removed from watch list" ToastSuccess p))
  | Unwatch _ _, RFailed text => showToast ("Failed to remove from watch list: " +:+ text) ToastError p
  | Ignore u site, RDone =>
      mark_ignored (joined_key site u) (showToast "User ignored — they will be skipped when scraping" ToastSuccess p)
  | Ignore _ _, RFailed text => showToast ("Failed to ignore user: " +:+ text) ToastError p
  | Unignore u site, RDone =>
      unmark_ignored (joined_key site u) (showToast "User unignored — they will be included when scraping" ToastSuccess p)
  | Unignore _ _, RFailed text => showToast ("Failed to unignore user: " +:+ text) ToastError p
  | UpdateUser s _, RDone =>
      let p := showToast ("Updated @" +:+ (truthy_opt (username s) ?? show_num (user_id s))) ToastSuccess p in
      let e := edit p in
      let p := set_editor {| editModalOpen := false; editTarget := None; editName := editName e; editDescription := editDescription e;
                             editSex := editSex e |} p in
      invalidate "users-list" (invalidate "subscriptions" p)
  | UpdateUser _ _, RFailed text => showToast ("Failed to update user: " +:+ text) ToastError p
  | SaveLoadout n _, RDone =>
      refetch_loadouts ("Saved loadout " +:+ String "034" (n +:+ String "034" EmptyString))
        (set_loadout_input n (set_query (named n (query p)) p))
  | SetDefaultLoadout n, RDone => refetch_loadouts ("Default loadout set to " +:+ String "034" (n +:+ String "034" EmptyString)) p
  | ClearDefaultLoadout, RDone => refetch_loadouts "Default loadout cleared" p
  | DeleteLoadout _, RDone =>
      refetch_loadouts "Deleted loadout" (set_loadout_input EmptyString (set_query (named EmptyString (query p)) p))
  | LoadoutsRefetch text, RDone => showToast text ToastSuccess p
  | _, _ => p
  end.

(** The answer of request [i]. *)
Definition answer (i : nat) (r : reply) (p : page) : page :=
  match inflight p !! i with
  | Some (WatchAll _ _ | IgnoreAll _ _) | None => p
  | Some c => answered c r (set_traffic (delete i (inflight p)) (invalidated p) p)
  end.

(** One of the requests of a bulk operation [i], for the user [j], has settled. *)
Definition bulk_answer (i j : nat) (ok : bool) (p : page) : page :=
  let rest c l count finish p :=
    match l with
    | [] => finish count (set_traffic (delete i (inflight p)) (invalidated p) p)
    | _ => set_traffic (<[i := c l count]> (inflight p)) (invalidated p) p
    end in
  match inflight p !! i with
  | Some (WatchAll l count) =>
      match l !! j with
      | Some s => rest WatchAll (delete j l) count watch_all_settled (if ok then mark_watched (user_key s) p else p)
      | None => p
      end
  | Some (IgnoreAll l count) =>
      match l !! j with
      | Some s => rest IgnoreAll (delete j l) count ignore_all_settled (if ok then mark_ignored (user_key s) p else p)
      | None => p
      end
  | _ => p
  end.

(** ** The page as a machine *)

Inductive event : page -> page -> Prop :=
| Type_search q p : event p (set_query q p)
| Debounce p : event p (set_query (debounced (query p)) p)
| Fetched l p : event p (fetched l p)
| Loadouts_fetched r p : event p (loadouts_fetched r p)
| Close_toast p : event p (set_toast None (toast_timers p) p)
| Close_picker b p : event p (set_picker_open b p)
| Toast_timer p : (0 < toast_timers p)%nat -> event p (toast_timer p)
| Scrape_user s p : event p (handleScrapeUser s p)
| Pick_auth s a p : event p (dispatchScrapeUser s a p)
| Toggle_selection s p : s ∈ visibleSubscriptions p -> event p (toggleSubscriptionSelection s p)
| Clear_selection p : event p (clearSelections p)
| Select_all p : event p (selectAll p)
| Scrape_multiple p : event p (handleScrapeMultiple p)
| Watch_multiple p : event p (handleWatchMultiple p)
| Ignore_multiple p : event p (handleIgnoreMultiple p)
| Close_dialogs a b c p : event p (set_dialogs a b c p)
| Confirm_scrape p : event p (confirmScrapeMultiple p)
| Confirm_watch p : event p (confirmWatchMultiple p)
| Confirm_ignore p : event p (confirmIgnoreMultiple p)
| Watch_toggle s p : event p (handleWatchToggle s p)
| Ignore_toggle s p : event p (handleIgnoreToggle s p)
| Open_edit s p : event p (openEditModal s p)
| Type_edit e p : event p (set_editor e p)
| Save_edit p : event p (handleSaveUserEdit p)
| Open_filters p : event p (openFiltersModal p)
| Type_filters d p : event p (set_draft d p)
| Clear_filters p : event p (clearFilters p)
| Apply_filters p : event p (applyFilters p)
| Open_loadouts p : event p (openLoadoutModal p)
| Type_loadout n p : event p (set_loadout_input n p)
| Autofill p : event p (autofillLoadoutName p)
| Select_loadout n p : event p (handleSelectLoadout n p)
| Save_loadout p : event p (saveCurrentLoadout p)
| Default_loadout p : event p (setSelectedAsDefaultLoadout p)
| Clear_default p : event p (clearDefaultLoadout p)
| Delete_loadout p : event p (deleteSelectedLoadout p)
| Answer i r p : event p (answer i r p)
| Bulk_answer i j ok p : event p (bulk_answer i j ok p).

(** Effects run after each event. *)
Inductive reachable (ps : params) : page -> Prop :=
| Begin : reachable ps (settle (new_page ps))
| Next p p' : reachable ps p -> event p p' -> reachable ps (settle p').

(** * What the subscriptions page promises *)

(** ** The address *)

Lemma get_auth k o ps :
  JMap.get k (auth_params o ps) = if "auth_id" =s k then match o with Some n => Some (show_num n) | None => JMap.get k ps end else JMap.get k ps.
Proof. destruct o as [n|]; simpl; [by rewrite get_set|]. by destruct (_ =s _). Qed.

(** What the address of a search holds under a key. *)
Lemma get_address k q :
  JMap.get k (to_address q) =
    if negb (length (sexFilter q) =? 0)%nat && ("sex" =s k) then Some (joined (sexFilter q))
    else if truthy (trim (maxPrice q)) && ("max_price" =s k) then Some (trim (maxPrice q))
    else if truthy (trim (minPrice q)) && ("min_price" =s k) then Some (trim (minPrice q))
    else if truthy (searchQuery q) && ("identifier" =s k) then Some (searchQuery q)
    else if truthy (selectedLoadoutName q) && ("loadout" =s k) then Some (selectedLoadoutName q)
    else if match selectedAuthId q with Some _ => true | None => false end && ("auth_id" =s k) then show_num <$> selectedAuthId q
    else if truthy (selectedSite q) && ("site" =s k) then Some (selectedSite q)
    else if "sort_order" =s k then Some (show_order (ascending q))
    else if "sort_by" =s k then Some (orderBy q)
    else if "active_only" =s k then Some (show_bool (activeOnly q)) else None.
Proof.
  unfold to_address. cbv zeta. rewrite 4!get_set_if, get_set_if, get_auth, get_set_if, 3!get_set.
  destruct (selectedAuthId q); simpl; [done|]. by destruct ("auth_id" =s k).
Qed.

(** A search that was typed and chosen on the page. *)
Record clean (q : search) : Prop := {
  prices_trimmed : trim (minPrice q) = minPrice q /\ trim (maxPrice q) = maxPrice q;
  ordered_by : orderBy q <> EmptyString;
  auth_is_an_id : forall n, selectedAuthId q = Some n -> exists z, n = #z /\ 0 <= z /\ safe z;
  sexes_known : Forall (readable SEXES) (sexFilter q)
}.

(** Reloading the page keeps the search: the address written for it reads back as
    the same search (the text being typed is then the one that was searched for). *)
Theorem address_reads_back q :
  clean q -> searchTerm q = searchQuery q -> from_address (to_address q) = q.
Proof.
  intros [[Hp1 Hp2] Ho Ha Hs] Hterm. unfold from_address, text_param. rewrite !get_address. literal_keys. rewrite Hp1, Hp2.
  destruct q as [site auth term query active lo hi sexes ord asc loadout]. simpl in *. subst query.
  f_equal; try (by apply text_of_if).
  - destruct auth as [n|]; [|done]. destruct (Ha n eq_refl) as (z & -> & Hz & Hsafe).
    change (_ <$> Some #z) with (Some (show_num #z)).
    rewrite truthy_opt_nonempty; [|intros E; pose proof (all_digits_show z Hz Hsafe) as H; by rewrite E in H].
    by rewrite all_digits_show, number_of_show.
  - by destruct active.
  - by apply filter_reads_back.
  - by destruct ord.
  - by destruct asc.
Qed.

(** ** Loadouts *)

Lemma is_integer_int z : 0 <= z -> safe z -> is_integer #z = true.
Proof. intros Hz Hs. unfold is_integer. rewrite finite_int, floor_int, eqb_int, Z.eqb_refl by done. done. Qed.

(** A loadout gives back the search it was saved from, whatever the page showed
    before: everything but the loadout's own name. *)
Theorem loadout_reads_back q q0 :
  clean q -> searchTerm q = searchQuery q ->
  applySubscriptionsLoadout (save_item q) q0 = named (selectedLoadoutName q0) q.
Proof.
  intros [[Hp1 Hp2] Ho Ha Hs] Hterm. unfold applySubscriptionsLoadout, save_item, named.
  cbn [site identifier filters prop]. unfold prop. cbn [JMap.get]. literal_keys. rewrite Hp1, Hp2, Hterm.
  assert (Hid : str_or (searchQuery q) (trim (searchQuery q)) = searchQuery q) by (by destruct (searchQuery q)). rewrite Hid.
  f_equal.
  - destruct (selectedAuthId q) as [n|]; [|done]. destruct (Ha n eq_refl) as (z & -> & Hz & Hsafe). simpl. by rewrite is_integer_int.
  - by destruct (minPrice q).
  - by destruct (maxPrice q).
  - by apply int_list_reads_back.
  - by destruct (ascending q).
Qed.

(** ** The list *)

Lemma loaded_rows pages a :
  foldl (fun sum p => sum + Z.of_nat (length (page_rows p))) a pages = a + Z.of_nat (length (flat_map page_rows pages)).
Proof. revert a. induction pages as [|p pages IH]; intros a; simpl; [lia|]. rewrite IH, length_app. lia. Qed.

Section listing.
Variable roster : list SubscriptionInfo.

(** A backend that answers from a list that does not change meanwhile. *)
Definition serve (limit offset : Z) : SubscriptionListResponse :=
  {| page_rows := take (Z.to_nat limit) (drop (Z.to_nat offset) roster); page_total := Z.of_nat (length roster) |}.

(** The first [k] rows are loaded. *)
Definition holds (pages : list SubscriptionListResponse) (k : nat) : Prop :=
  flat_map page_rows pages = take k roster /\ (k <= length roster)%nat /\
  forall p, list.last pages = Some p -> page_total p = Z.of_nat (length roster).

Lemma next_of_held pages k : holds pages k -> pages <> [] ->
  next_offset pages = if (k <? length roster)%nat then Some (Z.of_nat k) else None.
Proof.
  intros (Hf & Hk & Hl) Hne. unfold next_offset. destruct (list.last pages) as [p|] eqn:E; [|by apply last_None in E].
  unfold getNextPageParam. rewrite (Hl p eq_refl), loaded_rows, Hf, length_take, Z.add_0_l, Nat.min_l by done.
  destruct (k <? length roster)%nat eqn:Ek.
  - apply Nat.ltb_lt in Ek. by rewrite (proj2 (Z.ltb_lt _ _)) by lia.
  - apply Nat.ltb_ge in Ek. by rewrite (proj2 (Z.ltb_ge _ _)) by lia.
Qed.

Lemma holds_more pages k : holds pages k -> holds (pages ++ [serve pageSize (Z.of_nat k)]) (Nat.min (k + 100) (length roster)).
Proof.
  intros (Hf & Hk & Hl). split; [|split; [lia|]].
  - rewrite flat_map_app, Hf. simpl. rewrite app_nil_r, Nat2Z.id, take_take_drop. change (Z.to_nat pageSize) with 100%nat.
    destruct (decide (k + 100 <= length roster)%nat); [by rewrite Nat.min_l|]. by rewrite !take_ge by lia.
  - intros p. rewrite last_snoc. by intros [= <-].
Qed.

Lemma fetch_rest fuel pages k :
  holds pages k -> (length roster <= k + 100 * fuel)%nat -> (pages = [] -> k = 0%nat /\ (0 < fuel)%nat) ->
  exists all, fetch_all serve fuel pages = Some all /\ holds all (length roster) /\ next_offset all = None.
Proof.
  revert pages k. induction fuel as [|f IH]; intros pages k Hh Hn He.
  - assert (Hne : pages <> []) by (intros E; destruct (He E); lia). assert (k = length roster) as -> by (destruct Hh as (_ & ? & _); lia).
    exists pages. cbn [fetch_all]. rewrite (next_of_held _ _ Hh Hne), Nat.ltb_irrefl. done.
  - cbn [fetch_all]. destruct (next_offset pages) as [o|] eqn:E.
    + assert (o = Z.of_nat k) as ->.
      { destruct pages as [|x pages]; [destruct (He eq_refl) as [-> _]; by injection E as <-|].
        rewrite (next_of_held _ _ Hh) in E by done. destruct (_ <? _)%nat; [by injection E as <-|done]. }
      apply (IH _ (Nat.min (k + 100) (length roster))); [by apply holds_more|lia|]. intros E0. by destruct pages.
    + assert (Hne : pages <> []) by (intros ->; done). rewrite (next_of_held _ _ Hh Hne) in E.
      destruct (k <? length roster)%nat eqn:Ek; [done|]. apply Nat.ltb_ge in Ek.
      assert (k = length roster) as -> by (destruct Hh as (_ & ? & _); lia). exists pages. split; [done|]. split; [done|].
      by rewrite (next_of_held _ _ Hh Hne), Nat.ltb_irrefl.
Qed.

(** Loading page after page comes to an end and covers the backend's list, in its
    order: nothing is skipped and nothing loaded twice, and the page then knows that
    there is no more. One request per hundred users is enough. *)
Theorem pages_cover_the_list :
  exists all, fetch_all serve (S (length roster / 100)) [] = Some all /\ rows_of (Some all) = roster /\ next_offset all = None.
Proof.
  destruct (fetch_rest (S (length roster / 100)) [] 0) as (all & H1 & (H2 & _) & H3).
  - split; [by rewrite take_0|]. split; [lia|done].
  - pose proof (Nat.div_mod (length roster) 100 ltac:(lia)). pose proof (Nat.mod_upper_bound (length roster) 100 ltac:(lia)). lia.
  - intros _. split; [done|lia].
  - exists all. split; [done|]. split; [|done]. unfold rows_of. simpl. rewrite H2. by apply take_ge.
Qed.
End listing.

(** ** The selection *)

Lemma visible_marks w i p : visible_keys (set_marks w i p) = visible_keys p.
Proof. done. Qed.

Lemma NoDup_toggled s p : NoDup (selectedSubscriptions p) -> NoDup (selectedSubscriptions (toggleSubscriptionSelection s p)).
Proof. intros H. simpl. destruct (str_in _ _); [by apply NoDup_set_delete|by apply NoDup_set_add]. Qed.

(** What an event does to the selection. *)
Definition selects (p p' : page) : Prop :=
  selectedSubscriptions p' = selectedSubscriptions p \/ selectedSubscriptions p' = [] \/
  selectedSubscriptions p' = uniq (visible_keys p) \/ exists s, p' = toggleSubscriptionSelection s p.

Lemma answered_selection c r p : selectedSubscriptions (answered c r p) = selectedSubscriptions p.
Proof.
  destruct c, r; try done. simpl. unfold auths_answered. destruct (truthy_opt _); [done|]. by destruct (_ ?? _) as [|a [|b l]].
Qed.

Lemma event_selects p p' : event p p' -> selects p p'.
Proof.
  unfold selects. destruct 1; try (by left); try (by right; left); try (by right; right; left); try (by right; right; right; eexists).
  - left. unfold loadouts_fetched, loadouts_effect. simpl. destruct (defaultLoadoutApplied p); [done|]. destruct (negb _); [done|].
    destruct r as [r|]; [|done]. destruct (truthy_opt _); [|done]. by destruct (find_loadout _ r).
  - left. unfold handleScrapeMultiple, if_selected. destruct (selectedSubscriptions p) eqn:E; by rewrite <- E.
  - left. unfold handleWatchMultiple, if_selected. destruct (selectedSubscriptions p) eqn:E; by rewrite <- E.
  - left. unfold handleIgnoreMultiple, if_selected. destruct (selectedSubscriptions p) eqn:E; by rewrite <- E.
  - unfold confirmScrapeMultiple. destruct (selectedScrapableSubscriptions p); [by left|by right; left].
  - unfold confirmWatchMultiple. destruct (selectedWatchableSubscriptions p); [by right; left|by left].
  - unfold confirmIgnoreMultiple. destruct (selectedIgnorableSubscriptions p); [by right; left|by left].
  - left. unfold handleSaveUserEdit. destruct (editTarget _); [|done]. by destruct (match _ with Some _ => _ | None => _ end).
  - left. unfold handleSelectLoadout. by destruct (_ ?> _).
  - left. unfold saveCurrentLoadout. by destruct (truthy _).
  - left. unfold setSelectedAsDefaultLoadout. by destruct (truthy _).
  - left. unfold deleteSelectedLoadout. by destruct (truthy _).
  - left. unfold answer. destruct (inflight p !! i) as [[]|]; try done; by rewrite answered_selection.
  - unfold bulk_answer. destruct (inflight p !! i) as [[]|]; try (by left);
      destruct (waiting !! j); try (by left); destruct (delete j waiting); destruct ok; auto.
Qed.

(** In every reachable page the selection holds only subscriptions that are visible,
    each once, whatever was typed, fetched and answered in between; so the bulk
    operations are about exactly what is selected. *)
Theorem selection_is_visible ps p :
  reachable ps p ->
  NoDup (selectedSubscriptions p) /\ (forall k, k ∈ selectedSubscriptions p -> k ∈ visible_keys p) /\
  (forall k, k ∈ selectedSubscriptions p <-> k ∈ map getSubscriptionKey (selectedSubscriptionObjects p)).
Proof.
  intros Hr. assert (H : NoDup (selectedSubscriptions p) /\ forall k, k ∈ selectedSubscriptions p -> k ∈ visible_keys p).
  { assert (Hv : forall p, visible_keys (settle p) = visible_keys p).
    { intros p0. unfold settle, address_effect. destruct (defaultLoadoutApplied _); [|done]. by destruct (bool_decide _). }
    assert (Hs : forall p, selectedSubscriptions (settle p) = keep (fun k => str_in k (visible_keys p)) (selectedSubscriptions p)).
    { intros p0. unfold settle, address_effect. destruct (defaultLoadoutApplied _); [|done]. by destruct (bool_decide _). }
    induction Hr as [|p p' Hr [IH _] Hs']; rewrite Hs, Hv.
    - split; [constructor|]. intros k Hk. by apply elem_of_nil in Hk.
    - split; [|intros k [_ Hk]%elem_of_keep; by apply str_in_iff]. apply NoDup_keep.
      destruct (event_selects _ _ Hs') as [->|[->|[->|(s & ->)]]]; [done|constructor|apply NoDup_uniq|by apply NoDup_toggled]. }
  destruct H as [H1 H2]. split; [done|]. split; [done|]. intros k. rewrite list_elem_of_fmap. unfold selectedSubscriptionObjects.
  setoid_rewrite elem_of_keep. setoid_rewrite str_in_iff. split.
  - intros Hk. pose proof (H2 k Hk) as Hv. apply list_elem_of_fmap in Hv as (s & -> & Hs). by exists s.
  - by intros (s & -> & _ & Hk).
Qed.

(** ** What the page does not mean to do *)

Definition demo (id user : Z) (login : option string) : SubscriptionInfo := {|
  sub_id := #id; user_id := #user; username := login; name := None; sub_description := None; sex := None; price := Some #5;
  watched := false; ignored := false; sub_site := "onlyfans" |}.

Definition demo_page (l : list SubscriptionInfo) : page :=
  fetched (Some [{| page_rows := l; page_total := Z.of_nat (length l) |}]) (new_page []).

(** Every request of a bulk operation fails, and the message says that the users were added. *)
Lemma failed_watch_is_reported_as_added :
  let p := bulk_answer 0 0 false (confirmWatchMultiple (selectAll (demo_page [demo 1 7 (Some "a")]))) in
  toast p = Some ("Added 1 user to watch list", ToastSuccess) /\ watchedKeys p = [].
Proof. vm_compute. done. Qed.

(** The timer of an earlier message takes a later one away. *)
Lemma old_timer_hides_new_toast :
  let p := showToast "later" ToastError (showToast "earlier" ToastSuccess (new_page [])) in
  toast p = Some ("later", ToastError) /\ toast_timers p = 2%nat /\ toast (toast_timer p) = None.
Proof. done. Qed.

(** A loadout that could not be saved, made default or deleted leaves no message. *)
Lemma failed_loadout_says_nothing n item text p :
  answered (SaveLoadout n item) (RFailed text) p = p /\ answered (SetDefaultLoadout n) (RFailed text) p = p /\
  answered (DeleteLoadout n) (RFailed text) p = p.
Proof. done. Qed.

(** The job of a user without a name is about [@null], and its task names no user. *)
Lemma nameless_user_is_null :
  inflight (dispatchScrapeUser (demo 1 7 None) None (new_page [])) =
    [CreateJob "Scrape + Download @null (onlyfans)" [{| task_site := "onlyfans"; task_username := EmptyString; task_auth := None |}]].
Proof. done. Qed.

(** Two subscriptions to one user are two requests for that user: the marks are of users,
    the selection is of subscriptions. *)
Lemma same_user_watched_twice :
  map user_key (selectedWatchableSubscriptions (selectAll (demo_page [demo 1 7 (Some "a"); demo 2 7 (Some "a")]))) = ["onlyfans-7"; "onlyfans-7"].
Proof. vm_compute. done. Qed.

Definition demo_search : search := {|
  selectedSite := "onlyfans"; selectedAuthId := Some #12; searchTerm := "ann"; searchQuery := "ann"; activeOnly := false; minPrice := "0.01";
  maxPrice := EmptyString; sexFilter := [#0; #2]; orderBy := "price"; ascending := true; selectedLoadoutName := "mine" |}.

Lemma demo_clean : clean demo_search.
Proof.
  split; [done|done| |].
  - intros n [= <-]. exists 12. split; [done|]. split; [lia|unfold safe; lia].
  - repeat (apply Forall_cons; split; [by vm_compute|]). constructor.
Qed.

Lemma address_reads_back_witness : from_address (to_address demo_search) = demo_search.
Proof. exact (address_reads_back demo_search demo_clean eq_refl). Defined.

Lemma loadout_reads_back_witness :
  minPrice (applySubscriptionsLoadout (save_item demo_search) (from_address [])) = "0.01".
Proof. rewrite (loadout_reads_back demo_search (from_address []) demo_clean eq_refl). reflexivity. Defined.

Lemma selection_is_visible_witness :
  let p := settle (selectAll (settle (demo_page [demo 1 7 (Some "a")]))) in
  selectedSubscriptions p = ["onlyfans-1"] /\ "onlyfans-1" ∈ visible_keys p.
Proof.
  split; [vm_compute; reflexivity|]. refine (proj1 (proj2 (selection_is_visible [] _ _)) "onlyfans-1" _).
  - eapply Next; [|apply Select_all]. eapply (Next [] (settle (new_page []))); [apply Begin|].
    assert (E : settle (new_page []) = new_page []) by reflexivity. rewrite E. apply Fetched.
  - vm_compute. apply list_elem_of_here.
Defined.
