(* ===== verification/UsersPage.v ===== *)
(** * The users page ([features/users/hooks/useUsersPageController.ts])

    The search of the page with its copies in the address, in saved loadouts and in the
    filter dialog; the list that grows page by page from the cache of requests; the
    selection, the marks of watched and ignored users, identities, and the requests the
    page sends. The effects of a render are run as React runs them: each reads what was
    rendered and changes the state after the effects before it, and a change renders
    again ([commit], [settle]). What was asked of the backend may be answered at any
    time, also after the page has moved on. The scroll listener and the observer of the
    end of the list are calls of [handleLoadMore] at any time; the image preview is not
    modelled.

    The theorems: the effects come to rest; the users listed are users of the present
    search, each once, and what is selected is listed; a list that is visited anew is
    the first pages of the backend's; requests that share a place in the cache are
    the same request, be it of a page of the list or of the totals; the address gives back the search; what a bulk change of
    identities reports is what happened. *)

From Stdlib Require Import Ascii ZArith Lia SpecFloat.
From stdpp Require Import base list strings option sets.
From S2P Require Import Prelude JsString JsNum JsInt JsSort JsText JsValue Users PageAddress.

(** ** Records ([api/types/users.ts], [api/types/orders.ts]) *)

(** The fields the page reads. *)
Record UserInfo := {
  row_id : num;
  user_id : num;
  username : string;
  name : option string;
  about : option string;
  identity : IdentityValues;
  price : num;
  user_site : string;
  downloaded_at : option string
}.

(** A page of the list; [has_more] and [row_total] may be [null]. *)
Record users_page := { users : list UserInfo; row_total : option num; has_more : option bool }.

(** [name], [alias] and [description] are [None] where the request leaves them out. *)
Record UserUpdateRequest := {
  up_name : option (option string);
  up_alias : option (option string);
  up_description : option (option string);
  up_identity : IdentityValues;
  up_ai_assisted : bool;
  up_verified : bool
}.

Record OrderedPerformerCreateRequest := {
  order_site : string;
  order_user : num;
  order_username : string;
  order_price : num;
  auto_execute : bool
}.

(** [success], [status], [username], [site], [message] and [error] of the answer. *)
Record OrderedPerformerCreateResponse := {
  or_success : bool;
  or_status : option string;
  or_username : option string;
  or_site : option string;
  or_message : option string;
  or_error : option string
}.

Definition row_key (u : UserInfo) : string := joined_key (user_site u) (row_id u).
Definition user_key (u : UserInfo) : string := joined_key (user_site u) (user_id u).

(** ** The search *)

(** What the filter dialog edits. The eight texts of ranges are in the order of
    [Users.RANGE_FIELDS]. *)
Record filter_set := {
  activeOnly : bool;
  sexFilter : list num;
  genderFilter : list num;
  profileTypeFilter : list num;
  sexualContentFilter : list num;
  range_texts : list (string * string);
  userFilters : UserFilterMap
}.

Record search := {
  selectedSite : string;
  searchTerm : string;
  searchQuery : string;
  searchDescriptionTerm : string;
  searchDescriptionQuery : string;
  chosen : filter_set;
  sortBy : string;
  ascending : bool;
  selectedLoadoutName : string
}.

Definition SEXES : list num := [#(-1); #0; #1; #2].
Definition PROFILES : list num := [#(-1); #0; #1; #2; #3].
Definition CONTENTS : list num := [#(-1); #0; #1; #2; #3; #4; #5; #6].

Definition show_state (s : UserFilterState) : string :=
  match s with Include => "include" | Exclude => "exclude" | FilterNone => "none" end.

Definition blank_ranges : list (string * string) := map (fun k => (k, EmptyString)) RANGE_FIELDS.

Definition range_text (k : string) (f : filter_set) : string := JMap.get k (range_texts f) ?? EmptyString.

(** The initial values of the drafts. *)
Definition new_draft : filter_set := {|
  activeOnly := true; sexFilter := []; genderFilter := []; profileTypeFilter := []; sexualContentFilter := [];
  range_texts := blank_ranges; userFilters := DEFAULT_USER_FILTERS |}.

Definition performer_of (raw : option string) : UserFilterState :=
  if opt_eqb raw "exclude" then Exclude else if opt_eqb raw "none" then FilterNone else Include.
Definition subscribed_of (raw : option string) : UserFilterState :=
  if opt_eqb raw "include" then Include else if opt_eqb raw "exclude" then Exclude else FilterNone.

Section page.
Variable favoriteOnly : bool.

(** The initial values of the [useState]s. *)
Definition from_address (ps : params) : search := {|
  selectedSite := str_or (text_param "site" ps) "onlyfans";
  searchTerm := text_param "identifier" ps;
  searchQuery := text_param "identifier" ps;
  searchDescriptionTerm := text_param "description" ps;
  searchDescriptionQuery := text_param "description" ps;
  chosen := {|
    activeOnly := parseBooleanParam (JMap.get "active_only" ps) true;
    sexFilter := parseIntListParam (JMap.get "sex" ps) SEXES;
    genderFilter := parseIntListParam (JMap.get "gender" ps) SEXES;
    profileTypeFilter := parseIntListParam (JMap.get "profile_type" ps) PROFILES;
    sexualContentFilter := parseIntListParam (JMap.get "sexual_content" ps) CONTENTS;
    range_texts := map (fun k => (k, text_param k ps)) RANGE_FIELDS;
    userFilters := {| performer := performer_of (JMap.get "performer_filter" ps);
                      subscribed := subscribed_of (JMap.get "subscribed_filter" ps) |} |};
  sortBy := normalizeUsersSortBy (JMap.get "sort_by" ps) favoriteOnly;
  ascending := opt_eqb (JMap.get "sort_order" ps) "asc";
  selectedLoadoutName := text_param "loadout" ps |}.

Definition list_param (key : string) (l : list num) (ps : params) : params :=
  set_if (negb (length l =? 0)%nat) key (joined l) ps.

(** [nextParams] of the effect that keeps the address. *)
Definition to_address (q : search) : params :=
  let f := chosen q in
  let ps := JMap.set "site" (str_or (selectedSite q) "onlyfans") JMap.empty in
  let ps := JMap.set "active_only" (show_bool (activeOnly f)) ps in
  let ps := JMap.set "sort_by" (sortBy q) ps in
  let ps := JMap.set "sort_order" (show_order (ascending q)) ps in
  let ps := JMap.set "performer_filter" (show_state (performer (userFilters f))) ps in
  let ps := JMap.set "subscribed_filter" (show_state (subscribed (userFilters f))) ps in
  let ps := set_if (truthy (selectedLoadoutName q)) "loadout" (selectedLoadoutName q) ps in
  let ps := set_if (truthy (searchQuery q)) "identifier" (searchQuery q) ps in
  let ps := set_if (truthy (searchDescriptionQuery q)) "description" (searchDescriptionQuery q) ps in
  let ps := list_param "sex" (sexFilter f) ps in
  let ps := list_param "gender" (genderFilter f) ps in
  let ps := list_param "profile_type" (profileTypeFilter f) ps in
  let ps := list_param "sexual_content" (sexualContentFilter f) ps in
  foldl (fun ps k => set_if (truthy (range_text k f)) k (range_text k f) ps) ps RANGE_FIELDS.

Definition with_terms (term text dterm dtext : string) (q : search) : search := {|
  selectedSite := selectedSite q; searchTerm := term; searchQuery := text; searchDescriptionTerm := dterm;
  searchDescriptionQuery := dtext; chosen := chosen q; sortBy := sortBy q; ascending := ascending q;
  selectedLoadoutName := selectedLoadoutName q |}.

Definition with_filters (f : filter_set) (q : search) : search := {|
  selectedSite := selectedSite q; searchTerm := searchTerm q; searchQuery := searchQuery q;
  searchDescriptionTerm := searchDescriptionTerm q; searchDescriptionQuery := searchDescriptionQuery q; chosen := f;
  sortBy := sortBy q; ascending := ascending q; selectedLoadoutName := selectedLoadoutName q |}.

Definition with_sort (by_ : string) (asc : bool) (q : search) : search := {|
  selectedSite := selectedSite q; searchTerm := searchTerm q; searchQuery := searchQuery q;
  searchDescriptionTerm := searchDescriptionTerm q; searchDescriptionQuery := searchDescriptionQuery q; chosen := chosen q;
  sortBy := by_; ascending := asc; selectedLoadoutName := selectedLoadoutName q |}.

Definition with_site (s : string) (q : search) : search := {|
  selectedSite := s; searchTerm := searchTerm q; searchQuery := searchQuery q;
  searchDescriptionTerm := searchDescriptionTerm q; searchDescriptionQuery := searchDescriptionQuery q; chosen := chosen q;
  sortBy := sortBy q; ascending := ascending q; selectedLoadoutName := selectedLoadoutName q |}.

Definition named (n : string) (q : search) : search := {|
  selectedSite := selectedSite q; searchTerm := searchTerm q; searchQuery := searchQuery q;
  searchDescriptionTerm := searchDescriptionTerm q; searchDescriptionQuery := searchDescriptionQuery q; chosen := chosen q;
  sortBy := sortBy q; ascending := ascending q; selectedLoadoutName := n |}.

(** What the debounced effect does when its timer fires. *)
Definition debounced (q : search) : search :=
  let pick typed used := if truthy (trim typed) || truthy used then trim typed else used in
  with_terms (searchTerm q) (pick (searchTerm q) (searchQuery q))
             (searchDescriptionTerm q) (pick (searchDescriptionTerm q) (searchDescriptionQuery q)) q.

(** The fields for text: clearing one searches at once ([UsersPage.tsx]). *)
Definition onSearchTermChange (v : string) (q : search) : search :=
  with_terms v (if truthy v then searchQuery q else EmptyString) (searchDescriptionTerm q) (searchDescriptionQuery q) q.
Definition onSearchDescriptionChange (v : string) (q : search) : search :=
  with_terms (searchTerm q) (searchQuery q) v (if truthy v then searchDescriptionQuery q else EmptyString) q.
Definition onSortOrderToggle (q : search) : search := with_sort (sortBy q) (negb (ascending q)) q.

Definition either (k1 k2 : string) (f : filter_set) : bool := truthy (range_text k1 f) || truthy (range_text k2 f).
Definition one_if (b : bool) : nat := if b then 1 else 0.
Definition some_in (l : list num) : bool := negb (length l =? 0)%nat.

Definition activeUserFilterCount (f : filter_set) : nat :=
  length (List.filter (fun s => negb (show_state s =s "none")) [performer (userFilters f); subscribed (userFilters f)])
  + one_if (activeOnly f) + one_if (either "min_price" "max_price" f)
  + one_if (some_in (sexFilter f)) + one_if (some_in (genderFilter f))
  + one_if (some_in (profileTypeFilter f)) + one_if (some_in (sexualContentFilter f))
  + one_if (either "min_post_count" "max_post_count" f) + one_if (either "min_image_count" "max_image_count" f)
  + one_if (either "min_video_count" "max_video_count" f).

(** ** Loadouts *)

Definition buildAutoLoadoutName (q : search) : string :=
  buildUsersLoadoutName (selectedSite q) (searchQuery q) (searchTerm q) (searchDescriptionQuery q) (searchDescriptionTerm q).

(** The payload of [saveCurrentLoadout]. *)
Definition save_item (q : search) : SearchLoadoutItem :=
  let f := chosen q in {|
  identifier := str_or (searchQuery q) (trim (searchTerm q));
  description := str_or (searchDescriptionQuery q) (trim (searchDescriptionTerm q));
  site := selectedSite q;
  filters := [("active_only", VBool (activeOnly f)); ("sex", VArr (map VNum (sexFilter f))); ("gender", VArr (map VNum (genderFilter f)));
              ("performer_filter", VStr (show_state (performer (userFilters f))));
              ("subscribed_filter", VStr (show_state (subscribed (userFilters f))))]
             ++ map (fun k => (k, VStr (range_text k f))) RANGE_FIELDS
             ++ [("sort_by", VStr (sortBy q)); ("sort_order", VStr (show_order (ascending q)))] |}.

(** The filters a loadout sets; it leaves those of profile type and content alone. *)
Definition loadout_filters (s : UsersLoadoutState) (f : filter_set) : filter_set := {|
  activeOnly := Users.activeOnly s; sexFilter := nextSex s; genderFilter := nextGender s;
  profileTypeFilter := profileTypeFilter f; sexualContentFilter := sexualContentFilter f; range_texts := ranges_of s;
  userFilters := {| performer := performerFilter s; subscribed := subscribedFilter s |} |}.

Definition loadout_search (s : UsersLoadoutState) (q : search) : search := {|
  selectedSite := siteValue s; searchTerm := ls_identifier s; searchQuery := ls_identifier s;
  searchDescriptionTerm := ls_description s; searchDescriptionQuery := ls_description s; chosen := loadout_filters s (chosen q);
  sortBy := sortByValue s; ascending := Users.ascending s; selectedLoadoutName := selectedLoadoutName q |}.

(** ** Requests for the list *)

Definition performerOnly (f : filter_set) : bool := show_state (performer (userFilters f)) =s "include".
Definition excludePerformers (f : filter_set) : bool := show_state (performer (userFilters f)) =s "exclude".
Definition subscribedOnly (f : filter_set) : bool := show_state (subscribed (userFilters f)) =s "include".
Definition excludeSubscribed (f : filter_set) : bool := show_state (subscribed (userFilters f)) =s "exclude".

Definition pageSize : nat := 100.

(** [getUsersList] of [api/users.ts] with the page's query: the parameters of the request
    in order. [stats] is the request for totals. *)
Definition flag_param (k : string) (b : bool) : list (string * string) := if b then [(k, "true")] else [].
Definition text_params (k v : string) : list (string * string) := if truthy v then [(k, v)] else [].

Definition getUsersList (q : search) (order : option (string * string)) (limit offset : nat) (stats : bool) : list (string * string) :=
  let f := chosen q in
  text_params "site" (selectedSite q) ++ text_params "search" (searchQuery q)
  ++ text_params "search_description" (searchDescriptionQuery q)
  ++ flag_param "active_only" (activeOnly f) ++ flag_param "favorite_only" favoriteOnly
  ++ map (fun n => ("sex", show_num n)) (sexFilter f) ++ map (fun n => ("gender", show_num n)) (genderFilter f)
  ++ map (fun n => ("profile_type", show_num n)) (profileTypeFilter f)
  ++ map (fun n => ("sexual_content", show_num n)) (sexualContentFilter f)
  ++ flag_param "subscribed_only" (subscribedOnly f) ++ flag_param "exclude_subscribed" (excludeSubscribed f)
  ++ flat_map (fun k => text_params k (range_text k f)) RANGE_FIELDS
  ++ flag_param "performer_only" (performerOnly f) ++ flag_param "exclude_performers" (excludePerformers f)
  ++ match order with Some (by_, dir) => text_params "sort_by" by_ ++ text_params "sort_order" dir | None => [] end
  ++ [("limit", show_count limit); ("offset", show_count offset); ("include_stats", show_bool stats)]
  ++ flag_param "stats_only" stats.

Definition list_request (q : search) (n : nat) : list (string * string) :=
  getUsersList q (Some (sortBy q, show_order (ascending q))) pageSize ((n - 1) * pageSize) false.
Definition stats_request (q : search) : list (string * string) := getUsersList q None 1 0 true.

(** Parts of a query's key. *)
Inductive key_part := KText (s : string) | KFlag (b : bool).

#[local] Instance key_part_eq_dec : EqDecision key_part.
Proof. solve_decision. Defined.

Definition usersFilterKey (q : search) : list key_part :=
  let f := chosen q in
  [KFlag favoriteOnly; KText (selectedSite q); KText (searchQuery q); KText (searchDescriptionQuery q);
   KFlag (subscribedOnly f); KFlag (excludeSubscribed f); KText (joined (sexFilter f)); KText (joined (genderFilter f));
   KText (joined (profileTypeFilter f)); KText (joined (sexualContentFilter f))]
  ++ map (fun k => KText (range_text k f)) RANGE_FIELDS
  ++ [KFlag (performerOnly f); KFlag (excludePerformers f); KFlag (activeOnly f)].

(** The key of the list but for its page. *)
Definition list_key (q : search) : list key_part := usersFilterKey q ++ [KText (sortBy q); KText (show_order (ascending q))].

(** [JSON.stringify(userFilters)] *)
Definition quoted (s : string) : string := String "034" (s +:+ String "034" EmptyString).
Definition userFilterSignature (m : UserFilterMap) : string :=
  "{" +:+ quoted "performer" +:+ ":" +:+ quoted (show_state (performer m)) +:+ ","
  +:+ quoted "subscribed" +:+ ":" +:+ quoted (show_state (subscribed m)) +:+ "}".

(** The dependencies of the effect that starts the list again. *)
Definition reset_deps (q : search) : list key_part :=
  let f := chosen q in
  [KText (selectedSite q); KText (searchQuery q); KText (searchDescriptionQuery q); KFlag (activeOnly f); KText (sortBy q);
   KText (show_order (ascending q)); KText (userFilterSignature (userFilters f)); KText (joined (sexFilter f));
   KText (joined (genderFilter f)); KText (joined (profileTypeFilter f)); KText (joined (sexualContentFilter f))]
  ++ map (fun k => KText (range_text k f)) RANGE_FIELDS.

(** ** The page's state *)

(** A place in the cache of the list. *)
Definition page_key : Type := list key_part * nat.

Inductive call :=
| CreateJob (job_name : string) (tasks : list TaskPayload)
| FetchAuths (u : UserInfo)
| Subscribe (r : OrderedPerformerCreateRequest)
| UpdateUser (u : UserInfo) (payload : UserUpdateRequest)
| Watch (userId : num) (site : string)
| Unwatch (userId : num) (site : string)
| Ignore (userId : num) (site : string)
| Unignore (userId : num) (site : string)
| WatchAll (waiting : list UserInfo) (count : nat)
| IgnoreAll (waiting : list UserInfo) (count : nat)
| IdentityAll (payload : UserUpdateRequest) (waiting : list UserInfo) (successes failures : nat)
| SaveLoadout (n : string) (item : SearchLoadoutItem)
| SetDefaultLoadout (n : string)
| ClearDefaultLoadout
| DeleteLoadout (n : string)
| LoadoutsRefetch (text : string).

Inductive reply :=
| RFailed (text : string)
| RDone
| RJob (job_name : string)
| ROrder (data : OrderedPerformerCreateResponse)
| RAuths (auths : option (list EligibleAuth)) (error : option string).

(** The list with its page and selection. *)
Record listing := {
  allUsers : list UserInfo;
  page_no : nat;
  hasMore : bool;
  selectedUsers : list string
}.

(** What the cache of requests holds: pages of the list, requests that were sent, the
    last error of the list, and totals. *)
Record requests := {
  cache : page_key -> option users_page;
  asked : list page_key;
  list_error : option (page_key * string);
  totals : list key_part -> option (string + UsersListResponse)
}.

Record dialogs := {
  filtersModalOpen : bool;
  bulkIdentityModalOpen : bool;
  bulkIdentitySaving : bool;
  loadoutModalOpen : bool;
  loadoutNameInput : string;
  bulkIdentity : IdentityDraft
}.

Record picker := {
  authPickerOpen : bool;
  authPickerLoading : bool;
  eligibleAuths : list EligibleAuth;
  authPickerTarget : option UserInfo
}.

Record editor := {
  editModalOpen : bool;
  editTarget : option UserInfo;
  editName : string;
  editAlias : string;
  editDescription : string;
  userEditIdentity : IdentityDraft
}.

(** The loadouts as they were fetched. *)
Record loadout_state := {
  defaultLoadoutApplied : bool;
  loadoutsFetched : bool;
  loadoutsData : option SearchLoadoutsResponse
}.

(** The dependencies effects last ran for; [None] before they ran. *)
Record dependencies := { seen_deps : option (list key_part); seen_loading : option bool }.

Record page := {
  query : search;
  draft : filter_set;
  address : params;
  saved : loadout_state;
  roster : listing;
  autoLoadLock : bool;
  seen : dependencies;
  server : requests;
  watchedKeys : list string;
  ignoredKeys : list string;
  toast : option (string * toast_type);
  toast_timers : nat;
  dialog : dialogs;
  auth_picker : picker;
  edit : editor;
  inflight : list call;
  invalidated : list string
}.

(** A page that is opened; [held] and [fetched] are what the cache holds from an earlier
    visit. *)
Definition new_page (held : requests) (fetched : option SearchLoadoutsResponse) (ps : params) : page := {|
  query := from_address ps; draft := new_draft; address := ps;
  saved := {| defaultLoadoutApplied := false; loadoutsFetched := match fetched with Some _ => true | None => false end; loadoutsData := fetched |};
  roster := {| allUsers := []; page_no := 1; hasMore := true; selectedUsers := [] |};
  autoLoadLock := false; seen := {| seen_deps := None; seen_loading := None |};
  server := {| cache := cache held; asked := []; list_error := None; totals := totals held |};
  watchedKeys := []; ignoredKeys := []; toast := None; toast_timers := 0;
  dialog := {| filtersModalOpen := false; bulkIdentityModalOpen := false; bulkIdentitySaving := false; loadoutModalOpen := false;
               loadoutNameInput := EmptyString; bulkIdentity := EMPTY_IDENTITY_DRAFT |};
  auth_picker := {| authPickerOpen := false; authPickerLoading := false; eligibleAuths := []; authPickerTarget := None |};
  edit := {| editModalOpen := false; editTarget := None; editName := EmptyString; editAlias := EmptyString;
             editDescription := EmptyString; userEditIdentity := EMPTY_IDENTITY_DRAFT |};
  inflight := []; invalidated := [] |}.

(** One setter per group of states that change together. *)
Definition set_query (q : search) (p : page) : page := {|
  query := q; draft := draft p; address := address p; saved := saved p; roster := roster p; autoLoadLock := autoLoadLock p;
  seen := seen p; server := server p; watchedKeys := watchedKeys p; ignoredKeys := ignoredKeys p; toast := toast p;
  toast_timers := toast_timers p; dialog := dialog p; auth_picker := auth_picker p; edit := edit p; inflight := inflight p;
  invalidated := invalidated p |}.
Definition set_draft (d : filter_set) (p : page) : page := {|
  query := query p; draft := d; address := address p; saved := saved p; roster := roster p; autoLoadLock := autoLoadLock p;
  seen := seen p; server := server p; watchedKeys := watchedKeys p; ignoredKeys := ignoredKeys p; toast := toast p;
  toast_timers := toast_timers p; dialog := dialog p; auth_picker := auth_picker p; edit := edit p; inflight := inflight p;
  invalidated := invalidated p |}.
Definition set_address (ps : params) (p : page) : page := {|
  query := query p; draft := draft p; address := ps; saved := saved p; roster := roster p; autoLoadLock := autoLoadLock p;
  seen := seen p; server := server p; watchedKeys := watchedKeys p; ignoredKeys := ignoredKeys p; toast := toast p;
  toast_timers := toast_timers p; dialog := dialog p; auth_picker := auth_picker p; edit := edit p; inflight := inflight p;
  invalidated := invalidated p |}.
Definition set_saved (s : loadout_state) (p : page) : page := {|
  query := query p; draft := draft p; address := address p; saved := s; roster := roster p; autoLoadLock := autoLoadLock p;
  seen := seen p; server := server p; watchedKeys := watchedKeys p; ignoredKeys := ignoredKeys p; toast := toast p;
  toast_timers := toast_timers p; dialog := dialog p; auth_picker := auth_picker p; edit := edit p; inflight := inflight p;
  invalidated := invalidated p |}.
Definition set_roster (l : listing) (p : page) : page := {|
  query := query p; draft := draft p; address := address p; saved := saved p; roster := l; autoLoadLock := autoLoadLock p;
  seen := seen p; server := server p; watchedKeys := watchedKeys p; ignoredKeys := ignoredKeys p; toast := toast p;
  toast_timers := toast_timers p; dialog := dialog p; auth_picker := auth_picker p; edit := edit p; inflight := inflight p;
  invalidated := invalidated p |}.
Definition set_lock (b : bool) (p : page) : page := {|
  query := query p; draft := draft p; address := address p; saved := saved p; roster := roster p; autoLoadLock := b;
  seen := seen p; server := server p; watchedKeys := watchedKeys p; ignoredKeys := ignoredKeys p; toast := toast p;
  toast_timers := toast_timers p; dialog := dialog p; auth_picker := auth_picker p; edit := edit p; inflight := inflight p;
  invalidated := invalidated p |}.
Definition set_seen (d : dependencies) (p : page) : page := {|
  query := query p; draft := draft p; address := address p; saved := saved p; roster := roster p;
  autoLoadLock := autoLoadLock p; seen := d; server := server p; watchedKeys := watchedKeys p; ignoredKeys := ignoredKeys p;
  toast := toast p; toast_timers := toast_timers p; dialog := dialog p; auth_picker := auth_picker p; edit := edit p;
  inflight := inflight p; invalidated := invalidated p |}.
Definition set_server (r : requests) (p : page) : page := {|
  query := query p; draft := draft p; address := address p; saved := saved p; roster := roster p;
  autoLoadLock := autoLoadLock p; seen := seen p; server := r; watchedKeys := watchedKeys p; ignoredKeys := ignoredKeys p;
  toast := toast p; toast_timers := toast_timers p; dialog := dialog p; auth_picker := auth_picker p; edit := edit p;
  inflight := inflight p; invalidated := invalidated p |}.
Definition set_marks (w i : list string) (p : page) : page := {|
  query := query p; draft := draft p; address := address p; saved := saved p; roster := roster p;
  autoLoadLock := autoLoadLock p; seen := seen p; server := server p; watchedKeys := w; ignoredKeys := i; toast := toast p;
  toast_timers := toast_timers p; dialog := dialog p; auth_picker := auth_picker p; edit := edit p; inflight := inflight p;
  invalidated := invalidated p |}.
Definition set_toast (t : option (string * toast_type)) (timers : nat) (p : page) : page := {|
  query := query p; draft := draft p; address := address p; saved := saved p; roster := roster p;
  autoLoadLock := autoLoadLock p; seen := seen p; server := server p; watchedKeys := watchedKeys p;
  ignoredKeys := ignoredKeys p; toast := t; toast_timers := timers; dialog := dialog p; auth_picker := auth_picker p;
  edit := edit p; inflight := inflight p; invalidated := invalidated p |}.
Definition set_dialog (d : dialogs) (p : page) : page := {|
  query := query p; draft := draft p; address := address p; saved := saved p; roster := roster p;
  autoLoadLock := autoLoadLock p; seen := seen p; server := server p; watchedKeys := watchedKeys p;
  ignoredKeys := ignoredKeys p; toast := toast p; toast_timers := toast_timers p; dialog := d; auth_picker := auth_picker p;
  edit := edit p; inflight := inflight p; invalidated := invalidated p |}.
Definition set_picker (x : picker) (p : page) : page := {|
  query := query p; draft := draft p; address := address p; saved := saved p; roster := roster p;
  autoLoadLock := autoLoadLock p; seen := seen p; server := server p; watchedKeys := watchedKeys p;
  ignoredKeys := ignoredKeys p; toast := toast p; toast_timers := toast_timers p; dialog := dialog p; auth_picker := x;
  edit := edit p; inflight := inflight p; invalidated := invalidated p |}.
Definition set_editor (e : editor) (p : page) : page := {|
  query := query p; draft := draft p; address := address p; saved := saved p; roster := roster p;
  autoLoadLock := autoLoadLock p; seen := seen p; server := server p; watchedKeys := watchedKeys p;
  ignoredKeys := ignoredKeys p; toast := toast p; toast_timers := toast_timers p; dialog := dialog p;
  auth_picker := auth_picker p; edit := e; inflight := inflight p; invalidated := invalidated p |}.
Definition set_traffic (calls : list call) (stale : list string) (p : page) : page := {|
  query := query p; draft := draft p; address := address p; saved := saved p; roster := roster p;
  autoLoadLock := autoLoadLock p; seen := seen p; server := server p; watchedKeys := watchedKeys p;
  ignoredKeys := ignoredKeys p; toast := toast p; toast_timers := toast_timers p; dialog := dialog p;
  auth_picker := auth_picker p; edit := edit p; inflight := calls; invalidated := stale |}.

Definition send (c : call) (p : page) : page := set_traffic (inflight p ++ [c]) (invalidated p) p.
Definition invalidate (key : string) (p : page) : page := set_traffic (inflight p) (invalidated p ++ [key]) p.

Definition showToast (text : string) (t : toast_type) (p : page) : page := set_toast (Some (text, t)) (S (toast_timers p)) p.
Definition toast_timer (p : page) : page := set_toast None (pred (toast_timers p)) p.

Definition set_users (l : list UserInfo) (n : nat) (more : bool) (p : page) : page :=
  set_roster {| allUsers := l; page_no := n; hasMore := more; selectedUsers := selectedUsers (roster p) |} p.
Definition setSelectedUsers (l : list string) (p : page) : page :=
  let r := roster p in
  set_roster {| allUsers := allUsers r; page_no := page_no r; hasMore := hasMore r; selectedUsers := l |} p.

(** ** What the hook derives from its state *)

(** The key of [useQuery]; the request is sent once loadouts have been looked at, what the
    cache holds is shown before. *)
Definition current_key (p : page) : page_key := (list_key (query p), page_no (roster p)).
Definition enabled (p : page) : bool := defaultLoadoutApplied (saved p).
Definition usersData (p : page) : option users_page := cache (server p) (current_key p).

Definition error_text (p : page) : option string :=
  match list_error (server p) with
  | Some (k, text) => if bool_decide (k = current_key p) then Some text else None
  | None => None
  end.

Definition isLoading (p : page) : bool :=
  enabled p && match usersData p, error_text p with None, None => true | _, _ => false end.

Definition visible_keys (p : page) : list string := map row_key (allUsers (roster p)).
Definition isLoadingInitialPage (p : page) : bool :=
  isLoading p && (page_no (roster p) =? 1)%nat && (length (allUsers (roster p)) =? 0)%nat.
Definition isLoadingNextPage (p : page) : bool := isLoading p && (1 <? page_no (roster p))%nat.

(** The totals are asked for once there is a list. *)
Definition totals_of (p : page) : option (string + UsersListResponse) := totals (server p) (usersFilterKey (query p)).
Definition stats (p : page) : option UsersStats :=
  buildUsersStats match totals_of p with Some (inr d) => Some d | _ => None end.

Inductive totals_status := TotalsLoading | TotalsUnavailable | TotalsReady.
Definition totalsStatus (p : page) : totals_status :=
  match totals_of p with
  | Some (inl _) => TotalsUnavailable
  | _ => match stats p with Some _ => TotalsReady | None => TotalsLoading end
  end.

Definition watchedCount (p : page) : nat :=
  let matching := length (List.filter (fun u => str_in (row_key u) (watchedKeys p) || str_in (user_key u) (watchedKeys p)) (allUsers (roster p))) in
  if (0 <? matching)%nat then matching else length (watchedKeys p).
Definition unscrapedCount (p : page) : nat :=
  length (List.filter (fun u => match truthy_opt (downloaded_at u) with Some _ => false | None => true end) (allUsers (roster p))).

(** ** The effects after a render: [r] is the page that was rendered *)

Definition reset_effect (r p : page) : page :=
  if bool_decide (seen_deps (seen p) = Some (reset_deps (query r))) then p
  else setSelectedUsers [] (set_users [] 1 true
         (set_seen {| seen_deps := Some (reset_deps (query r)); seen_loading := seen_loading (seen p) |} p)).

Definition sort_effect (r p : page) : page :=
  let by_ := normalizeUsersSortBy (Some (sortBy (query r))) favoriteOnly in
  if by_ =s sortBy (query r) then p else set_query (with_sort by_ (ascending (query p)) (query p)) p.

Definition address_effect (r p : page) : page :=
  if defaultLoadoutApplied (saved r) then
    if bool_decide (to_address (query r) = address r) then p else set_address (to_address (query r)) p
  else p.

(** [useQuery] asks for the page unless that was asked before; a page that is in the cache
    may be asked for again. *)
Definition ask (k : page_key) (s : requests) : requests :=
  if bool_decide (k ∈ asked s) then s
  else {| cache := cache s; asked := asked s ++ [k]; list_error := list_error s; totals := totals s |}.
Definition fetch_effect (r p : page) : page := if enabled r then set_server (ask (current_key r) (server p)) p else p.

Definition applyUsersLoadout (l : SearchLoadoutItem) (p : page) : page :=
  let s := applyUsersLoadoutState l favoriteOnly in
  set_draft (loadout_filters s (draft p)) (set_query (loadout_search s (query p)) p).

Definition set_applied (b : bool) (p : page) : page :=
  set_saved {| defaultLoadoutApplied := b; loadoutsFetched := loadoutsFetched (saved p); loadoutsData := loadoutsData (saved p) |} p.

Definition default_loadout (s : loadout_state) : option Loadout :=
  loadoutsData s ?> fun d => truthy_opt (default_name d) ?> fun n => find_loadout n d.

Definition loadout_effect (r p : page) : page :=
  if defaultLoadoutApplied (saved r) || negb (loadoutsFetched (saved r)) then p
  else if negb (length (address r) =? 0)%nat then set_applied true p
  else set_applied true
         match default_loadout (saved r) with
         | Some l => let p := applyUsersLoadout (loadout_item l) p in set_query (named (loadout_name l) (query p)) p
         | None => p
         end.

(** A page of the list joins those before it. *)
Definition merge_users (n : nat) (previous rows : list UserInfo) : list UserInfo :=
  if (n =? 1)%nat then rows
  else previous ++ keep (fun u => negb (str_in (row_key u) (map row_key previous))) rows.

Definition more_after (n : nat) (d : users_page) : bool :=
  let loadedCount := ((n - 1) * pageSize + length (users d))%nat in
  has_more d ?? match row_total d with
                | Some t => #(Z.of_nat loadedCount) <! t
                | None => (length (users d) =? pageSize)%nat
                end.

Definition users_effect (r p : page) : page :=
  match usersData r with
  | Some d => let n := page_no (roster r) in
              set_users (merge_users n (allUsers (roster p)) (users d)) (page_no (roster p)) (more_after n d) p
  | None => p
  end.

Definition selection_effect (r p : page) : page :=
  setSelectedUsers (keep (fun k => str_in k (visible_keys r)) (selectedUsers (roster p))) p.

Definition lock_effect (r p : page) : page :=
  if bool_decide (seen_loading (seen p) = Some (isLoading r)) then p
  else set_lock (isLoading r && autoLoadLock p)
         (set_seen {| seen_deps := seen_deps (seen p); seen_loading := Some (isLoading r) |} p).

(** One render's effects, in the order of the hook. *)
Definition commit (r : page) : page :=
  lock_effect r (selection_effect r (users_effect r (loadout_effect r (fetch_effect r (address_effect r (sort_effect r (reset_effect r r))))))).

(** An error is forgotten with the page it was about. *)
Definition forget_error (p : page) : page :=
  match error_text p with
  | Some _ => p
  | None => let s := server p in set_server {| cache := cache s; asked := asked s; list_error := None; totals := totals s |} p
  end.

(** Renders until nothing changes. *)
Definition settle (p : page) : page := forget_error (Nat.iter 4 commit p).

(** ** Answers of the list, of totals and of the loadouts *)

Definition list_answered (k : page_key) (d : users_page) (p : page) : page :=
  let s := server p in
  set_server {| cache := fun k' => if bool_decide (k' = k) then Some d else cache s k'; asked := asked s;
                list_error := match list_error s with
                              | Some e => if bool_decide (e.1 = k) then None else Some e
                              | None => None
                              end;
                totals := totals s |} p.

Definition list_failed (k : page_key) (text : string) (p : page) : page :=
  let s := server p in
  set_server {| cache := cache s; asked := asked s;
                list_error := if bool_decide (k = current_key p) then Some (k, text) else list_error s; totals := totals s |} p.

Definition totals_answered (k : list key_part) (r : string + UsersListResponse) (p : page) : page :=
  let s := server p in
  set_server {| cache := cache s; asked := asked s; list_error := list_error s;
                totals := fun k' => if bool_decide (k' = k) then Some r else totals s k' |} p.

(** [r] is [None] when the loadouts could not be fetched. *)
Definition loadouts_answered (r : option SearchLoadoutsResponse) (p : page) : page :=
  let s := saved p in
  set_saved {| defaultLoadoutApplied := defaultLoadoutApplied s; loadoutsFetched := true;
               loadoutsData := match r with Some d => Some d | None => loadoutsData s end |} p.

(** ** The list and the selection *)

Definition handleLoadMore (p : page) : page :=
  if autoLoadLock p || isLoadingInitialPage p || isLoadingNextPage p || negb (hasMore (roster p)) then p
  else let r := roster p in
       set_lock true (set_roster {| allUsers := allUsers r; page_no := S (page_no r); hasMore := hasMore r;
                                    selectedUsers := selectedUsers r |} p).

Definition clearSelection (p : page) : page := setSelectedUsers [] p.
Definition selectAllVisibleUsers (p : page) : page := setSelectedUsers (uniq (visible_keys p)) p.
Definition handleSelectAll (p : page) : page :=
  if (length (selectedUsers (roster p)) =? length (allUsers (roster p)))%nat then clearSelection p else selectAllVisibleUsers p.
Definition handleSelectUser (u : UserInfo) (p : page) : page :=
  let key := row_key u in
  let l := selectedUsers (roster p) in
  setSelectedUsers (if str_in key l then set_delete key l else set_add key l) p.

(** What keeps the keyboard shortcuts from working; [typing] is [isTypingTarget]. *)
Definition keys_blocked (typing : bool) (p : page) : bool :=
  authPickerOpen (auth_picker p) || editModalOpen (edit p) || bulkIdentityModalOpen (dialog p) || filtersModalOpen (dialog p)
  || loadoutModalOpen (dialog p) || typing.
Definition select_all_key (typing : bool) (p : page) : page :=
  if keys_blocked typing p || (length (allUsers (roster p)) =? 0)%nat then p else selectAllVisibleUsers p.
Definition escape_key (typing : bool) (p : page) : page :=
  if keys_blocked typing p || (length (selectedUsers (roster p)) =? 0)%nat then p else clearSelection p.

Definition selected_users (p : page) : list UserInfo :=
  keep (fun u => str_in (row_key u) (selectedUsers (roster p))) (allUsers (roster p)).

(** ** Scraping and subscribing *)

Definition scrape_task (u : UserInfo) (auth : option num) : TaskPayload :=
  {| task_site := user_site u; task_username := username u; task_auth := auth |}.

Definition dispatchScrapeUser (u : UserInfo) (auth : option num) (p : page) : page :=
  send (CreateJob ("Scrape + Download @" +:+ username u +:+ " (" +:+ user_site u +:+ ")") [scrape_task u auth]) p.

Definition set_loading (b : bool) (p : page) : page :=
  let x := auth_picker p in
  set_picker {| authPickerOpen := authPickerOpen x; authPickerLoading := b; eligibleAuths := eligibleAuths x; authPickerTarget := authPickerTarget x |} p.
Definition set_picker_open (b : bool) (p : page) : page :=
  let x := auth_picker p in
  set_picker {| authPickerOpen := b; authPickerLoading := authPickerLoading x; eligibleAuths := eligibleAuths x; authPickerTarget := authPickerTarget x |} p.

(** Up to its [await]. *)
Definition resolveAndScrapeUser (u : UserInfo) (p : page) : page := send (FetchAuths u) (set_loading true p).

Definition auths_answered (u : UserInfo) (r : reply) (p : page) : page :=
  set_loading false
    match r with
    | RAuths auths error =>
        match truthy_opt error with
        | Some text => showToast text ToastError p
        | None =>
            match auths ?? [] with
            | [] => dispatchScrapeUser u None p
            | [a] => dispatchScrapeUser u (Some (auth_id a)) p
            | l => set_picker {| authPickerOpen := true; authPickerLoading := authPickerLoading (auth_picker p); eligibleAuths := l;
                                 authPickerTarget := Some u |} p
            end
        end
    | RFailed text => showToast ("Failed to fetch eligible auths: " +:+ text) ToastError p
    | _ => p
    end.

(** Choosing an account in the picker ([UsersPage.tsx]). *)
Definition onSelectAuth (authId : num) (p : page) : page :=
  match authPickerTarget (auth_picker p) with
  | Some u => set_picker_open false (dispatchScrapeUser u (Some authId) p)
  | None => p
  end.

Definition handleScrapeSelected (p : page) : page :=
  match keep (fun u => negb (str_in (user_key u) (ignoredKeys p))) (selected_users p) with
  | [] => showToast "All selected users are ignored — nothing to scrape" ToastError p
  | [u] => clearSelection (resolveAndScrapeUser u p)
  | l => clearSelection (send (CreateJob ("Scrape + Download " +:+ users_text (length l)) (map (fun u => scrape_task u None) l)) p)
  end.

Definition handleSubscribeUser (u : UserInfo) (p : page) : page :=
  send (Subscribe {| order_site := user_site u; order_user := user_id u; order_username := username u; order_price := price u;
                     auto_execute := false |}) p.

Definition order_target (d : OrderedPerformerCreateResponse) : string :=
  "@" +:+ (truthy_opt (or_username d) ?? "user") +:+ " (" +:+ match or_site d with Some s => s | None => "null" end +:+ ")".

Definition order_answered (d : OrderedPerformerCreateResponse) (p : page) : page :=
  invalidate "orders-performers"
    (if or_success d then
       if opt_eqb (or_status d) "completed" then showToast ("Subscribed to " +:+ order_target d) ToastSuccess p
       else showToast (truthy_opt (or_message d) ?? ("Order queued for " +:+ order_target d)) ToastSuccess p
     else showToast (truthy_opt (or_error d) ?? "Failed to subscribe") ToastError p).

(** ** Marks *)

Definition handleWatchToggle (u : UserInfo) (p : page) : page :=
  send (if str_in (user_key u) (watchedKeys p) then Unwatch (user_id u) (user_site u) else Watch (user_id u) (user_site u)) p.
Definition handleIgnoreToggle (u : UserInfo) (p : page) : page :=
  send (if str_in (user_key u) (ignoredKeys p) then Unignore (user_id u) (user_site u) else Ignore (user_id u) (user_site u)) p.

Definition mark_watched (key : string) (p : page) : page := set_marks (set_add key (watchedKeys p)) (ignoredKeys p) p.
Definition unmark_watched (key : string) (p : page) : page := set_marks (set_delete key (watchedKeys p)) (ignoredKeys p) p.
Definition mark_ignored (key : string) (p : page) : page := set_marks (watchedKeys p) (set_add key (ignoredKeys p)) p.
Definition unmark_ignored (key : string) (p : page) : page := set_marks (watchedKeys p) (set_delete key (ignoredKeys p)) p.

Definition handleWatchSelected (p : page) : page :=
  match keep (fun u => negb (str_in (user_key u) (watchedKeys p))) (selected_users p) with
  | [] => showToast "All selected users are already watched" ToastError p
  | l => send (WatchAll l (length l)) p
  end.
Definition handleIgnoreSelected (p : page) : page :=
  match keep (fun u => negb (str_in (user_key u) (ignoredKeys p))) (selected_users p) with
  | [] => showToast "All selected users are already ignored" ToastError p
  | l => send (IgnoreAll l (length l)) p
  end.

(** When every request has settled. *)
Definition watch_all_settled (count : nat) (p : page) : page :=
  clearSelection (invalidate "watchStats" (invalidate "watchList"
    (showToast ("Added " +:+ users_text count +:+ " to watch list") ToastSuccess p))).
Definition ignore_all_settled (count : nat) (p : page) : page :=
  clearSelection (showToast ("Ignored " +:+ users_text count +:+ " — they will be skipped when scraping") ToastSuccess p).

(** ** Identities *)

Definition set_edit_draft (d : IdentityDraft) (p : page) : page :=
  let e := edit p in
  set_editor {| editModalOpen := editModalOpen e; editTarget := editTarget e; editName := editName e; editAlias := editAlias e;
                editDescription := editDescription e; userEditIdentity := d |} p.

Definition openEditModal (u : UserInfo) (p : page) : page :=
  set_editor {| editModalOpen := true; editTarget := Some u; editName := name u ?? EmptyString; editAlias := EmptyString;
                editDescription := about u ?? EmptyString; userEditIdentity := identityDraftFromUser (identity u) |} p.

Definition resetUserEditToOriginal (p : page) : page :=
  match editTarget (edit p) with Some u => set_edit_draft (identityDraftFromUser (identity u)) p | None => p end.

Definition handleSaveUserEdit (p : page) : page :=
  let e := edit p in
  match editTarget e with
  | None => p
  | Some u =>
      match parseIdentityDraft (userEditIdentity e) with
      | inl error => showToast error ToastError p
      | inr values =>
          send (UpdateUser u {| up_name := Some (truthy_opt (Some (trim (editName e)))); up_alias := Some (truthy_opt (Some (trim (editAlias e))));
                                up_description := Some (truthy_opt (Some (trim (editDescription e)))); up_identity := values;
                                up_ai_assisted := false; up_verified := true |}) p
      end
  end.

Definition set_bulk (is_open saving : bool) (d : IdentityDraft) (p : page) : page :=
  let x := dialog p in
  set_dialog {| filtersModalOpen := filtersModalOpen x; bulkIdentityModalOpen := is_open; bulkIdentitySaving := saving;
                loadoutModalOpen := loadoutModalOpen x; loadoutNameInput := loadoutNameInput x; bulkIdentity := d |} p.
Definition set_bulk_open (b : bool) (p : page) : page := set_bulk b (bulkIdentitySaving (dialog p)) (bulkIdentity (dialog p)) p.
Definition setBulkIdentitySaving (b : bool) (p : page) : page := set_bulk (bulkIdentityModalOpen (dialog p)) b (bulkIdentity (dialog p)) p.

Definition openBulkIdentityModal (p : page) : page :=
  match selectedUsers (roster p) with
  | [] => showToast "Select at least one user first" ToastError p
  | _ => set_bulk true (bulkIdentitySaving (dialog p)) EMPTY_IDENTITY_DRAFT p
  end.

Definition bulk_payload (values : IdentityValues) : UserUpdateRequest :=
  {| up_name := None; up_alias := None; up_description := None; up_identity := values; up_ai_assisted := false; up_verified := true |}.

(** Up to its [await]. *)
Definition handleSaveBulkIdentity (p : page) : page :=
  match parseIdentityDraft (bulkIdentity (dialog p)) with
  | inl error => showToast error ToastError p
  | inr values =>
      match selected_users p with
      | [] => showToast "No users selected" ToastError p
      | l => send (IdentityAll (bulk_payload values) l 0 0) (setBulkIdentitySaving true p)
      end
  end.

Definition identities_settled (successes failures : nat) (p : page) : page :=
  let p := setBulkIdentitySaving false p in
  let p := if (0 <? successes)%nat then
             invalidate "user-profile" (invalidate "users-stats" (invalidate "users-list"
               (showToast ("Updated identity for " +:+ users_text successes
                           +:+ (if (0 <? failures)%nat then " (" +:+ show_count failures +:+ " failed)" else EmptyString))
                          (if (0 <? failures)%nat then ToastError else ToastSuccess) p)))
           else showToast ("Failed to update identity for " +:+ users_text failures) ToastError p in
  if (failures =? 0)%nat then set_bulk_open false p else p.

(** ** Filters and loadouts *)

Definition set_filters_modal (b : bool) (p : page) : page :=
  let x := dialog p in
  set_dialog {| filtersModalOpen := b; bulkIdentityModalOpen := bulkIdentityModalOpen x; bulkIdentitySaving := bulkIdentitySaving x;
                loadoutModalOpen := loadoutModalOpen x; loadoutNameInput := loadoutNameInput x; bulkIdentity := bulkIdentity x |} p.
Definition set_loadout_modal (b : bool) (n : string) (p : page) : page :=
  let x := dialog p in
  set_dialog {| filtersModalOpen := filtersModalOpen x; bulkIdentityModalOpen := bulkIdentityModalOpen x; bulkIdentitySaving := bulkIdentitySaving x;
                loadoutModalOpen := b; loadoutNameInput := n; bulkIdentity := bulkIdentity x |} p.
Definition set_loadout_input (n : string) (p : page) : page := set_loadout_modal (loadoutModalOpen (dialog p)) n p.

Definition openUserFilters (p : page) : page := set_filters_modal true (set_draft (chosen (query p)) p).
Definition applyUserFilters (p : page) : page := set_filters_modal false (set_query (with_filters (draft p) (query p)) p).

Definition openLoadoutModal (p : page) : page :=
  set_loadout_modal true (str_or (selectedLoadoutName (query p)) (buildAutoLoadoutName (query p))) p.
Definition onAutofill (p : page) : page := set_loadout_input (buildAutoLoadoutName (query p)) p.

Definition selectedLoadoutIsDefault (p : page) : bool :=
  match loadoutsData (saved p) ?> find_loadout (selectedLoadoutName (query p)) with Some l => is_default l | None => false end.

Definition saveCurrentLoadout (p : page) : page :=
  let n := str_or (trim (loadoutNameInput (dialog p))) (buildAutoLoadoutName (query p)) in
  if truthy n then send (SaveLoadout n (save_item (query p))) p else p.
Definition setSelectedAsDefaultLoadout (p : page) : page :=
  let n := selectedLoadoutName (query p) in if truthy n then send (SetDefaultLoadout n) p else p.
Definition clearDefaultLoadout (p : page) : page := send ClearDefaultLoadout p.
Definition onToggleDefault (p : page) : page :=
  if selectedLoadoutIsDefault p then clearDefaultLoadout p else setSelectedAsDefaultLoadout p.
Definition deleteSelectedLoadout (p : page) : page :=
  let n := selectedLoadoutName (query p) in if truthy n then send (DeleteLoadout n) p else p.

Definition onSelectedLoadoutChange (v : string) (p : page) : page :=
  let p := set_loadout_input v (set_query (named v (query p)) p) in
  match loadoutsData (saved p) ?> find_loadout v with
  | Some l => applyUsersLoadout (loadout_item l) p
  | None => p
  end.

(** [await queryClient.invalidateQueries(..)] and the message after it. *)
Definition refetch_loadouts (text : string) (p : page) : page := send (LoadoutsRefetch text) (invalidate "search-loadouts" p).

(** ** Answers *)

(** A request has been answered; it is no longer under way. A rejection of the functions
    of loadouts is not handled. *)
Definition answered (c : call) (r : reply) (p : page) : page :=
  match c, r with
  | CreateJob _ _, RJob n => invalidate "jobs" (showToast ("Job " +:+ quoted n +:+ " created successfully!") ToastSuccess p)
  | CreateJob _ _, RFailed text => showToast ("Failed to create job: " +:+ text) ToastError p
  | FetchAuths u, _ => auths_answered u r p
  | Subscribe _, ROrder d => order_answered d p
  | Subscribe _, RFailed text => showToast ("Failed to subscribe: " +:+ text) ToastError p
  | UpdateUser u _, RDone =>
      let p := showToast ("Updated @" +:+ username u) ToastSuccess p in
      let e := edit p in
      let p := set_editor {| editModalOpen := false; editTarget := None; editName := editName e; editAlias := EmptyString;
                             editDescription := editDescription e; userEditIdentity := EMPTY_IDENTITY_DRAFT |} p in
      foldl (fun p key => invalidate key p) p ["users-list"; "users-stats"; "user-profile"; "user-aliases"; "subscriptions"]
  | UpdateUser _ _, RFailed text => showToast ("Failed to update user: " +:+ text) ToastError p
  | Watch u site, RDone => mark_watched (joined_key site u) (invalidate "watchList" (showToast "Added to watch list" ToastSuccess p))
  | Watch _ _, RFailed text => showToast ("Failed to add to watch list: " +:+ text) ToastError p
  | Unwatch u site, RDone => unmark_watched (joined_key site u) (invalidate "watchList" (showToast "Removed from watch list" ToastSuccess p))
  | Unwatch _ _, RFailed text => showToast ("Failed to remove from watch list: " +:+ text) ToastError p
  | Ignore u site, RDone => mark_ignored (joined_key site u) (showToast "User ignored — they will be skipped when scraping" ToastSuccess p)
  | Ignore _ _, RFailed text => showToast ("Failed to ignore user: " +:+ text) ToastError p
  | Unignore u site, RDone =>
      unmark_ignored (joined_key site u) (showToast "User unignored — they will be included when scraping" ToastSuccess p)
  | Unignore _ _, RFailed text => showToast ("Failed to unignore user: " +:+ text) ToastError p
  | SaveLoadout n _, RDone => refetch_loadouts ("Saved loadout " +:+ quoted n) (set_loadout_input n (set_query (named n (query p)) p))
  | SetDefaultLoadout n, RDone => refetch_loadouts ("Default loadout set to " +:+ quoted n) p
  | ClearDefaultLoadout, RDone => refetch_loadouts "Default loadout cleared" p
  | DeleteLoadout _, RDone =>
      refetch_loadouts "Deleted loadout" (set_loadout_input EmptyString (set_query (named EmptyString (query p)) p))
  | LoadoutsRefetch text, RDone => showToast text ToastSuccess p
  | _, _ => p
  end.

(** The answer of request [i]. *)
Definition answer (i : nat) (r : reply) (p : page) : page :=
  match inflight p !! i with
  | Some (WatchAll _ _ | IgnoreAll _ _ | IdentityAll _ _ _ _) | None => p
  | Some c => answered c r (set_traffic (delete i (inflight p)) (invalidated p) p)
  end.

(** What is left of a bulk operation [i]: [rest] waits for more, or it has settled. *)
Definition bulk_rest (i : nat) (l : list UserInfo) (rest : call) (settled : page -> page) (p : page) : page :=
  match l with
  | [] => settled (set_traffic (delete i (inflight p)) (invalidated p) p)
  | _ => set_traffic (<[i := rest]> (inflight p)) (invalidated p) p
  end.

(** One of the requests of a bulk operation [i], for the user [j] of those waited for, has
    settled. *)
Definition bulk_answer (i j : nat) (ok : bool) (p : page) : page :=
  match inflight p !! i with
  | Some (WatchAll l count) =>
      match l !! j with
      | Some u => bulk_rest i (delete j l) (WatchAll (delete j l) count) (watch_all_settled count)
                    (if ok then mark_watched (user_key u) p else p)
      | None => p
      end
  | Some (IgnoreAll l count) =>
      match l !! j with
      | Some u => bulk_rest i (delete j l) (IgnoreAll (delete j l) count) (ignore_all_settled count)
                    (if ok then mark_ignored (user_key u) p else p)
      | None => p
      end
  | Some (IdentityAll payload l successes failures) =>
      match l !! j with
      | Some _ => let successes := (successes + one_if ok)%nat in
                  let failures := (failures + one_if (negb ok))%nat in
                  bulk_rest i (delete j l) (IdentityAll payload (delete j l) successes failures) (identities_settled successes failures) p
      | None => p
      end
  | _ => p
  end.

(** ** The page as a machine *)

Section machine.
Variable serves : page_key -> users_page -> Prop.

(** Everything that can happen. The list is answered by [serves], about anything that
    was asked for, and may fail. *)
Inductive event : page -> page -> Prop :=
| Type_search q p : event p (set_query q p)
| List_answered k d p : k ∈ asked (server p) -> serves k d -> event p (list_answered k d p)
| List_failed k text p : k ∈ asked (server p) -> event p (list_failed k text p)
| Totals_answered k r p : event p (totals_answered k r p)
| Loadouts_answered r p : event p (loadouts_answered r p)
| Load_more p : event p (handleLoadMore p)
| Close_toast p : event p (set_toast None (toast_timers p) p)
| Toast_timer p : (0 < toast_timers p)%nat -> event p (toast_timer p)
| Select_all p : event p (handleSelectAll p)
| Clear_selection p : event p (clearSelection p)
| Select_user u p : u ∈ allUsers (roster p) -> event p (handleSelectUser u p)
| Select_all_key typing p : event p (select_all_key typing p)
| Escape_key typing p : event p (escape_key typing p)
| Scrape_user u p : event p (resolveAndScrapeUser u p)
| Scrape_selected p : event p (handleScrapeSelected p)
| Select_auth a p : event p (onSelectAuth a p)
| Close_picker b p : event p (set_picker_open b p)
| Subscribe_user u p : event p (handleSubscribeUser u p)
| Watch_toggle u p : event p (handleWatchToggle u p)
| Ignore_toggle u p : event p (handleIgnoreToggle u p)
| Watch_selected p : event p (handleWatchSelected p)
| Ignore_selected p : event p (handleIgnoreSelected p)
| Open_edit u p : event p (openEditModal u p)
| Type_edit e p : event p (set_editor e p)
| Reset_edit p : event p (resetUserEditToOriginal p)
| Save_edit p : event p (handleSaveUserEdit p)
| Open_bulk p : event p (openBulkIdentityModal p)
| Type_bulk d p : event p (set_bulk (bulkIdentityModalOpen (dialog p)) (bulkIdentitySaving (dialog p)) d p)
| Close_bulk b p : event p (set_bulk_open b p)
| Save_bulk p : event p (handleSaveBulkIdentity p)
| Open_filters p : event p (openUserFilters p)
| Type_filters d p : event p (set_draft d p)
| Apply_filters p : event p (applyUserFilters p)
| Close_filters b p : event p (set_filters_modal b p)
| Open_loadouts p : event p (openLoadoutModal p)
| Type_loadout b n p : event p (set_loadout_modal b n p)
| Autofill p : event p (onAutofill p)
| Select_loadout n p : event p (onSelectedLoadoutChange n p)
| Save_loadout p : event p (saveCurrentLoadout p)
| Toggle_default p : event p (onToggleDefault p)
| Delete_loadout p : event p (deleteSelectedLoadout p)
| Answer i r p : event p (answer i r p)
| Bulk_answer i j ok p : event p (bulk_answer i j ok p).

(** Effects run after each event. *)
Inductive reachable (ps : params) : page -> Prop :=
| Begin held fetched : (forall k d, cache held k = Some d -> serves k d) -> reachable ps (settle (new_page held fetched ps))
| Next p p' : reachable ps p -> event p p' -> reachable ps (settle p').
End machine.

(** * What the users page promises *)

(** ** The effects come to rest *)

(** A page on which no effect changes anything. *)
Record stable (p : page) : Prop := {
  st_applied : defaultLoadoutApplied (saved p) = true \/ loadoutsFetched (saved p) = false;
  st_sort : normalizeUsersSortBy (Some (sortBy (query p))) favoriteOnly = sortBy (query p);
  st_deps : seen_deps (seen p) = Some (reset_deps (query p));
  st_address : enabled p = true -> to_address (query p) = address p;
  st_asked : enabled p = true -> current_key p ∈ asked (server p);
  st_users : forall d, usersData p = Some d ->
    merge_users (page_no (roster p)) (allUsers (roster p)) (users d) = allUsers (roster p) /\
    more_after (page_no (roster p)) d = hasMore (roster p);
  st_loading : seen_loading (seen p) = Some (isLoading p);
  st_selection : keep (fun k => str_in k (visible_keys p)) (selectedUsers (roster p)) = selectedUsers (roster p)
}.

Lemma normalize_sort_twice by_ :
  normalizeUsersSortBy (Some (normalizeUsersSortBy by_ favoriteOnly)) favoriteOnly = normalizeUsersSortBy by_ favoriteOnly.
Proof.
  unfold normalizeUsersSortBy at 2 3. destruct by_ as [s|]; [|by destruct favoriteOnly].
  destruct (some _ (getUsersSortOptions favoriteOnly)) eqn:E; [unfold normalizeUsersSortBy; by rewrite E|by destruct favoriteOnly].
Qed.

Lemma reset_id p : seen_deps (seen p) = Some (reset_deps (query p)) -> reset_effect p p = p.
Proof. intros H. unfold reset_effect. by rewrite bool_decide_eq_true_2. Qed.

Lemma sort_id r p : normalizeUsersSortBy (Some (sortBy (query r))) favoriteOnly = sortBy (query r) -> sort_effect r p = p.
Proof. intros H. unfold sort_effect. by rewrite H, str_eqb_refl. Qed.

Lemma loadout_id r p : defaultLoadoutApplied (saved r) = true \/ loadoutsFetched (saved r) = false -> loadout_effect r p = p.
Proof. intros [H|H]; unfold loadout_effect; rewrite H; by rewrite ?orb_true_r. Qed.

Lemma address_id r p : (enabled r = true -> to_address (query r) = address r) -> address_effect r p = p.
Proof.
  intros H. unfold address_effect. unfold enabled in H. destruct (defaultLoadoutApplied _); [|done]. by rewrite bool_decide_eq_true_2 by auto.
Qed.

(** With the default loadout behind it and an order it knows, a page's search stays. *)
Definition search_rests (p : page) : Prop :=
  (defaultLoadoutApplied (saved p) = true \/ loadoutsFetched (saved p) = false) /\
  normalizeUsersSortBy (Some (sortBy (query p))) favoriteOnly = sortBy (query p).

(** What the effects leave alone. *)
Lemma lock_frame r p : query (lock_effect r p) = query p /\ saved (lock_effect r p) = saved p /\ address (lock_effect r p) = address p /\
  roster (lock_effect r p) = roster p /\ server (lock_effect r p) = server p /\ seen_deps (seen (lock_effect r p)) = seen_deps (seen p).
Proof. unfold lock_effect. by destruct (bool_decide _). Qed.

Lemma users_frame r p : query (users_effect r p) = query p /\ saved (users_effect r p) = saved p /\ address (users_effect r p) = address p /\
  seen (users_effect r p) = seen p /\ server (users_effect r p) = server p /\ autoLoadLock (users_effect r p) = autoLoadLock p.
Proof. unfold users_effect. by destruct (usersData r). Qed.

Lemma loadout_frame r p : address (loadout_effect r p) = address p /\ roster (loadout_effect r p) = roster p /\
  seen (loadout_effect r p) = seen p /\ server (loadout_effect r p) = server p /\ autoLoadLock (loadout_effect r p) = autoLoadLock p.
Proof. unfold loadout_effect. destruct (_ || _); [done|]. destruct (negb _); [done|]. by destruct (default_loadout _). Qed.

Lemma fetch_frame r p : query (fetch_effect r p) = query p /\ saved (fetch_effect r p) = saved p /\ address (fetch_effect r p) = address p /\
  roster (fetch_effect r p) = roster p /\ seen (fetch_effect r p) = seen p /\ autoLoadLock (fetch_effect r p) = autoLoadLock p.
Proof. unfold fetch_effect. by destruct (enabled r). Qed.

Lemma address_frame r p : query (address_effect r p) = query p /\ saved (address_effect r p) = saved p /\
  roster (address_effect r p) = roster p /\ seen (address_effect r p) = seen p /\ server (address_effect r p) = server p /\
  autoLoadLock (address_effect r p) = autoLoadLock p.
Proof. unfold address_effect. destruct (defaultLoadoutApplied _); [|done]. by destruct (bool_decide _). Qed.

Lemma sort_frame r p : saved (sort_effect r p) = saved p /\ address (sort_effect r p) = address p /\ roster (sort_effect r p) = roster p /\
  seen (sort_effect r p) = seen p /\ server (sort_effect r p) = server p /\ autoLoadLock (sort_effect r p) = autoLoadLock p.
Proof. unfold sort_effect. by destruct (_ =s _). Qed.

Lemma reset_frame p : query (reset_effect p p) = query p /\ saved (reset_effect p p) = saved p /\ address (reset_effect p p) = address p /\
  server (reset_effect p p) = server p /\ autoLoadLock (reset_effect p p) = autoLoadLock p /\
  seen_deps (seen (reset_effect p p)) = Some (reset_deps (query p)) /\ seen_loading (seen (reset_effect p p)) = seen_loading (seen p).
Proof. unfold reset_effect. destruct (bool_decide _) eqn:E; [|done]. by apply bool_decide_eq_true in E. Qed.

(** Rewrites with what the effects leave alone. *)
#[local] Hint Rewrite
  (fun r p => (proj1 (lock_frame r p)))
  (fun r p => (proj1 (proj2 (lock_frame r p))))
  (fun r p => (proj1 (proj2 (proj2 (lock_frame r p)))))
  (fun r p => (proj1 (proj2 (proj2 (proj2 (lock_frame r p))))))
  (fun r p => (proj1 (proj2 (proj2 (proj2 (proj2 (lock_frame r p)))))))
  (fun r p => (proj2 (proj2 (proj2 (proj2 (proj2 (lock_frame r p))))))) : frame.
#[local] Hint Rewrite
  (fun r p => (proj1 (users_frame r p)))
  (fun r p => (proj1 (proj2 (users_frame r p))))
  (fun r p => (proj1 (proj2 (proj2 (users_frame r p)))))
  (fun r p => (proj1 (proj2 (proj2 (proj2 (users_frame r p))))))
  (fun r p => (proj1 (proj2 (proj2 (proj2 (proj2 (users_frame r p)))))))
  (fun r p => (proj2 (proj2 (proj2 (proj2 (proj2 (users_frame r p))))))) : frame.
#[local] Hint Rewrite
  (fun r p => (proj1 (loadout_frame r p)))
  (fun r p => (proj1 (proj2 (loadout_frame r p))))
  (fun r p => (proj1 (proj2 (proj2 (loadout_frame r p)))))
  (fun r p => (proj1 (proj2 (proj2 (proj2 (loadout_frame r p))))))
  (fun r p => (proj2 (proj2 (proj2 (proj2 (loadout_frame r p)))))) : frame.
#[local] Hint Rewrite
  (fun r p => (proj1 (fetch_frame r p)))
  (fun r p => (proj1 (proj2 (fetch_frame r p))))
  (fun r p => (proj1 (proj2 (proj2 (fetch_frame r p)))))
  (fun r p => (proj1 (proj2 (proj2 (proj2 (fetch_frame r p))))))
  (fun r p => (proj1 (proj2 (proj2 (proj2 (proj2 (fetch_frame r p)))))))
  (fun r p => (proj2 (proj2 (proj2 (proj2 (proj2 (fetch_frame r p))))))) : frame.
#[local] Hint Rewrite
  (fun r p => (proj1 (address_frame r p)))
  (fun r p => (proj1 (proj2 (address_frame r p))))
  (fun r p => (proj1 (proj2 (proj2 (address_frame r p)))))
  (fun r p => (proj1 (proj2 (proj2 (proj2 (address_frame r p))))))
  (fun r p => (proj1 (proj2 (proj2 (proj2 (proj2 (address_frame r p)))))))
  (fun r p => (proj2 (proj2 (proj2 (proj2 (proj2 (address_frame r p))))))) : frame.
#[local] Hint Rewrite
  (fun r p => (proj1 (sort_frame r p)))
  (fun r p => (proj1 (proj2 (sort_frame r p))))
  (fun r p => (proj1 (proj2 (proj2 (sort_frame r p)))))
  (fun r p => (proj1 (proj2 (proj2 (proj2 (sort_frame r p))))))
  (fun r p => (proj1 (proj2 (proj2 (proj2 (proj2 (sort_frame r p)))))))
  (fun r p => (proj2 (proj2 (proj2 (proj2 (proj2 (sort_frame r p))))))) : frame.
#[local] Hint Rewrite
  (fun p => (proj1 (reset_frame p)))
  (fun p => (proj1 (proj2 (reset_frame p))))
  (fun p => (proj1 (proj2 (proj2 (reset_frame p)))))
  (fun p => (proj1 (proj2 (proj2 (proj2 (reset_frame p))))))
  (fun p => (proj1 (proj2 (proj2 (proj2 (proj2 (reset_frame p)))))))
  (fun p => (proj1 (proj2 (proj2 (proj2 (proj2 (proj2 (reset_frame p))))))))
  (fun p => (proj2 (proj2 (proj2 (proj2 (proj2 (proj2 (reset_frame p)))))))) : frame.
Ltac frame := autorewrite with frame.

Lemma query_sort r p :
  query (sort_effect r p) = if normalizeUsersSortBy (Some (sortBy (query r))) favoriteOnly =s sortBy (query r) then query p
                            else with_sort (normalizeUsersSortBy (Some (sortBy (query r))) favoriteOnly) (ascending (query p)) (query p).
Proof. unfold sort_effect. by destruct (_ =s _). Qed.

Lemma query_loadout r p :
  query (loadout_effect r p) =
    if defaultLoadoutApplied (saved r) || negb (loadoutsFetched (saved r)) then query p
    else if negb (length (address r) =? 0)%nat then query p
    else match default_loadout (saved r) with
         | Some l => named (loadout_name l) (loadout_search (applyUsersLoadoutState (loadout_item l) favoriteOnly) (query p))
         | None => query p
         end.
Proof. unfold loadout_effect. destruct (_ || _); [done|]. destruct (negb _); [done|]. by destruct (default_loadout _). Qed.

Lemma saved_loadout r p :
  saved (loadout_effect r p) =
    if defaultLoadoutApplied (saved r) || negb (loadoutsFetched (saved r)) then saved p
    else {| defaultLoadoutApplied := true; loadoutsFetched := loadoutsFetched (saved p); loadoutsData := loadoutsData (saved p) |}.
Proof. unfold loadout_effect. destruct (_ || _); [done|]. destruct (negb _); [done|]. by destruct (default_loadout _). Qed.

Lemma saved_selection r p : saved (selection_effect r p) = saved p.
Proof. done. Qed.
Lemma query_selection r p : query (selection_effect r p) = query p.
Proof. done. Qed.

Lemma search_rests_commit p : search_rests (commit p).
Proof.
  unfold search_rests, commit. frame. rewrite ?saved_selection, ?query_selection. frame.
  rewrite saved_loadout, query_loadout. frame. rewrite query_sort. frame.
  split.
  - destruct (defaultLoadoutApplied (saved p)) eqn:E1; [by left|]. destruct (loadoutsFetched (saved p)) eqn:E2; [by left|by right].
  - destruct (_ =s sortBy (query p)) eqn:E; [apply str_eqb_eq in E|]; destruct (_ || _), (negb (length (address p) =? 0)%nat), (default_loadout (saved p));
      first [exact E|apply normalize_sort_twice].
Qed.

Lemma search_rests_id p : search_rests p ->
  commit p = lock_effect p (selection_effect p (users_effect p (fetch_effect p (address_effect p (reset_effect p p))))).
Proof. intros [H1 H2]. unfold commit. by rewrite sort_id, loadout_id. Qed.

Lemma address_now r p : address p = address r -> defaultLoadoutApplied (saved r) = true -> address (address_effect r p) = to_address (query r).
Proof. intros H1 H2. unfold address_effect. rewrite H2. destruct (bool_decide _) eqn:E; [by apply bool_decide_eq_true in E as ->|done]. Qed.

(** The search rests, and the list and the address follow it. *)
Definition follows (p : page) : Prop :=
  search_rests p /\ seen_deps (seen p) = Some (reset_deps (query p)) /\ (enabled p = true -> to_address (query p) = address p).

Lemma follows_commit p : search_rests p -> follows (commit p).
Proof.
  intros H. pose proof (search_rests_commit p) as Hc. rewrite (search_rests_id p H) in *. split; [done|]. unfold enabled.
  frame. rewrite ?saved_selection, ?query_selection. change (seen (selection_effect p ?x)) with (seen x).
  change (address (selection_effect p ?x)) with (address x). frame. split; [done|].
  intros He. symmetry. apply address_now; [by frame|done].
Qed.

Lemma follows_id p : follows p -> commit p = lock_effect p (selection_effect p (users_effect p (fetch_effect p p))).
Proof. intros (H1 & H2 & H3). by rewrite search_rests_id, reset_id, address_id. Qed.

(** What a list under way looks at. *)
Lemma loading_same p p' :
  query p' = query p -> saved p' = saved p -> page_no (roster p') = page_no (roster p) ->
  cache (server p') = cache (server p) -> list_error (server p') = list_error (server p) ->
  usersData p' = usersData p /\ isLoading p' = isLoading p.
Proof. intros H1 H2 H3 H4 H5. unfold isLoading, usersData, error_text, enabled, current_key. by rewrite H1, H2, H3, H4, H5. Qed.

Lemma fetch_server r p : let s := server (fetch_effect r p) in
  cache s = cache (server p) /\ list_error s = list_error (server p) /\ totals s = totals (server p) /\
  (forall k, k ∈ asked (server p) -> k ∈ asked s) /\ (enabled r = true -> current_key r ∈ asked s) /\
  (forall k, k ∈ asked s -> k ∈ asked (server p) \/ (enabled r = true /\ k = current_key r)).
Proof.
  unfold fetch_effect, ask. destruct (enabled r); cbn zeta; [|naive_solver]. destruct (bool_decide _) eqn:E.
  - apply bool_decide_eq_true in E. naive_solver.
  - simpl. repeat split; try done; intros; rewrite ?elem_of_app, ?list_elem_of_singleton in *; naive_solver.
Qed.

Lemma roster_commit p : follows p ->
  roster (commit p) = {| allUsers := allUsers (roster (users_effect p p)); page_no := page_no (roster p);
                         hasMore := hasMore (roster (users_effect p p));
                         selectedUsers := keep (fun k => str_in k (visible_keys p)) (selectedUsers (roster p)) |}.
Proof.
  intros H. rewrite follows_id by done. frame. unfold selection_effect, setSelectedUsers. cbn [roster set_roster]. unfold users_effect.
  destruct (usersData p); cbn [set_users set_roster roster page_no allUsers hasMore selectedUsers]; frame; done.
Qed.

Lemma stay_commit p : follows p ->
  query (commit p) = query p /\ saved (commit p) = saved p /\ address (commit p) = address p /\ seen_deps (seen (commit p)) = seen_deps (seen p) /\
  server (commit p) = server (fetch_effect p p) /\ seen_loading (seen (commit p)) = Some (isLoading p).
Proof.
  intros H. rewrite follows_id by done. frame. rewrite ?saved_selection, ?query_selection.
  change (seen (selection_effect p ?x)) with (seen x). change (address (selection_effect p ?x)) with (address x).
  change (server (selection_effect p ?x)) with (server x). frame. repeat split.
  unfold lock_effect. change (seen (selection_effect p ?x)) with (seen x). frame.
  destruct (bool_decide _) eqn:E; [apply bool_decide_eq_true in E|done]. change (seen (selection_effect p ?x)) with (seen x). by frame.
Qed.

Lemma merge_merged n previous rows : merge_users n (merge_users n previous rows) rows = merge_users n previous rows.
Proof.
  unfold merge_users. destruct (n =? 1)%nat; [done|]. set (new := keep _ rows).
  enough (E : forall u, u ∈ rows -> str_in (row_key u) (map row_key (previous ++ new)) = true).
  { rewrite keep_none; [by rewrite app_nil_r|]. intros u Hu. by rewrite E. }
  intros u Hu. apply str_in_iff. rewrite map_app, elem_of_app. destruct (str_in (row_key u) (map row_key previous)) eqn:E.
  - left. by apply str_in_iff.
  - right. apply list_elem_of_fmap. exists u. split; [done|]. apply elem_of_keep. by rewrite E.
Qed.

Lemma same_commit p : follows p ->
  usersData (commit p) = usersData p /\ isLoading (commit p) = isLoading p /\ current_key (commit p) = current_key p.
Proof.
  intros H. destruct (stay_commit p H) as (Hq & Hs & _ & _ & Hv & _). destruct (fetch_server p p) as (Hc & He & _).
  assert (Hn : page_no (roster (commit p)) = page_no (roster p)) by (by rewrite roster_commit).
  destruct (loading_same p (commit p)) as [H1 H2]; rewrite ?Hv; try done. split; [done|]. split; [done|].
  unfold current_key. by rewrite Hq, Hn.
Qed.

Lemma follows_again p : follows p -> follows (commit p).
Proof. intros H. apply follows_commit. apply H. Qed.

(** One more render, and the list and what is under way are as they stay. *)
Lemma listed_commit p : follows p ->
  (enabled (commit p) = true -> current_key (commit p) ∈ asked (server (commit p))) /\
  (forall d, usersData (commit p) = Some d ->
     merge_users (page_no (roster (commit p))) (allUsers (roster (commit p))) (users d) = allUsers (roster (commit p)) /\
     more_after (page_no (roster (commit p))) d = hasMore (roster (commit p))) /\
  seen_loading (seen (commit p)) = Some (isLoading (commit p)).
Proof.
  intros H. destruct (stay_commit p H) as (Hq & Hs & _ & _ & Hv & Hl). destruct (same_commit p H) as (Hd & Hi & Hk).
  rewrite Hd, Hi, Hk, Hv, Hl, roster_commit by done. unfold enabled. rewrite Hs. cbn [page_no allUsers hasMore]. split; [|split; [|done]].
  - apply (fetch_server p p).
  - intros d E. unfold users_effect. rewrite E. cbn [set_users set_roster roster allUsers hasMore]. split; [apply merge_merged|done].
Qed.

Lemma stable_of p : follows p -> stable (commit (commit p)).
Proof.
  intros H. pose proof (follows_again p H) as H1. pose proof (follows_again _ H1) as ((? & ?) & ? & ?).
  destruct (listed_commit p H) as (_ & Hu & _). destruct (listed_commit _ H1) as (? & ? & ?). split; auto.
  rewrite (roster_commit (commit p)) by done. unfold visible_keys. cbn [roster allUsers selectedUsers].
  rewrite (roster_commit (commit p)) by done. cbn [roster allUsers selectedUsers].
  assert (E : allUsers (roster (users_effect (commit p) (commit p))) = allUsers (roster (commit p))).
  { unfold users_effect. destruct (usersData (commit p)) as [d|] eqn:E; [|done]. by apply Hu. }
  rewrite E. apply keep_all. by intros k [_ Hk]%elem_of_keep.
Qed.

Lemma stable_commit p : stable p -> commit p = p.
Proof.
  intros [H1 H2 H3 H4 H5 H6 H7 H8]. rewrite follows_id by (split; [split|]; auto).
  assert (E1 : fetch_effect p p = p).
  { unfold fetch_effect, ask. destruct (enabled p) eqn:E; [|done]. rewrite bool_decide_eq_true_2 by auto. by destruct p. }
  assert (E2 : users_effect p p = p).
  { unfold users_effect. destruct (usersData p) as [d|] eqn:E; [|done]. destruct (H6 d eq_refl) as [-> ->]. by destruct p as [? ? ? ? [] ]. }
  assert (E3 : selection_effect p p = p).
  { unfold selection_effect, setSelectedUsers. rewrite H8. by destruct p as [? ? ? ? [] ]. }
  rewrite E1, E2, E3. unfold lock_effect. by rewrite bool_decide_eq_true_2.
Qed.

Lemma stable_forget p : stable p -> stable (forget_error p).
Proof.
  intros [H1 H2 H3 H4 H5 H6 H7 H8]. unfold forget_error. destruct (error_text p) eqn:E; [done|].
  assert (Hl : isLoading (set_server {| cache := cache (server p); asked := asked (server p); list_error := None; totals := totals (server p) |} p) = isLoading p).
  { unfold isLoading. by rewrite E. }
  split; auto. by rewrite Hl.
Qed.

Lemma stable_settle p : stable (settle p).
Proof. apply stable_forget. simpl. apply stable_of, follows_commit, search_rests_commit. Qed.

(** C19. Four renders are enough: whatever happened, after them the effects change
    nothing any more - no loop of renders, and the list, the address, what is under
    way and the selection agree with the search. *)
Theorem effects_come_to_rest p n : Nat.iter n commit (settle p) = settle p.
Proof.
  pose proof (stable_commit _ (stable_settle p)) as H. generalize dependent (settle p). intros q H.
  induction n as [|n IH]; [done|]. rewrite Nat.iter_succ, IH. exact H.
Qed.

(** ** Whose users are listed *)

(** The list starts again exactly when the key of its requests changes. *)
Lemma deps_key q q' : reset_deps q = reset_deps q' <-> list_key q = list_key q'.
Proof.
  unfold reset_deps, list_key, usersFilterKey, performerOnly, excludePerformers, subscribedOnly, excludeSubscribed. cbn [map app RANGE_FIELDS].
  split; intros [=]; repeat match goal with H : _ = _ |- _ => rewrite H; clear H end;
    destruct (userFilters (chosen q)) as [[] []], (userFilters (chosen q')) as [[] []]; by (reflexivity || discriminate).
Qed.

Section answers.
Variable serves : page_key -> users_page -> Prop.

(** The backend gave this user for the search of key [k]. *)
Definition gave (k : list key_part) (u : UserInfo) : Prop := exists n d, serves (k, n) d /\ u ∈ users d.

Definition shows (k : list key_part) (l : list UserInfo) : Prop := (forall u, u ∈ l -> gave k u) /\ NoDup (map row_key l).

(** The list is of the search the effects last ran for. *)
Definition owned (p : page) : Prop :=
  match seen_deps (seen p) with
  | None => allUsers (roster p) = []
  | Some l => exists q, l = reset_deps q /\ shows (list_key q) (allUsers (roster p))
  end.

Definition honest (p : page) : Prop := forall k d, cache (server p) k = Some d -> serves k d.

Lemma users_commit p :
  allUsers (roster (commit p)) =
    let before := if bool_decide (seen_deps (seen p) = Some (reset_deps (query p))) then allUsers (roster p) else [] in
    match usersData p with Some d => merge_users (page_no (roster p)) before (users d) | None => before end.
Proof.
  unfold commit. frame. change (allUsers (roster (selection_effect p ?x))) with (allUsers (roster x)).
  assert (E : forall x, allUsers (roster (users_effect p x)) =
    match usersData p with Some d => merge_users (page_no (roster p)) (allUsers (roster x)) (users d) | None => allUsers (roster x) end)
    by (intros x; unfold users_effect; by destruct (usersData p)).
  rewrite E. frame. unfold reset_effect. by destruct (bool_decide _).
Qed.

Lemma seen_commit p : seen_deps (seen (commit p)) = Some (reset_deps (query p)).
Proof. unfold commit. frame. change (seen (selection_effect p ?x)) with (seen x). by frame. Qed.

Lemma server_commit p : server (commit p) = server (fetch_effect p p).
Proof.
  unfold commit. frame. change (server (selection_effect p ?x)) with (server x). frame. unfold fetch_effect. destruct (enabled p); [|by frame].
  cbn [set_server server]. by frame.
Qed.

Lemma honest_commit p : honest p -> honest (commit p).
Proof. intros H k d. rewrite server_commit. destruct (fetch_server p p) as (-> & _). apply H. Qed.

(** What a render keeps, the renders together keep. *)
Lemma settle_keeps (P : page -> Prop) p :
  (forall q, P q -> P (commit q)) -> (forall q, P q -> P (forget_error q)) -> P p -> P (settle p).
Proof.
  intros Hc Hf Hp. unfold settle. apply Hf. generalize 4%nat. intros n. induction n as [|n IH]; [done|]. rewrite Nat.iter_succ. by apply Hc.
Qed.

Lemma honest_settle p : honest p -> honest (settle p).
Proof. apply settle_keeps; [apply honest_commit|]. intros q Hq. unfold forget_error. by destruct (error_text q). Qed.

Section listed.
(** No answer lists a user twice. *)
Hypothesis once : forall k d, serves k d -> NoDup (map row_key (users d)).

Lemma shows_merged k n l d : shows k l -> serves (k, n) d -> shows k (merge_users n l (users d)).
Proof.
  intros [H1 H2] Hd. pose proof (once _ _ Hd) as Ho. unfold merge_users. destruct (n =? 1)%nat.
  - split; [|done]. intros u Hu. by exists n, d.
  - split.
    + intros u [Hu|[Hu _]%elem_of_keep]%elem_of_app; [by apply H1|by exists n, d].
    + rewrite map_app. apply NoDup_app. split; [done|]. split.
      * intros x Hx (u & -> & [_ Hu]%elem_of_keep)%list_elem_of_fmap. apply negb_true_iff, str_in_not in Hu. done.
      * by apply NoDup_map_keep.
Qed.

Lemma owned_commit p : honest p -> owned p -> owned (commit p).
Proof.
  intros Hh Ho. unfold owned. rewrite seen_commit, users_commit. cbn zeta. exists (query p). split; [done|].
  assert (Hb : shows (list_key (query p)) (if bool_decide (seen_deps (seen p) = Some (reset_deps (query p))) then allUsers (roster p) else [])).
  { destruct (bool_decide _) eqn:E; [|split; [intros u Hu; by apply elem_of_nil in Hu|constructor]]. apply bool_decide_eq_true in E.
    unfold owned in Ho. rewrite E in Ho. destruct Ho as (q & Hq & Hs). apply deps_key in Hq. by rewrite Hq. }
  unfold usersData. destruct (cache _ _) as [d|] eqn:E; [|done]. by apply shows_merged, Hh.
Qed.

Lemma owned_settle p : honest p -> owned p -> honest (settle p) /\ owned (settle p).
Proof.
  intros Hh Ho. apply (settle_keeps (fun q => honest q /\ owned q)); [| |done].
  - intros q [? ?]. split; [by apply honest_commit|by apply owned_commit].
  - intros q [? ?]. unfold forget_error. by destruct (error_text q).
Qed.

End listed.

(** What an event does to the list. *)
Record event_frame (p p' : page) : Prop := {
  ef_users : allUsers (roster p') = allUsers (roster p);
  ef_seen : seen p' = seen p;
  ef_applied : defaultLoadoutApplied (saved p') = defaultLoadoutApplied (saved p);
  ef_server : server p' = server p \/ (exists k d, k ∈ asked (server p) /\ serves k d /\ p' = list_answered k d p) \/
              (exists k text, p' = list_failed k text p) \/ (exists k r, p' = totals_answered k r p);
  ef_page : (page_no (roster p') = page_no (roster p) /\ autoLoadLock p' = autoLoadLock p) \/ p' = handleLoadMore p;
  ef_selection : NoDup (selectedUsers (roster p)) -> NoDup (selectedUsers (roster p'))
}.

(** An operation that leaves the list and its state alone. *)
Definition aside (p p' : page) : Prop :=
  roster p' = roster p /\ seen p' = seen p /\ defaultLoadoutApplied (saved p') = defaultLoadoutApplied (saved p) /\
  server p' = server p /\ autoLoadLock p' = autoLoadLock p.

Lemma aside_frame p p' : aside p p' -> event_frame p p'.
Proof. intros (Hr & Hs & Ha & Hv & Hl). split; rewrite ?Hr; try done; [by left|left; by rewrite Hl]. Qed.

(** A new selection. *)
Lemma selection_frame l p : (NoDup (selectedUsers (roster p)) -> NoDup l) -> event_frame p (setSelectedUsers l p).
Proof. intros H. split; try done; by left. Qed.

Lemma aside_answered c r p : aside p (answered c r p).
Proof.
  destruct c, r; try done; cbn [answered].
  - unfold auths_answered. destruct (truthy_opt error); [done|]. by destruct (auths ?? []) as [|a [|b l]].
  - unfold order_answered. destruct (or_success data); [|done]. by destruct (opt_eqb (or_status data) "completed").
Qed.

Lemma clear_frame p p' : aside p p' -> event_frame p (clearSelection p').
Proof. intros (Hr & Hs & Ha & Hv & Hl). split; cbn; rewrite ?Hr, ?Hs, ?Ha, ?Hv, ?Hl; try done; [by left|by left|constructor]. Qed.

Lemma aside_identities n m i p : aside p (identities_settled n m (set_traffic i (invalidated p) p)).
Proof. unfold identities_settled. destruct (0 <? n)%nat; by destruct (m =? 0)%nat. Qed.

Lemma settled_frame i j ok p : event_frame p (bulk_answer i j ok p).
Proof.
  unfold bulk_answer. destruct (inflight p !! i) as [[]|]; try (by apply aside_frame); destruct (waiting !! j); try (by apply aside_frame).
  1, 2: unfold bulk_rest; destruct (delete j waiting); [apply clear_frame|apply aside_frame]; by destruct ok.
  apply aside_frame. unfold bulk_rest. destruct (delete j waiting); [|done]. apply aside_identities.
Qed.

Lemma event_frames p p' : event serves p p' -> event_frame p p'.
Proof.
  destruct 1; try (by apply aside_frame); try (by apply clear_frame).
  - split; try done; [right; left; by exists k, d|by left].
  - split; try done; [right; right; left; by exists k, text|by left].
  - split; try done; [right; right; right; by exists k, r|by left].
  - assert (E : allUsers (roster (handleLoadMore p)) = allUsers (roster p) /\ seen (handleLoadMore p) = seen p /\
                saved (handleLoadMore p) = saved p /\ server (handleLoadMore p) = server p /\
                selectedUsers (roster (handleLoadMore p)) = selectedUsers (roster p)) by (unfold handleLoadMore; by destruct (_ || _)).
    destruct E as (E1 & E2 & E3 & E4 & E5). split; [done|done|by rewrite E3|by left|by right|by rewrite E5].
  - unfold handleSelectAll. destruct (_ =? _)%nat; [by apply clear_frame|]. apply selection_frame. intros _. apply NoDup_uniq.
  - apply selection_frame. intros Hn. destruct (str_in _ _); [by apply NoDup_set_delete|by apply NoDup_set_add].
  - unfold select_all_key. destruct (_ || _); [by apply aside_frame|]. apply selection_frame. intros _. apply NoDup_uniq.
  - unfold escape_key. destruct (_ || _); [by apply aside_frame|]. by apply clear_frame.
  - unfold handleScrapeSelected. destruct (keep _ _) as [|u [|v l]]; [by apply aside_frame|by apply clear_frame|by apply clear_frame].
  - apply aside_frame. unfold onSelectAuth. by destruct (authPickerTarget _).
  - apply aside_frame. unfold handleWatchSelected. by destruct (keep _ _).
  - apply aside_frame. unfold handleIgnoreSelected. by destruct (keep _ _).
  - apply aside_frame. unfold resetUserEditToOriginal. by destruct (editTarget _).
  - apply aside_frame. unfold handleSaveUserEdit. destruct (editTarget _); [|done]. by destruct (parseIdentityDraft _).
  - apply aside_frame. unfold openBulkIdentityModal. by destruct (selectedUsers _).
  - apply aside_frame. unfold handleSaveBulkIdentity. destruct (parseIdentityDraft _); [done|]. by destruct (selected_users p).
  - apply aside_frame. unfold onSelectedLoadoutChange. by destruct (_ ?> _).
  - apply aside_frame. unfold saveCurrentLoadout. by destruct (truthy _).
  - apply aside_frame. unfold onToggleDefault, setSelectedAsDefaultLoadout. destruct (selectedLoadoutIsDefault p); [done|]. by destruct (truthy _).
  - apply aside_frame. unfold deleteSelectedLoadout. by destruct (truthy _).
  - apply aside_frame. unfold answer. destruct (inflight p !! i) as [[]|]; try done;
      exact (aside_answered _ _ (set_traffic (delete i (inflight p)) (invalidated p) p)).
  - apply settled_frame.
Qed.

Lemma selection_commit p : exists l, (l = selectedUsers (roster p) \/ l = []) /\
  selectedUsers (roster (commit p)) = keep (fun k => str_in k (visible_keys p)) l.
Proof.
  assert (E : forall x, selectedUsers (roster (users_effect p x)) = selectedUsers (roster x)) by (intros x; unfold users_effect; by destruct (usersData p)).
  exists (selectedUsers (roster (reset_effect p p))). split.
  - unfold reset_effect. destruct (bool_decide _); [by left|by right].
  - unfold commit. frame. unfold selection_effect, setSelectedUsers. cbn [roster set_roster selectedUsers]. rewrite E. by frame.
Qed.

Lemma selection_settle p : NoDup (selectedUsers (roster p)) -> NoDup (selectedUsers (roster (settle p))).
Proof.
  apply (settle_keeps (fun q => NoDup (selectedUsers (roster q)))); intros q H.
  - destruct (selection_commit q) as (l & [-> | ->] & ->); [by apply NoDup_keep|constructor].
  - unfold forget_error. by destruct (error_text q).
Qed.

Lemma honest_event p p' : event_frame p p' -> honest p -> honest p'.
Proof.
  intros F Hh. destruct (ef_server _ _ F) as [E|[(k & d & _ & Hd & ->)|[(k & text & ->)|(k & r & ->)]]]; try done; intros k' d'.
  - rewrite E. apply Hh.
  - cbn. destruct (bool_decide _) eqn:E; [by apply bool_decide_eq_true in E as ->; intros [= <-]|apply Hh].
Qed.

Section matching.
Hypothesis once : forall k d, serves k d -> NoDup (map row_key (users d)).

Lemma reachable_owned ps p : reachable serves ps p -> honest p /\ owned p /\ NoDup (selectedUsers (roster p)) /\ stable p.
Proof.
  induction 1 as [held fetched Hheld|p p' Hr (IH1 & IH2 & IH3 & _) He].
  - destruct (owned_settle once (new_page held fetched ps)) as [H1 H2]; [done|done|]. split; [done|]. split; [done|].
    split; [apply selection_settle; constructor|apply stable_settle].
  - apply event_frames in He. destruct (owned_settle once p') as [H1 H2].
    + by apply (honest_event p).
    + unfold owned in *. by rewrite (ef_users _ _ He), (ef_seen _ _ He).
    + split; [done|]. split; [done|]. split; [apply selection_settle; by apply (ef_selection _ _ He)|apply stable_settle].
Qed.

(** C17. Whatever was typed and answered, in whatever order, also when answers for an
    earlier search come late: every user listed is one the backend gave for the search
    as it is now, each is listed once, and what is selected is listed. *)
Theorem listed_users_match_the_search ps p :
  reachable serves ps p ->
  (forall u, u ∈ allUsers (roster p) -> gave (list_key (query p)) u) /\ NoDup (visible_keys p) /\
  NoDup (selectedUsers (roster p)) /\ (forall k, k ∈ selectedUsers (roster p) <-> k ∈ map row_key (selected_users p)).
Proof.
  intros Hr. destruct (reachable_owned ps p Hr) as (Hh & Ho & Hn & Hs).
  unfold owned in Ho. rewrite (st_deps _ Hs) in Ho. destruct Ho as (q & Hq & Hg & Hk). apply deps_key in Hq. rewrite <- Hq in Hg.
  split; [done|]. split; [done|]. split; [done|]. intros k. rewrite list_elem_of_fmap. unfold selected_users. setoid_rewrite elem_of_keep.
  setoid_rewrite str_in_iff. split; [|by intros (u & -> & _ & Hu)].
  intros Hsel. rewrite <- (st_selection _ Hs) in Hsel. apply elem_of_keep in Hsel as [H1 H2]. apply str_in_iff, list_elem_of_fmap in H2 as (u & -> & Hu).
  by exists u.
Qed.
End matching.

(** ** A search that is visited anew *)

Lemma rests_commit p : search_rests p ->
  query (commit p) = query p /\ saved (commit p) = saved p /\ seen_loading (seen (commit p)) = Some (isLoading p) /\
  page_no (roster (commit p)) = page_no (roster (reset_effect p p)) /\
  autoLoadLock (commit p) = autoLoadLock p && (isLoading p || bool_decide (seen_loading (seen p) = Some (isLoading p))).
Proof.
  intros H. rewrite search_rests_id by done. frame. rewrite ?saved_selection, ?query_selection. frame. split; [done|]. split; [done|].
  set (x := users_effect _ _). assert (Hx : seen_loading (seen x) = seen_loading (seen p) /\ autoLoadLock x = autoLoadLock p /\
    page_no (roster x) = page_no (roster (reset_effect p p))).
  { unfold x. frame. split; [done|]. split; [done|]. unfold users_effect. destruct (usersData p); cbn; by frame. }
  destruct Hx as (Hx1 & Hx2 & Hx3). rewrite <- Hx2, <- Hx1. unfold lock_effect. change (seen (selection_effect p x)) with (seen x).
  destruct (bool_decide _) eqn:E.
  - apply bool_decide_eq_true in E. split; [done|]. split; [done|]. by rewrite orb_true_r, andb_true_r.
  - split; [done|]. split; [done|]. cbn. by rewrite orb_false_r, andb_comm.
Qed.

(** What a page of the list is when the backend's list for the search is [R] and does not
    change meanwhile. *)
Definition page_of (R : list UserInfo) (n : nat) (d : users_page) : Prop :=
  users d = take pageSize (drop ((n - 1) * pageSize) R) /\
  (forall b, has_more d = Some b -> b = (n * pageSize <? length R)%nat) /\
  (forall t, row_total d = Some t -> t = #(Z.of_nat (length R))).

Section visit.
Variable k : list key_part.
Variable R : list UserInfo.
Hypothesis R_once : NoDup (map row_key R).
Hypothesis R_safe : safe (Z.of_nat (length R)).
Hypothesis R_served : forall n d, serves (k, n) d -> page_of R n d.

Lemma more_exact n d : (1 <= n)%nat -> ((n - 1) * pageSize <= length R)%nat -> page_of R n d ->
  (more_after n d = true -> (n * pageSize <= length R)%nat) /\ (more_after n d = false -> (length R <= n * pageSize)%nat).
Proof.
  intros Hn Hl (Hu & Hm & Ht). unfold more_after. destruct (has_more d) as [b|].
  - rewrite (Hm b eq_refl). simpl. rewrite Nat.ltb_lt, Nat.ltb_ge. lia.
  - assert (E : length (users d) = Nat.min pageSize (length R - (n - 1) * pageSize)) by (by rewrite Hu, length_take, length_drop).
    simpl. destruct (row_total d) as [t|].
    + rewrite (Ht t eq_refl), E, ltb_int by (unfold safe in *; lia). rewrite Z.ltb_lt, Z.ltb_ge. unfold pageSize in *. lia.
    + rewrite E, Nat.eqb_eq, Nat.eqb_neq. unfold pageSize in *. lia.
Qed.

(** The next page joins the pages before it. *)
Lemma merge_next n d m : (1 <= n)%nat -> page_of R n d -> m = ((n - 1) * pageSize)%nat \/ m = (n * pageSize)%nat ->
  merge_users n (take m R) (users d) = take (n * pageSize) R.
Proof.
  intros Hn (Hu & _ & _) Hm. unfold merge_users. rewrite Hu. destruct (n =? 1)%nat eqn:E1.
  - apply Nat.eqb_eq in E1 as ->. simpl. by rewrite drop_0.
  - assert (En : (n * pageSize = (n - 1) * pageSize + pageSize)%nat) by (unfold pageSize; lia).
    assert (Hd : NoDup (map row_key (take ((n - 1) * pageSize) R ++ take pageSize (drop ((n - 1) * pageSize) R)))).
    { rewrite take_take_drop. eapply sublist_NoDup; [exact R_once|]. apply (fmap_sublist row_key), sublist_take. }
    destruct Hm as [-> | ->].
    + rewrite En, <- take_take_drop. f_equal. apply keep_all. intros u Hu'. apply negb_true_iff, str_in_not. intros Hk.
      rewrite map_app in Hd. apply NoDup_app in Hd as (_ & Hd & _). apply (Hd _ Hk). by apply list_elem_of_fmap_2.
    + rewrite keep_none; [by rewrite app_nil_r|]. intros u Hu'. apply negb_false_iff, str_in_iff, list_elem_of_fmap_2.
      rewrite En, <- take_take_drop. apply elem_of_app. by right.
Qed.

(** The list has the pages before the present one, and the present one once that came;
    no later page is known; and while the lock is closed the present page is on its way,
    or has come and the lock is about to open. *)
Record visiting (p : page) : Prop := {
  v_key : list_key (query p) = k;
  v_sort : normalizeUsersSortBy (Some (sortBy (query p))) favoriteOnly = sortBy (query p);
  v_applied : enabled p = true;
  v_deps : seen_deps (seen p) = Some (reset_deps (query p));
  v_served : forall n d, cache (server p) (k, n) = Some d -> serves (k, n) d /\ (n <= page_no (roster p))%nat;
  v_asked : forall n, (k, n) ∈ asked (server p) -> (n <= page_no (roster p))%nat;
  v_error : list_error (server p) = None;
  v_page : (1 <= page_no (roster p))%nat /\ ((page_no (roster p) - 1) * pageSize <= length R)%nat;
  v_users : allUsers (roster p) = take ((page_no (roster p) - 1) * pageSize) R \/
            (cache (server p) (k, page_no (roster p)) <> None /\ allUsers (roster p) = take (page_no (roster p) * pageSize) R);
  v_lock : autoLoadLock p = true -> cache (server p) (k, page_no (roster p)) = None \/ seen_loading (seen p) = Some true
}.

Lemma visiting_data p : visiting p -> usersData p = cache (server p) (k, page_no (roster p)) /\ error_text p = None.
Proof. intros V. unfold usersData, error_text, current_key. by rewrite (v_error _ V), (v_key _ V). Qed.

Lemma visiting_loading p : visiting p -> isLoading p = match usersData p with Some _ => false | None => true end.
Proof. intros V. unfold isLoading. rewrite (v_applied _ V), (proj2 (visiting_data p V)). by destruct (usersData p). Qed.

Lemma visiting_commit p : visiting p -> visiting (commit p) /\ page_no (roster (commit p)) = page_no (roster p).
Proof.
  intros V. pose proof (visiting_data p V) as [Hd _]. pose proof (visiting_loading p V) as Hi.
  destruct V as [V1 V2 V3 V4 V5 V6 V7 [V8 V9] V10 V11].
  destruct (rests_commit p) as (Hq & Hs & Hl & Hn & Hk); [split; [by left|done]|]. rewrite reset_id in Hn by done.
  destruct (fetch_server p p) as (Hc & He & _ & _ & _ & Ha). split; [|done].
  split; rewrite ?Hq, ?Hn, ?server_commit, ?Hc, ?He, ?Hl, ?Hk; try done.
  - unfold enabled. by rewrite Hs.
  - by rewrite seen_commit.
  - intros n Hin. destruct (Ha _ Hin) as [?|[_ E]]; [by apply V6|]. unfold current_key in E. injection E as _ ->. done.
  - rewrite users_commit. cbn zeta. rewrite bool_decide_eq_true_2 by done. rewrite Hd. destruct (cache _ _) as [d|] eqn:E.
    + right. split; [done|]. destruct (V5 _ _ E) as [Hsv _]. apply R_served in Hsv.
      destruct V10 as [-> |[_ ->]]; apply merge_next; auto.
    + left. by destruct V10 as [?|[? _]].
  - intros [H1 H2]%andb_true_iff. specialize (V11 H1). rewrite <- Hd in *. rewrite Hi in *. destruct (usersData p); [|by left].
    right. apply bool_decide_eq_true in H2. destruct V11 as [?|E]; [done|]. by rewrite E in H2.
Qed.

Lemma visiting_settle p : visiting p -> visiting (settle p) /\ page_no (roster (settle p)) = page_no (roster p).
Proof.
  intros V. apply (settle_keeps (fun q => visiting q /\ page_no (roster q) = page_no (roster p))); [| |done].
  - intros q [Vq E]. destruct (visiting_commit q Vq) as [Vc Ec]. split; [done|]. by rewrite Ec.
  - intros q [Vq E]. unfold forget_error. destruct (error_text q); [done|]. split; [|done]. by destruct Vq; split.
Qed.

Lemma key_sort q q' : list_key q = list_key q' -> sortBy q = sortBy q'.
Proof. intros E. apply deps_key in E. unfold reset_deps in E. by injection E. Qed.

(** A page that is loading can not be added to. *)
Lemma loading_blocks p : visiting p -> usersData p = None -> handleLoadMore p = p.
Proof.
  intros V Hd. unfold handleLoadMore, isLoadingInitialPage, isLoadingNextPage. rewrite (visiting_loading p V), Hd.
  destruct (visiting_data p V) as [Ec _]. rewrite Hd in Ec. destruct (v_page p V) as [H1 _].
  destruct (v_users p V) as [E|[Hc _]]; [|congruence]. rewrite E. destruct (page_no (roster p)) as [|[|n]]; [lia| |]; simpl.
  - by rewrite orb_true_r.
  - by rewrite orb_true_r.
Qed.

Lemma visiting_more p : visiting p -> stable p -> visiting (handleLoadMore p).
Proof.
  intros V St. destruct (usersData p) as [d|] eqn:Ed; [|by rewrite loading_blocks].
  unfold handleLoadMore. destruct (_ || _ || negb (hasMore (roster p))) eqn:Eg; [done|]. apply orb_false_iff in Eg as [_ Hm]. apply negb_false_iff in Hm.
  destruct (st_users _ St d Ed) as [Hu Hmore]. destruct (visiting_data p V) as [Ec _]. rewrite Ed in Ec. symmetry in Ec.
  destruct V as [V1 V2 V3 V4 V5 V6 V7 [V8 V9] V10 V11]. destruct (V5 _ _ Ec) as [Hsv _]. apply R_served in Hsv.
  split; cbn; try done.
  - intros n d' Hc. destruct (V5 _ _ Hc). split; [done|lia].
  - intros n Hin. specialize (V6 _ Hin). lia.
  - split; [lia|]. rewrite Nat.sub_0_r. apply (more_exact _ d); [done|done|done|]. by rewrite Hmore.
  - left. rewrite Nat.sub_0_r, <- Hu. destruct V10 as [-> |[_ ->]]; apply merge_next; auto.
  - intros _. left. destruct (cache _ (k, S _)) eqn:E; [|done]. destruct (V5 _ _ E). lia.
Qed.

Lemma visiting_event p p' : visiting p -> stable p -> event serves p p' -> list_key (query p') = k -> list_error (server p') = None -> visiting p'.
Proof.
  intros V St He Hk Hle. apply event_frames in He. destruct He as [F1 F2 F3 F4 F5 _]. destruct F5 as [[Fn Fl]| ->]; [|by apply visiting_more].
  pose proof (visiting_loading p V) as Hi. destruct (visiting_data p V) as [Ec _].
  destruct V as [V1 V2 V3 V4 V5 V6 V7 V8 V9 V10].
  assert (Eq : list_key (query p') = list_key (query p)) by (by rewrite Hk, V1).
  assert (Hs : (forall n d, cache (server p') (k, n) = Some d -> serves (k, n) d /\ (n <= page_no (roster p))%nat) /\
               (forall n, (k, n) ∈ asked (server p') -> (n <= page_no (roster p))%nat) /\
               (cache (server p) (k, page_no (roster p)) <> None -> cache (server p') (k, page_no (roster p)) <> None)).
  { destruct F4 as [E|[(k0 & d0 & Hin & Hsv & ->)|[(k0 & text & ->)|(k0 & r & ->)]]]; [by rewrite E| |done|done].
    cbn. split; [|split; [done|]].
    - intros n d. destruct (bool_decide _) eqn:Ek; [|apply V5]. apply bool_decide_eq_true in Ek as <-. intros [= <-]. auto.
    - by destruct (bool_decide _). }
  destruct Hs as (H1 & H2 & H3). split; rewrite ?F1, ?F2, ?Fn, ?Fl; try done.
  - by rewrite (key_sort _ _ Eq).
  - unfold enabled. by rewrite F3.
  - apply deps_key in Eq. by rewrite Eq.
  - destruct V9 as [?|[? ?]]; [by left|right; auto].
  - intros Hl. destruct (V10 Hl) as [E|E]; [|by right]. right. by rewrite (st_loading _ St), Hi, Ec, E.
Qed.

(** The page has come to the search: its first page was asked for now, and nothing else is
    known of it. *)
Record fresh (p : page) : Prop := {
  fr_stable : stable p;
  fr_key : list_key (query p) = k;
  fr_page : page_no (roster p) = 1%nat /\ allUsers (roster p) = [];
  fr_loading : isLoading p = true;
  fr_asked : forall n, (k, n) ∈ asked (server p) -> n = 1%nat;
  fr_cache : forall n, cache (server p) (k, n) = None;
  fr_error : list_error (server p) = None
}.

(** The page while the search stays and no request of the list fails. *)
Inductive visits (p0 : page) : page -> Prop :=
| Arrive : visits p0 p0
| Go_on p p' : visits p0 p -> event serves p p' -> list_key (query p') = k -> list_error (server p') = None -> visits p0 (settle p').

Lemma visits_visiting p0 p : fresh p0 -> visits p0 p -> visiting p /\ stable p.
Proof.
  intros [H1 H2 [H3 H4] H5 H6 H7 H8]. induction 1 as [|p p' Hv [IH1 IH2] He Hk Hle].
  - split; [|done]. split; rewrite ?H3, ?H4; try done.
    + apply (st_sort _ H1).
    + unfold isLoading in H5. by apply andb_true_iff in H5 as [? _].
    + apply (st_deps _ H1).
    + intros n d. by rewrite H7.
    + intros n Hn. by rewrite (H6 n Hn).
    + simpl. lia.
    + by left.
    + left. apply H7.
  - split; [|apply stable_settle]. apply visiting_settle. by eapply visiting_event.
Qed.

(** C16. While a search that is visited anew stays, and its requests succeed, the list is the
    backend's from its start, page after page in its order, with nothing skipped or
    doubled, whatever else happens on the page; as long as there may be more, asking for
    more begins to load the next page; and when the page says there is no more, all
    users are listed. *)
Theorem list_grows_in_order p0 p :
  fresh p0 -> visits p0 p ->
  let loaded := match usersData p with Some _ => page_no (roster p) | None => (page_no (roster p) - 1)%nat end in
  allUsers (roster p) = take (loaded * pageSize) R /\
  (usersData p <> None -> hasMore (roster p) = true ->
     let p' := settle (handleLoadMore p) in page_no (roster p') = S (page_no (roster p)) /\ isLoading p' = true) /\
  (usersData p <> None -> hasMore (roster p) = false -> allUsers (roster p) = R).
Proof.
  intros Hf Hv. destruct (visits_visiting _ _ Hf Hv) as [V St]. destruct (visiting_data p V) as [Ec _].
  destruct (usersData p) as [d|] eqn:Ed; cbn zeta.
  2: { split; [|done]. destruct (v_users p V) as [?|[? _]]; [done|congruence]. }
  destruct (st_users _ St d Ed) as [Hu Hm]. symmetry in Ec. destruct (v_served p V _ _ Ec) as [Hsv _]. apply R_served in Hsv.
  destruct (v_page p V) as [H1 H2]. destruct (more_exact _ _ H1 H2 Hsv) as [_ Hend].
  assert (Ha : allUsers (roster p) = take (page_no (roster p) * pageSize) R).
  { rewrite <- Hu. destruct (v_users p V) as [-> |[_ ->]]; apply merge_next; auto. }
  split; [done|]. split; [|intros _ Hn; rewrite Ha; apply take_ge, Hend; by rewrite Hm].
  intros _ Hmore.
  assert (El : autoLoadLock p = false).
  { destruct (autoLoadLock p) eqn:E; [|done]. destruct (v_lock p V E) as [E'|E']; [congruence|].
    by rewrite (st_loading _ St), (visiting_loading p V), Ed in E'. }
  assert (En : page_no (roster (handleLoadMore p)) = S (page_no (roster p)) /\ server (handleLoadMore p) = server p).
  { unfold handleLoadMore, isLoadingInitialPage, isLoadingNextPage. rewrite El, (visiting_loading p V), Ed, Hmore. done. }
  destruct En as [En Es]. pose proof (visiting_more p V St) as V'. destruct (visiting_settle _ V') as [V'' E''].
  rewrite E'', En. split; [done|]. rewrite (visiting_loading _ V''). destruct (visiting_data _ V'') as [-> _]. rewrite E'', En.
  assert (Ecs : cache (server (settle (handleLoadMore p))) = cache (server (handleLoadMore p))).
  { apply (settle_keeps (fun q => cache (server q) = cache (server (handleLoadMore p)))); [| |done].
    - intros q Hq. rewrite server_commit. destruct (fetch_server q q) as (-> & _). done.
    - intros q Hq. unfold forget_error. by destruct (error_text q). }
  rewrite Ecs, Es. destruct (cache (server p) (k, S (page_no (roster p)))) eqn:E; [|done]. destruct (v_served p V _ _ E). lia.
Qed.
End visit.

End answers.

(** ** The cache *)

(** Filters as the page's dialogs and address give them. *)
Record clean_filters (f : filter_set) : Prop := {
  cf_sex : Forall (readable SEXES) (sexFilter f);
  cf_gender : Forall (readable SEXES) (genderFilter f);
  cf_profile : Forall (readable PROFILES) (profileTypeFilter f);
  cf_content : Forall (readable CONTENTS) (sexualContentFilter f)
}.

Lemma sent_numbers (name : string) (l l' : list num) :
  joined l = joined l' -> map (fun n => (name, show_num n)) l = map (fun n => (name, show_num n)) l'.
Proof. intros E%joined_texts. rewrite <- !(map_map show_num (fun s => (name, s))). by f_equal. Qed.

Lemma filter_key_request q q' order limit offset stats :
  usersFilterKey q = usersFilterKey q' -> getUsersList q order limit offset stats = getUsersList q' order limit offset stats.
Proof.
  intros E. unfold usersFilterKey in E. cbn [map app RANGE_FIELDS] in E. injection E as E1 E2 E3 E4 E5 E6 E7 E8 E9.
  unfold getUsersList. rewrite (sent_numbers "sex" _ _ E6), (sent_numbers "gender" _ _ E7), (sent_numbers "profile_type" _ _ E8),
    (sent_numbers "sexual_content" _ _ E9). cbn [flat_map RANGE_FIELDS]. congruence.
Qed.

(** C18. A page of the list, or totals, that come from the cache are the answer to the very
    request the page would send: two searches that share the place of a page of the
    list send the same request for it, and two searches that share the place of their
    totals send the same request for those, in whatever order they list the users. *)
Theorem same_key_same_request q q' n :
  (list_key q = list_key q' -> list_request q n = list_request q' n) /\
  (usersFilterKey q = usersFilterKey q' -> stats_request q = stats_request q').
Proof.
  unfold list_request, stats_request. split; [|by apply filter_key_request].
  intros E. apply app_inj_2 in E as [E1 E2]; [|done]. injection E2 as E2 E3. rewrite E2, E3. by apply filter_key_request.
Qed.

(** ** The address and loadouts *)

(** A search as the page makes it. *)
Record clean (q : search) : Prop := {
  c_filters : clean_filters (chosen q);
  c_ranges : map fst (range_texts (chosen q)) = RANGE_FIELDS;
  c_sort : normalizeUsersSortBy (Some (sortBy q)) favoriteOnly = sortBy q
}.

Lemma get_list_param k key l ps : JMap.get k (list_param key l ps) = if negb (length l =? 0)%nat && (key =s k) then Some (joined l) else JMap.get k ps.
Proof. apply get_set_if. Qed.

(** The texts of ranges are those under their names. *)
Lemma ranges_as_named f : map fst (range_texts f) = RANGE_FIELDS -> map (fun k => (k, range_text k f)) RANGE_FIELDS = range_texts f.
Proof.
  unfold range_text. destruct (range_texts f) as [|[] l]; [done|]. do 8 (destruct l as [|[] l]; try done). by intros [= -> -> -> -> -> -> -> ->].
Qed.

Lemma performer_reads_back s : performer_of (Some (show_state s)) = s.
Proof. by destruct s. Qed.
Lemma subscribed_reads_back s : subscribed_of (Some (show_state s)) = s.
Proof. by destruct s. Qed.

(** What the address holds under the name of a range. *)
Lemma get_ranges k f ps :
  JMap.get k (foldl (fun ps k => set_if (truthy (range_text k f)) k (range_text k f) ps) ps RANGE_FIELDS) =
    if str_in k RANGE_FIELDS && truthy (range_text k f) then Some (range_text k f) else JMap.get k ps.
Proof.
  assert (G : forall l ps, JMap.get k (foldl (fun ps k => set_if (truthy (range_text k f)) k (range_text k f) ps) ps l) =
    if str_in k l && truthy (range_text k f) then Some (range_text k f) else JMap.get k ps).
  { intros l. induction l as [|k' l IH]; intros ps0; [done|]. cbn [foldl]. rewrite IH, get_set_if.
    assert (Ein : str_in k (k' :: l) = (k' =s k) || str_in k l).
    { apply eq_true_iff_eq. rewrite orb_true_iff, !str_in_iff, elem_of_cons, str_eqb_eq. naive_solver. }
    rewrite Ein. destruct (k' =s k) eqn:E; [apply str_eqb_eq in E as ->|by rewrite andb_false_r].
    destruct (str_in k l), (truthy (range_text k f)); done. }
  apply G.
Qed.

(** What the address of a search holds under a key. *)
Lemma get_users_address k q :
  let f := chosen q in
  JMap.get k (to_address q) =
    if str_in k RANGE_FIELDS && truthy (range_text k f) then Some (range_text k f)
    else if negb (length (sexualContentFilter f) =? 0)%nat && ("sexual_content" =s k) then Some (joined (sexualContentFilter f))
    else if negb (length (profileTypeFilter f) =? 0)%nat && ("profile_type" =s k) then Some (joined (profileTypeFilter f))
    else if negb (length (genderFilter f) =? 0)%nat && ("gender" =s k) then Some (joined (genderFilter f))
    else if negb (length (sexFilter f) =? 0)%nat && ("sex" =s k) then Some (joined (sexFilter f))
    else if truthy (searchDescriptionQuery q) && ("description" =s k) then Some (searchDescriptionQuery q)
    else if truthy (searchQuery q) && ("identifier" =s k) then Some (searchQuery q)
    else if truthy (selectedLoadoutName q) && ("loadout" =s k) then Some (selectedLoadoutName q)
    else if "subscribed_filter" =s k then Some (show_state (subscribed (userFilters f)))
    else if "performer_filter" =s k then Some (show_state (performer (userFilters f)))
    else if "sort_order" =s k then Some (show_order (ascending q))
    else if "sort_by" =s k then Some (sortBy q)
    else if "active_only" =s k then Some (show_bool (activeOnly f))
    else if "site" =s k then Some (str_or (selectedSite q) "onlyfans") else None.
Proof. unfold to_address. cbv zeta. by rewrite get_ranges, 4!get_list_param, 3!get_set_if, 6!get_set. Qed.

Lemma get_range k q : str_in k RANGE_FIELDS = true -> text_param k (to_address q) = range_text k (chosen q).
Proof.
  intros Hk. unfold text_param. rewrite get_users_address, Hk. apply str_in_iff in Hk. cbn [andb]. destruct (range_text k (chosen q)) as [|c r]; [|done].
  cbn [truthy str_eqb]. repeat (apply elem_of_cons in Hk as [->|Hk]; [literal_keys; by rewrite ?andb_false_r|]). by apply elem_of_nil in Hk.
Qed.

Lemma get_beside_ranges k q : str_in k RANGE_FIELDS = false ->
  let f := chosen q in
  JMap.get k (to_address q) =
    if negb (length (sexualContentFilter f) =? 0)%nat && ("sexual_content" =s k) then Some (joined (sexualContentFilter f))
    else if negb (length (profileTypeFilter f) =? 0)%nat && ("profile_type" =s k) then Some (joined (profileTypeFilter f))
    else if negb (length (genderFilter f) =? 0)%nat && ("gender" =s k) then Some (joined (genderFilter f))
    else if negb (length (sexFilter f) =? 0)%nat && ("sex" =s k) then Some (joined (sexFilter f))
    else if truthy (searchDescriptionQuery q) && ("description" =s k) then Some (searchDescriptionQuery q)
    else if truthy (searchQuery q) && ("identifier" =s k) then Some (searchQuery q)
    else if truthy (selectedLoadoutName q) && ("loadout" =s k) then Some (selectedLoadoutName q)
    else if "subscribed_filter" =s k then Some (show_state (subscribed (userFilters f)))
    else if "performer_filter" =s k then Some (show_state (performer (userFilters f)))
    else if "sort_order" =s k then Some (show_order (ascending q))
    else if "sort_by" =s k then Some (sortBy q)
    else if "active_only" =s k then Some (show_bool (activeOnly f))
    else if "site" =s k then Some (str_or (selectedSite q) "onlyfans") else None.
Proof. intros Hk. by rewrite get_users_address, Hk. Qed.

(** Reloading the page keeps the search, but for the site when none is chosen (below). *)
Theorem users_address_reads_back q :
  clean q -> selectedSite q <> EmptyString -> searchTerm q = searchQuery q -> searchDescriptionTerm q = searchDescriptionQuery q ->
  from_address (to_address q) = q.
Proof.
  intros [[Hs Hg Hp Hc] Hr Ho] Hsite Ht Hd. unfold from_address.
  assert (Er : map (fun k => (k, text_param k (to_address q))) RANGE_FIELDS = range_texts (chosen q)).
  { rewrite <- ranges_as_named by done. apply map_ext_in. intros k Hk. f_equal. by apply get_range, str_in_iff, list_elem_of_In. }
  rewrite Er. unfold text_param. rewrite !get_beside_ranges by done. literal_keys.
  destruct q as [site term query dterm dquery [active sex gender profile content ranges fs] ord asc loadout]. simpl in *. subst term dterm.
  f_equal; try (by apply text_of_if).
  - by destruct site.
  - f_equal; try (by apply filter_reads_back); [by destruct active|]. destruct fs. simpl. by rewrite performer_reads_back, subscribed_reads_back.
  - exact Ho.
  - by destruct asc.
Qed.

(** A loadout gives back the search it was saved from, whatever the page showed before,
    but for the filters of profile type and content, which stay as they were (below). *)
Theorem users_loadout_reads_back q q0 :
  clean q -> searchTerm q = searchQuery q -> searchDescriptionTerm q = searchDescriptionQuery q ->
  let f := chosen q in
  loadout_search (applyUsersLoadoutState (save_item q) favoriteOnly) q0 =
    named (selectedLoadoutName q0) (with_filters
      {| activeOnly := activeOnly f; sexFilter := sexFilter f; genderFilter := genderFilter f;
         profileTypeFilter := profileTypeFilter (chosen q0); sexualContentFilter := sexualContentFilter (chosen q0);
         range_texts := range_texts f; userFilters := userFilters f |} q).
Proof.
  intros [[Hs Hg _ _] Hr Ho] Ht Hd. cbv zeta. unfold loadout_search, loadout_filters, applyUsersLoadoutState, save_item, prop, named, with_filters.
  cbn [Users.identifier Users.description Users.site Users.filters siteValue ls_identifier ls_description nextSex nextGender Users.activeOnly
    performerFilter subscribedFilter sortByValue Users.ascending ranges_of map app RANGE_FIELDS JMap.get as_str].
  literal_keys. cbn [as_str]. rewrite Ht, Hd, <- (ranges_as_named _ Hr). cbn [map RANGE_FIELDS].
  f_equal.
  - by destruct (searchQuery q).
  - by destruct (searchQuery q).
  - by destruct (searchDescriptionQuery q).
  - by destruct (searchDescriptionQuery q).
  - cbn [chosen]. f_equal; [by apply int_list_reads_back..|]. destruct (userFilters (chosen q)) as [[] []]; done.
  - exact Ho.
  - by destruct (ascending q).
Qed.

(** ** Identities in bulk *)

(** The requests settle in any order: each time one of those still waited for. *)
Fixpoint settles_all (n : nat) (os : list (nat * bool)) : Prop :=
  match os with
  | [] => n = 0%nat
  | o :: r => (o.1 < n)%nat /\ settles_all (n - 1) r
  end.

Definition bulk_answers (i : nat) (os : list (nat * bool)) (p : page) : page := foldl (fun p o => bulk_answer i o.1 o.2 p) p os.

Definition outcomes (ok : bool) (os : list (nat * bool)) : nat := length (List.filter (fun o => Bool.eqb o.2 ok) os).

Lemma delete_inserted (c : call) (i : nat) (l : list call) : delete i (<[i := c]> l) = delete i l.
Proof. revert i. induction l as [|x l IH]; intros [|i]; try done. simpl. f_equal. apply IH. Qed.

Lemma bulk_to_the_end i os : forall p payload l s f,
  inflight p !! i = Some (IdentityAll payload l s f) -> l <> [] -> settles_all (length l) os ->
  bulk_answers i os p =
    identities_settled (s + outcomes true os) (f + outcomes false os) (set_traffic (delete i (inflight p)) (invalidated p) p).
Proof.
  induction os as [|[j ok] os IH]; intros p payload l s f Hi Hl Hos; [by destruct l|]. destruct Hos as [Hj Hos]. simpl in Hj.
  change (bulk_answers i ((j, ok) :: os) p) with (bulk_answers i os (bulk_answer i j ok p)). unfold bulk_answer. rewrite Hi.
  destruct (lookup_lt_is_Some_2 l j Hj) as [u Hu]. rewrite Hu. cbn zeta.
  assert (El : length (delete j l) = (length l - 1)%nat) by (by rewrite length_delete).
  assert (Eo : (s + outcomes true ((j, ok) :: os) = s + one_if ok + outcomes true os)%nat /\
               (f + outcomes false ((j, ok) :: os) = f + one_if (negb ok) + outcomes false os)%nat).
  { unfold outcomes. destruct ok; simpl; lia. }
  destruct Eo as [-> ->]. rewrite <- El in Hos. unfold bulk_rest. destruct (delete j l) as [|v l'] eqn:Ed.
  - destruct os as [|o os]; [|destruct Hos; simpl in *; lia]. cbn. by rewrite !Nat.add_0_r.
  - pose proof (lookup_lt_Some _ _ _ Hi) as Hlt.
    rewrite (IH _ payload (v :: l') (s + one_if ok)%nat (f + one_if (negb ok))%nat); [|by cbn; rewrite list_lookup_insert_eq|done|done].
    cbn [inflight set_traffic invalidated]. f_equal. unfold set_traffic. cbn. by rewrite delete_inserted.
Qed.

(** In whatever order the requests of a bulk change settle, the page reports what
    happened: how many succeeded and how many failed, as a success only when none
    failed; the lists are fetched again when anything changed, the dialog stays open
    when anything failed, and nothing is left waiting. *)
Theorem bulk_identity_reports p values os :
  parseIdentityDraft (bulkIdentity (dialog p)) = inr values -> selected_users p <> [] -> settles_all (length (selected_users p)) os ->
  let p' := bulk_answers (length (inflight p)) os (handleSaveBulkIdentity p) in
  let good := outcomes true os in
  let bad := outcomes false os in
  toast p' = Some (if (0 <? good)%nat then
                     ("Updated identity for " +:+ users_text good
                        +:+ (if (0 <? bad)%nat then " (" +:+ show_count bad +:+ " failed)" else EmptyString),
                      if (0 <? bad)%nat then ToastError else ToastSuccess)
                   else ("Failed to update identity for " +:+ users_text bad, ToastError)) /\
  (good + bad = length (selected_users p))%nat /\
  inflight p' = inflight p /\ roster p' = roster p /\
  invalidated p' = invalidated p ++ (if (0 <? good)%nat then ["users-list"; "users-stats"; "user-profile"] else []) /\
  bulkIdentitySaving (dialog p') = false /\
  bulkIdentityModalOpen (dialog p') = bulkIdentityModalOpen (dialog p) && negb (bad =? 0)%nat.
Proof.
  intros Hv Hs Hos. cbv zeta. unfold handleSaveBulkIdentity. rewrite Hv. destruct (selected_users p) as [|u l] eqn:El; [done|].
  erewrite bulk_to_the_end; [|apply list_lookup_middle; reflexivity|done|done]. cbn [Nat.add send set_traffic inflight invalidated].
  change (inflight (setBulkIdentitySaving true p)) with (inflight p). rewrite delete_middle, app_nil_r.
  assert (Hc : forall n os, settles_all n os -> (outcomes true os + outcomes false os = n)%nat).
  { clear. intros n os. revert n. induction os as [|[j ok] os IH]; intros n; simpl; [done|]. intros [Hj Hn]. specialize (IH _ Hn).
    unfold outcomes in *. destruct ok; simpl; lia. }
  specialize (Hc _ _ Hos). destruct (outcomes true os) as [|g], (outcomes false os) as [|b]; simpl in Hc; try lia;
    unfold identities_settled; cbn; rewrite ?andb_true_r, ?andb_false_r, <- ?app_assoc, ?app_nil_r; repeat split; lia.
Qed.
End page.

(** ** What the page does not mean to do *)

Definition unknown : IdentityValues :=
  {| sex := None; gender := None; profile_type := None; sexual_content := None; partner_sex := None; partner_gender := None |}.

Definition demo (id : Z) (login : string) : UserInfo := {|
  row_id := #id; user_id := #(id + 100); username := login; name := None; about := None; identity := unknown; price := #5;
  user_site := "onlyfans"; downloaded_at := None |}.

Definition demo_answer (l : list UserInfo) (more : bool) : users_page := {| users := l; row_total := None; has_more := Some more |}.

(** The page with the loadouts looked at, and an answer for one of its pages. *)
Definition nothing_held : requests := {| cache := fun _ => None; asked := []; list_error := None; totals := fun _ => None |}.
Definition arrived : page := settle false (loadouts_answered None (settle false (new_page false nothing_held None []))).
Definition answer_page (n : nat) (d : users_page) (p : page) : page := settle false (list_answered (list_key false (query p), n) d p).
Definition load_more (p : page) : page := settle false (handleLoadMore false p).

(** Two pages are loaded; then the site is changed, for which the first render asks for the
    second page of the new list, and both its pages come. *)
Definition other_site : page :=
  let p := answer_page 2 (demo_answer [demo 2 "b"] true) (load_more (answer_page 1 (demo_answer [demo 1 "a"] true) arrived)) in
  let p := settle false (set_query (with_site EmptyString (query p)) p) in
  answer_page 1 (demo_answer [demo 3 "c"] true) (answer_page 2 (demo_answer [demo 4 "d"] true) p).

(** The second page then comes from the cache at once: nothing loads, so the lock is never
    opened, and the list can not be loaded any further although there is more. *)
Lemma cached_page_locks_the_list :
  let p := load_more other_site in
  map username (allUsers (roster p)) = ["c"; "d"] /\ hasMore (roster p) = true /\ isLoading false p = false /\ autoLoadLock p = true /\
  page_no (roster (load_more p)) = 2%nat.
Proof. vm_compute. done. Qed.

(** All sites chosen, and the page loaded again: one site. *)
Lemma all_sites_become_one q : selectedSite (from_address false (to_address (with_site EmptyString q))) = "onlyfans".
Proof. unfold from_address, text_param. cbn [selectedSite]. rewrite get_beside_ranges by done. literal_keys. done. Qed.

(** A loadout saved with a filter of profile types does not set it, and does not take away
    one chosen since. *)
Lemma loadout_leaves_profile_types q q0 :
  profileTypeFilter (chosen (loadout_search (applyUsersLoadoutState (save_item q) false) q0)) = profileTypeFilter (chosen q0).
Proof. done. Qed.

(** A user was edited while the second page was shown: the row that comes back changed
    is taken for one already listed. *)
Lemma edited_user_stays_as_before :
  let p := answer_page 2 (demo_answer [demo 2 "b"] true) (load_more (answer_page 1 (demo_answer [demo 1 "a"] true) arrived)) in
  map username (allUsers (roster (answer_page 2 (demo_answer [demo 2 "renamed"] true) p))) = ["a"; "b"].
Proof. vm_compute. done. Qed.

(** Every request of a bulk operation fails, and the message says that the user was added. *)
Lemma failed_watches_are_reported_as_added :
  let p := selectAllVisibleUsers (answer_page 1 (demo_answer [demo 1 "a"] false) arrived) in
  let p' := bulk_answer 0 0 false (handleWatchSelected p) in
  toast p' = Some ("Added 1 user to watch list", ToastSuccess) /\ watchedKeys p' = [].
Proof. vm_compute. done. Qed.

(** ** Witnesses *)

Definition demo_roster : list UserInfo := [demo 1 "a"; demo 2 "b"].

(** A backend that has these users, whatever is searched for. *)
Definition demo_serves (key : page_key) (d : users_page) : Prop := page_of demo_roster key.2 d.

Lemma demo_once : NoDup (map row_key demo_roster).
Proof. apply (bool_decide_unpack _). vm_compute. exact I. Qed.

Lemma demo_serves_once key d : demo_serves key d -> NoDup (map row_key (users d)).
Proof.
  intros (-> & _). eapply sublist_NoDup; [apply demo_once|]. apply (fmap_sublist row_key). etrans; [apply sublist_take|apply sublist_drop].
Qed.

Definition demo_full : users_page := demo_answer demo_roster false.

Lemma demo_served key : key.2 = 1%nat -> demo_serves key demo_full.
Proof. intros H. unfold demo_serves. rewrite H. split; [by vm_compute|]. split; [by intros b [= <-]|done]. Qed.

Definition demo_key : list key_part := list_key false (query arrived).

Lemma demo_asked : asked (server arrived) = [(demo_key, 1%nat)].
Proof. vm_compute. reflexivity. Qed.

Lemma demo_fresh : fresh false demo_key arrived.
Proof.
  split.
  - apply stable_settle.
  - reflexivity.
  - split; vm_compute; reflexivity.
  - vm_compute. reflexivity.
  - intros n. rewrite demo_asked. intros H%list_elem_of_singleton. exact (f_equal snd H).
  - intros n. vm_compute. reflexivity.
  - vm_compute. reflexivity.
Qed.

Lemma demo_event : event false demo_serves arrived (list_answered (demo_key, 1%nat) demo_full arrived).
Proof.
  apply List_answered; [|by apply demo_served]. rewrite demo_asked. apply list_elem_of_here.
Qed.

Lemma list_grows_in_order_witness :
  allUsers (roster (settle false (list_answered (demo_key, 1%nat) demo_full arrived))) = demo_roster.
Proof.
  refine (proj2 (proj2 (list_grows_in_order false demo_serves demo_key demo_roster demo_once _ (fun n d H => H) arrived _ demo_fresh _)) _ _).
  - vm_compute. split; reflexivity.
  - eapply Go_on; [apply Arrive|apply demo_event|vm_compute; reflexivity|vm_compute; reflexivity].
  - vm_compute. discriminate.
  - vm_compute. reflexivity.
Defined.

Lemma listed_users_match_the_search_witness :
  NoDup (visible_keys (settle false (list_answered (demo_key, 1%nat) demo_full arrived))).
Proof.
  refine (proj1 (proj2 (listed_users_match_the_search false demo_serves demo_serves_once [] _ _))).
  eapply Next; [|apply demo_event]. eapply (Next _ _ _ (settle false (new_page false nothing_held None []))); [by apply Begin|apply Loadouts_answered].
Defined.

Definition demo_search : search := {|
  selectedSite := "onlyfans"; searchTerm := "ann"; searchQuery := "ann"; searchDescriptionTerm := EmptyString; searchDescriptionQuery := EmptyString;
  chosen := {| activeOnly := false; sexFilter := [#(-1); #2]; genderFilter := []; profileTypeFilter := [#3]; sexualContentFilter := [#6; #0];
               range_texts := map (fun k => (k, if k =s "min_price" then "0.5" else EmptyString)) RANGE_FIELDS;
               userFilters := {| performer := FilterNone; subscribed := Exclude |} |};
  sortBy := "price"; ascending := true; selectedLoadoutName := "mine" |}.

Lemma demo_filters : clean_filters (chosen demo_search).
Proof. split; repeat (apply Forall_cons; split; [by vm_compute|]); constructor. Qed.

(** The same search in another order: other pages of the list, the same totals. *)
Lemma same_key_same_request_witness :
  let q := onSearchTermChange "anna" demo_search in
  let q' := {| selectedSite := selectedSite q; searchTerm := searchTerm q; searchQuery := searchQuery q; searchDescriptionTerm := searchDescriptionTerm q;
               searchDescriptionQuery := searchDescriptionQuery q; chosen := chosen q; sortBy := "name"; ascending := false;
               selectedLoadoutName := EmptyString |} in
  list_request false demo_search 2 = list_request false q 2 /\ stats_request false demo_search = stats_request false q' /\
  list_request false demo_search 2 <> list_request false q' 2.
Proof.
  intros q q'. split; [exact (proj1 (same_key_same_request false demo_search q 2) eq_refl)|].
  split; [exact (proj2 (same_key_same_request false demo_search q' 2) eq_refl)|]. vm_compute. discriminate.
Defined.

Lemma users_address_reads_back_witness : from_address false (to_address demo_search) = demo_search.
Proof.
  apply users_address_reads_back; [|discriminate|reflexivity|reflexivity]. split; [exact demo_filters|reflexivity|reflexivity].
Defined.

(** Two users selected and the dialog open; the second is updated, the first fails. *)
Definition demo_bulk : page :=
  openBulkIdentityModal (selectAllVisibleUsers (settle false (list_answered (demo_key, 1%nat) demo_full arrived))).

Lemma bulk_identity_reports_witness :
  toast (bulk_answers 0 [(1%nat, true); (0%nat, false)] (handleSaveBulkIdentity demo_bulk)) =
    Some ("Updated identity for 1 user (1 failed)", ToastError).
Proof.
  refine (proj1 (bulk_identity_reports demo_bulk unknown [(1%nat, true); (0%nat, false)] _ _ _)).
  - vm_compute. reflexivity.
  - vm_compute. discriminate.
  - vm_compute. auto.
Defined.
