(* ===== verification/UserProfile.v ===== *)
(** * The profile of a user ([features/user-profile/hooks/useUserProfileController.ts])

    The tab and the filters with their copies in the address; the users an identifier may
    mean and the way from one to the next; the versions of a profile; the observer of a
    refresh; the content that is loaded page by page; the subscriptions of the accounts
    of a user, over [SubscriptionsPage]; scraping, ordering and editing with their
    answers in any order. The effects of a render are run as in [UsersPage]. The
    parser of HTML is a parameter. The image preview, copying of paths, the clock of the
    countdown and the scroll observer (a call of [load_more_content] at any time) are not
    modelled.

    The theorems: wherever the page comes to rest, its address gives back its tab and
    filters; choosing a user among several leads to an address that names them, and
    from which every other of the group is reached; what depends on a refresh is fetched again exactly when one is seen to
    end; the pages of content cover it; a delegated job names its steps without
    repetition, each after what it depends on. *)

From Stdlib Require Import Ascii ZArith Lia SpecFloat.
From stdpp Require Import base list strings option sets.
From S2P Require Import Prelude JsString JsNum JsInt JsText JsValue JsDate Users PageAddress SubscriptionsPage.

(** ** Records ([api/types/users.ts], [api/types/auths.ts], [api/types/content.ts]) *)

(** The fields the page reads. *)
Record DetailedUserInfo := {
  u_id : num;
  u_user_id : num;
  u_username : string;
  u_name : option string;
  u_description : option string;
  u_price : num;
  u_media_count : num;
  u_audio_count : num;
  u_stream_count : num;
  u_archived_post_count : num;
  u_subscribers_count : num;
  u_favourited_count : num;
  u_size : num;
  u_display_size : num;
  u_estimated_size : option num;
  u_size_source : string;
  u_bucket_date : option string;
  u_location : option string;
  u_website : option string;
  u_identity : IdentityValues;
  u_is_subscribed : bool;
  u_expires_at : option string;
  u_favorite : bool;
  u_site : string;
  u_join_date : option string;
  u_downloaded_at : option string;
  u_first_downloaded_at : option string;
  u_last_checked_at : option string;
  u_created_at : option string
}.

Record DetailedUserResponse := { dr_user : option DetailedUserInfo; dr_is_stale : bool; dr_is_refreshing : bool }.

Record HistoUserInfoItem := {
  h_id : num;
  h_about : option string;
  h_price : num;
  h_media_count : num;
  h_audio_count : num;
  h_archived_post_count : num;
  h_subscriber_count : num;
  h_created_at : option string
}.

Record UserAliasItem := { alias_id : num; alias_username : string }.

Record UserIdentifierCandidate := { cand_user_id : num; cand_username : string }.

Inductive resolution_status := Resolved | Ambiguous | NotFound | Unavailable.

Record UserIdentifierResolutionResponse := {
  res_success : bool;
  res_status : resolution_status;
  res_user_id : option num;
  res_candidates : list UserIdentifierCandidate;
  res_total : Z;
  res_page : Z;
  res_page_size : Z
}.

Record AuthCredential := { a_id : num; a_username : option string; a_user_id : num; a_active : bool }.

Record ContentLibraryItem := {
  c_id : num;
  c_user_id : num;
  c_username : option string;
  c_content_type : string;
  c_price : num;
  c_media_count : num;
  c_site : string
}.

Record ContentLibraryResponse := { cl_success : bool; cl_content : list ContentLibraryItem; cl_total : Z; cl_error : option string }.

(** ** The address *)

Inductive UserProfileTab := Overview | Content | Paid | SubscriptionsTab.

#[export] Instance UserProfileTab_eq_dec : EqDecision UserProfileTab.
Proof. solve_decision. Defined.

Definition lower_param (key : string) (ps : params) : option string := to_lower <$> JMap.get key ps.

Definition requestedTab (ps : params) : UserProfileTab :=
  let tabParam := lower_param "tab" ps in
  let source := lower_param "source" ps in
  if opt_eqb tabParam "subscriptions" then SubscriptionsTab
  else if opt_eqb tabParam "paid" then Paid
  else if opt_eqb tabParam "content" then Content
  else if opt_eqb source "paid" then Paid
  else if opt_eqb source "content" then Content
  else Overview.

(** [next] of [setTabInQuery]. *)
Definition tab_address (tab : UserProfileTab) (ps : params) : params :=
  match tab with
  | Content => JMap.set "tab" "content" (JMap.set "source" "content" ps)
  | Paid => JMap.set "tab" "paid" (JMap.set "source" "paid" ps)
  | SubscriptionsTab => JMap.set "tab" "subscriptions" (delete_param "source" ps)
  | Overview => delete_param "tab" (delete_param "source" ps)
  end.

Definition site_of (ps : params) : string := str_or (text_param "site" ps) "onlyfans".

Definition backTarget (ps : params) : string :=
  match truthy_opt (JMap.get "return_to" ps) with
  | Some raw => if starts_with raw "/" then raw else "/users"
  | None => "/users"
  end.

(** [DEFAULT_ADVANCED_FILTERS]: its keys in order. *)
Definition FILTER_KEYS : list string :=
  ["purchased"; "locked"; "free"; "has_media"; "no_media"; "has_video"; "has_photo"; "has_audio"; "archived"; "deleted"; "expiring"; "text"].

Definition AdvancedFilterMap : Type := list (string * UserFilterState).
Definition DEFAULT_ADVANCED_FILTERS : AdvancedFilterMap := map (fun k => (k, FilterNone)) FILTER_KEYS.

Definition filter_param (key : string) : string := "filter_" +:+ key.

Definition filter_of (raw : option string) : UserFilterState :=
  if opt_eqb raw "include" then Include else if opt_eqb raw "exclude" then Exclude else FilterNone.

Definition filtersFromSearchParams (ps : params) : AdvancedFilterMap :=
  map (fun k => (k, filter_of (JMap.get (filter_param k) ps))) FILTER_KEYS.

Definition filter_state (key : string) (m : AdvancedFilterMap) : UserFilterState :=
  match JMap.get key m with Some s => s | None => FilterNone end.

Definition state_text (s : UserFilterState) : string :=
  match s with Include => "include" | Exclude => "exclude" | FilterNone => "none" end.

(** One turn of the loop that writes the filters. *)
Definition write_filter (m : AdvancedFilterMap) (ps : params) (key : string) : params :=
  match filter_state key m with
  | FilterNone => delete_param (filter_param key) ps
  | s => JMap.set (filter_param key) (state_text s) ps
  end.

Definition filters_address (m : AdvancedFilterMap) (ps : params) : params := foldl (write_filter m) ps FILTER_KEYS.

Definition flags_of (s : UserFilterState) (m : AdvancedFilterMap) : list string :=
  map fst (List.filter (fun e => state_text e.2 =s state_text s) m).
Definition contentIncludeFlags : AdvancedFilterMap -> list string := flags_of Include.
Definition contentExcludeFlags : AdvancedFilterMap -> list string := flags_of Exclude.

Definition effectiveContentIncludeFlags (tab : UserProfileTab) (m : AdvancedFilterMap) : list string :=
  if decide (tab = Paid) then set_add "purchased" (contentIncludeFlags m) else contentIncludeFlags m.
Definition effectiveContentExcludeFlags (tab : UserProfileTab) (m : AdvancedFilterMap) : list string :=
  if decide (tab = Paid) then List.filter (fun f => negb (f =s "purchased")) (contentExcludeFlags m) else contentExcludeFlags m.
Definition activeContentAdvancedFilterCount (m : AdvancedFilterMap) : nat := length (contentIncludeFlags m) + length (contentExcludeFlags m).

(** ** The users an identifier may mean *)

Definition normalizedIdentifier (userId : string) : string := to_lower (without_at (trim userId)).

Definition conflictIdentifier (ps : params) : string := to_lower (trim (without_at (text_param "conflict" ps))).

Definition conflictPage (ps : params) : Z :=
  match parse_int (str_or (text_param "conflict_page" ps) "1") with
  | Some n => if 0 <? n then n else 1
  | None => 1
  end.

Definition IDENTIFIER_CHOOSER_PAGE_SIZE : Z := 100.

Definition resolvedNumericUserId (r : option UserIdentifierResolutionResponse) : option num :=
  match r with
  | Some x => match res_status x with Resolved => res_user_id x | _ => None end
  | None => None
  end.

(** The place of a user among those the chooser lists, from 1. *)
Definition absolutePosition (r : option UserIdentifierResolutionResponse) (candidateUserId : num) : Z :=
  match r ?> fun x => find_index (fun c => cand_user_id c =! candidateUserId) (res_candidates x) with
  | Some i =>
      let page := match r with Some x => res_page x | None => 1 end in
      let size := match r with Some x => res_page_size x | None => IDENTIFIER_CHOOSER_PAGE_SIZE end in
      (page - 1) * size + Z.of_nat i + 1
  | None => 1
  end.

Definition conflict_address (identifier : string) (page : Z) (ps : params) : params :=
  JMap.set "conflict_page" (show_Z page) (JMap.set "conflict" identifier ps).

(** Where [selectIdentifierCandidate] navigates to: the path and the address. *)
Definition selectIdentifierCandidate (userId : string) (r : option UserIdentifierResolutionResponse) (candidateUserId : num) (ps : params)
    : string * params :=
  ("/users/" +:+ show_num candidateUserId, conflict_address (normalizedIdentifier userId) (absolutePosition r candidateUserId) ps).

(** What [navigateConflictPage] asks for: the identifier, its page and one per page. *)
Definition conflict_request (targetPage : Z) (ps : params) : option (string * Z * Z) :=
  if negb (truthy (conflictIdentifier ps)) || (targetPage <? 1) then None else Some (conflictIdentifier ps, targetPage, 1).

(** Its answer: where to navigate, or the message. *)
Definition conflict_answered (targetPage : Z) (r : UserIdentifierResolutionResponse) (ps : params) : string + string * params :=
  match res_status r, res_candidates r with
  | Ambiguous, c :: _ => inr ("/users/" +:+ show_num (cand_user_id c), conflict_address (conflictIdentifier ps) targetPage ps)
  | _, _ => inl "The requested conflicting profile is no longer available"
  end.

Record conflict_navigation := { cn_identifier : string; cn_page : Z; cn_total : Z; cn_loading : bool }.

Definition conflictNavigation (r : option UserIdentifierResolutionResponse) (loading pending : bool) (ps : params) : option conflict_navigation :=
  match r with
  | Some x => match res_status x with
              | Ambiguous => if 1 <? res_total x
                             then Some {| cn_identifier := conflictIdentifier ps; cn_page := conflictPage ps; cn_total := res_total x;
                                          cn_loading := loading || pending |}
                             else None
              | _ => None
              end
  | None => None
  end.

(** ** The versions of a profile *)

Record UserOverviewVersionData := {
  ov_description : string;
  ov_price : num;
  ov_media_count : num;
  ov_audio_count : num;
  ov_stream_count : num;
  ov_archived_post_count : num;
  ov_favourited_count : num;
  ov_subscribers_count : num;
  ov_location : option string;
  ov_website : option string;
  ov_sex : option num;
  ov_join_date : option string;
  ov_last_checked_at : option string;
  ov_downloaded_at : option string;
  ov_first_downloaded_at : option string;
  ov_created_at : option string
}.

Record UserOverviewVersion := { ov_key : string; ov_label : string; ov_createdAt : option string; ov_data : UserOverviewVersionData }.

Section html.
(** The text of an HTML document, with and without its scripts and styles. *)
Variable text_of_html text_of_body : string -> string.

Definition decodeHtmlEntities (v : string) : string := str_or (text_of_html v) v.

(** [stripHtml] of [utils/sanitize.ts]. *)
Definition stripHtml (html : option string) : string := match truthy_opt html with Some h => text_of_body h | None => EmptyString end.

Definition current_version (user : DetailedUserInfo) : UserOverviewVersion := {|
  ov_key := "current"; ov_label := "Current";
  ov_createdAt := match truthy_opt (u_last_checked_at user) with Some s => Some s | None => truthy_opt (u_created_at user) end;
  ov_data := {|
    ov_description := stripHtml (u_description user); ov_price := u_price user; ov_media_count := u_media_count user;
    ov_audio_count := u_audio_count user; ov_stream_count := u_stream_count user; ov_archived_post_count := u_archived_post_count user;
    ov_favourited_count := u_favourited_count user; ov_subscribers_count := u_subscribers_count user; ov_location := u_location user;
    ov_website := u_website user; ov_sex := Users.sex (u_identity user); ov_join_date := u_join_date user;
    ov_last_checked_at := u_last_checked_at user; ov_downloaded_at := u_downloaded_at user;
    ov_first_downloaded_at := u_first_downloaded_at user; ov_created_at := u_created_at user |} |}.

(** The snapshot at [index] of [count]. *)
Definition snapshot_version (user : DetailedUserInfo) (count index : nat) (s : HistoUserInfoItem) : UserOverviewVersion := {|
  ov_key := "history-" +:+ show_num (h_id s); ov_label := "Snapshot " +:+ show_Z (Z.of_nat count - Z.of_nat index); ov_createdAt := h_created_at s;
  ov_data := {|
    ov_description := stripHtml (h_about s); ov_price := h_price s; ov_media_count := h_media_count s;
    ov_audio_count := h_audio_count s; ov_stream_count := #0; ov_archived_post_count := h_archived_post_count s;
    ov_favourited_count := #0; ov_subscribers_count := h_subscriber_count s; ov_location := u_location user;
    ov_website := u_website user; ov_sex := Users.sex (u_identity user); ov_join_date := u_join_date user;
    ov_last_checked_at := h_created_at s; ov_downloaded_at := u_downloaded_at user;
    ov_first_downloaded_at := u_first_downloaded_at user; ov_created_at := h_created_at s |} |}.

Definition overviewVersions (user : option DetailedUserInfo) (historySnapshots : list HistoUserInfoItem) : list UserOverviewVersion :=
  match user with
  | None => []
  | Some u => current_version u :: imap (snapshot_version u (length historySnapshots)) historySnapshots
  end.

Definition profileDescription (user : option DetailedUserInfo) : string :=
  match user with Some u => stripHtml (u_description u) | None => EmptyString end.
Definition profileDisplayName (user : option DetailedUserInfo) : string :=
  match user with Some u => decodeHtmlEntities (truthy_opt (u_name u) ?? u_username u) | None => EmptyString end.
End html.

Definition activeOverviewVersion (index : Z) (versions : list UserOverviewVersion) : option UserOverviewVersion :=
  versions !! Z.to_nat (Z.min (Z.max index 0) (Z.max (Z.of_nat (length versions) - 1) 0)).
Definition hasOlderOverviewVersion (index : Z) (versions : list UserOverviewVersion) : bool := index <? Z.of_nat (length versions) - 1.
Definition hasNewerOverviewVersion (index : Z) : bool := 0 <? index.

(** ** Labels *)

Definition getProfileUrl (user : option DetailedUserInfo) : string :=
  match user with
  | Some u => if u_site u =s "onlyfans" then "https://onlyfans.com/" +:+ u_username u
              else if u_site u =s "fansly" then "https://fansly.com/" +:+ u_username u else "#"
  | None => "#"
  end.

Definition confirmedProfileSize (user : option DetailedUserInfo) : num := match user with Some u => u_size u | None => #0 end.
Definition estimatedProfileSize (user : option DetailedUserInfo) : num :=
  math_max ((user ?> u_estimated_size) ?? #0) (confirmedProfileSize user).
Definition resolvedProfileSize (user : option DetailedUserInfo) : num :=
  match user with
  | Some u => if confirmedProfileSize user >! #0 then confirmedProfileSize user
              else if num_truthy (u_display_size u) then u_display_size u else estimatedProfileSize user
  | None => #0
  end.
Definition is_estimated (user : option DetailedUserInfo) : bool := opt_eqb (u_size_source <$> user) "estimated".
Definition sizeLabel (user : option DetailedUserInfo) : string :=
  if confirmedProfileSize user >! #0 then "Size" else if is_estimated user then "Est. Size" else "Size".
Definition daily (user : option DetailedUserInfo) : string := (user ?> u_bucket_date) ?? "daily".
Definition sizeMeta (user : option DetailedUserInfo) : string :=
  if confirmedProfileSize user >! #0 then "Measured from saved media bytes"
  else if is_estimated user then "Estimated from " +:+ daily user +:+ " averages" else "No byte data available yet".
Definition showEstimatedProfileSize (user : option DetailedUserInfo) : bool := estimatedProfileSize user >! resolvedProfileSize user.
Definition estimatedSizeMeta (user : option DetailedUserInfo) : string :=
  if negb (showEstimatedProfileSize user) then "No expanded estimate available yet"
  else if confirmedProfileSize user >! #0 then "Confirmed bytes + " +:+ daily user +:+ " estimate"
  else "Estimated from " +:+ daily user +:+ " averages".

(** ** The observer of a refresh *)

Record observed := { profileKey : string; wasRefreshing : bool }.

Definition nothing_observed : observed := {| profileKey := EmptyString; wasRefreshing := false |}.

(** The effect: what is observed after it, and whether it has aliases and identifiers
    fetched again. [id] is [None] while the user is not known. *)
Definition observe_refresh (site : string) (id : option num) (is_refreshing : bool) (o : observed) : observed * bool :=
  match id with
  | None => (o, false)
  | Some n =>
      let key := site +:+ ":" +:+ show_num n in
      let o := if profileKey o =s key then o else {| profileKey := key; wasRefreshing := false |} in
      if is_refreshing then ({| profileKey := profileKey o; wasRefreshing := true |}, false)
      else if negb (wasRefreshing o) then (o, false)
      else ({| profileKey := profileKey o; wasRefreshing := false |}, true)
  end.

(** How often the profile is asked for again, in milliseconds. *)
Definition refetchInterval (d : option DetailedUserResponse) : option Z :=
  match d with
  | Some r => if dr_is_refreshing r then Some 1500 else if dr_is_stale r then Some 5000 else None
  | None => None
  end.

(** ** Aliases, accounts, paid content *)

Definition userAliases (aliases : option (list UserAliasItem)) (user : option DetailedUserInfo) : list UserAliasItem :=
  match aliases with
  | Some l => List.filter (fun a => truthy (alias_username a) && negb (opt_eqb (u_username <$> user) (alias_username a))) l
  | None => []
  end.

(** The first account in use, or the first. *)
Definition preferredProfileAuthId (auths : list AuthCredential) : option num :=
  match find_first a_active auths with
  | Some a => Some (a_id a)
  | None => a_id <$> head auths
  end.

Definition paidPreviewMediaCount (items : list ContentLibraryItem) : num := foldl (fun sum i => sum ⊕ c_media_count i) #0 items.

(** A user is on the watch list. [users] are the answer's: site, watched, username and id. *)
Definition is_watched (users : list (string * bool * option string * num)) (user : DetailedUserInfo) : bool :=
  some (fun '(site, watched, login, id) =>
          (site =s u_site user) && watched
          && ((((to_lower <$> login) ?? EmptyString) =s to_lower (u_username user)) || (id =! u_user_id user))) users.

(** ** The content of a user *)

Definition PAGE_SIZE : nat := 30.

Definition CONTENT_TYPES : list string := [EmptyString; "post"; "story"; "message"; "mass_message"].
Definition PAID_CONTENT_TYPES : list string := [EmptyString; "post"; "message"; "mass_message"].
Definition activeContentTypeOptions (tab : UserProfileTab) : list string := if decide (tab = Paid) then PAID_CONTENT_TYPES else CONTENT_TYPES.

(** A request for content under way; [request] is the parameters that are sent. *)
Record content_fetch := { request : list (string * string); pageNum : nat; append : bool }.

(** Filters are compared by reference: each change is a new object, with a new number. *)
Record content_state := {
  contentItems : list ContentLibraryItem;
  contentTotal : Z;
  contentPage : nat;
  contentLoading : bool;
  contentHasMore : bool;
  contentError : option string;
  contentType : string;
  contentSearch : string;
  contentSearchInput : string;
  search_timer : option string;
  contentSortBy : string;
  contentAscending : bool;
  contentAdvancedFilters : AdvancedFilterMap * nat;
  contentDraftAdvancedFilters : AdvancedFilterMap * nat;
  next_object : nat;
  contentFilterModalOpen : bool;
  buyingContentKey : option string;
  fetches : list content_fetch
}.

Definition new_content (ps : params) : content_state := {|
  contentItems := []; contentTotal := 0; contentPage := 1; contentLoading := false; contentHasMore := true; contentError := None;
  contentType := EmptyString; contentSearch := EmptyString; contentSearchInput := EmptyString; search_timer := None;
  contentSortBy := "created_at"; contentAscending := false; contentAdvancedFilters := (filtersFromSearchParams ps, 1%nat);
  contentDraftAdvancedFilters := (filtersFromSearchParams ps, 2%nat); next_object := 3; contentFilterModalOpen := false;
  buyingContentKey := None; fetches := [] |}.

Definition text_entry (k v : string) : list (string * string) := if truthy v then [(k, v)] else [].
Definition flags_entry (k : string) (l : list string) : list (string * string) := if (length l =? 0)%nat then [] else [(k, join "," l)].

(** [browseContentLibrary] of [api/content.ts] as [fetchContent] calls it. *)
Definition browse_params (site : string) (id : num) (tab : UserProfileTab) (c : content_state) (page : nat) : list (string * string) :=
  text_entry "site" site ++ text_entry "content_type" (contentType c) ++ (if num_truthy id then [("user_id", show_num id)] else [])
  ++ text_entry "search" (contentSearch c) ++ text_entry "sort_by" (contentSortBy c) ++ [("order", show_order (contentAscending c))]
  ++ flags_entry "include_flags" (effectiveContentIncludeFlags tab (contentAdvancedFilters c).1)
  ++ flags_entry "exclude_flags" (effectiveContentExcludeFlags tab (contentAdvancedFilters c).1)
  ++ [("page", show_count page); ("page_size", show_count PAGE_SIZE)].

Definition with_items (l : list ContentLibraryItem) (total : Z) (more : bool) (c : content_state) : content_state := {|
  contentItems := l; contentTotal := total; contentPage := contentPage c; contentLoading := contentLoading c;
  contentHasMore := more; contentError := contentError c; contentType := contentType c; contentSearch := contentSearch c;
  contentSearchInput := contentSearchInput c; search_timer := search_timer c; contentSortBy := contentSortBy c;
  contentAscending := contentAscending c; contentAdvancedFilters := contentAdvancedFilters c;
  contentDraftAdvancedFilters := contentDraftAdvancedFilters c; next_object := next_object c;
  contentFilterModalOpen := contentFilterModalOpen c; buyingContentKey := buyingContentKey c; fetches := fetches c |}.
Definition with_page (n : nat) (c : content_state) : content_state := {|
  contentItems := contentItems c; contentTotal := contentTotal c; contentPage := n; contentLoading := contentLoading c;
  contentHasMore := contentHasMore c; contentError := contentError c; contentType := contentType c;
  contentSearch := contentSearch c; contentSearchInput := contentSearchInput c; search_timer := search_timer c;
  contentSortBy := contentSortBy c; contentAscending := contentAscending c;
  contentAdvancedFilters := contentAdvancedFilters c; contentDraftAdvancedFilters := contentDraftAdvancedFilters c;
  next_object := next_object c; contentFilterModalOpen := contentFilterModalOpen c; buyingContentKey := buyingContentKey c;
  fetches := fetches c |}.
Definition with_loading (b : bool) (error : option string) (l : list content_fetch) (c : content_state) : content_state := {|
  contentItems := contentItems c; contentTotal := contentTotal c; contentPage := contentPage c; contentLoading := b;
  contentHasMore := contentHasMore c; contentError := error; contentType := contentType c; contentSearch := contentSearch c;
  contentSearchInput := contentSearchInput c; search_timer := search_timer c; contentSortBy := contentSortBy c;
  contentAscending := contentAscending c; contentAdvancedFilters := contentAdvancedFilters c;
  contentDraftAdvancedFilters := contentDraftAdvancedFilters c; next_object := next_object c;
  contentFilterModalOpen := contentFilterModalOpen c; buyingContentKey := buyingContentKey c; fetches := l |}.
Definition with_choice (type by_ : string) (asc : bool) (c : content_state) : content_state := {|
  contentItems := contentItems c; contentTotal := contentTotal c; contentPage := contentPage c;
  contentLoading := contentLoading c; contentHasMore := contentHasMore c; contentError := contentError c;
  contentType := type; contentSearch := contentSearch c; contentSearchInput := contentSearchInput c;
  search_timer := search_timer c; contentSortBy := by_; contentAscending := asc;
  contentAdvancedFilters := contentAdvancedFilters c; contentDraftAdvancedFilters := contentDraftAdvancedFilters c;
  next_object := next_object c; contentFilterModalOpen := contentFilterModalOpen c; buyingContentKey := buyingContentKey c;
  fetches := fetches c |}.
Definition with_search (text input : string) (timer : option string) (c : content_state) : content_state := {|
  contentItems := contentItems c; contentTotal := contentTotal c; contentPage := contentPage c;
  contentLoading := contentLoading c; contentHasMore := contentHasMore c; contentError := contentError c;
  contentType := contentType c; contentSearch := text; contentSearchInput := input; search_timer := timer;
  contentSortBy := contentSortBy c; contentAscending := contentAscending c;
  contentAdvancedFilters := contentAdvancedFilters c; contentDraftAdvancedFilters := contentDraftAdvancedFilters c;
  next_object := next_object c; contentFilterModalOpen := contentFilterModalOpen c; buyingContentKey := buyingContentKey c;
  fetches := fetches c |}.
Definition with_filters (applied drafted : AdvancedFilterMap * nat) (supply : nat) (is_open : bool) (c : content_state) : content_state := {|
  contentItems := contentItems c; contentTotal := contentTotal c; contentPage := contentPage c;
  contentLoading := contentLoading c; contentHasMore := contentHasMore c; contentError := contentError c;
  contentType := contentType c; contentSearch := contentSearch c; contentSearchInput := contentSearchInput c;
  search_timer := search_timer c; contentSortBy := contentSortBy c; contentAscending := contentAscending c;
  contentAdvancedFilters := applied; contentDraftAdvancedFilters := drafted; next_object := supply;
  contentFilterModalOpen := is_open; buyingContentKey := buyingContentKey c; fetches := fetches c |}.
Definition with_buying (key : option string) (c : content_state) : content_state := {|
  contentItems := contentItems c; contentTotal := contentTotal c; contentPage := contentPage c;
  contentLoading := contentLoading c; contentHasMore := contentHasMore c; contentError := contentError c;
  contentType := contentType c; contentSearch := contentSearch c; contentSearchInput := contentSearchInput c;
  search_timer := search_timer c; contentSortBy := contentSortBy c; contentAscending := contentAscending c;
  contentAdvancedFilters := contentAdvancedFilters c; contentDraftAdvancedFilters := contentDraftAdvancedFilters c;
  next_object := next_object c; contentFilterModalOpen := contentFilterModalOpen c; buyingContentKey := key;
  fetches := fetches c |}.

(** [fetchContent] up to its [await], called by the render that showed [shown]. *)
Definition fetchContent (site : string) (id : option num) (tab : UserProfileTab) (shown : content_state) (page : nat) (app : bool)
    (c : content_state) : content_state :=
  match id with
  | None => c
  | Some n => with_loading true None (fetches c ++ [{| request := browse_params site n tab shown page; pageNum := page; append := app |}]) c
  end.

(** The answer of request [f]; [inl] is an exception. *)
Definition content_answered (f : content_fetch) (r : string + ContentLibraryResponse) (c : content_state) : content_state :=
  let c := match r with
           | inl text => with_loading (contentLoading c) (Some text) (fetches c) c
           | inr d =>
               if cl_success d then
                 let loadedCount := Z.of_nat ((pageNum f - 1) * PAGE_SIZE + length (cl_content d)) in
                 with_items (if append f then contentItems c ++ cl_content d else cl_content d) (cl_total d)
                            ((length (cl_content d) =? PAGE_SIZE)%nat && (loadedCount <? cl_total d)) c
               else with_loading (contentLoading c) (Some (cl_error d ?? "Failed to load content")) (fetches c) c
           end in
  with_loading false (contentError c) (fetches c) c.

(** The answer of request [i]. *)
Definition content_answer (i : nat) (r : string + ContentLibraryResponse) (c : content_state) : content_state :=
  match fetches c !! i with
  | Some f => content_answered f r (with_loading (contentLoading c) (contentError c) (delete i (fetches c)) c)
  | None => c
  end.

(** The end of the list comes into view. *)
Definition load_more_content (site : string) (id : option num) (tab : UserProfileTab) (c : content_state) : content_state :=
  if contentHasMore c && negb (contentLoading c) then
    fetchContent site id tab c (S (contentPage c)) true (with_page (S (contentPage c)) c)
  else c.

Definition handleSearchInput (v : string) (c : content_state) : content_state := with_search (contentSearch c) v (Some v) c.
Definition search_timer_fires (c : content_state) : content_state :=
  match search_timer c with Some v => with_search v (contentSearchInput c) None c | None => c end.

Definition openContentFilters (c : content_state) : content_state :=
  with_filters (contentAdvancedFilters c) (contentAdvancedFilters c) (next_object c) true c.
Definition setContentDraftFilterState (key : string) (s : UserFilterState) (c : content_state) : content_state :=
  with_filters (contentAdvancedFilters c) (JMap.set key s (contentDraftAdvancedFilters c).1, next_object c) (S (next_object c))
               (contentFilterModalOpen c) c.
Definition applyContentFilters (c : content_state) : content_state :=
  with_filters (contentDraftAdvancedFilters c) (contentDraftAdvancedFilters c) (next_object c) false c.
(** The defaults are one object, with the number 0. *)
Definition clearContentDraftFilters (c : content_state) : content_state :=
  with_filters (contentAdvancedFilters c) (DEFAULT_ADVANCED_FILTERS, 0%nat) (next_object c) (contentFilterModalOpen c) c.

Definition content_key (i : ContentLibraryItem) : string := c_content_type i +:+ "-" +:+ show_num (c_id i) +:+ "-" +:+ c_site i.

(** ** The page's state *)

(** The accounts of the user, with the state of their query; lists are compared by
    reference, and each has its number. *)
Record auth_query := { profileAuths : list AuthCredential; profileAuthsObject : nat; profileAuthsFetched : bool; profileAuthsError : bool }.

(** The tab of subscriptions: its search and dialogs, over [SubscriptionsPage]; no account
    is [None] in the search, whose site is the user's. *)
Record subs_state := {
  squery : search;
  sdraft : filter_draft;
  sfiltersOpen : bool;
  sloadoutOpen : bool;
  sloadoutInput : string;
  sdefaultApplied : bool;
  sloadoutsFetched : bool;
  sloadouts : option SearchLoadoutsResponse
}.

Inductive ScrapeDispatchMode := Local | Delegate.

Record actions := {
  authPickerOpen : bool;
  eligibleAuths : list EligibleAuth;
  authPickerLoading : bool;
  pendingScrapeAction : option ScrapeDispatchMode;
  editModalOpen : bool;
  sexModalOpen : bool;
  editName : string;
  editAlias : string;
  editDescription : string;
  identity : IdentityDraft
}.

(** A step of a delegated job. *)
Record delegated_task := {
  dt_kind : string;
  dt_alias : string;
  dt_depends_on : list string;
  dt_site_name : string;
  dt_user_id : num;
  dt_username : string;
  dt_content_type : string;
  dt_rescrape : bool
}.
Record delegated_payload := { dp_job_name : string; dp_site : string; dp_user_id : num; dp_username : string; dp_auth_id : num; dp_tasks : list delegated_task }.

Record order_request := {
  or_site : string;
  or_user_id : num;
  or_username : option string;
  or_price : option num;
  or_post : option (num * string);
  or_auto_execute : bool
}.

(** What the page asks the backend; a callback of a mutation reads the page as it is
    when the answer comes, a function that awaits the user it was called with. *)
Inductive call :=
| RefreshProfile
| DeleteAlias (id : num)
| CreateJob (job_name : string) (tasks : list TaskPayload)
| DelegateJob (pluginId : string) (payload : delegated_payload)
| Subscribe (r : order_request)
| SetFavorite (favorite : bool)
| SetWatch (u : DetailedUserInfo) (nextWatched : bool)
| UpdateProfile (payload : fields)
| OrderContent (item : ContentLibraryItem) (r : order_request)
| FetchAuths (u : DetailedUserInfo) (mode : ScrapeDispatchMode)
| FetchConflict (targetPage : Z) (ps : params)
| SaveLoadout (n : string) (item : SearchLoadoutItem)
| SetDefaultLoadout (n : string)
| ClearDefaultLoadout
| DeleteLoadout (n : string)
| LoadoutsRefetch (text : string).

(** An answer: [RFailed] is an exception; the others hold the fields that are read. *)
Inductive reply :=
| RFailed (text : string)
| RDone
| RRefresh (accepted : bool) (error : option string)
| RAlias (success : bool) (error : option string)
| RJob (job_name : string)
| RDelegated (submitted : bool) (last_error : option string) (external_id correlation : string)
| ROrder (success : bool) (completed : bool) (username error : option string)
| RFavorite (favorite : bool)
| RWatch (watched : bool) (message : option string)
| RAuths (auths : list EligibleAuth) (error : option string)
| RConflict (r : UserIdentifierResolutionResponse).

(** What the effects last ran for; [None] before they ran. *)
Record content_deps := {
  cd_site : string;
  cd_id : option num;
  cd_type : string;
  cd_search : string;
  cd_sort : string;
  cd_ascending : bool;
  cd_filters : nat;
  cd_tab : UserProfileTab
}.
Record dependencies := {
  seen_tab : option (UserProfileTab * string);
  seen_auths : option (list AuthCredential * nat);
  seen_versions : option (string * option num * nat);
  seen_content : option content_deps
}.

#[local] Instance num_eq_dec : EqDecision num.
Proof. unfold EqDecision, Decision, num. decide equality; (apply Pos.eq_dec || apply Z.eq_dec || apply bool_dec). Defined.
#[local] Instance auth_eq_dec : EqDecision AuthCredential.
Proof. solve_decision. Defined.
#[local] Instance content_deps_eq_dec : EqDecision content_deps.
Proof. solve_decision. Defined.

(** The route and the queries' data. *)
Record route := { path_id : string; address : params }.
Record queries := {
  identifiers : option UserIdentifierResolutionResponse;
  profileData : option DetailedUserResponse;
  auths : auth_query;
  historySnapshots : list HistoUserInfoItem;
  watched : bool
}.

Record page := {
  at_route : route;
  activeTab : UserProfileTab;
  data : queries;
  content : content_state;
  subs : subs_state;
  acts : actions;
  refresh : observed;
  overviewVersionIndex : Z;
  conflictNavigationPending : bool;
  seen : dependencies;
  toast : option (string * toast_type);
  toast_timer : bool;
  inflight : list call;
  invalidated : list string
}.

Definition new_search : search := {|
  selectedSite := EmptyString; selectedAuthId := None; searchTerm := EmptyString; searchQuery := EmptyString; activeOnly := true;
  minPrice := EmptyString; maxPrice := EmptyString; sexFilter := []; orderBy := "username"; ascending := true;
  selectedLoadoutName := EmptyString |}.

Definition new_page (id : string) (ps : params) (d : queries) (loadouts : option SearchLoadoutsResponse) : page := {|
  at_route := {| path_id := id; address := ps |}; activeTab := requestedTab ps; data := d; content := new_content ps;
  subs := {| squery := new_search; sdraft := cleared_draft; sfiltersOpen := false; sloadoutOpen := false; sloadoutInput := EmptyString;
             sdefaultApplied := false; sloadoutsFetched := match loadouts with Some _ => true | None => false end; sloadouts := loadouts |};
  acts := {| authPickerOpen := false; eligibleAuths := []; authPickerLoading := false; pendingScrapeAction := None; editModalOpen := false;
             sexModalOpen := false; editName := EmptyString; editAlias := EmptyString; editDescription := EmptyString;
             identity := EMPTY_IDENTITY_DRAFT |};
  refresh := nothing_observed; overviewVersionIndex := 0; conflictNavigationPending := false;
  seen := {| seen_tab := None; seen_auths := None; seen_versions := None; seen_content := None |};
  toast := None; toast_timer := false; inflight := []; invalidated := [] |}.

(** One setter per group of states that change together. *)
Definition set_route (r : route) (p : page) : page := {|
  at_route := r; activeTab := activeTab p; data := data p; content := content p; subs := subs p; acts := acts p;
  refresh := refresh p; overviewVersionIndex := overviewVersionIndex p;
  conflictNavigationPending := conflictNavigationPending p; seen := seen p; toast := toast p; toast_timer := toast_timer p;
  inflight := inflight p; invalidated := invalidated p |}.
Definition setActiveTab (t : UserProfileTab) (p : page) : page := {|
  at_route := at_route p; activeTab := t; data := data p; content := content p; subs := subs p; acts := acts p;
  refresh := refresh p; overviewVersionIndex := overviewVersionIndex p;
  conflictNavigationPending := conflictNavigationPending p; seen := seen p; toast := toast p; toast_timer := toast_timer p;
  inflight := inflight p; invalidated := invalidated p |}.
Definition set_data (d : queries) (p : page) : page := {|
  at_route := at_route p; activeTab := activeTab p; data := d; content := content p; subs := subs p; acts := acts p;
  refresh := refresh p; overviewVersionIndex := overviewVersionIndex p;
  conflictNavigationPending := conflictNavigationPending p; seen := seen p; toast := toast p; toast_timer := toast_timer p;
  inflight := inflight p; invalidated := invalidated p |}.
Definition set_content (c : content_state) (p : page) : page := {|
  at_route := at_route p; activeTab := activeTab p; data := data p; content := c; subs := subs p; acts := acts p;
  refresh := refresh p; overviewVersionIndex := overviewVersionIndex p;
  conflictNavigationPending := conflictNavigationPending p; seen := seen p; toast := toast p; toast_timer := toast_timer p;
  inflight := inflight p; invalidated := invalidated p |}.
Definition set_subs (s : subs_state) (p : page) : page := {|
  at_route := at_route p; activeTab := activeTab p; data := data p; content := content p; subs := s; acts := acts p;
  refresh := refresh p; overviewVersionIndex := overviewVersionIndex p;
  conflictNavigationPending := conflictNavigationPending p; seen := seen p; toast := toast p; toast_timer := toast_timer p;
  inflight := inflight p; invalidated := invalidated p |}.
Definition set_acts (a : actions) (p : page) : page := {|
  at_route := at_route p; activeTab := activeTab p; data := data p; content := content p; subs := subs p; acts := a;
  refresh := refresh p; overviewVersionIndex := overviewVersionIndex p;
  conflictNavigationPending := conflictNavigationPending p; seen := seen p; toast := toast p; toast_timer := toast_timer p;
  inflight := inflight p; invalidated := invalidated p |}.
Definition set_refresh (o : observed) (p : page) : page := {|
  at_route := at_route p; activeTab := activeTab p; data := data p; content := content p; subs := subs p; acts := acts p;
  refresh := o; overviewVersionIndex := overviewVersionIndex p; conflictNavigationPending := conflictNavigationPending p;
  seen := seen p; toast := toast p; toast_timer := toast_timer p; inflight := inflight p; invalidated := invalidated p |}.
Definition setOverviewVersionIndex (i : Z) (p : page) : page := {|
  at_route := at_route p; activeTab := activeTab p; data := data p; content := content p; subs := subs p; acts := acts p;
  refresh := refresh p; overviewVersionIndex := i; conflictNavigationPending := conflictNavigationPending p; seen := seen p;
  toast := toast p; toast_timer := toast_timer p; inflight := inflight p; invalidated := invalidated p |}.
Definition setConflictNavigationPending (b : bool) (p : page) : page := {|
  at_route := at_route p; activeTab := activeTab p; data := data p; content := content p; subs := subs p; acts := acts p;
  refresh := refresh p; overviewVersionIndex := overviewVersionIndex p; conflictNavigationPending := b; seen := seen p;
  toast := toast p; toast_timer := toast_timer p; inflight := inflight p; invalidated := invalidated p |}.
Definition set_seen (d : dependencies) (p : page) : page := {|
  at_route := at_route p; activeTab := activeTab p; data := data p; content := content p; subs := subs p; acts := acts p;
  refresh := refresh p; overviewVersionIndex := overviewVersionIndex p;
  conflictNavigationPending := conflictNavigationPending p; seen := d; toast := toast p; toast_timer := toast_timer p;
  inflight := inflight p; invalidated := invalidated p |}.
Definition set_toast (t : option (string * toast_type)) (timer : bool) (p : page) : page := {|
  at_route := at_route p; activeTab := activeTab p; data := data p; content := content p; subs := subs p; acts := acts p;
  refresh := refresh p; overviewVersionIndex := overviewVersionIndex p;
  conflictNavigationPending := conflictNavigationPending p; seen := seen p; toast := t; toast_timer := timer;
  inflight := inflight p; invalidated := invalidated p |}.
Definition set_traffic (calls : list call) (stale : list string) (p : page) : page := {|
  at_route := at_route p; activeTab := activeTab p; data := data p; content := content p; subs := subs p; acts := acts p;
  refresh := refresh p; overviewVersionIndex := overviewVersionIndex p;
  conflictNavigationPending := conflictNavigationPending p; seen := seen p; toast := toast p; toast_timer := toast_timer p;
  inflight := calls; invalidated := stale |}.

Definition send (c : call) (p : page) : page := set_traffic (inflight p ++ [c]) (invalidated p) p.
Definition invalidate (keys : list string) (p : page) : page := set_traffic (inflight p) (invalidated p ++ keys) p.
(** A new message takes the earlier one's timer. *)
Definition showToast (text : string) (t : toast_type) (p : page) : page := set_toast (Some (text, t)) true p.

(** ** What the hook derives *)

Definition site (p : page) : string := site_of (address (at_route p)).
Definition user (p : page) : option DetailedUserInfo := profileData (data p) ?> dr_user.
Definition resolved (p : page) : option num := resolvedNumericUserId (identifiers (data p)).
Definition accounts (p : page) : list AuthCredential := profileAuths (auths (data p)).
Definition hasSubscriptionsTab (p : page) : bool := negb (length (accounts p) =? 0)%nat.
Definition selectedProfileAuthId (p : page) : option num := selectedAuthId (squery (subs p)).
Definition selectedProfileAuth (p : page) : option AuthCredential :=
  selectedProfileAuthId p ?> fun id => find_first (fun a => a_id a =! id) (accounts p).

Definition tab_deps (p : page) : UserProfileTab * string := (requestedTab (address (at_route p)), path_id (at_route p)).
Definition auth_deps (p : page) : list AuthCredential * nat := (accounts p, profileAuthsObject (auths (data p))).
Definition version_deps (p : page) : string * option num * nat := (site p, resolved p, length (historySnapshots (data p))).
Definition current_content (p : page) : content_deps := {|
  cd_site := site p; cd_id := resolved p; cd_type := contentType (content p); cd_search := contentSearch (content p);
  cd_sort := contentSortBy (content p); cd_ascending := contentAscending (content p);
  cd_filters := (contentAdvancedFilters (content p)).2; cd_tab := activeTab p |}.

Definition content_tab (t : UserProfileTab) : bool := bool_decide (t = Content \/ t = Paid).

(** ** The effects after a render: [r] is the page that was rendered *)

Definition tab_effect (r p : page) : page :=
  if bool_decide (seen_tab (seen p) = Some (tab_deps r)) then p
  else setActiveTab (tab_deps r).1
         (set_seen {| seen_tab := Some (tab_deps r); seen_auths := seen_auths (seen p); seen_versions := seen_versions (seen p);
                      seen_content := seen_content (seen p) |} p).

Definition refresh_effect (r p : page) : page :=
  let refreshing := match profileData (data r) with Some d => dr_is_refreshing d | None => false end in
  let (o, ended) := observe_refresh (site r) (resolved r) refreshing (refresh p) in
  let p := set_refresh o p in
  if ended then invalidate ["user-aliases"; "user-profile-identifier-resolution"] p else p.

Definition set_params (ps : params) (p : page) : page := set_route {| path_id := path_id (at_route p); address := ps |} p.

Definition filters_effect (r p : page) : page :=
  let next := filters_address (contentAdvancedFilters (content r)).1 (address (at_route r)) in
  if bool_decide (next = address (at_route r)) then p else set_params next p.

Definition set_search (q : search) (p : page) : page :=
  let s := subs p in
  set_subs {| squery := q; sdraft := sdraft s; sfiltersOpen := sfiltersOpen s; sloadoutOpen := sloadoutOpen s; sloadoutInput := sloadoutInput s;
              sdefaultApplied := sdefaultApplied s; sloadoutsFetched := sloadoutsFetched s; sloadouts := sloadouts s |} p.

Definition with_auth (id : option num) (q : search) : search := {|
  selectedSite := selectedSite q; selectedAuthId := id; searchTerm := searchTerm q; searchQuery := searchQuery q; activeOnly := activeOnly q;
  minPrice := minPrice q; maxPrice := maxPrice q; sexFilter := sexFilter q; orderBy := orderBy q; ascending := ascending q;
  selectedLoadoutName := selectedLoadoutName q |}.

(** The account that stays selected when the accounts change. *)
Definition kept_auth (l : list AuthCredential) (current : option num) : option num :=
  match current with
  | Some id => if some (fun a => a_id a =! id) l then current else preferredProfileAuthId l
  | None => preferredProfileAuthId l
  end.

Definition auth_effect (r p : page) : page :=
  if bool_decide (seen_auths (seen p) = Some (auth_deps r)) then p
  else set_search (with_auth (kept_auth (accounts r) (selectedProfileAuthId p)) (squery (subs p)))
         (set_seen {| seen_tab := seen_tab (seen p); seen_auths := Some (auth_deps r); seen_versions := seen_versions (seen p);
                      seen_content := seen_content (seen p) |} p).

(** There is no tab of subscriptions without accounts. *)
Definition no_accounts (p : page) : bool :=
  profileAuthsFetched (auths (data p)) && negb (profileAuthsError (auths (data p))) && negb (hasSubscriptionsTab p).
Definition redirect_effect (r p : page) : page :=
  if bool_decide (activeTab r = SubscriptionsTab) && no_accounts r
  then set_params (tab_address Overview (address (at_route r))) (setActiveTab Overview p)
  else p.

Definition paid_type_effect (r p : page) : page :=
  if bool_decide (activeTab r = Paid) && negb (str_in (contentType (content r)) PAID_CONTENT_TYPES)
  then set_content (with_choice EmptyString (contentSortBy (content p)) (contentAscending (content p)) (content p)) p
  else p.

(** [applyProfileSubscriptionsLoadout]; a loadout without an account selects none. *)
Definition profile_loadout (l : SearchLoadoutItem) (q : search) : search :=
  let f key := prop key (filters l) in
  {| selectedSite := selectedSite q;
     selectedAuthId := match as_num (f "auth_id") with Some n => if is_integer n then Some n else None | None => None end;
     searchTerm := identifier l;
     searchQuery := identifier l;
     activeOnly := match f "active_only" with Some (VBool b) => b | _ => true end;
     minPrice := price_text (f "min_price") ??
                 match f "hide_free_subscriptions" with Some (VBool true) => "0.01" | _ => EmptyString end;
     maxPrice := price_text (f "max_price") ?? EmptyString;
     sexFilter := int_list (f "sex") [#0; #1; #2];
     orderBy := as_str (f "order_by") ?? "username";
     ascending := negb (is_text (f "order_dir") "desc");
     selectedLoadoutName := selectedLoadoutName q |}.
Definition applyProfileSubscriptionsLoadout (l : SearchLoadoutItem) (p : page) : page := set_search (profile_loadout l (squery (subs p))) p.

Definition set_default_applied (p : page) : page :=
  let s := subs p in
  set_subs {| squery := squery s; sdraft := sdraft s; sfiltersOpen := sfiltersOpen s; sloadoutOpen := sloadoutOpen s; sloadoutInput := sloadoutInput s;
              sdefaultApplied := true; sloadoutsFetched := sloadoutsFetched s; sloadouts := sloadouts s |} p.

Definition loadout_effect (r p : page) : page :=
  if sdefaultApplied (subs r) || negb (sloadoutsFetched (subs r)) then p
  else set_default_applied
         match sloadouts (subs r) ?> fun d => truthy_opt (default_name d) ?> fun n => find_loadout n d with
         | Some l => let p := applyProfileSubscriptionsLoadout (loadout_item l) p in set_search (named (loadout_name l) (squery (subs p))) p
         | None => p
         end.

Definition versions_effect (r p : page) : page :=
  if bool_decide (seen_versions (seen p) = Some (version_deps r)) then p
  else setOverviewVersionIndex 0
         (set_seen {| seen_tab := seen_tab (seen p); seen_auths := seen_auths (seen p); seen_versions := Some (version_deps r);
                      seen_content := seen_content (seen p) |} p).

Definition content_effect (r p : page) : page :=
  if bool_decide (seen_content (seen p) = Some (current_content r)) then p
  else
    let p := set_seen {| seen_tab := seen_tab (seen p); seen_auths := seen_auths (seen p); seen_versions := seen_versions (seen p);
                         seen_content := Some (current_content r) |} p in
    if content_tab (activeTab r) then
      let c := with_page 1 (content p) in
      set_content match resolved r with
                  | None => with_items [] 0 false c
                  | id => fetchContent (site r) id (activeTab r) (content r) 1 false (with_items (contentItems c) (contentTotal c) true c)
                  end p
    else p.

(** One render's effects, in the order of the hook. *)
Definition commit (r : page) : page :=
  content_effect r (versions_effect r (loadout_effect r (paid_type_effect r (redirect_effect r (auth_effect r
    (filters_effect r (refresh_effect r (tab_effect r r)))))))).

(** Renders until nothing changes. *)
Definition settle (p : page) : page := Nat.iter 5 commit p.

(** ** Tabs and routes *)

Definition setTabInQuery (t : UserProfileTab) (p : page) : page := set_params (tab_address t (address (at_route p))) p.
Definition handleTabClick (t : UserProfileTab) (p : page) : page := setTabInQuery t (setActiveTab t p).
Definition openPaidTab (p : page) : page := setTabInQuery Paid (setActiveTab Paid p).

(** Another route, from a link, the browser's history or one of the page's own. *)
Definition navigated (id : string) (ps : params) (p : page) : page := set_route {| path_id := id; address := ps |} p.

Definition select_candidate (candidateUserId : num) (p : page) : page :=
  let '(path, ps) := selectIdentifierCandidate (path_id (at_route p)) (identifiers (data p)) candidateUserId (address (at_route p)) in
  navigated (show_num candidateUserId) ps p.

Definition navigateConflictPage (targetPage : Z) (p : page) : page :=
  match conflict_request targetPage (address (at_route p)) with
  | Some _ => send (FetchConflict targetPage (address (at_route p))) (setConflictNavigationPending true p)
  | None => p
  end.

(** ** Scraping *)

Definition scrape_task (u : DetailedUserInfo) (auth : option num) : TaskPayload :=
  {| task_site := u_site u; task_username := u_username u; task_auth := auth |}.
Definition buildScrapeTask (auth : option num) (p : page) : option TaskPayload := (fun u => scrape_task u auth) <$> user p.

Definition job_name (login site : string) : string := "Scrape + Download @" +:+ login +:+ " (" +:+ site +:+ ")".

Definition is_lower_letter (c : Ascii.ascii) : bool := (97 <=? Ascii.nat_of_ascii c)%nat && (Ascii.nat_of_ascii c <=? 122)%nat.

(** [contentType.toLowerCase().replace(/[^a-z0-9]+/g, '_')] *)
Fixpoint underscored (in_gap : bool) (s : string) : string :=
  match s with
  | String c r => if is_lower_letter c || is_digit c then String c (underscored false r)
                  else if in_gap then underscored true r else String "_" (underscored true r)
  | EmptyString => EmptyString
  end.
Definition aliasSuffix (contentType : string) : string := underscored false (to_lower contentType).

Definition SCRAPED_CONTENT : list string := ["Posts"; "ArchivedPosts"; "Messages"; "Stories"; "Highlights"; "Profile"].

Definition delegated_pair (siteName : string) (u : DetailedUserInfo) (contentType : string) : list delegated_task :=
  let scrapeAlias := "scrape_" +:+ aliasSuffix contentType in
  [{| dt_kind := "scrape"; dt_alias := scrapeAlias; dt_depends_on := []; dt_site_name := siteName; dt_user_id := u_user_id u;
      dt_username := u_username u; dt_content_type := contentType; dt_rescrape := true |};
   {| dt_kind := "download"; dt_alias := "download_" +:+ aliasSuffix contentType; dt_depends_on := [scrapeAlias]; dt_site_name := siteName;
      dt_user_id := u_user_id u; dt_username := u_username u; dt_content_type := contentType; dt_rescrape := false |}].

Definition delegated_workflow (authId : num) (u : DetailedUserInfo) : delegated_payload :=
  let siteName := if u_site u =s "onlyfans" then "OnlyFans" else if u_site u =s "fansly" then "Fansly" else u_site u in
  {| dp_job_name := job_name (u_username u) (u_site u); dp_site := u_site u; dp_user_id := u_user_id u; dp_username := u_username u;
     dp_auth_id := authId; dp_tasks := flat_map (delegated_pair siteName u) SCRAPED_CONTENT |}.
Definition buildDelegatedWorkflowPayload (authId : num) (p : page) : option delegated_payload := delegated_workflow authId <$> user p.

Definition set_picker (is_open loading : bool) (l : list EligibleAuth) (pending : option ScrapeDispatchMode) (p : page) : page :=
  let a := acts p in
  set_acts {| authPickerOpen := is_open; eligibleAuths := l; authPickerLoading := loading; pendingScrapeAction := pending;
              editModalOpen := editModalOpen a; sexModalOpen := sexModalOpen a; editName := editName a; editAlias := editAlias a;
              editDescription := editDescription a; identity := identity a |} p.
Definition setPendingScrapeAction (m : option ScrapeDispatchMode) (p : page) : page :=
  let a := acts p in set_picker (authPickerOpen a) (authPickerLoading a) (eligibleAuths a) m p.
Definition setAuthPickerLoading (b : bool) (p : page) : page :=
  let a := acts p in set_picker (authPickerOpen a) b (eligibleAuths a) (pendingScrapeAction a) p.
Definition closeAuthPicker (p : page) : page :=
  let a := acts p in set_picker false (authPickerLoading a) (eligibleAuths a) None p.

(** The dispatchers with the user of the render that called them. *)
Definition dispatch_job (u : DetailedUserInfo) (auth : option num) (p : page) : page :=
  closeAuthPicker (send (CreateJob (job_name (u_username u) (u_site u)) [scrape_task u auth]) p).
Definition dispatch_delegated (u : DetailedUserInfo) (authId : num) (p : page) : page :=
  closeAuthPicker (send (DelegateJob "usweb-remote" (delegated_workflow authId u)) p).
Definition dispatch (mode : ScrapeDispatchMode) (u : DetailedUserInfo) (authId : num) (p : page) : page :=
  match mode with Delegate => dispatch_delegated u authId p | Local => dispatch_job u (Some authId) p end.

Definition handleAuthSelection (authId : num) (p : page) : page :=
  match user p with
  | Some u => dispatch match pendingScrapeAction (acts p) with Some Delegate => Delegate | _ => Local end u authId p
  | None => p
  end.

(** Up to its [await]. *)
Definition openScrapeAuthPicker (mode : ScrapeDispatchMode) (p : page) : page :=
  match user p with
  | Some u => send (FetchAuths u mode) (setAuthPickerLoading true (setPendingScrapeAction (Some mode) p))
  | None => p
  end.

Definition auths_answered (u : DetailedUserInfo) (mode : ScrapeDispatchMode) (r : reply) (p : page) : page :=
  setAuthPickerLoading false
    match r with
    | RAuths l error =>
        match truthy_opt error, l with
        | Some text, _ => setPendingScrapeAction None (showToast text ToastError p)
        | None, [] =>
            setPendingScrapeAction None
              (showToast ("No auth account with subscription history found for @" +:+ u_username u
                          +:+ ". Add or sync an auth that has subscribed before, then run Scrape + Download.") ToastError p)
        | None, [a] => dispatch mode u (auth_id a) p
        | None, l => let a := acts p in set_picker true (authPickerLoading a) l (pendingScrapeAction a) p
        end
    | RFailed text => setPendingScrapeAction None (showToast ("Failed to fetch eligible auths: " +:+ text) ToastError p)
    | _ => p
    end.

Definition handleScrapeSubscription (s : SubscriptionInfo) (p : page) : page :=
  match selectedProfileAuthId p with
  | None => showToast "Select an auth account before scraping subscriptions." ToastError p
  | Some id =>
      match truthy_opt (username s) with
      | None => showToast ("Subscription #" +:+ show_num (user_id s) +:+ " has no username to scrape.") ToastError p
      | Some login => send (CreateJob (job_name login (sub_site s)) [{| task_site := sub_site s; task_username := login; task_auth := Some id |}]) p
      end
  end.

(** ** Orders, favourite, watching, aliases *)

Definition handleSubscribe (p : page) : page :=
  match user p with
  | Some u => send (Subscribe {| or_site := u_site u; or_user_id := u_user_id u; or_username := Some (u_username u);
                                 or_price := Some (u_price u); or_post := None; or_auto_execute := false |}) p
  | None => p
  end.

Definition pending (f : call -> bool) (p : page) : bool := some f (inflight p).

Definition handleToggleFavorite (p : page) : page :=
  match user p with
  | Some u => if pending (fun c => match c with SetFavorite _ => true | _ => false end) p then p else send (SetFavorite (negb (u_favorite u))) p
  | None => p
  end.
Definition handleToggleWatch (p : page) : page :=
  match user p with
  | Some u => if pending (fun c => match c with SetWatch _ _ => true | _ => false end) p then p else send (SetWatch u (negb (watched (data p)))) p
  | None => p
  end.

(** [confirmed] is the answer of [window.confirm]. *)
Definition handleRemoveAlias (a : UserAliasItem) (confirmed : bool) (p : page) : page :=
  if pending (fun c => match c with DeleteAlias _ => true | _ => false end) p then p
  else if confirmed then send (DeleteAlias (alias_id a)) p else p.

Definition order_of (item : ContentLibraryItem) (u : option DetailedUserInfo) : order_request := {|
  or_site := c_site item; or_user_id := c_user_id item; or_username := c_username item;
  or_price := if c_price item >! #0 then Some (c_price item) else u_price <$> u;
  or_post := Some (c_id item, c_content_type item); or_auto_execute := false |}.

Definition handleBuyLockedContent (item : ContentLibraryItem) (p : page) : page :=
  send (OrderContent item (order_of item (user p))) (set_content (with_buying (Some (content_key item)) (content p)) p).

(** ** Editing *)

Definition set_edit (edit_open sex_open : bool) (name alias description : string) (d : IdentityDraft) (p : page) : page :=
  let a := acts p in
  set_acts {| authPickerOpen := authPickerOpen a; eligibleAuths := eligibleAuths a; authPickerLoading := authPickerLoading a;
              pendingScrapeAction := pendingScrapeAction a; editModalOpen := edit_open; sexModalOpen := sex_open; editName := name;
              editAlias := alias; editDescription := description; identity := d |} p.

Definition openEditModal (p : page) : page :=
  match user p with
  | Some u =>
      let a := acts p in
      let fromUser := identityDraftFromUser (u_identity u) in
      let d := identity a in
      set_edit true (sexModalOpen a) (u_name u ?? EmptyString) EmptyString (u_description u ?? EmptyString)
        {| profileType := profileType d; sexualContent := sexualContent d; dr_sex := dr_sex fromUser; dr_gender := dr_gender fromUser;
           partnerSex := partnerSex d; partnerGender := partnerGender d |} p
  | None => p
  end.

Definition openSexModal (p : page) : page :=
  match user p with
  | Some u => let a := acts p in
              set_edit (editModalOpen a) true (editName a) (editAlias a) (editDescription a) (identityDraftFromUser (u_identity u)) p
  | None => p
  end.

Definition opt_num (o : option num) : value := match o with Some n => VNum n | None => VNull end.
Definition opt_str (o : option string) : value := match o with Some s => VStr s | None => VNull end.

Definition handleSaveUserEdit (p : page) : page :=
  let a := acts p in
  match parseIdentityDraft {| profileType := EmptyString; sexualContent := EmptyString; dr_sex := dr_sex (identity a); dr_gender := dr_gender (identity a);
                              partnerSex := EmptyString; partnerGender := EmptyString |} with
  | inl error => showToast error ToastError p
  | inr v => send (UpdateProfile [("name", text_or_null (trim (editName a))); ("alias", text_or_null (trim (editAlias a)));
                                  ("description", text_or_null (trim (editDescription a))); ("sex", opt_num (Users.sex v));
                                  ("gender", opt_num (gender v))]) p
  end.

Definition handleSaveSex (p : page) : page :=
  match parseIdentityDraft (identity (acts p)) with
  | inl error => showToast error ToastError p
  | inr v => send (UpdateProfile [("name", opt_str (user p ?> u_name)); ("alias", VNull); ("description", opt_str (user p ?> u_description));
                                  ("sex", opt_num (Users.sex v)); ("gender", opt_num (gender v)); ("profile_type", opt_num (profile_type v));
                                  ("sexual_content", opt_num (sexual_content v)); ("partner_sex", opt_num (partner_sex v));
                                  ("partner_gender", opt_num (partner_gender v)); ("ai_assisted", VBool false); ("verified", VBool true)]) p
  end.

(** ** The tab of subscriptions *)

Definition set_dialogs (filters_open loadout_open : bool) (input : string) (d : filter_draft) (p : page) : page :=
  let s := subs p in
  set_subs {| squery := squery s; sdraft := d; sfiltersOpen := filters_open; sloadoutOpen := loadout_open; sloadoutInput := input;
              sdefaultApplied := sdefaultApplied s; sloadoutsFetched := sloadoutsFetched s; sloadouts := sloadouts s |} p.

(** The search as it is sent: the user's site. *)
Definition subscriptions_search (p : page) : search :=
  let q := squery (subs p) in
  {| selectedSite := match user p with Some u => u_site u | None => EmptyString end; selectedAuthId := selectedAuthId q;
     searchTerm := searchTerm q; searchQuery := searchQuery q; activeOnly := activeOnly q; minPrice := minPrice q; maxPrice := maxPrice q;
     sexFilter := sexFilter q; orderBy := orderBy q; ascending := ascending q; selectedLoadoutName := selectedLoadoutName q |}.

Definition subscriptions_enabled (p : page) : bool :=
  bool_decide (activeTab p = SubscriptionsTab) && match selectedProfileAuthId p with Some _ => true | None => false end
  && match user p with Some u => truthy (u_site u) | None => false end.

Definition subscriptions_request (offset : Z) (p : page) : option (list (string * string)) :=
  if subscriptions_enabled p then Some (getSubscriptions (subscriptions_search p) offset) else None.

Definition visibleProfileSubscriptions (rows : list SubscriptionInfo) (p : page) : list SubscriptionInfo :=
  in_prices (minPrice (squery (subs p))) (maxPrice (squery (subs p))) rows.

Definition subscriptions_debounced (p : page) : page :=
  let q := squery (subs p) in
  set_search {| selectedSite := selectedSite q; selectedAuthId := selectedAuthId q; searchTerm := searchTerm q; searchQuery := trim (searchTerm q);
                activeOnly := activeOnly q; minPrice := minPrice q; maxPrice := maxPrice q; sexFilter := sexFilter q; orderBy := orderBy q;
                ascending := ascending q; selectedLoadoutName := selectedLoadoutName q |} p.

Definition openProfileSubscriptionsFilters (p : page) : page :=
  let s := subs p in set_dialogs true (sloadoutOpen s) (sloadoutInput s) (draft_of (squery s)) p.
Definition closeProfileSubscriptionsFilters (p : page) : page :=
  let s := subs p in set_dialogs false (sloadoutOpen s) (sloadoutInput s) (sdraft s) p.
Definition applyProfileSubscriptionsFilters (p : page) : page :=
  closeProfileSubscriptionsFilters (set_search (apply_draft (sdraft (subs p)) (squery (subs p))) p).
Definition clearProfileSubscriptionsFilters (p : page) : page :=
  let s := subs p in set_dialogs (sfiltersOpen s) (sloadoutOpen s) (sloadoutInput s) cleared_draft p.

Definition opt_text (o : option string) : string := match truthy_opt o with Some s => s | None => EmptyString end.
Definition id_text (o : option num) : string := match o with Some n => if num_truthy n then show_num n else EmptyString | None => EmptyString end.

Definition buildProfileSubscriptionsLoadoutName (p : page) : string :=
  let q := squery (subs p) in
  let profileValue := str_or (normalize (str_or (opt_text (u_username <$> user p)) (id_text (u_id <$> user p))) 24) "profile" in
  let auth := selectedProfileAuth p in
  let authValue := normalize (str_or (opt_text (auth ?> a_username)) (id_text (a_user_id <$> auth))) 24 in
  let identifierValue := normalize (str_or (searchQuery q) (searchTerm q)) 36 in
  let any (s : string) := str_or (trim s) "any" in
  join " | " (["profile:" +:+ profileValue; "auth:" +:+ str_or authValue "auth"]
              ++ (if truthy identifierValue then ["identifier:" +:+ identifierValue] else [])
              ++ (if truthy (trim (minPrice q)) || truthy (trim (maxPrice q))
                  then ["price:" +:+ any (minPrice q) +:+ "-" +:+ any (maxPrice q)] else [])).

Definition set_loadout_input (n : string) (p : page) : page :=
  let s := subs p in set_dialogs (sfiltersOpen s) (sloadoutOpen s) n (sdraft s) p.
Definition autofillProfileSubscriptionsLoadoutName (p : page) : page := set_loadout_input (buildProfileSubscriptionsLoadoutName p) p.
Definition openProfileSubscriptionsLoadoutModal (p : page) : page :=
  let s := subs p in
  set_dialogs (sfiltersOpen s) true (str_or (selectedLoadoutName (squery s)) (buildProfileSubscriptionsLoadoutName p)) (sdraft s) p.

Definition saveProfileSubscriptionsLoadout (p : page) : page :=
  let n := str_or (trim (sloadoutInput (subs p))) (buildProfileSubscriptionsLoadoutName p) in
  if truthy n then send (SaveLoadout n (save_item (subscriptions_search p))) p else p.
Definition setProfileSubscriptionsSelectedAsDefaultLoadout (p : page) : page :=
  let n := selectedLoadoutName (squery (subs p)) in if truthy n then send (SetDefaultLoadout n) p else p.
Definition clearProfileSubscriptionsDefaultLoadout (p : page) : page := send ClearDefaultLoadout p.
Definition deleteProfileSubscriptionsSelectedLoadout (p : page) : page :=
  let n := selectedLoadoutName (squery (subs p)) in if truthy n then send (DeleteLoadout n) p else p.

Definition handleSelectProfileSubscriptionsLoadout (v : string) (p : page) : page :=
  let p := set_loadout_input v (set_search (named v (squery (subs p))) p) in
  match sloadouts (subs p) ?> find_loadout v with
  | Some l => applyProfileSubscriptionsLoadout (loadout_item l) p
  | None => p
  end.

(** ** Answers *)

Definition refetch_loadouts (text : string) (p : page) : page := send (LoadoutsRefetch text) (invalidate ["search-loadouts"] p).
Definition quoted (s : string) : string := String "034" (s +:+ String "034" EmptyString).
Definition success_if (b : bool) : toast_type := if b then ToastSuccess else ToastError.

(** Each mutation's callbacks, and what follows each [await]. *)
Definition answered (c : call) (r : reply) (p : page) : page :=
  match c, r with
  | RefreshProfile, RRefresh true _ => invalidate ["user-profile"] (showToast "Profile refresh started" ToastSuccess p)
  | RefreshProfile, RRefresh false error => showToast (truthy_opt error ?? "Profile refresh could not be started") ToastError p
  | RefreshProfile, RFailed text => showToast ("Failed to refresh profile: " +:+ text) ToastError p
  | DeleteAlias _, RAlias true _ => invalidate ["user-aliases"] (showToast "Alias removed" ToastSuccess p)
  | DeleteAlias _, RAlias false error => showToast (truthy_opt error ?? "Failed to remove alias") ToastError p
  | DeleteAlias _, RFailed text => showToast ("Failed to remove alias: " +:+ text) ToastError p
  | CreateJob _ _, RJob n => invalidate ["jobs"] (showToast ("Job " +:+ quoted n +:+ " created successfully!") ToastSuccess p)
  | CreateJob _ _, RFailed text => showToast ("Failed to create job: " +:+ text) ToastError p
  | DelegateJob _ _, RDelegated true _ external correlation =>
      showToast ("Delegated scrape queued (" +:+ str_or external correlation +:+ ")") ToastSuccess p
  | DelegateJob _ _, RDelegated false error _ _ => showToast (truthy_opt error ?? "Failed to delegate scrape") ToastError p
  | DelegateJob _ _, RFailed text => showToast ("Failed to delegate scrape: " +:+ text) ToastError p
  | Subscribe _, ROrder ok completed login error =>
      invalidate ["orders-performers"]
        (showToast (if ok then (if completed then "Subscribed to @" else "Order queued for @") +:+ (truthy_opt login ?? "user")
                    else truthy_opt error ?? "Failed to subscribe") (success_if ok) p)
  | Subscribe _, RFailed text => showToast ("Failed to subscribe: " +:+ text) ToastError p
  | SetFavorite _, RFavorite b =>
      match user p with
      | Some _ => invalidate ["user-profile"; "users-list"; "subscriptions"]
                    (showToast (if b then "User marked as favorite" else "User removed from favorites") ToastSuccess p)
      | None => p
      end
  | SetFavorite _, RFailed text => showToast ("Failed to update favorite: " +:+ text) ToastError p
  | SetWatch _ _, RWatch b message =>
      match user p with
      | Some u =>
          let d := data p in
          invalidate ["watchList"; "watchStats"]
            (set_data {| identifiers := identifiers d; profileData := profileData d; auths := auths d; historySnapshots := historySnapshots d;
                         watched := b |}
              (showToast (truthy_opt message ?? ((if b then "Watching @" else "Stopped watching @") +:+ u_username u)) ToastSuccess p))
      | None => p
      end
  | SetWatch _ _, RFailed text => showToast ("Failed to update watch status: " +:+ text) ToastError p
  | UpdateProfile _, RDone =>
      let p := showToast ("Updated @" +:+ str_or (match user p with Some u => u_username u | None => EmptyString end) "user") ToastSuccess p in
      let a := acts p in
      invalidate ["user-profile"; "user-aliases"; "users-list"; "subscriptions"]
        (set_edit false false (editName a) EmptyString (editDescription a) (identity a) p)
  | UpdateProfile _, RFailed text => showToast ("Failed to update user: " +:+ text) ToastError p
  | OrderContent item _, ROrder ok _ _ error =>
      let p := if ok then invalidate ["orders"; "orders-performers"]
                            (showToast ("Queued PPV from @" +:+ (truthy_opt (c_username item) ?? show_num (c_user_id item))
                                        +:+ " — go to Orders to buy") ToastSuccess p)
               else showToast (truthy_opt error ?? "Failed to add locked content to orders") ToastError p in
      set_content (with_buying None (content p)) p
  | OrderContent _ _, RFailed text =>
      let p := showToast ("Failed to add locked content: " +:+ text) ToastError p in set_content (with_buying None (content p)) p
  | FetchAuths u mode, r => auths_answered u mode r p
  | FetchConflict target ps, RConflict x =>
      setConflictNavigationPending false
        match conflict_answered target x ps with
        | inr (_, next) => navigated (match res_candidates x with c :: _ => show_num (cand_user_id c) | [] => EmptyString end) next p
        | inl text => showToast text ToastError p
        end
  | FetchConflict _ _, RFailed text => setConflictNavigationPending false (showToast text ToastError p)
  | SaveLoadout n _, RDone => refetch_loadouts ("Saved loadout " +:+ quoted n) (set_loadout_input n (set_search (named n (squery (subs p))) p))
  | SetDefaultLoadout n, RDone => refetch_loadouts ("Default loadout set to " +:+ quoted n) p
  | ClearDefaultLoadout, RDone => refetch_loadouts "Default loadout cleared" p
  | DeleteLoadout _, RDone =>
      refetch_loadouts "Deleted loadout" (set_loadout_input EmptyString (set_search (named EmptyString (squery (subs p))) p))
  | LoadoutsRefetch text, RDone => showToast text ToastSuccess p
  | _, _ => p
  end.

Definition answer (i : nat) (r : reply) (p : page) : page :=
  match inflight p !! i with
  | Some c => answered c r (set_traffic (delete i (inflight p)) (invalidated p) p)
  | None => p
  end.

(** What queries bring: the users an identifier may mean, the profile, its accounts and
    its history, and whether it is watched. *)
Definition loadouts_answered (r : option SearchLoadoutsResponse) (p : page) : page :=
  let s := subs p in
  set_subs {| squery := squery s; sdraft := sdraft s; sfiltersOpen := sfiltersOpen s; sloadoutOpen := sloadoutOpen s; sloadoutInput := sloadoutInput s;
              sdefaultApplied := sdefaultApplied s; sloadoutsFetched := true;
              sloadouts := match r with Some d => Some d | None => sloadouts s end |} p.

(** ** The page as a machine *)

Inductive event : page -> page -> Prop :=
| Click_tab t p : event p (handleTabClick t p)
| Open_paid p : event p (openPaidTab p)
| Navigate id ps p : event p (navigated id ps p)
| Select_candidate id p : event p (select_candidate id p)
| Next_conflict n p : event p (navigateConflictPage n p)
| Queries_answered d p : event p (set_data d p)
| Loadouts_answered r p : event p (loadouts_answered r p)
| Content_answered i r p : event p (set_content (content_answer i r (content p)) p)
| Scroll_content p : content_tab (activeTab p) = true ->
    event p (set_content (load_more_content (site p) (resolved p) (activeTab p) (content p)) p)
| Choose_content type by_ asc p : event p (set_content (with_choice type by_ asc (content p)) p)
| Search_content v p : event p (set_content (handleSearchInput v (content p)) p)
| Search_timer p : event p (set_content (search_timer_fires (content p)) p)
| Open_content_filters p : event p (set_content (openContentFilters (content p)) p)
| Draft_content_filter k s p : k ∈ FILTER_KEYS -> event p (set_content (setContentDraftFilterState k s (content p)) p)
| Clear_content_filters p : event p (set_content (clearContentDraftFilters (content p)) p)
| Apply_content_filters p : event p (set_content (applyContentFilters (content p)) p)
| Buy_content item p : event p (handleBuyLockedContent item p)
| Show_version i p : event p (setOverviewVersionIndex i p)
| Close_toast p : event p (set_toast None (toast_timer p) p)
| Toast_timer p : toast_timer p = true -> event p (set_toast None false p)
| Refresh p : event p (send RefreshProfile p)
| Scrape mode p : event p (openScrapeAuthPicker mode p)
| Select_auth a p : event p (handleAuthSelection a p)
| Close_picker p : event p (closeAuthPicker p)
| Subscribe_user p : event p (handleSubscribe p)
| Toggle_favorite p : event p (handleToggleFavorite p)
| Toggle_watch p : event p (handleToggleWatch p)
| Remove_alias a ok p : event p (handleRemoveAlias a ok p)
| Open_edit p : event p (openEditModal p)
| Open_sex p : event p (openSexModal p)
| Type_edit a p : event p (set_acts a p)
| Save_edit p : event p (handleSaveUserEdit p)
| Save_sex p : event p (handleSaveSex p)
| Scrape_subscription s p : event p (handleScrapeSubscription s p)
| Type_search q p : event p (set_search q p)
| Debounce p : event p (subscriptions_debounced p)
| Open_filters p : event p (openProfileSubscriptionsFilters p)
| Close_filters p : event p (closeProfileSubscriptionsFilters p)
| Type_dialogs a b n d p : event p (set_dialogs a b n d p)
| Apply_filters p : event p (applyProfileSubscriptionsFilters p)
| Clear_filters p : event p (clearProfileSubscriptionsFilters p)
| Autofill p : event p (autofillProfileSubscriptionsLoadoutName p)
| Open_loadouts p : event p (openProfileSubscriptionsLoadoutModal p)
| Save_loadout p : event p (saveProfileSubscriptionsLoadout p)
| Default_loadout p : event p (setProfileSubscriptionsSelectedAsDefaultLoadout p)
| Clear_default p : event p (clearProfileSubscriptionsDefaultLoadout p)
| Delete_loadout p : event p (deleteProfileSubscriptionsSelectedLoadout p)
| Select_loadout n p : event p (handleSelectProfileSubscriptionsLoadout n p)
| Answer i r p : event p (answer i r p).

(** Effects run after each event. *)
Inductive reachable : page -> Prop :=
| Begin id ps d loadouts : reachable (settle (new_page id ps d loadouts))
| Next p p' : reachable p -> event p p' -> reachable (settle p').

(** * What the profile page promises *)

(** ** The address *)

Lemma lower_set k key v ps : lower_param k (JMap.set key v ps) = if key =s k then Some (to_lower v) else lower_param k ps.
Proof. unfold lower_param. rewrite get_set. by destruct (key =s k). Qed.

Lemma lower_delete k key ps : lower_param k (delete_param key ps) = if key =s k then None else lower_param k ps.
Proof. unfold lower_param. rewrite get_delete. by destruct (key =s k). Qed.

Lemma tab_reads_back t ps : requestedTab (tab_address t ps) = t.
Proof. destruct t; unfold requestedTab, tab_address; rewrite ?lower_set, ?lower_delete; literal_keys; done. Qed.

(** What the address holds of a filter. *)
Definition written (k : string) (m : AdvancedFilterMap) : option string :=
  match filter_state k m with FilterNone => None | s => Some (state_text s) end.

Lemma filter_param_inj k k' : (filter_param k =s filter_param k') = (k =s k').
Proof. unfold filter_param. apply eq_true_iff_eq. rewrite !str_eqb_eq. simpl. split; [by intros [=]|by intros ->]. Qed.

Lemma get_write_filter k k' m ps :
  JMap.get (filter_param k) (write_filter m ps k') = if k' =s k then written k' m else JMap.get (filter_param k) ps.
Proof. unfold write_filter, written. destruct (filter_state k' m); rewrite ?get_set, ?get_delete, filter_param_inj; by destruct (k' =s k). Qed.

Lemma get_filter_written k m l : forall ps,
  JMap.get (filter_param k) (foldl (write_filter m) ps l) = if str_in k l then written k m else JMap.get (filter_param k) ps.
Proof.
  induction l as [|k' l IH]; intros ps; [done|]. cbn [foldl]. rewrite IH, get_write_filter.
  assert (Ein : str_in k (k' :: l) = (k' =s k) || str_in k l).
  { apply eq_true_iff_eq. rewrite orb_true_iff, !str_in_iff, elem_of_cons, str_eqb_eq. naive_solver. }
  rewrite Ein. destruct (k' =s k) eqn:E; [apply str_eqb_eq in E as ->|done]. by destruct (str_in k l).
Qed.

Lemma get_beside_filters x m l : (forall k, filter_param k <> x) -> forall ps, JMap.get x (foldl (write_filter m) ps l) = JMap.get x ps.
Proof.
  intros Hx. induction l as [|k l IH]; intros ps; [done|]. cbn [foldl]. rewrite IH. unfold write_filter.
  assert (E : (filter_param k =s x) = false) by (apply str_eqb_neq, Hx). destruct (filter_state k m); rewrite ?get_set, ?get_delete, E; done.
Qed.

Lemma write_again m l : forall ps, (forall k, k ∈ l -> JMap.get (filter_param k) ps = written k m) -> foldl (write_filter m) ps l = ps.
Proof.
  induction l as [|k l IH]; intros ps H; [done|]. cbn [foldl]. assert (E : write_filter m ps k = ps).
  { specialize (H k ltac:(left)). unfold write_filter, written in *. destruct (filter_state k m); [by apply delete_absent|by apply set_same|by apply set_same]. }
  rewrite E. apply IH. intros k' Hk'. apply H. by right.
Qed.

Lemma filters_written m ps k : k ∈ FILTER_KEYS -> JMap.get (filter_param k) (filters_address m ps) = written k m.
Proof. intros Hk. unfold filters_address. rewrite get_filter_written. apply str_in_iff in Hk. by rewrite Hk. Qed.

Lemma filters_address_again m ps : filters_address m (filters_address m ps) = filters_address m ps.
Proof. apply write_again. intros k Hk. by apply filters_written. Qed.

(** Filters with every key, in order. *)
Definition full (m : AdvancedFilterMap) : Prop := map fst m = FILTER_KEYS.

Lemma full_states m : full m -> map (fun k => (k, filter_state k m)) FILTER_KEYS = m.
Proof.
  unfold full, filter_state. destruct m as [|[] m]; [done|]. do 12 (destruct m as [|[] m]; try done). by intros [= -> -> -> -> -> -> -> -> -> -> -> ->].
Qed.

Lemma filters_read_back m ps : full m -> filters_address m ps = ps -> filtersFromSearchParams ps = m.
Proof.
  intros Hm Hps. rewrite <- (full_states m Hm) at 1. unfold filtersFromSearchParams. apply map_ext_in. intros k Hk%list_elem_of_In. f_equal.
  rewrite <- Hps, filters_written by done. unfold written. by destruct (filter_state k m).
Qed.

Lemma tab_beside_filters m ps : requestedTab (filters_address m ps) = requestedTab ps.
Proof. unfold requestedTab, lower_param, filters_address. rewrite !get_beside_filters by done. done. Qed.

Lemma filters_beside_tab k t ps : JMap.get (filter_param k) (tab_address t ps) = JMap.get (filter_param k) ps.
Proof.
  assert (E : forall x, x = "tab" \/ x = "source" -> (x =s filter_param k) = false) by (intros x [-> | ->]; by apply str_eqb_neq).
  destruct t; simpl; rewrite ?get_set, ?get_delete, ?E by auto; rewrite ?get_set, ?get_delete, ?E by auto; done.
Qed.

(** ** The tab and the filters are in the address *)

(** What the effects on the address and the tab look at. *)
Definition nav (p : page) : route * UserProfileTab * option (UserProfileTab * string) * queries * (AdvancedFilterMap * nat) :=
  (at_route p, activeTab p, seen_tab (seen p), data p, contentAdvancedFilters (content p)).

Lemma refresh_nav r p : nav (refresh_effect r p) = nav p.
Proof. unfold refresh_effect. destruct (observe_refresh _ _ _ _) as [o []]; done. Qed.
Lemma auth_nav r p : nav (auth_effect r p) = nav p.
Proof. unfold auth_effect. by destruct (bool_decide _). Qed.
Lemma paid_type_nav r p : nav (paid_type_effect r p) = nav p.
Proof. unfold paid_type_effect. by destruct (_ && _). Qed.
Lemma loadout_nav r p : nav (loadout_effect r p) = nav p.
Proof. unfold loadout_effect. destruct (_ || _); [done|]. by destruct (_ ?> _). Qed.
Lemma versions_nav r p : nav (versions_effect r p) = nav p.
Proof. unfold versions_effect. by destruct (bool_decide _). Qed.
Lemma content_nav r p : nav (content_effect r p) = nav p.
Proof. unfold content_effect. destruct (bool_decide _); [done|]. destruct (content_tab _); [|done]. by destruct (resolved r). Qed.

Lemma nav_inj_parts p a t e d f : nav p = (a, t, e, d, f) ->
  at_route p = a /\ activeTab p = t /\ seen_tab (seen p) = e /\ data p = d /\ contentAdvancedFilters (content p) = f.
Proof. by intros [= -> -> -> -> ->]. Qed.

Definition redirected (p : page) : bool := bool_decide (activeTab p = SubscriptionsTab) && no_accounts p.

Lemma tab_nav r p : nav (tab_effect r p) =
  (at_route p, (if bool_decide (seen_tab (seen p) = Some (tab_deps r)) then activeTab p else (tab_deps r).1), Some (tab_deps r), data p,
   contentAdvancedFilters (content p)).
Proof. unfold tab_effect. destruct (bool_decide _) eqn:E; [|done]. apply bool_decide_eq_true in E. unfold nav. by rewrite E. Qed.

(** What the address and the tab of a page become. *)
Definition moved (ps : params) (t : UserProfileTab) (p : page) : route * UserProfileTab * option (UserProfileTab * string) * queries * (AdvancedFilterMap * nat) :=
  ({| path_id := path_id (at_route p); address := ps |}, t, seen_tab (seen p), data p, contentAdvancedFilters (content p)).

Lemma filters_nav r p : at_route p = at_route r ->
  nav (filters_effect r p) = moved (filters_address (contentAdvancedFilters (content r)).1 (address (at_route r))) (activeTab p) p.
Proof.
  intros H. unfold filters_effect. destruct (bool_decide _) eqn:E; [|done]. apply bool_decide_eq_true in E.
  unfold nav, moved. rewrite E, H. by destruct (at_route r).
Qed.

Lemma redirect_nav r p : nav (redirect_effect r p) =
  if redirected r then moved (tab_address Overview (address (at_route r))) Overview p else nav p.
Proof. unfold redirect_effect. fold (redirected r). by destruct (redirected r). Qed.

Lemma nav_commit p :
  nav (commit p) =
    ({| path_id := path_id (at_route p);
        address := if redirected p then tab_address Overview (address (at_route p))
                   else filters_address (contentAdvancedFilters (content p)).1 (address (at_route p)) |},
     (if redirected p then Overview
      else if bool_decide (seen_tab (seen p) = Some (tab_deps p)) then activeTab p else requestedTab (address (at_route p))),
     Some (tab_deps p), data p, contentAdvancedFilters (content p)).
Proof.
  unfold commit. rewrite content_nav, versions_nav, loadout_nav, paid_type_nav, redirect_nav.
  pose proof (tab_nav p p) as T. rewrite <- (refresh_nav p) in T. revert T. generalize (refresh_effect p (tab_effect p p)). intros q T.
  apply (nav_inj_parts q) in T as (T1 & T2 & T3 & T4 & T5).
  pose proof (filters_nav p q T1) as F. rewrite <- (auth_nav p) in F. revert F. generalize (auth_effect p (filters_effect p q)). intros x F.
  unfold moved in F. rewrite T1, T2, T3, T4, T5 in F. destruct (redirected p); [|exact F].
  apply nav_inj_parts in F as (F1 & _ & F3 & F4 & F5). unfold moved. by rewrite F1, F3, F4, F5.
Qed.

(** The tab that is shown is the one the address asked for last, or asks for now. *)
Definition follows_tab (p : page) : Prop :=
  match seen_tab (seen p) with
  | Some (t, _) => activeTab p = t \/ activeTab p = requestedTab (address (at_route p))
  | None => True
  end.

(** The page and its address agree, but for a tab that is not there. *)
Definition agrees (p : page) : Prop :=
  activeTab p = requestedTab (address (at_route p)) /\
  filters_address (contentAdvancedFilters (content p)).1 (address (at_route p)) = address (at_route p) /\
  seen_tab (seen p) = Some (tab_deps p).

Lemma agrees_commit p : follows_tab p -> redirected p = false -> agrees (commit p).
Proof.
  intros Hf Hr. pose proof (nav_commit p) as N. rewrite Hr in N. apply nav_inj_parts in N as (N1 & N2 & N3 & N4 & N5).
  unfold agrees, tab_deps. rewrite N1, N2, N3, N5. cbn [address path_id]. rewrite tab_beside_filters. split; [|split; [apply filters_address_again|done]].
  destruct (bool_decide _) eqn:E; [|done]. apply bool_decide_eq_true in E. unfold follows_tab in Hf. rewrite E in Hf. by destruct Hf.
Qed.

Lemma redirected_commit p : redirected p = true -> activeTab (commit p) = Overview /\ address (at_route (commit p)) = tab_address Overview (address (at_route p)).
Proof. intros Hr. pose proof (nav_commit p) as N. rewrite Hr in N. apply nav_inj_parts in N as (N1 & N2 & N3 & N4 & N5). by rewrite N1, N2. Qed.

Lemma not_redirected p : activeTab p <> SubscriptionsTab -> redirected p = false.
Proof. intros H. unfold redirected. by rewrite bool_decide_eq_false_2. Qed.

Definition at_rest (p : page) : Prop := agrees p /\ redirected p = false.

Lemma agrees_follows p : agrees p -> follows_tab p.
Proof. intros (H & _ & _). unfold follows_tab. destruct (seen_tab _) as [[]|]; [by right|done]. Qed.

Lemma at_rest_commit p : at_rest p -> at_rest (commit p).
Proof.
  intros [Ha Hr]. split; [apply agrees_commit; [by apply agrees_follows|done]|]. pose proof (nav_commit p) as N. rewrite Hr in N.
  apply nav_inj_parts in N as (N1 & N2 & N3 & N4 & N5). destruct Ha as (Ht & _ & Hs).
  unfold redirected, no_accounts, hasSubscriptionsTab, accounts. rewrite N2, N4, (bool_decide_eq_true_2 _ Hs). exact Hr.
Qed.

(** A redirected page is at rest two renders later. *)
Lemma rest_after_redirect p : redirected p = true -> at_rest (commit (commit p)).
Proof.
  intros Hr. destruct (redirected_commit p Hr) as [Ht Ha].
  assert (Hf : follows_tab (commit p)).
  { unfold follows_tab. destruct (seen_tab _) as [[]|]; [|done]. right. by rewrite Ht, Ha, tab_reads_back. }
  assert (Hn : redirected (commit p) = false) by (apply not_redirected; by rewrite Ht).
  split; [by apply agrees_commit|]. apply not_redirected. pose proof (nav_commit (commit p)) as N. rewrite Hn in N. apply nav_inj_parts in N as (_ & N2 & _).
  rewrite N2. destruct (bool_decide _); [by rewrite Ht|]. by rewrite Ha, tab_reads_back.
Qed.

Lemma iter_keeps (P : page -> Prop) n p : (forall q, P q -> P (commit q)) -> P p -> P (Nat.iter n commit p).
Proof. intros Hc Hp. induction n as [|n IH]; [done|]. rewrite Nat.iter_succ. by apply Hc. Qed.

Lemma at_rest_three p : follows_tab p -> at_rest (Nat.iter 3 commit p).
Proof.
  intros Hf. rewrite !Nat.iter_succ. change (Nat.iter 0 commit p) with p. destruct (redirected p) eqn:E; [by apply at_rest_commit, rest_after_redirect|].
  pose proof (agrees_commit p Hf E) as Ha. destruct (redirected (commit p)) eqn:E'; [by apply rest_after_redirect|].
  apply (at_rest_commit (commit (commit p))), (at_rest_commit (commit p)). by split.
Qed.

Lemma at_rest_settle p : follows_tab p -> at_rest (settle p).
Proof.
  intros Hf. unfold settle. change 5%nat with (2 + 3)%nat. rewrite Nat.iter_add. apply iter_keeps; [apply at_rest_commit|by apply at_rest_three].
Qed.

(** Every list of filters has every key. *)
Definition wide (c : content_state) : Prop := full (contentAdvancedFilters c).1 /\ full (contentDraftAdvancedFilters c).1.

(** What most events leave alone. *)
Definition core (p : page) : UserProfileTab * option (UserProfileTab * string) * (AdvancedFilterMap * nat) * (AdvancedFilterMap * nat) :=
  (activeTab p, seen_tab (seen p), contentAdvancedFilters (content p), contentDraftAdvancedFilters (content p)).

Lemma full_set k s m : k ∈ FILTER_KEYS -> full m -> full (JMap.set k s m).
Proof.
  unfold full. intros Hk Hm. change (JMap.keys (JMap.set k s m) = FILTER_KEYS). rewrite JMap.keys_set. unfold JMap.has.
  destruct (JMap.get k m) eqn:E; [done|]. apply JMap.get_None in E. unfold JMap.keys in E. by rewrite Hm in E.
Qed.

Lemma full_address ps : full (filtersFromSearchParams ps).
Proof. reflexivity. Qed.

Lemma auths_core u mode r p : core (auths_answered u mode r p) = core p.
Proof.
  destruct r as [| | | | | | | | |l e|]; try reflexivity. unfold auths_answered. destruct (truthy_opt e); [done|].
  destruct l as [|a [|]]; try reflexivity. by destruct mode.
Qed.

Lemma answered_core c r p : core (answered c r p) = core p.
Proof.
  destruct c, r; try reflexivity; cbn [answered]; try apply auths_core;
    repeat match goal with
           | |- context [match ?b with _ => _ end] =>
               lazymatch b with context [match _ with _ => _ end] => fail | _ => destruct b; try reflexivity end
           end.
Qed.

(** An event leaves the tab and the filters alone, changes the content or opens a tab. *)
Inductive effect (p : page) : page -> Prop :=
| Elsewhere p' : core p' = core p -> effect p p'
| Of_content c : (wide (content p) -> wide c) -> effect p (set_content c p)
| Of_tab t : effect p (handleTabClick t p).

Lemma content_answer_wide i r c : wide c -> wide (content_answer i r c).
Proof.
  unfold content_answer, content_answered. destruct (fetches c !! i); [|done]. destruct r as [|d]; [done|]. by destruct (cl_success d).
Qed.

Lemma event_effect p p' : event p p' -> effect p p'.
Proof.
  intros []; try (by apply Elsewhere); try (by apply (Of_tab _ Paid)); try (by apply Of_tab).
  - apply Elsewhere. unfold navigateConflictPage. by destruct (conflict_request _ _).
  - apply Of_content, content_answer_wide.
  - apply Of_content. unfold load_more_content, fetchContent. destruct (_ && _); [|done]. by destruct (resolved _).
  - apply Of_content. unfold search_timer_fires. by destruct (search_timer _).
  - apply Of_content. by intros [].
  - apply Of_content. intros []. split; [done|by apply full_set].
  - apply Of_content. by intros [].
  - apply Of_content. by intros [].
  - apply Elsewhere. unfold openScrapeAuthPicker. by destruct (user _).
  - apply Elsewhere. unfold handleAuthSelection. destruct (user _); [|done]. by destruct (pendingScrapeAction _) as [[]|].
  - apply Elsewhere. unfold handleSubscribe. by destruct (user _).
  - apply Elsewhere. unfold handleToggleFavorite. destruct (user _); [|done]. by destruct (pending _ _).
  - apply Elsewhere. unfold handleToggleWatch. destruct (user _); [|done]. by destruct (pending _ _).
  - apply Elsewhere. unfold handleRemoveAlias. destruct (pending _ _); [done|]. by destruct ok.
  - apply Elsewhere. unfold openEditModal. by destruct (user _).
  - apply Elsewhere. unfold openSexModal. by destruct (user _).
  - apply Elsewhere. unfold handleSaveUserEdit. by destruct (parseIdentityDraft _).
  - apply Elsewhere. unfold handleSaveSex. by destruct (parseIdentityDraft _).
  - apply Elsewhere. unfold handleScrapeSubscription. destruct (selectedProfileAuthId _); [|done]. by destruct (truthy_opt _).
  - apply Elsewhere. unfold saveProfileSubscriptionsLoadout. cbv zeta. by destruct (truthy _).
  - apply Elsewhere. unfold setProfileSubscriptionsSelectedAsDefaultLoadout. cbv zeta. by destruct (truthy _).
  - apply Elsewhere. unfold deleteProfileSubscriptionsSelectedLoadout. cbv zeta. by destruct (truthy _).
  - apply Elsewhere. unfold handleSelectProfileSubscriptionsLoadout. cbv zeta. by destruct (_ ?> _).
  - apply Elsewhere. unfold answer. destruct (inflight _ !! _); [|done]. by rewrite answered_core.
Qed.

(** What every page at rest has. *)
Record steady (p : page) : Prop := { steady_rest : at_rest p; steady_wide : wide (content p) }.

Lemma core_parts p a b c d : core p = (a, b, c, d) ->
  activeTab p = a /\ seen_tab (seen p) = b /\ contentAdvancedFilters (content p) = c /\ contentDraftAdvancedFilters (content p) = d.
Proof. by intros [= -> -> -> ->]. Qed.

Lemma follows_after p p' : at_rest p -> event p p' -> follows_tab p'.
Proof.
  intros [(Ht & _ & Hs) _] He%event_effect. unfold follows_tab. destruct He as [p' E|c _|t].
  - apply core_parts in E as (E1 & E2 & _). rewrite E1, E2, Hs. by left.
  - cbn [seen set_content]. rewrite Hs. by left.
  - destruct (seen_tab _) as [[]|]; [|done]. right. symmetry. apply tab_reads_back.
Qed.

Lemma wide_after p p' : wide (content p) -> event p p' -> wide (content p').
Proof.
  intros Hw He%event_effect. destruct He as [p' E|c Hc|t]; [|by apply Hc|done].
  apply core_parts in E as (_ & _ & E1 & E2). unfold wide. by rewrite E1, E2.
Qed.

(** The filters that are being chosen. *)
Definition drafted (p : page) : AdvancedFilterMap * nat := contentDraftAdvancedFilters (content p).

Lemma drafted_commit p : drafted (commit p) = drafted p.
Proof.
  assert (Hc : forall r q, drafted (content_effect r q) = drafted q).
  { intros r q. unfold content_effect. destruct (bool_decide _); [done|]. destruct (content_tab _); [|done]. by destruct (resolved r). }
  assert (Hv : forall r q, drafted (versions_effect r q) = drafted q) by (intros r q; unfold versions_effect; by destruct (bool_decide _)).
  assert (Hl : forall r q, drafted (loadout_effect r q) = drafted q).
  { intros r q. unfold loadout_effect. destruct (_ || _); [done|]. by destruct (_ ?> _). }
  assert (Hp : forall r q, drafted (paid_type_effect r q) = drafted q) by (intros r q; unfold paid_type_effect; by destruct (_ && _)).
  assert (Hr : forall r q, drafted (redirect_effect r q) = drafted q) by (intros r q; unfold redirect_effect; by destruct (_ && _)).
  assert (Ha : forall r q, drafted (auth_effect r q) = drafted q) by (intros r q; unfold auth_effect; by destruct (bool_decide _)).
  assert (Hf : forall r q, drafted (filters_effect r q) = drafted q) by (intros r q; unfold filters_effect; by destruct (bool_decide _)).
  assert (Ho : forall r q, drafted (refresh_effect r q) = drafted q).
  { intros r q. unfold refresh_effect. by destruct (observe_refresh _ _ _ _) as [o []]. }
  assert (Ht : forall r q, drafted (tab_effect r q) = drafted q) by (intros r q; unfold tab_effect; by destruct (bool_decide _)).
  unfold commit. by rewrite Hc, Hv, Hl, Hp, Hr, Ha, Hf, Ho, Ht.
Qed.

Lemma wide_commit p : wide (content p) -> wide (content (commit p)).
Proof.
  intros Hw. pose proof (nav_commit p) as N. apply nav_inj_parts in N as (_ & _ & _ & _ & N5). pose proof (drafted_commit p) as D.
  unfold drafted in D. unfold wide. by rewrite N5, D.
Qed.

Lemma reachable_steady p : reachable p -> steady p.
Proof.
  assert (Hs : forall q, follows_tab q -> wide (content q) -> steady (settle q)).
  { intros q Hf Hw. split; [by apply at_rest_settle|]. unfold settle. apply (iter_keeps (fun x => wide (content x))); [apply wide_commit|done]. }
  induction 1 as [id ps d l|p p' _ [Hr Hw] He]; apply Hs.
  - done.
  - split; apply full_address.
  - by apply (follows_after p).
  - by apply (wide_after p).
Qed.

(** [q] shows what [p] shows. *)
Record shows_alike (p q : page) : Prop := {
  alike_route : at_route q = at_route p;
  alike_tab : activeTab q = activeTab p;
  alike_data : data q = data p;
  alike_filters : (contentAdvancedFilters (content q)).1 = (contentAdvancedFilters (content p)).1
}.

Lemma alike_commit p q : at_rest p -> shows_alike p q -> shows_alike p (commit q).
Proof.
  intros [(Ht & Hf & _) Hr] [H1 H2 H3 H4]. pose proof (nav_commit q) as N.
  assert (Eq : redirected q = false).
  { unfold redirected, no_accounts, hasSubscriptionsTab, accounts. rewrite H2, H3. exact Hr. }
  rewrite Eq in N. apply nav_inj_parts in N as (N1 & N2 & _ & N4 & N5). rewrite H1, H4 in N1. rewrite H1, H2 in N2. split.
  - rewrite N1, Hf. by destruct (at_route p).
  - rewrite N2. by destruct (bool_decide _).
  - by rewrite N4.
  - by rewrite N5.
Qed.

(** The tab of subscriptions is not shown for a user without accounts. *)
Lemma subscriptions_tab_has_accounts p : reachable p -> activeTab p = SubscriptionsTab -> no_accounts p = false.
Proof.
  intros [[_ Hr] _]%reachable_steady Ht. unfold redirected in Hr. rewrite bool_decide_eq_true_2 in Hr by done. exact Hr.
Qed.

(** C20. Whenever the page is at rest, loading its address anew, with the answers it has,
    comes to rest at the same address, on the same tab and with the same filters. *)
Theorem reload_keeps_tab_and_filters p loadouts (H : reachable p) :
  shows_alike p (settle (new_page (path_id (at_route p)) (address (at_route p)) (data p) loadouts)).
Proof.
  apply reachable_steady in H as [Hr [Hw _]]. unfold settle. apply iter_keeps; [by intros q; apply alike_commit|].
  destruct Hr as [(Ht & Hf & _) _]. split; [by destruct p as [[]]|by rewrite Ht|done|]. by apply filters_read_back.
Qed.

(** ** Choosing among the users an identifier may mean *)

(** A page of the users an identifier may mean, as the backend lists [all]. *)
Definition served (all : list UserIdentifierCandidate) (page size : Z) : list UserIdentifierCandidate :=
  take (Z.to_nat size) (drop (Z.to_nat ((page - 1) * size)) all).

Lemma served_lookup all page size i c : 1 <= page -> 0 <= size ->
  served all page size !! i = Some c -> all !! (Z.to_nat ((page - 1) * size + Z.of_nat i)) = Some c.
Proof.
  intros Hp Hs H. unfold served in H. apply lookup_take_Some in H as [H _]. rewrite lookup_drop in H. rewrite <- H. f_equal. nia.
Qed.

Lemma served_one all n c : 1 <= n -> all !! Z.to_nat (n - 1) = Some c -> served all n 1 = [c].
Proof.
  intros Hn H. unfold served. rewrite Z.mul_1_r. apply drop_S in H. rewrite H. done.
Qed.

Lemma page_read_back identifier n ps : 1 <= n -> conflictPage (conflict_address identifier n ps) = n.
Proof.
  intros Hn. unfold conflictPage, conflict_address, text_param. rewrite get_set. literal_keys. cbn [default].
  assert (Ht : str_or (show_Z n) "1" = show_Z n).
  { unfold str_or. destruct (show_Z n) eqn:E; [|done]. pose proof (parse_int_show n ltac:(lia)) as P. rewrite E in P. done. }
  change (Some (show_Z n) ?? EmptyString) with (show_Z n). rewrite Ht, parse_int_show by lia. by rewrite (proj2 (Z.ltb_lt 0 n)) by lia.
Qed.

Lemma identifier_read_back identifier n ps :
  conflictIdentifier (conflict_address identifier n ps) = to_lower (trim (without_at identifier)).
Proof. unfold conflictIdentifier, conflict_address, text_param. rewrite !get_set. literal_keys. done. Qed.

(** The address of a profile names [c] among the users of [group], which lists what each
    identifier may mean: the conflict navigation of the profile asks for the place of [c]
    in the list of that identifier, one at a time, and gets [c]. *)
Record names (group : string -> list UserIdentifierCandidate) (ident : string) (place : Z) (c : UserIdentifierCandidate) (ps : params) : Prop := {
  nm_asked : conflict_request (conflictPage ps) ps = Some (ident, place, 1);
  nm_got : served (group ident) place 1 = [c]
}.

(** An address as the page makes it for a place in the group of [ident]. *)
Lemma named_by_address group ident n c ps :
  to_lower (trim (without_at ident)) = ident -> truthy ident = true -> 1 <= n -> group ident !! Z.to_nat (n - 1) = Some c ->
  names group ident n c (conflict_address ident n ps).
Proof.
  intros Hi Ht Hn Hc. split; [|by apply served_one]. unfold conflict_request. rewrite page_read_back, identifier_read_back, Hi, Ht by done.
  by rewrite (proj2 (Z.ltb_ge n 1)) by lia.
Qed.

Lemma conflict_address_keeps k ident n ps : k <> "conflict" -> k <> "conflict_page" -> JMap.get k (conflict_address ident n ps) = JMap.get k ps.
Proof.
  intros H1 H2. unfold conflict_address. rewrite !get_set. by rewrite (proj2 (str_eqb_neq _ _) (not_eq_sym H1)), (proj2 (str_eqb_neq _ _) (not_eq_sym H2)).
Qed.

(** C21. Choosing a user among several an identifier may mean opens the profile of that
    user, at an address that names them: asked for that identifier and that place, the
    backend lists that user. The rest of the address stays. From there the user at
    any place of the group is reached, whose address names them in turn. The
    identifier is one that stays as it is when it is read back: not blank, without a
    second @ and without a space after an @. *)
Theorem chosen_user_is_found group r userId id ps i
    (ident := normalizedIdentifier userId)
    (listed : res_candidates r = served (group ident) (res_page r) (res_page_size r))
    (Hpage : 1 <= res_page r) (Hsize : 0 <= res_page_size r)
    (Hident : truthy ident = true) (plain : trim (without_at ident) = ident)
    (chosen : find_index (fun c => cand_user_id c =! id) (res_candidates r) = Some i) :
  let '(path, next) := selectIdentifierCandidate userId (Some r) id ps in
  path = "/users/" +:+ show_num id /\
  (exists c place, (cand_user_id c =! id) = true /\ names group ident place c next) /\
  (forall k, k <> "conflict" -> k <> "conflict_page" -> JMap.get k next = JMap.get k ps) /\
  forall target c answer, 1 <= target -> group ident !! Z.to_nat (target - 1) = Some c ->
    res_status answer = Ambiguous -> res_candidates answer = served (group ident) target 1 ->
    conflict_request target next = Some (ident, target, 1) /\
    exists after, conflict_answered target answer next = inr ("/users/" +:+ show_num (cand_user_id c), after) /\ names group ident target c after.
Proof.
  unfold selectIdentifierCandidate. fold ident. set (n := absolutePosition (Some r) id).
  assert (En : n = (res_page r - 1) * res_page_size r + Z.of_nat i + 1).
  { unfold n, absolutePosition. cbn [mbind option_bind]. by rewrite chosen. }
  assert (Hn : 1 <= n) by nia. clearbody n.
  assert (Hi : to_lower (trim (without_at ident)) = ident) by (rewrite plain; apply to_lower_idem).
  split; [done|]. split; [|split; [intros k; apply conflict_address_keeps|]].
  - apply find_index_Some in chosen as (c & Hc & Ec). exists c, n. split; [done|]. apply named_by_address; try done.
    rewrite listed in Hc. apply served_lookup in Hc; [|done..]. rewrite <- Hc. f_equal. lia.
  - intros target c answer Ht Hc Hs Ha. unfold conflict_answered, conflict_request. rewrite identifier_read_back, Hi, Hident, Hs, Ha.
    rewrite (proj2 (Z.ltb_ge target 1)), (served_one _ target c) by (done || lia). split; [done|]. eexists. split; [done|]. by apply named_by_address.
Qed.

(** ** What depends on a refresh is fetched again when one ends *)

(** A render as the observer sees it: the site, the user and whether it is refreshing. *)
Definition sight : Type := string * option num * bool.

Definition sight_key (site : string) (n : num) : string := site +:+ ":" +:+ show_num n.
Definition known (s : sight) : option (string * bool) := (fun n => (sight_key s.1.1 n, s.2)) <$> s.1.2.

Definition watch_sight (o : observed) (s : sight) : observed := (observe_refresh s.1.1 s.1.2 s.2 o).1.

Lemma watched_sights l : foldl watch_sight nothing_observed l =
  match last (omap known l) with Some (k, b) => {| profileKey := k; wasRefreshing := b |} | None => nothing_observed end.
Proof.
  induction l as [|s l IH] using rev_ind; [done|]. rewrite foldl_snoc, IH, omap_app. destruct s as [[site id] b].
  unfold watch_sight, observe_refresh. cbn [fst snd]. destruct id as [n|]; [|by cbn [omap list_omap known fst snd fmap option_fmap option_map]; rewrite app_nil_r].
  cbn [omap list_omap known fst snd fmap option_fmap option_map]. rewrite last_snoc. unfold sight_key.
  destruct (last (omap known l)) as [[k b']|]; cbn [profileKey wasRefreshing nothing_observed].
  - destruct (k =s _) eqn:E; [apply str_eqb_eq in E as ->|]; destruct b; try done; by destruct b'.
  - destruct (_ =s _) eqn:E; [apply str_eqb_eq in E as <-|]; by destruct b.
Qed.

(** C22. Aliases and identifiers are fetched again exactly at the first render that shows a
    user, on the same site, no longer refreshing after the last render of a known user
    showed that one refreshing: neither a change of user nor a user not yet known
    is taken for the end of a refresh. *)
Theorem refetched_when_a_refresh_ends l site n b :
  (observe_refresh site (Some n) b (foldl watch_sight nothing_observed l)).2 =
  negb b && bool_decide (last (omap known l) = Some (sight_key site n, true)).
Proof.
  rewrite watched_sights. unfold observe_refresh, sight_key. destruct b.
  - destruct (last (omap known l)) as [[k b']|]; cbn [profileKey nothing_observed]; by destruct (_ =s _).
  - destruct (last (omap known l)) as [[k b']|]; cbn [profileKey wasRefreshing nothing_observed].
    + destruct (k =s _) eqn:E; cbn [wasRefreshing].
      * apply str_eqb_eq in E as ->. destruct b'; cbn [negb snd andb].
        { by rewrite bool_decide_eq_true_2. } { by rewrite bool_decide_eq_false_2. }
      * apply str_eqb_neq in E. symmetry. apply bool_decide_eq_false_2. by intros [= ->].
    + rewrite bool_decide_eq_false_2 by done. by destruct (_ =s _).
Qed.

(** ** Delegated jobs *)

(** Every step comes after those it depends on. *)
Fixpoint in_order (seen : list string) (l : list delegated_task) : bool :=
  match l with
  | [] => true
  | t :: r => every (fun a => str_in a seen) (dt_depends_on t) && negb (str_in (dt_alias t) seen) && in_order (dt_alias t :: seen) r
  end.

(** The steps of a delegated job have names of their own and come after those they depend on. *)
Lemma delegated_steps_in_order authId u : in_order [] (dp_tasks (delegated_workflow authId u)) = true.
Proof. reflexivity. Qed.

(** Each kind of content is scraped, then downloaded. *)
Lemma delegated_steps authId u :
  map (fun t => (dt_kind t, dt_content_type t)) (dp_tasks (delegated_workflow authId u)) =
  flat_map (fun c => [("scrape", c); ("download", c)]) SCRAPED_CONTENT.
Proof. reflexivity. Qed.

(** ** The content that is loaded *)

(** Two answers replace the list in the order they come: the older request's, coming
    last, stays, whatever is asked for now. *)
Theorem late_content_answer_stays c f1 f2 d1 d2
    (Hf : fetches c = [f1; f2]) (H1 : append f1 = false) (H2 : append f2 = false) (O1 : cl_success d1 = true) (O2 : cl_success d2 = true) :
  let c' := content_answer 0 (inr d1) (content_answer 1 (inr d2) c) in
  contentItems c' = cl_content d1 /\ contentTotal c' = cl_total d1 /\ contentType c' = contentType c /\ contentSearch c' = contentSearch c.
Proof.
  intros c'. unfold c', content_answer, content_answered. rewrite Hf. cbn [lookup list_lookup]. rewrite O2, H2.
  cbn [fetches with_loading with_items delete list_delete lookup list_lookup]. rewrite O1, H1. done.
Qed.

(** A page of content that fails is passed over: the next request is for the page after. *)
Theorem failed_content_page_is_passed_over site id tab c text
    (more : contentHasMore c = true) (idle : contentLoading c = false) (Hf : fetches c = []) :
  let c' := content_answer 0 (inl text) (load_more_content site (Some id) tab c) in
  contentItems c' = contentItems c /\
  map pageNum (fetches (load_more_content site (Some id) tab c')) = [S (S (contentPage c))].
Proof.
  intros c'. unfold c', load_more_content. rewrite more, idle. cbn [andb negb fetchContent].
  unfold content_answer. cbn [fetches with_loading with_page]. rewrite Hf. unfold content_answered. cbn. rewrite more. done.
Qed.

Section loading.
(** What the backend holds of a user, a page at a time. *)
Variable library : list ContentLibraryItem.
Variable site : string.
Variable id : num.
Variable tab : UserProfileTab.

Definition library_page (n : nat) : ContentLibraryResponse := {|
  cl_success := true; cl_content := take PAGE_SIZE (drop ((n - 1) * PAGE_SIZE) library); cl_total := Z.of_nat (length library); cl_error := None |}.

(** The first page, and the next one when there is one. *)
Definition first_loaded (c : content_state) : content_state :=
  content_answer 0 (inr (library_page 1)) (fetchContent site (Some id) tab c 1 false (with_page 1 c)).
Definition next_loaded (c : content_state) : content_state :=
  content_answer 0 (inr (library_page (S (contentPage c)))) (load_more_content site (Some id) tab c).

Record loaded (n : nat) (c : content_state) : Prop := {
  loaded_items : contentItems c = take (n * PAGE_SIZE) library;
  loaded_page : contentPage c = n;
  loaded_idle : contentLoading c = false;
  loaded_fetches : fetches c = [];
  loaded_more : contentHasMore c = (n * PAGE_SIZE <? length library)%nat
}.

Lemma more_after n : ((n * PAGE_SIZE) <= length library)%nat ->
  ((length (cl_content (library_page (S n))) =? PAGE_SIZE)%nat &&
   (Z.of_nat ((S n - 1) * PAGE_SIZE + length (cl_content (library_page (S n)))) <? Z.of_nat (length library)))
  = (S n * PAGE_SIZE <? length library)%nat.
Proof.
  intros H. unfold library_page. cbn [cl_content]. rewrite length_take, length_drop. replace (S n - 1)%nat with n by lia.
  apply eq_true_iff_eq. rewrite andb_true_iff, Nat.eqb_eq, Z.ltb_lt, Nat.ltb_lt. lia.
Qed.

Lemma first_is_loaded c : fetches c = [] -> loaded 1 (first_loaded c).
Proof.
  intros Hf. unfold first_loaded, fetchContent, content_answer. cbn [fetches with_loading with_page]. rewrite Hf.
  split; try done. exact (more_after 0 ltac:(lia)).
Qed.

Lemma next_is_loaded n c : loaded n c -> contentHasMore c = true -> loaded (S n) (next_loaded c).
Proof.
  intros [H1 H2 H3 H4 H5] Hm. rewrite Hm in H5. symmetry in H5. apply Nat.ltb_lt in H5.
  pose proof (more_after n ltac:(lia)) as M.
  unfold next_loaded, load_more_content. rewrite Hm, H3. cbn [andb negb fetchContent]. unfold content_answer. cbn [fetches with_loading with_page].
  rewrite H4. cbn [app lookup list_lookup delete list_delete]. subst n.
  split; [|done|done|done|exact M]. change (contentItems c ++ take PAGE_SIZE (drop ((S (contentPage c) - 1) * PAGE_SIZE) library) =
                                            take (S (contentPage c) * PAGE_SIZE) library).
  rewrite H1. replace (S (contentPage c) - 1)%nat with (contentPage c) by lia. rewrite take_take_drop. f_equal. lia.
Qed.

Lemma no_next c : fetches c = [] -> contentHasMore c = false -> next_loaded c = c.
Proof. intros Hf Hm. unfold next_loaded, load_more_content. rewrite Hm. cbn [andb]. unfold content_answer. by rewrite Hf. Qed.

Lemma loaded_until k c n : loaded n c -> exists m, loaded m (Nat.iter k next_loaded c) /\
  (contentHasMore (Nat.iter k next_loaded c) = true -> m = (n + k)%nat).
Proof.
  intros H. induction k as [|k (m & Hm & E)]; [exists n; split; [done|intros _; cbn; lia]|]. rewrite Nat.iter_succ.
  destruct (contentHasMore (Nat.iter k next_loaded c)) eqn:M.
  - exists (S m). split; [by apply next_is_loaded|]. rewrite E by done. lia.
  - exists m. rewrite no_next by (done || by destruct Hm). split; [done|]. by rewrite M.
Qed.

(** Scrolling through the content of a user, from its first page to where no more
    is announced, lists everything the backend has, once and in its order. *)
Theorem content_list_is_complete c (idle : fetches c = []) :
  let c' := Nat.iter (length library) next_loaded (first_loaded c) in
  contentItems c' = library /\ contentHasMore c' = false.
Proof.
  intros c'. destruct (loaded_until (length library) _ 1 (first_is_loaded c idle)) as (m & [H1 H2 H3 H4 H5] & E). fold c' in H1, H5, E.
  assert (M : contentHasMore c' = false).
  { destruct (contentHasMore c'); [|done]. rewrite (E eq_refl) in H5. symmetry in H5. apply Nat.ltb_lt in H5. unfold PAGE_SIZE in H5. lia. }
  split; [|done]. rewrite M in H5. symmetry in H5. apply Nat.ltb_ge in H5. rewrite H1. by apply take_ge.
Qed.
End loading.

(** ** A loadout of all subscriptions on the page of one user *)

(** A loadout that names no account leaves the tab with none, and nothing is asked for. *)
Lemma loadout_without_account l p offset :
  prop "auth_id" (filters l) = None -> subscriptions_request offset (applyProfileSubscriptionsLoadout l p) = None.
Proof.
  intros H. unfold subscriptions_request, subscriptions_enabled.
  assert (E : selectedProfileAuthId (applyProfileSubscriptionsLoadout l p) = None).
  { unfold selectedProfileAuthId, applyProfileSubscriptionsLoadout, profile_loadout. cbn. by rewrite H. }
  rewrite E. by rewrite andb_false_r.
Qed.

(** The account is not chosen again until the accounts change. *)
Lemma account_chosen_on_change r p : seen_auths (seen p) = Some (auth_deps r) -> auth_effect r p = p.
Proof. intros H. unfold auth_effect. by rewrite bool_decide_eq_true_2. Qed.

(** ** Answers after the page has moved on *)

(** The answer of watching a user marks the user that is shown when it comes. *)
Lemma watch_answer_marks_the_shown_user u b b' text v p :
  user p = Some v ->
  watched (data (answered (SetWatch u b) (RWatch b' text) p)) = b' /\ user (answered (SetWatch u b) (RWatch b' text) p) = Some v.
Proof. intros H. cbn [answered]. rewrite H. split; [done|exact H]. Qed.

(** ** A page on concrete answers *)

Definition demo_user : DetailedUserInfo := {|
  u_id := #1; u_user_id := #5; u_username := "ann"; u_name := None; u_description := None; u_price := #0; u_media_count := #0; u_audio_count := #0;
  u_stream_count := #0; u_archived_post_count := #0; u_subscribers_count := #0; u_favourited_count := #0; u_size := #0; u_display_size := #0;
  u_estimated_size := None; u_size_source := "none"; u_bucket_date := None; u_location := None; u_website := None;
  u_identity := {| profile_type := None; sexual_content := None; Users.sex := None; gender := None; partner_sex := None; partner_gender := None |};
  u_is_subscribed := false; u_expires_at := None; u_favorite := false; u_site := "onlyfans"; u_join_date := None; u_downloaded_at := None;
  u_first_downloaded_at := None; u_last_checked_at := None; u_created_at := None |}.

Definition demo_queries : queries := {|
  identifiers := Some {| res_success := true; res_status := Resolved; res_user_id := Some (#5); res_candidates := []; res_total := 1; res_page := 1;
                         res_page_size := 100 |};
  profileData := Some {| dr_user := Some demo_user; dr_is_stale := false; dr_is_refreshing := false |};
  auths := {| profileAuths := []; profileAuthsObject := 0; profileAuthsFetched := true; profileAuthsError := false |}; historySnapshots := []; watched := false |}.

Definition demo_page : page := settle (new_page "5" [("site", "onlyfans"); ("tab", "paid"); ("filter_locked", "include")] demo_queries None).

Example reload_keeps_tab_and_filters_witness :
  shows_alike demo_page (settle (new_page (path_id (at_route demo_page)) (address (at_route demo_page)) (data demo_page) None)) /\
  activeTab demo_page = Paid.
Proof. split; [apply (reload_keeps_tab_and_filters demo_page None); apply Begin|vm_compute; reflexivity]. Defined.

(** Stories are not sold: going from stories to what was bought asks for stories first. *)
Definition demo_stories : page :=
  settle (set_content (with_choice "story" "created_at" false (content demo_page)) (settle (handleTabClick Content demo_page))).
Example paid_asks_for_stories :
  map (fun f => JMap.get "content_type" (request f)) (drop (length (fetches (content demo_stories))) (fetches (content (settle (handleTabClick Paid demo_stories)))))
  = [Some "story"; None].
Proof. vm_compute. reflexivity. Qed.

Definition demo_candidates : list UserIdentifierCandidate :=
  [{| cand_user_id := #7; cand_username := "ann" |}; {| cand_user_id := #9; cand_username := "ann" |}; {| cand_user_id := #12; cand_username := "ann" |}].
Definition demo_resolution (page size : Z) : UserIdentifierResolutionResponse := {|
  res_success := true; res_status := Ambiguous; res_user_id := None; res_candidates := served demo_candidates page size; res_total := 3;
  res_page := page; res_page_size := size |}.

Definition demo_group (identifier : string) : list UserIdentifierCandidate := if identifier =s "ann" then demo_candidates else [].

Example chosen_user_is_found_witness :
  let next := (selectIdentifierCandidate "@Ann" (Some (demo_resolution 1 100)) (#9) [("site", "onlyfans")]).2 in
  (exists c place, (cand_user_id c =! #9) = true /\ names demo_group "ann" place c next) /\
  next = [("site", "onlyfans"); ("conflict", "ann"); ("conflict_page", "2")].
Proof.
  split; [|vm_compute; reflexivity].
  exact (proj1 (proj2 (chosen_user_is_found demo_group (demo_resolution 1 100) "@Ann" (#9) [("site", "onlyfans")] 1
    eq_refl ltac:(cbn; lia) ltac:(cbn; lia) eq_refl eq_refl eq_refl))).
Defined.

Definition demo_item (n : Z) : ContentLibraryItem := {|
  c_id := #n; c_user_id := #5; c_username := None; c_content_type := "post"; c_price := #0; c_media_count := #1; c_site := "onlyfans" |}.
Definition demo_library : list ContentLibraryItem := map demo_item (map Z.of_nat (seq 1 31)).

Example content_list_is_complete_witness :
  contentItems (Nat.iter 31 (next_loaded demo_library "onlyfans" (#5) Content) (first_loaded demo_library "onlyfans" (#5) Content (new_content []))) = demo_library.
Proof. exact (proj1 (content_list_is_complete demo_library "onlyfans" (#5) Content (new_content []) eq_refl)). Defined.

Example late_content_answer_stays_witness :
  let fetch n := {| request := []; pageNum := 1; append := false |} in
  let answer_of n := {| cl_success := true; cl_content := [demo_item n]; cl_total := 1; cl_error := None |} in
  let c := with_loading true None [fetch 1; fetch 2] (new_content []) in
  contentItems (content_answer 0 (inr (answer_of 1)) (content_answer 1 (inr (answer_of 2)) c)) = [demo_item 1].
Proof.
  exact (proj1 (late_content_answer_stays (with_loading true None [{| request := []; pageNum := 1; append := false |}; {| request := []; pageNum := 1; append := false |}] (new_content []))
    {| request := []; pageNum := 1; append := false |} {| request := []; pageNum := 1; append := false |}
    {| cl_success := true; cl_content := [demo_item 1]; cl_total := 1; cl_error := None |}
    {| cl_success := true; cl_content := [demo_item 2]; cl_total := 1; cl_error := None |} eq_refl eq_refl eq_refl eq_refl eq_refl)).
Defined.

Example failed_content_page_is_passed_over_witness :
  map pageNum (fetches (load_more_content "onlyfans" (Some (#5)) Content
    (content_answer 0 (inl "down") (load_more_content "onlyfans" (Some (#5)) Content (new_content []))))) = [3%nat].
Proof. exact (proj2 (failed_content_page_is_passed_over "onlyfans" (#5) Content (new_content []) "down" eq_refl eq_refl eq_refl)). Defined.
