(* ===== verification/JobCreator.v ===== *)
(** * Creating and editing jobs ([components/jobs/JobCreator.tsx])

    The form that builds a job from tasks or from a template: its fields, the queue of
    tasks, the schedule, what is checked and sent, and what an answer changes; with the
    part of [features/jobs/components/JobDetailsModal.tsx] that opens it on a job and
    sends what changed. The mutation's function reads the form as it was when the button
    was pressed; the answers it awaits are its arguments. The list of suggestions and the
    focus of its input are not modelled.

    The theorems: a job is sent exactly when the form is complete, and as it is shown; no
    account is given a user twice; an edited job sends its schedule exactly when
    another one was chosen and its tasks exactly when they changed; an interval survives being edited; a task is queued once for
    every account. *)

From Stdlib Require Import Ascii ZArith Lia SpecFloat.
From stdpp Require Import base list strings option sets.
From S2P Require Import Prelude JsString JsNum JsInt JsDiv JsText JsValue JsDate JsObject JobUtils.

(** ** Records ([api/types/jobs.ts]) *)

Record TaskPayload := { task_type : string; task_params : fields }.

Record JobScheduleRequest := {
  scheduled_for : option string;
  interval_seconds : option num;
  cron : option string;
  start_immediately : option bool
}.

Record CreateJobRequest := {
  r_job_name : string;
  r_tasks : list TaskPayload;
  r_schedule : option JobScheduleRequest;
  r_ignore_space : bool;
  r_template : option (string * option string)
}.

Record TemplateParameterPayload := {
  tp_name : string;
  tp_type : string;
  tp_required : bool;
  tp_default : jsval;
  tp_description : string;
  tp_choices : option (list value)
}.

Record JobTemplateTaskPayload := { tt_task_type : string; content_type_template : string }.

Record JobTemplateResponse := {
  template_id : string;
  template_label : string;
  template_parameters : list TemplateParameterPayload;
  template_tasks : list JobTemplateTaskPayload
}.

Record TemplateEntry := { e_username : string; e_auth_id : num }.

Record InstantiateTemplateRequest := {
  i_parameter_values : fields;
  i_job_name : string;
  i_entries : list TemplateEntry;
  i_schedule : option JobScheduleRequest;
  i_ignore_space : bool
}.

Inductive param_type := PText | PNumber | PBoolean | PSelect | PMultiselect | PUsername | PUserId | PPath.

Record TaskParameter := {
  p_name : string;
  p_label : string;
  p_type : param_type;
  p_required : bool;
  p_default : jsval;
  p_description : string;
  p_options : list (string * string);
  p_placeholder : string
}.

Record TaskDefinition := { task_id : string; parameters : list TaskParameter }.

Record AuthCredential := { a_id : num; a_user_id : num; a_username : option string }.

(** ** [features/jobs/lib/jobCreatorUtils.ts] *)

Definition parseAuthId (v : jsval) : option num :=
  match v with
  | Some (VNum n) => if is_finite n then Some n else None
  | Some (VStr s) => if truthy (trim s) then let n := number_of_string s in if is_finite n then Some n else None else None
  | _ => None
  end.

(** [s.charAt(0).toUpperCase() + s.slice(1)] *)
Definition capitalized (s : string) : string := match s with String c r => String (upper_char c) r | EmptyString => EmptyString end.

Definition param_type_of (p : TemplateParameterPayload) : param_type :=
  if tp_type p =s "multiselect" then PMultiselect
  else if match tp_choices p with Some (_ :: _) => true | _ => false end then PSelect
  else if tp_name p =s "username" then PUsername
  else if tp_type p =s "bool" then PBoolean
  else if (tp_type p =s "int") || (tp_type p =s "float") then PNumber
  else PText.

Definition templateParamToTaskParam (p : TemplateParameterPayload) : TaskParameter := {|
  p_name := tp_name p;
  p_label := match tp_name p with
             | String c r => String (upper_char c) (replace_char "_" " " r)
             | EmptyString => EmptyString
             end;
  p_type := param_type_of p; p_required := tp_required p; p_default := tp_default p; p_description := tp_description p;
  p_options := match tp_choices p with Some l => map (fun c => (to_str c, to_str c)) l | None => [] end;
  p_placeholder := if tp_name p =s "username" then "creator_name" else EmptyString |}.

(** ** Parameters *)

Definition defined (v : jsval) : bool := match v with None | Some VNull => false | Some _ => true end.

(** The defaults of a task; values are not shared, so a copy is the value. *)
Definition getDefaultTaskParams (d : option TaskDefinition) : fields :=
  match d with
  | None => []
  | Some t => foldl (fun m p => match p_default p with
                                | None | Some VNull => m
                                | Some v => JMap.set (p_name p) v m
                                end) [] (parameters t)
  end.

(** The defaults of a template, without its user. *)
Definition template_defaults (t : JobTemplateResponse) : fields :=
  foldl (fun m p => if tp_name p =s "username" then m
                    else match tp_default p with
                         | None | Some VNull => m
                         | Some v => JMap.set (tp_name p) v m
                         end) [] (template_parameters t).

(** [{ ...a, ...b }] *)
Definition spread (a b : fields) : fields := foldl (fun m e => JMap.set e.1 e.2 m) a b.

(** A parameter that is a text where it is set, as the source's cast has it. *)
Definition site_of (ps : fields) : string :=
  match prop "site" ps with Some (VStr s) => str_or s "OnlyFans" | _ => "OnlyFans" end.

(** ** The schedule *)

Inductive schedule_type := Once | Interval | Cron.

Record schedule_input := {
  scheduleEnabled : bool;
  scheduleType : schedule_type;
  scheduleAt : string;
  intervalValue : num;
  intervalUnit : IntervalUnit;
  cronExpression : string;
  startImmediately : bool
}.

Definition unitSeconds (u : IntervalUnit) : num := match u with Days => #86400 | Hours => #3600 | Minutes => #60 end.

(** The schedule of a request; [inl] is the message of an exception. *)
Definition build_schedule `{Env} (s : schedule_input) : string + option JobScheduleRequest :=
  if negb (scheduleEnabled s) then inr None
  else
    match scheduleType s with
    | Once =>
        if negb (truthy (scheduleAt s)) then inl "Schedule time is required for a one-time job"
        else
          let t := date_ms (scheduleAt s) in
          if is_nan t then inl "Schedule time is invalid"
          else inr (Some {| scheduled_for := Some (iso_string (num_to_Z t)); interval_seconds := None; cron := None; start_immediately := None |})
    | Interval =>
        let interval := intervalValue s in
        if negb (is_finite interval) || (interval <=! #0) then inl "Interval must be greater than 0"
        else inr (Some {| scheduled_for := None; interval_seconds := Some (math_round (interval ⊗ unitSeconds (intervalUnit s)));
                          cron := None; start_immediately := Some (startImmediately s) |})
    | Cron =>
        let c := trim (cronExpression s) in
        if negb (truthy c) then inl "Cron expression is required"
        else inr (Some {| scheduled_for := None; interval_seconds := None; cron := Some c; start_immediately := None |})
    end.

(** ** [JSON.stringify] *)

Fixpoint json (v : value) : string :=
  match v with
  | VNull => "null"
  | VBool b => if b then "true" else "false"
  | VNum n => if is_finite n then show_num n else "null"
  | VStr s => json_string s
  | VArr l => "[" +:+ join "," (map json l) +:+ "]"
  | VObj fs => "{" +:+ join "," (map (fun e => json_string e.1 +:+ ":" +:+ e.2) (own_entries (map (fun e => (e.1, json e.2)) fs))) +:+ "}"
  end.

Definition unit_text (u : IntervalUnit) : string := match u with Minutes => "minutes" | Hours => "hours" | Days => "days" end.

Definition scheduleSnapshot (s : schedule_input) : string :=
  json (VArr (if negb (scheduleEnabled s) then []
              else match scheduleType s with
                   | Once => [VStr "once"; VStr (scheduleAt s)]
                   | Cron => [VStr "cron"; VStr (trim (cronExpression s))]
                   | Interval => [VStr "interval"; VNum (intervalValue s); VStr (unit_text (intervalUnit s)); VBool (startImmediately s)]
                   end)).

Definition task_value (t : TaskPayload) : value := VObj [("task_type", VStr (task_type t)); ("params", VObj (task_params t))].
Definition tasks_text (l : list TaskPayload) : string := json (VArr (map task_value l)).

(** ** The form *)

Inductive creator_mode := FromTasks | FromTemplate.

Record creator := {
  jobName : string;
  selectedTaskType : string;
  creatorMode : creator_mode;
  selectedTemplateId : string;
  templateParams : fields;
  templateUsernames : list string;
  taskParams : fields;
  error : option string;
  tasks : list TaskPayload;
  schedule : schedule_input;
  saveAsTemplate : bool;
  templateName : string;
  templateDescription : string;
  ignoreSpaceRequirements : bool;
  selectedAuthId : option num;
  usernameSearch : string;
  showUsernameSuggestions : bool;
  debouncedSearch : string
}.

(** What the queries brought. [authsPerUsername] is [None] before the check of the
    users is done, or when none is needed. *)
Record lists := {
  taskTypes : list TaskDefinition;
  templates : list JobTemplateResponse;
  activeAuths : list AuthCredential;
  authsPerUsername : option (JMap.t (list num))
}.

(** The properties of the component; [editing] is [mode === 'edit'], and
    [submits] says that [onSubmit] is given. *)
Record props := {
  editing : bool;
  submits : bool;
  initialJobName : string;
  initialTasks : list TaskPayload;
  initialSchedule : option schedule_input
}.

Definition default_schedule : schedule_input := {|
  scheduleEnabled := false; scheduleType := Interval; scheduleAt := EmptyString; intervalValue := #1; intervalUnit := Hours;
  cronExpression := EmptyString; startImmediately := true |}.

(** The first account a task names. *)
Definition initialSelectedAuthId (l : list TaskPayload) : option num := head (omap (fun t => parseAuthId (prop "auth_id" (task_params t))) l).

Definition opened (p : props) : creator := {|
  jobName := initialJobName p; selectedTaskType := "scrape_user"; creatorMode := FromTasks; selectedTemplateId := EmptyString;
  templateParams := []; templateUsernames := []; taskParams := []; error := None; tasks := initialTasks p;
  schedule := match initialSchedule p with Some s => s | None => default_schedule end; saveAsTemplate := false; templateName := EmptyString;
  templateDescription := EmptyString; ignoreSpaceRequirements := true; selectedAuthId := initialSelectedAuthId (initialTasks p);
  usernameSearch := EmptyString; showUsernameSuggestions := false; debouncedSearch := EmptyString |}.

(** Setters of what changes together. *)
Definition set_tasks (l : list TaskPayload) (name : string) (e : option string) (c : creator) : creator := {|
  jobName := name; selectedTaskType := selectedTaskType c; creatorMode := creatorMode c; selectedTemplateId := selectedTemplateId c;
  templateParams := templateParams c; templateUsernames := templateUsernames c; taskParams := taskParams c; error := e; tasks := l;
  schedule := schedule c; saveAsTemplate := saveAsTemplate c; templateName := templateName c; templateDescription := templateDescription c;
  ignoreSpaceRequirements := ignoreSpaceRequirements c; selectedAuthId := selectedAuthId c; usernameSearch := usernameSearch c;
  showUsernameSuggestions := showUsernameSuggestions c; debouncedSearch := debouncedSearch c |}.
Definition set_params (type : string) (ps : fields) (c : creator) : creator := {|
  jobName := jobName c; selectedTaskType := type; creatorMode := creatorMode c; selectedTemplateId := selectedTemplateId c;
  templateParams := templateParams c; templateUsernames := templateUsernames c; taskParams := ps; error := error c; tasks := tasks c;
  schedule := schedule c; saveAsTemplate := saveAsTemplate c; templateName := templateName c; templateDescription := templateDescription c;
  ignoreSpaceRequirements := ignoreSpaceRequirements c; selectedAuthId := selectedAuthId c; usernameSearch := usernameSearch c;
  showUsernameSuggestions := showUsernameSuggestions c; debouncedSearch := debouncedSearch c |}.
Definition set_template (id : string) (ps : fields) (names : list string) (text : string) (c : creator) : creator := {|
  jobName := jobName c; selectedTaskType := selectedTaskType c; creatorMode := creatorMode c; selectedTemplateId := id;
  templateParams := ps; templateUsernames := names; taskParams := taskParams c; error := error c; tasks := tasks c;
  schedule := schedule c; saveAsTemplate := saveAsTemplate c; templateName := templateName c; templateDescription := templateDescription c;
  ignoreSpaceRequirements := ignoreSpaceRequirements c; selectedAuthId := selectedAuthId c; usernameSearch := text;
  showUsernameSuggestions := showUsernameSuggestions c; debouncedSearch := debouncedSearch c |}.
Definition set_form (name : string) (mode : creator_mode) (s : schedule_input) (space : bool) (auth : option num) (c : creator) : creator := {|
  jobName := name; selectedTaskType := selectedTaskType c; creatorMode := mode; selectedTemplateId := selectedTemplateId c;
  templateParams := templateParams c; templateUsernames := templateUsernames c; taskParams := taskParams c; error := error c; tasks := tasks c;
  schedule := s; saveAsTemplate := saveAsTemplate c; templateName := templateName c; templateDescription := templateDescription c;
  ignoreSpaceRequirements := space; selectedAuthId := auth; usernameSearch := usernameSearch c;
  showUsernameSuggestions := showUsernameSuggestions c; debouncedSearch := debouncedSearch c |}.
Definition set_saving (saved : bool) (name description : string) (c : creator) : creator := {|
  jobName := jobName c; selectedTaskType := selectedTaskType c; creatorMode := creatorMode c; selectedTemplateId := selectedTemplateId c;
  templateParams := templateParams c; templateUsernames := templateUsernames c; taskParams := taskParams c; error := error c; tasks := tasks c;
  schedule := schedule c; saveAsTemplate := saved; templateName := name; templateDescription := description;
  ignoreSpaceRequirements := ignoreSpaceRequirements c; selectedAuthId := selectedAuthId c; usernameSearch := usernameSearch c;
  showUsernameSuggestions := showUsernameSuggestions c; debouncedSearch := debouncedSearch c |}.
Definition set_suggestions (text : string) (shown : bool) (debounced : string) (c : creator) : creator := {|
  jobName := jobName c; selectedTaskType := selectedTaskType c; creatorMode := creatorMode c; selectedTemplateId := selectedTemplateId c;
  templateParams := templateParams c; templateUsernames := templateUsernames c; taskParams := taskParams c; error := error c; tasks := tasks c;
  schedule := schedule c; saveAsTemplate := saveAsTemplate c; templateName := templateName c; templateDescription := templateDescription c;
  ignoreSpaceRequirements := ignoreSpaceRequirements c; selectedAuthId := selectedAuthId c; usernameSearch := text;
  showUsernameSuggestions := shown; debouncedSearch := debounced |}.
Definition setError (e : option string) (c : creator) : creator := set_tasks (tasks c) (jobName c) e c.

(** ** What the form derives *)

Definition supports_auth (type : string) : bool := str_in type ["scrape_user"; "scrape_paid_content"; "download_media"].
Definition from_template (c : creator) : bool := match creatorMode c with FromTemplate => true | FromTasks => false end.
Definition taskSupportsAuth (c : creator) : bool := from_template c || supports_auth (selectedTaskType c).
Definition currentSite (c : creator) : string := site_of (if from_template c then templateParams c else taskParams c).

Definition selectedTemplate (q : lists) (c : creator) : option JobTemplateResponse :=
  find_first (fun t => template_id t =s selectedTemplateId c) (templates q).
Definition templateUsesUsernameParam (q : lists) (c : creator) : bool :=
  match selectedTemplate q c with Some t => some (fun p => tp_name p =s "username") (template_parameters t) | None => false end.
Definition selectedTaskDef (q : lists) (c : creator) : option TaskDefinition := find_first (fun t => task_id t =s selectedTaskType c) (taskTypes q).

Definition missingRequiredTasks (p : props) (c : creator) : bool :=
  (length (tasks c) =? 0)%nat && (negb (editing p) || negb (length (initialTasks p) =? 0)%nat).

Definition all_auths (c : creator) : bool := match selectedAuthId c with None => true | Some _ => false end.

(** The check of the users of a template. [totals user auth] are the subscriptions of an
    account to a user. *)
Definition auth_check_enabled (q : lists) (c : creator) : bool :=
  from_template c && templateUsesUsernameParam q c && all_auths c && negb (length (templateUsernames c) =? 0)%nat
  && negb (length (activeAuths q) =? 0)%nat.
Definition qualifying (auths : list AuthCredential) (totals : num -> num) : list AuthCredential := keep (fun a => totals (a_id a) >! #0) auths.
Definition check_auths (totals : string -> num -> num) (auths : list AuthCredential) (names : list string) : JMap.t (list num) :=
  foldl (fun m u => JMap.set u (map a_id (qualifying auths (totals u))) m) [] names.

Definition selectedContentTypes (c : creator) : option (list value) := as_arr (prop "content_types" (templateParams c)).
Definition visible_tasks (t : JobTemplateResponse) (c : creator) : list JobTemplateTaskPayload :=
  match selectedContentTypes c with
  | Some l => keep (fun x => some (fun v => match v with VStr s => s =s content_type_template x | _ => false end) l) (template_tasks t)
  | None => template_tasks t
  end.

Definition previewTaskCount (q : lists) (c : creator) : nat :=
  match selectedTemplate q c with
  | None => 0
  | Some t =>
      let visibleTaskCount := length (visible_tasks t c) in
      let usernameMultiplier := if templateUsesUsernameParam q c then Nat.max (length (templateUsernames c)) 1 else 1%nat in
      let flat := (visibleTaskCount * usernameMultiplier * (if all_auths c then Nat.max (length (activeAuths q)) 1 else 1))%nat in
      match authsPerUsername q with
      | Some m => if negb (all_auths c) || negb (templateUsesUsernameParam q c) then flat
                  else (visibleTaskCount * sum_list (map (fun u => match JMap.get u m with Some l => length l | None => 0%nat end) (templateUsernames c)))%nat
      | None => flat
      end
  end.

Definition isSubmitDisabled (p : props) (q : lists) (c : creator) (isPending : bool) : bool :=
  isPending ||
  (if from_template c then negb (truthy (selectedTemplateId c)) || (templateUsesUsernameParam q c && (length (templateUsernames c) =? 0)%nat)
   else negb (truthy (trim (jobName c))) || missingRequiredTasks p c).

(** ** Sending *)

Definition empty_value (v : jsval) : bool :=
  match v with None | Some VNull => true | Some (VStr s) => s =s EmptyString | Some (VArr l) => (length l =? 0)%nat | _ => false end.

(** The first parameter of a template that is missing. *)
Definition missing_param (t : JobTemplateResponse) (ps : fields) : option TemplateParameterPayload :=
  find_first (fun p => negb (tp_name p =s "username") && tp_required p && empty_value (prop (tp_name p) ps)) (template_parameters t).

Definition effectiveJobName (q : lists) (c : creator) : string :=
  str_or (trim (jobName c))
    match selectedTemplate q c with
    | Some t => join " — " (template_label t :: take 2 (templateUsernames c)
                            ++ (if (2 <? length (templateUsernames c))%nat
                                then ["+" +:+ show_Z (Z.of_nat (length (templateUsernames c)) - 2) +:+ " more"] else []))
    | None => "Template Job"
    end.

(** The accounts for a user: every active one that has subscriptions to the user, or the
    selected one. [ask user] is the answer of the requests for all accounts, [inl] the
    message of the first that failed. *)
Definition auths_for (q : lists) (c : creator) (ask : string -> string + (num -> num)) (u : string) : string + list AuthCredential :=
  match selectedAuthId c with
  | None => match ask u with inl e => inl e | inr totals => inr (qualifying (activeAuths q) totals) end
  | Some id => inr match find_first (fun a => a_id a =! id) (activeAuths q) with Some a => [a] | None => [] end
  end.

Fixpoint user_entries (q : lists) (c : creator) (ask : string -> string + (num -> num)) (names : list string) : string + list TemplateEntry :=
  match names with
  | [] => inr []
  | u :: r =>
      match auths_for q c ask u with
      | inl e => inl e
      | inr auths => match user_entries q c ask r with
                     | inl e => inl e
                     | inr l => inr (map (fun a => {| e_username := u; e_auth_id := a_user_id a |}) auths ++ l)
                     end
      end
  end.

Definition auth_entries (q : lists) (c : creator) : list TemplateEntry :=
  map (fun a => {| e_username := match truthy_opt (a_username a) with Some u => u | None => "auth-" +:+ show_num (a_user_id a) end;
                   e_auth_id := a_user_id a |})
      match selectedAuthId c with None => activeAuths q | Some id => keep (fun a => a_id a =! id) (activeAuths q) end.

Definition batchEntries (q : lists) (c : creator) (ask : string -> string + (num -> num)) : string + list TemplateEntry :=
  if templateUsesUsernameParam q c then user_entries q c ask (templateUsernames c) else inr (auth_entries q c).

Definition build_template `{Env} (q : lists) (c : creator) (ask : string -> string + (num -> num))
    : string + string * InstantiateTemplateRequest :=
  if negb (truthy (selectedTemplateId c)) then inl "Please select a template"
  else if templateUsesUsernameParam q c && (length (templateUsernames c) =? 0)%nat then inl "Add at least one username"
  else
    match selectedTemplate q c ?> fun t => missing_param t (templateParams c) with
    | Some p => inl (capitalized (tp_name p) +:+ " is required")
    | None =>
        match build_schedule (schedule c) with
        | inl e => inl e
        | inr s =>
            match batchEntries q c ask with
            | inl e => inl e
            | inr [] => inl (if templateUsesUsernameParam q c
                             then "None of the selected performers have any subscription history on any active auth."
                             else "No active auths are available for this template.")
            | inr l => inr (selectedTemplateId c, {|
                i_parameter_values := templateParams c; i_job_name := effectiveJobName q c; i_entries := l; i_schedule := s;
                i_ignore_space := ignoreSpaceRequirements c |})
            end
        end
    end.

Definition trimmedTemplateName (c : creator) : string := str_or (trim (templateName c)) (trim (jobName c)).

Definition build_job `{Env} (p : props) (c : creator) : string + CreateJobRequest :=
  if negb (truthy (trim (jobName c))) then inl "Job name is required"
  else if missingRequiredTasks p c then inl "At least one task is required"
  else if negb (editing p) && saveAsTemplate c && negb (truthy (trimmedTemplateName c))
  then inl "Template name is required when saving as a template"
  else
    match build_schedule (schedule c) with
    | inl e => inl e
    | inr s => inr {|
        r_job_name := jobName c; r_tasks := tasks c; r_schedule := s; r_ignore_space := ignoreSpaceRequirements c;
        r_template := if negb (editing p) && saveAsTemplate c
                      then Some (trimmedTemplateName c, truthy_opt (Some (trim (templateDescription c)))) else None |}
    end.

Record JobCreatorChanges := { tasksChanged : bool; scheduleChanged : bool }.

Definition changes (p : props) (c : creator) : JobCreatorChanges := {|
  tasksChanged := negb (tasks_text (tasks c) =s tasks_text (initialTasks p));
  scheduleChanged := negb (scheduleSnapshot (schedule c) =s scheduleSnapshot (schedule (opened p))) |}.

(** What is sent. *)
Inductive submission :=
| Instantiate (id : string) (r : InstantiateTemplateRequest)
| Submit (r : CreateJobRequest) (ch : JobCreatorChanges)
| Create (r : CreateJobRequest).

Definition submit `{Env} (p : props) (q : lists) (c : creator) (ask : string -> string + (num -> num)) : string + submission :=
  if from_template c then
    match build_template q c ask with inl e => inl e | inr (id, r) => inr (Instantiate id r) end
  else
    match build_job p c with
    | inl e => inl e
    | inr r => inr (if submits p then Submit r (changes p c) else Create r)
    end.

(** [onSuccess]: the form is emptied, but for its schedule. *)
Definition sent (c : creator) : creator :=
  let s := schedule c in
  set_form EmptyString (creatorMode c)
    {| scheduleEnabled := scheduleEnabled s; scheduleType := scheduleType s; scheduleAt := scheduleAt s; intervalValue := intervalValue s;
       intervalUnit := intervalUnit s; cronExpression := cronExpression s; startImmediately := false |}
    (ignoreSpaceRequirements c) (selectedAuthId c)
    (set_saving false EmptyString EmptyString
      (set_template EmptyString [] [] EmptyString (set_params (selectedTaskType c) [] (set_tasks [] EmptyString None c)))).

(** The message of [onError]; [detail] is the answer's, if it has one. *)
Definition failed (detail : option string) (message : string) (c : creator) : creator := setError (Some (detail ?? message)) c.

(** ** Handlers *)

Definition handleTaskTypeChange (q : lists) (id : string) (c : creator) : creator :=
  let c := set_params id (taskParams c) c in
  match find_first (fun t => task_id t =s id) (taskTypes q) with
  | None => c
  | Some t =>
      let defaults := getDefaultTaskParams (Some t) in
      set_params id match selectedAuthId c with
                    | Some n => if supports_auth id then JMap.set "auth_id" (VNum n) defaults else defaults
                    | None => defaults
                    end c
  end.

Definition handleTemplateSelect (q : lists) (id : string) (c : creator) : creator :=
  match find_first (fun t => template_id t =s id) (templates q) with
  | None => set_template id [] [] EmptyString c
  | Some t => set_template id (template_defaults t) [] EmptyString c
  end.

Definition handleParamChange (name : string) (v : value) (c : creator) : creator :=
  set_params (selectedTaskType c) (JMap.set name v (taskParams c)) c.
Definition handleTemplateParamChange (name : string) (v : value) (c : creator) : creator :=
  set_template (selectedTemplateId c) (JMap.set name v (templateParams c)) (templateUsernames c) (usernameSearch c) c.

Definition addTemplateUsername (username : string) (c : creator) : creator :=
  let trimmed := trim username in
  if truthy trimmed
  then set_template (selectedTemplateId c) (templateParams c) (set_add trimmed (templateUsernames c)) EmptyString c
  else c.
Definition removeTemplateUsername (username : string) (c : creator) : creator :=
  set_template (selectedTemplateId c) (templateParams c) (set_delete username (templateUsernames c)) (usernameSearch c) c.

Definition handleTemplateUsernameKeyDown (key : string) (c : creator) : creator :=
  if (key =s "Enter") && truthy (trim (usernameSearch c)) then addTemplateUsername (trim (usernameSearch c)) c else c.
Definition handleTemplateSuggestionSelect (username : option string) (c : creator) : creator :=
  let c := addTemplateUsername (username ?? EmptyString) c in set_suggestions (usernameSearch c) false (debouncedSearch c) c.
(** On the parameters of a task. *)
Definition handleUsernameSelect (username : option string) (c : creator) : creator :=
  set_suggestions (username ?? EmptyString) false (debouncedSearch c) (handleParamChange "username" (VStr (username ?? EmptyString)) c).

Definition handleSaveAsTemplateChange (checked : bool) (c : creator) : creator :=
  set_saving checked (if checked && negb (truthy (trim (templateName c))) then jobName c else templateName c) (templateDescription c) c.

(** The first parameter that stops a task from being queued. *)
Definition missing_task_param (t : TaskDefinition) (ps : fields) : option TaskParameter :=
  find_first (fun p => p_required p && negb (val_truthy (val_nullish (prop (p_name p) ps) (p_default p)))) (parameters t).

Definition buildTask (t : TaskDefinition) (c : creator) (authId : option num) : TaskPayload :=
  let params := spread (getDefaultTaskParams (Some t)) (taskParams c) in
  {| task_type := selectedTaskType c;
     task_params := if taskSupportsAuth c
                    then match authId with Some n => JMap.set "auth_id" (VNum n) params | None => keep (fun e => negb (e.1 =s "auth_id")) params end
                    else params |}.

Definition queued_tasks (q : lists) (t : TaskDefinition) (c : creator) : list TaskPayload :=
  if all_auths c && negb (length (activeAuths q) =? 0)%nat then map (fun a => buildTask t c (Some (a_id a))) (activeAuths q)
  else [buildTask t c (selectedAuthId c)].

Definition handleAddTask (q : lists) (c : creator) : creator :=
  match selectedTaskDef q c with
  | None => c
  | Some t =>
      match missing_task_param t (taskParams c) with
      | Some p => setError (Some (p_label p +:+ " is required")) c
      | None =>
          let username := prop "username" (taskParams c) in
          set_tasks (tasks c ++ queued_tasks q t c)
                    (if negb (truthy (jobName c)) && val_truthy username then "Scrape " +:+ val_to_str username else jobName c) None c
      end
  end.

Definition handleRemoveTask (i : nat) (c : creator) : creator := set_tasks (delete i (tasks c)) (jobName c) (error c) c.

(** ** Editing a job ([JobDetailsModal.tsx]) *)

(** A task of the details: its type, its payload and its state. *)
Definition task_of (type : option string) (payload : jsval) : option TaskPayload :=
  (fun t => {| task_type := t; task_params := match payload with Some (VObj fs) => fs | _ => [] end |}) <$> type.
Definition initialTasks_of (shown : list (option string * jsval)) : list TaskPayload := omap (fun e => task_of e.1 e.2) shown.

(** [args] is [details.args?.schedule] when that is an object; the other arguments are
    the job's own fields. *)
Definition initialSchedule_of `{Env} (args : fields) (job_for : option string) (job_cron : option string) (job_interval : option num) : schedule_input :=
  let scheduledFor := match prop "scheduled_for" args with Some (VStr s) => s | _ => job_for ?? EmptyString end in
  let cron := match prop "cron" args with Some (VStr s) => s | _ => job_cron ?? EmptyString end in
  let intervalSeconds := match prop "interval_seconds" args with Some (VNum n) => Some n | _ => job_interval end in
  let parts := getIntervalParts intervalSeconds in
  {| scheduleEnabled := truthy scheduledFor || truthy cron || match intervalSeconds with Some n => num_truthy n | None => false end;
     scheduleType := if truthy scheduledFor then Once else if truthy cron then Cron else Interval;
     scheduleAt := if truthy scheduledFor then toLocalDateTimeInput (Some scheduledFor) else EmptyString;
     intervalValue := match parts with Some (v, _) => v | None => #1 end;
     intervalUnit := match parts with Some (_, u) => u | None => Hours end;
     cronExpression := cron;
     startImmediately := match prop "start_immediately" args with Some (VBool b) => b | _ => true end |}.

(** [None] is a field that is not sent; no schedule is an empty one. *)
Record UpdateJobRequest := { u_job_name : string; u_schedule : option (option JobScheduleRequest); u_tasks : option (list TaskPayload) }.

Definition handleEditSubmit (r : CreateJobRequest) (ch : JobCreatorChanges) : UpdateJobRequest := {|
  u_job_name := r_job_name r;
  u_schedule := if scheduleChanged ch then Some (r_schedule r) else None;
  u_tasks := if tasksChanged ch then Some (r_tasks r) else None |}.

(** ** The form as a machine *)

Record page := { form : creator; queries : lists; pending : option (lists * creator) }.

Definition with_form (c : creator) (g : page) : page := {| form := c; queries := queries g; pending := pending g |}.

Inductive event `{Env} (p : props) : page -> page -> Prop :=
| Fill name mode s space auth g : event p g (with_form (set_form name mode s space auth (form g)) g)
| Fill_template saved name text g : event p g (with_form (set_saving saved name text (form g)) g)
| Search text shown debounced g : event p g (with_form (set_suggestions text shown debounced (form g)) g)
| Choose_task id g : event p g (with_form (handleTaskTypeChange (queries g) id (form g)) g)
| Choose_template id g : event p g (with_form (handleTemplateSelect (queries g) id (form g)) g)
| Set_param n v g : event p g (with_form (handleParamChange n v (form g)) g)
| Set_template_param n v g : event p g (with_form (handleTemplateParamChange n v (form g)) g)
| Add_user u g : event p g (with_form (addTemplateUsername u (form g)) g)
| Remove_user u g : event p g (with_form (removeTemplateUsername u (form g)) g)
| Press key g : event p g (with_form (handleTemplateUsernameKeyDown key (form g)) g)
| Suggest_template u g : event p g (with_form (handleTemplateSuggestionSelect u (form g)) g)
| Suggest u g : event p g (with_form (handleUsernameSelect u (form g)) g)
| Save_as_template b g : event p g (with_form (handleSaveAsTemplateChange b (form g)) g)
| Add_task g : event p g (with_form (handleAddTask (queries g) (form g)) g)
| Remove_task i g : event p g (with_form (handleRemoveTask i (form g)) g)
| Close_error g : event p g (with_form (setError None (form g)) g)
| Lists_come q g : event p g {| form := form g; queries := q; pending := pending g |}
| Press_submit g : isSubmitDisabled p (queries g) (form g) (bool_decide (pending g <> None)) = false ->
    event p g {| form := form g; queries := queries g; pending := Some (queries g, form g) |}
| Refused q c ask text g : pending g = Some (q, c) -> submit p q c ask = inl text ->
    event p g {| form := failed None text (form g); queries := queries g; pending := None |}
| Sent q c ask r g : pending g = Some (q, c) -> submit p q c ask = inr r ->
    event p g {| form := sent (form g); queries := queries g; pending := None |}
| Not_sent q c ask r detail text g : pending g = Some (q, c) -> submit p q c ask = inr r ->
    event p g {| form := failed detail text (form g); queries := queries g; pending := None |}.

Inductive reachable `{Env} (p : props) : page -> Prop :=
| Begin q : reachable p {| form := opened p; queries := q; pending := None |}
| Next g g' : reachable p g -> event p g g' -> reachable p g'.

(** * What the form promises *)

(** ** Schedules as texts *)

(** No character's text begins another's, nor does a quote. *)
Definition all_chars : list ascii := map ascii_of_nat (seq 0 256).

Lemma all_chars_complete c : c ∈ all_chars.
Proof.
  apply list_elem_of_fmap. exists (nat_of_ascii c). split; [by rewrite ascii_nat_embedding|]. apply elem_of_seq. pose proof (nat_ascii_bounded c). lia.
Qed.

Definition apart_from (c c' : ascii) : bool := Ascii.eqb c c' || negb (starts_with (json_char c') (json_char c)).
Definition code_ok (c : ascii) : bool :=
  negb (starts_with (json_char c) (String dquote EmptyString)) && truthy (json_char c) && every (apart_from c) all_chars.

Lemma codes_ok : every code_ok all_chars = true.
Proof. vm_compute. reflexivity. Qed.

Lemma every_in {A} (p : A -> bool) l x : every p l = true -> x ∈ l -> p x = true.
Proof. unfold every. rewrite forallb_forall. intros H Hx. by apply H, list_elem_of_In. Qed.

Lemma code_is_ok c : code_ok c = true.
Proof. exact (every_in code_ok all_chars c codes_ok (all_chars_complete c)). Qed.

Lemma codes_apart c c' : starts_with (json_char c') (json_char c) = true -> c = c'.
Proof.
  intros H. pose proof (code_is_ok c) as K. apply andb_true_iff in K as [_ K].
  pose proof (every_in (apart_from c) all_chars c' K (all_chars_complete c')) as Ka. unfold apart_from in Ka.
  rewrite H, orb_false_r in Ka. by apply Ascii.eqb_eq in Ka.
Qed.

Lemma prefix_of_app a b x y : a +:+ x = b +:+ y -> starts_with b a = true \/ starts_with a b = true.
Proof.
  revert b. induction a as [|c a IH]; intros b H; [left; by destruct b|]. destruct b as [|c' b]; [by right|].
  injection H as -> H. unfold starts_with in *. cbn [String.prefix]. destruct (Ascii.ascii_dec c' c'); [|done]. by apply IH.
Qed.

Lemma code_first c c' x y : json_char c +:+ x = json_char c' +:+ y -> c = c' /\ x = y.
Proof.
  intros H. assert (E : c = c') by (apply prefix_of_app in H as [H|H]; [by apply codes_apart|symmetry; by apply codes_apart]).
  subst c'. split; [done|]. revert H. generalize (json_char c). intros s. induction s as [|d s IH]; [done|]. intros [= H]. by apply IH.
Qed.

Lemma quote_is_no_code c x y : json_char c +:+ x <> String dquote y.
Proof.
  intros H. pose proof (code_is_ok c) as K. apply andb_true_iff in K as [K _]. apply andb_true_iff in K as [K1 K2]. revert H K1 K2.
  generalize (json_char c). intros [|d s] H K1 K2; [done|].
  injection H as -> _. unfold starts_with in K1. cbn [String.prefix] in K1. by destruct (ascii_dec dquote dquote), s.
Qed.

Lemma json_chars_inj s : forall s' x y, json_chars s +:+ String dquote x = json_chars s' +:+ String dquote y -> s = s' /\ x = y.
Proof.
  induction s as [|c s IH]; intros [|c' s'] x y H; cbn [json_chars] in H; rewrite ?app_assoc_str in H.
  - by injection H as ->.
  - symmetry in H. by apply quote_is_no_code in H.
  - by apply quote_is_no_code in H.
  - apply code_first in H as [-> H]. by destruct (IH s' x y H) as [-> ->].
Qed.

(** A quoted text ends where it is read to end. *)
Lemma json_string_inj s s' x y : json_string s +:+ x = json_string s' +:+ y -> s = s' /\ x = y.
Proof.
  unfold json_string. intros H. apply (json_chars_inj s s' x y). injection H as H. by rewrite !app_assoc_str in H.
Qed.

(** What may follow a value in a text: not a character of a number. *)
Definition ends_value (s : string) : Prop := match s with String c _ => numeric c = false | EmptyString => True end.

Lemma numeric_split a b x y : all_numeric a -> all_numeric b -> ends_value x -> ends_value y -> a +:+ x = b +:+ y -> a = b /\ x = y.
Proof.
  unfold all_numeric. revert b. induction a as [|c a IH]; intros [|c' b] Ha Hb Hx Hy H; cbn [str_forall] in *.
  - done.
  - apply andb_true_iff in Hb as [Hc _]. change (x = String c' (b +:+ y)) in H. rewrite H in Hx. cbn in Hx. congruence.
  - apply andb_true_iff in Ha as [Hc _]. change (String c (a +:+ x) = y) in H. rewrite <- H in Hy. cbn in Hy. congruence.
  - apply andb_true_iff in Ha as [_ Ha], Hb as [_ Hb]. injection H as -> H. by destruct (IH b Ha Hb Hx Hy H) as [-> ->].
Qed.

(** A number that its text gives back, as one that was typed in is. *)
Definition plain_number (n : num) : Prop := number_of_string (show_num n) = n.

Definition number_text (n : num) : string := if is_finite n then show_num n else "null".

Lemma show_num_split n n' x y : plain_number n -> plain_number n' -> is_finite n = true -> is_finite n' = true -> ends_value x -> ends_value y ->
  show_num n +:+ x = show_num n' +:+ y -> n = n' /\ x = y.
Proof.
  intros Hn Hn' F F' Hx Hy H. apply numeric_split in H as [H ->]; [|by apply show_num_numeric..|done|done]. split; [|done].
  unfold plain_number in *. by rewrite <- Hn, H, Hn'.
Qed.

(** The text of a number does not begin as one of the other values does. *)
Lemma number_first n c x y : is_finite n = true -> numeric c = false -> show_num n +:+ x = String c y -> False.
Proof.
  intros F Hc H. pose proof (show_num_numeric n F) as Hs. pose proof (show_num_nonempty n) as Hn. unfold all_numeric in Hs.
  destruct (show_num n) as [|d s]; [done|]. injection H as -> _. cbn [str_forall] in Hs. by rewrite Hc in Hs.
Qed.

Lemma number_text_inj n n' x y : plain_number n -> plain_number n' -> number_text n +:+ String "," x = number_text n' +:+ String "," y ->
  (n = n' \/ is_finite n = false /\ is_finite n' = false) /\ x = y.
Proof.
  intros Hn Hn' H. unfold number_text in H. destruct (is_finite n) eqn:F, (is_finite n') eqn:F'.
  - apply show_num_split in H as [-> [= ->]]; try done. split; [by left|done].
  - by apply number_first in H.
  - symmetry in H. by apply number_first in H.
  - injection H as ->. split; [by right|done].
Qed.

(** ** JSON texts of tasks *)

(** The texts of a list's elements with what follows them. *)
Fixpoint more_texts {A} (f : A -> string) (close : ascii) (l : list A) (x : string) : string :=
  match l with [] => String close x | a :: r => String "," (f a +:+ more_texts f close r x) end.
Definition texts {A} (f : A -> string) (close : ascii) (l : list A) (x : string) : string :=
  match l with [] => String close x | a :: r => f a +:+ more_texts f close r x end.

Lemma joined_texts_of {A} (f : A -> string) close l x : join "," (map f l) +:+ String close x = texts f close l x.
Proof.
  unfold join. destruct l as [|a l]; [done|]. cbn [map texts]. revert a. induction l as [|b l IH]; intros a; [done|].
  change (String.concat "," (f a :: map f (b :: l))) with (f a +:+ String "," (String.concat "," (f b :: map f l))).
  rewrite app_assoc_str. cbn [more_texts]. by rewrite <- IH.
Qed.

(** The text of a value that is not a list or an object tells it apart, whatever follows. *)
Definition told_apart {A} (f : A -> string) (P : A -> Prop) (a : A) : Prop :=
  forall a' x y, P a -> P a' -> ends_value x -> ends_value y -> f a +:+ x = f a' +:+ y -> a = a' /\ x = y.

Lemma more_ends {A} (f : A -> string) close l x : numeric close = false -> ends_value (more_texts f close l x).
Proof. by destruct l. Qed.

Lemma more_texts_inj {A} (f : A -> string) (P : A -> Prop) close l l' x y :
  numeric close = false -> close <> ","%char -> Forall (told_apart f P) l -> Forall P l -> Forall P l' ->
  more_texts f close l x = more_texts f close l' y -> l = l' /\ x = y.
Proof.
  intros Hn Hc Hl HP. revert l'. induction Hl as [|a l Ha Hl IH]; intros [|a' l'] HP' H; cbn [more_texts] in H.
  - by injection H as ->.
  - injection H as H _. by destruct Hc.
  - injection H as H _. by destruct Hc.
  - injection H as H. apply Forall_cons in HP as [Pa HP], HP' as [Pa' HP'].
    apply Ha in H as [-> H]; [|done|done|by apply more_ends..]. by destruct (IH HP l' HP' H) as [-> ->].
Qed.

Lemma texts_inj {A} (f : A -> string) (P : A -> Prop) close l l' x y :
  numeric close = false -> close <> ","%char -> (forall a z t, P a -> f a +:+ z <> String close t) ->
  Forall (told_apart f P) l -> Forall P l -> Forall P l' -> texts f close l x = texts f close l' y -> l = l' /\ x = y.
Proof.
  intros Hn Hc Hf Hl HP HP' H. destruct l as [|a l], l' as [|a' l']; cbn [texts] in H.
  - by injection H as ->.
  - symmetry in H. apply Hf in H; [done|]. by apply Forall_cons in HP' as [? _].
  - apply Hf in H; [done|]. by apply Forall_cons in HP as [? _].
  - apply Forall_cons in HP as [Pa HP], HP' as [Pa' HP'], Hl as [Ha Hl].
    apply Ha in H as [-> H]; [|done|done|by apply more_ends..].
    by destruct (more_texts_inj f P close l l' x y Hn Hc Hl HP HP' H) as [-> ->].
Qed.

(** A value whose text gives it back: its numbers are finite and give themselves back, its
    objects list their fields in the order in which they are enumerated. *)
Fixpoint plain_value (v : value) : Prop :=
  match v with
  | VNum n => is_finite n = true /\ plain_number n
  | VArr l => foldr (fun v P => plain_value v /\ P) True l
  | VObj fs => own_entries fs = fs /\ foldr (fun e P => plain_value e.2 /\ P) True fs
  | _ => True
  end.

Definition field_text (e : string * value) : string := json_string e.1 +:+ ":" +:+ json e.2.

Lemma json_obj fs x : own_entries fs = fs -> json (VObj fs) +:+ x = String "{" (texts field_text "}" fs x).
Proof.
  intros Ho. cbn [json]. rewrite <- (own_entries_map (fun e => (e.1, json e.2))), Ho by done.
  rewrite (map_map (fun e : string * value => (e.1, json e.2))). rewrite !app_assoc_str. rewrite <- joined_texts_of. done.
Qed.

Lemma json_arr l x : json (VArr l) +:+ x = String "[" (texts json "]" l x).
Proof. cbn [json]. rewrite !app_assoc_str. by rewrite <- joined_texts_of. Qed.

(** What a value's text begins with, if it is not a number. *)
Definition first_of (v : value) : option ascii :=
  match v with
  | VNull => Some "n"%char
  | VBool b => Some (if b then "t"%char else "f"%char)
  | VNum _ => None
  | VStr _ => Some dquote
  | VArr _ => Some "["%char
  | VObj _ => Some "{"%char
  end.

Lemma json_first v x : plain_value v ->
  exists c y, json v +:+ x = String c y /\ match first_of v with Some d => c = d | None => numeric c = true end.
Proof.
  destruct v as [|[]|n|s|l|fs]; cbn [first_of]; intros Hv; try (do 2 eexists; by split).
  destruct Hv as [F _]. cbn [json]. rewrite F. pose proof (show_num_numeric n F) as Hs. pose proof (show_num_nonempty n) as Hn. unfold all_numeric in Hs.
  destruct (show_num n) as [|c s]; [done|]. cbn [str_forall] in Hs. apply andb_true_iff in Hs as [Hc _]. exists c, (s +:+ x). by split.
Qed.

Lemma json_not_closed v x y : plain_value v -> json v +:+ x <> String "]" y.
Proof. intros Hv H. destruct (json_first v x Hv) as (c & z & E & K). rewrite E in H. injection H as -> _. by destruct v as [|[]| | | |]. Qed.

Lemma same_kind v v' x y : plain_value v -> plain_value v' -> json v +:+ x = json v' +:+ y -> first_of v = first_of v'.
Proof.
  intros P P' H. destruct (json_first v x P) as (c & z & E & K), (json_first v' y P') as (c' & z' & E' & K').
  rewrite E, E' in H. injection H as <- _. destruct v as [|[]| | | |], v' as [|[]| | | |]; cbn [first_of] in *; congruence || (subst; done).
Qed.

Lemma field_apart (e : string * value) :
  told_apart json plain_value e.2 -> told_apart field_text (fun e => plain_value e.2) e.
Proof.
  destruct e as [k v]. intros Hv [k' v'] x y P P' Hx Hy H. unfold field_text in H. cbn [fst snd] in *. rewrite !app_assoc_str in H.
  apply json_string_inj in H as [-> H]. injection H as H. by apply Hv in H as [-> ->].
Qed.

Lemma same_head (h x y : string) : h +:+ x = h +:+ y -> x = y.
Proof. induction h as [|c h IH]; [done|]. intros [= H]. by apply IH. Qed.

(** A value's text is its alone. *)
Lemma json_told_apart v : told_apart json plain_value v.
Proof.
  induction v as [|b|n|s|l IH|fs IH] using value_ind'; intros v' x y P P' Hx Hy H; pose proof (same_kind _ _ _ _ P P' H) as K;
    destruct v' as [|b'|n'|s'|l'|fs']; try discriminate K; try (by destruct b); try (by destruct b').
  - by apply (same_head "null") in H.
  - destruct b, b'; try done; by apply same_head in H.
  - destruct P as [F Hn], P' as [F' Hn']. cbn [json] in H. rewrite F, F' in H. by apply show_num_split in H as [-> ->].
  - by apply json_string_inj in H as [-> ->].
  - cbn [plain_value] in P, P'. apply foldr_Forall in P, P'. rewrite !json_arr in H. injection H as H.
    apply (texts_inj json plain_value) in H as [-> ->]; try done. intros a z t Pa. by apply json_not_closed.
  - destruct P as [Ho P], P' as [Ho' P']. apply (foldr_Forall (fun e : string * value => plain_value e.2)) in P, P'. rewrite !json_obj in H by done. injection H as H.
    apply (texts_inj field_text (fun e => plain_value e.2)) in H as [-> ->]; try done.
    eapply Forall_impl; [exact IH|]. intros e. apply field_apart.
Qed.

Definition plain_task (t : TaskPayload) : Prop := plain_value (VObj (task_params t)).

(** Tasks that differ have different texts. *)
Lemma tasks_text_inj l l' : Forall plain_task l -> Forall plain_task l' -> tasks_text l = tasks_text l' -> l = l'.
Proof.
  intros Hl Hl' E. assert (Hp : forall l, Forall plain_task l -> plain_value (VArr (map task_value l))).
  { intros l0 H. cbn [plain_value]. apply foldr_Forall, Forall_fmap. eapply Forall_impl; [exact H|]. intros t Ht. split; [done|]. by split; [|split]. }
  unfold tasks_text in E. assert (E' : json (VArr (map task_value l)) +:+ EmptyString = json (VArr (map task_value l')) +:+ EmptyString) by (by rewrite E).
  apply json_told_apart in E' as [E' _]; [|by apply Hp..|done|done]. injection E' as E'.
  assert (Hi : Inj (=) (=) task_value) by (intros [t p] [t' p']; by intros [= -> ->]). by apply (inj (fmap task_value)).
Qed.

Lemma unit_text_inj u u' : unit_text u = unit_text u' -> u = u'.
Proof. by destruct u, u'. Qed.

(** The texts of the four kinds of schedule. *)
Definition snapshot_text (s : schedule_input) : string :=
  if negb (scheduleEnabled s) then "[]"
  else match scheduleType s with
       | Once => "[" +:+ json_string "once" +:+ String "," (json_string (scheduleAt s) +:+ "]")
       | Cron => "[" +:+ json_string "cron" +:+ String "," (json_string (trim (cronExpression s)) +:+ "]")
       | Interval => "[" +:+ json_string "interval" +:+ String "," (number_text (intervalValue s) +:+ String "," (json_string (unit_text (intervalUnit s))
                     +:+ String "," ((if startImmediately s then "true" else "false") +:+ "]")))
       end.

Lemma snapshot_is_text s : scheduleSnapshot s = snapshot_text s.
Proof.
  unfold scheduleSnapshot, snapshot_text. destruct (negb _); [done|]. destruct (scheduleType s); cbn [json map join String.concat].
  - by rewrite !app_assoc_str.
  - fold (number_text (intervalValue s)). by rewrite !app_assoc_str.
  - by rewrite !app_assoc_str.
Qed.

Lemma after_head h x y : "[" +:+ h +:+ String "," x = "[" +:+ h +:+ String "," y -> x = y.
Proof.
  change ("[" +:+ ?z) with (String "[" z). intros H. injection H as H. revert H. induction h as [|c h IH]; intros H; injection H; [done|exact IH].
Qed.

(** Two schedules that the form takes for the same: both switched off, or of the same kind
    with the same time, interval and start, or cron expression. *)
Definition same_choice (s s' : schedule_input) : Prop :=
  scheduleEnabled s = scheduleEnabled s' /\
  (scheduleEnabled s = true ->
   scheduleType s = scheduleType s' /\
   match scheduleType s with
   | Once => scheduleAt s = scheduleAt s'
   | Interval => (intervalValue s = intervalValue s' \/ is_finite (intervalValue s) = false /\ is_finite (intervalValue s') = false) /\
                 intervalUnit s = intervalUnit s' /\ startImmediately s = startImmediately s'
   | Cron => trim (cronExpression s) = trim (cronExpression s')
   end).

Lemma snapshot_apart s s' : plain_number (intervalValue s) -> plain_number (intervalValue s') ->
  scheduleSnapshot s = scheduleSnapshot s' -> same_choice s s'.
Proof.
  intros Hn Hn' E. rewrite !snapshot_is_text in E. unfold snapshot_text in E. unfold same_choice.
  destruct (scheduleEnabled s), (scheduleEnabled s'); cbn [negb] in E; try done.
  2,3: match type of E with context [scheduleType ?x] => destruct (scheduleType x); discriminate E end.
  split; [done|]. intros _. destruct (scheduleType s), (scheduleType s'); try discriminate E; (split; [done|]); apply after_head in E.
  - by apply json_string_inj in E as [-> _].
  - apply number_text_inj in E as [Hv E]; [|done..]. split; [done|]. apply json_string_inj in E as [Hu%unit_text_inj E]. split; [done|].
    injection E as E. by destruct (startImmediately s), (startImmediately s').
  - by apply json_string_inj in E as [-> _].
Qed.

Lemma same_choice_snapshot s s' : same_choice s s' -> scheduleSnapshot s = scheduleSnapshot s'.
Proof.
  intros [He H]. rewrite !snapshot_is_text. unfold snapshot_text. rewrite <- He. destruct (scheduleEnabled s); [|done].
  destruct (H eq_refl) as [<- K]. cbn [negb]. destruct (scheduleType s); [by rewrite K| |by rewrite K].
  destruct K as (Hv & -> & ->). unfold number_text. by destruct Hv as [->|[-> ->]].
Qed.

Lemma same_choice_built `{Env} s s' : same_choice s s' -> build_schedule s = build_schedule s'.
Proof.
  intros [He H']. unfold build_schedule. rewrite <- He. destruct (scheduleEnabled s); [|done].
  destruct (H' eq_refl) as [<- K]. cbn [negb]. destruct (scheduleType s); [by rewrite K| |by rewrite K].
  destruct K as (Hv & -> & ->). by destruct Hv as [->|[-> ->]].
Qed.

(** ** What is sent *)

(** A template without a name takes the job's. *)
Lemma named_template c : truthy (trim (jobName c)) = true -> truthy (trimmedTemplateName c) = true.
Proof. intros H. unfold trimmedTemplateName, str_or. by destruct (truthy (trim (templateName c))) eqn:E. Qed.

Lemma build_job_inr `{Env} p c r : build_job p c = inr r ->
  truthy (trim (jobName c)) = true /\ missingRequiredTasks p c = false /\ build_schedule (schedule c) = inr (r_schedule r) /\
  r_job_name r = jobName c /\ r_tasks r = tasks c /\ r_ignore_space r = ignoreSpaceRequirements c.
Proof.
  unfold build_job. destruct (truthy (trim (jobName c))); [|done]. cbn [negb]. destruct (missingRequiredTasks p c); [done|].
  destruct (_ && _); [done|]. destruct (build_schedule (schedule c)) as [|s]; [done|]. by intros [= <-].
Qed.

(** A schedule that says when. *)
Definition schedule_complete `{Env} (s : schedule_input) : Prop :=
  scheduleEnabled s = true ->
  match scheduleType s with
  | Once => truthy (scheduleAt s) = true /\ is_nan (date_ms (scheduleAt s)) = false
  | Interval => is_finite (intervalValue s) = true /\ (intervalValue s <=! #0) = false
  | Cron => truthy (trim (cronExpression s)) = true
  end.

Lemma schedule_built `{Env} s : (exists x, build_schedule s = inr x) <-> schedule_complete s.
Proof.
  unfold build_schedule, schedule_complete. destruct (scheduleEnabled s); cbn [negb]; [|split; [done|by eexists]].
  assert (K : forall A : Prop, (true = true -> A) <-> A) by (intros A; split; [by intros HA; apply HA|done]). rewrite K. clear K.
  destruct (scheduleType s).
  - destruct (truthy (scheduleAt s)), (is_nan _); cbn [negb]; split; intros K; try (by destruct K); eexists; reflexivity.
  - destruct (is_finite _), (_ <=! _); cbn [negb orb]; split; intros K; try (by destruct K); eexists; reflexivity.
  - destruct (truthy _); cbn [negb]; split; intros K; try done; try (by destruct K); eexists; reflexivity.
Qed.

Definition seconds_of (u : IntervalUnit) : Z := match u with Days => 86400 | Hours => 3600 | Minutes => 60 end.

(** The schedule that [s] shows: none when it is switched off; the instant of the time
    chosen; the interval in seconds, rounded, and whether to start at once; the cron
    expression without the spaces around it. *)
Definition schedule_shown `{Env} (s : schedule_input) : option JobScheduleRequest :=
  if scheduleEnabled s then
    Some match scheduleType s with
         | Once => {| scheduled_for := Some (iso_string (num_to_Z (date_ms (scheduleAt s)))); interval_seconds := None; cron := None; start_immediately := None |}
         | Interval => {| scheduled_for := None; interval_seconds := Some (math_round (intervalValue s ⊗ #(seconds_of (intervalUnit s)))); cron := None;
                          start_immediately := Some (startImmediately s) |}
         | Cron => {| scheduled_for := None; interval_seconds := None; cron := Some (trim (cronExpression s)); start_immediately := None |}
         end
  else None.

Lemma schedule_built_shown `{Env} s x : build_schedule s = inr x -> x = schedule_shown s.
Proof.
  unfold build_schedule, schedule_shown. destruct (scheduleEnabled s); [|by intros [= <-]]. cbn [negb]. destruct (scheduleType s).
  - destruct (negb _); [done|]. destruct (is_nan _); [done|]. by intros [= <-].
  - destruct (_ || _); [done|]. intros [= <-]. by destruct (intervalUnit s).
  - destruct (negb _); [done|]. by intros [= <-].
Qed.

(** What a template saved with the job is called and said to be. *)
Definition template_shown (c : creator) : string * option string :=
  (if truthy (trim (templateName c)) then trim (templateName c) else trim (jobName c),
   if truthy (trim (templateDescription c)) then Some (trim (templateDescription c)) else None).

(** C24. A job is sent exactly when the form is complete: a name, a task (unless a job
    without tasks is edited) and a schedule that says when. It is then sent as it is
    shown: its name, its tasks, whether it ignores the space left, its schedule in
    seconds, as an instant or as a cron expression, and, for a new job that is to be
    saved as a template, the name chosen for that, or else the job's, and its
    description. *)
Theorem job_is_sent_as_shown `{Env} p c :
  ((exists r, build_job p c = inr r) <->
   truthy (trim (jobName c)) = true /\ (tasks c <> [] \/ editing p = true /\ initialTasks p = []) /\
   schedule_complete (schedule c)) /\
  (forall r, build_job p c = inr r ->
     r = {| r_job_name := jobName c; r_tasks := tasks c; r_schedule := schedule_shown (schedule c); r_ignore_space := ignoreSpaceRequirements c;
            r_template := if negb (editing p) && saveAsTemplate c then Some (template_shown c) else None |}).
Proof.
  assert (Hm : missingRequiredTasks p c = false <-> (tasks c <> [] \/ editing p = true /\ initialTasks p = [])).
  { unfold missingRequiredTasks. destruct (tasks c); cbn; [|split; [by left|done]]. destruct (editing p), (initialTasks p); cbn; naive_solver. }
  rewrite <- Hm. split; [split|].
  - intros [r Hr]. pose proof (build_job_inr p c r Hr) as (H1 & H2 & H3 & _). split; [done|]. split; [done|]. apply schedule_built. by eexists.
  - intros (H1 & H2 & [x Hx]%schedule_built). unfold build_job. rewrite H1, H2. cbn [negb].
    assert (Hn : truthy (trimmedTemplateName c) = true) by (by apply named_template). rewrite Hn, andb_false_r, Hx. by eexists.
  - intros r Hr. pose proof (build_job_inr p c r Hr) as (H1 & H2 & H3%schedule_built_shown & H4 & H5 & H6). rewrite <- H3.
    unfold build_job in Hr. rewrite H1, H2 in Hr. cbn [negb] in Hr. rewrite (named_template c H1), andb_false_r in Hr.
    destruct (build_schedule (schedule c)); [done|]. injection Hr as <-. cbn [r_schedule]. f_equal.
Qed.

(** ** Editing *)

(** C23. An edit sends the schedule, as it is shown, exactly when another one was chosen,
    and the tasks exactly when they changed. What is not sent is as it was when the
    form was opened. The comparison is of JSON texts, so this is for values that such a
    text gives back: interval numbers that are read back from their text, and
    parameters whose numbers are finite and read back, and whose objects list their
    fields in the order in which they are enumerated. *)
Theorem edit_sends_what_changed `{Env} p c r
    (Hn : plain_number (intervalValue (schedule c))) (Ho : plain_number (intervalValue (schedule (opened p))))
    (Ht : Forall plain_task (tasks c)) (Hi : Forall plain_task (initialTasks p))
    (Hr : build_job p c = inr r) :
  let u := handleEditSubmit r (changes p c) in
  u_job_name u = jobName c /\
  (same_choice (schedule c) (schedule (opened p)) ->
     u_schedule u = None /\ build_schedule (schedule (opened p)) = build_schedule (schedule c)) /\
  (~ same_choice (schedule c) (schedule (opened p)) -> u_schedule u = Some (schedule_shown (schedule c))) /\
  (tasks c = initialTasks p -> u_tasks u = None) /\ (tasks c <> initialTasks p -> u_tasks u = Some (tasks c)).
Proof.
  intros u. pose proof (build_job_inr p c r Hr) as (_ & _ & Hs & Hj & Hl & _). unfold u, handleEditSubmit, changes.
  cbn [u_job_name u_schedule u_tasks tasksChanged scheduleChanged]. rewrite Hj, Hl, <- (schedule_built_shown _ _ Hs). split; [done|]. split_and!.
  - intros E. rewrite (same_choice_snapshot _ _ E), str_eqb_refl. split; [done|]. symmetry. by apply same_choice_built.
  - intros E. destruct (_ =s _) eqn:Es; [|done]. apply str_eqb_eq in Es. by destruct E; apply snapshot_apart.
  - intros ->. by rewrite str_eqb_refl.
  - intros E. destruct (_ =s _) eqn:Es; [|done]. apply str_eqb_eq in Es. by destruct E; apply tasks_text_inj.
Qed.

Lemma exact_parts n : 0 < n -> safe n -> n mod 60 = 0 ->
  exists k u, getIntervalParts (Some (#n)) = Some (#k, u) /\ 0 < k /\ k * seconds_of u = n.
Proof.
  intros Hn Hs Hm. unfold getIntervalParts. rewrite truthy_int, leb_int by (done || (unfold safe; lia)).
  rewrite (proj2 (Z.eqb_neq n 0)), (proj2 (Z.leb_gt n 0)) by lia. cbn [negb orb].
  assert (M : forall b, 0 < b < 2 ^ 53 -> (num_rem #n #b =! #0) = (n mod b =? 0)).
  { intros b Hb. pose proof (Z.mod_pos_bound n b ltac:(lia)). rewrite rem_int by (lia || (unfold safe in *; lia)).
    apply eqb_int; unfold safe in *; lia. }
  rewrite !M by lia.
  assert (D : forall b, 0 < b -> n mod b = 0 -> n = n / b * b) by (intros b Hb Hb0; pose proof (Z.div_mod n b); lia).
  assert (P : forall b, 0 < b -> n mod b = 0 -> 0 < n / b) by (intros b Hb Hb0; pose proof (D b Hb Hb0); nia).
  assert (Q : forall b, 1 <= b < 2 ^ 53 -> n mod b = 0 -> #n ⊘ #b = #(n / b)).
  { intros b Hb Hb0. rewrite (D b) at 1 by lia. specialize (D b ltac:(lia) Hb0). specialize (P b ltac:(lia) Hb0).
    apply div_int; try lia; unfold safe in *; nia. }
  destruct (Z.eqb_spec (n mod 86400) 0) as [E|_]; 
    [exists (n / 86400), Days; rewrite Q by lia; split; [done|]; split; [apply P; lia|exact (eq_sym (D 86400 ltac:(lia) E))]|].
  destruct (Z.eqb_spec (n mod 3600) 0) as [E|_]; 
    [exists (n / 3600), Hours; rewrite Q by lia; split; [done|]; split; [apply P; lia|exact (eq_sym (D 3600 ltac:(lia) E))]|].
  specialize (P 60 ltac:(lia) Hm). specialize (D 60 ltac:(lia) Hm). exists (n / 60), Minutes. rewrite Q, round_int, max_int by (lia || (unfold safe in *; lia)).
  split; [by rewrite Z.max_r by lia|]. split; [done|symmetry; exact D].
Qed.

(** C26. A job that repeats every so many minutes, opened to be edited, would be saved with
    the very same interval. *)
Theorem interval_survives_editing `{Env} n start (Hpos : 0 < n) (Hsafe : safe n) (Hm : n mod 60 = 0) :
  build_schedule (initialSchedule_of [("interval_seconds", VNum (#n)); ("start_immediately", VBool start)] None None None) =
  inr (Some {| scheduled_for := None; interval_seconds := Some (#n); cron := None; start_immediately := Some start |}).
Proof.
  destruct (exact_parts n Hpos Hsafe Hm) as (k & u & E & Hk & Hn). unfold initialSchedule_of.
  change (prop "interval_seconds" _) with (Some (VNum (#n))). change (prop "scheduled_for" _) with (@None value). change (prop "cron" _) with (@None value).
  change (prop "start_immediately" _) with (Some (VBool start)). cbv zeta iota. rewrite E. change (None ?? EmptyString) with EmptyString.
  rewrite truthy_int, (proj2 (Z.eqb_neq n 0)) by (done || lia). unfold build_schedule. cbn [truthy orb negb scheduleEnabled scheduleType intervalValue intervalUnit startImmediately].
  assert (Hks : safe k) by (unfold safe in *; destruct u; cbn [seconds_of] in Hn; lia).
  rewrite finite_int, leb_int by (done || (unfold safe; lia)). rewrite (proj2 (Z.leb_gt k 0)) by lia. cbn [negb orb].
  assert (Hu : unitSeconds u = #(seconds_of u)) by (by destruct u). rewrite Hu, mul_int, Hn, round_int; try (done || lia).
  - unfold safe. destruct u; cbn; lia.
  - by rewrite Hn.
Qed.

(** ** The entries of a template *)

Lemma user_entries_in q c ask names : forall l, user_entries q c ask names = inr l -> forall e, e ∈ l -> e_username e ∈ names.
Proof.
  induction names as [|u r IH]; intros l H e He; cbn [user_entries] in H; [injection H as <-; by apply elem_of_nil in He|].
  destruct (auths_for q c ask u) as [|auths]; [done|]. destruct (user_entries q c ask r) as [|l']; [done|]. injection H as <-.
  apply elem_of_app in He as [He|He]; [|right; by apply (IH l')]. apply list_elem_of_fmap in He as (a & -> & _). by left.
Qed.

Lemma auths_for_once q c ask u auths : NoDup (map a_user_id (activeAuths q)) -> auths_for q c ask u = inr auths -> NoDup (map a_user_id auths).
Proof.
  intros Hq. unfold auths_for. destruct (selectedAuthId c) as [id|].
  - intros [= <-]. destruct (find_first _ _); repeat constructor. by intros ?%elem_of_nil.
  - destruct (ask u) as [|totals]; [done|]. intros [= <-]. by apply NoDup_map_keep.
Qed.

Lemma NoDup_entries u (l : list AuthCredential) : NoDup (map a_user_id l) -> NoDup (map (fun a => {| e_username := u; e_auth_id := a_user_id a |}) l).
Proof.
  intros H. apply (NoDup_fmap_1 e_auth_id). change (NoDup (map e_auth_id (map (fun a => {| e_username := u; e_auth_id := a_user_id a |}) l))).
  by rewrite map_map.
Qed.

Lemma user_entries_once q c ask names : NoDup (map a_user_id (activeAuths q)) -> NoDup names -> forall l, user_entries q c ask names = inr l -> NoDup l.
Proof.
  intros Hq. induction 1 as [|u r Hu _ IH]; intros l H; cbn [user_entries] in H; [injection H as <-; constructor|].
  destruct (auths_for q c ask u) as [|auths] eqn:Ea; [done|]. destruct (user_entries q c ask r) as [|l'] eqn:Er; [done|]. injection H as <-.
  apply NoDup_app. split; [by apply NoDup_entries, (auths_for_once q c ask u)|]. split; [|by apply IH].
  intros e He He'. apply list_elem_of_fmap in He as (a & -> & _). apply (user_entries_in q c ask r l' Er) in He'. done.
Qed.

Lemma auth_entries_once q c : NoDup (map a_user_id (activeAuths q)) -> NoDup (auth_entries q c).
Proof.
  intros H. apply (NoDup_fmap_1 e_auth_id). unfold auth_entries. set (l := match selectedAuthId c with None => _ | Some id => _ end).
  assert (Hl : NoDup (map a_user_id l)) by (unfold l; destruct (selectedAuthId c); [by apply NoDup_map_keep|done]). clearbody l.
  change (NoDup (map e_auth_id (map (fun a => {| e_username := match truthy_opt (a_username a) with Some u => u | None => "auth-" +:+ show_num (a_user_id a) end;
                                                 e_auth_id := a_user_id a |}) l))). by rewrite map_map.
Qed.

(** Users of a template are listed once. *)
Definition once (c : creator) : Prop := NoDup (templateUsernames c).

Lemma once_add u c : once c -> once (addTemplateUsername u c).
Proof. unfold once, addTemplateUsername. intros H. destruct (truthy _); [by apply NoDup_set_add|done]. Qed.

Record listed_once (g : page) : Prop := {
  form_once : once (form g);
  pending_once : forall q c, pending g = Some (q, c) -> once c
}.

Lemma once_event `{Env} p g g' : listed_once g -> event p g g' -> listed_once g'.
Proof.
  intros [Hf Hp] He.
  assert (keeps : forall c, (once (form g) -> once c) -> listed_once (with_form c g)) by (intros c Hc; split; [by apply Hc|exact Hp]).
  destruct He; try (by apply keeps); try (by split).
  - apply keeps. intros Ho. unfold handleTaskTypeChange. by destruct (find_first _ _).
  - apply keeps. intros Ho. unfold handleTemplateSelect. by destruct (find_first _ _); apply NoDup_nil.
  - apply keeps, once_add.
  - apply keeps. intros Ho. unfold once, removeTemplateUsername in *. cbn [templateUsernames set_template]. unfold set_delete, keep.
    rewrite <- (map_id (templateUsernames _)) in Ho. apply (NoDup_map_keep id (fun x => negb (x =s u))) in Ho. by rewrite map_id in Ho.
  - apply keeps. unfold handleTemplateUsernameKeyDown. destruct (_ && _); [apply once_add|done].
  - apply keeps. apply once_add.
  - apply keeps. intros Ho. unfold handleAddTask. destruct (selectedTaskDef _ _); [|done]. by destruct (missing_task_param _ _).
  - split; [done|]. cbn [pending]. by intros q c [= <- <-].
  - split; [|done]. apply NoDup_nil. done.
Qed.

Lemma reachable_once `{Env} p g : reachable p g -> listed_once g.
Proof. induction 1 as [q|g g' _ IH He]; [split; [apply NoDup_nil; done|done]|by apply (once_event p g)]. Qed.

Lemma template_entries `{Env} q c ask id r : build_template q c ask = inr (id, r) -> batchEntries q c ask = inr (i_entries r) /\ i_entries r <> [].
Proof.
  unfold build_template. destruct (negb _); [done|]. destruct (_ && _); [done|]. destruct (_ ?> _); [done|]. destruct (build_schedule _); [done|].
  destruct (batchEntries q c ask) as [|[|e l]]; [done..|]. by intros [= <- <-].
Qed.

(** However the form is filled, no account is given the same user twice by what a
    template sends. *)
Theorem no_entry_twice `{Env} p g q c ask id r
    (Hg : reachable p g) (Hp : pending g = Some (q, c)) (Hq : NoDup (map a_user_id (activeAuths q)))
    (Hr : submit p q c ask = inr (Instantiate id r)) :
  NoDup (i_entries r) /\ i_entries r <> [].
Proof.
  apply reachable_once in Hg as [_ Ho]. specialize (Ho q c Hp). revert Hr. unfold submit. destruct (from_template c);
    [|destruct (build_job p c); [done|]; by destruct (submits p)].
  destruct (build_template q c ask) as [|[id' r']] eqn:E; [done|]. intros [= -> ->]. apply template_entries in E as [B Hne]. split; [|done].
  revert B. unfold batchEntries. destruct (templateUsesUsernameParam q c); intros B; [by apply (user_entries_once q c ask _ Hq Ho)|].
  injection B as <-. by apply auth_entries_once.
Qed.

(** ** The preview *)

Lemma checked_auths totals auths names u : forall m,
  JMap.get u (foldl (fun m u => JMap.set u (map a_id (qualifying auths (totals u))) m) m names) =
  if str_in u names then Some (map a_id (qualifying auths (totals u))) else JMap.get u m.
Proof.
  induction names as [|v names IH]; intros m; [done|]. cbn [foldl]. rewrite IH.
  assert (E : str_in u (v :: names) = (v =s u) || str_in u names).
  { apply eq_true_iff_eq. rewrite orb_true_iff, !str_in_iff, elem_of_cons, str_eqb_eq. naive_solver. }
  rewrite E. destruct (v =s u) eqn:Ev; cbn [orb].
  - apply str_eqb_eq in Ev as ->. destruct (str_in u names); [done|]. apply JMap.get_set_eq.
  - destruct (str_in u names); [done|]. apply str_eqb_neq in Ev. by apply JMap.get_set_ne.
Qed.

Lemma checked_count totals auths names : forall l, (forall u, u ∈ l -> u ∈ names) ->
  sum_list (map (fun u => match JMap.get u (check_auths totals auths names) with Some l => length l | None => 0%nat end) l) =
  sum_list (map (fun u => length (qualifying auths (totals u))) l).
Proof.
  induction l as [|u l IH]; intros H; [done|]. cbn [map sum_list]. rewrite IH by (intros v Hv; apply H; by right). f_equal.
  unfold check_auths. rewrite checked_auths, (proj2 (str_in_iff u names)) by (apply H; left). by rewrite length_map.
Qed.

Lemma user_entries_counted q c ask names : forall l, user_entries q c ask names = inr l ->
  length l = sum_list (map (fun u => match auths_for q c ask u with inr auths => length auths | inl _ => 0%nat end) names).
Proof.
  induction names as [|u r IH]; intros l H; cbn [user_entries] in H; [by injection H as <-|]. cbn [map sum_list].
  destruct (auths_for q c ask u) as [|auths]; [done|]. destruct (user_entries q c ask r) as [|l']; [done|]. injection H as <-.
  rewrite length_app, length_map, <- (IH l') by done. done.
Qed.

Lemma sum_ones {A} (f : A -> nat) l : (forall x, f x = 1%nat) -> sum_list (map f l) = length l.
Proof. intros H. induction l as [|x l IH]; [done|]. cbn [map sum_list length]. rewrite H, IH. done. Qed.

Lemma template_users `{Env} q c ask id r : build_template q c ask = inr (id, r) -> templateUsesUsernameParam q c = true -> templateUsernames c <> [].
Proof. unfold build_template. intros Hr Hu. destruct (negb _); [done|]. rewrite Hu in Hr. by destruct (templateUsernames c). Qed.

Lemma found_once {A} (f : A -> bool) l : length (keep f l) = 1%nat -> exists x, find_first f l = Some x.
Proof.
  intros H. destruct (find_first f l) as [x|] eqn:E; [by exists x|]. exfalso. destruct (keep f l) as [|x r] eqn:K; [done|].
  assert (Hx : x ∈ keep f l) by (rewrite K; left). apply elem_of_keep in Hx as [Hx Fx]. rewrite find_first_None in E. by rewrite (E x Hx) in Fx.
Qed.

(** C25. The number of tasks previewed is the number of tasks that will be made: for each
    entry that is sent, the tasks of the template that are chosen. *)
Theorem preview_counts_what_is_sent `{Env} q c totals id r t
    (Ht : selectedTemplate q c = Some t)
    (checked : auth_check_enabled q c = true -> authsPerUsername q = Some (check_auths totals (activeAuths q) (templateUsernames c)))
    (active : forall a, selectedAuthId c = Some a -> length (keep (fun x => a_id x =! a) (activeAuths q)) = 1%nat)
    (Hm : from_template c = true)
    (Hr : build_template q c (fun u => inr (totals u)) = inr (id, r)) :
  previewTaskCount q c = (length (visible_tasks t c) * length (i_entries r))%nat.
Proof.
  pose proof (template_users _ _ _ _ _ Hr) as Hu. apply template_entries in Hr as [B Hne]. unfold previewTaskCount. rewrite Ht.
  unfold batchEntries in B. unfold auth_check_enabled in checked. rewrite Hm in checked. unfold all_auths in *.
  destruct (templateUsesUsernameParam q c) eqn:U.
  - specialize (Hu eq_refl). pose proof (user_entries_counted _ _ _ _ _ B) as N.
    assert (Hl : (length (templateUsernames c) =? 0)%nat = false) by (by destruct (templateUsernames c)).
    destruct (selectedAuthId c) as [a|] eqn:S.
    + destruct (found_once _ _ (active a eq_refl)) as [x Hx].
      rewrite sum_ones in N by (intros u; unfold auths_for; by rewrite S, Hx).
      rewrite Nat.max_l by (destruct (templateUsernames c); [done|cbn; lia]). rewrite N. destruct (authsPerUsername q); cbn [negb orb]; lia.
    + assert (N' : length (i_entries r) = sum_list (map (fun u => length (qualifying (activeAuths q) (totals u))) (templateUsernames c))).
      { rewrite N. f_equal. apply map_ext. intros u. unfold auths_for. by rewrite S. }
      destruct (activeAuths q) as [|a auths] eqn:A.
      * exfalso. apply Hne. destruct (i_entries r) as [|e l]; [done|]. exfalso. clear -N'. induction (templateUsernames c) as [|u l' IH]; [done|]. by apply IH.
      * rewrite checked by (rewrite Hl; done). cbn [negb orb]. by rewrite checked_count, N'.
  - injection B as B. unfold auth_entries in B. assert (N : length (i_entries r) = (if selectedAuthId c then 1 else length (activeAuths q))%nat).
    { rewrite <- B, length_map. destruct (selectedAuthId c) as [a|]; [by apply active|done]. }
    assert (E : (length (visible_tasks t c) * 1 * (if match selectedAuthId c with Some _ => false | None => true end then Nat.max (length (activeAuths q)) 1 else 1)
                 = length (visible_tasks t c) * length (i_entries r))%nat).
    { rewrite N. destruct (selectedAuthId c); [lia|]. destruct (i_entries r); [done|]. cbn [length] in N. f_equal; lia. }
    rewrite E. destruct (authsPerUsername q); [|done]. by rewrite orb_true_r.
Qed.

(** ** Tasks *)

Lemma added_tasks q c t : selectedTaskDef q c = Some t -> missing_task_param t (taskParams c) = None ->
  tasks (handleAddTask q c) = tasks c ++ queued_tasks q t c.
Proof. intros Ht Hm. unfold handleAddTask. by rewrite Ht, Hm. Qed.

(** With all accounts chosen a task is queued once for each of them. *)
Lemma task_for_every_account q c t :
  selectedTaskDef q c = Some t -> missing_task_param t (taskParams c) = None -> selectedAuthId c = None -> activeAuths q <> [] ->
  taskSupportsAuth c = true ->
  map (fun x => prop "auth_id" (task_params x)) (drop (length (tasks c)) (tasks (handleAddTask q c))) = map (fun a => Some (VNum (a_id a))) (activeAuths q).
Proof.
  intros Ht Hm Ha Hq Hs. rewrite (added_tasks q c t Ht Hm), drop_app_length. unfold queued_tasks, all_auths. rewrite Ha.
  destruct (activeAuths q) as [|a l]; [done|]. cbn [length Nat.eqb negb andb]. rewrite map_map. apply map_ext. intros x. unfold buildTask. rewrite Hs.
  apply JMap.get_set_eq.
Qed.

(** A task that needs no account is queued as many times as there are accounts, each time the same. *)
Theorem task_without_account_is_repeated q c t
    (Ht : selectedTaskDef q c = Some t) (Hm : missing_task_param t (taskParams c) = None) (Ha : selectedAuthId c = None) (Hq : activeAuths q <> [])
    (Hs : taskSupportsAuth c = false) :
  tasks (handleAddTask q c) = tasks c ++ repeat (buildTask t c None) (length (activeAuths q)).
Proof.
  rewrite (added_tasks q c t Ht Hm). f_equal. unfold queued_tasks, all_auths. rewrite Ha. destruct (activeAuths q) as [|a l]; [done|].
  assert (E : forall k, map (fun a => buildTask t c (Some (a_id a))) k = repeat (buildTask t c None) (length k)).
  { induction k as [|b k IH]; [done|]. cbn [map length repeat]. rewrite IH. f_equal. unfold buildTask. by rewrite Hs. }
  exact (E (a :: l)).
Qed.

(** What is not shown when an edit is opened is not in the tasks it sends. *)
Lemma editing_keeps_shown_tasks `{Env} p shown i r c :
  initialTasks p = initialTasks_of shown -> tasks c = tasks (handleRemoveTask i (opened p)) -> build_job p c = inr r ->
  tasksChanged (changes p c) = true -> u_tasks (handleEditSubmit r (changes p c)) = Some (delete i (initialTasks_of shown)).
Proof.
  intros Hp Hc Hr Hch. pose proof (build_job_inr p c r Hr) as (_ & _ & _ & _ & Ht & _). unfold handleEditSubmit. cbn [u_tasks].
  rewrite Hch, Ht, Hc. cbn [handleRemoveTask tasks set_tasks opened]. by rewrite Hp.
Qed.

(** After a job was sent the next one does not start at once, though a new form says so. *)
Lemma start_is_not_reset c p : startImmediately (schedule (sent c)) = false /\ (initialSchedule p = None -> startImmediately (schedule (opened p)) = true).
Proof. split; [done|]. intros E. unfold opened. cbn [schedule]. by rewrite E. Qed.

(** ** Concrete forms *)

Definition demo_schedule (v : num) (u : IntervalUnit) : schedule_input := {|
  scheduleEnabled := true; scheduleType := Interval; scheduleAt := EmptyString; intervalValue := v; intervalUnit := u; cronExpression := EmptyString;
  startImmediately := true |}.

(** An interval that is above zero may be sent as zero. *)
Example tiny_interval_is_zero :
  @build_schedule utc_env (demo_schedule (#1 ⊘ #1000) Minutes) =
  inr (Some {| scheduled_for := None; interval_seconds := Some (#0); cron := None; start_immediately := Some true |}).
Proof. vm_compute. reflexivity. Qed.

(** A minute and a half is shown as two minutes, and would be saved as such. *)
Example half_minutes_are_lost :
  @build_schedule utc_env (@initialSchedule_of utc_env [] None None (Some (#90))) =
  inr (Some {| scheduled_for := None; interval_seconds := Some (#120); cron := None; start_immediately := Some true |}).
Proof. vm_compute. reflexivity. Qed.

Definition demo_param : TaskParameter := {|
  p_name := "limit"; p_label := "Limit"; p_type := PNumber; p_required := true; p_default := None; p_description := EmptyString; p_options := [];
  p_placeholder := EmptyString |}.
Definition demo_task : TaskDefinition := {| task_id := "scrape_user"; parameters := [demo_param] |}.
Definition demo_template : JobTemplateResponse := {|
  template_id := "t"; template_label := "All";
  template_parameters := [{| tp_name := "username"; tp_type := "str"; tp_required := true; tp_default := None; tp_description := EmptyString; tp_choices := None |}];
  template_tasks := [{| tt_task_type := "scrape"; content_type_template := "Posts" |}; {| tt_task_type := "download"; content_type_template := "Posts" |}] |}.
Definition demo_auth (n : Z) : AuthCredential := {| a_id := #n; a_user_id := #(n + 100); a_username := None |}.
Definition demo_totals (u : string) (a : num) : num := if u =s "ann" then #1 else #0.
Definition demo_lists : lists := {|
  taskTypes := [demo_task]; templates := [demo_template]; activeAuths := [demo_auth 1; demo_auth 2];
  authsPerUsername := Some (check_auths demo_totals [demo_auth 1; demo_auth 2] ["ann"; "eve"]) |}.
Definition demo_props : props := {| editing := false; submits := false; initialJobName := "Nightly"; initialTasks := []; initialSchedule := None |}.
Definition demo_edit : props := {|
  editing := true; submits := true; initialJobName := "Nightly"; initialTasks := [{| task_type := "scrape_user"; task_params := [] |}];
  initialSchedule := Some (demo_schedule (#2) Hours) |}.

(** A limit of nought is a limit that is missing. *)
Example nought_is_missing :
  let c := handleParamChange "limit" (VNum (#0)) (opened demo_props) in error (handleAddTask demo_lists c) = Some "Limit is required".
Proof. vm_compute. reflexivity. Qed.

Example job_is_sent_as_shown_example :
  let r := {| r_job_name := "Nightly"; r_tasks := initialTasks demo_edit;
              r_schedule := Some {| scheduled_for := None; interval_seconds := Some (#7200); cron := None; start_immediately := Some true |};
              r_ignore_space := true; r_template := None |} in
  @build_job utc_env demo_edit (opened demo_edit) = inr r.
Proof. vm_compute. reflexivity. Qed.

Definition demo_request : CreateJobRequest := {|
  r_job_name := "Nightly"; r_tasks := initialTasks demo_edit;
  r_schedule := Some {| scheduled_for := None; interval_seconds := Some (#7200); cron := None; start_immediately := Some true |};
  r_ignore_space := true; r_template := None |}.

(** The same job with another task and every three hours. *)
Definition demo_edited : creator := set_form "Nightly" FromTasks (demo_schedule (#3) Hours) true None
  (set_tasks [{| task_type := "scrape_user"; task_params := [("username", VStr "ann"); ("limit", VNum (#5))] |}] "Nightly" None (opened demo_edit)).
Definition demo_edited_request : CreateJobRequest := {|
  r_job_name := "Nightly"; r_tasks := tasks demo_edited;
  r_schedule := Some {| scheduled_for := None; interval_seconds := Some (#10800); cron := None; start_immediately := Some true |};
  r_ignore_space := true; r_template := None |}.

Lemma edit_sends_what_changed_witness :
  u_schedule (handleEditSubmit demo_request (changes demo_edit (opened demo_edit))) = None /\
  u_schedule (handleEditSubmit demo_edited_request (changes demo_edit demo_edited)) = Some (@schedule_shown utc_env (demo_schedule (#3) Hours)) /\
  u_tasks (handleEditSubmit demo_edited_request (changes demo_edit demo_edited)) = Some (tasks demo_edited).
Proof.
  assert (Hp : plain_task {| task_type := "scrape_user"; task_params := [] |}) by (split; vm_compute; reflexivity || exact I).
  assert (Hq : Forall plain_task (tasks demo_edited)) by (constructor; [repeat split; vm_compute; reflexivity|constructor]).
  assert (Hi : Forall plain_task (initialTasks demo_edit)) by (constructor; [exact Hp|constructor]).
  split.
  - refine (proj1 (proj1 (proj2 (@edit_sends_what_changed utc_env demo_edit (opened demo_edit) demo_request _ _ Hi Hi _)) _)); [by vm_compute..|]. by repeat split; left.
  - destruct (@edit_sends_what_changed utc_env demo_edit demo_edited demo_edited_request) as (_ & _ & Hs & _ & Ht); [by vm_compute|by vm_compute|exact Hq|exact Hi|by vm_compute|].
    split; [apply Hs; intros [_ H]; destruct (H eq_refl) as [_ [[K|[K _]] _]]; vm_compute in K; discriminate K|apply Ht; vm_compute; discriminate].
Defined.

Lemma interval_survives_editing_witness :
  @build_schedule utc_env (@initialSchedule_of utc_env [("interval_seconds", VNum (#5400)); ("start_immediately", VBool false)] None None None) =
  inr (Some {| scheduled_for := None; interval_seconds := Some (#5400); cron := None; start_immediately := Some false |}).
Proof. apply (@interval_survives_editing utc_env 5400 false); [lia|unfold safe; lia|reflexivity]. Defined.

Definition demo_form : creator := addTemplateUsername "eve" (addTemplateUsername " ann " (handleTemplateSelect demo_lists "t"
  (set_form EmptyString FromTemplate default_schedule true None (opened demo_props)))).
Definition demo_sent : InstantiateTemplateRequest := {|
  i_parameter_values := []; i_job_name := effectiveJobName demo_lists demo_form;
  i_entries := [{| e_username := "ann"; e_auth_id := #101 |}; {| e_username := "ann"; e_auth_id := #102 |}]; i_schedule := None; i_ignore_space := true |}.

Lemma preview_counts_what_is_sent_witness : previewTaskCount demo_lists demo_form = (2 * 2)%nat.
Proof.
  refine (@preview_counts_what_is_sent utc_env demo_lists demo_form demo_totals "t" demo_sent demo_template _ _ _ _ _);
    [reflexivity|intros _; reflexivity|discriminate|reflexivity|vm_compute; reflexivity].
Defined.

Definition demo_pending : page := {| form := demo_form; queries := demo_lists; pending := Some (demo_lists, demo_form) |}.

Lemma demo_form_reachable : @reachable utc_env demo_props demo_pending.
Proof.
  eapply (@Next utc_env demo_props {| form := demo_form; queries := demo_lists; pending := None |}).
  - eapply Next; [eapply Next; [eapply Next; [eapply Next; [apply (Begin demo_props demo_lists)|]|]|]|].
    + apply (Fill demo_props EmptyString FromTemplate default_schedule true None).
    + apply (Choose_template demo_props "t").
    + apply (Add_user demo_props " ann ").
    + apply (Add_user demo_props "eve").
  - apply (Press_submit demo_props {| form := demo_form; queries := demo_lists; pending := None |}). vm_compute. reflexivity.
Qed.

Lemma no_entry_twice_witness : NoDup (i_entries demo_sent) /\ i_entries demo_sent <> [].
Proof.
  refine (@no_entry_twice utc_env demo_props demo_pending demo_lists demo_form (fun u => inr (demo_totals u)) "t" demo_sent demo_form_reachable eq_refl _ _).
  - repeat constructor; (set_solver || (intros H; apply list_elem_of_singleton in H; vm_compute in H; discriminate H)).
  - vm_compute. reflexivity.
Defined.

Lemma job_is_sent_as_shown_witness :
  r_schedule demo_edited_request = @schedule_shown utc_env (demo_schedule (#3) Hours) /\ @schedule_complete utc_env (schedule (opened demo_edit)).
Proof.
  split.
  - refine (f_equal r_schedule (proj2 (@job_is_sent_as_shown utc_env demo_edit demo_edited) demo_edited_request _)). vm_compute. reflexivity.
  - assert (E : exists r, @build_job utc_env demo_edit (opened demo_edit) = inr r) by (exists demo_request; vm_compute; reflexivity).
    exact (proj2 (proj2 (proj1 (proj1 (@job_is_sent_as_shown utc_env demo_edit (opened demo_edit))) E))).
Defined.
