(* ===== verification/Dashboard.v ===== *)
(** * The dashboard's measurements ([features/dashboard/lib/dashboardUtils.ts], [dashboardChartUtils.ts])

    Rates of jobs from refresh to refresh, the stage speeds of active tasks, byte
    rates as text, and the line of a chart.

    The theorems: refreshes in quick succession lose nothing of a job's rate; no speed
    of a task is negative. A task's speed, in contrast, is never measured while
    refreshes come quickly. *)

From Stdlib Require Import ZArith Lia SpecFloat.
From stdpp Require Import base list strings option.
From S2P Require Import Prelude JsString JsNum JsInt JsBounds JsOrder JsSort JobTypes.

(** ** Rates of jobs *)

Record JobCompletionSample := { jc_timestamp : num; completedTasks : num; runCount : num; rate : num }.

Definition finite_or_zero (o : option num) : num :=
  match o with Some n => if is_finite n then math_max #0 n else #0 | None => #0 end.

(** [0.75] seconds. *)
Definition min_sample_seconds : num := #3 ⊘ #4.

Definition seconds_since (now before : num) : num := (now ⊖ before) ⊘ #1000.

(** The sample of one job, from the one kept for it. *)
Definition next_sample (job : Job) (updatedAt : num) (previous : option JobCompletionSample) : JobCompletionSample :=
  let completed := finite_or_zero (completed_tasks job) in
  let runs := run_count job ?? #0 in
  let elapsed := match previous with Some p => seconds_since updatedAt (jc_timestamp p) | None => #0 end in
  let reset p := (completed <! completedTasks p) || negb (runs =! runCount p) in
  match previous with
  | Some p =>
      if negb (reset p) && (elapsed <! min_sample_seconds) then p
      else {| jc_timestamp := updatedAt; completedTasks := completed; runCount := runs;
              rate := if negb (reset p) && (elapsed >! #0) then (completed ⊖ completedTasks p) ⊘ elapsed else #0 |}
  | None => {| jc_timestamp := updatedAt; completedTasks := completed; runCount := runs; rate := #0 |}
  end.

Definition buildJobCompletionSamples (jobs : list Job) (updatedAt : num) (previousSamples : JMap.t JobCompletionSample)
    : JMap.t JobCompletionSample :=
  foldl (fun samples job => JMap.set (job_id job) (next_sample job updatedAt (JMap.get (job_id job) previousSamples)) samples)
        JMap.empty jobs.

(** ** Active tasks *)

Record ActiveTaskDetail := {
  at_job_id : string;
  at_job_name : string;
  at_job_status : option string;
  job_total_tasks : option num;
  at_task_id : option string;
  at_task_type : string;
  at_status : option string;
  at_site : option string;
  at_username : option string;
  content_type : option string;
  at_worker_id : option string;
  at_started_at : option string;
  at_completed_at : option string;
  progress : option num;
  items_processed : option num;
  items_total : option num;
  items_scraped : option num;
  items_saved : option num;
  bytes_written : option num;
  total_bytes : option num;
  speed_bps : option num;
  avg_speed_bps : option num;
  at_error : option string
}.

(** The task as it is shown: [shown] has the status, progress and counters replaced. *)
Record TaskWithSpeed := {
  shown : ActiveTaskDetail;
  speed : num;
  scraped_speed : num;
  saved_speed : num;
  task_lastUpdated : num;
  scraped_processed : num;
  scraped_total : option num;
  saved_processed : num;
  saved_total : option num
}.

Record StageSpeedSample := {
  lastUpdated : num;
  scrapedProcessed : num;
  savedProcessed : num;
  itemsProcessed : num;
  scrapedSpeed : num;
  savedSpeed : num;
  itemsSpeed : num
}.

Record ActiveTaskState := { activeTasks : list TaskWithSpeed; stageSpeedSamples : JMap.t StageSpeedSample }.

Definition generateTaskKey (jobId taskType : string) (taskId username : option string) : string :=
  match truthy_opt taskId with
  | Some i => jobId +:+ ":" +:+ i
  | None => jobId +:+ ":" +:+ taskType +:+ ":" +:+ to_lower (username ?? "unknown")
  end.

Definition normalizeTaskStatus (status : option string) : string :=
  let normalized := to_lower (status ?? "running") in
  if (normalized =s "pending") || (normalized =s "claimed") then "pending"
  else if (normalized =s "completed") || (normalized =s "success") || (normalized =s "db_saved") then "completed"
  else if (normalized =s "failed") || (normalized =s "cancelled") || (normalized =s "error") then "failed"
  else "running".

Definition isSubscriptionScrapeTask (task : ActiveTaskDetail) : bool :=
  (to_lower (at_task_type task) =s "scrape") && (to_lower (content_type task ?? EmptyString) =s "subscriptions").

(** Jobs of the API itself and of tests. *)
Definition internal_job (id : string) : bool := (id =s "api") || starts_with id "api-" || starts_with id "test-".

Definition is_hidden (task : ActiveTaskDetail) : bool :=
  internal_job (to_lower (at_job_id task)) || (at_task_type task =s "api_command").

Definition task_key (task : ActiveTaskDetail) : string :=
  generateTaskKey (at_job_id task) (at_task_type task) (at_task_id task) (at_username task).

Definition is_scrape (task : ActiveTaskDetail) : bool := to_lower (at_task_type task) =s "scrape".
Definition usesScrapeStages (task : ActiveTaskDetail) : bool := is_scrape task && negb (isSubscriptionScrapeTask task).

Definition counter (o : option num) : num := math_max (o ?? #0) #0.
Definition processedCounter (task : ActiveTaskDetail) : num := counter (items_processed task).
Definition scrapedCounter (task : ActiveTaskDetail) : num := counter (items_scraped task).
Definition savedCounter (task : ActiveTaskDetail) : num := counter (items_saved task).

(** A counter has gone back. *)
Definition sampleInvalid (task : ActiveTaskDetail) (s : StageSpeedSample) : bool :=
  if usesScrapeStages task
  then (scrapedCounter task <! scrapedProcessed s) || (savedCounter task <! savedProcessed s)
  else processedCounter task <! itemsProcessed s.

Definition baselineSample (task : ActiveTaskDetail) (previousSamples : JMap.t StageSpeedSample) : option StageSpeedSample :=
  match JMap.get (task_key task) previousSamples with
  | Some s => if sampleInvalid task s then None else Some s
  | None => None
  end.

(** The moving average of a speed. *)
Definition smoothed (old now before seconds : num) : num :=
  old ⊗ (#65 ⊘ #100) ⊕ (math_max #0 (now ⊖ before) ⊘ seconds) ⊗ (#35 ⊘ #100).

(** The sample of a task at this refresh. *)
Definition measure (task : ActiveTaskDetail) (updatedAt : num) (baseline : option StageSpeedSample) : StageSpeedSample :=
  let '(scraped, saved, items) :=
    match baseline with
    | None => (#0, #0, #0)
    | Some b =>
        let timeDelta := seconds_since updatedAt (lastUpdated b) in
        if timeDelta >=! min_sample_seconds then
          if usesScrapeStages task
          then (smoothed (scrapedSpeed b) (scrapedCounter task) (scrapedProcessed b) timeDelta,
                smoothed (savedSpeed b) (savedCounter task) (savedProcessed b) timeDelta, itemsSpeed b)
          else (scrapedSpeed b, savedSpeed b, smoothed (itemsSpeed b) (processedCounter task) (itemsProcessed b) timeDelta)
        else (scrapedSpeed b, savedSpeed b, itemsSpeed b)
    end in
  {| lastUpdated := updatedAt; scrapedProcessed := scrapedCounter task; savedProcessed := savedCounter task;
     itemsProcessed := processedCounter task; scrapedSpeed := scraped; savedSpeed := saved; itemsSpeed := items |}.

Definition activeProcessed (task : ActiveTaskDetail) : option num :=
  if usesScrapeStages task then Some (if savedCounter task >! #0 then savedCounter task else scrapedCounter task) else items_processed task.

Definition activeProgress (task : ActiveTaskDetail) : num :=
  match items_total task with
  | Some total => if usesScrapeStages task && (total >! #0) then math_min ((activeProcessed task ?? nan) ⊘ total) #1 else progress task ?? #0
  | None => progress task ?? #0
  end.

Definition show_task (task : ActiveTaskDetail) : ActiveTaskDetail := {|
  at_job_id := at_job_id task; at_job_name := at_job_name task; at_job_status := at_job_status task; job_total_tasks := job_total_tasks task;
  at_task_id := at_task_id task; at_task_type := at_task_type task; at_status := Some (normalizeTaskStatus (at_status task));
  at_site := at_site task; at_username := at_username task; content_type := content_type task; at_worker_id := at_worker_id task;
  at_started_at := at_started_at task; at_completed_at := at_completed_at task; progress := Some (activeProgress task);
  items_processed := activeProcessed task; items_total := items_total task; items_scraped := Some (scrapedCounter task);
  items_saved := Some (savedCounter task); bytes_written := bytes_written task; total_bytes := total_bytes task;
  speed_bps := speed_bps task; avg_speed_bps := avg_speed_bps task; at_error := at_error task |}.

Definition with_speed (task : ActiveTaskDetail) (s : StageSpeedSample) : TaskWithSpeed :=
  let total := if is_scrape task then items_total task else None in
  {| shown := show_task task;
     speed := if usesScrapeStages task then (if savedSpeed s >! #0 then savedSpeed s else scrapedSpeed s) else itemsSpeed s;
     scraped_speed := if usesScrapeStages task then scrapedSpeed s else #0;
     saved_speed := if usesScrapeStages task then savedSpeed s else #0;
     task_lastUpdated := lastUpdated s;
     scraped_processed := scrapedCounter task; scraped_total := total; saved_processed := savedCounter task; saved_total := total |}.

(** One turn of the loop. *)
Definition add_task (updatedAt : num) (previousSamples : JMap.t StageSpeedSample) (st : ActiveTaskState) (task : ActiveTaskDetail)
    : ActiveTaskState :=
  if is_hidden task then st
  else
    let s := measure task updatedAt (baselineSample task previousSamples) in
    {| activeTasks := activeTasks st ++ [with_speed task s];
       stageSpeedSamples := if normalizeTaskStatus (at_status task) =s "running" then JMap.set (task_key task) s (stageSpeedSamples st)
                            else stageSpeedSamples st |}.

Definition buildActiveTaskState (polledTasks : list ActiveTaskDetail) (updatedAt : num) (previousSamples : JMap.t StageSpeedSample)
    : ActiveTaskState :=
  foldl (add_task updatedAt previousSamples) {| activeTasks := []; stageSpeedSamples := JMap.empty |} polledTasks.

(** ** Texts *)

Definition short_decimals (n : num) : string := to_fixed (if n >=! #100 then 0 else if n >=! #10 then 1 else 2) n.

Definition formatBytesPerSecond (bytesPerSecond : num) : string :=
  if bytesPerSecond <! #1024 then to_fixed 0 bytesPerSecond +:+ " B/s"
  else
    let kb := bytesPerSecond ⊘ #1024 in
    if kb <! #1024 then short_decimals kb +:+ " KB/s"
    else
      let mb := kb ⊘ #1024 in
      if mb <! #1024 then short_decimals mb +:+ " MB/s"
      else short_decimals (mb ⊘ #1024) +:+ " GB/s".

(** ** The line of a chart *)

Record TimedChartPoint := { chart_timestamp : num; chart_value : num }.

(** [Math.max(...values, 0)]. *)
Definition largest (values : list num) : num := foldl math_max (S754_infinity true) (values ++ [#0]).

(** The arguments of [chartPath] after its defaults. *)
Record chart_frame := {
  width : num;
  height : num;
  minimum : num;
  maximum : num;
  start : num;
  finish : num
}.

Definition topPadding : num := #12.

Definition frame_of (points : list TimedChartPoint) (width height : num) (scaleMaximum domainStart domainEnd : option num) (scaleMinimum : num)
    : chart_frame :=
  let first := match points with p :: _ => Some (chart_timestamp p) | [] => None end in
  let domainStart := domainStart ?? (first ?? #0) in
  let domainEnd := domainEnd ?? ((chart_timestamp <$> list.last points) ?? (domainStart ⊕ #1)) in
  let minimum := if is_finite scaleMinimum then scaleMinimum else #0 in
  let start := if is_finite domainStart then domainStart else first ?? #0 in
  {| width := width; height := height; minimum := minimum;
     maximum := math_max (scaleMaximum ?? largest (map chart_value points)) (minimum ⊕ #1);
     start := start;
     finish := if is_finite domainEnd then math_max domainEnd (start ⊕ #1) else start ⊕ #1 |}.

Definition x_of (f : chart_frame) (p : TimedChartPoint) : num :=
  math_min (width f) (math_max #0 (((chart_timestamp p ⊖ start f) ⊘ (finish f ⊖ start f)) ⊗ width f)).

Definition y_of (f : chart_frame) (p : TimedChartPoint) : num :=
  height f ⊖ topPadding ⊖
  (math_min #1 (math_max #0 ((chart_value p ⊖ minimum f) ⊘ (maximum f ⊖ minimum f))) ⊗ (height f ⊖ topPadding ⊗ #2)).

Definition earlier_first : TimedChartPoint -> TimedChartPoint -> bool := smaller_first chart_timestamp.

Definition move_to (x y : num) : string := "M" +:+ to_fixed 1 x +:+ " " +:+ to_fixed 1 y.
Definition line_to (x y : num) : string := "L" +:+ to_fixed 1 x +:+ " " +:+ to_fixed 1 y.

Definition point_path (f : chart_frame) (points : list TimedChartPoint) : string :=
  match stable_sort earlier_first points with
  | [] => EmptyString
  | p :: rest => join " " (move_to (x_of f p) (y_of f p) :: map (fun q => line_to (x_of f q) (y_of f q)) rest)
  end.

Definition chartPath (points : list TimedChartPoint) (width height : num) (scaleMaximum domainStart domainEnd : option num) (scaleMinimum : num)
    : string :=
  let f := frame_of points width height scaleMaximum domainStart domainEnd scaleMinimum in
  match points with
  | [] => "M0 " +:+ show_num (height ⊖ topPadding) +:+ " L" +:+ show_num width +:+ " " +:+ show_num (height ⊖ topPadding)
  | [p] => move_to (math_max #0 (x_of f p ⊖ #1)) (y_of f p) +:+ " " +:+ line_to (math_min width (x_of f p ⊕ #1)) (y_of f p)
  | _ => point_path f points
  end.

(** * What the measurements promise *)

(** ** Rates of jobs *)

Definition refresh_jobs (samples : JMap.t JobCompletionSample) (r : list Job * num) : JMap.t JobCompletionSample :=
  buildJobCompletionSamples r.1 r.2 samples.

Lemma get_built jobs t previous id :
  JMap.get id (buildJobCompletionSamples jobs t previous) =
    (fun job => next_sample job t (JMap.get id previous)) <$> list.last (keep (fun job => job_id job =s id) jobs).
Proof.
  unfold buildJobCompletionSamples. induction jobs as [|job jobs IH] using rev_ind; [done|].
  rewrite foldl_app, keep_app. cbn [foldl keep List.filter].
  destruct (job_id job =s id) eqn:E.
  - apply str_eqb_eq in E as <-. by rewrite JMap.get_set_eq, last_snoc.
  - apply str_eqb_neq in E. by rewrite JMap.get_set_ne, IH, app_nil_r.
Qed.

Lemma leb_not_ltb x y : (y <=! x) = true -> (x <! y) = false.
Proof. unfold num_leb, num_ltb. rewrite (cmp_swap x y). destruct (SFcompare x y) as [[]|]; done. Qed.

(** A refresh that shows the job, not started over, before a rate can be measured. *)
Definition rapid (id : string) (s : JobCompletionSample) (r : list Job * num) : Prop :=
  exists job, list.last (keep (fun j => job_id j =s id) r.1) = Some job /\
    (finite_or_zero (completed_tasks job) <! completedTasks s) = false /\ (run_count job ?? #0) =! runCount s = true /\
    (seconds_since r.2 (jc_timestamp s) <! min_sample_seconds) = true.

Lemma rapid_keeps id s r samples : JMap.get id samples = Some s -> rapid id s r -> JMap.get id (refresh_jobs samples r) = Some s.
Proof.
  intros Hs (job & Hj & H1 & H2 & H3). unfold refresh_jobs. rewrite get_built, Hj. simpl. unfold next_sample. by rewrite Hs, H1, H2, H3.
Qed.

(** Refreshes in quick succession lose nothing: whatever number of them came since a
    job was measured, its next rate is about all the work done since then. *)
Theorem rapid_refreshes_are_included id s samples refreshes jobs t job :
  JMap.get id samples = Some s -> Forall (rapid id s) refreshes ->
  list.last (keep (fun j => job_id j =s id) jobs) = Some job ->
  (finite_or_zero (completed_tasks job) <! completedTasks s) = false -> (run_count job ?? #0) =! runCount s = true ->
  (seconds_since t (jc_timestamp s) >=! min_sample_seconds) = true ->
  rate <$> JMap.get id (refresh_jobs (foldl refresh_jobs samples refreshes) (jobs, t)) =
    Some ((finite_or_zero (completed_tasks job) ⊖ completedTasks s) ⊘ seconds_since t (jc_timestamp s)).
Proof.
  intros Hs Hr Hj H1 H2 H3. assert (Hk : JMap.get id (foldl refresh_jobs samples refreshes) = Some s).
  { clear Hj. revert samples Hs. induction Hr as [|r l Hr _ IH]; intros samples Hs; [done|]. apply IH. by apply rapid_keeps. }
  revert Hk. generalize (foldl refresh_jobs samples refreshes). intros kept Hk.
  unfold refresh_jobs. rewrite get_built. cbn [fst snd]. rewrite Hj. simpl. unfold next_sample. rewrite Hk, H1, H2.
  assert (Hlt : (seconds_since t (jc_timestamp s) <! min_sample_seconds) = false).
  { by apply leb_not_ltb. }
  assert (Hpos : (seconds_since t (jc_timestamp s) >! #0) = true).
  { destruct (seconds_since t (jc_timestamp s)) as [[]|[]| |[] m e]; try done; vm_compute in H3; done. }
  simpl. by rewrite Hlt, Hpos.
Qed.

(** ** Speeds of tasks *)

Definition refresh_tasks (st : ActiveTaskState) (r : list ActiveTaskDetail * num) : ActiveTaskState :=
  buildActiveTaskState r.1 r.2 (stageSpeedSamples st).

Definition no_tasks : ActiveTaskState := {| activeTasks := []; stageSpeedSamples := JMap.empty |}.

Definition nneg_sample (s : StageSpeedSample) : Prop := nneg (scrapedSpeed s) /\ nneg (savedSpeed s) /\ nneg (itemsSpeed s).
Definition nneg_task (t : TaskWithSpeed) : Prop := nneg (speed t) /\ nneg (scraped_speed t) /\ nneg (saved_speed t).
Definition nneg_state (st : ActiveTaskState) : Prop :=
  Forall nneg_task (activeTasks st) /\ Forall (fun kv => nneg_sample kv.2) (stageSpeedSamples st).

Lemma sampled_time x : (x >=! min_sample_seconds) = true -> nneg x /\ num_truthy x = true.
Proof. intros H. rewrite nneg_shape. destruct x as [[]|[]| |[] m e]; try done; vm_compute in H; done. Qed.

Lemma nneg_smoothed old now before x : nneg old -> (x >=! min_sample_seconds) = true -> nneg (smoothed old now before x).
Proof.
  intros Ho (Hx & Ht)%sampled_time. unfold smoothed. apply nneg_add; apply nneg_mul; try done. apply nneg_div; [apply nneg_max|done|done].
Qed.

Lemma nneg_measure task t b : (forall s, b = Some s -> nneg_sample s) -> nneg_sample (measure task t b).
Proof.
  intros Hb. destruct b as [b|]; [|done]. destruct (Hb b eq_refl) as (H1 & H2 & H3). unfold measure.
  destruct (seconds_since t (lastUpdated b) >=! min_sample_seconds) eqn:E; [|done].
  destruct (usesScrapeStages task); repeat split; simpl; try done; by apply nneg_smoothed.
Qed.

Lemma nneg_with_speed task s : nneg_sample s -> nneg_task (with_speed task s).
Proof.
  intros (H1 & H2 & H3). unfold nneg_task. simpl. destruct (usesScrapeStages task); repeat split; try done. by destruct (savedSpeed s >! #0).
Qed.

Lemma nneg_get key m s : Forall (fun kv => nneg_sample kv.2) m -> JMap.get key m = Some s -> nneg_sample s.
Proof. intros H Hg%JMap.get_Some_elem. by apply (proj1 (Forall_forall _ m) H (key, s)), list_elem_of_In. Qed.

Lemma nneg_refresh st r : nneg_state st -> nneg_state (refresh_tasks st r).
Proof.
  intros [_ Hs]. unfold refresh_tasks, buildActiveTaskState.
  assert (H0 : nneg_state {| activeTasks := []; stageSpeedSamples := JMap.empty |}) by done. revert H0.
  generalize {| activeTasks := []; stageSpeedSamples := JMap.empty |}. induction (r.1) as [|task l IH]; intros st0 [Ht Hm]; [done|].
  cbn [foldl]. apply IH. unfold add_task. destruct (is_hidden task); [done|].
  assert (Hn : nneg_sample (measure task r.2 (baselineSample task (stageSpeedSamples st)))).
  { apply nneg_measure. intros s. unfold baselineSample. destruct (JMap.get _ _) as [b|] eqn:E; [|done].
    destruct (sampleInvalid task b); [done|]. intros [= <-]. exact (nneg_get _ _ _ Hs E). }
  split; simpl.
  - apply Forall_app. split; [done|]. constructor; [|done]. by apply nneg_with_speed.
  - destruct (_ =s "running"); [|done]. by apply JMap.Forall_set.
Qed.

(** No task is ever shown with a negative speed, whatever counters and times the
    refreshes report. *)
Theorem speeds_never_negative refreshes :
  Forall nneg_task (activeTasks (foldl refresh_tasks no_tasks refreshes)).
Proof.
  assert (H : nneg_state (foldl refresh_tasks no_tasks refreshes)); [|apply H].
  assert (H0 : nneg_state no_tasks) by done. revert H0. generalize no_tasks.
  induction refreshes as [|r l IH]; intros st H; [done|]. cbn [foldl]. by apply IH, nneg_refresh.
Qed.

(** ** Refreshes in quick succession hide the speed of a task *)

(** The refresh shows [task], running, and no other task of its key. *)
Definition shows (key : string) (task : ActiveTaskDetail) (tasks : list ActiveTaskDetail) : Prop :=
  exists l1 l2, tasks = l1 ++ task :: l2 /\ task_key task = key /\ is_hidden task = false /\
    normalizeTaskStatus (at_status task) = "running" /\
    Forall (fun x => task_key x <> key) (l1 ++ l2).

Lemma other_keys key t previous l st :
  Forall (fun x => task_key x <> key) l ->
  JMap.get key (stageSpeedSamples (foldl (add_task t previous) st l)) = JMap.get key (stageSpeedSamples st).
Proof.
  intros H. revert st. induction H as [|x l Hx _ IH]; intros st; [done|]. cbn [foldl]. rewrite IH. unfold add_task.
  destruct (is_hidden x); [done|]. simpl. destruct (_ =s "running"); [|done]. by rewrite JMap.get_set_ne.
Qed.

Lemma sample_of_shown key task tasks t st :
  shows key task tasks ->
  JMap.get key (stageSpeedSamples (refresh_tasks st (tasks, t))) = Some (measure task t (baselineSample task (stageSpeedSamples st))).
Proof.
  intros (l1 & l2 & -> & Hk & Hh & Hs & Ho). apply Forall_app in Ho as [H1 H2]. unfold refresh_tasks, buildActiveTaskState. cbn [fst snd].
  rewrite foldl_app. cbn [foldl]. rewrite other_keys by done. unfold add_task at 1. rewrite Hh, Hs, Hk, str_eqb_refl. cbn [stageSpeedSamples].
  by rewrite JMap.get_set_eq.
Qed.

Definition same_speeds (a b : StageSpeedSample) : Prop :=
  scrapedSpeed a = scrapedSpeed b /\ savedSpeed a = savedSpeed b /\ itemsSpeed a = itemsSpeed b.

(** Each refresh is less than 750 ms after the one before and takes no counter back. *)
Inductive quick (key : string) : StageSpeedSample -> list (list ActiveTaskDetail * num) -> Prop :=
| Quick_end s : quick key s []
| Quick_next s task tasks t l :
    shows key task tasks -> sampleInvalid task s = false -> (seconds_since t (lastUpdated s) <! min_sample_seconds) = true ->
    quick key (measure task t (Some s)) l -> quick key s ((tasks, t) :: l).

(** While refreshes come less than 750 ms after each other, a task's speed stays what it
    was, zero for a new task, however much work is done: each refresh makes its own
    counters the next baseline. *)
Lemma quick_refreshes_starve_speed key s st refreshes :
  JMap.get key (stageSpeedSamples st) = Some s -> quick key s refreshes ->
  exists s', JMap.get key (stageSpeedSamples (foldl refresh_tasks st refreshes)) = Some s' /\ same_speeds s' s.
Proof.
  intros Hs Hq. revert st Hs. induction Hq as [s|s task tasks t l Hsh Hv Ht _ IH]; intros st Hs; [by exists s|].
  cbn [foldl]. assert (Hb : baselineSample task (stageSpeedSamples st) = Some s).
  { unfold baselineSample. destruct Hsh as (_ & _ & _ & -> & _). by rewrite Hs, Hv. }
  destruct (IH (refresh_tasks st (tasks, t))) as (s' & H1 & H2); [by rewrite (sample_of_shown _ _ _ _ _ Hsh), Hb|].
  exists s'. split; [done|]. destruct H2 as (E1 & E2 & E3).
  assert (Hge : (seconds_since t (lastUpdated s) >=! min_sample_seconds) = false).
  { destruct (_ >=! _) eqn:E; [|done]. apply leb_not_ltb in E. congruence. }
  unfold same_speeds. rewrite E1, E2, E3. unfold measure. by rewrite Hge.
Qed.

(** ** The line *)

(** A mark is inside the width of the chart when its time is a number of milliseconds. *)
Lemma x_inside f a b c p :
  chart_timestamp p = #a -> start f = #b -> finish f = #c -> safe a -> safe b -> safe c -> safe (a - b) -> safe (c - b) -> b < c ->
  is_finite (width f) = true -> (width f >! #0) = true ->
  (#0 <=! x_of f p) = true /\ (x_of f p <=! width f) = true.
Proof.
  intros Ha Hb Hc Sa Sb Sc S1 S2 Hlt Hf Hw. unfold x_of. rewrite Ha, Hb, Hc, !sub_int by done.
  apply (clamp_bounds #0 (width f)); [by apply num_ltb_leb|].
  apply real_mul_truthy; [|done|by apply pos_truthy]. apply real_div_truthy; [by apply real_int|by apply finite_int|].
  rewrite truthy_int by done. apply negb_true_iff, Z.eqb_neq. lia.
Qed.

(** ** Examples *)

Definition demo_job (done : Z) : Job := {|
  deletion_progress := None; job_id := "mps"; execution_engine := None; job_name := None; job_type := None; job_site := None;
  job_status := "running"; priority := None; job_worker_id := None; retries := None; max_retries := None; created_at := None;
  updated_at := None; started_at := None; completed_at := None; task_count := Some #1000; completed_tasks := Some #done;
  failed_tasks := Some #0; job_task_summaries := None; job_tasks := None; task_stats := None; task_stats_observed_at_ms := None;
  mps_refill_trace := None; error_stats := None; created_by := None; is_scheduled := None; scheduled_for := None;
  interval_seconds := None; cron := None; run_count := None; last_ran_at := None; last_activity_at := None; materialization_status := None;
  materialized_tasks := None; materialization_total := None; materialization_error := None; metadata := None; args := None;
  duration_seconds := None; result_success := None; result_message := None; result_error := None; job_runtime_telemetry := None |}.

Lemma rapid_refreshes_are_included_witness :
  rate <$> JMap.get "mps" (refresh_jobs (foldl refresh_jobs (refresh_jobs JMap.empty ([demo_job 10], #1000)) [([demo_job 20], #1400); ([demo_job 30], #1700)])
                             ([demo_job 50], #2000)) = Some #40.
Proof.
  rewrite (rapid_refreshes_are_included "mps" {| jc_timestamp := #1000; completedTasks := #10; runCount := #0; rate := #0 |} _ _ _ _ (demo_job 50)).
  - vm_compute. reflexivity.
  - vm_compute. reflexivity.
  - constructor; [exists (demo_job 20)|constructor; [exists (demo_job 30)|constructor]].
    all: split; [reflexivity|]; split; [|split]; vm_compute; reflexivity.
  - reflexivity.
  - vm_compute. reflexivity.
  - vm_compute. reflexivity.
  - vm_compute. reflexivity.
Defined.

Definition demo_task (done : Z) : ActiveTaskDetail := {|
  at_job_id := "j"; at_job_name := "j"; at_job_status := None; job_total_tasks := None; at_task_id := Some "t"; at_task_type := "download";
  at_status := None; at_site := None; at_username := None; content_type := None; at_worker_id := None; at_started_at := None;
  at_completed_at := None; progress := None; items_processed := Some #done; items_total := None; items_scraped := None; items_saved := None;
  bytes_written := None; total_bytes := None; speed_bps := None; avg_speed_bps := None; at_error := None |}.

(** A thousand items in half a second steps: the job-wise measurement would show 2000 a
    second, the task shows none. *)
Example no_speed_of_a_busy_task :
  map speed (activeTasks (foldl refresh_tasks no_tasks
    [([demo_task 0], #0); ([demo_task 1000], #500); ([demo_task 2000], #1000); ([demo_task 3000], #1500); ([demo_task 4000], #2000)])) = [#0].
Proof. vm_compute. reflexivity. Qed.

Example one_point : chartPath [{| chart_timestamp := #50; chart_value := #5 |}] #640 #180 (Some #10) (Some #0) (Some #100) #0 = "M319.0 90.0 L321.0 90.0".
Proof. vm_compute. reflexivity. Qed.

Example byte_rates : map formatBytesPerSecond [#512; #2048; #1500000] = ["512 B/s"; "2.00 KB/s"; "1.43 MB/s"].
Proof. vm_compute. reflexivity. Qed.
