(* ===== verification/DashboardPulse.v ===== *)
(** * The dashboard ([features/dashboard/SystemPulseDashboard.tsx])

    What the page computes around its rendering: the history of samples and the copy
    of it in the browser's storage, its reduction for the charts, the stream of events
    and the refreshes events ask for, the jobs seen only through their tasks, the
    totals, regions of proxies and attention signals. The storage's text under
    [connectionScopedKey] is given as it was read; [JSON.parse] and [JSON.stringify]
    are parameters. A sample is recorded when its microtask runs, as one step. Markup,
    the modal and the clock's ticks are not modelled.

    The theorems: the history refines one entry per quarter of a minute, with the
    bucket's peak rates, for 24 hours; what is drawn keeps every peak; keys to refresh
    are never forgotten, events never repeated; every job seen through its tasks is
    listed once. *)

From Stdlib Require Import Ascii ZArith Lia SpecFloat.
From stdpp Require Import base list strings option sets sorting relations.
From S2P Require Import Prelude JsString JsNum JsInt JsDiv JsBounds JsOrder JsSort JsText JsValue JsDate JobTypes Dashboard.

(** ** Samples *)

Record PulseSample := {
  timestamp : num;
  activeJobs : num;
  queuedJobs : num;
  itemRate : num;
  successRate : num;
  workerLoad : num;
  writeRate : num
}.

Inductive PulseRange := FifteenMinutes | OneHour | OneDay.

Definition range_text (r : PulseRange) : string :=
  match r with FifteenMinutes => "15 min" | OneHour => "1 hour" | OneDay => "24 hours" end.

Definition RANGE_OPTIONS : list PulseRange := [FifteenMinutes; OneHour; OneDay].
Definition RANGE_DURATION (r : PulseRange) : num :=
  match r with FifteenMinutes => #900000 | OneHour => #3600000 | OneDay => #86400000 end.
Definition HISTORY_RETENTION_MS : num := RANGE_DURATION OneDay.
Definition SAMPLE_BUCKET_MS : num := #15000.
Definition MAX_STORED_SAMPLES : nat := 5761.
Definition MAX_RENDER_SAMPLES : nat := 360.

Definition finiteNumber (o : option num) : num := match o with Some n => if is_finite n then n else #0 | None => #0 end.

Definition finite_field (v : value) (key : string) : option num :=
  match as_num (get_field (Some v) key) with Some n => if is_finite n then Some n else None | None => None end.

(** [isPulseSample], with the sample. *)
Definition isPulseSample (v : value) : option PulseSample :=
  match finite_field v "timestamp", finite_field v "activeJobs", finite_field v "queuedJobs", finite_field v "itemRate",
        finite_field v "successRate", finite_field v "workerLoad", finite_field v "writeRate" with
  | Some t, Some a, Some q, Some i, Some s, Some l, Some w =>
      Some {| timestamp := t; activeJobs := a; queuedJobs := q; itemRate := i; successRate := s; workerLoad := l; writeRate := w |}
  | _, _, _, _, _, _, _ => None
  end.

(** [l.slice(-n)], for [n] above zero. *)
Definition take_last {A} (n : nat) (l : list A) : list A := drop (length l - n) l.

Definition earlier_first : PulseSample -> PulseSample -> bool := smaller_first timestamp.

Section storage.
Variable parse : string -> option value.
Variable stringify : list PulseSample -> string.

(** [raw] is [None] where reading the storage fails or finds nothing. *)
Definition readStoredSamples (raw : option string) (now : num) : list PulseSample :=
  match truthy_opt raw with
  | None => []
  | Some text =>
      match parse text with
      | Some (VArr l) =>
          let cutoff := now ⊖ HISTORY_RETENTION_MS in
          take_last MAX_STORED_SAMPLES (stable_sort earlier_first (keep (fun s => timestamp s >=! cutoff) (omap isPulseSample l)))
      | _ => []
      end
  end.

Definition readSavedRange (raw : option string) : PulseRange :=
  match raw with
  | Some text => find_first (fun r => range_text r =s text) RANGE_OPTIONS ?? OneHour
  | None => OneHour
  end.

Definition bucketTimestamp (s : PulseSample) : num := math_floor (timestamp s ⊘ SAMPLE_BUCKET_MS) ⊗ SAMPLE_BUCKET_MS.

Definition at_bucket (s : PulseSample) : PulseSample :=
  {| timestamp := bucketTimestamp s; activeJobs := activeJobs s; queuedJobs := queuedJobs s; itemRate := itemRate s;
     successRate := successRate s; workerLoad := workerLoad s; writeRate := writeRate s |}.

(** [sample] in the place of [existing]. *)
Definition with_peaks (existing sample : PulseSample) : PulseSample :=
  {| timestamp := bucketTimestamp sample; activeJobs := activeJobs sample; queuedJobs := queuedJobs sample;
     itemRate := math_max (itemRate existing) (itemRate sample); successRate := successRate sample; workerLoad := workerLoad sample;
     writeRate := math_max (writeRate existing) (writeRate sample) |}.

Definition mergePulseSample (previous : list PulseSample) (sample : PulseSample) : list PulseSample :=
  let cutoff := timestamp sample ⊖ HISTORY_RETENTION_MS in
  let retained := keep (fun c => timestamp c >=! cutoff) previous in
  let merged := match find_index (fun c => timestamp c =! bucketTimestamp sample) retained with
                | Some i => alter (fun existing => with_peaks existing sample) i retained
                | None => retained ++ [at_bucket sample]
                end in
  take_last MAX_STORED_SAMPLES (stable_sort earlier_first merged).

(** ** Reduction for the charts *)

(** The bounds of part [index] of [n] entries in [maximum] parts; floored quotients of
    such small integers are exact ([JsDiv.floor_div_int]). *)
Definition part_start (n maximum index : nat) : nat := index * n / maximum.
Definition part_end (n maximum index : nat) : nat := Nat.max (part_start n maximum index + 1) (part_start n maximum (index + 1)).

Definition slice {A} (i j : nat) (l : list A) : list A := take (j - i) (drop i l).

(** The latest of a part with its extremes; [None] of an empty part. *)
Definition extremes (bucket : list PulseSample) : option PulseSample :=
  match list.last bucket with
  | None => None
  | Some latest =>
      Some {| timestamp := timestamp latest; activeJobs := activeJobs latest; queuedJobs := queuedJobs latest;
              itemRate := foldl math_max (S754_infinity true) (map itemRate bucket);
              successRate := foldl math_min (S754_infinity false) (map successRate bucket);
              workerLoad := workerLoad latest;
              writeRate := foldl math_max (S754_infinity true) (map writeRate bucket) |}
  end.

Definition downsamplePulseSamples (source : list PulseSample) (maximum : nat) : list PulseSample :=
  if (length source <=? maximum)%nat then source
  else omap (fun index => extremes (slice (part_start (length source) maximum index) (part_end (length source) maximum index) source)) (seq 0 maximum).

(** The axis of the rates: its minimum and maximum. *)
Definition throughputAxisBounds (values : list num) : num * num :=
  match keep is_finite values with
  | [] => (#0, #1)
  | finiteValues =>
      let dataMinimum := foldl math_min (S754_infinity false) finiteValues in
      let dataMaximum := foldl math_max (S754_infinity true) finiteValues in
      let spread := math_max (dataMaximum ⊖ dataMinimum) #1 in
      let includesIdlePeriod := (dataMinimum <=! #0) || (dataMinimum <=! dataMaximum ⊗ (#2 ⊘ #10)) in
      let minimum := if includesIdlePeriod then #0 else math_max #0 (dataMinimum ⊖ spread ⊗ (#1 ⊘ #10)) in
      (minimum, math_max (minimum ⊕ #1) (dataMaximum ⊕ spread ⊗ (#1 ⊘ #10)))
  end.

(** ** Texts *)

Definition formatCompactRate (v : num) : string :=
  if negb (is_finite v) || (v <=! #0) then "0"
  else if v >=! #1000 then to_fixed (if v >=! #10000 then 0 else 1) (v ⊘ #1000) +:+ "k"
  else if v >=! #100 then to_fixed 0 v
  else if v >=! #10 then to_fixed 1 v
  else to_fixed 2 v.

(** [\u2014], the dash. *)
Definition formatPercent (v : num) : string :=
  if negb (is_finite v) then "—"
  else if v >=! (#9995 ⊘ #100) then "100%"
  else to_fixed (if v >=! #10 then 1 else 2) v +:+ "%".

Definition miniTrendPoints (values : list num) : string :=
  let series := match values with _ :: _ :: _ => values | [v] => [v; v] | [] => [#0; #0] end in
  let minimum := foldl math_min (S754_infinity false) series in
  let maximum := foldl math_max (S754_infinity true) series in
  let span := maximum ⊖ minimum in
  join " " (imap (fun index v =>
    let x := (#(Z.of_nat index) ⊘ math_max #(Z.of_nat (length series) - 1) #1) ⊗ #120 in
    let normalized := if span >! #0 then (v ⊖ minimum) ⊘ span else #1 ⊘ #2 in
    to_fixed 1 x +:+ "," +:+ to_fixed 1 (#28 ⊖ normalized ⊗ #22)) series).

Definition jobProgress (job : Job) : num :=
  let count := task_count job ?? nan in
  if count <=! #0 then (if job_status job =s "completed" then #100 else #0)
  else clamp #0 #100 ((((completed_tasks job ?? nan) ⊕ (failed_tasks job ?? nan)) ⊘ count) ⊗ #100).

Definition labelJobStatus (status : string) : string := if status =s "pending" then "queued" else status.

(** ** Events *)

Inductive PulseSeverity := Critical | Warning | Info | Success.

Record PulseEvent := {
  event_id : string;
  event_timestamp : num;
  severity : PulseSeverity;
  source : string;
  title : string;
  detail : string
}.

(** [/[_-]+/g] replaced by a space. *)
Fixpoint spaced (dashes : bool) (s : string) : string :=
  match s with
  | EmptyString => EmptyString
  | String c r => if has_char c "_-" then (if dashes then spaced true r else String " " (spaced true r)) else String c (spaced false r)
  end.

(** [/\b\w/g] in upper case: word characters after anything else. *)
Fixpoint capitals (in_word : bool) (s : string) : string :=
  match s with
  | EmptyString => EmptyString
  | String c r => let word := is_alnum c || Ascii.eqb c "_" in
                  String (if word && negb in_word then upper_char c else c) (capitals word r)
  end.

Definition humanizeEventName (v : string) : string := capitals false (spaced false v).

Definition eventString (event : fields) (key : string) : option string :=
  match prop key event with
  | Some (VStr s) => truthy_opt (Some (trim s))
  | Some (VNum n) => if is_finite n then Some (show_num n) else None
  | _ => None
  end.

Definition mentions (words : list string) (s : string) : bool := some (includes s) words.

Definition eventSeverity (eventName : string) (level : option string) : PulseSeverity :=
  let normalized := to_lower (eventName +:+ " " +:+ (level ?? EmptyString)) in
  if mentions ["critical"; "fatal"; "error"; "failed"; "failure"; "cancelled"] normalized then Critical
  else if mentions ["warn"; "degraded"; "retry"; "timeout"; "transition"] normalized then Warning
  else if mentions ["complete"; "completed"; "success"; "ready"; "connected"] normalized then Success
  else Info.

Fixpoint first_of {A} (l : list (option A)) : option A :=
  match l with [] => None | Some x :: _ => Some x | None :: r => first_of r end.

Context `{Env}.

Definition mapWebSocketEvent (event : fields) (now : num) : option PulseEvent :=
  match first_of [eventString event "event"; eventString event "type"] with
  | None => None
  | Some eventName =>
      if (eventName =s "pong") || (eventName =s "ack") then None
      else
        let parsedTimestamp := match eventString event "timestamp" with Some t => date_ms t | None => nan end in
        let timestamp := if is_finite parsedTimestamp then parsedTimestamp else now in
        let level := eventString event "level" in
        let source := first_of [eventString event "source"; eventString event "worker_id"; eventString event "job_id"; eventString event "category"]
                      ?? "system" in
        let name := show_num timestamp +:+ ":" +:+ source +:+ ":" in
        if eventName =s "log" then
          match eventString event "message" with
          | None => None
          | Some message =>
              let category := eventString event "category" ?? "system" in
              Some {| event_id := name +:+ message; event_timestamp := timestamp; severity := eventSeverity eventName level; source := source;
                      title := message;
                      detail := match first_of [eventString event "function"; eventString event "module"] with
                                | Some origin => category +:+ " · " +:+ origin
                                | None => category
                                end |}
          end
        else
          let detail := join " · " (omap (fun x => x) [eventString event "message"; humanizeEventName <$> eventString event "task_type";
                                                       (fun u => "@" +:+ u) <$> eventString event "username"]) in
          Some {| event_id := name +:+ eventName +:+ ":" +:+ detail; event_timestamp := timestamp; severity := eventSeverity eventName level;
                  source := source; title := humanizeEventName eventName; detail := str_or detail "Live backend event" |}
  end.

(** ** Regions of proxies *)

Record ProxyRegion := { region_name : string; routes : num; assignments : num; capacity : num }.

Definition proxyRegionName (proxy : NetworkProxy) : string :=
  match geolocation proxy with
  | None => "Unresolved region"
  | Some l =>
      match truthy_opt (geo_country l), truthy_opt (geo_region l) with
      | Some c, Some r => c +:+ " · " +:+ r
      | _, _ => first_of [geo_country l; geo_continent l] ?? "Unresolved region"
      end
  end.

Definition new_region (name : string) : ProxyRegion := {| region_name := name; routes := #0; assignments := #0; capacity := #0 |}.

(** A proxy of the list names its accounts and its limit; without accounts the page
    would throw. *)
Definition add_proxy (regions : JMap.t ProxyRegion) (proxy : NetworkProxy) : JMap.t ProxyRegion :=
  let name := proxyRegionName proxy in
  let region := JMap.get name regions ?? new_region name in
  JMap.set name {| region_name := region_name region; routes := routes region ⊕ #1;
                   assignments := assignments region ⊕ #(Z.of_nat (length (assigned_auths proxy ?? [])));
                   capacity := capacity region ⊕ math_max #0 (max_connections proxy ?? nan) |} regions.

Definition largest_first (left right : ProxyRegion) : bool :=
  num_or (capacity right ⊖ capacity left) (routes right ⊖ routes left) >! #0.

Definition groupProxyRegions (proxies : list NetworkProxy) : list ProxyRegion :=
  stable_sort largest_first (JMap.values (foldl add_proxy JMap.empty proxies)).

(** ** What the requests answered ([api/types/jobs.ts], [api/types/system.ts]) *)

Record QueueStats := { transitioning : bool; redis_queue_size : num; active_queue_type : string }.
Record DiskStats := { device : string; write_bytes_per_sec : option num }.
Record BackendStatus := {
  distributed_mode : bool;
  redis_connected : bool;
  worker_count : num;
  active_workers : num;
  pending_jobs : option num;
  disks : option (list DiskStats)
}.

(** A query's last data, whether it failed, and [dataUpdatedAt]. *)
Record answer (A : Type) := { data : option A; isError : bool; dataUpdatedAt : num }.
#[global] Arguments data {A} _.
#[global] Arguments isError {A} _.
#[global] Arguments dataUpdatedAt {A} _.

Record sources := {
  jobs : answer (list Job);
  tasks : answer (list ActiveTaskDetail);
  backend : answer BackendStatus;
  queue : answer QueueStats;
  health : answer string;
  proxies : answer (list NetworkProxy);
  mpsCompletionSamples : JMap.t JobCompletionSample;
  activeTaskState : ActiveTaskState
}.

Definition allJobs (s : sources) : list Job := data (jobs s) ?? [].
Definition mpsJobs (s : sources) : list Job := keep (fun job => opt_eqb (created_by job) "webui_mps") (allJobs s).

(** [Date.parse(job.created_at)]. *)
Definition job_date (job : Job) : num := match created_at job with Some t => date_ms t | None => nan end.

(** [left] has to come after [right]: running jobs first, then the latest. *)
Definition after_job (left right : Job) : bool :=
  if (job_status left =s "running") && negb (job_status right =s "running") then false
  else if (job_status right =s "running") && negb (job_status left =s "running") then true
  else (job_date right ⊖ job_date left) >! #0.

Definition persistedActiveJobs (s : sources) : list Job :=
  stable_sort after_job
    (keep (fun job => negb (internal_job (to_lower (job_id job))))
       (keep (fun job => (job_status job =s "running") || (job_status job =s "pending")) (allJobs s))).

Definition heavyQueue (s : sources) : bool := match data (queue s) with Some q => redis_queue_size q >=! #50000 | None => false end.

(** ** Jobs seen only through their tasks *)

(** What a job made from tasks has. *)
Record virtual_job := {
  v_name : string;
  v_running : bool;
  v_created_at : string;
  v_task_count : num;
  v_completed : num;
  v_failed : num
}.

Definition as_job (id : string) (v : virtual_job) : Job := {|
  deletion_progress := None; job_id := id; execution_engine := None; job_name := Some (v_name v); job_type := None; job_site := None;
  job_status := if v_running v then "running" else "pending"; priority := None; job_worker_id := None; retries := None; max_retries := None;
  created_at := Some (v_created_at v); updated_at := None; started_at := None; completed_at := None; task_count := Some (v_task_count v);
  completed_tasks := Some (v_completed v); failed_tasks := Some (v_failed v); job_task_summaries := Some []; job_tasks := None; task_stats := None;
  task_stats_observed_at_ms := None; mps_refill_trace := None; error_stats := None; created_by := None; is_scheduled := None; scheduled_for := None;
  interval_seconds := None; cron := None; run_count := None; last_ran_at := None; last_activity_at := None; materialization_status := None;
  materialized_tasks := None; materialization_total := None; materialization_error := None; metadata := None; args := None;
  duration_seconds := None; result_success := None; result_message := None; result_error := None; job_runtime_telemetry := None |}.

(** The status of a task's job as the task has it. *)
Definition status_of_job (task : ActiveTaskDetail) : string := to_lower (nullish_opt (at_job_status task) (at_status task) ?? EmptyString).

(** The task is of a job the list of jobs does not have. *)
Definition reveals_job (known : list string) (task : ActiveTaskDetail) : bool :=
  negb (str_in (at_job_id task) known) && negb (internal_job (to_lower (at_job_id task)))
  && ((status_of_job task =s "running") || (status_of_job task =s "pending")).

Definition hintedTaskCount (task : ActiveTaskDetail) : option num :=
  match job_total_tasks task with Some n => if n >! #0 then Some n else None | None => None end.

Definition task_is (status : string) (task : ActiveTaskDetail) : bool := to_lower (at_status task ?? EmptyString) =s status.

Definition one_if (b : bool) : num := if b then #1 else #0.

Definition count_if (b : bool) (n : num) : num := if b then n ⊕ #1 else n.

Definition add_virtual (known : list string) (snapshot : num) (found : JMap.t virtual_job) (t : TaskWithSpeed) : JMap.t virtual_job :=
  let task := shown t in
  if negb (reveals_job known task) then found
  else
    let running := status_of_job task =s "running" in
    match JMap.get (at_job_id task) found with
    | Some e =>
        JMap.set (at_job_id task)
          {| v_name := v_name e; v_running := v_running e || running; v_created_at := v_created_at e;
             v_task_count := match hintedTaskCount task with Some n => math_max (v_task_count e) n | None => v_task_count e ⊕ #1 end;
             v_completed := count_if (task_is "completed" task) (v_completed e); v_failed := count_if (task_is "failed" task) (v_failed e) |} found
    | None =>
        JMap.set (at_job_id task)
          {| v_name := str_or (at_job_name task) (at_job_id task); v_running := running;
             v_created_at := at_started_at task ?? iso_string (num_to_Z snapshot); v_task_count := hintedTaskCount task ?? #1;
             v_completed := one_if (task_is "completed" task); v_failed := one_if (task_is "failed" task) |} found
    end.

Definition virtualJobs (s : sources) (now : num) : JMap.t virtual_job :=
  let snapshot := num_or (dataUpdatedAt (tasks s)) now in
  foldl (add_virtual (map job_id (allJobs s)) snapshot) JMap.empty (activeTasks (activeTaskState s)).

Definition activeJobs_of (s : sources) (now : num) : list Job :=
  stable_sort after_job (persistedActiveJobs s ++ map (fun kv => as_job kv.1 kv.2) (virtualJobs s now)).

(** ** Totals *)

Definition count_num {A} (l : list A) : num := #(Z.of_nat (length l)).
Definition total {A} (f : A -> num) (l : list A) : num := foldl (fun t x => t ⊕ f x) #0 l.

Definition runningJobCount (s : sources) (now : num) : num := count_num (keep (fun job => job_status job =s "running") (activeJobs_of s now)).
Definition runningTasks (s : sources) : num := count_num (keep (fun t => opt_eqb (at_status (shown t)) "running") (activeTasks (activeTaskState s))).

Definition totalItemRate (s : sources) : num :=
  total (fun job => match JMap.get (job_id job) (mpsCompletionSamples s) with Some x => rate x | None => #0 end) (mpsJobs s)
  ⊕ total (fun t => if str_in (at_job_id (shown t)) (map job_id (mpsJobs s)) then #0 else finiteNumber (Some (speed t))) (activeTasks (activeTaskState s)).

Definition completedTasks_of (s : sources) : num := total (fun job => math_max #0 (finiteNumber (completed_tasks job))) (allJobs s).
Definition failedTasks_of (s : sources) : num := total (fun job => math_max #0 (finiteNumber (failed_tasks job))) (allJobs s).

Definition totalSuccessRate (s : sources) : num :=
  let terminalTasks := completedTasks_of s ⊕ failedTasks_of s in
  if terminalTasks >! #0 then (completedTasks_of s ⊘ terminalTasks) ⊗ #100 else #100.

Definition worker_counts (s : sources) : num * num :=
  match data (backend s) with Some b => (worker_count b, active_workers b) | None => (#0, #0) end.

Definition totalWorkerLoad (s : sources) : num :=
  let '(workerCount, activeWorkers) := worker_counts s in
  if workerCount >! #0 then clamp #0 #100 ((activeWorkers ⊘ workerCount) ⊗ #100) else #0.

(** Each device once. *)
Definition add_disk (acc : list string * num) (disk : DiskStats) : list string * num :=
  let '(seen, sum) := acc in
  if str_in (device disk) seen then acc
  else (set_add (device disk) seen, sum ⊕ math_max #0 (finiteNumber (write_bytes_per_sec disk))).

Definition totalWriteRate (s : sources) : num := (foldl add_disk ([], #0) ((data (backend s) ?> disks) ?? [])).2.

Definition queuedJobs_of (s : sources) : num :=
  (data (backend s) ?> pending_jobs) ?? count_num (keep (fun job => job_status job =s "pending") (allJobs s)).

Definition sampleTimestamp (s : sources) : num :=
  foldl math_max (S754_infinity true) [dataUpdatedAt (queue s); dataUpdatedAt (backend s); dataUpdatedAt (jobs s); dataUpdatedAt (tasks s)].

Definition current_sample (s : sources) (now : num) : PulseSample := {|
  timestamp := sampleTimestamp s; activeJobs := runningJobCount s now; queuedJobs := queuedJobs_of s; itemRate := totalItemRate s;
  successRate := totalSuccessRate s; workerLoad := totalWorkerLoad s; writeRate := totalWriteRate s |}.

(** ** Events of jobs, signals *)

Definition job_stamp (job : Job) : num :=
  match nullish_opt (updated_at job) (created_at job) with Some t => date_ms t | None => nan end.

Definition job_severity (status : string) : PulseSeverity :=
  if (status =s "failed") || (status =s "cancelled") then Critical
  else if status =s "completed" then Success
  else if status =s "pending" then Warning
  else Info.

Definition locale (o : option num) : string := number_toLocaleString (o ?? nan).

Definition job_event (job : Job) : PulseEvent :=
  let timestamp := job_stamp job in
  {| event_id := "job:" +:+ job_id job +:+ ":" +:+ job_status job +:+ ":" +:+ show_num timestamp;
     event_timestamp := if is_finite timestamp then timestamp else #0;
     severity := job_severity (job_status job); source := job_id job;
     title := (truthy_opt (job_name job) ?? job_id job) +:+ " " +:+ labelJobStatus (job_status job);
     detail := locale (completed_tasks job) +:+ " completed · " +:+ locale (failed_tasks job) +:+ " failed · " +:+ locale (task_count job) +:+ " total" |}.

Definition derivedJobEvents (s : sources) : list PulseEvent := map job_event (take 8 (stable_sort (larger_first job_stamp) (allJobs s))).

Definition visibleEvents (events : list PulseEvent) (s : sources) : list PulseEvent :=
  take 4 (stable_sort (larger_first event_timestamp) (events ++ derivedJobEvents s)).

Definition signal (cond : bool) (text : string) : list string := if cond then [text] else [].

Definition failed_jobs_text (n : nat) : string :=
  show_num #(Z.of_nat n) +:+ " failed " +:+ (if (n =? 1)%nat then "job" else "jobs").

Definition attentionSignals (atlas : bool) (s : sources) (now : num) : list string :=
  let failedJobs := length (keep (fun job => job_status job =s "failed") (allJobs s)) in
  signal (match data (queue s) with Some q => transitioning q | None => false end) "Queue transition"
  ++ signal (match data (backend s) with Some b => distributed_mode b && negb (redis_connected b) | None => false end) "Redis disconnected"
  ++ signal ((runningJobCount s now >! #0) && (match data (backend s) with Some b => worker_count b =! #0 | None => false end)) "No workers online"
  ++ match data (health s) with
     | Some h => signal (negb (str_in (to_lower h) ["healthy"; "ok"])) ("Backend " +:+ h)
     | None => []
     end
  ++ signal (0 <? failedJobs)%nat (failed_jobs_text failedJobs)
  ++ signal (isError (queue s) || isError (backend s) || isError (jobs s)) "Dashboard source unavailable"
  ++ signal (atlas && (isError (health s) || isError (tasks s) || isError (proxies s))) "Telemetry source unavailable".

Definition latestUpdate (s : sources) : num :=
  foldl math_max (S754_infinity true)
    [dataUpdatedAt (queue s); dataUpdatedAt (health s); dataUpdatedAt (backend s); dataUpdatedAt (jobs s); dataUpdatedAt (tasks s);
     dataUpdatedAt (proxies s)].

Definition updateAgeSeconds (s : sources) (now : num) : option num :=
  if latestUpdate s >! #0 then Some (math_max #0 (math_floor ((now ⊖ latestUpdate s) ⊘ #1000))) else None.

Definition effectiveSelectedJobId (selected : option Job) (s : sources) (now : num) : option string :=
  let first := match activeJobs_of s now with job :: _ => Some (job_id job) | [] => None end in
  match selected with
  | Some job => if some (fun j => job_id j =s job_id job) (activeJobs_of s now) then Some (job_id job) else first
  | None => first
  end.

Definition selectedJobDetails (selected : option Job) (s : sources) (now : num) : option Job :=
  match selected with
  | None => None
  | Some job =>
      let same j := job_id j =s job_id job in
      first_of [find_first same (allJobs s); find_first same (activeJobs_of s now); Some job]
  end.

Definition historyNow (now : num) : num := math_floor (now ⊘ SAMPLE_BUCKET_MS) ⊗ SAMPLE_BUCKET_MS.

Definition rangeSamples (range : PulseRange) (samples : list PulseSample) (now : num) : list PulseSample :=
  let cutoff := historyNow now ⊖ RANGE_DURATION range in
  keep (fun s => timestamp s >=! cutoff) samples.

Definition visibleRangeSamples (range : PulseRange) (samples : list PulseSample) (now : num) : list PulseSample :=
  downsamplePulseSamples (rangeSamples range samples now) MAX_RENDER_SAMPLES.

Definition chart_points (f : PulseSample -> num) (samples : list PulseSample) : list TimedChartPoint :=
  map (fun s => {| chart_timestamp := timestamp s; chart_value := f s |}) samples.

Definition throughputLine (range : PulseRange) (samples : list PulseSample) (now : num) : string :=
  let '(minimum, maximum) := throughputAxisBounds (map itemRate (rangeSamples range samples now)) in
  chartPath (chart_points itemRate (visibleRangeSamples range samples now)) #640 #180 (Some maximum)
    (Some (historyNow now ⊖ RANGE_DURATION range)) (Some (historyNow now)) minimum.

Definition errorLine (range : PulseRange) (samples : list PulseSample) (now : num) : string :=
  chartPath (chart_points (fun s => math_max #0 (#100 ⊖ successRate s)) (visibleRangeSamples range samples now)) #640 #180 (Some #100)
    (Some (historyNow now ⊖ RANGE_DURATION range)) (Some (historyNow now)) #0.

(** ** The page's state *)

Record pulse := {
  range : PulseRange;
  saved : bool;
  eventsPaused : bool;
  events : list PulseEvent;
  samples : list PulseSample;
  refresh_timer : bool;
  pendingRefreshes : list string;
  signature : option string;
  stored_samples : option string;
  stored_range : option string;
  invalidated : list string
}.

Definition open_page (raw_samples raw_range : option string) (now : num) : pulse := {|
  range := readSavedRange raw_range; saved := false; eventsPaused := false; events := []; samples := readStoredSamples raw_samples now;
  refresh_timer := false; pendingRefreshes := []; signature := None; stored_samples := raw_samples; stored_range := raw_range;
  invalidated := [] |}.

Definition set_range (r : PulseRange) (ok : bool) (text : option string) (p : pulse) : pulse := {|
  range := r; saved := ok; eventsPaused := eventsPaused p; events := events p; samples := samples p; refresh_timer := refresh_timer p;
  pendingRefreshes := pendingRefreshes p; signature := signature p; stored_samples := stored_samples p; stored_range := text;
  invalidated := invalidated p |}.
Definition set_events (paused : bool) (l : list PulseEvent) (p : pulse) : pulse := {|
  range := range p; saved := saved p; eventsPaused := paused; events := l; samples := samples p; refresh_timer := refresh_timer p;
  pendingRefreshes := pendingRefreshes p; signature := signature p; stored_samples := stored_samples p; stored_range := stored_range p;
  invalidated := invalidated p |}.
Definition set_samples (l : list PulseSample) (sig text : option string) (p : pulse) : pulse := {|
  range := range p; saved := saved p; eventsPaused := eventsPaused p; events := events p; samples := l; refresh_timer := refresh_timer p;
  pendingRefreshes := pendingRefreshes p; signature := sig; stored_samples := text; stored_range := stored_range p;
  invalidated := invalidated p |}.
Definition set_refreshes (timer : bool) (keys done : list string) (p : pulse) : pulse := {|
  range := range p; saved := saved p; eventsPaused := eventsPaused p; events := events p; samples := samples p; refresh_timer := timer;
  pendingRefreshes := keys; signature := signature p; stored_samples := stored_samples p; stored_range := stored_range p;
  invalidated := done |}.

Definition scheduleRefresh (keys : list string) (p : pulse) : pulse :=
  set_refreshes true (foldl (fun l key => set_add key l) (pendingRefreshes p) keys) (invalidated p) p.

(** The timer of [scheduleRefresh]. *)
Definition refresh_fires (p : pulse) : pulse := set_refreshes false [] (invalidated p ++ pendingRefreshes p) p.

Definition refresh_keys (eventName : string) : list string :=
  if mentions ["progress"] eventName then ["pulse-active-tasks"]
  else if mentions ["job"; "task"; "worker"; "queue"; "settings"] eventName
  then ["pulse-active-tasks"; "pulse-jobs"; "pulse-queue-stats"; "pulse-backend-status"]
  else [].

Definition refresh_for (eventName : string) (p : pulse) : pulse :=
  match refresh_keys eventName with [] => p | keys => scheduleRefresh keys p end.

Definition add_event (e : PulseEvent) (previous : list PulseEvent) : list PulseEvent :=
  if some (fun c => event_id c =s event_id e) previous then previous else take 40 (e :: previous).

Definition handleWebSocketMessage (event : fields) (now : num) (p : pulse) : pulse :=
  let eventName := first_of [eventString event "event"; eventString event "type"] ?? EmptyString in
  let p := refresh_for eventName p in
  if eventsPaused p then p
  else match mapWebSocketEvent event now with
       | None => p
       | Some e => set_events false (add_event e (events p)) p
       end.

Definition record_sample (s : PulseSample) (p : pulse) : pulse :=
  if timestamp s <=! #0 then p else set_samples (mergePulseSample (samples p) s) (signature p) (stored_samples p) p.

Definition signature_of (l : list PulseSample) : string :=
  show_num (count_num l) +:+ ":" +:+ show_num (match list.last l with Some s => timestamp s | None => #0 end).

(** The effect that stores the history; [writable] says whether the storage takes it. *)
Definition persist (writable : bool) (p : pulse) : pulse :=
  if opt_eqb (signature p) (signature_of (samples p)) then p
  else set_samples (samples p) (Some (signature_of (samples p))) (if writable then Some (stringify (samples p)) else stored_samples p) p.

(** Choosing a range does not store it. *)
Definition setRange (r : PulseRange) (p : pulse) : pulse := set_range r false (stored_range p) p.
Definition saveView (writable : bool) (p : pulse) : pulse :=
  if writable then set_range (range p) true (Some (range_text (range p))) p else set_range (range p) false (stored_range p) p.
Definition toggleEvents (p : pulse) : pulse := set_events (negb (eventsPaused p)) (events p) p.

(** The cleanup clears the timer. *)
Definition unmount (p : pulse) : pulse := set_refreshes false (pendingRefreshes p) (invalidated p) p.

(** What happens to the open page; [mounted] ends with [unmount]. *)
Inductive step : pulse -> pulse -> Prop :=
| Message event now p : step p (handleWebSocketMessage event now p)
| Refresh_fires p : refresh_timer p = true -> step p (refresh_fires p)
| Sampled s p : step p (record_sample s p)
| Persisted writable p : step p (persist writable p)
| Choose_range r p : step p (setRange r p)
| Save_view writable p : step p (saveView writable p)
| Toggle_events p : step p (toggleEvents p).

Inductive reachable (raw_samples raw_range : option string) (now : num) : pulse -> Prop :=
| Opened : reachable raw_samples raw_range now (open_page raw_samples raw_range now)
| Steps p p' : reachable raw_samples raw_range now p -> step p p' -> reachable raw_samples raw_range now p'.
End storage.

(** * What the dashboard promises *)

(** ** Largest and smallest of a list *)

Lemma math_max_ge_r x y : real x -> real y -> (y <=! math_max x y) = true.
Proof.
  intros Hx Hy. unfold math_max. destruct (cmp_real x y Hx Hy) as [c E]. rewrite E. unfold num_leb.
  destruct c; [|by rewrite cmp_refl|by rewrite cmp_swap, E].
  destruct x as [[]| | |]; try (by rewrite cmp_refl); by rewrite cmp_swap, E.
Qed.

Lemma math_min_le_r x y : real x -> real y -> (math_min x y <=! y) = true.
Proof.
  intros Hx Hy. unfold math_min. destruct (cmp_real x y Hx Hy) as [c E]. rewrite E. unfold num_leb.
  destruct c; [|by rewrite E|by rewrite cmp_refl].
  destruct x as [[]| | |]; try (by rewrite cmp_refl); by rewrite E.
Qed.

Lemma foldl_max_ge l a : real a -> Forall real l ->
  real (foldl math_max a l) /\ (a <=! foldl math_max a l) = true /\ Forall (fun x => (x <=! foldl math_max a l) = true) l.
Proof.
  intros Ha Hl. revert a Ha. induction Hl as [|x l Hx _ IH]; intros a Ha; [by rewrite num_leb_refl|]. cbn [foldl].
  destruct (IH (math_max a x)) as (H1 & H2 & H3); [by apply math_max_real|]. assert (real (math_max a x)) by by apply math_max_real.
  split; [done|]. split; [|constructor; [|done]].
  - by apply (num_leb_trans _ (math_max a x)), H2; try done; apply math_max_ge_l.
  - by apply (num_leb_trans _ (math_max a x)), H2; try done; apply math_max_ge_r.
Qed.

Lemma foldl_min_le l a : real a -> Forall real l ->
  real (foldl math_min a l) /\ (foldl math_min a l <=! a) = true /\ Forall (fun x => (foldl math_min a l <=! x) = true) l.
Proof.
  intros Ha Hl. revert a Ha. induction Hl as [|x l Hx _ IH]; intros a Ha; [by rewrite num_leb_refl|]. cbn [foldl].
  destruct (IH (math_min a x)) as (H1 & H2 & H3); [by apply math_min_real|]. assert (real (math_min a x)) by by apply math_min_real.
  split; [done|]. split; [|constructor; [|done]].
  - by apply (num_leb_trans _ (math_min a x)); try done; apply math_min_le_l.
  - by apply (num_leb_trans _ (math_min a x)); try done; apply math_min_le_r.
Qed.

(** ** The history *)

Definition day : Z := 86400000.
Definition bucket_of (z : Z) : Z := z / 15000 * 15000.

(** The history as it is meant: an entry for every quarter of a minute in which there
    was a sample, the last of them with the highest rates; never cut. *)
Definition note (l : list PulseSample) (s : PulseSample) : list PulseSample :=
  match list.last l with
  | Some e => if timestamp e =! bucketTimestamp s then removelast l ++ [with_peaks e s] else l ++ [at_bucket s]
  | None => [at_bucket s]
  end.
Definition every_bucket (observed : list PulseSample) : list PulseSample := foldl note [] observed.

(** What is at most a day old at [z]. *)
Definition recent (z : Z) (l : list PulseSample) : list PulseSample := keep (fun s => timestamp s >=! #(z - day)) l.

(** Samples in the order of the clock, the last at [z]. *)
Inductive clocked : list PulseSample -> Z -> Prop :=
| Clock_start s z : timestamp s = #z -> 0 <= z -> safe z -> clocked [s] z
| Clock_next observed z s z' : clocked observed z -> timestamp s = #z' -> z <= z' -> safe z' -> clocked (observed ++ [s]) z'.

Lemma bucket_bounds z : 0 <= z -> 0 <= bucket_of z <= z /\ z < bucket_of z + 15000 /\ bucket_of z mod 15000 = 0.
Proof.
  intros Hz. unfold bucket_of. pose proof (Z.div_mod z 15000 ltac:(lia)). pose proof (Z.mod_pos_bound z 15000 ltac:(lia)).
  pose proof (Z.div_pos z 15000 ltac:(lia) ltac:(lia)). split; [lia|]. split; [lia|]. apply Z.mod_mul. lia.
Qed.

Lemma bucket_int s z : timestamp s = #z -> 0 <= z -> safe z -> bucketTimestamp s = #(bucket_of z).
Proof.
  intros Ht Hz Hs. unfold bucketTimestamp, SAMPLE_BUCKET_MS. rewrite Ht, floor_div_int by (done || unfold safe; lia).
  pose proof (bucket_bounds z Hz) as Hb. unfold bucket_of in *. pose proof (Z.div_pos z 15000 ltac:(lia) ltac:(lia)).
  assert (z / 15000 <= z) by (apply Z.div_le_upper_bound; lia). unfold safe in *. apply mul_int_nonneg; unfold safe; lia.
Qed.

(** The entries [l] are at the times [bs]: multiples of the bucket, increasing, up to [z]. *)
Record aligned (l : list PulseSample) (bs : list Z) (z : Z) : Prop := {
  at_times : map timestamp l = map num_of_Z bs;
  increasing : StronglySorted Z.lt bs;
  in_buckets : Forall (fun b => 0 <= b <= z /\ b mod 15000 = 0) bs
}.

Lemma sorted_app_inv bs b : StronglySorted Z.lt (bs ++ [b]) -> StronglySorted Z.lt bs /\ Forall (fun x => x < b) bs.
Proof.
  induction bs as [|a bs IH]; intros H; [by repeat constructor|]. simpl in H. apply StronglySorted_inv in H as [H Hf].
  destruct (IH H) as [H1 H2]. apply Forall_app in Hf as [Hf Hb]. apply Forall_cons in Hb as [Hb _]. split; constructor; done.
Qed.

Lemma sorted_snoc bs b : StronglySorted Z.lt bs -> Forall (fun x => x < b) bs -> StronglySorted Z.lt (bs ++ [b]).
Proof.
  induction 1 as [|a bs H IH Hf]; intros Hb; [repeat constructor|]. apply Forall_cons in Hb as [Ha Hb]. simpl. constructor; [auto|].
  apply Forall_app. split; [done|]. by repeat constructor.
Qed.

(** An increasing list of multiples of the bucket between [a] and [z] is short. *)
Lemma few_buckets bs a z : StronglySorted Z.lt bs -> Forall (fun b => a <= b <= z /\ b mod 15000 = 0) bs -> bs <> [] ->
  15000 * (Z.of_nat (length bs) - 1) <= z - a.
Proof.
  intros Hs Hf Hne. assert (H : forall b, list.last bs = Some b -> 15000 * (Z.of_nat (length bs) - 1) <= b - a).
  { clear Hne. induction bs as [|b bs IH] using rev_ind; [done|]. intros c Hc. rewrite last_snoc in Hc. injection Hc as <-.
    apply sorted_app_inv in Hs as [Hs Hlt]. apply Forall_app in Hf as [Hf [Hb Hm]%Forall_inv]. rewrite length_app. simpl.
    destruct (list.last bs) as [e|] eqn:E; [|apply last_None in E as ->; simpl; lia].
    specialize (IH Hs Hf e eq_refl). assert (e ∈ bs) as He by (by apply last_Some_elem_of in E).
    rewrite Forall_forall in Hlt, Hf. pose proof (Hlt e He). destruct (Hf e He) as [_ Hem].
    pose proof (Z.div_mod b 15000 ltac:(lia)). pose proof (Z.div_mod e 15000 ltac:(lia)). lia. }
  destruct (list.last bs) as [b|] eqn:E; [|by apply last_None in E]. specialize (H b eq_refl).
  apply last_Some_elem_of in E. rewrite Forall_forall in Hf. destruct (Hf b E). lia.
Qed.

Lemma keep_ext_in {A} (p q : A -> bool) l : (forall x, x ∈ l -> p x = q x) -> keep p l = keep q l.
Proof.
  induction l as [|x l IH]; intros H; [done|]. unfold keep in *. simpl. rewrite (H x) by (by left).
  rewrite IH; [done|]. intros y Hy. apply H. by right.
Qed.

Lemma find_index_app {A} (p : A -> bool) l x :
  every (fun y => negb (p y)) l = true -> find_index p (l ++ [x]) = if p x then Some (length l) else None.
Proof.
  induction l as [|y l IH]; simpl; [by destruct (p x)|]. intros [Hy%negb_true_iff Hl]%andb_true_iff. rewrite Hy, IH by done. by destruct (p x).
Qed.

Lemma find_index_nowhere {A} (p : A -> bool) l : every (fun y => negb (p y)) l = true -> find_index p l = None.
Proof. induction l as [|y l IH]; simpl; [done|]. intros [->%negb_true_iff Hl]%andb_true_iff. by rewrite IH. Qed.

Lemma alter_last {A} (f : A -> A) l x : alter f (length l) (l ++ [x]) = l ++ [f x].
Proof. induction l as [|y l IH]; [done|]. simpl. by f_equal. Qed.

Lemma in_times l bs z s : aligned l bs z -> s ∈ l -> exists b, timestamp s = #b /\ b ∈ bs /\ 0 <= b <= z.
Proof.
  intros [Ht _ Hf] Hs. assert (Hm : timestamp s ∈ map timestamp l) by (by apply list_elem_of_fmap_2).
  rewrite Ht in Hm. apply list_elem_of_fmap in Hm as (b & E & Hb). exists b. rewrite Forall_forall in Hf. split; [done|]. split; [done|].
  by apply Hf.
Qed.

Lemma recent_int z' s b : timestamp s = #b -> 0 <= b -> safe b -> 0 <= z' -> safe z' -> (timestamp s >=! #(z' - day)) = (z' - day <=? b).
Proof. intros -> Hb Sb Hz Sz. unfold safe, day in *. apply leb_int; unfold safe; lia. Qed.

Lemma recent_aligned l bs z z' : aligned l bs z -> 0 <= z' -> safe z -> safe z' ->
  exists bs', aligned (recent z' l) bs' z /\ Forall (fun b => z' - day <= b) bs' /\ forall b, b ∈ bs' -> b ∈ bs.
Proof.
  intros [Ht Hs Hf] Hz Sz Sz'. exists (keep (fun b => z' - day <=? b) bs).
  assert (Hk : forall b, b ∈ keep (fun b => z' - day <=? b) bs -> b ∈ bs /\ z' - day <= b)
    by (intros b [Hb He]%elem_of_keep; apply Z.leb_le in He; done).
  split; [|split; [by apply Forall_forall; intros b [_ Hb]%Hk|by intros b [Hb _]%Hk]].
  split.
  - clear Hs Hk. revert l Ht. induction Hf as [|b bs Hb Hf IH]; intros l Ht; [by destruct l|]. destruct l as [|s l]; [done|].
    injection Ht as E Ht. unfold recent, keep in *. simpl.
    rewrite (recent_int z' s b) by (done || unfold safe in *; lia). destruct (_ <=? b); simpl; [rewrite E|]; by rewrite (IH l Ht).
  - clear Ht Hf Hk. induction Hs as [|b bs Hs IH Hlt]; [constructor|]. unfold keep. simpl. destruct (_ <=? b); [|done]. constructor; [done|].
    apply Forall_forall. intros x [Hx _]%elem_of_keep. rewrite Forall_forall in Hlt. by apply Hlt.
  - apply Forall_forall. intros b [Hb _]%Hk. rewrite Forall_forall in Hf. by apply Hf.
Qed.

Lemma times_in_place l bs z : aligned l bs z -> safe z -> StronglySorted (in_place earlier_first) l.
Proof.
  intros [Ht Hs Hf] Hz. revert l Ht. induction Hs as [|b bs Hs IH Hlt]; intros l Ht; [destruct l; [constructor|done]|].
  destruct l as [|s l]; [done|]. injection Ht as E Ht. apply Forall_cons_iff in Hf as [Hb Hf]. constructor; [by apply IH|].
  apply Forall_forall. intros x Hx. assert (Hm : timestamp x ∈ map timestamp l) by (by apply list_elem_of_fmap_2).
  rewrite Ht in Hm. apply list_elem_of_fmap in Hm as (b' & E' & Hb'). rewrite Forall_forall in Hlt, Hf.
  specialize (Hlt b' Hb'). destruct (Hf b' Hb') as [? _].
  unfold in_place, earlier_first, smaller_first. rewrite E, E'. unfold safe in *. rewrite sub_int by (unfold safe; lia).
  rewrite ltb_int by (unfold safe; lia). apply Z.ltb_ge. lia.
Qed.

Lemma take_last_all {A} n (l : list A) : (length l <= n)%nat -> take_last n l = l.
Proof. intros H. unfold take_last. by replace (length l - n)%nat with 0%nat by lia. Qed.

Lemma few_recent l bs z : aligned l bs z -> 0 <= z -> safe z -> (length (recent z l) <= MAX_STORED_SAMPLES)%nat.
Proof.
  intros Ha Hz Sz. destruct (recent_aligned l bs z z Ha Hz Sz Sz) as (bs' & Ha' & Hr & _).
  assert (El : length (recent z l) = length bs') by (destruct Ha' as [Ht _ _]; by rewrite <- (length_map timestamp), Ht, length_map).
  rewrite El. destruct (decide (bs' = [])) as [->|Hne]; [apply Nat.le_0_l|]. destruct Ha' as [_ Hs Hf].
  assert (H : 15000 * (Z.of_nat (length bs') - 1) <= z - (z - day)).
  { apply few_buckets; [done| |done]. apply Forall_forall. intros b Hb. rewrite Forall_forall in Hr, Hf. specialize (Hr b Hb).
    destruct (Hf b Hb) as [? ?]. split; [lia|done]. }
  apply Nat2Z.inj_le. change (Z.of_nat MAX_STORED_SAMPLES) with 5761. unfold day in *. lia.
Qed.

(** A recent part of a history is stored as it is. *)
Lemma kept_as_it_is l bs z : aligned l bs z -> 0 <= z -> safe z ->
  take_last MAX_STORED_SAMPLES (stable_sort earlier_first (recent z l)) = recent z l.
Proof.
  intros Ha Hz Sz. destruct (recent_aligned l bs z z Ha Hz Sz Sz) as (bs' & Ha' & _).
  rewrite stable_sort_id by (by eapply times_in_place). apply take_last_all. by eapply few_recent.
Qed.

Lemma bucket_mono b z : 0 <= b <= z -> b mod 15000 = 0 -> b <= bucket_of z.
Proof.
  intros Hb Hm. unfold bucket_of. pose proof (Z.div_mod b 15000 ltac:(lia)). pose proof (Z.div_le_mono b z 15000 ltac:(lia) ltac:(lia)). lia.
Qed.

(** [aligned] grows with a sample at the end. *)
Lemma note_cases l bs z s z' :
  aligned l bs z -> safe z -> timestamp s = #z' -> z <= z' -> 0 <= z' -> safe z' ->
  exists l0 bs0 x, note l s = l0 ++ [x] /\ timestamp x = #(bucket_of z') /\
    aligned l0 bs0 z' /\ Forall (fun b => b < bucket_of z') bs0 /\
    ((l = l0 /\ x = at_bucket s) \/ exists e, l = l0 ++ [e] /\ timestamp e = #(bucket_of z') /\ x = with_peaks e s).
Proof.
  intros Ha Sz Hs Hz Hz' Sz'. pose proof (bucket_int s z' Hs Hz' Sz') as HB. pose proof (bucket_bounds z' Hz') as Hbb.
  assert (Hw : aligned l bs z') by (destruct Ha as [H1 H2 H3]; split; [done|done|]; eapply Forall_impl; [exact H3|]; intros b [? ?]; split; [lia|done]).
  unfold note. destruct (list.last l) as [e|] eqn:El.
  2:{ apply last_None in El as ->. exists [], [], (at_bucket s). split; [done|]. split; [done|]. split; [by repeat constructor|]. split; [done|]. by left. }
  apply last_Some in El as (l0 & ->). destruct Hw as [Ht Hi Hf]. rewrite map_app in Ht. simpl in Ht.
  destruct bs as [|b bs0 _] using rev_ind; [by destruct l0|]. rewrite map_app in Ht. simpl in Ht.
  apply app_inj_tail in Ht as [Ht Ee]. apply sorted_app_inv in Hi as [Hi Hlt]. apply Forall_app in Hf as [Hf0 [Hb Hm]%Forall_inv].
  assert (Hle : b <= bucket_of z') by (by apply bucket_mono).
  rewrite Ee, HB, eqb_int by (unfold safe in *; lia). destruct (b =? bucket_of z') eqn:Eb.
  - apply Z.eqb_eq in Eb. exists l0, bs0, (with_peaks e s). rewrite removelast_last. split; [done|]. split; [done|]. split; [by split|].
    split; [by rewrite <- Eb|]. right. exists e. by rewrite Ee, Eb.
  - apply Z.eqb_neq in Eb. exists (l0 ++ [e]), (bs0 ++ [b]), (at_bucket s). split; [done|]. split; [done|]. split.
    + split; [by rewrite !map_app; simpl; rewrite Ht, Ee|by apply sorted_snoc|]. apply Forall_app. split; [done|]. by apply Forall_singleton.
    + split; [|by left]. apply Forall_app. split; [|apply Forall_singleton; lia]. eapply Forall_impl; [exact Hlt|]. simpl. lia.
Qed.

Lemma aligned_snoc l bs z x : aligned l bs z -> Forall (fun b => b < bucket_of z) bs -> timestamp x = #(bucket_of z) -> 0 <= z ->
  aligned (l ++ [x]) (bs ++ [bucket_of z]) z.
Proof.
  intros [Ht Hi Hf] Hlt Hx Hz. pose proof (bucket_bounds z Hz). split.
  - rewrite !map_app. simpl. by rewrite Ht, Hx.
  - by apply sorted_snoc.
  - apply Forall_app. split; [done|]. apply Forall_singleton. tauto.
Qed.

(** Nothing in an older part is at the bucket of [z]. *)
Lemma not_at_bucket l bs z x : aligned l bs z -> Forall (fun b => b < bucket_of z) bs -> bucketTimestamp x = #(bucket_of z) ->
  0 <= z -> safe z -> every (fun y => negb (timestamp y =! bucketTimestamp x)) l = true.
Proof.
  intros Ha Hlt Hx Hz Sz. apply every_iff. intros y Hy. destruct (in_times l bs z y Ha Hy) as (b & Hb & Hin & Hr).
  rewrite Forall_forall in Hlt. specialize (Hlt b Hin). pose proof (bucket_bounds z Hz).
  rewrite Hb, Hx, eqb_int by (unfold safe in *; lia). apply negb_true_iff, Z.eqb_neq. lia.
Qed.

Lemma recent_again z z' l bs zl : aligned l bs zl -> safe zl -> 0 <= z <= z' -> safe z -> safe z' ->
  keep (fun c => timestamp c >=! #(z' - day)) (recent z l) = recent z' l.
Proof.
  intros Ha Sl Hz Sz Sz'. unfold recent. rewrite keep_keep. apply keep_ext_in. intros c Hc.
  destruct (in_times l bs zl c Ha Hc) as (b & Hb & _ & Hr). rewrite !(recent_int _ c b) by (done || unfold safe in *; lia).
  destruct (z' - day <=? b) eqn:E1; [|by rewrite andb_false_r]. apply Z.leb_le in E1. rewrite andb_true_r. apply Z.leb_le. lia.
Qed.

Lemma recent_snoc z l x b : timestamp x = #b -> 0 <= b -> safe b -> 0 <= z -> safe z -> z - day <= b -> recent z (l ++ [x]) = recent z l ++ [x].
Proof.
  intros Hx Hb Sb Hz Sz Hd. unfold recent. rewrite keep_app. f_equal. unfold keep. simpl. rewrite (recent_int z x b) by done.
  by rewrite (proj2 (Z.leb_le _ _) Hd).
Qed.

(** One merge is one [note], cut to the last day. *)
Lemma merge_note l bs z s z' :
  aligned l bs z -> 0 <= z -> safe z -> timestamp s = #z' -> z <= z' -> safe z' ->
  mergePulseSample (recent z l) s = recent z' (note l s) /\ exists bs', aligned (note l s) bs' z'.
Proof.
  intros Ha Hz Sz Hs Hzz Sz'. assert (Hz' : 0 <= z') by lia. pose proof (bucket_int s z' Hs Hz' Sz') as HB.
  pose proof (bucket_bounds z' Hz') as (Hb1 & Hb2 & Hb3). assert (Sb : safe (bucket_of z')) by (unfold safe in *; lia).
  destruct (note_cases l bs z s z' Ha Sz Hs Hzz Hz' Sz') as (l0 & bs0 & x & En & Hx & Ha0 & Hlt & Hc).
  assert (Hal : aligned (note l s) (bs0 ++ [bucket_of z']) z') by (rewrite En; by apply aligned_snoc).
  split; [|by eexists]. unfold mergePulseSample.
  assert (Ecut : timestamp s ⊖ HISTORY_RETENTION_MS = #(z' - day))
    by (rewrite Hs; unfold HISTORY_RETENTION_MS; simpl; apply sub_int; unfold safe, day in *; lia).
  rewrite Ecut. rewrite (recent_again z z' l bs z) by done.
  assert (Hm : match find_index (fun c => timestamp c =! bucketTimestamp s) (recent z' l) with
               | Some i => alter (fun existing => with_peaks existing s) i (recent z' l)
               | None => recent z' l ++ [at_bucket s]
               end = recent z' (note l s)).
  { assert (Hno : every (fun c => negb (timestamp c =! bucketTimestamp s)) (recent z' l0) = true).
    { apply every_iff. intros y [Hy _]%elem_of_keep. pose proof (not_at_bucket l0 bs0 z' s Ha0 Hlt HB Hz' Sz') as Hn.
      rewrite every_iff in Hn. by apply Hn. }
    rewrite En, (recent_snoc z' l0 x (bucket_of z')) by (done || unfold day; lia). destruct Hc as [[-> ->]|(e & -> & He & ->)].
    - by rewrite find_index_nowhere.
    - rewrite (recent_snoc z' l0 e (bucket_of z')) by (done || unfold day; lia). rewrite find_index_app by done.
      rewrite He, HB, eqb_int, Z.eqb_refl by done. by rewrite alter_last. }
  rewrite Hm. by eapply kept_as_it_is.
Qed.

Lemma clocked_bounds observed z : clocked observed z -> 0 <= z /\ safe z.
Proof. induction 1; [done|]. split; [lia|done]. Qed.

Lemma history_notes observed z : clocked observed z ->
  foldl mergePulseSample [] observed = recent z (every_bucket observed) /\ exists bs, aligned (every_bucket observed) bs z.
Proof.
  induction 1 as [s z Hs Hz Sz|observed z s z' Hc [IH (bs & Ha)] Hs Hzz Sz].
  - apply (merge_note [] [] z s z); try done. by repeat constructor.
  - destruct (clocked_bounds _ _ Hc) as [Hz0 Sz0]. unfold every_bucket. rewrite !foldl_app. cbn [foldl]. rewrite IH. by apply (merge_note _ bs).
Qed.

Definition rates_real (s : PulseSample) : Prop := real (itemRate s) /\ real (writeRate s).

(** The entry stands for the sample: at its bucket, with rates no lower. *)
Definition covers (e s : PulseSample) : Prop :=
  timestamp e = bucketTimestamp s /\ (itemRate s <=! itemRate e) = true /\ (writeRate s <=! writeRate e) = true.

Lemma covers_more e s s0 : rates_real e -> rates_real s -> timestamp e = bucketTimestamp s -> covers e s0 -> covers (with_peaks e s) s0.
Proof.
  intros [He1 He2] [Hs1 Hs2] Ht (H0 & H1 & H2). split; [by rewrite <- H0|]. pose proof (num_leb_real _ _ H1) as [R1 _]. pose proof (num_leb_real _ _ H2) as [R2 _].
  split; simpl; (eapply num_leb_trans; [done| |by apply math_max_real| |apply math_max_ge_l]); done.
Qed.

Lemma covers_own e s : rates_real e -> rates_real s -> covers (with_peaks e s) s.
Proof. intros [He1 He2] [Hs1 Hs2]. split; [done|]. split; by apply math_max_ge_r. Qed.

Lemma every_bucket_covers observed z : clocked observed z -> Forall rates_real observed ->
  Forall rates_real (every_bucket observed) /\ forall s, s ∈ observed -> exists e, e ∈ every_bucket observed /\ covers e s.
Proof.
  induction 1 as [s z Hs Hz Sz|observed z s z' Hc IH Hs Hzz Sz]; intros Hr.
  - change (every_bucket [s]) with [at_bucket s]. apply Forall_inv in Hr. split; [apply Forall_singleton; exact Hr|]. intros x ->%list_elem_of_singleton. exists (at_bucket s).
    split; [by apply list_elem_of_singleton|]. destruct Hr. split; [done|]. split; by apply num_leb_refl.
  - apply Forall_app in Hr as [Hr Hrs]. apply Forall_inv in Hrs. destruct (IH Hr) as [I1 I2]. destruct (clocked_bounds _ _ Hc) as [Hz0 Sz0].
    destruct (history_notes _ _ Hc) as (_ & bs & Ha). unfold every_bucket. rewrite foldl_app. cbn [foldl]. fold (every_bucket observed).
    destruct (note_cases _ _ _ s z' Ha Sz0 Hs Hzz ltac:(lia) Sz) as (l0 & bs0 & x & -> & Hx & _ & _ & Hcase).
    pose proof (bucket_int s z' Hs ltac:(lia) Sz) as HB. destruct Hcase as [[El ->]|(e & El & He & ->)]; rewrite El in *.
    + split; [apply Forall_app; split; [done|apply Forall_singleton; exact Hrs]|]. intros y [Hy|Hy]%elem_of_app.
      * destruct (I2 y Hy) as (e & ? & ?). exists e. split; [|done]. apply elem_of_app. by left.
      * apply list_elem_of_singleton in Hy as ->. exists (at_bucket s). split; [apply elem_of_app; right; by apply list_elem_of_singleton|].
        destruct Hrs. split; [done|]. split; by apply num_leb_refl.
    + apply Forall_app in I1 as [I0 Ie]. pose proof (Forall_inv Ie) as Hre. split.
      { apply Forall_app. split; [done|]. apply Forall_singleton. destruct Hre, Hrs. split; by apply math_max_real. }
      assert (Hlast : with_peaks e s ∈ l0 ++ [with_peaks e s]) by (apply elem_of_app; right; by apply list_elem_of_singleton).
      intros y [Hy|Hy]%elem_of_app.
      * destruct (I2 y Hy) as (e' & [H1|H1]%elem_of_app & H2); [exists e'; split; [apply elem_of_app; by left|done]|].
        apply list_elem_of_singleton in H1 as ->. exists (with_peaks e s). split; [done|]. apply covers_more; try done. by rewrite HB.
      * apply list_elem_of_singleton in Hy as ->. exists (with_peaks e s). split; [done|]. by apply covers_own.
Qed.

(** C14. The history the page keeps, by searching, replacing, sorting and cutting, is the
    last day of the one that only notes an entry per quarter of a minute; so it never
    holds more than a day's entries, and no burst of the day is missing from it. *)
Theorem history_refines observed z :
  clocked observed z -> Forall rates_real observed ->
  let history := foldl mergePulseSample [] observed in
  history = recent z (every_bucket observed) /\ (length history <= MAX_STORED_SAMPLES)%nat /\
  forall s, s ∈ observed -> (bucketTimestamp s >=! #(z - day)) = true -> exists e, e ∈ history /\ covers e s.
Proof.
  intros Hc Hr history. destruct (history_notes _ _ Hc) as (Hh & bs & Ha). destruct (clocked_bounds _ _ Hc) as [Hz Sz].
  unfold history. rewrite Hh. split; [done|]. split; [by eapply few_recent|]. intros s Hs Hday.
  destruct (every_bucket_covers _ _ Hc Hr) as [_ H]. destruct (H s Hs) as (e & He & Hcov). exists e. split; [|done].
  apply elem_of_keep. split; [done|]. destruct Hcov as [-> _]. done.
Qed.

(** ** Reduction for the charts *)

Lemma part_start_mono n m i j : (i <= j)%nat -> (part_start n m i <= part_start n m j)%nat.
Proof. intros H. unfold part_start. apply Nat.Div0.div_le_mono. nia. Qed.

Lemma part_grows n m i : (0 < m)%nat -> (m <= n)%nat -> (part_start n m i + 1 <= part_start n m (i + 1))%nat.
Proof.
  intros Hm Hn. unfold part_start. replace ((i + 1) * n)%nat with (i * n + n)%nat by lia.
  rewrite <- (Nat.div_add _ 1 m) by lia. apply Nat.Div0.div_le_mono. lia.
Qed.

Lemma part_end_next n m i : (0 < m)%nat -> (m <= n)%nat -> part_end n m i = part_start n m (i + 1).
Proof. intros Hm Hn. unfold part_end. pose proof (part_grows n m i Hm Hn). lia. Qed.

Lemma parts_concat {A} (l : list A) m k : (0 < m)%nat -> (m <= length l)%nat ->
  concat (map (fun i => slice (part_start (length l) m i) (part_end (length l) m i) l) (seq 0 k)) = take (part_start (length l) m k) l.
Proof.
  intros Hm Hl. induction k as [|k IH]; [unfold part_start; by rewrite Nat.mul_0_l, Nat.Div0.div_0_l|].
  rewrite seq_S, map_app, concat_app, IH. simpl. rewrite app_nil_r, part_end_next by done. unfold slice.
  rewrite take_take_drop. f_equal. pose proof (part_grows (length l) m k Hm Hl) as Hg.
  replace (k + 1)%nat with (S k) in * by lia. lia.
Qed.

Lemma part_start_all n m : (0 < m)%nat -> part_start n m m = n.
Proof. intros Hm. unfold part_start. rewrite Nat.mul_comm. by apply Nat.div_mul; lia. Qed.

(** The value drawn for a part: one of its values, and no lower than any. *)
Lemma foldl_max_in l a : real a -> Forall real l -> foldl math_max a l = a \/ foldl math_max a l ∈ l.
Proof.
  intros Ha Hl. revert a Ha. induction Hl as [|x l Hx _ IH]; intros a Ha; [by left|]. cbn [foldl].
  destruct (IH (math_max a x)) as [->|H]; [by apply math_max_real| |right; by right].
  destruct (math_max_cases a x Ha Hx) as [->| ->]; [by left|right; by left].
Qed.

Definition drawable (s : PulseSample) : Prop := real (itemRate s) /\ real (writeRate s) /\ real (successRate s).

(** The drawn entry shows at least the sample's rates and at most its success. *)
Definition shows_peak (r s : PulseSample) : Prop :=
  (itemRate s <=! itemRate r) = true /\ (writeRate s <=! writeRate r) = true /\ (successRate r <=! successRate s) = true.

Lemma extremes_show bucket r : Forall drawable bucket -> extremes bucket = Some r -> Forall (shows_peak r) bucket.
Proof.
  intros Hd. unfold extremes. destruct (list.last bucket) as [x|]; [|done]. intros [= <-].
  assert (Hm : forall f, (forall s, drawable s -> real (f s)) -> Forall real (map f bucket)).
  { intros f Hf. apply Forall_map. eapply Forall_impl; [exact Hd|]. exact Hf. }
  destruct (foldl_max_ge (map itemRate bucket) (S754_infinity true)) as (_ & _ & H1); [done|apply Hm; by intros s (? & ? & ?)|].
  destruct (foldl_max_ge (map writeRate bucket) (S754_infinity true)) as (_ & _ & H2); [done|apply Hm; by intros s (? & ? & ?)|].
  destruct (foldl_min_le (map successRate bucket) (S754_infinity false)) as (_ & _ & H3); [done|apply Hm; by intros s (? & ? & ?)|].
  rewrite Forall_map in H1, H2, H3. rewrite Forall_forall in *. intros s Hs. split; [by apply H1|]. split; [by apply H2|by apply H3].
Qed.

(** A sample's drawn place: the last entry of its part. *)
Lemma extremes_of_part bucket : bucket <> [] -> exists r, extremes bucket = Some r /\ (timestamp <$> list.last bucket) = Some (timestamp r).
Proof.
  intros Hne. unfold extremes. destruct (list.last bucket) as [x|] eqn:E; [|by apply last_None in E]. by eexists.
Qed.

(** What is drawn of a long history has at most as many entries as asked for, and
    no peak of a rate and no dip of the success is lost: every sample of the range is in
    a part whose entry shows at least its rates and at most its success. *)
Theorem peaks_are_drawn samples maximum :
  Forall drawable samples -> (0 < maximum)%nat ->
  length (downsamplePulseSamples samples maximum) = Nat.min (length samples) maximum /\
  forall s, s ∈ samples -> exists r, r ∈ downsamplePulseSamples samples maximum /\ shows_peak r s.
Proof.
  intros Hd Hm. unfold downsamplePulseSamples. destruct (length samples <=? maximum)%nat eqn:E.
  - apply Nat.leb_le in E. split; [lia|]. intros s Hs. exists s. split; [done|]. rewrite Forall_forall in Hd.
    destruct (Hd s Hs) as (? & ? & ?). split; [|split]; by apply num_leb_refl.
  - apply Nat.leb_gt in E. set (n := length samples) in *.
    set (part i := slice (part_start n maximum i) (part_end n maximum i) samples).
    assert (Hpart : forall i, (i < maximum)%nat -> part i <> []).
    { intros i Hi Hn. apply (f_equal length) in Hn. unfold part, slice in Hn. rewrite length_take, length_drop in Hn. fold n in Hn.
      rewrite part_end_next in Hn by lia. pose proof (part_grows n maximum i Hm ltac:(lia)).
      pose proof (part_start_mono n maximum (i + 1) maximum ltac:(lia)) as Hle. rewrite part_start_all in Hle by done. simpl in Hn. lia. }
    assert (Hc : concat (map part (seq 0 maximum)) = samples).
    { unfold part, n in *. rewrite parts_concat by lia. by rewrite part_start_all, take_ge by (done || lia). }
    change (omap _ (seq 0 maximum)) with (omap (fun i => extremes (part i)) (seq 0 maximum)). split.
    + assert (Hlen : forall k, (k <= maximum)%nat -> length (omap (fun i => extremes (part i)) (seq 0 k)) = k).
      { intros k. induction k as [|k IH]; intros Hk; [done|]. rewrite seq_S, omap_app, length_app, IH by lia. simpl.
        destruct (extremes_of_part (part k) (Hpart k ltac:(lia))) as (r & -> & _). simpl. lia. }
      rewrite (Hlen maximum) by lia. lia.
    + intros s Hs. rewrite <- Hc in Hs. apply list_elem_of_In, in_concat in Hs as (b & Hb & Hin). apply in_map_iff in Hb as (i & <- & Hi).
      apply in_seq in Hi. destruct (extremes_of_part (part i) (Hpart i ltac:(lia))) as (r & Hr & _). exists r. split.
      * apply list_elem_of_omap. exists i. split; [apply list_elem_of_In, in_seq; lia|done].
      * assert (Hf : Forall drawable (part i)) by (unfold part, slice; by apply Forall_take, Forall_drop).
        pose proof (extremes_show _ _ Hf Hr) as Hs. rewrite Forall_forall in Hs. apply Hs, list_elem_of_In, Hin.
Qed.

(** ** The open page *)

Section page.
Context (parse : string -> option value) (stringify : list PulseSample -> string) `{Env}.

Record tidy (p : pulse) : Prop := {
  timer_means_waiting : refresh_timer p = true <-> pendingRefreshes p <> [];
  keys_once : NoDup (pendingRefreshes p);
  events_once : NoDup (map event_id (events p));
  few_events : (length (events p) <= 40)%nat;
  few_samples : (length (samples p) <= MAX_STORED_SAMPLES)%nat
}.

Lemma scheduled_keys keys l : NoDup l -> NoDup (foldl (fun l key => set_add key l) l keys) /\
  forall k, k ∈ foldl (fun l key => set_add key l) l keys <-> k ∈ l \/ k ∈ keys.
Proof.
  revert l. induction keys as [|key keys IH]; intros l Hl; [set_solver|]. cbn [foldl].
  destruct (IH (set_add key l)) as [H1 H2]; [by apply NoDup_set_add|]. split; [done|]. intros k. rewrite H2, elem_set_add, elem_of_cons. tauto.
Qed.

Lemma NoDup_take_ids (l : list PulseEvent) n : NoDup (map event_id l) -> NoDup (map event_id (take n l)).
Proof. intros Hn. rewrite <- firstn_map. eapply sublist_NoDup; [exact Hn|apply sublist_take]. Qed.

Lemma add_event_once e l : NoDup (map event_id l) -> NoDup (map event_id (add_event e l)).
Proof.
  intros Hn. unfold add_event. destruct (some _ l) eqn:E; [done|]. apply NoDup_take_ids. simpl. apply NoDup_cons. split; [|done].
  intros (c & Hc & Hin)%list_elem_of_fmap. assert (some (fun c => event_id c =s event_id e) l = true); [|congruence].
  apply some_iff. exists c. split; [done|]. by apply str_eqb_eq.
Qed.

Lemma add_event_few e l : (length l <= 40)%nat -> (length (add_event e l) <= 40)%nat.
Proof. intros Hl. unfold add_event. destruct (some _ l); [done|]. rewrite length_take. lia. Qed.

Lemma length_take_last {A} n (l : list A) : (length (take_last n l) <= n)%nat.
Proof. unfold take_last. rewrite length_drop. lia. Qed.

Lemma tidy_schedule keys p : tidy p -> keys <> [] -> tidy (scheduleRefresh keys p).
Proof.
  intros [H1 H2 H3 H4 H5] Hk. destruct (scheduled_keys keys (pendingRefreshes p) H2) as [I1 I2]. split; try done. simpl. split; [|done].
  intros _ E. destruct keys as [|k keys]; [done|]. assert (Hin : k ∈ foldl (fun l key => set_add key l) (pendingRefreshes p) (k :: keys))
    by (apply I2; right; by left). rewrite E in Hin. by apply elem_of_nil in Hin.
Qed.

Lemma tidy_message event now p : tidy p -> tidy (handleWebSocketMessage event now p).
Proof.
  intros Hp. unfold handleWebSocketMessage. set (name := _ ?? _).
  assert (Ht : tidy (refresh_for name p)) by (unfold refresh_for; destruct (refresh_keys name) eqn:E; [done|by apply tidy_schedule]).
  revert Ht. generalize (refresh_for name p). intros q [H1 H2 H3 H4 H5].
  destruct (eventsPaused q); [by split|]. destruct (mapWebSocketEvent event now) as [e|]; [|by split].
  split; simpl; try done; [by apply add_event_once|by apply add_event_few].
Qed.

Lemma tidy_step p p' : tidy p -> step stringify p p' -> tidy p'.
Proof.
  intros Hp Hs. destruct Hs as [event now p|p Hf|s p|w p|r p|w p|p]; [by apply tidy_message|..]; destruct Hp as [H1 H2 H3 H4 H5].
  - split; simpl; try done. constructor.
  - unfold record_sample. destruct (timestamp s <=! #0); split; simpl; try done. apply length_take_last.
  - unfold persist. destruct (opt_eqb _ _); split; done.
  - by split.
  - by destruct w; split.
  - by split.
Qed.

(** In every reachable page the timer of refreshes runs exactly while keys wait, no
    event is listed twice, and neither the events nor the samples outgrow their limits,
    whatever the storage held and whatever arrives. *)
Lemma page_stays_tidy raw_samples raw_range now p : reachable parse stringify raw_samples raw_range now p -> tidy p.
Proof.
  induction 1 as [|p p' Hr IH Hs]; [|by eapply tidy_step]. split; simpl; try done; [constructor|constructor|lia|].
  unfold readStoredSamples. destruct (truthy_opt raw_samples) as [text|]; [|apply Nat.le_0_l].
  destruct (parse text) as [[]|]; try apply Nat.le_0_l. apply length_take_last.
Qed.

(** [k] waits, or was refreshed after the refreshes in [base]. *)
Definition asked (base : list string) (k : string) (p : pulse) : Prop :=
  exists since, invalidated p = base ++ since /\ (k ∈ pendingRefreshes p \/ k ∈ since).

Lemma asked_same base k p p' : pendingRefreshes p' = pendingRefreshes p -> invalidated p' = invalidated p -> asked base k p -> asked base k p'.
Proof. unfold asked. by intros -> ->. Qed.

Lemma refresh_for_fields name p :
  invalidated (refresh_for name p) = invalidated p /\ forall k, k ∈ pendingRefreshes p -> k ∈ pendingRefreshes (refresh_for name p).
Proof.
  unfold refresh_for. destruct (refresh_keys name) as [|key keys]; [done|]. split; [done|]. intros k. simpl.
  assert (Hk : k ∈ pendingRefreshes p -> k ∈ set_add key (pendingRefreshes p)) by (intros ?; apply elem_set_add; by left).
  intros Hq%Hk. revert Hq. generalize (set_add key (pendingRefreshes p)).
  clear Hk. induction keys as [|key' keys IH]; intros l Hl; [done|]. cbn [foldl]. apply IH, elem_set_add. by left.
Qed.

Lemma message_fields event now p (name := first_of [eventString event "event"; eventString event "type"] ?? EmptyString) :
  pendingRefreshes (handleWebSocketMessage event now p) = pendingRefreshes (refresh_for name p) /\
  invalidated (handleWebSocketMessage event now p) = invalidated (refresh_for name p).
Proof.
  unfold handleWebSocketMessage. fold name. generalize (refresh_for name p). intros q.
  destruct (eventsPaused q); [done|]. by destruct (mapWebSocketEvent event now).
Qed.

Lemma asked_step base k p p' : step stringify p p' -> asked base k p -> asked base k p'.
Proof.
  destruct 1 as [event now p|p Hf|s p|w p|r p|w p|p]; try (by apply asked_same).
  - intros (since & E & Hq). destruct (message_fields event now p) as [E1 E2]. set (name := _ ?? _) in *.
    destruct (refresh_for_fields name p) as [F1 F2]. exists since. rewrite E1, E2, F1. split; [done|]. destruct Hq as [Hq|Hq]; auto.
  - intros (since & E & Hq). exists (since ++ pendingRefreshes p). simpl. rewrite E, app_assoc. split; [done|]. right.
    apply elem_of_app. tauto.
  - apply asked_same; unfold record_sample; by destruct (timestamp s <=! #0).
  - apply asked_same; unfold persist; by destruct (opt_eqb _ _).
  - apply asked_same; by destruct w.
Qed.

Lemma asked_steps base k p p' : rtc (step stringify) p p' -> asked base k p -> asked base k p'.
Proof. induction 1 as [|p q p' Hs _ IH]; [done|]. intros Hq. by apply IH, (asked_step base k p). Qed.

(** C15. What an event asks to refresh is refreshed after it: from the event on its key
    waits, with the timer running, until the timer fires and refreshes it, whatever
    happens to the mounted page in between and however often it was refreshed before.
    [since] is what was refreshed after the event. *)
Theorem refreshes_are_never_lost raw_samples raw_range now p event time k p' :
  reachable parse stringify raw_samples raw_range now p ->
  k ∈ refresh_keys (first_of [eventString event "event"; eventString event "type"] ?? EmptyString) ->
  rtc (step stringify) (handleWebSocketMessage event time p) p' ->
  exists since, invalidated p' = invalidated p ++ since /\
    (k ∈ since \/
     (k ∈ pendingRefreshes p' /\ refresh_timer p' = true /\
      exists more, invalidated (refresh_fires p') = invalidated p ++ since ++ more /\ k ∈ more)).
Proof.
  intros Hr Hk Hs. destruct (page_stays_tidy _ _ _ _ Hr) as [_ Hn _ _ _].
  assert (H0 : asked (invalidated p) k (handleWebSocketMessage event time p)).
  { destruct (message_fields event time p) as [E1 E2]. set (name := _ ?? _) in *.
    exists []. rewrite E1, E2, (proj1 (refresh_for_fields name p)), app_nil_r. split; [done|]. left.
    unfold refresh_for. destruct (refresh_keys name) as [|key keys]; [by apply elem_of_nil in Hk|].
    apply (scheduled_keys (key :: keys) (pendingRefreshes p) Hn). by right. }
  destruct (asked_steps _ _ _ _ Hs H0) as (since & E & Hq). exists since. split; [done|]. destruct Hq as [Hq|Hq]; [right|by left].
  split; [done|]. assert (Hr' : reachable parse stringify raw_samples raw_range now p').
  { assert (Hr1 : reachable parse stringify raw_samples raw_range now (handleWebSocketMessage event time p))
      by (eapply Steps; [exact Hr|apply Message]).
    clear -Hs Hr1. induction Hs as [|q q' q'' Hst _ IH]; [done|]. apply IH. by eapply Steps. }
  destruct (page_stays_tidy _ _ _ _ Hr') as [Ht _ _ _ _]. split.
  - apply Ht. intros E'. rewrite E' in Hq. by apply elem_of_nil in Hq.
  - exists (pendingRefreshes p'). simpl. by rewrite E, app_assoc.
Qed.
End page.

(** ** Jobs seen only through their tasks *)

Section jobs.
Context `{Env}.

(** The tasks that reveal the job. *)
Definition tasks_of (known : list string) (id : string) (l : list TaskWithSpeed) : list TaskWithSpeed :=
  keep (fun t => reveals_job known (shown t) && (at_job_id (shown t) =s id)) l.

Definition has_running (l : list TaskWithSpeed) : bool := some (fun t => status_of_job (shown t) =s "running") l.

Lemma some_app {A} (p : A -> bool) l1 l2 : some p (l1 ++ l2) = some p l1 || some p l2.
Proof. apply existsb_app. Qed.

Lemma virtual_jobs_of known snapshot l id :
  let found := foldl (add_virtual known snapshot) JMap.empty l in
  JMap.wf found /\ match JMap.get id found with
                   | Some v => tasks_of known id l <> [] /\ v_running v = has_running (tasks_of known id l)
                   | None => tasks_of known id l = []
                   end.
Proof.
  induction l as [|t l IH] using rev_ind; [by split; [apply JMap.wf_empty|]|]. cbv zeta in *. rewrite foldl_app. cbn [foldl].
  set (found := foldl _ _ l) in *. destruct IH as [Hw IH]. unfold tasks_of, has_running in *. rewrite keep_app. unfold keep at 2 4 6. simpl.
  unfold add_virtual. destruct (reveals_job known (shown t)) eqn:Er; simpl; [|by rewrite !app_nil_r].
  destruct (at_job_id (shown t) =s id) eqn:Eid.
  - apply str_eqb_eq in Eid as ->. destruct (JMap.get id found) as [v|] eqn:E; rewrite JMap.get_set_eq; (split; [by apply JMap.wf_set|]);
      (split; [by destruct (keep _ l)|]); rewrite some_app; simpl; rewrite orb_false_r.
    + destruct IH as [_ <-]. done.
    + by rewrite IH.
  - rewrite !app_nil_r. apply str_eqb_neq in Eid. destruct (JMap.get (at_job_id (shown t)) found); (split; [by apply JMap.wf_set|]);
      by rewrite JMap.get_set_ne.
Qed.

Lemma listed_jobs s now j :
  j ∈ activeJobs_of s now <-> j ∈ persistedActiveJobs s \/ exists id v, JMap.get id (virtualJobs s now) = Some v /\ j = as_job id v.
Proof.
  unfold activeJobs_of. rewrite elem_of_stable_sort, elem_of_app, list_elem_of_fmap.
  destruct (virtual_jobs_of (map job_id (allJobs s)) (num_or (dataUpdatedAt (tasks s)) now) (activeTasks (activeTaskState s)) EmptyString) as [Hw _].
  fold (virtualJobs s now) in Hw. split; (intros [Hj|Hj]; [by left|right]).
  - destruct Hj as ([id v] & -> & Hin). exists id, v. split; [by apply JMap.elem_get|done].
  - destruct Hj as (id & v & Hg & ->). exists (id, v). split; [done|by apply JMap.get_Some_elem].
Qed.

Lemma persisted_ids s id : id ∈ map job_id (persistedActiveJobs s) -> id ∈ map job_id (allJobs s).
Proof.
  intros (j & -> & Hj)%list_elem_of_fmap. unfold persistedActiveJobs in Hj. rewrite elem_of_stable_sort in Hj.
  apply elem_of_keep in Hj as [[Hj _]%elem_of_keep _]. by apply list_elem_of_fmap_2.
Qed.

(** Every job that is seen only through its tasks is listed, once, beside those of
    the list, and as running exactly when one of its tasks says so. *)
Theorem revealed_jobs_are_listed s now :
  NoDup (map job_id (allJobs s)) ->
  NoDup (map job_id (activeJobs_of s now)) /\
  forall t, t ∈ activeTasks (activeTaskState s) -> reveals_job (map job_id (allJobs s)) (shown t) = true ->
  exists j, j ∈ activeJobs_of s now /\ job_id j = at_job_id (shown t) /\
    (job_status j = "running" <->
     exists t', t' ∈ activeTasks (activeTaskState s) /\ reveals_job (map job_id (allJobs s)) (shown t') = true /\
       at_job_id (shown t') = at_job_id (shown t) /\ status_of_job (shown t') = "running").
Proof.
  intros Hn. set (known := map job_id (allJobs s)) in *. set (l := activeTasks (activeTaskState s)).
  pose proof (virtual_jobs_of known (num_or (dataUpdatedAt (tasks s)) now) l) as Hv. cbv zeta in Hv.
  change (foldl _ _ l) with (virtualJobs s now) in Hv. split.
  - unfold activeJobs_of. rewrite stable_sort_permutation, map_app. apply NoDup_app. split; [|split].
    + unfold persistedActiveJobs. rewrite stable_sort_permutation. by apply NoDup_map_keep, NoDup_map_keep.
    + intros id Hp%persisted_ids Hin. rewrite map_map in Hin. apply list_elem_of_fmap in Hin as ([id' v] & -> & Hin). simpl in Hp.
      destruct (Hv id') as [Hw Hg]. rewrite (JMap.elem_get _ _ _ Hw Hin) in Hg. destruct Hg as [Hne _]. apply Hne, keep_none.
      intros t _. destruct (at_job_id (shown t) =s id') eqn:E; [|by rewrite andb_false_r]. apply str_eqb_eq in E. unfold reveals_job.
      rewrite E. fold known in Hp. apply str_in_iff in Hp. by rewrite Hp.
    + rewrite map_map. destruct (Hv EmptyString) as [Hw _]. exact Hw.
  - intros t Ht Hr. destruct (Hv (at_job_id (shown t))) as [_ Hg]. destruct (JMap.get _ _) as [v|] eqn:E.
    + exists (as_job (at_job_id (shown t)) v). split; [apply listed_jobs; right; by eexists _, _|]. split; [done|]. simpl. destruct Hg as [_ ->].
      transitivity (has_running (tasks_of known (at_job_id (shown t)) l) = true); [by destruct (has_running _)|].
      unfold has_running. rewrite some_iff. split.
      * intros (t' & [Hin [H1 H2]%andb_true_iff]%elem_of_keep & Hst). apply str_eqb_eq in H2, Hst. by exists t'.
      * intros (t' & Hin & H1 & H2 & H3). exists t'. split; [|by apply str_eqb_eq]. apply elem_of_keep. split; [done|]. by rewrite H1, H2, str_eqb_refl.
    + exfalso. assert (Hin : t ∈ tasks_of known (at_job_id (shown t)) l) by (apply elem_of_keep; by rewrite Hr, str_eqb_refl).
      rewrite Hg in Hin. by apply elem_of_nil in Hin.
Qed.
End jobs.

(** ** What the dashboard does not mean to do *)

Definition demo_sample (t rate : Z) : PulseSample := {|
  timestamp := #t; activeJobs := #1; queuedJobs := #0; itemRate := #rate; successRate := #100; workerLoad := #50; writeRate := #0 |}.

Definition demo_open (stringify : list PulseSample -> string) : pulse :=
  persist stringify true (record_sample (demo_sample 100000 5) (open_page (fun _ => None) None None #100000)).

(** A burst within the quarter of a minute already stored is not stored: neither the
    number of entries nor the last time changes. After a reload it is gone. *)
Lemma burst_is_not_stored stringify :
  let p := persist stringify true (record_sample (demo_sample 104000 9) (demo_open stringify)) in
  map itemRate (samples p) = [#9] /\ stored_samples p = Some (stringify [at_bucket (demo_sample 100000 5)]).
Proof. vm_compute. done. Qed.

(** The name of a lost connection contains [connected]. *)
Lemma disconnection_is_success : eventSeverity "worker_disconnected" None = Success.
Proof. vm_compute. reflexivity. Qed.

Example severities :
  map (fun e => eventSeverity e None) ["job_failed"; "retry_scheduled"; "job_completed"; "worker_started"] = [Critical; Warning; Success; Info].
Proof. vm_compute. reflexivity. Qed.

Example event_names : map humanizeEventName ["job_completed"; "worker--lost"] = ["Job Completed"; "Worker Lost"].
Proof. vm_compute. reflexivity. Qed.

Example rates : map formatCompactRate [#0; #7; #42; #420; #4200; #42000] = ["0"; "7.00"; "42.0"; "420"; "4.2k"; "42k"].
Proof. vm_compute. reflexivity. Qed.

Example axis : throughputAxisBounds [#100; #110] = (#99, #111).
Proof. vm_compute. reflexivity. Qed.

(** ** Instances *)

Definition demo_observed : list PulseSample := [demo_sample 100000 5; demo_sample 104000 9; demo_sample 107000 2].

Lemma demo_clocked : clocked demo_observed 107000.
Proof.
  apply (Clock_next [demo_sample 100000 5; demo_sample 104000 9] 104000); [|done|lia|unfold safe; lia].
  apply (Clock_next [demo_sample 100000 5] 100000); [|done|lia|unfold safe; lia]. apply Clock_start; [done|lia|unfold safe; lia].
Qed.

Lemma history_refines_witness :
  exists e, e ∈ foldl mergePulseSample [] demo_observed /\ covers e (demo_sample 104000 9).
Proof.
  refine (proj2 (proj2 (history_refines demo_observed 107000 demo_clocked _)) (demo_sample 104000 9) _ _).
  - repeat (apply Forall_cons; split; [by split; apply real_int; unfold safe; lia|]). constructor.
  - right. left.
  - vm_compute. reflexivity.
Defined.

Lemma peaks_are_drawn_witness :
  exists r, r ∈ downsamplePulseSamples demo_observed 2 /\ shows_peak r (demo_sample 104000 9).
Proof.
  refine (proj2 (peaks_are_drawn demo_observed 2 _ _) (demo_sample 104000 9) _); [|lia|right; left].
  repeat (apply Forall_cons; split; [split; [|split]; apply real_int; unfold safe; lia|]). constructor.
Defined.

Definition demo_message : fields := [("event", VStr "job_progress")].

(** The key was refreshed before the event. *)
Lemma refreshes_are_never_lost_witness :
  let p := refresh_fires (@handleWebSocketMessage utc_env demo_message #4 (open_page (fun _ => None) None None #0)) in
  let p' := toggleEvents (@handleWebSocketMessage utc_env demo_message #5 p) in
  invalidated p = ["pulse-active-tasks"] /\ "pulse-active-tasks" ∈ pendingRefreshes p' /\ refresh_timer p' = true.
Proof.
  intros p p'. split; [vm_compute; reflexivity|].
  destruct (@refreshes_are_never_lost (fun _ => None) (fun _ => EmptyString) utc_env None None #0 p demo_message #5 "pulse-active-tasks" p')
    as (since & E & H).
  - eapply Steps; [eapply Steps; [apply Opened|apply Message]|]. apply Refresh_fires. vm_compute. reflexivity.
  - vm_compute. left.
  - apply rtc_once, Toggle_events.
  - destruct H as [H|(H1 & H2 & _)]; [|exact (conj H1 H2)].
    assert (since = []) as -> by (vm_compute in E; by injection E as <-). by apply elem_of_nil in H.
Defined.

Definition demo_sources : sources :=
  let none A := {| data := None; isError := false; dataUpdatedAt := #0 |} : answer A in
  {| jobs := {| data := Some [demo_job 10]; isError := false; dataUpdatedAt := #5 |}; tasks := none _; backend := none _; queue := none _;
     health := none _; proxies := none _; mpsCompletionSamples := JMap.empty;
     activeTaskState := buildActiveTaskState [demo_task 3] #5 JMap.empty |}.

Lemma revealed_jobs_are_listed_witness :
  exists j, j ∈ @activeJobs_of utc_env demo_sources #7 /\ job_id j = "j".
Proof.
  assert (Hn : NoDup (map job_id (allJobs demo_sources))) by (apply NoDup_singleton).
  destruct (activeTasks (activeTaskState demo_sources)) as [|t l] eqn:E; [discriminate E|].
  assert (Ht : t ∈ activeTasks (activeTaskState demo_sources)) by (rewrite E; left).
  destruct (proj2 (@revealed_jobs_are_listed utc_env demo_sources #7 Hn) t Ht) as (j & Hj & Hid & _).
  - vm_compute in E. injection E as <- _. vm_compute. reflexivity.
  - exists j. split; [exact Hj|]. rewrite Hid. vm_compute in E. injection E as <- _. vm_compute. reflexivity.
Defined.
