(* ===== verification/DownloadFlows.v ===== *)
(** * Download flows over the architecture ([features/system/lib/downloadFlows.ts])

    The paths one item can take over [Storage]'s parts, the boxes of the flowchart a flow has reached by a
    step, and its route with the answers of the decisions.

    The theorems: the path only grows, without standing still; every flow of the table
    goes from the queue to the record, visits no box twice and answers each decision. *)

From Stdlib Require Import ZArith Lia.
From stdpp Require Import base list strings option.
From S2P Require Import Prelude Storage.

Inductive ChartNode := Queued | FitsRam | Ram | FitsDisk | Disk | Direct | IsDrm | Decrypt | Joined | Move | Recorded.

#[export] Instance ChartNode_eq_dec : EqDecision ChartNode.
Proof. solve_decision. Defined.

Record FlowStep := { targets : list FlowTarget; chart : list ChartNode; caption : string }.
Record DownloadFlow := { flow_id : string; label : string; steps : list FlowStep }.

Definition mk (t : list FlowTarget) (c : list ChartNode) (text : string) : FlowStep := {| targets := t; chart := c; caption := text |}.

Definition QUEUE : list FlowStep := [
  mk [FtWebui] [Queued] "You start a download job in a WebUI.";
  mk [FtBackend; FtRedis] [Queued] "The backend plans the job and hands its tasks to workers through Redis."].

Definition RECORD : FlowStep :=
  mk [FtDrive; FtPostgres] [Move; Recorded]
    "The file lands in the performer's folder on a download drive (their existing folder, else the drive with the most room), and PostgreSQL records it as downloaded.".

Definition regular : DownloadFlow := {| flow_id := "regular"; label := "Regular file"; steps := QUEUE ++ [
  mk [FtWorkers] [FitsRam] "A worker fetches the file from the site CDN in parallel byte ranges, reserving staging space for it.";
  mk [FtRam] [Ram] "It fits, so the parts land in RAM staging.";
  mk [FtWorkers] [IsDrm; Joined] "Not DRM: the worker joins the parts into one file.";
  RECORD] |}.

Definition drm : DownloadFlow := {| flow_id := "drm"; label := "DRM video"; steps := QUEUE ++ [
  mk [FtWorkers] [FitsRam] "A worker fetches the encrypted video and audio streams, reserving twice their size for the decrypted copies.";
  mk [FtRam] [Ram] "It fits, so both streams stage in RAM.";
  mk [FtWorkers] [IsDrm; Decrypt]
    "DRM: as soon as they land, mp4decrypt decrypts video and audio at once and ffmpeg muxes them, while other items keep downloading.";
  RECORD] |}.

Definition overflow : DownloadFlow := {| flow_id := "overflow"; label := "RAM full"; steps := QUEUE ++ [
  mk [FtWorkers] [FitsRam] "A worker fetches a large encrypted video.";
  mk [FtDisk] [FitsDisk; Disk]
    "RAM headroom is below what the item needs, so the next staging directory takes it. RAM is used again once reservations are released.";
  mk [FtWorkers] [IsDrm; Decrypt] "Decryption and muxing run on the disk staging copy.";
  RECORD] |}.

Definition direct : DownloadFlow := {| flow_id := "direct"; label := "No staging space"; steps := QUEUE ++ [
  mk [FtWorkers] [FitsRam] "A worker fetches the file.";
  mk [FtDrive] [FitsDisk; Direct] "No staging directory can hold it, so parts are written beside the final file on the download drive.";
  mk [FtWorkers] [IsDrm; Joined] "The parts are joined in place.";
  mk [FtPostgres] [Move; Recorded] "It is already on the drive, so nothing moves; PostgreSQL records it as downloaded."] |}.

Definition DOWNLOAD_FLOWS : list DownloadFlow := [regular; drm; overflow; direct].

(** [if (path[path.length - 1] !== node) path.push(node)]. *)
Definition visit (path : list ChartNode) (node : ChartNode) : list ChartNode :=
  if decide (list.last path = Some node) then path else path ++ [node].

Definition path_of (l : list FlowStep) : list ChartNode := foldl (fun path entry => foldl visit path (chart entry)) [] l.

(** [None] where the code throws: there is no such step. *)
Definition chartProgress (flow : DownloadFlow) (step : nat) : option (list ChartNode * list ChartNode) :=
  entry ← steps flow !! step;
  Some (path_of (take (step + 1) (steps flow)), chart entry).

Inductive Answer := Yes | No.

Definition ANSWERS (from to : ChartNode) : option Answer :=
  match from, to with
  | FitsRam, Ram => Some Yes
  | FitsRam, FitsDisk => Some No
  | FitsDisk, Disk => Some Yes
  | FitsDisk, Direct => Some No
  | IsDrm, Decrypt => Some Yes
  | IsDrm, Joined => Some No
  | _, _ => None
  end.

Record TrailEntry := { node : ChartNode; answer : option Answer }.

Fixpoint with_answers (path : list ChartNode) : list TrailEntry :=
  match path with
  | [] => []
  | n :: rest => {| node := n; answer := match rest with next :: _ => ANSWERS n next | [] => None end |} :: with_answers rest
  end.

(** [None] of a flow without steps, where the code throws. *)
Definition chartTrail (flow : DownloadFlow) : option (list TrailEntry) :=
  match length (steps flow) with
  | O => None
  | S n => '(path, _) ← chartProgress flow n; Some (with_answers path)
  end.

(** * What the flows promise *)

(** Neighbours differ. *)
Fixpoint no_repeats (path : list ChartNode) : Prop :=
  match path with
  | a :: ((b :: _) as rest) => a <> b /\ no_repeats rest
  | _ => True
  end.

Lemma no_repeats_snoc path n : no_repeats path -> list.last path <> Some n -> no_repeats (path ++ [n]).
Proof.
  induction path as [|a path IH]; [done|]. destruct path as [|b path]; simpl in *; [intros _ H; split; [congruence|done]|].
  intros [Hab Hr] Hl. split; [done|]. by apply IH.
Qed.

Lemma visit_grows path n : path `prefix_of` visit path n.
Proof. unfold visit. destruct (decide _); [done|]. by apply prefix_app_r. Qed.

Lemma visits_grow l path : path `prefix_of` foldl visit path l.
Proof. revert path. induction l as [|n l IH]; intros path; [done|]. cbn [foldl]. etrans; [apply visit_grows|apply IH]. Qed.

Lemma visits_move l path : no_repeats path -> no_repeats (foldl visit path l).
Proof.
  revert path. induction l as [|n l IH]; intros path Hp; [done|]. cbn [foldl]. apply IH. unfold visit.
  destruct (decide _); [done|]. by apply no_repeats_snoc.
Qed.

Lemma visits_reach l path n : n ∈ l -> n ∈ foldl visit path l.
Proof.
  revert path. induction l as [|m l IH]; intros path Hn; [by apply elem_of_nil in Hn|]. cbn [foldl].
  apply elem_of_cons in Hn as [->|Hn]; [|by apply IH].
  assert (Hv : m ∈ visit path m).
  { unfold visit. destruct (decide _) as [E|]; [by apply last_Some_elem_of|]. apply elem_of_app. right. by left. }
  destruct (visits_grow l (visit path m)) as [k ->]. apply elem_of_app. by left.
Qed.

Lemma path_of_snoc l entry : path_of (l ++ [entry]) = foldl visit (path_of l) (chart entry).
Proof. unfold path_of. by rewrite foldl_app. Qed.

Lemma path_of_moves l : no_repeats (path_of l).
Proof. induction l as [|entry l IH] using rev_ind; [done|]. rewrite path_of_snoc. by apply visits_move. Qed.

(** Played step by step, every flow, of the table or not, only goes on: the boxes
    reached are those of the step before and more, the step's own are among them, and
    the path never stands still. *)
Theorem flow_goes_on flow i path current :
  chartProgress flow i = Some (path, current) ->
  no_repeats path /\ (forall n, n ∈ current -> n ∈ path) /\
  match i with
  | O => True
  | S j => exists before at_j, chartProgress flow j = Some (before, at_j) /\ before `prefix_of` path
  end.
Proof.
  unfold chartProgress. destruct (steps flow !! i) as [entry|] eqn:E; [|done]. simpl. intros [= <- <-].
  rewrite Nat.add_1_r, (take_S_r _ _ _ E), path_of_snoc. split; [by apply visits_move, path_of_moves|]. split; [intros n; apply visits_reach|].
  destruct i as [|j]; [done|]. destruct (steps flow !! j) as [before|] eqn:Ej.
  - eexists _, _. split; [reflexivity|]. rewrite Nat.add_1_r. apply visits_grow.
  - apply lookup_ge_None in Ej. apply lookup_lt_Some in E. lia.
Qed.

Definition is_decision (n : ChartNode) : bool := match n with FitsRam | FitsDisk | IsDrm => true | _ => false end.

(** Every flow of the table goes from the queue to the record, through no box twice,
    and says yes or no at the decisions it passes and nowhere else. *)
Theorem every_flow_is_answered flow :
  flow ∈ DOWNLOAD_FLOWS ->
  exists trail, chartTrail flow = Some trail /\ node <$> head trail = Some Queued /\ node <$> list.last trail = Some Recorded /\
    NoDup (map node trail) /\ Forall (fun e => is_decision (node e) = match answer e with Some _ => true | None => false end) trail.
Proof.
  unfold DOWNLOAD_FLOWS. intros Hf. repeat (apply elem_of_cons in Hf as [->|Hf]); [..|by apply elem_of_nil in Hf];
    (eexists; split; [vm_compute; reflexivity|]; split; [done|]; split; [done|]; split; [by apply (bool_decide_unpack _)|by repeat constructor]).
Qed.

Lemma flow_goes_on_witness : no_repeats [Queued; FitsRam] /\ chartProgress regular 2 = Some ([Queued; FitsRam], [FitsRam]).
Proof.
  split; [|vm_compute; reflexivity]. exact (proj1 (flow_goes_on regular 2 [Queued; FitsRam] [FitsRam] ltac:(vm_compute; reflexivity))).
Defined.

Lemma every_flow_is_answered_witness : exists trail, chartTrail overflow = Some trail /\ length trail = 8%nat.
Proof.
  destruct (every_flow_is_answered overflow) as (trail & Ht & _); [right; right; left|].
  exists trail. split; [exact Ht|]. vm_compute in Ht. injection Ht as <-. reflexivity.
Defined.
