(* ===== verification/AdaptiveBatch.v ===== *)
(** * The adaptive batch size of profile scans ([features/tools/lib/mpsAdaptiveBatch.ts])

    A batch is larger the fewer identifiers are missing and the more routes there are.

    The theorems: a recommendation is nothing to do, or lies between the least and the
    most for the routes; the examples the source lists. *)

From Stdlib Require Import ZArith Lia SpecFloat.
From stdpp Require Import base list strings option.
From S2P Require Import Prelude JsString JsNum JsInt JsBounds JsOrder JsDate.

(** The fields of [MPSAnalyzeResponse] it reads. *)
Record MPSAnalyzeResponse := { start_id : num; end_id : num; range_size : num; missing_count : num; candidate_count : num }.

Record AdaptiveBatchOptions := {
  baseBatchSize : option num;
  maxRecommendation : option num;
  includeMissingIds : option bool;
  opt_routes : option num
}.

Record AdaptiveBatchRecommendation := { batch : num; density : num; title : string }.

Definition DEFAULT_BASE_BATCH_SIZE : num := #5000.
Definition DEFAULT_MAX_RECOMMENDATION : num := #1000000.

Definition totalIds (analysis : MPSAnalyzeResponse) : num :=
  if range_size analysis >! #0 then range_size analysis else end_id analysis ⊖ start_id analysis ⊕ #1.

Definition nothing_left : AdaptiveBatchRecommendation :=
  {| batch := #0; density := #0; title := "No candidates remain in the selected range." |}.

(** The options with their defaults. *)
Record settings := { base : num; most : num; by_missing : bool; routes : num }.
Definition settings_of (options : option AdaptiveBatchOptions) : settings := {|
  base := (options ?> baseBatchSize) ?? DEFAULT_BASE_BATCH_SIZE;
  most := (options ?> maxRecommendation) ?? DEFAULT_MAX_RECOMMENDATION;
  by_missing := (options ?> includeMissingIds) ?? true;
  routes := (options ?> opt_routes) ?? #1 |}.

(** The share that counts, with its name. *)
Definition counted_density (analysis : MPSAnalyzeResponse) (s : settings) : num * string :=
  if by_missing s && (missing_count analysis >! #0) then (missing_count analysis ⊘ totalIds analysis, "missing-ID")
  else if candidate_count analysis >! #0 then (candidate_count analysis ⊘ totalIds analysis, "candidate")
  else (#0, "missing-ID").

Definition clampedDensity (d : num) : num := math_min #1 (math_max #0 d).
Definition routeMultiplier (s : settings) : num := math_max #1 (routes s).
Definition effectiveBase (s : settings) : num := base s ⊗ routeMultiplier s.
Definition effectiveMax (s : settings) : num := most s ⊗ routeMultiplier s.

Definition batch_for (s : settings) (d : num) : num :=
  math_max (effectiveBase s) (math_min (effectiveMax s) (math_ceil (effectiveBase s ⊘ clampedDensity d))).

Definition formattedPercent (percent : num) : string :=
  to_fixed (if percent <! #1 ⊘ #100 then 3 else if percent <! #1 then 2 else 1) percent.

Definition calculateAdaptiveBatchSize `{Env} (analysis : option MPSAnalyzeResponse) (options : option AdaptiveBatchOptions)
    : option AdaptiveBatchRecommendation :=
  match analysis with
  | None => None
  | Some a =>
      if totalIds a <=! #0 then None
      else if candidate_count a <=! #0 then Some nothing_left
      else
        let s := settings_of options in
        let '(d, densityLabel) := counted_density a s in
        if d <=! #0 then Some nothing_left
        else
          let routeLabel := if routeMultiplier s >! #1 then " × " +:+ number_toLocaleString (routeMultiplier s) +:+ " routes" else EmptyString in
          Some {| batch := batch_for s d; density := clampedDensity d;
                  title := "Use adaptive batch size (" +:+ formattedPercent (clampedDensity d ⊗ #100) +:+ "% " +:+ densityLabel +:+ " density"
                           +:+ routeLabel +:+ " = " +:+ number_toLocaleString (batch_for s d) +:+ " profiles)" |}
  end.

(** * What the recommendation promises *)

(** Between [lo] and [hi], whatever is clamped. *)
Lemma outer_clamp lo hi x : (lo <=! hi) = true -> real x ->
  (lo <=! math_max lo (math_min hi x)) = true /\ (math_max lo (math_min hi x) <=! hi) = true.
Proof.
  intros Hle Hx. destruct (num_leb_real _ _ Hle) as [Hlo Hhi]. assert (Hm : real (math_min hi x)) by by apply math_min_real.
  split; [by apply math_max_ge_l|]. destruct (math_max_cases lo (math_min hi x)) as [->| ->]; [done..|]. by apply math_min_le_l.
Qed.

Lemma real_clamped d : real d -> real (clampedDensity d).
Proof. intros H. by apply math_min_real, math_max_real. Qed.

Lemma clamped_positive d : (d >! #0) = true -> (clampedDensity d >! #0) = true /\ (clampedDensity d <=! #1) = true.
Proof.
  intros Hd. destruct (num_ltb_real _ _ Hd) as [_ Hr]. unfold clampedDensity.
  assert (Hm : math_max #0 d = d).
  { destruct (math_max_cases #0 d) as [E|E]; [done|done| |done]. unfold math_max in E. unfold num_ltb in Hd.
    destruct (SFcompare #0 d) as [[]|] eqn:C; try done. unfold math_max. by rewrite C. }
  rewrite Hm. split; [|by apply math_min_le_l]. destruct (math_min_cases #1 d) as [->| ->]; done.
Qed.

Lemma not_leb_ltb x : real x -> (x <=! #0) = false -> (x >! #0) = true.
Proof.
  intros Hr H. unfold num_leb, num_ltb in *. destruct (cmp_real x #0) as [c E]; [done|done|]. rewrite (cmp_swap x #0), E in *.
  by destruct c.
Qed.

Lemma real_quotient a b : is_finite a = true -> real b -> (b >! #0) = true -> real (a ⊘ b).
Proof. intros Ha Hb Hp. apply real_div; [done|done|by apply pos_truthy]. Qed.

(** C32. A recommendation is either nothing to do, or between the base and the maximum
    for the routes, for a density above zero and at most one; and there is one whenever
    the range is not empty. *)
Theorem recommendation_within_bounds `{Env} a options :
  let s := settings_of options in
  is_finite (missing_count a) = true -> is_finite (candidate_count a) = true -> is_finite (totalIds a) = true ->
  (totalIds a >! #0) = true -> is_finite (effectiveBase s) = true -> (effectiveBase s <=! effectiveMax s) = true ->
  exists r, calculateAdaptiveBatchSize (Some a) options = Some r /\
    (r = nothing_left \/
     (effectiveBase s <=! batch r) = true /\ (batch r <=! effectiveMax s) = true /\
     (density r >! #0) = true /\ (density r <=! #1) = true).
Proof.
  intros s Hm Hc Ht Htp Hb Hle. unfold calculateAdaptiveBatchSize. fold s.
  assert (Ht0 : (totalIds a <=! #0) = false).
  { unfold num_ltb, num_leb in *. rewrite (cmp_swap #0 (totalIds a)). by destruct (SFcompare #0 (totalIds a)) as [[]|]. }
  rewrite Ht0. destruct (candidate_count a <=! #0); [by eexists; split; [|left]|].
  assert (Hrt : real (totalIds a)) by by destruct (num_ltb_real _ _ Htp).
  assert (Hd : real (counted_density a s).1).
  { unfold counted_density. destruct (by_missing s && (missing_count a >! #0)); [by apply real_quotient|]. destruct (candidate_count a >! #0); [by apply real_quotient|done]. }
  destruct (counted_density a s) as [d name]. simpl in Hd. destruct (d <=! #0) eqn:Ed; [by eexists; split; [|left]|].
  eexists. split; [reflexivity|]. right. simpl. pose proof (not_leb_ltb d Hd Ed) as Hp. destruct (clamped_positive d Hp) as [C1 C2].
  assert (Hx : real (math_ceil (effectiveBase s ⊘ clampedDensity d))) by (by apply real_ceil, real_quotient; [|apply real_clamped|]).
  destruct (outer_clamp (effectiveBase s) (effectiveMax s) _ Hle Hx) as [B1 B2]. done.
Qed.

Definition demo_analysis (missing : Z) : MPSAnalyzeResponse :=
  {| start_id := #1; end_id := #1000; range_size := #1000; missing_count := #missing; candidate_count := #missing |}.

Definition with_routes (n : Z) : option AdaptiveBatchOptions :=
  Some {| baseBatchSize := None; maxRecommendation := None; includeMissingIds := None; opt_routes := Some #n |}.

(** The examples of the source: 100%, 50%, 25%, 10% and 1% missing on one route, 50% on
    ten. *)
Example listed_batches :
  map (fun m => batch <$> @calculateAdaptiveBatchSize utc_env (Some (demo_analysis m)) None) [1000; 500; 250; 100; 10]
    = [Some #5000; Some #10000; Some #20000; Some #50000; Some #500000] /\
  batch <$> @calculateAdaptiveBatchSize utc_env (Some (demo_analysis 500)) (with_routes 10) = Some #100000.
Proof. split; vm_compute; reflexivity. Qed.

Lemma recommendation_within_bounds_witness :
  exists r, @calculateAdaptiveBatchSize utc_env (Some (demo_analysis 500)) (with_routes 10) = Some r /\
    (r = nothing_left \/
     (#50000 <=! batch r) = true /\ (batch r <=! #10000000) = true /\ (density r >! #0) = true /\ (density r <=! #1) = true).
Proof.
  refine (@recommendation_within_bounds utc_env (demo_analysis 500) (with_routes 10) _ _ _ _ _ _); vm_compute; reflexivity.
Defined.
